(* ===== verification/_CoqProject ===== *)
-Q . S2P
Prelude.v
Text.v
Memory.v
LibMem.v
LibStr.v
Video.v
State.v
Runs.v
Console.v
Format.v
Idt.v
Machine.v
Pic.v
Rtc.v
Process.v
FileSystem.v
Terminal.v
Keyboard.v
Paging.v
SysCalls.v
Command.v
Exec.v
Halt.v
Schedule.v
Boot.v
Start.v
UserLib.v
UserRun.v
UserFiles.v
Programs.v
UserKeep.v
UserPage.v
UserClock.v
UserLine.v
UserExample.v
Cat.v
Ls.v
Shell.v
GrepMem.v
Grep.v
GrepMain.v
Counter.v
Pingpong.v
SysErr.v
KeySafe.v
Entries.v
SysEntry.v
Ring.v
Blink.v
BlinkSpec.v
Fish.v
FishRun.v
FishFrames.v
FishMain.v
Emulate.v
EmulateSpec.v
