(* ===== verification/Prelude.v ===== *)
(** * A verification development of the 00P5-OS kernel

    00P5-OS is a small 32-bit x86 kernel: a text console, three terminals, a
    keyboard, a clock, an interrupt controller, a read-only file system, paging
    and eight system calls through which user programs open files, print and
    start one another.  This library models the C code of the kernel
    (src/student-distrib), the assembly that enters and leaves it, and its
    programs (src/syscalls, src/fish) and proves what each part does.

    ** The state and the outcomes

    [State.kernel] is the machine: one record per C file that owns globals
    (the cursor of lib.c, the terminals, the keyboard flags, the masks of the
    interrupt controller, the process slots, the page tables, the stack
    pointers and the interrupt flag) and one byte memory.  What the code
    reaches through pointers lives in the memory ([Memory]): the video page,
    the image of the file system, the process blocks at the bottom of the
    kernel stacks, the keyboard buffers, user buffers and the locals whose
    address is taken.  Addresses below 128 MB are physical; the 4 MB page at
    128 MB is where entry 32 of the page directory said at the last TLB flush
    ([upage], [Paging.flush_tlb]).  Machine integers are [Z] with the
    conversions [u8], [u16], [u32], [s8] and [s32] at every place where C
    wraps or changes the sign.  Where linker and compiler place the globals and locals is
    the class [Layout]; [LayoutOK] says they are in the kernel and apart.
    Below [kernel] is the processor ([Machine.machine]): registers, segments and
    flags, on which the kernel's assembly runs instruction by instruction.
    Devices are not modelled: a port presents a byte chosen by the state, the
    bytes written are logged, and a theorem holds whatever a device answers.

    A call is a function of type [kernel → outcome A]: it returns ([Ret]), spins
    in a wait loop ([Block]), enters user mode ([EnterUser]), jumps to a saved
    kernel stack ([Resume]), calls through a bad pointer ([Crash]) or loops for
    ever ([Diverge]).  C loops on a counter are [for_up]; the others are
    [while_loop], an iteration of 2^32 + 1 steps, proved to end by [while_loop_rule]
    (an invariant with a bounded variant) or [while_loop_steps]; theorems
    state the value returned, so they include that the loop ends.

    A program of the repository runs in the same machine: its variables and
    literals are in the program page and a system call is a call of
    [system_call] ([UserLib]).  What a program may rely on is [user_ok], and
    what a call leaves as it was is a relation between two machines ([steps],
    [as_before]); total correctness of a call is [runs].

    ** The files

    The kernel:
    - [Prelude]: machine integers, loops, bytes of strings, tactics and hints.
    - [Text]: the rows of a text, and what a search for a pattern prints.
    - [Memory]: the byte memory, segments, and effects ([writes], [changes]).
    - [LibMem] (lib.c): memcpy, memset, memmove as their assembly runs.
    - [LibStr] (lib.c): strlen, strncmp, strcpy, strncpy, strrev, itoa.
    - [Video]: the cells of a text page, cleared and scrolled.
    - [State]: the kernel state, outcomes, ports, the layout; [Runs]: loops
      whose body calls the kernel, and the rules of total correctness.
    - [Console] (lib.c): putc and its handlers, puts, printf; [Format]: what
      printf's number conversions print.
    - [Pic] (i8259.c), [Rtc] (rtc.c): interrupt controller, clock.
    - [Idt] (idt_init.c, x86_desc.h): the interrupt table, the exceptions.
    - [Process] (systemcalls.c): the process block and its descriptors.
    - [FileSystem] (filesystem.c): the image, files and the directory.
    - [Terminal] (terminal.c, save_and_switch_term): the driver, the
      background console, switching.
    - [Keyboard] (keyboard.c): scan codes, the interrupt handler.
    - [Paging] (paging.c): the tables built at boot and the page walk.
    - [SysCalls] (systemcalls.c, handlers.S): open, close, read, write,
      getargs, vidmap, parse, check_valid, execute, halt and the dispatch.
    - [Command], [Exec], [Halt]: what parse, check_valid, execute and halt do.
    - [Schedule] (schedule.c, pit.c): the three shells and the round robin.
    - [Boot] (kernel.c, multiboot.h, x86_desc.h): the entry of the kernel.
    - [KeySafe]: the interrupts of keyboard and clock in any order.
    - [Machine] (x86_desc.S): the processor, interrupt delivery and iret.
    - [Start] (boot.S): from the boot loader to [entry].
    - [Entries], [SysEntry], [Ring] (handlers.S): the entries of interrupts and
      of system calls, the way into user mode and back by [halt].

    The programs:
    - [UserLib] (ece391support.c, ece391syscall.S): strings, the wrappers.
    - [UserRun], [UserFiles], [UserLine], [UserKeep]: the calls seen from a
      program; writes, files, the typed line, what stays as it was.
    - [UserPage], [UserClock]: stores of a program in its page; a program that
      waits for the clock.
    - [Programs] (ece391shell.c, cat, ls, grep, hello, counter, testprint) and
      what they do: [Cat], [Ls], [Shell], [Counter], and for grep
      [GrepMem] (its buffer), [Grep] (a file), [GrepMain] (the directory);
      [Pingpong] (ece391pingpong.c).
    - [SysErr] (ece391syserr.c): the eight tests of the error behaviour.
    - [Blink] (fish/blink.S and the memory functions of fish.c): the list of
      blinking characters in memory; [BlinkSpec]: the display it implements.
    - [Fish] (fish/fish.c); what it does: [FishRun] (between two requests),
      [FishFrames] (the loops over the pictures), [FishMain] (start to end).
    - [Emulate] (ece391emulate.c): the calls of a program that runs on Linux;
      [EmulateSpec]: the words of a command, the arguments, a directory.
    - [UserExample]: a machine that runs a program, for the witnesses.

    ** The theorems

    The library routines are byte copies, fills and conversions whatever way
    they are coded ([memcpy_correct], [memmove_correct], [memset_correct],
    [strncmp_correct], [strncpy_correct], [itoa_correct]).  The console
    implements an abstract screen, a list of 2000 characters and a cursor
    ([putc_refines], [putc_frame]); [printf] prints the text its format and
    arguments denote ([printf_correct]).  A
    file is the list of bytes its index node gives ([file_byte]); [read_data],
    [file_read], [directory_read] and the descriptor calls deliver exactly
    those ([open_read_file] composes them), errors included
    ([descriptor_errors], [execute_fails]).  Terminals keep their screens when
    switched and when others print ([save_and_switch_term_correct],
    [background_write_isolated]); a typed line arrives at [terminal_read]
    ([type_line]).  [execute] builds a process ([execute_correct]), [halt] ends
    it ([halt_correct]), and one undoes the other ([execute_halt]).

    The machine from power on: [start] enters [entry], which initialises every
    device and waits for the timer, or refuses what the boot loader gave
    ([start_boots]); the table of interrupts holds the handlers
    ([initialize_idt_correct]); the first ticks start the three shells
    ([boot_tick]), the later ones give each terminal its turn: an interrupted
    program goes on with the registers it had when its turn comes again
    ([three_interrupts]).  Whatever keys are pressed between the ticks of the
    clock, the cursor and the line stay in bounds ([interrupts_safe]), the arrow
    keys left and right apart ([arrow_escapes]), and the interrupted program
    does not notice ([interrupts_transparent]).  The entry of system calls hands
    registers to the C functions and their results back
    ([system_call_answered]); go_to_ring_three and ret_from_execute do what the
    models of [execute] and [halt] say of them ([ring_three_refines],
    [halt_answers_parent]).

    Programs on the kernel: cat prints its file ([cat_correct]), ls the names
    of the directory ([ls_correct]), grep the lines that hold its pattern
    whatever pieces the files are read in ([grep_correct]), the shell starts
    what is typed ([shell_turn]), counter prints its numbers
    ([counter_correct]), the error tests all pass ([syserr_correct]). The list
    of blink.S refines a list of records with a display ([blink_refines]): an
    invariant of the linked list that every operation keeps, for any sequence
    of operations; the display fish leaves is that of the requests it makes
    ([fish_correct]). pingpong goes on for ever ([pingpong_plays]).  On Linux a
    program is started with the words of its command ([execute_starts]), gets
    the arguments it would get from the kernel ([emulation_arguments]) and reads
    the names of a directory ([read_entry_correct]).

    Some theorems state a defect of the code as it is: [enable_irq_line],
    [read_data_wraps], [background_column_overrun], [arrow_escapes],
    [corner_twice_hangs], [undefined_interrupt_returns].

    ** Bounds

    The iteration bound of a [while] loop exceeds every number of addresses;
    a theorem about a loop gives its result, so the bound is never what ends
    it.  Counters, sizes of tables and of buffers are those of the code: 2000
    cells, 128 characters of a line, 8 descriptors, 6 processes, 63 directory
    entries, 2000 blinking characters.  A routine of the assembly is run with 64
    steps; none has a loop but the one around hlt, where the run stops.

    ** Not modelled

    lidt, lldt and ltr are stores into the state; the table lgdt loads is the
    only one.  The C functions the assembly calls leave registers other than the
    result with unknown contents ([scratch]) and use an unknown part of the
    stack ([depth]).  The test drivers of the kernel (tests.c), all of whose
    calls are commented out, and test_interrupts of lib.c, which nothing calls.
    Linux itself is a class of the calls ece391emulate.c makes ([Linux]), its
    fork never fails.  Signals:
    set_handler and sigreturn are numbers this kernel refuses, and
    ece391sigtest.c, which tests them by a store through a null pointer, is
    left out.  The processor
    caches no other translation than that of the program page, and the page
    that vidmap gives a program is a segment of the memory of its own, at its
    virtual address: that it is the video page is a fact of the page tables
    ([Paging]).  A wait for the clock is an outcome, [Block], and a program that
    waits is the call, the interrupt and the rest of the call ([rtc_tick]).
    Other interrupts between two steps of a call are not modelled, a
    handler runs as a call of its own. *)

From stdpp Require Export base tactics gmap strings list fin_maps numbers.
From Stdlib Require Export ZArith Lia.
#[export] Set Default Goal Selector "!".

#[global] Open Scope Z_scope.

(** ** Machine integers

    A C integer of width [w] is a [Z]; every operation that may leave the
    range of its type is wrapped by one of the conversions below. *)

Definition u8 (x : Z) : Z := x mod 256.
Definition u16 (x : Z) : Z := x mod 65536.
Definition u32 (x : Z) : Z := x mod 4294967296.
Definition s8 (x : Z) : Z := let y := u8 x in if y <? 128 then y else y - 256.
Definition s32 (x : Z) : Z :=
  let y := u32 x in if y <? 2147483648 then y else y - 4294967296.

Lemma u8_range x : 0 <= u8 x < 256.
Proof. unfold u8. apply Z.mod_pos_bound. lia. Qed.

Lemma u16_range x : 0 <= u16 x < 65536.
Proof. unfold u16. apply Z.mod_pos_bound. lia. Qed.

Lemma u32_range x : 0 <= u32 x < 4294967296.
Proof. unfold u32. apply Z.mod_pos_bound. lia. Qed.

Lemma s32_range x : -2147483648 <= s32 x < 2147483648.
Proof. unfold s32. pose proof (u32_range x). case_match; lia. Qed.

Lemma s8_range x : -128 <= s8 x < 128.
Proof. unfold s8. pose proof (u8_range x). case_match; lia. Qed.

Lemma u8_small x : 0 <= x < 256 → u8 x = x.
Proof. apply Z.mod_small. Qed.

Lemma u16_small x : 0 <= x < 65536 → u16 x = x.
Proof. apply Z.mod_small. Qed.

Lemma u32_small x : 0 <= x < 4294967296 → u32 x = x.
Proof. apply Z.mod_small. Qed.

Lemma s32_small x : -2147483648 <= x < 2147483648 → s32 x = x.
Proof.
  intros H. unfold s32, u32.
  destruct (decide (0 <= x)).
  - rewrite Z.mod_small by lia. case_match; lia.
  - rewrite <- (Z.mod_add x 1), Z.mul_1_l by lia.
    rewrite Z.mod_small by lia. case_match; lia.
Qed.

Lemma s8_small x : -128 <= x < 128 → s8 x = x.
Proof.
  intros H. unfold s8, u8.
  destruct (decide (0 <= x)).
  - rewrite Z.mod_small by lia. case_match; lia.
  - rewrite <- (Z.mod_add x 1), Z.mul_1_l by lia.
    rewrite Z.mod_small by lia. case_match; lia.
Qed.

Lemma u8_idemp x : u8 (u8 x) = u8 x.
Proof. apply u8_small, u8_range. Qed.

Lemma u32_idemp x : u32 (u32 x) = u32 x.
Proof. apply u32_small, u32_range. Qed.

Lemma u32_s32 x : u32 (s32 x) = u32 x.
Proof.
  unfold s32. pose proof (u32_range x).
  case_match; [by apply u32_idemp|].
  unfold u32 at 1. rewrite <- (Z.mod_add _ 1), Z.mul_1_l by lia.
  rewrite Z.mod_small by lia. lia.
Qed.

Lemma s32_u32 x : s32 (u32 x) = s32 x.
Proof. unfold s32. by rewrite u32_idemp. Qed.

Lemma u8_s8 x : u8 (s8 x) = u8 x.
Proof.
  unfold s8. pose proof (u8_range x).
  case_match; [by apply u8_idemp|].
  unfold u8 at 1. rewrite <- (Z.mod_add _ 1), Z.mul_1_l by lia.
  rewrite Z.mod_small by lia. lia.
Qed.

Lemma s8_inj x y : s8 x = s8 y → u8 x = u8 y.
Proof. intros H. by rewrite <- (u8_s8 x), <- (u8_s8 y), H. Qed.

Lemma u32_add_l x y : u32 (u32 x + y) = u32 (x + y).
Proof. unfold u32. by rewrite Z.add_mod_idemp_l by lia. Qed.

Lemma u32_add_r x y : u32 (x + u32 y) = u32 (x + y).
Proof. unfold u32. by rewrite Z.add_mod_idemp_r by lia. Qed.

(** Clearing the low [k] bits of a word. *)
Lemma mask_high k x :
  0 <= k <= 32 → 0 <= x < 4294967296 → Z.land x (Z.shiftl (Z.ones (32 - k)) k) = x / 2 ^ k * 2 ^ k.
Proof.
  intros Hk Hx. rewrite <- Z.shiftr_div_pow2, <- Z.shiftl_mul_pow2 by lia.
  apply Z.bits_inj'. intros n Hn. rewrite Z.land_spec, !Z.shiftl_spec by lia.
  destruct (Z.ltb_spec n k).
  - rewrite !(Z.testbit_neg_r _ (n - k)) by lia. apply andb_false_r.
  - rewrite Z.shiftr_spec by lia. replace (n - k + k) with n by lia.
    rewrite Z.testbit_ones_nonneg by lia. destruct (Z.ltb_spec (n - k) (32 - k)); [apply andb_true_r|].
    rewrite andb_false_r. symmetry. destruct (decide (x = 0)) as [->|]; [apply Z.bits_0|].
    apply Z.bits_above_log2; [lia|]. pose proof (Z.log2_lt_pow2 x 32 ltac:(lia)). lia.
Qed.

Create HintDb wrap discriminated.
Create Rewrite HintDb wrap.

#[export] Hint Resolve u8_range u16_range u32_range s32_range s8_range : wrap.
#[export] Hint Rewrite u8_idemp u32_idemp u32_s32 s32_u32 u8_s8 u32_add_l u32_add_r : wrap.

(** [wrap_small] removes the conversions whose argument is in range. *)
Ltac wrap_small :=
  repeat first
    [ rewrite u32_small by lia | rewrite s32_small by lia
    | rewrite u8_small by lia | rewrite s8_small by lia
    | rewrite u16_small by lia ].

(** [bcase] splits on the boolean comparisons of integers of the goal and
    turns each into the arithmetic fact it decides. *)
Ltac bcase_one :=
  match goal with
  | |- context [ Z.eqb ?a ?b ] => destruct (Z.eqb_spec a b)
  | |- context [ Z.ltb ?a ?b ] => destruct (Z.ltb_spec a b)
  | |- context [ Z.leb ?a ?b ] => destruct (Z.leb_spec a b)
  end.
Ltac bcase := repeat (bcase_one; cbn [andb orb negb]; try lia).

(** The range test of the effects. *)
Lemma in_rangeP a b p : reflect (a <= p < b) ((a <=? p) && (p <? b)).
Proof. apply iff_reflect. rewrite andb_true_iff, Z.leb_le, Z.ltb_lt. tauto. Qed.

(** A decidable fact about a byte can be checked on the 256 bytes. *)
Lemma forall_byte (P : Z → bool) :
  forallb P (seqZ 0 256) = true → ∀ b, 0 <= b < 256 → P b = true.
Proof.
  intros H b Hb. rewrite forallb_forall in H. apply H.
  apply list_elem_of_In, elem_of_seqZ. lia.
Qed.

(** ** Arrays

    A C array is a total map from indices to values: [a !!! i] reads and
    [<[i := v]> a] writes.  An index outside the array's bounds names a cell
    of the map like any other one, whose contents are arbitrary: a theorem
    that does not bound an index says nothing of what is found there. *)

Abbreviation arr A := (gmap Z A).
#[export] Instance Z_inhabited : Inhabited Z := populate 0.

(** ** Loops *)

(** [for_up n i f s] is [for (; n > 0; n--, i++) s = f(i, s)]. *)
Fixpoint for_up {S} (n : nat) (i : Z) (f : Z → S → S) (s : S) : S :=
  match n with
  | O => s
  | Datatypes.S k => for_up k (i + 1) f (f i s)
  end.

(** Invariant rule for [for_up]. *)
Lemma for_up_ind {S} (P : Z → S → Prop) (f : Z → S → S) n i s :
  P i s →
  (∀ j t, i <= j < i + Z.of_nat n → P j t → P (j + 1) (f j t)) →
  P (i + Z.of_nat n) (for_up n i f s).
Proof.
  revert i s. induction n as [|n IH]; intros i s H0 Hstep; cbn [for_up].
  - by rewrite Z.add_0_r.
  - replace (i + Z.of_nat (Datatypes.S n)) with ((i + 1) + Z.of_nat n) by lia.
    apply IH.
    + apply Hstep; [lia|done].
    + intros j t Hj. apply Hstep. lia.
Qed.

(** A [while] loop is a step function that either goes on with a new state or
    leaves with a result.  [pos_iter] makes at most [p] steps; it recurses on
    the binary representation of [p] and stops as soon as the loop does, so a
    large bound costs nothing. *)
Fixpoint pos_iter {S R} (step : S → S + R) (p : positive) (s : S) : S + R :=
  match p with
  | xH => step s
  | xO q => match pos_iter step q s with inl t => pos_iter step q t | inr r => inr r end
  | xI q => match step s with
            | inl t => match pos_iter step q t with
                       | inl t' => pos_iter step q t' | inr r => inr r end
            | inr r => inr r
            end
  end.

(** [n] steps, in unary, as the reference. *)
Fixpoint nat_iter {S R} (step : S → S + R) (n : nat) (s : S) : S + R :=
  match n with
  | O => inl s
  | Datatypes.S k => match step s with inl t => nat_iter step k t | inr r => inr r end
  end.

Lemma nat_iter_add {S R} (step : S → S + R) n k s :
  nat_iter step (n + k) s =
  match nat_iter step n s with inl t => nat_iter step k t | inr r => inr r end.
Proof. revert s. induction n as [|n IH]; intros s; [done|]. cbn. by destruct (step s). Qed.

Lemma pos_iter_nat {S R} (step : S → S + R) p s :
  pos_iter step p s = nat_iter step (Pos.to_nat p) s.
Proof.
  revert s. induction p as [p IH|p IH|]; intros s; cbn [pos_iter].
  - rewrite Pos2Nat.inj_xI. cbn [nat_iter]. destruct (step s) as [t|]; [|done].
    replace (2 * Pos.to_nat p)%nat with (Pos.to_nat p + Pos.to_nat p)%nat by lia.
    rewrite nat_iter_add, <- IH. by destruct (pos_iter step p t).
  - rewrite Pos2Nat.inj_xO.
    replace (2 * Pos.to_nat p)%nat with (Pos.to_nat p + Pos.to_nat p)%nat by lia.
    rewrite nat_iter_add, <- IH. by destruct (pos_iter step p s).
  - change (Pos.to_nat 1) with 1%nat. cbn. by destruct (step s).
Qed.

(** The bound of every [while] loop of the development: one more than the
    number of addresses, hence more than any scan of the memory needs. *)
Definition loop_bound : positive := 4294967297.

Definition while_loop {S R} (step : S → S + R) (s : S) : option R :=
  match pos_iter step loop_bound s with inl _ => None | inr r => Some r end.

(** The rule the components use: a variant [v] that every step decreases and
    an invariant [I], with the postcondition [Q] on leaving the loop. *)
Lemma while_loop_rule {S R} (step : S → S + R) (I : S → Prop) (v : S → Z) (Q : R → Prop) s :
  I s → 0 <= v s <= 4294967296 →
  (∀ t, I t → 0 <= v t →
        match step t with inl t' => I t' ∧ 0 <= v t' < v t | inr r => Q r end) →
  ∃ r, while_loop step s = Some r ∧ Q r.
Proof.
  intros HI Hv Hstep. unfold while_loop. rewrite pos_iter_nat.
  assert (Hlt : v s < Z.of_nat (Pos.to_nat loop_bound)).
  { rewrite positive_nat_Z. unfold loop_bound. lia. }
  assert (Hnn : 0 <= v s) by lia. clear Hv.
  revert s HI Hlt Hnn. induction (Pos.to_nat loop_bound) as [|n IH]; intros s HI Hlt Hnn; [lia|].
  cbn. specialize (Hstep s HI Hnn). destruct (step s) as [t|r]; [|by eauto].
  apply IH; [tauto|lia|lia].
Qed.

(** The same rule as a determined result. *)
Lemma nat_iter_stop {S R} (step : S → S + R) n k s t r :
  nat_iter step n s = inl t → step t = inr r → (n < k)%nat → nat_iter step k s = inr r.
Proof.
  intros Hn Ht Hlt. replace k with (n + Datatypes.S (k - n - 1))%nat by lia.
  rewrite nat_iter_add, Hn. cbn. by rewrite Ht.
Qed.

Lemma while_loop_steps {S R} (step : S → S + R) n s t r :
  nat_iter step n s = inl t → step t = inr r → Z.of_nat n <= 4294967296 →
  while_loop step s = Some r.
Proof.
  intros Hn Ht Hle. unfold while_loop.
  rewrite pos_iter_nat, (nat_iter_stop step n _ s t r Hn Ht); [done|].
  apply Nat2Z.inj_lt. rewrite positive_nat_Z. unfold loop_bound. lia.
Qed.

(** Proofs use the rules above, never the iteration itself: a bind is reduced
    by rewriting, not by conversion. *)
(** A loop that never leaves. *)
Lemma while_loop_endless {S R} (step : S → S + R) s :
  (∀ n, ∃ t, nat_iter step n s = inl t) → while_loop step s = None.
Proof. intros H. unfold while_loop. rewrite pos_iter_nat. by destruct (H (Pos.to_nat loop_bound)) as [t ->]. Qed.

#[global] Opaque while_loop.

Lemma bind_some {A B} (x : A) (f : A → option B) : Some x ≫= f = f x.
Proof. done. Qed.

(** ** Characters and strings *)

(** A string literal of the source as the list of its bytes (without the
    terminating NUL). *)
Fixpoint bytes_of (s : string) : list Z :=
  match s with
  | EmptyString => []
  | String c s' => Z.of_N (Ascii.N_of_ascii c) :: bytes_of s'
  end.

(** A character literal. *)
Definition chr (c : Ascii.ascii) : Z := Z.of_N (Ascii.N_of_ascii c).

Lemma chr_range c : 0 <= chr c < 256.
Proof. unfold chr. pose proof (Ascii.N_ascii_bounded c). lia. Qed.

Lemma bytes_of_range s : Forall (λ b, 0 <= b < 256) (bytes_of s).
Proof.
  induction s as [|c s IH]; cbn; constructor; [apply chr_range|done].
Qed.

Definition NL : Z := 10.
Definition CR : Z := 13.
Definition TABC : Z := 9.
Definition BSP : Z := 8.
Definition SPACE : Z := 32.
