(* ===== verification/Text.v ===== *)
(** * Texts: rows, and the rows in which a pattern occurs

    The text of a file as the programs see it, a list of bytes: its rows, which
    the pictures of fish and the search of grep go by, and what grep prints. *)

From S2P Require Import Prelude.

(** A text as rows: its newlines and its end close a row. *)
Fixpoint rows_of (l : list Z) : list (list Z) :=
  match l with
  | [] => [[]]
  | c :: l' =>
    if c =? NL then [] :: rows_of l'
    else match rows_of l' with r :: rs => (c :: r) :: rs | [] => [[c]] end
  end.

Lemma rows_nonempty l : rows_of l ≠ [].
Proof. destruct l as [|c l]; cbn; [done|]. destruct (c =? NL); [done|]. by destruct (rows_of l). Qed.

Lemma rows_no_newline l : Forall (Forall (λ c, c ≠ NL)) (rows_of l).
Proof.
  induction l as [|c l IH]; cbn; [by repeat constructor|]. destruct (Z.eqb_spec c NL); [by constructor|].
  destruct (rows_of l) as [|r rs]; [by repeat constructor|]. inversion_clear IH. by repeat constructor.
Qed.

(** The last row of a text may go on. *)
Lemma rows_app l1 l2 done row : rows_of l1 = done ++ [row] → rows_of (l1 ++ l2) = done ++ rows_of (row ++ l2).
Proof.
  revert done row. induction l1 as [|c l1 IH]; intros done row H; cbn [rows_of app] in *.
  - destruct done as [|d done]; [|by destruct done]. by injection H as <-.
  - destruct (Z.eqb_spec c NL) as [->|Hc].
    + destruct done as [|d done].
      * injection H as _ H. by apply rows_nonempty in H.
      * injection H as <- H. cbn [app]. f_equal. by apply IH.
    + destruct (rows_of l1) as [|r rs] eqn:E; [by apply rows_nonempty in E|].
      destruct done as [|d done].
      * injection H as <- ->. specialize (IH [] r eq_refl). cbn [app] in IH |- *. rewrite IH. cbn [rows_of].
        apply Z.eqb_neq in Hc. rewrite Hc. by destruct (rows_of (r ++ l2)) eqn:E2; [apply rows_nonempty in E2|].
      * injection H as <- ->. specialize (IH (r :: done) row eq_refl). rewrite IH. done.
Qed.

Lemma rows_last l : ∃ done row, rows_of l = done ++ [row].
Proof.
  pose proof (rows_nonempty l) as H. destruct (rows_of l) as [|r rs] using rev_ind; [done|]. by exists rs, r.
Qed.

(** A row and what follows it. *)
Lemma rows_cons row l : Forall (λ c, c ≠ NL) row → rows_of (row ++ NL :: l) = row :: rows_of l.
Proof.
  induction 1 as [|c row Hc _ IH]; [done|]. cbn [app rows_of]. apply Z.eqb_neq in Hc. by rewrite Hc, IH.
Qed.

Lemma rows_single row : Forall (λ c, c ≠ NL) row → rows_of row = [row].
Proof. induction 1 as [|c row Hc _ IH]; [done|]. cbn [rows_of]. apply Z.eqb_neq in Hc. by rewrite Hc, IH. Qed.

(** The first row of a text. *)
Lemma first_row l :
  ∃ row, Forall (λ c, c ≠ NL) row ∧ ((l = row ∧ rows_of l = [row]) ∨ ∃ l', l = row ++ NL :: l' ∧ rows_of l = row :: rows_of l').
Proof.
  induction l as [|c l (row & Hr & IH)].
  - exists []. split; [done|]. by left.
  - destruct (Z.eq_dec c NL) as [->|Hc].
    + exists []. split; [done|]. right. by exists l.
    + exists (c :: row). split; [by constructor|]. destruct IH as [[-> _]|(l' & -> & _)].
      * left. split; [done|]. apply rows_single. by constructor.
      * right. exists l'. split; [done|]. apply (rows_cons (c :: row)). by constructor.
Qed.

(** Every row of a text that follows a row of it. *)
Lemma rows_forall (P : list Z → Prop) l1 l2 done row :
  rows_of l1 = done ++ [row] → Forall P (rows_of (l1 ++ l2)) → Forall P (rows_of (row ++ l2)).
Proof. intros H. rewrite (rows_app _ _ _ _ H). by intros [_ ?]%Forall_app. Qed.

Lemma row_length l1 l2 row : rows_of l1 = [row] → ∃ r rs, rows_of (l1 ++ l2) = r :: rs ∧ (length row <= length r)%nat.
Proof.
  intros H. rewrite (rows_app l1 l2 [] row H). cbn [app].
  assert (Hn : Forall (λ c, c ≠ NL) row).
  { pose proof (rows_no_newline l1) as Hf. rewrite H in Hf. by inversion_clear Hf. }
  clear H. induction Hn as [|c row Hc _ IH]; cbn [app rows_of length].
  - destruct (rows_of l2) as [|r rs] eqn:E; [by apply rows_nonempty in E|]. exists r, rs. split; [done|lia].
  - apply Z.eqb_neq in Hc. rewrite Hc. destruct IH as (r & rs & -> & Hl). exists (c :: r), rs. split; [done|cbn; lia].
Qed.

(** ** The search *)

(** [p] occurs in the row [l]. *)
Fixpoint occurs (p l : list Z) : bool :=
  match l with
  | [] => false
  | _ :: l' => bool_decide (p `prefix_of` l) || occurs p l'
  end.

(** What grep prints for a row of the file [name]. *)
Definition grep_row (p name row : list Z) : list Z :=
  if occurs p row then name ++ [58] ++ row ++ [NL] else [].

Definition grep_rows (p name : list Z) (rows : list (list Z)) : list Z := mjoin (grep_row p name <$> rows).

Lemma grep_rows_app p name xs ys : grep_rows p name (xs ++ ys) = grep_rows p name xs ++ grep_rows p name ys.
Proof. unfold grep_rows. by rewrite fmap_app, join_app. Qed.

Lemma grep_rows_one p name x : grep_rows p name [x] = grep_row p name x.
Proof. unfold grep_rows. cbn. by rewrite app_nil_r. Qed.

(** What is printed for a text in two parts, when the first ends a row or is
    all there is. *)
Lemma grep_rows_split p name l1 l2 :
  l2 = [] ∨ (∃ done, rows_of l1 = done ++ [[]]) →
  grep_rows p name (rows_of (l1 ++ l2)) = grep_rows p name (rows_of l1) ++ grep_rows p name (rows_of l2).
Proof.
  intros [->|[done H]].
  - rewrite app_nil_r. change (grep_rows p name (rows_of [])) with (@nil Z). by rewrite app_nil_r.
  - rewrite (rows_app _ _ _ _ H), H, !grep_rows_app. cbn [app].
    change (grep_rows p name [[]]) with (@nil Z). by rewrite app_nil_r.
Qed.

Lemma rows_one_text l row : rows_of l = [row] → l = row.
Proof.
  intros H. destruct (first_row l) as (r & _ & [[-> E]|(l' & _ & E)]); rewrite H in E.
  - by injection E.
  - injection E as _ E. symmetry in E. by apply rows_nonempty in E.
Qed.
