(* ===== verification/Memory.v ===== *)
(** * Byte memory

    The memory the kernel sees: physical RAM, addressed through the program
    page.  The kernel maps the addresses below 128 MB one to one (see
    [Paging.v]); the 4 MB page at 128 MB is mapped to the page of the running
    process by page-directory entry 32, and [upage] is the physical base the
    TLB holds for it.  Words are little endian. *)

From S2P Require Import Prelude.

Definition PROGRAM_PAGE : Z := 0x8000000.
Definition PROGRAM_PAGE_END : Z := 0x8400000.

Record memory := mkMem {
  ram : gmap Z Z;       (* physical bytes *)
  upage : Z;            (* physical base of the page at 128 MB *)
}.

(** Address of a C pointer value in physical RAM. *)
Definition phys (m : memory) (a : Z) : Z :=
  let v := u32 a in
  if (PROGRAM_PAGE <=? v) && (v <? PROGRAM_PAGE_END)
  then upage m + (v - PROGRAM_PAGE) else v.

Definition peek (m : memory) (p : Z) : Z := u8 (ram m !!! p).
Definition poke (m : memory) (p v : Z) : memory := mkMem (<[p := u8 v]> (ram m)) (upage m).

Definition ld8 (m : memory) (a : Z) : Z := peek m (phys m a).
Definition st8 (m : memory) (a v : Z) : memory := poke m (phys m a) v.

Definition ld32 (m : memory) (a : Z) : Z :=
  ld8 m a + 256 * ld8 m (a + 1) + 65536 * ld8 m (a + 2) + 16777216 * ld8 m (a + 3).

Definition st32 (m : memory) (a v : Z) : memory :=
  st8 (st8 (st8 (st8 m a v) (a + 1) (v / 256)) (a + 2) (v / 65536)) (a + 3) (v / 16777216).

Definition st16 (m : memory) (a v : Z) : memory := st8 (st8 m a v) (a + 1) (v / 256).

(** [n] bytes at [a], none of them beyond the end of the identity map or of
    the program page: the accesses a C object of size [n] can make. *)
Definition seg (a n : Z) : Prop :=
  0 <= n ∧ ((0 <= a ∧ a + n <= PROGRAM_PAGE) ∨ (PROGRAM_PAGE <= a ∧ a + n <= PROGRAM_PAGE_END)).

(** Physically disjoint segments. *)
Definition apart (m : memory) (a n b k : Z) : Prop :=
  phys m a + n <= phys m b ∨ phys m b + k <= phys m a.

(** Same contents and same program page. *)
Definition mem_eq (m m' : memory) : Prop :=
  upage m' = upage m ∧ ∀ p, peek m' p = peek m p.
Infix "≡ₘ" := mem_eq (at level 70).

(** [writes m m' a n f]: going from [m] to [m'] stores [f i] at [a + i] for
    [0 <= i < n] and changes nothing else. *)
Definition writes (m m' : memory) (a n : Z) (f : Z → Z) : Prop :=
  upage m' = upage m ∧
  ∀ p, peek m' p = if (phys m a <=? p) && (p <? phys m a + n) then f (p - phys m a) else peek m p.

(** ** Bytes *)

Lemma ld8_range m a : 0 <= ld8 m a < 256.
Proof. apply u8_range. Qed.

Lemma peek_range m p : 0 <= peek m p < 256.
Proof. apply u8_range. Qed.

#[export] Hint Resolve ld8_range peek_range : wrap.

Lemma phys_poke m p v a : phys (poke m p v) a = phys m a.
Proof. done. Qed.

Lemma phys_st8 m b v a : phys (st8 m b v) a = phys m a.
Proof. done. Qed.

Lemma phys_st32 m b v a : phys (st32 m b v) a = phys m a.
Proof. done. Qed.

Lemma upage_st8 m a v : upage (st8 m a v) = upage m.
Proof. done. Qed.

Lemma phys_upage m m' a : upage m' = upage m → phys m' a = phys m a.
Proof. intros H. unfold phys. by rewrite H. Qed.

Lemma peek_poke m p v q : peek (poke m p v) q = if q =? p then u8 v else peek m q.
Proof.
  unfold peek, poke, lookup_total, map_lookup_total; cbn.
  destruct (Z.eqb_spec q p) as [->|Hne].
  - rewrite lookup_insert_eq. cbn. apply u8_idemp.
  - by rewrite lookup_insert_ne by done.
Qed.

Lemma peek_st8 m a v q : peek (st8 m a v) q = if q =? phys m a then u8 v else peek m q.
Proof. apply peek_poke. Qed.

Lemma ld8_st8 m a v b : ld8 (st8 m a v) b = if phys m b =? phys m a then u8 v else ld8 m b.
Proof. unfold ld8. by rewrite peek_st8. Qed.

Lemma ld8_st8_same m a v : ld8 (st8 m a v) a = u8 v.
Proof. by rewrite ld8_st8, Z.eqb_refl. Qed.

(** ** Segments *)

Lemma phys_kernel m a : 0 <= a < PROGRAM_PAGE → phys m a = a.
Proof.
  unfold phys, PROGRAM_PAGE. intros H. rewrite u32_small by lia.
  destruct (Z.leb_spec 134217728 a); [lia|done].
Qed.

Lemma phys_user m a : PROGRAM_PAGE <= a < PROGRAM_PAGE_END → phys m a = upage m + (a - PROGRAM_PAGE).
Proof.
  unfold phys, PROGRAM_PAGE, PROGRAM_PAGE_END. intros H. rewrite u32_small by lia.
  destruct (Z.leb_spec 134217728 a); [|lia]. by destruct (Z.ltb_spec a 138412032); [|lia].
Qed.

Lemma phys_seg m a n i : seg a n → 0 <= i < n → phys m (a + i) = phys m a + i.
Proof.
  intros [Hn [H|H]] Hi.
  - rewrite !phys_kernel by lia. done.
  - rewrite !phys_user by lia. lia.
Qed.

Lemma seg_sub a n i k : seg a n → 0 <= i → 0 <= k → i + k <= n → seg (a + i) k.
Proof. unfold seg. lia. Qed.

Lemma seg_shorter a n k : seg a n → 0 <= k <= n → seg a k.
Proof. unfold seg. lia. Qed.

Lemma seg_kernel a n : 0 <= n → 0 <= a → a + n <= PROGRAM_PAGE → seg a n.
Proof. unfold seg. auto. Qed.

Lemma apart_comm m a n b k : apart m a n b k → apart m b k a n.
Proof. unfold apart. lia. Qed.

(** ** Memory equivalence *)

#[export] Instance mem_eq_equiv : Equivalence mem_eq.
Proof.
  split.
  - by split.
  - intros m m' [H1 H2]. split; [done|]. intros p. by rewrite H2.
  - intros m m' m'' [H1 H2] [H3 H4]. split; [by rewrite H3|]. intros p. by rewrite H4.
Qed.

Lemma mem_eq_phys m m' a : m ≡ₘ m' → phys m' a = phys m a.
Proof. intros [H _]. by apply phys_upage. Qed.

#[export] Instance ld8_proper : Proper (mem_eq ==> eq ==> eq) ld8.
Proof. intros m m' H a ? <-. unfold ld8. rewrite (mem_eq_phys m m') by done. by destruct H. Qed.

#[export] Instance ld32_proper : Proper (mem_eq ==> eq ==> eq) ld32.
Proof. intros m m' H a ? <-. unfold ld32. by rewrite H. Qed.

#[export] Instance st8_proper : Proper (mem_eq ==> eq ==> eq ==> mem_eq) st8.
Proof.
  intros m m' H a ? <- v ? <-. split; [by destruct H|].
  intros p. rewrite !peek_st8, (mem_eq_phys m m') by done. by destruct H as [_ ->].
Qed.

(** ** Effects *)

Lemma writes_upage m m' a n f : writes m m' a n f → upage m' = upage m.
Proof. by intros [H _]. Qed.

Lemma writes_phys m m' a n f b : writes m m' a n f → phys m' b = phys m b.
Proof. intros [H _]. by apply phys_upage. Qed.

(** A written byte. *)
Lemma writes_at m m' a n f i :
  writes m m' a n f → seg a n → 0 <= i < n → ld8 m' (a + i) = f i.
Proof.
  intros [Hu H] Hs Hi. unfold ld8.
  rewrite (phys_upage m m') by done. rewrite H, (phys_seg m a n) by done.
  bcase. f_equal. lia.
Qed.

Lemma writes_at0 m m' a n f : writes m m' a n f → seg a n → 0 < n → ld8 m' a = f 0.
Proof. intros Hw Hs Hn. rewrite <- (Z.add_0_r a). apply (writes_at m m' a n); [done|done|lia]. Qed.

(** A byte elsewhere. *)
Lemma writes_frame m m' a n f b :
  writes m m' a n f → ¬ (phys m a <= phys m b < phys m a + n) → ld8 m' b = ld8 m b.
Proof.
  intros [Hu H] Hb. unfold ld8.
  rewrite (phys_upage m m') by done. rewrite H. by bcase.
Qed.

(** A byte of a disjoint segment. *)
Lemma writes_apart m m' a n f b k i :
  writes m m' a n f → apart m a n b k → seg b k → 0 <= i < k → ld8 m' (b + i) = ld8 m (b + i).
Proof.
  intros Hw Ha Hs Hi. apply (writes_frame m m' a n f); [done|].
  rewrite (phys_seg m b k) by done. unfold apart in Ha. lia.
Qed.

Lemma writes_apart0 m m' a n f b k :
  writes m m' a n f → apart m a n b k → seg b k → 0 < k → ld8 m' b = ld8 m b.
Proof.
  intros Hw Ha Hs Hk. rewrite <- (Z.add_0_r b). apply (writes_apart m m' a n f b k); [done..|lia].
Qed.

Lemma writes_nil m a f : writes m m a 0 f.
Proof. split; [done|]. intros p. by bcase. Qed.

Lemma writes_ext m m' a n f g :
  (∀ i, 0 <= i < n → f i = g i) → writes m m' a n f → writes m m' a n g.
Proof. intros Hfg [Hu H]. split; [done|]. intros p. rewrite H. bcase; first [done | apply Hfg; lia]. Qed.

Lemma writes_st8 m a v : writes m (st8 m a v) a 1 (λ _, u8 v).
Proof. split; [done|]. intros p. rewrite peek_st8. bcase; done. Qed.

(** One more byte at the end. *)
Lemma writes_snoc m m' a n f v :
  writes m m' a n f → seg a (n + 1) → 0 <= n →
  writes m (st8 m' (a + n) v) a (n + 1) (λ i, if i =? n then u8 v else f i).
Proof.
  intros Hw Hs Hn. split; [by destruct Hw|]. intros p.
  rewrite peek_st8, (writes_phys _ _ _ _ _ _ Hw), (phys_seg m a (n + 1)) by (done || lia).
  destruct Hw as [_ H]. rewrite H. bcase; done.
Qed.

(** One more byte at the front. *)
Lemma writes_cons m m' a n f v :
  writes m m' (a + 1) n f → seg a (n + 1) → 0 <= n →
  writes m (st8 m' a v) a (n + 1) (λ i, if i =? 0 then u8 v else f (i - 1)).
Proof.
  intros Hw Hs Hn. split; [by destruct Hw|]. intros p.
  rewrite peek_st8, (writes_phys _ _ _ _ _ _ Hw).
  destruct Hw as [_ ->]. destruct (decide (n = 0)) as [->|Hn0]; [by bcase|].
  rewrite (phys_seg m a (n + 1)) by (done || lia). bcase; try done; f_equal; lia.
Qed.

(** Overwriting a byte of the segment. *)
Lemma writes_upd m m' a n f i v :
  writes m m' a n f → seg a n → 0 <= i < n →
  writes m (st8 m' (a + i) v) a n (λ j, if j =? i then u8 v else f j).
Proof.
  intros Hw Hs Hi. split; [by destruct Hw|]. intros p.
  rewrite peek_st8, (writes_phys _ _ _ _ _ _ Hw), (phys_seg m a n) by done.
  destruct Hw as [_ ->]. bcase; done.
Qed.

(** Reading a segment and writing it back. *)
Lemma writes_self m a n : seg a n → writes m m a n (λ i, ld8 m (a + i)).
Proof.
  intros Hs. split; [done|]. intros p.
  destruct (decide (phys m a <= p < phys m a + n)).
  - unfold ld8. rewrite (phys_seg m a n) by (done || lia).
    replace (phys m a + (p - phys m a)) with p by lia. by bcase.
  - by bcase.
Qed.

(** Two effects on the same segment: the last one wins. *)
Lemma writes_over m m1 m2 a n f g : writes m m1 a n f → writes m1 m2 a n g → writes m m2 a n g.
Proof.
  intros H1 H2. split; [destruct H1, H2; congruence|]. intros p.
  destruct H2 as [_ ->]. rewrite !(writes_phys _ _ _ _ _ _ H1).
  destruct H1 as [_ ->]. bcase; done.
Qed.

(** A shorter effect is an effect on a longer segment. *)
Lemma writes_widen m m' a n k f :
  writes m m' a n f → seg a k → 0 <= n <= k →
  writes m m' a k (λ i, if i <? n then f i else ld8 m (a + i)).
Proof.
  intros Hw Hs Hn. split; [by destruct Hw|]. intros p. destruct Hw as [_ ->].
  destruct (decide (phys m a <= p < phys m a + k)).
  - unfold ld8. rewrite (phys_seg m a k) by (done || lia).
    replace (phys m a + (p - phys m a)) with p by lia. bcase; done.
  - bcase; done.
Qed.

(** An effect inside a segment, seen as an effect on the segment. *)
Lemma writes_inside m m' a n i k f :
  writes m m' (a + i) k f → seg a n → 0 <= i → 0 <= k → i + k <= n →
  writes m m' a n (λ j, ld8 m' (a + j)).
Proof.
  intros Hw Hs Hi Hk Hn. split; [by destruct Hw|]. intros p.
  destruct (decide (phys m a <= p < phys m a + n)) as [Hp|Hp].
  - assert (E : peek m' p = ld8 m' (a + (p - phys m a))).
    { unfold ld8. rewrite (phys_seg m' a n), (writes_phys _ _ _ _ _ _ Hw) by (done || lia). f_equal. lia. }
    rewrite E. by bcase.
  - destruct Hw as [_ ->]. destruct (decide (k = 0)) as [->|]; [by bcase|].
    rewrite (phys_seg m a n) by (done || lia). by bcase.
Qed.

(** Two adjacent effects. *)
Lemma writes_app m m1 m2 a n k f g :
  writes m m1 a n f → writes m1 m2 (a + n) k g → seg a (n + k) → 0 <= n → 0 <= k →
  writes m m2 a (n + k) (λ i, if i <? n then f i else g (i - n)).
Proof.
  intros H1 H2 Hs Hn Hk. split; [destruct H1, H2; congruence|]. intros p.
  destruct (decide (k = 0)) as [->|Hk0].
  - destruct H2 as [_ ->]. destruct H1 as [_ ->]. bcase; try done.
  - destruct H2 as [_ ->]. rewrite !(writes_phys _ _ _ _ _ _ H1).
    rewrite (phys_seg m a (n + k)) by (done || lia). destruct H1 as [_ ->].
    bcase; try done; f_equal; lia.
Qed.

(** Two memories obtained by the same effect are the same. *)
Lemma writes_unique m m1 m2 a n f : writes m m1 a n f → writes m m2 a n f → m1 ≡ₘ m2.
Proof. intros [U1 H1] [U2 H2]. split; [congruence|]. intros p. by rewrite H1, H2. Qed.

Lemma writes_from_eq m m' m2 a n f : m ≡ₘ m' → writes m' m2 a n f → writes m m2 a n f.
Proof.
  intros He [U H]. split; [by rewrite U; destruct He|]. intros p.
  rewrite H, (mem_eq_phys m m') by done. by destruct He as [_ ->].
Qed.

(** ** Frames

    [changes os m m']: only bytes of the physical segments [os] differ. *)
Definition changes (os : list (Z * Z)) (m m' : memory) : Prop :=
  upage m' = upage m ∧ ∀ p, Forall (λ o, ¬ (o.1 <= p < o.1 + o.2)) os → peek m' p = peek m p.

(** [each_segment] proves a linear fact of every segment of an explicit list. *)
Ltac each_segment :=
  repeat first [apply List.Forall_nil | apply List.Forall_cons]; cbn [fst snd]; lia.

Lemma changes_refl os m : changes os m m.
Proof. by split. Qed.

Lemma changes_trans os m1 m2 m3 : changes os m1 m2 → changes os m2 m3 → changes os m1 m3.
Proof. intros [U1 H1] [U2 H2]. split; [congruence|]. intros p Hp. by rewrite H2, H1. Qed.

Lemma changes_mono os os' m m' : os ⊆ os' → changes os m m' → changes os' m m'.
Proof.
  intros Hs [U H]. split; [done|]. intros p Hp. apply H. apply Forall_forall. intros o Ho.
  rewrite List.Forall_forall in Hp. apply (Hp o), list_elem_of_In, Hs, list_elem_of_In, Ho.
Qed.

Lemma changes_writes os m m' a n f b :
  writes m m' a n f → phys m a = b → (b, n) ∈ os → changes os m m'.
Proof.
  intros [U H] <- Hin. split; [done|]. intros p Hp. rewrite H. rewrite List.Forall_forall in Hp.
  specialize (Hp (phys m a, n) (proj1 (list_elem_of_In _ _) Hin)). cbn [fst snd] in Hp.
  by destruct (in_rangeP (phys m a) (phys m a + n) p).
Qed.

(** The same for a part of a segment. *)
Lemma changes_part os m m' a n f b k :
  writes m m' a n f → b <= phys m a → phys m a + n <= b + k → (b, k) ∈ os → changes os m m'.
Proof.
  intros [U H] H1 H2 Hin. split; [done|]. intros p Hp. rewrite H. rewrite List.Forall_forall in Hp.
  specialize (Hp (b, k) (proj1 (list_elem_of_In _ _) Hin)). cbn [fst snd] in Hp. bcase.
Qed.

Lemma changes_byte os m m' a :
  changes os m m' → Forall (λ o, ¬ (o.1 <= phys m a < o.1 + o.2)) os → ld8 m' a = ld8 m a.
Proof. intros [U H] Ho. unfold ld8. rewrite (phys_upage m m') by done. by apply H. Qed.

(** A kernel segment apart from the changed ones. *)
Lemma changes_seg os m m' a n i :
  changes os m m' → 0 <= a → a + n <= PROGRAM_PAGE → Forall (λ o, a + n <= o.1 ∨ o.1 + o.2 <= a) os →
  0 <= i < n → ld8 m' (a + i) = ld8 m (a + i).
Proof.
  intros Hc Ha Hn Ho Hi. apply (changes_byte os m m' _ Hc). rewrite phys_kernel by lia.
  eapply List.Forall_impl; [|exact Ho]. intros o. cbn. lia.
Qed.

Lemma changes_word os m m' a :
  changes os m m' → 0 <= a → a + 4 <= PROGRAM_PAGE → Forall (λ o, a + 4 <= o.1 ∨ o.1 + o.2 <= a) os →
  ld32 m' a = ld32 m a.
Proof.
  intros Hc Ha Hn Ho. unfold ld32. rewrite <- (Z.add_0_r a) at 1 5.
  by rewrite !(changes_seg os m m' a 4 _ Hc Ha Hn Ho) by lia.
Qed.

(** A loop that zeroes [n] bytes. *)
Lemma zero_loop m b (n : nat) :
  0 <= b → b + Z.of_nat n <= PROGRAM_PAGE →
  let m' := for_up n 0 (λ i m, st8 m (b + i) 0) m in writes m m' b (Z.of_nat n) (λ _, 0).
Proof.
  intros Hb He m'.
  refine (for_up_ind (λ i m', writes m m' b i (λ _, 0)) _ n 0 m (writes_nil _ _ _) _).
  intros j t Hj Hw. eapply writes_ext; [|apply (writes_snoc _ _ _ _ _ 0 Hw); [apply seg_kernel; lia|lia]].
  intros i Hi. cbn. by destruct (i =? j).
Qed.

(** ** Words *)

Lemma ld32_range m a : 0 <= ld32 m a < 4294967296.
Proof.
  unfold ld32. pose proof (ld8_range m a). pose proof (ld8_range m (a + 1)).
  pose proof (ld8_range m (a + 2)). pose proof (ld8_range m (a + 3)). lia.
Qed.

(** The four bytes of a word recombine to it. *)
Lemma bytes_of_word v :
  u8 v + 256 * u8 (v / 256) + 65536 * u8 (v / 65536) + 16777216 * u8 (v / 16777216) = u32 v.
Proof. unfold u8, u32. Z.div_mod_to_equations. lia. Qed.

Definition word_byte (v i : Z) : Z := u8 (v / 2 ^ (8 * i)).

Lemma writes_st32 m a v : seg a 4 → writes m (st32 m a v) a 4 (word_byte v).
Proof.
  intros Hs. unfold st32.
  assert (Hw : writes m (st32 m a v) a (1 + 1 + 1 + 1)
    (λ i, if i =? 3 then u8 (v / 16777216) else if i =? 2 then u8 (v / 65536)
          else if i =? 1 then u8 (v / 256) else u8 v)).
  { do 3 (apply writes_snoc; [|apply (seg_shorter a 4); [done|lia]|lia]). apply writes_st8. }
  revert Hw. apply writes_ext. intros i Hi. unfold word_byte.
  assert (i = 0 ∨ i = 1 ∨ i = 2 ∨ i = 3) as [-> | [-> | [-> | ->]]] by lia; cbn; try done.
  by rewrite Z.div_1_r.
Qed.

Lemma ld32_st32_same m a v : seg a 4 → ld32 (st32 m a v) a = u32 v.
Proof.
  intros Hs. pose proof (writes_st32 m a v Hs) as Hw. unfold ld32.
  rewrite (writes_at0 _ _ _ _ _ Hw Hs) by lia.
  rewrite !(writes_at _ _ _ _ _ _ Hw Hs) by lia.
  rewrite <- bytes_of_word. unfold word_byte. cbn. by rewrite Z.div_1_r.
Qed.

(** A word of a segment an effect leaves alone. *)
Lemma writes_ld32 m m' a n f b :
  writes m m' a n f → apart m a n b 4 → seg b 4 → ld32 m' b = ld32 m b.
Proof.
  intros Hw Ha Hs. unfold ld32. rewrite (writes_apart0 _ _ _ _ _ _ _ Hw Ha Hs) by lia.
  by rewrite !(writes_apart _ _ _ _ _ _ _ _ Hw Ha Hs) by lia.
Qed.

Lemma ld32_st32_other m a v b :
  seg a 4 → seg b 4 → apart m a 4 b 4 → ld32 (st32 m a v) b = ld32 m b.
Proof. intros Ha Hb Hd. by apply (writes_ld32 m _ a 4 (word_byte v)); [apply writes_st32|..]. Qed.

(** ** Byte lists and C strings *)

(** The [n] bytes at [a]. *)
Definition ld_bytes (m : memory) (a n : Z) : list Z := (λ i, ld8 m (a + i)) <$> seqZ 0 n.

(** The C string [l] is stored at [a]. *)
Definition cstring (m : memory) (a : Z) (l : list Z) : Prop :=
  Forall (λ c, 0 < c < 256) l ∧
  (∀ i c, l !! i = Some c → ld8 m (a + Z.of_nat i) = c) ∧
  ld8 m (a + Z.of_nat (length l)) = 0.

Lemma cstring_nz m a l i : cstring m a l → 0 <= i < Z.of_nat (length l) → ld8 m (a + i) ≠ 0.
Proof.
  intros (Hf & Hl & _) Hi.
  destruct (lookup_lt_is_Some_2 l (Z.to_nat i)) as [c Hc]; [lia|].
  pose proof (Hl _ _ Hc) as H. rewrite Z2Nat.id in H by lia. rewrite H.
  pose proof (Forall_lookup_1 _ _ _ _ Hf Hc). cbn in *. lia.
Qed.

Lemma cstring_ext m m' a l :
  (∀ i, 0 <= i <= Z.of_nat (length l) → ld8 m' (a + i) = ld8 m (a + i)) →
  cstring m a l → cstring m' a l.
Proof.
  intros H (Hf & Hl & Hz). split_and!; [done| |by rewrite H by lia].
  intros i c Hc. rewrite H; [by apply Hl|]. apply lookup_lt_Some in Hc. lia.
Qed.

Lemma cstring_drop m a l k : (k <= length l)%nat → cstring m a l → cstring m (a + Z.of_nat k) (drop k l).
Proof.
  intros Hk (H1 & H2 & H3). split; [by apply Forall_drop|]. split.
  - intros i c Hi. rewrite lookup_drop in Hi. rewrite <- (H2 _ _ Hi). f_equal. lia.
  - rewrite length_drop. rewrite <- H3. f_equal. lia.
Qed.

(** The bytes [l] at [a]. *)
Definition holds (m : memory) (a : Z) (l : list Z) : Prop := ∀ i c, l !! i = Some c → ld8 m (a + Z.of_nat i) = c.

Lemma holds_app m a l1 l2 : holds m a (l1 ++ l2) ↔ holds m a l1 ∧ holds m (a + Z.of_nat (length l1)) l2.
Proof.
  split.
  - intros H. split; intros i c Hi.
    + apply H. by apply lookup_app_l_Some.
    + replace (a + Z.of_nat (length l1) + Z.of_nat i) with (a + Z.of_nat (length l1 + i)) by lia. apply H.
      rewrite lookup_app_r by lia. by replace (length l1 + i - length l1)%nat with i by lia.
  - intros [H1 H2] i c Hi. apply lookup_app_Some in Hi as [Hi|[Hl Hi]]; [by apply H1|].
    replace (a + Z.of_nat i) with (a + Z.of_nat (length l1) + Z.of_nat (i - length l1)) by lia. by apply H2.
Qed.

Lemma holds_ext m m' a l : (∀ i, 0 <= i < Z.of_nat (length l) → ld8 m' (a + i) = ld8 m (a + i)) → holds m a l → holds m' a l.
Proof. intros H Hl i c Hi. rewrite H; [by apply Hl|]. apply lookup_lt_Some in Hi. lia. Qed.

Lemma holds_cstring m a l : Forall (λ c, 0 < c < 256) l → holds m a l → ld8 m (a + Z.of_nat (length l)) = 0 → cstring m a l.
Proof. intros H1 H2 H3. by split_and!. Qed.

Lemma ld_bytes_length m a n : 0 <= n → length (ld_bytes m a n) = Z.to_nat n.
Proof. intros H. unfold ld_bytes. by rewrite length_fmap, length_seqZ. Qed.

Lemma ld_bytes_lookup m a n i :
  0 <= i < n → ld_bytes m a n !! Z.to_nat i = Some (ld8 m (a + i)).
Proof.
  intros H. unfold ld_bytes. rewrite list_lookup_fmap, lookup_seqZ_lt by lia.
  cbn. do 2 f_equal. lia.
Qed.

#[export] Instance ld_bytes_proper : Proper (mem_eq ==> eq ==> eq ==> eq) ld_bytes.
Proof. intros m m' H a ? <- n ? <-. unfold ld_bytes. apply list_fmap_ext. intros ? ? _. by rewrite H. Qed.

(** A string of memory, checked by computation. *)
Definition cstring_check (m : memory) (a : Z) (l : list Z) : bool :=
  forallb (λ c, (0 <? c) && (c <? 256)) l && bool_decide (ld_bytes m a (Z.of_nat (length l)) = l) &&
  (ld8 m (a + Z.of_nat (length l)) =? 0).

Lemma cstring_checked m a l : cstring_check m a l = true → cstring m a l.
Proof.
  unfold cstring_check. rewrite !andb_true_iff, Z.eqb_eq, bool_decide_eq_true. intros [[Hf Hb] H0].
  split; [|split; [|done]].
  - rewrite forallb_forall in Hf. apply Forall_forall. intros c Hc. specialize (Hf c).
    rewrite andb_true_iff, !Z.ltb_lt in Hf. by apply Hf.
  - intros i c Hi. pose proof (lookup_lt_Some _ _ _ Hi). rewrite <- Hb in Hi.
    rewrite <- (Nat2Z.id i), ld_bytes_lookup in Hi by lia. by apply Some_inj in Hi.
Qed.

(** The bytes [l] stored at [a]. *)
Definition store_bytes (a : Z) (l : list Z) (m : memory) : memory :=
  (foldl (λ '(a, m) c, (a + 1, st8 m a c)) (a, m) l).2.

(** A small memory for the witnesses: the string [kernel] at 5 MB, with the
    program page at 8 MB. *)
Definition example_memory : memory :=
  st32 (st32 (mkMem ∅ 0x800000) 0x500000 0x6E72656B) 0x500004 0x6C65.

(** Closed facts about segments. *)
Ltac closed_compare := vm_compute; congruence.
Ltac closed_segment :=
  lazymatch goal with
  | |- seg _ _ => split; [closed_compare|first [left; split; closed_compare | right; split; closed_compare]]
  | |- _ => first [left; closed_compare | right; closed_compare]
  end.
