(* ===== verification/LibMem.v ===== *)
(** * Memory routines of lib.c

    [memcpy], [memset], [memset_word], [memset_dword] and [memmove] are inline
    assembly in the source.  Each loop of the assembly is a [Fixpoint] on its
    counter register; [esi] and [edi] are the address registers. *)

From S2P Require Import Prelude Memory.

(** ** memcpy *)

(** [.memcpy_top]: bytes until [edi] is 4-aligned or [ecx] is 0. *)
Fixpoint memcpy_top (ecx : nat) (m : memory) (esi edi : Z) : memory * Z * Z * nat :=
  match ecx with
  | O => (m, esi, edi, O)
  | S k => if Z.land edi 3 =? 0 then (m, esi, edi, S k)
           else memcpy_top k (st8 m edi (ld8 m esi)) (esi + 1) (edi + 1)
  end.

(** [rep movsl] with the direction flag clear. *)
Fixpoint rep_movsl (ecx : nat) (m : memory) (esi edi : Z) : memory * Z * Z :=
  match ecx with
  | O => (m, esi, edi)
  | S k => rep_movsl k (st32 m edi (ld32 m esi)) (esi + 4) (edi + 4)
  end.

(** [.memcpy_bottom]: the remaining bytes. *)
Fixpoint memcpy_bottom (edx : nat) (m : memory) (esi edi : Z) : memory :=
  match edx with
  | O => m
  | S k => memcpy_bottom k (st8 m edi (ld8 m esi)) (esi + 1) (edi + 1)
  end.

Definition memcpy (m : memory) (dest src n : Z) : memory :=
  let '(m, esi, edi, ecx) := memcpy_top (Z.to_nat (u32 n)) m src dest in
  let edx := Z.land (Z.of_nat ecx) 3 in
  let ecx := Z.shiftr (Z.of_nat ecx) 2 in
  let '(m, esi, edi) := rep_movsl (Z.to_nat ecx) m esi edi in
  memcpy_bottom (Z.to_nat edx) m esi edi.

(** ** memset *)

Fixpoint memset_top (ecx : nat) (m : memory) (al edi : Z) : memory * Z * nat :=
  match ecx with
  | O => (m, edi, O)
  | S k => if Z.land edi 3 =? 0 then (m, edi, S k)
           else memset_top k (st8 m edi al) al (edi + 1)
  end.

Fixpoint rep_stosl (ecx : nat) (m : memory) (eax edi : Z) : memory * Z :=
  match ecx with
  | O => (m, edi)
  | S k => rep_stosl k (st32 m edi eax) eax (edi + 4)
  end.

Fixpoint rep_stosw (ecx : nat) (m : memory) (ax edi : Z) : memory * Z :=
  match ecx with
  | O => (m, edi)
  | S k => rep_stosw k (st16 m edi ax) ax (edi + 2)
  end.

Fixpoint memset_bottom (edx : nat) (m : memory) (al edi : Z) : memory :=
  match edx with
  | O => m
  | S k => memset_bottom k (st8 m edi al) al (edi + 1)
  end.

(** [c] is masked to a byte and replicated in the four bytes of [eax]. *)
Definition memset (m : memory) (s c n : Z) : memory :=
  let c := Z.land c 0xFF in
  let eax := u32 (Z.lor (Z.lor (Z.lor (Z.shiftl c 24) (Z.shiftl c 16)) (Z.shiftl c 8)) c) in
  let '(m, edi, ecx) := memset_top (Z.to_nat (u32 n)) m eax s in
  let edx := Z.land (Z.of_nat ecx) 3 in
  let ecx := Z.shiftr (Z.of_nat ecx) 2 in
  let '(m, edi) := rep_stosl (Z.to_nat ecx) m eax edi in
  memset_bottom (Z.to_nat edx) m eax edi.

Definition memset_word (m : memory) (s c n : Z) : memory :=
  (rep_stosw (Z.to_nat (u32 n)) m c s).1.

Definition memset_dword (m : memory) (s c n : Z) : memory :=
  (rep_stosl (Z.to_nat (u32 n)) m c s).1.

(** ** memmove *)

(** [rep movsb] in the direction the flag gives. *)
Fixpoint rep_movsb (ecx : nat) (std : bool) (m : memory) (esi edi : Z) : memory :=
  match ecx with
  | O => m
  | S k => let d := if std then -1 else 1 in
           rep_movsb k std (st8 m edi (ld8 m esi)) (esi + d) (edi + d)
  end.

(** Result: the memory and the direction flag on return, which the code sets
    for an overlapping backward copy and does not clear. *)
Definition memmove (m : memory) (dest src n : Z) : memory * bool :=
  let ecx := Z.to_nat (u32 n) in
  if u32 dest <=? u32 src then (rep_movsb ecx false m src dest, false)
  else (rep_movsb ecx true m (src + u32 n - 1) (dest + u32 n - 1), true).

(** ** Bit facts *)

Lemma land_3_mod x : 0 <= x → Z.land x 3 = x mod 4.
Proof. intros _. change 3 with (Z.ones 2). by rewrite Z.land_ones by lia. Qed.

Lemma shiftr_2_div x : Z.shiftr x 2 = x / 4.
Proof. by rewrite Z.shiftr_div_pow2 by lia. Qed.

(** The split of a count into words and a tail. *)
Lemma words_and_tail (n : nat) :
  (4 * Z.to_nat (Z.shiftr (Z.of_nat n) 2) + Z.to_nat (Z.land (Z.of_nat n) 3) = n)%nat.
Proof.
  rewrite land_3_mod, shiftr_2_div by lia.
  apply Nat2Z.inj. rewrite Nat2Z.inj_add, Nat2Z.inj_mul.
  rewrite !Z2Nat.id by (Z.div_mod_to_equations; lia).
  Z.div_mod_to_equations; lia.
Qed.

(** The bytes of a loaded word are the bytes it was loaded from. *)
Lemma word_byte_ld32 m a i :
  0 <= i < 4 → word_byte (ld32 m a) i = ld8 m (a + i).
Proof.
  intros Hi. unfold word_byte, ld32, u8.
  pose proof (ld8_range m a). pose proof (ld8_range m (a + 1)).
  pose proof (ld8_range m (a + 2)). pose proof (ld8_range m (a + 3)).
  assert (i = 0 ∨ i = 1 ∨ i = 2 ∨ i = 3) as [-> | [-> | [-> | ->]]] by lia;
    [rewrite Z.add_0_r|..]; cbn [Z.mul Z.pow Pos.mul Z.pow_pos Pos.iter];
    Z.div_mod_to_equations; lia.
Qed.

(** ** Correctness of memcpy *)

(** [copied m m' dst src k]: [m'] is [m] after copying [k] bytes. *)
Definition copied (m m' : memory) (dst src k : Z) : Prop :=
  writes m m' dst k (λ i, ld8 m (src + i)).

Section Copy.
Context (m : memory) (dst src n : Z).
Hypothesis (Hd : seg dst n) (Hs : seg src n) (Ha : apart m dst n src n).

Lemma apart_prefix k : 0 <= k <= n → apart m dst k src n.
Proof. clear Hd Hs. unfold apart in *. lia. Qed.

(** A source byte is not yet overwritten. *)
Lemma copied_src m1 k i :
  copied m m1 dst src k → 0 <= k <= n → 0 <= i < n → ld8 m1 (src + i) = ld8 m (src + i).
Proof.
  intros Hc Hk Hi. apply (writes_apart m m1 dst k (λ i, ld8 m (src + i)) src n);
    [done|by apply apart_prefix|done..].
Qed.

Lemma copied_byte m1 k :
  copied m m1 dst src k → 0 <= k < n →
  copied m (st8 m1 (dst + k) (ld8 m1 (src + k))) dst src (k + 1).
Proof.
  intros Hc Hk. rewrite (copied_src m1 k k) by (done || lia).
  eapply writes_ext; [|apply writes_snoc; [exact Hc|apply (seg_shorter dst n)|]; (done || lia)].
  intros i Hi. cbn. bcase; subst. by rewrite u8_small by apply ld8_range.
Qed.

Lemma copied_word m1 k :
  copied m m1 dst src k → 0 <= k → k + 4 <= n →
  copied m (st32 m1 (dst + k) (ld32 m1 (src + k))) dst src (k + 4).
Proof.
  intros Hc Hk Hn.
  assert (Hdk : seg (dst + k) 4) by (apply (seg_sub dst n); done || lia).
  eapply writes_ext;
    [|eapply (writes_app m m1); [exact Hc|by apply writes_st32|apply (seg_shorter dst n)|..]; (done || lia)].
  intros i Hi. cbn. bcase.
  rewrite word_byte_ld32 by lia.
  replace (src + k + (i - k)) with (src + i) by lia. apply (copied_src m1 k); (done || lia).
Qed.

Lemma memcpy_top_copied c m1 k :
  copied m m1 dst src k → 0 <= k → k + Z.of_nat c <= n →
  ∃ m2 j, memcpy_top c m1 (src + k) (dst + k) = (m2, src + (k + j), dst + (k + j), (c - Z.to_nat j)%nat) ∧
          copied m m2 dst src (k + j) ∧ 0 <= j <= Z.of_nat c.
Proof.
  revert m1 k. induction c as [|c IH]; intros m1 k Hc Hk Hn; cbn [memcpy_top].
  - exists m1, 0. rewrite !Z.add_0_r. done.
  - destruct (Z.land (dst + k) 3 =? 0).
    + exists m1, 0. rewrite !Z.add_0_r. split_and!; [done..|lia].
    + destruct (IH (st8 m1 (dst + k) (ld8 m1 (src + k))) (k + 1)) as (m2 & j & He & Hc' & Hj);
        [apply copied_byte; [done|lia]|lia..|].
      exists m2, (j + 1). rewrite <- !Z.add_assoc, He.
      replace (k + (j + 1)) with (k + 1 + j) by lia.
      replace (S c - Z.to_nat (j + 1))%nat with (c - Z.to_nat j)%nat by lia.
      split_and!; [done..|lia|lia].
Qed.

Lemma rep_movsl_copied c m1 k :
  copied m m1 dst src k → 0 <= k → k + 4 * Z.of_nat c <= n →
  ∃ m2, rep_movsl c m1 (src + k) (dst + k) =
          (m2, src + (k + 4 * Z.of_nat c), dst + (k + 4 * Z.of_nat c)) ∧
        copied m m2 dst src (k + 4 * Z.of_nat c).
Proof.
  revert m1 k. induction c as [|c IH]; intros m1 k Hc Hk Hn; cbn [rep_movsl].
  - exists m1. by rewrite Z.add_0_r.
  - destruct (IH (st32 m1 (dst + k) (ld32 m1 (src + k))) (k + 4)) as (m2 & He & Hc');
      [apply copied_word; [done|lia..]|lia..|].
    exists m2. rewrite <- !Z.add_assoc, He.
    by replace (k + 4 * Z.of_nat (S c)) with (k + 4 + 4 * Z.of_nat c) by lia.
Qed.

Lemma memcpy_bottom_copied c m1 k :
  copied m m1 dst src k → 0 <= k → k + Z.of_nat c <= n →
  copied m (memcpy_bottom c m1 (src + k) (dst + k)) dst src (k + Z.of_nat c).
Proof.
  revert m1 k. induction c as [|c IH]; intros m1 k Hc Hk Hn; cbn [memcpy_bottom].
  - by rewrite Z.add_0_r.
  - rewrite <- !Z.add_assoc. replace (k + Z.of_nat (S c)) with (k + 1 + Z.of_nat c) by lia.
    apply IH; [apply copied_byte; [done|lia]|lia..].
Qed.

(** The three loops together copy the [n] bytes. *)
Lemma memcpy_copied : n < 4294967296 → copied m (memcpy m dst src n) dst src n.
Proof.
  intros Hn. unfold memcpy. assert (0 <= n) by (destruct Hd; lia).
  rewrite u32_small by lia.
  destruct (memcpy_top_copied (Z.to_nat n) m 0) as (m2 & j & He & Hc & Hj);
    [apply writes_nil|lia..|].
  rewrite !Z.add_0_r in He. rewrite He.
  set (c := (Z.to_nat n - Z.to_nat j)%nat). pose proof (words_and_tail c) as Hwt.
  destruct (rep_movsl_copied (Z.to_nat (Z.shiftr (Z.of_nat c) 2)) m2 (0 + j)) as (m3 & He3 & Hc3);
    [done|lia..|].
  rewrite He3.
  replace n with (0 + j + 4 * Z.of_nat (Z.to_nat (Z.shiftr (Z.of_nat c) 2))
                  + Z.of_nat (Z.to_nat (Z.land (Z.of_nat c) 3))) at 1 by lia.
  apply memcpy_bottom_copied; [done|lia..].
Qed.
End Copy.

(** C30: the word-at-a-time [memcpy] of lib.c implements the byte copy: on
    disjoint objects every byte of the destination becomes the corresponding
    byte of the source, and no other byte of the memory changes. *)
Theorem memcpy_correct (m : memory) (dest src n : Z) :
  seg dest n → seg src n → apart m dest n src n → n < 4294967296 →
  writes m (memcpy m dest src n) dest n (λ i, ld8 m (src + i)).
Proof. apply memcpy_copied. Qed.

Lemma memcpy_correct_witness :
  apart example_memory 0x8048001 7 0x500000 7 ∧
  writes example_memory (memcpy example_memory 0x8048001 0x500000 7) 0x8048001 7
    (λ i, ld8 example_memory (0x500000 + i)).
Proof. split; [closed_segment|]. apply memcpy_correct; first [closed_segment | lia]. Defined.

(** ** Correctness of memset *)

Section Fill.
Context (m : memory) (s n : Z).
Hypothesis (Hs : seg s n).

Definition filled (m' : memory) (k b : Z) : Prop := writes m m' s k (λ _, b).

Lemma filled_byte m1 k al :
  filled m1 k (u8 al) → 0 <= k < n → filled (st8 m1 (s + k) al) (k + 1) (u8 al).
Proof.
  intros Hc Hk.
  eapply writes_ext; [|apply writes_snoc; [exact Hc|apply (seg_shorter s n)|]; (done || lia)].
  intros i Hi. cbn. by bcase.
Qed.

Lemma filled_word m1 k eax :
  filled m1 k (u8 eax) → 0 <= k → k + 4 <= n →
  (∀ i, 0 <= i < 4 → word_byte eax i = u8 eax) →
  filled (st32 m1 (s + k) eax) (k + 4) (u8 eax).
Proof.
  intros Hc Hk Hn Hb.
  assert (Hdk : seg (s + k) 4) by (apply (seg_sub s n); done || lia).
  eapply writes_ext;
    [|eapply (writes_app m m1); [exact Hc|by apply writes_st32|apply (seg_shorter s n)|..]; (done || lia)].
  intros i Hi. cbn. bcase. apply Hb. lia.
Qed.

Lemma memset_top_filled c m1 k al :
  filled m1 k (u8 al) → 0 <= k → k + Z.of_nat c <= n →
  ∃ m2 j, memset_top c m1 al (s + k) = (m2, s + (k + j), (c - Z.to_nat j)%nat) ∧
          filled m2 (k + j) (u8 al) ∧ 0 <= j <= Z.of_nat c.
Proof.
  revert m1 k. induction c as [|c IH]; intros m1 k Hc Hk Hn; cbn [memset_top].
  - exists m1, 0. by rewrite !Z.add_0_r.
  - destruct (Z.land (s + k) 3 =? 0).
    + exists m1, 0. rewrite !Z.add_0_r. split_and!; [done..|lia].
    + destruct (IH (st8 m1 (s + k) al) (k + 1)) as (m2 & j & He & Hc' & Hj);
        [apply filled_byte; [done|lia]|lia..|].
      exists m2, (j + 1). rewrite <- !Z.add_assoc, He.
      replace (k + (j + 1)) with (k + 1 + j) by lia.
      replace (S c - Z.to_nat (j + 1))%nat with (c - Z.to_nat j)%nat by lia.
      split_and!; [done..|lia|lia].
Qed.

Lemma rep_stosl_filled c m1 k eax :
  filled m1 k (u8 eax) → 0 <= k → k + 4 * Z.of_nat c <= n →
  (∀ i, 0 <= i < 4 → word_byte eax i = u8 eax) →
  ∃ m2, rep_stosl c m1 eax (s + k) = (m2, s + (k + 4 * Z.of_nat c)) ∧
        filled m2 (k + 4 * Z.of_nat c) (u8 eax).
Proof.
  intros Hc Hk Hn Hb. revert m1 k Hc Hk Hn.
  induction c as [|c IH]; intros m1 k Hc Hk Hn; cbn [rep_stosl].
  - exists m1. by rewrite Z.add_0_r.
  - destruct (IH (st32 m1 (s + k) eax) (k + 4)) as (m2 & He & Hc');
      [apply filled_word; [done|lia|lia|done]|lia..|].
    exists m2. rewrite <- !Z.add_assoc, He.
    by replace (k + 4 * Z.of_nat (S c)) with (k + 4 + 4 * Z.of_nat c) by lia.
Qed.

Lemma memset_bottom_filled c m1 k al :
  filled m1 k (u8 al) → 0 <= k → k + Z.of_nat c <= n →
  filled (memset_bottom c m1 al (s + k)) (k + Z.of_nat c) (u8 al).
Proof.
  revert m1 k. induction c as [|c IH]; intros m1 k Hc Hk Hn; cbn [memset_bottom].
  - by rewrite Z.add_0_r.
  - rewrite <- !Z.add_assoc. replace (k + Z.of_nat (S c)) with (k + 1 + Z.of_nat c) by lia.
    apply IH; [apply filled_byte; [done|lia]|lia..].
Qed.
End Fill.

(** The four bytes of the replicated word are the byte. *)
Lemma splat_bytes b i :
  0 <= b < 256 → 0 <= i < 4 →
  word_byte (u32 (Z.lor (Z.lor (Z.lor (Z.shiftl b 24) (Z.shiftl b 16)) (Z.shiftl b 8)) b)) i = b.
Proof.
  intros Hb Hi.
  assert (i = 0 ∨ i = 1 ∨ i = 2 ∨ i = 3) as [-> | [-> | [-> | ->]]] by lia;
    apply Z.eqb_eq; revert b Hb; apply forall_byte; vm_compute; reflexivity.
Qed.

(** [memset] fills exactly the [n] bytes at [s] with the low byte of [c]. *)
Theorem memset_correct (m : memory) (s c n : Z) :
  seg s n → n < 4294967296 → writes m (memset m s c n) s n (λ _, u8 c).
Proof.
  intros Hs Hn. unfold memset. assert (0 <= n) by (destruct Hs; lia).
  rewrite u32_small by lia.
  assert (Hc : Z.land c 0xFF = u8 c).
  { change 0xFF with (Z.ones 8). by rewrite Z.land_ones by lia. }
  rewrite Hc. set (eax := u32 _).
  assert (Hb : ∀ i, 0 <= i < 4 → word_byte eax i = u8 c) by (intros i; apply splat_bytes, u8_range).
  assert (He : u8 c = u8 eax) by (rewrite <- (Hb 0) by lia; unfold word_byte; by rewrite Z.div_1_r).
  rewrite He in Hb |- *.
  destruct (memset_top_filled m s n Hs (Z.to_nat n) m 0 eax) as (m2 & j & H2 & F2 & Hj);
    [apply writes_nil|lia..|].
  rewrite !Z.add_0_r in H2. rewrite H2.
  set (k := (Z.to_nat n - Z.to_nat j)%nat). pose proof (words_and_tail k) as Hwt.
  destruct (rep_stosl_filled m s n Hs (Z.to_nat (Z.shiftr (Z.of_nat k) 2)) m2 (0 + j) eax)
    as (m3 & H3 & F3); [done|lia..|done|].
  rewrite H3.
  replace n with (0 + j + 4 * Z.of_nat (Z.to_nat (Z.shiftr (Z.of_nat k) 2))
                  + Z.of_nat (Z.to_nat (Z.land (Z.of_nat k) 3))) at 1 by lia.
  apply (memset_bottom_filled m s n Hs); [done|lia..].
Qed.

Lemma memset_correct_witness :
  seg 0x500001 9 ∧ writes example_memory (memset example_memory 0x500001 0x120 9) 0x500001 9 (λ _, 0x20).
Proof. split; [closed_segment|]. apply (memset_correct example_memory 0x500001 0x120 9); [closed_segment|lia]. Defined.

(** ** Correctness of memmove *)

Section Move.
Context (m : memory) (dst src n : Z).
Hypothesis (Hn : 0 <= n) (Hd0 : 0 <= dst) (Hs0 : 0 <= src).
Hypothesis (Hd1 : dst + n <= PROGRAM_PAGE) (Hs1 : src + n <= PROGRAM_PAGE).

Lemma move_seg a k : 0 <= a → 0 <= k → a + k <= PROGRAM_PAGE → seg a k.
Proof. intros; by apply seg_kernel. Qed.

(** Upwards, with the destination below the source. *)
Lemma rep_movsb_up c m1 k :
  dst <= src → copied m m1 dst src k → 0 <= k → k + Z.of_nat c = n →
  copied m (rep_movsb c false m1 (src + k) (dst + k)) dst src n.
Proof.
  intros Hle. revert m1 k. induction c as [|c IH]; intros m1 k Hc Hk Hkn; cbn [rep_movsb].
  - by replace n with k by lia.
  - rewrite <- !Z.add_assoc. apply IH; [|lia..].
    replace (ld8 m1 (src + k)) with (ld8 m (src + k)).
    + eapply writes_ext; [|apply writes_snoc; [exact Hc|apply move_seg; lia|lia]].
      intros i Hi. cbn. bcase; subst. by rewrite u8_small by apply ld8_range.
    + symmetry. apply (writes_frame m m1 dst k (λ i, ld8 m (src + i))); [done|].
      destruct (decide (k = 0)); [lia|]. rewrite !phys_kernel by lia. lia.
Qed.

(** Downwards, with the destination above the source. *)
Lemma rep_movsb_down c m1 k :
  src < dst → writes m m1 (dst + k) (n - k) (λ i, ld8 m (src + k + i)) → k = Z.of_nat c → k <= n →
  copied m (rep_movsb c true m1 (src + k - 1) (dst + k - 1)) dst src n.
Proof.
  intros Hlt. revert m1 k. induction c as [|c IH]; intros m1 k Hc Hk Hkn; cbn [rep_movsb].
  - subst k. revert Hc. cbn [Z.of_nat]. by rewrite !Z.add_0_r, Z.sub_0_r.
  - replace (src + k - 1 + -1) with (src + (k - 1) - 1) by lia.
    replace (dst + k - 1 + -1) with (dst + (k - 1) - 1) by lia. apply IH; [|lia..].
    replace (ld8 m1 (src + k - 1)) with (ld8 m (src + k - 1)).
    + replace (n - (k - 1)) with (n - k + 1) by lia.
      replace (dst + (k - 1)) with (dst + k - 1) by lia.
      eapply writes_ext; [|apply writes_cons; [|apply move_seg; lia|lia]].
      2: { replace (dst + k - 1 + 1) with (dst + k) by lia. exact Hc. }
      intros i Hi. cbn. bcase.
      * subst. rewrite u8_small by apply ld8_range. f_equal. lia.
      * f_equal. lia.
    + symmetry. apply (writes_frame m m1 (dst + k) (n - k) (λ i, ld8 m (src + k + i))); [done|].
      destruct (decide (k = n)); [subst; lia|]. rewrite !phys_kernel by lia. lia.
Qed.
End Move.

(** [memmove] copies correctly between overlapping objects of the kernel,
    whichever comes first.  It leaves the direction flag set exactly when the
    destination is above the source, which the calling convention forbids. *)
Theorem memmove_correct (m : memory) (dest src n : Z) :
  0 <= n < 4294967296 → 0 <= dest → 0 <= src →
  dest + n <= PROGRAM_PAGE → src + n <= PROGRAM_PAGE →
  copied m (memmove m dest src n).1 dest src n ∧
  ((memmove m dest src n).2 = true ↔ src < dest).
Proof.
  intros Hn Hd Hs Hd1 Hs1. unfold memmove. unfold PROGRAM_PAGE in Hd1, Hs1.
  rewrite (u32_small dest), (u32_small src), (u32_small n) by lia.
  destruct (Z.leb_spec dest src); cbn [fst snd].
  - split; [|lia]. rewrite <- (Z.add_0_r src) at 1. rewrite <- (Z.add_0_r dest) at 1.
    apply rep_movsb_up; [unfold PROGRAM_PAGE; lia..|apply writes_nil|lia|lia].
  - split; [|lia].
    apply (rep_movsb_down m dest src n); [unfold PROGRAM_PAGE; lia..| |lia|lia].
    rewrite Z.sub_diag. apply writes_nil.
Qed.

(** Two bytes up, over itself. *)
Lemma memmove_correct_witness :
  0x500000 + 6 <= PROGRAM_PAGE ∧
  copied example_memory (memmove example_memory 0x500002 0x500000 6).1 0x500002 0x500000 6 ∧
  (memmove example_memory 0x500002 0x500000 6).2 = true.
Proof.
  split; [unfold PROGRAM_PAGE; lia|].
  destruct (memmove_correct example_memory 0x500002 0x500000 6) as [H1 H2]; [unfold PROGRAM_PAGE; lia..|].
  split; [exact H1|]. apply H2. lia.
Defined.

(** A word of a copy. *)
Lemma copied_ld32 m m' dst src k o :
  copied m m' dst src k → seg dst k → 0 <= o → o + 4 <= k → ld32 m' (dst + o) = ld32 m (src + o).
Proof.
  intros Hc Hs Ho Hk. unfold ld32.
  assert (Hb : ∀ i, 0 <= i < 4 → ld8 m' (dst + o + i) = ld8 m (src + o + i)).
  { intros i Hi. rewrite <- !Z.add_assoc. by rewrite (writes_at _ _ _ _ _ _ Hc Hs) by lia. }
  by rewrite <- (Z.add_0_r (dst + o)), <- (Z.add_0_r (src + o)), !Hb, !Z.add_0_r, !Hb by lia.
Qed.

Lemma memcpy_0 m d a : memcpy m d a 0 = m.
Proof. done. Qed.

(** From here on the copies are known by their effect. *)
#[global] Opaque memcpy memset.
