(* ===== verification/LibStr.v ===== *)
(** * String routines of lib.c

    [strlen], [strncmp], [strcpy], [strncpy], [strrev] and [itoa], on the byte
    memory.  The unbounded scans are [while_loop]s: they return [None] only if
    no terminator is ever found. *)

From S2P Require Import Prelude Memory.

(** ** The routines *)

Definition strlen (m : memory) (s : Z) : option Z :=
  while_loop (λ len, if ld8 m (s + len) =? 0 then inr len else inl (u32 (len + 1))) 0.

(** [for (i = 0; i < n; i++)], comparing as signed characters. *)
Fixpoint strncmp_from (k : nat) (m : memory) (s1 s2 i : Z) : Z :=
  match k with
  | O => 0
  | S k' =>
      let c1 := s8 (ld8 m (s1 + i)) in
      let c2 := s8 (ld8 m (s2 + i)) in
      if negb (c1 =? c2) || (c1 =? 0) then c1 - c2
      else strncmp_from k' m s1 s2 (i + 1)
  end.
Definition strncmp (m : memory) (s1 s2 n : Z) : Z := strncmp_from (Z.to_nat (u32 n)) m s1 s2 0.

Definition strcpy (m : memory) (dest src : Z) : option memory :=
  while_loop (λ '(i, m),
    if ld8 m (src + i) =? 0 then inr (st8 m (dest + i) 0)
    else inl (i + 1, st8 m (dest + i) (ld8 m (src + i)))) (0, m).

(** First loop of [strncpy]: [k] is [n - i]. *)
Fixpoint strncpy_copy (k : nat) (m : memory) (dest src i : Z) : memory * Z * nat :=
  match k with
  | O => (m, i, O)
  | S k' => if ld8 m (src + i) =? 0 then (m, i, k)
            else strncpy_copy k' (st8 m (dest + i) (ld8 m (src + i))) dest src (i + 1)
  end.
(** Second loop: pads with NULs. *)
Fixpoint strncpy_pad (k : nat) (m : memory) (dest i : Z) : memory :=
  match k with
  | O => m
  | S k' => strncpy_pad k' (st8 m (dest + i) 0) dest (i + 1)
  end.
Definition strncpy (m : memory) (dest src n : Z) : memory :=
  let '(m, i, k) := strncpy_copy (Z.to_nat (u32 n)) m dest src 0 in
  strncpy_pad k m dest i.

(** The exchange of [s[beg]] and [s[end]]. *)
Definition swap8 (m : memory) (s i j : Z) : memory :=
  let tmp := ld8 m (s + j) in
  let m := st8 m (s + j) (ld8 m (s + i)) in
  st8 m (s + i) tmp.

Definition strrev (m : memory) (s : Z) : option memory :=
  len ← strlen m s;
  while_loop (λ '(beg, fin, m),
    if beg <? fin then inl (beg + 1, fin - 1, swap8 m s beg fin) else inr m)
    (0, s32 (len - 1), m).

Definition lookup_digits : list Z := bytes_of "0123456789ABCDEFGHIJKLMNOPQRSTUVWXYZ".
Definition digit_char (i : Z) : Z := nth (Z.to_nat i) lookup_digits 0.

Definition itoa (m : memory) (value buf radix : Z) : option memory :=
  if value =? 0 then Some (st8 (st8 m buf 48) (buf + 1) 0)
  else
    '(newbuf, m) ← while_loop (λ '(newval, newbuf, m),
        if 0 <? newval
        then inl (newval / u32 radix, newbuf + 1,
                  st8 m newbuf (digit_char (s32 (newval mod u32 radix))))
        else inr (newbuf, m)) (u32 value, buf, m);
    let m := st8 m newbuf 0 in
    strrev m buf.

(** ** Specification vocabulary *)

(** The part of a byte list before its first NUL. *)
Fixpoint take_nul (l : list Z) : list Z :=
  match l with
  | [] => []
  | c :: l' => if c =? 0 then [] else c :: take_nul l'
  end.

(** The digits of [v], least significant first. *)
Fixpoint digits_le (fuel : nat) (radix v : Z) : list Z :=
  match fuel with
  | O => []
  | S f => if v =? 0 then [] else (v mod radix) :: digits_le f radix (v / radix)
  end.

(** The number a digit list denotes, most significant first. *)
Definition value_of (radix : Z) (ds : list Z) : Z :=
  foldl (λ acc d, acc * radix + d) 0 ds.

(** ** Strings *)

Lemma strlen_correct m s l :
  cstring m s l → Z.of_nat (length l) < 4294967296 → strlen m s = Some (Z.of_nat (length l)).
Proof.
  intros Hc Hlen. unfold strlen.
  apply (while_loop_steps _ (length l) _ (Z.of_nat (length l))); [| |lia].
  - cut (∀ k, (k <= length l)%nat →
      nat_iter (λ len, if ld8 m (s + len) =? 0 then inr len else inl (u32 (len + 1)))
        k (Z.of_nat (length l - k)) = inl (Z.of_nat (length l))).
    { intros H. specialize (H (length l) ltac:(lia)). by rewrite Nat.sub_diag in H. }
    induction k as [|k IH]; intros Hk; cbn [nat_iter].
    + by rewrite Nat.sub_0_r.
    + destruct (Z.eqb_spec (ld8 m (s + Z.of_nat (length l - S k))) 0) as [E|_].
      { by apply (cstring_nz m s l) in E; [|done|lia]. }
      rewrite u32_small by lia.
      replace (Z.of_nat (length l - S k) + 1) with (Z.of_nat (length l - k)) by lia.
      apply IH. lia.
  - destruct Hc as (_ & _ & ->). done.
Qed.

Lemma take_nul_ext (f g : Z → Z) i k :
  (∀ j, i <= j < i + Z.of_nat k → f j = g j) →
  take_nul (f <$> seqZ i (Z.of_nat k)) = take_nul (g <$> seqZ i (Z.of_nat k)).
Proof. intros H. f_equal. apply list_fmap_ext. intros j x Hx. apply H. apply lookup_seqZ in Hx. lia. Qed.

Lemma seqZ_S i (k : nat) : seqZ i (Z.of_nat (S k)) = i :: seqZ (i + 1) (Z.of_nat k).
Proof. rewrite seqZ_cons by lia. f_equal. f_equal; lia. Qed.

Lemma strncmp_from_zero k m s1 s2 i :
  strncmp_from k m s1 s2 i = 0 ↔
  take_nul ((λ j, ld8 m (s1 + j)) <$> seqZ i (Z.of_nat k)) =
  take_nul ((λ j, ld8 m (s2 + j)) <$> seqZ i (Z.of_nat k)).
Proof.
  revert i. induction k as [|k IH]; intros i; [done|].
  rewrite seqZ_S. cbn [strncmp_from take_nul fmap list_fmap].
  pose proof (ld8_range m (s1 + i)) as R1. pose proof (ld8_range m (s2 + i)) as R2.
  set (c1 := ld8 m (s1 + i)) in *. set (c2 := ld8 m (s2 + i)) in *.
  assert (Hs : s8 c1 = s8 c2 ↔ c1 = c2).
  { split; [|by intros ->]. intros H%s8_inj. by rewrite !u8_small in H by lia. }
  assert (Hz : s8 c1 = 0 ↔ c1 = 0).
  { change 0 with (s8 0) at 1. split; [|by intros ->]. intros H%s8_inj. by rewrite !u8_small in H by lia. }
  destruct (Z.eqb_spec (s8 c1) (s8 c2)) as [E|E]; cbn [negb orb].
  - apply Hs in E. destruct (Z.eqb_spec (s8 c1) 0) as [E0|E0].
    + apply Hz in E0. rewrite <- E, E0. cbn. done.
    + rewrite <- E. destruct (Z.eqb_spec c1 0) as [E1|E1]; [tauto|].
      rewrite IH. split; [by intros ->|by intros [=]].
  - split; [lia|]. intros H. exfalso.
    destruct (Z.eqb_spec c1 0), (Z.eqb_spec c2 0); apply E, Hs; congruence.
Qed.

(** [strncmp] answers 0 exactly when the two strings, cut at their first
    NUL or after [n] characters, are the same. *)
Theorem strncmp_correct (m : memory) (s1 s2 n : Z) :
  0 <= n < 4294967296 →
  strncmp m s1 s2 n = 0 ↔ take_nul (ld_bytes m s1 n) = take_nul (ld_bytes m s2 n).
Proof.
  intros Hn. unfold strncmp, ld_bytes. rewrite strncmp_from_zero, u32_small by done.
  by rewrite Z2Nat.id by lia.
Qed.

Lemma strncmp_correct_witness :
  take_nul (ld_bytes example_memory 0x500000 32) = bytes_of "kernel" ∧
  strncmp example_memory 0x500000 0x500000 32 = 0 ∧ strncmp example_memory 0x500000 0x500001 32 ≠ 0.
Proof.
  split; [by vm_compute|]. split.
  - apply (strncmp_correct example_memory 0x500000 0x500000 32); [lia|done].
  - rewrite (strncmp_correct example_memory 0x500000 0x500001 32) by lia. by vm_compute.
Defined.

(** ** Copying strings *)

(** Bytes an effect away from a segment leaves as they were, for reading. *)
Lemma prefix_src m m1 dst k f src n i :
  writes m m1 dst k f → 0 <= k <= n → seg src n → apart m dst n src n → 0 <= i < n →
  ld8 m1 (src + i) = ld8 m (src + i).
Proof.
  intros Hw Hk Hs Ha Hi. apply (writes_apart m m1 dst k f src n); [done| |done|done].
  unfold apart in *. lia.
Qed.

Lemma strncpy_copy_spec n m dst src k :
  seg dst n → seg src n → apart m dst n src n →
  ∀ m1 i, writes m m1 dst i (λ j, ld8 m (src + j)) → 0 <= i → i + Z.of_nat k = n →
  ∃ m2, let l := take_nul ((λ j, ld8 m (src + j)) <$> seqZ i (Z.of_nat k)) in
    strncpy_copy k m1 dst src i = (m2, i + Z.of_nat (length l), (k - length l)%nat) ∧
    writes m m2 dst (i + Z.of_nat (length l)) (λ j, ld8 m (src + j)).
Proof.
  intros Hd Hs Ha. induction k as [|k IH]; intros m1 i Hw Hi Hk.
  - exists m1. cbn. by rewrite Z.add_0_r.
  - rewrite seqZ_S. cbn [fmap list_fmap take_nul strncpy_copy].
    rewrite (prefix_src m m1 dst i (λ j, ld8 m (src + j)) src n) by (done || lia).
    destruct (ld8 m (src + i) =? 0).
    { exists m1. cbn. rewrite Z.add_0_r. done. }
    destruct (IH (st8 m1 (dst + i) (ld8 m (src + i))) (i + 1)) as (m2 & He & Hw2); [|lia..|].
    { eapply writes_ext; [|apply writes_snoc; [exact Hw|apply (seg_shorter dst n)|]; (done || lia)].
      intros j Hj. cbn. bcase; subst. by rewrite u8_small by apply ld8_range. }
    exists m2. cbn zeta in *. cbn [length]. rewrite He. clear He.
    set (t := length _) in *.
    replace (i + Z.of_nat (S t)) with (i + 1 + Z.of_nat t) by lia. done.
Qed.

Lemma strncpy_pad_spec n m dst f k :
  seg dst n → ∀ m1 i, writes m m1 dst i f → 0 <= i → i + Z.of_nat k = n →
  writes m (strncpy_pad k m1 dst i) dst n (λ j, if j <? i then f j else 0).
Proof.
  intros Hd. revert f. induction k as [|k IH]; intros f m1 i Hw Hi Hk; cbn [strncpy_pad].
  - replace n with i by lia. eapply writes_ext; [|exact Hw]. intros j Hj. cbn. by bcase.
  - assert (Hw1 : writes m (st8 m1 (dst + i) 0) dst (i + 1) (λ j, if j <? i then f j else 0)).
    { eapply writes_ext; [|apply writes_snoc; [exact Hw|apply (seg_shorter dst n)|]; (done || lia)].
      intros j Hj. cbn. bcase; done. }
    eapply writes_ext; [|apply (IH _ _ _ Hw1); lia]. intros j Hj. cbn. bcase; done.
Qed.

Lemma strncpy_effect (m : memory) (dest src n : Z) :
  seg dest n → seg src n → apart m dest n src n → n < 4294967296 →
  writes m (strncpy m dest src n) dest n
    (λ i, nth (Z.to_nat i) (take_nul (ld_bytes m src n)) 0).
Proof.
  intros Hd Hs Ha Hn. assert (Hn0 : 0 <= n) by (destruct Hd; lia).
  unfold strncpy. rewrite u32_small by lia.
  destruct (strncpy_copy_spec n m dest src (Z.to_nat n) Hd Hs Ha m 0) as (m2 & He & Hw);
    [apply writes_nil|lia..|].
  rewrite Z2Nat.id in * by lia. cbn zeta in *. rewrite Z.add_0_l in *. rewrite He.
  fold (ld_bytes m src n) in *. set (l := take_nul (ld_bytes m src n)) in *.
  assert (Hl : (length l <= Z.to_nat n)%nat).
  { rewrite <- (ld_bytes_length m src n) by lia. unfold l. clear.
    induction (ld_bytes m src n) as [|c l IH]; cbn; [lia|]. case_match; cbn; lia. }
  eapply writes_ext; [|apply (strncpy_pad_spec n); [exact Hd|exact Hw|lia..]].
  intros i Hi. cbn. bcase.
  - assert (Htn : ∀ l' k c, take_nul l' !! k = Some c → l' !! k = Some c).
    { clear. induction l' as [|c l' IH]; intros k x; cbn; [done|]. case_match; [done|].
      destruct k; cbn; auto. }
    destruct (lookup_lt_is_Some_2 l (Z.to_nat i)) as [c Hc]; [lia|].
    rewrite (nth_lookup_Some _ _ _ _ Hc). apply Htn in Hc.
    rewrite ld_bytes_lookup in Hc by lia. congruence.
  - rewrite nth_overflow; [done|lia].
Qed.

(** [strncpy] writes exactly the [n] bytes at [dest]: the characters of
    the source up to its first NUL, then NULs. *)
Theorem strncpy_correct (m : memory) (dest src n : Z) :
  seg dest n → seg src n → apart m dest n src n → n < 4294967296 →
  writes m (strncpy m dest src n) dest n
    (λ i, nth (Z.to_nat i) (take_nul (ld_bytes m src n)) 0).
Proof. apply strncpy_effect. Qed.

Lemma strncpy_correct_witness :
  apart example_memory 0x8048000 32 0x500000 32 ∧
  writes example_memory (strncpy example_memory 0x8048000 0x500000 32) 0x8048000 32
    (λ i, nth (Z.to_nat i) (bytes_of "kernel") 0).
Proof.
  split; [closed_segment|].
  change (bytes_of "kernel") with (take_nul (bytes_of "kernel")).
  replace (bytes_of "kernel") with (take_nul (ld_bytes example_memory 0x500000 32)) by (by vm_compute).
  apply (strncpy_correct example_memory 0x8048000 0x500000 32); first [closed_segment | lia].
Defined.

(** [strcpy] copies the string and its terminator. *)
Lemma strcpy_correct m dest src l :
  let n := Z.of_nat (length l) + 1 in
  cstring m src l → seg dest n → seg src n → apart m dest n src n → n < 4294967296 →
  ∃ m', strcpy m dest src = Some m' ∧ writes m m' dest n (λ i, ld8 m (src + i)).
Proof.
  intros n Hc Hd Hs Ha Hn. unfold strcpy.
  apply while_loop_rule with
    (I := λ '(i, m1), 0 <= i < n ∧ writes m m1 dest i (λ j, ld8 m (src + j)))
    (v := λ '(i, _), n - i).
  - split; [lia|apply writes_nil].
  - lia.
  - intros [i m1] [Hi Hw] _.
    rewrite (prefix_src m m1 dest i (λ j, ld8 m (src + j)) src n) by (done || lia).
    destruct (Z.eqb_spec (ld8 m (src + i)) 0) as [E|E].
    + assert (i = n - 1) as Hin.
      { destruct (decide (i < Z.of_nat (length l))); [|lia].
        by apply (cstring_nz m src l) in E; [|done|lia]. }
      replace n with (i + 1) by lia.
      eapply writes_ext; [|apply writes_snoc; [exact Hw|apply (seg_shorter dest n)|]; (done || lia)].
      intros j Hj. cbn. bcase; subst. by rewrite E.
    + split; [split|lia].
      * destruct (decide (i = Z.of_nat (length l))) as [->|]; [|lia].
        destruct Hc as (_ & _ & ?). done.
      * eapply writes_ext; [|apply writes_snoc; [exact Hw|apply (seg_shorter dest n)|]; (done || lia)].
        intros j Hj. cbn. bcase; subst. by rewrite u8_small by apply ld8_range.
Qed.

(** ** Reversal in place *)

Lemma strrev_correct m s l :
  cstring m s l → Z.of_nat (length l) < 2147483648 → seg s (Z.of_nat (length l)) →
  ∃ m', strrev m s = Some m' ∧
    writes m m' s (Z.of_nat (length l)) (λ i, ld8 m (s + (Z.of_nat (length l) - 1 - i))).
Proof.
  intros Hc Hlen Hs. unfold strrev. rewrite (strlen_correct m s l) by (done || lia). rewrite bind_some.
  set (n := Z.of_nat (length l)) in *. assert (0 <= n) by lia. rewrite s32_small by lia.
  apply while_loop_rule with
    (I := λ '(beg, fin, m1), 0 <= beg ∧ beg + fin = n - 1 ∧ beg <= fin + 1 ∧
        writes m m1 s n (λ i, if (i <? beg) || (fin <? i) then ld8 m (s + (n - 1 - i)) else ld8 m (s + i)))
    (v := λ '(beg, fin, _), fin - beg + 1).
  - split_and!; [lia..|]. eapply writes_ext; [|by apply writes_self]. intros i Hi. cbn. by bcase.
  - lia.
  - intros [[beg fin] m1] (Hb & Hsum & Hle & Hw) _. destruct (Z.ltb_spec beg fin).
    + split; [|lia]. split_and!; [lia..|]. unfold swap8.
      rewrite (writes_at _ _ _ _ _ beg Hw), (writes_at _ _ _ _ _ fin Hw) by (done || lia).
      eapply writes_ext; [|eapply writes_upd; [eapply writes_upd; [exact Hw|done|lia]|done|lia]].
      intros i Hi. cbn.
      rewrite !u8_small by (repeat case_match; apply ld8_range).
      bcase; subst; f_equal; lia.
    + eapply writes_ext; [|exact Hw]. intros i Hi. cbn. bcase; f_equal; lia.
Qed.

(** The reversed bytes and the terminator after them are the reversed string. *)
Lemma reversed_cstring m m' s l :
  cstring m s l → seg s (Z.of_nat (length l) + 1) →
  writes m m' s (Z.of_nat (length l)) (λ i, ld8 m (s + (Z.of_nat (length l) - 1 - i))) →
  cstring m' s (reverse l).
Proof.
  intros (Hf & Hl & Hz) Hs Hw. split_and!.
  - by apply Forall_reverse.
  - intros i c Hc. pose proof (lookup_lt_Some _ _ _ Hc) as Hi. rewrite length_reverse in Hi.
    rewrite (writes_at _ _ _ _ _ (Z.of_nat i) Hw); [|by apply (seg_shorter s (Z.of_nat (length l) + 1)); [|lia]|lia].
    replace (Z.of_nat (length l) - 1 - Z.of_nat i) with (Z.of_nat (length l - S i)) by lia.
    apply Hl. by rewrite <- reverse_lookup.
  - rewrite length_reverse, (writes_frame _ _ _ _ _ _ Hw); [done|].
    destruct (decide (Z.of_nat (length l) = 0)); [lia|].
    rewrite (phys_seg m s (Z.of_nat (length l) + 1)) by (done || lia). lia.
Qed.

(** ** Numbers to text *)

Lemma value_of_snoc radix ds d : value_of radix (ds ++ [d]) = value_of radix ds * radix + d.
Proof. unfold value_of. by rewrite foldl_app. Qed.

Lemma digits_le_zero f radix : digits_le f radix 0 = [].
Proof. by destruct f. Qed.

Lemma pow2_S k : 2 ^ Z.of_nat (S k) = 2 * 2 ^ Z.of_nat k.
Proof. rewrite Nat2Z.inj_succ, Z.pow_succ_r by lia. done. Qed.

Lemma div_radix_bound radix v k :
  2 <= radix → 0 <= v < 2 ^ Z.of_nat (S k) → 0 <= v / radix < 2 ^ Z.of_nat k.
Proof.
  intros Hr Hv. rewrite pow2_S in Hv. split; [apply Z.div_pos; lia|].
  apply Z.div_lt_upper_bound; [lia|]. nia.
Qed.

Lemma digits_le_value radix f v :
  2 <= radix → 0 <= v < 2 ^ Z.of_nat f → value_of radix (reverse (digits_le f radix v)) = v.
Proof.
  intros Hr. revert v. induction f as [|f IH]; intros v Hv; cbn [digits_le].
  { cbn in Hv. by replace v with 0 by lia. }
  destruct (Z.eqb_spec v 0) as [->|Hz]; [done|].
  rewrite reverse_cons, value_of_snoc, IH by (by apply div_radix_bound).
  rewrite (Z.div_mod v radix) at 3 by lia. lia.
Qed.

Lemma digits_le_bound radix f v : 0 < radix → Forall (λ d, 0 <= d < radix) (digits_le f radix v).
Proof.
  intros Hr. revert v. induction f as [|f IH]; intros v; cbn [digits_le]; [constructor|].
  case_match; constructor; [by apply Z.mod_pos_bound|apply IH].
Qed.

Lemma digits_le_length radix f v : (length (digits_le f radix v) <= f)%nat.
Proof. revert v. induction f as [|f IH]; intros v; cbn; [lia|]. case_match; cbn; [lia|]. specialize (IH (v / radix)). lia. Qed.

Lemma digit_char_range d : 0 <= d < 36 → 48 <= digit_char d < 91.
Proof.
  intros H. assert (Hc : forallb (λ d, (48 <=? digit_char d) && (digit_char d <? 91)) (seqZ 0 36) = true)
    by (vm_compute; reflexivity).
  rewrite forallb_forall in Hc. specialize (Hc d).
  rewrite andb_true_iff, Z.leb_le, Z.ltb_lt in Hc. apply Hc, list_elem_of_In, elem_of_seqZ. lia.
Qed.

(** The digit a character stands for. *)
Definition digit_value (c : Z) : Z := if c <=? 57 then c - 48 else c - 55.

Lemma digit_value_char d : 0 <= d < 36 → digit_value (digit_char d) = d.
Proof.
  intros H. assert (Hc : forallb (λ d, digit_value (digit_char d) =? d) (seqZ 0 36) = true)
    by (vm_compute; reflexivity).
  rewrite forallb_forall in Hc. apply Z.eqb_eq, Hc, list_elem_of_In, elem_of_seqZ. lia.
Qed.

(** The text of a number: what [itoa] leaves in the buffer. *)
Definition number_text (radix v : Z) : list Z :=
  if v =? 0 then [48] else digit_char <$> reverse (digits_le 32 radix v).

Lemma number_text_length radix v : (1 <= length (number_text radix v) <= 32)%nat.
Proof.
  unfold number_text. destruct (Z.eqb_spec v 0); [cbn; lia|].
  rewrite length_fmap, length_reverse. pose proof (digits_le_length radix 32 v).
  split; [|lia]. cbn [digits_le]. destruct (Z.eqb_spec v 0); [lia|]. cbn. lia.
Qed.

Lemma number_text_chars radix v :
  2 <= radix <= 36 → Forall (λ c, 48 <= c < 91) (number_text radix v).
Proof.
  intros Hr. unfold number_text. case_match; [by repeat constructor|].
  rewrite Forall_fmap. apply Forall_reverse. eapply List.Forall_impl; [|apply (digits_le_bound radix); lia].
  intros d Hd. cbn. apply digit_char_range. cbn in Hd. lia.
Qed.

Lemma number_text_value radix v :
  2 <= radix <= 36 → 0 <= v < 4294967296 →
  value_of radix (digit_value <$> number_text radix v) = v.
Proof.
  intros Hr Hv. unfold number_text. destruct (Z.eqb_spec v 0) as [->|]; [done|].
  rewrite <- list_fmap_compose.
  replace (digit_value ∘ digit_char <$> reverse (digits_le 32 radix v)) with (reverse (digits_le 32 radix v)).
  { apply digits_le_value; [lia|]. done. }
  symmetry. rewrite <- (list_fmap_id (reverse _)) at 2. apply list_fmap_ext. intros i d Hd.
  apply digit_value_char.
  assert (Hf : Forall (λ d, 0 <= d < radix) (reverse (digits_le 32 radix v)))
    by (apply Forall_reverse, digits_le_bound; lia).
  pose proof (Forall_lookup_1 _ _ _ _ Hf Hd). cbn in *. lia.
Qed.

(** The conversion loop leaves the characters of the digits, least
    significant first. *)
Lemma itoa_loop m v buf radix :
  2 <= radix <= 36 → 0 <= v < 4294967296 → seg buf 33 →
  ∃ r, while_loop (λ '(newval, newbuf, m),
         if 0 <? newval
         then inl (newval / u32 radix, newbuf + 1,
                   st8 m newbuf (digit_char (s32 (newval mod u32 radix))))
         else inr (newbuf, m)) (u32 v, buf, m) = Some r ∧
    let ds := digits_le 32 radix v in
    r.1 = buf + Z.of_nat (length ds) ∧
    writes m r.2 buf (Z.of_nat (length ds)) (λ i, digit_char (nth (Z.to_nat i) ds 0)).
Proof.
  intros Hr Hv Hs. rewrite (u32_small v), (u32_small radix) by lia.
  apply while_loop_rule with
    (I := λ '(nv, nb, m1), ∃ ds k, length ds = k ∧ nb = buf + Z.of_nat k ∧ (k <= 32)%nat ∧
       digits_le 32 radix v = ds ++ digits_le (32 - k) radix nv ∧
       0 <= nv < 2 ^ Z.of_nat (32 - k) ∧
       writes m m1 buf (Z.of_nat k) (λ i, digit_char (nth (Z.to_nat i) ds 0)))
    (v := λ '(nv, _, _), nv).
  - exists [], O. split_and!; [done|cbn; lia|lia|done|cbn; lia|cbn; lia|apply writes_nil].
  - lia.
  - intros [[nv nb] m1] (ds & k & Hk & -> & Hk32 & Hds & Hnv & Hw) _.
    destruct (Z.ltb_spec 0 nv) as [Hpos|Hneg].
    + destruct (32 - k)%nat as [|f] eqn:Ef; [cbn in Hnv; lia|].
      assert (Hdiv : 0 <= nv / radix < 2 ^ Z.of_nat f) by (apply div_radix_bound; lia).
      assert (Hmod : 0 <= nv mod radix < radix) by (apply Z.mod_pos_bound; lia).
      split; [|split; [lia|]; apply Z.div_lt; lia].
      exists (ds ++ [nv mod radix]), (S k).
      replace (32 - S k)%nat with f by lia.
      split_and!; [rewrite length_app; cbn; lia|lia|lia| |lia|lia|].
      * rewrite Hds. cbn [digits_le]. destruct (Z.eqb_spec nv 0); [lia|].
        by rewrite <- app_assoc.
      * replace (Z.of_nat (S k)) with (Z.of_nat k + 1) by lia.
        eapply writes_ext; [|apply writes_snoc; [exact Hw|apply (seg_shorter buf 33); [done|lia]|lia]].
        intros i Hi. cbn beta. rewrite s32_small by lia.
        pose proof (digit_char_range (nv mod radix) ltac:(lia)).
        destruct (Z.eqb_spec i (Z.of_nat k)) as [->|].
        -- rewrite u8_small by lia. f_equal. rewrite app_nth2 by lia.
           by replace (Z.to_nat (Z.of_nat k) - length ds)%nat with O by lia.
        -- f_equal. by rewrite app_nth1 by lia.
    + assert (nv = 0) as -> by lia. rewrite digits_le_zero, app_nil_r in Hds.
      cbn [fst snd]. rewrite Hds, Hk. done.
Qed.

(** The digits with the NUL behind them: a string. *)
Lemma itoa_string m v buf radix :
  2 <= radix <= 36 → 0 <= v < 4294967296 → seg buf 33 →
  let ds := digits_le 32 radix v in let n := Z.of_nat (length ds) in
  ∃ m1 f, while_loop (λ '(newval, newbuf, m),
         if 0 <? newval
         then inl (newval / u32 radix, newbuf + 1,
                   st8 m newbuf (digit_char (s32 (newval mod u32 radix))))
         else inr (newbuf, m)) (u32 v, buf, m) = Some (buf + n, m1) ∧
    writes m (st8 m1 (buf + n) 0) buf (n + 1) f ∧ cstring (st8 m1 (buf + n) 0) buf (digit_char <$> ds).
Proof.
  intros Hr Hv Hs ds n. destruct (itoa_loop m v buf radix Hr Hv Hs) as ([nb m1] & He & Hnb & Hw).
  cbn zeta in Hnb, Hw. cbn [fst snd] in Hnb, Hw. subst nb. exists m1. eexists. split; [exact He|].
  pose proof (digits_le_length radix 32 v) as Hlen. pose proof (digits_le_bound radix 32 v ltac:(lia)) as Hb.
  fold ds in Hw, Hlen, Hb |- *. fold n in Hw |- *. clear He. clearbody ds.
  assert (Hsn : seg buf (n + 1)) by (apply (seg_shorter buf 33); [done|lia]).
  pose proof (writes_snoc _ _ _ _ _ 0 Hw Hsn ltac:(lia)) as Hw1. split; [exact Hw1|]. split_and!.
  - rewrite Forall_fmap. eapply List.Forall_impl; [|exact Hb]. intros d Hd.
    cbn beta in Hd. unfold compose. pose proof (digit_char_range d ltac:(lia)). lia.
  - intros i c Hc. rewrite list_lookup_fmap in Hc.
    destruct (ds !! i) as [d|] eqn:E; simplify_eq/=. pose proof (lookup_lt_Some _ _ _ E).
    rewrite (writes_at _ _ _ _ _ (Z.of_nat i) Hw1) by (done || lia).
    destruct (Z.eqb_spec (Z.of_nat i) n); [lia|]. rewrite Nat2Z.id. f_equal. by apply nth_lookup_Some.
  - rewrite length_fmap. fold n. rewrite (writes_at _ _ _ _ _ n Hw1) by (done || lia). by rewrite Z.eqb_refl.
Qed.

Lemma itoa_zero m buf radix :
  seg buf 33 → cstring (st8 (st8 m buf 48) (buf + 1) 0) buf (number_text radix 0).
Proof.
  change (number_text radix 0) with [48]. intros Hs. pose proof (writes_snoc m (st8 m buf 48) buf 1 _ 0 (writes_st8 m buf 48)
    (seg_shorter buf 33 2 Hs ltac:(lia)) ltac:(lia)) as Hw.
  assert (Hs2 : seg buf (1 + 1)) by (apply (seg_shorter buf 33); [done|lia]).
  split_and!; [by repeat constructor| |].
  - intros [|i] c Hc; cbn in Hc; simplify_eq. rewrite Z.add_0_r. by rewrite (writes_at0 _ _ _ _ _ Hw Hs2).
  - change (Z.of_nat (length [48])) with 1. by rewrite (writes_at _ _ _ _ _ 1 Hw Hs2).
Qed.

Lemma itoa_spec (m : memory) (v buf radix : Z) :
  2 <= radix <= 36 → 0 <= v < 4294967296 → seg buf 33 →
  ∃ m' f, itoa m v buf radix = Some m' ∧
    cstring m' buf (number_text radix v) ∧
    value_of radix (digit_value <$> number_text radix v) = v ∧
    writes m m' buf 33 f.
Proof.
  intros Hr Hv Hs.
  cut (∃ m' n f, itoa m v buf radix = Some m' ∧ writes m m' buf n f ∧
         0 <= n <= 33 ∧ cstring m' buf (number_text radix v)).
  { intros (m' & n & f & He & Hw & Hn & Hc).
    eexists m', _. split_and!; [done..|by apply number_text_value|].
    by apply (writes_widen m m' buf n 33). }
  unfold itoa. destruct (Z.eqb_spec v 0) as [->|Hv0].
  - assert (Hw : writes m (st8 (st8 m buf 48) (buf + 1) 0) buf 2 (λ i, if i =? 1 then u8 0 else u8 48)).
    { apply (writes_snoc m _ buf 1); [apply writes_st8|by apply (seg_shorter buf 33)|lia]. }
    eexists _, 2, _. split_and!; [done|exact Hw|lia..|by apply itoa_zero].
  - destruct (itoa_string m v buf radix Hr Hv Hs) as (m1 & f & He & Hw1 & Hc2).
    rewrite He, bind_some. pose proof (digits_le_length radix 32 v) as Hlen.
    unfold number_text. apply Z.eqb_neq in Hv0. rewrite Hv0.
    set (ds := digits_le 32 radix v) in *. set (n := Z.of_nat (length ds)) in *.
    assert (Hl2 : Z.of_nat (length (digit_char <$> ds)) = n) by by rewrite length_fmap.
    assert (Hsn : seg buf (n + 1)) by (apply (seg_shorter buf 33); [done|lia]). clear He. clearbody ds.
    destruct (strrev_correct _ buf (digit_char <$> ds) Hc2) as (m3 & He3 & Hw3); [lia|rewrite Hl2; apply (seg_shorter buf (n + 1)); [done|lia]|].
    rewrite Hl2 in Hw3. exists m3. eexists (n + 1), _. split_and!; [done| |lia..|].
    + eapply writes_over; [exact Hw1|]. eapply (writes_widen _ _ _ n); [exact Hw3|done|lia].
    + rewrite fmap_reverse. apply (reversed_cstring (st8 m1 (buf + n) 0) m3); rewrite ?Hl2; done.
Qed.

(** [itoa] writes the text of the number at [buf]: a C string of at most
    32 characters, in the first 33 bytes and nowhere else, which reads back in
    the given base as the number converted. *)
Theorem itoa_correct (m : memory) (v buf radix : Z) :
  2 <= radix <= 36 → 0 <= v < 4294967296 → seg buf 33 →
  ∃ m' f, itoa m v buf radix = Some m' ∧
    cstring m' buf (number_text radix v) ∧
    value_of radix (digit_value <$> number_text radix v) = v ∧
    writes m m' buf 33 f.
Proof. apply itoa_spec. Qed.

Lemma itoa_correct_witness :
  number_text 10 4294967295 = bytes_of "4294967295" ∧
  ∃ m' f, itoa example_memory 4294967295 0x500010 10 = Some m' ∧
    cstring m' 0x500010 (bytes_of "4294967295") ∧ writes example_memory m' 0x500010 33 f.
Proof.
  split; [by vm_compute|].
  destruct (itoa_correct example_memory 4294967295 0x500010 10) as (m' & f & He & Hc & _ & Hw);
    [lia|lia|closed_segment|].
  exists m', f. split; [exact He|]. split; [exact Hc|exact Hw].
Defined.

#[global] Opaque strncpy.
