(* ===== verification/Video.v ===== *)
(** * Text-mode pages

    A text page is 25 rows of 80 cells of two bytes, character and attribute.
    lib.c writes the page of the screen and terminal.c the backing page of a
    terminal, with the same loops at different addresses. *)

From S2P Require Import Prelude Memory.

Definition VIDEO : Z := 0xB8000.
Definition NUM_COLS : Z := 80.
Definition NUM_ROWS : Z := 25.
Definition ATTRIB : Z := 7.
Definition FOUR_KB : Z := 4096.

(** ** The writes of the source *)

(** [*(base + (k << 1)) = c; *(base + (k << 1) + 1) = ATTRIB;] *)
Definition put_cell (base k c : Z) (m : memory) : memory :=
  st8 (st8 m (base + Z.shiftl k 1) c) (base + Z.shiftl k 1 + 1) ATTRIB.

(** Every cell to a space. *)
Definition clear_page (base : Z) (m : memory) : memory :=
  for_up (Z.to_nat (NUM_ROWS * NUM_COLS)) 0 (λ i m, put_cell base i SPACE m) m.

(** Rows 1 to 24 of [src] onto rows 0 to 23 of [dst]. *)
Definition scroll_rows (dst src : Z) (m : memory) : memory :=
  for_up (Z.to_nat (NUM_ROWS - 1)) 0 (λ i m,
    for_up (Z.to_nat NUM_COLS) 0 (λ j m,
      put_cell dst (NUM_COLS * i + j) (ld8 m (src + Z.shiftl (NUM_COLS * (i + 1) + j) 1)) m) m) m.

(** The bottom row to spaces. *)
Definition blank_bottom (base : Z) (m : memory) : memory :=
  for_up (Z.to_nat NUM_COLS) 0 (λ j m, put_cell base (NUM_COLS * (NUM_ROWS - 1) + j) SPACE m) m.

(** ** Cells *)

Definition PAGE_BYTES : Z := 4000.
Definition CELLS : Z := 2000.

(** Character of cell [k]. *)
Definition cell (m : memory) (base k : Z) : Z := ld8 m (base + 2 * k).
Definition attr (m : memory) (base k : Z) : Z := ld8 m (base + 2 * k + 1).

(** [writes_cells m m' base ch at]: the page at [base] now has the characters
    [ch] and the attributes [at], and nothing else changed. *)
Definition writes_cells (m m' : memory) (base : Z) (ch at_ : Z → Z) : Prop :=
  writes m m' base PAGE_BYTES (λ b, if Z.even b then ch (b / 2) else at_ (b / 2)).

(** A function updated at a cell. *)
Definition cell_upd (f : Z → Z) (k v : Z) : Z → Z := λ i, if i =? k then v else f i.

Lemma even_double k : Z.even (2 * k) = true.
Proof. by rewrite Z.even_mul. Qed.

Lemma even_double_S k : Z.even (2 * k + 1) = false.
Proof. by rewrite Z.even_add, even_double. Qed.

Lemma double_div k : 2 * k / 2 = k.
Proof. rewrite Z.mul_comm. by apply Z.div_mul. Qed.

Lemma double_S_div k : (2 * k + 1) / 2 = k.
Proof. Z.div_mod_to_equations. lia. Qed.

Lemma byte_of_cell b : b = 2 * (b / 2) + (if Z.even b then 0 else 1).
Proof.
  rewrite Zeven_mod. pose proof (Z.div_mod b 2 ltac:(lia)).
  pose proof (Z.mod_pos_bound b 2 ltac:(lia)).
  destruct (Z.eqb_spec (b mod 2) 0); cbn; lia.
Qed.

Lemma writes_cells_self m base : seg base PAGE_BYTES → writes_cells m m base (cell m base) (attr m base).
Proof.
  intros Hs. eapply writes_ext; [|by apply writes_self].
  intros b _. unfold cell, attr. rewrite (byte_of_cell b) at 1.
  destruct (Z.even b); f_equal; lia.
Qed.

Lemma writes_cells_ch m m' base ch at_ k :
  writes_cells m m' base ch at_ → seg base PAGE_BYTES → 0 <= k < CELLS → cell m' base k = ch k.
Proof.
  unfold CELLS. intros Hw Hs Hk. unfold cell. rewrite (writes_at _ _ _ _ _ _ Hw) by (done || unfold PAGE_BYTES; lia).
  by rewrite even_double, double_div.
Qed.

Lemma writes_cells_at m m' base ch at_ k :
  writes_cells m m' base ch at_ → seg base PAGE_BYTES → 0 <= k < CELLS → attr m' base k = at_ k.
Proof.
  unfold CELLS. intros Hw Hs Hk. unfold attr. rewrite <- Z.add_assoc.
  rewrite (writes_at _ _ _ _ _ _ Hw) by (done || unfold PAGE_BYTES; lia).
  by rewrite even_double_S, double_S_div.
Qed.

Lemma writes_cells_ext m m' base ch at_ ch' at' :
  (∀ k, 0 <= k < CELLS → ch k = ch' k ∧ at_ k = at' k) →
  writes_cells m m' base ch at_ → writes_cells m m' base ch' at'.
Proof.
  intros Hx. apply writes_ext. unfold PAGE_BYTES. intros b Hb.
  destruct (Hx (b / 2)) as [H1 H2]; [unfold CELLS; Z.div_mod_to_equations; lia|]. by rewrite H1, H2.
Qed.

Lemma writes_cells_over m m1 m2 base ch at_ ch' at' :
  writes_cells m m1 base ch at_ → writes_cells m1 m2 base ch' at' → writes_cells m m2 base ch' at'.
Proof. apply writes_over. Qed.

Lemma put_cell_writes m m1 base ch at_ k c :
  writes_cells m m1 base ch at_ → seg base PAGE_BYTES → 0 <= k < CELLS →
  writes_cells m (put_cell base k c m1) base (cell_upd ch k (u8 c)) (cell_upd at_ k ATTRIB).
Proof.
  unfold CELLS. intros Hw Hs Hk. unfold put_cell.
  rewrite Z.shiftl_mul_pow2 by lia. change (2 ^ 1) with 2.
  replace (base + k * 2) with (base + 2 * k) by lia.
  replace (base + 2 * k + 1) with (base + (2 * k + 1)) by lia.
  eapply writes_ext;
    [|eapply writes_upd; [eapply writes_upd; [exact Hw|done|]|done|]; unfold PAGE_BYTES; lia].
  intros b Hb. cbn beta. unfold cell_upd.
  pose proof (byte_of_cell b) as Heb.
  destruct (Z.even b); bcase; try done.
Qed.

(** ** Effect of the loops *)

Lemma clear_page_writes m base :
  seg base PAGE_BYTES → writes_cells m (clear_page base m) base (λ _, SPACE) (λ _, ATTRIB).
Proof.
  intros Hs.
  assert (H : writes_cells m (clear_page base m) base
     (λ k, if k <? 2000 then SPACE else cell m base k) (λ k, if k <? 2000 then ATTRIB else attr m base k)).
  { apply (for_up_ind (λ i m1, writes_cells m m1 base (λ k, if k <? i then SPACE else cell m base k)
             (λ k, if k <? i then ATTRIB else attr m base k)) _ 2000 0 m).
    - eapply writes_cells_ext; [|by apply writes_cells_self]. intros k Hk. by bcase.
    - intros i m1 Hi Hw. eapply writes_cells_ext; [|apply put_cell_writes; [exact Hw|done|unfold CELLS; lia]].
      intros k Hk. unfold cell_upd. bcase; done. }
  eapply writes_cells_ext; [|exact H]. unfold CELLS. intros k Hk. by bcase.
Qed.

(** What [dst] holds after [n] cells of the scroll. *)
Definition scrolled (m : memory) (dst src n : Z) : Z → Z :=
  λ k, if k <? n then cell m src (k + NUM_COLS) else cell m dst k.
Definition scrolled_attr (m : memory) (dst n : Z) : Z → Z :=
  λ k, if k <? n then ATTRIB else attr m dst k.

(** The source page is the destination page or does not meet it. *)
Definition scroll_source (m : memory) (dst src : Z) : Prop :=
  dst = src ∨ (seg src PAGE_BYTES ∧ apart m dst PAGE_BYTES src PAGE_BYTES).

Lemma scrolled_src m m1 dst src n k :
  seg dst PAGE_BYTES → scroll_source m dst src →
  writes_cells m m1 dst (scrolled m dst src n) (scrolled_attr m dst n) →
  0 <= n <= k → k < CELLS → cell m1 src k = cell m src k.
Proof.
  unfold CELLS. intros Hd [<-|[Hs Ha]] Hw Hn Hk.
  - rewrite (writes_cells_ch _ _ _ _ _ _ Hw) by (done || unfold CELLS; lia). unfold scrolled. by bcase.
  - unfold cell. apply (writes_apart _ _ _ _ _ _ _ _ Hw Ha Hs). unfold PAGE_BYTES. lia.
Qed.

Lemma scroll_rows_writes m dst src :
  seg dst PAGE_BYTES → scroll_source m dst src →
  writes_cells m (scroll_rows dst src m) dst (scrolled m dst src 1920) (scrolled_attr m dst 1920).
Proof.
  intros Hd Hs.
  apply (for_up_ind (λ i m1, writes_cells m m1 dst (scrolled m dst src (80 * i)) (scrolled_attr m dst (80 * i)))
           _ 24 0 m).
  { eapply writes_cells_ext; [|by apply writes_cells_self].
    intros k Hk. unfold scrolled, scrolled_attr. by bcase. }
  intros i m1 Hi Hw. replace (80 * (i + 1)) with (80 * i + (0 + Z.of_nat 80)) by lia.
  apply (for_up_ind (λ j m2, writes_cells m m2 dst (scrolled m dst src (80 * i + j))
                       (scrolled_attr m dst (80 * i + j))) _ 80 0 m1).
  { by rewrite Z.add_0_r. }
  clear m1 Hw. intros j m1 Hj Hw.
  rewrite Z.shiftl_mul_pow2 by lia. change (2 ^ 1) with 2. rewrite (Z.mul_comm _ 2).
  fold (cell m1 src (NUM_COLS * (i + 1) + j)). unfold NUM_COLS.
  rewrite (scrolled_src m m1 dst src (80 * i + j)) by (done || unfold CELLS; lia).
  eapply writes_cells_ext; [|apply put_cell_writes; [exact Hw|done|unfold CELLS; lia]].
  intros k Hk. unfold cell_upd, scrolled, scrolled_attr, NUM_COLS.
  rewrite u8_small by apply ld8_range. split; bcase; subst; f_equal; lia.
Qed.

(** A whole scroll: rows move up by one and the bottom row is blank. *)
Definition scroll_text (m : memory) (src : Z) : Z → Z :=
  λ k, if k <? 1920 then cell m src (k + NUM_COLS) else SPACE.

Lemma scroll_writes m dst src :
  seg dst PAGE_BYTES → scroll_source m dst src →
  writes_cells m (blank_bottom dst (scroll_rows dst src m)) dst (scroll_text m src) (λ _, ATTRIB).
Proof.
  intros Hd Hs.
  assert (H : writes_cells m (blank_bottom dst (scroll_rows dst src m)) dst
     (λ k, if k <? 1920 then cell m src (k + NUM_COLS) else if k <? 2000 then SPACE else cell m dst k)
     (λ k, if k <? 2000 then ATTRIB else attr m dst k)).
  { apply (for_up_ind (λ j m1, writes_cells m m1 dst
       (λ k, if k <? 1920 then cell m src (k + NUM_COLS) else if k <? 1920 + j then SPACE else cell m dst k)
       (λ k, if k <? 1920 + j then ATTRIB else attr m dst k)) _ 80 0).
    - eapply writes_cells_ext; [|by apply scroll_rows_writes].
      intros k Hk. unfold scrolled, scrolled_attr. by bcase.
    - intros j m1 Hj Hw. change (NUM_COLS * (NUM_ROWS - 1)) with 1920.
      eapply writes_cells_ext; [|apply put_cell_writes; [exact Hw|done|unfold CELLS; lia]].
      intros k Hk. unfold cell_upd. split; bcase; done. }
  eapply writes_cells_ext; [|exact H]. unfold CELLS, scroll_text. intros k Hk. bcase; done.
Qed.

(** The video page is in the identity-mapped low memory. *)
Lemma video_seg : seg VIDEO PAGE_BYTES.
Proof. apply seg_kernel; unfold VIDEO, PAGE_BYTES, PROGRAM_PAGE; lia. Qed.
#[export] Hint Resolve video_seg : core.
