(* ===== verification/State.v ===== *)
(** * The kernel state

    One record per C file that owns globals, gathered in [kernel]; the
    outcomes of a kernel call and their monad; port input and output; the
    addresses the compiler and the linker choose. *)

From S2P Require Import Prelude Memory.

(** ** Component states *)

(** lib.h: [int screen_x; int screen_y;] *)
Record console := mkConsole { screen_x : Z; screen_y : Z }.

(** Port traffic: the bytes written, latest first, and the byte each port
    presents to [inb].  The devices are not modelled; a theorem holds for
    whatever they present. *)
Record devices := mkDevices { io_log : list (Z * Z); inport : Z → Z }.

(** terminal.h: [terminal_t], less [keyboard_buffer], which lives in memory
    because [keyboard_handler] passes pointers into it. *)
Record terminal_t := mkTerminal {
  x_position : Z;
  y_position : Z;
  buffer_index : Z;
  read_index : Z;
  read_flag : Z;
  shell_process_num : Z;
  process_num : Z;
  previous_process_num : Z;
  process_activated : Z;
  video_memory_storage_location : Z;
  rtc_lock : Z;
  current_esp : Z;
  current_ebp : Z;
}.

Record terminals := mkTerminals {
  terminal : arr terminal_t;
  active_terminal : Z;
  is_visible : Z;
}.

(** keyboard.c *)
Record keyboard := mkKeyboard {
  SHIFT_STATUS : Z;
  ALT_STATUS : Z;
  CAPS_STATUS : Z;
  CTRL_STATUS : Z;
  left_right_cursor_counter : Z;
  left_right_cursor_offsetter : Z;
}.

(** schedule.h: [sched_t active_schedule] *)
Record sched_t := mkSched {
  current_running_process_count : Z;
  next_terminal_in_schedule : Z;
  schedule_activated : Z;
}.

(** i8259.c *)
Record pic := mkPic { master_bit_mask : Z; slave_bit_mask : Z }.

(** rtc.c *)
Record rtc := mkRtc { is_rtc_interrupt_flag : Z }.

(** filesystem.h: the three addresses set by [filesystem_init]. *)
Record filesystem := mkFilesystem {
  g_b_block : Z;
  g_index_nodes : Z;
  g_directory_entries : Z;
  index : Z;
}.

(** systemcalls.c *)
Record processes := mkProcesses { pcb_occupants : arr Z; process_previous : arr Z }.

(** paging.h *)
Record paging := mkPaging {
  pDirectory : arr Z;
  pTable : arr Z;
  pTable2 : arr Z;
  videopTable : arr Z;
}.

(** x86_desc.h: [idt_desc_t], bit fields as numbers. *)
Record idt_desc_t := mkIdtDesc {
  offset_15_00 : Z;
  seg_selector : Z;
  reserved4 : Z;
  reserved3 : Z;
  reserved2 : Z;
  reserved1 : Z;
  gate_size : Z;
  reserved0 : Z;
  dpl : Z;
  gate_present : Z;
  offset_31_16 : Z;
}.

#[export] Instance idt_desc_inhabited : Inhabited idt_desc_t := populate (mkIdtDesc 0 0 0 0 0 0 0 0 0 0 0).

(** x86_desc.h: [seg_desc_t], bit fields as numbers. *)
Record seg_desc_t := mkSegDesc {
  seg_lim_15_00 : Z;
  base_15_00 : Z;
  base_23_16 : Z;
  seg_type : Z;
  seg_sys : Z;
  seg_dpl : Z;
  seg_present : Z;
  seg_lim_19_16 : Z;
  avail : Z;
  seg_reserved : Z;
  opsize : Z;
  granularity : Z;
  base_31_24 : Z;
}.

(** The descriptors in x86_desc.S that C code fills, the registers that select
    two of them ([lldt], [ltr]) and the selectors of [tss]. *)
Record descriptors := mkDescriptors {
  idt : arr idt_desc_t;
  ldt_desc_ptr : seg_desc_t;
  tss_desc_ptr : seg_desc_t;
  ldtr : Z;
  task_register : Z;
  ldt_segment_selector : Z;
  ss0 : Z;
}.

(** The registers the C code reads or writes, and [tss.esp0]. *)
Record cpu := mkCpu { esp : Z; ebp : Z; esp0 : Z; iflag : bool }.

Record kernel := mkKernel {
  k_mem :> memory;
  k_con :> console;
  k_dev :> devices;
  k_term :> terminals;
  k_kbd :> keyboard;
  k_sched :> sched_t;
  k_pic :> pic;
  k_rtc :> rtc;
  k_fs :> filesystem;
  k_proc :> processes;
  k_paging :> paging;
  k_cpu :> cpu;
  k_desc :> descriptors;
}.

(** ** Updates *)

(** [update_field eta proj f r] builds the record [r] with [proj] mapped
    through [f], from the eta expansion [eta] of the record. *)
Ltac update_field eta proj f r :=
  let b := eval red in (eta r) in
  lazymatch b with
  | context C [proj r] => let t := context C [f (proj r)] in exact t
  end.

Definition eta_kernel (s : kernel) : kernel :=
  mkKernel (k_mem s) (k_con s) (k_dev s) (k_term s) (k_kbd s) (k_sched s) (k_pic s)
           (k_rtc s) (k_fs s) (k_proc s) (k_paging s) (k_cpu s) (k_desc s).

Definition upd_mem (f : memory → memory) (s : kernel) : kernel := ltac:(update_field eta_kernel k_mem f s).
Definition upd_con (f : console → console) (s : kernel) : kernel := ltac:(update_field eta_kernel k_con f s).
Definition upd_dev (f : devices → devices) (s : kernel) : kernel := ltac:(update_field eta_kernel k_dev f s).
Definition upd_term (f : terminals → terminals) (s : kernel) : kernel := ltac:(update_field eta_kernel k_term f s).
Definition upd_kbd (f : keyboard → keyboard) (s : kernel) : kernel := ltac:(update_field eta_kernel k_kbd f s).
Definition upd_sched (f : sched_t → sched_t) (s : kernel) : kernel := ltac:(update_field eta_kernel k_sched f s).
Definition upd_pic (f : pic → pic) (s : kernel) : kernel := ltac:(update_field eta_kernel k_pic f s).
Definition upd_rtc (f : rtc → rtc) (s : kernel) : kernel := ltac:(update_field eta_kernel k_rtc f s).
Definition upd_fs (f : filesystem → filesystem) (s : kernel) : kernel := ltac:(update_field eta_kernel k_fs f s).
Definition upd_proc (f : processes → processes) (s : kernel) : kernel := ltac:(update_field eta_kernel k_proc f s).
Definition upd_paging (f : paging → paging) (s : kernel) : kernel := ltac:(update_field eta_kernel k_paging f s).
Definition upd_cpu (f : cpu → cpu) (s : kernel) : kernel := ltac:(update_field eta_kernel k_cpu f s).
Definition upd_desc (f : descriptors → descriptors) (s : kernel) : kernel := ltac:(update_field eta_kernel k_desc f s).

Definition eta_terminal (t : terminal_t) : terminal_t :=
  mkTerminal (x_position t) (y_position t) (buffer_index t) (read_index t) (read_flag t)
    (shell_process_num t) (process_num t) (previous_process_num t) (process_activated t)
    (video_memory_storage_location t) (rtc_lock t) (current_esp t) (current_ebp t).

Definition set_x_position (v : Z) (t : terminal_t) : terminal_t := ltac:(update_field eta_terminal x_position (λ _ : Z, v) t).
Definition set_y_position (v : Z) (t : terminal_t) : terminal_t := ltac:(update_field eta_terminal y_position (λ _ : Z, v) t).
Definition set_buffer_index (v : Z) (t : terminal_t) : terminal_t := ltac:(update_field eta_terminal buffer_index (λ _ : Z, v) t).
Definition set_read_index (v : Z) (t : terminal_t) : terminal_t := ltac:(update_field eta_terminal read_index (λ _ : Z, v) t).
Definition set_read_flag (v : Z) (t : terminal_t) : terminal_t := ltac:(update_field eta_terminal read_flag (λ _ : Z, v) t).
Definition set_process_num (v : Z) (t : terminal_t) : terminal_t := ltac:(update_field eta_terminal process_num (λ _ : Z, v) t).
Definition set_process_activated (v : Z) (t : terminal_t) : terminal_t := ltac:(update_field eta_terminal process_activated (λ _ : Z, v) t).
Definition set_video_memory_storage_location (v : Z) (t : terminal_t) : terminal_t :=
  ltac:(update_field eta_terminal video_memory_storage_location (λ _ : Z, v) t).
Definition set_rtc_lock (v : Z) (t : terminal_t) : terminal_t := ltac:(update_field eta_terminal rtc_lock (λ _ : Z, v) t).
Definition set_current_esp (v : Z) (t : terminal_t) : terminal_t := ltac:(update_field eta_terminal current_esp (λ _ : Z, v) t).
Definition set_current_ebp (v : Z) (t : terminal_t) : terminal_t := ltac:(update_field eta_terminal current_ebp (λ _ : Z, v) t).

#[export] Instance terminal_inhabited : Inhabited terminal_t :=
  populate (mkTerminal 0 0 0 0 0 0 0 0 0 0 0 0 0).

(** [terminal[i].field = ...] *)
Definition upd_terminal (i : Z) (f : terminal_t → terminal_t) (s : kernel) : kernel :=
  upd_term (λ t, mkTerminals (<[i := f (terminal t !!! i)]> (terminal t))
                             (active_terminal t) (is_visible t)) s.
Definition set_active_terminal (v : Z) (s : kernel) : kernel :=
  upd_term (λ t, mkTerminals (terminal t) v (is_visible t)) s.
Definition set_is_visible (v : Z) (s : kernel) : kernel :=
  upd_term (λ t, mkTerminals (terminal t) (active_terminal t) v) s.

Definition set_screen_x (v : Z) (s : kernel) : kernel := upd_con (λ c, mkConsole v (screen_y c)) s.
Definition set_screen_y (v : Z) (s : kernel) : kernel := upd_con (λ c, mkConsole (screen_x c) v) s.

(** [*(uint8_t* )a = v] *)
Definition store8 (a v : Z) (s : kernel) : kernel := upd_mem (λ m, st8 m a v) s.

(** An update of the memory only depends on its value at the present memory. *)
Lemma upd_mem_at f s : upd_mem f s = upd_mem (λ _, f (k_mem s)) s.
Proof. done. Qed.

Lemma upd_mem_comp f g s : upd_mem f (upd_mem g s) = upd_mem (λ _, f (g (k_mem s))) s.
Proof. done. Qed.

Lemma k_mem_upd f s : k_mem (upd_mem f s) = f (k_mem s).
Proof. done. Qed.

Lemma lookup_total_insert_Z {A} `{Inhabited A} (m : arr A) i j x :
  <[i := x]> m !!! j = if i =? j then x else m !!! j.
Proof.
  unfold lookup_total, map_lookup_total.
  destruct (Z.eqb_spec i j) as [->|Hne];
    [by rewrite lookup_insert_eq | by rewrite lookup_insert_ne by done].
Qed.

(** ** Port input and output, interrupt flag *)

Definition outb (data port : Z) (s : kernel) : kernel :=
  upd_dev (λ d, mkDevices ((u8 data, port) :: io_log d) (inport d)) s.
Definition inb (port : Z) (s : kernel) : Z := u8 (inport s port).

Definition cli (s : kernel) : kernel := upd_cpu (λ c, mkCpu (esp c) (ebp c) (esp0 c) false) s.
Definition sti (s : kernel) : kernel := upd_cpu (λ c, mkCpu (esp c) (ebp c) (esp0 c) true) s.

(** ** Outcomes

    A kernel call returns, or spins in a wait loop that this state does not
    leave ([Block]), or leaves for user mode ([EnterUser]), or jumps to
    [ret_from_execute] on a saved stack ([Resume]), or calls through a pointer
    that is no operation table ([Crash]), or loops for ever ([Diverge]). *)
Inductive outcome (A : Type) : Type :=
  | Ret (a : A) (s : kernel)
  | Block (s : kernel)
  | EnterUser (eip : Z) (s : kernel)
  | Resume (esp ebp eax : Z) (s : kernel)
  | Crash (s : kernel)
  | Diverge.
Arguments Ret {A} a s.
Arguments Block {A} s.
Arguments EnterUser {A} eip s.
Arguments Resume {A} esp ebp eax s.
Arguments Crash {A} s.
Arguments Diverge {A}.

Definition M (A : Type) : Type := kernel → outcome A.

#[export] Instance M_ret : MRet M := λ A a s, Ret a s.
#[export] Instance M_bind : MBind M := λ A B f m s,
  match m s with
  | Ret a s' => f a s'
  | Block s' => Block s'
  | EnterUser eip s' => EnterUser eip s'
  | Resume esp ebp eax s' => Resume esp ebp eax s'
  | Crash s' => Crash s'
  | Diverge => Diverge
  end.

Definition gets {A} (f : kernel → A) : M A := λ s, Ret (f s) s.
Definition modify (f : kernel → kernel) : M unit := λ s, Ret tt (f s).
Definition try_opt {A} (o : option A) : M A := λ s, match o with Some a => Ret a s | None => Diverge end.
Definition block {A} : M A := λ s, Block s.
Definition crash {A} : M A := λ s, Crash s.
Definition enter_user {A} (eip : Z) : M A := λ s, EnterUser eip s.
Definition resume {A} (esp ebp eax : kernel → Z) : M A := λ s, Resume (esp s) (ebp s) (eax s) s.
Definition if_then (b : bool) (m : M unit) : M unit := if b then m else mret tt.

Lemma bind_ret {A B} (m : M A) (f : A → M B) s a s' :
  m s = Ret a s' → (m ≫= f) s = f a s'.
Proof. intros H. unfold mbind, M_bind. by rewrite H. Qed.

(** What enters user mode does not come back. *)
Lemma bind_enter {A B} (m : M A) (f : A → M B) s e s' : m s = EnterUser e s' → (m ≫= f) s = EnterUser e s'.
Proof. intros E. unfold mbind, M_bind. by rewrite E. Qed.

(** ** Addresses *)

(** Where the linker puts the globals whose address the code takes, and where
    the compiler puts the locals whose address it takes. *)
Class Layout := {
  terminal_addr : Z;            (* terminal_t terminal[3], 540 bytes *)
  term_table : Z;               (* file_op_jmp_table, 16 bytes each *)
  rtc_table : Z;
  directory_table : Z;
  file_table : Z;
  pDirectory_addr : Z;          (* page-aligned tables, 4096 bytes each *)
  pTable_addr : Z;
  pTable2_addr : Z;
  videopTable_addr : Z;
  lit_shell : Z;                (* the literal shell of halt and schedule_handling *)
  loc_conv_buf : Z;             (* printf: conv_buf[64] *)
  loc_directory_read_dentry : Z;
  loc_open_dentry : Z;
  loc_check_valid_dentry : Z;
  loc_check_valid_buf : Z;
  loc_execute_file_name : Z;
  loc_execute_args : Z;
  loc_execute_enter : Z;
  loc_rtc_open_frequency : Z;
  ring_three_depth : Z;         (* from the stack pointer of execute down to the frame of go_to_ring_three *)
}.

(** Objects with their sizes. *)
Definition objects `{Layout} : list (Z * Z) :=
  [(terminal_addr, 540); (term_table, 16); (rtc_table, 16); (directory_table, 16);
   (file_table, 16); (pDirectory_addr, 4096); (pTable_addr, 4096); (pTable2_addr, 4096);
   (videopTable_addr, 4096); (lit_shell, 6); (loc_conv_buf, 64);
   (loc_directory_read_dentry, 64); (loc_open_dentry, 64); (loc_check_valid_dentry, 64);
   (loc_check_valid_buf, 4); (loc_execute_file_name, 33); (loc_execute_args, 33);
   (loc_execute_enter, 4); (loc_rtc_open_frequency, 4)].

(** The kernel image starts at 4 MB ([-Ttext=0x400000]); the six kernel stacks,
    8 KB each with the PCB at the bottom, end at 8 MB. *)
Definition KERNEL_START : Z := 0x400000.
Definition KERNEL_END : Z := 0x800000.
Definition PCB_SIZE : Z := 172.

(** [EIGHTMB-(EIGHTKB*(pid+1))] *)
Definition pcb_addr (pid : Z) : Z := 0x800000 - 0x2000 * (pid + 1).
Definition pcb_objects : list (Z * Z) := (λ pid, (pcb_addr pid, PCB_SIZE)) <$> [0; 1; 2; 3; 4; 5].

Definition obj_in_kernel (o : Z * Z) : bool := (KERNEL_START <=? o.1) && (o.1 + o.2 <=? KERNEL_END).
Definition obj_disjoint (o o' : Z * Z) : bool := (o.1 + o.2 <=? o'.1) || (o'.1 + o'.2 <=? o.1).
Fixpoint pairwise_disjoint (l : list (Z * Z)) : bool :=
  match l with
  | [] => true
  | o :: l' => forallb (obj_disjoint o) l' && pairwise_disjoint l'
  end.

(** What a linked kernel guarantees of them. *)
Class LayoutOK (L : Layout) : Prop := {
  layout_in_kernel : forallb obj_in_kernel objects = true;
  layout_disjoint : pairwise_disjoint (objects ++ pcb_objects) = true;
  layout_aligned : pDirectory_addr mod 4096 = 0 ∧ pTable_addr mod 4096 = 0 ∧
                   pTable2_addr mod 4096 = 0 ∧ videopTable_addr mod 4096 = 0;
}.

Section LayoutFacts.
Context {L : Layout} {HL : LayoutOK L}.

Lemma obj_bounds i o : objects !! i = Some o → KERNEL_START <= o.1 ∧ o.1 + o.2 <= KERNEL_END.
Proof.
  intros Hi. pose proof layout_in_kernel as Hk. rewrite forallb_forall in Hk.
  specialize (Hk o). unfold obj_in_kernel in Hk. rewrite andb_true_iff, !Z.leb_le in Hk.
  apply Hk, list_elem_of_In, list_elem_of_lookup. by exists i.
Qed.

(** Objects are given by their positions in the list; the PCBs come last. *)
Lemma obj_sep i j o o' :
  (objects ++ pcb_objects) !! i = Some o → (objects ++ pcb_objects) !! j = Some o' → i ≠ j →
  o.1 + o.2 <= o'.1 ∨ o'.1 + o'.2 <= o.1.
Proof.
  assert (Hsym : ∀ l i j o o', pairwise_disjoint l = true → l !! i = Some o → l !! j = Some o' →
            (i < j)%nat → o.1 + o.2 <= o'.1 ∨ o'.1 + o'.2 <= o.1).
  { clear. induction l as [|x l IH]; intros i j o o' Hd Hi Hj Hlt; [done|].
    cbn in Hd. apply andb_true_iff in Hd as [Hx Hd]. destruct j as [|j]; [lia|].
    destruct i as [|i]; cbn in Hi, Hj; [|by apply (IH i j); (done || lia)].
    simplify_eq. rewrite forallb_forall in Hx. specialize (Hx o').
    unfold obj_disjoint in Hx. rewrite orb_true_iff, !Z.leb_le in Hx.
    apply Hx, list_elem_of_In, list_elem_of_lookup. by exists j. }
  intros Hi Hj Hne. pose proof layout_disjoint as Hd. destruct (decide (i < j)%nat).
  - by apply (Hsym _ i j o o' Hd).
  - apply or_comm. apply (Hsym _ j i _ _ Hd Hj Hi). lia.
Qed.
End LayoutFacts.

(** A concrete layout, for the witnesses. *)
Definition example_layout : Layout := {|
  terminal_addr := 0x410000; term_table := 0x411000; rtc_table := 0x411010;
  directory_table := 0x411020; file_table := 0x411030;
  pDirectory_addr := 0x420000; pTable_addr := 0x421000; pTable2_addr := 0x422000;
  videopTable_addr := 0x423000; lit_shell := 0x430000; loc_conv_buf := 0x7F0000;
  loc_directory_read_dentry := 0x7F0100; loc_open_dentry := 0x7F0140;
  loc_check_valid_dentry := 0x7F0180; loc_check_valid_buf := 0x7F01C0;
  loc_execute_file_name := 0x7F0200; loc_execute_args := 0x7F0240;
  loc_execute_enter := 0x7F0280; loc_rtc_open_frequency := 0x7F0284; ring_three_depth := 16 |}.

#[export] Instance example_layout_ok : LayoutOK example_layout.
Proof. split; vm_compute; auto. Qed.

(** A zeroed machine, as the BSS is at boot, for the witnesses. *)
Definition zero_kernel : kernel :=
  mkKernel (mkMem ∅ 0) (mkConsole 0 0) (mkDevices [] (λ _, 0)) (mkTerminals ∅ 0 0)
    (mkKeyboard 0 0 0 0 0 0) (mkSched 0 0 0) (mkPic 0 0) (mkRtc 0) (mkFilesystem 0 0 0 0)
    (mkProcesses ∅ ∅) (mkPaging ∅ ∅ ∅ ∅) (mkCpu 0x7FFFFC 0x7FFFFC 0 true)
    (mkDescriptors ∅ (mkSegDesc 0 0 0 0 0 0 0 0 0 0 0 0 0) (mkSegDesc 0 0 0 0 0 0 0 0 0 0 0 0 0) 0 0 0 0).

(** [for (i = i0; n iterations; i++) f(i)] in the monad. *)
Fixpoint for_upM (n : nat) (i : Z) (f : Z → M unit) : M unit :=
  match n with
  | O => mret tt
  | S k => _ ← f i; for_upM k (i + 1) f
  end.
