(* ===== verification/Runs.v ===== *)
(** * Loops and total correctness of calls

    The loops of C code whose body calls the kernel, and the rules that prove
    that a call returns and what it establishes: [runs m s Q]. *)

From S2P Require Import Prelude Memory State.

Implicit Types s : kernel.

(** ** Loops in the monad *)

(** [for (;;) body]: the body goes on with a new value or leaves with a
    result; whatever does not return leaves the loop as it is. *)
Definition iter_M {A R} (body : A → M (A + R)) (a : A) : M R := λ s,
  default Diverge (while_loop (S := A * kernel) (R := outcome R) (λ '(a, s),
    match body a s with
    | Ret (inl a') s' => inl (a', s')
    | Ret (inr r) s' => inr (Ret r s')
    | Block s' => inr (Block s')
    | EnterUser eip s' => inr (EnterUser eip s')
    | Resume e b r s' => inr (Resume e b r s')
    | Crash s' => inr (Crash s')
    | Diverge => inr Diverge
    end) (a, s)).

(** [while (test(a)) a = body(a);] *)
Definition while_M {A} (test : A → kernel → bool) (body : A → M A) : A → M A :=
  iter_M (λ a s, if test a s then (a' ← body a; mret (inl a')) s else Ret (inr a) s).

(** [for (i = i0; n iterations; i++) a = f(i, a);] *)
Fixpoint for_accM {A} (n : nat) (i : Z) (f : Z → A → M A) (a : A) : M A :=
  match n with
  | O => mret a
  | S k => a ← f i a; for_accM k (i + 1) f a
  end.

(** ** What a call that returns establishes *)

Definition runs {A} (m : M A) (s : kernel) (Q : A → kernel → Prop) : Prop :=
  ∃ a s', m s = Ret a s' ∧ Q a s'.

Lemma runs_ret {A} (a : A) s (Q : A → kernel → Prop) : Q a s → runs (mret a) s Q.
Proof. intros H. by exists a, s. Qed.

Lemma runs_bind {A B} (m : M A) (f : A → M B) s Q :
  runs m s (λ a s', runs (f a) s' Q) → runs (m ≫= f) s Q.
Proof. intros (a & s1 & E & b & s2 & E' & H). exists b, s2. split; [|exact H]. by rewrite (bind_ret _ _ _ _ _ E). Qed.

Lemma runs_mono {A} (m : M A) s (Q Q' : A → kernel → Prop) :
  runs m s Q → (∀ a s', Q a s' → Q' a s') → runs m s Q'.
Proof. intros (a & s1 & E & H) Himp. exists a, s1. split; [exact E|by apply Himp]. Qed.

(** The same with what is known of the call first. *)
Lemma runs_step {A B} (m : M A) (f : A → M B) s (P : A → kernel → Prop) Q :
  runs m s P → (∀ a s', P a s' → runs (f a) s' Q) → runs (m ≫= f) s Q.
Proof. intros Hm Hf. apply runs_bind. by eapply runs_mono. Qed.

(** A run of two steps, split. *)
Lemma runs_unbind {A B} (m : M A) (f : A → M B) s Q :
  runs (m ≫= f) s Q → ∃ a s1, m s = Ret a s1 ∧ runs (f a) s1 Q.
Proof.
  unfold runs at 1, mbind, M_bind. intros (b & s' & E & H). destruct (m s) as [a s1| | | | |]; try done.
  exists a, s1. split; [done|]. by exists b, s'.
Qed.

Lemma runs_map {A B} (m : M A) (g : A → B) s Q : runs (m ≫= λ a, mret (g a)) s Q → runs m s (λ a, Q (g a)).
Proof.
  intros (b & s' & E & H). unfold mbind, M_bind in E. destruct (m s) as [a t| | | | |] eqn:Em; try done.
  injection E as <- <-. by exists a, t.
Qed.

Lemma runs_eq {A} (m : M A) a s s' (Q : A → kernel → Prop) : m s = Ret a s' → Q a s' → runs m s Q.
Proof. intros E H. by exists a, s'. Qed.

Lemma runs_gets {A} (f : kernel → A) s (Q : A → kernel → Prop) : Q (f s) s → runs (gets f) s Q.
Proof. intros H. by exists (f s), s. Qed.

Lemma runs_modify (f : kernel → kernel) s (Q : unit → kernel → Prop) : Q tt (f s) → runs (modify f) s Q.
Proof. intros H. by exists tt, (f s). Qed.

Lemma bind_modify {B} f (k : unit → M B) s : (modify f ≫= k) s = k tt (f s).
Proof. done. Qed.

Lemma runs_modify_inv {B} f (k : unit → M B) s Q : runs (modify f ≫= k) s Q → runs (k tt) (f s) Q.
Proof. unfold runs. by rewrite bind_modify. Qed.

Lemma runs_for_index n i f s (I : Z → kernel → Prop) :
  I i s → (∀ j s, i <= j < i + Z.of_nat n → I j s → runs (f j) s (λ _, I (j + 1))) →
  runs (for_upM n i f) s (λ _, I (i + Z.of_nat n)).
Proof.
  revert i s. induction n as [|n IH]; intros i t HI Hf; cbn [for_upM].
  - apply runs_ret. by rewrite Z.add_0_r.
  - eapply runs_step; [apply Hf; [lia|exact HI]|]. intros ? t' HI'.
    replace (i + Z.of_nat (S n)) with (i + 1 + Z.of_nat n) by lia. apply IH; [exact HI'|]. intros j u Hj. apply Hf. lia.
Qed.

Lemma runs_acc {A} n i (f : Z → A → M A) a s (I : Z → A → kernel → Prop) :
  I i a s → (∀ j a s, i <= j < i + Z.of_nat n → I j a s → runs (f j a) s (λ a', I (j + 1) a')) →
  runs (for_accM n i f a) s (λ a', I (i + Z.of_nat n) a').
Proof.
  revert i a s. induction n as [|n IH]; intros i a t HI Hf; cbn [for_accM].
  - apply runs_ret. by rewrite Z.add_0_r.
  - eapply runs_step; [apply Hf; [lia|exact HI]|]. intros a' t' HI'.
    replace (i + Z.of_nat (S n)) with (i + 1 + Z.of_nat n) by lia. apply IH; [exact HI'|]. intros j b u Hj. apply Hf. lia.
Qed.

Lemma runs_for n i f s (I : kernel → Prop) :
  I s → (∀ j s, I s → runs (f j) s (λ _, I)) → runs (for_upM n i f) s (λ _, I).
Proof. intros HI Hf. apply (runs_for_index n i f s (λ _, I) HI). auto. Qed.

(** A loop ends when a variant decreases with every turn that goes on. *)
Lemma runs_iter {A R} (body : A → M (A + R)) a s (I : A → kernel → Prop) (v : A → kernel → Z) (Q : R → kernel → Prop) :
  I a s → 0 <= v a s <= 4294967296 →
  (∀ a s, I a s → 0 <= v a s →
     runs (body a) s (λ x s', match x with inl a' => I a' s' ∧ 0 <= v a' s' < v a s | inr r => Q r s' end)) →
  runs (iter_M body a) s Q.
Proof.
  intros HI Hv Hbody. unfold runs, iter_M. cbn beta.
  match goal with |- context [while_loop ?f _] => set (step := f) end.
  destruct (while_loop_rule step (λ p, I p.1 p.2) (λ p, v p.1 p.2)
    (λ r, ∃ a' s', r = Ret a' s' ∧ Q a' s') (a, s) HI Hv) as (r & -> & a' & s' & -> & H).
  - intros [b t] Ib Vb. cbn [fst snd] in *. unfold step.
    destruct (Hbody b t Ib Vb) as ([b'|r] & t' & -> & H); [exact H|by exists r, t'].
  - by exists a', s'.
Qed.

(** The same with a rank that is no function of the state. *)
Lemma runs_ranked {A R} (body : A → M (A + R)) n a s (I : nat → A → kernel → Prop) (Q : R → kernel → Prop) :
  I n a s → Z.of_nat n <= 4294967296 →
  (∀ n a s, I n a s → runs (body a) s (λ x s', match x with inl a' => ∃ k, (k < n)%nat ∧ I k a' s' | inr r => Q r s' end)) →
  runs (iter_M body a) s Q.
Proof.
  intros HI Hn Hbody. unfold runs, iter_M. cbn beta.
  match goal with |- context [while_loop ?f _] => set (step := f) end.
  assert (Hsteps : ∃ k t r s', (k <= n)%nat ∧ nat_iter step k (a, s) = inl t ∧ step t = inr (Ret r s') ∧ Q r s').
  { clear Hn. revert a s HI. induction (lt_wf n) as [n _ IH]. intros b t HI.
    destruct (Hbody n b t HI) as ([b'|r] & t' & E & H).
    - destruct H as (j & Hj & HI'). destruct (IH j Hj b' t' HI') as (k & u & r & u' & Hk & E1 & E2 & Hq).
      exists (S k), u, r, u'. split; [lia|]. split; [|by split]. cbn [nat_iter]. unfold step at 1. by rewrite E.
    - exists 0%nat, (b, t), r, t'. split; [lia|]. split; [done|]. split; [unfold step; by rewrite E|done]. }
  destruct Hsteps as (k & t & r & s' & Hk & E1 & E2 & Hq). rewrite (while_loop_steps step k _ t _ E1 E2) by lia. by exists r, s'.
Qed.

Lemma runs_while {A} (test : A → kernel → bool) (body : A → M A) a s
    (I : A → kernel → Prop) (v : A → Z) :
  I a s → 0 <= v a <= 4294967296 →
  (∀ a s, I a s → 0 <= v a → test a s = true → runs (body a) s (λ a' s', I a' s' ∧ 0 <= v a' < v a)) →
  runs (while_M test body a) s (λ a' s', I a' s' ∧ test a' s' = false).
Proof.
  intros HI Hv Hbody. apply (runs_iter _ _ _ I (λ a _, v a)); [done..|]. intros b t Ib Vb. unfold runs at 1.
  destruct (test b t) eqn:Ht; [|by exists (inr b), t].
  destruct (Hbody b t Ib Vb Ht) as (b' & t' & E & H). exists (inl b'), t'. by rewrite (bind_ret _ _ _ _ _ E).
Qed.
