(* ===== verification/Console.v ===== *)
(** * The text console of lib.c

    [putc] and its four handlers, [clear], [scroll_up], [update_cursor],
    [puts] and [printf].  The console is specified by an abstract screen, the
    list of its 2000 characters and a cursor. *)

From S2P Require Import Prelude Memory LibStr Video State.

Implicit Types s : kernel.

(** ** The code *)

(** CRTC ports: register select, data. *)
Definition update_cursor (x y : Z) (s : kernel) : kernel :=
  let position := u16 (y * NUM_COLS + x) in
  let s := outb 0x0F 0x3D4 s in
  let s := outb (u8 (Z.land position 0xFF)) 0x3D5 s in
  let s := outb 0x0E 0x3D4 s in
  outb (u8 (Z.land (Z.shiftr position 8) 0xFF)) 0x3D5 s.

Definition clear (s : kernel) : kernel :=
  let s := upd_mem (clear_page VIDEO) s in
  let s := set_screen_y 0 s in
  let s := set_screen_x 0 s in
  update_cursor (screen_x s) (screen_y s) s.

Definition scroll_up (s : kernel) : kernel :=
  let s := upd_mem (scroll_rows VIDEO VIDEO) s in
  let s := upd_mem (blank_bottom VIDEO) s in
  let s := set_screen_x 0 s in
  set_screen_y (NUM_ROWS - 1) s.

Definition handle_enter (s : kernel) : kernel :=
  let s := set_screen_y (screen_y s + 1) s in
  let s := set_screen_x 0 s in
  if screen_y s =? NUM_ROWS then scroll_up s else s.

Definition handle_tab (s : kernel) : kernel :=
  if screen_x s <? NUM_COLS - 8 then set_screen_x (screen_x s + 8) s
  else
    let s := set_screen_y (screen_y s + 1) s in
    let s := set_screen_x 8 s in
    if screen_y s =? NUM_ROWS then scroll_up s else s.

Definition handle_backspace (s : kernel) : kernel :=
  let s :=
    if 0 <? screen_x s then set_screen_x (screen_x s - 1) s
    else if 0 <? screen_y s
         then set_screen_y (screen_y s - 1) (set_screen_x (NUM_COLS - 1) s)
         else s in
  upd_mem (put_cell VIDEO (NUM_COLS * screen_y s + screen_x s) SPACE) s.

Definition handle_normal_char (c : Z) (s : kernel) : kernel :=
  let s := upd_mem (put_cell VIDEO (NUM_COLS * screen_y s + screen_x s) c) s in
  if screen_x s =? NUM_COLS - 1 then
    let s := set_screen_x 0 s in
    let s := set_screen_y (screen_y s + 1) s in
    if screen_y s =? NUM_ROWS then scroll_up s else s
  else set_screen_x (screen_x s + 1) s.

Definition putc (c : Z) (s : kernel) : kernel :=
  let c := u8 c in
  let s :=
    if (c =? NL) || (c =? CR) then handle_enter s
    else if c =? TABC then handle_tab s
    else if c =? BSP then handle_backspace s
    else handle_normal_char c s in
  update_cursor (screen_x s) (screen_y s) s.

(** Result: the number of characters printed. *)
Definition puts (p : Z) (s : kernel) : option (Z * kernel) :=
  while_loop (S := Z * kernel) (λ '(i, s),
    if ld8 s (p + i) =? 0 then inr (i, s) else inl (i + 1, putc (ld8 s (p + i)) s)) (0, s).

Section Printf.
Context `{L : Layout}.

(** [while(i < 8) { conv_buf[i] = '0'; i++; }] *)
Fixpoint pad_zeros (k : nat) (i : Z) (m : memory) : memory :=
  match k with
  | O => m
  | S k' => pad_zeros k' (i + 1) (st8 m (loc_conv_buf + i) 48)
  end.

(** The conversions that go through [conv_buf]: the buffer is filled in
    memory and printed from there. *)
Definition print_hex (alternate : bool) (v : Z) (s : kernel) : option kernel :=
  if negb alternate then
    m ← itoa s v loc_conv_buf 16;
    r ← puts loc_conv_buf (upd_mem (λ _, m) s);
    Some r.2
  else
    m ← itoa s v (loc_conv_buf + 8) 16;
    starting_index ← strlen m (loc_conv_buf + 8);
    let m := pad_zeros (Z.to_nat (8 - starting_index)) starting_index m in
    r ← puts (loc_conv_buf + starting_index) (upd_mem (λ _, m) s);
    Some r.2.

Definition print_unsigned (v : Z) (s : kernel) : option kernel :=
  m ← itoa s v loc_conv_buf 10;
  r ← puts loc_conv_buf (upd_mem (λ _, m) s);
  Some r.2.

Definition print_signed (v : Z) (s : kernel) : option kernel :=
  let value := s32 v in
  m ← (if value <? 0
       then itoa (st8 s loc_conv_buf 45) (u32 (- value)) (loc_conv_buf + 1) 10
       else itoa s value loc_conv_buf 10);
  r ← puts loc_conv_buf (upd_mem (λ _, m) s);
  Some r.2.

(** The scan of the format.  [mode] is [None] in plain text and
    [Some alternate] after a percent sign.  [None] as a result: the format
    ends inside a conversion, where the code scans on past its terminator,
    or takes more arguments than it was passed. *)
Fixpoint printf_scan (mode : option bool) (fmt args : list Z) (s : kernel) : option kernel :=
  match mode, fmt with
  | None, [] => Some s
  | None, c :: fmt' =>
      if c =? 37 then printf_scan (Some false) fmt' args s
      else printf_scan None fmt' args (putc c s)
  | Some _, [] => None
  | Some alternate, c :: fmt' =>
      if c =? 37 then printf_scan None fmt' args (putc 37 s)
      else if c =? 35 (* # *) then printf_scan (Some true) fmt' args s
      else if c =? 120 (* x *) then
        match args with
        | v :: args' => s ← print_hex alternate (u32 v) s; printf_scan None fmt' args' s
        | [] => None
        end
      else if c =? 117 (* u *) then
        match args with
        | v :: args' => s ← print_unsigned (u32 v) s; printf_scan None fmt' args' s
        | [] => None
        end
      else if c =? 100 (* d *) then
        match args with
        | v :: args' => s ← print_signed v s; printf_scan None fmt' args' s
        | [] => None
        end
      else if c =? 99 (* c *) then
        match args with
        | v :: args' => printf_scan None fmt' args' (putc (u8 v) s)
        | [] => None
        end
      else if c =? 115 (* s *) then
        match args with
        | v :: args' => r ← puts v s; printf_scan None fmt' args' r.2
        | [] => None
        end
      else printf_scan None fmt' args s
  end.

(** Result: the length of the format. *)
Definition printf (format : string) (args : list Z) : M Z := λ s,
  match printf_scan None (bytes_of format) args s with
  | Some s' => Ret (Z.of_nat (length (bytes_of format))) s'
  | None => Diverge
  end.
End Printf.

(** ** What a console operation leaves alone *)

Record console_only (s s' : kernel) : Prop := {
  co_upage : upage s' = upage s;
  co_peek : ∀ p, ¬ (VIDEO <= p < VIDEO + PAGE_BYTES) → peek s' p = peek s p;
  co_inport : inport s' = inport s;
  co_term : k_term s' = k_term s;
  co_kbd : k_kbd s' = k_kbd s;
  co_sched : k_sched s' = k_sched s;
  co_pic : k_pic s' = k_pic s;
  co_rtc : k_rtc s' = k_rtc s;
  co_fs : k_fs s' = k_fs s;
  co_proc : k_proc s' = k_proc s;
  co_paging : k_paging s' = k_paging s;
  co_cpu : k_cpu s' = k_cpu s;
  co_desc : k_desc s' = k_desc s;
}.

#[export] Instance console_only_preorder : PreOrder console_only.
Proof.
  split.
  - by intros s.
  - intros s1 s2 s3 [] []. split; try congruence.
    intros p Hp. rewrite co_peek1 by done. by apply co_peek0.
Qed.

Definition cursor_ok (s : kernel) : Prop :=
  0 <= screen_x s < NUM_COLS ∧ 0 <= screen_y s < NUM_ROWS.

(** ** The abstract screen *)

Record screen := mkScreen { text : list Z; col : Z; row : Z }.

Definition scr_scroll (t : list Z) : list Z := drop 80 t ++ replicate 80 SPACE.

(** To column [x] of the next row, scrolling at the bottom. *)
Definition scr_next_row (x : Z) (sc : screen) : screen :=
  if row sc + 1 =? NUM_ROWS then mkScreen (scr_scroll (text sc)) 0 (NUM_ROWS - 1)
  else mkScreen (text sc) x (row sc + 1).

Definition scr_put (c : Z) (sc : screen) : list Z :=
  <[Z.to_nat (NUM_COLS * row sc + col sc) := c]> (text sc).

Definition scr_putc (c : Z) (sc : screen) : screen :=
  if (c =? NL) || (c =? CR) then scr_next_row 0 sc
  else if c =? TABC then
    if col sc <? NUM_COLS - 8 then mkScreen (text sc) (col sc + 8) (row sc) else scr_next_row 8 sc
  else if c =? BSP then
    let sc' := if 0 <? col sc then mkScreen (text sc) (col sc - 1) (row sc)
               else if 0 <? row sc then mkScreen (text sc) (NUM_COLS - 1) (row sc - 1) else sc in
    mkScreen (scr_put SPACE sc') (col sc') (row sc')
  else
    let sc' := mkScreen (scr_put c sc) (col sc) (row sc) in
    if col sc =? NUM_COLS - 1 then scr_next_row 0 sc'
    else mkScreen (text sc') (col sc + 1) (row sc).

(** The characters a text page shows. *)
Definition page_text (m : memory) (base : Z) : list Z := cell m base <$> seqZ 0 CELLS.

(** The screen a kernel state shows. *)
Definition abs_screen (s : kernel) : screen := mkScreen (page_text s VIDEO) (screen_x s) (screen_y s).

(** ** Frames of the primitive updates *)

Lemma console_only_mem f s ch at_ :
  writes_cells s (f (k_mem s)) VIDEO ch at_ → console_only s (upd_mem f s).
Proof.
  intros [Hu Hp]. split; try done. intros p Hp'. cbn. rewrite Hp.
  rewrite phys_kernel by (unfold VIDEO, PROGRAM_PAGE; lia). by bcase.
Qed.

Lemma console_only_set_x v s : console_only s (set_screen_x v s).
Proof. by split. Qed.
Lemma console_only_set_y v s : console_only s (set_screen_y v s).
Proof. by split. Qed.
Lemma console_only_cursor x y s : console_only s (update_cursor x y s).
Proof. by split. Qed.

Create HintDb console discriminated.
#[export] Hint Resolve console_only_set_x console_only_set_y console_only_cursor : console.

(** ** Text of a page *)

Lemma page_text_length m base : length (page_text m base) = 2000%nat.
Proof. unfold page_text. by rewrite length_fmap, length_seqZ. Qed.

Lemma page_text_lookup m base k : 0 <= k < CELLS → page_text m base !! Z.to_nat k = Some (cell m base k).
Proof.
  unfold CELLS. intros Hk. unfold page_text. rewrite list_lookup_fmap, lookup_seqZ_lt by (unfold CELLS; lia).
  cbn. do 2 f_equal. lia.
Qed.

Lemma page_text_writes m m' base ch at_ :
  writes_cells m m' base ch at_ → seg base PAGE_BYTES → page_text m' base = ch <$> seqZ 0 CELLS.
Proof.
  intros Hw Hs. unfold page_text. apply list_fmap_ext. intros i k Hk.
  apply lookup_seqZ in Hk. apply (writes_cells_ch _ _ _ _ _ _ Hw Hs). lia.
Qed.

Lemma page_text_put m base k c :
  0 <= k < CELLS → cell_upd (cell m base) k c <$> seqZ 0 CELLS = <[Z.to_nat k := c]> (page_text m base).
Proof.
  unfold CELLS. intros Hk. apply list_eq. intros i. rewrite list_lookup_fmap.
  destruct (decide (i < 2000)%nat) as [Hi|Hi].
  - rewrite lookup_seqZ_lt by lia. cbn [fmap option_fmap option_map]. unfold cell_upd.
    destruct (Z.eqb_spec (0 + Z.of_nat i) k) as [E|E].
    + replace i with (Z.to_nat k) by lia. rewrite list_lookup_insert_eq; [done|].
      rewrite page_text_length. lia.
    + rewrite list_lookup_insert_ne by lia. rewrite <- (Nat2Z.id i) at 2.
      rewrite page_text_lookup by (unfold CELLS; lia). done.
  - rewrite lookup_seqZ_ge by lia. cbn.
    rewrite (proj2 (lookup_ge_None _ i)); [done|]. rewrite length_insert, page_text_length. lia.
Qed.

Lemma page_text_scroll m base :
  scroll_text m base <$> seqZ 0 CELLS = scr_scroll (page_text m base).
Proof.
  apply list_eq. intros i. rewrite list_lookup_fmap. unfold scr_scroll.
  destruct (decide (i < 1920)%nat) as [Hi|Hi]; [|destruct (decide (i < 2000)%nat) as [Hi2|Hi2]].
  - rewrite lookup_seqZ_lt by (unfold CELLS; lia). cbn [fmap option_fmap option_map].
    rewrite lookup_app_l by (rewrite length_drop, page_text_length; lia).
    rewrite lookup_drop. unfold scroll_text. destruct (Z.ltb_spec (0 + Z.of_nat i) 1920); [|lia].
    replace (80 + i)%nat with (Z.to_nat (Z.of_nat i + NUM_COLS)) by (unfold NUM_COLS; lia).
    rewrite page_text_lookup by (unfold CELLS, NUM_COLS; lia). done.
  - rewrite lookup_seqZ_lt by (unfold CELLS; lia). cbn [fmap option_fmap option_map].
    rewrite lookup_app_r by (rewrite length_drop, page_text_length; lia).
    rewrite lookup_replicate_2 by (rewrite length_drop, page_text_length; lia).
    unfold scroll_text. destruct (Z.ltb_spec (0 + Z.of_nat i) 1920); [lia|done].
  - rewrite lookup_seqZ_ge by (unfold CELLS; lia). symmetry.
    apply lookup_ge_None. rewrite length_app, length_drop, page_text_length, length_replicate. lia.
Qed.

#[global] Opaque page_text.

(** ** The pieces of the handlers *)

Lemma put_video s k c :
  0 <= k < CELLS →
  console_only s (upd_mem (put_cell VIDEO k c) s) ∧
  page_text (upd_mem (put_cell VIDEO k c) s) VIDEO = <[Z.to_nat k := u8 c]> (page_text s VIDEO).
Proof.
  intros Hk.
  pose proof (put_cell_writes s s VIDEO _ _ k c (writes_cells_self s VIDEO video_seg) video_seg Hk) as Hw.
  split; [by eapply console_only_mem|].
  etransitivity; [exact (page_text_writes s _ _ _ _ Hw video_seg)|]. by apply page_text_put.
Qed.

Lemma scroll_up_spec s :
  console_only s (scroll_up s) ∧
  abs_screen (scroll_up s) = mkScreen (scr_scroll (page_text s VIDEO)) 0 (NUM_ROWS - 1).
Proof.
  pose proof (scroll_writes s VIDEO VIDEO video_seg (or_introl eq_refl)) as Hw.
  split.
  - pose proof (console_only_mem (λ m, blank_bottom VIDEO (scroll_rows VIDEO VIDEO m)) s _ _ Hw) as [].
    by split.
  - unfold abs_screen. f_equal. rewrite <- page_text_scroll.
    exact (page_text_writes s _ _ _ _ Hw video_seg).
Qed.

Definition blank_screen : screen := mkScreen (replicate 2000 SPACE) 0 0.

Lemma clear_spec s : console_only s (clear s) ∧ abs_screen (clear s) = blank_screen ∧ cursor_ok (clear s).
Proof.
  pose proof (clear_page_writes s VIDEO video_seg) as Hw. split; [|split; [|done]].
  - pose proof (console_only_mem (clear_page VIDEO) s _ _ Hw) as []. by split.
  - unfold abs_screen, blank_screen. f_equal.
    etransitivity; [exact (page_text_writes s _ _ _ _ Hw video_seg)|]. by vm_compute.
Qed.

(** Every handler goes to the next row in the same way. *)
Definition next_row (x : Z) (s : kernel) : kernel :=
  let s := set_screen_x x (set_screen_y (screen_y s + 1) s) in
  if screen_y s =? NUM_ROWS then scroll_up s else s.

Lemma next_row_spec x s :
  0 <= screen_y s < NUM_ROWS → 0 <= x < NUM_COLS →
  console_only s (next_row x s) ∧
  abs_screen (next_row x s) = scr_next_row x (abs_screen s) ∧ cursor_ok (next_row x s).
Proof.
  intros Hy Hx. unfold next_row, scr_next_row. cbn [abs_screen row text screen_y set_screen_x set_screen_y upd_con k_con].
  cbn. destruct (Z.eqb_spec (screen_y s + 1) NUM_ROWS) as [E|E].
  - set (s' := set_screen_x x (set_screen_y (screen_y s + 1) s)).
    destruct (scroll_up_spec s') as [Hc Ha]. split_and!; [|done|].
    + transitivity s'; [by split|done].
    + unfold cursor_ok. change (screen_x (scroll_up s')) with 0.
      change (screen_y (scroll_up s')) with 24. unfold NUM_COLS, NUM_ROWS. lia.
  - split_and!; [by split|done|]. unfold cursor_ok. cbn. lia.
Qed.

Lemma cursor_cell s : cursor_ok s → 0 <= NUM_COLS * screen_y s + screen_x s < CELLS.
Proof. unfold cursor_ok, NUM_COLS, NUM_ROWS, CELLS. lia. Qed.

Lemma handle_enter_next s : handle_enter s = next_row 0 s.
Proof. done. Qed.

Lemma handle_tab_spec s :
  cursor_ok s →
  console_only s (handle_tab s) ∧
  abs_screen (handle_tab s) = scr_putc TABC (abs_screen s) ∧ cursor_ok (handle_tab s).
Proof.
  intros [Hx Hy]. unfold handle_tab. change (scr_putc TABC (abs_screen s)) with
    (if screen_x s <? NUM_COLS - 8 then mkScreen (page_text s VIDEO) (screen_x s + 8) (screen_y s)
     else scr_next_row 8 (abs_screen s)).
  destruct (Z.ltb_spec (screen_x s) (NUM_COLS - 8)).
  - split_and!; [by split|done|]. unfold cursor_ok. cbn. lia.
  - apply next_row_spec; [done|unfold NUM_COLS; lia].
Qed.

Lemma handle_backspace_spec s :
  cursor_ok s →
  console_only s (handle_backspace s) ∧
  abs_screen (handle_backspace s) = scr_putc BSP (abs_screen s) ∧ cursor_ok (handle_backspace s).
Proof.
  intros Hc. unfold handle_backspace.
  set (s1 := if 0 <? screen_x s then _ else _).
  assert (Hs1 : console_only s s1 ∧ page_text s1 VIDEO = page_text s VIDEO ∧ cursor_ok s1 ∧
     abs_screen s1 = (if 0 <? col (abs_screen s)
       then mkScreen (text (abs_screen s)) (col (abs_screen s) - 1) (row (abs_screen s))
       else if 0 <? row (abs_screen s)
            then mkScreen (text (abs_screen s)) (NUM_COLS - 1) (row (abs_screen s) - 1) else abs_screen s)).
  { subst s1. unfold cursor_ok, NUM_COLS, NUM_ROWS in *. cbn [abs_screen col row].
    destruct (Z.ltb_spec 0 (screen_x s)); [|destruct (Z.ltb_spec 0 (screen_y s))];
      (split_and!; [by split|done|cbn; lia..|done]). }
  destruct Hs1 as (Ho & _ & Hc1 & Ha). clearbody s1.
  destruct (put_video s1 _ SPACE (cursor_cell s1 Hc1)) as [Ho2 Ht2].
  split_and!; [by transitivity s1| |done].
  unfold scr_putc. cbn [Z.eqb NL CR TABC BSP orb]. change (BSP =? NL) with false.
  cbn zeta. rewrite <- Ha. unfold scr_put. cbn. unfold abs_screen. cbn. f_equal. done.
Qed.

Lemma handle_normal_char_spec c s :
  cursor_ok s → 0 <= c < 256 → c ≠ NL → c ≠ CR → c ≠ TABC → c ≠ BSP →
  console_only s (handle_normal_char c s) ∧
  abs_screen (handle_normal_char c s) = scr_putc c (abs_screen s) ∧ cursor_ok (handle_normal_char c s).
Proof.
  intros Hc Hc8 H1 H2 H3 H4. unfold handle_normal_char.
  destruct (put_video s _ c (cursor_cell s Hc)) as [Ho Ht]. rewrite u8_small in Ht by done.
  set (s1 := upd_mem _ s) in *.
  assert (Ha : abs_screen s1 = mkScreen (scr_put c (abs_screen s)) (screen_x s) (screen_y s)).
  { unfold abs_screen. by rewrite Ht. }
  assert (Hc1 : cursor_ok s1) by done.
  assert (Hx : screen_x s1 = screen_x s) by done. assert (Hy : screen_y s1 = screen_y s) by done.
  clearbody s1.
  unfold scr_putc. cbn [abs_screen col row text].
  destruct (Z.eqb_spec c NL), (Z.eqb_spec c CR), (Z.eqb_spec c TABC), (Z.eqb_spec c BSP); try done.
  cbn [orb]. cbn zeta. rewrite Hx.
  destruct (Z.eqb_spec (screen_x s) (NUM_COLS - 1)).
  - change (scr_put c _) with (scr_put c (abs_screen s)). rewrite <- Ha.
    destruct (next_row_spec 0 s1) as (Ho2 & Ha2 & Hc2); [by destruct Hc1|by unfold NUM_COLS|].
    split_and!; [by transitivity s1|exact Ha2|exact Hc2].
  - apply (f_equal text) in Ha. cbn [abs_screen text] in Ha.
    unfold abs_screen. cbn [text col row]. split_and!; [by transitivity s1; [|split]| |].
    + change (page_text (set_screen_x (screen_x s + 1) s1) VIDEO) with (page_text s1 VIDEO).
      change (screen_y (set_screen_x (screen_x s + 1) s1)) with (screen_y s1). by rewrite Ha, Hy.
    + unfold cursor_ok, NUM_COLS in *. cbn [set_screen_x upd_con k_con screen_x screen_y]. lia.
Qed.

Lemma putc_spec c s :
  cursor_ok s →
  console_only s (putc c s) ∧
  abs_screen (putc c s) = scr_putc (u8 c) (abs_screen s) ∧ cursor_ok (putc c s).
Proof.
  intros Hc. unfold putc. pose proof (u8_range c) as Hr. set (c' := u8 c) in *. clearbody c'.
  set (s1 := if _ || _ then _ else _).
  cut (console_only s s1 ∧ abs_screen s1 = scr_putc c' (abs_screen s) ∧ cursor_ok s1).
  { intros (Ho & Ha & Hc1). split_and!; [|done|done].
    transitivity s1; [done|]. auto with console. }
  subst s1. destruct (Z.eqb_spec c' NL) as [->|].
  { cbn [orb]. rewrite handle_enter_next. destruct Hc. by apply next_row_spec. }
  destruct (Z.eqb_spec c' CR) as [->|].
  { cbn [orb]. rewrite handle_enter_next. destruct Hc. by apply next_row_spec. }
  cbn [orb]. destruct (Z.eqb_spec c' TABC) as [->|]; [by apply handle_tab_spec|].
  destruct (Z.eqb_spec c' BSP) as [->|]; [by apply handle_backspace_spec|].
  by apply handle_normal_char_spec.
Qed.

(** [putc] implements the abstract screen: with the cursor on the screen,
    the characters shown and the cursor afterwards are those of [scr_putc]. *)
Theorem putc_refines (c : Z) (s : kernel) :
  cursor_ok s → abs_screen (putc c s) = scr_putc (u8 c) (abs_screen s).
Proof. intros Hc. by apply putc_spec. Qed.

(** The character that ends the last line scrolls the screen. *)
Lemma putc_refines_witness :
  let s := set_screen_x 79 (set_screen_y 24 zero_kernel) in
  cursor_ok s ∧ abs_screen (putc 65 s) = scr_putc 65 (abs_screen s).
Proof. intros s. split; [by vm_compute|]. apply (putc_refines 65 s). by vm_compute. Defined.

(** [putc] keeps the cursor on the screen and changes nothing but the video
    page, the cursor and the CRTC ports. *)
Theorem putc_frame (c : Z) (s : kernel) :
  cursor_ok s → cursor_ok (putc c s) ∧ console_only s (putc c s).
Proof. intros Hc. split; by apply putc_spec. Qed.

Lemma putc_frame_witness :
  cursor_ok zero_kernel ∧ cursor_ok (putc 65 zero_kernel) ∧ console_only zero_kernel (putc 65 zero_kernel).
Proof. split; [by vm_compute|]. apply (putc_frame 65 zero_kernel). by vm_compute. Defined.

(** ** Printing strings *)

Definition put_chars (l : list Z) (s : kernel) : kernel := foldl (λ s c, putc c s) s l.

Lemma put_chars_app l k s : put_chars (l ++ k) s = put_chars k (put_chars l s).
Proof. apply foldl_app. Qed.

Lemma put_chars_frame l s : cursor_ok s → cursor_ok (put_chars l s) ∧ console_only s (put_chars l s).
Proof.
  revert s. induction l as [|c l IH]; intros s Hc; [done|]. cbn.
  destruct (putc_spec c s Hc) as (Ho1 & _ & Hc1). destruct (IH _ Hc1) as [Hc2 Ho2].
  split; [done|]. by transitivity (putc c s).
Qed.

(** Bytes outside the video page survive console output. *)
Definition off_screen (s : kernel) (a : Z) : Prop := ¬ (VIDEO <= phys s a < VIDEO + PAGE_BYTES).

Lemma console_only_ld8 s s' a : console_only s s' → off_screen s a → ld8 s' a = ld8 s a.
Proof.
  intros [] Ha. unfold ld8. rewrite (phys_upage s s') by done. by apply co_peek0.
Qed.

Lemma puts_correct p l s :
  cstring s p l → Z.of_nat (length l) < 4294967296 → cursor_ok s →
  (∀ i, 0 <= i <= Z.of_nat (length l) → off_screen s (p + i)) →
  puts p s = Some (Z.of_nat (length l), put_chars l s).
Proof.
  intros Hcs Hlen Hc Hoff. unfold puts.
  set (step := λ '(i, s0), _).
  assert (Hld : ∀ l1 i, 0 <= i <= Z.of_nat (length l) → ld8 (put_chars l1 s) (p + i) = ld8 s (p + i)).
  { intros l1 i Hi. apply console_only_ld8; [by apply put_chars_frame|by apply Hoff]. }
  apply (while_loop_steps step (length l) _ (Z.of_nat (length l), put_chars l s)); [| |lia].
  - cut (∀ l2 l1, l = l1 ++ l2 →
      nat_iter step (length l2) (Z.of_nat (length l1), put_chars l1 s) =
      inl (Z.of_nat (length l), put_chars l s)).
    { intros H. exact (H l [] eq_refl). }
    induction l2 as [|c l2 IH]; intros l1 Hl.
    + rewrite app_nil_r in Hl. by subst.
    + cbn [length nat_iter step].
      assert (Hi : l !! length l1 = Some c) by (rewrite Hl; by apply list_lookup_middle).
      pose proof (lookup_lt_Some _ _ _ Hi) as Hlt.
      pose proof (cstring_nz s p l (Z.of_nat (length l1)) Hcs ltac:(lia)) as Hnz.
      destruct Hcs as (_ & Hat & _). rewrite Hld, (Hat _ _ Hi) in * by lia.
      destruct (Z.eqb_spec c 0); [done|].
      specialize (IH (l1 ++ [c])). rewrite <- app_assoc, length_app, Nat2Z.inj_add, put_chars_app in IH.
      by apply IH.
  - cbn. rewrite Hld by lia. destruct Hcs as (_ & _ & ->). done.
Qed.

(** Characters printed on the abstract screen. *)
Definition scr_puts (l : list Z) (sc : screen) : screen := foldl (λ sc c, scr_putc (u8 c) sc) sc l.

Lemma put_chars_screen l s : cursor_ok s → abs_screen (put_chars l s) = scr_puts l (abs_screen s).
Proof.
  revert s. induction l as [|c l IH]; intros s Hc; [done|].
  change (abs_screen (put_chars l (putc c s)) = scr_puts l (scr_putc (u8 c) (abs_screen s))).
  destruct (putc_spec c s Hc) as (_ & Hs & Hc1). by rewrite IH, Hs by done.
Qed.

(** A message: the characters on the screen, and nothing else. *)
Definition says (l : list Z) (s s' : kernel) : Prop :=
  console_only s s' ∧ cursor_ok s' ∧ abs_screen s' = scr_puts l (abs_screen s).

Section PrintfFacts.
Context {L : Layout} {HL : LayoutOK L}.

(** A format without conversions prints itself. *)
Definition plain (format : string) : bool := forallb (λ c, negb (c =? 37)) (bytes_of format).

Lemma printf_scan_plain fmt args s :
  forallb (λ c, negb (c =? 37)) fmt = true →
  printf_scan None fmt args s = Some (put_chars fmt s).
Proof.
  revert s. induction fmt as [|c fmt IH]; intros s Hp; [done|].
  cbn in Hp. apply andb_true_iff in Hp as [Hc Hp]. cbn [printf_scan].
  destruct (c =? 37); [done|]. by rewrite IH.
Qed.

Lemma printf_plain format args s :
  plain format = true →
  printf format args s = Ret (Z.of_nat (length (bytes_of format))) (put_chars (bytes_of format) s).
Proof. intros Hp. unfold printf. by rewrite printf_scan_plain. Qed.

(** What an error path of the kernel does: a message on the console. *)
Lemma printf_message format s :
  plain format = true → cursor_ok s →
  ∃ n s', printf format [] s = Ret n s' ∧ says (bytes_of format) s s'.
Proof.
  intros Hp Hc. rewrite printf_plain by done. eexists _, _. split; [done|].
  split_and!; [by apply put_chars_frame..|by apply put_chars_screen].
Qed.
End PrintfFacts.

(** Pages with the same bytes show the same text. *)
Lemma page_text_eq m m' a b :
  (∀ i, 0 <= i < PAGE_BYTES → ld8 m' (a + i) = ld8 m (b + i)) → page_text m' a = page_text m b.
Proof.
  intros H. apply list_eq_same_length with 2000%nat; [by rewrite page_text_length..|].
  intros i x y Hi Hx Hy. rewrite <- (Nat2Z.id i), page_text_lookup in Hx, Hy by (unfold CELLS; lia).
  unfold cell in Hx, Hy. rewrite H in Hx by (unfold PAGE_BYTES; lia). congruence.
Qed.

(** What is written off the screen does not show. *)
Lemma video_kept os (m m' : memory) :
  changes os m m' → Forall (λ o, o.1 + o.2 <= VIDEO ∨ VIDEO + PAGE_BYTES <= o.1) os → page_text m' VIDEO = page_text m VIDEO.
Proof.
  intros Hc Ho. apply page_text_eq. intros i Hi. apply (changes_byte os m m' _ Hc).
  rewrite phys_kernel by (unfold VIDEO, PAGE_BYTES, PROGRAM_PAGE in *; lia).
  eapply List.Forall_impl; [|exact Ho]. intros o. cbn. lia.
Qed.

(** From here on the console is known by its specification. *)
#[global] Opaque putc clear.

(** ** Effects on the rest of the machine *)

(** Neither the screen's cursor nor the other records of the state changed;
    the memory may have. *)
Record quiet (s s' : kernel) : Prop := {
  qt_cpu : k_cpu s' = k_cpu s;
  qt_con : k_con s' = k_con s;
  qt_term : k_term s' = k_term s;
  qt_fs : k_fs s' = k_fs s;
  qt_sched : k_sched s' = k_sched s;
  qt_proc : k_proc s' = k_proc s;
}.

#[export] Instance quiet_preorder : PreOrder quiet.
Proof. split; [by split|]. intros s1 s2 s3 [] []. split; congruence. Qed.

(** The effect of a call, up to the segments [os] of memory, the cursor and the
    interrupt flag. *)
Record steps (os : list (Z * Z)) (s s' : kernel) : Prop := {
  sp_changes : changes os s s';
  sp_fs : k_fs s' = k_fs s;
  sp_term : k_term s' = k_term s;
  sp_sched : k_sched s' = k_sched s;
  sp_proc : k_proc s' = k_proc s;
  sp_esp : esp s' = esp s;
  sp_ebp : ebp s' = ebp s;
  sp_cursor : cursor_ok s → cursor_ok s';
}.

Lemma steps_refl os s : steps os s s.
Proof. by split; [apply changes_refl|..]. Qed.

Lemma steps_trans os s1 s2 s3 : steps os s1 s2 → steps os s2 s3 → steps os s1 s3.
Proof. intros [] []. split; [by eapply changes_trans|congruence..|]. auto. Qed.

Lemma steps_mono os os' s s' : os ⊆ os' → steps os s s' → steps os' s s'.
Proof. intros Ho []. split; [by eapply changes_mono|done..]. Qed.

Lemma steps_tail o os s s' : steps os s s' → steps (o :: os) s s'.
Proof. apply steps_mono. intros x Hx. by right. Qed.

Lemma steps_head o os s s' : steps [o] s s' → steps (o :: os) s s'.
Proof. apply steps_mono. intros x Hx. apply list_elem_of_singleton in Hx as ->. by left. Qed.

Lemma quiet_steps os s s' : changes os s s' → quiet s s' → steps os s s'.
Proof. intros Hc [Hcpu Hcon ? ? ? ?]. split; [done..|by rewrite Hcpu|by rewrite Hcpu|by unfold cursor_ok; rewrite Hcon]. Qed.

Lemma console_steps s s' : console_only s s' → (cursor_ok s → cursor_ok s') → steps [(VIDEO, PAGE_BYTES)] s s'.
Proof.
  intros Ho Hc. split; [|apply Ho|apply Ho|apply Ho|apply Ho|by rewrite (co_cpu _ _ Ho)|by rewrite (co_cpu _ _ Ho)|exact Hc].
  split; [apply Ho|]. intros p Hp. apply (co_peek _ _ Ho). by inversion_clear Hp.
Qed.

(** A message of the kernel is a change of the screen. *)
Lemma says_steps l s s' : says l s s' → steps [(VIDEO, PAGE_BYTES)] s s'.
Proof. intros (Ho & Hc & _). by apply console_steps. Qed.
