(* ===== verification/Format.v ===== *)
(** * Formatted output

    What the numeric conversions of [printf] print. *)

From S2P Require Import Prelude Memory LibStr Video State Console.

Implicit Types s : kernel.

(** Eight hexadecimal digits, zero padded. *)
Definition hex8 (v : Z) : list Z :=
  let t := number_text 16 v in replicate (8 - length t) 48 ++ t.

(** Signed decimal text. *)
Definition signed_text (v : Z) : list Z :=
  if v <? 0 then 45 :: number_text 10 (- v) else number_text 10 v.

(** ** Digit counts and string concatenation *)

Lemma digits_le_length_pow radix f v k :
  2 <= radix → 0 <= v < radix ^ Z.of_nat k → (length (digits_le f radix v) <= k)%nat.
Proof.
  intros Hr. revert v k. induction f as [|f IH]; intros v k Hv; cbn [digits_le]; [cbn; lia|].
  destruct (Z.eqb_spec v 0) as [->|Hz]; [cbn; lia|].
  destruct k as [|k]; [cbn in Hv; lia|].
  rewrite Nat2Z.inj_succ, Z.pow_succ_r in Hv by lia.
  cbn [length]. apply le_n_S, IH. split; [apply Z.div_pos; lia|].
  apply Z.div_lt_upper_bound; lia.
Qed.

Lemma number_text_hex_length v : 0 <= v < 4294967296 → (length (number_text 16 v) <= 8)%nat.
Proof.
  intros Hv. unfold number_text. destruct (Z.eqb_spec v 0); [cbn; lia|].
  rewrite length_fmap, length_reverse. apply digits_le_length_pow; [lia|done].
Qed.

Lemma hex8_length v : 0 <= v < 4294967296 → length (hex8 v) = 8%nat.
Proof.
  intros Hv. pose proof (number_text_hex_length v Hv). unfold hex8.
  rewrite length_app, length_replicate. lia.
Qed.

Lemma cstring_prepend m a k l c :
  0 < c < 256 → (∀ i, 0 <= i < Z.of_nat k → ld8 m (a + i) = c) → cstring m (a + Z.of_nat k) l →
  cstring m a (replicate k c ++ l).
Proof.
  intros Hc Hk (Hf & Hl & Hz). split_and!.
  - apply Forall_app. split; [by apply Forall_replicate|done].
  - intros i x Hx. destruct (decide (i < k)%nat).
    + rewrite lookup_app_l in Hx by (rewrite length_replicate; lia).
      apply lookup_replicate in Hx as [-> _]. apply Hk. lia.
    + rewrite lookup_app_r in Hx by (rewrite length_replicate; lia).
      rewrite length_replicate in Hx. specialize (Hl _ _ Hx).
      rewrite <- Z.add_assoc in Hl.
      by replace (Z.of_nat k + Z.of_nat (i - k)) with (Z.of_nat i) in Hl by lia.
  - rewrite length_app, length_replicate, Nat2Z.inj_add, Z.add_assoc. done.
Qed.

(** ** The conversion buffer *)

Section Conversions.
Context {L : Layout} {HL : LayoutOK L}.

Lemma conv_buf_bounds : KERNEL_START <= loc_conv_buf ∧ loc_conv_buf + 64 <= KERNEL_END.
Proof. exact (obj_bounds 10 _ eq_refl). Qed.

Lemma conv_buf_seg i n : 0 <= i → 0 <= n → i + n <= 64 → seg (loc_conv_buf + i) n.
Proof.
  intros. pose proof conv_buf_bounds. unfold KERNEL_START, KERNEL_END in *.
  apply seg_kernel; unfold PROGRAM_PAGE; lia.
Qed.

Lemma conv_buf_phys m i : 0 <= i < 64 → phys m (loc_conv_buf + i) = loc_conv_buf + i.
Proof.
  intros. pose proof conv_buf_bounds. unfold KERNEL_START, KERNEL_END in *.
  apply phys_kernel. unfold PROGRAM_PAGE. lia.
Qed.

(** [s1] is [s] after the conversion scribbled in [conv_buf]. *)
Definition only_conv_buf (s s1 : kernel) : Prop :=
  ∃ m f, writes s m loc_conv_buf 64 f ∧ s1 = upd_mem (λ _, m) s.

Lemma conv_writes s m i n f :
  writes s m (loc_conv_buf + i) n f → 0 <= i → 0 <= n → i + n <= 64 →
  ∃ g, writes s m loc_conv_buf 64 g.
Proof.
  intros Hw Hi Hn Hb.
  eexists. apply (writes_inside s m _ 64 i n f); [done| |lia..].
  rewrite <- (Z.add_0_r loc_conv_buf). apply conv_buf_seg; lia.
Qed.

(** Printing what the conversion left. *)
Lemma puts_conv s m i l :
  cstring m (loc_conv_buf + i) l → cursor_ok s → 0 <= i → i + Z.of_nat (length l) < 64 →
  puts (loc_conv_buf + i) (upd_mem (λ _, m) s) =
    Some (Z.of_nat (length l), put_chars l (upd_mem (λ _, m) s)).
Proof.
  intros Hc Hs Hi Hl. apply puts_correct; [done|lia|done|].
  intros j Hj. unfold off_screen. rewrite <- Z.add_assoc, conv_buf_phys by lia.
  pose proof conv_buf_bounds. unfold KERNEL_START, VIDEO, PAGE_BYTES in *. lia.
Qed.

Lemma pad_zeros_writes k i m m1 n f :
  writes m m1 (loc_conv_buf + i) n f → (∀ j, 0 <= j < n → f j = 48) →
  0 <= i → 0 <= n → i + n + Z.of_nat k <= 64 →
  writes m (pad_zeros k (i + n) m1) (loc_conv_buf + i) (n + Z.of_nat k) (λ _, 48).
Proof.
  revert m1 n f. induction k as [|k IH]; intros m1 n f Hw Hf Hi Hn Hb; cbn [pad_zeros].
  - rewrite Z.add_0_r. eapply writes_ext; [|exact Hw]. intros j Hj. by apply Hf.
  - rewrite <- Z.add_assoc.
    replace (n + Z.of_nat (S k)) with (n + 1 + Z.of_nat k) by lia.
    eapply (IH _ _ _); [rewrite Z.add_assoc; apply writes_snoc; [exact Hw|apply conv_buf_seg; lia|lia]| |lia..].
    intros j Hj. cbn. bcase; [done|]. apply Hf. lia.
Qed.

Lemma writes_conv_trans s m1 m2 f g :
  writes s m1 loc_conv_buf 64 f → writes m1 m2 loc_conv_buf 64 g → only_conv_buf s (upd_mem (λ _, m2) s).
Proof. intros H1 H2. exists m2, g. split; [by eapply writes_over|done]. Qed.

(** A number converted at the start of the buffer and printed. *)
Lemma print_number v radix s :
  2 <= radix <= 36 → 0 <= v < 4294967296 → cursor_ok s →
  ∃ s1, only_conv_buf s s1 ∧
    (m ← itoa s v loc_conv_buf radix; r ← puts loc_conv_buf (upd_mem (λ _, m) s); Some r.2) =
      Some (put_chars (number_text radix v) s1).
Proof.
  intros Hr Hv Hc.
  destruct (itoa_spec s v loc_conv_buf radix) as (m1 & f & He & Hcs & _ & Hw);
    [lia|lia|rewrite <- (Z.add_0_r loc_conv_buf); apply conv_buf_seg; lia|].
  rewrite He. rewrite bind_some.
  pose proof (number_text_length radix v) as Hlen.
  pose proof (puts_conv s m1 0 _ (eq_ind_r (λ a, cstring m1 a _) Hcs (Z.add_0_r _)) Hc) as Hp.
  rewrite Z.add_0_r in Hp. rewrite Hp by lia.
  exists (upd_mem (λ _, m1) s). split; [|done].
  destruct (conv_writes s m1 0 33 f) as [g1 Hg1]; [by rewrite Z.add_0_r|lia..|].
  exists m1, g1. done.
Qed.

Lemma print_hex_alternate v s :
  0 <= v < 4294967296 → cursor_ok s →
  ∃ s1, only_conv_buf s s1 ∧ print_hex true v s = Some (put_chars (hex8 v) s1).
Proof.
  intros Hv Hc. pose proof (number_text_hex_length v Hv) as Hlen.
  destruct (itoa_spec s v (loc_conv_buf + 8) 16) as (m1 & f & He & Hcs & _ & Hw);
    [lia|done|apply conv_buf_seg; lia|].
  unfold print_hex. cbn [negb]. rewrite He. rewrite bind_some.
  rewrite (strlen_correct m1 _ _ Hcs) by lia. rewrite bind_some.
  unfold hex8. set (t := number_text 16 v) in *. clearbody t. set (n := Z.of_nat (length t)) in *.
  set (m2 := pad_zeros _ _ _).
  assert (Hw2 : writes m1 m2 (loc_conv_buf + n) (8 - n) (λ _, 48)).
  { pose proof (pad_zeros_writes (Z.to_nat (8 - n)) n m1 m1 0 (λ _, 48)) as H.
    rewrite Z.add_0_r, Z.add_0_l, Z2Nat.id in H by lia. apply H; [apply writes_nil|lia..]. }
  assert (Hcs2 : cstring m2 (loc_conv_buf + 8) t).
  { revert Hcs. apply cstring_ext. intros i Hi. rewrite <- Z.add_assoc.
    apply (writes_frame _ _ _ _ _ _ Hw2). rewrite !conv_buf_phys by lia. lia. }
  assert (Hcs3 : cstring m2 (loc_conv_buf + n) (replicate (8 - length t) 48 ++ t)).
  { apply cstring_prepend; [lia| |].
    - intros i Hi. apply (writes_at _ _ _ _ _ i Hw2); [apply conv_buf_seg; lia|lia].
    - rewrite <- Z.add_assoc. by replace (n + Z.of_nat (8 - length t)) with 8 by lia. }
  rewrite (puts_conv s m2 n _ Hcs3 Hc) by (rewrite ?length_app, ?length_replicate; lia).
  exists (upd_mem (λ _, m2) s). split; [|done].
  destruct (conv_writes s m1 8 33 f Hw) as [g1 Hg1]; [lia..|].
  destruct (conv_writes (upd_mem (λ _, m1) s) m2 n (8 - n) _ Hw2) as [g2 Hg2]; [lia..|].
  by apply (writes_conv_trans s m1 m2 g1 g2).
Qed.

Lemma print_signed_text v s :
  -2147483648 <= v < 2147483648 → cursor_ok s →
  ∃ s1, only_conv_buf s s1 ∧ print_signed v s = Some (put_chars (signed_text v) s1).
Proof.
  intros Hv Hc. unfold print_signed, signed_text. rewrite s32_small by lia.
  destruct (Z.ltb_spec v 0).
  - rewrite u32_small by lia. set (m0 := st8 _ _ _).
    destruct (itoa_spec m0 (- v) (loc_conv_buf + 1) 10) as (m1 & f & He & Hcs & _ & Hw);
      [lia|lia|apply conv_buf_seg; lia|].
    rewrite He. rewrite bind_some.
    pose proof (number_text_length 10 (- v)) as Hlen.
    assert (Hcs1 : cstring m1 loc_conv_buf ([45] ++ number_text 10 (- v))).
    { apply (cstring_prepend m1 loc_conv_buf 1); [lia| |done].
      intros i Hi. replace i with 0 by lia.
      rewrite (writes_frame _ _ _ _ _ _ Hw).
      - rewrite Z.add_0_r. apply ld8_st8_same.
      - rewrite !conv_buf_phys by lia. lia. }
    pose proof (puts_conv s m1 0 _ (eq_ind_r (λ a, cstring m1 a _) Hcs1 (Z.add_0_r _)) Hc) as Hp.
    rewrite Z.add_0_r in Hp. rewrite Hp by (cbn [app length]; lia).
    exists (upd_mem (λ _, m1) s). split; [|done].
    destruct (conv_writes (upd_mem (λ _, m0) s) m1 1 33 f Hw) as [g1 Hg1]; [lia..|].
    destruct (conv_writes s m0 0 1 (λ _, u8 45)) as [g0 Hg0]; [rewrite Z.add_0_r; apply writes_st8|lia..|].
    by apply (writes_conv_trans s m0 m1 g0 g1).
  - by apply (print_number v 10 s); [lia..|].
Qed.

Lemma print_hex_plain v s :
  0 <= v < 4294967296 → cursor_ok s →
  ∃ s1, only_conv_buf s s1 ∧ print_hex false v s = Some (put_chars (number_text 16 v) s1).
Proof. intros Hv Hc. by apply (print_number v 16 s); [lia..|]. Qed.

Lemma print_unsigned_text v s :
  0 <= v < 4294967296 → cursor_ok s →
  ∃ s1, only_conv_buf s s1 ∧ print_unsigned v s = Some (put_chars (number_text 10 v) s1).
Proof. intros Hv Hc. by apply (print_number v 10 s); [lia..|]. Qed.
End Conversions.

(** ** What printf prints *)


(** The text of a format with its arguments; [str] gives the string at an
    address.  [None] when the format ends inside a conversion or an argument is
    missing or no string. *)
Fixpoint render (str : Z → option (list Z)) (mode : option bool) (fmt args : list Z) : option (list Z) :=
  match mode, fmt with
  | None, [] => Some []
  | None, c :: fmt' =>
      if c =? 37 then render str (Some false) fmt' args else (c ::.) <$> render str None fmt' args
  | Some _, [] => None
  | Some alternate, c :: fmt' =>
      if c =? 37 then (37 ::.) <$> render str None fmt' args
      else if c =? 35 then render str (Some true) fmt' args
      else if existsb (Z.eqb c) [120; 117; 100; 99; 115] then
        match args with
        | [] => None
        | v :: args' =>
            text ← (if c =? 120 then Some (if alternate : bool then hex8 (u32 v) else number_text 16 (u32 v))
                    else if c =? 117 then Some (number_text 10 (u32 v))
                    else if c =? 100 then Some (signed_text (s32 v))
                    else if c =? 99 then Some [u8 v]
                    else str v);
            (text ++.) <$> render str None fmt' args'
        end
      else render str None fmt' args
  end.

Section Printf.
Context {L : Layout} {HL : LayoutOK L}.

(** What printing may touch: the screen and its cursor, the ports, the buffer. *)
Record printed (s s' : kernel) : Prop := {
  pr_memory : changes [(VIDEO, PAGE_BYTES); (loc_conv_buf, 64)] s s';
  pr_inport : inport s' = inport s;
  pr_term : k_term s' = k_term s;
  pr_kbd : k_kbd s' = k_kbd s;
  pr_sched : k_sched s' = k_sched s;
  pr_pic : k_pic s' = k_pic s;
  pr_rtc : k_rtc s' = k_rtc s;
  pr_fs : k_fs s' = k_fs s;
  pr_proc : k_proc s' = k_proc s;
  pr_paging : k_paging s' = k_paging s;
  pr_cpu : k_cpu s' = k_cpu s;
  pr_desc : k_desc s' = k_desc s;
}.

#[export] Instance printed_preorder : PreOrder printed.
Proof.
  split.
  - intros s. by split; [apply changes_refl|..].
  - intros s1 s2 s3 [] []. split; try congruence. by eapply changes_trans.
Qed.

Lemma console_printed s s' : console_only s s' → printed s s'.
Proof.
  intros []. split; try done. split; [done|]. intros p Hp. apply co_peek.
  by inversion_clear Hp.
Qed.

Lemma conv_printed s s' : only_conv_buf s s' → printed s s' ∧ abs_screen s' = abs_screen s ∧ (cursor_ok s → cursor_ok s').
Proof using HL.
  intros (m & f & Hw & ->). pose proof conv_buf_bounds as Hb. unfold KERNEL_START in Hb.
  assert (Hc : ∀ p, ¬ (loc_conv_buf <= p < loc_conv_buf + 64) → peek m p = peek s p).
  { intros p Hp. destruct Hw as [_ ->]. rewrite <- (Z.add_0_r loc_conv_buf), conv_buf_phys by lia.
    by destruct (in_rangeP (loc_conv_buf + 0) (loc_conv_buf + 0 + 64) p); [lia|]. }
  split; [|split; [|done]].
  - split; try done. split; [apply Hw|]. intros p Hp. apply Hc. inversion_clear Hp as [|? ? _ H]. by inversion_clear H.
  - unfold abs_screen. f_equal. apply page_text_eq. intros i Hi. unfold ld8, PAGE_BYTES in *.
    rewrite !phys_kernel by (unfold VIDEO, PROGRAM_PAGE in *; lia). apply Hc. unfold VIDEO in *. lia.
Qed.

(** A string printing cannot overwrite. *)
Definition lasting_string (s : kernel) (a : Z) (l : list Z) : Prop :=
  cstring s a l ∧ Z.of_nat (length l) < 4294967296 ∧
  ∀ i, 0 <= i <= Z.of_nat (length l) →
    off_screen s (a + i) ∧ ¬ (loc_conv_buf <= phys s (a + i) < loc_conv_buf + 64).

Lemma lasting_printed s s' a l : printed s s' → lasting_string s a l → lasting_string s' a l.
Proof.
  intros Hp (Hc & Hl & Ho). pose proof (proj1 (pr_memory _ _ Hp)) as Hu. split; [|split; [done|]].
  - revert Hc. apply cstring_ext. intros i Hi. apply (changes_byte _ _ _ _ (pr_memory _ _ Hp)).
    destruct (Ho i Hi) as [H1 H2]. unfold off_screen in H1. repeat apply List.Forall_cons; [exact H1|exact H2|done].
  - intros i Hi. unfold off_screen. rewrite (phys_upage s s') by done. by apply Ho.
Qed.

(** Printing a text, after the conversion scribbled. *)
Definition prints (l : list Z) (s s' : kernel) : Prop :=
  printed s s' ∧ cursor_ok s' ∧ abs_screen s' = scr_puts l (abs_screen s).

Lemma prints_chars l s s1 :
  cursor_ok s → only_conv_buf s s1 → prints l s (put_chars l s1).
Proof using HL.
  intros Hc Ho. destruct (conv_printed s s1 Ho) as (Hp & Hs & Hc1). specialize (Hc1 Hc).
  destruct (put_chars_frame l s1 Hc1) as [Hc2 Hco]. split; [|split; [done|]].
  - transitivity s1; [done|by apply console_printed].
  - by rewrite put_chars_screen, Hs.
Qed.

Lemma no_conversion s : only_conv_buf s s.
Proof.
  exists (k_mem s), (λ i, ld8 s (loc_conv_buf + i)). split; [|by destruct s].
  apply writes_self. rewrite <- (Z.add_0_r loc_conv_buf). by apply conv_buf_seg.
Qed.

Lemma prints_app l1 l2 s s1 s2 : prints l1 s s1 → prints l2 s1 s2 → prints (l1 ++ l2) s s2.
Proof.
  intros (P1 & _ & S1) (P2 & C2 & S2). split; [by transitivity s1|]. split; [done|].
  unfold scr_puts in *. by rewrite foldl_app, <- S1.
Qed.

(** One conversion. *)
Lemma conversion_run alternate c v s str text :
  cursor_ok s → (∀ a l, str a = Some l → lasting_string s a l) →
  (if c =? 120 then Some (if alternate : bool then hex8 (u32 v) else number_text 16 (u32 v))
   else if c =? 117 then Some (number_text 10 (u32 v))
   else if c =? 100 then Some (signed_text (s32 v))
   else if c =? 99 then Some [u8 v] else str v) = Some text →
  ∃ s', (if c =? 120 then print_hex alternate (u32 v) s
         else if c =? 117 then print_unsigned (u32 v) s
         else if c =? 100 then print_signed v s
         else if c =? 99 then Some (putc (u8 v) s) else snd <$> puts v s) = Some s' ∧ prints text s s'.
Proof using HL.
  intros Hc Hstr Ht. pose proof (u32_range v) as Hr.
  destruct (c =? 120); [|destruct (c =? 117); [|destruct (c =? 100); [|destruct (c =? 99)]]]; simplify_eq.
  - destruct alternate.
    + destruct (print_hex_alternate (u32 v) s Hr Hc) as (s1 & Ho & He). eexists. split; [exact He|by apply prints_chars].
    + destruct (print_hex_plain (u32 v) s Hr Hc) as (s1 & Ho & He). eexists. split; [exact He|by apply prints_chars].
  - destruct (print_unsigned_text (u32 v) s Hr Hc) as (s1 & Ho & He). eexists. split; [exact He|by apply prints_chars].
  - destruct (print_signed_text (s32 v) s (s32_range v) Hc) as (s1 & Ho & He).
    unfold print_signed in *. rewrite (s32_small (s32 v)) in He by apply s32_range.
    eexists. split; [exact He|by apply prints_chars].
  - eexists. split; [done|]. apply (prints_chars [u8 v] s s Hc). apply no_conversion.
  - destruct (Hstr _ _ Ht) as (Hcs & Hlen & Hoff).
    rewrite (puts_correct v text s Hcs Hlen Hc) by (intros i Hi; by apply Hoff).
    eexists. split; [done|]. apply (prints_chars text s s Hc). apply no_conversion.
Qed.

Lemma printf_scan_render str fmt : ∀ mode args s out,
  render str mode fmt args = Some out → cursor_ok s → (∀ a l, str a = Some l → lasting_string s a l) →
  ∃ s', printf_scan mode fmt args s = Some s' ∧ prints out s s'.
Proof using HL.
  induction fmt as [|c fmt IH]; intros mode args s out Hr Hc Hstr; cbn [render printf_scan] in *.
  { destruct mode; [done|]. simplify_eq. exists s. split; [done|]. split; [done|]. by split. }
  assert (Hchar : ∀ ch rest, (ch ::.) <$> render str None fmt rest = Some out →
    ∃ s', printf_scan None fmt rest (putc ch s) = Some s' ∧ prints out s s').
  { intros ch rest Hr'. apply fmap_Some in Hr' as (out' & Hr' & ->).
    assert (Hp : prints [ch] s (putc ch s)) by (apply (prints_chars [ch] s s Hc), no_conversion).
    destruct (IH None rest (putc ch s) out' Hr') as (s' & He & Hp'); [apply Hp| |].
    - intros a l Hl. apply (lasting_printed s); [apply Hp|by apply Hstr].
    - exists s'. split; [exact He|]. by apply (prints_app [ch] out' s (putc ch s)). }
  destruct mode as [alternate|].
  - destruct (c =? 37); [by apply Hchar|]. destruct (c =? 35); [by apply IH|].
    destruct (existsb (Z.eqb c) [120; 117; 100; 99; 115]) eqn:Ex.
    + destruct args as [|v args]; [done|].
      apply bind_Some in Hr as (text & Ht & Hr). apply fmap_Some in Hr as (out' & Hr & ->).
      destruct (conversion_run alternate c v s str text Hc Hstr Ht) as (s1 & He & Hp).
      destruct (IH None args s1 out' Hr) as (s' & He' & Hp'); [apply Hp| |].
      { intros a l Hl. apply (lasting_printed s); [apply Hp|by apply Hstr]. }
      exists s'. split; [|by apply (prints_app text out' s s1)].
      cbn [existsb] in Ex.
      destruct (c =? 120); [by rewrite He|]. destruct (c =? 117); [by rewrite He|].
      destruct (c =? 100); [by rewrite He|]. destruct (c =? 99); [by simplify_eq|].
      destruct (c =? 115); [|done]. apply fmap_Some in He as (r & -> & ->). exact He'.
    + cbn [existsb] in Ex. rewrite !orb_false_iff in Ex. destruct Ex as (-> & -> & -> & -> & -> & _). by apply IH.
  - destruct (c =? 37); [by apply IH|by apply Hchar].
Qed.
End Printf.

(** C29: [printf] prints what its format says and returns: with an argument for
    every conversion (and a string where one is due, out of reach of the
    screen), the characters that appear are the text of the format, numbers
    in hexadecimal (eight digits when alternate) or decimal with sign; nothing
    but the screen, the cursor and the conversion buffer changes. *)
Theorem printf_correct {L : Layout} {HL : LayoutOK L} (format : string) (args : list Z)
    (str : Z → option (list Z)) (out : list Z) (s : kernel) :
  render str None (bytes_of format) args = Some out → cursor_ok s →
  (∀ a l, str a = Some l → lasting_string s a l) →
  ∃ s', printf format args s = Ret (Z.of_nat (length (bytes_of format))) s' ∧
    printed s s' ∧ cursor_ok s' ∧ abs_screen s' = scr_puts out (abs_screen s).
Proof.
  intros Hr Hc Hstr. destruct (printf_scan_render str (bytes_of format) None args s out Hr Hc Hstr) as (s' & He & Hp).
  exists s'. split; [unfold printf; by rewrite He|exact Hp].
Qed.

(** A line of the boot messages. *)
Lemma printf_correct_witness :
  render (λ _, None) None (bytes_of "Module %d at 0x%#x%%") [0; 0x500000] = Some (bytes_of "Module 0 at 0x00500000%") ∧
  ∃ s', printf (L := example_layout) "Module %d at 0x%#x%%" [0; 0x500000] zero_kernel = Ret 20 s' ∧
    abs_screen s' = scr_puts (bytes_of "Module 0 at 0x00500000%") (abs_screen zero_kernel).
Proof.
  split; [by vm_compute|].
  destruct (printf_correct (L := example_layout) "Module %d at 0x%#x%%" [0; 0x500000] (λ _, None)
    (bytes_of "Module 0 at 0x00500000%") zero_kernel) as (s' & H1 & _ & _ & H2); [by vm_compute|by vm_compute|done|].
  exists s'. split; [exact H1|exact H2].
Defined.

(** the alternate hexadecimal conversion prints exactly eight digits, the
    number padded with zeros, whatever the number; memory changes only in the
    conversion buffer besides the screen. *)
Theorem printf_alternate_hex {L : Layout} {HL : LayoutOK L} (v : Z) (s : kernel) :
  0 <= v < 4294967296 → cursor_ok s →
  length (hex8 v) = 8%nat ∧ value_of 16 (digit_value <$> hex8 v) = v ∧
  ∃ s1, only_conv_buf s s1 ∧ printf "%#x" [v] s = Ret 3 (put_chars (hex8 v) s1).
Proof.
  intros Hv Hc. split; [by apply hex8_length|]. split.
  - unfold hex8. rewrite fmap_app, fmap_replicate. change (digit_value 48) with 0.
    rewrite <- (number_text_value 16 v) at 3 by lia. unfold value_of. rewrite foldl_app. f_equal.
    induction (8 - length (number_text 16 v))%nat as [|k IH]; [done|]. cbn. exact IH.
  - destruct (print_hex_alternate v s Hv Hc) as (s1 & Ho & Hp).
    exists s1. split; [done|]. unfold printf. change (bytes_of "%#x") with [37; 35; 120].
    cbn [printf_scan Z.eqb Pos.eqb]. rewrite u32_small by lia. by rewrite Hp, bind_some.
Qed.

(** the signed conversion prints the decimal text of the number, with a
    minus sign for a negative one, the most negative number included. *)
Theorem printf_signed_decimal {L : Layout} {HL : LayoutOK L} (v : Z) (s : kernel) :
  -2147483648 <= v < 2147483648 → cursor_ok s →
  value_of 10 (digit_value <$> number_text 10 (Z.abs v)) = Z.abs v ∧
  ∃ s1, only_conv_buf s s1 ∧ printf "%d" [v] s = Ret 2 (put_chars (signed_text v) s1).
Proof.
  intros Hv Hc. split; [by apply number_text_value; lia|].
  destruct (print_signed_text v s Hv Hc) as (s1 & Ho & Hp).
  exists s1. split; [done|]. unfold printf. change (bytes_of "%d") with [37; 100].
  cbn [printf_scan Z.eqb Pos.eqb]. by rewrite Hp, bind_some.
Qed.

Lemma printf_alternate_hex_witness :
  cursor_ok zero_kernel ∧
  ∃ s1, only_conv_buf (L := example_layout) zero_kernel s1 ∧
    printf (L := example_layout) "%#x" [0xBEEF] zero_kernel = Ret 3 (put_chars (bytes_of "0000BEEF") s1).
Proof.
  split; [by vm_compute|].
  destruct (printf_alternate_hex (L := example_layout) 0xBEEF zero_kernel) as (_ & _ & H);
    [lia|by vm_compute|]. exact H.
Defined.

Lemma printf_signed_decimal_witness :
  cursor_ok zero_kernel ∧
  ∃ s1, only_conv_buf (L := example_layout) zero_kernel s1 ∧
    printf (L := example_layout) "%d" [-2147483648] zero_kernel =
      Ret 2 (put_chars (bytes_of "-2147483648") s1).
Proof.
  split; [by vm_compute|].
  destruct (printf_signed_decimal (L := example_layout) (-2147483648) zero_kernel) as (_ & H);
    [lia|by vm_compute|]. exact H.
Defined.
