(* ===== verification/Idt.v ===== *)
(** * Interrupt descriptors and exceptions: idt_init.c, x86_desc.h

    [initialize_idt] fills the 256 descriptors of the table; the handlers of
    the processor's exceptions print a message and spin. *)

From S2P Require Import Prelude Memory LibStr Video State Console Format.

Implicit Types s : kernel.

(** ** Descriptors *)

Definition KERNEL_CS : Z := 0x0010.
Definition NUM_VEC : Z := 256.

(** The exception handlers, and the handler of the other vectors. *)
Inductive handler :=
  | divide_error | debug_exception | nmi_interrupt | breakpoint_interrupt | overflow_exception
  | bound_range_exceeded | invalid_opcode | device_not_available | double_fault
  | coprocessor_segment_overrun | invalid_tss | segment_not_present | stack_segment_fault
  | general_protection | page_fault | reserved | floating_point_error | alignment_check
  | machine_check | simd_floating_point_exception | undefined_interrupt.

(** The routines the table points to: the entries of handlers.S, whose drivers
    have their own files, and the handlers. *)
Inductive routine :=
  | PIT_interrupt | keyboard_interrupt | rtc_interrupt | sys_call_interrupt
  | c_handler (h : handler).
Coercion c_handler : handler >-> routine.

Section Table.
(** Where the linker puts the routines. *)
Context (address : routine → Z).

Definition SET_IDT_ENTRY (str : idt_desc_t) (handler : routine) : idt_desc_t :=
  mkIdtDesc (Z.land (address handler) 0xFFFF) (seg_selector str) (reserved4 str) (reserved3 str)
    (reserved2 str) (reserved1 str) (gate_size str) (reserved0 str) (dpl str) (gate_present str)
    (Z.shiftr (Z.land (address handler) 0xFFFF0000) 16).

Definition set_entry (i : Z) (handler : routine) (idt : arr idt_desc_t) : arr idt_desc_t :=
  <[i := SET_IDT_ENTRY (idt !!! i) handler]> idt.

(** The body of the loop. *)
Definition initialize_vector (i : Z) (idt : arr idt_desc_t) : arr idt_desc_t :=
  let system_call := 0x80 in
  let d := idt !!! i in
  let d := mkIdtDesc (offset_15_00 d) KERNEL_CS 0x0 0x1 0x1 0x1 0x1 0x0
             (if i =? system_call then 0x3 else 0x0) 0x1 (offset_31_16 d) in
  let idt := <[i := d]> idt in
  if 31 <? i then set_entry i undefined_interrupt idt else idt.

(** The assignments after the loop. *)
Definition exception_vectors : list (Z * handler) :=
  [(0, divide_error); (1, debug_exception); (2, nmi_interrupt); (3, breakpoint_interrupt);
   (4, overflow_exception); (5, bound_range_exceeded); (6, invalid_opcode); (7, device_not_available);
   (8, double_fault); (9, coprocessor_segment_overrun); (10, invalid_tss); (11, segment_not_present);
   (12, stack_segment_fault); (13, general_protection); (14, page_fault); (15, reserved);
   (16, floating_point_error); (17, alignment_check); (18, machine_check);
   (19, simd_floating_point_exception)].

Definition vector_routines : list (Z * routine) :=
  [(0x20, PIT_interrupt); (0x21, keyboard_interrupt); (0x28, rtc_interrupt); (0x80, sys_call_interrupt)] ++
  ((λ p, (p.1, c_handler p.2)) <$> exception_vectors).

Definition initialize_idt (idt : arr idt_desc_t) : arr idt_desc_t :=
  foldl (λ idt '(i, h), set_entry i h idt) (for_up (Z.to_nat NUM_VEC) 0 initialize_vector idt) vector_routines.

(** ** What the processor makes of a descriptor *)

(** The two words of the union. *)
Definition desc_words (d : idt_desc_t) : Z * Z :=
  (offset_15_00 d + Z.shiftl (seg_selector d) 16,
   reserved4 d + Z.shiftl (reserved3 d) 8 + Z.shiftl (reserved2 d) 9 + Z.shiftl (reserved1 d) 10 +
   Z.shiftl (gate_size d) 11 + Z.shiftl (reserved0 d) 12 + Z.shiftl (dpl d) 13 +
   Z.shiftl (gate_present d) 15 + Z.shiftl (offset_31_16 d) 16).

(** The fields of a gate (Intel SDM, volume 3, 6.11): entry point, segment,
    type, privilege a software interrupt needs, present. *)
Record gate := mkGate { entry_point : Z; segment : Z; gate_type : Z; privilege : Z; valid : bool }.

Definition hardware_gate (w : Z * Z) : gate :=
  mkGate (Z.land w.1 0xFFFF + Z.land w.2 0xFFFF0000) (Z.land (Z.shiftr w.1 16) 0xFFFF)
    (Z.land (Z.shiftr w.2 8) 0x1F) (Z.land (Z.shiftr w.2 13) 3) (Z.testbit w.2 15).

(** A 32-bit trap gate. *)
Definition TRAP_GATE : Z := 0xF.

(** The routine of a vector, for the vectors that have one. *)
Definition routine_of (v : Z) : option routine :=
  match List.find (λ p, p.1 =? v) vector_routines with
  | Some (_, r) => Some r
  | None => if 31 <? v then Some (c_handler undefined_interrupt) else None
  end.

End Table.

(** ** Exception handlers *)

(** [puts] of a literal. *)
Definition puts_literal (t : string) : M unit := modify (put_chars (bytes_of t)).

(** The message of a handler of the form [printf(...); while(1);]. *)
Definition message (h : handler) : string :=
  match h with
  | divide_error => "Divide error"
  | debug_exception => "Debug exceptions"
  | nmi_interrupt => "Non-maskable external interrupt"
  | breakpoint_interrupt => "Breakpoint"
  | overflow_exception => "Overflow"
  | bound_range_exceeded => "Bounds range exceeded"
  | invalid_opcode => "Invalid opcode"
  | device_not_available => "Device not available"
  | double_fault => "Double fault"
  | coprocessor_segment_overrun => "Coprocessor segment overrun"
  | invalid_tss => "Invalid TSS"
  | segment_not_present => "Segment not present"
  | stack_segment_fault => "Stack segment fault"
  | general_protection => "General protection"
  | page_fault => "Page fault"
  | reserved => "Reserved"
  | floating_point_error => "Floating point error"
  | alignment_check => "Alignment check"
  | machine_check => "Machine check"
  | simd_floating_point_exception => "SIMD floating-point exception"
  | undefined_interrupt => "Undefined interrupt"
  end.

Section Handlers.
Context {L : Layout}.

(** [ecx] is the register the page fault handler prints. *)
Definition exception (h : handler) (ecx : Z) : M unit :=
  match h with
  | divide_error => _ ← puts_literal (message h); block
  | page_fault =>
      _ ← printf "%x " [s32 (ecx + 1)];
      _ ← printf (message h) [];
      block
  | undefined_interrupt => _ ← printf (message h) []; mret tt
  | _ => _ ← printf (message h) []; block
  end.
End Handlers.

(** ** The table *)

Section TableFacts.
Context (address : routine → Z) (Haddr : ∀ r, 0 <= address r < 4294967296).

Lemma set_entry_lookup i h idt v :
  set_entry address i h idt !!! v = if i =? v then SET_IDT_ENTRY address (idt !!! i) h else idt !!! v.
Proof. unfold set_entry. by rewrite lookup_total_insert_Z. Qed.

(** A descriptor after the loop. *)
Definition looped (idt : arr idt_desc_t) (v : Z) : idt_desc_t :=
  let d := idt !!! v in
  let d := mkIdtDesc (offset_15_00 d) KERNEL_CS 0 1 1 1 1 0 (if v =? 0x80 then 3 else 0) 1 (offset_31_16 d) in
  if 31 <? v then SET_IDT_ENTRY address d undefined_interrupt else d.

Lemma initialize_vector_lookup i idt v :
  initialize_vector address i idt !!! v = if i =? v then looped idt v else idt !!! v.
Proof.
  unfold initialize_vector, looped. cbv zeta. destruct (Z.eqb_spec i v) as [->|Hne].
  - destruct (31 <? v); [rewrite set_entry_lookup, Z.eqb_refl|]; by rewrite lookup_total_insert_Z, Z.eqb_refl.
  - apply Z.eqb_neq in Hne. destruct (31 <? i); [rewrite set_entry_lookup, Hne|]; by rewrite lookup_total_insert_Z, Hne.
Qed.

Lemma loop_lookup idt v :
  0 <= v < 256 → for_up (Z.to_nat NUM_VEC) 0 (initialize_vector address) idt !!! v = looped idt v.
Proof.
  intros Hv.
  cut (let t := for_up (Z.to_nat NUM_VEC) 0 (initialize_vector address) idt in
    ∀ v, t !!! v = if (0 <=? v) && (v <? 0 + Z.of_nat (Z.to_nat NUM_VEC)) then looped idt v else idt !!! v).
  { intros H. cbv zeta in H. rewrite H. change (0 + Z.of_nat (Z.to_nat NUM_VEC)) with 256.
    destruct (in_rangeP 0 256 v); [done|lia]. }
  cbv zeta. apply (for_up_ind (λ i t, ∀ v, t !!! v = if (0 <=? v) && (v <? i) then looped idt v else idt !!! v)).
  - intros w. destruct (in_rangeP 0 0 w); [lia|done].
  - intros i t Hi IH w. rewrite initialize_vector_lookup. destruct (Z.eqb_spec i w) as [->|Hne].
    + assert (E : t !!! w = idt !!! w) by (rewrite IH; destruct (in_rangeP 0 w w); [lia|done]).
      unfold looped. rewrite E. destruct (in_rangeP 0 (w + 1) w); [done|lia].
    + rewrite IH. destruct (in_rangeP 0 i w), (in_rangeP 0 (i + 1) w); (done || lia).
Qed.

Lemma entries_lookup l idt v :
  NoDup (l.*1) →
  foldl (λ idt '(i, h), set_entry address i h idt) idt l !!! v =
  match List.find (λ p, p.1 =? v) l with
  | Some (_, r) => SET_IDT_ENTRY address (idt !!! v) r
  | None => idt !!! v
  end.
Proof.
  revert idt. induction l as [|[i r] l IH]; intros idt Hnd; [done|]. cbn [foldl List.find fst] in *.
  inversion_clear Hnd as [|? ? Hi Hnd']. rewrite IH by done. rewrite !set_entry_lookup.
  destruct (Z.eqb_spec i v) as [->|Hne]; [|done].
  destruct (List.find _ l) as [[j r']|] eqn:Hf; [|done].
  apply List.find_some in Hf as [Hin Hj%Z.eqb_eq]. cbn in Hj. subst j.
  exfalso. apply Hi. apply list_elem_of_In. by apply (in_map fst l (v, r')).
Qed.

Lemma vectors_distinct : NoDup (vector_routines.*1).
Proof. apply (bool_decide_unpack _). by vm_compute. Qed.

(** What the processor reads back. *)
Lemma gate_of_words lo hi d :
  0 <= lo < 65536 → 0 <= hi < 65536 → 0 <= d < 4 →
  hardware_gate (desc_words (mkIdtDesc lo KERNEL_CS 0 1 1 1 1 0 d 1 hi)) = mkGate (lo + 65536 * hi) KERNEL_CS TRAP_GATE d true.
Proof.
  intros Hl Hh Hd. unfold hardware_gate, desc_words. cbn [fst snd offset_15_00 seg_selector reserved4 reserved3
    reserved2 reserved1 gate_size reserved0 dpl gate_present offset_31_16].
  rewrite !Z.shiftl_mul_pow2, !Z.shiftr_div_pow2 by lia. unfold KERNEL_CS.
  change 0xFFFF0000 with (Z.shiftl (Z.ones (32 - 16)) 16). rewrite mask_high by lia.
  change 0xFFFF with (Z.ones 16). change 0x1F with (Z.ones 5). change 3 with (Z.ones 2).
  rewrite !Z.land_ones by lia. unfold TRAP_GATE.
  f_equal; [Z.div_mod_to_equations; lia..|].
  apply Z.testbit_true; [lia|]. Z.div_mod_to_equations; lia.
Qed.

Lemma entry_offsets h : 
  Z.land (address h) 0xFFFF = address h mod 65536 ∧
  Z.shiftr (Z.land (address h) 0xFFFF0000) 16 = address h / 65536.
Proof using Haddr.
  pose proof (Haddr h). change 0xFFFF0000 with (Z.shiftl (Z.ones (32 - 16)) 16). rewrite mask_high by lia.
  change 0xFFFF with (Z.ones 16). rewrite Z.land_ones, Z.shiftr_div_pow2 by lia.
  split; [done|]. change (2 ^ 16) with 65536. by rewrite Z.div_mul.
Qed.

Lemma installed idt v :
  0 <= v < 256 → 0 <= offset_15_00 (idt !!! v) < 65536 → 0 <= offset_31_16 (idt !!! v) < 65536 →
  hardware_gate (desc_words (initialize_idt address idt !!! v)) =
  mkGate (match routine_of v with
          | Some r => address r
          | None => offset_15_00 (idt !!! v) + 65536 * offset_31_16 (idt !!! v)
          end) KERNEL_CS TRAP_GATE (if v =? 0x80 then 3 else 0) true.
Proof using Haddr.
  intros Hv H1 H2. unfold initialize_idt, routine_of. rewrite entries_lookup by apply vectors_distinct.
  rewrite loop_lookup by done. unfold looped. cbv zeta.
  assert (Hset : ∀ d h, seg_selector d = KERNEL_CS → reserved4 d = 0 → reserved3 d = 1 → reserved2 d = 1 →
    reserved1 d = 1 → gate_size d = 1 → reserved0 d = 0 → dpl d = (if v =? 0x80 then 3 else 0) → gate_present d = 1 →
    hardware_gate (desc_words (SET_IDT_ENTRY address d h)) = mkGate (address h) KERNEL_CS TRAP_GATE (if v =? 0x80 then 3 else 0) true).
  { intros d h. unfold SET_IDT_ENTRY. intros -> -> -> -> -> -> -> -> ->. destruct (entry_offsets h) as [E1 E2]. rewrite E1, E2.
    pose proof (Haddr h). rewrite gate_of_words; [|Z.div_mod_to_equations; lia..|by destruct (v =? 0x80)].
    f_equal. Z.div_mod_to_equations; lia. }
  destruct (List.find _ vector_routines) as [[j r]|]; [by apply Hset; destruct (31 <? v)|].
  destruct (31 <? v); [by apply Hset|]. apply gate_of_words; [done..|by destruct (v =? 0x80)].
Qed.
End TableFacts.

(** C28: after [initialize_idt] every one of the 256 vectors is a present 32-bit
    trap gate of the kernel; a program can call vector 0x80 and no other; the
    exceptions, the three devices and the system call enter their routines,
    every vector above 31 without one the common handler, and the twelve
    vectors 20 to 31 are left at whatever offset the table held before. *)
Theorem initialize_idt_correct (address : routine → Z) (idt : arr idt_desc_t) (v : Z) :
  (∀ r, 0 <= address r < 4294967296) → 0 <= v < 256 →
  0 <= offset_15_00 (idt !!! v) < 65536 → 0 <= offset_31_16 (idt !!! v) < 65536 →
  let g := hardware_gate (desc_words (initialize_idt address idt !!! v)) in
  segment g = KERNEL_CS ∧ gate_type g = TRAP_GATE ∧ valid g = true ∧ (privilege g = 3 ↔ v = 0x80) ∧
  match routine_of v with
  | Some r => entry_point g = address r
  | None => 20 <= v <= 31 ∧ entry_point g = offset_15_00 (idt !!! v) + 65536 * offset_31_16 (idt !!! v)
  end.
Proof.
  intros Ha Hv H1 H2. cbv zeta. rewrite installed by done. cbn.
  split; [done|]. split; [done|]. split; [done|]. split; [destruct (Z.eqb_spec v 128); lia|].
  destruct (routine_of v) as [r|] eqn:Hr; [done|]. split; [|done].
  assert (Hall : forallb (λ v, bool_decide (is_Some (routine_of v)) || ((20 <=? v) && (v <=? 31))) (seqZ 0 256) = true) by (by vm_compute).
  rewrite forallb_forall in Hall. specialize (Hall v). rewrite Hr in Hall.
  change (bool_decide (is_Some None) || ((20 <=? v) && (v <=? 31))) with ((20 <=? v) && (v <=? 31)) in Hall.
  rewrite andb_true_iff, !Z.leb_le in Hall.
  apply Hall, list_elem_of_In, elem_of_seqZ. lia.
Qed.

Lemma initialize_idt_correct_witness :
  let address r := match r with sys_call_interrupt => 0x401234 | _ => 0x400000 end in
  (0 <= 0x80 < 256) ∧ routine_of 0x80 = Some sys_call_interrupt ∧
  entry_point (hardware_gate (desc_words (initialize_idt address ∅ !!! 0x80))) = 0x401234.
Proof.
  intros address. split; [lia|]. split; [by vm_compute|].
  destruct (initialize_idt_correct address ∅ 0x80) as (_ & _ & _ & _ & H);
    [intros r; destruct r; cbn; lia|lia|by vm_compute|by vm_compute|]. exact H.
Defined.

(** every processor exception prints its message and spins for ever; the
    handler of the undefined vectors prints its own and returns.  Only the
    screen, its cursor and the conversion buffer change. *)
Theorem exception_correct {L : Layout} {HL : LayoutOK L} (h : handler) (ecx : Z) (s : kernel) :
  cursor_ok s →
  ∃ s', exception h ecx s = (match h with undefined_interrupt => Ret tt s' | _ => Block s' end) ∧
    printed s s' ∧ cursor_ok s' ∧
    abs_screen s' = scr_puts (match h with
                              | page_fault => number_text 16 (u32 (ecx + 1)) ++ [32] ++ bytes_of (message h)
                              | _ => bytes_of (message h)
                              end) (abs_screen s).
Proof.
  intros Hc.
  assert (Hplain : ∀ h' s1, cursor_ok s1 → plain (message h') = true →
    ∃ n s', printf (message h') [] s1 = Ret n s' ∧ prints (bytes_of (message h')) s1 s').
  { intros h' s1 Hc1 Hp. eexists _, _. split; [by apply printf_plain|]. apply (prints_chars _ s1 s1 Hc1), no_conversion. }
  destruct h; try match goal with |- context [exception ?h _ _] =>
    destruct (Hplain h s Hc eq_refl) as (n & s' & He & Hp); exists s';
    unfold exception; rewrite (bind_ret _ _ _ _ _ He); split; [done|exact Hp] end.
  - exists (put_chars (bytes_of (message divide_error)) s). split; [done|]. apply (prints_chars _ s s Hc), no_conversion.
  - destruct (printf_scan_render (λ _, None) (bytes_of "%x ") None [s32 (ecx + 1)] s (number_text 16 (u32 (s32 (ecx + 1))) ++ [32]))
      as (s1 & He1 & Hp1); [done|done|done|].
    destruct (Hplain page_fault s1) as (n & s' & He & Hp); [apply Hp1|done|].
    exists s'. split.
    + assert (He2 : printf "%x " [s32 (ecx + 1)] s = Ret 3 s1) by (unfold printf; by rewrite He1).
      unfold exception. rewrite (bind_ret _ _ _ _ _ He2).
      by rewrite (bind_ret _ _ _ _ _ He).
    + rewrite u32_s32 in Hp1. rewrite app_assoc. by apply (prints_app _ _ s s1).
Qed.

Lemma exception_correct_witness :
  cursor_ok zero_kernel ∧
  ∃ s', exception (L := example_layout) general_protection 0 zero_kernel = Block s' ∧
    abs_screen s' = scr_puts (bytes_of "General protection") (abs_screen zero_kernel).
Proof.
  split; [by vm_compute|].
  destruct (exception_correct (L := example_layout) general_protection 0 zero_kernel) as (s' & H1 & _ & _ & H2); [by vm_compute|].
  exists s'. split; [exact H1|exact H2].
Defined.
