(* ===== verification/Machine.v ===== *)
(** * The processor under the C code: registers, stack, interrupts

    The instructions the assembly of the kernel uses (handlers.S, boot.S), run on
    a machine that has the registers of the processor and the kernel's state; how
    the processor delivers an interrupt through a gate of the table, and [iret]
    (Intel SDM, volume 2 and volume 3, 6.12); the segment descriptors of
    x86_desc.S.  A call of a C function runs the definition that models it. *)

From stdpp Require Import functions.
From S2P Require Import Prelude Memory State Idt.

Implicit Types s : kernel.

(** ** Registers *)

Inductive reg := EAX | ECX | EDX | EBX | ESP | EBP | ESI | EDI.
#[export] Instance reg_eq_dec : EqDecision reg.
Proof. solve_decision. Defined.

Inductive seg_reg := CS | SS | DS | ES | FS | GS.
#[export] Instance seg_reg_eq_dec : EqDecision seg_reg.
Proof. solve_decision. Defined.

(** [status] is the flags register without the interrupt flag, which is
    [iflag] of the kernel's state. *)
Record machine := mkMachine {
  regs : reg → Z;
  segs : seg_reg → Z;
  eip : Z;
  status : Z;
  kern : kernel;
}.

Definition set_reg (r : reg) (v : Z) (m : machine) : machine :=
  mkMachine (<[r := v]> (regs m)) (segs m) (eip m) (status m) (kern m).
Definition set_seg (r : seg_reg) (v : Z) (m : machine) : machine :=
  mkMachine (regs m) (<[r := v]> (segs m)) (eip m) (status m) (kern m).
Definition set_eip (v : Z) (m : machine) : machine := mkMachine (regs m) (segs m) v (status m) (kern m).
Definition set_status (v : Z) (m : machine) : machine := mkMachine (regs m) (segs m) (eip m) v (kern m).
Definition set_kern (s : kernel) (m : machine) : machine := mkMachine (regs m) (segs m) (eip m) (status m) s.
Definition set_iflag (b : bool) (s : kernel) : kernel := if b then sti s else cli s.

(** ** Flags *)

Definition IF_BIT : Z := 9.

Definition flags (m : machine) : Z := Z.lor (status m) (if iflag (kern m) then 0x200 else 0).
Definition set_flags (w : Z) (m : machine) : machine :=
  set_kern (set_iflag (Z.testbit w IF_BIT) (kern m)) (set_status (Z.ldiff w 0x200) m).

(** The arithmetic flags: carry, parity, adjust, zero, sign, overflow. *)
Definition ARITHMETIC : Z := 0x8D5.
Definition bit_if (b : bool) (w : Z) : Z := if b then w else 0.
Definition arithmetic (cf pf af zf sf ov : bool) : Z :=
  bit_if cf 0x1 + bit_if pf 0x4 + bit_if af 0x10 + bit_if zf 0x40 + bit_if sf 0x80 + bit_if ov 0x800.
Definition even_parity (x : Z) : bool :=
  negb (foldr xorb false (Z.testbit x <$> [0; 1; 2; 3; 4; 5; 6; 7])).

(** Of the result [d] with carry, adjust and overflow given. *)
Definition result_flags (old d : Z) (cf af ov : bool) : Z :=
  Z.lor (Z.ldiff old ARITHMETIC) (arithmetic cf (even_parity d) af (d =? 0) (Z.testbit d 31) ov).

Definition sub_flags (old a b : Z) : Z :=
  let d := u32 (a - b) in
  result_flags old d (u32 a <? u32 b) (a mod 16 <? b mod 16) (negb (s32 a - s32 b =? s32 d)).
Definition add_flags (old a b : Z) : Z :=
  let d := u32 (a + b) in
  result_flags old d (4294967296 <=? u32 a + u32 b) (16 <=? a mod 16 + b mod 16) (negb (s32 a + s32 b =? s32 d)).
(** [dec] keeps the carry flag. *)
Definition dec_flags (old a : Z) : Z :=
  let d := u32 (a - 1) in
  result_flags old d (Z.testbit old 0) (a mod 16 =? 0) (negb (s32 a - 1 =? s32 d)).

Definition greater (w : Z) : bool := negb (Z.testbit w 6) && eqb (Z.testbit w 7) (Z.testbit w 11).
Definition less (w : Z) : bool := negb (eqb (Z.testbit w 7) (Z.testbit w 11)).

(** ** Segment descriptors (x86_desc.S) *)

(** The quads of the table: the two that cannot be used, kernel code and data,
    user code and data, and room for the TSS and the LDT. *)
Definition gdt : list Z :=
  [0; 0; 0x00CF9A000000FFFF; 0x00CF92000000FFFF; 0x00CFFA000000FFFF; 0x00CFF2000000FFFF; 0; 0].

(** The fields of a code or data descriptor (Intel SDM, volume 3, 3.4.5); the
    limit in bytes. *)
Record descriptor := mkDescriptor {
  d_base : Z; d_last : Z; d_code : bool; d_writable : bool; d_level : Z; d_present : bool; d_wide : bool;
}.
Definition bit_field (q first n : Z) : Z := Z.land (Z.shiftr q first) (Z.ones n).
Definition read_descriptor (q : Z) : descriptor :=
  let limit := bit_field q 0 16 + Z.shiftl (bit_field q 48 4) 16 in
  mkDescriptor (bit_field q 16 24 + Z.shiftl (bit_field q 56 8) 24)
    (if Z.testbit q 55 then limit * 4096 + 4095 else limit)
    (Z.testbit q 43) (negb (Z.testbit q 43) && Z.testbit q 41) (bit_field q 45 2) (Z.testbit q 47) (Z.testbit q 54).
Definition selected (sel : Z) : descriptor := read_descriptor (default 0 (gdt !! Z.to_nat (Z.shiftr sel 3))).

(** The privilege level of a selector. *)
Definition level (sel : Z) : Z := Z.land sel 3.

(** ** Stack *)

Definition push (v : Z) (m : machine) : machine :=
  let a := u32 (regs m ESP - 4) in
  set_kern (upd_mem (λ mem, st32 mem a v) (kern m)) (set_reg ESP a m).
Definition push_all (l : list Z) (m : machine) : machine := foldl (λ m v, push v m) m l.
Definition top (m : machine) : Z := ld32 (kern m) (regs m ESP).
Definition drop_words (n : Z) (m : machine) : machine := set_reg ESP (u32 (regs m ESP + 4 * n)) m.
Definition pop_reg (r : reg) (m : machine) : machine := set_reg r (top m) (drop_words 1 m).

(** [pushal] stores the registers in this order, [popal] loads them in the
    reverse one, without [ESP]. *)
Definition pushal_order : list reg := [EAX; ECX; EDX; EBX; ESP; EBP; ESI; EDI].
Definition pushal (m : machine) : machine := push_all (regs m <$> pushal_order) m.
Definition popal (m : machine) : machine :=
  pop_reg EAX (pop_reg ECX (pop_reg EDX (pop_reg EBX (drop_words 1 (pop_reg EBP (pop_reg ESI (pop_reg EDI m))))))).
Definition pushfl (m : machine) : machine := push (Z.land (flags m) 0xFCFFFF) m.
Definition popfl (m : machine) : machine := drop_words 1 (set_flags (top m) m).

(** ** Interrupts *)

(** Through a gate: from user mode the stack is that of the task state segment;
    a trap gate leaves the interrupt flag, an interrupt gate clears it. *)
Definition gate_of (s : kernel) (v : Z) : gate := hardware_gate (desc_words (idt s !!! v)).
Definition deliver (g : gate) (m : machine) : machine :=
  let m1 := if level (segs m CS) =? 3
            then push_all [segs m SS; regs m ESP] (set_seg SS (ss0 (kern m)) (set_reg ESP (esp0 (kern m)) m))
            else m in
  let m2 := push_all [flags m; segs m CS; eip m] m1 in
  let m3 := set_status (Z.ldiff (status m) 0x34100) (set_seg CS (segment g) (set_eip (entry_point g) m2)) in
  if gate_type g =? TRAP_GATE then m3 else set_kern (cli (kern m3)) m3.

(** Going out to user mode [iret] takes the stack of the program from the frame
    and clears the segment registers a program may not use. *)
Definition data_segment (sel : Z) : Z := if d_level (selected sel) <? 3 then 0 else sel.
Definition iret (m : machine) : machine :=
  let word i := ld32 (kern m) (u32 (regs m ESP + 4 * i)) in
  let m1 := set_flags (word 2) (set_seg CS (word 1) (set_eip (word 0) (drop_words 3 m))) in
  if level (word 1) =? 3
  then set_reg ESP (word 3) (mkMachine (regs m1)
         (λ r, match r with CS => word 1 | SS => word 4 | _ => data_segment (segs m1 r) end) (eip m1) (status m1) (kern m1))
  else m1.

(** ** Instructions *)

Section Code.
(** The C functions the code calls. *)
Context {F : Type}.

(** A jump names a label of the same routine; symbols are addresses.  [Lgdt]
    loads the table [gdt], the only one, which [selected] reads. *)
Inductive instr :=
  | Label (l : string)
  | Pushal | Pushfl | Popal | Popfl
  | PushR (r : reg) | PushI (v : Z)
  | Call (f : F)
  | CallTable (table : list F) (r : reg)
  | CmpI (v : Z) (r : reg) | Jg (l : string) | Jl (l : string) | Jmp (l : string)
  | Dec (r : reg) | AddI (v : Z) (r : reg)
  | MovI (v : Z) (r : reg) | MovR (src dst : reg)
  | Load (offset : Z) (base dst : reg) | Store (src : reg) (offset : Z) (base : reg)
  | LoadAbs (a : Z) (dst : reg) | StoreAbs (src : reg) (a : Z)
  | MovW (v : Z) (r : reg) | MovSeg (r : reg) (sr : seg_reg)
  | Lgdt | Ljmp (sel : Z) (l : string)
  | Cli | Sti | Iret | Leave | RetI | Hlt.

(** Where a run stops: [iret] went on with the interrupted program, [ret] with
    the caller, [hlt], a C function did not return, or no instruction is left. *)
Inductive result :=
  | Resumed (m : machine)
  | Returned (m : machine)
  | Halted (m : machine)
  | Left (o : outcome Z)
  | Fault.

Inductive next := Go (m : machine) | To (l : string) (m : machine) | Stop (r : result).

(** [code f] is the C function [f] over its arguments; while it runs its stack
    pointer is [depth] below the return address, and what it leaves in the
    registers but [EAX] and [ESP] is unknown.  [text rest] is the address of the
    instruction that [rest] starts with. *)
Context (code : F → (Z → Z) → M Z).
Context (depth : Z).
Context (scratch : reg → Z).
Context (text : list instr → Z).

(** The state a function starts in: the return address is pushed, its frame
    starts below it. *)
Definition call_state (rest : list instr) (m : machine) : kernel :=
  let m1 := push (text rest) m in
  upd_cpu (λ c, mkCpu (regs m1 ESP - depth) (regs m1 ESP - 4) (esp0 c) (iflag c)) (kern m1).
Definition arguments (s : kernel) (i : Z) : Z := ld32 s (ebp s + 8 + 4 * i).

(** A call returns on the stack the function ends on. *)
Definition call (f : F) (rest : list instr) (m : machine) : next :=
  let s := call_state rest m in
  match code f (arguments s) s with
  | Ret r s' => Go (mkMachine (<[EAX := u32 r]> (<[ESP := u32 (esp s' + depth + 4)]> scratch)) (segs m) (eip m) (status m) s')
  | o => Stop (Left o)
  end.

Definition step (i : instr) (rest : list instr) (m : machine) : next :=
  match i with
  | Label _ => Go m
  | Pushal => Go (pushal m)
  | Pushfl => Go (pushfl m)
  | Popal => Go (popal m)
  | Popfl => Go (popfl m)
  | PushR r => Go (push (regs m r) m)
  | PushI v => Go (push v m)
  | Call f => call f rest m
  | CallTable table r => match table !! Z.to_nat (regs m r) with Some f => call f rest m | None => Stop Fault end
  | CmpI v r => Go (set_status (sub_flags (status m) (regs m r) v) m)
  | Jg l => if greater (status m) then To l m else Go m
  | Jl l => if less (status m) then To l m else Go m
  | Jmp l => To l m
  | Dec r => Go (set_status (dec_flags (status m) (regs m r)) (set_reg r (u32 (regs m r - 1)) m))
  | AddI v r => Go (set_status (add_flags (status m) (regs m r) v) (set_reg r (u32 (regs m r + v)) m))
  | MovI v r => Go (set_reg r (u32 v) m)
  | MovR src dst => Go (set_reg dst (regs m src) m)
  | Load o base dst => Go (set_reg dst (ld32 (kern m) (u32 (regs m base + o))) m)
  | Store src o base => Go (set_kern (upd_mem (λ mem, st32 mem (u32 (regs m base + o)) (regs m src)) (kern m)) m)
  | LoadAbs a dst => Go (set_reg dst (ld32 (kern m) a) m)
  | StoreAbs src a => Go (set_kern (upd_mem (λ mem, st32 mem a (regs m src)) (kern m)) m)
  | MovW v r => Go (set_reg r (regs m r - u16 (regs m r) + u16 v) m)
  | MovSeg r sr => Go (set_seg sr (u16 (regs m r)) m)
  | Lgdt => Go m
  | Ljmp sel l => To l (set_seg CS sel m)
  | Cli => Go (set_kern (cli (kern m)) m)
  | Sti => Go (set_kern (sti (kern m)) m)
  | Iret => Stop (Resumed (iret m))
  | Leave => Go (pop_reg EBP (set_reg ESP (regs m EBP) m))
  | RetI => Stop (Returned (set_eip (top m) (drop_words 1 m)))
  | Hlt => Stop (Halted m)
  end.

Fixpoint find_label (l : string) (routine : list instr) : option (list instr) :=
  match routine with
  | [] => None
  | i :: rest => match i with
                 | Label l' => if String.eqb l l' then Some rest else find_label l rest
                 | _ => find_label l rest
                 end
  end.

Fixpoint run (fuel : nat) (routine rest : list instr) (m : machine) : result :=
  match fuel, rest with
  | S fuel', i :: rest' =>
      match step i rest' m with
      | Go m' => run fuel' routine rest' m'
      | To l m' => match find_label l routine with Some rest'' => run fuel' routine rest'' m' | None => Fault end
      | Stop r => r
      end
  | _, _ => Fault
  end.

(** A routine from its start: every one is shorter than this and has no loop. *)
Definition execute_routine (routine : list instr) (m : machine) : result := run 64 routine routine m.
End Code.
Arguments instr F : clear implicits.

(** ** The stack in memory *)

(** Words stored one after the other. *)
Fixpoint words (mem : memory) (a : Z) (l : list Z) : Prop :=
  match l with
  | [] => True
  | v :: l' => ld32 mem a = v ∧ words mem (a + 4) l'
  end.

Lemma words_app mem a l1 l2 : words mem a (l1 ++ l2) ↔ words mem a l1 ∧ words mem (a + 4 * Z.of_nat (length l1)) l2.
Proof.
  revert a. induction l1 as [|v l1 IH]; intros a; cbn [app words length]; [rewrite Z.add_0_r; tauto|].
  rewrite IH. replace (a + 4 + 4 * Z.of_nat (length l1)) with (a + 4 * Z.of_nat (S (length l1))) by lia. tauto.
Qed.

(** Below the program page what matters of [changes] is the bytes. *)
Definition stays (os : list (Z * Z)) (mem mem' : memory) : Prop :=
  ∀ p, Forall (λ o, ¬ (o.1 <= p < o.1 + o.2)) os → peek mem' p = peek mem p.

Lemma changes_stays os mem mem' : changes os mem mem' → stays os mem mem'.
Proof. by intros [_ H]. Qed.

Lemma stays_trans os mem1 mem2 mem3 : stays os mem1 mem2 → stays os mem2 mem3 → stays os mem1 mem3.
Proof. intros H1 H2 p Hp. by rewrite H2, H1. Qed.

(** Words no effect reaches stay. *)
Lemma words_stay os mem mem' a l :
  stays os mem mem' → 0 <= a → a + 4 * Z.of_nat (length l) <= PROGRAM_PAGE →
  Forall (λ o, a + 4 * Z.of_nat (length l) <= o.1 ∨ o.1 + o.2 <= a) os → words mem a l → words mem' a l.
Proof.
  intros Hs. revert a. induction l as [|v l IH]; intros a Ha He Ho; cbn [words length] in *; [done|]. intros [<- Hw].
  split.
  - unfold ld32, ld8. rewrite !phys_kernel by lia.
    rewrite !Hs; [done|..]; (eapply List.Forall_impl; [|exact Ho]; intros o; cbn; lia).
  - apply IH; [lia..| |done]. eapply List.Forall_impl; [|exact Ho]. cbn. lia.
Qed.

Definition word (v : Z) : Prop := 0 <= v < 4294967296.

(** What pushing [l] does: a machine that differs in [ESP] and in the memory
    below it, where the words are. *)
Record pushed (l : list Z) (m m' : machine) : Prop := {
  ps_regs : ∀ r, r ≠ ESP → regs m' r = regs m r;
  ps_esp : regs m' ESP = regs m ESP - 4 * Z.of_nat (length l);
  ps_segs : segs m' = segs m;
  ps_eip : eip m' = eip m;
  ps_status : status m' = status m;
  ps_kern : kern m' = upd_mem (λ _, k_mem (kern m')) (kern m);
  ps_changes : changes [(regs m' ESP, 4 * Z.of_nat (length l))] (kern m) (kern m');
  ps_words : words (kern m') (regs m' ESP) (reverse l);
}.

Lemma push_pushed v m : 4 <= regs m ESP <= PROGRAM_PAGE → word v → pushed [v] m (push v m).
Proof.
  unfold PROGRAM_PAGE. intros He Hv. unfold push. rewrite u32_small by lia. cbv zeta.
  assert (Hs : seg (regs m ESP - 4) 4) by (unfold seg, PROGRAM_PAGE; lia).
  split; cbn [regs segs eip status kern set_reg set_kern length reverse rev_append words].
  - intros r Hr. by rewrite fn_lookup_insert_ne by congruence.
  - by rewrite fn_lookup_insert.
  - done.
  - done.
  - done.
  - done.
  - rewrite fn_lookup_insert. eapply changes_writes; [exact (writes_st32 (kern m) (regs m ESP - 4) v Hs)| |by left].
    apply phys_kernel. unfold PROGRAM_PAGE. lia.
  - rewrite fn_lookup_insert. split; [|done]. cbn. rewrite ld32_st32_same by done. apply u32_small, Hv.
Qed.

Lemma pushed_nil m : pushed [] m m.
Proof. split; cbn [length]; [done|lia|done..|by destruct (kern m)|apply changes_refl|done]. Qed.

Lemma pushed_app l l' m m' m'' :
  pushed l m m' → pushed l' m' m'' → 4 * Z.of_nat (length l + length l') <= regs m ESP <= PROGRAM_PAGE → pushed (l ++ l') m m''.
Proof.
  intros H H' He. pose proof (ps_esp _ _ _ H) as E. pose proof (ps_esp _ _ _ H') as E'.
  split.
  - intros r Hr. rewrite (ps_regs _ _ _ H'), (ps_regs _ _ _ H); done.
  - rewrite E', E, length_app. lia.
  - by rewrite (ps_segs _ _ _ H'), (ps_segs _ _ _ H).
  - by rewrite (ps_eip _ _ _ H'), (ps_eip _ _ _ H).
  - by rewrite (ps_status _ _ _ H'), (ps_status _ _ _ H).
  - rewrite (ps_kern _ _ _ H') at 1. by rewrite (ps_kern _ _ _ H).
  - rewrite length_app. destruct (ps_changes _ _ _ H) as [U C], (ps_changes _ _ _ H') as [U' C']. split; [congruence|].
    intros p Hp. apply List.Forall_inv in Hp. cbn [fst snd] in Hp. rewrite C', C; [done|..]; (constructor; [cbn; lia|done]).
  - rewrite reverse_app, words_app, length_reverse. split; [apply H'|].
    replace (regs m'' ESP + _) with (regs m' ESP) by lia.
    apply (words_stay _ _ _ _ _ (changes_stays _ _ _ (ps_changes _ _ _ H'))); [lia|rewrite length_reverse; unfold PROGRAM_PAGE in *; lia| |apply H].
    constructor; [cbn; lia|done].
Qed.

Lemma push_all_pushed l m :
  4 * Z.of_nat (length l) <= regs m ESP <= PROGRAM_PAGE → Forall word l → pushed l m (push_all l m).
Proof.
  revert m. induction l as [|v l IH]; intros m He Hl; [apply pushed_nil|]. cbn [length] in He.
  pose proof (push_pushed v m ltac:(lia) (List.Forall_inv Hl)) as H. pose proof (ps_esp _ _ _ H) as E. cbn [length] in E.
  apply (pushed_app [v] l m (push v m)); [done| |cbn [length]; lia]. apply IH; [lia|by apply List.Forall_inv_tail in Hl].
Qed.

Lemma push_all_app l l' m : push_all (l ++ l') m = push_all l' (push_all l m).
Proof. apply foldl_app. Qed.

(** ** Contexts *)

(** A machine between two instructions. *)
Record machine_ok (m : machine) : Prop := {
  mo_regs : ∀ r, word (regs m r);
  mo_segs : ∀ r, word (segs m r);
  mo_eip : word (eip m);
  mo_status : word (status m) ∧ Z.testbit (status m) IF_BIT = false;
}.

Definition user_mode (m : machine) : bool := level (segs m CS) =? 3.

(** Everything but the kernel's state is the same, and the interrupt flag. *)
Record continues (m m' : machine) : Prop := {
  ct_regs : ∀ r, regs m' r = regs m r;
  ct_segs : ∀ r, segs m' r = segs m r;
  ct_eip : eip m' = eip m;
  ct_status : status m' = status m;
  ct_iflag : iflag (kern m') = iflag (kern m);
}.

Definition interrupt_frame (m : machine) : list Z :=
  [eip m; segs m CS; flags m] ++ (if user_mode m then [regs m ESP; segs m SS] else []).

(** The context of [m] is on the stack at [a], below it what [pushal] stored. *)
Record saved (mem : memory) (a : Z) (m : machine) : Prop := {
  sv_low : words mem a [regs m EDI; regs m ESI; regs m EBP];
  sv_high : words mem (a + 16) ([regs m EBX; regs m EDX; regs m ECX; regs m EAX] ++ interrupt_frame m);
  sv_stack : user_mode m = false → regs m ESP = a + 44;
}.

Definition saved_size (m : machine) : Z := 4 * (8 + Z.of_nat (length (interrupt_frame m))).

(** The stack an interrupt is delivered on. *)
Definition kernel_stack (m : machine) : Z := if user_mode m then esp0 (kern m) else regs m ESP.

Lemma frame_length m : length (interrupt_frame m) = if user_mode m then 5%nat else 3%nat.
Proof. unfold interrupt_frame. by destruct (user_mode m). Qed.

Lemma word_bits w : word w → ∀ i, 32 <= i → Z.testbit w i = false.
Proof.
  intros [H0 H1] i Hi. destruct (decide (w = 0)) as [->|]; [apply Z.bits_0|].
  apply Z.bits_above_log2; [lia|]. apply Z.log2_lt_pow2; [lia|].
  apply Z.lt_le_trans with (2 ^ 32); [lia|]. apply Z.pow_le_mono_r; lia.
Qed.

Lemma bits_word w : 0 <= w → (∀ i, 32 <= i → Z.testbit w i = false) → word w.
Proof.
  intros H0 Hb. split; [done|]. destruct (decide (w = 0)) as [->|]; [lia|]. change 4294967296 with (2 ^ 32).
  apply Z.log2_lt_pow2; [lia|]. apply Z.nle_gt. intros Hle. specialize (Hb _ Hle). rewrite Z.bit_log2 in Hb; [done|lia].
Qed.

Lemma flags_spec m : machine_ok m →
  word (flags m) ∧ Z.testbit (flags m) IF_BIT = iflag (kern m) ∧ Z.ldiff (flags m) 0x200 = status m.
Proof.
  intros [_ _ _ [Hs Hi]]. unfold flags.
  assert (Hif : ∀ i, 0 <= i → Z.testbit (if iflag (kern m) then 0x200 else 0) i = iflag (kern m) && (i =? IF_BIT)).
  { intros i Hi0. destruct (iflag (kern m)); [|by rewrite Z.bits_0].
    change 0x200 with (2 ^ 9). rewrite Z.pow2_bits_eqb by lia. by rewrite Z.eqb_sym. }
  split; [|split].
  - apply bits_word; [apply Z.lor_nonneg; split; [apply Hs|by case_match]|]. intros i Hi'.
    rewrite Z.lor_spec, Hif, (word_bits _ Hs) by lia. destruct (Z.eqb_spec i IF_BIT); [unfold IF_BIT in *; lia|by rewrite andb_false_r].
  - rewrite Z.lor_spec, Hif by (unfold IF_BIT; lia). by rewrite Hi, Z.eqb_refl, andb_true_r.
  - apply Z.bits_inj'. intros i Hi0. rewrite Z.ldiff_spec, Z.lor_spec, Hif by done. change 0x200 with (2 ^ 9).
    rewrite Z.pow2_bits_eqb, (Z.eqb_sym 9) by lia. change 9 with IF_BIT.
    destruct (Z.eqb_spec i IF_BIT) as [->|]; [by rewrite Hi, andb_false_r|]. by rewrite andb_false_r, orb_false_r, andb_true_r.
Qed.

Lemma frame_words m : machine_ok m → Forall word (interrupt_frame m).
Proof.
  intros Hm. destruct (flags_spec m Hm) as (Hf & _). unfold interrupt_frame.
  repeat (apply list.Forall_cons_2; [first [apply Hm|exact Hf]|]). destruct (user_mode m); [|done].
  repeat (apply list.Forall_cons_2; [apply Hm|]). done.
Qed.

(** ** Into the kernel *)

(** A machine that has entered the kernel from [m] through the gate [g]. *)
Record delivered (g : gate) (m m' : machine) : Prop := {
  dl_regs : ∀ r, r ≠ ESP → regs m' r = regs m r;
  dl_esp : regs m' ESP = kernel_stack m - 4 * Z.of_nat (length (interrupt_frame m));
  dl_segs : ∀ r, r ≠ CS → segs m' r = if user_mode m && bool_decide (r = SS) then ss0 (kern m) else segs m r;
  dl_cs : segs m' CS = segment g;
  dl_eip : eip m' = entry_point g;
  dl_kern : kern m' = upd_mem (λ _, k_mem (kern m')) (kern m);
  dl_changes : changes [(regs m' ESP, 4 * Z.of_nat (length (interrupt_frame m)))] (kern m) (kern m');
  dl_words : words (kern m') (regs m' ESP) (interrupt_frame m);
}.

Definition stack_room (m : machine) : Prop := 1024 <= kernel_stack m <= PROGRAM_PAGE.

Lemma deliver_spec g m : machine_ok m → stack_room m → gate_type g = TRAP_GATE → delivered g m (deliver g m).
Proof.
  intros Hm Hr Ht. pose proof (frame_words m Hm) as Hw. unfold deliver. rewrite Ht, Z.eqb_refl. fold (user_mode m).
  unfold interrupt_frame, stack_room, kernel_stack in *. destruct (user_mode m) eqn:Hu.
  - set (m0 := set_seg SS (ss0 (kern m)) (set_reg ESP (esp0 (kern m)) m)).
    assert (E0 : regs m0 ESP = esp0 (kern m)) by apply fn_lookup_insert.
    pose proof (push_all_pushed ([segs m SS; regs m ESP] ++ [flags m; segs m CS; eip m]) m0 ltac:(rewrite E0; cbn; lia)) as H.
    rewrite push_all_app in H. generalize dependent (push_all [flags m; segs m CS; eip m] (push_all [segs m SS; regs m ESP] m0)).
    intros m2 H. destruct H as [H1 H2 H3 H4 H5 H6 H7 H8]; [apply (Forall_reverse word) in Hw; exact Hw|].
    split; cbn [regs segs eip status kern set_status set_seg set_eip]; unfold kernel_stack, interrupt_frame; rewrite ?Hu.
    + intros r Hn. rewrite H1 by done. by apply fn_lookup_insert_ne.
    + rewrite H2, E0. reflexivity.
    + intros r Hn. rewrite fn_lookup_insert_ne by congruence. rewrite H3. cbn [andb m0 segs set_seg set_reg].
      case_bool_decide as Hd; [subst r; apply fn_lookup_insert|by apply fn_lookup_insert_ne].
    + apply fn_lookup_insert.
    + done.
    + exact H6.
    + exact H7.
    + exact H8.
  - pose proof (push_all_pushed [flags m; segs m CS; eip m] m ltac:(cbn; lia)) as H.
    generalize dependent (push_all [flags m; segs m CS; eip m] m).
    intros m2 H. destruct H as [H1 H2 H3 H4 H5 H6 H7 H8]; [apply (Forall_reverse word) in Hw; exact Hw|].
    split; cbn [regs segs eip status kern set_status set_seg set_eip]; unfold kernel_stack, interrupt_frame; rewrite ?Hu;
      [exact H1|exact H2| | |done|exact H6|exact H7|exact H8].
    + intros r Hn. rewrite fn_lookup_insert_ne by congruence. by rewrite H3.
    + apply fn_lookup_insert.
Qed.

(** A word of memory that is known, and a list of them. *)
Ltac known_word :=
  match goal with |- ld32 ?mem ?a = ?v =>
    match goal with H : ld32 mem ?b = v |- _ => replace a with b by lia; exact H end
  end.
Ltac each_word := cbn [words app]; split_and!; try exact I; known_word.

(** With its registers pushed [m] is on the stack. *)
Record entered (g : gate) (m m' : machine) : Prop := {
  en_esp : regs m' ESP = kernel_stack m - saved_size m;
  en_regs : ∀ r, r ≠ ESP → regs m' r = regs m r;
  en_segs : ∀ r, r ≠ CS → segs m' r = if user_mode m && bool_decide (r = SS) then ss0 (kern m) else segs m r;
  en_cs : segs m' CS = segment g;
  en_saved : saved (kern m') (regs m' ESP) m;
  en_kern : kern m' = upd_mem (λ _, k_mem (kern m')) (kern m);
  en_changes : changes [(regs m' ESP, saved_size m)] (kern m) (kern m');
}.

Lemma enter_spec g m : machine_ok m → stack_room m → gate_type g = TRAP_GATE → entered g m (pushal (deliver g m)).
Proof.
  intros Hm Hr Ht. destruct (deliver_spec g m Hm Hr Ht) as [D1 D2 D3 D4 _ D6 D7 D8].
  assert (Hlen : 3 <= Z.of_nat (length (interrupt_frame m)) <= 5) by (rewrite frame_length; case_match; lia).
  unfold stack_room in Hr. pose proof (push_all_pushed (regs (deliver g m) <$> pushal_order) (deliver g m)) as H.
  rewrite length_fmap in H. change (length pushal_order) with 8%nat in H.
  specialize (H ltac:(unfold PROGRAM_PAGE in *; lia)). unfold pushal. revert H.
  generalize (push_all (regs (deliver g m) <$> pushal_order) (deliver g m)). intros m2 H.
  destruct H as [P1 P2 P3 P4 P5 P6 P7 P8].
  { apply Forall_fmap, Forall_forall. intros r _. cbn. destruct (decide (r = ESP)) as [->|Hn]; [|rewrite D1 by done; apply Hm].
    unfold word, PROGRAM_PAGE in *. lia. }
  rewrite length_fmap in P2, P7. change (length pushal_order) with 8%nat in P2, P7. unfold saved_size.
  assert (E2 : regs m2 ESP = kernel_stack m - 4 * (8 + Z.of_nat (length (interrupt_frame m)))) by lia.
  split.
  - exact E2.
  - intros r Hn. rewrite P1, D1; done.
  - intros r Hn. rewrite P3. by apply D3.
  - by rewrite P3.
  - cbn in P8. rewrite (D1 EDI), (D1 ESI), (D1 EBP), (D1 EBX), (D1 EDX), (D1 ECX), (D1 EAX) in P8 by done.
    destruct P8 as (W0 & W1 & W2 & _ & W4 & W5 & W6 & W7 & _).
    split; [each_word| |].
    + apply words_app. split; [each_word|]. cbn [length].
      apply (words_stay _ (kern (deliver g m)) (kern m2) _ _ (changes_stays _ _ _ P7)); [unfold PROGRAM_PAGE in *; lia..| |].
      * constructor; [cbn [fst snd]; lia|done].
      * replace (regs m2 ESP + 16 + 4 * Z.of_nat 4) with (regs (deliver g m) ESP) by lia. exact D8.
    + intros Hu. unfold kernel_stack in E2. rewrite frame_length, Hu in E2. lia.
  - rewrite P6 at 1. by rewrite D6.
  - destruct P7 as [U7 C7], D7 as [U D7]. split; [congruence|]. intros p Hp. apply List.Forall_inv in Hp.
    unfold saved_size in Hp. cbn [fst snd] in Hp. rewrite C7, D7; [done|..]; (constructor; [cbn [fst snd]; lia|done]).
Qed.

(** ** Back to the interrupted program *)

Definition regs_at (mem : memory) (a : Z) (r : reg) : Z :=
  match r with
  | EDI => ld32 mem a | ESI => ld32 mem (a + 4) | EBP => ld32 mem (a + 8) | ESP => a + 32
  | EBX => ld32 mem (a + 16) | EDX => ld32 mem (a + 20) | ECX => ld32 mem (a + 24) | EAX => ld32 mem (a + 28)
  end.

Lemma drop_words_esp n m : 0 <= regs m ESP + 4 * n < 4294967296 → regs (drop_words n m) ESP = regs m ESP + 4 * n.
Proof. intros H. unfold drop_words. cbn [regs set_reg]. by rewrite fn_lookup_insert, u32_small. Qed.

Record popped (r : reg) (m m' : machine) : Prop := {
  pp_reg : regs m' r = ld32 (kern m) (regs m ESP);
  pp_esp : regs m' ESP = regs m ESP + 4;
  pp_else : ∀ r', r' ≠ r → r' ≠ ESP → regs m' r' = regs m r';
  pp_segs : segs m' = segs m;
  pp_kern : kern m' = kern m;
}.

Lemma pop_reg_spec r m : r ≠ ESP → 0 <= regs m ESP → regs m ESP + 4 <= PROGRAM_PAGE → popped r m (pop_reg r m).
Proof.
  unfold PROGRAM_PAGE. intros Hn H0 H1. pose proof (drop_words_esp 1 m ltac:(lia)) as E.
  split; [apply fn_lookup_insert| | |done|done]; unfold pop_reg; cbn [regs set_reg].
  - rewrite fn_lookup_insert_ne by congruence. exact E.
  - intros r' Hr He. rewrite fn_lookup_insert_ne by congruence. by apply fn_lookup_insert_ne.
Qed.

Ltac pop_one r m m' H :=
  pose proof (pop_reg_spec r m ltac:(done) ltac:(lia) ltac:(lia)) as H; generalize dependent (pop_reg r m); intros m' H;
  pose proof (pp_esp _ _ _ H).

Lemma popal_spec m : 0 <= regs m ESP → regs m ESP + 32 <= PROGRAM_PAGE →
  (∀ r, regs (popal m) r = regs_at (kern m) (regs m ESP) r) ∧ segs (popal m) = segs m ∧ kern (popal m) = kern m.
Proof.
  intros H0 H1. unfold popal. pop_one EDI m m1 P1. pop_one ESI m1 m2 P2. pop_one EBP m2 m3 P3.
  assert (Hd : ∃ m4, m4 = drop_words 1 m3) by by eexists. destruct Hd as [m4 Hd]. rewrite <- Hd.
  assert (E4 : regs m4 ESP = regs m3 ESP + 4) by (rewrite Hd; apply drop_words_esp; unfold PROGRAM_PAGE in *; lia).
  assert (R4 : ∀ r, r ≠ ESP → regs m4 r = regs m3 r) by (intros r Hn; rewrite Hd; by apply fn_lookup_insert_ne).
  assert (S4 : segs m4 = segs m3 ∧ kern m4 = kern m3) by by rewrite Hd. destruct S4 as [S4 K4]. clear Hd.
  pop_one EBX m4 m5 P5. pop_one EDX m5 m6 P6. pop_one ECX m6 m7 P7. pop_one EAX m7 m8 P8.
  destruct P1 as [A1 _ B1 C1 D1], P2 as [A2 _ B2 C2 D2], P3 as [A3 _ B3 C3 D3], P5 as [A5 _ B5 C5 D5], P6 as [A6 _ B6 C6 D6],
    P7 as [A7 _ B7 C7 D7], P8 as [A8 _ B8 C8 D8].
  split; [|split; congruence]. intros r. destruct r; cbn [regs_at].
  - rewrite A8, D7, D6, D5, K4, D3, D2, D1. f_equal. lia.
  - rewrite B8, A7, D6, D5, K4, D3, D2, D1 by done. f_equal. lia.
  - rewrite B8, B7, A6, D5, K4, D3, D2, D1 by done. f_equal. lia.
  - rewrite B8, B7, B6, A5, K4, D3, D2, D1 by done. f_equal. lia.
  - lia.
  - rewrite B8, B7, B6, B5, R4, A3, D2, D1 by done. f_equal. lia.
  - rewrite B8, B7, B6, B5, R4, B3, A2, D1 by done. f_equal. lia.
  - rewrite B8, B7, B6, B5, R4, B3, B2, A1 by done. reflexivity.
Qed.

Lemma set_iflag_mem b s : k_mem (set_iflag b s) = k_mem s.
Proof. by destruct b. Qed.

Lemma set_iflag_last b c s : set_iflag b (set_iflag c s) = set_iflag b s.
Proof. by destruct b, c. Qed.

(** The registers nothing saves, and the rights of a program to use them. *)
Definition data_segments : list seg_reg := [DS; ES; FS; GS].
Record resumable (m m1 : machine) : Prop := {
  rs_data : ∀ r, r ∈ data_segments → segs m1 r = segs m r;
  rs_stack : user_mode m = false → segs m1 SS = segs m SS;
  rs_rights : user_mode m = true → ∀ r, r ∈ data_segments → d_level (selected (segs m r)) = 3;
}.

(** [iret] with the frame of [m] on the stack: [m] goes on, but for the
    registers, which are what they were. *)
Record returned (m m1 m' : machine) : Prop := {
  rt_regs : ∀ r, r ≠ ESP → regs m' r = regs m1 r;
  rt_esp : regs m' ESP = regs m ESP;
  rt_segs : ∀ r, segs m' r = segs m r;
  rt_eip : eip m' = eip m;
  rt_status : status m' = status m;
  rt_kern : kern m' = set_iflag (iflag (kern m)) (kern m1);
}.

Lemma iret_spec m m1 :
  machine_ok m → words (kern m1) (regs m1 ESP) (interrupt_frame m) → 0 <= regs m1 ESP →
  regs m1 ESP + 4 * Z.of_nat (length (interrupt_frame m)) <= PROGRAM_PAGE →
  (user_mode m = false → regs m ESP = regs m1 ESP + 12) → resumable m m1 → returned m m1 (iret m1).
Proof.
  intros Hm V4 H0 H1 V3 [R1 R2 R3]. rewrite frame_length in H1. destruct (flags_spec m Hm) as (_ & Hif & Hst).
  unfold interrupt_frame in V4. apply words_app in V4 as [(W8 & W9 & W10 & _) V5]. cbn [length] in V5.
  assert (Hb : regs m1 ESP + 12 <= PROGRAM_PAGE) by (destruct (user_mode m); lia).
  assert (Ed : regs (drop_words 3 m1) ESP = regs m1 ESP + 12) by (rewrite drop_words_esp; unfold PROGRAM_PAGE in *; lia).
  assert (Er : ∀ r, r ≠ ESP → regs (drop_words 3 m1) r = regs m1 r) by (intros r Hn; by apply fn_lookup_insert_ne).
  assert (Es : segs (drop_words 3 m1) = segs m1 ∧ kern (drop_words 3 m1) = kern m1) by by split.
  assert (Hword : ∀ i v, 0 <= i <= 4 → ld32 (kern m1) (regs m1 ESP + 4 * i) = v → ld32 (kern m1) (u32 (regs m1 ESP + 4 * i)) = v).
  { intros i v Hi Hv. rewrite u32_small by (unfold PROGRAM_PAGE in *; lia). exact Hv. }
  destruct Es as [Es Ek]. unfold iret. rewrite (Hword 0 (eip m)), (Hword 1 (segs m CS)), (Hword 2 (flags m)) by (lia || known_word).
  fold (user_mode m). unfold set_flags. rewrite Hif, Hst. destruct (user_mode m) eqn:Hu; cbn [words] in V5.
  - destruct V5 as (W11 & W12 & _). rewrite (Hword 3 (regs m ESP)), (Hword 4 (segs m SS)) by (lia || known_word).
    generalize dependent (drop_words 3 m1). intros m2 Ed Er Es Ek.
    split; cbn [regs segs eip status kern set_reg set_seg set_eip set_status set_kern]; rewrite ?Ek; try done.
    + intros r Hn. rewrite fn_lookup_insert_ne by done. by apply Er.
    + assert (Hdata : ∀ r, r ∈ data_segments → data_segment (segs m1 r) = segs m r).
      { intros r Hr. rewrite (R1 r Hr). unfold data_segment. by rewrite (R3 eq_refl r Hr). }
      intros r. rewrite Es. destruct r; try done; rewrite fn_lookup_insert_ne by done; apply Hdata; unfold data_segments; rewrite !elem_of_cons; tauto.
  - generalize dependent (drop_words 3 m1). intros m2 Ed Er Es Ek.
    split; cbn [regs segs eip status kern set_reg set_seg set_eip set_status set_kern]; rewrite ?Ek; try done.
    + by rewrite Ed, V3.
    + intros r. rewrite Es. destruct (decide (r = CS)) as [->|Hn]; [by rewrite fn_lookup_insert|]. rewrite fn_lookup_insert_ne by done.
      destruct r; try done; [by apply R2|..]; apply R1; unfold data_segments; rewrite !elem_of_cons; tauto.
Qed.

(** The registers of a saved context come back. *)
Lemma popal_saved m m1 :
  saved (kern m1) (regs m1 ESP) m → 0 <= regs m1 ESP → regs m1 ESP + saved_size m <= PROGRAM_PAGE →
  (∀ r, r ≠ ESP → regs (popal m1) r = regs m r) ∧ regs (popal m1) ESP = regs m1 ESP + 32 ∧
  segs (popal m1) = segs m1 ∧ kern (popal m1) = kern m1 ∧
  words (kern (popal m1)) (regs (popal m1) ESP) (interrupt_frame m).
Proof.
  unfold saved_size. intros [V1 V2 _] H0 H1. apply words_app in V2 as [V2 V4]. cbn [words app length] in V1, V2, V4.
  destruct (popal_spec m1 H0 ltac:(lia)) as (Pr & Ps & Pk). pose proof (Pr ESP) as Ee. cbn [regs_at] in Ee.
  destruct V1 as (W1 & W2 & W3 & _), V2 as (W4 & W5 & W6 & W7 & _).
  split; [intros r Hn; rewrite Pr; destruct r; cbn [regs_at]; (known_word || done)|]. split; [exact Ee|]. split; [exact Ps|]. split; [exact Pk|].
  rewrite Pk, Ee. by replace (regs m1 ESP + 32) with (regs m1 ESP + 16 + 4 * Z.of_nat 4) by lia.
Qed.

(** The program whose context is on the stack goes on. *)
Lemma resume_spec m m1 :
  machine_ok m → saved (kern m1) (regs m1 ESP) m → 0 <= regs m1 ESP → regs m1 ESP + saved_size m <= PROGRAM_PAGE →
  resumable m m1 →
  continues m (iret (popal m1)) ∧ kern (iret (popal m1)) = set_iflag (iflag (kern m)) (kern m1).
Proof.
  intros Hm Hv H0 H1 Hres. destruct (popal_saved m m1 Hv H0 H1) as (P1 & P2 & P3 & P4 & P5). pose proof (sv_stack _ _ _ Hv) as V3.
  unfold saved_size in H1. generalize dependent (popal m1). intros m2 P1 P2 P3 P4 P5.
  destruct (iret_spec m m2 Hm P5) as [T1 T2 T3 T4 T5 T6]; [lia|lia|intros Hu; rewrite V3 by done; lia| |].
  { destruct Hres as [R1 R2 R3]. split; rewrite ?P3; done. }
  split; [|by rewrite T6, P4]. split; [|exact T3|exact T4|exact T5|rewrite T6; by destruct (iflag (kern m))].
  intros r. destruct (decide (r = ESP)) as [->|Hn]; [exact T2|]. by rewrite T1, P1.
Qed.

(** ** Comparisons *)

Lemma result_flags_bits old d cf af ov :
  Z.testbit (result_flags old d cf af ov) 6 = (d =? 0) ∧
  Z.testbit (result_flags old d cf af ov) 7 = Z.testbit d 31 ∧
  Z.testbit (result_flags old d cf af ov) 11 = ov ∧
  Z.testbit (result_flags old d cf af ov) IF_BIT = Z.testbit old IF_BIT.
Proof.
  unfold result_flags. rewrite !Z.lor_spec, !Z.ldiff_spec. unfold arithmetic, bit_if.
  generalize (even_parity d), (d =? 0), (Z.testbit d 31). intros pf zf sf.
  split_and!; destruct cf, pf, af, zf, sf, ov; cbn; by rewrite ?andb_false_r, ?andb_true_r, ?orb_false_r.
Qed.

Lemma result_flags_word old d cf af ov : word old → word (result_flags old d cf af ov).
Proof.
  intros Hw. unfold result_flags. assert (Ha : 0 <= arithmetic cf (even_parity d) af (d =? 0) (Z.testbit d 31) ov < 4096).
  { unfold arithmetic, bit_if. destruct cf, (even_parity d), af, (d =? 0), (Z.testbit d 31), ov; lia. }
  revert Ha. generalize (arithmetic cf (even_parity d) af (d =? 0) (Z.testbit d 31) ov). intros w Ha. apply bits_word.
  - apply Z.lor_nonneg. split; [apply Z.ldiff_nonneg; left; apply Hw|lia].
  - intros i Hi. rewrite Z.lor_spec, Z.ldiff_spec, (word_bits old Hw i Hi), (word_bits w) by (unfold word; lia). done.
Qed.

Lemma s32_cases x : ∃ k, s32 x = x + 4294967296 * k.
Proof. unfold s32, u32. exists (- (x / 4294967296) - (if x mod 4294967296 <? 2147483648 then 0 else 1)). case_match; Z.div_mod_to_equations; lia. Qed.

Lemma s32_sign x : Z.testbit (u32 x) 31 = (s32 x <? 0).
Proof.
  pose proof (u32_range x). unfold s32. destruct (Z.testbit (u32 x) 31) eqn:Hb.
  - apply Z.testbit_true in Hb; [|lia]. case_match; Z.div_mod_to_equations; lia.
  - apply Z.testbit_false in Hb; [|lia]. case_match; Z.div_mod_to_equations; lia.
Qed.

(** [jl] and [jg] after [cmpl] compare signed integers. *)
Lemma compare_spec old a b :
  less (sub_flags old a b) = (s32 a <? s32 b) ∧ greater (sub_flags old a b) = (s32 b <? s32 a).
Proof.
  unfold less, greater, sub_flags. destruct (result_flags_bits old (u32 (a - b)) (u32 a <? u32 b) (a mod 16 <? b mod 16) (negb (s32 a - s32 b =? s32 (u32 (a - b)))))
    as (-> & -> & -> & _).
  assert (E : s32 (u32 (a - b)) = s32 (a - b)) by (unfold s32 at 1; by rewrite u32_idemp). rewrite E, s32_sign.
  assert (Hz : u32 (a - b) = 0 ↔ s32 (a - b) = 0).
  { unfold s32. pose proof (u32_range (a - b)). case_match; lia. }
  pose proof (s32_range a). pose proof (s32_range b). pose proof (s32_range (a - b)).
  destruct (s32_cases a) as [i Ei], (s32_cases b) as [j Ej], (s32_cases (a - b)) as [k Ek].
  destruct (Z.eqb_spec (u32 (a - b)) 0), (Z.ltb_spec (s32 (a - b)) 0), (Z.eqb_spec (s32 a - s32 b) (s32 (a - b))),
    (Z.ltb_spec (s32 a) (s32 b)), (Z.ltb_spec (s32 b) (s32 a)); cbn; split; (done || lia).
Qed.

(** ** Calls *)

Section Calls.
Context {F : Type} (depth : Z) (text : list (instr F) → Z) (Htext : ∀ rest, word (text rest)).

(** A function starts one word below the stack pointer of its caller. *)
Lemma call_state_spec rest m :
  512 <= regs m ESP <= PROGRAM_PAGE → let s := call_state depth text rest m in
  esp s = regs m ESP - 4 - depth ∧ ebp s = regs m ESP - 8 ∧ changes [(regs m ESP - 4, 4)] (kern m) s ∧
  ld32 s (regs m ESP - 4) = text rest ∧
  s = upd_cpu (λ c, mkCpu (regs m ESP - 4 - depth) (regs m ESP - 8) (esp0 c) (iflag c)) (upd_mem (λ _, k_mem s) (kern m)).
Proof using Htext.
  intros He. cbv zeta. destruct (push_pushed (text rest) m ltac:(lia) (Htext rest)) as [_ P2 _ _ _ P6 P7 P8].
  unfold call_state. generalize dependent (push (text rest) m). intros m1 P2 P6 P7 P8. cbn [length] in P2.
  assert (E1 : regs m1 ESP = regs m ESP - 4) by lia. rewrite E1 in *. destruct P8 as [P8 _].
  split; [done|]. split; [cbn; lia|]. split; [exact P7|]. split; [exact P8|].
  replace (regs m ESP - 4 - 4) with (regs m ESP - 8) by lia. rewrite P6. done.
Qed.

(** An interrupt's handler starts with the context of the program saved. *)
Record in_handler (m : machine) (s : kernel) : Prop := {
  ih_saved : saved s (kernel_stack m - saved_size m) m;
  ih_esp : esp s = kernel_stack m - saved_size m - 8 - depth;
  ih_changes : changes [(kernel_stack m - saved_size m - 8, saved_size m + 8)] (kern m) s;
  ih_kern : s = upd_cpu (λ c, mkCpu (kernel_stack m - saved_size m - 8 - depth) (kernel_stack m - saved_size m - 12) (esp0 c) (iflag c))
                  (upd_mem (λ _, k_mem s) (kern m));
}.

Lemma saved_size_bounds m : 44 <= saved_size m <= 52.
Proof using. unfold saved_size. rewrite frame_length. destruct (user_mode m); lia. Qed.

Lemma saved_stays os mem mem' a m :
  stays os mem mem' → 0 <= a → a + saved_size m <= PROGRAM_PAGE →
  Forall (λ o, a + saved_size m <= o.1 ∨ o.1 + o.2 <= a) os → saved mem a m → saved mem' a m.
Proof using.
  pose proof (saved_size_bounds m). intros Hc H0 H1 Ho [V1 V2 V3]. split; [| |exact V3].
  - apply (words_stay os mem); [done|done|cbn [length]; lia| |done]. eapply List.Forall_impl; [|exact Ho]. cbn [length]. lia.
  - unfold saved_size in *. apply (words_stay os mem); [done|lia|rewrite length_app; cbn [length]; lia| |done].
    eapply List.Forall_impl; [|exact Ho]. intros o. rewrite length_app. cbn [length]. lia.
Qed.

Lemma handler_state g m rest :
  machine_ok m → stack_room m → gate_type g = TRAP_GATE →
  in_handler m (call_state depth text rest (pushfl (pushal (deliver g m)))).
Proof using Htext.
  intros Hm Hr Ht. pose proof (enter_spec g m Hm Hr Ht) as [E1 _ _ _ E5 E6 E7]. pose proof (saved_size_bounds m) as Hsz.
  unfold stack_room in Hr. unfold PROGRAM_PAGE in Hr. generalize dependent (pushal (deliver g m)). intros m2 E1 E5 E6 E7.
  assert (Hw : word (Z.land (flags m2) 0xFCFFFF)).
  { apply bits_word; [apply Z.land_nonneg; by right|]. intros i Hi. rewrite Z.land_spec, (word_bits 0xFCFFFF); [by rewrite andb_false_r|done|done]. }
  destruct (push_pushed _ m2 ltac:(unfold PROGRAM_PAGE; lia) Hw) as [_ P2 _ _ _ P6 P7 _]. unfold pushfl.
  generalize dependent (push (Z.land (flags m2) 0xFCFFFF) m2). intros m3 P2 P6 P7. cbn [length] in P2, P7.
  destruct (call_state_spec rest m3 ltac:(unfold PROGRAM_PAGE; lia)) as (C1 & C2 & C3 & _ & C5). set (s := call_state depth text rest m3) in *.
  clearbody s. assert (Hch : changes [(kernel_stack m - saved_size m - 8, 8)] (kern m2) s).
  { destruct P7 as [U7 P7], C3 as [U3 C3]. split; [congruence|]. intros p Hp. apply List.Forall_inv in Hp. cbn [fst snd] in Hp.
    rewrite C3, P7; [done|..]; (constructor; [cbn [fst snd]; lia|done]). }
  split.
  - apply (saved_stays _ _ _ _ _ (changes_stays _ _ _ Hch)); [lia|unfold PROGRAM_PAGE; lia|constructor; [cbn [fst snd]; lia|done]|by rewrite <- E1].
  - rewrite C1. lia.
  - destruct Hch as [U1 H1], E7 as [U2 H2]. split; [congruence|]. intros p Hp. apply List.Forall_inv in Hp. cbn [fst snd] in Hp.
    rewrite H1, H2; [done|..]; (constructor; [cbn [fst snd]; lia|done]).
  - rewrite C5 at 1. replace (regs m3 ESP - 4 - depth) with (kernel_stack m - saved_size m - 8 - depth) by lia.
    replace (regs m3 ESP - 8) with (kernel_stack m - saved_size m - 12) by lia. rewrite P6, E6. done.
Qed.
End Calls.

(** ** Runs *)

Section Steps.
Context {F : Type} (code : F → (Z → Z) → M Z) (depth : Z) (scratch : reg → Z) (text : list (instr F) → Z).
#[local] Abbreviation step := (step code depth scratch text).
#[local] Abbreviation run := (run code depth scratch text).

Lemma run_go n routine i rest m m' : step i rest m = Go m' → run (S n) routine (i :: rest) m = run n routine rest m'.
Proof. intros E. cbn [Machine.run]. by rewrite E. Qed.

Lemma run_to n routine i rest m l m' rest' : step i rest m = To l m' → find_label l routine = Some rest' →
  run (S n) routine (i :: rest) m = run n routine rest' m'.
Proof. intros E Hl. cbn [Machine.run]. by rewrite E, Hl. Qed.

Lemma run_stop n routine i rest m r : step i rest m = Stop r → run (S n) routine (i :: rest) m = r.
Proof. intros E. cbn [Machine.run]. by rewrite E. Qed.

(** After a call that returns. *)
Definition called (r : Z) (s' : kernel) (m : machine) : machine :=
  mkMachine (<[EAX := u32 r]> (<[ESP := u32 (esp s' + depth + 4)]> scratch)) (segs m) (eip m) (status m) s'.

Lemma call_resumes f rest m r s' :
  code f (arguments (call_state depth text rest m)) (call_state depth text rest m) = Ret r s' →
  call code depth scratch text f rest m = Go (called r s' m).
Proof. intros E. unfold call. by rewrite E. Qed.

(** A call that does not return ends the run. *)
Lemma call_leaves f rest m o :
  code f (arguments (call_state depth text rest m)) (call_state depth text rest m) = o →
  (∀ r s', o ≠ Ret r s') → call code depth scratch text f rest m = Stop (Left o).
Proof. intros E Hn. unfold call. rewrite E. destruct o; try done. by destruct (Hn a s). Qed.
End Steps.

(** A store keeps the low 32 bits. *)
Lemma st32_u32 mem a v : st32 mem a (u32 v) = st32 mem a v.
Proof.
  unfold st32, st8, poke. assert (H : u8 (u32 v) = u8 v ∧ u8 (u32 v / 256) = u8 (v / 256) ∧
    u8 (u32 v / 65536) = u8 (v / 65536) ∧ u8 (u32 v / 16777216) = u8 (v / 16777216)).
  { unfold u8, u32. split_and!; Z.div_mod_to_equations; lia. }
  by destruct H as (-> & -> & -> & ->).
Qed.

Lemma peek_st32 mem a v p : 0 <= a → a + 4 <= PROGRAM_PAGE →
  peek (st32 mem a v) p = if (a <=? p) && (p <? a + 4) then word_byte v (p - a) else peek mem p.
Proof.
  intros H0 H1. destruct (writes_st32 mem a v) as [_ H]; [unfold seg, PROGRAM_PAGE in *; lia|].
  rewrite H, phys_kernel by lia. done.
Qed.

(** ** The status register and the stack *)

Lemma push_status v w m : push v (set_status w m) = set_status w (push v m).
Proof. reflexivity. Qed.

Lemma push_all_status l w m : push_all l (set_status w m) = set_status w (push_all l m).
Proof.
  unfold push_all. revert m. induction l as [|v l IH]; intros m; cbn [foldl]; [reflexivity|]. by rewrite push_status, IH.
Qed.

Lemma pushal_status w m : pushal (set_status w m) = set_status w (pushal m).
Proof. unfold pushal. exact (push_all_status (regs m <$> pushal_order) w m). Qed.
