(* ===== verification/Pic.v ===== *)
(** * The interrupt controller: i8259.c

    The two mask bytes, the commands sent to the controllers, and what
    [enable_irq] and [disable_irq] do to the sixteen lines. *)

From S2P Require Import Prelude Memory State Video Console.

Implicit Types s : kernel.

Definition MASTER_DATA_PORT : Z := 0x21.
Definition SLAVE_DATA_PORT : Z := 0xA1.
Definition ACTIVE_LOW : Z := 0xFC.
Definition ICW1 : Z := 0x11.
Definition ICW2_MASTER : Z := 0x20.
Definition ICW2_SLAVE : Z := 0x28.
Definition ICW3_MASTER : Z := 0x04.
Definition ICW3_SLAVE : Z := 0x02.
Definition ICW4 : Z := 0x01.
Definition EOI : Z := 0x60.

Definition set_master (v : Z) (s : kernel) : kernel := upd_pic (λ p, mkPic v (slave_bit_mask p)) s.
Definition set_slave (v : Z) (s : kernel) : kernel := upd_pic (λ p, mkPic (master_bit_mask p) v) s.

Section Pic.
Context {L : Layout}.

(** [irq_num] is unsigned, so only its upper bound is tested. *)
Definition enable_irq (irq_num : Z) : M unit :=
  let irq_num := u32 irq_num in
  if 16 <=? irq_num then _ ← printf "Invalid irq number" []; mret tt
  else if 8 <? irq_num then
    let mask := u32 (Z.shiftl (irq_num - 8) 1) in
    _ ← modify (λ s, set_slave (u8 (Z.land (Z.lnot mask) (slave_bit_mask s))) s);
    modify (λ s, outb (slave_bit_mask s) SLAVE_DATA_PORT s)
  else
    let mask := u32 (Z.shiftl irq_num 1) in
    _ ← modify (λ s, set_master (u8 (Z.land (Z.lnot mask) (master_bit_mask s))) s);
    modify (λ s, outb (master_bit_mask s) MASTER_DATA_PORT s).

Definition disable_irq (irq_num : Z) : M unit :=
  let irq_num := u32 irq_num in
  if 16 <=? irq_num then _ ← printf "Invalid irq number" []; mret tt
  else if 8 <? irq_num then
    let mask := u32 (Z.shiftl (irq_num - 8) 1) in
    _ ← modify (λ s, set_slave (u8 (Z.lor mask (master_bit_mask s))) s);
    modify (λ s, outb (slave_bit_mask s) SLAVE_DATA_PORT s)
  else
    let mask := u32 (Z.shiftl irq_num 1) in
    _ ← modify (λ s, set_master (u8 (Z.lor mask (master_bit_mask s))) s);
    modify (λ s, outb (master_bit_mask s) MASTER_DATA_PORT s).

Definition send_eoi (irq_num : Z) : M unit :=
  let irq_num := u32 irq_num in
  if 15 <? irq_num then _ ← printf "Invalid irq_num" []; mret tt
  else if irq_num <=? 7 then
    modify (outb (Z.lor EOI irq_num) (MASTER_DATA_PORT - 1))
  else
    let temp_irq_line := irq_num - 8 in
    _ ← modify (outb (Z.lor EOI temp_irq_line) (SLAVE_DATA_PORT - 1));
    modify (outb (Z.lor EOI 2) (MASTER_DATA_PORT - 1)).

Definition i8259_init : M unit :=
  _ ← modify (λ s,
    let s := set_master ACTIVE_LOW s in
    let s := set_slave ACTIVE_LOW s in
    let s := outb ACTIVE_LOW MASTER_DATA_PORT s in
    let s := outb ICW1 (MASTER_DATA_PORT - 1) s in
    let s := outb ICW2_MASTER MASTER_DATA_PORT s in
    let s := outb ICW3_MASTER MASTER_DATA_PORT s in
    let s := outb ICW4 MASTER_DATA_PORT s in
    let s := outb ACTIVE_LOW SLAVE_DATA_PORT s in
    let s := outb ICW1 (SLAVE_DATA_PORT - 1) s in
    let s := outb ICW2_SLAVE SLAVE_DATA_PORT s in
    let s := outb ICW3_SLAVE SLAVE_DATA_PORT s in
    outb ICW4 SLAVE_DATA_PORT s);
  enable_irq 2.
End Pic.

(** ** The sixteen lines *)

(** Line [irq] is masked: bit [irq] of the master, or bit [irq - 8] of the
    slave. *)
Definition masked (p : pic) (irq : Z) : bool :=
  if irq <? 8 then Z.testbit (master_bit_mask p) irq
  else Z.testbit (slave_bit_mask p) (irq - 8).

Definition pic_ok (p : pic) : Prop :=
  0 <= master_bit_mask p < 256 ∧ 0 <= slave_bit_mask p < 256.

(** What a driver asks of [enable_irq]: line [irq] and no other is unmasked. *)
Definition unmasks_only (irq : Z) (p p' : pic) : Prop :=
  ∀ line, 0 <= line < 16 → masked p' line = if line =? irq then false else masked p line.

(** Likewise for [disable_irq]. *)
Definition masks_only (irq : Z) (p p' : pic) : Prop :=
  ∀ line, 0 <= line < 16 → masked p' line = if line =? irq then true else masked p line.

Definition enable_pic (irq : Z) (p : pic) : pic :=
  if 8 <? irq then mkPic (master_bit_mask p) (u8 (Z.land (Z.lnot (2 * (irq - 8))) (slave_bit_mask p)))
  else mkPic (u8 (Z.land (Z.lnot (2 * irq)) (master_bit_mask p))) (slave_bit_mask p).

Definition disable_pic (irq : Z) (p : pic) : pic :=
  if 8 <? irq then mkPic (master_bit_mask p) (u8 (Z.lor (2 * (irq - 8)) (master_bit_mask p)))
  else mkPic (u8 (Z.lor (2 * irq) (master_bit_mask p))) (slave_bit_mask p).

(** The data port a change of line [irq] is announced on, with the new mask. *)
Definition announce (irq : Z) (p : pic) (s : kernel) : kernel :=
  if 8 <? irq then outb (slave_bit_mask p) SLAVE_DATA_PORT s
  else outb (master_bit_mask p) MASTER_DATA_PORT s.

Lemma shiftl_1 x : Z.shiftl x 1 = 2 * x.
Proof. rewrite Z.shiftl_mul_pow2 by lia. lia. Qed.

Lemma enable_irq_run {L : Layout} irq s :
  0 <= irq < 16 →
  enable_irq irq s = Ret tt (announce irq (enable_pic irq s) (upd_pic (enable_pic irq) s)).
Proof.
  intros Hi. unfold enable_irq, enable_pic, announce. rewrite u32_small by lia.
  destruct (Z.leb_spec 16 irq); [lia|].
  rewrite !shiftl_1. destruct (Z.ltb_spec 8 irq); rewrite u32_small by lia; done.
Qed.

Lemma disable_irq_run {L : Layout} irq s :
  0 <= irq < 16 →
  disable_irq irq s = Ret tt (announce irq (disable_pic irq s) (upd_pic (disable_pic irq) s)).
Proof.
  intros Hi. unfold disable_irq, disable_pic, announce. rewrite u32_small by lia.
  destruct (Z.leb_spec 16 irq); [lia|].
  rewrite !shiftl_1. destruct (Z.ltb_spec 8 irq); rewrite u32_small by lia; done.
Qed.

(** Bits of a byte. *)
Lemma testbit_u8 x i : 0 <= i < 8 → Z.testbit (u8 x) i = Z.testbit x i.
Proof. intros Hi. change (u8 x) with (x mod 2 ^ 8). by rewrite Z.mod_pow2_bits_low by lia. Qed.

Lemma enable_pic_masked irq p line :
  0 <= irq < 16 → 0 <= line < 16 →
  masked (enable_pic irq p) line =
    if (8 <? irq) && (8 <=? line) then negb (Z.testbit (2 * (irq - 8)) (line - 8)) && masked p line
    else if negb (8 <? irq) && (line <? 8) then negb (Z.testbit (2 * irq) line) && masked p line
    else masked p line.
Proof.
  intros Hi Hl. unfold enable_pic, masked.
  destruct (Z.ltb_spec 8 irq), (Z.ltb_spec line 8), (Z.leb_spec 8 line); cbn; try lia; try done;
    by rewrite testbit_u8, Z.land_spec, Z.lnot_spec by lia.
Qed.

Lemma masked_announce irq p s line : masked (announce irq p s) line = masked s line.
Proof. unfold announce. by destruct (8 <? irq). Qed.

(** A decidable fact about a line can be checked on the sixteen lines. *)
Lemma forall_line (P : Z → bool) :
  forallb P (seqZ 0 16) = true → ∀ irq, 0 <= irq < 16 → P irq = true.
Proof.
  intros H irq Hi. rewrite forallb_forall in H. apply H.
  apply list_elem_of_In, elem_of_seqZ. lia.
Qed.

(** The lines the expression [irq_num << mask] happens to be right for. *)
Definition well_masked (irq : Z) : bool := existsb (Z.eqb irq) [1; 2; 9; 10].

(** The mask byte sent for [irq] has the bit of [line] and no other one. *)
Lemma well_masked_bits irq line :
  0 <= irq < 16 → 0 <= line < 16 → well_masked irq = true →
  (if (8 <? irq) && (8 <=? line) then Z.testbit (2 * (irq - 8)) (line - 8)
   else if negb (8 <? irq) && (line <? 8) then Z.testbit (2 * irq) line
   else false) = (line =? irq).
Proof.
  intros Hi Hl Hw. apply eqb_prop.
  revert irq Hi line Hl Hw.
  assert (H : forallb (λ irq, forallb (λ line, implb (well_masked irq)
    (eqb (if (8 <? irq) && (8 <=? line) then Z.testbit (2 * (irq - 8)) (line - 8)
   else if negb (8 <? irq) && (line <? 8) then Z.testbit (2 * irq) line
   else false) (line =? irq))) (seqZ 0 16)) (seqZ 0 16) = true) by (by vm_compute).
  intros irq Hi line Hl Hw.
  pose proof (forall_line _ (forall_line _ H irq Hi) line Hl) as Hb. cbn beta in Hb.
  by rewrite Hw in Hb.
Qed.

(** [enable_irq] unmasks the line it is asked for, and only that one, for
    IRQ 1 (keyboard), 2 (cascade), 9 and 10, and for no other of the sixteen:
    the code shifts the line number by one instead of one by the line number. *)
Theorem enable_irq_line {L : Layout} (irq : Z) :
  0 <= irq < 16 →
  (∀ s, ∃ s', enable_irq irq s = Ret tt s' ∧ unmasks_only irq s s') ↔ well_masked irq = true.
Proof.
  intros Hi. split.
  - intros H.
    destruct (H (upd_pic (λ _, mkPic 255 255) zero_kernel)) as (s' & He & Hu).
    rewrite enable_irq_run in He by done. injection He as <-.
    specialize (Hu irq ltac:(done)). rewrite Z.eqb_refl, masked_announce in Hu.
    assert (Hall : forallb (λ irq, masked (enable_pic irq (mkPic 255 255)) irq || well_masked irq) (seqZ 0 16) = true)
      by (by vm_compute).
    pose proof (forall_line _ Hall irq Hi) as Hb. cbn beta in Hb.
    change (k_pic _) with (enable_pic irq (mkPic 255 255)) in Hu. by rewrite Hu in Hb.
  - intros Hw s. eexists. split; [by apply enable_irq_run|].
    intros line Hl. rewrite masked_announce. cbn [k_pic upd_pic].
    rewrite enable_pic_masked, <- (well_masked_bits irq line) by done.
    by repeat case_match.
Qed.

Lemma enable_irq_line_witness :
  (0 <= 8 < 16) ∧
  ((∀ s, ∃ s', enable_irq (L := example_layout) 8 s = Ret tt s' ∧ unmasks_only 8 s s') ↔ well_masked 8 = true).
Proof. split; [lia|]. apply (enable_irq_line (L := example_layout) 8). lia. Defined.

(** The keyboard line, as the scheduler opens and closes it. *)
Definition keyboard_pic (on : bool) (p : pic) : pic := if on then enable_pic 1 p else disable_pic 1 p.

Lemma keyboard_pic_masked on p : masked (keyboard_pic on p) 1 = negb on.
Proof.
  unfold keyboard_pic, masked, enable_pic, disable_pic. destruct on; cbn [negb].
  - change (8 <? 1) with false. change (1 <? 8) with true. cbn [master_bit_mask].
    by rewrite testbit_u8, Z.land_spec, Z.lnot_spec by lia.
  - change (8 <? 1) with false. change (1 <? 8) with true. cbn [master_bit_mask].
    by rewrite testbit_u8, Z.lor_spec by lia.
Qed.

Lemma keyboard_line_run {L : Layout} (on : bool) s :
  (if negb on then disable_irq 0x01 else enable_irq 0x01) s =
  Ret tt (announce 1 (keyboard_pic on s) (upd_pic (keyboard_pic on) s)).
Proof. destruct on; [by apply enable_irq_run|by apply disable_irq_run]. Qed.

(** masking the keyboard line and unmasking it again, as the terminal
    switch does, gives back the masks from any state in which it was enabled. *)
Theorem disable_enable_irq {L : Layout} (s : kernel) :
  pic_ok s → masked s 1 = false →
  ∃ s1 s2, disable_irq 1 s = Ret tt s1 ∧ masked s1 1 = true ∧
           enable_irq 1 s1 = Ret tt s2 ∧ k_pic s2 = k_pic s.
Proof.
  intros [Hm Hs] Hl. unfold masked in Hl. cbn in Hl.
  eexists _, _. split; [by apply disable_irq_run|]. split; [|split; [by apply enable_irq_run|]].
  - rewrite masked_announce. cbn [k_pic upd_pic]. unfold masked, disable_pic.
    change (8 <? 1) with false. change (1 <? 8) with true. cbn [master_bit_mask].
    by rewrite testbit_u8, Z.lor_spec by lia.
  - cbn. destruct (k_pic s) as [m sl]; cbn in *. unfold enable_pic, disable_pic. cbn. f_equal.
    assert (H : forallb (λ m, Z.testbit m 1 || (u8 (Z.land (Z.lnot 2) (u8 (Z.lor 2 m))) =? m)) (seqZ 0 256) = true)
      by (by vm_compute).
    pose proof (forall_byte _ H m Hm) as Hb. cbn beta in Hb.
    change (Z.testbit m 1 = false) in Hl. rewrite Hl in Hb. by apply Z.eqb_eq.
Qed.

Lemma disable_enable_irq_witness :
  let s := upd_pic (λ _, mkPic 0xF8 0xFC) zero_kernel in
  pic_ok s ∧ masked s 1 = false ∧
  ∃ s1 s2, disable_irq (L := example_layout) 1 s = Ret tt s1 ∧ masked s1 1 = true ∧
           enable_irq (L := example_layout) 1 s1 = Ret tt s2 ∧ k_pic s2 = k_pic s.
Proof.
  intros s. assert (H : pic_ok s) by (split; cbn; lia).
  split; [done|]. split; [done|]. by apply (disable_enable_irq (L := example_layout) s).
Defined.
