(* ===== verification/Rtc.v ===== *)
(** * The real-time clock: rtc.c

    Initialisation, the interrupt handler and the four file operations.
    [rtc_read] spins on a flag the handler clears: its wait is [Block] on the
    state in which the flag is still set, and [rtc_poll] is the loop seen from
    any later state. *)

From S2P Require Import Prelude Memory State Video Console Pic.

Implicit Types s : kernel.

Definition RTC_INPUT_PORT : Z := 0x70.
Definition RTC_RW_PORT : Z := 0x71.
Definition RTC_DEFAULT_RATE : Z := 2.

Definition set_rtc_flag (v : Z) (s : kernel) : kernel := upd_rtc (λ _, mkRtc v) s.

Definition frequency_options : list Z := [1024; 512; 256; 128; 64; 32; 16; 8; 4; 2].

(** The search loop of [rtc_write], from index [i]. *)
Fixpoint find_rate (interrupt_rate : Z) (options : list Z) (i : Z) : Z :=
  match options with
  | [] => 0
  | o :: rest => if interrupt_rate =? o then i + 6 else find_rate interrupt_rate rest (i + 1)
  end.

Section Rtc.
Context {L : Layout}.

(** [prev] is a [char], widened with its sign by the bitwise operators. *)
Definition rtc_init : M unit :=
  _ ← modify cli;
  _ ← modify (outb 0x8B RTC_INPUT_PORT);
  prev ← gets (λ s, s8 (inb RTC_RW_PORT s));
  _ ← modify (outb 0x8B RTC_INPUT_PORT);
  _ ← modify (outb (Z.lor prev 0x40) RTC_RW_PORT);
  _ ← enable_irq 0x08;
  modify sti.

Definition rtc_handle_interrupt : M unit :=
  _ ← modify cli;
  _ ← send_eoi 0x08;
  _ ← modify (set_rtc_flag 0);
  _ ← modify (outb 0x8C RTC_INPUT_PORT);
  _ ← gets (inb RTC_RW_PORT);
  modify sti.

Definition rtc_write (fd buf nbytes : Z) : M Z :=
  if (u32 buf =? 0) || negb (nbytes =? 4) then mret (-1)
  else
    interrupt_rate ← gets (λ s, s32 (ld32 s buf));
    let rate := find_rate interrupt_rate frequency_options 0 in
    if (rate <=? 2) || (15 <? rate) then mret (-1)
    else
      let rate := Z.land rate 0x0F in
      _ ← modify (outb 0x8a RTC_INPUT_PORT);
      prev ← gets (λ s, s8 (inb RTC_RW_PORT s));
      _ ← modify (outb 0x8a RTC_INPUT_PORT);
      _ ← modify (outb (Z.lor (Z.land prev 0xf0) rate) RTC_RW_PORT);
      mret 0.

(** [init_frequency] is a local whose address is passed to [rtc_write]. *)
Definition rtc_open (filename : Z) : M Z :=
  _ ← modify (upd_mem (λ m, st32 m loc_rtc_open_frequency RTC_DEFAULT_RATE));
  _ ← rtc_write 0 loc_rtc_open_frequency 4;
  mret 0.

(** One look at the flag: return 0, or go on waiting. *)
Definition rtc_poll : M Z :=
  flag ← gets (λ s, is_rtc_interrupt_flag s);
  if flag =? 0 then mret 0 else block.

Definition rtc_read (fd buf nbytes : Z) : M Z :=
  _ ← modify (set_rtc_flag 1);
  rtc_poll.

Definition rtc_close (fd : Z) : M Z := mret 0.
End Rtc.

(** ** The rate table *)

(** The interrupt rate the device runs at with rate-select bits [rate]. *)
Definition hz_of_rate (rate : Z) : Z := Z.shiftr 32768 (rate - 1).

(** The rates the driver promises: the powers of two from 2 to 1024. *)
Definition supported_hz (hz : Z) : bool := existsb (λ k, hz =? 2 ^ k) (seqZ 1 10).

Definition supported_rates : list (Z * Z) :=
  [(1024, 6); (512, 7); (256, 8); (128, 9); (64, 10); (32, 11); (16, 12); (8, 13); (4, 14); (2, 15)].

Lemma find_rate_cases hz :
  (supported_hz hz = true ∧ (hz, find_rate hz frequency_options 0) ∈ supported_rates) ∨
  (supported_hz hz = false ∧ find_rate hz frequency_options 0 = 0).
Proof.
  unfold supported_hz. change (seqZ 1 10) with [1;2;3;4;5;6;7;8;9;10]. unfold frequency_options. cbn.
  repeat match goal with |- context [2 ^ ?k] => let v := eval vm_compute in (2 ^ k) in change (2 ^ k) with v end.
  repeat (match goal with |- context [hz =? ?k] => destruct (Z.eqb_spec hz k) as [->|] end;
    [left; split; [vm_compute; reflexivity|]; unfold supported_rates; rewrite !elem_of_cons; tauto|]).
  by right.
Qed.

Lemma supported_rates_good hz rate :
  (hz, rate) ∈ supported_rates → 6 <= rate <= 15 ∧ hz_of_rate rate = hz.
Proof.
  unfold supported_rates. rewrite !elem_of_cons, elem_of_nil. intros H.
  repeat (destruct H as [H|H]; [simplify_eq; split; [lia|done]|]). done.
Qed.

(** The byte sent to register A keeps the upper half of [prev]. *)
Definition rate_byte (prev rate : Z) : Z := Z.lor (Z.land prev 0xf0) rate.

Lemma rate_byte_spec prev rate :
  0 <= prev < 256 → 6 <= rate <= 15 →
  u8 (Z.lor (Z.land (s8 prev) 0xf0) (Z.land rate 0x0F)) = rate_byte prev rate ∧
  Z.land (rate_byte prev rate) 0x0F = rate ∧ Z.land (rate_byte prev rate) 0xF0 = Z.land prev 0xF0.
Proof.
  intros Hp Hr.
  assert (H : forallb (λ prev, forallb (λ rate,
    (u8 (Z.lor (Z.land (s8 prev) 0xf0) (Z.land rate 0x0F)) =? rate_byte prev rate) &&
    (Z.land (rate_byte prev rate) 0x0F =? rate) &&
    (Z.land (rate_byte prev rate) 0xF0 =? Z.land prev 0xF0)) (seqZ 6 10)) (seqZ 0 256) = true)
    by (by vm_compute).
  pose proof (forall_byte _ H prev Hp) as Hb. cbn beta in Hb.
  rewrite forallb_forall in Hb.
  assert (Hin : In rate (seqZ 6 10)) by (apply list_elem_of_In, elem_of_seqZ; lia).
  specialize (Hb rate Hin).
  rewrite !andb_true_iff, !Z.eqb_eq in Hb. tauto.
Qed.

(** The port writes of an accepted rate, latest first. *)
Definition rate_log (prev rate : Z) : list (Z * Z) :=
  [(rate_byte prev rate, RTC_RW_PORT); (0x8a, RTC_INPUT_PORT); (0x8a, RTC_INPUT_PORT)].

Definition add_log (l : list (Z * Z)) (s : kernel) : kernel :=
  upd_dev (λ d, mkDevices (l ++ io_log d) (inport d)) s.

Lemma rtc_write_accept {L : Layout} fd buf s :
  u32 buf ≠ 0 → supported_hz (s32 (ld32 s buf)) = true →
  ∃ rate, 6 <= rate <= 15 ∧ hz_of_rate rate = s32 (ld32 s buf) ∧
    rtc_write fd buf 4 s = Ret 0 (add_log (rate_log (inb RTC_RW_PORT s) rate) s).
Proof.
  intros Hb Hs. set (hz := s32 (ld32 s buf)) in *.
  destruct (find_rate_cases hz) as [[_ Hin]|[Hn _]]; [|by rewrite Hs in Hn].
  destruct (supported_rates_good _ _ Hin) as [Hr Hz].
  exists (find_rate hz frequency_options 0). split; [done|]. split; [done|].
  unfold rtc_write. apply Z.eqb_neq in Hb. rewrite Hb. cbn [orb negb Z.eqb Pos.eqb].
  unfold mbind, M_bind, gets. fold hz. set (rate := find_rate _ _ _) in *. clearbody rate.
  destruct (Z.leb_spec rate 2), (Z.ltb_spec 15 rate); try lia. cbn [orb].
  unfold modify. cbn -[Z.land Z.lor inb]. unfold mret, M_ret.
  destruct (rate_byte_spec (inb RTC_RW_PORT s) rate (u8_range _) Hr) as [He _].
  unfold outb, add_log, rate_log, upd_dev. cbn -[Z.land Z.lor u8]. unfold inb at 1 in He. 
  do 3 f_equal. f_equal. f_equal. f_equal. exact He.
Qed.

(** [rtc_write] accepts exactly a non-null buffer of four bytes that holds
    a power of two between 2 and 1024; it then writes to register A of the
    clock the old upper half with the rate whose frequency is the one asked
    for, and otherwise fails with -1 and leaves the machine as it was. *)
Theorem rtc_write_correct {L : Layout} (fd buf nbytes : Z) (s : kernel) :
  if negb (u32 buf =? 0) && (nbytes =? 4) && supported_hz (s32 (ld32 s buf)) then
    ∃ rate, hz_of_rate rate = s32 (ld32 s buf) ∧ Z.land (rate_byte (inb RTC_RW_PORT s) rate) 0x0F = rate ∧
      Z.land (rate_byte (inb RTC_RW_PORT s) rate) 0xF0 = Z.land (inb RTC_RW_PORT s) 0xF0 ∧
      rtc_write fd buf nbytes s = Ret 0 (add_log (rate_log (inb RTC_RW_PORT s) rate) s)
  else rtc_write fd buf nbytes s = Ret (-1) s.
Proof.
  destruct (Z.eqb_spec (u32 buf) 0) as [Hb|Hb].
  { unfold rtc_write. by rewrite Hb. }
  destruct (Z.eqb_spec nbytes 4) as [->|Hn]; cycle 1.
  { unfold rtc_write. apply Z.eqb_neq in Hb, Hn. by rewrite Hb, Hn. }
  cbn [negb andb]. destruct (supported_hz _) eqn:Hs.
  - destruct (rtc_write_accept fd buf s Hb Hs) as (rate & Hr & Hz & He).
    exists rate. destruct (rate_byte_spec (inb RTC_RW_PORT s) rate (u8_range _) Hr) as (_ & H1 & H2). done.
  - unfold rtc_write. apply Z.eqb_neq in Hb. rewrite Hb. cbn [orb negb Z.eqb Pos.eqb].
    unfold mbind, M_bind, gets.
    destruct (find_rate_cases (s32 (ld32 s buf))) as [[Hy _]|[_ ->]]; [by rewrite Hy in Hs|done].
Qed.

Lemma rate_15 rate : 6 <= rate <= 15 → hz_of_rate rate = 2 → rate = 15.
Proof.
  intros Hr Hz.
  assert (rate = 6 ∨ rate = 7 ∨ rate = 8 ∨ rate = 9 ∨ rate = 10 ∨ rate = 11 ∨ rate = 12 ∨ rate = 13 ∨
    rate = 14 ∨ rate = 15) as Hd by lia.
  repeat (destruct Hd as [->|Hd]; [by vm_compute in Hz|]). done.
Qed.

Lemma rtc_open_run {L : Layout} {HL : LayoutOK L} filename s :
  rtc_open filename s =
  Ret 0 (add_log (rate_log (inb RTC_RW_PORT s) 15) (upd_mem (λ m, st32 m loc_rtc_open_frequency RTC_DEFAULT_RATE) s)).
Proof.
  pose proof (obj_bounds 18 _ eq_refl) as Hb. cbn [fst snd] in Hb.
  unfold KERNEL_START, KERNEL_END in Hb.
  unfold rtc_open. set (s1 := upd_mem _ s).
  rewrite (bind_ret _ _ s tt s1) by done.
  assert (Hld : s32 (ld32 s1 loc_rtc_open_frequency) = 2).
  { subst s1. rewrite k_mem_upd, ld32_st32_same; [done|]. apply seg_kernel; unfold PROGRAM_PAGE; lia. }
  destruct (rtc_write_accept 0 loc_rtc_open_frequency s1) as (rate & Hr & Hz & Hw);
    [rewrite u32_small by lia; lia|by rewrite Hld|].
  rewrite Hld in Hz. apply rate_15 in Hz as ->; [|done]. by rewrite (bind_ret _ _ _ _ _ Hw).
Qed.

(** [rtc_open] always returns 0, having programmed the clock for 2 Hz. *)
Theorem rtc_open_2hz {L : Layout} {HL : LayoutOK L} (filename : Z) (s : kernel) :
  ∃ s', rtc_open filename s = Ret 0 s' ∧ hz_of_rate 15 = RTC_DEFAULT_RATE ∧
    io_log s' = rate_log (inb RTC_RW_PORT s) 15 ++ io_log s.
Proof. eexists. split; [apply rtc_open_run|]. done. Qed.

Lemma rtc_open_2hz_witness :
  LayoutOK example_layout ∧
  ∃ s', rtc_open (L := example_layout) 0 zero_kernel = Ret 0 s' ∧ hz_of_rate 15 = RTC_DEFAULT_RATE ∧
    io_log s' = rate_log (inb RTC_RW_PORT zero_kernel) 15 ++ io_log zero_kernel.
Proof. split; [apply _|]. apply (rtc_open_2hz (L := example_layout) 0 zero_kernel). Defined.

(** [rtc_read] never returns before an interrupt: it waits in a state
    whose flag is set, goes on waiting in every state whose flag is still set,
    and after [rtc_handle_interrupt], run from any state, returns 0. *)
Theorem rtc_read_waits {L : Layout} (fd buf nbytes : Z) (s : kernel) :
  rtc_read fd buf nbytes s = Block (set_rtc_flag 1 s) ∧
  (∀ t : kernel, is_rtc_interrupt_flag t ≠ 0 → rtc_poll t = Block t) ∧
  (∀ t : kernel, ∃ t', rtc_handle_interrupt t = Ret tt t' ∧ rtc_poll t' = Ret 0 t').
Proof.
  split; [done|]. split.
  - intros t Ht. unfold rtc_poll, mbind, M_bind, gets. by apply Z.eqb_neq in Ht as ->.
  - intros t. by eexists.
Qed.
