(* ===== verification/Process.v ===== *)
(** * Process control blocks: the pcb part of systemcalls.c

    Layout of a [pcb_t] in memory, [get_pcb], [init_pcb] and [populate_pcb],
    and the descriptor table they maintain, seen as a list of records. *)

From S2P Require Import Prelude Memory State.

Implicit Types s : kernel.

(** ** Layout

    [file_descriptor_t] is four words: operations, inode, position, flags.
    A [pcb_t] is eight of them, then esp, ebp, process_num and the 32 bytes of
    arguments. *)
Definition fd_slot (pcb fd : Z) : Z := pcb + 16 * fd.
Definition op_off : Z := 0.
Definition inode_off : Z := 4.
Definition pos_off : Z := 8.
Definition flags_off : Z := 12.
Definition esp_off : Z := 128.
Definition ebp_off : Z := 132.
Definition process_num_off : Z := 136.
Definition arguments_off : Z := 140.

Definition ARG_SIZE : Z := 32.
Definition OUT_OF_USE : Z := 0.
Definition PCB_FILE_DESCRIPTOR_ARR_SIZE : Z := 8.
Definition EIGHTMB : Z := 0x800000.
Definition EIGHTKB : Z := 0x2000.
Definition FOURMB : Z := 0x400000.

Record file_descriptor_t := mkFd {
  descriptor_op_ptr : Z;
  inode_num : Z;
  file_pos : Z;
  flags : Z;
}.

Definition get_fd (m : memory) (pcb fd : Z) : file_descriptor_t :=
  let a := fd_slot pcb fd in
  mkFd (ld32 m (a + op_off)) (ld32 m (a + inode_off)) (ld32 m (a + pos_off)) (ld32 m (a + flags_off)).

(** The assignment of a whole descriptor. *)
Definition put_fd (pcb fd : Z) (f : file_descriptor_t) (m : memory) : memory :=
  let a := fd_slot pcb fd in
  let m := st32 m (a + op_off) (descriptor_op_ptr f) in
  let m := st32 m (a + inode_off) (inode_num f) in
  let m := st32 m (a + pos_off) (file_pos f) in
  st32 m (a + flags_off) (flags f).

Definition get_pcb (s : kernel) : Z := Z.land 0xFFFFE000 (u32 (esp s)).

Definition populate_pcb (this_pcb loc flags inode_num descriptor_op_ptr file_pos : Z)
    (m : memory) : memory :=
  if u32 this_pcb =? 0 then m
  else
    let a := fd_slot this_pcb loc in
    let m := st32 m (a + flags_off) flags in
    let m := st32 m (a + inode_off) inode_num in
    let m := st32 m (a + op_off) descriptor_op_ptr in
    st32 m (a + pos_off) file_pos.

Section InitPcb.
Context {L : Layout}.

Definition std_fd : file_descriptor_t := mkFd term_table 0 0 1.
Definition no_fd : file_descriptor_t := mkFd 0 0 0 OUT_OF_USE.

Definition init_pcb (new_pcb pid : Z) (m : memory) : Z * memory :=
  if u32 new_pcb =? 0 then (-1, m)
  else
    let m := put_fd new_pcb 0 std_fd m in
    let m := put_fd new_pcb 1 std_fd m in
    let m := for_up 6 2 (λ i m, put_fd new_pcb i no_fd m) m in
    (0, st32 m (new_pcb + process_num_off) pid).
End InitPcb.

(** ** The table as a list *)

Definition fd_table (m : memory) (pcb : Z) : list file_descriptor_t := get_fd m pcb <$> seqZ 0 8.

(** A block of [pcb_t] size in the kernel page. *)
Definition pcb_ok (pcb : Z) : Prop := KERNEL_START <= pcb ∧ pcb + PCB_SIZE <= KERNEL_END.

Definition fd_ok (f : file_descriptor_t) : Prop :=
  0 <= descriptor_op_ptr f < 4294967296 ∧ 0 <= inode_num f < 4294967296 ∧
  0 <= file_pos f < 4294967296 ∧ 0 <= flags f < 4294967296.

Lemma pcb_addr_ok pid : 0 <= pid < 6 → pcb_ok (pcb_addr pid).
Proof. unfold pcb_ok, pcb_addr, KERNEL_START, KERNEL_END, PCB_SIZE. lia. Qed.

Lemma pcb_seg pcb off n : pcb_ok pcb → 0 <= off → 0 <= n → off + n <= PCB_SIZE → seg (pcb + off) n.
Proof.
  unfold pcb_ok, KERNEL_START, KERNEL_END. intros Hp Ho Hn Hle.
  apply seg_kernel; unfold PROGRAM_PAGE; lia.
Qed.

Lemma pcb_phys m pcb off : pcb_ok pcb → 0 <= off <= PCB_SIZE → phys m (pcb + off) = pcb + off.
Proof. unfold pcb_ok, KERNEL_START, KERNEL_END. intros. apply phys_kernel. unfold PROGRAM_PAGE. lia. Qed.

(** A word of the block is changed by a store to it and by no other one. *)
Lemma pcb_word m pcb off off' v :
  pcb_ok pcb → 0 <= off → off + 4 <= PCB_SIZE → 0 <= off' → off' + 4 <= PCB_SIZE →
  off = off' ∨ off + 4 <= off' ∨ off' + 4 <= off →
  ld32 (st32 m (pcb + off) v) (pcb + off') = if off =? off' then u32 v else ld32 m (pcb + off').
Proof.
  intros Hp H1 H2 H3 H4 Hd. destruct (Z.eqb_spec off off') as [->|Hne].
  - apply ld32_st32_same, pcb_seg; (done || lia).
  - apply ld32_st32_other; [apply pcb_seg; (done || lia)..|].
    unfold apart. rewrite !pcb_phys by (done || (unfold PCB_SIZE in *; lia)). lia.
Qed.

Lemma slot_off pcb fd k : fd_slot pcb fd + k = pcb + (16 * fd + k).
Proof. unfold fd_slot. lia. Qed.

(** Four word stores to the fields of a descriptor. *)
Ltac pcb_words :=
  rewrite ?slot_off;
  repeat (rewrite pcb_word by
    (done || unfold PCB_SIZE, op_off, inode_off, pos_off, flags_off, process_num_off in *; lia));
  unfold op_off, inode_off, pos_off, flags_off, process_num_off in *.

Lemma get_put_fd m pcb fd j f :
  pcb_ok pcb → 0 <= fd < 8 → 0 <= j < 8 → fd_ok f →
  get_fd (put_fd pcb fd f m) pcb j = if fd =? j then f else get_fd m pcb j.
Proof.
  intros Hp Hf Hj (H1 & H2 & H3 & H4). unfold get_fd, put_fd. pcb_words.
  destruct f as [a b c d]; cbn in *.
  destruct (Z.eqb_spec fd j) as [->|Hne].
  - f_equal; bcase; by rewrite u32_small by lia.
  - f_equal; bcase; done.
Qed.

Lemma fd_table_lookup m pcb j : 0 <= j < 8 → fd_table m pcb !! Z.to_nat j = Some (get_fd m pcb j).
Proof.
  intros Hj. unfold fd_table. rewrite list_lookup_fmap, lookup_seqZ_lt by lia. cbn.
  do 2 f_equal. lia.
Qed.

Lemma fd_table_length m pcb : length (fd_table m pcb) = 8%nat.
Proof. done. Qed.

(** Two tables are equal when their descriptors are. *)
Lemma fd_table_ext m pcb l :
  length l = 8%nat → (∀ j, 0 <= j < 8 → l !! Z.to_nat j = Some (get_fd m pcb j)) → fd_table m pcb = l.
Proof.
  intros Hl H. apply list_eq_same_length with 8%nat; [done|by rewrite fd_table_length|].
  intros i x y Hi Hx Hy. specialize (H (Z.of_nat i) ltac:(lia)). rewrite Nat2Z.id in H.
  pose proof (fd_table_lookup m pcb (Z.of_nat i) ltac:(lia)) as H2. rewrite Nat2Z.id in H2. congruence.
Qed.

Lemma fd_table_insert m m' pcb fd f :
  0 <= fd < 8 → (∀ j, 0 <= j < 8 → get_fd m' pcb j = if fd =? j then f else get_fd m pcb j) →
  fd_table m' pcb = <[Z.to_nat fd := f]> (fd_table m pcb).
Proof.
  intros Hf H. apply fd_table_ext; [by rewrite length_insert|]. intros j Hj. rewrite H by done.
  destruct (Z.eqb_spec fd j) as [->|Hne].
  - apply list_lookup_insert_eq. rewrite fd_table_length. lia.
  - rewrite list_lookup_insert_ne by lia. by apply fd_table_lookup.
Qed.

Lemma put_fd_table m pcb fd f :
  pcb_ok pcb → 0 <= fd < 8 → fd_ok f →
  fd_table (put_fd pcb fd f m) pcb = <[Z.to_nat fd := f]> (fd_table m pcb).
Proof. intros Hp Hf Hok. apply fd_table_insert; [done|]. intros j Hj. by apply get_put_fd. Qed.

Lemma populate_table m pcb fd f :
  pcb_ok pcb → 0 <= fd < 8 → fd_ok f →
  fd_table (populate_pcb pcb fd (flags f) (inode_num f) (descriptor_op_ptr f) (file_pos f) m) pcb =
  <[Z.to_nat fd := f]> (fd_table m pcb).
Proof.
  intros Hp Hf (H1 & H2 & H3 & H4). apply fd_table_insert; [done|]. intros j Hj. unfold populate_pcb.
  assert ((u32 pcb =? 0) = false) as ->.
  { apply Z.eqb_neq. unfold pcb_ok, KERNEL_START, KERNEL_END, PCB_SIZE in Hp. rewrite u32_small; lia. }
  unfold get_fd. pcb_words. destruct f as [a b c d]; cbn in *.
  destruct (Z.eqb_spec fd j) as [->|Hne].
  - f_equal; bcase; by rewrite u32_small by lia.
  - f_equal; bcase; done.
Qed.

(** A store to another word of the block leaves the table alone. *)
Lemma st32_table m pcb off v :
  pcb_ok pcb → 128 <= off → off + 4 <= PCB_SIZE → fd_table (st32 m (pcb + off) v) pcb = fd_table m pcb.
Proof.
  intros Hp H1 H2. apply fd_table_ext; [done|]. intros j Hj. rewrite fd_table_lookup by done.
  f_equal. unfold get_fd. pcb_words. f_equal; bcase; done.
Qed.

(** The effect of the stores on the rest of the memory. *)
Lemma four_words_writes m a o1 o2 o3 o4 v1 v2 v3 v4 :
  seg a 16 → 0 <= o1 <= 12 → 0 <= o2 <= 12 → 0 <= o3 <= 12 → 0 <= o4 <= 12 →
  let m' := st32 (st32 (st32 (st32 m (a + o1) v1) (a + o2) v2) (a + o3) v3) (a + o4) v4 in
  writes m m' a 16 (λ j, ld8 m' (a + j)).
Proof.
  intros Hs H1 H2 H3 H4 m'.
  assert (Hstep : ∀ m1 o v, 0 <= o <= 12 → writes m1 (st32 m1 (a + o) v) a 16 (λ j, ld8 (st32 m1 (a + o) v) (a + j))).
  { intros m1 o v Ho. apply (writes_inside m1 _ a 16 o 4 (word_byte v)); [|done|lia..].
    apply writes_st32, (seg_sub a 16); (done || lia). }
  eapply writes_over; [apply Hstep, H1|]. eapply writes_over; [apply Hstep, H2|].
  eapply writes_over; [apply Hstep, H3|]. apply Hstep, H4.
Qed.

Lemma slot_seg pcb fd : pcb_ok pcb → 0 <= fd < 8 → seg (fd_slot pcb fd) 16.
Proof. intros Hp Hf. unfold fd_slot. apply pcb_seg; (done || unfold PCB_SIZE; lia). Qed.

Lemma put_fd_writes m pcb fd f :
  pcb_ok pcb → 0 <= fd < 8 →
  writes m (put_fd pcb fd f m) (fd_slot pcb fd) 16 (λ j, ld8 (put_fd pcb fd f m) (fd_slot pcb fd + j)).
Proof.
  intros Hp Hf. apply four_words_writes; [by apply slot_seg|unfold op_off, inode_off, pos_off, flags_off; lia..].
Qed.

Lemma populate_writes m pcb fd fl ino op pos :
  pcb_ok pcb → 0 <= fd < 8 →
  let m' := populate_pcb pcb fd fl ino op pos m in
  writes m m' (fd_slot pcb fd) 16 (λ j, ld8 m' (fd_slot pcb fd + j)).
Proof.
  intros Hp Hf. unfold populate_pcb.
  assert ((u32 pcb =? 0) = false) as ->.
  { apply Z.eqb_neq. unfold pcb_ok, KERNEL_START, KERNEL_END, PCB_SIZE in Hp. rewrite u32_small; lia. }
  apply four_words_writes; [by apply slot_seg|unfold op_off, inode_off, pos_off, flags_off; lia..].
Qed.

(** Words of a block an effect elsewhere leaves alone. *)
Lemma pcb_word_frame m m' a n f pcb off :
  writes m m' a n f → pcb_ok pcb → apart m a n pcb PCB_SIZE → 0 <= off → off + 4 <= PCB_SIZE →
  ld32 m' (pcb + off) = ld32 m (pcb + off).
Proof.
  intros Hw Hp Ha H1 H2. apply (writes_ld32 _ _ _ _ _ _ Hw); [|apply pcb_seg; (done || lia)].
  unfold apart in *. rewrite <- (Z.add_0_r pcb), (pcb_phys m pcb 0) in Ha by (done || unfold PCB_SIZE; lia).
  rewrite pcb_phys by (done || lia). lia.
Qed.

Lemma get_fd_frame m m' a n f pcb j :
  writes m m' a n f → pcb_ok pcb → apart m a n pcb PCB_SIZE → 0 <= j < 8 → get_fd m' pcb j = get_fd m pcb j.
Proof.
  intros Hw Hp Ha Hj. unfold get_fd. rewrite !slot_off.
  by rewrite !(pcb_word_frame _ _ _ _ _ _ _ Hw) by
    (done || unfold PCB_SIZE, op_off, inode_off, pos_off, flags_off in *; lia).
Qed.

Lemma fd_table_frame m m' a n f pcb :
  writes m m' a n f → pcb_ok pcb → apart m a n pcb PCB_SIZE → fd_table m' pcb = fd_table m pcb.
Proof.
  intros Hw Hp Ha. apply fd_table_ext; [done|]. intros j Hj.
  rewrite fd_table_lookup by done. by rewrite (get_fd_frame _ _ _ _ _ _ _ Hw).
Qed.

(** Storing the position of a descriptor. *)
Definition set_pos (v : Z) (f : file_descriptor_t) : file_descriptor_t :=
  mkFd (descriptor_op_ptr f) (inode_num f) v (flags f).

Lemma set_pos_table m pcb fd v :
  pcb_ok pcb → 0 <= fd < 8 →
  fd_table (st32 m (fd_slot pcb fd + pos_off) v) pcb =
  <[Z.to_nat fd := set_pos (u32 v) (get_fd m pcb fd)]> (fd_table m pcb).
Proof.
  intros Hp Hf. apply fd_table_insert; [done|]. intros j Hj. unfold get_fd. pcb_words.
  destruct (Z.eqb_spec fd j) as [->|Hne]; unfold set_pos; cbn; f_equal; bcase; done.
Qed.

(** ** init_pcb *)

Section InitPcbFacts.
Context {L : Layout} {HL : LayoutOK L}.

Lemma std_fd_ok : fd_ok std_fd.
Proof.
  pose proof (obj_bounds 1 _ eq_refl) as Hb. cbn [fst snd] in Hb.
  unfold KERNEL_START, KERNEL_END in Hb. unfold fd_ok. cbn. lia.
Qed.

Lemma no_fd_ok : fd_ok no_fd.
Proof. unfold fd_ok. cbn. unfold OUT_OF_USE. lia. Qed.

(** The table of a new process. *)
Definition initial_fds : list file_descriptor_t := [std_fd; std_fd] ++ replicate 6 no_fd.

Lemma clear_fds_get m pcb j :
  pcb_ok pcb → 0 <= j < 8 →
  get_fd (for_up 6 2 (λ i m, put_fd pcb i no_fd m) m) pcb j = if 2 <=? j then no_fd else get_fd m pcb j.
Proof.
  intros Hp Hj.
  cut ((λ i m', 2 <= i <= 8 ∧
    get_fd m' pcb j = if (2 <=? j) && (j <? i) then no_fd else get_fd m pcb j) (2 + Z.of_nat 6)
    (for_up 6 2 (λ i m, put_fd pcb i no_fd m) m)).
  { intros [_ ->]. by bcase. }
  apply (for_up_ind (λ i m', 2 <= i <= 8 ∧
    get_fd m' pcb j = if (2 <=? j) && (j <? i) then no_fd else get_fd m pcb j)).
  - split; [lia|]. by bcase.
  - intros i t Hi [_ Ht]. split; [lia|].
    rewrite get_put_fd, Ht by (done || lia || apply no_fd_ok). bcase; done.
Qed.

Lemma init_pcb_table m pcb pid :
  pcb_ok pcb → 0 <= pid < 4294967296 →
  ∃ m', init_pcb pcb pid m = (0, m') ∧ fd_table m' pcb = initial_fds ∧
    ld32 m' (pcb + process_num_off) = pid.
Proof.
  intros Hp Hpid. unfold init_pcb.
  assert ((u32 pcb =? 0) = false) as ->.
  { apply Z.eqb_neq. unfold pcb_ok, KERNEL_START, KERNEL_END, PCB_SIZE in Hp. rewrite u32_small; lia. }
  eexists. split; [done|]. split.
  - rewrite st32_table by (done || unfold PCB_SIZE, process_num_off; lia).
    apply fd_table_ext; [done|]. intros j Hj.
    rewrite clear_fds_get, !get_put_fd by (done || lia || apply std_fd_ok).
    assert (j = 0 ∨ j = 1 ∨ 2 <= j) as [->|[->|H2]] by lia; [done|done|].
    destruct (Z.leb_spec 2 j); [|lia]. unfold initial_fds.
    rewrite lookup_app_r by (cbn; lia). cbn [length]. apply lookup_replicate_2. lia.
  - rewrite ld32_st32_same; [by apply u32_small|].
    apply pcb_seg; (done || unfold PCB_SIZE, process_num_off; lia).
Qed.
End InitPcbFacts.

(** a block [init_pcb] has initialised describes a process with the number
    given, with the terminal open on descriptors 0 and 1 and the six others
    free. *)
Theorem init_pcb_correct {L : Layout} {HL : LayoutOK L} (m : memory) (pid : Z) :
  0 <= pid < 6 →
  ∃ m', init_pcb (pcb_addr pid) pid m = (0, m') ∧
    fd_table m' (pcb_addr pid) = initial_fds ∧ ld32 m' (pcb_addr pid + process_num_off) = pid.
Proof. intros Hp. apply init_pcb_table; [by apply pcb_addr_ok|lia]. Qed.

Lemma init_pcb_correct_witness :
  0 <= 3 < 6 ∧
  ∃ m', init_pcb (L := example_layout) (pcb_addr 3) 3 zero_kernel = (0, m') ∧
    fd_table m' (pcb_addr 3) = initial_fds (L := example_layout) ∧ ld32 m' (pcb_addr 3 + process_num_off) = 3.
Proof. split; [lia|]. apply (init_pcb_correct (L := example_layout) zero_kernel 3). lia. Defined.

(** ** get_pcb *)

(** [esp] points into the 8 KB kernel stack of process [pid]. *)
Definition on_stack (pid : Z) (s : kernel) : Prop :=
  0 <= pid < 6 ∧ pcb_addr pid <= esp s < pcb_addr pid + EIGHTKB.

Lemma stack_mask x : 0 <= x < 4294967296 → Z.land 0xFFFFE000 x = x / 8192 * 8192.
Proof. intros Hx. rewrite Z.land_comm. by apply (mask_high 13). Qed.

Lemma get_pcb_stack pid s : on_stack pid s → get_pcb s = pcb_addr pid.
Proof.
  unfold on_stack, pcb_addr, EIGHTKB, get_pcb. intros [Hp He].
  rewrite u32_small by lia. rewrite stack_mask by lia. Z.div_mod_to_equations. lia.
Qed.


