(* ===== verification/FileSystem.v ===== *)
(** * The file system: filesystem.c

    A read-only image: a boot block with 64-byte directory entries, one 4 KB
    index node per file, then 4 KB data blocks.  [read_data] is proved to
    deliver the bytes of the file an index node describes; directory lookups
    are proved against the list of entries. *)

From S2P Require Import Prelude Memory LibMem LibStr State Video Console Process.

Implicit Types s : kernel.

Definition NAME_SIZE : Z := 32.
Definition BOOT_BLOCK_SIZE : Z := 4096.
Definition DENTRY_OFFSET_BB : Z := 52 + 4 + 4 + 4.
Definition DENTRY_SIZE : Z := 64.
(** Offsets in [dentry_t], [boot_block_t] and [index_node_t]. *)
Definition type_off : Z := 32.
Definition dentry_inode_off : Z := 36.
Definition num_index_nodes_off : Z := 4.
Definition data_block_off : Z := 4.

(** [&g_index_nodes[inode]] and [&g_directory_entries[i]]. *)
Definition inode_addr (fs : filesystem) (inode : Z) : Z := g_index_nodes fs + 4096 * inode.
Definition dentry_addr (fs : filesystem) (i : Z) : Z := g_directory_entries fs + DENTRY_SIZE * i.

(** [g_index_nodes[inode].file_size] *)
Definition file_size (s : kernel) (inode : Z) : Z := s32 (ld32 s (inode_addr s inode)).

Definition modify_mem (f : memory → memory) : M unit := modify (upd_mem f).

Lemma modify_mem_run f s : modify_mem f s = Ret tt (upd_mem (λ _, f (k_mem s)) s).
Proof. done. Qed.

(** One turn of the loop of [read_data]: the state is [i], [off],
    [bytes_read] and the memory. *)
Definition read_data_step (fs : filesystem) (inode offset_div buf length inode_size : Z)
    (st : Z * Z * Z * memory) : (Z * Z * Z * memory) + (Z * memory) :=
  let '(i, off, bytes_read, m) := st in
  if negb (inode_size <=? bytes_read) || negb (length <=? u32 bytes_read) then
    let addr := g_b_block fs + BOOT_BLOCK_SIZE * (s32 (ld32 m (g_b_block fs + num_index_nodes_off)) + 1) in
    let addr := addr + s32 (ld32 m (inode_addr fs inode + data_block_off + 4 * u32 (i + offset_div)))
                       * BOOT_BLOCK_SIZE in
    let read_entire := BOOT_BLOCK_SIZE - off in
    let read_begin := addr + off in
    let bytes_remaining := s32 (u32 (length + off) - bytes_read) in
    if bytes_remaining <? BOOT_BLOCK_SIZE then
      inr (s32 (bytes_read + (length - bytes_read)),
           memcpy m (buf + bytes_read) read_begin (length - bytes_read))
    else
      inl (i + 1, 0, s32 (bytes_read + read_entire),
           memcpy m (buf + bytes_read) read_begin read_entire)
  else inr (bytes_read, m).

Definition read_data (inode offset buf length : Z) : M Z :=
  let inode := u32 inode in
  let offset := u32 offset in
  let length := u32 length in
  inode_size ← gets (λ s, file_size s inode);
  let offset_bytes := s32 (inode_size - offset) in
  let off := offset mod BOOT_BLOCK_SIZE in
  let offset_div := offset / BOOT_BLOCK_SIZE in
  if u32 inode_size <=? offset then mret 0
  else
    let length := if u32 inode_size <? u32 (length + offset) then u32 offset_bytes else length in
    fs ← gets k_fs;
    m ← gets k_mem;
    '(bytes_read, m) ← try_opt (while_loop
      (read_data_step fs inode offset_div buf length inode_size) (0, off, 0, m));
    _ ← modify_mem (λ _, m);
    mret bytes_read.

Definition read_dentry_by_index (index dentry : Z) : M Z :=
  let index := u32 index in
  if (16 <? index) || (u32 dentry =? 0) then mret (-1)
  else
    a ← gets (λ s, dentry_addr s index);
    _ ← modify_mem (λ m, memcpy m dentry a DENTRY_SIZE);
    mret 0.

(** The search of [read_dentry_by_name], [k] entries from entry [i]. *)
Fixpoint find_name (k : nat) (m : memory) (fs : filesystem) (fname i : Z) : option Z :=
  match k with
  | O => None
  | S k' => if strncmp m fname (dentry_addr fs i) 32 =? 0 then Some i
            else find_name k' m fs fname (i + 1)
  end.

Section FileSystem.
Context {L : Layout}.

Definition filesystem_init (fsys_address : Z) : M unit :=
  if s32 fsys_address <=? 0 then
    _ ← printf ("Invalid file system starting address" +:+ String (Ascii.ascii_of_nat 10) "") [];
    mret tt
  else
    modify (upd_fs (λ _, mkFilesystem fsys_address (fsys_address + BOOT_BLOCK_SIZE)
                           (fsys_address + DENTRY_OFFSET_BB) 0)).

(** [||] evaluates [strlen] only when the pointers are not null. *)
Definition read_dentry_by_name (fname dentry : Z) : M Z :=
  invalid ← (if (u32 fname =? 0) || (u32 dentry =? 0) then mret true
             else m ← gets k_mem; len ← try_opt (strlen m fname); mret (NAME_SIZE <? len));
  if (invalid : bool) then
    _ ← printf "read dentry by name inputs invalid " []; mret (-1)
  else
    m ← gets k_mem;
    fs ← gets k_fs;
    match find_name 64 m fs fname 0 with
    | Some i => _ ← modify_mem (λ m, memcpy m dentry (dentry_addr fs i) DENTRY_SIZE); mret 0
    | None => mret (-1)
    end.

Definition directory_read (fd buf nbytes : Z) : M Z :=
  this_pcb ← gets get_pcb;
  index ← gets (λ s, ld32 s (fd_slot this_pcb fd + pos_off));
  r ← read_dentry_by_index index loc_directory_read_dentry;
  if r =? -1 then mret 0
  else
    _ ← modify_mem (λ m, strncpy m buf loc_directory_read_dentry NAME_SIZE);
    _ ← modify_mem (λ m, st32 m (fd_slot this_pcb fd + pos_off) (ld32 m (fd_slot this_pcb fd + pos_off) + 1));
    mret NAME_SIZE.

Definition directory_close (fd : Z) : M Z := mret 0.
Definition directory_open (filename : Z) : M Z := mret 0.
Definition directory_write (fd buf nbytes : Z) : M Z := mret 0.

Definition file_read (fd buf nbytes : Z) : M Z :=
  current_pcb ← gets get_pcb;
  let slot := fd_slot current_pcb fd in
  inode_number ← gets (λ s, s32 (ld32 s (slot + inode_off)));
  length_of_curr_node ← gets (λ s, file_size s inode_number);
  fl ← gets (λ s, ld32 s (slot + flags_off));
  op ← gets (λ s, ld32 s (slot + op_off));
  if u32 buf =? 0 then
    _ ← printf "buffer in file read is empty " []; mret (-1)
  else if negb (fl =? 1) then
    _ ← printf "pcb not in use " []; mret (-1)
  else if op =? 0 then
    _ ← printf "file descriptor arrays op table pointer is null" []; mret (-1)
  else
    file_offset ← gets (λ s, ld32 s (slot + pos_off));
    number_of_bytes_read ←
      (if length_of_curr_node <? nbytes
       then read_data inode_number file_offset buf length_of_curr_node
       else read_data inode_number file_offset buf nbytes);
    let number_of_bytes_read :=
      if (file_offset <? u32 length_of_curr_node) && (number_of_bytes_read =? 0)
      then nbytes else number_of_bytes_read in
    _ ← modify_mem (λ m, st32 m (slot + pos_off) (ld32 m (slot + pos_off) + number_of_bytes_read));
    mret number_of_bytes_read.

Definition file_close (fd : Z) : M Z := mret 0.
Definition file_open (filename : Z) : M Z := mret 0.
Definition file_write (fd buf nbytes : Z) : M Z := mret 0.
End FileSystem.

(** ** The image *)

(** Extent of the image: boot block, index nodes, data blocks. *)
Definition image_base (s : kernel) : Z := g_b_block s.
Definition num_index_nodes (s : kernel) : Z := ld32 s (g_b_block s + 4).
Definition num_data_blocks (s : kernel) : Z := ld32 s (g_b_block s + 8).
Definition image_bytes (s : kernel) : Z := 4096 * (1 + num_index_nodes s + num_data_blocks s).

(** The image [filesystem_init] was given lies in the kernel's memory. *)
Record image_ok (s : kernel) : Prop := {
  image_nodes : g_index_nodes s = g_b_block s + 4096;
  image_dentries : g_directory_entries s = g_b_block s + 64;
  image_pos : 0 < g_b_block s;
  image_end : g_b_block s + image_bytes s <= PROGRAM_PAGE;
}.

(** The number of the data block that holds block [k] of a file. *)
Definition data_block (s : kernel) (inode k : Z) : Z := ld32 s (inode_addr s inode + 4 + 4 * k).

(** The address of data block [d]. *)
Definition block_addr (s : kernel) (d : Z) : Z := g_b_block s + 4096 * (num_index_nodes s + 1) + 4096 * d.

(** Byte [k] of a file. *)
Definition file_byte (s : kernel) (inode k : Z) : Z :=
  ld8 s (block_addr s (data_block s inode (k / 4096)) + k mod 4096).

(** Index node [inode] describes a file of at most 1023 blocks. *)
Record file_ok (s : kernel) (inode : Z) : Prop := {
  file_inode : 0 <= inode < num_index_nodes s;
  file_size_bound : 0 <= file_size s inode <= 1023 * 4096;
  file_blocks : ∀ k, 0 <= k → 4096 * k < file_size s inode → 0 <= data_block s inode k < num_data_blocks s;
}.

(** A buffer for [n] bytes that does not overlap the image. *)
Definition user_buf (s : kernel) (buf n : Z) : Prop :=
  seg buf n ∧ apart s buf n (image_base s) (image_bytes s).

(** What a read of [length] bytes at [offset] of a file of [size] bytes delivers. *)
Definition read_count (size offset length : Z) : Z :=
  if size <=? offset then 0 else Z.min length (size - offset).

Lemma image_small s : image_ok s → 0 <= num_index_nodes s ∧ 0 <= num_data_blocks s ∧
  g_b_block s + 4096 * (1 + num_index_nodes s + num_data_blocks s) <= 134217728.
Proof.
  intros [_ _ _ He]. pose proof (ld32_range s (g_b_block s + 4)). pose proof (ld32_range s (g_b_block s + 8)).
  unfold image_bytes, PROGRAM_PAGE, num_index_nodes, num_data_blocks in *. lia.
Qed.

(** The image does not overlap the kernel's own objects. *)
Definition image_apart `{L : Layout} (s : kernel) : Prop :=
  ∀ i o, (objects ++ pcb_objects) !! i = Some o →
    o.1 + o.2 <= image_base s ∨ image_base s + image_bytes s <= o.1.

Lemma obj_user_buf {L : Layout} {HL : LayoutOK L} s i a n :
  image_ok s → image_apart s → objects !! i = Some (a, n) → 0 <= n → user_buf s a n.
Proof.
  intros Himg Hap Hi Hn. pose proof (obj_bounds i _ Hi) as Hb. cbn [fst snd] in Hb.
  pose proof (image_pos s Himg). pose proof (image_end s Himg) as He.
  pose proof (ld32_range s (g_b_block s + 4)) as R1. pose proof (ld32_range s (g_b_block s + 8)) as R2.
  unfold KERNEL_START, KERNEL_END, image_bytes, num_index_nodes, num_data_blocks, PROGRAM_PAGE in *.
  split; [apply seg_kernel; unfold PROGRAM_PAGE; lia|].
  specialize (Hap i (a, n)). rewrite lookup_app_l in Hap by (by eapply lookup_lt_Some). specialize (Hap Hi).
  cbn [fst snd] in Hap. unfold apart, image_base in *. by rewrite !phys_kernel by (unfold PROGRAM_PAGE; lia).
Qed.

(** *** The image is a matter of its bytes *)
Section SameImage.
Context (s s' : kernel).
Hypothesis (Hfs : k_fs s' = k_fs s) (Himg : image_ok s).
Hypothesis (Hpk : ∀ p, image_base s <= p < image_base s + image_bytes s → peek s' p = peek s p).

Lemma same_byte a : image_base s <= a < image_base s + image_bytes s → ld8 s' a = ld8 s a.
Proof using Himg Hpk.
  intros Ha. pose proof (image_pos s Himg). pose proof (image_end s Himg). unfold ld8.
  unfold image_base in *. rewrite !phys_kernel by lia. by apply Hpk.
Qed.

Lemma same_word a : image_base s <= a → a + 4 <= image_base s + image_bytes s → ld32 s' a = ld32 s a.
Proof using Himg Hpk. intros Ha He. unfold ld32. by rewrite !same_byte by lia. Qed.

Lemma same_counts : num_index_nodes s' = num_index_nodes s ∧ num_data_blocks s' = num_data_blocks s.
Proof using Hfs Himg Hpk.
  pose proof (image_small s Himg) as (HN & HD & HE).
  unfold num_index_nodes, num_data_blocks. rewrite Hfs.
  split; apply same_word; unfold image_base, image_bytes; lia.
Qed.

Lemma same_image_ok : image_ok s'.
Proof using Hfs Himg Hpk.
  destruct same_counts as [H1 H2]. destruct Himg as [I1 I2 I3 I4].
  split; rewrite ?Hfs; [done|done|done|]. unfold image_bytes in *. by rewrite H1, H2.
Qed.

Lemma same_file inode :
  file_ok s inode →
  file_ok s' inode ∧ file_size s' inode = file_size s inode ∧
  ∀ k, 0 <= k < file_size s inode → file_byte s' inode k = file_byte s inode k.
Proof using Hfs Himg Hpk.
  intros [Hi Hsz Hbl]. pose proof (image_small s Himg) as (HN & HD & HE).
  pose proof (image_nodes s Himg) as Hnodes. destruct same_counts as [H1 H2].
  assert (Hw : ∀ o, 0 <= o → o + 4 <= 4096 → ld32 s' (inode_addr s' inode + o) = ld32 s (inode_addr s inode + o)).
  { intros o Ho1 Ho2. unfold inode_addr. rewrite Hfs. apply same_word; unfold image_base, image_bytes; rewrite Hnodes; lia. }
  assert (Hs : file_size s' inode = file_size s inode).
  { unfold file_size. rewrite <- (Z.add_0_r (inode_addr s' inode)), <- (Z.add_0_r (inode_addr s inode)), Hw by lia. done. }
  assert (Hd : ∀ k, 0 <= k → 4096 * k < file_size s inode → data_block s' inode k = data_block s inode k).
  { intros k Hk1 Hk2. unfold data_block. rewrite <- !Z.add_assoc. apply Hw; lia. }
  split; [|split; [done|]].
  - split; [by rewrite H1|by rewrite Hs|]. intros k Hk1 Hk2. rewrite Hs in Hk2. rewrite Hd, H2 by done. by apply Hbl.
  - intros k Hk. unfold file_byte. rewrite Hd by (Z.div_mod_to_equations; lia).
    specialize (Hbl (k / 4096) ltac:(Z.div_mod_to_equations; lia) ltac:(Z.div_mod_to_equations; lia)).
    unfold block_addr. rewrite H1, Hfs. pose proof (Z.mod_pos_bound k 4096 ltac:(lia)).
    apply same_byte. unfold image_base, image_bytes. lia.
Qed.
End SameImage.

(** *** A read in progress *)
Section ReadData.
Context (s : kernel) (inode : Z).
Hypothesis (Himg : image_ok s) (Hfile : file_ok s inode).
Context (m : memory) (buf n : Z) (f : Z → Z).
Hypothesis (Hbuf : user_buf s buf n).
(** Some prefix of the buffer has been written. *)
Context (b : Z).
Hypothesis (Hb : 0 <= b <= n) (Hw : writes s m buf b f).

Lemma buf_apart a k :
  g_b_block s <= a → 0 < k → a + k <= g_b_block s + image_bytes s → apart s buf b a k.
Proof using Himg Hbuf Hb.
  intros Ha Hk He. destruct Hbuf as [_ Hap]. pose proof (image_pos s Himg). pose proof (image_end s Himg).
  pose proof (image_small s Himg). unfold apart, image_base in *.
  rewrite (phys_kernel s (g_b_block s)) in Hap by (unfold image_bytes in *; lia).
  rewrite (phys_kernel s a) by lia. lia.
Qed.

Lemma image_seg a k : g_b_block s <= a → 0 <= k → a + k <= g_b_block s + image_bytes s → seg a k.
Proof using Himg.
  intros Ha Hk He. pose proof (image_pos s Himg). pose proof (image_end s Himg). apply seg_kernel; lia.
Qed.

Lemma image_word a :
  g_b_block s <= a → a + 4 <= g_b_block s + image_bytes s → ld32 m a = ld32 s a.
Proof using Himg Hbuf Hb Hw.
  intros Ha He. apply (writes_ld32 s m buf b f a Hw); [apply buf_apart; lia|apply image_seg; lia].
Qed.

Lemma image_byte a :
  g_b_block s <= a → a < g_b_block s + image_bytes s → ld8 m a = ld8 s a.
Proof using Himg Hbuf Hb Hw.
  intros Ha He. apply (writes_apart0 s m buf b f a 1 Hw); [apply buf_apart; lia|apply image_seg; lia|lia].
Qed.

Lemma nodes_word : ld32 m (g_b_block s + 4) = num_index_nodes s.
Proof using Himg Hbuf Hb Hw. pose proof (image_small s Himg). apply image_word; unfold image_bytes; lia. Qed.

Lemma block_word k :
  0 <= k < 1023 → ld32 m (inode_addr s inode + 4 + 4 * k) = data_block s inode k.
Proof using Himg Hfile Hbuf Hb Hw.
  intros Hk. pose proof (image_small s Himg). destruct (file_inode s inode Hfile).
  pose proof (image_nodes s Himg) as Hn.
  apply image_word; unfold inode_addr, image_bytes; rewrite Hn; lia.
Qed.

(** [c] bytes at [pos] of the file, inside one block: where they are, and
    what copying them to the end of the prefix does. *)
Lemma copy_chunk pos c :
  0 <= pos → 0 < c → pos mod 4096 + c <= 4096 → pos + c <= file_size s inode → b + c <= n →
  (∀ i, f i = file_byte s inode (pos - b + i)) →
  writes s (memcpy m (buf + b) (block_addr s (data_block s inode (pos / 4096)) + pos mod 4096) c)
    buf (b + c) (λ i, file_byte s inode (pos - b + i)).
Proof using Himg Hfile Hbuf Hb Hw.
  intros Hp Hc Hin Hsz Hn Hf. set (k := pos / 4096). set (src := block_addr s _ + _).
  pose proof (Z.div_mod pos 4096 ltac:(lia)) as Hdm.
  pose proof (Z.mod_pos_bound pos 4096 ltac:(lia)) as Hmod.
  assert (Hblk : 0 <= data_block s inode k < num_data_blocks s).
  { apply (file_blocks s inode Hfile); subst k; lia. }
  pose proof (image_small s Himg) as (HN & HD & HE). pose proof (image_pos s Himg) as HP.
  assert (Hsrc : g_b_block s <= src ∧ src + c <= g_b_block s + image_bytes s).
  { subst src. unfold block_addr, image_bytes. lia. }
  destruct Hbuf as [Hseg Hap].
  assert (Hm : copied m (memcpy m (buf + b) src c) (buf + b) src c).
  { apply memcpy_copied; [| |  |unfold image_bytes in *; lia].
    - apply (seg_sub buf n); (done || lia).
    - apply image_seg; lia.
    - destruct Hap as [Hap|Hap]; unfold apart, image_base in *;
        rewrite (phys_kernel s (g_b_block s)) in Hap by (unfold PROGRAM_PAGE, image_bytes in *; lia);
        rewrite !(writes_phys _ _ _ _ _ _ Hw), (phys_seg s buf n), (phys_kernel s src) by
          (done || unfold PROGRAM_PAGE, image_bytes in *; lia); lia. }
  refine (writes_ext _ _ _ _ _ _ _ (writes_app s m _ buf b c f _ Hw Hm _ _ _));
    [|apply (seg_shorter buf n); (done || lia)|lia|lia].
  intros i Hi. cbn beta. destruct (Z.ltb_spec i b); [by rewrite Hf|].
  rewrite image_byte by lia. unfold file_byte.
  replace ((pos - b + i) / 4096) with k.
  2: { subst k. replace (pos - b + i) with (i - b + (pos mod 4096) + pos / 4096 * 4096) by lia.
       rewrite Z.div_add, (Z.div_small (i - b + _)) by lia. lia. }
  f_equal. subst src. replace ((pos - b + i) mod 4096) with (pos mod 4096 + (i - b)); [lia|].
  replace (pos - b + i) with (i - b + (pos mod 4096) + pos / 4096 * 4096) by lia.
  rewrite Z.mod_add, (Z.mod_small (i - b + _)) by lia. lia.
Qed.
End ReadData.

Lemma read_data_loop s inode offset buf len :
  image_ok s → file_ok s inode → 0 <= offset → 0 <= len → offset + len <= file_size s inode →
  user_buf s buf len →
  ∃ r, while_loop (read_data_step s inode (offset / 4096) buf len (file_size s inode))
         (0, offset mod 4096, 0, k_mem s) = Some r ∧
    r.1 = len ∧ writes s r.2 buf len (λ i, file_byte s inode (offset + i)).
Proof.
  intros Himg Hfile Hoff Hlen Hsz Hbuf.
  pose proof (file_size_bound s inode Hfile) as Hfs. pose proof (image_small s Himg) as (HN & HD & HE).
  pose proof (image_pos s Himg) as HP.
  apply while_loop_rule with
    (I := λ '(i, off, b, m), 0 <= i ∧ 0 <= b <= len ∧ 0 <= off < 4096 ∧
            4096 * (offset / 4096 + i) + off = offset + b ∧
            writes s m buf b (λ i, file_byte s inode (offset + i)))
    (v := λ '(i, off, b, m), len - b).
  { pose proof (Z.div_mod offset 4096 ltac:(lia)). pose proof (Z.mod_pos_bound offset 4096 ltac:(lia)).
    split_and!; [lia..|]. apply writes_nil. }
  { cbn. lia. }
  intros [[[i off] b] m] (Hi & Hb & Hof & Heq & Hw) Hv. cbn in Hv. unfold read_data_step.
  assert (Hmod : (offset + b) mod 4096 = off) by (symmetry; apply (Z.mod_unique_pos _ _ (offset / 4096 + i)); lia).
  assert (Hdiv : (offset + b) / 4096 = offset / 4096 + i) by (symmetry; apply (Z.div_unique_pos _ _ _ off); lia).
  assert (0 <= offset / 4096) by (apply Z.div_pos; lia).
  rewrite (u32_small b) by lia.
  destruct (Z.leb_spec (file_size s inode) b), (Z.leb_spec len b); cbn [negb orb].
  { split; [cbn; lia|]. cbn. by replace len with b by lia. }
  1: lia.
  - (* everything has been read, but the file goes on *)
    rewrite (u32_small (len + off)), s32_small by lia. unfold BOOT_BLOCK_SIZE.
    destruct (Z.ltb_spec (len + off - b) 4096); [|lia].
    replace (len - b) with 0 by lia. rewrite memcpy_0, s32_small by lia.
    split; [cbn; lia|]. cbn. by replace len with b by lia.
  - rewrite (u32_small (len + off)), (s32_small (len + off - b)) by lia.
    assert (Hk : 0 <= offset / 4096 + i < 1023) by lia. unfold num_index_nodes_off, data_block_off.
    rewrite (nodes_word s Himg m buf len _ Hbuf b Hb Hw).
    rewrite (u32_small (i + _)), (Z.add_comm i), (block_word s inode Himg Hfile m buf len _ Hbuf b Hb Hw) by lia.
    destruct (file_blocks s inode Hfile (offset / 4096 + i)) as [Hd1 Hd2]; [lia..|].
    rewrite !(s32_small (num_index_nodes s)), !(s32_small (data_block _ _ _)) by lia.
    unfold BOOT_BLOCK_SIZE.
    assert (Ha : g_b_block s + 4096 * (num_index_nodes s + 1) +
      data_block s inode (offset / 4096 + i) * 4096 + off =
      block_addr s (data_block s inode ((offset + b) / 4096)) + (offset + b) mod 4096).
    { rewrite Hmod, Hdiv. unfold block_addr. lia. }
    rewrite Ha.
    assert (Hchunk : ∀ c, 0 < c → off + c <= 4096 → b + c <= len →
      writes s (memcpy m (buf + b) (block_addr s (data_block s inode ((offset + b) / 4096)) + (offset + b) mod 4096) c)
        buf (b + c) (λ i, file_byte s inode (offset + i))).
    { intros c Hc1 Hc2 Hc3. eapply writes_ext; [|apply (copy_chunk s inode Himg Hfile m buf len
        (λ i, file_byte s inode (offset + i)) Hbuf b Hb Hw (offset + b) c)]; [|lia..| |lia| |].
      - intros j Hj. cbn. f_equal. lia.
      - rewrite Hmod. lia.
      - lia.
      - intros j. f_equal. lia. }
    destruct (Z.ltb_spec (len + off - b) 4096).
    + rewrite s32_small by lia. split; [cbn; lia|]. cbn [snd].
      replace len with (b + (len - b)) at 2 by lia. apply Hchunk; lia.
    + rewrite s32_small by lia. split; [|lia]. split_and!; [lia..|]. apply Hchunk; lia.
Qed.

(** What [read_data] does with a request that does not wrap around. *)
Lemma read_data_run s inode offset buf length :
  image_ok s → file_ok s inode → 0 <= offset → 0 <= length → offset + length < 4294967296 →
  let n := read_count (file_size s inode) offset length in
  user_buf s buf n →
  ∃ m', read_data inode offset buf length s = Ret n (upd_mem (λ _, m') s) ∧
    writes s m' buf n (λ i, file_byte s inode (offset + i)).
Proof.
  intros Himg Hfile Hoff Hlen Hsum n Hbuf.
  pose proof (file_size_bound s inode Hfile) as Hfs. pose proof (image_small s Himg) as (HN & HD & HE).
  pose proof (file_inode s inode Hfile). pose proof (image_pos s Himg).
  unfold read_data. rewrite (u32_small inode), (u32_small offset), (u32_small length) by lia.
  unfold mbind, M_bind, gets. rewrite (u32_small (file_size _ _)) by lia.
  subst n. unfold read_count in *. destruct (Z.leb_spec (file_size s inode) offset) as [Hle|Hlt].
  { exists (k_mem s). split; [by destruct s|]. apply writes_nil. }
  rewrite (u32_small (length + offset)), s32_small, u32_small by lia.
  replace (if file_size s inode <? length + offset then file_size s inode - offset else length)
    with (Z.min length (file_size s inode - offset)) by bcase.
  destruct (read_data_loop s inode offset buf (Z.min length (file_size s inode - offset)))
    as ([r m'] & He & Hr & Hw); [done..|lia|lia|done|].
  cbn in Hr. subst r. unfold BOOT_BLOCK_SIZE. rewrite He. exists m'. by split.
Qed.

(** C22: [read_data] returns the bytes of the file: from a well-formed image,
    a request for [length] bytes at [offset] whose sum fits a word delivers
    the [min length (size - offset)] bytes there are (none beyond the end), in
    the buffer, across block boundaries, and changes no other byte of memory
    and nothing else of the kernel. *)
Theorem read_data_correct (s : kernel) (inode offset buf length : Z) :
  image_ok s → file_ok s inode → 0 <= offset → 0 <= length → offset + length < 4294967296 →
  user_buf s buf (read_count (file_size s inode) offset length) →
  ∃ m', read_data inode offset buf length s =
          Ret (read_count (file_size s inode) offset length) (upd_mem (λ _, m') s) ∧
    writes s m' buf (read_count (file_size s inode) offset length)
      (λ i, file_byte s inode (offset + i)).
Proof. apply read_data_run. Qed.

(** ** Directory entries *)

(** The name of entry [i]: at most 32 bytes, shorter ones NUL terminated. *)
Definition dentry_name (s : kernel) (i : Z) : list Z := take_nul (ld_bytes s (dentry_addr s i) NAME_SIZE).

(** The first entry that has a name. *)
Definition find_dentry (s : kernel) (name : list Z) : option Z :=
  head (filter (λ i, dentry_name s i = name) (seqZ 0 64)).

Lemma take_nul_cstring m a l n :
  cstring m a l → Z.of_nat (length l) <= n → take_nul (ld_bytes m a n) = l.
Proof.
  intros Hc Hn. unfold ld_bytes. replace n with (Z.of_nat (Z.to_nat n)) by lia.
  assert (Hle : (length l <= Z.to_nat n)%nat) by lia. clear Hn. revert Hc Hle.
  generalize (Z.to_nat n) as k. intros k Hc Hle.
  cut (∀ l2 l1 k, l = l1 ++ l2 → (length l2 <= k)%nat →
    take_nul ((λ i, ld8 m (a + i)) <$> seqZ (Z.of_nat (length l1)) (Z.of_nat k)) = l2).
  { intros H. by apply (H l [] k). }
  induction l2 as [|c l2 IH]; intros l1 k' Hl Hk.
  - rewrite app_nil_r in Hl. subst l1. destruct k' as [|k']; [done|].
    rewrite seqZ_S. cbn. destruct Hc as (_ & _ & ->). done.
  - destruct k' as [|k']; [cbn in Hk; lia|]. rewrite seqZ_S. cbn [fmap list_fmap take_nul].
    assert (Hi : l !! length l1 = Some c) by (rewrite Hl; by apply list_lookup_middle).
    pose proof (lookup_lt_Some _ _ _ Hi) as Hlt.
    pose proof (cstring_nz m a l (Z.of_nat (length l1)) Hc ltac:(lia)) as Hnz.
    pose proof Hc as (_ & Hat & _). rewrite (Hat _ _ Hi) in *.
    destruct (Z.eqb_spec c 0); [done|]. f_equal.
    specialize (IH (l1 ++ [c]) k'). rewrite <- app_assoc, length_app in IH.
    replace (Z.of_nat (length l1) + 1) with (Z.of_nat (length l1 + length [c])) by (cbn; lia).
    apply IH; [done|cbn in Hk; lia].
Qed.

Lemma find_name_correct s fname l k i :
  take_nul (ld_bytes s fname 32) = l →
  find_name k s s fname i = head (filter (λ i, dentry_name s i = l) (seqZ i (Z.of_nat k))).
Proof.
  intros Hl. revert i. induction k as [|k IH]; intros i; [done|].
  cbn [find_name]. rewrite seqZ_S, filter_cons.
  pose proof (strncmp_from_zero 32 s fname (dentry_addr s i) 0) as Hs.
  change (strncmp_from 32 s fname (dentry_addr s i) 0) with (strncmp s fname (dentry_addr s i) 32) in Hs.
  change (seqZ 0 (Z.of_nat 32)) with (seqZ 0 32) in Hs.
  change ((λ j, ld8 s (fname + j)) <$> seqZ 0 32) with (ld_bytes s fname 32) in Hs.
  change ((λ j, ld8 s (dentry_addr s i + j)) <$> seqZ 0 32) with (ld_bytes s (dentry_addr s i) 32) in Hs.
  rewrite Hl in Hs. unfold dentry_name, NAME_SIZE in *.
  destruct (Z.eqb_spec (strncmp s fname (dentry_addr s i) 32) 0) as [E|E].
  - rewrite decide_True by (symmetry; by apply Hs). done.
  - rewrite decide_False by (intros H; apply E, Hs; done). apply IH.
Qed.

Lemma find_name_dentry s fname l :
  cstring s fname l → Z.of_nat (length l) <= 32 → find_name 64 s s fname 0 = find_dentry s l.
Proof. intros Hc Hl. by rewrite (find_name_correct s fname l) by (by apply take_nul_cstring). Qed.

Lemma find_dentry_bound s l i : find_dentry s l = Some i → 0 <= i < 64 ∧ dentry_name s i = l.
Proof.
  unfold find_dentry. intros H. apply head_Some_elem_of in H.
  apply list_elem_of_filter in H as [Hn Hi]. apply elem_of_seqZ in Hi. split; [lia|done].
Qed.

(** Entries lie in the image. *)
Lemma dentry_source s i buf :
  image_ok s → 0 < num_index_nodes s → 0 <= i < 64 → user_buf s buf DENTRY_SIZE →
  copied s (memcpy s buf (dentry_addr s i) DENTRY_SIZE) buf (dentry_addr s i) DENTRY_SIZE.
Proof.
  intros Himg HN Hi [Hs Ha]. pose proof (image_small s Himg) as (_ & HD & HE). pose proof (image_pos s Himg) as HP.
  assert (Hd : g_b_block s <= dentry_addr s i ∧ dentry_addr s i + 64 <= g_b_block s + image_bytes s).
  { unfold dentry_addr, DENTRY_SIZE, image_bytes. rewrite (image_dentries s Himg). lia. }
  unfold DENTRY_SIZE in *. apply memcpy_copied; [done|apply (image_seg s Himg); lia| |lia].
  unfold apart, image_base in *. rewrite (phys_kernel s (g_b_block s)) in Ha by (unfold PROGRAM_PAGE; lia).
  rewrite (phys_kernel s (dentry_addr s i)) by (unfold PROGRAM_PAGE, image_bytes in *; lia). lia.
Qed.

Section DirectoryFacts.
Context {L : Layout} {HL : LayoutOK L}.

Lemma read_dentry_by_name_run s fname l buf :
  image_ok s → 0 < num_index_nodes s → u32 fname ≠ 0 → u32 buf ≠ 0 →
  cstring s fname l → Z.of_nat (length l) <= NAME_SIZE → user_buf s buf DENTRY_SIZE →
  match find_dentry s l with
  | Some i => ∃ m', read_dentry_by_name fname buf s = Ret 0 (upd_mem (λ _, m') s) ∧
                    copied s m' buf (dentry_addr s i) DENTRY_SIZE
  | None => read_dentry_by_name fname buf s = Ret (-1) s
  end.
Proof.
  intros Himg HN Hf Hb Hc Hlen Hu. unfold NAME_SIZE in *.
  unfold read_dentry_by_name. apply Z.eqb_neq in Hf, Hb. rewrite Hf, Hb.
  unfold mbind, M_bind, gets. cbn [orb]. rewrite (strlen_correct s fname l) by (done || lia).
  unfold try_opt, mret, M_ret. unfold NAME_SIZE. destruct (Z.ltb_spec 32 (Z.of_nat (length l))); [lia|].
  rewrite (find_name_dentry s fname l) by done.
  destruct (find_dentry s l) as [i|] eqn:Hi; [|reflexivity].
  apply find_dentry_bound in Hi as [Hi _].
  exists (memcpy s buf (dentry_addr s i) DENTRY_SIZE). split; [|by apply dentry_source].
  unfold modify_mem, modify. by rewrite upd_mem_at.
Qed.
End DirectoryFacts.

(** [read_dentry_by_name] finds the first entry whose name is the string
    asked for and copies its 64 bytes to the caller's structure; it fails with
    -1 and no effect exactly when no entry has the name. *)
Theorem read_dentry_by_name_correct {L : Layout} (s : kernel) (fname : Z) (l : list Z) (buf : Z) :
  image_ok s → 0 < num_index_nodes s → u32 fname ≠ 0 → u32 buf ≠ 0 →
  cstring s fname l → Z.of_nat (length l) <= NAME_SIZE → user_buf s buf DENTRY_SIZE →
  match find_dentry s l with
  | Some i => ∃ m', read_dentry_by_name fname buf s = Ret 0 (upd_mem (λ _, m') s) ∧
                    copied s m' buf (dentry_addr s i) DENTRY_SIZE
  | None => read_dentry_by_name fname buf s = Ret (-1) s ∧ ∀ i, 0 <= i < 64 → dentry_name s i ≠ l
  end.
Proof.
  intros. pose proof (read_dentry_by_name_run s fname l buf) as H7.
  destruct (find_dentry s l) eqn:E; [by apply H7|]. split; [by apply H7|].
  intros i Hi Hn. unfold find_dentry in E.
  assert (i ∈ filter (λ i, dentry_name s i = l) (seqZ 0 64)) as Hin
    by (apply list_elem_of_filter; split; [done|apply elem_of_seqZ; lia]).
  destruct (filter _ _); [by apply elem_of_nil in Hin|done].
Qed.

(** ** Reading an open file *)

Lemma read_count_clip size offset length :
  0 <= size → 0 <= offset → 0 <= length →
  read_count size offset (if size <? length then size else length) = read_count size offset length.
Proof. intros H1 H2 H3. unfold read_count. bcase; done. Qed.

Lemma read_count_bounds size offset length :
  0 <= size → 0 <= offset → 0 <= length → 0 <= read_count size offset length <= length ∧
  (read_count size offset length = 0 → offset < size → length = 0).
Proof. intros H1 H2 H3. unfold read_count. bcase; lia. Qed.

(** [fd] is an open regular file of the running process. *)
Record open_file (s : kernel) (fd : Z) : Prop := {
  of_pcb : pcb_ok (get_pcb s);
  of_fd : 0 <= fd < 8;
  of_flags : flags (get_fd s (get_pcb s) fd) = 1;
  of_op : descriptor_op_ptr (get_fd s (get_pcb s) fd) ≠ 0;
  of_image : image_ok s;
  of_file : file_ok s (inode_num (get_fd s (get_pcb s) fd));
}.

(** A buffer that overlaps neither the image nor the process block. *)
Definition read_buf (s : kernel) (buf n : Z) : Prop :=
  user_buf s buf n ∧ apart s buf n (get_pcb s) PCB_SIZE.

Lemma slot_pos_phys m pcb fd : pcb_ok pcb → 0 <= fd < 8 → phys m (fd_slot pcb fd + pos_off) = fd_slot pcb fd + pos_off.
Proof.
  intros Hp Hf. rewrite slot_off. apply pcb_phys; [done|]. unfold PCB_SIZE, pos_off. lia.
Qed.

(** Bytes of a segment apart from the block survive the position's update. *)
Lemma st32_pos_peek m pcb fd v p :
  pcb_ok pcb → 0 <= fd < 8 → ¬ (pcb <= p < pcb + PCB_SIZE) →
  peek (st32 m (fd_slot pcb fd + pos_off) v) p = peek m p.
Proof.
  intros Hp Hf Hout.
  assert (Hs : seg (fd_slot pcb fd + pos_off) 4).
  { rewrite slot_off. apply pcb_seg; (done || unfold PCB_SIZE, pos_off; lia). }
  destruct (writes_st32 m _ v Hs) as [_ ->].
  rewrite slot_pos_phys by done. unfold fd_slot, pos_off, PCB_SIZE in *.
  destruct (Z.leb_spec (pcb + 16 * fd + 8) p), (Z.ltb_spec p (pcb + 16 * fd + 8 + 4)); cbn; lia || done.
Qed.

Section FileReadFacts.
Context {L : Layout}.

Lemma file_read_run s fd buf nbytes :
  let f := get_fd s (get_pcb s) fd in
  let n := read_count (file_size s (inode_num f)) (file_pos f) nbytes in
  open_file s fd → u32 buf ≠ 0 → 0 <= nbytes → file_pos f + nbytes < 4294967296 →
  read_buf s buf n →
  ∃ m1, writes s m1 buf n (λ i, file_byte s (inode_num f) (file_pos f + i)) ∧
    file_read fd buf nbytes s =
      Ret n (upd_mem (λ _, st32 m1 (fd_slot (get_pcb s) fd + pos_off) (file_pos f + n)) s).
Proof.
  intros f n [Hp Hfd Hfl Hop Himg Hfile] Hb Hn Hsum [Hu Hap]. fold f in Hfl, Hop, Hfile.
  pose proof (ld32_range s (fd_slot (get_pcb s) fd + pos_off)) as Hpos.
  change (ld32 s (fd_slot (get_pcb s) fd + pos_off)) with (file_pos f) in Hpos.
  pose proof (file_size_bound s _ Hfile) as Hsz.
  pose proof (image_small s Himg) as (HN & HD & HE). pose proof (image_pos s Himg).
  pose proof (file_inode s _ Hfile) as Hi.
  assert (Hin : s32 (ld32 s (fd_slot (get_pcb s) fd + inode_off)) = inode_num f).
  { apply s32_small. change (ld32 s _) with (inode_num f). lia. }
  unfold file_read. unfold mbind, M_bind, gets. rewrite Hin.
  apply Z.eqb_neq in Hb. rewrite Hb.
  change (ld32 s (fd_slot (get_pcb s) fd + flags_off)) with (flags f). rewrite Hfl.
  change (ld32 s (fd_slot (get_pcb s) fd + op_off)) with (descriptor_op_ptr f).
  apply Z.eqb_neq in Hop. rewrite Hop. cbn [negb Z.eqb Pos.eqb].
  change (ld32 s (fd_slot (get_pcb s) fd + pos_off)) with (file_pos f).
  set (size := file_size s (inode_num f)) in *.
  assert (Hclip : 0 <= (if size <? nbytes then size else nbytes) <= nbytes) by bcase.
  destruct (read_data_run s (inode_num f) (file_pos f) buf (if size <? nbytes then size else nbytes))
    as (m1 & He & Hw); [done|done|lia|lia|lia| |].
  { fold size. rewrite read_count_clip by lia. done. }
  fold size in He, Hw. rewrite read_count_clip in He, Hw by lia. fold n in He, Hw.
  exists m1. split; [exact Hw|].
  assert (He2 : (if size <? nbytes then read_data (inode_num f) (file_pos f) buf size
     else read_data (inode_num f) (file_pos f) buf nbytes) s = Ret n (upd_mem (λ _, m1) s)).
  { by destruct (size <? nbytes). }
  rewrite He2. rewrite u32_small by lia.
  pose proof (read_count_bounds size (file_pos f) nbytes ltac:(lia) ltac:(lia) ltac:(lia)) as [Hnb Hnz].
  fold n in Hnb, Hnz.
  assert (Hret : (if (file_pos f <? size) && (n =? 0) then nbytes else n) = n).
  { destruct (Z.ltb_spec (file_pos f) size), (Z.eqb_spec n 0); cbn; lia. }
  rewrite Hret. unfold modify_mem, modify, mret, M_ret. f_equal. rewrite upd_mem_at. 
  change (k_mem (upd_mem (λ _, m1) s)) with m1.
  assert (Hld : ld32 m1 (fd_slot (get_pcb s) fd + pos_off) = file_pos f).
  { change (file_pos f) with (ld32 s (fd_slot (get_pcb s) fd + pos_off)). rewrite slot_off.
    apply (pcb_word_frame _ _ _ _ _ _ _ Hw); (done || unfold PCB_SIZE, pos_off; lia). }
  by rewrite Hld.
Qed.
End FileReadFacts.

(** C23: [file_read] on an open file returns the number of bytes there are at
    the descriptor's position, at most the number asked for, stores exactly
    those bytes of the file in the buffer and advances the position past them;
    no other descriptor and no other memory changes. *)
Theorem file_read_correct {L : Layout} (s : kernel) (fd buf nbytes : Z) :
  open_file s fd → u32 buf ≠ 0 → 0 <= nbytes →
  file_pos (get_fd s (get_pcb s) fd) + nbytes < 4294967296 →
  read_buf s buf (read_count (file_size s (inode_num (get_fd s (get_pcb s) fd)))
                             (file_pos (get_fd s (get_pcb s) fd)) nbytes) →
  let f := get_fd s (get_pcb s) fd in
  let n := read_count (file_size s (inode_num f)) (file_pos f) nbytes in
  ∃ m', file_read fd buf nbytes s = Ret n (upd_mem (λ _, m') s) ∧
    (∀ i, 0 <= i < n → ld8 m' (buf + i) = file_byte s (inode_num f) (file_pos f + i)) ∧
    fd_table m' (get_pcb s) = <[Z.to_nat fd := set_pos (file_pos f + n) f]> (fd_table s (get_pcb s)) ∧
    (∀ p, ¬ (phys s buf <= p < phys s buf + n) → ¬ (get_pcb s <= p < get_pcb s + PCB_SIZE) →
          peek m' p = peek s p).
Proof.
  intros Ho Hb Hn Hsum Hbuf f n. pose proof Ho as [Hp Hfd _ _ _ Hfile]. fold f in Hfile.
  destruct (file_read_run s fd buf nbytes Ho Hb Hn Hsum Hbuf) as (m1 & Hw & He).
  fold f n in Hw, He, Hbuf. destruct Hbuf as [[Hseg _] Hap].
  pose proof (file_size_bound s _ Hfile) as Hsz.
  pose proof (ld32_range s (fd_slot (get_pcb s) fd + pos_off)) as Hpos.
  change (ld32 s _) with (file_pos f) in Hpos.
  pose proof (read_count_bounds (file_size s (inode_num f)) (file_pos f) nbytes ltac:(lia) ltac:(lia) Hn) as [Hnb _].
  fold n in Hnb. fold f in Hsum.
  eexists. split; [exact He|]. split_and!.
  - intros i Hi. unfold ld8. rewrite phys_st32.
    rewrite st32_pos_peek; [|done|done|].
    + by apply (writes_at _ _ _ _ _ _ Hw).
    + rewrite (writes_phys _ _ _ _ _ _ Hw), (phys_seg s buf n) by done.
      unfold apart in Hap. rewrite <- (Z.add_0_r (get_pcb s)), (pcb_phys s _ 0) in Hap by (done || unfold PCB_SIZE; lia). lia.
  - rewrite set_pos_table by done. rewrite u32_small by lia.
    rewrite (fd_table_frame _ _ _ _ _ _ Hw) by done. by rewrite (get_fd_frame _ _ _ _ _ _ _ Hw).
  - intros p H1 H2. rewrite st32_pos_peek by done. destruct Hw as [_ ->].
    destruct (Z.leb_spec (phys s buf) p), (Z.ltb_spec p (phys s buf + n)); cbn; lia || done.
Qed.

(** ** Directory reads *)

Section DirectoryReadFacts.
Context {L : Layout} {HL : LayoutOK L}.

Lemma dentry_buffer : KERNEL_START <= loc_directory_read_dentry ∧ loc_directory_read_dentry + 64 <= KERNEL_END.
Proof using HL. exact (obj_bounds 11 _ eq_refl). Qed.

(** The local entry lies apart from the blocks of the processes. *)
Lemma dentry_buffer_pcb pid :
  0 <= pid < 6 → loc_directory_read_dentry + 64 <= pcb_addr pid ∨ pcb_addr pid + PCB_SIZE <= loc_directory_read_dentry.
Proof using HL.
  intros Hp. apply (obj_sep 11 (19 + Z.to_nat pid) (loc_directory_read_dentry, 64) (pcb_addr pid, PCB_SIZE)); [done| |lia].
  assert (pid = 0 ∨ pid = 1 ∨ pid = 2 ∨ pid = 3 ∨ pid = 4 ∨ pid = 5) as
    [->|[->|[->|[->|[->| ->]]]]] by lia; done.
Qed.

Lemma directory_read_end s fd buf nbytes :
  16 < file_pos (get_fd s (get_pcb s) fd) → directory_read fd buf nbytes s = Ret 0 s.
Proof.
  intros Hpos. unfold directory_read. unfold mbind, M_bind, gets.
  change (ld32 s (fd_slot (get_pcb s) fd + pos_off)) with (file_pos (get_fd s (get_pcb s) fd)).
  unfold read_dentry_by_index. rewrite u32_small by apply ld32_range.
  destruct (Z.ltb_spec 16 (file_pos (get_fd s (get_pcb s) fd))); [|lia]. done.
Qed.

Lemma directory_read_entry s fd buf nbytes pid :
  let k := file_pos (get_fd s (get_pcb s) fd) in
  image_ok s → 0 < num_index_nodes s → user_buf s loc_directory_read_dentry 64 →
  on_stack pid s → 0 <= fd < 8 → k <= 16 →
  seg buf NAME_SIZE → apart s buf NAME_SIZE loc_directory_read_dentry 64 →
  apart s buf NAME_SIZE (get_pcb s) PCB_SIZE →
  ∃ m1 m2, writes s m1 loc_directory_read_dentry 64 (λ i, ld8 s (dentry_addr s k + i)) ∧
    writes m1 m2 buf NAME_SIZE (λ i, nth (Z.to_nat i) (dentry_name s k) 0) ∧
    directory_read fd buf nbytes s =
      Ret NAME_SIZE (upd_mem (λ _, st32 m2 (fd_slot (get_pcb s) fd + pos_off) (k + 1)) s).
Proof using HL.
  intros k Himg HN Hu Hst Hfd Hk Hseg Ha1 Ha2.
  pose proof (ld32_range s (fd_slot (get_pcb s) fd + pos_off)) as Hpos.
  change (ld32 s (fd_slot (get_pcb s) fd + pos_off)) with k in Hpos.
  pose proof (get_pcb_stack pid s Hst) as Hpcb. destruct Hst as [Hpid _].
  assert (Hpok : pcb_ok (get_pcb s)) by (rewrite Hpcb; by apply pcb_addr_ok).
  pose proof dentry_buffer as Hdb. pose proof (dentry_buffer_pcb pid Hpid) as Hdp.
  unfold KERNEL_START, KERNEL_END in Hdb.
  pose proof (dentry_source s k _ Himg HN ltac:(lia) Hu) as Hw1.
  set (m1 := memcpy s loc_directory_read_dentry (dentry_addr s k) DENTRY_SIZE) in *.
  assert (Hsd : seg loc_directory_read_dentry 64) by (by destruct Hu).
  assert (Hlb : ∀ i, 0 <= i < 32 → ld8 m1 (loc_directory_read_dentry + i) = ld8 s (dentry_addr s k + i)).
  { intros i Hi. apply (writes_at _ _ _ _ _ _ Hw1 Hsd). unfold DENTRY_SIZE. lia. }
  assert (Hw2 : writes m1 (strncpy m1 buf loc_directory_read_dentry NAME_SIZE) buf NAME_SIZE
    (λ i, nth (Z.to_nat i) (dentry_name s k) 0)).
  { eapply writes_ext; [|apply strncpy_effect; [done| | |unfold NAME_SIZE; lia]].
    - intros i Hi. cbn beta. f_equal. unfold dentry_name, ld_bytes. apply (take_nul_ext _ _ 0 32).
      intros j Hj. apply Hlb. lia.
    - apply (seg_shorter _ 64); [done|unfold NAME_SIZE; lia].
    - unfold apart in *. rewrite !(writes_phys _ _ _ _ _ _ Hw1). unfold NAME_SIZE in *. lia. }
  set (m2 := strncpy m1 buf loc_directory_read_dentry NAME_SIZE) in *.
  assert (Hm2 : strncpy (memcpy s loc_directory_read_dentry (dentry_addr s k) DENTRY_SIZE)
                  buf loc_directory_read_dentry NAME_SIZE = m2) by reflexivity.
  clearbody m2. clearbody m1. exists m1, m2. split; [exact Hw1|]. split; [exact Hw2|].
  assert (Hld : ld32 m2 (fd_slot (get_pcb s) fd + pos_off) = k).
  { change k with (ld32 s (fd_slot (get_pcb s) fd + pos_off)). rewrite slot_off.
    rewrite (pcb_word_frame _ _ _ _ _ _ _ Hw2 Hpok); [|by unfold apart in *; rewrite !(writes_phys _ _ _ _ _ _ Hw1)|
      unfold PCB_SIZE, pos_off; lia..].
    apply (pcb_word_frame _ _ _ _ _ _ _ Hw1 Hpok); [|unfold PCB_SIZE, pos_off; lia..].
    unfold apart. rewrite Hpcb. rewrite <- (Z.add_0_r (pcb_addr pid)), (pcb_phys s _ 0) by
      (by apply pcb_addr_ok || unfold PCB_SIZE; lia).
    rewrite phys_kernel by (unfold PROGRAM_PAGE; lia). unfold DENTRY_SIZE. lia. }
  unfold directory_read. unfold mbind, M_bind, gets.
  change (ld32 s (fd_slot (get_pcb s) fd + pos_off)) with k.
  unfold read_dentry_by_index, mbind, M_bind, gets. rewrite (u32_small k), (u32_small loc_directory_read_dentry) by lia.
  destruct (Z.ltb_spec 16 k), (Z.eqb_spec loc_directory_read_dentry 0); try lia. cbn [orb].
  unfold modify_mem, modify, mret, M_ret.
  change (0 =? -1) with false. cbv iota beta. f_equal.
  rewrite !upd_mem_comp, !k_mem_upd. cbv beta. rewrite Hm2. by rewrite Hld.
Qed.
End DirectoryReadFacts.

(** C39: [directory_read] enumerates the directory one name per call: at
    position [k <= 16] it returns 32 with the name of entry [k] in the buffer,
    padded with NULs, and moves to position [k + 1]; beyond, it returns 0 and
    changes nothing. *)
Theorem directory_read_correct {L : Layout} {HL : LayoutOK L} (s : kernel) (fd buf nbytes pid : Z) :
  image_ok s → 0 < num_index_nodes s → user_buf s loc_directory_read_dentry 64 →
  on_stack pid s → 0 <= fd < 8 →
  seg buf NAME_SIZE → apart s buf NAME_SIZE loc_directory_read_dentry 64 →
  apart s buf NAME_SIZE (get_pcb s) PCB_SIZE →
  let f := get_fd s (get_pcb s) fd in
  let k := file_pos f in
  if 16 <? k then directory_read fd buf nbytes s = Ret 0 s
  else ∃ m', directory_read fd buf nbytes s = Ret NAME_SIZE (upd_mem (λ _, m') s) ∧
    (∀ i, 0 <= i < NAME_SIZE → ld8 m' (buf + i) = nth (Z.to_nat i) (dentry_name s k) 0) ∧
    fd_table m' (get_pcb s) = <[Z.to_nat fd := set_pos (k + 1) f]> (fd_table s (get_pcb s)).
Proof.
  intros Himg HN Hu Hst Hfd Hseg Ha1 Ha2 f k.
  destruct (Z.ltb_spec 16 k) as [Hk|Hk]; [by apply directory_read_end|].
  destruct (directory_read_entry s fd buf nbytes pid) as (m1 & m2 & Hw1 & Hw2 & He); [done..|].
  pose proof (get_pcb_stack pid s Hst) as Hpcb. destruct Hst as [Hpid _].
  assert (Hpok : pcb_ok (get_pcb s)) by (rewrite Hpcb; by apply pcb_addr_ok).
  pose proof (ld32_range s (fd_slot (get_pcb s) fd + pos_off)) as Hpos.
  change (ld32 s (fd_slot (get_pcb s) fd + pos_off)) with k in Hpos.
  assert (Ha3 : apart s loc_directory_read_dentry 64 (get_pcb s) PCB_SIZE).
  { pose proof (dentry_buffer) as Hdb. pose proof (dentry_buffer_pcb pid Hpid). unfold KERNEL_START, KERNEL_END in Hdb.
    unfold apart. rewrite Hpcb. rewrite <- (Z.add_0_r (pcb_addr pid)), (pcb_phys s _ 0) by
      (by apply pcb_addr_ok || unfold PCB_SIZE; lia).
    rewrite phys_kernel by (unfold PROGRAM_PAGE; lia). lia. }
  assert (Ha2' : apart m1 buf NAME_SIZE (get_pcb s) PCB_SIZE).
  { unfold apart in *. by rewrite !(writes_phys _ _ _ _ _ _ Hw1). }
  eexists. split; [exact He|]. fold f k. split.
  - intros i Hi. unfold ld8. rewrite phys_st32, st32_pos_peek; [|done|done|].
    + by apply (writes_at _ _ _ _ _ _ Hw2).
    + rewrite (writes_phys _ _ _ _ _ _ Hw2), (phys_seg m1 buf NAME_SIZE) by done.
      unfold apart in Ha2'. rewrite <- (Z.add_0_r (get_pcb s)), (pcb_phys m1 _ 0) in Ha2' by
        (done || unfold PCB_SIZE; lia). lia.
  - rewrite set_pos_table by done. rewrite u32_small by lia.
    rewrite (fd_table_frame _ _ _ _ _ _ Hw2), (fd_table_frame _ _ _ _ _ _ Hw1) by done.
    by rewrite (get_fd_frame _ _ _ _ _ _ _ Hw2), (get_fd_frame _ _ _ _ _ _ _ Hw1).
Qed.

(** ** A wrapped request *)

(** the end of a request is computed in 32 bits, so [length = -1] at a
    positive offset is not clipped to the file: one [memcpy] of 2^32 - 1 bytes
    is made, and -1 is returned. *)
Theorem read_data_wraps (s : kernel) (inode buf : Z) :
  image_ok s → file_ok s inode → 1 < file_size s inode →
  read_data inode 1 buf (-1) s =
    Ret (-1) (upd_mem (λ _, memcpy s buf (block_addr s (data_block s inode 0) + 1) 4294967295) s).
Proof.
  intros Himg Hfile Hsz. pose proof (file_size_bound s inode Hfile) as Hfs.
  pose proof (image_small s Himg) as (HN & HD & HE). pose proof (image_pos s Himg) as HP.
  destruct (file_inode s inode Hfile) as [Hi1 Hi2].
  destruct (file_blocks s inode Hfile 0) as [Hd1 Hd2]; [lia..|].
  unfold read_data. rewrite (u32_small inode), (u32_small 1) by lia. change (u32 (-1)) with 4294967295.
  unfold mbind, M_bind, gets. rewrite (u32_small (file_size _ _)) by lia.
  destruct (Z.leb_spec (file_size s inode) 1); [lia|].
  change (u32 (4294967295 + 1)) with 0. destruct (Z.ltb_spec (file_size s inode) 0); [lia|].
  set (fsys := k_fs s). set (size := file_size s inode) in *. set (m := k_mem s) at 1.
  assert (Hstep : read_data_step fsys inode 0 buf 4294967295 size (0, 1, 0, m) =
    inr (-1, memcpy s buf (block_addr s (data_block s inode 0) + 1) 4294967295)).
  { unfold read_data_step. change (u32 0) with 0.
    destruct (Z.leb_spec size 0); [lia|]. cbn [negb orb].
    change (s32 (u32 (4294967295 + 1) - 0)) with 0. unfold BOOT_BLOCK_SIZE. change (0 <? 4096) with true. cbv iota.
    change (u32 (0 + 0)) with 0. change (s32 (0 + (4294967295 - 0))) with (-1).
    rewrite Z.add_0_r. change (4294967295 - 0) with 4294967295.
    assert (Ha : g_b_block fsys + 4096 * (s32 (ld32 m (g_b_block fsys + num_index_nodes_off)) + 1) +
      s32 (ld32 m (inode_addr fsys inode + data_block_off + 4 * 0)) * 4096 + 1 =
      block_addr s (data_block s inode 0) + 1).
    { subst fsys m. unfold num_index_nodes_off, data_block_off.
      change (ld32 s (g_b_block s + 4)) with (num_index_nodes s).
      change (ld32 s (inode_addr s inode + 4 + 4 * 0)) with (data_block s inode 0).
      rewrite !s32_small by lia. unfold block_addr. lia. }
    rewrite Ha. reflexivity. }
  unfold BOOT_BLOCK_SIZE. change (1 mod 4096) with 1. change (1 / 4096) with 0.
  assert (Hl : while_loop (read_data_step fsys inode 0 buf 4294967295 size) (0, 1, 0, m) =
    Some (-1, memcpy s buf (block_addr s (data_block s inode 0) + 1) 4294967295)).
  { by apply (while_loop_steps _ 0 _ (0, 1, 0, m)). }
  rewrite Hl. clear. generalize (memcpy s buf (block_addr s (data_block s inode 0) + 1) 4294967295) as m1.
  reflexivity.
Qed.

(** ** An example image, for the witnesses

    Two index nodes and three data blocks at 5 MB; file 1 has 5000 bytes in
    blocks 2 and 0; entry 0 is the file [f], entry 1 the same file as [shell];
    the kernel's literal is at its place; descriptor 2 of process 0 is open
    on it at position 4000 and descriptor 3 on the directory.  The file starts
    like a program entered at 0x8048000; the program page holds the name [f]
    and the command [f x]. *)
Definition example_stores : list (Z * Z) :=
  [(0x500000 + 4, 2); (0x500000 + 8, 3);
   (0x500000 + 64, 0x66); (0x500000 + 64 + 32, 2); (0x500000 + 64 + 36, 1);
   (0x500000 + 128, 0x6C656873); (0x500000 + 132, 0x6C); (0x500000 + 128 + 32, 2); (0x500000 + 128 + 36, 1);
   (0x430000, 0x6C656873); (0x430004, 0x6C);
   (0x500000 + 8192, 5000); (0x500000 + 8192 + 4, 2); (0x500000 + 8192 + 8, 0);
   (0x500000 + 4096 * 5 + 4000, 0x44434241);
   (fd_slot 0x7FE000 2 + op_off, 0x411030); (fd_slot 0x7FE000 2 + inode_off, 1);
   (fd_slot 0x7FE000 2 + pos_off, 4000); (fd_slot 0x7FE000 2 + flags_off, 1);
   (fd_slot 0x7FE000 3 + op_off, 0x411020); (fd_slot 0x7FE000 3 + flags_off, 1);
   (0x505000, 0x464C457F); (0x505018, 0x8048000);
   (0x8100000, 0x66); (0x8100010, 0x782066)].

Definition example_image : kernel :=
  upd_fs (λ _, mkFilesystem 0x500000 0x501000 0x500040 0)
    (upd_mem (λ _, foldl (λ m '(a, v), st32 m a v) (mkMem ∅ 0x800000) example_stores) zero_kernel).

Lemma example_image_ok : image_ok example_image.
Proof. split; try (vm_compute; congruence). all: vm_compute; reflexivity. Qed.

Lemma example_file_ok : file_ok example_image 1.
Proof.
  split; [split; vm_compute; congruence..|].
  intros k Hk Hlt. assert (k = 0 ∨ k = 1) as [-> | ->].
  { assert (file_size example_image 1 = 5000) as E by (vm_compute; reflexivity). rewrite E in Hlt. lia. }
  all: split; vm_compute; congruence.
Qed.

Lemma example_buf n : 0 <= n <= 4096 → read_buf example_image 0x8200000 n.
Proof.
  intros Hn. unfold read_buf, user_buf, seg, apart.
  change (phys example_image 0x8200000) with 0xA00000.
  change (image_base example_image) with 0x500000.
  change (phys example_image 0x500000) with 0x500000.
  change (get_pcb example_image) with 0x7FE000. change (phys example_image 0x7FE000) with 0x7FE000.
  assert (image_bytes example_image = 24576) as -> by (vm_compute; reflexivity).
  unfold PROGRAM_PAGE, PROGRAM_PAGE_END, PCB_SIZE. lia.
Qed.

Lemma example_open_file : open_file example_image 2.
Proof.
  split; [by vm_compute|lia|vm_compute; reflexivity|vm_compute; congruence|exact example_image_ok|].
  replace (inode_num _) with 1 by (vm_compute; reflexivity). exact example_file_ok.
Qed.

Lemma read_data_correct_witness :
  image_ok example_image ∧ file_ok example_image 1 ∧
  ∃ m', read_data 1 4000 0x8200000 2000 example_image = Ret 1000 (upd_mem (λ _, m') example_image) ∧
    writes example_image m' 0x8200000 1000 (λ i, file_byte example_image 1 (4000 + i)).
Proof.
  split; [exact example_image_ok|]. split; [exact example_file_ok|].
  pose proof (read_data_correct example_image 1 4000 0x8200000 2000 example_image_ok example_file_ok) as H.
  replace (read_count (file_size example_image 1) 4000 2000) with 1000 in H by (vm_compute; reflexivity).
  apply H; [lia..|]. apply example_buf. lia.
Defined.

Lemma read_data_wraps_witness :
  image_ok example_image ∧ file_ok example_image 1 ∧
  read_data 1 1 0x8200000 (-1) example_image =
    Ret (-1) (upd_mem (λ _, memcpy example_image 0x8200000
      (block_addr example_image (data_block example_image 1 0) + 1) 4294967295) example_image).
Proof.
  split; [exact example_image_ok|]. split; [exact example_file_ok|].
  apply (read_data_wraps example_image 1 0x8200000 example_image_ok example_file_ok).
  replace (file_size example_image 1) with 5000 by (vm_compute; reflexivity). lia.
Defined.

Lemma read_dentry_by_name_correct_witness :
  image_ok example_image ∧
  ∃ m', read_dentry_by_name (L := example_layout) 0x8100000 0x8200000 example_image =
          Ret 0 (upd_mem (λ _, m') example_image) ∧
    copied example_image m' 0x8200000 (dentry_addr example_image 0) DENTRY_SIZE.
Proof.
  split; [exact example_image_ok|].
  pose proof (read_dentry_by_name_correct (L := example_layout) example_image 0x8100000 [0x66] 0x8200000
    example_image_ok) as H.
  replace (find_dentry example_image [0x66]) with (Some 0) in H by (vm_compute; reflexivity).
  apply H; [by vm_compute|by vm_compute|by vm_compute| |by vm_compute|apply example_buf; unfold DENTRY_SIZE; lia].
  split_and!; [by repeat constructor| |by vm_compute].
  intros i c Hi. destruct i as [|i]; [|by destruct i]. cbn in Hi. injection Hi as <-. by vm_compute.
Defined.

Lemma file_read_correct_witness :
  open_file example_image 2 ∧
  ∃ m', file_read (L := example_layout) 2 0x8200000 2000 example_image = Ret 1000 (upd_mem (λ _, m') example_image) ∧
    (∀ i, 0 <= i < 1000 → ld8 m' (0x8200000 + i) = file_byte example_image 1 (4000 + i)) ∧
    fd_table m' (get_pcb example_image) =
      <[2%nat := set_pos 5000 (get_fd example_image (get_pcb example_image) 2)]>
        (fd_table example_image (get_pcb example_image)).
Proof.
  split; [exact example_open_file|].
  pose proof (file_read_correct (L := example_layout) example_image 2 0x8200000 2000 example_open_file) as H.
  replace (inode_num (get_fd example_image (get_pcb example_image) 2)) with 1 in H by (vm_compute; reflexivity).
  replace (file_pos (get_fd example_image (get_pcb example_image) 2)) with 4000 in H by (vm_compute; reflexivity).
  replace (read_count (file_size example_image 1) 4000 2000) with 1000 in H by (vm_compute; reflexivity).
  destruct H as (m' & H1 & H2 & H3 & _); [by vm_compute|lia|lia|apply example_buf; lia|].
  exists m'. split; [exact H1|]. split; [exact H2|exact H3].
Defined.

(** The first name of the directory, through descriptor 3. *)
Lemma directory_read_correct_witness :
  on_stack 0 example_image ∧
  ∃ m', directory_read (L := example_layout) 3 0x8200000 32 example_image = Ret 32 (upd_mem (λ _, m') example_image) ∧
    (∀ i, 0 <= i < 32 → ld8 m' (0x8200000 + i) = nth (Z.to_nat i) [0x66] 0).
Proof.
  assert (Hst : on_stack 0 example_image) by (vm_compute; split; split; congruence).
  split; [exact Hst|].
  pose proof (directory_read_correct (L := example_layout) example_image 3 0x8200000 32 0 example_image_ok) as H.
  cbv zeta in H.
  replace (file_pos (get_fd example_image (get_pcb example_image) 3)) with 0 in H by (vm_compute; reflexivity).
  replace (dentry_name example_image 0) with [0x66] in H by (vm_compute; reflexivity).
  destruct H as (m' & H1 & H2 & _); [by vm_compute| |exact Hst|lia|closed_segment|closed_segment|closed_segment|].
  - split; closed_segment.
  - exists m'. split; [exact H1|exact H2].
Defined.
