(* ===== verification/Terminal.v ===== *)
(** * Terminals: terminal.c and the terminal switch of systemcalls.c

    The three terminals with their backing pages and line buffers: opening,
    line input, output to the visible and to a background terminal, and
    [save_and_switch_term]. *)

From S2P Require Import Prelude Memory LibMem LibStr Video State Console.

Implicit Types s : kernel.

Definition BUFF_SIZE : Z := 128.
Definition FAILURE : Z := -1.

(** [terminal[j]] *)
Definition term (s : kernel) (j : Z) : terminal_t := terminal s !!! j.

(** ** Background terminals *)

(** [terminal[n].video_memory_storage_location + ((NUM_COLS * y + x) << 1)] *)
Definition active_terminal_put (n c : Z) (s : kernel) : kernel :=
  upd_mem (put_cell (video_memory_storage_location (term s n))
                    (NUM_COLS * y_position (term s n) + x_position (term s n)) c) s.

Definition active_terminal_scroll_up (n : Z) (s : kernel) : kernel :=
  let s := upd_mem (scroll_rows (video_memory_storage_location (term s n))
                      (video_memory_storage_location (term s (active_terminal s)))) s in
  let s := upd_mem (blank_bottom (video_memory_storage_location (term s n))) s in
  let s := upd_terminal n (set_x_position 0) s in
  upd_terminal n (set_y_position (NUM_ROWS - 1)) s.

Definition inc_x (t : terminal_t) : terminal_t := set_x_position (x_position t + 1) t.
Definition inc_y (t : terminal_t) : terminal_t := set_y_position (y_position t + 1) t.

Definition active_terminal_handle_enter (n : Z) (s : kernel) : kernel :=
  let s := upd_terminal n inc_y s in
  let s := upd_terminal n (set_x_position 0) s in
  if y_position (term s n) =? NUM_ROWS then active_terminal_scroll_up n s else s.

Definition active_terminal_handle_tab (n : Z) (s : kernel) : kernel :=
  if x_position (term s n) <? NUM_COLS - 8 then
    upd_terminal n (λ t, set_x_position (x_position t + 8) t) s
  else
    let s := upd_terminal n inc_y s in
    let s := upd_terminal n (set_x_position 8) s in
    if y_position (term s n) =? NUM_ROWS then active_terminal_scroll_up n s else s.

(** The test of the second branch is on [screen_y], the cursor of the screen. *)
Definition active_terminal_handle_backspace (n : Z) (s : kernel) : kernel :=
  let s :=
    if 0 <? x_position (term s n) then upd_terminal n (λ t, set_x_position (x_position t - 1) t) s
    else if 0 <? screen_y s then
      upd_terminal n (λ t, set_y_position (y_position t - 1) t)
        (upd_terminal n (set_x_position (NUM_COLS - 1)) s)
    else s in
  active_terminal_put n SPACE s.

(** The end of the line is tested on [screen_x], the cursor of the screen. *)
Definition active_terminal_handle_normal_char (n c : Z) (s : kernel) : kernel :=
  let s := active_terminal_put n c s in
  if screen_x s =? NUM_COLS - 1 then
    let s := upd_terminal n (set_x_position 0) s in
    let s := upd_terminal n inc_y s in
    if y_position (term s n) =? NUM_ROWS then active_terminal_scroll_up n s else s
  else upd_terminal n inc_x s.

Definition active_terminal_putc (n c : Z) (s : kernel) : kernel :=
  let c := u8 c in
  if (c =? NL) || (c =? CR) then active_terminal_handle_enter n s
  else if c =? TABC then active_terminal_handle_tab n s
  else if c =? BSP then active_terminal_handle_backspace n s
  else active_terminal_handle_normal_char n c s.

(** ** The terminal switch *)

Definition save_and_switch_term (new_active : Z) (s : kernel) : kernel :=
  if new_active =? active_terminal s then s
  else
    let s := upd_mem (λ m, memcpy m (video_memory_storage_location (term s (active_terminal s))) VIDEO FOUR_KB) s in
    let s := upd_mem (λ m, memcpy m VIDEO (video_memory_storage_location (term s new_active)) FOUR_KB) s in
    let s := upd_terminal (active_terminal s) (set_y_position (screen_y s)) s in
    let s := upd_terminal (active_terminal s) (set_x_position (screen_x s)) s in
    let s := set_screen_y (y_position (term s new_active)) s in
    let s := set_screen_x (x_position (term s new_active)) s in
    let s := update_cursor (screen_x s) (screen_y s) s in
    set_active_terminal new_active s.

(** ** The driver *)

Section Driver.
Context {L : Layout}.

(** [&terminal[j].keyboard_buffer[i]] *)
Definition keyboard_buffer (j i : Z) : Z := terminal_addr + 180 * j + 8 + i.

Definition terminal_open_one (j : Z) (s : kernel) : kernel :=
  let s := upd_terminal j (set_video_memory_storage_location (VIDEO + FOUR_KB * (j + 1))) s in
  let s := upd_terminal j (set_x_position 0) s in
  let s := upd_terminal j (set_y_position 0) s in
  let s := upd_mem (for_up (Z.to_nat BUFF_SIZE) 0 (λ i m, st8 m (keyboard_buffer j i) 0)) s in
  let s := upd_mem (clear_page (video_memory_storage_location (term s j))) s in
  let s := upd_terminal j (set_buffer_index 0) s in
  let s := upd_terminal j (set_read_index 0) s in
  let s := upd_terminal j (set_read_flag 0) s in
  let s := upd_terminal j (set_process_activated 0) s in
  let s := upd_terminal j (set_current_esp 0) s in
  let s := upd_terminal j (set_current_ebp 0) s in
  upd_terminal j (set_rtc_lock 0) s.

Definition terminal_open (filename : Z) : M Z :=
  _ ← modify (for_up 3 0 terminal_open_one);
  mret 0.

Definition terminal_close (fd : Z) : M Z := mret 0.

(** The wait for [read_flag] is [Block]; nothing has been changed by then,
    so the call seen from a later state is the call itself. *)
Definition terminal_read (fd buffer nbytes : Z) : M Z :=
  if (u32 buffer =? 0) || (nbytes <? 0) then _ ← printf "fail" []; mret FAILURE
  else if nbytes =? 0 then _ ← printf "no bytes" []; mret 0
  else
    a ← gets (λ s, active_terminal s);
    flag ← gets (λ s, read_flag (term s a));
    if negb (flag =? 1) then block
    else
      n ← gets (λ s, read_index (term s a));
      _ ← modify (upd_mem (for_up (Z.to_nat n) 0 (λ i m, st8 m (buffer + i) (ld8 m (keyboard_buffer a i)))));
      _ ← modify (upd_mem (λ m, st8 m (buffer + n) NL));
      _ ← modify (upd_terminal a (λ t, set_read_index (read_index t + 1) t));
      n ← gets (λ s, read_index (term s a));
      _ ← modify (upd_mem (λ m, st8 m (buffer + n) 0));
      _ ← modify (upd_terminal a (set_read_flag 0));
      gets (λ s, read_index (term s a)).

(** One character of [terminal_write]. *)
Definition write_char (c : Z) (s : kernel) : kernel :=
  if c =? 0 then s
  else if (current_running_process_count s <? 3) || (next_terminal_in_schedule s =? active_terminal s)
  then putc c s
  else active_terminal_putc (next_terminal_in_schedule s) c s.

Definition terminal_write (fd buffer nbytes : Z) : M Z :=
  if (u32 buffer =? 0) || (nbytes <? 0) then mret FAILURE
  else
    full ← gets (λ s, buffer_index (term s (active_terminal s)) =? BUFF_SIZE);
    if (full : bool) then mret 0
    else
      _ ← modify cli;
      _ ← modify (for_up (Z.to_nat nbytes) 0 (λ i s, write_char (ld8 s (buffer + i)) s));
      _ ← modify sti;
      mret nbytes.
End Driver.

(** ** Terminal records *)

Lemma term_upd i f s j : term (upd_terminal i f s) j = if i =? j then f (term s i) else term s j.
Proof. unfold term. cbn. rewrite lookup_total_insert_Z. by destruct (Z.eqb_spec i j) as [->|]. Qed.

Lemma term_upd_same i f s : term (upd_terminal i f s) i = f (term s i).
Proof. by rewrite term_upd, Z.eqb_refl. Qed.

Lemma upd_terminal_twice i f g s : upd_terminal i f (upd_terminal i g s) = upd_terminal i (λ t, f (g t)) s.
Proof.
  unfold upd_terminal, upd_term. cbn. rewrite lookup_total_insert_Z, Z.eqb_refl. do 2 f_equal. apply insert_insert_eq.
Qed.

Lemma term_upd_other i f s j : j ≠ i → term (upd_terminal i f s) j = term s j.
Proof. intros H. rewrite term_upd. by destruct (Z.eqb_spec i j); [congruence|]. Qed.

(** The backing page of terminal [j], as [terminal_open] places it. *)
Definition backing (j : Z) : Z := VIDEO + FOUR_KB * (j + 1).

(** What [terminal_open] establishes and every operation keeps. *)
Record terms_ok (s : kernel) : Prop := {
  terms_active : 0 <= active_terminal s < 3;
  terms_backing : ∀ j, 0 <= j < 3 → video_memory_storage_location (term s j) = backing j;
}.

(** The screen of terminal [j]: the video page if it is the active one, its
    backing page and saved cursor otherwise. *)
Definition terminal_screen (s : kernel) (j : Z) : screen :=
  if j =? active_terminal s then abs_screen s
  else mkScreen (page_text s (video_memory_storage_location (term s j))) (x_position (term s j)) (y_position (term s j)).

Lemma backing_low j n : 0 <= j < 3 → 0 <= n <= FOUR_KB → seg (backing j) n ∧ ∀ m, phys m (backing j) = backing j.
Proof.
  unfold backing, VIDEO, FOUR_KB. intros Hj Hn. split; [apply seg_kernel; unfold PROGRAM_PAGE; lia|].
  intros m. apply phys_kernel. unfold PROGRAM_PAGE. lia.
Qed.

Lemma video_low n : 0 <= n <= FOUR_KB → seg VIDEO n ∧ ∀ m, phys m VIDEO = VIDEO.
Proof.
  unfold VIDEO, FOUR_KB. intros Hn. split; [apply seg_kernel; unfold PROGRAM_PAGE; lia|].
  intros m. apply phys_kernel. unfold PROGRAM_PAGE. lia.
Qed.

(** ** The switch *)

(** The memory after the two copies: the screen is saved in the page of the
    old terminal, then the page of the new one is shown. *)
Lemma switch_pages s a b :
  0 <= a < 3 → 0 <= b < 3 → a ≠ b →
  let m' := memcpy (memcpy s (backing a) VIDEO FOUR_KB) VIDEO (backing b) FOUR_KB in
  upage m' = upage s ∧
  ∀ p, peek m' p = if (VIDEO <=? p) && (p <? VIDEO + FOUR_KB) then peek s (backing b + (p - VIDEO))
                   else if (backing a <=? p) && (p <? backing a + FOUR_KB) then peek s (VIDEO + (p - backing a))
                   else peek s p.
Proof.
  intros Ha Hb Hne m'.
  destruct (backing_low a FOUR_KB Ha ltac:(done)) as [Sa Pa].
  destruct (backing_low b FOUR_KB Hb ltac:(done)) as [Sb Pb].
  destruct (video_low FOUR_KB ltac:(done)) as [Sv Pv].
  assert (H1 : copied s (memcpy s (backing a) VIDEO FOUR_KB) (backing a) VIDEO FOUR_KB).
  { apply memcpy_copied; [done|done| |unfold FOUR_KB; lia]. unfold apart. rewrite Pa, Pv.
    unfold backing, FOUR_KB. lia. }
  set (m1 := memcpy s (backing a) VIDEO FOUR_KB) in *.
  assert (H2 : copied m1 m' VIDEO (backing b) FOUR_KB).
  { apply memcpy_copied; [done|done| |unfold FOUR_KB; lia]. unfold apart. rewrite Pb, Pv.
    unfold backing, FOUR_KB. lia. }
  clearbody m'. clearbody m1.
  destruct H1 as [U1 H1], H2 as [U2 H2]. split; [congruence|]. intros p.
  rewrite H2, Pv. unfold ld8.
  destruct (in_rangeP VIDEO (VIDEO + FOUR_KB) p).
  - rewrite (phys_seg m1 (backing b) FOUR_KB), Pb by (done || lia). rewrite H1, Pa.
    destruct (in_rangeP (backing a) (backing a + FOUR_KB) (backing b + (p - VIDEO))); [|done].
    unfold backing, FOUR_KB in *. lia.
  - rewrite H1, Pa. destruct (in_rangeP (backing a) (backing a + FOUR_KB) p); [|done].
    unfold ld8. by rewrite (phys_seg s VIDEO FOUR_KB), Pv by (done || lia).
Qed.

(** The two copies of the code are those of [switch_pages]. *)
Lemma switch_memory s b :
  terms_ok s → 0 <= b < 3 →
  upd_mem (λ m, memcpy m VIDEO (video_memory_storage_location
      (term (upd_mem (λ m, memcpy m (video_memory_storage_location (term s (active_terminal s))) VIDEO FOUR_KB) s) b)) FOUR_KB)
    (upd_mem (λ m, memcpy m (video_memory_storage_location (term s (active_terminal s))) VIDEO FOUR_KB) s) =
  upd_mem (λ _, memcpy (memcpy s (backing (active_terminal s)) VIDEO FOUR_KB) VIDEO (backing b) FOUR_KB) s.
Proof.
  intros [Ha Hback] Hb. rewrite upd_mem_comp. cbv beta.
  change (term (upd_mem _ s)) with (term s). by rewrite (Hback _ Ha), (Hback _ Hb).
Qed.

(** The record and the cursor after a switch. *)
Lemma switch_view s b j :
  terms_ok s → 0 <= b < 3 → 0 <= j < 3 → b ≠ active_terminal s →
  let s' := save_and_switch_term b s in
  let a := active_terminal s in
  (∀ i, 0 <= i < FOUR_KB → ld8 s' (VIDEO + i) = ld8 s (backing b + i)) ∧
  (∀ i, 0 <= i < FOUR_KB → ld8 s' (backing j + i) = if j =? a then ld8 s (VIDEO + i) else ld8 s (backing j + i)) ∧
  active_terminal s' = b ∧ screen_x s' = x_position (term s b) ∧ screen_y s' = y_position (term s b) ∧
  video_memory_storage_location (term s' j) = backing j ∧
  x_position (term s' j) = (if j =? a then screen_x s else x_position (term s j)) ∧
  y_position (term s' j) = (if j =? a then screen_y s else y_position (term s j)).
Proof.
  intros [Ha Hback] Hb Hj Hne s' a. unfold s', save_and_switch_term. clear s'.
  apply Z.eqb_neq in Hne as Hne'. rewrite Hne'. fold a in Ha, Hne |- *.
  destruct (backing_low j FOUR_KB Hj ltac:(done)) as [Sj Pj].
  destruct (backing_low b FOUR_KB Hb ltac:(done)) as [Sb Pb].
  destruct (video_low FOUR_KB ltac:(done)) as [Sv Pv].
  set (m' := memcpy (memcpy s (backing a) VIDEO FOUR_KB) VIDEO (backing b) FOUR_KB).
  pose proof (switch_pages s a b Ha Hb ltac:(congruence)) as [Hu Hp]. fold m' in Hu, Hp.
  pose proof (switch_memory s b (Build_terms_ok s Ha Hback) Hb) as Hmem. fold a in Hmem. fold m' in Hmem.
  rewrite Hmem. clear Hmem. clearbody m'.
  assert (H1 : ∀ i, 0 <= i < FOUR_KB → ld8 m' (VIDEO + i) = ld8 s (backing b + i)).
  { intros i Hi. unfold ld8. rewrite (phys_seg m' VIDEO FOUR_KB), (phys_seg s (backing b) FOUR_KB), Pv, Pb, Hp by done.
    destruct (in_rangeP VIDEO (VIDEO + FOUR_KB) (VIDEO + i)); [|lia]. f_equal. lia. }
  assert (H2 : ∀ i, 0 <= i < FOUR_KB → ld8 m' (backing j + i) = if j =? a then ld8 s (VIDEO + i) else ld8 s (backing j + i)).
  { intros i Hi. unfold ld8. rewrite (phys_seg m' (backing j) FOUR_KB), (phys_seg s VIDEO FOUR_KB), (phys_seg s (backing j) FOUR_KB), Pv, !Pj, Hp by done.
    destruct (in_rangeP VIDEO (VIDEO + FOUR_KB) (backing j + i)); [unfold backing, FOUR_KB in *; lia|].
    destruct (in_rangeP (backing a) (backing a + FOUR_KB) (backing j + i)), (Z.eqb_spec j a);
      unfold backing, FOUR_KB in *; try lia. f_equal. lia. }
  set (s2 := upd_mem (λ _, m') s).
  assert (Ht : ∀ k, term (upd_terminal a (set_x_position (screen_x s)) (upd_terminal a (set_y_position (screen_y s)) s2)) k =
    if k =? a then set_x_position (screen_x s) (set_y_position (screen_y s) (term s k)) else term s k).
  { intros k. rewrite !term_upd. destruct (Z.eqb_spec a k) as [->|Hk]; [by rewrite !Z.eqb_refl|].
    destruct (Z.eqb_spec k a); [congruence|done]. }
  apply Z.eqb_neq in Hne as Hba.
  change (active_terminal s2) with a. change (screen_y s2) with (screen_y s). change (screen_x s2) with (screen_x s).
  set (s4 := upd_terminal a (set_x_position _) _) in *.
  split_and!; [exact H1|exact H2|done|..].
  - change (x_position (term s4 b) = x_position (term s b)). by rewrite Ht, Hba.
  - change (y_position (term s4 b) = y_position (term s b)). by rewrite Ht, Hba.
  - change (video_memory_storage_location (term s4 j) = backing j). rewrite Ht. by destruct (j =? a); apply Hback.
  - change (x_position (term s4 j) = if j =? a then screen_x s else x_position (term s j)). rewrite Ht. by destruct (j =? a).
  - change (y_position (term s4 j) = if j =? a then screen_y s else y_position (term s j)). rewrite Ht. by destruct (j =? a).
Qed.

(** Nothing but the pages of the screens, the cursor and the ports changes. *)
Lemma switch_frame s b :
  terms_ok s → 0 <= b < 3 →
  changes [(VIDEO, 4 * FOUR_KB)] s (save_and_switch_term b s) ∧
  k_fs (save_and_switch_term b s) = k_fs s ∧ k_cpu (save_and_switch_term b s) = k_cpu s ∧
  k_proc (save_and_switch_term b s) = k_proc s ∧ k_sched (save_and_switch_term b s) = k_sched s ∧
  k_pic (save_and_switch_term b s) = k_pic s ∧ k_paging (save_and_switch_term b s) = k_paging s.
Proof.
  intros [Ha Hback] Hb. unfold save_and_switch_term. destruct (Z.eqb_spec b (active_terminal s)) as [->|Hne].
  { split; [apply changes_refl|done]. }
  set (a := active_terminal s) in *.
  set (m' := memcpy (memcpy s (backing a) VIDEO FOUR_KB) VIDEO (backing b) FOUR_KB).
  destruct (switch_pages s a b Ha Hb ltac:(congruence)) as [Hu Hp]. fold m' in Hu, Hp.
  pose proof (switch_memory s b (Build_terms_ok s Ha Hback) Hb) as Hmem. fold a in Hmem. fold m' in Hmem.
  rewrite Hmem. clear Hmem. clearbody m'. split; [|done]. split; [exact Hu|]. intros p Hps.
  inversion_clear Hps as [|? ? H _]. cbn [fst snd] in H. change (peek m' p = peek s p). rewrite Hp.
  unfold backing, FOUR_KB in *.
  destruct (in_rangeP VIDEO (VIDEO + 4096) p); [lia|].
  by destruct (in_rangeP (VIDEO + 4096 * (a + 1)) (VIDEO + 4096 * (a + 1) + 4096) p); [lia|].
Qed.

(** Nor do the fields of the scheduler in the terminals' records. *)
Lemma switch_context s b j :
  let s' := save_and_switch_term b s in
  current_esp (term s' j) = current_esp (term s j) ∧ current_ebp (term s' j) = current_ebp (term s j) ∧
  process_num (term s' j) = process_num (term s j).
Proof.
  cbv zeta. unfold save_and_switch_term. destruct (b =? active_terminal s); [done|].
  set (m1 := upd_mem _ (upd_mem _ s)). change (active_terminal m1) with (active_terminal s).
  set (s2 := upd_terminal (active_terminal s) (set_y_position (screen_y m1)) m1).
  set (s3 := upd_terminal (active_terminal s2) (set_x_position (screen_x s2)) s2).
  assert (H : term s3 j = if active_terminal s =? j
    then set_x_position (screen_x s2) (set_y_position (screen_y m1) (term s j)) else term s j).
  { unfold s3, s2. change (active_terminal (upd_terminal _ _ m1)) with (active_terminal s). rewrite !term_upd.
    change (term m1) with (term s). destruct (Z.eqb_spec (active_terminal s) j) as [->|]; [by rewrite Z.eqb_refl|done]. }
  set (s' := set_active_terminal b _). change (term s' j) with (term s3 j). rewrite H. by destruct (active_terminal s =? j).
Qed.

Lemma terminal_screen_switch s b j :
  terms_ok s → 0 <= b < 3 → 0 <= j < 3 →
  terminal_screen (save_and_switch_term b s) j = terminal_screen s j ∧ terms_ok (save_and_switch_term b s) ∧
  active_terminal (save_and_switch_term b s) = b.
Proof.
  intros Hok Hb Hj. destruct (decide (b = active_terminal s)) as [->|Hne].
  { unfold save_and_switch_term. by rewrite Z.eqb_refl. }
  destruct (switch_view s b j Hok Hb Hj Hne) as (H1 & H2 & H3 & H4 & H5 & H6 & H7 & H8).
  destruct Hok as [Ha Hback]. split_and!.
  - unfold terminal_screen. rewrite H3, H6, (Hback j Hj), H7, H8.
    destruct (Z.eqb_spec j b) as [->|Hjb].
    + apply Z.eqb_neq in Hne. rewrite Hne. unfold abs_screen. rewrite H4, H5. f_equal.
      apply page_text_eq. intros i Hi. apply H1. unfold PAGE_BYTES, FOUR_KB in *. lia.
    + destruct (Z.eqb_spec j (active_terminal s)) as [->|Hja].
      * unfold abs_screen. f_equal. apply page_text_eq. intros i Hi. rewrite H2 by (unfold PAGE_BYTES, FOUR_KB in *; lia).
        done.
      * f_equal. apply page_text_eq. intros i Hi. rewrite H2 by (unfold PAGE_BYTES, FOUR_KB in *; lia).
        done.
  - split; [by rewrite H3|]. intros k Hk.
    by destruct (switch_view s b k (Build_terms_ok s Ha Hback) Hb Hk Hne) as (_ & _ & _ & _ & _ & H & _).
  - done.
Qed.

(** Three terminals at their prompts, the first shown, for the witnesses. *)
Definition three_terminals : arr terminal_t :=
  list_to_map ((λ j, (j, mkTerminal 0 0 0 0 0 0 j 0 0 (backing j) 0 0 0)) <$> [0; 1; 2]).

Definition prompt_state : kernel :=
  upd_term (λ _, mkTerminals three_terminals 0 0) zero_kernel.

Lemma prompt_terms_ok : terms_ok prompt_state.
Proof.
  split; [cbn; lia|]. intros j Hj.
  assert (j = 0 ∨ j = 1 ∨ j = 2) as [->|[->| ->]] by lia; vm_compute; reflexivity.
Qed.

(** C24: switching terminals loses nothing: afterwards the chosen terminal is
    the active one, and the screen of each of the three terminals, text and
    cursor, is what it was, whether it is shown or kept in its backing page. *)
Theorem save_and_switch_term_correct (s : kernel) (b j : Z) :
  terms_ok s → 0 <= b < 3 → 0 <= j < 3 →
  active_terminal (save_and_switch_term b s) = b ∧ terms_ok (save_and_switch_term b s) ∧
  abs_screen (save_and_switch_term b s) = terminal_screen s b ∧
  terminal_screen (save_and_switch_term b s) j = terminal_screen s j.
Proof.
  intros Hok Hb Hj. destruct (terminal_screen_switch s b b Hok Hb Hb) as (H1 & H2 & H3).
  split_and!; [done|done| |by apply terminal_screen_switch].
  rewrite <- H1. unfold terminal_screen at 1. by rewrite H3, Z.eqb_refl.
Qed.

Lemma save_and_switch_term_correct_witness :
  terms_ok prompt_state ∧
  active_terminal (save_and_switch_term 2 prompt_state) = 2 ∧
  terminal_screen (save_and_switch_term 2 prompt_state) 0 = abs_screen prompt_state.
Proof.
  split; [exact prompt_terms_ok|].
  destruct (save_and_switch_term_correct prompt_state 2 0 prompt_terms_ok) as (H1 & _ & _ & H2); [lia|lia|].
  split; [exact H1|exact H2].
Defined.

(** ** Output to a background terminal *)

(** Nothing but terminal [n]'s page, cursor included, has changed. *)
Record background_only (n : Z) (s s' : kernel) : Prop := {
  bo_upage : upage s' = upage s;
  bo_peek : ∀ p, ¬ (backing n <= p < backing n + PAGE_BYTES) → peek s' p = peek s p;
  bo_con : k_con s' = k_con s;
  bo_dev : k_dev s' = k_dev s;
  bo_active : active_terminal s' = active_terminal s;
  bo_other : ∀ j, j ≠ n → term s' j = term s j;
  bo_backing : video_memory_storage_location (term s' n) = video_memory_storage_location (term s n);
  bo_index : buffer_index (term s' n) = buffer_index (term s n);
  bo_kbd : k_kbd s' = k_kbd s;
  bo_sched : k_sched s' = k_sched s;
  bo_cpu : k_cpu s' = k_cpu s;
}.

#[export] Instance background_only_preorder n : PreOrder (background_only n).
Proof.
  split.
  - by intros s.
  - intros s1 s2 s3 [] []. split; try congruence.
    + intros p Hp. rewrite bo_peek1 by done. by apply bo_peek0.
    + intros j Hj. rewrite bo_other1 by done. by apply bo_other0.
Qed.

(** The updates of a cursor keep the rest of the record. *)
Definition cursor_update (f : terminal_t → terminal_t) : Prop :=
  ∀ t, video_memory_storage_location (f t) = video_memory_storage_location t ∧ buffer_index (f t) = buffer_index t.

Lemma background_cursor n f s : cursor_update f → background_only n s (upd_terminal n f s).
Proof.
  intros Hf. split; try done; rewrite ?term_upd_same; try apply Hf.
  intros j Hj. by apply term_upd_other.
Qed.

Lemma background_mem n f s ch at_ :
  0 <= n < 3 → writes_cells s (f (k_mem s)) (backing n) ch at_ → background_only n s (upd_mem f s).
Proof.
  intros Hn [Hu Hp]. split; try done. intros p Hp'. cbn. rewrite Hp.
  destruct (backing_low n PAGE_BYTES Hn) as [_ ->]; [unfold PAGE_BYTES, FOUR_KB; lia|].
  by destruct (in_rangeP (backing n) (backing n + PAGE_BYTES) p).
Qed.

Create HintDb background discriminated.
#[export] Hint Resolve background_cursor : background.
#[export] Hint Extern 1 (cursor_update _) => (intros ?; split; reflexivity) : background.

Lemma backing_seg n : 0 <= n < 3 → seg (backing n) PAGE_BYTES.
Proof. intros Hn. apply backing_low; [done|]. unfold PAGE_BYTES, FOUR_KB. lia. Qed.

Lemma background_put n c s :
  terms_ok s → 0 <= n < 3 → 0 <= NUM_COLS * y_position (term s n) + x_position (term s n) < CELLS →
  background_only n s (active_terminal_put n c s) ∧
  page_text (active_terminal_put n c s) (backing n) =
    <[Z.to_nat (NUM_COLS * y_position (term s n) + x_position (term s n)) := u8 c]> (page_text s (backing n)).
Proof.
  intros [_ Hb] Hn Hk. unfold active_terminal_put. rewrite (Hb n Hn).
  pose proof (put_cell_writes s s (backing n) _ _ _ c (writes_cells_self s (backing n) (backing_seg n Hn))
    (backing_seg n Hn) Hk) as Hw.
  split; [by eapply background_mem|].
  etransitivity; [exact (page_text_writes s _ _ _ _ Hw (backing_seg n Hn))|]. by apply page_text_put.
Qed.

Lemma background_scroll n s :
  terms_ok s → 0 <= n < 3 → background_only n s (active_terminal_scroll_up n s).
Proof.
  intros [Ha Hb] Hn. unfold active_terminal_scroll_up.
  set (s1 := upd_mem (scroll_rows _ _) s). 
  assert (Hs1 : video_memory_storage_location (term s1 n) = backing n) by apply (Hb n Hn).
  rewrite Hs1. subst s1. rewrite (Hb n Hn), (Hb _ Ha).
  set (a := active_terminal s) in *.
  assert (Hsrc : scroll_source s (backing n) (backing a)).
  { destruct (decide (n = a)) as [->|Hne]; [by left|right].
    destruct (backing_low n PAGE_BYTES Hn) as [_ Pn]; [unfold PAGE_BYTES, FOUR_KB; lia|].
    destruct (backing_low a PAGE_BYTES Ha) as [Sa Pa]; [unfold PAGE_BYTES, FOUR_KB; lia|].
    split; [done|]. unfold apart. rewrite Pn, Pa. unfold backing, PAGE_BYTES, FOUR_KB. lia. }
  pose proof (scroll_writes s (backing n) (backing a) (backing_seg n Hn) Hsrc) as Hw.
  transitivity (upd_mem (blank_bottom (backing n)) (upd_mem (scroll_rows (backing n) (backing a)) s)).
  - rewrite upd_mem_comp. by eapply background_mem.
  - etransitivity; [|apply background_cursor; auto with background].
    apply background_cursor; auto with background.
Qed.

Lemma terms_ok_background n s s' : 0 <= n < 3 → terms_ok s → background_only n s s' → terms_ok s'.
Proof.
  intros Hn [Ha Hb] []. split; [by rewrite bo_active0|]. intros j Hj.
  destruct (decide (j = n)) as [->|Hne]; [rewrite bo_backing0|rewrite bo_other0 by done]; by apply Hb.
Qed.

(** The line break of the handlers. *)
Lemma background_newline n f g s :
  cursor_update f → cursor_update g → terms_ok s → 0 <= n < 3 →
  let s1 := upd_terminal n f (upd_terminal n g s) in
  background_only n s (if y_position (term s1 n) =? NUM_ROWS then active_terminal_scroll_up n s1 else s1).
Proof.
  intros Hf Hg Hok Hn s1.
  assert (H1 : background_only n s s1) by
    (transitivity (upd_terminal n g s); apply background_cursor; auto with background).
  destruct (_ =? _); [|done]. transitivity s1; [done|].
  apply background_scroll; [by apply (terms_ok_background n s)|done].
Qed.

(** The cursor kept for a terminal is on its page. *)
Definition pos_ok (s : kernel) (n : Z) : Prop :=
  0 <= x_position (term s n) < NUM_COLS ∧ 0 <= y_position (term s n) < NUM_ROWS.

Lemma pos_cell s n : pos_ok s n → 0 <= NUM_COLS * y_position (term s n) + x_position (term s n) < CELLS.
Proof. unfold pos_ok, NUM_COLS, NUM_ROWS, CELLS. lia. Qed.

Lemma background_putc n c s :
  terms_ok s → 0 <= n < 3 → pos_ok s n →
  ¬ (u8 c = BSP ∧ x_position (term s n) = 0 ∧ y_position (term s n) = 0) →
  background_only n s (active_terminal_putc n c s).
Proof.
  intros Hok Hn Hpos Hbs. unfold active_terminal_putc.
  destruct ((u8 c =? NL) || (u8 c =? CR)); [apply background_newline; auto with background|].
  destruct (u8 c =? TABC).
  { unfold active_terminal_handle_tab. destruct (_ <? _);
      [apply background_cursor|apply background_newline]; auto with background. }
  destruct (Z.eqb_spec (u8 c) BSP) as [Hc|Hc].
  - unfold active_terminal_handle_backspace. set (s1 := if 0 <? _ then _ else _).
    assert (H1 : background_only n s s1 ∧ 0 <= NUM_COLS * y_position (term s1 n) + x_position (term s1 n) < CELLS).
    { pose proof (pos_cell s n Hpos) as Hk. destruct Hpos as [Hx Hy]. subst s1.
      destruct (Z.ltb_spec 0 (x_position (term s n))); [|destruct (Z.ltb_spec 0 (screen_y s))].
      - split; [apply background_cursor; auto with background|]. rewrite term_upd_same. cbn.
        unfold NUM_COLS, NUM_ROWS, CELLS in *. lia.
      - split.
        + etransitivity; [|apply background_cursor; auto with background].
          apply background_cursor; auto with background.
        + assert (y_position (term s n) ≠ 0) by (intros Hy0; apply Hbs; split_and!; [done|lia|done]).
          rewrite !term_upd_same. cbn. unfold NUM_COLS, NUM_ROWS, CELLS in *. lia.
      - split; [done|lia]. }
    destruct H1 as [H1 Hk]. transitivity s1; [done|].
    apply background_put; [by apply (terms_ok_background n s)|done|done].
  - unfold active_terminal_handle_normal_char.
    destruct (background_put n (u8 c) s Hok Hn (pos_cell s n Hpos)) as [H1 _].
    transitivity (active_terminal_put n (u8 c) s); [done|].
    destruct (_ =? _); [|apply background_cursor; auto with background].
    apply background_newline; auto with background. by apply (terms_ok_background n s).
Qed.

(** ** Who sees what is written *)

Lemma page_text_peek s s' a :
  upage s' = upage s → 0 <= a → a + PAGE_BYTES <= PROGRAM_PAGE →
  (∀ p, a <= p < a + PAGE_BYTES → peek s' p = peek s p) → page_text s' a = page_text s a.
Proof.
  intros Hu Ha He Hp. apply page_text_eq. intros i Hi. unfold ld8.
  rewrite (phys_upage s s') by done. rewrite phys_kernel by lia. apply Hp. lia.
Qed.

Lemma background_screens n s s' j :
  terms_ok s → 0 <= n < 3 → n ≠ active_terminal s → background_only n s s' →
  abs_screen s' = abs_screen s ∧ (0 <= j < 3 → j ≠ n → terminal_screen s' j = terminal_screen s j).
Proof.
  intros [Ha Hb] Hn Hne [].
  assert (Hv : abs_screen s' = abs_screen s).
  { unfold abs_screen. rewrite bo_con0. f_equal. apply page_text_peek; [done|unfold VIDEO; lia| |].
    - unfold VIDEO, PAGE_BYTES, PROGRAM_PAGE. lia.
    - intros p Hp. apply bo_peek0. unfold backing, VIDEO, FOUR_KB, PAGE_BYTES in *. lia. }
  split; [done|]. intros Hj Hjn. unfold terminal_screen. rewrite bo_active0.
  destruct (Z.eqb_spec j (active_terminal s)); [done|].
  rewrite bo_other0, (Hb j Hj) by done. f_equal. apply page_text_peek; [done| | |].
  - unfold backing, VIDEO, FOUR_KB. lia.
  - unfold backing, VIDEO, FOUR_KB, PAGE_BYTES, PROGRAM_PAGE. lia.
  - intros p Hp. apply bo_peek0. unfold backing, FOUR_KB, PAGE_BYTES in *. lia.
Qed.


Definition background_state : kernel := upd_sched (λ _, mkSched 3 1 1) prompt_state.

Lemma background_terms_ok : terms_ok background_state.
Proof. destruct prompt_terms_ok as [H1 H2]. split; [exact H1|exact H2]. Qed.


(** a character written by the terminal that is shown goes to the visible
    screen, as [scr_putc] says, and no backing page sees it. *)
Theorem visible_write_correct (c : Z) (s : kernel) :
  terms_ok s → cursor_ok s → c ≠ 0 →
  (current_running_process_count s < 3 ∨ next_terminal_in_schedule s = active_terminal s) →
  abs_screen (write_char c s) = scr_putc (u8 c) (abs_screen s) ∧
  ∀ j, 0 <= j < 3 → j ≠ active_terminal s → terminal_screen (write_char c s) j = terminal_screen s j.
Proof.
  intros [Ha Hb] Hc Hnz Hv. unfold write_char. apply Z.eqb_neq in Hnz as ->.
  assert ((current_running_process_count s <? 3) || (next_terminal_in_schedule s =? active_terminal s) = true) as ->.
  { apply orb_true_iff. rewrite Z.ltb_lt, Z.eqb_eq. done. }
  destruct (putc_spec c s Hc) as (Ho & Hs & _). split; [done|]. intros j Hj Hja.
  destruct Ho. unfold terminal_screen, term. rewrite co_term.
  apply Z.eqb_neq in Hja as ->. f_equal. change (terminal s !!! j) with (term s j). rewrite (Hb j Hj).
  apply page_text_peek; [done| | |].
  - unfold backing, VIDEO, FOUR_KB. lia.
  - unfold backing, VIDEO, FOUR_KB, PAGE_BYTES, PROGRAM_PAGE. lia.
  - intros p Hp. apply co_peek. unfold backing, FOUR_KB, PAGE_BYTES in *. lia.
Qed.

Lemma visible_write_correct_witness :
  terms_ok prompt_state ∧
  abs_screen (write_char 65 prompt_state) = scr_putc 65 (abs_screen prompt_state) ∧
  terminal_screen (write_char 65 prompt_state) 1 = terminal_screen prompt_state 1.
Proof.
  split; [exact prompt_terms_ok|].
  destruct (visible_write_correct 65 prompt_state) as [H1 H2];
    [exact prompt_terms_ok|by vm_compute|done|by left|].
  split; [exact H1|]. apply H2; [lia|by vm_compute].
Defined.

(** the line end of a background terminal is tested on the cursor of the
    screen: a character written at column 79 of its page while the screen's
    cursor is elsewhere leaves the column at 80, off the page's row. *)
Theorem background_column_overrun (c n : Z) (s : kernel) :
  u8 c ≠ NL → u8 c ≠ CR → u8 c ≠ TABC → u8 c ≠ BSP →
  x_position (term s n) = NUM_COLS - 1 → screen_x s ≠ NUM_COLS - 1 →
  x_position (term (active_terminal_putc n c s) n) = NUM_COLS.
Proof.
  intros H1 H2 H3 H4 Hx Hs. unfold active_terminal_putc.
  apply Z.eqb_neq in H1, H2, H3, H4, Hs. rewrite H1, H2, H3, H4. cbn [orb].
  unfold active_terminal_handle_normal_char.
  change (screen_x (active_terminal_put n (u8 c) s)) with (screen_x s). rewrite Hs, term_upd_same.
  change (term (active_terminal_put n (u8 c) s)) with (term s). cbn. rewrite Hx. done.
Qed.

Lemma background_column_overrun_witness :
  let s := upd_terminal 1 (set_x_position 79) background_state in
  x_position (term s 1) = 79 ∧ x_position (term (active_terminal_putc 1 65 s) 1) = 80.
Proof.
  intros s. split; [by vm_compute|]. apply (background_column_overrun 65 1 s); by vm_compute.
Defined.

(** ** Reading a line *)

Section ReadFacts.
Context {L : Layout} {HL : LayoutOK L}.

Lemma keyboard_buffer_kernel j :
  0 <= j < 3 → KERNEL_START <= keyboard_buffer j 0 ∧ keyboard_buffer j 0 + 128 <= KERNEL_END.
Proof using HL.
  intros Hj. pose proof (obj_bounds 0 _ eq_refl) as Hb. cbn [fst snd] in Hb.
  unfold keyboard_buffer, KERNEL_START, KERNEL_END in *. lia.
Qed.

Lemma keyboard_buffer_add j i : keyboard_buffer j i = keyboard_buffer j 0 + i.
Proof. unfold keyboard_buffer. lia. Qed.

(** The copy of the line, its newline and its NUL. *)
Lemma read_line_writes (m : memory) a buffer n :
  0 <= a < 3 → 0 <= n <= BUFF_SIZE → seg buffer (n + 2) → apart m buffer (n + 2) (keyboard_buffer a 0) 128 →
  writes m (st8 (st8 (for_up (Z.to_nat n) 0 (λ i m, st8 m (buffer + i) (ld8 m (keyboard_buffer a i))) m)
              (buffer + n) NL) (buffer + (n + 1)) 0)
    buffer (n + 2) (λ i, if i =? n + 1 then 0 else if i =? n then NL else ld8 m (keyboard_buffer a i)).
Proof using HL.
  intros Ha Hn Hs Hap. pose proof (keyboard_buffer_kernel a Ha) as Hk.
  unfold KERNEL_START, KERNEL_END, BUFF_SIZE in *.
  assert (Hcopy : writes m (for_up (Z.to_nat n) 0 (λ i m, st8 m (buffer + i) (ld8 m (keyboard_buffer a i))) m)
    buffer n (λ i, ld8 m (keyboard_buffer a i))).
  { replace n with (0 + Z.of_nat (Z.to_nat n)) at 2 by lia.
    apply (for_up_ind (λ i m1, writes m m1 buffer i (λ i, ld8 m (keyboard_buffer a i)))); [apply writes_nil|].
    intros i m1 Hi Hw. eapply writes_ext; [|apply writes_snoc; [exact Hw| |lia]].
    - intros k Hk'. cbn beta. rewrite u8_small by apply ld8_range.
      destruct (Z.eqb_spec k i) as [->|]; [|done]. rewrite (keyboard_buffer_add a i).
      apply (writes_apart _ _ _ _ _ (keyboard_buffer a 0) 128 i Hw);
        [unfold apart in *; lia|apply seg_kernel; unfold PROGRAM_PAGE; lia|lia].
    - apply (seg_shorter _ (n + 2)); [done|lia]. }
  set (m1 := for_up _ _ _ _) in *. clearbody m1.
  assert (H2 : writes m (st8 m1 (buffer + n) NL) buffer (n + 1)
    (λ i, if i =? n then NL else ld8 m (keyboard_buffer a i))).
  { apply writes_snoc; [done|apply (seg_shorter _ (n + 2)); [done|lia]|lia]. }
  replace (n + 2) with ((n + 1) + 1) at 1 by lia.
  apply (writes_snoc _ _ _ _ _ 0 H2); [|lia]. by replace (n + 1 + 1) with (n + 2) by lia.
Qed.

Lemma terminal_read_run s fd buffer nbytes :
  let a := active_terminal s in let n := read_index (term s a) in
  0 <= a < 3 → u32 buffer ≠ 0 → 0 < nbytes → read_flag (term s a) = 1 → 0 <= n <= BUFF_SIZE →
  seg buffer (n + 2) → apart s buffer (n + 2) (keyboard_buffer a 0) 128 →
  ∃ s', terminal_read fd buffer nbytes s = Ret (n + 1) s' ∧
    writes s s' buffer (n + 2) (λ i, if i =? n + 1 then 0 else if i =? n then NL else ld8 s (keyboard_buffer a i)) ∧
    read_flag (term s' a) = 0 ∧
    s' = upd_terminal a (λ t, set_read_flag 0 (set_read_index (read_index t + 1) t)) (upd_mem (λ _, k_mem s') s).
Proof using HL.
  intros a n Ha Hb Hnb Hfl Hn Hs Hap.
  pose proof (read_line_writes s a buffer n Ha Hn Hs Hap) as Hw.
  unfold terminal_read. apply Z.eqb_neq in Hb. rewrite Hb.
  destruct (Z.ltb_spec nbytes 0), (Z.eqb_spec nbytes 0); try lia. cbn [orb].
  unfold mbind, M_bind, gets. fold a. rewrite Hfl. cbn [Z.eqb Pos.eqb negb].
  unfold modify. fold n. 
  set (s1 := upd_mem (for_up _ _ _) s). set (s2 := upd_mem _ s1).
  set (s3 := upd_terminal a _ s2).
  assert (Hr : read_index (term s3 a) = n + 1) by (subst s3; by rewrite term_upd_same).
  rewrite Hr. set (s4 := upd_mem _ s3).
  assert (Hr2 : read_index (term (upd_terminal a (set_read_flag 0) s4) a) = n + 1).
  { rewrite term_upd_same. exact Hr. }
  rewrite Hr2. eexists. split; [done|]. split; [exact Hw|]. split; [by rewrite term_upd_same|].
  change (upd_terminal a (set_read_flag 0) s4) with
    (upd_terminal a (set_read_flag 0) (upd_terminal a (λ t, set_read_index (read_index t + 1) t) (upd_mem (λ _, k_mem s4) s))).
  by rewrite upd_terminal_twice.
Qed.
End ReadFacts.

(** ** Opening the driver *)

Section OpenFacts.
Context {L : Layout} {HL : LayoutOK L}.

(** The record of a terminal once opened; the process numbers are kept. *)
Definition opened_terminal (j : Z) (t : terminal_t) : terminal_t :=
  mkTerminal 0 0 0 0 0 (shell_process_num t) (process_num t) (previous_process_num t) 0 (backing j) 0 0 0.

(** An empty terminal: no screen, no line. *)
Definition empty_terminal (m : memory) (j : Z) : Prop :=
  page_text m (backing j) = replicate 2000 SPACE ∧ ∀ i, 0 <= i < 128 → ld8 m (keyboard_buffer j i) = 0.

Definition terminal_objects (j : Z) : list (Z * Z) := [(keyboard_buffer j 0, 128); (backing j, PAGE_BYTES)].

Lemma terminal_open_memory (j : Z) (m : memory) :
  0 <= j < 3 →
  let m' := clear_page (backing j) (for_up (Z.to_nat BUFF_SIZE) 0 (λ i m, st8 m (keyboard_buffer j i) 0) m) in
  changes (terminal_objects j) m m' ∧ empty_terminal m' j.
Proof using HL.
  intros Hj. pose proof (keyboard_buffer_kernel j Hj) as Hk. unfold KERNEL_START, KERNEL_END in *.
  destruct (backing_low j PAGE_BYTES Hj ltac:(done)) as [Sb Pb].
  assert (Pk : ∀ m, phys m (keyboard_buffer j 0) = keyboard_buffer j 0) by (intros; apply phys_kernel; unfold PROGRAM_PAGE; lia).
  assert (Hz : writes m (for_up (Z.to_nat BUFF_SIZE) 0 (λ i m, st8 m (keyboard_buffer j i) 0) m) (keyboard_buffer j 0) 128 (λ _, 0)).
  { replace (keyboard_buffer j 0) with (terminal_addr + 180 * j + 8) in * by (unfold keyboard_buffer; lia).
    apply (zero_loop m (terminal_addr + 180 * j + 8) 128); unfold PROGRAM_PAGE; lia. }
  cbv zeta. set (m1 := for_up _ _ _ m) in *. clearbody m1. set (m' := clear_page _ _).
  pose proof (clear_page_writes m1 (backing j) Sb) as Hc. fold m' in Hc. clearbody m'. split; [|split].
  - apply (changes_trans _ _ m1).
    + apply (changes_writes _ _ _ _ _ _ _ Hz (Pk m)). constructor.
    + apply (changes_writes _ _ _ _ _ _ _ Hc (Pb m1)). do 2 constructor.
  - rewrite (page_text_writes _ _ _ _ _ Hc Sb). by vm_compute.
  - intros i Hi. rewrite keyboard_buffer_add.
    rewrite (writes_apart _ _ _ _ _ (keyboard_buffer j 0) 128 i Hc); [|..|lia].
    + by apply (writes_at _ _ _ _ _ i Hz); [apply seg_kernel; unfold PROGRAM_PAGE; lia|].
    + unfold apart. rewrite Pb, Pk. unfold backing, PAGE_BYTES, VIDEO, FOUR_KB. lia.
    + apply seg_kernel; unfold PROGRAM_PAGE; lia.
Qed.

Lemma term_upd_mem f s k : term (upd_mem f s) k = term s k.
Proof. done. Qed.

Lemma empty_terminal_frame j k m m' :
  0 <= j < 3 → 0 <= k < 3 → j ≠ k → changes (terminal_objects k) m m' → empty_terminal m j → empty_terminal m' j.
Proof using HL.
  intros Hj Hk Hne Hc [H1 H2]. pose proof (keyboard_buffer_kernel j Hj) as Bj. pose proof (keyboard_buffer_kernel k Hk) as Bk.
  unfold terminal_objects, keyboard_buffer, KERNEL_START, KERNEL_END, backing, VIDEO, FOUR_KB, PAGE_BYTES in *.
  split; [rewrite <- H1; apply page_text_eq|intros i Hi; rewrite <- (H2 i Hi)];
    unfold PAGE_BYTES; intros; eapply (changes_byte _ _ _ _ Hc);
    unfold keyboard_buffer, backing, VIDEO, FOUR_KB, PAGE_BYTES in *;
    (rewrite phys_kernel by (unfold PROGRAM_PAGE; lia)); each_segment.
Qed.

(** All but the memory and the terminals' records. *)
Record driver_only (s s' : kernel) : Prop := {
  do_con : k_con s' = k_con s;
  do_dev : k_dev s' = k_dev s;
  do_active : active_terminal s' = active_terminal s;
  do_visible : is_visible s' = is_visible s;
  do_kbd : k_kbd s' = k_kbd s;
  do_sched : k_sched s' = k_sched s;
  do_pic : k_pic s' = k_pic s;
  do_rtc : k_rtc s' = k_rtc s;
  do_fs : k_fs s' = k_fs s;
  do_proc : k_proc s' = k_proc s;
  do_paging : k_paging s' = k_paging s;
  do_cpu : k_cpu s' = k_cpu s;
  do_desc : k_desc s' = k_desc s;
}.

Lemma terminal_open_one_spec j s :
  0 <= j < 3 →
  let s' := terminal_open_one j s in
  changes (terminal_objects j) s s' ∧ empty_terminal s' j ∧ driver_only s s' ∧
  ∀ k, term s' k = if j =? k then opened_terminal j (term s k) else term s k.
Proof using HL.
  intros Hj s'.
  assert (Hmem : k_mem s' = clear_page (backing j) (for_up (Z.to_nat BUFF_SIZE) 0 (λ i m, st8 m (keyboard_buffer j i) 0) s)).
  { unfold s', terminal_open_one. cbv zeta. rewrite term_upd_mem. by rewrite !term_upd_same. }
  destruct (terminal_open_memory j s Hj) as [H1 H2]. rewrite Hmem. split; [exact H1|]. split; [exact H2|].
  split; [by split|]. intros k. unfold s', terminal_open_one. cbv zeta.
  repeat (rewrite term_upd || rewrite term_upd_mem). destruct (Z.eqb_spec j k) as [->|]; [|done]. by rewrite Z.eqb_refl.
Qed.

(** [terminal_open] leaves three empty terminals and touches nothing else. *)
Lemma terminal_open_run filename s :
  ∃ s', terminal_open filename s = Ret 0 s' ∧
    changes [(terminal_addr, 540); (backing 0, 3 * FOUR_KB)] s s' ∧ driver_only s s' ∧
    ∀ j, 0 <= j < 3 → empty_terminal s' j ∧ term s' j = opened_terminal j (term s j).
Proof using HL.
  pose proof (terminal_open_one_spec 0 s ltac:(lia)) as H0. set (s0 := terminal_open_one 0 s) in *.
  pose proof (terminal_open_one_spec 1 s0 ltac:(lia)) as H1. set (s1 := terminal_open_one 1 s0) in *.
  pose proof (terminal_open_one_spec 2 s1 ltac:(lia)) as H2. set (s2 := terminal_open_one 2 s1) in *.
  exists s2. split; [done|]. clearbody s2. clearbody s1. clearbody s0.
  destruct H0 as (C0 & E0 & [] & T0), H1 as (C1 & E1 & [] & T1), H2 as (C2 & E2 & [] & T2).
  split; [|split; [split; congruence|]].
  - assert (Ho : ∀ j m m', 0 <= j < 3 → changes (terminal_objects j) m m' →
      changes [(terminal_addr, 540); (backing 0, 3 * FOUR_KB)] m m').
    { intros j m m' Hj [Hu Hp]. split; [done|]. intros p Hout. apply Hp.
      inversion_clear Hout as [|? ? O1 Hout']. inversion_clear Hout' as [|? ? O2 _].
      unfold terminal_objects, keyboard_buffer, backing, PAGE_BYTES, FOUR_KB in *. cbn [fst snd] in *. each_segment. }
    apply (changes_trans _ _ s1); [apply (changes_trans _ _ s0)|]; by eapply Ho; [|eassumption].
  - intros j Hj. assert (j = 0 ∨ j = 1 ∨ j = 2) as [->|[->| ->]] by lia; (split; [|by rewrite T2, T1, T0]).
    + by apply (empty_terminal_frame 0 2 s1), (empty_terminal_frame 0 1 s0).
    + by apply (empty_terminal_frame 1 2 s1).
    + done.
Qed.
End OpenFacts.

(** when a line is ready, [terminal_read] returns its length plus one and
    leaves in the caller's buffer exactly the line, a newline and a NUL (the
    count asked for only has to be positive), and consumes the line; nothing but
    the buffer and that terminal's flag and index changes; before a line is
    ready it waits without touching the machine. *)
Theorem terminal_read_correct {L : Layout} {HL : LayoutOK L} (s : kernel) (fd buffer nbytes : Z) :
  let a := active_terminal s in let n := read_index (term s a) in
  0 <= a < 3 → u32 buffer ≠ 0 → 0 < nbytes → 0 <= n <= BUFF_SIZE →
  seg buffer (n + 2) → apart s buffer (n + 2) (keyboard_buffer a 0) 128 →
  if read_flag (term s a) =? 1 then
    ∃ s', terminal_read fd buffer nbytes s = Ret (n + 1) s' ∧
      writes s s' buffer (n + 2) (λ i, if i =? n + 1 then 0 else if i =? n then NL else ld8 s (keyboard_buffer a i)) ∧
      read_flag (term s' a) = 0 ∧
      s' = upd_terminal a (λ t, set_read_flag 0 (set_read_index (read_index t + 1) t)) (upd_mem (λ _, k_mem s') s)
  else terminal_read fd buffer nbytes s = Block s.
Proof.
  intros a n Ha Hb Hnb Hn Hs Hap. destruct (Z.eqb_spec (read_flag (term s a)) 1) as [Hf|Hf].
  - by apply terminal_read_run.
  - unfold terminal_read. apply Z.eqb_neq in Hb, Hf. rewrite Hb.
    destruct (Z.ltb_spec nbytes 0), (Z.eqb_spec nbytes 0); try lia. cbn [orb].
    unfold mbind, M_bind, gets. fold a. by rewrite Hf.
Qed.

(** A line of three characters is waiting at the first terminal. *)
Lemma terminal_read_correct_witness :
  let s := upd_terminal 0 (λ t, set_read_flag 1 (set_read_index 3 t)) prompt_state in
  read_flag (term s 0) = 1 ∧
  ∃ s', terminal_read (L := example_layout) 0 0x8048000 1024 s = Ret 4 s' ∧ read_flag (term s' 0) = 0.
Proof.
  intros s. split; [by vm_compute|].
  pose proof (terminal_read_correct (L := example_layout) s 0 0x8048000 1024) as H. cbv zeta in H.
  change (active_terminal s) with 0 in H.
  replace (read_flag (term s 0)) with 1 in H by (by vm_compute).
  replace (read_index (term s 0)) with 3 in H by (by vm_compute).
  destruct H as (s' & He & _ & Hf); [lia|by vm_compute|lia|unfold BUFF_SIZE; lia|closed_segment| |].
  { left. vm_compute. congruence. }
  exists s'. split; [exact He|exact (proj1 Hf)].
Defined.
