(* ===== verification/Keyboard.v ===== *)
(** * The keyboard driver: keyboard.c

    The four scan code tables, the interrupt handler, and what typing does to
    the active terminal. *)

From S2P Require Import Prelude Memory LibMem LibStr Video State Console Pic Terminal.

Implicit Types s : kernel.

Definition keyboard_IRQ : Z := 1.
Definition keyboard_port_address : Z := 0x60.
Definition keyboard_max_buffer_size : Z := 128.
Definition INACTIVE : Z := 0.
Definition ACTIVE : Z := 1.

Definition CTRL_DOWN : Z := 29.
Definition CTRL_RELEASE : Z := 157.
Definition RSHIFT_DOWN : Z := 54.
Definition RSHIFT_RELEASE : Z := 182.
Definition LSHIFT_DOWN : Z := 42.
Definition LSHIFT_RELEASE : Z := 170.
Definition ALT_DOWN : Z := 56.
Definition ALT_RELEASE : Z := 184.
Definition ENTER : Z := 28.
Definition TAB : Z := 15.
Definition BACKSPACE : Z := 14.
Definition CAPS_LOCK : Z := 58.
Definition UP : Z := 72.
Definition DOWN : Z := 80.
Definition LEFT : Z := 75.
Definition RIGHT : Z := 77.
Definition F1 : Z := 59.
Definition F2 : Z := 60.
Definition F3 : Z := 61.
Definition UNKNOWN : Z := 0.

(** ** The tables *)

(** From the right shift key on, the four tables agree. *)
Definition keypad_codes : list Z :=
  [0; 42; 0; 32; 0] ++ replicate 10 0 ++ [0; 0; 0; 0; 0; 45; 0; 0; 0; 43; 0; 0; 0; 0; 0] ++ replicate 44 0.

Definition keyboard_scancode_regular : list Z :=
  [0; 27] ++ bytes_of "1234567890-=" ++ [8; 9] ++
  bytes_of "qwertyuiop[]" ++ [10; 0] ++ bytes_of "asdfghjkl;'`" ++ [0] ++
  bytes_of "\zxcvbnm,./" ++ keypad_codes.

Definition keyboard_scancode_shift : list Z :=
  [0; 27] ++ bytes_of "!@#$%^&*()_+" ++ [8; 9] ++
  bytes_of "QWERTYUIOP{}" ++ [10; 0] ++ bytes_of "ASDFGHJKL:" ++ [34] ++ bytes_of "~" ++ [0] ++
  bytes_of "|ZXCVBNM<>?" ++ keypad_codes.

Definition keyboard_scancode_caps : list Z :=
  [0; 27] ++ bytes_of "1234567890-=" ++ [8; 9] ++
  bytes_of "QWERTYUIOP[]" ++ [10; 0] ++ bytes_of "ASDFGHJKL;'`" ++ [0] ++
  bytes_of "\ZXCVBNM,./" ++ keypad_codes.

Definition keyboard_scancode_shift_and_caps : list Z :=
  [0; 27] ++ bytes_of "!@#$%^&*()_+" ++ [8; 9] ++
  bytes_of "qwertyuiop{}" ++ [10; 0] ++ bytes_of "asdfghjkl:" ++ [34] ++ bytes_of "~" ++ [0] ++
  bytes_of "|zxcvbnm<>?" ++ keypad_codes.

Definition code_char (table : list Z) (code : Z) : Z := nth (Z.to_nat code) table 0.

(** [unsigned char keypress_handler(int)] *)
Definition keypress_handler (keypress : Z) (s : kernel) : Z :=
  let shift := negb (SHIFT_STATUS s =? 0) in
  let caps := negb (CAPS_STATUS s =? 0) in
  if (0 <? keypress) && (keypress <? keyboard_max_buffer_size) then
    if shift && negb caps then code_char keyboard_scancode_shift keypress
    else if negb shift && caps then code_char keyboard_scancode_caps keypress
    else if shift && caps then code_char keyboard_scancode_shift_and_caps keypress
    else code_char keyboard_scancode_regular keypress
  else 0.

(** ** State updates *)

Definition set_shift (v : Z) (s : kernel) : kernel :=
  upd_kbd (λ k, mkKeyboard v (ALT_STATUS k) (CAPS_STATUS k) (CTRL_STATUS k)
                  (left_right_cursor_counter k) (left_right_cursor_offsetter k)) s.
Definition set_alt (v : Z) (s : kernel) : kernel :=
  upd_kbd (λ k, mkKeyboard (SHIFT_STATUS k) v (CAPS_STATUS k) (CTRL_STATUS k)
                  (left_right_cursor_counter k) (left_right_cursor_offsetter k)) s.
Definition set_caps (v : Z) (s : kernel) : kernel :=
  upd_kbd (λ k, mkKeyboard (SHIFT_STATUS k) (ALT_STATUS k) v (CTRL_STATUS k)
                  (left_right_cursor_counter k) (left_right_cursor_offsetter k)) s.
Definition set_ctrl (v : Z) (s : kernel) : kernel :=
  upd_kbd (λ k, mkKeyboard (SHIFT_STATUS k) (ALT_STATUS k) (CAPS_STATUS k) v
                  (left_right_cursor_counter k) (left_right_cursor_offsetter k)) s.
Definition set_counter (v : Z) (s : kernel) : kernel :=
  upd_kbd (λ k, mkKeyboard (SHIFT_STATUS k) (ALT_STATUS k) (CAPS_STATUS k) (CTRL_STATUS k)
                  v (left_right_cursor_offsetter k)) s.
Definition set_offsetter (v : Z) (s : kernel) : kernel :=
  upd_kbd (λ k, mkKeyboard (SHIFT_STATUS k) (ALT_STATUS k) (CAPS_STATUS k) (CTRL_STATUS k)
                  (left_right_cursor_counter k) v) s.

(** [terminal[active_terminal].field = v] *)
Definition upd_active (f : terminal_t → terminal_t) (s : kernel) : kernel :=
  upd_terminal (active_terminal s) f s.
Definition active (s : kernel) : terminal_t := term s (active_terminal s).

(** ** The cases of the handler *)

Definition key_enter (s : kernel) : kernel :=
  let s := putc NL s in
  let s := upd_active (set_read_index (buffer_index (active s))) s in
  let s := upd_active (set_read_flag 1) s in
  let s := upd_active (set_buffer_index 0) s in
  set_offsetter 0 (set_counter 0 s).

Definition key_backspace (s : kernel) : kernel :=
  let s := if buffer_index (active s) <? 0 then upd_active (set_buffer_index 0) s else s in
  if 0 <? buffer_index (active s) then
    let s := putc BSP s in
    let s := upd_active (set_buffer_index (buffer_index (active s) - 1)) s in
    set_offsetter (left_right_cursor_offsetter s + 1) s
  else s.

Definition key_left (s : kernel) : kernel :=
  if buffer_index (active s) <=? 0 then s
  else
    let s := if left_right_cursor_counter s <? buffer_index (active s)
             then set_counter (buffer_index (active s)) s else s in
    let s := upd_active (set_buffer_index (buffer_index (active s) - 1)) s in
    let s := set_screen_x (screen_x s - 1) s in
    update_cursor (screen_x s) (screen_y s) s.

Definition key_right (s : kernel) : kernel :=
  if Z.rem (left_right_cursor_counter s + left_right_cursor_offsetter s) NUM_COLS <=? screen_x s then s
  else
    let s := if 0 <? left_right_cursor_offsetter s
             then set_offsetter (left_right_cursor_offsetter s - 1) s else s in
    let s := upd_active (set_buffer_index (buffer_index (active s) + 1)) s in
    let s := set_screen_x (screen_x s + 1) s in
    update_cursor (screen_x s) (screen_y s) s.

(** Alt and a function key. *)
Definition key_switch (code : Z) (s : kernel) : kernel :=
  if ALT_STATUS s =? ACTIVE then
    if code =? F1 then set_active_terminal 0 (save_and_switch_term 0 (set_is_visible 0 s))
    else if code =? F2 then set_active_terminal 1 (save_and_switch_term 1 (set_is_visible 1 s))
    else if code =? F3 then set_active_terminal 2 (save_and_switch_term 2 (set_is_visible 2 s))
    else s
  else s.

Section Handler.
Context {L : Layout}.

Definition key_default (code : Z) : M unit :=
  _ ← modify (key_switch code);
  pressed_char ← gets (keypress_handler code);
  if pressed_char =? 0 then mret tt
  else
    ctrl ← gets (λ s, CTRL_STATUS s);
    if negb (ctrl =? 0) && ((pressed_char =? 108) || (pressed_char =? 76)) then modify clear
    else
      i ← gets (λ s, buffer_index (active s));
      if i <? keyboard_max_buffer_size then
        p ← gets (λ s, keyboard_buffer (active_terminal s) i);
        _ ← modify (store8 p pressed_char);
        _ ← terminal_write 0 p 1;
        modify (λ s, upd_active (set_buffer_index (buffer_index (active s) + 1)) s)
      else mret tt.

Definition key_dispatch (code : Z) : M unit :=
  if code =? CTRL_DOWN then modify (set_ctrl ACTIVE)
  else if code =? CTRL_RELEASE then modify (set_ctrl INACTIVE)
  else if code =? RSHIFT_DOWN then modify (set_shift ACTIVE)
  else if code =? RSHIFT_RELEASE then modify (set_shift INACTIVE)
  else if code =? LSHIFT_DOWN then modify (set_shift ACTIVE)
  else if code =? LSHIFT_RELEASE then modify (set_shift INACTIVE)
  else if code =? ALT_DOWN then modify (set_alt ACTIVE)
  else if code =? ALT_RELEASE then modify (set_alt INACTIVE)
  else if code =? CAPS_LOCK then
    modify (λ s, if CAPS_STATUS s =? INACTIVE then set_caps ACTIVE s else set_caps INACTIVE s)
  else if code =? ENTER then modify key_enter
  else if code =? TAB then modify (putc TABC)
  else if code =? BACKSPACE then modify key_backspace
  else if code =? UP then mret tt
  else if code =? DOWN then mret tt
  else if code =? LEFT then modify key_left
  else if code =? RIGHT then modify key_right
  else if code =? UNKNOWN then mret tt
  else key_default code.

Definition keyboard_handler : M unit :=
  _ ← modify cli;
  _ ← send_eoi keyboard_IRQ;
  keypress_scancode ← gets (inb keyboard_port_address);
  _ ← key_dispatch keypress_scancode;
  modify sti.

Definition keyboard_initialize : M unit :=
  _ ← enable_irq keyboard_IRQ;
  _ ← terminal_open 0;
  _ ← modify (set_active_terminal 0);
  _ ← modify (set_is_visible 0);
  _ ← modify (set_caps INACTIVE);
  _ ← modify (set_shift INACTIVE);
  _ ← modify (set_ctrl INACTIVE);
  modify (set_alt INACTIVE).

(** The interrupt for a key: the controller presents its scan code. *)
Definition present (code : Z) (s : kernel) : kernel :=
  upd_dev (λ d, mkDevices (io_log d)
    (λ port, if port =? keyboard_port_address then code else inport d port)) s.
Definition press (code : Z) : M unit := λ s, keyboard_handler (present code s).

(** A sequence of key interrupts. *)
Fixpoint press_all (codes : list Z) : M unit :=
  match codes with
  | [] => mret tt
  | c :: rest => _ ← press c; press_all rest
  end.
End Handler.

(** ** The tables *)

Definition is_lower (c : Z) : bool := (97 <=? c) && (c <=? 122).

(** What the modifiers mean, from the unmodified and the shifted key caps:
    letters change case when one of shift and caps lock is on, the other keys
    when shift is on. *)
Definition modified_char (shift caps : bool) (code : Z) : Z :=
  let base := code_char keyboard_scancode_regular code in
  if is_lower base then (if xorb shift caps then base - 32 else base)
  else if shift then code_char keyboard_scancode_shift code else base.

Lemma keypress_handler_run code s :
  0 < code < 128 →
  keypress_handler code s = modified_char (negb (SHIFT_STATUS s =? 0)) (negb (CAPS_STATUS s =? 0)) code.
Proof.
  intros Hc. unfold keypress_handler.
  assert ((0 <? code) && (code <? keyboard_max_buffer_size) = true) as ->.
  { unfold keyboard_max_buffer_size. apply andb_true_iff. rewrite !Z.ltb_lt. lia. }
  assert (H : forallb (λ code, forallb (λ shift, forallb (λ caps,
     (if shift && negb caps then code_char keyboard_scancode_shift code
      else if negb shift && caps then code_char keyboard_scancode_caps code
      else if shift && caps then code_char keyboard_scancode_shift_and_caps code
      else code_char keyboard_scancode_regular code) =? modified_char shift caps code)
     [true; false]) [true; false]) (seqZ 0 128) = true) by (vm_compute; reflexivity).
  generalize (negb (SHIFT_STATUS s =? 0)) as shift, (negb (CAPS_STATUS s =? 0)) as caps. intros shift caps.
  rewrite forallb_forall in H. specialize (H code).
  rewrite list_elem_of_In, elem_of_seqZ in H || (rewrite <- list_elem_of_In, elem_of_seqZ in H).
  specialize (H ltac:(lia)). rewrite forallb_forall in H. specialize (H shift ltac:(by destruct shift; [left|right; left])).
  rewrite forallb_forall in H. specialize (H caps ltac:(by destruct caps; [left|right; left])). by apply Z.eqb_eq.
Qed.

(** the four scan code tables agree on what shift and caps lock mean, for
    every key and every setting of the two: exactly one of them turns a letter
    to upper case, and caps lock leaves every other key alone. *)
Theorem keypress_handler_correct (code : Z) (s : kernel) :
  keypress_handler code s =
  if (0 <? code) && (code <? 128)
  then modified_char (negb (SHIFT_STATUS s =? 0)) (negb (CAPS_STATUS s =? 0)) code else 0.
Proof.
  destruct (Z.ltb_spec 0 code), (Z.ltb_spec code 128); cbn [andb]; [by apply keypress_handler_run|..];
    unfold keypress_handler, keyboard_max_buffer_size;
    destruct (Z.ltb_spec 0 code), (Z.ltb_spec code 128); cbn [andb]; lia || done.
Qed.

(** ** Typing a line *)

(** A key that types a character whatever the modifiers are. *)
Definition is_char_key (code : Z) : bool :=
  (0 <? code) && (code <? 128) &&
  negb (existsb (Z.eqb code) [CTRL_DOWN; RSHIFT_DOWN; LSHIFT_DOWN; ALT_DOWN; CAPS_LOCK; ENTER; TAB; BACKSPACE;
                              UP; DOWN; LEFT; RIGHT]) &&
  negb (code_char keyboard_scancode_regular code =? 0).

(** The character a key types. *)
Definition typed_char (s : kernel) (code : Z) : Z :=
  modified_char (negb (SHIFT_STATUS s =? 0)) (negb (CAPS_STATUS s =? 0)) code.

Lemma modified_char_range shift caps code :
  is_char_key code = true → 0 < modified_char shift caps code < 128.
Proof.
  intros Hk.
  assert (Hc : 0 < code < 128).
  { unfold is_char_key in Hk. rewrite !andb_true_iff, !Z.ltb_lt in Hk. tauto. }
  assert (H : forallb (λ code, implb (is_char_key code) (forallb (λ shift, forallb (λ caps,
     (0 <? modified_char shift caps code) && (modified_char shift caps code <? 128))
     [true; false]) [true; false])) (seqZ 0 128) = true) by (vm_compute; reflexivity).
  rewrite forallb_forall in H. specialize (H code).
  rewrite <- list_elem_of_In, elem_of_seqZ in H. specialize (H ltac:(lia)). rewrite Hk in H. cbn [implb] in H.
  rewrite forallb_forall in H. specialize (H shift ltac:(by destruct shift; [left|right; left])).
  rewrite forallb_forall in H. specialize (H caps ltac:(by destruct caps; [left|right; left])).
  by rewrite andb_true_iff, !Z.ltb_lt in H.
Qed.

(** The keyboard can type into terminal [a]: it is shown, output goes to the
    screen, and neither control nor alt is held. *)
Record can_type (a : Z) (s : kernel) : Prop := {
  ct_active : active_terminal s = a;
  ct_range : 0 <= a < 3;
  ct_ctrl : CTRL_STATUS s = 0;
  ct_alt : ALT_STATUS s = 0;
  ct_cursor : cursor_ok s;
  ct_visible : current_running_process_count s < 3 ∨ next_terminal_in_schedule s = a;
}.

(** [l] has been typed since [s0]. *)
Record typing {L : Layout} (a : Z) (l : list Z) (s0 s : kernel) : Prop := {
  ty_can : can_type a s;
  ty_kbd : k_kbd s = k_kbd s0;
  ty_index : buffer_index (term s a) = Z.of_nat (length l);
  ty_line : ∀ i c, l !! i = Some c → ld8 s (keyboard_buffer a (Z.of_nat i)) = c;
  ty_screen : abs_screen s = foldl (λ sc c, scr_putc c sc) (abs_screen s0) l;
  ty_upage : upage s = upage s0;
}.

Section TypingFacts.
Context {L : Layout} {HL : LayoutOK L}.

Lemma keyboard_byte a i : 0 <= a < 3 → 0 <= i < 128 →
  KERNEL_START <= keyboard_buffer a i < KERNEL_END ∧ ∀ m, phys m (keyboard_buffer a i) = keyboard_buffer a i.
Proof using HL.
  intros Ha Hi. pose proof (keyboard_buffer_kernel a Ha) as Hk.
  rewrite (keyboard_buffer_add a i). unfold KERNEL_START, KERNEL_END in *.
  split; [lia|]. intros m. apply phys_kernel. unfold PROGRAM_PAGE. lia.
Qed.

(** Storing the character and echoing it. *)
Lemma store_and_echo a c s :
  can_type a s → 0 <= buffer_index (term s a) < 128 → 0 < c < 128 →
  let i := buffer_index (term s a) in
  let p := keyboard_buffer a i in
  ∃ s', (_ ← terminal_write 0 p 1; modify (λ s, upd_active (set_buffer_index (buffer_index (active s) + 1)) s))
          (store8 p c s) = Ret tt s' ∧
    can_type a s' ∧ k_kbd s' = k_kbd s ∧ upage s' = upage s ∧
    buffer_index (term s' a) = i + 1 ∧
    (∀ q, KERNEL_START <= q → q < KERNEL_END → ld8 s' q = if q =? p then c else ld8 s q) ∧
    abs_screen s' = scr_putc c (abs_screen s).
Proof using HL.
  intros [Hact Ha Hctrl Halt Hcur Hvis] Hi Hc i p. fold i in Hi.
  destruct (keyboard_byte a i Ha Hi) as [Hp Hpp]. fold p in Hp, Hpp.
  set (s1 := cli (store8 p c s)).
  assert (Hld : ld8 s1 p = c).
  { subst s1. change (ld8 (st8 s p c) p = c). rewrite ld8_st8_same. apply u8_small. lia. }
  assert (Hscr : abs_screen s1 = abs_screen s).
  { unfold abs_screen. f_equal. apply page_text_peek; [done|unfold VIDEO; lia|by vm_compute|].
    intros q Hq. change (peek (st8 s p c) q = peek s q). rewrite peek_st8, Hpp.
    destruct (Z.eqb_spec q p); [|done].
    unfold VIDEO, PAGE_BYTES, KERNEL_START, KERNEL_END in *. lia. }
  destruct (putc_spec c s1 Hcur) as (Ho & Hps & Hcur').
  rewrite Hscr, u8_small in Hps by lia. pose proof Ho as [].
  assert (Hw : write_char c s1 = putc c s1).
  { unfold write_char. destruct (Z.eqb_spec c 0); [lia|].
    change (current_running_process_count s1) with (current_running_process_count s).
    change (next_terminal_in_schedule s1) with (next_terminal_in_schedule s).
    change (active_terminal s1) with (active_terminal s). rewrite Hact.
    destruct (Z.ltb_spec (current_running_process_count s) 3), (Z.eqb_spec (next_terminal_in_schedule s) a); try done; lia. }
  set (s2 := putc c s1) in *. clearbody s2.
  exists (upd_terminal a (set_buffer_index (i + 1)) (sti s2)).
  assert (Hkp : p ≠ 0) by (unfold KERNEL_START in Hp; lia).
  split_and!.
  - unfold terminal_write, mbind, M_bind, gets, modify, mret, M_ret.
    assert (Hu : u32 p = p) by (apply u32_small; unfold KERNEL_START, KERNEL_END in Hp; lia).
    rewrite Hu. destruct (Z.eqb_spec p 0); [done|]. change (1 <? 0) with false. cbn [orb].
    change (term (store8 p c s)) with (term s). change (active_terminal (store8 p c s)) with (active_terminal s).
    rewrite Hact. fold i. destruct (Z.eqb_spec i BUFF_SIZE); [unfold BUFF_SIZE in *; lia|].
    fold s1. change (Z.to_nat 1) with 1%nat. cbn [for_up]. rewrite Z.add_0_r, Hld.
    rewrite Hw. unfold upd_active, active.
    change (active_terminal (sti s2)) with (active_terminal s2).
    change (term (sti s2)) with (term s2). unfold term. rewrite co_term.
    change (active_terminal s1) with (active_terminal s). change (terminal s1) with (terminal s). rewrite Hact. done.
  - split; [|done|..].
    + change (active_terminal s2 = a). by rewrite co_term.
    + change (CTRL_STATUS s2 = 0). by rewrite co_kbd.
    + change (ALT_STATUS s2 = 0). by rewrite co_kbd.
    + exact Hcur'.
    + change (current_running_process_count s2 < 3 ∨ next_terminal_in_schedule s2 = a).
      rewrite co_sched. exact Hvis.
  - exact co_kbd.
  - exact co_upage.
  - by rewrite term_upd_same.
  - intros q Hq1 Hq2. change (ld8 s2 q = if q =? p then c else ld8 s q).
    assert (Hqp : ∀ m, phys m q = q).
    { intros m. apply phys_kernel. unfold KERNEL_START, KERNEL_END, PROGRAM_PAGE in *. lia. }
    rewrite (console_only_ld8 s1 s2); [|done|].
    + change (ld8 (st8 s p c) q = if q =? p then c else ld8 s q). rewrite ld8_st8, Hqp, Hpp.
      by rewrite u8_small by lia.
    + unfold off_screen. rewrite Hqp. unfold VIDEO, PAGE_BYTES, KERNEL_START in *. lia.
  - exact Hps.
Qed.

(** The entry and exit of the handler. *)
Definition on_entry (code : Z) (s : kernel) : kernel :=
  outb (Z.lor EOI keyboard_IRQ) (MASTER_DATA_PORT - 1) (cli (present code s)).

Lemma press_run code s :
  0 <= code < 256 → press code s = (_ ← key_dispatch code; modify sti) (on_entry code s).
Proof.
  intros Hc. unfold press, keyboard_handler. unfold mbind, M_bind, modify, gets.
  change (send_eoi keyboard_IRQ (cli (present code s))) with (Ret tt (on_entry code s)).
  cbv beta iota.
  change (inb keyboard_port_address (on_entry code s)) with (u8 code). by rewrite u8_small.
Qed.

Lemma can_type_entry code a s : can_type a s → can_type a (on_entry code s).
Proof. by intros []. Qed.

Lemma is_char_key_range code : is_char_key code = true → 0 < code < 128.
Proof. unfold is_char_key. rewrite !andb_true_iff, !Z.ltb_lt. tauto. Qed.

(** A character key reaches the default case. *)
Lemma key_dispatch_char code : is_char_key code = true → key_dispatch code = key_default code.
Proof.
  intros Hk. pose proof (is_char_key_range code Hk) as Hr.
  unfold is_char_key in Hk. rewrite !andb_true_iff in Hk. destruct Hk as [[_ Hk] _].
  apply negb_true_iff in Hk. cbn [existsb] in Hk. rewrite !orb_false_iff in Hk.
  destruct Hk as (H1 & H2 & H3 & H4 & H5 & H6 & H7 & H8 & H9 & H10 & H11 & H12 & _).
  unfold key_dispatch. rewrite H1, H2, H3, H4, H5, H6, H7, H8, H9, H10, H11, H12.
  unfold CTRL_RELEASE, RSHIFT_RELEASE, LSHIFT_RELEASE, ALT_RELEASE, UNKNOWN.
  destruct (Z.eqb_spec code 157), (Z.eqb_spec code 182), (Z.eqb_spec code 170), (Z.eqb_spec code 184),
    (Z.eqb_spec code 0); lia || done.
Qed.

(** One character key. *)
Lemma press_char code a s :
  is_char_key code = true → can_type a s → 0 <= buffer_index (term s a) < 128 →
  let c := typed_char s code in
  let i := buffer_index (term s a) in
  ∃ s', press code s = Ret tt s' ∧ can_type a s' ∧ k_kbd s' = k_kbd s ∧ upage s' = upage s ∧
    buffer_index (term s' a) = i + 1 ∧
    (∀ q, KERNEL_START <= q → q < KERNEL_END → ld8 s' q = if q =? keyboard_buffer a i then c else ld8 s q) ∧
    abs_screen s' = scr_putc c (abs_screen s).
Proof using HL.
  intros Hk Hty Hi c i. pose proof (is_char_key_range code Hk) as Hr.
  rewrite press_run, key_dispatch_char by (done || lia).
  pose proof (can_type_entry code a s Hty) as Hte.
  set (s1 := on_entry code s) in *.
  pose proof (modified_char_range (negb (SHIFT_STATUS s =? 0)) (negb (CAPS_STATUS s =? 0)) code Hk) as Hc.
  fold (typed_char s code) in Hc. fold c in Hc.
  destruct (store_and_echo a c s1 Hte Hi Hc) as (s2 & He & Ht2 & Hkb & Hup & Hidx & Hld & Hscr).
  change (buffer_index (term s1 a)) with i in *.
  exists (sti s2). split; [|split_and!; [by destruct Ht2|done|done|done|exact Hld|exact Hscr]].
  assert (Hd : key_default code s1 = Ret tt s2).
  { unfold key_default.
    assert (Hsw : key_switch code s1 = s1) by (unfold key_switch; by rewrite (ct_alt a s1 Hte)).
    rewrite (bind_ret _ _ s1 tt s1) by (unfold modify; by rewrite Hsw).
    rewrite (bind_ret _ _ s1 c s1) by (unfold gets; by rewrite keypress_handler_run by lia).
    destruct (Z.eqb_spec c 0); [lia|].
    rewrite (bind_ret _ _ s1 0 s1) by (unfold gets; by rewrite (ct_ctrl a s1 Hte)). cbn [Z.eqb negb andb].
    rewrite (bind_ret _ _ s1 i s1) by (unfold gets, active; by rewrite (ct_active a s1 Hte)).
    destruct (Z.ltb_spec i keyboard_max_buffer_size); [|unfold keyboard_max_buffer_size in *; lia].
    rewrite (bind_ret _ _ s1 (keyboard_buffer a i) s1) by (unfold gets; by rewrite (ct_active a s1 Hte)).
    by rewrite (bind_ret _ _ s1 tt (store8 (keyboard_buffer a i) c s1)). }
  unfold mbind, M_bind. by rewrite Hd.
Qed.

Lemma typing_char code a l s0 s :
  is_char_key code = true → typing a l s0 s → (length l < 128)%nat →
  ∃ s', press code s = Ret tt s' ∧ typing a (l ++ [typed_char s0 code]) s0 s'.
Proof using HL.
  intros Hk [Hcan Hkb Hidx Hline Hscr Hup] Hlen. pose proof (ct_range a s Hcan) as Ha.
  destruct (press_char code a s Hk Hcan) as (s' & He & Hcan' & Hkb' & Hup' & Hidx' & Hld & Hscr'); [lia|].
  assert (Htc : typed_char s code = typed_char s0 code) by (unfold typed_char; by rewrite Hkb).
  rewrite Htc, Hidx in *. exists s'. split; [done|]. split.
  - done.
  - congruence.
  - rewrite Hidx', length_app. cbn. lia.
  - intros i c Hi. destruct (decide (i = length l)) as [->|Hne].
    + rewrite lookup_app_r, Nat.sub_diag in Hi by lia. cbn in Hi. injection Hi as <-.
      destruct (keyboard_byte a (Z.of_nat (length l)) Ha) as [Hb _]; [lia|].
      rewrite Hld by lia. by rewrite Z.eqb_refl.
    + pose proof (lookup_lt_Some _ _ _ Hi) as Hlt. rewrite length_app in Hlt. cbn in Hlt.
      rewrite lookup_app_l in Hi by lia.
      destruct (keyboard_byte a (Z.of_nat i) Ha) as [Hb _]; [lia|].
      rewrite Hld by lia. destruct (Z.eqb_spec (keyboard_buffer a (Z.of_nat i)) (keyboard_buffer a (Z.of_nat (length l)))) as [E|E].
      * unfold keyboard_buffer in E. lia.
      * by apply Hline.
  - rewrite Hscr', foldl_app, <- Hscr. done.
  - congruence.
Qed.

Lemma typing_all codes a l s0 s rest :
  forallb is_char_key codes = true → typing a l s0 s → (length l + length codes <= 128)%nat →
  ∃ s', press_all (codes ++ rest) s = press_all rest s' ∧ typing a (l ++ (typed_char s0 <$> codes)) s0 s'.
Proof using HL.
  revert l s. induction codes as [|code codes IH]; intros l s Hk Hty Hlen.
  - exists s. rewrite app_nil_r. done.
  - cbn in Hk. apply andb_true_iff in Hk as [Hk1 Hk2]. cbn in Hlen.
    destruct (typing_char code a l s0 s Hk1 Hty) as (s1 & He & Ht1); [lia|].
    destruct (IH (l ++ [typed_char s0 code]) s1 Hk2 Ht1) as (s2 & He2 & Ht2); [rewrite length_app; cbn; lia|].
    exists s2. rewrite <- app_assoc in Ht2. split; [|exact Ht2].
    cbn [app press_all]. unfold mbind, M_bind. rewrite He. exact He2.
Qed.

(** The enter key. *)
Lemma press_enter a l s0 s :
  typing a l s0 s →
  ∃ s', press ENTER s = Ret tt s' ∧ active_terminal s' = a ∧ read_flag (term s' a) = 1 ∧
    read_index (term s' a) = Z.of_nat (length l) ∧ buffer_index (term s' a) = 0 ∧ upage s' = upage s0 ∧
    (∀ q, KERNEL_START <= q → q < KERNEL_END → ld8 s' q = ld8 s q) ∧
    abs_screen s' = foldl (λ sc c, scr_putc c sc) (abs_screen s0) (l ++ [NL]).
Proof using HL.
  intros [Hcan Hkb Hidx Hline Hscr Hup]. rewrite press_run by (unfold ENTER; lia).
  set (s1 := on_entry ENTER s).
  destruct (putc_spec NL s1 (ct_cursor a s Hcan)) as (Ho & Hps & _). pose proof Ho as [].
  set (s2 := putc NL s1) in *.
  assert (Hkey : (_ ← key_dispatch ENTER; modify sti) s1 = Ret tt (sti (key_enter s1))) by reflexivity.
  rewrite Hkey. unfold key_enter. fold s2.
  assert (Hact : active_terminal s2 = a) by (rewrite co_term; exact (ct_active a s Hcan)).
  assert (Hterm : term s2 = term s) by (unfold term; by rewrite co_term).
  clearbody s2. unfold upd_active, active. cbn [active_terminal upd_terminal upd_term k_term set_counter set_offsetter upd_kbd]. rewrite !Hact.
  set (s3 := upd_terminal a (set_buffer_index 0) _).
  assert (Ht3 : term s3 a = set_buffer_index 0 (set_read_flag 1 (set_read_index (Z.of_nat (length l)) (term s a)))).
  { subst s3. rewrite !term_upd_same, Hterm, Hidx. done. }
  exists (sti (set_offsetter 0 (set_counter 0 s3))). split; [done|].
  change (term (sti (set_offsetter 0 (set_counter 0 s3)))) with (term s3). rewrite Ht3.
  split_and!; [exact Hact|done|done|done|by rewrite <- Hup| |].
  - intros q Hq1 Hq2. apply (console_only_ld8 s1 s2 q Ho). unfold off_screen.
    rewrite phys_kernel; unfold VIDEO, PAGE_BYTES, KERNEL_START, KERNEL_END, PROGRAM_PAGE in *; lia.
  - rewrite foldl_app, <- Hscr. exact Hps.
Qed.
End TypingFacts.

(** C26: the keyboard and the terminal driver together deliver lines: type any
    at most 128 character keys and enter at the shown terminal, and the next
    [terminal_read] on it returns their characters, under the modifiers in
    force, followed by a newline and a NUL; the screen has echoed them in
    order. *)
Theorem type_line {L : Layout} {HL : LayoutOK L} (s : kernel) (a : Z) (codes : list Z) (fd buffer nbytes : Z) :
  can_type a s → buffer_index (term s a) = 0 →
  forallb is_char_key codes = true → (length codes <= 128)%nat →
  u32 buffer ≠ 0 → 0 < nbytes → seg buffer (Z.of_nat (length codes) + 2) →
  apart s buffer (Z.of_nat (length codes) + 2) (keyboard_buffer a 0) 128 →
  let line := typed_char s <$> codes in
  ∃ s1 s2, press_all (codes ++ [ENTER]) s = Ret tt s1 ∧
    abs_screen s1 = foldl (λ sc c, scr_putc c sc) (abs_screen s) (line ++ [NL]) ∧
    terminal_read fd buffer nbytes s1 = Ret (Z.of_nat (length line) + 1) s2 ∧
    ld_bytes s2 buffer (Z.of_nat (length line) + 2) = line ++ [NL; 0].
Proof.
  intros Hcan Hidx Hk Hlen Hb Hn Hseg Hap line.
  pose proof (ct_range a s Hcan) as Ha.
  assert (Hll : length line = length codes) by apply length_fmap.
  destruct (typing_all codes a [] s s [ENTER] Hk) as (s' & He & Hty); [by split|cbn; lia|].
  cbn [app] in Hty. fold line in Hty. pose proof Hty as [_ _ _ Hline _ _].
  destruct (press_enter a line s s' Hty) as (s1 & He1 & Hact & Hfl & Hri & _ & Hup & Hld & Hscr).
  assert (Hap1 : apart s1 buffer (Z.of_nat (length codes) + 2) (keyboard_buffer a 0) 128).
  { unfold apart in *. by rewrite !(phys_upage s s1). }
  rewrite <- Hll in Hseg, Hap1. rewrite <- Hact, <- Hri in Hap1. rewrite <- Hri in Hseg.
  destruct (terminal_read_run s1 fd buffer nbytes) as (s2 & He2 & Hw & _);
    [by rewrite Hact|done|done|by rewrite Hact|rewrite Hact, Hri; unfold BUFF_SIZE; lia|
     by rewrite Hact|by rewrite Hact in *|].
  rewrite Hact, Hri in *. exists s1, s2. split; [|split; [exact Hscr|split; [exact He2|]]].
  - rewrite He. cbn [press_all]. unfold mbind, M_bind. by rewrite He1.
  - apply list_eq_same_length with (length line + 2)%nat.
    + rewrite length_app. done.
    + rewrite ld_bytes_length by lia. lia.
    + intros i x y Hi Hx Hy.
      rewrite <- (Nat2Z.id i), ld_bytes_lookup in Hx by lia. injection Hx as <-.
      rewrite (writes_at _ _ _ _ _ _ Hw Hseg) by lia.
      destruct (decide (i < length line)%nat) as [Hil|Hil].
      * destruct (Z.eqb_spec (Z.of_nat i) (Z.of_nat (length line) + 1)), (Z.eqb_spec (Z.of_nat i) (Z.of_nat (length line))); try lia.
        rewrite lookup_app_l in Hy by lia.
        destruct (keyboard_byte a (Z.of_nat i) Ha) as [Hkb _]; [lia|].
        rewrite Hld by lia. by apply Hline.
      * rewrite lookup_app_r in Hy by lia.
        assert (i = length line ∨ i = S (length line))%nat as [->| ->] by lia.
        -- rewrite Nat.sub_diag in Hy. cbn in Hy. injection Hy as <-.
           destruct (Z.eqb_spec (Z.of_nat (length line)) (Z.of_nat (length line) + 1)); [lia|]. by rewrite Z.eqb_refl.
        -- replace (S (length line) - length line)%nat with 1%nat in Hy by lia. cbn in Hy. injection Hy as <-.
           destruct (Z.eqb_spec (Z.of_nat (S (length line))) (Z.of_nat (length line) + 1)); [done|lia].
Qed.

(** with alt held, the key F1, F2 or F3 shows terminal 0, 1 or 2, and the
    screen of every terminal is what it was. *)
Theorem alt_function_key {L : Layout} (s : kernel) (k j : Z) :
  terms_ok s → ALT_STATUS s = ACTIVE → 0 <= k < 3 → 0 <= j < 3 →
  ∃ s', press (F1 + k) s = Ret tt s' ∧ active_terminal s' = k ∧ is_visible s' = k ∧
    terms_ok s' ∧ abs_screen s' = terminal_screen s k ∧ terminal_screen s' j = terminal_screen s j.
Proof.
  intros Hok Halt Hk Hj. rewrite press_run by (unfold F1; lia).
  set (s1 := on_entry (F1 + k) s).
  set (s2 := save_and_switch_term k (set_is_visible k s1)).
  assert (Hok1 : terms_ok (set_is_visible k s1)) by (by destruct Hok).
  destruct (terminal_screen_switch (set_is_visible k s1) k j Hok1 Hk Hj) as (H1 & H2 & H3). fold s2 in H1, H2, H3.
  destruct (terminal_screen_switch (set_is_visible k s1) k k Hok1 Hk Hk) as (H4 & _ & _). fold s2 in H4.
  assert (Hvis : is_visible s2 = k).
  { subst s2. unfold save_and_switch_term. by destruct (_ =? _). }
  change (terminal_screen (set_is_visible k s1) j) with (terminal_screen s j) in H1.
  change (terminal_screen (set_is_visible k s1) k) with (terminal_screen s k) in H4.
  assert (Hsw : key_switch (F1 + k) s1 = set_active_terminal k s2).
  { unfold key_switch. change (ALT_STATUS s1) with (ALT_STATUS s). rewrite Halt. subst s2.
    assert (k = 0 ∨ k = 1 ∨ k = 2) as [->|[->| ->]] by lia; reflexivity. }
  assert (Hd : key_dispatch (F1 + k) s1 = Ret tt (set_active_terminal k s2)).
  { assert (key_dispatch (F1 + k) = key_default (F1 + k)) as ->
      by (assert (k = 0 ∨ k = 1 ∨ k = 2) as [->|[->| ->]] by lia; reflexivity).
    unfold key_default. rewrite (bind_ret _ _ s1 tt (set_active_terminal k s2)) by (unfold modify; by rewrite Hsw).
    rewrite (bind_ret _ _ _ 0 (set_active_terminal k s2)); [done|].
    unfold gets. rewrite keypress_handler_run by (unfold F1; lia). f_equal.
    generalize (negb (SHIFT_STATUS (set_active_terminal k s2) =? 0)) as sh,
               (negb (CAPS_STATUS (set_active_terminal k s2) =? 0)) as ca. intros sh ca.
    assert (k = 0 ∨ k = 1 ∨ k = 2) as [->|[->| ->]] by lia; by destruct sh, ca. }
  rewrite (bind_ret _ _ _ _ _ Hd). clearbody s2.
  assert (Hts : ∀ i, terminal_screen (sti (set_active_terminal k s2)) i = terminal_screen s2 i).
  { intros i. unfold terminal_screen. by rewrite H3. }
  eexists. split; [done|]. split_and!; [done|done| | |].
  - destruct H2 as [_ Hb]. split; [exact Hk|exact Hb].
  - rewrite <- H4, <- Hts. unfold terminal_screen. change (active_terminal (sti (set_active_terminal k s2))) with k.
    by rewrite Z.eqb_refl.
  - by rewrite Hts.
Qed.

(** ** A state at the prompt, for the witnesses *)

Lemma prompt_can_type : can_type 0 prompt_state.
Proof.
  split; [done|lia|done|done| |by left]. unfold cursor_ok, NUM_COLS, NUM_ROWS. cbn. lia.
Qed.

(** Typing [ls] and enter. *)
Lemma type_line_witness :
  can_type 0 prompt_state ∧
  ∃ s1 s2, press_all (L := example_layout) ([38; 31] ++ [ENTER]) prompt_state = Ret tt s1 ∧
    abs_screen s1 = foldl (λ sc c, scr_putc c sc) (abs_screen prompt_state) (bytes_of "ls" ++ [NL]) ∧
    terminal_read (L := example_layout) 0 0x8048000 1024 s1 = Ret 3 s2 ∧
    ld_bytes s2 0x8048000 4 = bytes_of "ls" ++ [NL; 0].
Proof.
  split; [exact prompt_can_type|].
  apply (type_line (L := example_layout) prompt_state 0 [38; 31] 0 0x8048000 1024 prompt_can_type);
    [by vm_compute|by vm_compute|cbn; lia|by vm_compute|lia|unfold seg, PROGRAM_PAGE, PROGRAM_PAGE_END; cbn; lia|].
  left. by vm_compute.
Defined.

Lemma alt_function_key_witness :
  let s := set_alt ACTIVE prompt_state in
  terms_ok s ∧ ∃ s', press (L := example_layout) (F1 + 1) s = Ret tt s' ∧ active_terminal s' = 1 ∧ is_visible s' = 1 ∧
    terms_ok s' ∧ abs_screen s' = terminal_screen s 1 ∧ terminal_screen s' 0 = terminal_screen s 0.
Proof.
  intros s. assert (H : terms_ok s) by (by destruct prompt_terms_ok). split; [exact H|].
  apply (alt_function_key (L := example_layout) s 1 0); [exact H|done|lia|lia].
Defined.
