(* ===== verification/Paging.v ===== *)
(** * Paging: paging.c

    The page directory and tables [paging_init] fills, and the walk the
    processor makes through them, against which the mapping of the kernel, of
    the program page and of the video page are proved. *)

From S2P Require Import Prelude Memory State.

Implicit Types s : kernel.

Definition num_page_entries : Z := 1024.

Definition set_pde (i v : Z) (s : kernel) : kernel :=
  upd_paging (λ p, mkPaging (<[i := u32 v]> (pDirectory p)) (pTable p) (pTable2 p) (videopTable p)) s.
Definition set_pte (i v : Z) (s : kernel) : kernel :=
  upd_paging (λ p, mkPaging (pDirectory p) (<[i := u32 v]> (pTable p)) (pTable2 p) (videopTable p)) s.
Definition set_pte2 (i v : Z) (s : kernel) : kernel :=
  upd_paging (λ p, mkPaging (pDirectory p) (pTable p) (<[i := u32 v]> (pTable2 p)) (videopTable p)) s.
Definition set_video_pte (i v : Z) (s : kernel) : kernel :=
  upd_paging (λ p, mkPaging (pDirectory p) (pTable p) (pTable2 p) (<[i := u32 v]> (videopTable p))) s.

(** Base of a 4 MB page-directory entry. *)
Definition big_base (pde : Z) : Z := Z.land pde 0xFFC00000.

(** [movl %cr3, %ebx; movl %ebx, %cr3]: the processor drops its cached
    translations, so the program page is where entry 32 says. *)
Definition flush_tlb (s : kernel) : kernel :=
  upd_mem (λ m, mkMem (ram m) (big_base (pDirectory s !!! 32))) s.

Section Paging.
Context {L : Layout}.

(** Body of the loop: directory entry, page of the first 4 MB, video page. *)
Definition clear_entry (i : Z) (s : kernel) : kernel :=
  let s := set_pde i 0x00000002 s in
  let s := set_pte i (Z.lor (i * 0x1000) 3) s in
  set_video_pte i 2 s.

(** After the loop: the entries in use, and the control registers. *)
Definition install_tables (s : kernel) : kernel :=
  let s := set_pte2 0 0x400000 s in
  let s := set_pde 0 (Z.lor pTable_addr 3) s in
  let s := set_pde 1 (Z.lor pTable2_addr 0x83) s in
  let s := set_pde 33 videopTable_addr s in
  flush_tlb s.

Definition paging_init (s : kernel) : kernel :=
  install_tables (for_up (Z.to_nat num_page_entries) 0 clear_entry s).

(** ** The page walk

    [walk s user a]: the physical address the processor translates [a] to,
    with 4 MB pages enabled, or nothing for a fault.  A page table is found
    by the address its directory entry holds. *)
Definition present (e : Z) : bool := Z.testbit e 0.
Definition user_ok (e : Z) : bool := Z.testbit e 2.
Definition page_size_bit (e : Z) : bool := Z.testbit e 7.

Definition table_at (s : kernel) (base : Z) : option (arr Z) :=
  if base =? pTable_addr then Some (pTable s)
  else if base =? pTable2_addr then Some (pTable2 s)
  else if base =? videopTable_addr then Some (videopTable s)
  else None.

Definition walk (s : kernel) (user : bool) (a : Z) : option Z :=
  let pde := pDirectory s !!! (a / 0x400000) in
  if negb (present pde) || (user && negb (user_ok pde)) then None
  else if page_size_bit pde then Some (big_base pde + a mod 0x400000)
  else
    t ← table_at s (Z.land pde 0xFFFFF000);
    let pte := t !!! (a / 0x1000 mod 1024) in
    if negb (present pte) || (user && negb (user_ok pte)) then None
    else Some (Z.land pte 0xFFFFF000 + a mod 0x1000).
End Paging.

(** ** Entries *)

Lemma big_base_spec x : 0 <= x < 4294967296 → big_base x = x / 0x400000 * 0x400000.
Proof. by apply (mask_high 22). Qed.

Lemma page_base_spec x : 0 <= x < 4294967296 → Z.land x 0xFFFFF000 = x / 0x1000 * 0x1000.
Proof. by apply (mask_high 12). Qed.

(** A page-aligned base and flag bits below bit 12. *)
Lemma aligned_bit base i : base mod 0x1000 = 0 → 0 <= i < 12 → Z.testbit base i = false.
Proof.
  intros Hm Hi. rewrite <- (Z.div_exact base 0x1000) in Hm by lia. rewrite Hm, Z.mul_comm.
  change 0x1000 with (2 ^ 12). by rewrite Z.mul_pow2_bits_low by lia.
Qed.

Lemma flag_bit base fl i : base mod 0x1000 = 0 → 0 <= i < 12 → Z.testbit (Z.lor base fl) i = Z.testbit fl i.
Proof. intros Hm Hi. by rewrite Z.lor_spec, aligned_bit. Qed.

Lemma lor_aligned base fl : base mod 0x1000 = 0 → 0 <= fl < 0x1000 → Z.lor base fl = base + fl.
Proof.
  intros Hm Hf. symmetry. apply Z.add_nocarry_lor.
  apply Z.bits_inj'. intros n Hn. rewrite Z.land_spec, Z.bits_0.
  destruct (Z.ltb_spec n 12); [by rewrite aligned_bit by (done || lia)|].
  rewrite (Z.bits_above_log2 fl n); [apply andb_false_r|lia|].
  destruct (decide (fl = 0)) as [->|]; [cbn; lia|]. pose proof (Z.log2_lt_pow2 fl 12 ltac:(lia)). lia.
Qed.

Lemma entry_base base fl :
  0 <= base < 4294967296 → base mod 0x1000 = 0 → 0 <= fl < 0x1000 →
  0 <= Z.lor base fl < 4294967296 ∧ Z.land (Z.lor base fl) 0xFFFFF000 = base.
Proof.
  intros Hb Hm Hf. rewrite lor_aligned by done. assert (base + fl < 4294967296) by (Z.div_mod_to_equations; lia).
  split; [lia|]. rewrite page_base_spec by lia. Z.div_mod_to_equations. lia.
Qed.

(** ** The tables after [paging_init] *)

Section PagingFacts.
Context {L : Layout} {HL : LayoutOK L}.

Definition initial_pde (i : Z) : Z :=
  if i =? 33 then videopTable_addr
  else if i =? 1 then Z.lor pTable2_addr 0x83
  else if i =? 0 then Z.lor pTable_addr 3 else 2.

Lemma table_addrs :
  (KERNEL_START <= pTable_addr ∧ pTable_addr + 4096 <= KERNEL_END ∧ pTable_addr mod 4096 = 0) ∧
  (KERNEL_START <= pTable2_addr ∧ pTable2_addr + 4096 <= KERNEL_END ∧ pTable2_addr mod 4096 = 0) ∧
  (KERNEL_START <= videopTable_addr ∧ videopTable_addr + 4096 <= KERNEL_END ∧ videopTable_addr mod 4096 = 0) ∧
  pTable_addr ≠ pTable2_addr ∧ pTable_addr ≠ videopTable_addr ∧ pTable2_addr ≠ videopTable_addr.
Proof using HL.
  pose proof (obj_bounds 6 _ eq_refl) as H6. pose proof (obj_bounds 7 _ eq_refl) as H7.
  pose proof (obj_bounds 8 _ eq_refl) as H8. cbn [fst snd] in *. destruct layout_aligned as (_ & A6 & A7 & A8).
  pose proof (obj_sep 6 7 _ _ eq_refl eq_refl ltac:(done)) as S1. pose proof (obj_sep 6 8 _ _ eq_refl eq_refl ltac:(done)) as S2.
  pose proof (obj_sep 7 8 _ _ eq_refl eq_refl ltac:(done)) as S3. cbn [fst snd] in *. lia.
Qed.

Lemma clear_entries n s i :
  0 <= i < Z.of_nat n → i < 1024 →
  pDirectory (for_up n 0 clear_entry s) !!! i = 2 ∧ pTable (for_up n 0 clear_entry s) !!! i = Z.lor (i * 0x1000) 3.
Proof.
  intros Hi Hlt. set (P := λ j s1, i < j → pDirectory s1 !!! i = 2 ∧ pTable s1 !!! i = Z.lor (i * 0x1000) 3).
  assert (H : P (0 + Z.of_nat n) (for_up n 0 clear_entry s)).
  { apply for_up_ind; [intros Hn; lia|]. intros j t Hj Ht Hij. unfold clear_entry. cbn.
    rewrite !lookup_total_insert_Z. destruct (Z.eqb_spec j i) as [->|]; [|apply Ht; lia].
    destruct (entry_base (i * 4096) 3) as [E _]; [lia|apply Z.mod_mul; lia|lia|].
    split; [done|by apply u32_small]. }
  apply H. lia.
Qed.

Lemma install_pde s i : pDirectory s !!! i = 2 → pDirectory (install_tables s) !!! i = initial_pde i.
Proof using HL.
  intros H1. destruct table_addrs as ((B1 & B2 & B3) & (B4 & B5 & B6) & (B7 & B8 & B9) & _).
  unfold KERNEL_START, KERNEL_END in *.
  destruct (entry_base pTable_addr 3) as [E1 _]; [lia..|]. destruct (entry_base pTable2_addr 0x83) as [E2 _]; [lia..|].
  cbn. rewrite !lookup_total_insert_Z, H1. unfold initial_pde. rewrite !u32_small by lia.
  rewrite !(Z.eqb_sym i). done.
Qed.

Lemma install_pte s i : pTable (install_tables s) !!! i = pTable s !!! i.
Proof. done. Qed.

Lemma paging_init_pde s i : 0 <= i < 1024 → pDirectory (paging_init s) !!! i = initial_pde i.
Proof using HL. intros Hi. unfold paging_init. apply install_pde.
  refine (proj1 (clear_entries _ s i _ _)); unfold num_page_entries; lia. Qed.

Lemma paging_init_pte s i : 0 <= i < 1024 → pTable (paging_init s) !!! i = Z.lor (i * 0x1000) 3.
Proof. intros Hi. unfold paging_init. rewrite install_pte.
  refine (proj2 (clear_entries _ s i _ _)); unfold num_page_entries; lia. Qed.
End PagingFacts.

Lemma paging_init_walk {L : Layout} {HL : LayoutOK L} (s : kernel) (a : Z) :
  0 <= a < 4294967296 →
  walk (paging_init s) false a = (if a <? 0x800000 then Some a else None) ∧
  walk (paging_init s) true a = None.
Proof.
  intros Ha. destruct table_addrs as ((B1 & B2 & B3) & (B4 & B5 & B6) & (B7 & B8 & B9) & N1 & N2 & N3).
  unfold KERNEL_START, KERNEL_END in *.
  assert (Hi : 0 <= a / 0x400000 < 1024) by (Z.div_mod_to_equations; lia).
  unfold walk. rewrite paging_init_pde by done.
  set (i := a / 0x400000) in *. unfold initial_pde.
  destruct (Z.eqb_spec i 33) as [E33|E33].
  { unfold present. rewrite (aligned_bit videopTable_addr 0) by (done || lia). cbn [negb orb].
    destruct (Z.ltb_spec a 0x800000); [|done]. subst i. Z.div_mod_to_equations. lia. }
  destruct (Z.eqb_spec i 1) as [E1|E1].
  { unfold present, user_ok, page_size_bit. rewrite !flag_bit by (done || lia).
    change (Z.testbit 131 0) with true. change (Z.testbit 131 2) with false. change (Z.testbit 131 7) with true.
    cbn [negb orb andb]. split; [|done].
    destruct (entry_base pTable2_addr 0x83) as [Er _]; [lia..|].
    rewrite big_base_spec by done. rewrite lor_aligned by (done || lia).
    destruct (Z.ltb_spec a 0x800000); [|subst i; Z.div_mod_to_equations; lia].
    f_equal. subst i. Z.div_mod_to_equations. lia. }
  destruct (Z.eqb_spec i 0) as [E0|E0].
  - unfold present, user_ok, page_size_bit. rewrite !flag_bit by (done || lia).
    change (Z.testbit 3 0) with true. change (Z.testbit 3 2) with false. change (Z.testbit 3 7) with false.
    cbn [negb orb andb]. split; [|done].
    destruct (entry_base pTable_addr 3) as [_ Eb]; [lia..|]. rewrite Eb. unfold table_at. rewrite Z.eqb_refl, bind_some.
    assert (Hj : 0 <= a / 0x1000 mod 1024 < 1024) by (apply Z.mod_pos_bound; lia).
    rewrite paging_init_pte by done. set (j := a / 0x1000 mod 1024) in *.
    rewrite !flag_bit by (lia || apply Z.mod_mul; lia). change (Z.testbit 3 0) with true. cbn [negb orb].
    destruct (entry_base (j * 0x1000) 3) as [_ Ej]; [lia|apply Z.mod_mul; lia|lia|]. rewrite Ej.
    destruct (Z.ltb_spec a 0x800000); [|subst i; Z.div_mod_to_equations; lia].
    f_equal. subst i j. Z.div_mod_to_equations. lia.
  - change (present 2) with false. cbn [negb orb].
    destruct (Z.ltb_spec a 0x800000); [|done]. subst i. Z.div_mod_to_equations. lia.
Qed.

(** Besides the tables, only the cached translation of the program page. *)
Lemma paging_init_frame {L : Layout} {HL : LayoutOK L} s :
  ∃ p, paging_init s = upd_paging (λ _, p) (upd_mem (λ m, mkMem (ram m) 0) s).
Proof.
  assert (Hp : ∃ p, for_up (Z.to_nat num_page_entries) 0 clear_entry s = upd_paging (λ _, p) s).
  { apply (for_up_ind (λ _ t, ∃ p, t = upd_paging (λ _, p) s)); [exists (k_paging s); by destruct s|].
    intros j t _ [p ->]. by eexists. }
  pose proof (paging_init_pde s 32 ltac:(lia)) as H32. unfold paging_init in *.
  destruct Hp as [p Hp]. rewrite Hp in *. set (q := k_paging (install_tables (upd_paging (λ _, p) s))) in *.
  exists q. change (install_tables (upd_paging (λ _, p) s)) with
    (upd_paging (λ _, q) (upd_mem (λ m, mkMem (ram m) (big_base (pDirectory q !!! 32))) s)).
  by rewrite H32.
Qed.

(** The walk only depends on the tables. *)
Lemma walk_tables {L : Layout} s s' user a : k_paging s' = k_paging s → walk s' user a = walk s user a.
Proof. intros E. unfold walk, table_at. by rewrite E. Qed.


