(* ===== verification/SysCalls.v ===== *)
(** * System calls: systemcalls.c

    The descriptor calls [open], [close], [read], [write], dispatched through
    the operation tables; [getargs] and [vidmap]; the command parser and the
    executable test; [execute] and [halt]. *)

From S2P Require Import Prelude Memory LibMem LibStr Video State Console Pic Rtc Process FileSystem Terminal Paging.

Implicit Types s : kernel.

Definition STDIN : Z := 0.
Definition STDOUT : Z := 1.
Definition FD_MIN : Z := 0.
Definition FD_MAX : Z := 7.
Definition PROGRAM_IMAGE_OFFSET : Z := 0x08048000.
Definition ONE_TWENTY_EIGHT_MB : Z := 0x8000000.
Definition video_memory_buffer_loc : Z := 0xB8000.
(** [DELETE], [E], [L], [F] *)
Definition DELETE : Z := 0x7F.
Definition CHAR_E : Z := 0x45.
Definition CHAR_L : Z := 0x4C.
Definition CHAR_F : Z := 0x46.

Definition with_newline (t : string) : string := t +:+ String (Ascii.ascii_of_nat 10) "".

Definition set_occupant (i v : Z) (s : kernel) : kernel :=
  upd_proc (λ p, mkProcesses (<[i := v]> (pcb_occupants p)) (process_previous p)) s.
Definition set_previous (i v : Z) (s : kernel) : kernel :=
  upd_proc (λ p, mkProcesses (pcb_occupants p) (<[i := v]> (process_previous p))) s.
Definition set_esp0 (v : Z) (s : kernel) : kernel :=
  upd_cpu (λ c, mkCpu (esp c) (ebp c) (u32 v) (iflag c)) s.

(** The program page of process [pid]: [(EIGHTMB+(FOURMB*pid))|0x87]. *)
Definition program_pde (pid : Z) : Z := Z.lor (EIGHTMB + FOURMB * pid) 0x87.

(** First index of [i .. i + k - 1] that satisfies a test. *)
Fixpoint find_first (k : nat) (i : Z) (p : Z → bool) : option Z :=
  match k with
  | O => None
  | S k' => if p i then Some i else find_first k' (i + 1) p
  end.

(** The loops of [parse] on the command.  First the length of the word. *)
Definition word_length (m : memory) (cmd : Z) : option Z :=
  while_loop (λ i, if negb (ld8 m (cmd + i) =? SPACE) && negb (ld8 m (cmd + i) =? 0)
                   then inl (i + 1) else inr i) 0.

(** Then one character after the other to the name or to the arguments. *)
Definition parse_step (cmd file arg cmd_length : Z) (st : Z * Z * memory) : (Z * Z * memory) + memory :=
  let '(i, cmd_first, m) := st in
  let c := ld8 m (cmd + i) in
  if negb (c =? 0) then
    if (c =? SPACE) && (cmd_first =? 0) then inl (i + 1, 1, m)
    else if cmd_first =? 1 then inl (i + 1, cmd_first, st8 m (arg + (i - cmd_length - 1)) c)
    else inl (i + 1, cmd_first, st8 m (file + i) c)
  else inr m.

(** [arg[max] = file[max] = 0] and the two clearing loops. *)
Definition clear_buffers (file arg : Z) (m : memory) : memory :=
  let m := st8 m (arg + (ARG_SIZE + 1)) 0 in
  let m := st8 m (file + (ARG_SIZE + 1)) 0 in
  let m := for_up (Z.to_nat (ARG_SIZE + 1)) 0 (λ i m, st8 m (arg + i) 0) m in
  for_up (Z.to_nat (ARG_SIZE + 1)) 0 (λ i m, st8 m (file + i) 0) m.

Section SysCalls.
Context {L : Layout}.

(** ** Operation tables

    A call through the four tables; any other pointer is no table. *)
Definition op_open (table filename : Z) : M Z :=
  if table =? term_table then terminal_open filename
  else if table =? rtc_table then rtc_open filename
  else if table =? directory_table then directory_open filename
  else if table =? file_table then file_open filename
  else crash.
Definition op_read (table fd buf nbytes : Z) : M Z :=
  if table =? term_table then terminal_read fd buf nbytes
  else if table =? rtc_table then rtc_read fd buf nbytes
  else if table =? directory_table then directory_read fd buf nbytes
  else if table =? file_table then file_read fd buf nbytes
  else crash.
Definition op_write (table fd buf nbytes : Z) : M Z :=
  if table =? term_table then terminal_write fd buf nbytes
  else if table =? rtc_table then rtc_write fd buf nbytes
  else if table =? directory_table then directory_write fd buf nbytes
  else if table =? file_table then file_write fd buf nbytes
  else crash.
Definition op_close (table fd : Z) : M Z :=
  if table =? term_table then terminal_close fd
  else if table =? rtc_table then rtc_close fd
  else if table =? directory_table then directory_close fd
  else if table =? file_table then file_close fd
  else crash.

(** ** Descriptor calls *)

Definition open (filename : Z) : M Z :=
  first ← gets (λ s, ld8 s filename);
  if (first =? 0) || (u32 filename =? 0) then
    _ ← printf "invalid filename input to system calls open" []; mret (-1)
  else
    this_pcb ← gets get_pcb;
    r ← read_dentry_by_name filename loc_open_dentry;
    if r =? -1 then
      _ ← printf "read dentry by name failed : system calls open" []; mret (-1)
    else
      type ← gets (λ s, ld32 s (loc_open_dentry + type_off));
      inode ← gets (λ s, ld32 s (loc_open_dentry + dentry_inode_off));
      match (if type =? 0 then Some (rtc_table, 0, u32 (-1))
             else if type =? 1 then Some (directory_table, 0, 0)
             else if type =? 2 then Some (file_table, inode, 0)
             else None) with
      | None => mret (-1)
      | Some (table_ptr, index_node_num, file_pos) =>
          loc ← gets (λ s, find_first 8 0 (λ i, ld32 s (fd_slot this_pcb i + flags_off) =? 0));
          match loc with
          | None => mret (-1)
          | Some loc =>
              _ ← modify_mem (populate_pcb this_pcb loc 1 index_node_num table_ptr file_pos);
              table ← gets (λ s, ld32 s (fd_slot this_pcb loc + op_off));
              _ ← op_open table filename;
              mret loc
          end
      end.

Definition close (fd : Z) : M Z :=
  this_pcb ← gets get_pcb;
  _ ← (if fd =? STDIN then modify_mem (λ m, st32 m (fd_slot this_pcb fd + op_off) term_table) else mret tt);
  fl ← gets (λ s, ld32 s (fd_slot this_pcb fd + flags_off));
  if (fd <? FD_MIN) || (FD_MAX <? fd) || (fl =? OUT_OF_USE) || (fd =? STDOUT) || (fd =? STDIN) then
    _ ← printf "system calls close failed" []; mret (-1)
  else
    _ ← modify_mem (λ m, st32 m (fd_slot this_pcb fd + flags_off) OUT_OF_USE);
    table ← gets (λ s, ld32 s (fd_slot this_pcb fd + op_off));
    op_close table fd.

Definition read (fd buf nbytes : Z) : M Z :=
  this_pcb ← gets get_pcb;
  fl ← gets (λ s, ld32 s (fd_slot this_pcb fd + flags_off));
  if (fl =? OUT_OF_USE) || (u32 buf =? 0) || (fd <? FD_MIN) || (FD_MAX <? fd) || (fd =? STDOUT) then
    _ ← printf "system calls read failed" []; mret (-1)
  else
    _ ← (if fd =? STDIN then modify_mem (λ m, st32 m (fd_slot this_pcb fd + op_off) term_table) else mret tt);
    table ← gets (λ s, ld32 s (fd_slot this_pcb fd + op_off));
    op_read table fd buf nbytes.

Definition write (fd buf nbytes : Z) : M Z :=
  this_pcb ← gets get_pcb;
  fl ← gets (λ s, ld32 s (fd_slot this_pcb fd + flags_off));
  if (fl =? OUT_OF_USE) || (fd =? STDIN) || (u32 buf =? 0) || (fd <? FD_MIN) || (FD_MAX <? fd) then
    _ ← printf "system calls write failed" []; mret (-1)
  else
    table ← gets (λ s, ld32 s (fd_slot this_pcb fd + op_off));
    op_write table fd buf nbytes.

Definition getargs (buf nbytes : Z) : M Z :=
  this_pcb ← gets get_pcb;
  c ← gets (λ s, ld8 s (this_pcb + arguments_off));
  if c =? 0 then _ ← printf "No arguments " []; mret (-1)
  else
    _ ← modify_mem (λ m, memcpy m buf (this_pcb + arguments_off) ARG_SIZE);
    mret 0.

(** The terminal whose process is [pid]: index of the first, or -1. *)
Definition term_of_process (s : kernel) (pid : Z) : Z :=
  default (-1) (find_first 3 0 (λ i, u32 (process_num (term s i)) =? pid)).

Definition vidmap (screen_start : Z) : M Z :=
  limit ← gets (λ s, ONE_TWENTY_EIGHT_MB + FOURMB * (active_terminal s + 1));
  if (u32 screen_start =? 0) || (u32 screen_start <? ONE_TWENTY_EIGHT_MB) || (u32 limit <? u32 screen_start)
  then mret (-1)
  else
    child_pcb ← gets get_pcb;
    process_term_num ← gets (λ s, term_of_process s (ld32 s (child_pcb + process_num_off)));
    _ ← modify (set_pde (33 + process_term_num) (Z.lor videopTable_addr 7));
    _ ← modify (set_video_pte 0 (Z.lor (video_memory_buffer_loc + process_term_num) 7));
    _ ← modify flush_tlb;
    _ ← modify_mem (λ m, st32 m screen_start (ONE_TWENTY_EIGHT_MB + FOURMB * (process_term_num + 1)));
    mret (s32 screen_start).

(** ** Commands *)

Definition parse (cmd file arg : Z) : M unit :=
  if (u32 cmd =? 0) || (u32 file =? 0) || (u32 arg =? 0) then
    _ ← printf "parse function inputs invalid: NULL " []; mret tt
  else
    _ ← modify_mem (clear_buffers file arg);
    m ← gets k_mem;
    cmd_length ← try_opt (word_length m cmd);
    m ← try_opt (while_loop (parse_step cmd file arg cmd_length) (0, 0, m));
    modify_mem (λ _, m).

Definition check_valid (fname : Z) : M Z :=
  if u32 fname =? 0 then _ ← printf "check valid input filename is null " []; mret (-1)
  else
    _ ← modify_mem (for_up 4 0 (λ l m, st8 m (loc_check_valid_buf + l) 0));
    r ← read_dentry_by_name fname loc_check_valid_dentry;
    if r =? -1 then mret (-1)
    else
      inode ← gets (λ s, ld32 s (loc_check_valid_dentry + dentry_inode_off));
      bytes_read ← read_data inode 0 loc_check_valid_buf 4;
      if negb (bytes_read =? 4) then mret (-1)
      else
        b ← gets (λ s, (λ i, s8 (ld8 s (loc_check_valid_buf + i))));
        if negb (b 0 =? DELETE) && negb (b 1 =? CHAR_E) && negb (b 2 =? CHAR_L) && negb (b 3 =? CHAR_F)
        then mret (-1)
        else gets (λ s, s32 (ld32 s (loc_check_valid_dentry + dentry_inode_off))).

(** [go_to_ring_three] (handlers.S) stores its frame pointer twice through
    its second argument, at the start of the block, before the [iret]. *)
Definition go_to_ring_three (n new_execute_pcb : Z) : M Z :=
  frame ← gets (λ s, esp s - ring_three_depth);
  _ ← modify_mem (λ m, st32 (st32 m new_execute_pcb frame) (new_execute_pcb + 4) frame);
  enter_user n.

(** The process slot: the first free one is taken for the active terminal. *)
Definition allocate_pid (s : kernel) : option Z := find_first 6 0 (λ i, pcb_occupants s !!! i =? 0).
Definition claim_pid (pid : Z) (s : kernel) : kernel :=
  let s := set_occupant pid (-1) s in
  let s := set_previous pid (process_num (term s (active_terminal s))) s in
  upd_terminal (active_terminal s) (set_process_num pid) s.

Definition execute (cmd : Z) : M Z :=
  _ ← modify cli;
  if u32 cmd =? 0 then _ ← printf "invalid cmd input into execute" []; mret (-1)
  else
    _ ← parse cmd loc_execute_file_name loc_execute_args;
    curr_inode_num ← check_valid loc_execute_file_name;
    if curr_inode_num =? -1 then
      _ ← printf "curr i node number is invalid | " []; mret (-1)
    else
      pid ← gets allocate_pid;
      match pid with
      | None => _ ← printf "too many processes, " []; mret (-1)
      | Some pid =>
          _ ← modify (claim_pid pid);
          _ ← modify (set_pde 32 (program_pde pid));
          _ ← modify flush_tlb;
          size ← gets (λ s, file_size s curr_inode_num);
          _ ← read_data curr_inode_num 0 PROGRAM_IMAGE_OFFSET size;
          let new_execute_pcb := EIGHTMB - EIGHTKB * (pid + 1) in
          r ← (λ s, let '(r, m) := init_pcb new_execute_pcb pid s in Ret r (upd_mem (λ _, m) s));
          if r =? -1 then _ ← printf "init pcb failed in system calls execute" []; mret (-1)
          else
            _ ← modify_mem (λ m, memcpy m (new_execute_pcb + arguments_off) loc_execute_args ARG_SIZE);
            _ ← modify_mem (λ m, st32 m loc_execute_enter 0);
            _ ← read_data curr_inode_num 24 loc_execute_enter 4;
            _ ← modify (set_esp0 (EIGHTMB - EIGHTKB * pid - 4));
            _ ← modify (λ s, upd_mem (λ m, st32 m (new_execute_pcb + esp_off) (esp s)) s);
            _ ← modify (λ s, upd_mem (λ m, st32 m (new_execute_pcb + ebp_off) (ebp s)) s);
            _ ← modify sti;
            enter ← gets (λ s, ld32 s loc_execute_enter);
            go_to_ring_three enter new_execute_pcb
      end.

(** One descriptor of [halt]. *)
Definition halt_close (child_pcb i : Z) : M unit :=
  fl ← gets (λ s, ld32 s (fd_slot child_pcb i + flags_off));
  _ ← (if fl =? 1 then _ ← close i; mret tt else mret tt);
  _ ← modify_mem (λ m, st32 m (fd_slot child_pcb i + flags_off) OUT_OF_USE);
  modify_mem (λ m, st32 m (fd_slot child_pcb i + op_off) 0).

Definition halt (status : Z) : M Z :=
  child_pcb ← gets get_pcb;
  let ret_status := u32 status in
  _ ← for_upM 6 2 (halt_close child_pcb);
  process_term_num ← gets (λ s, term_of_process s (ld32 s (child_pcb + process_num_off)));
  pid ← gets (λ s, process_num (term s process_term_num));
  _ ← modify (set_occupant pid OUT_OF_USE);
  _ ← (if (pid =? 0) || (pid =? 1) || (pid =? 2) then
         _ ← printf (with_newline "Restarting Shell") [];
         _ ← execute lit_shell;
         mret tt
       else mret tt);
  _ ← modify (λ s, upd_terminal process_term_num (set_process_num (process_previous s !!! pid)) s);
  pid ← gets (λ s, process_num (term s process_term_num));
  _ ← modify (set_pde 32 (program_pde pid));
  _ ← modify flush_tlb;
  _ ← modify (λ s, set_esp0 (ld32 s (child_pcb + esp_off)) s);
  resume (λ s, ld32 s (child_pcb + esp_off)) (λ s, ld32 s (child_pcb + ebp_off)) (λ _, ret_status).

(** ** The gate (handlers.S)

    System call numbers 1 to 8; the three arguments are ebx, ecx and edx. *)
Definition system_call (eax ebx ecx edx : Z) : M Z :=
  let eax := s32 eax in
  if (8 <? eax) || (eax <? 1) then mret (-1)
  else
    r ← (if eax =? 1 then halt ebx
         else if eax =? 2 then execute ebx
         else if eax =? 3 then read (s32 ebx) ecx (s32 edx)
         else if eax =? 4 then write (s32 ebx) ecx (s32 edx)
         else if eax =? 5 then open ebx
         else if eax =? 6 then close (s32 ebx)
         else if eax =? 7 then getargs ebx (s32 ecx)
         else vidmap ebx);
    _ ← modify cli;
    _ ← modify sti;
    mret r.
End SysCalls.

(** ** Tables and descriptors *)

Section SysCallFacts.
Context {L : Layout} {HL : LayoutOK L}.

Lemma tables_distinct :
  term_table ≠ rtc_table ∧ term_table ≠ directory_table ∧ term_table ≠ file_table ∧
  rtc_table ≠ directory_table ∧ rtc_table ≠ file_table ∧ directory_table ≠ file_table.
Proof using HL.
  pose proof (obj_sep 1 2 _ _ eq_refl eq_refl ltac:(done)). pose proof (obj_sep 1 3 _ _ eq_refl eq_refl ltac:(done)).
  pose proof (obj_sep 1 4 _ _ eq_refl eq_refl ltac:(done)). pose proof (obj_sep 2 3 _ _ eq_refl eq_refl ltac:(done)).
  pose proof (obj_sep 2 4 _ _ eq_refl eq_refl ltac:(done)). pose proof (obj_sep 3 4 _ _ eq_refl eq_refl ltac:(done)).
  cbn [fst snd] in *. lia.
Qed.

Lemma tables_range :
  (0 < term_table < 4294967296) ∧ (0 < rtc_table < 4294967296) ∧
  (0 < directory_table < 4294967296) ∧ (0 < file_table < 4294967296).
Proof using HL.
  pose proof (obj_bounds 1 _ eq_refl). pose proof (obj_bounds 2 _ eq_refl).
  pose proof (obj_bounds 3 _ eq_refl). pose proof (obj_bounds 4 _ eq_refl).
  unfold KERNEL_START, KERNEL_END in *. cbn [fst snd] in *. lia.
Qed.

(** An object of the kernel is apart from the block of a process. *)
Lemma obj_pcb_apart m i a n pid :
  objects !! i = Some (a, n) → 0 <= n → 0 <= pid < 6 → apart m a n (pcb_addr pid) PCB_SIZE.
Proof using HL.
  intros Hi Hn Hp. pose proof (obj_bounds i _ Hi) as Hb. cbn [fst snd] in Hb.
  pose proof (lookup_lt_Some _ _ _ Hi) as Hlt. change (length objects) with 19%nat in Hlt.
  pose proof (obj_sep i (19 + Z.to_nat pid) (a, n) (pcb_addr pid, PCB_SIZE)) as Hs. cbn [fst snd] in Hs.
  unfold apart. rewrite <- (Z.add_0_r (pcb_addr pid)), (pcb_phys m _ 0) by
    (by apply pcb_addr_ok || unfold PCB_SIZE; lia).
  unfold KERNEL_START, KERNEL_END in *. rewrite phys_kernel by (unfold PROGRAM_PAGE; lia). rewrite Z.add_0_r.
  apply Hs; [by rewrite lookup_app_l by (by eapply lookup_lt_Some)| |lia].
  assert (pid = 0 ∨ pid = 1 ∨ pid = 2 ∨ pid = 3 ∨ pid = 4 ∨ pid = 5) as
    [->|[->|[->|[->|[->| ->]]]]] by lia; reflexivity.
Qed.

Lemma obj_seg i a n : objects !! i = Some (a, n) → 0 <= n → seg a n.
Proof using HL.
  intros Hi Hn. pose proof (obj_bounds i _ Hi) as Hb. unfold KERNEL_START, KERNEL_END in Hb. cbn [fst snd] in Hb.
  apply seg_kernel; unfold PROGRAM_PAGE; lia.
Qed.

(** The lowest free descriptor. *)
Definition free_fd (s : kernel) : option Z := find_first 8 0 (λ i, flags (get_fd s (get_pcb s) i) =? 0).

Lemma find_first_spec k i p r :
  find_first k i p = Some r → i <= r < i + Z.of_nat k ∧ p r = true ∧ ∀ j, i <= j < r → p j = false.
Proof.
  revert i. induction k as [|k IH]; intros i H; [done|]. cbn in H. destruct (p i) eqn:Hp.
  - injection H as <-. split_and!; [lia|lia|done|]. lia.
  - apply IH in H as (H1 & H2 & H3). split_and!; [lia|lia|done|]. intros j Hj.
    destruct (decide (j = i)) as [->|]; [done|]. apply H3. lia.
Qed.

Lemma find_first_none k i p : find_first k i p = None → ∀ j, i <= j < i + Z.of_nat k → p j = false.
Proof.
  revert i. induction k as [|k IH]; intros i H j Hj; [lia|]. cbn in H. destruct (p i) eqn:Hp; [done|].
  destruct (decide (j = i)) as [->|]; [done|]. apply (IH (i + 1)); [done|lia].
Qed.

Lemma find_first_ext k i p q :
  (∀ j, i <= j < i + Z.of_nat k → p j = q j) → find_first k i p = find_first k i q.
Proof.
  revert i. induction k as [|k IH]; intros i H; [done|]. cbn. rewrite H by lia.
  destruct (q i); [done|]. apply IH. intros j Hj. apply H. lia.
Qed.

(** The descriptor [open] makes from a directory entry. *)
Definition opened (type inode : Z) : option file_descriptor_t :=
  if type =? 0 then Some (mkFd rtc_table 0 4294967295 1)
  else if type =? 1 then Some (mkFd directory_table 0 0 1)
  else if type =? 2 then Some (mkFd file_table inode 0 1)
  else None.

Lemma opened_ok type inode f : 0 <= inode < 4294967296 → opened type inode = Some f → fd_ok f.
Proof using HL.
  intros Hi. pose proof tables_range. unfold opened. intros Ho. repeat case_match; simplify_eq; unfold fd_ok; cbn; lia.
Qed.

(** [op_open] on a table [open] has just stored: always 0, and only the
    clock's local is written. *)
Lemma op_open_run type inode f filename s :
  opened type inode = Some f →
  ∃ s' n g, op_open (descriptor_op_ptr f) filename s = Ret 0 s' ∧
    writes s s' loc_rtc_open_frequency n g ∧ 0 <= n <= 4 ∧ quiet s s'.
Proof using HL.
  intros Ho. pose proof tables_distinct as (D1 & D2 & D3 & D4 & D5 & D6).
  unfold opened in Ho. unfold op_open. pose proof (obj_seg 18 _ _ eq_refl) as Hs. specialize (Hs ltac:(lia)).
  destruct (type =? 0); [|destruct (type =? 1); [|destruct (type =? 2); [|done]]]; injection Ho as <-; cbn [descriptor_op_ptr].
  - destruct (Z.eqb_spec rtc_table term_table); [congruence|]. rewrite Z.eqb_refl.
    exists (add_log (rate_log (inb RTC_RW_PORT s) 15) (upd_mem (λ m, st32 m loc_rtc_open_frequency RTC_DEFAULT_RATE) s)), 4, (word_byte RTC_DEFAULT_RATE).
    split; [apply rtc_open_run|]. split; [by apply writes_st32|]. split_and!; [lia|lia|done..].
  - destruct (Z.eqb_spec directory_table term_table); [congruence|].
    destruct (Z.eqb_spec directory_table rtc_table); [congruence|]. rewrite Z.eqb_refl.
    exists s, 0, (λ _, 0). split; [done|]. split; [apply writes_nil|]. split_and!; [lia|lia|done..].
  - destruct (Z.eqb_spec file_table term_table); [congruence|].
    destruct (Z.eqb_spec file_table rtc_table); [congruence|].
    destruct (Z.eqb_spec file_table directory_table); [congruence|]. rewrite Z.eqb_refl.
    exists s, 0, (λ _, 0). split; [done|]. split; [apply writes_nil|]. split_and!; [lia|lia|done..].
Qed.

(** What a process call can rely on: the stack, the image and the cursor. *)
Record process_ok (pid : Z) (s : kernel) : Prop := {
  po_stack : on_stack pid s;
  po_image : image_ok s;
  po_nodes : 0 < num_index_nodes s;
  po_apart : image_apart s;
  po_cursor : cursor_ok s;
}.

Lemma process_pcb pid s : process_ok pid s → get_pcb s = pcb_addr pid ∧ pcb_ok (pcb_addr pid) ∧ 0 <= pid < 6.
Proof.
  intros [Hs _ _ _ _]. pose proof (get_pcb_stack pid s Hs). destruct Hs as [Hp _].
  split; [done|]. split; [by apply pcb_addr_ok|done].
Qed.

(** A name the kernel can look up. *)
Definition is_name (s : kernel) (p : Z) (l : list Z) : Prop :=
  u32 p ≠ 0 ∧ cstring s p l ∧ l ≠ [] ∧ Z.of_nat (length l) <= NAME_SIZE.

Lemma name_first s p l : is_name s p l → ld8 s p ≠ 0.
Proof.
  intros (_ & Hc & Hne & _). rewrite <- (Z.add_0_r p). apply (cstring_nz s p l); [done|].
  destruct l; [done|cbn; lia].
Qed.

Lemma message_only {A} format (r : A) s :
  plain format = true → cursor_ok s →
  ∃ s', (_ ← printf format []; mret r) s = Ret r s' ∧ says (bytes_of format) s s'.
Proof using HL.
  intros Hp Hc. destruct (printf_message format s Hp Hc) as (n & s' & He & Ho).
  exists s'. split; [by rewrite (bind_ret _ _ _ _ _ He)|done].
Qed.

Lemma fd_table_console s s' pcb : pcb_ok pcb → console_only s s' → fd_table s' pcb = fd_table s pcb.
Proof.
  intros Hp Ho. apply fd_table_ext; [done|]. intros j Hj. rewrite fd_table_lookup by done. f_equal.
  assert (Hw : ∀ off, 0 <= off → off + 4 <= PCB_SIZE → ld32 s' (pcb + off) = ld32 s (pcb + off)).
  { intros off H1 H2. unfold ld32. rewrite !(console_only_ld8 s s' _ Ho); [done|..];
      unfold off_screen; rewrite <- ?Z.add_assoc, pcb_phys by (done || lia);
      unfold pcb_ok, VIDEO, PAGE_BYTES, KERNEL_START, KERNEL_END, PCB_SIZE in *; lia. }
  unfold get_fd. rewrite !slot_off, !Hw; [done|unfold PCB_SIZE, op_off, inode_off, pos_off, flags_off; lia..].
Qed.

(** The type and the index node of a directory entry. *)
Definition dentry_type (s : kernel) (k : Z) : Z := ld32 s (dentry_addr s k + 32).
Definition dentry_inode (s : kernel) (k : Z) : Z := ld32 s (dentry_addr s k + 36).

(** The entry in the local of [open]. *)
Lemma open_lookup pid s filename l k :
  process_ok pid s → is_name s filename l → find_dentry s l = Some k →
  ∃ m1, read_dentry_by_name filename loc_open_dentry s = Ret 0 (upd_mem (λ _, m1) s) ∧
    copied s m1 loc_open_dentry (dentry_addr s k) 64 ∧
    ld32 m1 (loc_open_dentry + type_off) = dentry_type s k ∧
    ld32 m1 (loc_open_dentry + dentry_inode_off) = dentry_inode s k ∧
    fd_table m1 (pcb_addr pid) = fd_table s (pcb_addr pid) ∧
    (∀ j, 0 <= j < 8 → get_fd m1 (pcb_addr pid) j = get_fd s (pcb_addr pid) j).
Proof using HL.
  intros Hpo (Hp & Hc & Hne & Hlen) Hk. destruct (process_pcb pid s Hpo) as (Hpcb & Hpok & Hpid).
  destruct Hpo as [Hst Himg HN Hap Hcur].
  pose proof (obj_user_buf s 12 loc_open_dentry 64 Himg Hap eq_refl ltac:(lia)) as Hu.
  pose proof (obj_bounds 12 _ eq_refl) as Hb. cbn [fst snd] in Hb. unfold KERNEL_START, KERNEL_END in Hb.
  pose proof (read_dentry_by_name_run s filename l loc_open_dentry Himg HN Hp) as H.
  rewrite Hk in H. destruct H as (m1 & He & Hcp); [rewrite u32_small; lia|done|done|done|].
  pose proof (obj_pcb_apart s 12 loc_open_dentry 64 pid eq_refl ltac:(lia) Hpid) as Ha.
  pose proof (obj_seg 12 loc_open_dentry 64 eq_refl ltac:(lia)) as Hsg.
  exists m1. split; [done|]. split; [done|].
  split; [by apply (copied_ld32 s m1 _ _ 64 32); [..|lia|unfold type_off; lia]|].
  split; [by apply (copied_ld32 s m1 _ _ 64 36); [..|lia|unfold dentry_inode_off; lia]|].
  split; [by apply (fd_table_frame _ _ _ _ _ _ Hcp)|].
  intros j Hj. by apply (get_fd_frame _ _ _ _ _ _ _ Hcp).
Qed.

Lemma open_run pid s filename l :
  process_ok pid s → is_name s filename l →
  match find_dentry s l with
  | None => ∃ s', open filename s = Ret (-1) s' ∧
      says (bytes_of "read dentry by name failed : system calls open") s s'
  | Some k =>
      match opened (dentry_type s k) (dentry_inode s k), free_fd s with
      | Some f, Some i =>
          ∃ s', open filename s = Ret i s' ∧ quiet s s' ∧
            fd_table s' (get_pcb s) = <[Z.to_nat i := f]> (fd_table s (get_pcb s)) ∧
            (∃ m1 m2 n g, copied s m1 loc_open_dentry (dentry_addr s k) 64 ∧
               m2 = populate_pcb (get_pcb s) i 1 (inode_num f) (descriptor_op_ptr f) (file_pos f) m1 ∧
               writes m2 s' loc_rtc_open_frequency n g ∧ 0 <= n <= 4)
      | _, _ => ∃ m1, open filename s = Ret (-1) (upd_mem (λ _, m1) s) ∧ copied s m1 loc_open_dentry (dentry_addr s k) 64 ∧
          fd_table m1 (get_pcb s) = fd_table s (get_pcb s)
      end
  end.
Proof using HL.
  intros Hpo Hn. pose proof (name_first s filename l Hn) as Hnz.
  destruct (process_pcb pid s Hpo) as (Hpcb & Hpok & Hpid).
  unfold open. rewrite (bind_ret _ _ s (ld8 s filename) s) by done.
  pose proof Hn as (Hp & _ & _ & _). apply Z.eqb_neq in Hnz, Hp. rewrite Hnz, Hp. cbn [orb].
  rewrite (bind_ret _ _ s (get_pcb s) s) by done.
  destruct (find_dentry s l) as [k|] eqn:Hk.
  - destruct (open_lookup pid s filename l k Hpo Hn Hk) as (m1 & He & Hcp & Hty & Hin & Htab & Hfds).
    rewrite (bind_ret _ _ _ _ _ He). change (0 =? -1) with false. cbv iota.
    set (s1 := upd_mem (λ _, m1) s).
    rewrite (bind_ret _ _ s1 (dentry_type s k) s1) by (unfold gets; by rewrite <- Hty).
    rewrite (bind_ret _ _ s1 (dentry_inode s k) s1) by (unfold gets; by rewrite <- Hin).
    set (choice := if dentry_type s k =? 0 then _ else _).
    assert (Hch : choice = (f ← opened (dentry_type s k) (dentry_inode s k);
                            Some (descriptor_op_ptr f, inode_num f, file_pos f))).
    { subst choice. unfold opened. by repeat case_match. }
    rewrite Hch. clear choice Hch.
    destruct (opened (dentry_type s k) (dentry_inode s k)) as [f|] eqn:Hf; cbn [mbind option_bind].
    + assert (Hfree : find_first 8 0 (λ i, ld32 s1 (fd_slot (get_pcb s) i + flags_off) =? 0) = free_fd s).
      { unfold free_fd. apply find_first_ext. intros j Hj. rewrite Hpcb.
        change (ld32 s1 (fd_slot (pcb_addr pid) j + flags_off)) with (flags (get_fd m1 (pcb_addr pid) j)).
        by rewrite Hfds. }
      rewrite (bind_ret _ _ s1 (free_fd s) s1) by (unfold gets; by rewrite Hfree).
      destruct (free_fd s) as [i|] eqn:Hi.
      * apply find_first_spec in Hi as (Hi & _ & _).
        set (m2 := populate_pcb (get_pcb s) i 1 (inode_num f) (descriptor_op_ptr f) (file_pos f) m1).
        set (s2 := upd_mem (λ _, m2) s1).
        rewrite (bind_ret _ _ s1 tt s2) by (unfold modify_mem, modify; by rewrite upd_mem_at).
        assert (Hfok : fd_ok f) by (apply (opened_ok (dentry_type s k) (dentry_inode s k)); [apply ld32_range|done]).
        assert (Hfl : flags f = 1) by (revert Hf; unfold opened; intros; repeat case_match; by simplify_eq).
        assert (Ht2 : fd_table m2 (pcb_addr pid) = <[Z.to_nat i := f]> (fd_table s (pcb_addr pid))).
        { subst m2. rewrite Hpcb, <- Hfl, populate_table by (done || lia). by rewrite Htab. }
        assert (Hop : ld32 s2 (fd_slot (get_pcb s) i + op_off) = descriptor_op_ptr f).
        { rewrite Hpcb. change (ld32 s2 (fd_slot (pcb_addr pid) i + op_off)) with (descriptor_op_ptr (get_fd m2 (pcb_addr pid) i)).
          pose proof (fd_table_lookup m2 (pcb_addr pid) i ltac:(lia)) as Hl. rewrite Ht2 in Hl.
          rewrite list_lookup_insert_eq in Hl by (rewrite fd_table_length; lia). by injection Hl as <-. }
        rewrite (bind_ret _ _ s2 (descriptor_op_ptr f) s2) by (unfold gets; by rewrite Hop).
        destruct (op_open_run _ _ f filename s2 Hf) as (s3 & n & g & He3 & Hw & Hn4 & Hq).
        rewrite (bind_ret _ _ _ _ _ He3). exists s3. split; [done|]. split; [by transitivity s2|].
        split; [|by exists m1, m2, n, g].
        rewrite Hpcb, <- Ht2. apply (fd_table_frame _ _ _ _ _ _ Hw); [done|].
        pose proof (obj_pcb_apart s2 18 loc_rtc_open_frequency 4 pid eq_refl ltac:(lia) Hpid) as Ha.
        unfold apart in *. lia.
      * exists m1. split; [done|]. split; [done|]. by rewrite Hpcb.
    + exists m1. split; [done|]. split; [done|]. by rewrite Hpcb.
  - destruct Hn as (Hp' & Hc & Hne & Hlen). destruct Hpo as [Hst Himg HN Hap Hcur].
    pose proof (obj_user_buf s 12 loc_open_dentry 64 Himg Hap eq_refl ltac:(lia)) as Hu.
    pose proof (obj_bounds 12 _ eq_refl) as Hb. cbn [fst snd] in Hb. unfold KERNEL_START, KERNEL_END in Hb.
    pose proof (read_dentry_by_name_run s filename l loc_open_dentry Himg HN Hp') as H.
    rewrite Hk in H. rewrite (bind_ret _ _ _ (-1) s) by (apply H; [rewrite u32_small; lia|done..]).
    change (-1 =? -1) with true. cbv iota. by apply message_only.
Qed.
End SysCallFacts.

(** ** Process 0 on the example image, for the witnesses *)

Lemma example_process_ok : process_ok (L := example_layout) 0 example_image.
Proof.
  split; [vm_compute; split; split; congruence|exact example_image_ok|by vm_compute| |by vm_compute].
  intros i o Hi. assert (image_base example_image + image_bytes example_image = 0x506000) as -> by (vm_compute; reflexivity).
  change (image_base example_image) with 0x500000.
  assert (Hall : forallb (λ o, (o.1 + o.2 <=? 0x500000) || (0x506000 <=? o.1)) (objects (H := example_layout) ++ pcb_objects) = true)
    by (vm_compute; reflexivity).
  rewrite forallb_forall in Hall. specialize (Hall o).
  rewrite orb_true_iff, !Z.leb_le in Hall. apply Hall, list_elem_of_In, list_elem_of_lookup. by exists i.
Qed.

Lemma example_name : is_name example_image 0x8100000 [0x66].
Proof.
  split_and!; [by vm_compute| |done|by vm_compute].
  split_and!; [by repeat constructor| |by vm_compute].
  intros [|i] c Hi; [|by destruct i]. injection Hi as <-. by vm_compute.
Qed.

(** [open] on a name takes the lowest free descriptor for it, with the
    operations of the file's type, the index node of a regular file and
    position 0 (-1 for the clock), and returns its number; it returns -1 and
    leaves every descriptor as it was when the directory has no such name,
    when the type is none of the three, and when the eight are in use. *)
Theorem open_correct {L : Layout} {HL : LayoutOK L} (pid : Z) (s : kernel) (filename : Z) (l : list Z) :
  process_ok pid s → is_name s filename l →
  let fds := fd_table s (pcb_addr pid) in
  ∃ r s', open filename s = Ret r s' ∧
    match find_dentry s l with
    | Some k =>
        match opened (dentry_type s k) (dentry_inode s k), free_fd s with
        | Some f, Some i => r = i ∧ fd_table s' (pcb_addr pid) = <[Z.to_nat i := f]> fds
        | _, _ => r = -1 ∧ fd_table s' (pcb_addr pid) = fds
        end
    | None => r = -1 ∧ fd_table s' (pcb_addr pid) = fds
    end.
Proof.
  intros Hpo Hn fds. destruct (process_pcb pid s Hpo) as (Hpcb & Hpok & Hpid).
  pose proof (open_run pid s filename l Hpo Hn) as H. rewrite Hpcb in H.
  destruct (find_dentry s l) as [k|].
  - destruct (opened _ _) as [f|]; [destruct (free_fd s) as [i|]|].
    + destruct H as (s' & He & _ & Ht & _). by exists i, s'.
    + destruct H as (m' & He & _ & Ht). by exists (-1), (upd_mem (λ _, m') s).
    + destruct H as (m' & He & _ & Ht). by exists (-1), (upd_mem (λ _, m') s).
  - destruct H as (s' & He & Ho & _). exists (-1), s'. split; [done|]. split; [done|]. by apply fd_table_console.
Qed.

Lemma open_correct_witness :
  process_ok (L := example_layout) 0 example_image ∧
  ∃ s', open (L := example_layout) 0x8100000 example_image = Ret 0 s' ∧
    fd_table s' (pcb_addr 0) = <[0%nat := mkFd 0x411030 1 0 1]> (fd_table example_image (pcb_addr 0)).
Proof.
  split; [exact example_process_ok|].
  destruct (open_correct (L := example_layout) 0 example_image 0x8100000 [0x66] example_process_ok example_name)
    as (r & s' & He & Ht).
  replace (find_dentry example_image [0x66]) with (Some 0) in Ht by (vm_compute; reflexivity).
  replace (opened (L := example_layout) (dentry_type example_image 0) (dentry_inode example_image 0))
    with (Some (mkFd 0x411030 1 0 1)) in Ht by (vm_compute; reflexivity).
  replace (free_fd example_image) with (Some 0) in Ht by (vm_compute; reflexivity).
  destruct Ht as [-> Ht]. exists s'. split; [exact He|exact Ht].
Defined.

Section ReadWriteFacts.
Context {L : Layout} {HL : LayoutOK L}.

Lemma read_dispatch pid s fd buf nbytes :
  process_ok pid s → 2 <= fd <= 7 → flags (get_fd s (pcb_addr pid) fd) ≠ 0 → u32 buf ≠ 0 →
  read fd buf nbytes s = op_read (descriptor_op_ptr (get_fd s (pcb_addr pid) fd)) fd buf nbytes s.
Proof using HL.
  intros Hpo Hfd Hfl Hb. destruct (process_pcb pid s Hpo) as (Hpcb & Hpok & Hpid).
  unfold read. rewrite (bind_ret _ _ s (get_pcb s) s) by done. rewrite Hpcb.
  rewrite (bind_ret _ _ s (flags (get_fd s (pcb_addr pid) fd)) s) by done.
  unfold OUT_OF_USE, FD_MIN, FD_MAX, STDIN, STDOUT. apply Z.eqb_neq in Hfl, Hb. rewrite Hfl, Hb.
  destruct (Z.ltb_spec fd 0), (Z.ltb_spec 7 fd), (Z.eqb_spec fd 1), (Z.eqb_spec fd 0); try lia. done.
Qed.

Lemma write_dispatch pid s fd buf nbytes :
  process_ok pid s → 1 <= fd <= 7 → flags (get_fd s (pcb_addr pid) fd) ≠ 0 → u32 buf ≠ 0 →
  write fd buf nbytes s = op_write (descriptor_op_ptr (get_fd s (pcb_addr pid) fd)) fd buf nbytes s.
Proof using HL.
  intros Hpo Hfd Hfl Hb. destruct (process_pcb pid s Hpo) as (Hpcb & Hpok & Hpid).
  unfold write. rewrite (bind_ret _ _ s (get_pcb s) s) by done. rewrite Hpcb.
  rewrite (bind_ret _ _ s (flags (get_fd s (pcb_addr pid) fd)) s) by done.
  unfold OUT_OF_USE, FD_MIN, FD_MAX, STDIN, STDOUT. apply Z.eqb_neq in Hfl, Hb. rewrite Hfl, Hb.
  destruct (Z.ltb_spec fd 0), (Z.ltb_spec 7 fd), (Z.eqb_spec fd 0); try lia. done.
Qed.

Lemma op_read_file fd buf nbytes s : op_read file_table fd buf nbytes s = file_read fd buf nbytes s.
Proof using HL.
  destruct tables_distinct as (_ & _ & D3 & _ & D5 & D6). unfold op_read.
  destruct (Z.eqb_spec file_table term_table); [congruence|]. destruct (Z.eqb_spec file_table rtc_table); [congruence|].
  destruct (Z.eqb_spec file_table directory_table); [congruence|]. by rewrite Z.eqb_refl.
Qed.

(** The image after a successful [open]. *)
Lemma open_keeps_image pid s s' k i f m1 m2 n g :
  process_ok pid s → 0 <= i < 8 → copied s m1 loc_open_dentry (dentry_addr s k) 64 →
  m2 = populate_pcb (pcb_addr pid) i 1 (inode_num f) (descriptor_op_ptr f) (file_pos f) m1 →
  writes m2 s' loc_rtc_open_frequency n g → 0 <= n <= 4 →
  upage s' = upage s ∧ ∀ p, image_base s <= p < image_base s + image_bytes s → peek s' p = peek s p.
Proof using HL.
  intros Hpo Hi Hcp Hm2 Hw Hn. destruct (process_pcb pid s Hpo) as (Hpcb & Hpok & Hpid).
  destruct Hpo as [_ Himg _ Hap _].
  assert (H2 : writes m1 m2 (fd_slot (pcb_addr pid) i) 16 (λ j, ld8 m2 (fd_slot (pcb_addr pid) i + j))).
  { subst m2. apply populate_writes; done. }
  split. { by rewrite (writes_upage _ _ _ _ _ Hw), (writes_upage _ _ _ _ _ H2), (writes_upage _ _ _ _ _ Hcp). }
  intros p Hp. destruct Hw as [_ ->], H2 as [_ ->], Hcp as [_ ->].
  pose proof (obj_bounds 12 _ eq_refl) as B1. pose proof (obj_bounds 18 _ eq_refl) as B2. cbn [fst snd] in *.
  pose proof (Hap 12%nat _ eq_refl) as A1. pose proof (Hap 18%nat _ eq_refl) as A2.
  pose proof (Hap (19 + Z.to_nat pid)%nat (pcb_addr pid, PCB_SIZE)) as A3. cbn [fst snd] in *.
  specialize (A3 ltac:(assert (pid = 0 ∨ pid = 1 ∨ pid = 2 ∨ pid = 3 ∨ pid = 4 ∨ pid = 5) as
    [->|[->|[->|[->|[->| ->]]]]] by lia; reflexivity)).
  unfold KERNEL_START, KERNEL_END in *.
  assert (Hph : phys m1 (fd_slot (pcb_addr pid) i) = fd_slot (pcb_addr pid) i).
  { rewrite <- (Z.add_0_r (fd_slot _ _)), slot_off. apply pcb_phys; [done|unfold PCB_SIZE; lia]. }
  rewrite Hph, !(phys_kernel _ loc_rtc_open_frequency), (phys_kernel _ loc_open_dentry) by (unfold PROGRAM_PAGE; lia).
  unfold fd_slot, PCB_SIZE in *.
  destruct (in_rangeP loc_rtc_open_frequency (loc_rtc_open_frequency + n) p); [lia|].
  destruct (in_rangeP (pcb_addr pid + 16 * i) (pcb_addr pid + 16 * i + 16) p); [lia|].
  destruct (in_rangeP loc_open_dentry (loc_open_dentry + 64) p); [lia|]. done.
Qed.

(** The state after a successful [open] is again one to call from. *)
Lemma process_ok_open pid s s' :
  process_ok pid s → k_cpu s' = k_cpu s → k_con s' = k_con s → k_fs s' = k_fs s →
  (∀ p, image_base s <= p < image_base s + image_bytes s → peek s' p = peek s p) → process_ok pid s'.
Proof using HL.
  intros [Hst Himg HN Hap Hcur] Hcpu Hcon Hfs Hpk.
  destruct (same_counts s s' Hfs Himg Hpk) as [H1 H2]. split.
  - unfold on_stack. by rewrite Hcpu.
  - by apply (same_image_ok s).
  - by rewrite H1.
  - intros i o Hi. unfold image_base, image_bytes. rewrite H1, H2, Hfs. by apply (Hap i).
  - unfold cursor_ok. by rewrite Hcon.
Qed.

Lemma open_read_run pid s filename l k i buf nbytes :
  let ino := dentry_inode s k in let n := Z.min nbytes (file_size s ino) in
  process_ok pid s → is_name s filename l → find_dentry s l = Some k → dentry_type s k = 2 → file_ok s ino →
  free_fd s = Some i → 2 <= i → u32 buf ≠ 0 → 0 <= nbytes < 4294967296 →
  read_buf s buf n →
  ∃ s1 s2, open filename s = Ret i s1 ∧ read i buf nbytes s1 = Ret n s2 ∧
    ∀ j, 0 <= j < n → ld8 s2 (buf + j) = file_byte s ino j.
Proof using HL.
  intros ino n Hpo Hn Hk Hty Hfile Hi Hi2 Hb Hnb Hbuf.
  destruct (process_pcb pid s Hpo) as (Hpcb & Hpok & Hpid).
  pose proof (open_run pid s filename l Hpo Hn) as H. rewrite Hk, Hi, Hty in H. cbn [opened Z.eqb Pos.eqb] in H.
  destruct H as (s1 & He1 & [Hcpu Hcon _ Hfs _ _] & Ht & m1 & m2 & n1 & g & Hcp & Hm2 & Hw & Hn1).
  rewrite Hpcb in Ht, Hm2.
  pose proof (find_first_spec _ _ _ _ Hi) as (Hi8 & _ & _).
  destruct (open_keeps_image pid s s1 k i _ m1 m2 n1 g Hpo ltac:(lia) Hcp Hm2 Hw Hn1) as [Hup Hpk].
  pose proof (process_ok_open pid s s1 Hpo Hcpu Hcon Hfs Hpk) as Hpo1.
  destruct (process_pcb pid s1 Hpo1) as (Hpcb1 & _ & _).
  pose proof (po_image pid s Hpo) as Himg.
  destruct (same_file s s1 Hfs Himg Hpk ino Hfile) as (Hf1 & Hsz & Hby).
  fold ino in Ht.
  assert (Hfd : get_fd s1 (pcb_addr pid) i = mkFd file_table ino 0 1).
  { pose proof (fd_table_lookup s1 (pcb_addr pid) i ltac:(lia)) as Hl. rewrite Ht in Hl.
    rewrite list_lookup_insert_eq in Hl by (rewrite fd_table_length; lia). by apply Some_inj in Hl. }
  pose proof tables_range as (_ & _ & _ & Hft).
  pose proof (file_size_bound s ino Hfile) as Hszb.
  assert (Hopen : open_file s1 i).
  { split; rewrite ?Hpcb1, ?Hfd; cbn; [done|lia|done|lia|by apply (po_image pid)|done]. }
  pose proof (file_read_run s1 i buf nbytes) as Hr. rewrite Hpcb1, Hfd in Hr. cbn [inode_num file_pos] in Hr.
  assert (Hcount : read_count (file_size s1 ino) 0 nbytes = n).
  { rewrite Hsz. unfold read_count, n. destruct (Z.leb_spec (file_size s ino) 0); lia. }
  rewrite Hcount in Hr.
  destruct Hr as (m3 & Hw3 & He3); [done|done|lia|lia| |].
  { destruct Hbuf as [[Hs1 Ha1] Ha2]. destruct (same_counts s s1 Hfs Himg Hpk) as [C1 C2].
    rewrite Hpcb in Ha2. unfold read_buf, user_buf, apart, image_base, image_bytes in *.
    rewrite C1, C2, Hfs, Hpcb1, !(phys_upage s s1) by done. split; [split|]; done. }
  exists s1. eexists. split; [done|].
  rewrite (read_dispatch pid s1) by (done || (rewrite Hfd; done) || lia). rewrite Hfd. cbn [descriptor_op_ptr].
  rewrite op_read_file, He3. split; [done|].
  intros j Hj. rewrite k_mem_upd. unfold ld8. rewrite phys_st32, st32_pos_peek; [|done|lia|].
  - fold (ld8 m3 (buf + j)). destruct Hbuf as [[Hs1 _] _]. rewrite (writes_at _ _ _ _ _ _ Hw3 Hs1) by lia.
    rewrite Z.add_0_l. apply Hby. lia.
  - destruct Hbuf as [[Hs1 _] Ha2]. rewrite Hpcb in Ha2.
    rewrite (writes_phys _ _ _ _ _ _ Hw3), (phys_upage s s1), (phys_seg s buf n) by (done || lia).
    unfold apart in Ha2. rewrite <- (Z.add_0_r (pcb_addr pid)), (pcb_phys s _ 0) in Ha2 by
      (done || unfold PCB_SIZE; lia). lia.
Qed.
End ReadWriteFacts.

(** C21: reading a file through the system calls gives the file: open a
    regular file by name with a descriptor free, read [nbytes] from it, and
    the call returns the smaller of [nbytes] and the file's size with the
    first bytes of the file in the buffer. *)
Theorem open_read_file {L : Layout} {HL : LayoutOK L} (pid : Z) (s : kernel) (filename : Z) (l : list Z)
    (k i buf nbytes : Z) :
  let ino := dentry_inode s k in let n := Z.min nbytes (file_size s ino) in
  process_ok pid s → is_name s filename l → find_dentry s l = Some k → dentry_type s k = 2 → file_ok s ino →
  free_fd s = Some i → 2 <= i → u32 buf ≠ 0 → 0 <= nbytes < 4294967296 → read_buf s buf n →
  ∃ s1 s2, open filename s = Ret i s1 ∧ read i buf nbytes s1 = Ret n s2 ∧
    ∀ j, 0 <= j < n → ld8 s2 (buf + j) = file_byte s ino j.
Proof. apply open_read_run. Qed.

(** Descriptors 0 and 1 in use, as in every process. *)
Definition busy_image : kernel :=
  upd_mem (λ m, st32 (st32 m (fd_slot 0x7FE000 0 + flags_off) 1) (fd_slot 0x7FE000 1 + flags_off) 1) example_image.

Lemma busy_keeps p : image_base example_image <= p < image_base example_image + image_bytes example_image →
  peek busy_image p = peek example_image p.
Proof.
  assert (image_base example_image + image_bytes example_image = 0x506000) as -> by (vm_compute; reflexivity).
  change (image_base example_image) with 0x500000. intros Hp. unfold busy_image. rewrite k_mem_upd.
  destruct (writes_st32 (st32 example_image (fd_slot 0x7FE000 0 + flags_off) 1) (fd_slot 0x7FE000 1 + flags_off) 1)
    as [_ ->]; [closed_segment|].
  destruct (writes_st32 example_image (fd_slot 0x7FE000 0 + flags_off) 1) as [_ ->]; [closed_segment|].
  change (phys (st32 example_image (fd_slot 0x7FE000 0 + flags_off) 1) (fd_slot 0x7FE000 1 + flags_off)) with 0x7FE01C.
  change (phys example_image (fd_slot 0x7FE000 0 + flags_off)) with 0x7FE00C.
  destruct (in_rangeP 0x7FE01C (0x7FE01C + 4) p); [lia|]. by destruct (in_rangeP 0x7FE00C (0x7FE00C + 4) p); [lia|].
Qed.

Lemma open_read_file_witness :
  process_ok (L := example_layout) 0 busy_image ∧
  ∃ s1 s2, open (L := example_layout) 0x8100000 busy_image = Ret 4 s1 ∧
    read (L := example_layout) 4 0x8200000 8 s1 = Ret 8 s2 ∧
    ∀ j, 0 <= j < 8 → ld8 s2 (0x8200000 + j) = file_byte busy_image 1 j.
Proof.
  assert (Hpo : process_ok (L := example_layout) 0 busy_image).
  { exact (process_ok_open (L := example_layout) 0 example_image busy_image example_process_ok
             eq_refl eq_refl eq_refl busy_keeps). }
  split; [exact Hpo|].
  destruct (same_file example_image busy_image eq_refl example_image_ok busy_keeps 1 example_file_ok) as (Hf & _ & _).
  pose proof (open_read_file (L := example_layout) 0 busy_image 0x8100000 [0x66] 0 4 0x8200000 8 Hpo) as H. cbv zeta in H.
  replace (dentry_inode busy_image 0) with 1 in H by (vm_compute; reflexivity).
  replace (Z.min 8 (file_size busy_image 1)) with 8 in H by (vm_compute; reflexivity).
  apply H; [|by vm_compute|by vm_compute|exact Hf|by vm_compute|lia|by vm_compute|lia|].
  - split_and!; [by vm_compute| |done|by vm_compute].
    split_and!; [by repeat constructor| |by vm_compute].
    intros [|i] c Hi; [|by destruct i]. injection Hi as <-. by vm_compute.
  - split; [split|]; closed_segment.
Defined.

(** A call refused: its message on the screen, the result -1, nothing else. *)
Lemma read_refused {L : Layout} {HL : LayoutOK L} (s : kernel) (fd buf nbytes : Z) :
  cursor_ok s →
  flags (get_fd s (get_pcb s) fd) = OUT_OF_USE ∨ (fd < FD_MIN ∨ FD_MAX < fd) ∨ u32 buf = 0 ∨ fd = STDOUT →
  ∃ s', read fd buf nbytes s = Ret (-1) s' ∧ says (bytes_of "system calls read failed") s s'.
Proof.
  intros Hc H. unfold read. set (fl := flags (get_fd s (get_pcb s) fd)) in *.
  rewrite (bind_ret _ _ s (get_pcb s) s), (bind_ret _ _ s fl s) by done.
  replace ((fl =? OUT_OF_USE) || (u32 buf =? 0) || (fd <? FD_MIN) || (FD_MAX <? fd) || (fd =? STDOUT)) with true.
  { by apply message_only. }
  symmetry. rewrite !orb_true_iff, !Z.eqb_eq, !Z.ltb_lt. tauto.
Qed.

Lemma write_refused {L : Layout} {HL : LayoutOK L} (s : kernel) (fd buf nbytes : Z) :
  cursor_ok s →
  flags (get_fd s (get_pcb s) fd) = OUT_OF_USE ∨ (fd < FD_MIN ∨ FD_MAX < fd) ∨ u32 buf = 0 ∨ fd = STDIN →
  ∃ s', write fd buf nbytes s = Ret (-1) s' ∧ says (bytes_of "system calls write failed") s s'.
Proof.
  intros Hc H. unfold write. set (fl := flags (get_fd s (get_pcb s) fd)) in *.
  rewrite (bind_ret _ _ s (get_pcb s) s), (bind_ret _ _ s fl s) by done.
  replace ((fl =? OUT_OF_USE) || (fd =? STDIN) || (u32 buf =? 0) || (fd <? FD_MIN) || (FD_MAX <? fd)) with true.
  { by apply message_only. }
  symmetry. rewrite !orb_true_iff, !Z.eqb_eq, !Z.ltb_lt. tauto.
Qed.



Section CloseFacts.
Context {L : Layout} {HL : LayoutOK L}.

Definition known_table (t : Z) : Prop :=
  t = term_table ∨ t = rtc_table ∨ t = directory_table ∨ t = file_table.

Lemma op_close_known t fd s : known_table t → op_close t fd s = Ret 0 s.
Proof using HL.
  destruct tables_distinct as (D1 & D2 & D3 & D4 & D5 & D6). unfold op_close.
  intros [->|[->|[->| ->]]]; repeat bcase_one; done || congruence.
Qed.

Definition set_flags (v : Z) (f : file_descriptor_t) : file_descriptor_t :=
  mkFd (descriptor_op_ptr f) (inode_num f) (file_pos f) v.
Definition set_op (v : Z) (f : file_descriptor_t) : file_descriptor_t :=
  mkFd v (inode_num f) (file_pos f) (flags f).

Lemma set_flags_table m pcb fd v :
  pcb_ok pcb → 0 <= fd < 8 →
  fd_table (st32 m (fd_slot pcb fd + flags_off) v) pcb =
  <[Z.to_nat fd := set_flags (u32 v) (get_fd m pcb fd)]> (fd_table m pcb).
Proof.
  intros Hp Hf. apply fd_table_insert; [done|]. intros j Hj. unfold get_fd. pcb_words.
  destruct (Z.eqb_spec fd j) as [->|Hne]; unfold set_flags; cbn; f_equal; bcase; done.
Qed.

Lemma set_op_table m pcb fd v :
  pcb_ok pcb → 0 <= fd < 8 →
  fd_table (st32 m (fd_slot pcb fd + op_off) v) pcb =
  <[Z.to_nat fd := set_op (u32 v) (get_fd m pcb fd)]> (fd_table m pcb).
Proof.
  intros Hp Hf. apply fd_table_insert; [done|]. intros j Hj. unfold get_fd. pcb_words.
  destruct (Z.eqb_spec fd j) as [->|Hne]; unfold set_op; cbn; f_equal; bcase; done.
Qed.

Lemma get_fd_table m m' pcb fd f :
  0 <= fd < 8 → fd_table m' pcb = <[Z.to_nat fd := f]> (fd_table m pcb) → get_fd m' pcb fd = f.
Proof.
  intros Hf Ht. pose proof (fd_table_lookup m' pcb fd Hf) as Hl. rewrite Ht in Hl.
  rewrite list_lookup_insert_eq in Hl by (rewrite fd_table_length; lia). by apply Some_inj in Hl.
Qed.

Lemma close_run pid s fd :
  on_stack pid s → 2 <= fd <= 7 → flags (get_fd s (pcb_addr pid) fd) ≠ 0 →
  known_table (descriptor_op_ptr (get_fd s (pcb_addr pid) fd)) →
  close fd s = Ret 0 (upd_mem (λ m, st32 m (fd_slot (pcb_addr pid) fd + flags_off) OUT_OF_USE) s).
Proof using HL.
  intros Hst Hfd Hfl Hk. pose proof (get_pcb_stack pid s Hst) as Hpcb. destruct Hst as [Hpid _].
  pose proof (pcb_addr_ok pid Hpid) as Hpok.
  unfold close. rewrite (bind_ret _ _ s (get_pcb s) s) by done. rewrite Hpcb.
  unfold FD_MIN, FD_MAX, STDIN, STDOUT.
  destruct (Z.ltb_spec fd 0), (Z.ltb_spec 7 fd), (Z.eqb_spec fd 1), (Z.eqb_spec fd 0); try lia.
  rewrite (bind_ret _ _ s tt s) by done.
  rewrite (bind_ret _ _ s (flags (get_fd s (pcb_addr pid) fd)) s) by done.
  change OUT_OF_USE with 0 at 1. apply Z.eqb_neq in Hfl. rewrite Hfl. cbn [orb].
  set (s1 := upd_mem _ s). rewrite (bind_ret _ _ s tt s1) by done.
  assert (Hop : ld32 s1 (fd_slot (pcb_addr pid) fd + op_off) = descriptor_op_ptr (get_fd s (pcb_addr pid) fd)).
  { subst s1. rewrite k_mem_upd. unfold get_fd. cbn [descriptor_op_ptr]. pcb_words. bcase; done. }
  rewrite (bind_ret _ _ s1 (descriptor_op_ptr (get_fd s (pcb_addr pid) fd)) s1) by (unfold gets; by rewrite Hop).
  by apply op_close_known.
Qed.
(** [close] on a descriptor it refuses; descriptor 0 is made the terminal's
    before. *)
Definition before_close (pid fd : Z) (s : kernel) : kernel :=
  if fd =? STDIN then upd_mem (λ m, st32 m (fd_slot (pcb_addr pid) fd + op_off) term_table) s else s.

Lemma close_refused pid s fd :
  process_ok pid s → (2 <= fd <= 7 → flags (get_fd s (pcb_addr pid) fd) = 0) →
  ∃ s', close fd s = Ret (-1) s' ∧ says (bytes_of "system calls close failed") (before_close pid fd s) s'.
Proof using HL.
  intros Hpo Hfl. destruct (process_pcb pid s Hpo) as (Hpcb & _ & _).
  unfold close. rewrite (bind_ret _ _ s (get_pcb s) s) by done. rewrite Hpcb.
  set (s1 := before_close pid fd s).
  rewrite (bind_ret _ _ s tt s1) by (unfold s1, before_close; by destruct (fd =? STDIN)).
  rewrite (bind_ret _ _ s1 (ld32 s1 (fd_slot (pcb_addr pid) fd + flags_off)) s1) by done.
  assert (Hc1 : cursor_ok s1) by (unfold s1, before_close; pose proof (po_cursor pid s Hpo); by destruct (fd =? STDIN)).
  replace ((fd <? FD_MIN) || (FD_MAX <? fd) || (ld32 s1 (fd_slot (pcb_addr pid) fd + flags_off) =? OUT_OF_USE) ||
    (fd =? STDOUT) || (fd =? STDIN)) with true; [by apply message_only|].
  symmetry. rewrite !orb_true_iff, !Z.ltb_lt, !Z.eqb_eq. unfold FD_MIN, FD_MAX, STDOUT, STDIN, OUT_OF_USE.
  destruct (decide (2 <= fd <= 7)) as [Hr|]; [|lia]. left. left. right.
  unfold s1, before_close, STDIN. destruct (Z.eqb_spec fd 0); [lia|]. by apply Hfl.
Qed.
End CloseFacts.

(** [close] on an open descriptor 2 to 7 returns 0 and frees exactly that
    descriptor; on any other it returns -1 and every descriptor stays as
    open or closed as it was. *)
Theorem close_correct {L : Layout} {HL : LayoutOK L} (pid : Z) (s : kernel) (fd : Z) :
  process_ok pid s →
  (2 <= fd <= 7 → known_table (descriptor_op_ptr (get_fd s (pcb_addr pid) fd))) →
  let f := get_fd s (pcb_addr pid) fd in
  let fds := fd_table s (pcb_addr pid) in
  ∃ s', close fd s = Ret (if (2 <=? fd) && (fd <=? 7) && negb (flags f =? 0) then 0 else -1) s' ∧
    if (2 <=? fd) && (fd <=? 7) && negb (flags f =? 0)
    then fd_table s' (pcb_addr pid) = <[Z.to_nat fd := set_flags OUT_OF_USE f]> fds
    else flags <$> fd_table s' (pcb_addr pid) = flags <$> fds.
Proof.
  intros Hpo Hk f fds. destruct (process_pcb pid s Hpo) as (Hpcb & Hpok & Hpid).
  destruct ((2 <=? fd) && (fd <=? 7) && negb (flags f =? 0)) eqn:E.
  - rewrite !andb_true_iff, !Z.leb_le, negb_true_iff, Z.eqb_neq in E. destruct E as [Hfd Hfl].
    eexists. split; [apply (close_run pid); [by destruct Hpo|lia|done|apply Hk; lia]|].
    rewrite k_mem_upd, set_flags_table by (done || lia). done.
  - assert (Hfl : 2 <= fd <= 7 → flags f = 0).
    { intros Hr. rewrite !andb_false_iff, !Z.leb_gt, negb_false_iff, Z.eqb_eq in E. lia. }
    destruct (close_refused pid s fd Hpo Hfl) as (s2 & He & Ho & _). exists s2. split; [exact He|].
    rewrite (fd_table_console _ s2 (pcb_addr pid) Hpok Ho). unfold before_close.
    destruct (Z.eqb_spec fd STDIN) as [->|]; [|done]. rewrite k_mem_upd.
    rewrite set_op_table by (done || lia). rewrite list_fmap_insert. cbn [flags set_op].
    apply list_insert_id. subst fds. rewrite list_lookup_fmap, fd_table_lookup by (unfold STDIN; lia). done.
Qed.

Lemma close_correct_witness :
  process_ok (L := example_layout) 0 example_image ∧
  ∃ s', close (L := example_layout) 2 example_image = Ret 0 s' ∧
    fd_table s' (pcb_addr 0) = <[2%nat := mkFd 0x411030 1 4000 0]> (fd_table example_image (pcb_addr 0)).
Proof.
  split; [exact example_process_ok|].
  pose proof (close_correct (L := example_layout) 0 example_image 2 example_process_ok) as H. cbv zeta in H.
  replace (get_fd example_image (pcb_addr 0) 2) with (mkFd 0x411030 1 4000 1) in H by (vm_compute; reflexivity).
  apply H. intros _. right. right. right. done.
Defined.
