(* ===== verification/Command.v ===== *)
(** * The command parser: [parse] of systemcalls.c

    The buffers [parse] fills from a command line, against the split of the
    line at its first space. *)

From S2P Require Import Prelude Memory LibMem LibStr Video State Console Process FileSystem SysCalls.

Implicit Types s : kernel.

(** ** The split *)

Fixpoint cmd_word (l : list Z) : list Z :=
  match l with [] => [] | c :: l' => if c =? SPACE then [] else c :: cmd_word l' end.
Fixpoint cmd_args (l : list Z) : list Z :=
  match l with [] => [] | c :: l' => if c =? SPACE then l' else cmd_args l' end.
Fixpoint has_space (l : list Z) : bool :=
  match l with [] => false | c :: l' => (c =? SPACE) || has_space l' end.

Lemma cmd_word_snoc l c :
  cmd_word (l ++ [c]) = if has_space l || (c =? SPACE) then cmd_word l else cmd_word l ++ [c].
Proof.
  induction l as [|d l IH]; cbn; [by destruct (c =? SPACE)|].
  destruct (d =? SPACE); [done|]. cbn [orb]. rewrite IH. by destruct (_ || _).
Qed.

Lemma cmd_args_snoc l c :
  cmd_args (l ++ [c]) = if has_space l then cmd_args l ++ [c] else [].
Proof.
  induction l as [|d l IH]; cbn; [by destruct (c =? SPACE)|].
  by destruct (d =? SPACE).
Qed.

Lemma has_space_snoc l c : has_space (l ++ [c]) = has_space l || (c =? SPACE).
Proof. induction l as [|d l IH]; cbn; [by destruct (c =? SPACE)|]. by rewrite IH, orb_assoc. Qed.

Lemma cmd_split l :
  length l = if has_space l then S (length (cmd_word l) + length (cmd_args l)) else length (cmd_word l).
Proof.
  induction l as [|d l IH]; cbn; [done|]. 
  destruct (d =? SPACE); cbn [orb length]; [done|]. rewrite IH. by destruct (has_space l).
Qed.

Lemma cmd_word_no_space l : has_space l = false → cmd_word l = l ∧ cmd_args l = [].
Proof.
  induction l as [|d l IH]; cbn; [done|]. destruct (d =? SPACE); [done|].
  intros H. destruct (IH H) as [-> ->]. done.
Qed.

Lemma cmd_word_app l k : has_space l = true → cmd_word (l ++ k) = cmd_word l.
Proof.
  induction l as [|d l IH]; cbn; [done|]. destruct (d =? SPACE); [done|].
  cbn. intros H. by rewrite IH.
Qed.

Lemma cmd_word_le l k : (length (cmd_word l) <= length (cmd_word (l ++ k)))%nat.
Proof. induction l as [|d l IH]; cbn; [lia|]. destruct (d =? SPACE); cbn; lia. Qed.

Lemma cmd_args_le l k : (length (cmd_args l) <= length (cmd_args (l ++ k)))%nat.
Proof.
  induction l as [|d l IH]; cbn; [lia|]. destruct (d =? SPACE); [rewrite length_app; lia|done].
Qed.

(** ** The two buffers *)

Definition BUF : Z := ARG_SIZE + 2.

(** From [m0], the buffers hold [w] and [a], zero filled, and nothing else
    has changed. *)
Definition two_bufs (m0 m : memory) (file arg : Z) (w a : list Z) : Prop :=
  upage m = upage m0 ∧
  ∀ p, peek m p = if (file <=? p) && (p <? file + BUF) then nth (Z.to_nat (p - file)) w 0
                  else if (arg <=? p) && (p <? arg + BUF) then nth (Z.to_nat (p - arg)) a 0
                  else peek m0 p.

Section Parse.
Context (m0 : memory) (cmd file arg : Z) (l : list Z).
Hypothesis (Hf : 0 < file ∧ file + BUF <= PROGRAM_PAGE) (Ha : 0 < arg ∧ arg + BUF <= PROGRAM_PAGE).
Hypothesis (Hfa : file + BUF <= arg ∨ arg + BUF <= file).
Hypothesis (Hcmd : cstring m0 cmd l) (Hlen : Z.of_nat (length l) < 4294967295).
Hypothesis (Hseg : seg cmd (Z.of_nat (length l) + 1)).
Hypothesis (Hcf : apart m0 file BUF cmd (Z.of_nat (length l) + 1)).
Hypothesis (Hca : apart m0 arg BUF cmd (Z.of_nat (length l) + 1)).
Hypothesis (Hw : (length (cmd_word l) <= 33)%nat) (Hwa : (length (cmd_args l) <= 33)%nat).

Lemma store_file m w a c :
  two_bufs m0 m file arg w a → (length w <= 33)%nat → 0 <= c < 256 →
  two_bufs m0 (st8 m (file + Z.of_nat (length w)) c) file arg (w ++ [c]) a.
Proof using All.
  intros [Hu Hp] Hl Hc. split; [done|]. intros p. rewrite peek_st8, Hp.
  unfold BUF, ARG_SIZE in *. rewrite phys_kernel by lia.
  destruct (Z.eqb_spec p (file + Z.of_nat (length w))) as [->|Hne].
  - destruct (in_rangeP file (file + (32 + 2)) (file + Z.of_nat (length w))); [|lia].
    rewrite app_nth2 by lia. replace (Z.to_nat _ - length w)%nat with 0%nat by lia. by apply u8_small.
  - destruct (in_rangeP file (file + (32 + 2)) p); [|done].
    destruct (decide (p - file < Z.of_nat (length w))).
    + by rewrite app_nth1 by lia.
    + rewrite !nth_overflow; [done|rewrite length_app; cbn; lia|lia].
Qed.

Lemma store_arg m w a c :
  two_bufs m0 m file arg w a → (length a <= 33)%nat → 0 <= c < 256 →
  two_bufs m0 (st8 m (arg + Z.of_nat (length a)) c) file arg w (a ++ [c]).
Proof using All.
  intros [Hu Hp] Hl Hc. split; [done|]. intros p. rewrite peek_st8, Hp.
  unfold BUF, ARG_SIZE in *. rewrite phys_kernel by lia.
  destruct (Z.eqb_spec p (arg + Z.of_nat (length a))) as [->|Hne].
  - destruct (in_rangeP file (file + (32 + 2)) (arg + Z.of_nat (length a))); [lia|].
    destruct (in_rangeP arg (arg + (32 + 2)) (arg + Z.of_nat (length a))); [|lia].
    rewrite app_nth2 by lia. replace (Z.to_nat _ - length a)%nat with 0%nat by lia. by apply u8_small.
  - destruct (in_rangeP file (file + (32 + 2)) p); [done|].
    destruct (in_rangeP arg (arg + (32 + 2)) p); [|done].
    destruct (decide (p - arg < Z.of_nat (length a))).
    + by rewrite app_nth1 by lia.
    + rewrite !nth_overflow; [done|rewrite length_app; cbn; lia|lia].
Qed.

(** Clearing: the bytes of a buffer below [n], and the one at 33. *)
Lemma clear_loop m b n :
  0 < b → b + BUF <= PROGRAM_PAGE → (n <= 33)%nat →
  let m' := for_up n 0 (λ i m, st8 m (b + i) 0) m in
  upage m' = upage m ∧ ∀ p, peek m' p = if (b <=? p) && (p <? b + Z.of_nat n) then 0 else peek m p.
Proof using All.
  intros Hb He Hn m'.
  refine (for_up_ind (λ i m', upage m' = upage m ∧ ∀ p, peek m' p = if (b <=? p) && (p <? b + i) then 0 else peek m p)
    _ n 0 m _ _).
  - split; [done|]. intros p. by destruct (in_rangeP b (b + 0) p); [lia|].
  - intros j t Hj [Hu Hp]. split; [done|]. intros p. rewrite peek_st8, Hp.
    unfold BUF, ARG_SIZE in *. rewrite phys_kernel by lia.
    destruct (in_rangeP b (b + j) p), (in_rangeP b (b + (j + 1)) p), (Z.eqb_spec p (b + j)); try done; lia.
Qed.

Lemma clear_buffers_spec : two_bufs m0 (clear_buffers file arg m0) file arg [] [].
Proof using All.
  unfold clear_buffers. set (m1 := st8 m0 _ 0). set (m2 := st8 m1 _ 0).
  destruct (clear_loop m2 arg 33) as [U3 H3]; [lia..|].
  change (Z.to_nat (ARG_SIZE + 1)) with 33%nat. set (m3 := for_up 33 0 _ m2) in *.
  destruct (clear_loop m3 file 33) as [U4 H4]; [lia..|].
  set (m4 := for_up 33 0 _ m3) in *. split; [by rewrite U4, U3|].
  intros p. rewrite H4, H3. subst m2 m1. rewrite !peek_st8. unfold BUF, ARG_SIZE in *.
  rewrite !phys_st8, !phys_kernel by lia.
  destruct (in_rangeP file (file + Z.of_nat 33) p), (in_rangeP file (file + (32 + 2)) p),
    (in_rangeP arg (arg + Z.of_nat 33) p), (in_rangeP arg (arg + (32 + 2)) p);
    destruct (Z.to_nat (p - file)), (Z.to_nat (p - arg)); cbn [nth]; try lia; try done;
    repeat bcase_one; try done; try lia.
Qed.

(** The command is read through the updates. *)
Lemma cmd_byte m w a i :
  two_bufs m0 m file arg w a → 0 <= i <= Z.of_nat (length l) → ld8 m (cmd + i) = ld8 m0 (cmd + i).
Proof using All.
  intros [Hu Hp] Hi. unfold ld8. rewrite (phys_upage m0 m), Hp, (phys_seg m0 cmd (Z.of_nat (length l) + 1)) by (done || lia).
  unfold apart in *. rewrite !(phys_kernel m0 file), !(phys_kernel m0 arg) in * by (unfold BUF, ARG_SIZE in *; lia).
  destruct (in_rangeP file (file + BUF) (phys m0 cmd + i)); [lia|].
  destruct (in_rangeP arg (arg + BUF) (phys m0 cmd + i)); [lia|]. done.
Qed.

Lemma cmd_at i c : l !! i = Some c → ld8 m0 (cmd + Z.of_nat i) = c ∧ 0 < c < 256.
Proof using All.
  intros Hi. destruct Hcmd as (Hfa' & Hat & _). split; [by apply Hat|]. by apply (Forall_lookup_1 _ _ _ _ Hfa' Hi).
Qed.

Lemma word_length_spec m w a :
  two_bufs m0 m file arg w a → word_length m cmd = Some (Z.of_nat (length (cmd_word l))).
Proof using All.
  intros Hb. unfold word_length.
  set (step := λ i : Z, if negb (ld8 m (cmd + i) =? SPACE) && negb (ld8 m (cmd + i) =? 0)
                        then inl (i + 1) else inr i).
  assert (Hstep : ∀ l1 c l2, l = l1 ++ c :: l2 → step (Z.of_nat (length l1)) =
    if c =? SPACE then inr (Z.of_nat (length l1)) else inl (Z.of_nat (length l1) + 1)).
  { intros l1 c l2 Hl. subst step. cbn beta.
    assert (Hi : l !! length l1 = Some c) by (rewrite Hl; by apply list_lookup_middle).
    pose proof (lookup_lt_Some _ _ _ Hi). destruct (cmd_at _ _ Hi) as [Hc Hc2].
    rewrite (cmd_byte m w a), Hc by (done || lia).
    destruct (Z.eqb_spec c 0); [lia|]. by destruct (c =? SPACE). }
  assert (Hend : step (Z.of_nat (length l)) = inr (Z.of_nat (length l))).
  { subst step. cbn beta. rewrite (cmd_byte m w a) by (done || lia). destruct Hcmd as (_ & _ & ->). done. }
  clearbody step.
  assert (Hit : ∀ l2 l1, l = l1 ++ l2 →
    nat_iter step (length (cmd_word l2)) (Z.of_nat (length l1)) = inl (Z.of_nat (length l1 + length (cmd_word l2))) ∧
    step (Z.of_nat (length l1 + length (cmd_word l2))) = inr (Z.of_nat (length l1 + length (cmd_word l2)))).
  { induction l2 as [|c l2 IH]; intros l1 Hl.
    - cbn. rewrite Nat.add_0_r. split; [done|]. rewrite app_nil_r in Hl. by subst l1.
    - cbn [cmd_word]. pose proof (Hstep l1 c l2 Hl) as Hs. destruct (c =? SPACE).
      + cbn. rewrite Nat.add_0_r. done.
      + cbn [length nat_iter]. rewrite Hs. destruct (IH (l1 ++ [c])) as [I1 I2]; [by rewrite <- app_assoc|].
        rewrite length_app in I1, I2. cbn [length] in I1, I2.
        replace (Z.of_nat (length l1) + 1) with (Z.of_nat (length l1 + 1)) by lia.
        replace (length l1 + S (length (cmd_word l2)))%nat with (length l1 + 1 + length (cmd_word l2))%nat by lia. done. }
  destruct (Hit l [] eq_refl) as [I1 I2]. cbn in I1, I2.
  apply (while_loop_steps _ _ _ _ _ I1 I2). pose proof (cmd_word_le l []) as Hle. pose proof (cmd_split l) as Hsp.
  destruct (has_space l); lia.
Qed.

(** The second loop. *)
Lemma parse_loop m :
  two_bufs m0 m file arg [] [] →
  ∃ m', while_loop (parse_step cmd file arg (Z.of_nat (length (cmd_word l)))) (0, 0, m) = Some m' ∧
    two_bufs m0 m' file arg (cmd_word l) (cmd_args l).
Proof using All.
  intros Hb0. set (step := parse_step _ _ _ _).
  assert (Hit : ∀ l2 l1 m1, l = l1 ++ l2 → two_bufs m0 m1 file arg (cmd_word l1) (cmd_args l1) →
    ∃ m2, nat_iter step (length l2) (Z.of_nat (length l1), if has_space l1 then 1 else 0, m1) =
      inl (Z.of_nat (length l), if has_space l then 1 else 0, m2) ∧
      two_bufs m0 m2 file arg (cmd_word l) (cmd_args l)).
  { induction l2 as [|c l2 IH]; intros l1 m1 Hl Hb.
    { rewrite app_nil_r in Hl. subst l1. by exists m1. }
    assert (Hi : l !! length l1 = Some c) by (rewrite Hl; by apply list_lookup_middle).
    pose proof (lookup_lt_Some _ _ _ Hi). destruct (cmd_at _ _ Hi) as [Hc Hc2].
    assert (Hsnoc : l = (l1 ++ [c]) ++ l2) by (by rewrite <- app_assoc).
    pose proof (cmd_word_le (l1 ++ [c]) l2) as Hwl. pose proof (cmd_args_le (l1 ++ [c]) l2) as Hal.
    rewrite <- Hsnoc in Hwl, Hal. pose proof (cmd_split l1) as Hsp.
    assert (Hnext : ∃ m2, step (Z.of_nat (length l1), if has_space l1 then 1 else 0, m1) =
      inl (Z.of_nat (length (l1 ++ [c])), if has_space (l1 ++ [c]) then 1 else 0, m2) ∧
      two_bufs m0 m2 file arg (cmd_word (l1 ++ [c])) (cmd_args (l1 ++ [c]))).
    { subst step. unfold parse_step. rewrite (cmd_byte m1 _ _ _ Hb), Hc by lia.
      rewrite has_space_snoc, cmd_word_snoc, cmd_args_snoc in *.
      replace (Z.of_nat (length (l1 ++ [c]))) with (Z.of_nat (length l1) + 1) by (rewrite length_app; cbn; lia).
      destruct (Z.eqb_spec c 0); [lia|]. cbn [negb].
      destruct (has_space l1) eqn:Hs; cbn [orb] in *.
      - rewrite andb_false_r. rewrite length_app in Hal. cbn [length] in Hal.
        eexists. split; [done|].
        assert (Hwe : cmd_word l = cmd_word l1) by (rewrite Hl; by apply cmd_word_app).
        replace (Z.of_nat (length l1) - Z.of_nat (length (cmd_word l)) - 1) with (Z.of_nat (length (cmd_args l1))) by
          (rewrite Hwe; lia).
        apply store_arg; [done|lia|lia].
      - destruct (cmd_word_no_space l1 Hs) as [Hw1 Ha1]. rewrite Ha1 in *.
        destruct (Z.eqb_spec c SPACE); cbn [andb].
        + by exists m1.
        + eexists. split; [done|]. rewrite length_app in Hwl. cbn [length] in Hwl.
          replace (Z.of_nat (length l1)) with (Z.of_nat (length (cmd_word l1))) by (by rewrite Hw1).
          apply store_file; [done|lia|lia]. }
    destruct Hnext as (m2 & He & Hb2). destruct (IH (l1 ++ [c]) m2 Hsnoc Hb2) as (m3 & He3 & Hb3).
    exists m3. split; [|done]. cbn [length nat_iter]. by rewrite He. }
  destruct (Hit l [] m eq_refl Hb0) as (m2 & He & Hb2). exists m2. split; [|done].
  apply (while_loop_steps step (length l) _ _ _ He); [|lia].
  subst step. unfold parse_step. rewrite (cmd_byte m2 _ _ _ Hb2) by lia. destruct Hcmd as (_ & _ & ->). done.
Qed.
End Parse.

(** What a caller of [parse] provides: a command string, and two buffers with
    room for the byte at index 33 the code also clears. *)
Record parse_args (m : memory) (cmd file arg : Z) (l : list Z) : Prop := {
  pa_file : 0 < file ∧ file + BUF <= PROGRAM_PAGE;
  pa_arg : 0 < arg ∧ arg + BUF <= PROGRAM_PAGE;
  pa_apart : file + BUF <= arg ∨ arg + BUF <= file;
  pa_cmd : cstring m cmd l;
  pa_len : Z.of_nat (length l) < 4294967295;
  pa_seg : seg cmd (Z.of_nat (length l) + 1);
  pa_cmd_file : apart m file BUF cmd (Z.of_nat (length l) + 1);
  pa_cmd_arg : apart m arg BUF cmd (Z.of_nat (length l) + 1);
  pa_word : (length (cmd_word l) <= 32)%nat;
  pa_args : (length (cmd_args l) <= 32)%nat;
}.

Lemma parse_run {L : Layout} s cmd file arg l :
  u32 cmd ≠ 0 → parse_args s cmd file arg l →
  ∃ m', parse cmd file arg s = Ret tt (upd_mem (λ _, m') s) ∧
    two_bufs s m' file arg (cmd_word l) (cmd_args l).
Proof.
  intros Hc [Hf Ha Hfa Hcmd Hlen Hseg Hcf Hca Hw Hwa].
  assert (Hw' : (length (cmd_word l) <= 33)%nat) by lia. assert (Hwa' : (length (cmd_args l) <= 33)%nat) by lia.
  unfold parse. unfold BUF, ARG_SIZE, PROGRAM_PAGE in Hf, Ha.
  rewrite (u32_small file), (u32_small arg) by lia. apply Z.eqb_neq in Hc. rewrite Hc.
  destruct (Z.eqb_spec file 0), (Z.eqb_spec arg 0); try lia. cbn [orb].
  pose proof (clear_buffers_spec s cmd file arg l Hf Ha Hfa Hcmd Hlen Hseg Hcf Hca Hw' Hwa') as Hb.
  rewrite (bind_ret _ _ _ _ _ (modify_mem_run (clear_buffers file arg) s)).
  set (m1 := clear_buffers file arg s) in *. clearbody m1.
  rewrite (bind_ret _ _ _ m1 (upd_mem (λ _, m1) s)) by done.
  rewrite (bind_ret _ _ _ (Z.of_nat (length (cmd_word l))) (upd_mem (λ _, m1) s)) by
    (unfold try_opt; by rewrite (word_length_spec s cmd file arg l Hf Ha Hfa Hcmd Hlen Hseg Hcf Hca Hw' Hwa' _ _ _ Hb)).
  destruct (parse_loop s cmd file arg l Hf Ha Hfa Hcmd Hlen Hseg Hcf Hca Hw' Hwa' m1 Hb) as (m2 & He & Hb2).
  rewrite (bind_ret _ _ _ m2 (upd_mem (λ _, m1) s)) by (unfold try_opt; by rewrite He).
  by exists m2.
Qed.

(** A buffer as a string. *)
Lemma two_bufs_file m0 m file arg w a :
  two_bufs m0 m file arg w a → 0 < file ∧ file + BUF <= PROGRAM_PAGE → (length w <= 32)%nat →
  Forall (λ c, 0 < c < 256) w → cstring m file w.
Proof.
  intros [_ Hp] Hf Hl Hw. unfold BUF, ARG_SIZE in *.
  assert (Hld : ∀ i, 0 <= i < 34 → ld8 m (file + i) = nth (Z.to_nat i) w 0).
  { intros i Hi. unfold ld8. rewrite phys_kernel, Hp by lia.
    destruct (in_rangeP file (file + (32 + 2)) (file + i)); [|lia]. f_equal. lia. }
  split_and!; [done| |].
  - intros i c Hi. pose proof (lookup_lt_Some _ _ _ Hi). rewrite Hld by lia. rewrite Nat2Z.id. by apply nth_lookup_Some.
  - rewrite Hld by lia. by rewrite Nat2Z.id, nth_overflow by lia.
Qed.

Lemma two_bufs_arg m0 m file arg w a :
  two_bufs m0 m file arg w a → 0 < arg ∧ arg + BUF <= PROGRAM_PAGE →
  file + BUF <= arg ∨ arg + BUF <= file → (length a <= 32)%nat →
  Forall (λ c, 0 < c < 256) a →
  cstring m arg a ∧ ∀ i, 0 <= i < 33 → ld8 m (arg + i) = nth (Z.to_nat i) a 0.
Proof.
  intros [_ Hp] Hf Hfa Hl Hw. unfold BUF, ARG_SIZE in *.
  assert (Hld : ∀ i, 0 <= i < 34 → ld8 m (arg + i) = nth (Z.to_nat i) a 0).
  { intros i Hi. unfold ld8. rewrite phys_kernel, Hp by lia.
    destruct (in_rangeP file (file + (32 + 2)) (arg + i)); [lia|].
    destruct (in_rangeP arg (arg + (32 + 2)) (arg + i)); [|lia]. f_equal. lia. }
  split; [|intros; apply Hld; lia]. split_and!; [done| |].
  - intros i c Hi. pose proof (lookup_lt_Some _ _ _ Hi). rewrite Hld by lia. rewrite Nat2Z.id. by apply nth_lookup_Some.
  - rewrite Hld by lia. by rewrite Nat2Z.id, nth_overflow by lia.
Qed.

Lemma cmd_word_chars l (P : Z → Prop) : Forall P l → Forall P (cmd_word l).
Proof. induction 1 as [|c l Hc Hl IH]; cbn; [done|]. destruct (c =? SPACE); [done|]. by constructor. Qed.
Lemma cmd_args_chars l (P : Z → Prop) : Forall P l → Forall P (cmd_args l).
Proof. induction 1 as [|c l Hc Hl IH]; cbn; [done|]. by destruct (c =? SPACE). Qed.

(** [parse] splits the command at its first space: the name buffer holds
    the word before it, the argument buffer everything after it, both as
    strings; no other byte of memory changes than the 34 of each buffer. *)
Theorem parse_correct {L : Layout} (s : kernel) (cmd file arg : Z) (l : list Z) :
  u32 cmd ≠ 0 → parse_args s cmd file arg l →
  ∃ m', parse cmd file arg s = Ret tt (upd_mem (λ _, m') s) ∧
    cstring m' file (cmd_word l) ∧ cstring m' arg (cmd_args l) ∧
    ∀ p, ¬ (file <= p < file + BUF) → ¬ (arg <= p < arg + BUF) → peek m' p = peek s p.
Proof.
  intros Hc Hpa. destruct (parse_run s cmd file arg l Hc Hpa) as (m' & He & Hb). exists m'. split; [done|].
  destruct Hpa as [Hf Ha Hfa Hcmd _ _ _ _ Hw Hwa]. pose proof Hcmd as (Hch & _ & _).
  split; [apply (two_bufs_file _ _ _ _ _ _ Hb Hf Hw), cmd_word_chars, Hch|].
  split; [apply (two_bufs_arg _ _ _ _ _ _ Hb Ha Hfa Hwa), cmd_args_chars, Hch|].
  intros p Hp1 Hp2. destruct Hb as [_ ->].
  destruct (in_rangeP file (file + BUF) p); [done|]. by destruct (in_rangeP arg (arg + BUF) p).
Qed.

(** ** The command [f x] on the example image, for the witnesses *)

Lemma example_command :
  parse_args example_image 0x8100010 0x7F0200 0x7F0240 [0x66; 0x20; 0x78].
Proof.
  split; [split; closed_compare|split; closed_compare|left; closed_compare| |closed_compare
    |closed_segment|closed_segment|closed_segment|cbn; lia|cbn; lia].
  split_and!; [by repeat constructor| |by vm_compute].
  intros [|[|[|i]]] c Hi; [..|by destruct i]; injection Hi as <-; by vm_compute.
Qed.

Lemma parse_correct_witness :
  parse_args example_image 0x8100010 0x7F0200 0x7F0240 [0x66; 0x20; 0x78] ∧
  ∃ m', parse (L := example_layout) 0x8100010 0x7F0200 0x7F0240 example_image = Ret tt (upd_mem (λ _, m') example_image) ∧
    cstring m' 0x7F0200 [0x66] ∧ cstring m' 0x7F0240 [0x78].
Proof.
  split; [exact example_command|].
  destruct (parse_correct (L := example_layout) example_image 0x8100010 0x7F0200 0x7F0240 [0x66; 0x20; 0x78])
    as (m' & H1 & H2 & H3 & _); [by vm_compute|exact example_command|].
  exists m'. split; [exact H1|]. split; [exact H2|exact H3].
Defined.
