(* ===== verification/Exec.v ===== *)
(** * Running programs: [check_valid], [execute] and [halt]

    The three steps of [execute] (parse and check, claim and load, build the
    process block) with the state each leaves, and [halt]. *)

From S2P Require Import Prelude Memory LibMem LibStr Video State Console Process FileSystem Terminal Paging SysCalls Command.

Implicit Types s : kernel.

(** ** The image through other changes *)

Section SameNames.
Context (s s' : kernel).
Hypothesis (Hfs : k_fs s' = k_fs s) (Himg : image_ok s) (HN : 0 < num_index_nodes s).
Hypothesis (Hpk : ∀ p, image_base s <= p < image_base s + image_bytes s → peek s' p = peek s p).

Lemma same_dentry_byte i o : 0 <= i < 64 → 0 <= o < 64 → ld8 s' (dentry_addr s' i + o) = ld8 s (dentry_addr s i + o).
Proof using All.
  intros Hi Ho. pose proof (image_small s Himg) as (_ & HD & HE). unfold dentry_addr. rewrite Hfs.
  apply (same_byte s s' Himg Hpk). rewrite (image_dentries s Himg). unfold DENTRY_SIZE, image_base, image_bytes. lia.
Qed.

Lemma same_dentry_word i o : 0 <= i < 64 → 0 <= o → o + 4 <= 64 → ld32 s' (dentry_addr s' i + o) = ld32 s (dentry_addr s i + o).
Proof using All. intros Hi Ho He. unfold ld32. rewrite <- !Z.add_assoc, !same_dentry_byte by lia. done. Qed.

Lemma same_name i : 0 <= i < 64 → dentry_name s' i = dentry_name s i.
Proof using All.
  intros Hi. unfold dentry_name, ld_bytes. apply (take_nul_ext _ _ 0 32). intros j Hj. apply same_dentry_byte; lia.
Qed.

Lemma same_find l : find_dentry s' l = find_dentry s l.
Proof using All.
  unfold find_dentry. f_equal.
  assert (H : ∀ js, Forall (λ i, 0 <= i < 64) js →
    filter (λ i, dentry_name s' i = l) js = filter (λ i, dentry_name s i = l) js).
  { induction 1 as [|i js Hi Hjs IH]; [done|]. rewrite !filter_cons, IH, same_name by done. done. }
  apply H. apply Forall_forall. intros i Hi. apply list_elem_of_In, elem_of_seqZ in Hi. lia.
Qed.
End SameNames.

(** ** check_valid *)

Section CheckValid.
Context {L : Layout} {HL : LayoutOK L}.

(** The test of the code on the first four bytes: any of the four may match. *)
Definition magic (s : kernel) (ino : Z) : bool :=
  (file_byte s ino 0 =? DELETE) || (file_byte s ino 1 =? CHAR_E) ||
  (file_byte s ino 2 =? CHAR_L) || (file_byte s ino 3 =? CHAR_F).

Definition executable (s : kernel) (ino : Z) : bool := (4 <=? file_size s ino) && magic s ino.

(** The locals of [check_valid]. *)
Definition check_locals : list (Z * Z) := [(loc_check_valid_buf, 4); (loc_check_valid_dentry, 64)].

Lemma check_valid_run pid s fname l :
  process_ok pid s → u32 fname ≠ 0 → cstring s fname l → Z.of_nat (length l) <= NAME_SIZE →
  (∀ i, 0 <= i <= Z.of_nat (length l) → ¬ (loc_check_valid_buf <= phys s (fname + i) < loc_check_valid_buf + 4)) →
  (∀ k, find_dentry s l = Some k → file_ok s (dentry_inode s k)) →
  ∃ m', check_valid fname s = Ret (match find_dentry s l with
                                   | Some k => if executable s (dentry_inode s k) then dentry_inode s k else -1
                                   | None => -1
                                   end) (upd_mem (λ _, m') s) ∧
    changes check_locals s m'.
Proof using HL.
  intros Hpo Hp Hc Hlen Hoff Hfile. destruct (process_pcb pid s Hpo) as (Hpcb & Hpok & Hpid).
  destruct Hpo as [_ Himg HN Hap _].
  pose proof (obj_bounds 13 _ eq_refl) as B1. pose proof (obj_bounds 14 _ eq_refl) as B2. cbn [fst snd] in *.
  pose proof (obj_sep 13 14 _ _ eq_refl eq_refl ltac:(done)) as B3. cbn [fst snd] in *.
  pose proof (Hap 13%nat _ eq_refl) as A1. pose proof (Hap 14%nat _ eq_refl) as A2. cbn [fst snd] in *.
  unfold KERNEL_START, KERNEL_END in *.
  unfold check_valid. apply Z.eqb_neq in Hp as Hp'. rewrite Hp'.
  rewrite (bind_ret _ _ _ _ _ (modify_mem_run _ s)).
  set (m1 := for_up 4 0 _ _). set (s1 := upd_mem (λ _, m1) s).
  assert (Hw1 : writes s m1 loc_check_valid_buf 4 (λ _, 0)) by
    (apply (zero_loop s loc_check_valid_buf 4); unfold PROGRAM_PAGE; lia).
  assert (Hch1 : changes check_locals s m1).
  { apply (changes_writes _ _ _ _ _ _ loc_check_valid_buf Hw1); [apply phys_kernel; unfold PROGRAM_PAGE; lia|by left]. }
  clearbody m1.
  assert (Hpk1 : ∀ p, image_base s <= p < image_base s + image_bytes s → peek s1 p = peek s p).
  { intros p Hpi. destruct Hch1 as [_ H]. apply H. each_segment. }
  assert (Hup1 : upage s1 = upage s) by (by destruct Hch1).
  pose proof (same_image_ok s s1 eq_refl Himg Hpk1) as Himg1.
  destruct (same_counts s s1 eq_refl Himg Hpk1) as [HN1 HD1].
  assert (Hc1 : cstring s1 fname l).
  { assert (Hb : ∀ i, 0 <= i <= Z.of_nat (length l) → ld8 s1 (fname + i) = ld8 s (fname + i)).
    { intros i Hi. apply (writes_frame _ _ _ _ _ _ Hw1).
      rewrite phys_kernel by (unfold PROGRAM_PAGE; lia). by apply Hoff. }
    destruct Hc as (H1 & H2 & H3). split_and!; [done| |].
    - intros i c Hi. pose proof (lookup_lt_Some _ _ _ Hi). rewrite Hb by lia. by apply H2.
    - by rewrite Hb by lia. }
  assert (Hu1 : user_buf s1 loc_check_valid_dentry 64).
  { apply (obj_user_buf s1 13); [done| |done|lia]. intros i o Hi. unfold image_base, image_bytes.
    rewrite HN1, HD1. by apply (Hap i). }
  pose proof (read_dentry_by_name_run s1 fname l loc_check_valid_dentry Himg1 ltac:(lia) Hp) as Hr.
  rewrite (same_find s s1 eq_refl Himg HN Hpk1) in Hr.
  specialize (Hr ltac:(rewrite u32_small; lia) Hc1 Hlen Hu1).
  destruct (find_dentry s l) as [k|] eqn:Hk; cycle 1.
  { rewrite (bind_ret _ _ _ _ _ Hr). by exists m1. }
  destruct Hr as (m2 & He2 & Hcp). rewrite (bind_ret _ _ _ _ _ He2). change (0 =? -1) with false. cbv iota.
  change (upd_mem (λ _, m2) s1) with (upd_mem (λ _, m2) s). set (s2 := upd_mem (λ _, m2) s).
  apply find_dentry_bound in Hk as [Hkb _]. specialize (Hfile k eq_refl). set (ino := dentry_inode s k) in *.
  assert (Hch2 : changes check_locals s m2).
  { eapply changes_trans; [exact Hch1|]. apply (changes_writes _ _ _ _ _ _ loc_check_valid_dentry Hcp);
      [apply phys_kernel; unfold PROGRAM_PAGE; lia|right; by left]. }
  assert (Hino : ld32 s2 (loc_check_valid_dentry + dentry_inode_off) = ino).
  { subst s2. rewrite k_mem_upd. rewrite (copied_ld32 _ _ _ _ _ _ Hcp) by (apply Hu1 || unfold dentry_inode_off; lia).
    apply (same_dentry_word s s1 eq_refl Himg HN Hpk1); unfold dentry_inode_off; lia. }
  assert (Hpk2 : ∀ p, image_base s <= p < image_base s + image_bytes s → peek s2 p = peek s p).
  { intros p Hpi. destruct Hch2 as [_ H]. apply H. each_segment. }
  assert (Hup2 : upage s2 = upage s) by (by destruct Hch2).
  pose proof (same_image_ok s s2 eq_refl Himg Hpk2) as Himg2.
  destruct (same_counts s s2 eq_refl Himg Hpk2) as [HN2 HD2].
  destruct (same_file s s2 eq_refl Himg Hpk2 ino Hfile) as (Hf2 & Hsz2 & Hby2).
  pose proof (file_size_bound s ino Hfile) as Hszb.
  rewrite (bind_ret _ _ s2 ino s2) by (unfold gets; by rewrite Hino).
  assert (Hu2 : user_buf s2 loc_check_valid_buf 4).
  { apply (obj_user_buf s2 14); [done| |done|lia]. intros i o Hi. unfold image_base, image_bytes.
    rewrite HN2, HD2. by apply (Hap i). }
  set (n := read_count (file_size s ino) 0 4).
  assert (Hn : n = Z.min 4 (file_size s ino)).
  { subst n. unfold read_count. destruct (Z.leb_spec (file_size s ino) 0); lia. }
  destruct (read_data_run s2 ino 0 loc_check_valid_buf 4 Himg2 Hf2) as (m3 & He3 & Hw3); [lia..| |].
  { rewrite Hsz2. fold n. destruct Hu2 as [Hs Ha]. split; [apply (seg_shorter _ 4); [done|lia]|unfold apart in *; lia]. }
  rewrite Hsz2 in He3, Hw3. fold n in He3, Hw3.
  rewrite (bind_ret _ _ _ _ _ He3). change (upd_mem (λ _, m3) s2) with (upd_mem (λ _, m3) s). set (s3 := upd_mem (λ _, m3) s).
  assert (Hch3 : changes check_locals s m3).
  { eapply changes_trans; [exact Hch2|].
    assert (Hw4 : writes m2 m3 loc_check_valid_buf 4 (λ j, if j <? n then file_byte s2 ino (0 + j) else ld8 m2 (loc_check_valid_buf + j))).
    { apply writes_widen; [exact Hw3|by destruct Hu2|lia]. }
    apply (changes_writes _ _ _ _ _ _ loc_check_valid_buf Hw4); [apply phys_kernel; unfold PROGRAM_PAGE; lia|by left]. }
  exists m3. split; [|done]. unfold executable.
  destruct (Z.eqb_spec n 4) as [Hn4|Hn4]; cbn [negb].
  - assert (Hb : ∀ i, 0 <= i < 4 → ld8 s3 (loc_check_valid_buf + i) = file_byte s ino i).
    { intros i Hi. subst s3. rewrite k_mem_upd. destruct Hu2 as [Hs _].
      rewrite (writes_at _ _ _ _ _ _ Hw3) by (rewrite ?Hn4; done || lia). rewrite Z.add_0_l. apply Hby2. lia. }
    rewrite (bind_ret _ _ s3 (λ i, s8 (ld8 s3 (loc_check_valid_buf + i))) s3) by done. cbv beta.
    rewrite !Hb by lia.
    assert (Hs8 : ∀ c d, 0 <= c < 256 → 0 <= d < 128 → (s8 c =? d) = (c =? d)).
    { intros c d Hc0 Hd. unfold s8. rewrite u8_small by lia. cbv zeta.
      destruct (Z.ltb_spec c 128); [done|]. destruct (Z.eqb_spec (c - 256) d), (Z.eqb_spec c d); lia || done. }
    assert (Hrg : ∀ i, 0 <= file_byte s ino i < 256) by (intros; apply ld8_range).
    rewrite !Hs8 by (apply Hrg || unfold DELETE, CHAR_E, CHAR_L, CHAR_F; lia).
    unfold magic. destruct (Z.leb_spec 4 (file_size s ino)); [|lia].
    assert (Hino3 : s32 (ld32 s3 (loc_check_valid_dentry + dentry_inode_off)) = ino).
    { subst s3. rewrite k_mem_upd. rewrite (writes_ld32 _ _ _ _ _ _ Hw3).
      - change (ld32 s2 (loc_check_valid_dentry + dentry_inode_off)) with (ld32 s2 (loc_check_valid_dentry + dentry_inode_off)).
        rewrite Hino. apply s32_small. pose proof (file_inode s ino Hfile). pose proof (image_small s Himg).
        pose proof (image_pos s Himg). lia.
      - unfold apart. rewrite !phys_kernel by (unfold PROGRAM_PAGE, dentry_inode_off; lia). unfold dentry_inode_off. lia.
      - apply seg_kernel; unfold PROGRAM_PAGE, dentry_inode_off; lia. }
    destruct (file_byte s ino 0 =? DELETE), (file_byte s ino 1 =? CHAR_E), (file_byte s ino 2 =? CHAR_L),
      (file_byte s ino 3 =? CHAR_F); cbn [negb andb orb]; try done; unfold gets; by rewrite Hino3.
  - destruct (Z.leb_spec 4 (file_size s ino)); [lia|]. done.
Qed.
End CheckValid.

(** ** Claiming and loading *)

Lemma program_pde_base pid : 0 <= pid < 6 → big_base (u32 (program_pde pid)) = EIGHTMB + FOURMB * pid.
Proof.
  intros Hp. assert (pid = 0 ∨ pid = 1 ∨ pid = 2 ∨ pid = 3 ∨ pid = 4 ∨ pid = 5) as
    [->|[->|[->|[->|[->| ->]]]]] by lia; reflexivity.
Qed.

(** Where the program page of process [pid] is. *)
Definition program_base (pid : Z) : Z := EIGHTMB + FOURMB * pid.

Section Load.
Context {L : Layout} {HL : LayoutOK L}.

Lemma low_object i a n m : objects !! i = Some (a, n) → phys m a = a.
Proof using HL.
  intros Hi. pose proof (obj_bounds i _ Hi) as Hb. cbn [fst snd] in Hb. unfold KERNEL_START, KERNEL_END in Hb.
  destruct (decide (0 <= n)).
  - apply phys_kernel. unfold PROGRAM_PAGE. lia.
  - pose proof (lookup_lt_Some _ _ _ Hi) as Hlt. change (length objects) with 19%nat in Hlt.
    assert (Hall : Forall (λ o : Z * Z, 0 <= o.2) objects) by (repeat constructor; cbn; lia).
    pose proof (Forall_lookup_1 _ _ _ _ Hall Hi). cbn in *. lia.
Qed.

Lemma pcb_position pid : 0 <= pid < 6 → (objects ++ pcb_objects) !! (19 + Z.to_nat pid)%nat = Some (pcb_addr pid, PCB_SIZE).
Proof.
  intros Hp. assert (pid = 0 ∨ pid = 1 ∨ pid = 2 ∨ pid = 3 ∨ pid = 4 ∨ pid = 5) as
    [->|[->|[->|[->|[->| ->]]]]] by lia; reflexivity.
Qed.

(** The image below the kernel's end, apart from a list of segments. *)
Lemma image_changes (os : list (Z * Z)) s s' :
  changes os s s' → Forall (λ o, o.1 + o.2 <= image_base s ∨ image_base s + image_bytes s <= o.1) os →
  ∀ p, image_base s <= p < image_base s + image_bytes s → peek s' p = peek s p.
Proof.
  intros [_ H] Ho p Hp. apply H. eapply List.Forall_impl; [|exact Ho]. intros o. cbn. lia.
Qed.

(** The steps that take the slot, map the program page and read the file. *)
Definition mapped (pid : Z) (s : kernel) : kernel := flush_tlb (set_pde 32 (program_pde pid) (claim_pid pid s)).

Lemma mapped_mem pid s : 0 <= pid < 6 → k_mem (mapped pid s) = mkMem (ram s) (program_base pid).
Proof.
  intros Hp. unfold mapped, flush_tlb. rewrite k_mem_upd. f_equal.
  change (pDirectory (set_pde 32 (program_pde pid) (claim_pid pid s)) !!! 32)
    with (<[32 := u32 (program_pde pid)]> (pDirectory s) !!! 32).
  rewrite lookup_total_insert_Z. by apply program_pde_base.
Qed.

Lemma mapped_peek pid s p : 0 <= pid < 6 → peek (mapped pid s) p = peek s p.
Proof. intros Hp. by rewrite mapped_mem. Qed.

Lemma load_program pid s ino :
  0 <= pid < 6 → image_ok s → file_ok s ino → image_base s + image_bytes s <= KERNEL_END →
  file_size s ino <= 0x3B8000 →
  file_size (mapped pid s) ino = file_size s ino ∧
  ∃ m', read_data ino 0 PROGRAM_IMAGE_OFFSET (file_size s ino) (mapped pid s) =
      Ret (file_size s ino) (upd_mem (λ _, m') (mapped pid s)) ∧
    upage m' = program_base pid ∧
    (∀ j, 0 <= j < file_size s ino → ld8 m' (PROGRAM_IMAGE_OFFSET + j) = file_byte s ino j) ∧
    changes [(program_base pid, FOURMB)] (mapped pid s) m'.
Proof.
  intros Hp Himg Hfile Hlow Hmax. set (s2 := mapped pid s).
  assert (Hpk : ∀ p, image_base s <= p < image_base s + image_bytes s → peek s2 p = peek s p)
    by (intros; by apply mapped_peek).
  pose proof (same_image_ok s s2 eq_refl Himg Hpk) as Himg2.
  destruct (same_counts s s2 eq_refl Himg Hpk) as [HN2 HD2].
  destruct (same_file s s2 eq_refl Himg Hpk ino Hfile) as (Hf2 & Hsz2 & Hby2).
  pose proof (file_size_bound s ino Hfile) as Hszb.
  split; [exact Hsz2|].
  set (size := file_size s ino) in *.
  assert (Hup : upage s2 = program_base pid) by (subst s2; by rewrite mapped_mem).
  assert (Hcnt : read_count (file_size s2 ino) 0 size = size).
  { rewrite Hsz2. unfold read_count. destruct (Z.leb_spec size 0); lia. }
  assert (Hph : phys s2 PROGRAM_IMAGE_OFFSET = program_base pid + 0x48000).
  { rewrite phys_user by (unfold PROGRAM_PAGE, PROGRAM_PAGE_END, PROGRAM_IMAGE_OFFSET; lia). by rewrite Hup. }
  destruct (read_data_run s2 ino 0 PROGRAM_IMAGE_OFFSET size Himg2 Hf2) as (m' & He & Hw); [lia..| |].
  { rewrite Hcnt. split.
    - split; [lia|]. right. unfold PROGRAM_IMAGE_OFFSET, PROGRAM_PAGE, PROGRAM_PAGE_END. lia.
    - right. rewrite Hph, phys_kernel; unfold image_base, image_bytes, program_base, EIGHTMB, FOURMB, KERNEL_END, PROGRAM_PAGE in *;
        rewrite ?HN2, ?HD2; change (k_fs s2) with (k_fs s);
        pose proof (image_pos s Himg); pose proof (image_small s Himg); lia. }
  rewrite Hcnt in He, Hw. exists m'. split; [exact He|].
  split; [by rewrite (writes_upage _ _ _ _ _ Hw)|]. split.
  - intros j Hj. rewrite (writes_at _ _ _ _ _ _ Hw); [by rewrite Z.add_0_l, Hby2| |lia].
    split; [lia|]. right. unfold PROGRAM_IMAGE_OFFSET, PROGRAM_PAGE, PROGRAM_PAGE_END. lia.
  - destruct Hw as [Hu Hpeek]. split; [done|]. intros p Hps. inversion_clear Hps as [|? ? H1 _]. cbn [fst snd] in H1.
    rewrite Hpeek, Hph. destruct (in_rangeP (program_base pid + 0x48000) (program_base pid + 0x48000 + size) p); [|done].
    unfold FOURMB in H1. lia.
Qed.

(** ** The process block *)

(** A word of the block. *)
Definition pcb_ld (m : memory) (pid off : Z) : Z := ld32 m (pcb_addr pid + off).

Lemma init_pcb_changes pid m :
  0 <= pid < 6 → changes [(pcb_addr pid, PCB_SIZE)] m (init_pcb (pcb_addr pid) pid m).2.
Proof.
  intros Hp. pose proof (pcb_addr_ok pid Hp) as Hok.
  assert (Hph : ∀ m off, 0 <= off <= PCB_SIZE → phys m (pcb_addr pid + off) = pcb_addr pid + off)
    by (intros; by apply pcb_phys).
  assert (Hput : ∀ m fd f, 0 <= fd < 8 → changes [(pcb_addr pid, PCB_SIZE)] m (put_fd (pcb_addr pid) fd f m)).
  { intros m1 fd f Hf. destruct (put_fd_writes m1 (pcb_addr pid) fd f Hok Hf) as [Hu Hpk]. split; [done|].
    intros p Hps. inversion_clear Hps as [|? ? H1 _]. cbn [fst snd] in H1. rewrite Hpk.
    rewrite <- (Z.add_0_r (fd_slot _ _)), slot_off, Hph by (unfold PCB_SIZE; lia).
    unfold PCB_SIZE in *. destruct (in_rangeP (pcb_addr pid + (16 * fd + 0)) (pcb_addr pid + (16 * fd + 0) + 16) p); [lia|done]. }
  unfold init_pcb.
  assert ((u32 (pcb_addr pid) =? 0) = false) as ->.
  { apply Z.eqb_neq. unfold pcb_ok, KERNEL_START, KERNEL_END, PCB_SIZE in Hok. rewrite u32_small; lia. }
  cbn [snd]. set (m2 := put_fd _ 1 _ _). set (m3 := for_up 6 2 _ m2).
  assert (H2 : changes [(pcb_addr pid, PCB_SIZE)] m m2).
  { eapply changes_trans; [apply (Hput m 0 std_fd)|apply Hput]; lia. }
  assert (H3 : changes [(pcb_addr pid, PCB_SIZE)] m m3).
  { refine (for_up_ind (λ i m3, changes [(pcb_addr pid, PCB_SIZE)] m m3) _ 6 2 m2 H2 _).
    intros j t Hj Ht. eapply changes_trans; [exact Ht|apply Hput; lia]. }
  eapply changes_trans; [exact H3|].
  assert (Hs : seg (pcb_addr pid + process_num_off) 4) by (apply pcb_seg; (done || unfold PCB_SIZE, process_num_off; lia)).
  destruct (writes_st32 m3 _ pid Hs) as [Hu Hpk]. split; [done|].
  intros p Hps. inversion_clear Hps as [|? ? H1 _]. cbn [fst snd] in H1. rewrite Hpk, Hph by (unfold PCB_SIZE, process_num_off; lia).
  unfold PCB_SIZE, process_num_off in *. destruct (in_rangeP (pcb_addr pid + 136) (pcb_addr pid + 136 + 4) p); [lia|done].
Qed.
End Load.

(** ** Building the process *)

(** A word of a file. *)
Definition file_word (s : kernel) (ino k : Z) : Z :=
  file_byte s ino k + 256 * file_byte s ino (k + 1) + 65536 * file_byte s ino (k + 2) + 16777216 * file_byte s ino (k + 3).

Section Build.
Context {L : Layout} {HL : LayoutOK L}.
Context (pid : Z) (Hpid : 0 <= pid < 6).

Let pcb := pcb_addr pid.

(** The stores after [init_pcb], on the memory. *)
Definition stack_words (e b g : Z) (m : memory) : memory :=
  let m := st32 m (pcb + esp_off) e in
  let m := st32 m (pcb + ebp_off) b in
  st32 (st32 m pcb g) (pcb + 4) g.

Lemma pcb_fine : pcb_ok pcb.
Proof using Hpid. by apply pcb_addr_ok. Qed.

Lemma stack_words_word e b g m off :
  0 <= off <= 136 → off mod 4 = 0 →
  ld32 (stack_words e b g m) (pcb + off) =
  if (off =? 0) || (off =? 4) then u32 g else if off =? esp_off then u32 e else if off =? ebp_off then u32 b else ld32 m (pcb + off).
Proof using Hpid.
  intros Ho Hm. pose proof pcb_fine as Hok. unfold stack_words, esp_off, ebp_off.
  rewrite <- (Z.add_0_r pcb) at 3.
  assert (Hd : ∀ c, c mod 4 = 0 → c = off ∨ c + 4 <= off ∨ off + 4 <= c) by (intros; Z.div_mod_to_equations; lia).
  rewrite !pcb_word by (done || unfold PCB_SIZE; lia || by apply Hd).
  rewrite !(Z.eqb_sym off). destruct (Z.eqb_spec 4 off), (Z.eqb_spec 0 off), (Z.eqb_spec 132 off), (Z.eqb_spec 128 off);
    cbn [orb]; done || lia.
Qed.

Lemma pcb_changes_st32 m off v :
  0 <= off → off + 4 <= PCB_SIZE → changes [(pcb, PCB_SIZE)] m (st32 m (pcb + off) v).
Proof using Hpid.
  intros H1 H2. pose proof pcb_fine as Hok.
  assert (Hs : seg (pcb + off) 4) by (apply pcb_seg; (done || lia)).
  destruct (writes_st32 m _ v Hs) as [Hu Hpk]. split; [done|].
  intros p Hps. inversion_clear Hps as [|? ? H3 _]. cbn [fst snd] in H3. rewrite Hpk, pcb_phys by (done || lia).
  destruct (in_rangeP (pcb + off) (pcb + off + 4) p); [lia|done].
Qed.

Lemma stack_words_changes e b g m : changes [(pcb, PCB_SIZE)] m (stack_words e b g m).
Proof using Hpid.
  unfold stack_words. rewrite <- (Z.add_0_r pcb) at 4.
  do 3 (eapply changes_trans; [|apply pcb_changes_st32; unfold PCB_SIZE, ebp_off; lia]).
  apply pcb_changes_st32; unfold PCB_SIZE, esp_off; lia.
Qed.

(** The bytes of the arguments are above the words stored. *)
Lemma stack_words_arg e b g m i : 0 <= i < 32 → ld8 (stack_words e b g m) (pcb + arguments_off + i) = ld8 m (pcb + arguments_off + i).
Proof using Hpid.
  intros Hi. pose proof pcb_fine as Hok.
  assert (Hst : ∀ m off v, 0 <= off <= 136 → ld8 (st32 m (pcb + off) v) (pcb + arguments_off + i) = ld8 m (pcb + arguments_off + i)).
  { intros m1 off v Ho. assert (Hs : seg (pcb + off) 4) by (apply pcb_seg; (done || unfold PCB_SIZE; lia)).
    apply (writes_frame _ _ _ _ _ _ (writes_st32 m1 _ v Hs)).
    rewrite <- Z.add_assoc, !pcb_phys by (done || unfold PCB_SIZE, arguments_off; lia). unfold arguments_off. lia. }
  unfold stack_words. rewrite <- (Z.add_0_r pcb) at 3. rewrite !Hst; [done|unfold esp_off, ebp_off; lia..].
Qed.

(** The rest of [execute], from the state with the program loaded. *)
Definition build (inode : Z) : M Z :=
  let new_execute_pcb := EIGHTMB - EIGHTKB * (pid + 1) in
  r ← (λ s, let '(r, m) := init_pcb new_execute_pcb pid s in Ret r (upd_mem (λ _, m) s));
  if r =? -1 then _ ← printf "init pcb failed in system calls execute" []; mret (-1)
  else
    _ ← modify_mem (λ m, memcpy m (new_execute_pcb + arguments_off) loc_execute_args ARG_SIZE);
    _ ← modify_mem (λ m, st32 m loc_execute_enter 0);
    _ ← read_data inode 24 loc_execute_enter 4;
    _ ← modify (set_esp0 (EIGHTMB - EIGHTKB * pid - 4));
    _ ← modify (λ s, upd_mem (λ m, st32 m (new_execute_pcb + esp_off) (esp s)) s);
    _ ← modify (λ s, upd_mem (λ m, st32 m (new_execute_pcb + ebp_off) (ebp s)) s);
    _ ← modify sti;
    enter ← gets (λ s, ld32 s loc_execute_enter);
    go_to_ring_three enter new_execute_pcb.

Lemma enter_apart : loc_execute_enter + 4 <= pcb ∨ pcb + PCB_SIZE <= loc_execute_enter.
Proof using Hpid HL.
  exact (obj_sep 17 _ _ _ eq_refl (pcb_position pid Hpid) ltac:(lia)).
Qed.

Lemma build_run s ino a :
  image_ok s → file_ok s ino → image_apart s → 28 <= file_size s ino →
  (∀ i, 0 <= i < 32 → ld8 s (loc_execute_args + i) = nth (Z.to_nat i) a 0) →
  ∃ m', build ino s = EnterUser (file_word s ino 24)
      (upd_mem (λ _, m') (sti (set_esp0 (EIGHTMB - EIGHTKB * pid - 4) s))) ∧
    changes [(pcb, PCB_SIZE); (loc_execute_enter, 4)] s m' ∧
    (∀ j, 2 <= j < 8 → get_fd m' pcb j = no_fd) ∧ get_fd m' pcb 1 = std_fd ∧
    get_fd m' pcb 0 = mkFd (u32 (esp s - ring_three_depth)) (u32 (esp s - ring_three_depth)) 0 1 ∧
    ld32 m' (pcb + process_num_off) = pid ∧ ld32 m' (pcb + esp_off) = u32 (esp s) ∧
    ld32 m' (pcb + ebp_off) = u32 (ebp s) ∧
    (∀ i, 0 <= i < 32 → ld8 m' (pcb + arguments_off + i) = nth (Z.to_nat i) a 0).
Proof using Hpid HL.
  intros Himg Hfile Hap Hsz Hargs. pose proof pcb_fine as Hok.
  pose proof (obj_bounds 16 _ eq_refl) as B1. pose proof (obj_bounds 17 _ eq_refl) as B2. cbn [fst snd] in *.
  pose proof enter_apart as Ee. pose proof (obj_sep 16 _ _ _ eq_refl (pcb_position pid Hpid) ltac:(lia)) as Ea. cbn [fst snd] in Ea.
  fold pcb in Ea. pose proof (Hap 17%nat _ eq_refl) as Ae. pose proof (Hap _ _ (pcb_position pid Hpid)) as Ap. cbn [fst snd] in *.
  fold pcb in Ap. unfold KERNEL_START, KERNEL_END in B1, B2.
  assert (Hpb : 0x400000 <= pcb ∧ pcb + PCB_SIZE <= 0x800000) by exact Hok.
  assert (Hpcb : EIGHTMB - EIGHTKB * (pid + 1) = pcb) by reflexivity.
  unfold build. rewrite Hpcb.
  destruct (init_pcb_table s pcb pid Hok ltac:(lia)) as (m4 & Hi4 & Ht4 & Hp4).
  pose proof (init_pcb_changes pid s Hpid) as C4. fold pcb in C4. rewrite Hi4 in C4. cbn [snd] in C4.
  rewrite (bind_ret _ _ s 0 (upd_mem (λ _, m4) s)) by (by rewrite Hi4). change (0 =? -1) with false. cbv iota.
  rewrite (bind_ret _ _ _ _ _ (modify_mem_run _ _)). rewrite k_mem_upd, upd_mem_comp.
  set (m5 := memcpy m4 (pcb + arguments_off) loc_execute_args ARG_SIZE).
  assert (Hargs4 : ∀ i, 0 <= i < 32 → ld8 m4 (loc_execute_args + i) = nth (Z.to_nat i) a 0).
  { intros i Hi. rewrite <- Hargs by done. apply (changes_seg _ _ _ _ 32 _ C4); [lia|unfold PROGRAM_PAGE; lia| |done].
    each_segment. }
  assert (W5 : copied m4 m5 (pcb + arguments_off) loc_execute_args 32).
  { apply memcpy_copied; [apply pcb_seg; (done || unfold PCB_SIZE, arguments_off; lia)|apply seg_kernel; unfold PROGRAM_PAGE; lia| |lia].
    unfold apart. rewrite pcb_phys by (done || unfold PCB_SIZE, arguments_off; lia).
    rewrite phys_kernel by (unfold PROGRAM_PAGE; lia). unfold PCB_SIZE, arguments_off in *. lia. }
  clearbody m5.
  assert (C5 : changes [(pcb, PCB_SIZE)] m4 m5).
  { destruct W5 as [U5 P5]. split; [done|]. intros p Hps. inversion_clear Hps as [|? ? H1 _]. cbn [fst snd] in H1.
    rewrite P5, pcb_phys by (done || unfold PCB_SIZE, arguments_off; lia). unfold PCB_SIZE, arguments_off in *.
    destruct (in_rangeP (pcb + 140) (pcb + 140 + 32) p); [lia|done]. }
  rewrite (bind_ret _ _ _ _ _ (modify_mem_run _ _)). rewrite k_mem_upd, upd_mem_comp.
  assert (Hse : seg loc_execute_enter 4) by (apply seg_kernel; unfold PROGRAM_PAGE; lia).
  assert (Hpe : ∀ m, phys m loc_execute_enter = loc_execute_enter) by (intros; apply phys_kernel; unfold PROGRAM_PAGE; lia).
  pose proof (writes_st32 m5 loc_execute_enter 0 Hse) as W6. set (m6 := st32 m5 loc_execute_enter 0) in *. clearbody m6.
  set (s6 := upd_mem (λ _, m6) s).
  set (both := [(pcb, PCB_SIZE); (loc_execute_enter, 4)]).
  assert (C6 : changes both s m6).
  { eapply changes_trans; [eapply (changes_mono [(pcb, PCB_SIZE)]); [|eapply changes_trans; [exact C4|exact C5]]|].
    - intros o Ho. by apply list_elem_of_singleton in Ho as ->; left.
    - eapply (changes_writes _ _ _ _ _ _ loc_execute_enter W6); [apply Hpe|right; by left]. }
  assert (Hpk6 : ∀ p, image_base s <= p < image_base s + image_bytes s → peek s6 p = peek s p).
  { apply (image_changes both s s6 C6). each_segment. }
  pose proof (same_image_ok s s6 eq_refl Himg Hpk6) as Himg6.
  destruct (same_counts s s6 eq_refl Himg Hpk6) as [HN6 HD6].
  destruct (same_file s s6 eq_refl Himg Hpk6 ino Hfile) as (Hf6 & Hsz6 & Hby6).
  pose proof (file_size_bound s ino Hfile) as Hszb.
  assert (Hcnt : read_count (file_size s6 ino) 24 4 = 4).
  { rewrite Hsz6. unfold read_count. destruct (Z.leb_spec (file_size s ino) 24); lia. }
  destruct (read_data_run s6 ino 24 loc_execute_enter 4 Himg6 Hf6) as (m7 & He7 & W7); [lia..| |].
  { rewrite Hcnt. apply (obj_user_buf s6 17); [done| |done|lia]. intros i o Hi. unfold image_base, image_bytes.
    rewrite HN6, HD6. by apply (Hap i). }
  rewrite Hcnt in He7, W7. rewrite (bind_ret _ _ _ _ _ He7).
  change (upd_mem (λ _, m7) s6) with (upd_mem (λ _, m7) s).
  assert (C7 : changes both s m7).
  { eapply changes_trans; [exact C6|]. eapply (changes_writes _ _ _ _ _ _ loc_execute_enter W7); [apply Hpe|right; by left]. }
  assert (Hentry : ld32 m7 loc_execute_enter = file_word s ino 24).
  { unfold ld32, file_word. rewrite (writes_at0 _ _ _ _ _ W7 Hse) by lia. rewrite !(writes_at _ _ _ _ _ _ W7 Hse) by lia.
    rewrite !Hby6 by lia. rewrite Z.add_0_r. done. }
  assert (Hw7 : ∀ off, 0 <= off → off + 4 <= arguments_off → ld32 m7 (pcb + off) = ld32 m4 (pcb + off)).
  { intros off H1 H2. unfold arguments_off in *.
    assert (Hax : ∀ m, apart m loc_execute_enter 4 pcb PCB_SIZE).
    { intros m. unfold apart. rewrite Hpe. rewrite <- (Z.add_0_r pcb), pcb_phys by (done || unfold PCB_SIZE; lia). lia. }
    rewrite (pcb_word_frame _ _ _ _ _ _ _ W7 Hok), (pcb_word_frame _ _ _ _ _ _ _ W6 Hok) by (apply Hax || unfold PCB_SIZE; lia).
    apply (writes_ld32 _ _ _ _ _ _ W5); [|apply pcb_seg; (done || unfold PCB_SIZE; lia)].
    unfold apart. rewrite !pcb_phys by (done || unfold PCB_SIZE; lia). lia. }
  assert (Ha7 : ∀ i, 0 <= i < 32 → ld8 m7 (pcb + arguments_off + i) = nth (Z.to_nat i) a 0).
  { intros i Hi. assert (Hpi : ∀ m, phys m (pcb + arguments_off + i) = pcb + arguments_off + i).
    { intros m. rewrite <- Z.add_assoc. apply pcb_phys; [done|unfold PCB_SIZE, arguments_off; lia]. }
    rewrite (writes_frame _ _ _ _ _ _ W7), (writes_frame _ _ _ _ _ _ W6) by
      (rewrite Hpi, Hpe; unfold PCB_SIZE, arguments_off in *; lia).
    rewrite (writes_at _ _ _ _ _ _ W5); [by apply Hargs4|apply pcb_seg; (done || unfold PCB_SIZE, arguments_off; lia)|done]. }
  exists (stack_words (esp s) (ebp s) (esp s - ring_three_depth) m7).
  assert (Hw9 : ld32 (st32 (st32 m7 (pcb + esp_off) (esp s)) (pcb + ebp_off) (ebp s)) loc_execute_enter = file_word s ino 24).
  { rewrite <- Hentry. rewrite !ld32_st32_other; [done|..];
      try (apply pcb_seg; (done || unfold PCB_SIZE, esp_off, ebp_off; lia)); try done;
      unfold apart; rewrite Hpe, pcb_phys by (done || unfold PCB_SIZE, esp_off, ebp_off; lia);
      unfold PCB_SIZE, esp_off, ebp_off in *; lia. }
  split; [|split; [eapply changes_trans; [exact C7|]|]].
  - unfold go_to_ring_three. unfold mbind, M_bind, modify, gets, enter_user.
    change (k_mem (sti _)) with (st32 (st32 m7 (pcb + esp_off) (esp s)) (pcb + ebp_off) (ebp s)).
    rewrite Hw9. reflexivity.
  - eapply (changes_mono [(pcb, PCB_SIZE)]); [|apply stack_words_changes].
    intros o Ho. by apply list_elem_of_singleton in Ho as ->; left.
  - pose proof (fd_table_lookup m4 pcb) as Hl. rewrite Ht4 in Hl.
    assert (Hfd : ∀ j, 1 <= j < 8 → get_fd (stack_words (esp s) (ebp s) (esp s - ring_three_depth) m7) pcb j = get_fd m4 pcb j).
    { intros j Hj. unfold get_fd. rewrite !slot_off. unfold op_off, inode_off, pos_off, flags_off.
      rewrite !stack_words_word by (lia || Z.div_mod_to_equations; lia). unfold esp_off, ebp_off.
      rewrite <- !Hw7 by (unfold arguments_off; lia). f_equal; repeat (bcase_one; [lia|]); done. }
    split_and!.
    + intros j Hj. rewrite Hfd by lia. specialize (Hl j ltac:(lia)). unfold initial_fds in Hl.
      rewrite lookup_app_r in Hl by (cbn; lia). cbn [length] in Hl. rewrite lookup_replicate_2 in Hl by lia. by apply Some_inj in Hl.
    + rewrite Hfd by lia. specialize (Hl 1 ltac:(lia)). by apply Some_inj in Hl.
    + specialize (Hl 0 ltac:(lia)). apply Some_inj in Hl. unfold get_fd in *. rewrite !slot_off in *.
      unfold op_off, inode_off, pos_off, flags_off in *. rewrite !stack_words_word by (lia || done).
      unfold esp_off, ebp_off. cbn [Z.mul Z.add Z.eqb Pos.eqb Pos.add orb].
      rewrite !Hw7 by (unfold arguments_off; lia). injection Hl as H1 H2 H3 H4. by rewrite <- H3, <- H4.
    + unfold process_num_off in *. rewrite stack_words_word by (lia || done). cbn. rewrite Hw7 by (unfold arguments_off; lia). done.
    + unfold esp_off. rewrite stack_words_word by (lia || done). done.
    + unfold ebp_off. rewrite stack_words_word by (lia || done). done.
    + intros i Hi. rewrite stack_words_arg by done. by apply Ha7.
Qed.
End Build.

(** ** execute *)

Section Execute.
Context {L : Layout} {HL : LayoutOK L}.

(** The same file is as executable. *)
Lemma same_executable s s' ino :
  file_size s' ino = file_size s ino → (∀ k, 0 <= k < file_size s ino → file_byte s' ino k = file_byte s ino k) →
  executable s' ino = executable s ino.
Proof.
  intros Hsz Hby. unfold executable, magic. rewrite Hsz. destruct (Z.leb_spec 4 (file_size s ino)); [|done].
  by rewrite !Hby by lia.
Qed.

(** What [execute] is called with: a command the buffers have room for, an
    image below 8 MB and apart from the buffers. *)
Record exec_env (cur : Z) (s : kernel) (cmd : Z) (l : list Z) : Prop := {
  ee_process : process_ok cur s;
  ee_cmd : u32 cmd ≠ 0;
  ee_parse : parse_args s cmd loc_execute_file_name loc_execute_args l;
  ee_low : image_base s + image_bytes s <= KERNEL_END;
  ee_name_image : loc_execute_file_name + BUF <= image_base s ∨ image_base s + image_bytes s <= loc_execute_file_name;
  ee_args_image : loc_execute_args + BUF <= image_base s ∨ image_base s + image_bytes s <= loc_execute_args;
  ee_files : ∀ k, find_dentry s (cmd_word l) = Some k → file_ok s (dentry_inode s k);
}.

Definition exec_locals : list (Z * Z) :=
  [(loc_execute_file_name, BUF); (loc_execute_args, BUF); (loc_check_valid_buf, 4); (loc_check_valid_dentry, 64)].

(** The program a command names: its index node. *)
Definition program_of (s : kernel) (l : list Z) : option Z :=
  match find_dentry s (cmd_word l) with
  | Some k => if executable s (dentry_inode s k) then Some (dentry_inode s k) else None
  | None => None
  end.

Lemma two_bufs_changes m0 m w a :
  two_bufs m0 m loc_execute_file_name loc_execute_args w a → changes exec_locals m0 m.
Proof.
  intros [Hu Hp]. split; [done|]. intros p Hps.
  inversion_clear Hps as [|? ? H1 Hps2]. inversion_clear Hps2 as [|? ? H2 _]. cbn [fst snd] in *. rewrite Hp.
  destruct (in_rangeP loc_execute_file_name (loc_execute_file_name + BUF) p); [done|].
  by destruct (in_rangeP loc_execute_args (loc_execute_args + BUF) p).
Qed.

Lemma exec_check cur s cmd l :
  exec_env cur s cmd l →
  ∃ m0 m1, parse cmd loc_execute_file_name loc_execute_args s = Ret tt (upd_mem (λ _, m0) s) ∧
    check_valid loc_execute_file_name (upd_mem (λ _, m0) s) =
      Ret (default (-1) (program_of s l)) (upd_mem (λ _, m1) s) ∧
    changes exec_locals s m1 ∧
    (∀ i, 0 <= i < 32 → ld8 m1 (loc_execute_args + i) = nth (Z.to_nat i) (cmd_args l) 0).
Proof using HL.
  intros [Hpo Hc Hpa Hlow Hni Hai Hfiles].
  pose proof (obj_bounds 13 _ eq_refl) as B13. pose proof (obj_bounds 14 _ eq_refl) as B14.
  pose proof (obj_bounds 15 _ eq_refl) as B15. pose proof (obj_bounds 16 _ eq_refl) as B16.
  pose proof (obj_sep 13 15 _ _ eq_refl eq_refl ltac:(done)) as S1. pose proof (obj_sep 14 15 _ _ eq_refl eq_refl ltac:(done)) as S2.
  pose proof (obj_sep 13 16 _ _ eq_refl eq_refl ltac:(done)) as S3. pose proof (obj_sep 14 16 _ _ eq_refl eq_refl ltac:(done)) as S4.
  pose proof (po_apart cur s Hpo) as Hap. pose proof (Hap 13%nat _ eq_refl) as A13. pose proof (Hap 14%nat _ eq_refl) as A14.
  unfold KERNEL_START, KERNEL_END in *. cbn [fst snd] in *.
  destruct (parse_run s cmd loc_execute_file_name loc_execute_args l Hc Hpa) as (m0 & He0 & Hb).
  pose proof (two_bufs_changes _ _ _ _ Hb) as C0.
  destruct Hpa as [Hf Ha Hfa Hcmd _ _ _ _ Hw Hwa]. pose proof Hcmd as (Hch & _ & _).
  pose proof (two_bufs_file _ _ _ _ _ _ Hb Hf Hw (cmd_word_chars _ _ Hch)) as Hname.
  destruct (two_bufs_arg _ _ _ _ _ _ Hb Ha Hfa Hwa (cmd_args_chars _ _ Hch)) as [_ Hargs].
  set (s0 := upd_mem (λ _, m0) s).
  assert (Hpk0 : ∀ p, image_base s <= p < image_base s + image_bytes s → peek s0 p = peek s p).
  { apply (image_changes exec_locals s s0 C0). unfold exec_locals. each_segment. }
  pose proof (process_ok_open cur s s0 Hpo eq_refl eq_refl eq_refl Hpk0) as Hpo0.
  pose proof (po_image cur s Hpo) as Himg. pose proof (po_nodes cur s Hpo) as HN.
  assert (Hfind : find_dentry s0 (cmd_word l) = find_dentry s (cmd_word l)) by (by apply (same_find s s0)).
  assert (Hino : ∀ k, find_dentry s (cmd_word l) = Some k → dentry_inode s0 k = dentry_inode s k).
  { intros k Hk. apply find_dentry_bound in Hk as [Hk _]. apply (same_dentry_word s s0); (done || lia). }
  destruct (check_valid_run cur s0 loc_execute_file_name (cmd_word l)) as (m1 & He1 & C1); [done| |exact Hname|unfold NAME_SIZE; lia| | |].
  { rewrite u32_small; lia. }
  { intros i Hi. rewrite phys_kernel by (unfold PROGRAM_PAGE; lia). lia. }
  { intros k Hk. rewrite Hfind in Hk. rewrite (Hino k Hk). apply (same_file s s0); [done|done|done|by apply Hfiles]. }
  exists m0, m1. split; [done|]. split; [|split].
  - change (upd_mem (λ _, m1) s) with (upd_mem (λ _, m1) s0). fold s0. rewrite He1. f_equal. rewrite Hfind. unfold program_of.
    destruct (find_dentry s (cmd_word l)) as [k|] eqn:Hk; [|done]. rewrite (Hino k eq_refl).
    specialize (Hfiles k eq_refl). destruct (same_file s s0 eq_refl Himg Hpk0 _ Hfiles) as (_ & Hsz & Hby).
    rewrite (same_executable s s0) by done. by destruct (executable _ _).
  - eapply changes_trans; [exact C0|]. eapply changes_mono; [|exact C1].
    intros o Ho. unfold exec_locals. do 2 apply list_elem_of_further. exact Ho.
  - intros i Hi. rewrite <- Hargs by lia.
    apply (changes_seg _ _ _ _ 33 _ C1); [lia|unfold PROGRAM_PAGE; lia|unfold check_locals; each_segment|lia].
Qed.

(** The state a successful [execute] enters user mode in. *)
Record started (pid : Z) (s : kernel) (ino : Z) (args : list Z) (s' : kernel) : Prop := {
  st_occupants : pcb_occupants s' = <[pid := -1]> (pcb_occupants s);
  st_previous : process_previous s' = <[pid := process_num (term s (active_terminal s))]> (process_previous s);
  st_terminal : process_num (term s' (active_terminal s)) = pid;
  st_others : ∀ j, j ≠ active_terminal s → term s' j = term s j;
  st_page : upage s' = program_base pid ∧ pDirectory s' !!! 32 = u32 (program_pde pid);
  st_program : ∀ j, 0 <= j < file_size s ino → ld8 s' (PROGRAM_IMAGE_OFFSET + j) = file_byte s ino j;
  st_number : ld32 s' (pcb_addr pid + process_num_off) = pid;
  st_std : get_fd s' (pcb_addr pid) 1 = std_fd ∧ ∀ j, 2 <= j < 8 → get_fd s' (pcb_addr pid) j = no_fd;
  st_stdin : get_fd s' (pcb_addr pid) 0 = mkFd (u32 (esp s - ring_three_depth)) (u32 (esp s - ring_three_depth)) 0 1;
  st_args : ∀ i, 0 <= i < ARG_SIZE → ld8 s' (pcb_addr pid + arguments_off + i) = nth (Z.to_nat i) args 0;
  st_stack : ld32 s' (pcb_addr pid + esp_off) = u32 (esp s) ∧ ld32 s' (pcb_addr pid + ebp_off) = u32 (ebp s);
  st_esp0 : esp0 s' = u32 (EIGHTMB - EIGHTKB * pid - 4);
  st_flag : iflag s' = true;
}.

(** It depends on the memory, the cursor, the image and the stack pointer only. *)
Lemma exec_env_same cur s s' cmd l :
  k_mem s' = k_mem s → k_con s' = k_con s → k_fs s' = k_fs s → esp s' = esp s →
  exec_env cur s cmd l → exec_env cur s' cmd l.
Proof.
  destruct s as [m c d t k sc pi rt fs pr pg [e b e0 f] ds], s' as [m' c' d' t' k' sc' pi' rt' fs' pr' pg' [e' b' e0' f'] ds'].
  cbn. intros -> -> -> ->.
  intros [[Hst [I1 I2 I3 I4] HN Hap Hcur] H2 H3 H4 H5 H6 H7]. split; [|exact H2|exact H3|exact H4|exact H5|exact H6|].
  - split; [exact Hst|by split|exact HN|exact Hap|exact Hcur].
  - intros i Hi. destruct (H7 i Hi) as [F1 F2 F3]. split; [exact F1|exact F2|exact F3].
Qed.

Lemma exec_env_cli cur s cmd l : exec_env cur s cmd l → exec_env cur (cli s) cmd l.
Proof. by apply exec_env_same. Qed.

(** A change below the kernel, the pages of the screen for instance, does not
    matter to a command stored in the kernel. *)
Lemma exec_env_low cur s s' cmd l :
  exec_env cur s cmd l → upage s' = upage s → (∀ p, KERNEL_START <= p → peek s' p = peek s p) →
  k_fs s' = k_fs s → esp s' = esp s → cursor_ok s' → KERNEL_START <= image_base s →
  KERNEL_START <= cmd → cmd + Z.of_nat (length l) + 1 <= KERNEL_END →
  exec_env cur s' cmd l ∧ program_of s' l = program_of s l ∧
  ∀ ino, file_ok s ino → file_size s' ino = file_size s ino ∧
    ∀ k, 0 <= k < file_size s ino → file_byte s' ino k = file_byte s ino k.
Proof using HL.
  intros [[Hst Himg HN Hap Hcur] H2 H3 H4 H5 H6 H7] Hu Hpk Hfs Hesp Hcur' Hbase Hc1 Hc2.
  assert (Hpi : ∀ p, image_base s <= p < image_base s + image_bytes s → peek s' p = peek s p) by (intros; apply Hpk; lia).
  destruct (same_counts s s' Hfs Himg Hpi) as [HN' HD'].
  assert (Hbytes : image_bytes s' = image_bytes s) by (unfold image_bytes; by rewrite HN', HD').
  assert (Hb : image_base s' = image_base s) by (unfold image_base; by rewrite Hfs).
  assert (Hfiles : ∀ ino, file_ok s ino → file_size s' ino = file_size s ino ∧
    ∀ k, 0 <= k < file_size s ino → file_byte s' ino k = file_byte s ino k).
  { intros ino Hf. by apply (same_file s s' Hfs Himg Hpi). }
  assert (Hfind : find_dentry s' (cmd_word l) = find_dentry s (cmd_word l)) by (by apply (same_find s s')).
  assert (Hino : ∀ k, find_dentry s (cmd_word l) = Some k → dentry_inode s' k = dentry_inode s k).
  { intros k Hk. apply find_dentry_bound in Hk as [Hk _]. apply (same_dentry_word s s'); (done || lia). }
  split; [|split; [|exact Hfiles]].
  - split; rewrite ?Hbytes, ?Hb; try done.
    + split; [|by apply (same_image_ok s)|by rewrite HN'| |done].
      * unfold on_stack. by rewrite Hesp.
      * intros i o Ho. rewrite Hbytes, Hb. by apply (Hap i).
    + destruct H3 as [F1 F2 F3 F4 F5 F6 F7 F8 F9 F10]. split; try done.
      * assert (Hld : ∀ i, 0 <= i <= Z.of_nat (length l) → ld8 s' (cmd + i) = ld8 s (cmd + i)).
        { intros i Hi. unfold ld8. rewrite !phys_kernel by (unfold KERNEL_START, KERNEL_END, PROGRAM_PAGE in *; lia).
          apply Hpk. lia. }
        destruct F4 as (G1 & G2 & G3). split_and!; [done| |by rewrite Hld by lia].
        intros i c Hi. pose proof (lookup_lt_Some _ _ _ Hi). rewrite Hld by lia. by apply G2.
      * unfold apart in *. by rewrite !(phys_upage s s').
      * unfold apart in *. by rewrite !(phys_upage s s').
    + intros k Hk. rewrite Hfind in Hk. rewrite (Hino k Hk). apply (same_file s s' Hfs Himg Hpi). by apply H7.
  - unfold program_of. rewrite Hfind. destruct (find_dentry s (cmd_word l)) as [k|] eqn:Hk; [|done].
    rewrite (Hino k eq_refl). destruct (Hfiles _ (H7 k eq_refl)) as [Hsz Hby].
    by rewrite (same_executable s s').
Qed.

Lemma allocate_bound s pid : allocate_pid s = Some pid → 0 <= pid < 6.
Proof. intros H. apply find_first_spec in H. lia. Qed.

Lemma execute_run cur s cmd l ino pid :
  exec_env cur s cmd l → program_of s l = Some ino → file_ok s ino → 28 <= file_size s ino <= 0x3B8000 →
  allocate_pid s = Some pid →
  ∃ s', execute cmd s = EnterUser (file_word s ino 24) s' ∧ started pid s ino (cmd_args l) s'.
Proof using HL.
  intros Hee Hprog Hfile Hsz Hpid. pose proof (allocate_bound s pid Hpid) as Hp.
  assert (Hee0 : exec_env cur (cli s) cmd l).
  { by apply exec_env_cli. }
  destruct (exec_check cur (cli s) cmd l Hee0) as (m0 & m1 & He0 & He1 & C1 & Hargs).
  change (program_of (cli s) l) with (program_of s l) in He1. rewrite Hprog in He1. change (default (-1) (Some ino)) with ino in He1.
  destruct Hee as [Hpo Hc Hpa Hlow Hni Hai Hfiles].
  pose proof (po_image cur s Hpo) as Himg. pose proof (po_apart cur s Hpo) as Hap.
  unfold execute. rewrite (bind_ret _ _ s tt (cli s)) by done. apply Z.eqb_neq in Hc. rewrite Hc.
  rewrite (bind_ret _ _ _ _ _ He0), (bind_ret _ _ _ _ _ He1).
  pose proof (file_inode s ino Hfile) as Hi. destruct (Z.eqb_spec ino (-1)); [lia|].
  set (s1 := upd_mem (λ _, m1) (cli s)) in *.
  rewrite (bind_ret _ _ s1 (Some pid) s1) by (unfold gets; by rewrite <- Hpid).
  cbv beta iota.
  rewrite (bind_ret _ _ s1 tt (claim_pid pid s1)) by done.
  rewrite (bind_ret _ _ _ tt (set_pde 32 (program_pde pid) (claim_pid pid s1))) by done.
  rewrite (bind_ret _ _ _ tt (mapped pid s1)) by done.
  assert (Hpk1 : ∀ p, image_base s <= p < image_base s + image_bytes s → peek s1 p = peek s p).
  { pose proof (Hap 13%nat _ eq_refl). pose proof (Hap 14%nat _ eq_refl). cbn [fst snd] in *.
    apply (image_changes exec_locals s s1 C1). unfold exec_locals. each_segment. }
  pose proof (same_image_ok s s1 eq_refl Himg Hpk1) as Himg1.
  destruct (same_counts s s1 eq_refl Himg Hpk1) as [HN1 HD1].
  destruct (same_file s s1 eq_refl Himg Hpk1 ino Hfile) as (Hf1 & Hsz1 & Hby1).
  assert (Hlow1 : image_base s1 + image_bytes s1 <= KERNEL_END).
  { unfold image_base, image_bytes. rewrite HN1, HD1. exact Hlow. }
  destruct (load_program pid s1 ino Hp Himg1 Hf1 Hlow1) as (Hms & m2 & He2 & Hup2 & Hprog2 & C2); [lia|].
  rewrite (bind_ret _ _ _ (file_size s1 ino) (mapped pid s1)) by (unfold gets; by rewrite Hms).
  rewrite (bind_ret _ _ _ _ _ He2).
  set (s2 := upd_mem (λ _, m2) (mapped pid s1)).
  assert (Hlowp : ∀ a len, 0 <= a → 0 <= len → a + len <= KERNEL_END →
    Forall (λ o : Z * Z, a + len <= o.1 ∨ o.1 + o.2 <= a) [(program_base pid, FOURMB)]).
  { intros a len H1 H2 H3. apply List.Forall_cons; [|apply List.Forall_nil]. left. cbn [fst].
    unfold KERNEL_END, program_base, EIGHTMB, FOURMB in *. lia. }
  assert (Hpk2 : ∀ p, image_base s1 <= p < image_base s1 + image_bytes s1 → peek s2 p = peek s1 p).
  { intros p Hpi. transitivity (peek (mapped pid s1) p); [|by apply mapped_peek].
    destruct C2 as [_ H2]. apply H2. apply List.Forall_cons; [|apply List.Forall_nil]. cbn [fst snd].
    unfold KERNEL_END, program_base, EIGHTMB, FOURMB in *. lia. }
  pose proof (same_image_ok s1 s2 eq_refl Himg1 Hpk2) as Himg2.
  destruct (same_counts s1 s2 eq_refl Himg1 Hpk2) as [HN2 HD2].
  destruct (same_file s1 s2 eq_refl Himg1 Hpk2 ino Hf1) as (Hf2 & Hsz2 & Hby2).
  assert (Hap2 : image_apart s2).
  { intros i o Ho. unfold image_base, image_bytes. rewrite HN2, HD2, HN1, HD1. by apply (Hap i). }
  assert (Hargs2 : ∀ i, 0 <= i < 32 → ld8 s2 (loc_execute_args + i) = nth (Z.to_nat i) (cmd_args l) 0).
  { intros i Hi'. rewrite <- Hargs by done.
    pose proof (obj_bounds 16 _ eq_refl) as B. cbn [fst snd] in B. unfold KERNEL_START in B.
    transitivity (ld8 (mapped pid s1) (loc_execute_args + i)).
    - apply (changes_seg _ _ _ _ 33 _ C2); [lia|unfold PROGRAM_PAGE, KERNEL_END in *; lia|apply Hlowp; lia|lia].
    - unfold ld8. rewrite !phys_kernel by (unfold PROGRAM_PAGE, KERNEL_END in *; lia). by apply mapped_peek. }
  destruct (build_run pid Hp s2 ino (cmd_args l) Himg2 Hf2 Hap2 ltac:(lia) Hargs2)
    as (m3 & He3 & C3 & Hno & Hstd & Hin & Hnum & Hse & Hsb & Ha3).
  fold (build pid ino). rewrite He3. eexists. split.
  { f_equal. unfold file_word. rewrite !Hby2 by lia. by rewrite !Hby1 by lia. }
  change (esp s2) with (esp s) in *. change (ebp s2) with (ebp s) in *.
  pose proof (obj_bounds 17 _ eq_refl) as B17. cbn [fst snd] in B17. pose proof (pcb_addr_ok pid Hp) as Hok.
  unfold pcb_ok, KERNEL_START, KERNEL_END in *.
  split.
  - done.
  - done.
  - change (process_num (term (claim_pid pid s1) (active_terminal s)) = pid). unfold claim_pid. by rewrite term_upd_same.
  - intros j Hj. change (term (claim_pid pid s1) j = term s j). unfold claim_pid. by rewrite term_upd_other.
  - split; [change (upage m3 = program_base pid); destruct C3 as [E3 _]; rewrite E3; exact Hup2|].
    change (<[32 := u32 (program_pde pid)]> (pDirectory s) !!! 32 = u32 (program_pde pid)).
    by rewrite lookup_total_insert_Z.
  - intros j Hj. rewrite k_mem_upd. rewrite <- Hby1, <- Hprog2 by lia.
    apply (changes_byte _ _ _ _ C3). rewrite phys_user by (unfold PROGRAM_PAGE, PROGRAM_PAGE_END, PROGRAM_IMAGE_OFFSET; lia).
    change (upage s2) with (upage m2). rewrite Hup2.
    unfold program_base, EIGHTMB, FOURMB, PROGRAM_IMAGE_OFFSET, PROGRAM_PAGE, PCB_SIZE in *.
    apply List.Forall_cons; [|apply List.Forall_cons; [|apply List.Forall_nil]]; cbn [fst snd]; lia.
  - exact Hnum.
  - by split.
  - exact Hin.
  - exact Ha3.
  - by split.
  - done.
  - done.
Qed.
End Execute.

Section Reject.
Context {L : Layout} {HL : LayoutOK L}.

Lemma program_file cur s cmd l ino : exec_env cur s cmd l → program_of s l = Some ino → file_ok s ino.
Proof.
  intros Hee Hp. unfold program_of in Hp. destruct (find_dentry s (cmd_word l)) as [k|] eqn:Hk; [|done].
  destruct (executable s (dentry_inode s k)); [|done]. injection Hp as <-. by apply (ee_files cur s cmd l Hee).
Qed.

(** What [execute] says when it refuses. *)
Definition reject_message (s : kernel) (l : list Z) : list Z :=
  bytes_of (if program_of s l is Some _ then "too many processes, " else "curr i node number is invalid | ").

Lemma exec_locals_off_screen s m1 : changes exec_locals s m1 → abs_screen (upd_mem (λ _, m1) s) = abs_screen s.
Proof using HL.
  intros Hc. unfold abs_screen. f_equal. apply (video_kept _ _ _ Hc).
  pose proof (obj_bounds 13 _ eq_refl) as B13. pose proof (obj_bounds 14 _ eq_refl) as B14.
  pose proof (obj_bounds 15 _ eq_refl) as B15. pose proof (obj_bounds 16 _ eq_refl) as B16.
  unfold exec_locals, KERNEL_START, VIDEO, PAGE_BYTES in *. cbn [fst snd] in *. each_segment.
Qed.

Lemma execute_reject cur s cmd l :
  exec_env cur s cmd l → program_of s l = None ∨ allocate_pid s = None →
  ∃ s', execute cmd s = Ret (-1) s' ∧ steps ((VIDEO, PAGE_BYTES) :: exec_locals) s s' ∧
    k_paging s' = k_paging s ∧ iflag s' = false ∧ abs_screen s' = scr_puts (reject_message s l) (abs_screen s).
Proof using HL.
  intros Hee Hno. pose proof (exec_env_cli _ _ _ _ Hee) as Hee0.
  destruct (exec_check cur (cli s) cmd l Hee0) as (m0 & m1 & He0 & He1 & C1 & _).
  change (program_of (cli s) l) with (program_of s l) in He1.
  set (s1 := upd_mem (λ _, m1) (cli s)) in *.
  assert (Hc1 : cursor_ok s1) by apply (po_cursor cur (cli s)), (ee_process _ _ _ _ Hee0).
  assert (Hs1 : steps ((VIDEO, PAGE_BYTES) :: exec_locals) s s1) by (apply steps_tail; by split).
  assert (Hmsg : ∀ t, plain t = true → ∃ s', (_ ← printf t []; mret (-1)) s1 = Ret (-1) s' ∧
    steps ((VIDEO, PAGE_BYTES) :: exec_locals) s s' ∧ k_paging s' = k_paging s ∧ iflag s' = false ∧
    abs_screen s' = scr_puts (bytes_of t) (abs_screen s)).
  { intros t Ht. destruct (message_only t (-1) s1 Ht Hc1) as (s' & He & Hsay). exists s'. split; [exact He|].
    split; [apply (steps_trans _ _ s1); [done|by apply steps_head, (says_steps (bytes_of t))]|].
    destruct Hsay as (Ho & _ & Hsc). rewrite Hsc, <- (exec_locals_off_screen s m1 C1).
    split_and!; [apply (co_paging _ _ Ho)|by rewrite (co_cpu _ _ Ho)|done]. }
  unfold execute. rewrite (bind_ret _ _ s tt (cli s)) by done.
  pose proof (ee_cmd _ _ _ _ Hee) as Hcmd%Z.eqb_neq. rewrite Hcmd.
  rewrite (bind_ret _ _ _ _ _ He0), (bind_ret _ _ _ _ _ He1). clear He0 He1.
  destruct (program_of s l) as [ino|] eqn:Hprog.
  - change (default (-1) (Some ino)) with ino. destruct Hno as [|Hno]; [done|].
    pose proof (file_inode s ino (program_file _ _ _ _ _ Hee Hprog)). destruct (Z.eqb_spec ino (-1)); [lia|].
    rewrite (bind_ret _ _ s1 None s1) by (unfold gets; by rewrite <- Hno).
    unfold reject_message. rewrite Hprog. by apply Hmsg.
  - unfold reject_message. rewrite Hprog. by apply Hmsg.
Qed.
End Reject.

(** C4: [execute] on a command that names an executable starts it: with a
    free slot, the slot and the terminal are the new process's, the program
    page is its own and holds the file, its block has its number, the two
    console descriptors, no other, and the arguments, and the processor enters
    user mode at the word the file has at offset 24. *)
Theorem execute_correct {L : Layout} {HL : LayoutOK L} (cur : Z) (s : kernel) (cmd : Z) (l : list Z) (ino pid : Z) :
  exec_env cur s cmd l → program_of s l = Some ino → 28 <= file_size s ino <= 0x3B8000 →
  allocate_pid s = Some pid →
  ∃ s', execute cmd s = EnterUser (file_word s ino 24) s' ∧ started pid s ino (cmd_args l) s'.
Proof. intros He Hp Hs Ha. apply (execute_run cur); try done. by apply (program_file cur s cmd l). Qed.

(** C38: [execute] on a command that names no executable file, or with the six
    slots in use, returns -1 and leaves the processes, the terminals and the
    page tables as they were; the message that says which of the two it was is
    printed; interrupts stay off. *)
Theorem execute_fails {L : Layout} {HL : LayoutOK L} (cur : Z) (s : kernel) (cmd : Z) (l : list Z) :
  exec_env cur s cmd l → program_of s l = None ∨ allocate_pid s = None →
  ∃ s', execute cmd s = Ret (-1) s' ∧
    k_proc s' = k_proc s ∧ k_term s' = k_term s ∧ k_paging s' = k_paging s ∧ iflag s' = false ∧
    abs_screen s' = scr_puts (reject_message s l) (abs_screen s).
Proof.
  intros He Hno. destruct (execute_reject cur s cmd l He Hno) as (s' & E & Hs & Hpg & Hif & Hsc). exists s'.
  split_and!; [done|apply Hs|apply Hs|done..].
Qed.

(** ** The command [f x] on the example image, for the witnesses *)

Definition example_busy (n : Z) : kernel :=
  foldl (λ s i, set_occupant i (-1) s) example_image (seqZ 0 n).

Lemma example_image_env : exec_env (L := example_layout) 0 example_image 0x8100010 [0x66; 0x20; 0x78].
Proof.
  assert (HB : image_base example_image + image_bytes example_image = 0x506000) by (by vm_compute).
  split; rewrite ?HB; [exact example_process_ok|by vm_compute|exact example_command|unfold KERNEL_END; lia
    |right; closed_compare|right; closed_compare|].
  intros k Hk. replace (find_dentry example_image (cmd_word [0x66; 0x20; 0x78])) with (Some 0) in Hk by (vm_compute; reflexivity).
  injection Hk as <-. replace (dentry_inode example_image 0) with 1 by (vm_compute; reflexivity). exact example_file_ok.
Qed.

Lemma example_exec_env n : exec_env (L := example_layout) 0 (example_busy n) 0x8100010 [0x66; 0x20; 0x78].
Proof.
  assert (H : ∀ l s, exec_env (L := example_layout) 0 s 0x8100010 [0x66; 0x20; 0x78] →
    exec_env (L := example_layout) 0 (foldl (λ s i, set_occupant i (-1) s) s l) 0x8100010 [0x66; 0x20; 0x78]).
  { induction l as [|i l IH]; intros s Hs; [exact Hs|]. apply IH, (exec_env_same 0 s); [done..|exact Hs]. }
  apply H, example_image_env.
Qed.

Lemma execute_correct_witness :
  exec_env (L := example_layout) 0 (example_busy 3) 0x8100010 [0x66; 0x20; 0x78] ∧
  ∃ s', execute (L := example_layout) 0x8100010 (example_busy 3) = EnterUser 0x8048000 s' ∧
    started (L := example_layout) 3 (example_busy 3) 1 [0x78] s'.
Proof.
  assert (He := example_exec_env 3). split; [exact He|].
  destruct (execute_correct (L := example_layout) 0 (example_busy 3) 0x8100010 [0x66; 0x20; 0x78] 1 3 He) as (s' & H1 & H2);
    [by vm_compute|by vm_compute|by vm_compute|].
  exists s'. replace (file_word (example_busy 3) 1 24) with 0x8048000 in H1 by (vm_compute; reflexivity).
  split; [exact H1|exact H2].
Defined.

Lemma execute_fails_witness :
  exec_env (L := example_layout) 0 (example_busy 6) 0x8100010 [0x66; 0x20; 0x78] ∧
  ∃ s', execute (L := example_layout) 0x8100010 (example_busy 6) = Ret (-1) s' ∧ k_proc s' = k_proc (example_busy 6) ∧
    abs_screen s' = scr_puts (bytes_of "too many processes, ") (abs_screen (example_busy 6)).
Proof.
  assert (He := example_exec_env 6). split; [exact He|].
  destruct (execute_fails (L := example_layout) 0 (example_busy 6) 0x8100010 [0x66; 0x20; 0x78] He) as (s' & H1 & H2 & _ & _ & _ & H3);
    [right; by vm_compute|]. exists s'. split; [exact H1|]. split; [exact H2|].
  replace (reject_message (example_busy 6) [0x66; 0x20; 0x78]) with (bytes_of "too many processes, ") in H3
    by (vm_compute; reflexivity). exact H3.
Defined.
