(* ===== verification/Halt.v ===== *)
(** * Ending programs: [halt]

    [halt] closes the descriptors of the calling process, frees its slot,
    gives the terminal and the program page back to the process that was there
    before and resumes that process inside its [execute]. *)

From S2P Require Import Prelude Memory LibMem LibStr Video State Console Process FileSystem Terminal Paging SysCalls Command Exec.

Implicit Types s : kernel.

(** A descriptor after [halt]: not in use and without operations. *)
Definition freed (f : file_descriptor_t) : file_descriptor_t := mkFd 0 (inode_num f) (file_pos f) 0.

(** The bytes of descriptors 2 to 7. *)
Definition fd_span (pcb : Z) : Z * Z := (pcb + 32, 96).

Lemma slot_store_changes m pcb fd o v :
  pcb_ok pcb → 2 <= fd < 8 → 0 <= o <= 12 → changes [fd_span pcb] m (st32 m (fd_slot pcb fd + o) v).
Proof.
  intros Hp Hf Ho. rewrite slot_off. split; [done|]. intros p Hps. inversion_clear Hps as [|? ? H1 _].
  unfold fd_span in H1. cbn [fst snd] in H1.
  destruct (writes_st32 m (pcb + (16 * fd + o)) v) as [_ ->].
  { apply pcb_seg; (done || unfold PCB_SIZE; lia). }
  rewrite pcb_phys by (done || unfold PCB_SIZE; lia).
  by destruct (in_rangeP (pcb + (16 * fd + o)) (pcb + (16 * fd + o) + 4) p); [lia|].
Qed.

Section Close.
Context {L : Layout} {HL : LayoutOK L}.
Context (pid : Z).
Let pcb := pcb_addr pid.

(** One descriptor, open or not. *)
Lemma halt_close_run s i :
  on_stack pid s → 2 <= i < 8 →
  (flags (get_fd s pcb i) = 1 → known_table (descriptor_op_ptr (get_fd s pcb i))) →
  ∃ m', halt_close pcb i s = Ret tt (upd_mem (λ _, m') s) ∧ changes [fd_span pcb] s m' ∧
    ∀ j, 0 <= j < 8 → get_fd m' pcb j = if i =? j then freed (get_fd s pcb i) else get_fd s pcb j.
Proof using HL.
  intros Hst Hi Hk. assert (Hp : pcb_ok pcb) by (destruct Hst as [Hpid _]; by apply pcb_addr_ok).
  assert (Hopen : ∃ m1, (m1 = k_mem s ∨ m1 = st32 s (fd_slot pcb i + flags_off) OUT_OF_USE) ∧
    (if ld32 s (fd_slot pcb i + flags_off) =? 1 then (_ ← close i; mret tt) else mret tt) s =
      Ret tt (upd_mem (λ _, m1) s)).
  { destruct (Z.eqb_spec (ld32 s (fd_slot pcb i + flags_off)) 1) as [E|E].
    - eexists. split; [by right|]. rewrite (bind_ret _ _ _ _ _ (close_run pid s i Hst ltac:(lia)
        ltac:(fold pcb; unfold get_fd; cbn [flags]; lia) (Hk E))). done.
    - exists (k_mem s). split; [by left|]. by destruct s. }
  destruct Hopen as (m1 & Hm1 & He). unfold halt_close.
  rewrite (bind_ret _ _ s (ld32 s (fd_slot pcb i + flags_off)) s) by done. rewrite (bind_ret _ _ _ _ _ He).
  rewrite (bind_ret _ _ _ _ _ (modify_mem_run _ _)). rewrite modify_mem_run.
  eexists. split; [by rewrite upd_mem_comp|].
  assert (C1 : changes [fd_span pcb] s m1).
  { destruct Hm1 as [-> | ->]; [apply changes_refl|]. apply slot_store_changes; (done || unfold flags_off; lia). }
  split.
  - eapply changes_trans; [exact C1|]. eapply changes_trans; apply slot_store_changes; (done || unfold flags_off, op_off; lia).
  - intros j Hj. unfold freed, get_fd.
    destruct Hm1 as [-> | ->]; cbn [inode_num file_pos]; rewrite ?k_mem_upd; pcb_words;
      (destruct (Z.eqb_spec i j) as [->|Hne]; f_equal; bcase; done).
Qed.

(** The loop. *)
Lemma halt_close_all k i s :
  on_stack pid s → 2 <= i → i + Z.of_nat k = 8 →
  (∀ j, i <= j < 8 → flags (get_fd s pcb j) = 1 → known_table (descriptor_op_ptr (get_fd s pcb j))) →
  ∃ m', for_upM k i (halt_close pcb) s = Ret tt (upd_mem (λ _, m') s) ∧ changes [fd_span pcb] s m' ∧
    ∀ j, 0 <= j < 8 → get_fd m' pcb j = if i <=? j then freed (get_fd s pcb j) else get_fd s pcb j.
Proof using HL.
  revert i s. induction k as [|k IH]; intros i s Hst Hi Hk Hkn; cbn [for_upM].
  - exists (k_mem s). split; [by destruct s|]. split; [apply changes_refl|]. intros j Hj.
    destruct (Z.leb_spec i j); [lia|done].
  - destruct (halt_close_run s i Hst ltac:(lia) (Hkn i ltac:(lia))) as (m1 & He & C1 & H1).
    rewrite (bind_ret _ _ _ _ _ He).
    destruct (IH (i + 1) (upd_mem (λ _, m1) s)) as (m2 & He2 & C2 & H2); [done|lia|lia| |].
    { intros j Hj. rewrite k_mem_upd, H1 by lia. destruct (Z.eqb_spec i j); [lia|]. apply Hkn. lia. }
    exists m2. split; [by rewrite He2|]. split; [by eapply changes_trans|]. intros j Hj.
    rewrite H2, k_mem_upd, H1 by lia.
    destruct (Z.leb_spec (i + 1) j), (Z.eqb_spec i j), (Z.leb_spec i j); try lia; subst; done.
Qed.
End Close.

Section Halt.
Context {L : Layout} {HL : LayoutOK L}.

Lemma term_of_process_is s t pid :
  0 <= t < 3 → u32 (process_num (term s t)) = pid →
  (∀ j, 0 <= j < t → u32 (process_num (term s j)) ≠ pid) → term_of_process s pid = t.
Proof.
  intros Ht Hp Hb. unfold term_of_process. cbn [find_first].
  change (0 + 1) with 1. change (1 + 1) with 2.
  assert (t = 0 ∨ t = 1 ∨ t = 2) as [->|[->| ->]] by lia.
  - apply Z.eqb_eq in Hp. by rewrite Hp.
  - apply Z.eqb_eq in Hp. pose proof (Hb 0 ltac:(lia)) as H0%Z.eqb_neq. by rewrite H0, Hp.
  - apply Z.eqb_eq in Hp. pose proof (Hb 0 ltac:(lia)) as H0%Z.eqb_neq. pose proof (Hb 1 ltac:(lia)) as H1%Z.eqb_neq.
    by rewrite H0, H1, Hp.
Qed.

(** Who may halt: a process that is no base shell, shown by terminal [t]. *)
Record can_halt (pid t : Z) (s : kernel) : Prop := {
  ch_stack : on_stack pid s;
  ch_child : 3 <= pid;
  ch_number : ld32 s (pcb_addr pid + process_num_off) = pid;
  ch_known : ∀ j, 2 <= j < 8 → flags (get_fd s (pcb_addr pid) j) = 1 →
    known_table (descriptor_op_ptr (get_fd s (pcb_addr pid) j));
  ch_term : 0 <= t < 3 ∧ process_num (term s t) = pid ∧ ∀ j, 0 <= j < t → u32 (process_num (term s j)) ≠ pid;
  ch_previous : 0 <= process_previous s !!! pid < 6;
}.

(** The state the previous process is resumed in. *)
Record halted (pid t : Z) (s s' : kernel) : Prop := {
  ha_occupants : pcb_occupants s' = <[pid := 0]> (pcb_occupants s);
  ha_previous : process_previous s' = process_previous s;
  ha_terminal : term s' t = set_process_num (process_previous s !!! pid) (term s t);
  ha_others : ∀ j, j ≠ t → term s' j = term s j;
  ha_page : upage s' = program_base (process_previous s !!! pid) ∧
            pDirectory s' !!! 32 = u32 (program_pde (process_previous s !!! pid));
  ha_esp0 : esp0 s' = ld32 s (pcb_addr pid + esp_off);
  ha_fds : ∀ j, 0 <= j < 8 → get_fd s' (pcb_addr pid) j =
    if 2 <=? j then freed (get_fd s (pcb_addr pid) j) else get_fd s (pcb_addr pid) j;
  ha_memory : ∀ p, ¬ (pcb_addr pid + 32 <= p < pcb_addr pid + 128) → peek s' p = peek s p;
}.

Lemma halt_run pid t status s :
  can_halt pid t s →
  ∃ s', halt status s = Resume (ld32 s (pcb_addr pid + esp_off)) (ld32 s (pcb_addr pid + ebp_off)) (u32 status) s' ∧
    halted pid t s s'.
Proof using HL.
  intros [Hst Hc Hnum Hkn (Ht & Hpt & Hbefore) Hprev].
  pose proof (get_pcb_stack pid s Hst) as Hpcb. assert (Hpid : 0 <= pid < 6) by (by destruct Hst).
  pose proof (pcb_addr_ok pid Hpid) as Hp. set (pcb := pcb_addr pid) in *.
  destruct (halt_close_all pid 6 2 s Hst ltac:(lia) ltac:(lia) ltac:(intros j Hj; apply Hkn; lia)) as (m1 & He & C1 & H1).
  fold pcb in He, C1, H1. set (s1 := upd_mem (λ _, m1) s) in *.
  assert (Hw : ∀ off, 128 <= off → off + 4 <= PCB_SIZE → ld32 m1 (pcb + off) = ld32 s (pcb + off)).
  { intros off Ho1 Ho2. assert (Hb : ∀ i, 0 <= i < 4 → ld8 m1 (pcb + off + i) = ld8 s (pcb + off + i)).
    { intros i Hi. apply (changes_byte _ _ _ _ C1). rewrite <- Z.add_assoc, pcb_phys by (done || lia).
      unfold fd_span. each_segment. }
    unfold ld32. rewrite <- (Z.add_0_r (pcb + off)), !Hb, !Z.add_0_r, !Hb by lia. done. }
  set (prev := process_previous s !!! pid) in *.
  unfold halt. rewrite (bind_ret _ _ s (get_pcb s) s) by done. rewrite Hpcb. fold pcb.
  rewrite (bind_ret _ _ _ _ _ He).
  rewrite (bind_ret _ _ s1 t s1).
  2:{ unfold gets. f_equal. subst s1. rewrite k_mem_upd, Hw, Hnum by (unfold process_num_off, PCB_SIZE; lia).
      apply (term_of_process_is s); [done| |done]. rewrite Hpt. apply u32_small. lia. }
  rewrite (bind_ret _ _ s1 pid s1) by (unfold gets; f_equal; exact Hpt).
  rewrite (bind_ret _ _ s1 tt (set_occupant pid OUT_OF_USE s1)) by done.
  destruct (Z.eqb_spec pid 0), (Z.eqb_spec pid 1), (Z.eqb_spec pid 2); try lia. cbn [orb].
  set (s2 := set_occupant pid OUT_OF_USE s1). rewrite (bind_ret _ _ s2 tt s2) by done.
  set (s3 := upd_terminal t (set_process_num prev) s2). rewrite (bind_ret _ _ s2 tt s3) by done.
  assert (Ht3 : term s3 t = set_process_num prev (term s t)) by (unfold s3; by rewrite term_upd_same).
  rewrite (bind_ret _ _ s3 prev s3) by (unfold gets; by rewrite Ht3).
  rewrite (bind_ret _ _ s3 tt (set_pde 32 (program_pde prev) s3)) by done.
  set (s4 := set_pde 32 (program_pde prev) s3). rewrite (bind_ret _ _ s4 tt (flush_tlb s4)) by done.
  assert (Hb4 : big_base (pDirectory s4 !!! 32) = program_base prev).
  { unfold s4. cbn. rewrite lookup_total_insert_Z, Z.eqb_refl. by apply program_pde_base. }
  assert (Hpk : ∀ p, peek (flush_tlb s4) p = peek m1 p) by done.
  assert (Hw4 : ∀ off, 128 <= off → off + 4 <= PCB_SIZE → ld32 (flush_tlb s4) (pcb + off) = ld32 s (pcb + off)).
  { intros off Ho1 Ho2. rewrite <- Hw by done. unfold ld32, ld8. rewrite <- !Z.add_assoc.
    rewrite !(pcb_phys _ pcb) by (done || lia). by rewrite !Hpk. }
  set (e := ld32 s (pcb + esp_off)).
  set (s5 := set_esp0 (ld32 (flush_tlb s4) (pcb + esp_off)) (flush_tlb s4)).
  rewrite (bind_ret _ _ (flush_tlb s4) tt s5) by done.
  unfold resume. change (k_mem s5) with (k_mem (flush_tlb s4)).
  rewrite !Hw4 by (unfold esp_off, ebp_off, PCB_SIZE; lia).
  exists s5. split; [done|]. split.
  - done.
  - done.
  - exact Ht3.
  - intros j Hj. change (term s3 j = term s j). unfold s3. by rewrite term_upd_other.
  - split; [exact Hb4|]. change (pDirectory s4 !!! 32 = u32 (program_pde prev)).
    unfold s4. cbn. by rewrite lookup_total_insert_Z.
  - unfold s5. cbn. rewrite Hw4 by (unfold esp_off, PCB_SIZE; lia). apply u32_small, ld32_range.
  - intros j Hj. rewrite <- H1 by done. unfold get_fd, ld32, ld8. rewrite !slot_off, <- !Z.add_assoc.
    rewrite !(pcb_phys _ pcb) by (done || unfold op_off, inode_off, pos_off, flags_off, PCB_SIZE; lia). done.
  - intros p Hps. change (peek m1 p = peek s p). destruct C1 as [_ C1]. apply C1. unfold fd_span. each_segment.
Qed.
End Halt.


(** C3: [halt] undoes [execute]: start a program from process [cur] of the
    active terminal, let it run in any way that keeps its block's three words,
    its descriptors' tables and the process and terminal state, and halt it:
    the processor resumes in [execute] on the caller's stack, and the slots,
    the terminal's process and the program page are the caller's again. *)
Theorem execute_halt {L : Layout} {HL : LayoutOK L} (cur : Z) (s : kernel) (cmd : Z) (l : list Z)
    (ino pid status : Z) :
  exec_env cur s cmd l → program_of s l = Some ino → 28 <= file_size s ino <= 0x3B8000 →
  allocate_pid s = Some pid → 3 <= pid →
  0 <= active_terminal s < 3 → process_num (term s (active_terminal s)) = cur →
  (∀ j, 0 <= j < active_terminal s → u32 (process_num (term s j)) ≠ pid) →
  ∃ s1, execute cmd s = EnterUser (file_word s ino 24) s1 ∧
    ∀ s2, on_stack pid s2 → k_proc s2 = k_proc s1 → k_term s2 = k_term s1 →
      (∀ off, off = process_num_off ∨ off = esp_off ∨ off = ebp_off →
         ld32 s2 (pcb_addr pid + off) = ld32 s1 (pcb_addr pid + off)) →
      (∀ j, 2 <= j < 8 → flags (get_fd s2 (pcb_addr pid) j) = 1 →
         known_table (descriptor_op_ptr (get_fd s2 (pcb_addr pid) j))) →
      ∃ s3, halt status s2 = Resume (u32 (esp s)) (u32 (ebp s)) (u32 status) s3 ∧
        (∀ i, pcb_occupants s3 !!! i = pcb_occupants s !!! i) ∧
        process_num (term s3 (active_terminal s)) = cur ∧
        (∀ j, j ≠ active_terminal s → term s3 j = term s j) ∧
        upage s3 = program_base cur.
Proof.
  intros Hee Hprog Hsz Hpid H3 Ht Hcur Hbefore.
  destruct (execute_run cur s cmd l ino pid Hee Hprog (program_file _ _ _ _ _ Hee Hprog) Hsz Hpid) as (s1 & He & Hst).
  exists s1. split; [exact He|]. intros s2 Hst2 Hpr2 Ht2 Hw2 Hkn2.
  assert (Hc : 0 <= cur < 6) by apply (po_stack cur s (ee_process _ _ _ _ Hee)).
  assert (Hterm : ∀ j, term s2 j = term s1 j) by (intros j; unfold term; by rewrite Ht2).
  assert (Hprev2 : process_previous s2 !!! pid = cur).
  { rewrite Hpr2, (st_previous _ _ _ _ _ Hst), lookup_total_insert_Z, Z.eqb_refl. done. }
  assert (Hch : can_halt pid (active_terminal s) s2).
  { split; [done|done|by rewrite Hw2, (st_number _ _ _ _ _ Hst) by (by left)|done| |by rewrite Hprev2].
    split; [done|]. split; [rewrite Hterm; apply (st_terminal _ _ _ _ _ Hst)|].
    intros j Hj. rewrite Hterm, (st_others _ _ _ _ _ Hst) by lia. by apply Hbefore. }
  destruct (halt_run pid (active_terminal s) status s2 Hch) as (s3 & He3 & Hh).
  rewrite !Hw2 in He3 by tauto. destruct (st_stack _ _ _ _ _ Hst) as [E1 E2]. rewrite E1, E2 in He3.
  exists s3. split; [exact He3|]. split_and!.
  - intros i. rewrite (ha_occupants _ _ _ _ Hh), Hpr2, (st_occupants _ _ _ _ _ Hst), !lookup_total_insert_Z.
    destruct (Z.eqb_spec pid i) as [<-|]; [|done]. apply find_first_spec in Hpid as (_ & Hz & _). by apply Z.eqb_eq in Hz.
  - rewrite (ha_terminal _ _ _ _ Hh). cbn. done.
  - intros j Hj. by rewrite (ha_others _ _ _ _ Hh), Hterm, (st_others _ _ _ _ _ Hst) by done.
  - rewrite (proj1 (ha_page _ _ _ _ Hh)), Hprev2. done.
Qed.

(** ** A program of the example image, for the witnesses *)

(** Process 0 of terminal 0 with the slots of the three shells in use. *)
Definition example_shell : kernel := upd_term (λ _, mkTerminals three_terminals 0 0) (example_busy 3).

(** Process 3 in the foreground of terminal 0, about to halt. *)
Definition example_child : kernel :=
  set_previous 3 0 (set_occupant 3 (-1)
    (upd_cpu (λ _, mkCpu 0x7F9F00 0x7F9F80 0x7F9FFC true)
      (upd_mem (λ m, st32 m (pcb_addr 3 + process_num_off) 3)
        (upd_terminal 0 (set_process_num 3) example_shell)))).

Lemma example_can_halt : can_halt (L := example_layout) 3 0 example_child.
Proof.
  split; [vm_compute; split; split; congruence|lia|by vm_compute| | |vm_compute; split; congruence].
  - intros j Hj. assert (j = 2 ∨ j = 3 ∨ j = 4 ∨ j = 5 ∨ j = 6 ∨ j = 7) as [->|[->|[->|[->|[->| ->]]]]] by lia;
      vm_compute; discriminate.
  - split; [lia|]. split; [by vm_compute|]. intros j Hj. lia.
Qed.


Lemma example_shell_env : exec_env (L := example_layout) 0 example_shell 0x8100010 [0x66; 0x20; 0x78].
Proof.
  unfold example_shell. generalize (example_busy 3) (example_exec_env 3). intros s Hs.
  by apply (exec_env_same 0 s).
Qed.

Lemma entered_state (o : outcome Z) e e' s s' : o = EnterUser e s → o = EnterUser e' s' → s = s'.
Proof. congruence. Qed.

(** Started, and halting from its kernel stack with status 7. *)
Lemma execute_halt_witness :
  exec_env (L := example_layout) 0 example_shell 0x8100010 [0x66; 0x20; 0x78] ∧
  ∃ s1 s3, execute (L := example_layout) 0x8100010 example_shell = EnterUser 0x8048000 s1 ∧
    halt (L := example_layout) 7 (upd_cpu (λ c, mkCpu 0x7F9F00 0x7F9F80 (esp0 c) true) s1) =
      Resume 0x7FFFFC 0x7FFFFC 7 s3 ∧
    process_num (term s3 0) = 0 ∧ upage s3 = 0x800000.
Proof.
  split; [exact example_shell_env|].
  assert (F1 : program_of example_shell [0x66; 0x20; 0x78] = Some 1) by (by vm_compute).
  assert (F2 : 28 <= file_size example_shell 1 <= 0x3B8000) by (split; closed_compare).
  assert (F3 : allocate_pid example_shell = Some 3) by (by vm_compute).
  assert (F4 : 0 <= active_terminal example_shell < 3) by (split; closed_compare).
  assert (F5 : process_num (term example_shell (active_terminal example_shell)) = 0) by (by vm_compute).
  assert (F6 : ∀ j, 0 <= j < active_terminal example_shell → u32 (process_num (term example_shell j)) ≠ 3)
    by (intros j Hj; exfalso; change (active_terminal example_shell) with 0 in Hj; lia).
  pose proof (program_file (L := example_layout) _ _ _ _ _ example_shell_env F1) as F7.
  destruct (execute_run (L := example_layout) 0 example_shell 0x8100010 _ 1 3 example_shell_env F1 F7 F2 F3) as (s1' & H1' & Hst).
  destruct (execute_halt (L := example_layout) 0 example_shell 0x8100010 _ 1 3 7 example_shell_env F1 F2 F3
    ltac:(lia) F4 F5 F6) as (s1 & H1 & H).
  pose proof (entered_state _ _ _ _ _ H1' H1) as ->.
  destruct (H (upd_cpu (λ c, mkCpu 0x7F9F00 0x7F9F80 (esp0 c) true) s1)) as (s3 & H3 & _ & Hp & _ & Hu);
    [split; [lia|split; closed_compare]|done|done|done| |].
  { intros j Hj Hf. exfalso. destruct (st_std _ _ _ _ _ Hst) as [_ Hno].
    change (flags (get_fd s1 (pcb_addr 3) j) = 1) in Hf. rewrite Hno in Hf by done. done. }
  exists s1, s3. replace (file_word example_shell 1 24) with 0x8048000 in H1' by (vm_compute; reflexivity).
  split; [exact H1'|]. split; [exact H3|]. split; [exact Hp|exact Hu].
Defined.
