(* ===== verification/Schedule.v ===== *)
(** * The scheduler and the timer: schedule.c, pit.c

    The timer interrupt first starts a shell in each of the three terminals,
    one per tick, and then passes the processor from terminal to terminal.
    Changing the stack pointer inside the handler is a change of [esp] and
    [ebp] in the state: every saved context is a frame of
    [schedule_handling], so the code goes on at the same point on the other
    stack. *)

From S2P Require Import Prelude Memory LibMem LibStr Video State Console Pic Process FileSystem Terminal Paging SysCalls Command Exec.

Implicit Types s : kernel.

Definition MAX_TERMINALS : Z := 3.
Definition CHANNEL_0 : Z := 0x40.
Definition MODE : Z := 0x43.
Definition MODE_2 : Z := 0x34.
Definition PIT_IRQ : Z := 0.
Definition PIT_Ocillator_Frequency : Z := 11931.

Definition set_count (v : Z) (s : kernel) : kernel :=
  upd_sched (λ a, mkSched v (next_terminal_in_schedule a) (schedule_activated a)) s.
Definition set_next (v : Z) (s : kernel) : kernel :=
  upd_sched (λ a, mkSched (current_running_process_count a) v (schedule_activated a)) s.

(** [movl %esp, terminal[n].current_esp; movl %ebp, terminal[n].current_ebp] *)
Definition save_context (n : Z) (s : kernel) : kernel :=
  upd_terminal n (λ t, set_current_ebp (ebp s) (set_current_esp (esp s) t)) s.
(** The same moves the other way. *)
Definition load_context (n : Z) (s : kernel) : kernel :=
  upd_cpu (λ c, mkCpu (current_esp (term s n)) (current_ebp (term s n)) (esp0 c) (iflag c)) s.

Definition schedule_initialization (s : kernel) : kernel := upd_sched (λ _, mkSched 0 2 1) s.

Section Schedule.
Context {L : Layout}.

(** A shell is still to be started. *)
Definition start_shell (count : Z) : M unit :=
  _ ← modify (λ s, if count =? 0 then s else save_context (active_terminal s) s);
  _ ← modify (save_and_switch_term count);
  _ ← modify (set_active_terminal count);
  _ ← modify (set_count (count + 1));
  _ ← modify sti;
  _ ← execute lit_shell;
  mret tt.

(** The third shell runs: show the first terminal. *)
Definition last_shell : M unit :=
  _ ← modify (save_context 2);
  _ ← modify (λ s, set_count (current_running_process_count s + 1) s);
  modify (save_and_switch_term 0).

(** From one terminal to the next. *)
Definition round_robin : M unit :=
  _ ← modify (λ s, save_context (next_terminal_in_schedule s) s);
  _ ← modify (λ s, set_next (next_terminal_in_schedule s + 1) s);
  _ ← modify (λ s, set_next (Z.rem (next_terminal_in_schedule s) 3) s);
  same ← gets (λ s, next_terminal_in_schedule s =? active_terminal s);
  _ ← (if negb same then disable_irq 0x01 else enable_irq 0x01);
  pid ← gets (λ s, process_num (term s (next_terminal_in_schedule s)));
  _ ← modify (set_pde 32 (program_pde pid));
  _ ← modify flush_tlb;
  _ ← modify (set_esp0 (EIGHTMB - EIGHTKB * pid - 4));
  modify (λ s, load_context (next_terminal_in_schedule s) s).

Definition schedule_handling : M unit :=
  _ ← modify cli;
  activated ← gets (λ s, schedule_activated s);
  if negb (activated =? 0) then
    count ← gets (λ s, current_running_process_count s);
    _ ← (if count <? MAX_TERMINALS then start_shell count
         else if count =? MAX_TERMINALS then last_shell
         else round_robin);
    modify sti
  else _ ← printf "schedule not yet activated for this OS" []; mret tt.

(** [PIT_Ocillator_Frequency && 0xff] is 1. *)
Definition PIT_initialize : M unit :=
  _ ← modify schedule_initialization;
  _ ← enable_irq PIT_IRQ;
  _ ← modify (outb MODE_2 MODE);
  _ ← modify (outb (if negb (PIT_Ocillator_Frequency =? 0) && negb (0xff =? 0) then 1 else 0) CHANNEL_0);
  modify (outb (Z.shiftr PIT_Ocillator_Frequency 8) CHANNEL_0).

Definition PIT_handler : M unit :=
  _ ← disable_irq 0x01;
  _ ← send_eoi PIT_IRQ;
  schedule_handling.
End Schedule.

(** ** Round robin *)

(** The three shells run, and one of the three terminals has the processor. *)
Record scheduling (s : kernel) : Prop := {
  sc_active : schedule_activated s ≠ 0;
  sc_count : MAX_TERMINALS < current_running_process_count s;
  sc_next : 0 <= next_terminal_in_schedule s < 3;
}.

Definition next_of (n : Z) : Z := (n + 1) mod 3.

(** What one tick does: terminal [n] loses the processor, [next_of n] gets it. *)
Record switched (s s' : kernel) : Prop := {
  sw_next : k_sched s' = mkSched (current_running_process_count s) (next_of (next_terminal_in_schedule s)) (schedule_activated s);
  sw_saved : term s' (next_terminal_in_schedule s) =
    set_current_ebp (ebp s) (set_current_esp (esp s) (term s (next_terminal_in_schedule s)));
  sw_others : ∀ j, j ≠ next_terminal_in_schedule s → term s' j = term s j;
  sw_active : active_terminal s' = active_terminal s;
  sw_esp : esp s' = current_esp (term s (next_of (next_terminal_in_schedule s)));
  sw_ebp : ebp s' = current_ebp (term s (next_of (next_terminal_in_schedule s)));
  sw_page : let pid := process_num (term s (next_of (next_terminal_in_schedule s))) in
    upage s' = big_base (u32 (program_pde pid)) ∧ esp0 s' = u32 (EIGHTMB - EIGHTKB * pid - 4) ∧
    pDirectory s' = <[32 := u32 (program_pde pid)]> (pDirectory s);
  sw_keyboard : masked s' 1 = negb (next_of (next_terminal_in_schedule s) =? active_terminal s);
  sw_memory : ∀ p, peek s' p = peek s p;
  sw_flag : iflag s' = true;
}.

Section RoundRobin.
Context {L : Layout}.

Lemma rem_next n : 0 <= n < 3 → Z.rem (n + 1) 3 = next_of n.
Proof. intros Hn. unfold next_of. apply Z.rem_mod_nonneg; lia. Qed.

Lemma next_of_range n : 0 <= next_of n < 3.
Proof. apply Z.mod_pos_bound. lia. Qed.

Lemma next_of_other n : 0 <= n < 3 → next_of n ≠ n.
Proof. intros Hn. unfold next_of. assert (n = 0 ∨ n = 1 ∨ n = 2) as [->|[->| ->]] by lia; done. Qed.

(** The tick without the flag, as a chain of updates. *)
Definition after_round_robin (s : kernel) : kernel :=
  let n := next_terminal_in_schedule s in
  let s3 := set_next (next_of n) (save_context n s) in
  let on := next_of n =? active_terminal s in
  let s4 := announce 1 (keyboard_pic on s3) (upd_pic (keyboard_pic on) s3) in
  let pid := process_num (term s (next_of n)) in
  load_context (next_of n)
    (set_esp0 (EIGHTMB - EIGHTKB * pid - 4) (flush_tlb (set_pde 32 (program_pde pid) s4))).

Lemma round_robin_eq s :
  0 <= next_terminal_in_schedule s < 3 → round_robin s = Ret tt (after_round_robin s).
Proof.
  intros Hnext. unfold after_round_robin. set (n := next_terminal_in_schedule s) in *.
  unfold round_robin. set (s1 := save_context n s). rewrite (bind_ret _ _ s tt s1) by done.
  set (s2 := set_next (n + 1) s1). rewrite (bind_ret _ _ s1 tt s2) by done.
  set (s3 := set_next (next_of n) s1).
  rewrite (bind_ret _ _ s2 tt s3).
  2:{ unfold modify. f_equal. transitivity (set_next (Z.rem (n + 1) 3) s1); [done|by rewrite rem_next]. }
  set (on := next_of n =? active_terminal s). rewrite (bind_ret _ _ s3 on s3) by done.
  rewrite (bind_ret _ _ _ _ _ (keyboard_line_run on s3)). cbv zeta.
  set (s4 := announce 1 (keyboard_pic on s3) (upd_pic (keyboard_pic on) s3)).
  set (pid := process_num (term s (next_of n))).
  rewrite (bind_ret _ _ s4 pid s4); [done|].
  unfold gets. f_equal. change (process_num (term s1 (next_of n)) = pid).
  unfold s1, save_context. by rewrite term_upd_other by (by apply next_of_other).
Qed.

Lemma round_robin_run s : scheduling s → ∃ s', schedule_handling s = Ret tt s' ∧ switched s s'.
Proof.
  intros [Hact Hcount Hnext]. exists (sti (after_round_robin (cli s))). split.
  - unfold schedule_handling. rewrite (bind_ret _ _ s tt (cli s)) by done.
    rewrite (bind_ret _ _ (cli s) (schedule_activated s) (cli s)) by done.
    apply Z.eqb_neq in Hact. rewrite Hact. cbn [negb].
    rewrite (bind_ret _ _ (cli s) (current_running_process_count s) (cli s)) by done.
    unfold MAX_TERMINALS in *. destruct (Z.ltb_spec (current_running_process_count s) 3); [lia|].
    destruct (Z.eqb_spec (current_running_process_count s) 3); [lia|].
    by rewrite (bind_ret _ _ _ _ _ (round_robin_eq (cli s) Hnext)).
  - set (n := next_terminal_in_schedule s) in *. pose proof (next_of_other n Hnext) as Hne.
    assert (Ht : ∀ j, term (sti (after_round_robin (cli s))) j =
      if n =? j then set_current_ebp (ebp s) (set_current_esp (esp s) (term s n)) else term s j).
    { intros j. change (term (save_context n (cli s)) j = if n =? j then set_current_ebp (ebp s) (set_current_esp (esp s) (term s n)) else term s j).
      unfold save_context. by rewrite term_upd. }
    assert (Htn : term (save_context n (cli s)) (next_of n) = term s (next_of n)).
    { unfold save_context. by rewrite term_upd_other. }
    split; fold n.
    + done.
    + by rewrite Ht, Z.eqb_refl.
    + intros j Hj. rewrite Ht. by destruct (Z.eqb_spec n j).
    + done.
    + change (current_esp (term (save_context n (cli s)) (next_of n)) = current_esp (term s (next_of n))). by rewrite Htn.
    + change (current_ebp (term (save_context n (cli s)) (next_of n)) = current_ebp (term s (next_of n))). by rewrite Htn.
    + cbv zeta. set (pid := process_num (term s (next_of n))). split; [|by split].
      change (big_base (<[32 := u32 (program_pde pid)]> (pDirectory s) !!! 32) = big_base (u32 (program_pde pid))).
      by rewrite lookup_total_insert_Z.
    + apply keyboard_pic_masked.
    + done.
    + done.
Qed.

(** Any number of ticks, each from a state the programs have left. *)
Definition keeps (s t : kernel) : Prop :=
  k_sched t = k_sched s ∧
  ∀ j, j ≠ next_terminal_in_schedule s →
    current_esp (term t j) = current_esp (term s j) ∧ current_ebp (term t j) = current_ebp (term s j) ∧
    process_num (term t j) = process_num (term s j).

Lemma switched_scheduling s s' t : scheduling s → switched s s' → keeps s' t →
  scheduling t ∧ next_terminal_in_schedule t = next_of (next_terminal_in_schedule s).
Proof.
  intros [H1 H2 H3] Hsw [Hk _]. rewrite (sw_next _ _ Hsw) in Hk.
  split; [split|]; rewrite Hk; cbn; [done|done|apply next_of_range|done].
Qed.
End RoundRobin.

(** one tick of the timer with the three shells running: the context of the
    terminal that had the processor is saved in its record, the next terminal
    gets the processor on its saved stack, with its program page and kernel
    stack, and the keyboard line is open exactly when that terminal is the one
    shown.  No byte of memory changes. *)
Theorem schedule_tick {L : Layout} (s : kernel) :
  scheduling s → ∃ s', schedule_handling s = Ret tt s' ∧ switched s s'.
Proof. apply round_robin_run. Qed.

(** the scheduler is fair: whatever the programs do between ticks (short of
    writing the scheduler's own records), after three ticks the terminal that
    was interrupted has the processor again, exactly where it was. *)
Theorem three_ticks {L : Layout} (s : kernel) :
  scheduling s →
  ∃ s1, schedule_handling s = Ret tt s1 ∧ ∀ t1, keeps s1 t1 →
  ∃ s2, schedule_handling t1 = Ret tt s2 ∧ ∀ t2, keeps s2 t2 →
  ∃ s3, schedule_handling t2 = Ret tt s3 ∧
    next_terminal_in_schedule s3 = next_terminal_in_schedule s ∧ esp s3 = esp s ∧ ebp s3 = ebp s ∧
    upage s3 = big_base (u32 (program_pde (process_num (term s (next_terminal_in_schedule s))))).
Proof.
  intros Hs. set (n := next_terminal_in_schedule s).
  destruct (round_robin_run s Hs) as (s1 & E1 & W1). exists s1. split; [exact E1|]. intros t1 K1.
  destruct (switched_scheduling s s1 t1 Hs W1 K1) as [Hs1 N1].
  destruct (round_robin_run t1 Hs1) as (s2 & E2 & W2). exists s2. split; [exact E2|]. intros t2 K2.
  destruct (switched_scheduling t1 s2 t2 Hs1 W2 K2) as [Hs2 N2].
  destruct (round_robin_run t2 Hs2) as (s3 & E3 & W3). exists s3. split; [exact E3|].
  assert (Hn : 0 <= n < 3) by apply Hs.
  assert (N3 : next_of (next_terminal_in_schedule t2) = n).
  { rewrite N2, N1. fold n. unfold next_of. assert (n = 0 ∨ n = 1 ∨ n = 2) as [->|[->| ->]] by lia; done. }
  assert (D1 : n ≠ next_of n) by (by apply not_eq_sym, next_of_other).
  assert (D2 : n ≠ next_of (next_of n)).
  { unfold next_of. assert (n = 0 ∨ n = 1 ∨ n = 2) as [->|[->| ->]] by lia; done. }
  destruct K1 as [_ K1], K2 as [_ K2].
  rewrite (sw_next _ _ W1) in K1. rewrite (sw_next _ _ W2), N1 in K2. cbn in K1, K2. fold n in K1, K2.
  destruct (K1 n D1) as (A1 & A2 & A3), (K2 n D2) as (B1 & B2 & B3).
  assert (T2 : term s2 n = term t1 n) by (apply (sw_others _ _ W2); rewrite N1; exact D1).
  pose proof (sw_saved _ _ W1) as T1. fold n in T1. rewrite T2 in B1, B2, B3. rewrite T1 in A1, A2, A3.
  split_and!.
  - rewrite (sw_next _ _ W3). cbn. exact N3.
  - rewrite (sw_esp _ _ W3), N3, B1, A1. done.
  - rewrite (sw_ebp _ _ W3), N3, B2, A2. done.
  - rewrite (proj1 (sw_page _ _ W3)), N3, B3, A3. done.
Qed.

(** ** Starting the shells *)

Section Boot.
Context {L : Layout} {HL : LayoutOK L}.

(** What [start_shell] does before it calls [execute]. *)
Definition before_shell (k : Z) (s : kernel) : kernel :=
  let s := if k =? 0 then s else save_context (active_terminal s) s in
  sti (set_count (k + 1) (set_active_terminal k (save_and_switch_term k s))).

Lemma start_shell_run s e s' :
  let k := current_running_process_count s in
  schedule_activated s ≠ 0 → k < MAX_TERMINALS →
  execute lit_shell (before_shell k (cli s)) = EnterUser e s' → schedule_handling s = EnterUser e s'.
Proof.
  intros k Hact Hk He. unfold schedule_handling. rewrite (bind_ret _ _ s tt (cli s)) by done.
  rewrite (bind_ret _ _ (cli s) (schedule_activated s) (cli s)) by done.
  apply Z.eqb_neq in Hact. rewrite Hact. cbn [negb].
  rewrite (bind_ret _ _ (cli s) k (cli s)) by done. apply Z.ltb_lt in Hk. rewrite Hk.
  assert (Hs : start_shell k (cli s) = EnterUser e s'); [|unfold mbind, M_bind; by rewrite Hs].
  unfold start_shell.
  set (s1 := if k =? 0 then cli s else save_context (active_terminal (cli s)) (cli s)).
  rewrite (bind_ret _ _ (cli s) tt s1) by done.
  rewrite (bind_ret _ _ s1 tt (save_and_switch_term k s1)) by done.
  rewrite (bind_ret _ _ _ tt (set_active_terminal k (save_and_switch_term k s1))) by done.
  rewrite (bind_ret _ _ _ tt (set_count (k + 1) (set_active_terminal k (save_and_switch_term k s1)))) by done.
  rewrite (bind_ret _ _ _ tt (before_shell k (cli s))) by done.
  unfold mbind, M_bind. by rewrite He.
Qed.

(** The switch to terminal [k], seen by [execute]. *)
Lemma save_context_terms n s : terms_ok s → terms_ok (save_context n s).
Proof.
  intros [Ha Hb]. split; [done|]. intros j Hj. unfold save_context. rewrite term_upd.
  destruct (Z.eqb_spec n j) as [->|]; [|by apply Hb]. cbn. by apply Hb.
Qed.

Lemma save_context_screen n s j :
  terminal_screen (save_context n s) j = terminal_screen s j.
Proof.
  unfold terminal_screen, save_context. change (active_terminal (upd_terminal _ _ s)) with (active_terminal s).
  destruct (j =? active_terminal s); [done|]. rewrite term_upd. destruct (Z.eqb_spec n j) as [->|]; done.
Qed.

Lemma before_shell_spec k s :
  terms_ok s → 0 <= k < 3 → pos_ok s k → cursor_ok s →
  let s0 := before_shell k s in
  changes [(VIDEO, 4 * FOUR_KB)] s s0 ∧ k_fs s0 = k_fs s ∧ esp s0 = esp s ∧ ebp s0 = ebp s ∧ k_proc s0 = k_proc s ∧
  cursor_ok s0 ∧ active_terminal s0 = k ∧ current_running_process_count s0 = k + 1 ∧
  (∀ j, 0 <= j < 3 → terminal_screen s0 j = terminal_screen s j) ∧
  (k ≠ 0 → current_esp (term s0 (active_terminal s)) = esp s ∧ current_ebp (term s0 (active_terminal s)) = ebp s).
Proof.
  intros Hok Hk Hpos Hcur. cbv zeta. unfold before_shell.
  set (s1 := if k =? 0 then s else save_context (active_terminal s) s).
  assert (H1 : terms_ok s1) by (unfold s1; destruct (k =? 0); [done|by apply save_context_terms]).
  assert (Hm1 : k_mem s1 = k_mem s ∧ k_fs s1 = k_fs s ∧ k_cpu s1 = k_cpu s ∧ k_proc s1 = k_proc s ∧ k_con s1 = k_con s ∧
    active_terminal s1 = active_terminal s) by (unfold s1; by destruct (k =? 0)).
  assert (Hsc : ∀ j, terminal_screen s1 j = terminal_screen s j).
  { intros j. unfold s1. destruct (k =? 0); [done|]. apply save_context_screen. }
  assert (Hp1 : pos_ok s1 k).
  { unfold s1. destruct (k =? 0); [done|]. unfold pos_ok, save_context in *. rewrite term_upd.
    by destruct (Z.eqb_spec (active_terminal s) k) as [->|]. }
  destruct Hm1 as (M1 & M2 & M3 & M4 & M5 & M6).
  destruct (switch_frame s1 k H1 Hk) as (C & F1 & F2 & F3 & F4 & _ & _).
  set (s2 := save_and_switch_term k s1) in *. set (s0 := sti _).
  split_and!.
  - change (changes [(VIDEO, 4 * FOUR_KB)] s s2). by rewrite <- M1.
  - change (k_fs s2 = k_fs s). congruence.
  - change (esp s2 = esp s). congruence.
  - change (ebp s2 = ebp s). congruence.
  - change (k_proc s2 = k_proc s). congruence.
  - change (cursor_ok s2). destruct (decide (k = active_terminal s1)) as [E|E].
    + unfold s2, save_and_switch_term. rewrite E, Z.eqb_refl. unfold cursor_ok in *. by rewrite M5.
    + destruct (switch_view s1 k 0 H1 Hk ltac:(lia) E) as (_ & _ & _ & X & Y & _). fold s2 in X, Y.
      destruct Hp1 as [P1 P2]. split; by rewrite ?X, ?Y.
  - done.
  - done.
  - intros j Hj. rewrite <- Hsc. destruct (terminal_screen_switch s1 k j H1 Hk Hj) as (Hs & _ & Ha).
    fold s2 in Hs, Ha. rewrite <- Hs. unfold terminal_screen. change (active_terminal s0) with k.
    by rewrite Ha.
  - intros Hk0%Z.eqb_neq. destruct (switch_context s1 k (active_terminal s)) as (E1 & E2 & _). fold s2 in E1, E2.
    change (term s0) with (term s2). rewrite E1, E2. unfold s1. rewrite Hk0. unfold save_context. by rewrite term_upd_same.
Qed.
End Boot.

(** What a boot tick relies on: a shell is still to be started, the shell's
    file is on the image above the kernel's base, and a slot is free. *)
Record boot_ok {L : Layout} (cur : Z) (s : kernel) (ino pid : Z) : Prop := {
  bk_active : schedule_activated s ≠ 0;
  bk_count : 0 <= current_running_process_count s < MAX_TERMINALS;
  bk_terms : terms_ok s;
  bk_pos : pos_ok s (current_running_process_count s);
  bk_env : exec_env cur s lit_shell (bytes_of "shell");
  bk_base : KERNEL_START <= image_base s;
  bk_shell : program_of s (bytes_of "shell") = Some ino;
  bk_size : 28 <= file_size s ino <= 0x3B8000;
  bk_slot : allocate_pid s = Some pid;
}.


(** ** States for the witnesses *)

Definition ticking : kernel := upd_sched (λ _, mkSched 4 2 1) prompt_state.

Lemma ticking_ok : scheduling ticking.
Proof. split; [done|closed_compare|split; closed_compare]. Qed.

Lemma schedule_tick_witness :
  scheduling ticking ∧ ∃ s', schedule_handling (L := example_layout) ticking = Ret tt s' ∧ switched ticking s'.
Proof. split; [exact ticking_ok|]. apply (schedule_tick (L := example_layout) ticking ticking_ok). Defined.

Lemma three_ticks_witness :
  scheduling ticking ∧
  ∃ s1 s2 s3, schedule_handling (L := example_layout) ticking = Ret tt s1 ∧
    schedule_handling (L := example_layout) s1 = Ret tt s2 ∧
    schedule_handling (L := example_layout) s2 = Ret tt s3 ∧ esp s3 = 0x7FFFFC.
Proof.
  split; [exact ticking_ok|].
  destruct (three_ticks (L := example_layout) ticking ticking_ok) as (s1 & E1 & H1).
  destruct (H1 s1) as (s2 & E2 & H2); [by split|].
  destruct (H2 s2) as (s3 & E3 & _ & He & _); [by split|].
  exists s1, s2, s3. split; [exact E1|]. split; [exact E2|]. split; [exact E3|exact He].
Defined.

(** The machine at the first tick. *)
Definition booting : kernel := upd_sched (λ _, mkSched 0 2 1) (upd_term (λ _, mkTerminals three_terminals 0 0) example_image).

Lemma booting_env : exec_env (L := example_layout) 0 booting 0x430000 (bytes_of "shell").
Proof.
  apply (exec_env_same 0 example_image); [done..|].
  assert (HB : image_base example_image + image_bytes example_image = 0x506000) by (by vm_compute).
  split; rewrite ?HB; [exact example_process_ok|by vm_compute| |unfold KERNEL_END; lia
    |right; closed_compare|right; closed_compare|].
  - split; [split; closed_compare|split; closed_compare|left; closed_compare| |closed_compare
      |closed_segment|closed_segment|closed_segment|vm_compute; lia|vm_compute; lia].
    split_and!; [by repeat constructor| |by vm_compute].
    intros [|[|[|[|[|i]]]]] c Hi; [..|by destruct i]; injection Hi as <-; by vm_compute.
  - intros k Hk. replace (find_dentry example_image (cmd_word (bytes_of "shell"))) with (Some 1) in Hk by (vm_compute; reflexivity).
    injection Hk as <-. replace (dentry_inode example_image 1) with 1 by (vm_compute; reflexivity). exact example_file_ok.
Qed.

Lemma booting_ok : boot_ok (L := example_layout) 0 booting 1 0.
Proof.
  split; [done|split; closed_compare| |vm_compute; split; split; congruence|exact booting_env
    |closed_compare|by vm_compute|split; closed_compare|by vm_compute].
  destruct prompt_terms_ok as [H1 H2]. split; [exact H1|exact H2].
Qed.

