(* ===== verification/Boot.v ===== *)
(** * The kernel's entry: kernel.c, multiboot.h

    [entry] prints what the boot loader says, takes the file system from the
    loaded module, builds the descriptors of the LDT and the TSS, initialises
    the table of interrupts, the interrupt controller, paging, the clock, the
    timer and the keyboard, and spins until the timer's first interrupt. *)

From S2P Require Import Prelude Memory LibStr Video State Runs Console Format Idt Pic Rtc Process FileSystem Terminal Keyboard Paging SysCalls Schedule.

Implicit Types s : kernel.

(** ** multiboot.h *)

Definition MULTIBOOT_BOOTLOADER_MAGIC : Z := 0x2BADB002.

(** Offsets of [multiboot_info_t]. *)
Definition mbi_flags : Z := 0.
Definition mbi_mem_lower : Z := 4.
Definition mbi_mem_upper : Z := 8.
Definition mbi_boot_device : Z := 12.
Definition mbi_cmdline : Z := 16.
Definition mbi_mods_count : Z := 20.
Definition mbi_mods_addr : Z := 24.
Definition mbi_elf_sec : Z := 28.
Definition mbi_mmap_length : Z := 44.
Definition mbi_mmap_addr : Z := 48.

(** Sizes of [module_t] and [memory_map_t]'s [size] field. *)
Definition MODULE_SIZE : Z := 16.

(** [CHECK_FLAG(flags,bit)]: not zero. *)
Definition CHECK_FLAG (flags bit : Z) : bool := negb (Z.land flags (Z.shiftl 1 bit) =? 0).

Section Boot.
Context {L : Layout}.

Definition say (format : string) (args : list Z) : M unit := _ ← printf format args; mret tt.
Definition say_line (format : string) (args : list Z) : M unit := say (with_newline format) args.

(** One module: the file system is taken from it, its first bytes are shown.
    The state of the loop is the count and the pointer. *)
Definition boot_module (st : Z * Z) : M (Z * Z) :=
  let '(mod_count, mod_) := st in
  mod_start ← gets (λ s, ld32 s mod_);
  _ ← filesystem_init mod_start;
  _ ← say_line "Module %d loaded at address: 0x%#x" [mod_count; mod_start];
  mod_end ← gets (λ s, ld32 s (mod_ + 4));
  _ ← say_line "Module %d ends at address: 0x%#x" [mod_count; mod_end];
  _ ← say_line "First few bytes of module:" [];
  _ ← for_upM 16 0 (λ i, b ← gets (λ s, s8 (ld8 s (ld32 s mod_ + i))); say "0x%x " [b]);
  _ ← say_line "" [];
  mret (mod_count + 1, u32 (mod_ + MODULE_SIZE)).

Definition boot_modules (mbi : Z) : M unit :=
  mod_ ← gets (λ s, ld32 s (mbi + mbi_mods_addr));
  _ ← while_M (λ '(mod_count, _) s, u32 mod_count <? ld32 s (mbi + mbi_mods_count)) boot_module (0, mod_);
  mret tt.

(** One entry of the memory map. *)
Definition boot_map_entry (mmap : Z) : M Z :=
  w ← gets (λ s k, ld32 s (mmap + 4 * k));
  _ ← say_line ("    size = 0x%x, base_addr = 0x%#x%#x" +:+ String (Ascii.ascii_of_nat 10) "    type = 0x%x,  length    = 0x%#x%#x")
        [w 0; w 2; w 1; w 5; w 4; w 3];
  size ← gets (λ s, ld32 s mmap);
  mret (u32 (mmap + size + 4)).

Definition boot_map (mbi : Z) : M unit :=
  addr ← gets (λ s, ld32 s (mbi + mbi_mmap_addr));
  len ← gets (λ s, ld32 s (mbi + mbi_mmap_length));
  _ ← say_line "mmap_addr = 0x%#x, mmap_length = 0x%x" [addr; len];
  _ ← while_M (λ mmap s, mmap <? u32 (ld32 s (mbi + mbi_mmap_addr) + ld32 s (mbi + mbi_mmap_length))) boot_map_entry addr;
  mret tt.

(** The report of the boot loader: [false] when [entry] gives up. *)
Definition boot_report (magic mbi : Z) : M bool :=
  if negb (u32 magic =? MULTIBOOT_BOOTLOADER_MAGIC) then
    _ ← say_line "Invalid magic number: 0x%#x" [magic]; mret false
  else
    let flag bit := gets (λ s, CHECK_FLAG (ld32 s (mbi + mbi_flags)) bit) in
    let field o := gets (λ s, ld32 s (mbi + o)) in
    flags ← field mbi_flags;
    _ ← say_line "flags = 0x%#x" [flags];
    f0 ← flag 0;
    _ ← (if f0 : bool then
           lower ← field mbi_mem_lower; upper ← field mbi_mem_upper;
           say_line "mem_lower = %uKB, mem_upper = %uKB" [lower; upper]
         else mret tt);
    f1 ← flag 1;
    _ ← (if f1 : bool then d ← field mbi_boot_device; say_line "boot_device = 0x%#x" [d] else mret tt);
    f2 ← flag 2;
    _ ← (if f2 : bool then c ← field mbi_cmdline; say_line "cmdline = %s" [c] else mret tt);
    f3 ← flag 3;
    _ ← (if f3 : bool then boot_modules mbi else mret tt);
    f4 ← flag 4;
    f5 ← flag 5;
    if f4 && f5 then _ ← say_line "Both bits 4 and 5 are set." []; mret false
    else
      _ ← (if f5 : bool then
             num ← field mbi_elf_sec; size ← field (mbi_elf_sec + 4);
             addr ← field (mbi_elf_sec + 8); shndx ← field (mbi_elf_sec + 12);
             say_line "elf_sec: num = %u, size = 0x%#x, addr = 0x%#x, shndx = 0x%#x" [num; size; addr; shndx]
           else mret tt);
      f6 ← flag 6;
      _ ← (if f6 : bool then boot_map mbi else mret tt);
      mret true.

(** ** Segment descriptors *)

(** What x86_desc.S defines, and where the routines are. *)
Context (ldt ldt_size tss tss_size : Z) (address : routine → Z).

Definition KERNEL_DS : Z := 0x0018.
Definition KERNEL_TSS : Z := 0x0030.
Definition KERNEL_LDT : Z := 0x0038.
Definition TSS_SIZE : Z := 104.

(** [SET_LDT_PARAMS] and [SET_TSS_PARAMS] have the same body. *)
Definition SET_SEG_PARAMS (str : seg_desc_t) (addr lim : Z) : seg_desc_t :=
  mkSegDesc (Z.land lim 0x0000FFFF) (Z.land addr 0x0000FFFF) (Z.shiftr (Z.land addr 0x00FF0000) 16)
    (seg_type str) (seg_sys str) (seg_dpl str) (seg_present str) (Z.shiftr (Z.land lim 0x000F0000) 16)
    (avail str) (seg_reserved str) (opsize str) (granularity str) (Z.shiftr (Z.land addr 0xFF000000) 24).

(** The fields each block sets before the parameters; the others are set by
    [SET_SEG_PARAMS]. *)
Definition the_ldt_desc : seg_desc_t := mkSegDesc 0 0 0 0x2 0x0 0x0 0x1 0 0x0 0x0 0x1 0x0 0.
Definition the_tss_desc : seg_desc_t :=
  mkSegDesc (Z.land TSS_SIZE 0x0000FFFF) 0 0 0x9 0x0 0x0 0x1 (Z.land TSS_SIZE 0x000F0000 mod 16) 0x0 0x0 0x0 0x0 0.

(** The descriptor and the register that selects it, [tss]'s selectors with the latter. *)
Definition set_ldt (d : seg_desc_t) (s : kernel) : kernel :=
  upd_desc (λ ds, mkDescriptors (idt ds) d (tss_desc_ptr ds) KERNEL_LDT
                    (task_register ds) (ldt_segment_selector ds) (ss0 ds)) s.
Definition set_tss (d : seg_desc_t) (s : kernel) : kernel :=
  set_esp0 0x800000
    (upd_desc (λ ds, mkDescriptors (idt ds) (ldt_desc_ptr ds) d (ldtr ds) KERNEL_TSS KERNEL_LDT KERNEL_DS) s).
Definition set_idt (f : arr idt_desc_t → arr idt_desc_t) (s : kernel) : kernel :=
  upd_desc (λ ds, mkDescriptors (f (idt ds)) (ldt_desc_ptr ds) (tss_desc_ptr ds)
                    (ldtr ds) (task_register ds) (ldt_segment_selector ds) (ss0 ds)) s.

(** ** Tests *)

(** tests.c: every test is commented out. *)
Definition launch_tests : M unit := modify clear.

(** ** entry *)

(** From the descriptors to the enabled interrupts. *)
Definition boot_devices : M unit :=
  _ ← modify (set_ldt (SET_SEG_PARAMS the_ldt_desc ldt ldt_size));
  _ ← modify (set_tss (SET_SEG_PARAMS the_tss_desc tss tss_size));
  _ ← modify (set_idt (initialize_idt address));
  _ ← i8259_init;
  _ ← modify paging_init;
  _ ← rtc_init;
  _ ← PIT_initialize;
  keyboard_initialize.

Definition entry (magic addr : Z) : M unit :=
  go ← boot_report magic addr;
  if negb go then mret tt
  else
    _ ← boot_devices;
    _ ← say_line "Enabling Interrupts" [];
    _ ← modify sti;
    _ ← launch_tests;
    _ ← say_line "Tests complete" [];
    _ ← modify (save_and_switch_term 0);
    block.
End Boot.

(** ** Printing a line *)

Section Lines.
Context {L : Layout} {HL : LayoutOK L}.

(** The format ends outside a conversion and has [n] of them, none a string. *)
Fixpoint fits (mode : bool) (fmt : list Z) (n : nat) : bool :=
  match fmt with
  | [] => negb mode && bool_decide (n = 0%nat)
  | c :: fmt' =>
      if negb mode then fits (c =? 37) fmt' n
      else if c =? 37 then fits false fmt' n
      else if c =? 35 then fits true fmt' n
      else if c =? 115 then false
      else if existsb (Z.eqb c) [120; 117; 100; 99] then match n with O => false | S n' => fits false fmt' n' end
      else fits false fmt' n
  end.

Lemma fits_render str fmt mode args :
  fits (bool_decide (is_Some mode)) fmt (length args) = true → is_Some (render str mode fmt args).
Proof.
  revert mode args. induction fmt as [|c fmt IH]; intros mode args H; destruct mode as [alt|]; cbn [render fits] in *.
  - done.
  - by eexists.
  - change (bool_decide (is_Some (Some alt))) with true in H. cbn [negb] in H.
    destruct (c =? 37); [by apply fmap_is_Some, (IH None)|].
    destruct (c =? 35); [by apply (IH (Some true))|]. cbn [existsb] in *.
    destruct (Z.eqb_spec c 115) as [->|_]; [done|].
    destruct (c =? 120), (c =? 117), (c =? 100), (c =? 99); cbn [orb] in *;
      first [ by apply (IH None)
            | destruct args as [|v args]; [done|]; rewrite bind_some; by apply fmap_is_Some, (IH None) ].
  - change (bool_decide (is_Some (@None bool))) with false in H. cbn [negb] in H.
    destruct (c =? 37); [by apply (IH (Some false))|by apply fmap_is_Some, (IH None)].
Qed.

(** All that the report changes, besides the file system: [printed] from the
    state with the file system of now. *)
Definition reported (s s' : kernel) : Prop := printed (upd_fs (λ _, k_fs s') s) s' ∧ cursor_ok s'.

Lemma reported_refl s : cursor_ok s → reported s s.
Proof. intros Hc. split; [|done]. destruct s. reflexivity. Qed.

Lemma reported_print s s1 s2 : reported s s1 → printed s1 s2 → cursor_ok s2 → reported s s2.
Proof. intros [H1 _] H2 Hc. split; [|done]. rewrite (pr_fs _ _ H2). by transitivity s1. Qed.

Lemma reported_fs s s1 f : reported s s1 → reported s (upd_fs f s1).
Proof. intros [[] Hc]. split; [|done]. by split. Qed.

(** Bytes the report reads and does not overwrite. *)
Definition untouched (s : kernel) (a n : Z) : Prop :=
  ∀ i, 0 <= i < n → off_screen s (a + i) ∧ ¬ (loc_conv_buf <= phys s (a + i) < loc_conv_buf + 64).

Lemma untouched_sub s a n i k : untouched s a n → 0 <= i → i + k <= n → untouched s (a + i) k.
Proof. intros H Hi Hk j Hj. rewrite <- Z.add_assoc. apply H. lia. Qed.

Lemma reported_byte s s' a n i : reported s s' → untouched s a n → 0 <= i < n → ld8 s' (a + i) = ld8 s (a + i).
Proof.
  intros [Hp _] Hu Hi. apply (changes_byte _ _ _ _ (pr_memory _ _ Hp)). destruct (Hu i Hi) as [H1 H2].
  unfold off_screen in H1. repeat apply List.Forall_cons; [exact H1|exact H2|done].
Qed.

Lemma reported_word s s' a n i : reported s s' → untouched s a n → 0 <= i → i + 4 <= n → ld32 s' (a + i) = ld32 s (a + i).
Proof.
  intros Hr Hu Hi Hn. unfold ld32. rewrite <- !Z.add_assoc.
  by rewrite !(reported_byte s s' a n) by (done || lia).
Qed.

Lemma reported_string s s' a l : reported s s' → lasting_string s a l → lasting_string s' a l.
Proof. intros [Hp _] Hl. by apply (lasting_printed (upd_fs (λ _, k_fs s') s)). Qed.

(** The report so far, with the file system it has set up. *)
Definition so_far (s : kernel) (fs : filesystem) (s1 : kernel) : Prop := reported s s1 ∧ k_fs s1 = fs.

Lemma runs_say format args str s s1 fs :
  is_Some (render str None (bytes_of format) args) → (∀ a l, str a = Some l → lasting_string s1 a l) →
  so_far s fs s1 → runs (say format args) s1 (λ _, so_far s fs).
Proof using HL.
  intros [out Hr] Hstr [Hs Hf]. apply runs_bind.
  destruct (printf_scan_render str _ None args s1 out Hr (proj2 Hs) Hstr) as (s2 & He & Hp & Hc & _).
  eexists _, s2. unfold printf. rewrite He. split; [done|]. apply runs_ret.
  split; [by apply (reported_print s s1)|]. rewrite <- Hf. apply Hp.
Qed.

Lemma runs_numbers format args s s1 fs :
  fits false (bytes_of format) (length args) = true → so_far s fs s1 → runs (say format args) s1 (λ _, so_far s fs).
Proof using HL.
  intros Hf. apply (runs_say _ _ (λ _, None)); [|done]. by apply (fits_render _ _ None).
Qed.

Lemma runs_seq {B} (m : M unit) (f : unit → M B) s s1 fs Q :
  runs m s1 (λ _, so_far s fs) → (∀ s2, so_far s fs s2 → runs (f tt) s2 Q) → runs (m ≫= f) s1 Q.
Proof. intros Hm Hf. apply runs_bind. eapply runs_mono; [exact Hm|]. intros [] s2. apply Hf. Qed.

(** ** The modules *)

(** What [filesystem_init] makes of the addresses. *)
Definition fs_at (start : Z) (fs : filesystem) : filesystem :=
  if s32 start <=? 0 then fs else mkFilesystem start (start + BOOT_BLOCK_SIZE) (start + DENTRY_OFFSET_BB) 0.

Definition fs_after (s : kernel) (addr : Z) (n : nat) (fs : filesystem) : filesystem :=
  foldl (λ fs i, fs_at (ld32 s (addr + MODULE_SIZE * i)) fs) fs (seqZ 0 (Z.of_nat n)).

Lemma fs_after_S s addr n fs :
  fs_after s addr (S n) fs = fs_at (ld32 s (addr + MODULE_SIZE * Z.of_nat n)) (fs_after s addr n fs).
Proof.
  unfold fs_after. rewrite Nat2Z.inj_succ, <- Z.add_1_r, seqZ_app by lia. rewrite foldl_app. cbn. by rewrite Z.add_0_l.
Qed.

Lemma filesystem_init_runs start s s1 fs :
  so_far s fs s1 → runs (filesystem_init start) s1 (λ _, so_far s (fs_at start fs)).
Proof using HL.
  intros H. unfold filesystem_init, fs_at. destruct (s32 start <=? 0).
  - by apply (runs_numbers _ []).
  - destruct H as [Hr Hf]. apply runs_modify. split; [by apply reported_fs|done].
Qed.
End Lines.

(** The next statement prints numbers. *)
Ltac line :=
  match goal with H : so_far _ _ _ |- _ => eapply runs_seq; [apply runs_numbers; [by vm_compute|exact H]|]; clear H; intros ? H end.

Section Report.
Context {L : Layout} {HL : LayoutOK L}.

Lemma boot_module_runs s s1 fs count mod_ :
  so_far s fs s1 → untouched s mod_ MODULE_SIZE →
  runs (boot_module (count, mod_)) s1 (λ p s2, p = (count + 1, u32 (mod_ + MODULE_SIZE)) ∧ so_far s (fs_at (ld32 s mod_) fs) s2).
Proof using HL.
  intros H Hu. assert (E : ld32 s1 mod_ = ld32 s mod_).
  { rewrite <- (Z.add_0_r mod_). apply (reported_word s s1 mod_ MODULE_SIZE); [apply H|done|unfold MODULE_SIZE; lia..]. }
  unfold boot_module. apply runs_bind, runs_gets. rewrite E.
  eapply runs_seq; [by apply filesystem_init_runs|]. clear H. intros s2 H. line.
  apply runs_bind, runs_gets. line. line. eapply runs_seq; [|clear H; intros ? H].
  - apply (runs_for 16 0 _ _ (so_far s (fs_at (ld32 s mod_) fs))); [done|]. intros j s' H'.
    apply runs_bind, runs_gets. by apply runs_numbers.
  - line. by apply runs_ret.
Qed.

(** ** The whole report *)

(** The entries of a memory map up to [end_], each followed by the next one. *)
Inductive map_chain (s : kernel) (end_ : Z) : Z → Prop :=
  | chain_end a : end_ <= a → map_chain s end_ a
  | chain_entry a : a < end_ → untouched s a 4 → 0 <= a → a + ld32 s a + 4 < 4294967296 →
      map_chain s end_ (a + ld32 s a + 4) → map_chain s end_ a.

Definition flag (s : kernel) (mbi bit : Z) : bool := CHECK_FLAG (ld32 s (mbi + mbi_flags)) bit.
Definition field (s : kernel) (mbi o : Z) : Z := ld32 s (mbi + o).

(** A multiboot information structure the report can print: what the flags say
    is present is out of the way of the screen and of the conversion buffer. *)
Record boot_info (s : kernel) (mbi : Z) : Prop := {
  bi_words : untouched s mbi 52;
  bi_cmdline : flag s mbi 2 = true → ∃ l, lasting_string s (field s mbi mbi_cmdline) l;
  bi_modules : flag s mbi 3 = true →
    untouched s (field s mbi mbi_mods_addr) (MODULE_SIZE * field s mbi mbi_mods_count) ∧
    field s mbi mbi_mods_addr + MODULE_SIZE * field s mbi mbi_mods_count < 4294967296;
  bi_map : flag s mbi 6 = true →
    map_chain s (u32 (field s mbi mbi_mmap_addr + field s mbi mbi_mmap_length)) (field s mbi mbi_mmap_addr);
}.

(** The file system the modules leave: that of the last one. *)
Definition loaded_fs (s : kernel) (mbi : Z) : filesystem :=
  if flag s mbi 3 then fs_after s (field s mbi mbi_mods_addr) (Z.to_nat (field s mbi mbi_mods_count)) (k_fs s)
  else k_fs s.

Lemma so_far_field s fs s1 mbi o :
  boot_info s mbi → so_far s fs s1 → 0 <= o <= 48 → field s1 mbi o = field s mbi o.
Proof. intros Hb [Hr _] Ho. apply (reported_word s s1 mbi 52); [done|apply Hb|lia..]. Qed.

Lemma boot_modules_runs s s1 mbi :
  boot_info s mbi → flag s mbi 3 = true → so_far s (k_fs s) s1 →
  runs (boot_modules mbi) s1 (λ _, so_far s (loaded_fs s mbi)).
Proof using HL.
  intros Hb Hf H. destruct (bi_modules _ _ Hb Hf) as [Hu Hend]. unfold loaded_fs. rewrite Hf.
  unfold boot_modules. apply runs_bind, runs_gets. fold (field s1 mbi mbi_mods_addr).
  rewrite (so_far_field s _ s1 mbi _ Hb H) by (unfold mbi_mods_addr; lia).
  set (addr := field s mbi mbi_mods_addr) in *. set (count := field s mbi mbi_mods_count) in *.
  pose proof (ld32_range s (mbi + mbi_mods_addr) : 0 <= addr < _) as Ha.
  pose proof (ld32_range s (mbi + mbi_mods_count) : 0 <= count < _) as Hc. unfold MODULE_SIZE in *.
  set (I := λ (p : Z * Z) s', 0 <= p.1 <= count ∧ p.2 = addr + 16 * p.1 ∧ so_far s (fs_after s addr (Z.to_nat p.1) (k_fs s)) s').
  assert (Htest : ∀ p s', I p s' → (u32 p.1 <? field s' mbi mbi_mods_count) = (p.1 <? count)).
  { intros p s' (Hp & _ & Hs). rewrite (so_far_field s _ s' mbi _ Hb Hs) by (unfold mbi_mods_count; lia). by rewrite u32_small by lia. }
  apply runs_bind. eapply runs_mono; [apply (runs_while _ _ _ _ I (λ p, count - p.1))|].
  - split_and!; cbn [fst snd]; [lia..|]. exact H.
  - cbn [fst]. lia.
  - intros [k m] s2 HI _ Ht. pose proof (Htest (k, m) s2 HI) as E. change (_ = true) with ((u32 (k, m).1 <? field s2 mbi mbi_mods_count) = true) in Ht. rewrite E in Ht. apply Z.ltb_lt in Ht. destruct HI as (Hk & Hm & Hs).
    cbn [fst snd] in *. subst m. eapply runs_mono; [apply (boot_module_runs _ _ _ _ _ Hs)|].
    + by apply (untouched_sub _ _ (16 * count)); [|unfold MODULE_SIZE; lia..].
    + intros p s3 [-> H3]. unfold MODULE_SIZE. cbn [fst snd]. split; [|lia]. split_and!; cbn [fst snd]; [lia..| |].
      * rewrite u32_small by lia. lia.
      * replace (Z.to_nat (k + 1)) with (S (Z.to_nat k)) by lia. rewrite fs_after_S, Z2Nat.id by lia. exact H3.
  - intros [k m] s2 [HI Ht]. pose proof (Htest (k, m) s2 HI) as E. change (_ = false) with ((u32 (k, m).1 <? field s2 mbi mbi_mods_count) = false) in Ht. rewrite E in Ht. apply Z.ltb_ge in Ht. destruct HI as (Hk & _ & Hs).
    cbn [fst snd] in *. apply runs_ret. by replace count with k by lia.
Qed.

Lemma boot_map_entry_runs s fs s1 end_ a :
  so_far s fs s1 → map_chain s end_ a → a < end_ →
  runs (boot_map_entry a) s1 (λ a' s2, (so_far s fs s2 ∧ map_chain s end_ a' ∧ 0 <= a' < 4294967296) ∧ a < a').
Proof using HL.
  intros H Hchain Ha. inversion_clear Hchain as [|? _ Hu H0 Hend Hnext]; [lia|].
  unfold boot_map_entry. apply runs_bind, runs_gets. line. apply runs_bind, runs_gets, runs_ret.
  replace (ld32 s2 a) with (ld32 s a).
  - pose proof (ld32_range s a). rewrite u32_small by lia. split; [by split; [|split; [|lia]]|lia].
  - symmetry. rewrite <- (Z.add_0_r a). apply (reported_word s s2 a 4); [apply H|done|lia..].
Qed.

Lemma boot_map_runs s fs s1 mbi :
  boot_info s mbi → flag s mbi 6 = true → so_far s fs s1 → runs (boot_map mbi) s1 (λ _, so_far s fs).
Proof using HL.
  intros Hb Hf H. pose proof (bi_map _ _ Hb Hf) as Hchain.
  unfold boot_map. apply runs_bind, runs_gets. fold (field s1 mbi mbi_mmap_addr).
  rewrite (so_far_field s _ s1 mbi _ Hb H) by (unfold mbi_mmap_addr; lia).
  apply runs_bind, runs_gets. line.
  set (addr := field s mbi mbi_mmap_addr) in *. set (end_ := u32 _) in *.
  pose proof (ld32_range s (mbi + mbi_mmap_addr) : 0 <= addr < _) as Ha.
  pose proof (u32_range (addr + field s mbi mbi_mmap_length) : 0 <= end_ < _) as He.
  apply runs_bind. eapply runs_mono;
    [apply (runs_while _ _ _ _ (λ a s', so_far s fs s' ∧ map_chain s end_ a ∧ 0 <= a < 4294967296) (λ a, Z.max 0 (end_ - a)))|].
  - done.
  - lia.
  - intros a s3 (H3 & Hc & Hr) _ Ht. change (_ = true) with
      ((a <? u32 (field s3 mbi mbi_mmap_addr + field s3 mbi mbi_mmap_length)) = true) in Ht.
    rewrite !(so_far_field s _ s3 mbi _ Hb H3) in Ht by (unfold mbi_mmap_addr, mbi_mmap_length; lia).
    fold addr in Ht. fold end_ in Ht. apply Z.ltb_lt in Ht.
    eapply runs_mono; [by apply (boot_map_entry_runs s fs s3 end_)|]. intros a' s4 [H4 Hlt]. split; [exact H4|lia].
  - intros a s3 [(H3 & _) _]. by apply runs_ret.
Qed.
End Report.

Section Boot_report.
Context {L : Layout} {HL : LayoutOK L}.

(** A part of the report that a flag turns on. *)
Lemma runs_flag {B} s fs fs' s1 (b : bool) (m : M unit) (f : unit → M B) Q :
  so_far s fs s1 → (b = true → runs m s1 (λ _, so_far s fs')) → (b = false → fs' = fs) →
  (∀ s2, so_far s fs' s2 → runs (f tt) s2 Q) → runs ((if b then m else mret tt) ≫= f) s1 Q.
Proof.
  intros H Hm Hfs Hf. eapply (runs_seq _ _ s s1 fs'); [|exact Hf]. destruct b; [by apply Hm|].
  apply runs_ret. by rewrite Hfs.
Qed.

Lemma render_cmdline str a l : str a = Some l → is_Some (render str None (bytes_of (with_newline "cmdline = %s")) [a]).
Proof. intros E. vm_compute. rewrite E. by eexists. Qed.

Lemma boot_report_runs s magic mbi :
  boot_info s mbi → cursor_ok s → u32 magic = MULTIBOOT_BOOTLOADER_MAGIC →
  runs (boot_report magic mbi) s (λ go s', go = negb (flag s mbi 4 && flag s mbi 5) ∧ so_far s (loaded_fs s mbi) s').
Proof using HL.
  intros Hb Hc Hm. assert (H : so_far s (k_fs s) s) by (split; [by apply reported_refl|done]).
  assert (Hflag : ∀ fs s' bit, so_far s fs s' → CHECK_FLAG (ld32 s' (mbi + mbi_flags)) bit = flag s mbi bit).
  { intros fs s' bit H'. change (ld32 s' (mbi + mbi_flags)) with (field s' mbi mbi_flags).
    by rewrite (so_far_field s fs s' mbi _ Hb H') by (unfold mbi_flags; lia). }
  unfold boot_report. rewrite Hm. change (negb (_ =? _)) with false. cbv zeta. cbn beta iota.
  apply runs_bind, runs_gets. line.
  apply runs_bind, runs_gets. rewrite (Hflag _ _ _ H). eapply runs_flag; [exact H|intros _|done|clear H; intros s3 H].
  { apply runs_bind, runs_gets, runs_bind, runs_gets. by apply runs_numbers. }
  apply runs_bind, runs_gets. rewrite (Hflag _ _ _ H). eapply runs_flag; [exact H|intros _|done|clear H; intros s4 H].
  { apply runs_bind, runs_gets. by apply runs_numbers. }
  apply runs_bind, runs_gets. rewrite (Hflag _ _ _ H). eapply runs_flag; [exact H|intros Hf|done|clear H; intros s5 H].
  { destruct (bi_cmdline _ _ Hb Hf) as [l Hl]. apply runs_bind, runs_gets. fold (field s4 mbi mbi_cmdline).
    rewrite (so_far_field s _ s4 mbi _ Hb H) by (unfold mbi_cmdline; lia).
    apply (runs_say _ _ (λ a, if a =? field s mbi mbi_cmdline then Some l else None)); [| |exact H].
    - apply (render_cmdline _ _ l). by rewrite Z.eqb_refl.
    - intros a l'. destruct (Z.eqb_spec a (field s mbi mbi_cmdline)) as [->|]; [|done]. intros [= <-].
      apply (reported_string s); [apply H|done]. }
  apply runs_bind, runs_gets. rewrite (Hflag _ _ _ H).
  eapply (runs_flag s _ (loaded_fs s mbi)); [exact H|intros Hf; by apply boot_modules_runs|intros Hf; unfold loaded_fs; by rewrite Hf|].
  clear H; intros s6 H. apply runs_bind, runs_gets. rewrite (Hflag _ _ _ H). apply runs_bind, runs_gets. rewrite (Hflag _ _ _ H).
  destruct (flag s mbi 4 && flag s mbi 5).
  { line. by apply runs_ret. }
  eapply runs_flag; [exact H|intros _|done|clear H; intros s7 H].
  { apply runs_bind, runs_gets, runs_bind, runs_gets, runs_bind, runs_gets, runs_bind, runs_gets. by apply runs_numbers. }
  apply runs_bind, runs_gets. rewrite (Hflag _ _ _ H).
  eapply runs_flag; [exact H|intros Hf; by apply boot_map_runs|done|clear H; intros s8 H]. by apply runs_ret.
Qed.
End Boot_report.

(** ** The devices *)

Section Devices.
Context {L : Layout} {HL : LayoutOK L}.

Lemma i8259_init_run s :
  ∃ d, i8259_init s = Ret tt (upd_pic (λ _, enable_pic 2 (mkPic ACTIVE_LOW ACTIVE_LOW)) (upd_dev (λ _, d) s)).
Proof. destruct s as [? ? [] ? ? ? [] ? ? ? ? [] ?]. eexists. cbv. reflexivity. Qed.

Lemma rtc_init_run s :
  ∃ d, rtc_init s = Ret tt (sti (upd_pic (enable_pic 8) (upd_dev (λ _, d) s))).
Proof. destruct s as [? ? [] ? ? ? [] ? ? ? ? [] ?]. eexists. cbv -[s8 Z.lor Z.land Z.modulo]. reflexivity. Qed.

Lemma PIT_initialize_run s :
  ∃ d, PIT_initialize s = Ret tt (upd_sched (λ _, mkSched 0 2 1) (upd_pic (enable_pic 0) (upd_dev (λ _, d) s))).
Proof. destruct s as [? ? [] ? ? ? [] ? ? ? ? [] ?]. eexists. cbv -[Z.lor Z.land Z.modulo]. reflexivity. Qed.

Lemma keyboard_initialize_run s :
  ∃ s', keyboard_initialize s = Ret tt s' ∧ changes [(terminal_addr, 540); (backing 0, 3 * FOUR_KB)] s s' ∧
    (∀ j, 0 <= j < 3 → empty_terminal s' j ∧ term s' j = opened_terminal j (term s j)) ∧
    active_terminal s' = 0 ∧ is_visible s' = 0 ∧
    SHIFT_STATUS s' = INACTIVE ∧ ALT_STATUS s' = INACTIVE ∧ CAPS_STATUS s' = INACTIVE ∧ CTRL_STATUS s' = INACTIVE ∧
    k_pic s' = enable_pic 1 s ∧ k_con s' = k_con s ∧ k_sched s' = k_sched s ∧ k_fs s' = k_fs s ∧ k_proc s' = k_proc s ∧
    k_paging s' = k_paging s ∧ k_cpu s' = k_cpu s ∧ k_desc s' = k_desc s.
Proof using HL.
  pose proof (enable_irq_run 1 s ltac:(lia)) as E1. set (s1 := announce 1 _ _) in E1.
  assert (F1 : k_mem s1 = k_mem s ∧ term s1 = term s ∧ k_pic s1 = enable_pic 1 s ∧ k_con s1 = k_con s ∧ k_sched s1 = k_sched s ∧
    k_fs s1 = k_fs s ∧ k_proc s1 = k_proc s ∧ k_paging s1 = k_paging s ∧ k_cpu s1 = k_cpu s ∧ k_desc s1 = k_desc s) by done.
  clearbody s1. destruct F1 as (M1 & T1 & F1).
  destruct (terminal_open_run 0 s1) as (s2 & E2 & C2 & [] & O2). rewrite M1, T1 in *.
  eexists. split.
  { unfold keyboard_initialize. rewrite (bind_ret _ _ _ _ _ E1), (bind_ret _ _ _ _ _ E2). reflexivity. }
  split; [exact C2|]. split; [exact O2|]. split_and!; try reflexivity; (etransitivity; [|apply F1]); assumption.
Qed.

(** ** The machine after the initialisation *)

(** Base and limit of a segment, as the processor reads them. *)
Definition segment_base (d : seg_desc_t) : Z := base_15_00 d + 0x10000 * base_23_16 d + 0x1000000 * base_31_24 d.
Definition segment_limit (d : seg_desc_t) : Z := seg_lim_15_00 d + 0x10000 * seg_lim_19_16 d.

Lemma SET_SEG_PARAMS_spec d addr lim :
  0 <= addr < 4294967296 → 0 <= lim < 0x100000 →
  segment_base (SET_SEG_PARAMS d addr lim) = addr ∧ segment_limit (SET_SEG_PARAMS d addr lim) = lim.
Proof.
  intros Ha Hl. unfold segment_base, segment_limit, SET_SEG_PARAMS.
  cbn [base_15_00 base_23_16 base_31_24 seg_lim_15_00 seg_lim_19_16]. rewrite !Z.shiftr_land.
  change (Z.shiftr 0x00FF0000 16) with (Z.ones 8). change (Z.shiftr 0xFF000000 24) with (Z.ones 8).
  change (Z.shiftr 0x000F0000 16) with (Z.ones 4). change 0x0000FFFF with (Z.ones 16).
  rewrite !Z.land_ones, !Z.shiftr_div_pow2 by lia.
  change (2 ^ 8) with 256. change (2 ^ 16) with 65536. change (2 ^ 24) with 16777216. change (2 ^ 4) with 16.
  split; Z.div_mod_to_equations; lia.
Qed.

(** What x86_desc.S defines: sizes fit a descriptor. *)
Record tables := mkTables { tb_ldt : Z; tb_ldt_size : Z; tb_tss : Z; tb_tss_size : Z; tb_address : routine → Z }.
Definition tables_ok (t : tables) : Prop :=
  (0 <= tb_ldt t < 4294967296 ∧ 0 <= tb_ldt_size t < 0x100000) ∧
  (0 <= tb_tss t < 4294967296 ∧ 0 <= tb_tss_size t < 0x100000).
Definition devices (t : tables) : M unit :=
  boot_devices (tb_ldt t) (tb_ldt_size t) (tb_tss t) (tb_tss_size t) (tb_address t).
Definition entry_with (t : tables) : Z → Z → M unit :=
  entry (tb_ldt t) (tb_ldt_size t) (tb_tss t) (tb_tss_size t) (tb_address t).

(** The lines [entry] leaves open: timer, keyboard, the cascade, 4 (meant for
    the clock: [enable_irq]), and 8 and 9, which the first mask leaves open. *)
Definition open_lines : list Z := [0; 1; 2; 4; 8; 9].

Record machine_ready (t : tables) (s s' : kernel) : Prop := {
  mr_lines : ∀ line, 0 <= line < 16 → masked s' line = negb (existsb (Z.eqb line) open_lines);
  mr_walk : ∀ a, 0 <= a < 4294967296 →
    walk s' false a = (if a <? 0x800000 then Some a else None) ∧ walk s' true a = None;
  mr_program_page : upage s' = 0;
  mr_idt : idt s' = initialize_idt (tb_address t) (idt s);
  mr_ldt : ldtr s' = KERNEL_LDT ∧ segment_base (ldt_desc_ptr s') = tb_ldt t ∧ segment_limit (ldt_desc_ptr s') = tb_ldt_size t;
  mr_tss : task_register s' = KERNEL_TSS ∧ segment_base (tss_desc_ptr s') = tb_tss t ∧
    segment_limit (tss_desc_ptr s') = tb_tss_size t ∧ ss0 s' = KERNEL_DS ∧ esp0 s' = 0x800000;
  mr_sched : k_sched s' = mkSched 0 2 1;
  mr_active : active_terminal s' = 0 ∧ is_visible s' = 0;
  mr_terminals : ∀ j, 0 <= j < 3 → empty_terminal s' j ∧ term s' j = opened_terminal j (term s j);
  mr_keys : SHIFT_STATUS s' = INACTIVE ∧ ALT_STATUS s' = INACTIVE ∧ CAPS_STATUS s' = INACTIVE ∧ CTRL_STATUS s' = INACTIVE;
  mr_iflag : iflag s' = true;
  mr_proc : k_proc s' = k_proc s;
}.

(** No printing undoes it. *)
Lemma ready_printed t s s' s2 : machine_ready t s s' → printed s' s2 → machine_ready t s s2.
Proof using HL.
  intros [] [Hm Hi Ht Hk Hs Hp Hr Hf Hpr Hpg Hc Hd]. pose proof (obj_sep 0 10 _ _ eq_refl eq_refl ltac:(done)) as Hsep.
  pose proof (obj_bounds 0 _ eq_refl) as B1. pose proof (conv_buf_bounds) as B2. unfold KERNEL_START, KERNEL_END in *. cbn [fst snd] in *.
  split; rewrite ?Ht, ?Hk, ?Hs, ?Hp, ?Hpr, ?Hc, ?Hd; try assumption.
  - intros a Ha. rewrite !(walk_tables s' s2) by done. by apply mr_walk0.
  - by rewrite (proj1 Hm).
  - intros j Hj. destruct (mr_terminals0 j Hj) as [[E1 E2] Et]. split; [|unfold term in *; by rewrite Ht].
    unfold backing, keyboard_buffer, VIDEO, FOUR_KB, PAGE_BYTES in *.
    split; [rewrite <- E1; apply page_text_eq|intros i Hi'; rewrite <- (E2 i Hi')];
      unfold PAGE_BYTES; intros; eapply (changes_byte _ _ _ _ Hm); unfold backing, keyboard_buffer, VIDEO, FOUR_KB, PAGE_BYTES in *;
      (rewrite phys_kernel by (unfold PROGRAM_PAGE; lia)); each_segment.
Qed.

Lemma open_lines_spec line :
  0 <= line < 16 →
  masked (enable_pic 1 (enable_pic 0 (enable_pic 8 (enable_pic 2 (mkPic ACTIVE_LOW ACTIVE_LOW))))) line =
  negb (existsb (Z.eqb line) open_lines).
Proof.
  intros Hl. apply eqb_prop. revert line Hl. apply forall_line. by vm_compute.
Qed.

(** The state when the keyboard's turn comes; the tables and the ports aside,
    all is known. *)
Definition prepared (t : tables) (d : State.devices) (p : paging) (s : kernel) : kernel :=
  mkKernel (mkMem (ram s) 0) (k_con s) d (k_term s) (k_kbd s) (mkSched 0 2 1)
    (enable_pic 0 (enable_pic 8 (enable_pic 2 (mkPic ACTIVE_LOW ACTIVE_LOW)))) (k_rtc s) (k_fs s) (k_proc s) p
    (mkCpu (esp s) (ebp s) 0x800000 true)
    (mkDescriptors (initialize_idt (tb_address t) (idt s)) (SET_SEG_PARAMS the_ldt_desc (tb_ldt t) (tb_ldt_size t))
      (SET_SEG_PARAMS the_tss_desc (tb_tss t) (tb_tss_size t)) KERNEL_LDT KERNEL_TSS KERNEL_LDT KERNEL_DS).

Lemma prepared_chain d5 g1 d4 g2 p d2 q (s : kernel) :
  upd_sched (λ _, mkSched 0 2 1) (upd_pic g1 (upd_dev (λ _, d5) (sti (upd_pic g2 (upd_dev (λ _, d4)
    (upd_paging (λ _, p) (upd_mem (λ m, mkMem (ram m) 0) (upd_pic (λ _, q) (upd_dev (λ _, d2) s))))))))) =
  mkKernel (mkMem (ram s) 0) (k_con s) d5 (k_term s) (k_kbd s) (mkSched 0 2 1) (g1 (g2 q)) (k_rtc s) (k_fs s) (k_proc s) p
    (mkCpu (esp s) (ebp s) (esp0 s) true) (k_desc s).
Proof. by destruct s. Qed.

Lemma prepared_run t s :
  ∃ d p, devices t s = keyboard_initialize (prepared t d p s) ∧
    ∀ s' a, k_paging s' = p → 0 <= a < 4294967296 →
      walk s' false a = (if a <? 0x800000 then Some a else None) ∧ walk s' true a = None.
Proof using HL.
  unfold devices, boot_devices. rewrite !bind_modify.
  set (s1 := set_idt _ _).
  destruct (i8259_init_run s1) as [d2 E2]. rewrite (bind_ret _ _ _ _ _ E2). clear E2.
  set (s2 := upd_pic _ (upd_dev _ s1)). rewrite bind_modify.
  pose proof (λ a Ha, paging_init_walk s2 a Ha) as Hwalk. destruct (paging_init_frame s2) as [p Ep]. rewrite Ep in *. clear Ep.
  destruct (rtc_init_run (upd_paging (λ _, p) (upd_mem (λ m, mkMem (ram m) 0) s2))) as [d4 E4]. rewrite (bind_ret _ _ _ _ _ E4). clear E4.
  set (s4 := sti _). destruct (PIT_initialize_run s4) as [d5 E5]. rewrite (bind_ret _ _ _ _ _ E5). clear E5.
  exists d5, p. split; [by unfold s4, s2; rewrite prepared_chain|].
  intros s' a Hp Ha. rewrite !(walk_tables (upd_paging (λ _, p) (upd_mem (λ m, mkMem (ram m) 0) s2)) s') by exact Hp.
  by apply Hwalk.
Qed.

Lemma devices_run t s :
  tables_ok t →
  ∃ s', devices t s = Ret tt s' ∧ machine_ready t s s' ∧ k_con s' = k_con s ∧ k_fs s' = k_fs s.
Proof using HL.
  intros [[Hl1 Hl2] [Ht1 Ht2]]. destruct (prepared_run t s) as (d & p & E & Hwalk).
  destruct (keyboard_initialize_run (prepared t d p s)) as
    (s' & E' & C' & O & A & V & K1 & K2 & K3 & K4 & Hpic & Hcon & Hsched & Hfs & Hproc & Hpag & Hcpu & Hdesc).
  exists s'. rewrite E. split; [exact E'|]. split; [|split; [exact Hcon|exact Hfs]].
  destruct (SET_SEG_PARAMS_spec the_ldt_desc (tb_ldt t) (tb_ldt_size t) Hl1 Hl2) as [L1 L2].
  destruct (SET_SEG_PARAMS_spec the_tss_desc (tb_tss t) (tb_tss_size t) Ht1 Ht2) as [T1 T2].
  split; rewrite ?Hdesc, ?Hcpu, ?Hsched, ?Hproc; try reflexivity.
  - intros line Hl. rewrite Hpic. by apply open_lines_spec.
  - intros a Ha. by apply Hwalk.
  - by rewrite (proj1 C').
  - by split_and!.
  - by split_and!.
  - by split.
  - exact O.
  - by split_and!.
Qed.
End Devices.

(** ** entry *)

Lemma say_prints {L : Layout} {HL : LayoutOK L} format args s :
  fits false (bytes_of format) (length args) = true → cursor_ok s →
  ∃ out s', render (λ _, None) None (bytes_of format) args = Some out ∧ say format args s = Ret tt s' ∧ prints out s s'.
Proof.
  intros Hf Hc. destruct (fits_render (λ _, None) _ None args Hf) as [out Hr].
  destruct (printf_scan_render _ _ _ _ _ _ Hr Hc ltac:(done)) as (s' & He & Hp). exists out, s'. split; [done|]. split; [|done].
  unfold say, printf. unfold mbind, M_bind. by rewrite He.
Qed.

(** [entry] brings the machine up: given a boot loader's information
    structure, it prints the report, takes the file system from the last module,
    leaves the machine ready (descriptors, interrupt table, open lines, page
    tables, three empty terminals, the scheduler armed, interrupts enabled) and
    spins with the line of the tests on a cleared screen. *)
Lemma entry_boots {L : Layout} {HL : LayoutOK L} (t : tables) (magic mbi : Z) (s : kernel) :
  tables_ok t → u32 magic = MULTIBOOT_BOOTLOADER_MAGIC → boot_info s mbi → cursor_ok s →
  flag s mbi 4 && flag s mbi 5 = false →
  ∃ s', entry_with t magic mbi s = Block s' ∧ machine_ready t s s' ∧ k_fs s' = loaded_fs s mbi ∧
    abs_screen s' = scr_puts (bytes_of (with_newline "Tests complete")) blank_screen.
Proof.
  intros Ht Hm Hb Hc H45.
  destruct (boot_report_runs s magic mbi Hb Hc Hm) as (go & s1 & E1 & Hgo & H1 & F1). rewrite H45 in Hgo. cbn in Hgo. subst go.
  destruct (devices_run t s1 Ht) as (s2 & E2 & R2 & C2 & F2).
  destruct (say_prints (with_newline "Enabling Interrupts") [] s2) as (out3 & s3 & _ & E3 & P3 & C3 & _); [by vm_compute|unfold cursor_ok; rewrite C2; apply H1|].
  destruct (clear_spec (sti s3)) as (O4 & A4 & C4). set (s4 := clear (sti s3)) in *.
  destruct (say_prints (with_newline "Tests complete") [] s4) as (out5 & s5 & Hr5 & E5 & P5 & C5 & A5); [by vm_compute|exact C4|].
  assert (R5 : machine_ready t s1 s5).
  { apply (ready_printed t s1 s4); [|exact P5]. apply (ready_printed t s1 (sti s3)); [|by apply console_printed].
    pose proof (ready_printed t s1 s2 s3 R2 P3) as []. by split. }
  assert (Hact : save_and_switch_term 0 s5 = s5) by (unfold save_and_switch_term; by rewrite (proj1 (mr_active _ _ _ R5))).
  exists s5. split; [|split; [|split]].
  - unfold entry_with, entry. rewrite (bind_ret _ _ _ _ _ E1). cbn [negb].
    rewrite (bind_ret _ _ _ _ _ E2), (bind_ret _ _ _ _ _ E3), bind_modify. unfold launch_tests.
    rewrite bind_modify. fold s4. rewrite (bind_ret _ _ _ _ _ E5), bind_modify, Hact. done.
  - pose proof (pr_desc _ _ (proj1 H1) : k_desc s1 = k_desc s) as Hd. pose proof (pr_term _ _ (proj1 H1) : k_term s1 = k_term s) as Hk.
    pose proof (pr_proc _ _ (proj1 H1) : k_proc s1 = k_proc s) as Hp. destruct R5.
    split; try assumption; [by rewrite mr_idt0, Hd| |by rewrite mr_proc0].
    intros j Hj. unfold term in *. rewrite <- Hk. by apply mr_terminals0.
  - rewrite (pr_fs _ _ P5), (co_fs _ _ O4). change (k_fs (sti s3)) with (k_fs s3). rewrite (pr_fs _ _ P3), F2. exact F1.
  - rewrite A5, A4. by vm_compute in Hr5; injection Hr5 as <-.
Qed.

(** [entry] gives up, having only printed, when the magic number is wrong
    or when the flags claim both formats of symbol table. *)
Lemma entry_refuses {L : Layout} {HL : LayoutOK L} (t : tables) (magic mbi : Z) (s : kernel) :
  cursor_ok s →
  u32 magic ≠ MULTIBOOT_BOOTLOADER_MAGIC ∨ (boot_info s mbi ∧ flag s mbi 4 = true ∧ flag s mbi 5 = true) →
  ∃ s', entry_with t magic mbi s = Ret tt s' ∧ reported s s'.
Proof.
  intros Hc Hor.
  cut (runs (boot_report magic mbi) s (λ go s', go = false ∧ reported s s')).
  { intros (go & s' & E & -> & Hr). exists s'. split; [|exact Hr]. unfold entry_with, entry. by rewrite (bind_ret _ _ _ _ _ E). }
  destruct (Z.eqb_spec (u32 magic) MULTIBOOT_BOOTLOADER_MAGIC) as [Hm|Hm].
  - destruct Hor as [?|(Hb & H4 & H5)]; [done|]. eapply runs_mono; [by apply boot_report_runs|].
    intros go s' [-> [Hr _]]. by rewrite H4, H5.
  - unfold boot_report. apply Z.eqb_neq in Hm. rewrite Hm. cbn [negb].
    assert (H : so_far s (k_fs s) s) by (split; [by apply reported_refl|done]). line. apply runs_ret. split; [done|apply H].
Qed.
