(* ===== verification/Start.v ===== *)
(** * From the boot loader to the C code: boot.S, x86_desc.S

    The routine the boot loader jumps to: the segments of the table of
    x86_desc.S, a stack below 8 MB, the loader's two registers as the arguments
    of [entry].  [start_boots] composes it with what [entry] does ([Boot]). *)

From stdpp Require Import functions.
From S2P Require Import Prelude Memory LibMem LibStr Video State Console Idt Pic Rtc Process FileSystem Terminal Keyboard Paging SysCalls Schedule Boot Machine.

Implicit Types s : kernel.

(** ** The header the boot loader looks for *)

Definition MULTIBOOT_HEADER_FLAGS : Z := 0x00000003.
Definition MULTIBOOT_HEADER_MAGIC : Z := 0x1BADB002.
Definition multiboot_header : list Z :=
  [MULTIBOOT_HEADER_MAGIC; MULTIBOOT_HEADER_FLAGS; u32 (- (MULTIBOOT_HEADER_MAGIC + MULTIBOOT_HEADER_FLAGS))].

(** Magic number, flags and checksum add up to 0. *)
Lemma multiboot_header_sum : u32 (foldr Z.add 0 multiboot_header) = 0.
Proof. reflexivity. Qed.

(** ** The segments *)

(** A segment of the whole address space. *)
Definition flat (code writable : bool) (lvl : Z) : descriptor := mkDescriptor 0 0xFFFFFFFF code writable lvl true true.

(** The four selectors of the kernel name flat segments, the user's of level 3. *)
Lemma gdt_flat :
  selected KERNEL_CS = flat true false 0 ∧ selected KERNEL_DS = flat false true 0 ∧
  selected 0x23 = flat true false 3 ∧ selected 0x2B = flat false true 3.
Proof. by vm_compute. Qed.

(** ** The routine *)

Inductive boot_function := call_entry.

Definition start_code : list (instr boot_function) :=
  [Cli; Jmp "continue";
   Label "continue"; Lgdt; Ljmp KERNEL_CS "keep_going";
   Label "keep_going"; MovI 0x800000 ESP; MovW KERNEL_DS ECX;
   MovSeg ECX SS; MovSeg ECX DS; MovSeg ECX ES; MovSeg ECX FS; MovSeg ECX GS;
   PushR EBX; PushR EAX; Call call_entry;
   Label "halt"; Hlt; Jmp "halt"].
Definition start_tail : list (instr boot_function) := [Label "halt"; Hlt; Jmp "halt"].

Section Start.
Context {L : Layout} {HL : LayoutOK L}.
Context (t : tables) (depth : Z) (scratch : reg → Z) (text : list (instr boot_function) → Z) (Htext : ∀ rest, word (text rest)).

Definition boot_code (f : boot_function) (arg : Z → Z) : M Z :=
  match f with call_entry => _ ← entry_with t (arg 0) (arg 1); mret (scratch EAX) end.

Definition start : machine → result := execute_routine boot_code depth scratch text start_code.

(** The machine when [entry] is called. *)
Definition kernel_segments (m : machine) : Prop :=
  segs m CS = KERNEL_CS ∧ ∀ r, r ≠ CS → segs m r = KERNEL_DS.

Record at_entry (m m1 : machine) : Prop := {
  ae_esp : regs m1 ESP = 0x7FFFF8;
  ae_segs : kernel_segments m1;
  ae_args : words (kern m1) 0x7FFFF8 [regs m EAX; regs m EBX];
  ae_changes : changes [(0x7FFFF8, 8)] (kern m) (kern m1);
  ae_kern : kern m1 = upd_mem (λ _, k_mem (kern m1)) (cli (kern m));
  ae_memory : k_mem (kern m1) = st32 (st32 (kern m) 0x7FFFFC (regs m EBX)) 0x7FFFF8 (regs m EAX);
}.

Lemma start_head m :
  machine_ok m → ∃ m1, at_entry m m1 ∧ start m = run boot_code depth scratch text 51 start_code (Call call_entry :: start_tail) m1.
Proof using.
  intros Hm. unfold start, execute_routine, start_code at 2.
  erewrite run_go by reflexivity. erewrite run_to by reflexivity. erewrite run_go by reflexivity. erewrite run_to by reflexivity.
  do 2 erewrite run_go by reflexivity. set (ma := set_reg ECX _ _).
  assert (A : regs ma ESP = 0x800000 ∧ regs ma EAX = regs m EAX ∧ regs ma EBX = regs m EBX ∧ u16 (regs ma ECX) = KERNEL_DS ∧
    segs ma CS = KERNEL_CS ∧ kern ma = cli (kern m)).
  { unfold ma. cbn [regs set_reg segs set_seg kern]. split_and!.
    - rewrite fn_lookup_insert_ne by done. by rewrite fn_lookup_insert.
    - by rewrite !fn_lookup_insert_ne by done.
    - by rewrite !fn_lookup_insert_ne by done.
    - rewrite fn_lookup_insert. unfold u16. change (KERNEL_DS mod 65536) with KERNEL_DS.
      rewrite (Zplus_mod (_ - _)), Zminus_mod_idemp_r, Z.sub_diag. done.
    - by rewrite fn_lookup_insert.
    - done. }
  destruct A as (A1 & A2 & A3 & A4 & A5 & A6). clearbody ma. do 5 erewrite run_go by reflexivity.
  set (mb := set_seg GS _ _). assert (B : regs mb = regs ma ∧ kern mb = kern ma ∧ kernel_segments mb).
  { split; [done|]. split; [done|]. unfold kernel_segments, mb. cbn [segs set_seg regs]. rewrite A4.
    split; [by rewrite !fn_lookup_insert_ne by done|]. intros r Hr. destruct r; try done; repeat first [by rewrite fn_lookup_insert|rewrite fn_lookup_insert_ne by done]. }
  destruct B as (B1 & B2 & B3). clearbody mb. do 2 erewrite run_go by reflexivity.
  assert (E : regs (push (regs mb EBX) mb) EAX = regs m EAX) by (rewrite <- A2, <- B1; by apply fn_lookup_insert_ne).
  rewrite E, B1, A3. change (push (regs m EAX) (push (regs m EBX) mb)) with (push_all [regs m EBX; regs m EAX] mb).
  destruct (push_all_pushed [regs m EBX; regs m EAX] mb) as [P1 P2 P3 _ _ P6 P7 P8];
    [rewrite B1, A1; unfold PROGRAM_PAGE; cbn [length]; lia|repeat (apply list.Forall_cons_2; [apply Hm|]); done|].
  assert (Hmem : k_mem (kern (push_all [regs m EBX; regs m EAX] mb)) = st32 (st32 (kern m) 0x7FFFFC (regs m EBX)) 0x7FFFF8 (regs m EAX)).
  { unfold push_all, push. cbn [foldl regs kern set_reg set_kern]. rewrite !fn_lookup_insert, B1, A1, B2, A6. done. }
  generalize dependent (push_all [regs m EBX; regs m EAX] mb). intros m1 P1 P2 P3 P6 P7 P8 Hmem. rewrite B1, A1 in P2. cbn [length] in P2, P7.
  assert (E1 : regs m1 ESP = 0x7FFFF8) by lia. rewrite E1 in P7, P8.
  exists m1. split; [|reflexivity]. split; [exact E1| |exact P8| | |exact Hmem].
  - destruct B3 as [S1 S2]. split; rewrite P3; [exact S1|exact S2].
  - by rewrite B2, A6 in P7.
  - by rewrite P6, B2, A6.
Qed.

(** The state [entry] starts in: interrupts off, and on a stack below 8 MB the
    loader's registers and the return address. *)
Definition entry_state (m : machine) : kernel :=
  upd_cpu (λ c, mkCpu (0x7FFFF4 - depth) 0x7FFFF0 (esp0 c) false)
    (upd_mem (λ mem, st32 (st32 (st32 mem 0x7FFFFC (regs m EBX)) 0x7FFFF8 (regs m EAX)) 0x7FFFF4 (text start_tail)) (kern m)).

Lemma entry_state_call m m1 : at_entry m m1 → call_state depth text start_tail m1 = entry_state m.
Proof using.
  intros [E1 _ _ _ E5 E6]. unfold call_state, push, entry_state. cbn [regs kern set_reg set_kern].
  rewrite fn_lookup_insert, E1, E5, E6. change (u32 (0x7FFFF8 - 4)) with 0x7FFFF4. done.
Qed.

Lemma start_code_run m :
  machine_ok m →
  (∀ s', entry_with t (regs m EAX) (regs m EBX) (entry_state m) = Block s' → start m = Left (Block s')) ∧
  (∀ s', entry_with t (regs m EAX) (regs m EBX) (entry_state m) = Ret tt s' → ∃ m', start m = Halted m' ∧ kern m' = s' ∧ kernel_segments m').
Proof using Htext.
  intros Hm. destruct (start_head m Hm) as (m1 & Hae & ->). pose proof (entry_state_call m m1 Hae) as Hst. destruct Hae as [A1 A2 A3 A4 A5 _].
  destruct (call_state_spec depth text Htext start_tail m1) as (_ & C2 & C3 & _ & _); [rewrite A1; unfold PROGRAM_PAGE; lia|].
  rewrite A1 in C2, C3. assert (Hargs : words (call_state depth text start_tail m1) 0x7FFFF8 [regs m EAX; regs m EBX]).
  { apply (words_stay _ _ _ _ _ (changes_stays _ _ _ C3)); [lia|cbn [length]; unfold PROGRAM_PAGE; lia|constructor; [cbn [fst snd length]; lia|done]|exact A3]. }
  assert (Hcode : boot_code call_entry (arguments (call_state depth text start_tail m1)) =
    (_ ← entry_with t (regs m EAX) (regs m EBX); mret (scratch EAX))).
  { unfold boot_code, arguments. rewrite C2. destruct Hargs as (G1 & G2 & _).
    assert (H1 : ld32 (call_state depth text start_tail m1) (0x7FFFF8 - 8 + 8 + 4 * 0) = regs m EAX) by known_word.
    assert (H2 : ld32 (call_state depth text start_tail m1) (0x7FFFF8 - 8 + 8 + 4 * 1) = regs m EBX) by known_word.
    by rewrite H1, H2. }
  rewrite <- Hst. clear Hst. split; intros s' E.
  - apply run_stop. cbn [step]. apply call_leaves; [|done]. rewrite Hcode. unfold mbind, M_bind. by rewrite E.
  - exists (called depth scratch (scratch EAX) s' m1). split; [|by split].
    rewrite (run_go _ _ _ _ _ _ (Call call_entry) _ _ (called depth scratch (scratch EAX) s' m1)).
    + unfold start_tail. erewrite run_go by reflexivity. by apply run_stop.
    + cbn [step]. apply call_resumes. rewrite Hcode. unfold mbind, M_bind. by rewrite E.
Qed.
End Start.


(** ** A boot loader's state for the witnesses *)

(** One module, the file system at 0x500000. *)
Definition loader_state : kernel :=
  upd_mem (λ m, st32 (st32 (st32 (st32 m 0x9000 8) 0x9014 1) 0x9018 0x9100) 0x9100 0x500000) zero_kernel.

Definition example_tables : tables := mkTables 0x440000 64 0x441000 104 (λ _, 0x400100).

(** The processor as the loader leaves it, and the state [entry] starts in. *)
Definition loader_machine (magic : Z) : machine :=
  mkMachine (λ r, match r with EAX => magic | EBX => 0x9000 | _ => 0 end) (λ _, 0x8) 0x400000 2 loader_state.
Definition loaded : kernel := entry_state 0x40 (λ _, 0x400100) (loader_machine MULTIBOOT_BOOTLOADER_MAGIC).

Lemma loader_untouched a n : 0x9000 <= a → a + n <= 0xA000 → untouched (L := example_layout) loaded a n.
Proof.
  intros Ha Hn i Hi. unfold off_screen. rewrite phys_kernel by (unfold PROGRAM_PAGE; lia).
  change (loc_conv_buf (Layout := example_layout)) with 0x7F0000. unfold VIDEO, PAGE_BYTES. lia.
Qed.

Lemma loader_info : boot_info (L := example_layout) loaded 0x9000.
Proof.
  split.
  - apply loader_untouched; lia.
  - intros H. by vm_compute in H.
  - intros _. replace (field loaded 0x9000 mbi_mods_addr) with 0x9100 by (vm_compute; reflexivity).
    replace (field loaded 0x9000 mbi_mods_count) with 1 by (vm_compute; reflexivity).
    split; [apply loader_untouched; unfold MODULE_SIZE; lia|unfold MODULE_SIZE; lia].
  - intros H. by vm_compute in H.
Qed.

Lemma loader_machine_ok magic : word magic → machine_ok (loader_machine magic).
Proof.
  intros H. split; [intros []; (exact H || (unfold word; cbn; lia))|intros r; unfold word; cbn; lia|unfold word; cbn; lia|].
  split; [unfold word; cbn; lia|reflexivity].
Qed.

