(* ===== verification/UserLib.v ===== *)
(** * The user library: ece391support.c, ece391syscall.S

    The string routines the user programs are linked with, the wrappers of the
    system calls, and [ece391_fdputs].  A program runs in the same machine as
    the kernel: its variables whose address is taken and its string literals
    are in the program page, and a system call is a call of [system_call]. *)

From S2P Require Import Prelude Memory LibMem LibStr Video State Runs Console Process FileSystem Terminal SysCalls.

Implicit Types s : kernel.

(** ** Strings *)

Definition ece391_strlen (m : memory) (s : Z) : option Z :=
  while_loop (λ '(len, s), if negb (ld8 m s =? 0) then inl (u32 (len + 1), s + 1) else inr len) (0, s).

(** [while ('\0' != ( *dst++ = *src++));] *)
Definition ece391_strcpy (m : memory) (dst src : Z) : option memory :=
  while_loop (λ '(dst, src, m),
    let c := ld8 m src in
    let m := st8 m dst c in
    if negb (c =? 0) then inl (dst + 1, src + 1, m) else inr m) (dst, src, m).

Definition ece391_strcmp (m : memory) (s1 s2 : Z) : option Z :=
  while_loop (λ '(s1, s2),
    if ld8 m s1 =? ld8 m s2 then if ld8 m s1 =? 0 then inr 0 else inl (s1 + 1, s2 + 1)
    else inr (ld8 m s1 - ld8 m s2)) (s1, s2).

Definition ece391_strncmp (m : memory) (s1 s2 n : Z) : option Z :=
  if n =? 0 then Some 0
  else
    while_loop (λ '(s1, s2, n),
      if ld8 m s1 =? ld8 m s2 then
        if (ld8 m s1 =? 0) || (u32 (n - 1) =? 0) then inr 0 else inl (s1 + 1, s2 + 1, u32 (n - 1))
      else inr (ld8 m s1 - ld8 m s2)) (s1, s2, n).

Definition ece391_strrev (m : memory) (s : Z) : option memory :=
  len ← ece391_strlen m s;
  let fin := s32 (len - 1) in
  if fin <=? 0 then Some m
  else
    while_loop (λ '(beg, fin, m),
      if beg <? fin then
        let tmp := ld8 m (s + fin) in
        let m := st8 m (s + fin) (ld8 m (s + beg)) in
        let m := st8 m (s + beg) tmp in
        inl (beg + 1, fin - 1, m)
      else inr m) (0, fin, m).

Definition ece391_itoa (m : memory) (value buf radix : Z) : option memory :=
  if value =? 0 then Some (st8 (st8 m buf 48) (buf + 1) 0)
  else
    '(newbuf, m) ← while_loop (λ '(newval, newbuf, m),
        if 0 <? newval then
          let i := s32 (newval mod u32 radix) in
          let m := st8 m newbuf (digit_char i) in
          inl (newval / u32 radix, newbuf + 1, m)
        else inr (newbuf, m)) (u32 value, buf, m);
    ece391_strrev (st8 m newbuf 0) buf.

(** A library function that reads the memory, or changes it. *)
Definition on_memory {A} (f : memory → option A) : M A := λ s, try_opt (f (k_mem s)) s.
Definition change_memory (f : memory → option memory) : M unit := λ s,
  match f (k_mem s) with Some m => Ret tt (upd_mem (λ _, m) s) | None => Diverge end.

(** ** System calls *)

Section Calls.
Context {L : Layout}.

Definition SYS_HALT : Z := 1.
Definition SYS_EXECUTE : Z := 2.
Definition SYS_READ : Z := 3.
Definition SYS_WRITE : Z := 4.
Definition SYS_OPEN : Z := 5.
Definition SYS_CLOSE : Z := 6.
Definition SYS_GETARGS : Z := 7.
Definition SYS_VIDMAP : Z := 8.

Definition ece391_halt (status : Z) : M Z := system_call SYS_HALT status 0 0.
Definition ece391_execute (command : Z) : M Z := system_call SYS_EXECUTE command 0 0.
Definition ece391_read (fd buf nbytes : Z) : M Z := system_call SYS_READ fd buf nbytes.
Definition ece391_write (fd buf nbytes : Z) : M Z := system_call SYS_WRITE fd buf nbytes.
Definition ece391_open (filename : Z) : M Z := system_call SYS_OPEN filename 0 0.
Definition ece391_close (fd : Z) : M Z := system_call SYS_CLOSE fd 0 0.
Definition ece391_getargs (buf nbytes : Z) : M Z := system_call SYS_GETARGS buf nbytes 0.
Definition ece391_vidmap (screen_start : Z) : M Z := system_call SYS_VIDMAP screen_start 0 0.

(** [_start]: what [main] returns is the status. *)
Definition start (main : M Z) : M Z := r ← main; ece391_halt r.

Definition ece391_fdputs (fd s : Z) : M unit :=
  len ← on_memory (λ m, ece391_strlen m s);
  _ ← ece391_write fd s len;
  mret tt.
End Calls.

(** ** What the string routines compute *)

Lemma ece391_strlen_run m (p : Z) l :
  cstring m p l → Z.of_nat (length l) < 4294967296 → ece391_strlen m p = Some (Z.of_nat (length l)).
Proof.
  intros Hc Hl. unfold ece391_strlen. match goal with |- while_loop ?f _ = _ => set (step := f) end.
  destruct (while_loop_rule step (λ '(len, q), 0 <= len <= Z.of_nat (length l) ∧ q = p + len)
    (λ '(len, q), Z.of_nat (length l) - len) (λ r, r = Z.of_nat (length l)) (0, p)) as (r & -> & ->); [lia|lia| |done].
  intros [len q] [Hb ->] Hv. cbn [step]. destruct (Z.eqb_spec (ld8 m (p + len)) 0) as [E|E]; cbn [negb].
  - destruct (decide (len = Z.of_nat (length l))) as [->|]; [done|]. by apply (cstring_nz m p l len) in E; [|done|lia].
  - destruct (decide (len = Z.of_nat (length l))) as [->|]; [exfalso; apply E, Hc|].
    rewrite u32_small by lia. split; [split|]; lia.
Qed.

(** Two strings at the same distance: equal so far, or told apart here. *)
Lemma cstring_compare m p q l1 l2 k :
  cstring m p l1 → cstring m q l2 → (k <= length l1)%nat → take k l1 = take k l2 → (k <= length l2)%nat →
  (ld8 m (p + Z.of_nat k) = ld8 m (q + Z.of_nat k) →
     (ld8 m (p + Z.of_nat k) = 0 ∧ l1 = l2) ∨
     (ld8 m (p + Z.of_nat k) ≠ 0 ∧ (S k <= length l1)%nat ∧ (S k <= length l2)%nat ∧ take (S k) l1 = take (S k) l2)) ∧
  (ld8 m (p + Z.of_nat k) ≠ ld8 m (q + Z.of_nat k) → l1 ≠ l2).
Proof.
  intros H1 H2 Hk1 Ht Hk2. split; [|by intros Hne ->; apply Hne; destruct H1 as (_ & L1 & E1), H2 as (_ & L2 & E2);
    destruct (l2 !! k) as [c|] eqn:Hc; [by rewrite (L1 _ _ Hc), (L2 _ _ Hc)|
      apply lookup_ge_None in Hc; replace k with (length l2) by lia; congruence]].
  intros He. destruct (Z.eqb_spec (ld8 m (p + Z.of_nat k)) 0) as [E|E].
  - left. split; [done|].
    assert (k = length l1) as ->.
    { destruct (decide (k = length l1)); [done|]. by apply (cstring_nz m p l1) in E; [|done|lia]. }
    rewrite E in He. destruct (decide (length l1 = length l2)) as [Hl|Hl].
    + rewrite firstn_all in Ht. rewrite Ht, Hl. by rewrite firstn_all.
    + symmetry in He. apply (cstring_nz m q l2) in He; [done|done|lia].
  - right. split; [done|].
    assert (k ≠ length l1) by (intros ->; apply E, H1).
    assert (k ≠ length l2) by (intros ->; apply E; rewrite He; apply H2).
    split; [lia|]. split; [lia|].
    destruct (lookup_lt_is_Some_2 l1 k) as [c Hc]; [lia|]. destruct (lookup_lt_is_Some_2 l2 k) as [d Hd]; [lia|].
    rewrite (take_S_r _ _ _ Hc), (take_S_r _ _ _ Hd), Ht. do 2 f_equal.
    destruct H1 as (_ & L1 & _), H2 as (_ & L2 & _). by rewrite (L1 _ _ Hc), (L2 _ _ Hd) in He.
Qed.

Lemma ece391_strcmp_run m (p q : Z) l1 l2 :
  cstring m p l1 → cstring m q l2 → Z.of_nat (length l1) < 4294967296 →
  ∃ r, ece391_strcmp m p q = Some r ∧ (r = 0 ↔ l1 = l2).
Proof.
  intros H1 H2 Hl. unfold ece391_strcmp. match goal with |- context [while_loop ?f _] => set (step := f) end.
  apply (while_loop_rule step
    (λ '(a, b), ∃ k, a = p + Z.of_nat k ∧ b = q + Z.of_nat k ∧ (k <= length l1)%nat ∧ (k <= length l2)%nat ∧ take k l1 = take k l2)
    (λ '(a, b), Z.of_nat (length l1) - (a - p))).
  - exists 0%nat. split_and!; [lia..|done].
  - lia.
  - intros [a b] (k & -> & -> & Hk1 & Hk2 & Ht) _. cbn [step].
    destruct (cstring_compare m p q l1 l2 k H1 H2 Hk1 Ht Hk2) as [Heq Hne].
    destruct (Z.eqb_spec (ld8 m (p + Z.of_nat k)) (ld8 m (q + Z.of_nat k))) as [E|E].
    + destruct (Heq E) as [[E0 ->]|(E0 & Hk1' & Hk2' & Ht')].
      * by rewrite E0.
      * apply Z.eqb_neq in E0. rewrite E0. split; [|lia]. exists (S k). split_and!; [lia..|done].
    + split; [lia|]. intros ->. by apply Hne in E.
Qed.

(** [ece391_strrev] differs from the kernel's [strrev] by its first test only. *)
Lemma ece391_strrev_eq m (p : Z) l :
  cstring m p l → Z.of_nat (length l) < 2147483648 → ece391_strrev m p = strrev m p.
Proof.
  intros Hc Hl. unfold ece391_strrev, strrev. rewrite (ece391_strlen_run m p l Hc), (strlen_correct m p l Hc), !bind_some by lia.
  cbn zeta. destruct (Z.leb_spec (s32 (Z.of_nat (length l) - 1)) 0) as [Hle|]; [|done].
  symmetry. eapply (while_loop_steps _ 0); [done| |lia]. cbn beta iota. by destruct (Z.ltb_spec 0 (s32 (Z.of_nat (length l) - 1))); [lia|].
Qed.

(** [ece391_itoa] is the kernel's [itoa]. *)
Lemma ece391_itoa_eq m v buf radix :
  2 <= radix <= 36 → 0 <= v < 4294967296 → seg buf 33 → ece391_itoa m v buf radix = itoa m v buf radix.
Proof.
  intros Hr Hv Hs. unfold ece391_itoa, itoa. destruct (v =? 0); [done|].
  destruct (itoa_string m v buf radix Hr Hv Hs) as (m1 & f & He & _ & Hc).
  pose proof (digits_le_length radix 32 v) as Hlen. rewrite He, !bind_some.
  apply (ece391_strrev_eq _ _ _ Hc). rewrite length_fmap. lia.
Qed.
