(* ===== verification/UserRun.v ===== *)
(** * System calls seen from a program

    What a running program relies on ([user_ok]) and what its calls do to the
    machine: which bytes change, what appears on the screen, and that the
    program can go on. *)

From S2P Require Import Prelude Memory LibMem LibStr Video State Runs Console Format Process FileSystem Terminal SysCalls Command Exec UserLib.

Implicit Types s : kernel.

(** Text written to the screen: NULs are skipped. *)
Definition scr_write (l : list Z) (sc : screen) : screen := scr_puts (filter (λ c, c ≠ 0) l) sc.

Lemma scr_write_app l1 l2 sc : scr_write (l1 ++ l2) sc = scr_write l2 (scr_write l1 sc).
Proof. unfold scr_write, scr_puts. by rewrite list.filter_app, foldl_app. Qed.

(** What the terminal prints goes to the screen. *)
Definition shown (s : kernel) : Prop :=
  current_running_process_count s < 3 ∨ next_terminal_in_schedule s = active_terminal s.

Section User.
Context {L : Layout}.

(** A program of process [pid] runs: its page is above the kernel's, descriptor
    1 is the terminal, its terminal is the one shown, and the line being typed
    there is not full. *)
Record user_ok (pid : Z) (s : kernel) : Prop := {
  uo_process : process_ok pid s;
  uo_image : KERNEL_START <= image_base s ∧ image_base s + image_bytes s <= KERNEL_END;
  uo_page : KERNEL_END <= upage s;
  uo_stdout : get_fd s (pcb_addr pid) 1 = std_fd;
  uo_shown : shown s;
  uo_line : buffer_index (term s (active_terminal s)) ≠ BUFF_SIZE;
}.

(** A segment of the program page. *)
Definition in_page (a n : Z) : Prop := PROGRAM_PAGE <= a ∧ 0 <= n ∧ a + n <= PROGRAM_PAGE_END.

(** Segments whose change leaves the image and descriptor 1 alone. *)
Definition harmless (pid : Z) (s : kernel) (o : Z * Z) : Prop :=
  (o.1 + o.2 <= image_base s ∨ image_base s + image_bytes s <= o.1) ∧
  (o.1 + o.2 <= fd_slot (pcb_addr pid) 1 ∨ fd_slot (pcb_addr pid) 1 + 16 <= o.1).

Context {HL : LayoutOK L}.

Lemma steps_image os pid s s' :
  Forall (harmless pid s) os → steps os s s' →
  ∀ p, image_base s <= p < image_base s + image_bytes s → peek s' p = peek s p.
Proof using HL.
  intros Ho Hs. pose proof (sp_changes _ _ _ Hs) as Hc. apply (image_changes os s s' Hc). eapply List.Forall_impl; [|exact Ho]. by intros o [H _].
Qed.

Lemma user_ok_steps os pid s s' : user_ok pid s → Forall (harmless pid s) os → steps os s s' → user_ok pid s'.
Proof using HL.
  intros [Hpo Hlow Hpg Hout Hsh Hline] Ho Hs. pose proof (steps_image os pid s s' Ho Hs) as Hpk.
  destruct Hs as [Hc Hfs Ht Hsch Hpr He Heb Hcur]. destruct Hpo as [Hst Himg HN Hap Hcu].
  destruct (same_counts s s' Hfs Himg Hpk) as [H1 H2]. destruct Hst as [Hpid Hst]. split.
  - split.
    + split; [done|]. by rewrite He.
    + by apply (same_image_ok s).
    + by rewrite H1.
    + intros i o Hi. unfold image_base, image_bytes. rewrite H1, H2, Hfs. by apply (Hap i).
    + by apply Hcur.
  - unfold image_base, image_bytes in *. by rewrite H1, H2, Hfs.
  - by rewrite (proj1 Hc).
  - rewrite <- Hout. unfold get_fd. rewrite !slot_off.
    pose proof (pcb_addr_ok pid Hpid) as Hpok. unfold pcb_ok, KERNEL_START, KERNEL_END, PCB_SIZE in Hpok.
    rewrite !(changes_word os s s' _ Hc); [done|..]; try (unfold op_off, inode_off, pos_off, flags_off, PROGRAM_PAGE; lia);
      (eapply List.Forall_impl; [|exact Ho]); intros o [_ H]; unfold fd_slot in H; unfold op_off, inode_off, pos_off, flags_off; lia.
  - unfold shown in *. by rewrite Hsch, Ht.
  - unfold term in *. by rewrite Ht.
Qed.

Lemma user_phys s a n i : in_page a n → 0 <= i < n → phys s (a + i) = upage s + (a + i - PROGRAM_PAGE).
Proof. intros (H1 & H2 & H3) Hi. apply phys_user. lia. Qed.

(** Bytes of the program page survive what changes only the kernel's. *)
Lemma user_byte os s s' a n i :
  steps os s s' → KERNEL_END <= upage s → Forall (λ o, o.1 + o.2 <= KERNEL_END) os → in_page a n → 0 <= i < n →
  ld8 s' (a + i) = ld8 s (a + i).
Proof.
  intros Hs Hp Ho Ha Hi. apply (changes_byte os _ _ _ (sp_changes _ _ _ Hs)). rewrite (user_phys s a n i) by done.
  eapply List.Forall_impl; [|exact Ho]. intros o. cbn. destruct Ha. lia.
Qed.

Lemma video_harmless pid s : user_ok pid s → harmless pid s (VIDEO, PAGE_BYTES).
Proof using HL.
  intros Hu. destruct (process_pcb pid s (uo_process _ _ Hu)) as (_ & Hpok & _). destruct (uo_image _ _ Hu) as [Hi _].
  unfold harmless, fd_slot, pcb_ok, VIDEO, PAGE_BYTES, KERNEL_START in *. cbn [fst snd]. lia.
Qed.

(** ** Writing *)

Lemma write_char_shown c s : shown s → write_char c s = if c =? 0 then s else putc c s.
Proof.
  intros Hv. unfold write_char. destruct (c =? 0); [done|].
  assert ((current_running_process_count s <? 3) || (next_terminal_in_schedule s =? active_terminal s) = true) as ->; [|done].
  apply orb_true_iff. by rewrite Z.ltb_lt, Z.eqb_eq.
Qed.

Lemma write_chars_run n a s :
  shown s → cursor_ok s → KERNEL_END <= upage s → in_page a (Z.of_nat n) →
  let s' := for_up n 0 (λ i s, write_char (ld8 s (a + i)) s) s in
  steps [(VIDEO, PAGE_BYTES)] s s' ∧ abs_screen s' = scr_write (ld_bytes s a (Z.of_nat n)) (abs_screen s).
Proof.
  intros Hsh Hc Hp Ha s'.
  cut (steps [(VIDEO, PAGE_BYTES)] s s' ∧ abs_screen s' = scr_write (ld_bytes s a (0 + Z.of_nat n)) (abs_screen s)); [done|].
  apply (for_up_ind (λ i t, steps [(VIDEO, PAGE_BYTES)] s t ∧ abs_screen t = scr_write (ld_bytes s a i) (abs_screen s))).
  - split; [apply steps_refl|done].
  - intros i t Hi [Hs Ht].
    assert (Hb : ld8 t (a + i) = ld8 s (a + i)).
    { apply (user_byte _ s t a (Z.of_nat n) i Hs Hp); [|done|lia]. by repeat constructor. }
    assert (Hsnoc : ld_bytes s a (i + 1) = ld_bytes s a i ++ [ld8 s (a + i)]).
    { unfold ld_bytes. rewrite seqZ_app, fmap_app by lia. by rewrite Z.add_0_l. }
    assert (Hsht : shown t) by (unfold shown in *; by rewrite (sp_term _ _ _ Hs), (sp_sched _ _ _ Hs)).
    rewrite write_char_shown by done. rewrite Hb, Hsnoc, scr_write_app, <- Ht. unfold scr_write, scr_puts.
    pose proof (ld8_range s (a + i)) as Hr. destruct (Z.eqb_spec (ld8 s (a + i)) 0) as [->|Hnz]; [by split|].
    destruct (putc_spec (ld8 s (a + i)) t (sp_cursor _ _ _ Hs Hc)) as (H1 & H2 & H3).
    split; [apply (steps_trans _ _ t); [done|by apply console_steps]|].
    rewrite H2. rewrite filter_cons_True by done. done.
Qed.

Lemma bind_eq {A B} (m : M A) (f : A → M B) s a s' r : m s = Ret a s' → f a s' = r → (m ≫= f) s = r.
Proof. intros E <-. by apply bind_ret. Qed.

Lemma sti_steps os s s' : steps os s s' → steps os s (sti s').
Proof. intros []. by split. Qed.

Lemma cli_steps os s s' : steps os (cli s) s' → steps os s s'.
Proof. intros []. by split. Qed.

Lemma terminal_write_run pid fd a n s :
  user_ok pid s → in_page a n → n < 2147483648 →
  ∃ s', terminal_write fd a n s = Ret n s' ∧ steps [(VIDEO, PAGE_BYTES)] s s' ∧
    abs_screen s' = scr_write (ld_bytes s a n) (abs_screen s).
Proof.
  intros [Hpo _ Hpg _ Hsh Hline] Ha Hn. pose proof Ha as (Ha1 & Ha2 & Ha3).
  destruct (write_chars_run (Z.to_nat n) a (cli s)) as [H1 H2]; [done|apply Hpo|done|by rewrite Z2Nat.id|].
  rewrite Z2Nat.id in H2 by done. set (s1 := for_up _ _ _ (cli s)) in *.
  exists (sti s1). split; [|split; [by apply sti_steps, cli_steps|done]].
  unfold terminal_write. rewrite u32_small by (unfold PROGRAM_PAGE, PROGRAM_PAGE_END in *; lia).
  destruct (Z.eqb_spec a 0); [unfold PROGRAM_PAGE in *; lia|]. destruct (Z.ltb_spec n 0); [lia|]. cbn [orb].
  eapply bind_eq; [done|]. apply Z.eqb_neq in Hline. rewrite Hline. done.
Qed.

(** A system call that returned, seen from the program. *)
Lemma call_returns pid os s (m : M Z) r s1 :
  m s = Ret r s1 → steps os s s1 → user_ok pid s → Forall (harmless pid s) os →
  ∃ s', (r ← m; _ ← modify cli; _ ← modify sti; mret r) s = Ret r s' ∧ steps os s s' ∧ user_ok pid s' ∧
    k_mem s' = k_mem s1 ∧ abs_screen s' = abs_screen s1.
Proof using HL.
  intros E Hs Hu Ho. assert (Hs' : steps os s (sti (cli s1))) by (destruct Hs; by split).
  exists (sti (cli s1)). rewrite (bind_ret _ _ _ _ _ E). split; [done|]. split; [done|].
  split; [by apply (user_ok_steps os pid s)|done].
Qed.

Lemma ece391_write_run pid a n s :
  user_ok pid s → in_page a n → n < 2147483648 →
  ∃ s', ece391_write 1 a n s = Ret n s' ∧ steps [(VIDEO, PAGE_BYTES)] s s' ∧ user_ok pid s' ∧
    abs_screen s' = scr_write (ld_bytes s a n) (abs_screen s).
Proof using HL.
  intros Hu Ha Hn. destruct (terminal_write_run pid 1 a n s Hu Ha Hn) as (s1 & E & Hs & Hsc).
  pose proof Ha as (Ha1 & Ha2 & Ha3). unfold PROGRAM_PAGE, PROGRAM_PAGE_END in Ha1, Ha3.
  assert (Hw : write (s32 1) a (s32 n) s = Ret n s1).
  { change (s32 1) with 1. rewrite s32_small by lia.
    rewrite (write_dispatch pid) by (first [apply Hu|lia|rewrite (uo_stdout _ _ Hu); done|rewrite u32_small; lia]).
    rewrite (uo_stdout _ _ Hu). unfold op_write. cbn [descriptor_op_ptr std_fd]. by rewrite Z.eqb_refl. }
  destruct (call_returns pid [(VIDEO, PAGE_BYTES)] s _ n s1 Hw Hs Hu) as (s' & E' & Hs' & Hu' & _ & Hsc').
  { by constructor; [apply video_harmless|]. }
  exists s'. split; [exact E'|]. by rewrite Hsc'.
Qed.

(** A string of the program. *)
Definition user_string (s : kernel) (a : Z) (l : list Z) : Prop :=
  cstring s a l ∧ in_page a (Z.of_nat (length l) + 1).

Lemma cstring_bytes m a l : cstring m a l → ld_bytes m a (Z.of_nat (length l)) = l.
Proof.
  intros (Hf & Hl & _). apply list_eq_same_length with (length l); [done|rewrite ld_bytes_length; lia|].
  intros i x y Hi Hx Hy. rewrite <- (Nat2Z.id i), ld_bytes_lookup in Hx by lia. apply Some_inj in Hx as <-. by apply Hl.
Qed.

Lemma scr_write_string l sc : Forall (λ c, 0 < c < 256) l → scr_write l sc = scr_puts l sc.
Proof.
  intros H. unfold scr_write. f_equal. induction H as [|c l Hc _ IH]; [done|].
  rewrite filter_cons_True by lia. by rewrite IH.
Qed.

Lemma ece391_fdputs_run pid a l s :
  user_ok pid s → user_string s a l →
  ∃ s', ece391_fdputs 1 a s = Ret tt s' ∧ steps [(VIDEO, PAGE_BYTES)] s s' ∧ user_ok pid s' ∧
    abs_screen s' = scr_puts l (abs_screen s).
Proof using HL.
  intros Hu [Hc Ha]. pose proof Ha as (Ha1 & Ha2 & Ha3). unfold PROGRAM_PAGE, PROGRAM_PAGE_END in Ha1, Ha3.
  destruct (ece391_write_run pid a (Z.of_nat (length l)) s Hu) as (s' & E & Hs & Hu' & Hsc); [split_and!; unfold PROGRAM_PAGE, PROGRAM_PAGE_END; lia|lia|].
  exists s'. split; [|split_and!; [done..|]].
  - unfold ece391_fdputs. apply (bind_eq _ _ _ (Z.of_nat (length l)) s).
    + unfold on_memory. by rewrite (ece391_strlen_run _ _ _ Hc) by lia.
    + by rewrite (bind_ret _ _ _ _ _ E).
  - by rewrite Hsc, cstring_bytes, scr_write_string by (done || apply Hc).
Qed.

(** Strings of the program are still there after a call. *)
Lemma user_string_steps os s s' a l :
  steps os s s' → KERNEL_END <= upage s → Forall (λ o, o.1 + o.2 <= KERNEL_END) os → user_string s a l → user_string s' a l.
Proof.
  intros Hs Hp Ho [Hc Ha]. split; [|done]. revert Hc. apply cstring_ext. intros i Hi.
  apply (user_byte os s s' a (Z.of_nat (length l) + 1)); (done || lia).
Qed.

(** ** Arguments *)

(** Where the program page has address [a]. *)
Definition page_at (s : kernel) (a : Z) : Z := upage s + (a - PROGRAM_PAGE).

Lemma page_harmless pid s a n : user_ok pid s → in_page a n → harmless pid s (page_at s a, n).
Proof using HL.
  intros Hu (H1 & H2 & H3). destruct (process_pcb pid s (uo_process _ _ Hu)) as (_ & Hpok & Hpid).
  pose proof (uo_page _ _ Hu). destruct (uo_image _ _ Hu) as [_ Hi].
  unfold harmless, page_at, fd_slot, pcb_ok, PCB_SIZE in *. cbn [fst snd]. lia.
Qed.

Lemma page_writes s m' a n f os :
  in_page a n → 0 < n → writes s m' a n f → (page_at s a, n) ∈ os → changes os s m'.
Proof.
  intros Ha Hn Hw. apply (changes_writes _ _ _ _ _ _ _ Hw).
  rewrite <- (Z.add_0_r a), (user_phys s a n 0) by (done || lia). by rewrite Z.add_0_r.
Qed.

Lemma page_apart s pid a n : user_ok pid s → in_page a n → 0 < n → apart s a n (pcb_addr pid) PCB_SIZE.
Proof using HL.
  intros Hu Ha Hn. destruct (process_pcb pid s (uo_process _ _ Hu)) as (_ & Hpok & _). pose proof (uo_page _ _ Hu) as Hp.
  unfold apart. rewrite <- (Z.add_0_r (pcb_addr pid)), (pcb_phys s _ 0) by (done || unfold PCB_SIZE; lia).
  rewrite <- (Z.add_0_r a), (user_phys s a n 0) by (done || lia). destruct Ha. unfold pcb_ok in Hpok. lia.
Qed.

Lemma page_seg a n : in_page a n → seg a n.
Proof. intros (H1 & H2 & H3). split; [unfold PROGRAM_PAGE in *; lia|by right]. Qed.

Lemma page_high pid s a n : user_ok pid s → in_page a n → KERNEL_END <= page_at s a.
Proof. intros [] []. unfold page_at. lia. Qed.

Lemma screen_kept os s m' :
  changes os s m' → Forall (λ o, o.1 + o.2 <= VIDEO ∨ VIDEO + PAGE_BYTES <= o.1) os →
  abs_screen (upd_mem (λ _, m') s) = abs_screen s.
Proof. intros Hc Ho. unfold abs_screen. f_equal. exact (video_kept os s m' Hc Ho). Qed.

(** The arguments in the process block: [l], ended by a NUL. *)
Definition has_args (pid : Z) (s : kernel) (l : list Z) : Prop :=
  cstring s (pcb_addr pid + arguments_off) l ∧ l ≠ [] ∧ Z.of_nat (length l) < ARG_SIZE.

Lemma ece391_getargs_run pid buf n s l :
  user_ok pid s → in_page buf ARG_SIZE → has_args pid s l →
  ∃ s', ece391_getargs buf n s = Ret 0 s' ∧ steps [(page_at s buf, ARG_SIZE)] s s' ∧ user_ok pid s' ∧
    cstring s' buf l ∧ abs_screen s' = abs_screen s.
Proof using HL.
  intros Hu Ha (Hc & Hne & Hl). destruct (process_pcb pid s (uo_process _ _ Hu)) as (Hpcb & Hpok & Hpid).
  unfold ARG_SIZE in *. set (m1 := memcpy s buf (pcb_addr pid + arguments_off) 32).
  assert (Hcp : copied s m1 buf (pcb_addr pid + arguments_off) 32).
  { apply memcpy_copied; [by apply page_seg|by apply pcb_seg; [|unfold PCB_SIZE, arguments_off; lia..]| |lia].
    pose proof (page_apart s pid buf 32 Hu Ha ltac:(lia)) as Hap. unfold apart in *.
    rewrite <- (Z.add_0_r (pcb_addr pid)), (pcb_phys s _ 0) in Hap by (done || unfold PCB_SIZE; lia).
    rewrite pcb_phys by (done || unfold PCB_SIZE, arguments_off; lia). unfold PCB_SIZE, arguments_off in *. lia. }
  assert (Hg : getargs buf (s32 n) s = Ret 0 (upd_mem (λ _, m1) s)).
  { unfold getargs. rewrite (bind_ret _ _ s (get_pcb s) s) by done. rewrite Hpcb.
    rewrite (bind_ret _ _ s (ld8 s (pcb_addr pid + arguments_off)) s) by done.
    destruct (Z.eqb_spec (ld8 s (pcb_addr pid + arguments_off)) 0) as [E|_].
    2: { rewrite (bind_ret _ _ _ _ _ (modify_mem_run _ _)). unfold m1. reflexivity. }
    rewrite <- (Z.add_0_r (pcb_addr pid + arguments_off)) in E. apply (cstring_nz _ _ l) in E; [done|done|].
    destruct l; [done|cbn; lia]. }
  assert (Hpc : changes [(page_at s buf, 32)] s m1) by (apply (page_writes s m1 buf 32 _ _ Ha ltac:(lia) Hcp); by constructor).
  destruct (call_returns pid [(page_at s buf, 32)] s _ 0 _ Hg) as (s' & E & Hs & Hu' & Hm & Hsc); [by split|done| |].
  - constructor; [by apply page_harmless|done].
  - exists s'. split; [exact E|]. split; [exact Hs|]. split; [exact Hu'|]. split; [|].
    + destruct Hc as (Hf & Hb & H0). rewrite Hm. cbn [k_mem upd_mem].
      assert (Hby : ∀ i, 0 <= i < 32 → ld8 m1 (buf + i) = ld8 s (pcb_addr pid + arguments_off + i)).
      { intros i Hi. apply (writes_at _ _ _ _ _ i Hcp (page_seg _ _ Ha) Hi). }
      split; [done|]. split; [|by rewrite Hby by lia].
      intros i c Hi. rewrite Hby; [by apply Hb|]. apply lookup_lt_Some in Hi. lia.
    + rewrite Hsc. apply (screen_kept [(page_at s buf, 32)]); [exact Hpc|]. constructor; [|done].
      pose proof (page_high _ _ _ _ Hu Ha). cbn [fst snd]. unfold VIDEO, PAGE_BYTES, KERNEL_END in *. lia.
Qed.

(** A call the kernel refused with a message. *)
Lemma call_refused pid s l (m : M Z) r s1 :
  user_ok pid s → m s = Ret r s1 → says l s s1 →
  ∃ s', (r ← m; _ ← modify cli; _ ← modify sti; mret r) s = Ret r s' ∧ steps [(VIDEO, PAGE_BYTES)] s s' ∧ user_ok pid s' ∧
    abs_screen s' = scr_puts l (abs_screen s).
Proof using HL.
  intros Hu E Hsay. destruct (call_returns pid [(VIDEO, PAGE_BYTES)] s m r s1 E (says_steps _ _ _ Hsay) Hu)
    as (s' & E' & Hs' & Hu' & _ & Hsc); [by constructor; [apply video_harmless|]|].
  exists s'. do 3 (split; [done|]). rewrite Hsc. apply Hsay.
Qed.

Lemma ece391_getargs_none pid buf n s :
  user_ok pid s → ld8 s (pcb_addr pid + arguments_off) = 0 →
  ∃ s', ece391_getargs buf n s = Ret (-1) s' ∧ steps [(VIDEO, PAGE_BYTES)] s s' ∧ user_ok pid s' ∧
    abs_screen s' = scr_puts (bytes_of "No arguments ") (abs_screen s).
Proof using HL.
  intros Hu H0. destruct (process_pcb pid s (uo_process _ _ Hu)) as (Hpcb & _ & _).
  destruct (message_only "No arguments " (-1) s eq_refl (po_cursor _ _ (uo_process _ _ Hu))) as (s1 & E & Hsay).
  apply (call_refused pid s _ (getargs buf (s32 n)) (-1) s1 Hu); [|exact Hsay].
  unfold getargs. rewrite (bind_ret _ _ s (get_pcb s) s) by done. rewrite Hpcb.
  rewrite (bind_ret _ _ s (ld8 s (pcb_addr pid + arguments_off)) s) by done. by rewrite H0.
Qed.

(** ** Opening and reading *)

(** What [open] writes. *)
Definition open_objects (pid i : Z) : list (Z * Z) :=
  [(loc_open_dentry, 64); (fd_slot (pcb_addr pid) i, 16); (loc_rtc_open_frequency, 4)].

Lemma object_harmless pid s j o :
  user_ok pid s → objects !! j = Some o → harmless pid s o.
Proof using HL.
  intros Hu Hj. destruct (process_pcb pid s (uo_process _ _ Hu)) as (_ & _ & Hpid).
  pose proof (lookup_lt_Some _ _ _ Hj) as Hlt. change (length objects) with 19%nat in Hlt.
  assert (Hj' : (objects ++ pcb_objects) !! j = Some o) by (by rewrite lookup_app_l).
  pose proof (po_apart _ _ (uo_process _ _ Hu) j o Hj') as H1.
  pose proof (obj_sep j _ _ _ Hj' (pcb_position pid Hpid) ltac:(lia)) as H2. cbn [fst snd] in H2.
  split; [exact H1|]. unfold fd_slot, PCB_SIZE in *. lia.
Qed.

Lemma slot_harmless pid s i : user_ok pid s → 2 <= i < 8 → harmless pid s (fd_slot (pcb_addr pid) i, 16).
Proof using HL.
  intros Hu Hi. destruct (process_pcb pid s (uo_process _ _ Hu)) as (_ & _ & Hpid).
  pose proof (po_apart _ _ (uo_process _ _ Hu) _ _ (pcb_position pid Hpid)) as H1. cbn [fst snd] in H1.
  unfold harmless, fd_slot, PCB_SIZE in *. cbn [fst snd]. lia.
Qed.

Lemma slot_high pid i : 0 <= pid < 6 → 0 <= i < 8 → KERNEL_START <= fd_slot (pcb_addr pid) i ∧ fd_slot (pcb_addr pid) i + 16 <= KERNEL_END.
Proof. intros Hp Hi. pose proof (pcb_addr_ok pid Hp) as H. unfold pcb_ok, fd_slot, PCB_SIZE in *. lia. Qed.

Lemma open_changes pid i s m1 m2 s' k f n g :
  0 <= pid < 6 → 0 <= i < 8 →
  copied s m1 loc_open_dentry (dentry_addr s k) 64 →
  m2 = populate_pcb (pcb_addr pid) i 1 (inode_num f) (descriptor_op_ptr f) (file_pos f) m1 →
  writes m2 s' loc_rtc_open_frequency n g → 0 <= n <= 4 →
  changes (open_objects pid i) s s'.
Proof using HL.
  intros Hp Hi Hcp -> Hw Hn. pose proof (obj_bounds 12 _ eq_refl) as B1. pose proof (obj_bounds 18 _ eq_refl) as B2.
  cbn [fst snd] in *. unfold KERNEL_START, KERNEL_END in *. pose proof (slot_high pid i Hp Hi) as B3. unfold KERNEL_START, KERNEL_END in B3.
  assert (Hk : ∀ m a, 0x400000 <= a < 0x800000 → phys m a = a) by (intros; apply phys_kernel; unfold PROGRAM_PAGE; lia).
  eapply changes_trans; [|eapply changes_trans].
  - apply (changes_writes _ _ _ _ _ _ loc_open_dentry Hcp); [apply Hk; lia|constructor].
  - apply (changes_writes _ _ _ _ _ _ (fd_slot (pcb_addr pid) i)
      (populate_writes m1 (pcb_addr pid) i 1 (inode_num f) (descriptor_op_ptr f) (file_pos f) (pcb_addr_ok pid Hp) Hi));
      [apply Hk; lia|repeat constructor].
  - destruct Hw as [Hu Hpk]. split; [exact Hu|]. intros p Hout. rewrite Hpk, Hk by lia.
    do 2 (inversion_clear Hout as [|? ? _ Hout']; rename Hout' into Hout). inversion_clear Hout as [|? ? H _]. cbn [fst snd] in H.
    destruct (in_rangeP loc_rtc_open_frequency (loc_rtc_open_frequency + n) p); [lia|done].
Qed.

Lemma open_harmless pid s i : user_ok pid s → 2 <= i < 8 → Forall (harmless pid s) (open_objects pid i).
Proof using HL.
  intros Hu Hi. apply List.Forall_cons; [by apply (object_harmless pid s 12)|].
  apply List.Forall_cons; [by apply slot_harmless|]. apply List.Forall_cons; [by apply (object_harmless pid s 18)|done].
Qed.

Lemma ece391_open_run pid name s l k f i :
  user_ok pid s → is_name s name l → find_dentry s l = Some k →
  opened (dentry_type s k) (dentry_inode s k) = Some f → free_fd s = Some i → 2 <= i →
  ∃ s', ece391_open name s = Ret i s' ∧ steps (open_objects pid i) s s' ∧ user_ok pid s' ∧
    get_fd s' (pcb_addr pid) i = f ∧ abs_screen s' = abs_screen s.
Proof using HL.
  intros Hu Hn Hk Hf Hi Hi2. destruct (process_pcb pid s (uo_process _ _ Hu)) as (Hpcb & Hpok & Hpid).
  pose proof (find_first_spec _ _ _ _ Hi) as (Hi8 & _ & _).
  pose proof (open_run pid s name l (uo_process _ _ Hu) Hn) as H. rewrite Hk, Hf, Hi, Hpcb in H.
  destruct H as (s1 & E & Hq & Ht & m1 & m2 & n & g & Hcp & Hm2 & Hw & Hn4).
  pose proof (open_changes pid i s m1 m2 s1 k f n g Hpid ltac:(lia) Hcp Hm2 Hw Hn4) as Hch.
  destruct (call_returns pid (open_objects pid i) s _ i s1 E) as (s' & E' & Hs & Hu' & Hm & Hsc).
  - by apply quiet_steps.
  - done.
  - apply open_harmless; [done|lia].
  - exists s'. split; [exact E'|]. split; [exact Hs|]. split; [exact Hu'|]. rewrite Hm, Hsc. split.
    + by apply (get_fd_table s s1); [lia|].
    + unfold abs_screen. rewrite (qt_con _ _ Hq), (video_kept _ _ _ Hch); [done|].
      pose proof (slot_high pid i Hpid ltac:(lia)). pose proof (obj_bounds 12 _ eq_refl) as B1. pose proof (obj_bounds 18 _ eq_refl) as B2.
      unfold open_objects, VIDEO, PAGE_BYTES, KERNEL_START in *. cbn [fst snd] in *. each_segment.
Qed.

Lemma ece391_open_missing pid name s l :
  user_ok pid s → is_name s name l → find_dentry s l = None →
  ∃ s', ece391_open name s = Ret (-1) s' ∧ steps [(VIDEO, PAGE_BYTES)] s s' ∧ user_ok pid s' ∧
    abs_screen s' = scr_puts (bytes_of "read dentry by name failed : system calls open") (abs_screen s).
Proof using HL.
  intros Hu Hn Hk. pose proof (open_run pid s name l (uo_process _ _ Hu) Hn) as H. rewrite Hk in H.
  destruct H as (s1 & E & Hsay). by apply (call_refused pid s _ (open name) (-1) s1).
Qed.

Lemma ece391_open_empty pid name s :
  user_ok pid s → ld8 s name = 0 →
  ∃ s', ece391_open name s = Ret (-1) s' ∧ steps [(VIDEO, PAGE_BYTES)] s s' ∧ user_ok pid s' ∧
    abs_screen s' = scr_puts (bytes_of "invalid filename input to system calls open") (abs_screen s).
Proof using HL.
  intros Hu H0. destruct (message_only "invalid filename input to system calls open" (-1) s eq_refl (po_cursor _ _ (uo_process _ _ Hu))) as (s1 & E & Hsay).
  apply (call_refused pid s _ (open name) (-1) s1 Hu); [|exact Hsay].
  unfold open. rewrite (bind_ret _ _ s (ld8 s name) s) by done. by rewrite H0.
Qed.
End User.
