(* ===== verification/UserFiles.v ===== *)
(** * Reads of files and of the directory, seen from a program

    What [ece391_read] does on a descriptor of a regular file and on one of the
    directory: the bytes delivered, the descriptor moved on, nothing else. *)

From S2P Require Import Prelude Memory LibMem LibStr Video State Runs Console Process FileSystem Terminal SysCalls Exec UserLib UserRun.

Implicit Types s : kernel.

Section UserFiles.
Context {L : Layout} {HL : LayoutOK L}.

(** The bytes of a file from [pos] on. *)
Definition file_range (s : kernel) (ino pos n : Z) : list Z := (λ i, file_byte s ino (pos + i)) <$> seqZ 0 n.

Definition file_text (s : kernel) (ino : Z) : list Z := file_range s ino 0 (file_size s ino).

Lemma file_range_app s ino pos n k :
  0 <= n → 0 <= k → file_range s ino pos (n + k) = file_range s ino pos n ++ file_range s ino (pos + n) k.
Proof.
  intros Hn Hk. unfold file_range. rewrite seqZ_app, fmap_app by lia. f_equal. rewrite Z.add_0_l.
  apply list_eq. intros i. rewrite !list_lookup_fmap. destruct (decide (Z.of_nat i < k)).
  - rewrite !lookup_seqZ_lt by lia. cbn. do 2 f_equal. lia.
  - by rewrite !lookup_seqZ_ge by lia.
Qed.

Lemma ld_bytes_eq m a n (f : Z → Z) : (∀ i, 0 <= i < n → ld8 m (a + i) = f i) → ld_bytes m a n = f <$> seqZ 0 n.
Proof.
  intros H. apply list_eq. intros i. unfold ld_bytes. rewrite !list_lookup_fmap. destruct (decide (Z.of_nat i < n)).
  - rewrite lookup_seqZ_lt by lia. cbn. rewrite H by lia. done.
  - by rewrite lookup_seqZ_ge by lia.
Qed.

(** A buffer in the program page is apart from the image and the process block. *)
Lemma page_buffer pid s buf n : user_ok pid s → in_page buf n → 0 < n → read_buf s buf n.
Proof using HL.
  intros Hu Ha Hn. destruct (process_pcb pid s (uo_process _ _ Hu)) as (Hpcb & _ & _).
  split; [split; [by apply page_seg|]|rewrite Hpcb; by apply page_apart].
  destruct (uo_image _ _ Hu) as [_ Hi]. pose proof (uo_page _ _ Hu) as Hp.
  pose proof (image_pos s (po_image _ _ (uo_process _ _ Hu))). unfold KERNEL_END, image_base in *.
  unfold apart. rewrite <- (Z.add_0_r buf), (user_phys s buf n 0) by (done || lia). destruct Ha.
  rewrite phys_kernel by (unfold PROGRAM_PAGE in *; pose proof (image_small s (po_image _ _ (uo_process _ _ Hu))); unfold image_bytes in *; lia).
  lia.
Qed.

Lemma shorter_buffer s buf n k : read_buf s buf n → 0 <= k <= n → read_buf s buf k.
Proof.
  intros [[Hs Ha] Hb] Hk. unfold read_buf, user_buf, apart in *. split; [split; [by apply (seg_shorter _ n)|]|]; lia.
Qed.

(** The write of a position is a change of the descriptor. *)
Lemma pos_writes m pcb fd v :
  pcb_ok pcb → 0 <= fd < 8 →
  let m' := st32 m (fd_slot pcb fd + pos_off) v in
  writes m m' (fd_slot pcb fd) 16 (λ j, ld8 m' (fd_slot pcb fd + j)).
Proof.
  intros Hp Hfd. cbn zeta. pose proof (slot_seg pcb fd Hp Hfd) as Hs.
  apply (writes_inside m _ (fd_slot pcb fd) 16 pos_off 4 (word_byte v)); [|done|unfold pos_off; lia..].
  apply writes_st32, (seg_sub _ 16); [done|unfold pos_off; lia..].
Qed.

(** A read's changes: the buffer and the descriptor. *)
Definition read_objects (pid : Z) (s : kernel) (fd buf n : Z) : list (Z * Z) :=
  [(page_at s buf, n); (fd_slot (pcb_addr pid) fd, 16)].

Lemma read_harmless pid s fd buf n :
  user_ok pid s → 2 <= fd < 8 → in_page buf n → Forall (harmless pid s) (read_objects pid s fd buf n).
Proof using HL.
  intros Hu Hfd Ha. apply List.Forall_cons; [by apply page_harmless|].
  apply List.Forall_cons; [by apply slot_harmless|done].
Qed.

Lemma read_off_screen pid s fd buf n :
  user_ok pid s → 2 <= fd < 8 → in_page buf n →
  Forall (λ o, o.1 + o.2 <= VIDEO ∨ VIDEO + PAGE_BYTES <= o.1) (read_objects pid s fd buf n).
Proof using HL.
  intros Hu Hfd Ha. destruct (process_pcb pid s (uo_process _ _ Hu)) as (_ & _ & Hpid).
  pose proof (page_high _ _ _ _ Hu Ha). pose proof (slot_high pid fd Hpid ltac:(lia)).
  unfold read_objects, VIDEO, PAGE_BYTES, KERNEL_START, KERNEL_END in *. each_segment.
Qed.

Lemma page_pos_phys pid s (m : memory) buf n i :
  user_ok pid s → upage m = upage s → in_page buf n → 0 <= i < n →
  ¬ (pcb_addr pid <= phys m (buf + i) < pcb_addr pid + PCB_SIZE).
Proof using HL.
  intros Hu Hup Ha Hi. destruct (process_pcb pid s (uo_process _ _ Hu)) as (_ & Hpok & _).
  pose proof (uo_page _ _ Hu). rewrite (phys_upage s m) by done. rewrite (user_phys s buf n) by done.
  destruct Ha. unfold pcb_ok in Hpok. lia.
Qed.

(** ** Reading a file *)

(** A regular file is open on [fd]: the file, the position. *)
Record reading (pid : Z) (s : kernel) (fd ino pos : Z) : Prop := {
  rd_fd : get_fd s (pcb_addr pid) fd = mkFd file_table ino pos 1;
  rd_file : file_ok s ino;
}.

Lemma file_read_page pid s fd ino pos buf nbytes :
  user_ok pid s → 2 <= fd < 8 → reading pid s fd ino pos → in_page buf nbytes → 0 < nbytes →
  pos + nbytes < 4294967296 →
  let n := read_count (file_size s ino) pos nbytes in
  ∃ s1, file_read fd buf nbytes s = Ret n s1 ∧ steps (read_objects pid s fd buf nbytes) s s1 ∧
    get_fd s1 (pcb_addr pid) fd = mkFd file_table ino (pos + n) 1 ∧ ld_bytes s1 buf n = file_range s ino pos n ∧
    k_con s1 = k_con s.
Proof using HL.
  intros Hu Hfd [Hget Hfile] Ha Hn0 Hsum n. destruct (process_pcb pid s (uo_process _ _ Hu)) as (Hpcb & Hpok & Hpid).
  pose proof tables_range as (_ & _ & _ & Hft). pose proof (file_size_bound s ino Hfile) as Hsz.
  assert (Hpos : 0 <= pos).
  { change pos with (file_pos (mkFd file_table ino pos 1)). rewrite <- Hget. cbn [get_fd file_pos]. apply ld32_range. }
  pose proof (read_count_bounds (file_size s ino) pos nbytes ltac:(lia) Hpos ltac:(lia)) as [Hnb _]. fold n in Hnb.
  pose proof Ha as (Ha1 & Ha2 & Ha3). unfold PROGRAM_PAGE, PROGRAM_PAGE_END in Ha1, Ha3.
  pose proof (shorter_buffer s buf nbytes n (page_buffer pid s buf nbytes Hu Ha Hn0) ltac:(lia)) as Hbuf.
  pose proof (file_read_run s fd buf nbytes) as Hr. rewrite Hpcb, Hget in Hr. cbn [inode_num file_pos] in Hr. fold n in Hr.
  destruct Hr as (m1 & Hw & He); [|rewrite u32_small; lia|lia|done|done|].
  { split; rewrite ?Hpcb, ?Hget; cbn; [done|lia|done|lia|apply (uo_process _ _ Hu)|done]. }
  eexists. split; [exact He|]. set (m2 := st32 m1 (fd_slot (pcb_addr pid) fd + pos_off) (pos + n)).
  assert (Hfr : get_fd m1 (pcb_addr pid) fd = mkFd file_table ino pos 1).
  { rewrite (get_fd_frame _ _ _ _ _ _ _ Hw Hpok); [done|by destruct Hbuf; rewrite <- Hpcb|lia]. }
  split_and!.
  - split; [|done..]. apply (changes_trans _ _ m1).
    + apply (page_writes s m1 buf nbytes _ _ Ha Hn0 (writes_widen _ _ _ _ _ _ Hw (page_seg _ _ Ha) Hnb)). by constructor.
    + apply (changes_writes _ _ _ _ _ _ (fd_slot (pcb_addr pid) fd) (pos_writes m1 _ fd (pos + n) Hpok ltac:(lia))).
      * pose proof (slot_high pid fd Hpid ltac:(lia)). unfold KERNEL_START, KERNEL_END in *.
        apply phys_kernel. unfold PROGRAM_PAGE. lia.
      * by constructor; constructor.
  - apply (get_fd_table m1); [lia|]. rewrite k_mem_upd. unfold m2. rewrite set_pos_table, Hfr by (done || lia).
    by rewrite u32_small by lia.
  - apply ld_bytes_eq. intros i Hi. rewrite k_mem_upd. unfold m2, ld8. rewrite phys_st32, st32_pos_peek; [|done|lia|].
    + apply (writes_at _ _ _ _ _ i Hw); [by destruct Hbuf as [[]]|done].
    + apply (page_pos_phys pid s m1 buf nbytes); [done|apply (writes_upage _ _ _ _ _ Hw)|done|lia..].
  - done.
Qed.

(** A read system call that only changed the buffer and the descriptor. *)
Lemma read_returns pid s fd buf nbytes r s1 :
  user_ok pid s → 2 <= fd < 8 → in_page buf nbytes → nbytes < 2147483648 →
  flags (get_fd s (pcb_addr pid) fd) ≠ 0 →
  op_read (descriptor_op_ptr (get_fd s (pcb_addr pid) fd)) fd buf nbytes s = Ret r s1 →
  ∀ os, Forall (harmless pid s) os → Forall (λ o, o.1 + o.2 <= VIDEO ∨ VIDEO + PAGE_BYTES <= o.1) os →
  steps os s s1 → k_con s1 = k_con s →
  ∃ s', ece391_read fd buf nbytes s = Ret r s' ∧ steps os s s' ∧ user_ok pid s' ∧
    k_mem s' = k_mem s1 ∧ abs_screen s' = abs_screen s.
Proof using HL.
  intros Hu Hfd Ha Hn Hfl Hop os Ho Hov Hs Hcon. pose proof Ha as (Ha1 & Ha2 & Ha3).
  unfold PROGRAM_PAGE, PROGRAM_PAGE_END in Ha1, Ha3.
  assert (Hr : read (s32 fd) buf (s32 nbytes) s = Ret r s1).
  { rewrite !s32_small by lia. rewrite (read_dispatch pid); [done|apply Hu|lia|done|rewrite u32_small; lia]. }
  destruct (call_returns pid os s _ r s1 Hr Hs Hu Ho) as (s' & E & Hs' & Hu' & Hm & Hsc).
  exists s'. split; [exact E|]. do 3 (split; [done|]). rewrite Hsc. unfold abs_screen. rewrite Hcon.
  by rewrite (video_kept _ _ _ (sp_changes _ _ _ Hs) Hov).
Qed.

Lemma ece391_read_file pid s fd ino pos buf nbytes :
  user_ok pid s → 2 <= fd < 8 → reading pid s fd ino pos → in_page buf nbytes → 0 < nbytes < 2147483648 →
  pos + nbytes < 4294967296 →
  let n := read_count (file_size s ino) pos nbytes in
  ∃ s', ece391_read fd buf nbytes s = Ret n s' ∧ steps (read_objects pid s fd buf nbytes) s s' ∧ user_ok pid s' ∧
    get_fd s' (pcb_addr pid) fd = mkFd file_table ino (pos + n) 1 ∧ ld_bytes s' buf n = file_range s ino pos n ∧
    abs_screen s' = abs_screen s.
Proof using HL.
  intros Hu Hfd Hrd Ha Hn Hsum n.
  destruct (file_read_page pid s fd ino pos buf nbytes Hu Hfd Hrd Ha ltac:(lia) Hsum) as (s1 & E & Hs & Hf & Hb & Hcon).
  fold n in E, Hf, Hb.
  destruct (read_returns pid s fd buf nbytes n s1 Hu Hfd Ha ltac:(lia)) with (os := read_objects pid s fd buf nbytes)
    as (s' & E' & Hs' & Hu' & Hm & Hsc); rewrite ?(rd_fd _ _ _ _ _ Hrd); cbn.
  - done.
  - by rewrite op_read_file.
  - by apply read_harmless.
  - by apply read_off_screen.
  - exact Hs.
  - exact Hcon.
  - exists s'. rewrite Hm. by split_and!.
Qed.

(** ** Reading the directory *)

(** The directory is open on [fd], at entry [pos]. *)
Definition listing (pid : Z) (s : kernel) (fd pos : Z) : Prop :=
  get_fd s (pcb_addr pid) fd = mkFd directory_table 0 pos 1.

(** What a read of entry [k] delivers: its name, padded with NULs. *)
Definition padded_name (s : kernel) (k : Z) : list Z :=
  (λ i, nth (Z.to_nat i) (dentry_name s k) 0) <$> seqZ 0 NAME_SIZE.

Lemma op_read_directory fd buf nbytes s : op_read directory_table fd buf nbytes s = directory_read fd buf nbytes s.
Proof using HL.
  destruct tables_distinct as (_ & D2 & _ & D4 & _ & _). unfold op_read.
  destruct (Z.eqb_spec directory_table term_table); [congruence|].
  destruct (Z.eqb_spec directory_table rtc_table); [congruence|]. by rewrite Z.eqb_refl.
Qed.

Definition entry_objects (pid : Z) (s : kernel) (fd buf : Z) : list (Z * Z) :=
  (loc_directory_read_dentry, 64) :: read_objects pid s fd buf NAME_SIZE.

Lemma entry_harmless pid s fd buf :
  user_ok pid s → 2 <= fd < 8 → in_page buf NAME_SIZE → Forall (harmless pid s) (entry_objects pid s fd buf).
Proof using HL.
  intros Hu Hfd Ha. apply List.Forall_cons; [by apply (object_harmless pid s 11)|by apply read_harmless].
Qed.

Lemma directory_read_page pid s fd pos buf nbytes :
  user_ok pid s → 2 <= fd < 8 → listing pid s fd pos → pos <= 16 → in_page buf NAME_SIZE →
  ∃ s1, directory_read fd buf nbytes s = Ret NAME_SIZE s1 ∧ steps (entry_objects pid s fd buf) s s1 ∧
    get_fd s1 (pcb_addr pid) fd = mkFd directory_table 0 (pos + 1) 1 ∧ ld_bytes s1 buf NAME_SIZE = padded_name s pos ∧
    k_con s1 = k_con s.
Proof using HL.
  intros Hu Hfd Hget Hpos Ha. destruct (process_pcb pid s (uo_process _ _ Hu)) as (Hpcb & Hpok & Hpid).
  assert (Hp0 : 0 <= pos).
  { change pos with (file_pos (mkFd directory_table 0 pos 1)). rewrite <- Hget. cbn [get_fd file_pos]. apply ld32_range. }
  pose proof dentry_buffer as Hdb. unfold KERNEL_START, KERNEL_END in Hdb.
  pose proof (dentry_buffer_pcb pid Hpid) as Hdp.
  pose proof (directory_read_entry s fd buf nbytes pid) as Hr. rewrite Hpcb, Hget in Hr. cbn [file_pos] in Hr.
  destruct Hr as (m1 & m2 & Hw1 & Hw2 & He); [..|eexists; split; [exact He|]].
  - apply (uo_process _ _ Hu).
  - apply (uo_process _ _ Hu).
  - apply (obj_user_buf s 11); [apply (uo_process _ _ Hu)..|done|done].
  - apply (uo_process _ _ Hu).
  - lia.
  - done.
  - by apply page_seg.
  - unfold apart. rewrite (phys_kernel _ loc_directory_read_dentry) by (unfold PROGRAM_PAGE; lia). pose proof (uo_page _ _ Hu) as Hp. unfold KERNEL_END in Hp.
    rewrite <- (Z.add_0_r buf), (user_phys s buf NAME_SIZE 0) by (done || unfold NAME_SIZE; lia). destruct Ha. lia.
  - apply page_apart; [done..|unfold NAME_SIZE; lia].
  - set (m3 := st32 m2 _ (pos + 1)).
    assert (Hap1 : apart s loc_directory_read_dentry 64 (pcb_addr pid) PCB_SIZE).
    { unfold apart. rewrite phys_kernel by (unfold PROGRAM_PAGE; lia).
      rewrite <- (Z.add_0_r (pcb_addr pid)), (pcb_phys s _ 0) by (done || unfold PCB_SIZE; lia). lia. }
    assert (Hap2 : apart m1 buf NAME_SIZE (pcb_addr pid) PCB_SIZE).
    { pose proof (page_apart s pid buf NAME_SIZE Hu Ha ltac:(done)) as H. unfold apart in *.
      by rewrite !(writes_phys _ _ _ _ _ _ Hw1). }
    assert (Hup : upage m2 = upage s) by (by rewrite (writes_upage _ _ _ _ _ Hw2), (writes_upage _ _ _ _ _ Hw1)).
    split_and!.
    + split; [|done..]. apply (changes_trans _ _ m1); [|apply (changes_trans _ _ m2)].
      * apply (changes_writes _ _ _ _ _ _ loc_directory_read_dentry Hw1); [|by constructor].
        apply phys_kernel. unfold PROGRAM_PAGE. lia.
      * apply (changes_writes _ _ _ _ _ _ (page_at s buf) Hw2); [|constructor; by constructor].
        rewrite (phys_upage s m1) by apply (writes_upage _ _ _ _ _ Hw1).
        rewrite <- (Z.add_0_r buf), (user_phys s buf NAME_SIZE 0) by (done || unfold NAME_SIZE; lia). unfold page_at. lia.
      * apply (changes_writes _ _ _ _ _ _ (fd_slot (pcb_addr pid) fd) (pos_writes m2 _ fd (pos + 1) Hpok ltac:(lia))).
        -- pose proof (slot_high pid fd Hpid ltac:(lia)). unfold KERNEL_START, KERNEL_END in *.
           apply phys_kernel. unfold PROGRAM_PAGE. lia.
        -- by do 3 constructor.
    + apply (get_fd_table m2); [lia|]. rewrite k_mem_upd. unfold m3. rewrite set_pos_table by (done || lia).
      rewrite (get_fd_frame _ _ _ _ _ _ _ Hw2 Hpok Hap2), (get_fd_frame _ _ _ _ _ _ _ Hw1 Hpok Hap1), Hget by lia.
      by rewrite u32_small by lia.
    + apply ld_bytes_eq. intros i Hi. rewrite k_mem_upd. unfold m3, ld8. rewrite phys_st32, st32_pos_peek; [|done|lia|].
      * apply (writes_at _ _ _ _ _ i Hw2); [by apply page_seg|done].
      * apply (page_pos_phys pid s m2 buf NAME_SIZE); done.
    + done.
Qed.

Lemma entry_off_screen pid s fd buf :
  user_ok pid s → 2 <= fd < 8 → in_page buf NAME_SIZE →
  Forall (λ o, o.1 + o.2 <= VIDEO ∨ VIDEO + PAGE_BYTES <= o.1) (entry_objects pid s fd buf).
Proof using HL.
  intros Hu Hfd Ha. apply List.Forall_cons; [|by apply read_off_screen].
  pose proof dentry_buffer. unfold KERNEL_START, KERNEL_END, VIDEO, PAGE_BYTES in *. cbn [fst snd]. lia.
Qed.

Lemma ece391_read_entry pid s fd pos buf :
  user_ok pid s → 2 <= fd < 8 → listing pid s fd pos → pos <= 16 → in_page buf NAME_SIZE →
  ∃ s', ece391_read fd buf NAME_SIZE s = Ret NAME_SIZE s' ∧ steps (entry_objects pid s fd buf) s s' ∧ user_ok pid s' ∧
    listing pid s' fd (pos + 1) ∧ ld_bytes s' buf NAME_SIZE = padded_name s pos ∧ abs_screen s' = abs_screen s.
Proof using HL.
  intros Hu Hfd Hl Hpos Ha.
  destruct (directory_read_page pid s fd pos buf NAME_SIZE Hu Hfd Hl Hpos Ha) as (s1 & E & Hs & Hf & Hb & Hcon).
  destruct (read_returns pid s fd buf NAME_SIZE NAME_SIZE s1 Hu Hfd Ha ltac:(done)) with (os := entry_objects pid s fd buf)
    as (s' & E' & Hs' & Hu' & Hm & Hsc); rewrite ?Hl; cbn.
  - done.
  - by rewrite op_read_directory.
  - by apply entry_harmless.
  - by apply entry_off_screen.
  - exact Hs.
  - exact Hcon.
  - exists s'. unfold listing. rewrite Hm. by split_and!.
Qed.

Lemma ece391_read_entries_end pid s fd pos buf :
  user_ok pid s → 2 <= fd < 8 → listing pid s fd pos → 16 < pos → in_page buf NAME_SIZE →
  ∃ s', ece391_read fd buf NAME_SIZE s = Ret 0 s' ∧ steps [] s s' ∧ user_ok pid s' ∧ abs_screen s' = abs_screen s.
Proof using HL.
  intros Hu Hfd Hl Hpos Ha. destruct (process_pcb pid s (uo_process _ _ Hu)) as (Hpcb & _ & _).
  destruct (read_returns pid s fd buf NAME_SIZE 0 s Hu Hfd Ha ltac:(done)) with (os := @nil (Z * Z))
    as (s' & E' & Hs' & Hu' & Hm & Hsc); rewrite ?Hl; cbn.
  - done.
  - rewrite op_read_directory. apply directory_read_end. by rewrite Hpcb, Hl.
  - constructor.
  - constructor.
  - apply steps_refl.
  - done.
  - by exists s'.
Qed.

Lemma take_nul_props l : Forall (λ c, c ≠ 0) (take_nul l) ∧ (length (take_nul l) <= length l)%nat.
Proof.
  induction l as [|c l [IH1 IH2]]; [by split|]. cbn [take_nul]. destruct (Z.eqb_spec c 0); cbn; [split; [done|lia]|].
  split; [by constructor|lia].
Qed.

Lemma padded_list l n :
  Z.of_nat (length l) <= n → (λ i, nth (Z.to_nat i) l 0) <$> seqZ 0 n = l ++ replicate (Z.to_nat n - length l) 0.
Proof.
  intros Hl. apply list_eq_same_length with (Z.to_nat n).
  - rewrite length_app, length_replicate. lia.
  - rewrite length_fmap, length_seqZ. done.
  - intros i x y Hi Hx Hy. rewrite list_lookup_fmap, lookup_seqZ_lt in Hx by lia. apply Some_inj in Hx as <-.
    replace (Z.to_nat (0 + Z.of_nat i)) with i by lia. destruct (decide (i < length l)%nat).
    + rewrite lookup_app_l in Hy by done. by apply nth_lookup_Some.
    + rewrite lookup_app_r in Hy by lia. apply lookup_replicate in Hy as [-> _]. apply nth_overflow. lia.
Qed.

Lemma padded_name_text s k : filter (λ c, c ≠ 0) (padded_name s k) = dentry_name s k.
Proof.
  unfold padded_name. destruct (take_nul_props (ld_bytes s (dentry_addr s k) NAME_SIZE)) as [H1 H2].
  rewrite ld_bytes_length in H2 by done. unfold dentry_name. set (l := take_nul _) in *. clearbody l.
  rewrite padded_list, list.filter_app by (unfold NAME_SIZE in *; lia).
  replace (filter (λ c, c ≠ 0) (replicate _ 0)) with (@nil Z).
  - rewrite app_nil_r. induction H1 as [|c l Hc _ IH]; [done|]. cbn in H2. rewrite filter_cons_True by done. f_equal. apply IH. lia.
  - symmetry. generalize (Z.to_nat NAME_SIZE - length l)%nat. intros j. by induction j.
Qed.
End UserFiles.
