(* ===== verification/Programs.v ===== *)
(** * The user programs: ece391shell.c, ece391cat.c, ece391ls.c, ece391grep.c,
      ece391hello.c, ece391counter.c, ece391testprint.c

    Each [main] with its buffers at the addresses the compiler chose on the
    stack and its string literals where the linker put them. *)

From S2P Require Import Prelude Memory LibStr State Runs Process FileSystem Terminal SysCalls UserLib.

Implicit Types s : kernel.

Section Programs.
Context {L : Layout}.

(** The address of a string literal. *)
Context (lit : string → Z).

Definition put (text : string) : M unit := ece391_fdputs 1 (lit text).
Definition put_line (text : string) : M unit := put (with_newline text).

(** A literal that starts a new line. *)
Definition on_new_line (text : string) : string := String (Ascii.ascii_of_nat 10) text.

(** A byte of a local array. *)
Definition set_byte (a v : Z) : M unit := modify_mem (λ m, st8 m a v).
Definition get_byte (a : Z) : M Z := gets (λ s, ld8 s a).

(** ** ece391testprint.c *)
Definition testprint_main : M Z :=
  _ ← put_line "Hello, if this ran, the program was correct. Yay!";
  mret 0.

(** ** ece391hello.c *)
Definition BUFSIZE : Z := 1024.

Definition hello_main (buf : Z) : M Z :=
  _ ← put "Hi, what's your name? ";
  cnt ← ece391_read 0 buf (BUFSIZE - 1);
  if cnt =? -1 then _ ← put_line "Can't read name from keyboard."; mret 3
  else
    _ ← set_byte (buf + cnt) 0;
    _ ← put "Hello, ";
    _ ← ece391_fdputs 1 buf;
    mret 0.

(** ** ece391cat.c *)

(** One turn of the loop; [None] goes on. *)
Definition cat_step (buf fd : Z) (u : unit) : M (unit + Z) :=
  cnt ← ece391_read fd buf 1024;
  if cnt =? 0 then mret (inr 0)
  else if cnt =? -1 then _ ← put_line "file read failed"; mret (inr 3)
  else
    r ← ece391_write 1 buf cnt;
    if r =? -1 then mret (inr 3) else mret (inl tt).

Definition cat_main (buf : Z) : M Z :=
  r ← ece391_getargs buf 1024;
  if negb (r =? 0) then _ ← put_line "could not read arguments"; mret 3
  else
    fd ← ece391_open buf;
    if fd =? -1 then _ ← put_line "file not found"; mret 2
    else iter_M (cat_step buf fd) tt.

(** ** ece391ls.c *)
Definition SBUFSIZE : Z := 33.

Definition ls_step (buf fd : Z) (u : unit) : M (unit + Z) :=
  cnt ← ece391_read fd buf (SBUFSIZE - 1);
  if cnt =? 0 then mret (inr 0)
  else if cnt =? -1 then _ ← put_line "directory entry read failed"; mret (inr 3)
  else
    _ ← set_byte (buf + cnt) NL;
    r ← ece391_write 1 buf (cnt + 1);
    if r =? -1 then mret (inr 3) else mret (inl tt).

Definition ls_main (buf : Z) : M Z :=
  fd ← ece391_open (lit ".");
  if fd =? -1 then _ ← put_line "directory open failed"; mret 2
  else iter_M (ls_step buf fd) tt.

(** ** ece391shell.c *)

(** What the shell says of the status a program returned. *)
Definition shell_report (rval : Z) : M unit :=
  if rval =? -1 then put_line "no such command"
  else if rval =? 256 then put_line "program terminated by exception"
  else if negb (rval =? 0) then put_line "program terminated abnormally"
  else mret tt.

(** The line read, without its newline, as a string. *)
Definition shell_line (buf cnt : Z) : M unit :=
  newline ← (if 0 <? cnt then c ← get_byte (buf + (cnt - 1)); mret (c =? NL) else mret false);
  set_byte (buf + (if newline : bool then cnt - 1 else cnt)) 0.

(** What is done with the line: the loop goes on with [inl tt]. *)
Definition shell_command (buf : Z) : M (unit + Z) :=
  r ← on_memory (λ m, ece391_strcmp m buf (lit "exit"));
  if r =? 0 then mret (inr 0)
  else
    c ← get_byte buf;
    if c =? 0 then mret (inl tt)
    else
      rval ← ece391_execute buf;
      _ ← shell_report rval;
      mret (inl tt).

Definition shell_step (buf : Z) (u : unit) : M (unit + Z) :=
  _ ← put "391OS> ";
  cnt ← ece391_read 0 buf (BUFSIZE - 1);
  if cnt =? -1 then _ ← put_line "read from keyboard failed"; mret (inr 3)
  else
    _ ← shell_line buf cnt;
    shell_command buf.

Definition shell_main (buf : Z) : M Z :=
  _ ← put_line "Starting 391 Shell";
  iter_M (shell_step buf) tt.

(** ** ece391counter.c *)

(** [switch (buf[0])] *)
Definition counter_max (c : Z) : Z :=
  if c =? 48 then 100 else if c =? 49 then 10000 else if c =? 50 then 100000 else 0.

Definition counter_step (buf i : Z) : M unit :=
  _ ← change_memory (λ m, ece391_itoa m (i + 1) buf 10);
  _ ← ece391_fdputs 1 buf;
  put (with_newline "").

Definition counter_main (buf : Z) : M Z :=
  _ ← put_line "Enter the Test Number: (0): 100, (1): 10000, (2): 100000";
  cnt ← ece391_read 0 buf (BUFSIZE - 1);
  if u32 cnt =? u32 (-1) then _ ← put_line "Can't read the number from keyboard."; mret 3
  else
    _ ← set_byte (buf + u32 cnt) 0;
    len ← on_memory (λ m, ece391_strlen m buf);
    c ← get_byte buf;
    if (2 <? len) || ((len =? 2) && ((c <? 48) || (50 <? c))) then _ ← put_line "Wrong Choice!"; mret 0
    else
      _ ← for_upM (Z.to_nat (counter_max c)) 0 (counter_step buf);
      mret 0.

(** ** ece391grep.c *)

(** [while (line_end < last && '\n' != data[line_end]) line_end++;] *)
Definition line_end_from (m : memory) (data last line_start : Z) : option Z :=
  while_loop (λ line_end, if (line_end <? last) && negb (ld8 m (data + line_end) =? NL)
                          then inl (line_end + 1) else inr line_end) line_start.

(** [s[0] == data[check] && 0 == strncmp(data + check, s, s_len)] *)
Definition match_at (m : memory) (data s s_len check : Z) : option bool :=
  if s8 (ld8 m s) =? ld8 m (data + check)
  then r ← ece391_strncmp m (data + check) s s_len; Some (r =? 0)
  else Some false.

(** The search of a line: at the first match the line is printed. *)
Definition grep_check (s fname data s_len line_start line_end check : Z) : M (Z + unit) :=
  if check <? line_end then
    found ← on_memory (λ m, match_at m data s s_len check);
    if (found : bool) then
      _ ← ece391_fdputs 1 fname;
      _ ← put ":";
      _ ← ece391_fdputs 1 (data + line_start);
      _ ← put (with_newline "");
      mret (inr tt)
    else mret (inl (check + 1))
  else mret (inr tt).

(** One line of what is in [data]: to the next line, or out of the inner loop
    with the number of bytes kept. *)
Definition grep_line (s fname data s_len cnt last line_start : Z) : M (Z + Z) :=
  line_end ← on_memory (λ m, line_end_from m data last line_start);
  c ← get_byte (data + line_end);
  if negb (c =? NL) && negb (cnt =? 0) && negb (line_start =? 0) then
    _ ← set_byte (data + line_end) 0;
    _ ← change_memory (λ m, ece391_strcpy m data (data + line_start));
    mret (inr (last - line_start))
  else
    _ ← set_byte (data + line_end) 0;
    _ ← iter_M (grep_check s fname data s_len line_start line_end) line_start;
    let line_start := line_end + 1 in
    if last <=? line_start then mret (inr 0) else mret (inl line_start).

Definition grep_step (s fname data fd s_len last : Z) : M (Z + Z) :=
  cnt ← ece391_read fd (data + last) (BUFSIZE - last);
  if cnt =? -1 then _ ← put_line "file read failed"; mret (inr (-1))
  else
    let last := last + cnt in
    last ← iter_M (grep_line s fname data s_len cnt last) 0;
    if cnt =? 0 then
      r ← ece391_close fd;
      if r =? -1 then _ ← put_line "file close failed"; mret (inr (-1))
      else mret (inr 0)
    else mret (inl last).

Definition do_one_file (s fname data : Z) : M Z :=
  s_len ← on_memory (λ m, ece391_strlen m s);
  fd ← ece391_open fname;
  if fd =? -1 then _ ← put_line "file open failed"; mret (-1)
  else iter_M (grep_step s fname data fd (s32 s_len)) 0.

Definition grep_file (buf search data fd : Z) (u : unit) : M (unit + Z) :=
  cnt ← ece391_read fd buf (SBUFSIZE - 1);
  if cnt =? 0 then mret (inr 0)
  else if cnt =? -1 then _ ← put_line "directory entry read failed"; mret (inr 3)
  else
    c ← get_byte buf;
    if c =? 46 then mret (inl tt)
    else
      _ ← set_byte (buf + cnt) 0;
      r ← do_one_file search buf data;
      if negb (r =? 0) then mret (inr 3) else mret (inl tt).

Definition grep_main (buf search data : Z) : M Z :=
  r ← ece391_getargs search BUFSIZE;
  if negb (r =? 0) then _ ← put_line "could not read argument"; mret 3
  else
    fd ← ece391_open (lit ".");
    if fd =? -1 then _ ← put_line "directory open failed"; mret 2
    else iter_M (grep_file buf search data fd) tt.
End Programs.
