(* ===== verification/UserKeep.v ===== *)
(** * What the calls of a program leave as it was

    A program goes on after its calls: the descriptors, the files, the
    directory, its literals and its buffers are those it had; the messages a
    program prints. *)

From S2P Require Import Prelude Memory LibMem LibStr Video State Runs Console Process FileSystem Terminal SysCalls Exec UserLib UserRun UserFiles Programs.

Implicit Types s t : kernel.

Section UserKeep.
Context {L : Layout} {HL : LayoutOK L}.

(** Changes outside the kernel's 4 MB keep the process block. *)
Definition outside (o : Z * Z) : Prop := o.1 + o.2 <= KERNEL_START ∨ KERNEL_END <= o.1.

Lemma outside_harmless pid s o : user_ok pid s → outside o → harmless pid s o.
Proof using HL.
  intros Hu Ho. destruct (process_pcb pid s (uo_process _ _ Hu)) as (_ & Hpok & _).
  destruct (uo_image _ _ Hu). unfold outside, harmless, fd_slot, pcb_ok, PCB_SIZE in *. lia.
Qed.

Lemma page_outside pid s a n : user_ok pid s → in_page a n → outside (page_at s a, n).
Proof using HL. intros Hu Ha. right. by apply (page_high pid s a n). Qed.

Lemma video_outside : outside (VIDEO, PAGE_BYTES).
Proof. left. done. Qed.

Lemma kept_slot os pid s (m' : memory) j :
  0 <= pid < 6 → 0 <= j < 8 → changes os s m' →
  Forall (λ o, o.1 + o.2 <= fd_slot (pcb_addr pid) j ∨ fd_slot (pcb_addr pid) j + 16 <= o.1) os →
  get_fd m' (pcb_addr pid) j = get_fd s (pcb_addr pid) j.
Proof using HL.
  intros Hp Hj Hc Ho. pose proof (slot_high pid j Hp Hj) as Hslot. unfold KERNEL_START, KERNEL_END in Hslot.
  unfold get_fd. cbv zeta.
  assert (Hw : ∀ o, 0 <= o → o + 4 <= 16 → ld32 m' (fd_slot (pcb_addr pid) j + o) = ld32 s (fd_slot (pcb_addr pid) j + o)).
  { intros o H1 H2. apply (changes_word os s m' _ Hc); [lia|unfold PROGRAM_PAGE; lia|].
    eapply List.Forall_impl; [|exact Ho]. intros q. cbn beta. lia. }
  by rewrite !Hw by (unfold op_off, inode_off, pos_off, flags_off; lia).
Qed.

Lemma kept_fd os pid s s' j :
  0 <= pid < 6 → 0 <= j < 8 → steps os s s' → Forall outside os → get_fd s' (pcb_addr pid) j = get_fd s (pcb_addr pid) j.
Proof using HL.
  intros Hp Hj Hs Ho. apply (kept_slot os pid s s' j Hp Hj (sp_changes _ _ _ Hs)).
  pose proof (slot_high pid j Hp Hj). eapply List.Forall_impl; [|exact Ho]. intros q. unfold outside. cbn beta. lia.
Qed.

Lemma kept_free_fd os pid s s' :
  user_ok pid s → user_ok pid s' → steps os s s' → Forall outside os → free_fd s' = free_fd s.
Proof using HL.
  intros Hu Hu' Hs Ho. destruct (process_pcb pid s (uo_process _ _ Hu)) as (Hpcb & _ & Hpid).
  destruct (process_pcb pid s' (uo_process _ _ Hu')) as (Hpcb' & _ & _). unfold free_fd. rewrite Hpcb, Hpcb'.
  apply find_first_ext. intros j Hj. by rewrite (kept_fd os pid s s' j) by (done || lia).
Qed.

(** The image is the same after harmless changes. *)
Lemma kept_file os pid s s' ino pos n :
  user_ok pid s → Forall (harmless pid s) os → steps os s s' → file_ok s ino → 0 <= pos → pos + n <= file_size s ino →
  file_ok s' ino ∧ file_size s' ino = file_size s ino ∧ file_range s' ino pos n = file_range s ino pos n.
Proof using HL.
  intros Hu Ho Hs Hf Hp Hn. destruct (same_file s s' (sp_fs _ _ _ Hs) (po_image _ _ (uo_process _ _ Hu))
    (steps_image os pid s s' Ho Hs) ino Hf) as (H1 & H2 & H3). split_and!; [done|done|].
  unfold file_range. apply list_fmap_ext. intros i x Hx. apply list_elem_of_lookup_2, elem_of_seqZ in Hx. apply H3. lia.
Qed.

Lemma kept_find os pid s s' l :
  user_ok pid s → Forall (harmless pid s) os → steps os s s' → find_dentry s' l = find_dentry s l.
Proof using HL.
  intros Hu Ho Hs. destruct (uo_process _ _ Hu).
  by apply (same_find s s' (sp_fs _ _ _ Hs) po_image po_nodes (steps_image os pid s s' Ho Hs)).
Qed.

Lemma kept_dentry os pid s s' l k :
  user_ok pid s → Forall (harmless pid s) os → steps os s s' → find_dentry s l = Some k →
  dentry_type s' k = dentry_type s k ∧ dentry_inode s' k = dentry_inode s k.
Proof using HL.
  intros Hu Ho Hs Hk. destruct (uo_process _ _ Hu). apply find_dentry_bound in Hk as [Hk _].
  pose proof (same_dentry_word s s' (sp_fs _ _ _ Hs) po_image po_nodes (steps_image os pid s s' Ho Hs) k) as Hw.
  unfold dentry_type, dentry_inode. split; apply Hw; lia.
Qed.

Lemma kept_name os pid s s' k :
  user_ok pid s → Forall (harmless pid s) os → steps os s s' → 0 <= k < 64 → dentry_name s' k = dentry_name s k.
Proof using HL.
  intros Hu Ho Hs Hk. destruct (uo_process _ _ Hu).
  by apply (same_name s s' (sp_fs _ _ _ Hs) po_image po_nodes (steps_image os pid s s' Ho Hs)).
Qed.

Lemma kept_text os pid s s' ino :
  user_ok pid s → Forall (harmless pid s) os → steps os s s' → file_ok s ino →
  file_ok s' ino ∧ file_text s' ino = file_text s ino.
Proof using HL.
  intros Hu Ho Hs Hf. pose proof (file_size_bound s ino Hf) as Hsz.
  destruct (kept_file os pid s s' ino 0 (file_size s ino) Hu Ho Hs Hf ltac:(lia) ltac:(lia)) as (H1 & H2 & H3).
  split; [done|]. unfold file_text. by rewrite H2.
Qed.

(** What opening descriptor [i] leaves of the others. *)
Lemma open_apart pid i j : 0 <= pid < 6 → 2 <= i < 8 → 0 <= j < 8 → i ≠ j →
  Forall (λ o, o.1 + o.2 <= fd_slot (pcb_addr pid) j ∨ fd_slot (pcb_addr pid) j + 16 <= o.1) (open_objects pid i).
Proof using HL.
  intros Hp Hi Hj Hne.
  pose proof (obj_sep 12 _ _ _ eq_refl (pcb_position pid Hp) ltac:(lia)) as H1.
  pose proof (obj_sep 18 _ _ _ eq_refl (pcb_position pid Hp) ltac:(lia)) as H2. cbn [fst snd] in H1, H2.
  unfold open_objects, fd_slot, PCB_SIZE in *. each_segment.
Qed.

Lemma open_low pid i : 0 <= pid < 6 → 2 <= i < 8 → Forall (λ o, o.1 + o.2 <= KERNEL_END) (open_objects pid i).
Proof using HL.
  intros Hp Hi. pose proof (slot_high pid i Hp ltac:(lia)).
  pose proof (obj_bounds 12 _ eq_refl) as B1. pose proof (obj_bounds 18 _ eq_refl) as B2. cbn [fst snd] in *.
  unfold open_objects. each_segment.
Qed.

Lemma steps_page os s s' a : steps os s s' → page_at s' a = page_at s a.
Proof. intros Hs. destruct (sp_changes _ _ _ Hs) as [Hc _]. unfold page_at. by rewrite Hc. Qed.

(** A store of the program to its own page. *)
Lemma user_store pid s a v :
  user_ok pid s → in_page a 1 →
  let s' := upd_mem (λ m, st8 m a v) s in
  set_byte a v s = Ret tt s' ∧ steps [(page_at s a, 1)] s s' ∧ user_ok pid s' ∧ abs_screen s' = abs_screen s.
Proof using HL.
  intros Hu Ha s'.
  assert (Hc : changes [(page_at s a, 1)] s s') by (apply (page_writes s _ a 1 _ _ Ha ltac:(lia) (writes_st8 s a v)); by constructor).
  assert (Hs : steps [(page_at s a, 1)] s s') by by split.
  split; [done|]. split; [exact Hs|]. split.
  - apply (user_ok_steps [(page_at s a, 1)] pid s s' Hu); [|exact Hs]. constructor; [by apply page_harmless|done].
  - apply (screen_kept [(page_at s a, 1)] s (st8 s a v) Hc). constructor; [|done]. pose proof (page_high pid s a 1 Hu Ha).
    unfold KERNEL_END, VIDEO, PAGE_BYTES in *. cbn [fst snd]. lia.
Qed.

(** ** Messages *)

Context (lit : string → Z).

(** A literal of the program, apart from the buffer at [buf]. *)
Definition literal (s : kernel) (text : string) : Prop := user_string s (lit text) (bytes_of text).
Definition apart_from (text : string) (buf n : Z) : Prop :=
  lit text + Z.of_nat (length (bytes_of text)) + 1 <= buf ∨ buf + n <= lit text.

(** A literal survives what leaves its bytes alone. *)
Lemma literal_changes os pid s s' text :
  user_ok pid s → changes os s s' → literal s text →
  Forall (λ o, o.1 + o.2 <= KERNEL_END ∨
    ∃ a n, in_page a n ∧ o = (page_at s a, n) ∧ apart_from text a n) os → literal s' text.
Proof using HL.
  intros Hu Hs [Hc Hp] Ho. split; [|done]. revert Hc. apply cstring_ext. intros i Hi.
  apply (changes_byte os s s' _ Hs).
  rewrite (user_phys s _ (Z.of_nat (length (bytes_of text)) + 1)) by (done || lia).
  pose proof (uo_page _ _ Hu) as Hpg. eapply List.Forall_impl; [|exact Ho]. cbn beta.
  destruct Hp as (Hp1 & _ & Hp3). unfold apart_from, page_at.
  intros o [Hk|(a & n & Ha & -> & Hap)]; cbn [fst snd]; lia.
Qed.

Lemma kept_literal os pid s s' text :
  user_ok pid s → steps os s s' → literal s text →
  Forall (λ o, o.1 + o.2 <= KERNEL_END ∨
    ∃ a n, in_page a n ∧ o = (page_at s a, n) ∧ apart_from text a n) os → literal s' text.
Proof using HL. intros Hu Hs. apply (literal_changes os pid s s' text Hu), Hs. Qed.

Lemma scr_puts_app l1 l2 sc : scr_puts (l1 ++ l2) sc = scr_puts l2 (scr_puts l1 sc).
Proof. apply foldl_app. Qed.

(** A message of the program after one of the kernel. *)
Lemma put_message pid s text :
  user_ok pid s → literal s text →
  runs (put lit text) s (λ _ s', user_ok pid s' ∧ abs_screen s' = scr_puts (bytes_of text) (abs_screen s)).
Proof using HL.
  intros Hu Hl. destruct (ece391_fdputs_run pid (lit text) (bytes_of text) s Hu Hl) as (s' & E & _ & Hu' & Hsc).
  by apply (runs_eq _ _ _ _ _ E).
Qed.
(** ece391testprint.c *)
Lemma testprint_run pid s :
  user_ok pid s → literal s (with_newline "Hello, if this ran, the program was correct. Yay!") →
  runs (testprint_main lit) s (λ r s', r = 0 ∧ user_ok pid s' ∧
    abs_screen s' = scr_puts (bytes_of (with_newline "Hello, if this ran, the program was correct. Yay!")) (abs_screen s)).
Proof using HL.
  intros Hu Hl. eapply runs_step; [exact (put_message pid s _ Hu Hl)|]. cbn beta. intros _ s' [Hu' Hsc]. apply runs_ret.
  split; [done|]. split; [exact Hu'|exact Hsc].
Qed.
End UserKeep.
