(* ===== verification/UserPage.v ===== *)
(** * Stores of a program in its page

    A store changes some bytes of the program page and nothing elsewhere
    ([only]); a machine after such a store can go on ([only_steps]). *)

From S2P Require Import Prelude Memory LibMem LibStr Video State Runs Console Process FileSystem Terminal SysCalls Exec UserLib UserRun.

Implicit Types s : kernel.

Definition in_bounds (b : Z) : Prop := PROGRAM_PAGE <= b < PROGRAM_PAGE_END.

(** Physical addresses outside the 4 MB of the program. *)
Definition elsewhere (m : memory) (q : Z) : Prop := q < upage m ∨ upage m + (PROGRAM_PAGE_END - PROGRAM_PAGE) <= q.

(** In the page, only the [n] bytes at [a] change ... *)
Definition page_only (a n : Z) (m m' : memory) : Prop := ∀ b, in_bounds b → b < a ∨ a + n <= b → ld8 m' b = ld8 m b.

(** ... and nothing changes elsewhere. *)
Record only (a n : Z) (m m' : memory) : Prop := {
  on_upage : upage m' = upage m;
  on_page : page_only a n m m';
  on_else : ∀ q, elsewhere m q → peek m' q = peek m q;
}.

Lemma only_refl a n m : only a n m m.
Proof. by split. Qed.

Lemma only_trans a n m1 m2 m3 : only a n m1 m2 → only a n m2 m3 → only a n m1 m3.
Proof.
  intros [U1 P1 E1] [U2 P2 E2]. split; [congruence|..].
  - intros b Hb Ho. by rewrite P2, P1.
  - intros q Hq. rewrite E2, E1; [done|done|]. unfold elsewhere in *. by rewrite U1.
Qed.

Lemma only_widen a n b k m m' : only a n m m' → b <= a → a + n <= b + k → only b k m m'.
Proof. intros [U P E] H1 H2. split; [done| |done]. intros c Hc Ho. apply P; [done|lia]. Qed.

Lemma only_st8 m a x : in_bounds a → only a 1 m (st8 m a x).
Proof.
  intros Ha. split; [apply upage_st8|..].
  - intros b Hb Ho. rewrite ld8_st8, !phys_user by done. bcase.
  - intros q Hq. rewrite peek_st8, phys_user by done. unfold elsewhere, in_bounds in *. bcase.
Qed.

Lemma only_st16 m a x : in_page a 2 → only a 2 m (st16 m a x).
Proof.
  intros (H1 & _ & H3). unfold st16. apply (only_trans _ _ _ (st8 m a x)).
  - apply (only_widen a 1); [apply only_st8; unfold in_bounds; lia|lia|lia].
  - apply (only_widen (a + 1) 1); [apply only_st8; unfold in_bounds; lia|lia|lia].
Qed.

Lemma only_st32 m a x : in_page a 4 → only a 4 m (st32 m a x).
Proof.
  intros (H1 & _ & H3). unfold st32.
  assert (H : ∀ m i x, 0 <= i < 4 → only a 4 m (st8 m (a + i) x)).
  { intros m1 i y Hi. apply (only_widen (a + i) 1); [apply only_st8; unfold in_bounds; lia|lia|lia]. }
  eapply only_trans; [|apply H; lia]. eapply only_trans; [|apply H; lia]. eapply only_trans; [|apply H; lia].
  rewrite <- (Z.add_0_r a) at 2. apply H. lia.
Qed.

(** Numbers that do not overlap what changed. *)
Lemma page_ld8 a n m m' b : page_only a n m m' → in_page b 1 → b + 1 <= a ∨ a + n <= b → ld8 m' b = ld8 m b.
Proof. intros Ho (H1 & _ & H3) Hd. apply Ho; unfold in_bounds; lia. Qed.

Lemma page_ld32 a n m m' b : page_only a n m m' → in_page b 4 → b + 4 <= a ∨ a + n <= b → ld32 m' b = ld32 m b.
Proof. intros Ho (H1 & _ & H3) Hd. unfold ld32. rewrite !Ho; unfold in_bounds; lia || done. Qed.

Lemma ld32_ext m m' a b : (∀ i, 0 <= i < 4 → ld8 m' (a + i) = ld8 m (b + i)) → ld32 m' a = ld32 m b.
Proof. intros H. unfold ld32. pose proof (H 0 ltac:(lia)) as H0. rewrite !Z.add_0_r in H0. by rewrite H0, !H by lia. Qed.

Lemma page_seg4 a : in_page a 4 → seg a 4.
Proof. intros (H1 & _ & H3). unfold seg. lia. Qed.

(** ** Loops that fill an array *)

Lemma fill_only a c (n : nat) i0 m :
  in_page (a + i0) (Z.of_nat n) → only (a + i0) (Z.of_nat n) m (for_up n i0 (λ i m, st8 m (a + i) c) m).
Proof.
  intros (H1 & _ & H3). apply (for_up_ind (λ _ t, only (a + i0) (Z.of_nat n) m t)); [apply only_refl|].
  intros j t Hj Ht. apply (only_trans _ _ _ t); [exact Ht|]. apply (only_widen (a + j) 1); [apply only_st8; unfold in_bounds; lia|lia|lia].
Qed.

Lemma fill_bytes a c (n : nat) i0 m i :
  in_page (a + i0) (Z.of_nat n) → i0 <= i < i0 + Z.of_nat n → ld8 (for_up n i0 (λ i m, st8 m (a + i) c) m) (a + i) = u8 c.
Proof.
  intros (H1 & _ & H3). revert i.
  apply (for_up_ind (λ j t, ∀ i, i0 <= i < j → ld8 t (a + i) = u8 c)); [lia|]. intros j t Hj IH i Hi.
  rewrite ld8_st8, !phys_user by lia. destruct (Z.eqb_spec (upage t + (a + i - PROGRAM_PAGE)) (upage t + (a + j - PROGRAM_PAGE))); [done|].
  apply IH. lia.
Qed.

(** ** Strings of the page *)

Lemma cstring_page a n m m' b l :
  page_only a n m m' → cstring m b l → in_page b (Z.of_nat (length l) + 1) → b + Z.of_nat (length l) + 1 <= a ∨ a + n <= b → cstring m' b l.
Proof.
  intros Ho Hc (H1 & _ & H3) Hd. revert Hc. apply cstring_ext. intros i Hi. apply Ho; unfold in_bounds; lia.
Qed.

Lemma string_page a n s s' b l :
  page_only a n s s' → user_string s b l → b + Z.of_nat (length l) + 1 <= a ∨ a + n <= b → user_string s' b l.
Proof. intros Ho [Hc Hp] Hd. split; [|done]. by apply (cstring_page a n s s'). Qed.

(** ** A store of a running program *)

Section UserPage.
Context {L : Layout} {HL : LayoutOK L}.
Context (pid : Z).

Lemma only_steps s a n m' :
  user_ok pid s → in_page a n → 0 < n → only a n (k_mem s) m' →
  steps [(page_at s a, n)] s (upd_mem (λ _, m') s) ∧ user_ok pid (upd_mem (λ _, m') s).
Proof using HL.
  intros Hu Ha Hn O. assert (Hc : changes [(page_at s a, n)] s m').
  { split; [apply O|]. intros p Hp. inversion_clear Hp as [|? ? H _]. cbn [fst snd] in H. unfold page_at in H.
    destruct (decide (upage s <= p < upage s + (PROGRAM_PAGE_END - PROGRAM_PAGE))) as [Hin|Hout]; [|apply O; unfold elsewhere; lia].
    destruct Ha as (A1 & _ & A3). pose proof (on_page _ _ _ _ O (p - upage s + PROGRAM_PAGE)) as Hb. unfold ld8 in Hb.
    rewrite !phys_user, (on_upage _ _ _ _ O) in Hb by (unfold PROGRAM_PAGE, PROGRAM_PAGE_END in *; lia).
    replace (upage s + (p - upage s + PROGRAM_PAGE - PROGRAM_PAGE)) with p in Hb by lia.
    apply Hb; unfold in_bounds; lia. }
  assert (Hs : steps [(page_at s a, n)] s (upd_mem (λ _, m') s)) by (by split). split; [exact Hs|].
  apply (user_ok_steps [(page_at s a, n)] pid s _ Hu); [|exact Hs]. constructor; [by apply page_harmless|done].
Qed.

Lemma page_screen s a n m' : user_ok pid s → in_page a n → changes [(page_at s a, n)] s m' → abs_screen (upd_mem (λ _, m') s) = abs_screen s.
Proof using HL.
  intros Hu Ha Hc. apply (screen_kept _ s m' Hc). constructor; [|done]. pose proof (page_high pid s a n Hu Ha).
  unfold VIDEO, PAGE_BYTES, KERNEL_END in *. cbn [fst snd]. lia.
Qed.

(** A byte of the page that no changed segment holds. *)
Lemma kept_byte os s s' b :
  KERNEL_END <= upage s → steps os s s' → in_bounds b →
  Forall (λ o, o.1 + o.2 <= KERNEL_END ∨ ∃ a n, in_page a n ∧ o = (page_at s a, n) ∧ (b < a ∨ a + n <= b)) os → ld8 s' b = ld8 s b.
Proof.
  intros Hp Hs Hb Ho. unfold in_bounds in Hb. apply (changes_byte _ _ _ _ (sp_changes _ _ _ Hs)). rewrite phys_user by lia.
  eapply List.Forall_impl; [|exact Ho]. intros o [H|(a & n & (A1 & _ & A3) & -> & H)]; cbn [fst snd]; [lia|]. unfold page_at. lia.
Qed.

(** Calls that change only the kernel's memory keep the page ... *)
Lemma low_page os s s' a n :
  KERNEL_END <= upage s → steps os s s' → Forall (λ o, o.1 + o.2 <= KERNEL_END) os → page_only a n s s'.
Proof.
  intros Hp Hs Ho b Hb _. apply (kept_byte os s s' b Hp Hs Hb). eapply List.Forall_impl; [|exact Ho]. intros o H. by left.
Qed.

(** ... and those that change a segment of it too keep the rest. *)
Lemma part_page os s s' a n :
  KERNEL_END <= upage s → in_page a n → steps ((page_at s a, n) :: os) s s' → Forall (λ o, o.1 + o.2 <= KERNEL_END) os → page_only a n s s'.
Proof.
  intros Hp Ha Hs Ho b Hb Hd. apply (kept_byte _ s s' b Hp Hs Hb). constructor; [right; by exists a, n|].
  eapply List.Forall_impl; [|exact Ho]. intros o H. by left.
Qed.

(** A loop whose every turn prints a text. *)
Lemma prints_for (P : kernel → Prop) (f : Z → M unit) (g : Z → list Z) (n : nat) i s :
  P s →
  (∀ j t, i <= j < i + Z.of_nat n → P t → runs (f j) t (λ _ t', P t' ∧ abs_screen t' = scr_puts (g j) (abs_screen t))) →
  runs (for_upM n i f) s (λ _ s', P s' ∧ abs_screen s' = scr_puts (mjoin (g <$> seqZ i (Z.of_nat n))) (abs_screen s)).
Proof.
  revert i s. induction n as [|n IH]; intros i s HP Hf; cbn [for_upM]; [by apply runs_ret|].
  eapply runs_step; [apply Hf; [lia|exact HP]|]. intros [] t [Ht Hsc]. cbn beta in Ht, Hsc.
  eapply runs_mono; [apply (IH (i + 1) t Ht)|].
  - intros j t1 Hj. apply Hf. lia.
  - intros [] s' [Hs' Hsc']. cbn beta in Hs', Hsc'. split; [done|]. rewrite Hsc', Hsc, (seqZ_cons i (Z.of_nat (S n))) by lia.
    rewrite fmap_cons. cbn [mjoin list_join]. replace (Z.succ i) with (i + 1) by lia. replace (Z.pred (Z.of_nat (S n))) with (Z.of_nat n) by lia.
    unfold scr_puts. by rewrite foldl_app.
Qed.
End UserPage.
