(* ===== verification/UserClock.v ===== *)
(** * A program that uses the clock

    The clock on a descriptor: its rate is set by a write and a read waits for
    its next interrupt.  A wait is [Block] in the kernel's model; [rtc_tick] is
    the read together with the interrupt that ends it.  Closing a descriptor of
    a file or of the clock. *)

From S2P Require Import Prelude Memory LibMem LibStr Video State Runs Console Pic Rtc Process FileSystem Terminal SysCalls Exec UserLib UserRun UserFiles Programs UserKeep UserPage.

Implicit Types s t : kernel.

Section UserClock.
Context {L : Layout}.

(** The end of a read of the clock: the wait loop again, and the way back
    through the gate. *)
Definition resume_read : M Z :=
  r ← rtc_poll;
  _ ← modify cli;
  _ ← modify sti;
  mret r.

(** [ece391_read(rtc_fd, &garbage, 4)], the clock's interrupt arriving while it
    waits. *)
Definition rtc_tick (rtc_fd garbage : Z) : M Z := λ s,
  match ece391_read rtc_fd garbage 4 s with
  | Block t => (_ ← rtc_handle_interrupt; resume_read) t
  | o => o
  end.

(** The clock is open on [fd]. *)
Definition clock_fd : file_descriptor_t := mkFd rtc_table 0 4294967295 1.
Definition clocked (pid fd : Z) (s : kernel) : Prop := get_fd s (pcb_addr pid) fd = clock_fd.

Context {HL : LayoutOK L}.

Lemma op_read_clock fd buf n s : op_read rtc_table fd buf n s = rtc_read fd buf n s.
Proof using HL.
  destruct tables_distinct as (D1 & _). unfold op_read. destruct (Z.eqb_spec rtc_table term_table); [congruence|]. by rewrite Z.eqb_refl.
Qed.

Lemma op_write_clock fd buf n s : op_write rtc_table fd buf n s = rtc_write fd buf n s.
Proof using HL.
  destruct tables_distinct as (D1 & _). unfold op_write. destruct (Z.eqb_spec rtc_table term_table); [congruence|]. by rewrite Z.eqb_refl.
Qed.

Lemma word_address buf : in_page buf 4 → 0 < buf < 4294967296 ∧ u32 buf ≠ 0.
Proof. intros (H1 & _ & H3). unfold PROGRAM_PAGE, PROGRAM_PAGE_END in *. rewrite u32_small; lia. Qed.

(** The handler of the clock, from a machine whose flag is set. *)
Lemma clock_interrupt t :
  ∃ t', (_ ← rtc_handle_interrupt; resume_read) t = Ret 0 t' ∧ steps [] t t' ∧ k_mem t' = k_mem t ∧ k_con t' = k_con t.
Proof. eexists. split; [reflexivity|]. split; [|done]. by split; [apply changes_refl|..]. Qed.

Lemma rtc_tick_run pid fd buf s :
  user_ok pid s → 2 <= fd < 8 → clocked pid fd s → in_page buf 4 →
  ∃ s', rtc_tick fd buf s = Ret 0 s' ∧ steps [] s s' ∧ user_ok pid s' ∧ k_mem s' = k_mem s ∧ abs_screen s' = abs_screen s.
Proof using HL.
  intros Hu Hfd Hc Hb. destruct (word_address buf Hb) as [Hr Hb0].
  assert (E : ece391_read fd buf 4 s = Block (set_rtc_flag 1 s)).
  { unfold ece391_read, system_call. change (s32 SYS_READ) with 3. cbn [Z.ltb Z.compare Z.eqb orb Pos.compare Pos.compare_cont Pos.eqb].
    assert (Hrd : read (s32 fd) buf (s32 4) s = Block (set_rtc_flag 1 s)); [|unfold mbind, M_bind; by rewrite Hrd].
    rewrite s32_small by lia. change (s32 4) with 4. rewrite (read_dispatch pid) by (first [apply Hu|lia|rewrite Hc; done|done]).
    rewrite Hc. cbn [descriptor_op_ptr clock_fd]. by rewrite op_read_clock. }
  destruct (clock_interrupt (set_rtc_flag 1 s)) as (s' & E' & Hs & Hm & Hcon).
  assert (Hs' : steps [] s s') by (destruct Hs; by split).
  exists s'. unfold rtc_tick. rewrite E. split; [exact E'|]. split; [exact Hs'|]. split; [by apply (user_ok_steps [] pid s)|].
  split; [exact Hm|]. unfold abs_screen. by rewrite Hm, Hcon.
Qed.

(** Setting the rate: the clock's registers change, nothing the program sees. *)
Lemma rtc_rate_run pid fd buf s :
  user_ok pid s → 2 <= fd < 8 → clocked pid fd s → in_page buf 4 → supported_hz (s32 (ld32 s buf)) = true →
  ∃ s', ece391_write fd buf 4 s = Ret 0 s' ∧ steps [] s s' ∧ user_ok pid s' ∧ k_mem s' = k_mem s ∧ abs_screen s' = abs_screen s.
Proof using HL.
  intros Hu Hfd Hc Hb Hz. destruct (word_address buf Hb) as [Hr Hb0].
  destruct (rtc_write_accept fd buf s Hb0 Hz) as (rate & _ & _ & E). set (s1 := add_log _ s) in E.
  assert (Hw : write (s32 fd) buf (s32 4) s = Ret 0 s1).
  { rewrite s32_small by lia. change (s32 4) with 4. rewrite (write_dispatch pid) by (first [apply Hu|lia|rewrite Hc; done|done]).
    rewrite Hc. cbn [descriptor_op_ptr clock_fd]. by rewrite op_write_clock. }
  destruct (call_returns pid [] s _ 0 s1 Hw) as (s' & E' & Hs & Hu' & Hm & Hsc); [by split; [apply changes_refl|..]|done|constructor|].
  exists s'. split; [exact E'|]. split; [exact Hs|]. split; [exact Hu'|]. by rewrite Hm, Hsc.
Qed.

(** [ret_val = 32; ret_val = ece391_write(rtc_fd, &ret_val, 4);] *)
Definition set_rate (fd ret_val : Z) : M unit :=
  _ ← modify_mem (λ m, st32 m ret_val 32);
  r ← ece391_write fd ret_val 4;
  modify_mem (λ m, st32 m ret_val r).

Lemma set_rate_run pid fd a s :
  user_ok pid s → 2 <= fd < 8 → clocked pid fd s → in_page a 4 →
  runs (set_rate fd a) s (λ _ s', steps [(page_at s a, 4)] s s' ∧ user_ok pid s' ∧ clocked pid fd s' ∧ only a 4 s s' ∧
    abs_screen s' = abs_screen s).
Proof using HL.
  intros Hu Hfd Hc Ha. destruct (process_pcb pid s (uo_process _ _ Hu)) as (_ & _ & Hpid).
  assert (Hst : ∀ t v, user_ok pid t → clocked pid fd t →
    runs (modify_mem (λ m, st32 m a v)) t (λ _ t', steps [(page_at t a, 4)] t t' ∧ user_ok pid t' ∧ clocked pid fd t' ∧
      only a 4 t t' ∧ abs_screen t' = abs_screen t ∧ ld32 t' a = u32 v)).
  { intros t v Ht Hct. apply (runs_eq _ _ _ _ _ (modify_mem_run _ t)). pose proof (only_st32 (k_mem t) a v Ha) as O.
    destruct (only_steps pid t a 4 _ Ht Ha ltac:(lia) O) as [Hs Hu']. pose proof (page_outside pid t a 4 Ht Ha) as Hout.
    split; [exact Hs|]. split; [exact Hu'|]. split; [|split; [exact O|split]].
    - unfold clocked in *. rewrite <- Hct. apply (kept_fd _ pid t _ fd Hpid ltac:(lia) Hs). by constructor.
    - apply (page_screen pid t a 4 _ Ht Ha), Hs.
    - rewrite k_mem_upd. by apply ld32_st32_same, page_seg. }
  unfold set_rate. eapply runs_step; [by apply Hst|]. intros [] s1 (Hs1 & Hu1 & Hc1 & O1 & Hsc1 & Hv).
  destruct (rtc_rate_run pid fd a s1 Hu1 Hfd Hc1 Ha) as (s2 & E2 & Hs2 & Hu2 & Hm2 & Hsc2); [by rewrite Hv|].
  assert (Hc2 : clocked pid fd s2) by (unfold clocked in *; by rewrite Hm2).
  apply runs_bind, (runs_eq _ _ _ _ _ E2). eapply runs_mono; [by apply Hst|]. intros [] s3 (Hs3 & Hu3 & Hc3 & O3 & Hsc3 & _).
  rewrite (steps_page _ s1 s2 a Hs2), (steps_page _ s s1 a Hs1) in Hs3. rewrite Hm2 in O3.
  split; [|split; [exact Hu3|split; [exact Hc3|split; [by apply (only_trans _ _ _ s1)|by rewrite Hsc3, Hsc2]]]].
  apply (steps_trans _ _ s2); [|exact Hs3]. apply (steps_trans _ _ s1); [exact Hs1|]. apply (steps_mono [] _ s1 s2); [apply list_subseteq_nil|exact Hs2].
Qed.

(** Closing an open descriptor. *)
Lemma ece391_close_run pid s fd :
  user_ok pid s → 2 <= fd < 8 → flags (get_fd s (pcb_addr pid) fd) ≠ 0 → known_table (descriptor_op_ptr (get_fd s (pcb_addr pid) fd)) →
  ∃ s', ece391_close fd s = Ret 0 s' ∧ steps [(fd_slot (pcb_addr pid) fd, 16)] s s' ∧ user_ok pid s' ∧
    flags (get_fd s' (pcb_addr pid) fd) = 0 ∧ abs_screen s' = abs_screen s.
Proof using HL.
  intros Hu Hfd Hfl Hk. destruct (process_pcb pid s (uo_process _ _ Hu)) as (_ & Hpok & Hpid). pose proof (slot_high pid fd Hpid ltac:(lia)) as Hslot.
  set (m1 := st32 s (fd_slot (pcb_addr pid) fd + flags_off) OUT_OF_USE).
  assert (E : close (s32 fd) s = Ret 0 (upd_mem (λ _, m1) s)) by (rewrite s32_small by lia; apply (close_run pid); [apply (uo_process _ _ Hu)|lia|done|done]).
  assert (Hc : changes [(fd_slot (pcb_addr pid) fd, 16)] s m1).
  { assert (Hsg : seg (fd_slot (pcb_addr pid) fd + flags_off) 4).
    { rewrite slot_off. apply pcb_seg; [done|unfold flags_off, PCB_SIZE; lia..]. }
    assert (Hph : phys s (fd_slot (pcb_addr pid) fd + flags_off) = fd_slot (pcb_addr pid) fd + flags_off).
    { unfold KERNEL_START, KERNEL_END, flags_off in *. apply phys_kernel. unfold PROGRAM_PAGE. lia. }
    apply (changes_part _ _ _ _ _ _ (fd_slot (pcb_addr pid) fd) 16 (writes_st32 s _ OUT_OF_USE Hsg)); [..|by constructor];
      rewrite Hph; unfold flags_off; lia. }
  destruct (call_returns pid [(fd_slot (pcb_addr pid) fd, 16)] s (close (s32 fd)) 0 (upd_mem (λ _, m1) s) E) as (s' & E' & Hs & Hu' & Hm & Hsc).
  { by split. } { done. } { constructor; [by apply slot_harmless|done]. }
  exists s'. split; [exact E'|]. split; [exact Hs|]. split; [exact Hu'|]. split.
  - rewrite Hm, k_mem_upd. erewrite get_fd_table; [|lia|apply (set_flags_table s (pcb_addr pid) fd OUT_OF_USE Hpok); lia]. done.
  - rewrite Hsc. apply (screen_kept _ s m1 Hc). constructor; [|done]. cbn [fst snd]. unfold VIDEO, PAGE_BYTES, KERNEL_START in *. lia.
Qed.

(** Closing a descriptor that is closed: the kernel's message. *)
Lemma ece391_close_closed pid s fd :
  user_ok pid s → 2 <= fd < 8 → flags (get_fd s (pcb_addr pid) fd) = 0 →
  ∃ s', ece391_close fd s = Ret (-1) s' ∧ steps [(VIDEO, PAGE_BYTES)] s s' ∧ user_ok pid s' ∧
    abs_screen s' = scr_puts (bytes_of "system calls close failed") (abs_screen s).
Proof using HL.
  intros Hu Hfd Hfl. destruct (close_refused pid s fd (uo_process _ _ Hu) ltac:(done)) as (s1 & E & Hsay).
  unfold before_close, STDIN in Hsay. destruct (Z.eqb_spec fd 0); [lia|].
  apply (call_refused pid s _ (close (s32 fd)) (-1) s1 Hu); [|exact Hsay]. by rewrite s32_small by lia.
Qed.
End UserClock.
