(* ===== verification/UserLine.v ===== *)
(** * A program that reads a line

    The line typed at the terminal, read with [ece391_read] on descriptor 0:
    what is in the buffer, and that the machine is otherwise as before. *)

From S2P Require Import Prelude Memory LibMem LibStr Video State Runs Console Process FileSystem Terminal SysCalls Command Exec UserLib UserRun UserFiles Programs UserKeep.

Implicit Types s t : kernel.

Section UserLine.
Context {L : Layout} {HL : LayoutOK L}.

(** ** What is as before *)

(** The files and names, the processes, the stacks and the terminals, but for
    the line. *)
Record as_before (pid : Z) (l : list Z) (s s' : kernel) : Prop := {
  ab_user : user_ok pid s';
  ab_file : ∀ ino, file_ok s ino → file_ok s' ino ∧ file_size s' ino = file_size s ino ∧
    ∀ k, 0 <= k < file_size s ino → file_byte s' ino k = file_byte s ino k;
  ab_find : find_dentry s' (cmd_word l) = find_dentry s (cmd_word l);
  ab_entry : ∀ k, find_dentry s (cmd_word l) = Some k → dentry_type s' k = dentry_type s k ∧ dentry_inode s' k = dentry_inode s k;
  ab_proc : k_proc s' = k_proc s;
  ab_esp : esp s' = esp s;
  ab_ebp : ebp s' = ebp s;
  ab_base : image_base s' = image_base s ∧ image_bytes s' = image_bytes s;
  ab_active : active_terminal s' = active_terminal s;
  ab_others : ∀ j, j ≠ active_terminal s → term s' j = term s j;
  ab_number : process_num (term s' (active_terminal s)) = process_num (term s (active_terminal s));
}.

Lemma as_before_trans pid l s1 s2 s3 : as_before pid l s1 s2 → as_before pid l s2 s3 → as_before pid l s1 s3.
Proof.
  intros [] H2. destruct H2. split; try congruence.
  - intros ino Hf. destruct (ab_file0 ino Hf) as (H1 & H2 & H3). destruct (ab_file1 ino H1) as (H4 & H5 & H6).
    split_and!; [done|congruence|]. intros k Hk. rewrite H6 by (by rewrite H2). by apply H3.
  - intros k Hk. destruct (ab_entry0 k Hk), (ab_entry1 k); [congruence|]. split; congruence.
  - destruct ab_base0, ab_base1. split; congruence.
  - intros j Hj. rewrite ab_others1 by congruence. by apply ab_others0.
Qed.

Lemma as_before_steps os pid l s s' :
  user_ok pid s → Forall (harmless pid s) os → steps os s s' → as_before pid l s s'.
Proof using HL.
  intros Hu Ho Hs. pose proof (uo_process _ _ Hu) as Hpo.
  destruct (same_counts s s' (sp_fs _ _ _ Hs) (po_image _ _ Hpo) (steps_image os pid s s' Ho Hs)) as [H1 H2].
  split.
  - by apply (user_ok_steps os pid s).
  - intros ino Hf. by apply (same_file s s' (sp_fs _ _ _ Hs) (po_image _ _ Hpo) (steps_image os pid s s' Ho Hs)).
  - by apply (kept_find os pid).
  - intros k Hk. by apply (kept_dentry os pid s s' (cmd_word l)).
  - apply Hs.
  - apply Hs.
  - apply Hs.
  - unfold image_base, image_bytes. by rewrite H1, H2, (sp_fs _ _ _ Hs).
  - by rewrite (sp_term _ _ _ Hs).
  - intros j _. unfold term. by rewrite (sp_term _ _ _ Hs).
  - unfold term. by rewrite (sp_term _ _ _ Hs).
Qed.

(** The line is consumed: [read_flag] and [read_index] of its terminal. *)
Definition consumed (t : terminal_t) : terminal_t := set_read_flag 0 (set_read_index (read_index t + 1) t).

Lemma as_before_consumed pid l s :
  user_ok pid s → as_before pid l s (upd_terminal (active_terminal s) consumed s).
Proof.
  intros [[Hst [I1 I2 I3 I4] HN Hap Hcu] Hlow Hpg Hout Hsh Hline]. split.
  - split; [split; [exact Hst|split; [exact I1|exact I2|exact I3|exact I4]|exact HN|exact Hap|exact Hcu]
           |exact Hlow|exact Hpg|exact Hout|exact Hsh|].
    change (active_terminal (upd_terminal _ _ s)) with (active_terminal s). by rewrite term_upd_same.
  - intros ino [F1 F2 F3]. split; [split; [exact F1|exact F2|exact F3]|by split].
  - reflexivity.
  - by split.
  - reflexivity.
  - reflexivity.
  - reflexivity.
  - by split.
  - reflexivity.
  - intros j Hj. by apply term_upd_other.
  - by rewrite term_upd_same.
Qed.

(** ** Reading the line *)

(** Enter was pressed on the line [l] of the shown terminal. *)
Record line_ready (s : kernel) (l : list Z) : Prop := {
  lr_active : 0 <= active_terminal s < 3;
  lr_flag : read_flag (term s (active_terminal s)) = 1;
  lr_index : read_index (term s (active_terminal s)) = Z.of_nat (length l);
  lr_length : Z.of_nat (length l) <= BUFF_SIZE;
  lr_chars : Forall (λ c, 0 < c < 256) l;
  lr_bytes : ∀ i c, l !! i = Some c → ld8 s (keyboard_buffer (active_terminal s) (Z.of_nat i)) = c;
}.

Lemma stdin_harmless pid s : user_ok pid s → harmless pid s (fd_slot (pcb_addr pid) 0, 16).
Proof using HL.
  intros Hu. destruct (process_pcb pid s (uo_process _ _ Hu)) as (_ & _ & Hpid).
  pose proof (po_apart _ _ (uo_process _ _ Hu) _ _ (pcb_position pid Hpid)) as H1. cbn [fst snd] in H1.
  unfold harmless, fd_slot, PCB_SIZE in *. cbn [fst snd]. lia.
Qed.

Lemma keyboard_apart pid s a buf n :
  user_ok pid s → 0 <= a < 3 → in_page buf n → 0 < n → apart s buf n (keyboard_buffer a 0) 128.
Proof using HL.
  intros Hu Ha Hb Hn. pose proof (keyboard_buffer_kernel a Ha) as Hk. pose proof (uo_page _ _ Hu) as Hp.
  unfold KERNEL_START, KERNEL_END in *. unfold apart. rewrite (phys_kernel _ (keyboard_buffer a 0)) by (unfold PROGRAM_PAGE; lia).
  rewrite <- (Z.add_0_r buf), (user_phys s buf n 0) by (done || lia). destruct Hb. lia.
Qed.

(** What the read leaves in memory. *)
Definition typed (m : memory) (buf : Z) (l : list Z) : Prop :=
  (∀ i c, l !! i = Some c → ld8 m (buf + Z.of_nat i) = c) ∧ ld8 m (buf + Z.of_nat (length l)) = NL.

(** [read] makes descriptor 0 the terminal's before it calls it. *)
Definition with_stdin (pid : Z) (s : kernel) : kernel :=
  upd_mem (λ m, st32 m (fd_slot (pcb_addr pid) 0 + op_off) term_table) s.

Lemma with_stdin_writes pid s :
  0 <= pid < 6 → writes s (with_stdin pid s) (fd_slot (pcb_addr pid) 0) 16 (λ j, ld8 (with_stdin pid s) (fd_slot (pcb_addr pid) 0 + j)).
Proof.
  intros Hp. pose proof (slot_seg _ 0 (pcb_addr_ok pid Hp) ltac:(lia)) as Hs.
  apply (writes_inside s _ _ 16 op_off 4 (word_byte term_table)); [|done|unfold op_off; lia..].
  apply writes_st32, (seg_sub _ 16); [done|unfold op_off; lia..].
Qed.

(** Descriptors stay open or closed. *)
Definition same_flags (pid : Z) (m m' : memory) : Prop :=
  ∀ j, 0 <= j < 8 → flags (get_fd m' (pcb_addr pid) j) = flags (get_fd m (pcb_addr pid) j).

Lemma with_stdin_flags pid s : 0 <= pid < 6 → same_flags pid s (with_stdin pid s).
Proof.
  intros Hp j Hj. pose proof (pcb_addr_ok pid Hp) as Hpok.
  pose proof (set_op_table s (pcb_addr pid) 0 term_table Hpok ltac:(lia)) as H.
  change (k_mem (with_stdin pid s)) with (st32 s (fd_slot (pcb_addr pid) 0 + op_off) term_table).
  set (m := st32 s _ _) in *. pose proof (fd_table_lookup m (pcb_addr pid) j Hj) as H1. rewrite H in H1.
  destruct (Z.eqb_spec j 0) as [->|Hne].
  - rewrite list_lookup_insert_eq in H1 by (rewrite fd_table_length; lia). by apply Some_inj in H1 as <-.
  - rewrite list_lookup_insert_ne, fd_table_lookup in H1 by lia. by apply Some_inj in H1 as <-.
Qed.

Lemma read_stdin_dispatch pid s buf n :
  user_ok pid s → flags (get_fd s (pcb_addr pid) 0) ≠ 0 → u32 buf ≠ 0 →
  read 0 buf n s = terminal_read 0 buf n (with_stdin pid s).
Proof using HL.
  intros Hu Hfl Hb. destruct (process_pcb pid s (uo_process _ _ Hu)) as (Hpcb & Hpok & Hpid).
  unfold read. rewrite (bind_ret _ _ s (get_pcb s) s) by done. rewrite Hpcb.
  rewrite (bind_ret _ _ s (flags (get_fd s (pcb_addr pid) 0)) s) by done.
  unfold OUT_OF_USE, FD_MIN, FD_MAX, STDIN, STDOUT. apply Z.eqb_neq in Hfl, Hb. rewrite Hfl, Hb. cbn [orb Z.ltb Z.eqb Z.compare].
  rewrite (bind_ret _ _ s tt (with_stdin pid s)) by done.
  assert (Hop : ld32 (with_stdin pid s) (fd_slot (pcb_addr pid) 0 + op_off) = term_table).
  { unfold with_stdin. rewrite k_mem_upd, ld32_st32_same.
    - pose proof tables_range as ((H1 & H2) & _). by rewrite u32_small by lia.
    - rewrite slot_off. apply pcb_seg; [done|unfold op_off, PCB_SIZE; lia..]. }
  rewrite (bind_ret _ _ (with_stdin pid s) term_table (with_stdin pid s)) by (unfold gets; by rewrite Hop).
  unfold op_read. by rewrite Z.eqb_refl.
Qed.

Lemma with_stdin_line pid s a i :
  0 <= pid < 6 → 0 <= a < 3 → 0 <= i < 128 → ld8 (with_stdin pid s) (keyboard_buffer a i) = ld8 s (keyboard_buffer a i).
Proof using HL.
  intros Hp Ha Hi. pose proof (keyboard_buffer_kernel a Ha) as Hk. pose proof (slot_high pid 0 Hp ltac:(lia)) as Hs.
  pose proof (obj_sep 0 _ _ _ eq_refl (pcb_position pid Hp) ltac:(lia)) as H. cbn [fst snd] in H.
  pose proof (keyboard_buffer_add a i) as Hb. unfold KERNEL_START, KERNEL_END in *.
  apply (writes_frame _ _ _ _ _ _ (with_stdin_writes pid s Hp)).
  rewrite !phys_kernel by (unfold PROGRAM_PAGE; lia). unfold keyboard_buffer, fd_slot, PCB_SIZE in *. lia.
Qed.

(** The changes of reading a line of [n] bytes, its newline and its NUL. *)
Definition line_objects (pid : Z) (s : kernel) (buf n : Z) : list (Z * Z) :=
  [(fd_slot (pcb_addr pid) 0, 16); (page_at s buf, n)].

Lemma read_stdin_run pid s buf l n :
  user_ok pid s → flags (get_fd s (pcb_addr pid) 0) ≠ 0 → line_ready s l →
  in_page buf (Z.of_nat (length l) + 2) → 0 < n →
  ∃ m, read 0 buf n s = Ret (Z.of_nat (length l) + 1) (upd_terminal (active_terminal s) consumed (upd_mem (λ _, m) s)) ∧
    changes (line_objects pid s buf (Z.of_nat (length l) + 2)) s m ∧ typed m buf l ∧ same_flags pid s m.
Proof using HL.
  intros Hu Hfl [Ha Hrf Hri Hlen Hch Hby] Hb Hn. destruct (process_pcb pid s (uo_process _ _ Hu)) as (_ & _ & Hpid).
  pose proof (with_stdin_writes pid s Hpid) as Hw0. pose proof (page_seg _ _ Hb) as Hseg.
  pose proof (slot_high pid 0 Hpid ltac:(lia)) as Hslot. pose proof Hb as (Hb1 & _ & Hb3).
  unfold PROGRAM_PAGE, PROGRAM_PAGE_END, KERNEL_START, KERNEL_END in Hb1, Hb3, Hslot.
  assert (Hu32 : u32 buf ≠ 0) by (rewrite u32_small; lia).
  destruct (terminal_read_run (with_stdin pid s) 0 buf n) as (s' & E & Hw & _ & Hs').
  { exact Ha. } { exact Hu32. } { exact Hn. } { exact Hrf. } { change (0 <= read_index (term s (active_terminal s)) <= BUFF_SIZE). lia. }
  { change (term (with_stdin pid s)) with (term s). change (active_terminal (with_stdin pid s)) with (active_terminal s). by rewrite Hri. }
  { change (term (with_stdin pid s)) with (term s). change (active_terminal (with_stdin pid s)) with (active_terminal s). rewrite Hri.
    pose proof (keyboard_apart pid s (active_terminal s) buf _ Hu Ha Hb ltac:(lia)) as Hap.
    unfold apart in *. by rewrite !(writes_phys _ _ _ _ _ _ Hw0). }
  change (term (with_stdin pid s)) with (term s) in E, Hw. change (active_terminal (with_stdin pid s)) with (active_terminal s) in E, Hw.
  rewrite Hri in E, Hw.
  assert (Hchg : changes [(page_at s buf, Z.of_nat (length l) + 2)] (with_stdin pid s) (k_mem s')).
  { apply (changes_writes _ _ _ _ _ _ (page_at s buf) Hw); [|by constructor]. rewrite (writes_phys _ _ _ _ _ _ Hw0).
    rewrite <- (Z.add_0_r buf), (user_phys s buf _ 0 Hb) by lia. unfold page_at. lia. }
  exists (k_mem s'). split; [|split; [|split]].
  - rewrite (read_stdin_dispatch pid) by done. rewrite E. f_equal. exact Hs'.
  - apply (changes_trans _ _ (with_stdin pid s)).
    + apply (changes_writes _ _ _ _ _ _ (fd_slot (pcb_addr pid) 0) Hw0); [|by constructor].
      apply phys_kernel. unfold PROGRAM_PAGE. lia.
    + refine (changes_mono _ _ _ _ _ Hchg). intros o Ho. by right.
  - split.
    + intros i c Hi. pose proof (lookup_lt_Some _ _ _ Hi) as Hlt. rewrite (writes_at _ _ _ _ _ _ Hw Hseg) by lia.
      rewrite <- (Hby i c Hi). bcase; try lia. unfold BUFF_SIZE in *. apply with_stdin_line; (done || lia).
    + rewrite (writes_at _ _ _ _ _ _ Hw Hseg) by lia. bcase.
  - intros j Hj. rewrite <- (with_stdin_flags pid s Hpid j Hj). f_equal.
    apply (kept_slot [(page_at s buf, Z.of_nat (length l) + 2)] pid (with_stdin pid s) (k_mem s') j Hpid Hj); [exact Hchg|].
    pose proof (slot_high pid j Hpid Hj). pose proof (page_high pid s buf _ Hu Hb). constructor; [|done]. cbn [fst snd]. lia.
Qed.

Lemma line_harmless pid s buf n : user_ok pid s → in_page buf n → Forall (harmless pid s) (line_objects pid s buf n).
Proof using HL.
  intros Hu Hb. apply List.Forall_cons; [by apply stdin_harmless|]. apply List.Forall_cons; [by apply page_harmless|done].
Qed.

Lemma ece391_read_line pid s buf l n :
  user_ok pid s → flags (get_fd s (pcb_addr pid) 0) ≠ 0 → line_ready s l →
  in_page buf (Z.of_nat (length l) + 2) → 0 < n < 2147483648 →
  ∃ s', ece391_read 0 buf n s = Ret (Z.of_nat (length l) + 1) s' ∧ (∀ w, as_before pid w s s') ∧ typed s' buf l ∧
    changes (line_objects pid s buf (Z.of_nat (length l) + 2)) s s' ∧ abs_screen s' = abs_screen s ∧ same_flags pid s s'.
Proof using HL.
  intros Hu Hfl Hl Hb Hn. destruct (read_stdin_run pid s buf l n Hu Hfl Hl Hb ltac:(lia)) as (m & E & Hc & Ht & Hfls).
  set (s0 := sti (cli (upd_mem (λ _, m) s))). pose proof (line_harmless pid s buf _ Hu Hb) as Hh.
  assert (Hs0 : steps (line_objects pid s buf (Z.of_nat (length l) + 2)) s s0) by (by split).
  exists (upd_terminal (active_terminal s) consumed s0). split; [|split; [|split; [exact Ht|split; [exact Hc|split; [|exact Hfls]]]]].
  - unfold ece391_read, system_call. change (s32 SYS_READ) with 3. cbn [Z.ltb Z.eqb Z.compare Pos.compare Pos.compare_cont orb Pos.eqb].
    rewrite (s32_small n) by lia. change (s32 0) with 0. by rewrite (bind_ret _ _ _ _ _ E).
  - intros w. pose proof (as_before_steps _ pid w s s0 Hu Hh Hs0) as H0. apply (as_before_trans pid w s s0); [exact H0|].
    exact (as_before_consumed pid w s0 (ab_user _ _ _ _ H0)).
  - change (abs_screen (upd_mem (λ _, m) s) = abs_screen s). apply (screen_kept _ s m Hc).
    destruct (process_pcb pid s (uo_process _ _ Hu)) as (_ & _ & Hpid).
    pose proof (slot_high pid 0 Hpid ltac:(lia)). pose proof (page_high pid s buf _ Hu Hb).
    unfold line_objects, VIDEO, PAGE_BYTES, KERNEL_START, KERNEL_END in *. each_segment.
Qed.

Lemma line_ready_steps os s s' l :
  steps os s s' → Forall outside os → line_ready s l → line_ready s' l.
Proof using HL.
  intros Hs Ho [H1 H2 H3 H4 H5 H6]. assert (Ht : ∀ j, term s' j = term s j) by (intros j; unfold term; by rewrite (sp_term _ _ _ Hs)).
  assert (Ha : active_terminal s' = active_terminal s) by (by rewrite (sp_term _ _ _ Hs)).
  split; rewrite ?Ha, ?Ht; [done..|]. intros i c Hi. rewrite <- (H6 i c Hi).
  pose proof (keyboard_buffer_kernel _ H1) as Hk. unfold KERNEL_START, KERNEL_END in Hk.
  pose proof (lookup_lt_Some _ _ _ Hi). unfold BUFF_SIZE in H4. rewrite keyboard_buffer_add.
  apply (changes_seg os s s' _ 128 _ (sp_changes _ _ _ Hs)); [lia|unfold PROGRAM_PAGE; lia| |lia].
  eapply List.Forall_impl; [|exact Ho]. intros o. unfold outside, KERNEL_START, KERNEL_END. lia.
Qed.

(** ** A prompt and the line *)

Context (lit : string → Z).

(** A literal apart from the buffer at [buf] stays when a byte of it is stored. *)
Lemma literal_stored pid s s' buf sz k text :
  user_ok pid s → steps [(page_at s (buf + k), 1)] s s' → in_page buf sz → 0 <= k < sz →
  literal lit s text → apart_from lit text buf sz → literal lit s' text.
Proof using HL.
  intros Hu Hs (H1 & _ & H3) Hk Hl Hap. unfold apart_from in Hap.
  apply (kept_literal lit _ pid s s' _ Hu Hs Hl). constructor; [|done]. right. exists (buf + k), 1.
  unfold in_page, apart_from. split_and!; [lia..|done|lia].
Qed.

Lemma prompt_line pid s prompt buf sz l n :
  user_ok pid s → literal lit s prompt → flags (get_fd s (pcb_addr pid) 0) ≠ 0 → line_ready s l → in_page buf sz →
  Z.of_nat (length l) + 2 <= sz → 0 < n < 2147483648 →
  ∃ s1 s2, put lit prompt s = Ret tt s1 ∧ ece391_read 0 buf n s1 = Ret (Z.of_nat (length l) + 1) s2 ∧
    (∀ w, as_before pid w s s2) ∧ typed s2 buf l ∧
    (∀ text, literal lit s text → apart_from lit text buf sz → literal lit s2 text) ∧
    abs_screen s2 = scr_puts (bytes_of prompt) (abs_screen s) ∧ same_flags pid s s2.
Proof using HL.
  intros Hu Hp Hfl Hl Hb Hsz Hn. pose proof (lr_length _ _ Hl) as Hlen. unfold BUFF_SIZE in Hlen.
  assert (Hb2 : in_page buf (Z.of_nat (length l) + 2)) by (destruct Hb as (?&?&?); split_and!; lia).
  destruct (process_pcb pid s (uo_process _ _ Hu)) as (_ & _ & Hpid).
  destruct (ece391_fdputs_run pid (lit prompt) _ s Hu Hp) as (s1 & E1 & Hs1 & Hu1 & Hsc1).
  assert (Hv : Forall outside [(VIDEO, PAGE_BYTES)]) by (constructor; [apply video_outside|done]).
  assert (Hvh : Forall (harmless pid s) [(VIDEO, PAGE_BYTES)]) by (constructor; [by apply video_harmless|done]).
  destruct (ece391_read_line pid s1 buf l n Hu1) as (s2 & E2 & Hab2 & Ht2 & Hc2 & Hsc2 & Hfl2);
    [by rewrite (kept_fd _ pid s s1 0 Hpid ltac:(lia) Hs1 Hv)|by apply (line_ready_steps _ s s1 l Hs1 Hv)|exact Hb2|done|].
  exists s1, s2. split; [exact E1|]. split; [exact E2|]. split; [|split; [exact Ht2|split; [|split; [by rewrite Hsc2, Hsc1|]]]].
  - intros w. apply (as_before_trans pid w s s1); [by apply (as_before_steps [(VIDEO, PAGE_BYTES)])|apply Hab2].
  - intros text Ht Hap. destruct Hb as (H1 & _ & H3). unfold apart_from in Hap.
    assert (Hl1 : literal lit s1 text).
    { apply (kept_literal lit _ pid s s1 _ Hu Hs1 Ht). constructor; [by left|done]. }
    apply (literal_changes lit _ pid s1 s2 _ Hu1 Hc2 Hl1). constructor; [left; apply slot_high; [done|lia]|].
    constructor; [|done]. right. exists buf, (Z.of_nat (length l) + 2). unfold in_page, apart_from. split_and!; [lia..|done|lia].
  - intros j Hj. by rewrite (Hfl2 j Hj), (kept_fd _ pid s s1 j Hpid Hj Hs1 Hv).
Qed.
End UserLine.
