(* ===== verification/UserExample.v ===== *)
(** * A machine that runs a program, for the witnesses

    The example image with an entry for the directory itself; process 0 has its
    console descriptors and the argument [f]; the literals of the programs are
    in the program page; the line [f x] was typed. *)

From S2P Require Import Prelude Memory LibMem LibStr Video State Runs Console Process FileSystem Terminal Paging SysCalls Command Exec UserLib UserRun UserFiles Programs UserKeep.

Implicit Types s : kernel.

(** The literals of the programs the witnesses run, 64 bytes each. *)
Definition example_literals : list string :=
  ["391OS> "; "exit"; with_newline "no such command"; "."; with_newline "directory open failed";
   with_newline "could not read arguments"; with_newline "file not found";
   with_newline "Hello, if this ran, the program was correct. Yay!";
   with_newline "Enter the Test Number: (0): 100, (1): 10000, (2): 100000"; with_newline "Wrong Choice!"; with_newline "";
   "Choose from tests 1-8. 0 to run all: "; with_newline "err_neg_fd: PASS"; with_newline "err_big_fd: PASS";
   with_newline "err_open_lots: PASS"; with_newline "err_open: PASS"; with_newline "err_unopened: PASS";
   with_newline "err_vidmap: PASS"; with_newline "err_stdin_out: PASS"; with_newline "err_syscall_num: PASS";
   on_new_line (with_newline "Overall Tests: PASS"); "Invalid test number. Choose from tests 1-8 or 0";
   "helloo"; "shel"; ""].

Fixpoint literal_at (a : Z) (ls : list string) (text : string) : Z :=
  match ls with
  | [] => a
  | t :: ls' => if String.eqb t text then a else literal_at (a + 64) ls' text
  end.
Definition example_lit : string → Z := literal_at 0x8200000 example_literals.

Definition store_literals (m : memory) : memory :=
  foldl (λ m t, store_bytes (example_lit t) (bytes_of t) m) m example_literals.

Definition program_stores : list (Z * Z) :=
  [(0x5000C0, 0x2E); (0x5000C0 + 32, 1);
   (fd_slot 0x7FE000 0 + flags_off, 1);
   (fd_slot 0x7FE000 1 + op_off, 0x411000); (fd_slot 0x7FE000 1 + flags_off, 1);
   (0x7FE000 + arguments_off, 0x66)].

(** The line of [n] characters, at most four, that was typed. *)
Definition typed_image (n line : Z) : kernel :=
  set_occupant 0 (-1) (upd_terminal 0 (λ t, set_read_flag 1 (set_read_index n t))
    (upd_mem (λ m, store_literals (foldl (λ m '(a, v), st32 m a v) m ((0x410008, line) :: program_stores))) example_image)).

Definition program_image : kernel := typed_image 3 0x782066.
Definition count_image : kernel := typed_image 1 0x30.

(** A machine for fish and pingpong: two files of one block each, "AB" with "C"
    below it and "X "; the clock; descriptors 2 to 7 free; the page directory
    entry of the program. *)
Definition fish_stores : list (Z * Z) :=
  [(0x500100, 0x637472);
   (0x500140, 0x6D617266); (0x500144, 0x742E3065); (0x500148, 0x7478); (0x500140 + 32, 2);
   (0x500180, 0x6D617266); (0x500184, 0x742E3165); (0x500188, 0x7478); (0x500180 + 32, 2); (0x500180 + 36, 1);
   (0x500000 + 4096, 4); (0x500000 + 4096 + 4, 1); (0x504000, 0x430A4241);
   (0x500000 + 8192, 2); (0x505000, 0x2058);
   (fd_slot 0x7FE000 2 + flags_off, 0); (fd_slot 0x7FE000 3 + flags_off, 0);
   (0x8300000, 0x637472);
   (0x8300010, 0x6D617266); (0x8300014, 0x742E3065); (0x8300018, 0x7478);
   (0x8300020, 0x6D617266); (0x8300024, 0x742E3165); (0x8300028, 0x7478)].
Definition fish_image : kernel :=
  set_pde 32 (program_pde 0) (upd_mem (λ m, foldl (λ m '(a, v), st32 m a v) m fish_stores) program_image).
Definition fish_lit (text : string) : Z := if String.eqb text "rtc" then 0x8300000 else 0.

Lemma program_file_ok : file_ok program_image 1.
Proof.
  split; [split; vm_compute; congruence..|]. intros k Hk Hlt. assert (k = 0 ∨ k = 1) as [-> | ->].
  { assert (file_size program_image 1 = 5000) as E by (vm_compute; reflexivity). rewrite E in Hlt. lia. }
  all: split; vm_compute; congruence.
Qed.

(** Both machines can run a program. *)
Lemma machine_apart s :
  image_base s = 0x500000 → image_base s + image_bytes s = 0x506000 → image_apart (L := example_layout) s.
Proof.
  intros Hb He i o Hi. rewrite He, Hb.
  assert (Hall : forallb (λ o, (o.1 + o.2 <=? 0x500000) || (0x506000 <=? o.1)) (objects (H := example_layout) ++ pcb_objects) = true)
    by (vm_compute; reflexivity).
  rewrite forallb_forall in Hall. specialize (Hall o).
  rewrite orb_true_iff, !Z.leb_le in Hall. apply Hall, list_elem_of_In, list_elem_of_lookup. by exists i.
Qed.

Ltac machine_runs :=
  split; [split|vm_compute; split; congruence|vm_compute; congruence|by vm_compute|left; by vm_compute|vm_compute; congruence];
  [vm_compute; split; split; congruence|split; first [vm_compute; reflexivity|vm_compute; congruence]
  |by vm_compute|apply machine_apart; vm_compute; reflexivity|by vm_compute].

Lemma program_user_ok : user_ok (L := example_layout) 0 program_image.
Proof. machine_runs. Qed.

Lemma count_user_ok : user_ok (L := example_layout) 0 count_image.
Proof. machine_runs. Qed.

Lemma fish_user_ok : user_ok (L := example_layout) 0 fish_image.
Proof. machine_runs. Qed.

(** The literals, checked in a machine by computation. *)
Definition literals_check (s : kernel) : bool :=
  forallb (λ t, cstring_check s (example_lit t) (bytes_of t) && (PROGRAM_PAGE <=? example_lit t) &&
                (example_lit t + (Z.of_nat (length (bytes_of t)) + 1) <=? PROGRAM_PAGE_END)) example_literals.

Lemma literal_checked s text : literals_check s = true → text ∈ example_literals → literal example_lit s text.
Proof.
  unfold literals_check. intros H Ht. rewrite forallb_forall in H. specialize (H text (proj1 (list_elem_of_In _ _) Ht)).
  rewrite !andb_true_iff, !Z.leb_le in H. destruct H as [[H1 H2] H3].
  split; [by apply cstring_checked|split_and!; [done|lia|done]].
Qed.

Lemma program_literal text : text ∈ example_literals → literal example_lit program_image text.
Proof. apply literal_checked. vm_compute. reflexivity. Qed.

Lemma count_literal text : text ∈ example_literals → literal example_lit count_image text.
Proof. apply literal_checked. vm_compute. reflexivity. Qed.
