(* ===== verification/Cat.v ===== *)
(** * What ece391cat.c does

    cat prints the file its argument names, byte for byte, and returns 0; it
    says what is wrong otherwise. *)

From S2P Require Import Prelude Memory LibMem LibStr Video State Runs Console Process FileSystem Terminal SysCalls Exec UserLib UserRun UserFiles Programs UserKeep UserExample.

Implicit Types s t : kernel.

Section Cat.
Context {L : Layout} {HL : LayoutOK L}.

(** ** ece391cat.c *)

Context (lit : string → Z).

(** What a turn of cat's loop changes. *)
Definition cat_objects (pid : Z) (s : kernel) (fd buf : Z) : list (Z * Z) :=
  (VIDEO, PAGE_BYTES) :: read_objects pid s fd buf 1024.

Lemma cat_turn pid t fd ino pos buf :
  user_ok pid t → 2 <= fd < 8 → reading pid t fd ino pos → in_page buf 1024 → pos <= file_size t ino →
  let n := read_count (file_size t ino) pos 1024 in
  runs (cat_step lit buf fd tt) t (λ x t', user_ok pid t' ∧ steps (cat_objects pid t fd buf) t t' ∧
    reading pid t' fd ino (pos + n) ∧ abs_screen t' = scr_write (file_range t ino pos n) (abs_screen t) ∧
    x = if n =? 0 then inr 0 else inl tt).
Proof using HL.
  intros Hu Hfd Hrd Ha Hpos n. pose proof (file_size_bound _ _ (rd_file _ _ _ _ _ Hrd)) as Hsz.
  destruct (process_pcb pid t (uo_process _ _ Hu)) as (_ & _ & Hpid).
  assert (Hp0 : 0 <= pos).
  { change pos with (file_pos (mkFd file_table ino pos 1)). rewrite <- (rd_fd _ _ _ _ _ Hrd). cbn [get_fd file_pos]. apply ld32_range. }
  pose proof (read_count_bounds (file_size t ino) pos 1024 ltac:(lia) Hp0 ltac:(lia)) as [Hn _]. fold n in Hn.
  destruct (ece391_read_file pid t fd ino pos buf 1024 Hu Hfd Hrd Ha ltac:(lia) ltac:(lia)) as (t1 & E & Hs & Hu1 & Hf & Hb & Hsc).
  fold n in E, Hf, Hb. pose proof (read_harmless pid t fd buf 1024 Hu Hfd Ha) as Hh.
  destruct (kept_file _ pid t t1 ino 0 0 Hu Hh Hs (rd_file _ _ _ _ _ Hrd) ltac:(lia) ltac:(lia)) as (Hf1 & _ & _).
  assert (Hs1 : steps (cat_objects pid t fd buf) t t1) by by (apply steps_tail, Hs).
  unfold cat_step. apply runs_bind. apply (runs_eq _ _ _ _ _ E).
  destruct (Z.eqb_spec n 0) as [Hz|Hnz].
  - apply runs_ret. split_and!; [done..|by split|by rewrite Hsc, Hz|done].
  - destruct (Z.eqb_spec n (-1)); [lia|].
    assert (Ha1 : in_page buf n) by (destruct Ha as (?&?&?); split_and!; lia).
    destruct (ece391_write_run pid buf n t1 Hu1 Ha1 ltac:(lia)) as (t2 & E2 & Hs2 & Hu2 & Hsc2).
    apply runs_bind. apply (runs_eq _ _ _ _ _ E2). destruct (Z.eqb_spec n (-1)); [lia|]. apply runs_ret.
    destruct (kept_file _ pid t1 t2 ino 0 0 Hu1 ltac:(by constructor; [apply outside_harmless, video_outside|]) Hs2 Hf1
      ltac:(lia)) as (Hf2 & _ & _); [by apply file_size_bound in Hf1; lia|].
    split_and!; [done| | |by rewrite Hsc2, Hb, Hsc|done].
    + apply (steps_trans _ _ t1); [done|]. apply steps_head, Hs2.
    + split; [|done]. rewrite <- Hf. apply (kept_fd [(VIDEO, PAGE_BYTES)]); [lia..|done|].
      by constructor; [apply video_outside|].
Qed.

Lemma cat_harmless pid t fd buf :
  user_ok pid t → 2 <= fd < 8 → in_page buf 1024 → Forall (harmless pid t) (cat_objects pid t fd buf).
Proof using HL.
  intros Hu Hfd Ha. apply List.Forall_cons; [by apply outside_harmless, video_outside|by apply read_harmless].
Qed.

Lemma cat_loop pid s fd ino buf :
  user_ok pid s → 2 <= fd < 8 → reading pid s fd ino 0 → in_page buf 1024 →
  runs (iter_M (cat_step lit buf fd) tt) s (λ r s', r = 0 ∧ user_ok pid s' ∧ steps (cat_objects pid s fd buf) s s' ∧
    abs_screen s' = scr_write (file_text s ino) (abs_screen s)).
Proof using HL.
  intros Hu Hfd Hrd Ha. pose proof (file_size_bound _ _ (rd_file _ _ _ _ _ Hrd)) as Hsz.
  pose proof (cat_harmless pid s fd buf Hu Hfd Ha) as Hh.
  apply (runs_iter _ _ _
    (λ _ t, user_ok pid t ∧ steps (cat_objects pid s fd buf) s t ∧ ∃ pos, 0 <= pos <= file_size s ino ∧
       reading pid t fd ino pos ∧ abs_screen t = scr_write (file_range s ino 0 pos) (abs_screen s))
    (λ _ t, file_size s ino - file_pos (get_fd t (pcb_addr pid) fd))).
  - split_and!; [done|apply steps_refl|]. exists 0. split_and!; [lia..|done|done].
  - rewrite (rd_fd _ _ _ _ _ Hrd). cbn [file_pos]. lia.
  - intros [] t (Hut & Hst & pos & Hpos & Hrt & Hsc) _.
    destruct (kept_file _ pid s t ino pos 0 Hu Hh Hst (rd_file _ _ _ _ _ Hrd) ltac:(lia) ltac:(lia)) as (_ & Hsize & _).
    eapply runs_mono; [apply (cat_turn pid t fd ino pos buf Hut Hfd Hrt Ha); lia|].
    cbn beta. intros x t' (Hu' & Hs' & Hr' & Hsc' & ->). rewrite Hsize in Hr', Hsc' |- *.
    set (n := read_count (file_size s ino) pos 1024) in *.
    assert (Hn : 0 <= n ∧ pos + n <= file_size s ino ∧ (n = 0 → pos = file_size s ino)).
    { subst n. unfold read_count. bcase; lia. }
    destruct (kept_file _ pid s t ino pos n Hu Hh Hst (rd_file _ _ _ _ _ Hrd) ltac:(lia) ltac:(lia)) as (_ & _ & Hrange).
    assert (Hall : abs_screen t' = scr_write (file_range s ino 0 (pos + n)) (abs_screen s)).
    { by rewrite Hsc', Hrange, Hsc, <- scr_write_app, (file_range_app s ino 0 pos n), Z.add_0_l by lia. }
    assert (Hst' : steps (cat_objects pid s fd buf) s t').
    { apply (steps_trans _ _ t); [done|]. unfold cat_objects, read_objects in *. by rewrite (steps_page _ _ _ _ Hst) in Hs'. }
    destruct (Z.eqb_spec n 0) as [Hz|Hnz]; cbv beta iota.
    + do 3 (split; [done|]). rewrite Hall. unfold file_text. do 2 f_equal. lia.
    + rewrite (rd_fd _ _ _ _ _ Hr'), (rd_fd _ _ _ _ _ Hrt). cbn [file_pos]. split; [|lia].
      split_and!; [done..|]. exists (pos + n). split_and!; [lia..|done|done].
Qed.

(** What cat says and returns when its argument is [args]. *)
Definition cat_result (s : kernel) (args : list Z) : Z * list Z :=
  match args with
  | [] => (3, bytes_of "No arguments " ++ bytes_of (with_newline "could not read arguments"))
  | _ =>
      match find_dentry s args with
      | None => (2, bytes_of "read dentry by name failed : system calls open" ++ bytes_of (with_newline "file not found"))
      | Some k => (0, filter (λ c, c ≠ 0) (file_text s (dentry_inode s k)))
      end
  end.

(** What cat relies on: its argument, its messages, and, when the argument
    names a file, that this is a regular one and a descriptor is free. *)
Record can_cat (pid : Z) (s : kernel) (args : list Z) (buf : Z) : Prop := {
  cc_user : user_ok pid s;
  cc_buf : in_page buf 1024;
  cc_args : cstring s (pcb_addr pid + arguments_off) args;
  cc_length : Z.of_nat (length args) < ARG_SIZE;
  cc_no_args : literal lit s (with_newline "could not read arguments");
  cc_not_found : literal lit s (with_newline "file not found");
  cc_apart : apart_from lit (with_newline "file not found") buf 1024;
  cc_file : ∀ k, args ≠ [] → find_dentry s args = Some k →
    dentry_type s k = 2 ∧ file_ok s (dentry_inode s k) ∧ ∃ i, free_fd s = Some i ∧ 2 <= i;
}.

Lemma cat_no_args pid s buf :
  can_cat pid s [] buf → runs (cat_main lit buf) s (λ r s', r = (cat_result s []).1 ∧ user_ok pid s' ∧
    abs_screen s' = scr_puts (cat_result s []).2 (abs_screen s)).
Proof using HL.
  intros [Hu _ Ha _ Hl _ _ _]. destruct (ece391_getargs_none pid buf 1024 s Hu) as (s1 & E & Hs & Hu1 & Hsc).
  { rewrite <- (Z.add_0_r (_ + arguments_off)). apply Ha. }
  assert (Hl1 : literal lit s1 (with_newline "could not read arguments")).
  { apply (kept_literal lit _ pid s s1 _ Hu Hs Hl). constructor; [by left|done]. }
  unfold cat_main. apply runs_bind, (runs_eq _ _ _ _ _ E). cbn [Z.eqb negb].
  eapply runs_step; [exact (put_message lit pid s1 _ Hu1 Hl1)|]. cbn beta. intros _ s2 [Hu2 Hsc2]. apply runs_ret.
  split_and!; [done..|]. cbn [cat_result snd]. by rewrite scr_puts_app, <- Hsc.
Qed.

(** After [ece391_getargs]: the name in the buffer, the rest as before. *)
Record got_args (pid : Z) (s : kernel) (args : list Z) (buf : Z) (s1 : kernel) : Prop := {
  ga_user : user_ok pid s1;
  ga_name : is_name s1 buf args;
  ga_not_found : literal lit s1 (with_newline "file not found");
  ga_screen : abs_screen s1 = abs_screen s;
  ga_find : find_dentry s1 args = find_dentry s args;
  ga_entry : ∀ k, find_dentry s args = Some k → dentry_type s1 k = dentry_type s k ∧ dentry_inode s1 k = dentry_inode s k;
  ga_file : ∀ ino, file_ok s ino → file_ok s1 ino ∧ file_text s1 ino = file_text s ino;
  ga_free : free_fd s1 = free_fd s;
}.

Lemma cat_gets_args pid s args buf :
  can_cat pid s args buf → args ≠ [] → ∃ s1, ece391_getargs buf 1024 s = Ret 0 s1 ∧ got_args pid s args buf s1.
Proof using HL.
  intros [Hu Ha Hc Hlen _ Hl Hap _] Hne. unfold ARG_SIZE in Hlen.
  assert (Ha1 : in_page buf ARG_SIZE) by (unfold ARG_SIZE; destruct Ha as (?&?&?); split_and!; lia).
  destruct (ece391_getargs_run pid buf 1024 s args Hu Ha1) as (s1 & E1 & Hs1 & Hu1 & Hc1 & Hsc1); [by split_and!|].
  assert (Ho1 : Forall outside [(page_at s buf, ARG_SIZE)]) by (constructor; [by apply (page_outside pid)|done]).
  assert (Hh1 : Forall (harmless pid s) [(page_at s buf, ARG_SIZE)]).
  { eapply List.Forall_impl; [|exact Ho1]. intros o. by apply outside_harmless. }
  exists s1. split; [done|]. split; [done| | |done|..].
  - destruct Ha as (H1 & _ & H3). unfold PROGRAM_PAGE, PROGRAM_PAGE_END in *.
    split_and!; [rewrite u32_small; lia|done|done|unfold NAME_SIZE; lia].
  - apply (kept_literal lit _ pid s s1 _ Hu Hs1 Hl). constructor; [|done]. right. exists buf, ARG_SIZE. split; [done|]. split; [done|].
    unfold apart_from, ARG_SIZE in *. lia.
  - apply (kept_find _ pid s s1 args Hu Hh1 Hs1).
  - intros k. apply (kept_dentry _ pid s s1 args k Hu Hh1 Hs1).
  - intros ino. apply (kept_text _ pid s s1 ino Hu Hh1 Hs1).
  - apply (kept_free_fd _ pid s s1 Hu Hu1 Hs1 Ho1).
Qed.

Lemma cat_missing pid s args buf :
  can_cat pid s args buf → args ≠ [] → find_dentry s args = None →
  runs (cat_main lit buf) s (λ r s', r = 2 ∧ user_ok pid s' ∧
    abs_screen s' = scr_puts (bytes_of (with_newline "file not found"))
      (scr_puts (bytes_of "read dentry by name failed : system calls open") (abs_screen s))).
Proof using HL.
  intros Hcc Hne Hk. destruct (cat_gets_args pid s args buf Hcc Hne) as (s1 & E1 & [Hu1 Hn1 Hl1 Hsc1 Hf1 _ _ _]).
  rewrite Hk in Hf1. destruct (ece391_open_missing pid buf s1 args Hu1 Hn1 Hf1) as (s2 & E2 & Hs2 & Hu2 & Hsc2).
  assert (Hl2 : literal lit s2 (with_newline "file not found")).
  { apply (kept_literal lit _ pid s1 s2 _ Hu1 Hs2 Hl1). constructor; [by left|done]. }
  unfold cat_main. apply runs_bind, (runs_eq _ _ _ _ _ E1). cbn [Z.eqb negb].
  apply runs_bind, (runs_eq _ _ _ _ _ E2). cbn [Z.eqb Pos.eqb].
  eapply runs_step; [exact (put_message lit pid s2 _ Hu2 Hl2)|]. cbn beta. intros _ s3 [Hu3 Hsc3]. apply runs_ret.
  split; [done|]. split; [done|]. by rewrite Hsc3, Hsc2, Hsc1.
Qed.

Lemma cat_found pid s args buf k :
  can_cat pid s args buf → args ≠ [] → find_dentry s args = Some k →
  runs (cat_main lit buf) s (λ r s', r = 0 ∧ user_ok pid s' ∧
    abs_screen s' = scr_write (file_text s (dentry_inode s k)) (abs_screen s)).
Proof using HL.
  intros Hcc Hne Hk. destruct (cc_file _ _ _ _ Hcc k Hne Hk) as (Hty & Hf & i & Hi & Hi2).
  destruct (cat_gets_args pid s args buf Hcc Hne) as (s1 & E1 & [Hu1 Hn1 _ Hsc1 Hf1 He1 Ht1 Hfr1]).
  destruct (He1 k Hk) as [Hty1 Hino1]. destruct (Ht1 _ Hf) as [Hok1 Htx1]. set (ino := dentry_inode s k) in *.
  destruct (ece391_open_run pid buf s1 args k (mkFd file_table ino 0 1) i Hu1 Hn1) as (s2 & E2 & Hs2 & Hu2 & Hfd2 & Hsc2);
    [by rewrite Hf1|by rewrite Hty1, Hino1, Hty|by rewrite Hfr1|done|].
  pose proof (find_first_spec _ _ _ _ Hi) as (Hi8 & _ & _).
  destruct (kept_text _ pid s1 s2 ino Hu1 (open_harmless pid s1 i Hu1 ltac:(lia)) Hs2 Hok1) as [Hok2 Htx2].
  unfold cat_main. apply runs_bind, (runs_eq _ _ _ _ _ E1). cbn [Z.eqb negb].
  apply runs_bind, (runs_eq _ _ _ _ _ E2). destruct (Z.eqb_spec i (-1)); [lia|].
  eapply runs_mono; [apply (cat_loop pid s2 i ino buf Hu2 ltac:(lia)); [by split|apply Hcc]|].
  cbn beta. intros r s' (-> & Hu' & _ & ->). split; [done|]. split; [done|]. by rewrite Htx2, Htx1, Hsc2, Hsc1.
Qed.

Lemma cat_run pid s args buf :
  can_cat pid s args buf → runs (cat_main lit buf) s (λ r s', r = (cat_result s args).1 ∧ user_ok pid s' ∧
    abs_screen s' = scr_puts (cat_result s args).2 (abs_screen s)).
Proof using HL.
  intros Hcc. destruct args as [|c args]; [by apply cat_no_args|]. cbn [cat_result].
  destruct (find_dentry s (c :: args)) as [k|] eqn:Hk; cbn [fst snd].
  - by apply (cat_found pid s (c :: args) buf k).
  - rewrite scr_puts_app. by apply (cat_missing pid s (c :: args) buf).
Qed.

End Cat.

(** C12: the program cat, with its system calls, prints the file its argument
    names, byte for byte but for the NULs the terminal skips, and returns 0;
    without an argument it returns 3, for a name that is not in the directory 2,
    with the kernel's message and its own on the screen. *)
Theorem cat_correct {L : Layout} {HL : LayoutOK L} (lit : string → Z) (pid : Z) (s : kernel) (args : list Z) (buf : Z) :
  can_cat lit pid s args buf →
  runs (cat_main lit buf) s (λ r s', r = (cat_result s args).1 ∧ user_ok pid s' ∧
    abs_screen s' = scr_puts (cat_result s args).2 (abs_screen s)).
Proof. apply cat_run. Qed.

Lemma cat_correct_witness :
  can_cat (L := example_layout) example_lit 0 program_image [0x66] 0x8300000 ∧
  runs (cat_main (L := example_layout) example_lit 0x8300000) program_image (λ r s', r = 0 ∧
    abs_screen s' = scr_puts (filter (λ c, c ≠ 0) (file_text program_image 1)) (abs_screen program_image)).
Proof.
  assert (Hc : can_cat (L := example_layout) example_lit 0 program_image [0x66] 0x8300000).
  { split; [exact program_user_ok|split_and!; closed_compare|apply cstring_checked; by vm_compute|by vm_compute
      |apply program_literal; by do 5 right; left|apply program_literal; by do 6 right; left|left; closed_compare|].
    intros k _ Hk. replace (find_dentry program_image [0x66]) with (Some 0) in Hk by (vm_compute; reflexivity).
    injection Hk as <-. split; [by vm_compute|]. split; [|exists 4; split; [by vm_compute|lia]].
    replace (dentry_inode program_image 0) with 1 by (vm_compute; reflexivity). exact program_file_ok. }
  split; [exact Hc|]. eapply runs_mono; [exact (cat_correct (L := example_layout) example_lit 0 program_image [0x66] 0x8300000 Hc)|].
  cbn beta. intros r s' (-> & _ & ->). unfold cat_result.
  replace (find_dentry program_image [0x66]) with (Some 0) by (vm_compute; reflexivity).
  replace (dentry_inode program_image 0) with 1 by (vm_compute; reflexivity). by split.
Defined.
