(* ===== verification/Ls.v ===== *)
(** * What ece391ls.c does

    ls prints the names of the directory's first 17 entries, a line each, as
    many as the kernel lets a program read. *)

From S2P Require Import Prelude Memory LibMem LibStr Video State Runs Console Process FileSystem Terminal SysCalls Exec UserLib UserRun UserFiles Programs UserKeep UserExample.

Implicit Types s t : kernel.

Section Ls.
Context {L : Layout} {HL : LayoutOK L}.
Context (lit : string → Z).

(** The names in the directory, a line each. *)
Definition directory_lines (s : kernel) (n : Z) : list Z := mjoin ((λ k, dentry_name s k ++ [NL]) <$> seqZ 0 n).

Lemma directory_lines_snoc s n : 0 <= n → directory_lines s (n + 1) = directory_lines s n ++ dentry_name s n ++ [NL].
Proof.
  intros Hn. unfold directory_lines. rewrite seqZ_app, fmap_app, join_app by lia. rewrite Z.add_0_l.
  f_equal. change (seqZ n 1) with [Z.of_nat 0 + n]. cbn. by rewrite app_nil_r.
Qed.


Lemma ld_bytes_store (m : memory) a n v :
  0 <= n → in_page a (n + 1) → ld_bytes (st8 m (a + n) v) a (n + 1) = ld_bytes m a n ++ [u8 v].
Proof.
  intros Hn Ha. unfold ld_bytes at 1. rewrite seqZ_app, fmap_app, Z.add_0_l by lia. f_equal.
  - apply ld_bytes_eq. intros i Hi. rewrite ld8_st8. destruct Ha. rewrite !phys_user by lia. bcase.
  - change (seqZ n 1) with [Z.of_nat 0 + n]. cbn [fmap list_fmap Z.of_nat]. by rewrite Z.add_0_l, ld8_st8_same.
Qed.

(** What a turn of the loop changes. *)
Definition ls_objects (pid : Z) (s : kernel) (fd buf : Z) : list (Z * Z) :=
  (VIDEO, PAGE_BYTES) :: (page_at s (buf + NAME_SIZE), 1) :: entry_objects pid s fd buf.

Lemma ls_harmless pid t fd buf :
  user_ok pid t → 2 <= fd < 8 → in_page buf 33 → Forall (harmless pid t) (ls_objects pid t fd buf).
Proof using HL.
  intros Hu Hfd (H1 & H2 & H3). apply List.Forall_cons; [by apply outside_harmless, video_outside|].
  apply List.Forall_cons; [by apply page_harmless; [|unfold NAME_SIZE; split_and!; lia]|].
  apply entry_harmless; [done..|]. unfold NAME_SIZE. split_and!; lia.
Qed.

(** A directory entry read, made a line and printed. *)
Lemma ls_turn pid t fd pos buf :
  user_ok pid t → 2 <= fd < 8 → listing pid t fd pos → pos <= 16 → in_page buf 33 →
  runs (ls_step lit buf fd tt) t (λ x t', x = inl tt ∧ user_ok pid t' ∧ steps (ls_objects pid t fd buf) t t' ∧
    listing pid t' fd (pos + 1) ∧ abs_screen t' = scr_puts (dentry_name t pos ++ [NL]) (abs_screen t)).
Proof using HL.
  intros Hu Hfd Hl Hpos Ha. destruct (process_pcb pid t (uo_process _ _ Hu)) as (_ & _ & Hpid).
  assert (Hab : in_page buf NAME_SIZE ∧ in_page (buf + NAME_SIZE) 1) by (unfold NAME_SIZE; destruct Ha as (?&?&?); split; split_and!; lia).
  destruct Hab as [Ha1 Ha2].
  destruct (ece391_read_entry pid t fd pos buf Hu Hfd Hl Hpos Ha1) as (t1 & E1 & Hs1 & Hu1 & Hl1 & Hb1 & Hsc1).
  destruct (user_store pid t1 (buf + NAME_SIZE) NL Hu1 Ha2) as (E2 & Hs2 & Hu2 & Hsc2). set (t2 := upd_mem _ t1) in *.
  destruct (ece391_write_run pid buf 33 t2 Hu2 Ha ltac:(lia)) as (t3 & E3 & Hs3 & Hu3 & Hsc3).
  unfold ls_step. apply runs_bind, (runs_eq _ _ _ _ _ E1). cbn [Z.eqb NAME_SIZE].
  apply runs_bind, (runs_eq _ _ _ _ _ E2). apply runs_bind, (runs_eq _ _ _ _ _ E3). cbn [Z.eqb Pos.eqb]. apply runs_ret.
  split; [done|]. split; [exact Hu3|]. split; [|split].
  - apply (steps_trans _ _ t1); [by do 2 apply steps_tail|]. apply (steps_trans _ _ t2).
    + unfold ls_objects. rewrite <- (steps_page _ _ _ (buf + NAME_SIZE) Hs1). by apply steps_tail, steps_head.
    + by apply steps_head.
  - unfold listing. rewrite (kept_fd _ pid t2 t3 fd Hpid ltac:(lia) Hs3) by (constructor; [apply video_outside|done]).
    rewrite (kept_fd _ pid t1 t2 fd Hpid ltac:(lia) Hs2) by (constructor; [by apply (page_outside pid)|done]). exact Hl1.
  - rewrite Hsc3, Hsc2, Hsc1. unfold scr_write. f_equal.
    assert (Hbytes : ld_bytes t2 buf 33 = padded_name t pos ++ [NL]).
    { rewrite <- Hb1. exact (ld_bytes_store t1 buf NAME_SIZE NL ltac:(done) Ha). }
    rewrite Hbytes, list.filter_app, padded_name_text. done.
Qed.

Lemma ls_loop pid s fd buf :
  user_ok pid s → 2 <= fd < 8 → listing pid s fd 0 → in_page buf 33 →
  runs (iter_M (ls_step lit buf fd) tt) s (λ r s', r = 0 ∧ user_ok pid s' ∧
    abs_screen s' = scr_puts (directory_lines s 17) (abs_screen s)).
Proof using HL.
  intros Hu Hfd Hl Ha. pose proof (ls_harmless pid s fd buf Hu Hfd Ha) as Hh.
  assert (Ha1 : in_page buf NAME_SIZE) by (unfold NAME_SIZE; destruct Ha as (?&?&?); split_and!; lia).
  apply (runs_iter _ _ _
    (λ _ t, user_ok pid t ∧ steps (ls_objects pid s fd buf) s t ∧ ∃ pos, 0 <= pos <= 17 ∧
       listing pid t fd pos ∧ abs_screen t = scr_puts (directory_lines s pos) (abs_screen s))
    (λ _ t, 17 - file_pos (get_fd t (pcb_addr pid) fd))).
  - split_and!; [done|apply steps_refl|]. by exists 0.
  - by rewrite Hl.
  - intros [] t (Hut & Hst & pos & Hpos & Hlt & Hsc) _. destruct (decide (pos <= 16)) as [Hle|Hgt].
    + eapply runs_mono; [apply (ls_turn pid t fd pos buf Hut Hfd Hlt Hle Ha)|].
      cbn beta. intros x t' (-> & Hu' & Hs' & Hl' & Hsc'). rewrite Hl', Hlt. cbn [file_pos]. split; [|lia].
      split; [exact Hu'|]. split.
      * apply (steps_trans _ _ t); [done|]. unfold ls_objects, entry_objects, read_objects in *.
        by rewrite !(steps_page _ _ _ _ Hst) in Hs'.
      * exists (pos + 1). split; [lia|]. split; [exact Hl'|].
        rewrite Hsc', (kept_name _ pid s t pos Hu Hh Hst), Hsc, directory_lines_snoc, (scr_puts_app (directory_lines s pos)) by lia. reflexivity.
    + destruct (ece391_read_entries_end pid t fd pos buf Hut Hfd Hlt ltac:(lia) Ha1) as (t1 & E1 & _ & Hu1 & Hsc1).
      unfold ls_step. apply runs_bind, (runs_eq _ _ _ _ _ E1). cbn [Z.eqb]. apply runs_ret.
      split; [done|]. split; [exact Hu1|]. rewrite Hsc1, Hsc. by replace pos with 17 by lia.
Qed.

(** What ls says and returns. *)
Definition ls_result (s : kernel) : Z * list Z :=
  match find_dentry s (bytes_of ".") with
  | None => (2, bytes_of "read dentry by name failed : system calls open" ++ bytes_of (with_newline "directory open failed"))
  | Some _ => (0, directory_lines s 17)
  end.

(** What ls relies on: its literals, and, when the directory has an entry for
    itself, that this is one of a directory and a descriptor is free. *)
Record can_ls (pid : Z) (s : kernel) (buf : Z) : Prop := {
  cl_user : user_ok pid s;
  cl_buf : in_page buf 33;
  cl_dot : literal lit s ".";
  cl_failed : literal lit s (with_newline "directory open failed");
  cl_entry : ∀ k, find_dentry s (bytes_of ".") = Some k → dentry_type s k = 1 ∧ ∃ i, free_fd s = Some i ∧ 2 <= i;
}.

Lemma ls_run pid s buf :
  can_ls pid s buf → runs (ls_main lit buf) s (λ r s', r = (ls_result s).1 ∧ user_ok pid s' ∧
    abs_screen s' = scr_puts (ls_result s).2 (abs_screen s)).
Proof using HL.
  intros [Hu Ha Hdot Hl He].
  assert (Hn : is_name s (lit ".") (bytes_of ".")).
  { destruct Hdot as [Hc (H1 & _ & H3)]. unfold PROGRAM_PAGE, PROGRAM_PAGE_END in *. cbn [bytes_of length] in H3.
    split_and!; [rewrite u32_small; lia|exact Hc|done|done]. }
  unfold ls_result, ls_main. destruct (find_dentry s (bytes_of ".")) as [k|] eqn:Hk; cbn [fst snd].
  - destruct (He k eq_refl) as (Hty & i & Hi & Hi2). pose proof (find_first_spec _ _ _ _ Hi) as (Hi8 & _ & _).
    destruct (ece391_open_run pid (lit ".") s (bytes_of ".") k (mkFd directory_table 0 0 1) i Hu Hn Hk) as
      (s1 & E1 & Hs1 & Hu1 & Hfd1 & Hsc1); [by rewrite Hty|done|done|].
    apply runs_bind, (runs_eq _ _ _ _ _ E1). destruct (Z.eqb_spec i (-1)); [lia|].
    eapply runs_mono; [apply (ls_loop pid s1 i buf Hu1 ltac:(lia) Hfd1 Ha)|].
    cbn beta. intros r s' (-> & Hu' & Hsc'). split; [done|]. split; [exact Hu'|].
    rewrite Hsc', Hsc1. f_equal. unfold directory_lines. f_equal. apply list_fmap_ext.
    intros j x Hx. apply lookup_seqZ in Hx as [-> Hj].
    by rewrite (kept_name _ pid s s1 _ Hu (open_harmless pid s i Hu ltac:(lia)) Hs1) by lia.
  - destruct (ece391_open_missing pid (lit ".") s (bytes_of ".") Hu Hn Hk) as (s1 & E1 & Hs1 & Hu1 & Hsc1).
    assert (Hl1 : literal lit s1 (with_newline "directory open failed")).
    { apply (kept_literal lit _ pid s s1 _ Hu Hs1 Hl). constructor; [by left|done]. }
    apply runs_bind, (runs_eq _ _ _ _ _ E1). cbn [Z.eqb Pos.eqb].
    eapply runs_step; [exact (put_message lit pid s1 _ Hu1 Hl1)|]. cbn beta. intros _ s2 [Hu2 Hsc2]. apply runs_ret.
    split; [done|]. split; [exact Hu2|]. by rewrite Hsc2, Hsc1, scr_puts_app.
Qed.
End Ls.

(** C13: the program ls, with its system calls, prints the names of the 17 entries
    [directory_read] gives out, each on a line of its own (an empty entry is an
    empty line), and returns 0; if the directory has no entry for itself it
    returns 2, with the kernel's message and its own on the screen. *)
Theorem ls_correct {L : Layout} {HL : LayoutOK L} (lit : string → Z) (pid : Z) (s : kernel) (buf : Z) :
  can_ls lit pid s buf →
  runs (ls_main lit buf) s (λ r s', r = (ls_result s).1 ∧ user_ok pid s' ∧
    abs_screen s' = scr_puts (ls_result s).2 (abs_screen s)).
Proof. apply ls_run. Qed.

Lemma ls_correct_witness :
  can_ls (L := example_layout) example_lit 0 program_image 0x8300000 ∧
  runs (ls_main (L := example_layout) example_lit 0x8300000) program_image (λ r s', r = 0 ∧
    abs_screen s' = scr_puts ([0x66; NL] ++ bytes_of (with_newline "shell") ++ bytes_of (with_newline ".") ++ replicate 14 NL)
      (abs_screen program_image)).
Proof.
  assert (Hc : can_ls (L := example_layout) example_lit 0 program_image 0x8300000).
  { split; [exact program_user_ok|split_and!; closed_compare|apply program_literal; by do 3 right; left
      |apply program_literal; by do 4 right; left|].
    intros k Hk. replace (find_dentry program_image (bytes_of ".")) with (Some 2) in Hk by (vm_compute; reflexivity).
    injection Hk as <-. split; [by vm_compute|]. exists 4. split; [by vm_compute|lia]. }
  split; [exact Hc|]. eapply runs_mono; [exact (ls_correct (L := example_layout) example_lit 0 program_image 0x8300000 Hc)|].
  cbn beta. intros r s' (-> & _ & ->). split; [by vm_compute|]. f_equal; vm_compute; reflexivity.
Defined.
