(* ===== verification/Shell.v ===== *)
(** * What ece391shell.c does

    One turn of the shell, from the prompt to what the line typed asks for:
    nothing, the end of the shell, a program started by the kernel's
    [execute], or the message that there is no such command. *)

From S2P Require Import Prelude Memory LibMem LibStr Video State Runs Console Process FileSystem Terminal SysCalls Command Exec UserLib UserRun UserFiles Programs UserKeep UserLine UserExample.

Implicit Types s t : kernel.

Section Shell.
Context {L : Layout} {HL : LayoutOK L}.

(** ** The command in the buffer *)

Context (lit : string → Z).

(** [buf[cnt - 1] = 0] *)
Lemma shell_line_run pid s buf l :
  user_ok pid s → in_page buf (Z.of_nat (length l) + 2) → Forall (λ c, 0 < c < 256) l → typed s buf l →
  ∃ s', shell_line buf (Z.of_nat (length l) + 1) s = Ret tt s' ∧
    steps [(page_at s (buf + Z.of_nat (length l)), 1)] s s' ∧ user_ok pid s' ∧ cstring s' buf l ∧ abs_screen s' = abs_screen s.
Proof using HL.
  intros Hu Hb Hch [Hby Hnl]. set (n := Z.of_nat (length l)) in *.
  assert (Hb1 : in_page (buf + n) 1) by (destruct Hb as (?&?&?); split_and!; lia).
  destruct (user_store pid s (buf + n) 0 Hu Hb1) as (E & Hs & Hu' & Hsc).
  exists (upd_mem (λ m, st8 m (buf + n) 0) s). split; [|split; [exact Hs|split; [exact Hu'|split; [|exact Hsc]]]].
  - unfold shell_line. destruct (Z.ltb_spec 0 (n + 1)); [|lia]. replace (buf + (n + 1 - 1)) with (buf + n) by lia.
    rewrite (bind_ret _ _ s true s).
    + by replace (n + 1 - 1) with n by lia.
    + unfold get_byte, gets, mbind, M_bind. by rewrite Hnl.
  - split; [exact Hch|]. split; [|apply ld8_st8_same].
    intros i c Hi. pose proof (lookup_lt_Some _ _ _ Hi). rewrite k_mem_upd, ld8_st8. destruct Hb.
    rewrite !phys_user by lia. rewrite (Hby i c Hi). bcase.
Qed.

(** The two buffers [execute] parses into, with the byte the code clears behind
    each: in the kernel, apart, off the image. *)
Record exec_buffers (s : kernel) : Prop := {
  eb_name : loc_execute_file_name + BUF <= KERNEL_END;
  eb_args : loc_execute_args + BUF <= KERNEL_END;
  eb_apart : loc_execute_file_name + BUF <= loc_execute_args ∨ loc_execute_args + BUF <= loc_execute_file_name;
  eb_name_image : loc_execute_file_name + BUF <= image_base s ∨ image_base s + image_bytes s <= loc_execute_file_name;
  eb_args_image : loc_execute_args + BUF <= image_base s ∨ image_base s + image_bytes s <= loc_execute_args;
}.

(** The shell waits at its prompt, the line [l] was typed. *)
Record at_prompt (pid : Z) (s : kernel) (l : list Z) (buf : Z) : Prop := {
  ap_user : user_ok pid s;
  ap_buf : in_page buf 1024;
  ap_stdin : flags (get_fd s (pcb_addr pid) 0) ≠ 0;
  ap_line : line_ready s l;
  ap_prompt : literal lit s "391OS> ";
  ap_exit : literal lit s "exit";
  ap_exit_apart : apart_from lit "exit" buf 1024;
  ap_no_command : literal lit s (with_newline "no such command");
  ap_no_command_apart : apart_from lit (with_newline "no such command") buf 1024;
  ap_bufs : exec_buffers s;
  ap_word : (length (cmd_word l) <= 32)%nat;
  ap_args : (length (cmd_args l) <= 32)%nat;
  ap_files : ∀ k, find_dentry s (cmd_word l) = Some k → file_ok s (dentry_inode s k);
}.

(** The line read: a command in the buffer. *)
Record has_command (pid : Z) (s : kernel) (l : list Z) (buf : Z) (s' : kernel) : Prop := {
  hc_before : as_before pid l s s';
  hc_command : cstring s' buf l;
  hc_exit : literal lit s' "exit";
  hc_no_command : literal lit s' (with_newline "no such command");
  hc_screen : abs_screen s' = scr_puts (bytes_of "391OS> ") (abs_screen s);
}.

Lemma command_gets_ready pid s l buf :
  at_prompt pid s l buf →
  ∃ s', shell_step lit buf tt s = shell_command lit buf s' ∧ has_command pid s l buf s'.
Proof using HL.
  intros [Hu Hb Hfl Hl Hp Hex Hexa Hno Hnoa _ _ _ _]. pose proof (lr_length _ _ Hl) as Hlen. unfold BUFF_SIZE in Hlen.
  destruct (prompt_line lit pid s "391OS> " buf 1024 l (BUFSIZE - 1) Hu Hp Hfl Hl Hb ltac:(lia) ltac:(done)) as
    (s1 & s2 & E1 & E2 & Hab2 & Ht2 & Hlit2 & Hsc2 & _).
  assert (Hb2 : in_page buf (Z.of_nat (length l) + 2)) by (destruct Hb as (?&?&?); split_and!; lia).
  assert (Hb1 : in_page (buf + Z.of_nat (length l)) 1) by (destruct Hb as (?&?&?); split_and!; lia).
  pose proof (ab_user _ _ _ _ (Hab2 [])) as Hu2.
  destruct (shell_line_run pid s2 buf l Hu2 Hb2 (lr_chars _ _ Hl) Ht2) as (s3 & E3 & Hs3 & Hu3 & Hc3 & Hsc3).
  exists s3. split.
  - unfold shell_step. rewrite (bind_ret _ _ _ _ _ E1), (bind_ret _ _ _ _ _ E2).
    destruct (Z.eqb_spec (Z.of_nat (length l) + 1) (-1)); [lia|]. by rewrite (bind_ret _ _ _ _ _ E3).
  - split; [|exact Hc3| | |by rewrite Hsc3, Hsc2].
    + apply (as_before_trans pid l s s2); [apply Hab2|].
      apply (as_before_steps [(page_at s2 (buf + Z.of_nat (length l)), 1)]); [done| |done].
      constructor; [by apply page_harmless|done].
    + apply (literal_stored lit pid s2 s3 buf 1024 (Z.of_nat (length l))); [done..|lia|by apply Hlit2|done].
    + apply (literal_stored lit pid s2 s3 buf 1024 (Z.of_nat (length l))); [done..|lia|by apply Hlit2|done].
Qed.

(** ** The command *)

Lemma before_exec_env pid s l buf s' :
  at_prompt pid s l buf → has_command pid s l buf s' → exec_env pid s' buf l.
Proof using HL.
  intros [Hu0 Hb _ Hl _ _ _ _ _ [B1 B2 B3 B4 B5] Hw Ha Hfiles] [Hbef Hc _ _ _].
  destruct Hbef as [Hu Hfo Hfi Hin _ _ _ [Hba Hby] _ _ _].
  pose proof (lr_length _ _ Hl) as Hlen. unfold BUFF_SIZE in Hlen.
  assert (Hb1 : in_page buf (Z.of_nat (length l) + 1)) by (destruct Hb as (?&?&?); split_and!; lia).
  pose proof (obj_bounds 15 _ eq_refl) as O1. pose proof (obj_bounds 16 _ eq_refl) as O2. cbn [fst snd] in O1, O2.
  pose proof (uo_page _ _ Hu) as Hpg. destruct Hb as (Hb2 & _ & Hb3).
  unfold KERNEL_START, KERNEL_END, PROGRAM_PAGE, PROGRAM_PAGE_END in *.
  assert (Hap : ∀ a, 0 < a → a + BUF <= 8388608 → apart s' a BUF buf (Z.of_nat (length l) + 1)).
  { intros a Ha1 Ha2. unfold apart. rewrite (phys_kernel _ a) by (unfold PROGRAM_PAGE, BUF, ARG_SIZE in *; lia).
    rewrite <- (Z.add_0_r buf), (user_phys s' buf _ 0 Hb1) by lia. unfold PROGRAM_PAGE. lia. }
  split; rewrite ?Hba, ?Hby; [apply Hu|rewrite u32_small; lia| |destruct (uo_image _ _ Hu0); unfold KERNEL_END in *; lia|exact B4|exact B5|].
  - split; [unfold PROGRAM_PAGE; lia|unfold PROGRAM_PAGE; lia|exact B3|exact Hc|lia|by apply page_seg|apply Hap; lia|apply Hap; lia|done|done].
  - intros k Hk. rewrite Hfi in Hk. rewrite (proj2 (Hin k Hk)). by apply Hfo, Hfiles.
Qed.

Lemma before_program pid s l buf s' :
  at_prompt pid s l buf → as_before pid l s s' → program_of s' l = program_of s l.
Proof.
  intros Hap [_ Hfo Hfi Hin _ _ _ _ _ _ _]. unfold program_of. rewrite Hfi.
  destruct (find_dentry s (cmd_word l)) as [k|] eqn:Hk; [|done]. rewrite (proj2 (Hin k eq_refl)).
  destruct (Hfo _ (ap_files _ _ _ _ Hap k Hk)) as (_ & Hsz & Hby). by rewrite (same_executable s s').
Qed.

Lemma before_allocate pid s l s' : as_before pid l s s' → allocate_pid s' = allocate_pid s.
Proof. intros H. unfold allocate_pid. by rewrite (ab_proc _ _ _ _ H). Qed.

Lemma exec_locals_harmless pid s : user_ok pid s → exec_buffers s → Forall (harmless pid s) ((VIDEO, PAGE_BYTES) :: exec_locals).
Proof using HL.
  intros Hu [_ _ _ B4 B5]. destruct (process_pcb pid s (uo_process _ _ Hu)) as (_ & _ & Hpid).
  pose proof (obj_sep 15 _ _ _ eq_refl (pcb_position pid Hpid) ltac:(lia)) as S1.
  pose proof (obj_sep 16 _ _ _ eq_refl (pcb_position pid Hpid) ltac:(lia)) as S2.
  unfold PCB_SIZE in *. cbn [fst snd] in *.
  apply List.Forall_cons; [by apply video_harmless|]. unfold exec_locals.
  apply List.Forall_cons; [split; [exact B4|]; unfold fd_slot, BUF, ARG_SIZE; cbn [fst snd]; lia|].
  apply List.Forall_cons; [split; [exact B5|]; unfold fd_slot, BUF, ARG_SIZE; cbn [fst snd]; lia|].
  apply List.Forall_cons; [by apply (object_harmless pid s 14)|].
  apply List.Forall_cons; [by apply (object_harmless pid s 13)|done].
Qed.

(** The comparison with [exit] and the test of the first byte. *)
Lemma shell_command_eq pid s l buf s' :
  at_prompt pid s l buf → has_command pid s l buf s' →
  shell_command lit buf s' =
    if decide (l = bytes_of "exit") then Ret (inr 0) s'
    else if decide (l = []) then Ret (inl tt) s'
    else (rval ← ece391_execute buf; _ ← shell_report lit rval; mret (inl tt)) s'.
Proof using HL.
  intros Hap [_ Hc [Hex _] _ _]. pose proof (lr_length _ _ (ap_line _ _ _ _ Hap)) as Hlen. unfold BUFF_SIZE in Hlen.
  destruct (ece391_strcmp_run s' buf (lit "exit") l (bytes_of "exit") Hc Hex ltac:(lia)) as (r & E & Hr).
  unfold shell_command. rewrite (bind_ret _ _ s' r s') by (unfold on_memory; by rewrite E).
  destruct (decide (l = bytes_of "exit")) as [He|He].
  - apply Hr in He as ->. done.
  - destruct (Z.eqb_spec r 0) as [Hz|_]; [by apply Hr in Hz|]. rewrite (bind_ret _ _ s' (ld8 s' buf) s') by done.
    destruct (decide (l = [])) as [->|Hne].
    + assert (H0 : ld8 s' buf = 0) by (rewrite <- (Z.add_0_r buf); apply Hc). by rewrite H0.
    + destruct (Z.eqb_spec (ld8 s' buf) 0) as [H0|_]; [|done]. exfalso. rewrite <- (Z.add_0_r buf) in H0.
      revert H0. apply (cstring_nz s' buf l 0 Hc). destruct l; [done|cbn; lia].
Qed.

(** [execute] refuses: its message, then the shell's. *)
Lemma shell_rejected pid s l buf s' :
  at_prompt pid s l buf → has_command pid s l buf s' → program_of s l = None ∨ allocate_pid s = None →
  runs (rval ← ece391_execute buf; _ ← shell_report lit rval; mret (inl tt)) s' (λ (x : unit + Z) s'', x = inl tt ∧ user_ok pid s'' ∧
    abs_screen s'' = scr_puts (reject_message s l ++ bytes_of (with_newline "no such command")) (abs_screen s')).
Proof using HL.
  intros Hap Hhc Hno. pose proof Hhc as [Hbef Hc _ Hl _]. pose proof (ab_user _ _ _ _ Hbef) as Hu.
  pose proof (before_program pid s l buf s' Hap Hbef) as Hprog.
  destruct (execute_reject pid s' buf l (before_exec_env pid s l buf s' Hap Hhc)) as (s1 & E & Hs1 & _ & _ & Hsc1).
  { by rewrite Hprog, (before_allocate pid s l s' Hbef). }
  assert (Hb : exec_buffers s').
  { destruct (ap_bufs _ _ _ _ Hap) as [B1 B2 B3 B4 B5], (ab_base _ _ _ _ Hbef) as [E1 E2]. split; rewrite ?E1, ?E2; done. }
  pose proof (exec_locals_harmless pid s' Hu Hb) as Hh.
  destruct (call_returns pid _ s' (execute buf) (-1) s1 E Hs1 Hu Hh) as (s2 & E2 & Hs2 & Hu2 & _ & Hsc2).
  apply runs_bind, (runs_eq _ _ _ _ _ E2). cbn beta.
  assert (Hl2 : literal lit s2 (with_newline "no such command")).
  { apply (kept_literal lit _ pid s' s2 _ Hu Hs2 Hl). pose proof (obj_bounds 13 _ eq_refl) as B1. pose proof (obj_bounds 14 _ eq_refl) as B2.
    destruct Hb as [N1 N2 _ _ _]. unfold exec_locals, VIDEO, PAGE_BYTES, KERNEL_END in *. cbn [fst snd] in *.
    repeat (apply List.Forall_cons; [left; cbn [fst snd]; lia|]). constructor. }
  eapply runs_step; [exact (put_message lit pid s2 _ Hu2 Hl2)|]. cbn beta. intros _ s3 [Hu3 Hsc3]. apply runs_ret.
  split; [done|]. split; [exact Hu3|]. rewrite Hsc3, Hsc2, Hsc1, scr_puts_app. unfold reject_message. by rewrite Hprog.
Qed.

Lemma started_before pid w p s s' ino args t :
  as_before pid w s s' → file_ok s ino → started p s' ino args t → started p s ino args t.
Proof.
  intros [_ Hfo _ _ Hproc Hesp Hebp _ Hact Hoth Hnum] Hf [S1 S2 S3 S4 S5 S6 S7 S8 S9 S10 S11 S12 S13].
  destruct (Hfo ino Hf) as (_ & Hsz & Hby). rewrite Hact, Hesp, Hebp, Hproc, Hsz, ?Hnum in *. split; try done.
  - intros j Hj. by rewrite S4, Hoth.
  - intros j Hj. rewrite S6 by done. by apply Hby.
Qed.

Lemma word_before pid w s s' ino :
  as_before pid w s s' → file_ok s ino → 28 <= file_size s ino → file_word s' ino 24 = file_word s ino 24.
Proof.
  intros Hbef Hf Hsz. destruct (ab_file _ _ _ _ Hbef ino Hf) as (_ & _ & Hby). unfold file_word. by rewrite !Hby by lia.
Qed.

(** The turn. *)
Lemma shell_turn_run pid s l buf :
  at_prompt pid s l buf →
  let prompted := scr_puts (bytes_of "391OS> ") (abs_screen s) in
  if decide (l = bytes_of "exit") then
    runs (shell_step lit buf tt) s (λ x s', x = inr 0 ∧ user_ok pid s' ∧ abs_screen s' = prompted)
  else if decide (l = []) then
    runs (shell_step lit buf tt) s (λ x s', x = inl tt ∧ user_ok pid s' ∧ abs_screen s' = prompted)
  else
    match program_of s l, allocate_pid s with
    | Some ino, Some p =>
        28 <= file_size s ino <= 0x3B8000 →
        ∃ s', shell_step lit buf tt s = EnterUser (file_word s ino 24) s' ∧ started p s ino (cmd_args l) s'
    | _, _ =>
        runs (shell_step lit buf tt) s (λ x s', x = inl tt ∧ user_ok pid s' ∧
          abs_screen s' = scr_puts (reject_message s l ++ bytes_of (with_newline "no such command")) prompted)
    end.
Proof using HL.
  intros Hap prompted. destruct (command_gets_ready pid s l buf Hap) as (s1 & E & Hhc).
  pose proof (shell_command_eq pid s l buf s1 Hap Hhc) as Hcmd. pose proof Hhc as [Hbef _ _ _ Hsc].
  pose proof (ab_user _ _ _ _ Hbef) as Hu. unfold runs. rewrite E, Hcmd.
  destruct (decide (l = bytes_of "exit")) as [He|He]; [by exists (inr 0), s1|].
  destruct (decide (l = [])) as [Hn|Hn]; [by exists (inl tt), s1|].
  pose proof (shell_rejected pid s l buf s1 Hap Hhc) as Hrej. rewrite Hsc in Hrej. unfold runs in Hrej.
  destruct (program_of s l) as [ino|] eqn:Hprog; [destruct (allocate_pid s) as [p|] eqn:Hp|]; [|by apply Hrej; right|by apply Hrej; left].
  intros Hsz. assert (Hf : file_ok s ino).
  { unfold program_of in Hprog. destruct (find_dentry s (cmd_word l)) as [k|] eqn:Hk; [|done].
    destruct (executable _ _); [|done]. injection Hprog as <-. by apply (ap_files _ _ _ _ Hap). }
  destruct (ab_file _ _ _ _ Hbef ino Hf) as (Hf1 & Hsz1 & _).
  destruct (execute_run pid s1 buf l ino p (before_exec_env pid s l buf s1 Hap Hhc)) as (s2 & E2 & Hst);
    [by rewrite (before_program pid s l buf s1 Hap Hbef)|done|by rewrite Hsz1|by rewrite (before_allocate pid s l s1 Hbef)|].
  exists s2. split; [|by apply (started_before pid l p s s1)].
  apply bind_enter. rewrite <- (word_before pid l s s1 ino Hbef Hf) by lia. by apply bind_enter.
Qed.
End Shell.

(** C11: a turn of the shell, with its system calls: after the prompt and the line
    typed, [exit] ends the shell with status 0, an empty line does nothing, a
    command that names an executable enters it, loaded by [execute] in a process
    of its own with the rest of the line as its argument, and any other command
    is refused with the kernel's message and the shell's. *)
Theorem shell_turn {L : Layout} {HL : LayoutOK L} (lit : string → Z) (pid : Z) (s : kernel) (l : list Z) (buf : Z) :
  at_prompt lit pid s l buf →
  let prompted := scr_puts (bytes_of "391OS> ") (abs_screen s) in
  if decide (l = bytes_of "exit") then
    runs (shell_step lit buf tt) s (λ x s', x = inr 0 ∧ user_ok pid s' ∧ abs_screen s' = prompted)
  else if decide (l = []) then
    runs (shell_step lit buf tt) s (λ x s', x = inl tt ∧ user_ok pid s' ∧ abs_screen s' = prompted)
  else
    match program_of s l, allocate_pid s with
    | Some ino, Some p =>
        28 <= file_size s ino <= 0x3B8000 →
        ∃ s', shell_step lit buf tt s = EnterUser (file_word s ino 24) s' ∧ started p s ino (cmd_args l) s'
    | _, _ =>
        runs (shell_step lit buf tt) s (λ x s', x = inl tt ∧ user_ok pid s' ∧
          abs_screen s' = scr_puts (reject_message s l ++ bytes_of (with_newline "no such command")) prompted)
    end.
Proof. apply shell_turn_run. Qed.

Lemma shell_turn_witness :
  at_prompt (L := example_layout) example_lit 0 program_image [0x66; 0x20; 0x78] 0x8300000 ∧
  ∃ s', shell_step (L := example_layout) example_lit 0x8300000 tt program_image = EnterUser 0x8048000 s' ∧
    started (L := example_layout) 1 program_image 1 [0x78] s'.
Proof.
  assert (Hc : at_prompt (L := example_layout) example_lit 0 program_image [0x66; 0x20; 0x78] 0x8300000).
  { split; [exact program_user_ok|split_and!; closed_compare|by vm_compute| |apply program_literal; by left
      |apply program_literal; by right; left|left; closed_compare|apply program_literal; by do 2 right; left|left; closed_compare| |cbn; lia|cbn; lia|].
    - split; [by vm_compute|by vm_compute|by vm_compute|closed_compare|by repeat constructor|].
      intros [|[|[|i]]] c Hi; [..|by destruct i]; injection Hi as <-; by vm_compute.
    - assert (image_base program_image + image_bytes program_image = 0x506000) as E by (vm_compute; reflexivity).
      split; rewrite ?E; [closed_compare|closed_compare|left; closed_compare|right; closed_compare|right; closed_compare].
    - intros k Hk. replace (find_dentry program_image (cmd_word [0x66; 0x20; 0x78])) with (Some 0) in Hk by (vm_compute; reflexivity).
      injection Hk as <-. replace (dentry_inode program_image 0) with 1 by (vm_compute; reflexivity). exact program_file_ok. }
  split; [exact Hc|].
  pose proof (shell_turn (L := example_layout) example_lit 0 program_image [0x66; 0x20; 0x78] 0x8300000 Hc) as H. cbv zeta in H.
  replace (program_of program_image [0x66; 0x20; 0x78]) with (Some 1) in H by (vm_compute; reflexivity).
  replace (allocate_pid program_image) with (Some 1) in H by (vm_compute; reflexivity).
  replace (file_word program_image 1 24) with 0x8048000 in H by (vm_compute; reflexivity).
  destruct (decide _) as [E|_]; [discriminate E|]. destruct (decide _) as [E|_]; [discriminate E|].
  apply H. vm_compute. split; congruence.
Defined.
