(* ===== verification/GrepMem.v ===== *)
(** * The routines grep runs on its buffer

    The end of a line, the comparison at a place of the line, and the move of
    an unfinished line to the start of the buffer. *)

From S2P Require Import Prelude Text Memory LibMem LibStr Video State Runs Console Process FileSystem Terminal SysCalls UserLib UserRun UserPage Programs.

Implicit Types m : memory.

(** ** The end of a line *)

Lemma line_end_run m data last ls row :
  holds m (data + ls) row → Forall (λ c, c ≠ NL) row → Z.of_nat (length row) <= 4294967296 →
  ls + Z.of_nat (length row) = last ∨ (ls + Z.of_nat (length row) < last ∧ ld8 m (data + (ls + Z.of_nat (length row))) = NL) →
  line_end_from m data last ls = Some (ls + Z.of_nat (length row)).
Proof.
  intros Hh Hn Hlen Hend. unfold line_end_from. match goal with |- context [while_loop ?f _] => set (step := f) end.
  destruct (while_loop_rule step (λ le, ls <= le <= ls + Z.of_nat (length row)) (λ le, ls + Z.of_nat (length row) - le)
    (λ r, r = ls + Z.of_nat (length row)) ls) as (r & -> & ->); [lia|lia| |done].
  intros le Hle _. unfold step. destruct (Z.eqb_spec le (ls + Z.of_nat (length row))) as [->|Hne].
  - destruct Hend as [H|[H1 H2]].
    + destruct (Z.ltb_spec (ls + Z.of_nat (length row)) last); [lia|done].
    + rewrite H2. by rewrite andb_false_r.
  - destruct (lookup_lt_is_Some_2 row (Z.to_nat (le - ls))) as [c Hc]; [lia|].
    pose proof (Hh _ _ Hc) as Hb. replace (data + ls + Z.of_nat (Z.to_nat (le - ls))) with (data + le) in Hb by lia.
    pose proof (Forall_lookup_1 _ _ _ _ Hn Hc) as Hcn. cbn beta in Hcn. rewrite Hb. apply Z.eqb_neq in Hcn. rewrite Hcn.
    destruct (Z.ltb_spec le last); cbn [andb negb]; lia.
Qed.

(** ** The comparison *)

Lemma prefix_take_step (p l : list Z) k c d :
  take k p = take k l → p !! k = Some c → l !! k = Some d → (c = d → take (S k) p = take (S k) l) ∧ (c ≠ d → ¬ p `prefix_of` l).
Proof.
  intros Ht Hc Hd. split.
  - intros ->. by rewrite (take_S_r _ _ _ Hc), (take_S_r _ _ _ Hd), Ht.
  - intros Hne [r ->]. rewrite (lookup_app_l_Some _ _ _ _ Hc) in Hd. by injection Hd as <-.
Qed.

Lemma prefix_of_take (p l : list Z) : take (length p) p = take (length p) l → p `prefix_of` l.
Proof. rewrite firstn_all. intros H. exists (drop (length p) l). rewrite <- (take_drop (length p) l) at 1. by rewrite <- H. Qed.

Lemma ece391_strncmp_run m (a b : Z) l p :
  cstring m a l → cstring m b p → p ≠ [] → Z.of_nat (length p) < 4294967296 →
  ∃ r, ece391_strncmp m a b (Z.of_nat (length p)) = Some r ∧ (r = 0 ↔ p `prefix_of` l).
Proof.
  intros H1 H2 Hne Hlen. pose proof H1 as (F1 & B1 & Z1). pose proof H2 as (F2 & B2 & Z2). unfold ece391_strncmp.
  destruct (Z.eqb_spec (Z.of_nat (length p)) 0) as [E|_]; [destruct p; [done|cbn in E; lia]|].
  match goal with |- context [while_loop ?f _] => set (step := f) end.
  apply (while_loop_rule step
    (λ '(x, y, n), ∃ k, x = a + Z.of_nat k ∧ y = b + Z.of_nat k ∧ n = Z.of_nat (length p) - Z.of_nat k ∧ (k < length p)%nat ∧
       (k <= length l)%nat ∧ take k p = take k l)
    (λ '(x, y, n), n)).
  - exists 0%nat. split_and!; [lia..| |lia|done]. destruct p; [done|cbn; lia].
  - lia.
  - intros [[x y] n] (k & -> & -> & -> & Hk & Hkl & Ht) _. cbn [step].
    destruct (lookup_lt_is_Some_2 p k Hk) as [c Hc]. rewrite (B2 _ _ Hc). pose proof (Forall_lookup_1 _ _ _ _ F2 Hc) as Hcr. cbn beta in Hcr.
    destruct (decide (k = length l)) as [->|Hkl'].
    + rewrite Z1. destruct (Z.eqb_spec 0 c); [lia|]. split; [lia|]. intros Hp%prefix_length. lia.
    + destruct (lookup_lt_is_Some_2 l k) as [d Hd]; [lia|]. rewrite (B1 _ _ Hd).
      destruct (prefix_take_step p l k c d Ht Hc Hd) as [Heq Hneq]. destruct (Z.eqb_spec d c) as [->|Hdc].
      * specialize (Heq eq_refl). destruct (Z.eqb_spec c 0); [lia|]. cbn [orb].
        rewrite u32_small by lia. destruct (Z.eqb_spec (Z.of_nat (length p) - Z.of_nat k - 1) 0) as [E|E].
        -- split; [|done]. intros _. apply prefix_of_take. by replace (length p) with (S k) by lia.
        -- split; [|lia]. exists (S k). split_and!; [lia..|done].
      * split; [lia|]. intros Hp. by apply Hneq in Hp; [|congruence].
Qed.

Lemma match_at_run m data s ls row p k :
  cstring m (data + ls) row → cstring m s p → 0 < hd 0 p < 128 → Z.of_nat (length p) < 4294967296 → (k < length row)%nat →
  match_at m data s (Z.of_nat (length p)) (ls + Z.of_nat k) = Some (bool_decide (p `prefix_of` drop k row)).
Proof.
  intros Hr Hs Hp Hlen Hk. destruct p as [|p0 p']; [cbn in Hp; lia|]. cbn [hd] in Hp. set (p := p0 :: p') in *.
  destruct (lookup_lt_is_Some_2 row k Hk) as [c Hc]. pose proof Hr as (_ & B & _). pose proof (B _ _ Hc) as Hb.
  replace (data + ls + Z.of_nat k) with (data + (ls + Z.of_nat k)) in Hb by lia.
  assert (H0 : ld8 m s = p0) by (destruct Hs as (_ & Bs & _); rewrite <- (Z.add_0_r s); by apply (Bs 0%nat)).
  unfold match_at. rewrite H0, s8_small, Hb by lia. destruct (Z.eqb_spec p0 c) as [->|Hne].
  - assert (Hd : cstring m (data + (ls + Z.of_nat k)) (drop k row)).
    { replace (data + (ls + Z.of_nat k)) with (data + ls + Z.of_nat k) by lia. apply cstring_drop; [lia|done]. }
    destruct (ece391_strncmp_run m _ s _ p Hd Hs ltac:(done) Hlen) as (r & E & Hiff). rewrite E, bind_some.
    f_equal. destruct (Z.eqb_spec r 0) as [Hr0|Hr0]; symmetry; [apply bool_decide_eq_true; by apply Hiff|apply bool_decide_eq_false; tauto].
  - f_equal. symmetry. apply bool_decide_eq_false. intros [q Hq]. rewrite (drop_S _ _ _ Hc) in Hq. unfold p in Hq. cbn in Hq. congruence.
Qed.

(** ** The move *)

Lemma strcpy_down_run m dst src l :
  cstring m src l → dst < src → in_page dst (src - dst + Z.of_nat (length l) + 1) → Z.of_nat (length l) < 4294967296 →
  ∃ m', ece391_strcpy m dst src = Some m' ∧ only dst (Z.of_nat (length l) + 1) m m' ∧ cstring m' dst l.
Proof.
  intros Hc Hlt Hp Hlen. pose proof Hc as (F & B & Z0). pose proof Hp as (P1 & _ & P3).
  unfold ece391_strcpy. match goal with |- context [while_loop ?f _] => set (step := f) end.
  destruct (while_loop_rule step
    (λ '(d, s, t), ∃ k, d = dst + Z.of_nat k ∧ s = src + Z.of_nat k ∧ (k <= length l)%nat ∧ only dst (Z.of_nat k) m t ∧
       ∀ i c, (i < k)%nat → l !! i = Some c → ld8 t (dst + Z.of_nat i) = c)
    (λ '(d, s, t), Z.of_nat (length l) - (d - dst))
    (λ t, only dst (Z.of_nat (length l) + 1) m t ∧ cstring t dst l) (dst, src, m)) as (m' & E & H1 & H2); [| | |by exists m'].
  - exists 0%nat. split_and!; [lia..|apply only_refl|lia].
  - lia.
  - intros [[d s] t] (k & -> & -> & Hk & O & Hb) _. unfold step.
    assert (Hsame : ∀ i, dst + Z.of_nat k <= i < src + Z.of_nat (length l) + 1 → ld8 t i = ld8 m i).
    { intros i Hi. apply (on_page _ _ _ _ O); unfold in_bounds; lia. }
    set (c := ld8 t (src + Z.of_nat k)). set (t' := st8 t (dst + Z.of_nat k) c).
    assert (O1 : only (dst + Z.of_nat k) 1 t t') by (apply only_st8; unfold in_bounds; lia).
    assert (O' : only dst (Z.of_nat k + 1) m t').
    { apply (only_trans _ _ _ t); [apply (only_widen _ _ _ _ _ _ O); lia|apply (only_widen _ _ _ _ _ _ O1); lia]. }
    assert (Hb' : ∀ i x, (i < k)%nat → l !! i = Some x → ld8 t' (dst + Z.of_nat i) = x).
    { intros i x Hi Hx. rewrite (on_page _ _ _ _ O1) by (unfold in_bounds; lia). by apply Hb. }
    assert (Hk' : ld8 t' (dst + Z.of_nat k) = c) by (unfold t'; rewrite ld8_st8_same; apply u8_small, ld8_range).
    assert (Hcm : c = ld8 m (src + Z.of_nat k)) by (apply Hsame; lia).
    destruct (decide (k = length l)) as [->|Hne].
    + rewrite Hcm, Z0 in *. cbn [Z.eqb negb]. split; [exact O'|]. split; [done|]. split; [|exact Hk'].
      intros i x Hi. apply Hb'; [by apply lookup_lt_Some in Hi|done].
    + destruct (lookup_lt_is_Some_2 l k) as [x Hx]; [lia|]. rewrite (B _ _ Hx) in Hcm. pose proof (Forall_lookup_1 _ _ _ _ F Hx) as Hxr. cbn beta in Hxr.
      destruct (Z.eqb_spec c 0); [lia|]. cbn [negb]. split; [|lia]. exists (S k). split_and!; [lia..| |].
      * by replace (Z.of_nat (S k)) with (Z.of_nat k + 1) by lia.
      * intros i y Hi Hy. destruct (decide (i = k)) as [->|]; [|by apply Hb'; [lia|]]. rewrite Hx in Hy. injection Hy as <-. by rewrite Hk'.
Qed.
