(* ===== verification/Grep.v ===== *)
(** * What ece391grep.c does with a file

    [do_one_file] reads the file in pieces into a buffer of 1024 bytes, searches
    the lines that are complete and moves the rest to the start for the next
    piece; what it prints is [grep_rows], the rows of the whole text in which
    the pattern occurs. *)

From S2P Require Import Prelude Text Memory LibMem LibStr Video State Runs Console Process FileSystem Terminal SysCalls Exec UserLib UserRun UserFiles Programs UserKeep UserPage UserClock GrepMem.

Implicit Types s t : kernel.

Section Grep.
Context {L : Layout} {HL : LayoutOK L}.
Context (lit : string → Z).

(** The strings and the buffer: the pattern [p] at [search], the name of the
    file at [fname]. *)
Context (pid search fname data : Z) (p name : list Z).
Context (Hdata : in_page data 1025).
Context (Hpat : 0 < hd 0 p < 128).
Context (Hsearch : search + Z.of_nat (length p) + 1 <= data ∨ data + 1025 <= search).
Context (Hname : fname + Z.of_nat (length name) + 1 <= data ∨ data + 1025 <= fname).
Context (Hcolon : apart_from lit ":" data 1025) (Hnewline : apart_from lit (with_newline "") data 1025).

(** The program between two steps of the search; the byte behind a full buffer
    is no newline. *)
Record grepping (s : kernel) : Prop := {
  gr_user : user_ok pid s;
  gr_search : user_string s search p;
  gr_name : user_string s fname name;
  gr_colon : literal lit s ":";
  gr_newline : literal lit s (with_newline "");
  gr_beyond : ld8 s (data + 1024) ≠ NL;
}.

Lemma grepping_page s s' :
  grepping s → user_ok pid s' → page_only data 1025 s s' → ld8 s' (data + 1024) ≠ NL → grepping s'.
Proof using Hsearch Hname Hcolon Hnewline.
  intros [H1 H2 H3 H4 H5 _] Hu Ho Hb. split; [exact Hu|..|exact Hb]; by eapply string_page.
Qed.

(** Calls that change memory of the kernel only. *)
Lemma grepping_low os s s' :
  grepping s → steps os s s' → user_ok pid s' → Forall (λ o, o.1 + o.2 <= KERNEL_END) os → grepping s'.
Proof using Hsearch Hname Hcolon Hnewline Hdata.
  intros Hg Hs Hu Ho. pose proof (uo_page _ _ (gr_user _ Hg)) as Hp. apply (grepping_page s s' Hg Hu); [by apply (low_page os)|].
  destruct Hdata as (D1 & _ & D3). rewrite (low_page os s s' 0 0 Hp Hs Ho (data + 1024)) by (unfold in_bounds, PROGRAM_PAGE in *; lia). apply Hg.
Qed.

Lemma video_below : Forall (λ o : Z * Z, o.1 + o.2 <= KERNEL_END) [(VIDEO, PAGE_BYTES)].
Proof using. by constructor. Qed.

(** ** A line *)

Lemma fdputs_run a l s :
  user_ok pid s → user_string s a l →
  runs (ece391_fdputs 1 a) s (λ _ s', steps [(VIDEO, PAGE_BYTES)] s s' ∧ user_ok pid s' ∧ abs_screen s' = scr_puts l (abs_screen s)).
Proof using HL. intros Hu Hs. destruct (ece391_fdputs_run pid a l s Hu Hs) as (s' & E & H). exact (runs_eq _ _ _ _ _ E H). Qed.

Lemma print_row s a row :
  grepping s → user_string s a row →
  runs (_ ← ece391_fdputs 1 fname; _ ← put lit ":"; _ ← ece391_fdputs 1 a; put lit (with_newline "")) s (λ _ s',
    steps [(VIDEO, PAGE_BYTES)] s s' ∧ user_ok pid s' ∧ abs_screen s' = scr_puts (name ++ [58] ++ row ++ [NL]) (abs_screen s)).
Proof using HL.
  intros [Hu _ Hn Hc Hnl _] Hr.
  assert (Hk : ∀ t t' b l, steps [(VIDEO, PAGE_BYTES)] t t' → user_ok pid t → user_string t b l → user_string t' b l).
  { intros t t' b l Hs Hut. exact (user_string_steps _ t t' b l Hs (uo_page _ _ Hut) video_below). }
  eapply runs_step; [exact (fdputs_run fname name s Hu Hn)|]. intros [] s1 (S1 & U1 & C1).
  eapply runs_step; [exact (fdputs_run (lit ":") (bytes_of ":") s1 U1 (Hk s s1 _ _ S1 Hu Hc))|]. intros [] s2 (S2 & U2 & C2).
  pose proof (steps_trans _ _ _ _ S1 S2) as S12.
  eapply runs_step; [exact (fdputs_run a row s2 U2 (Hk s s2 _ _ S12 Hu Hr))|]. intros [] s3 (S3 & U3 & C3).
  pose proof (steps_trans _ _ _ _ S12 S3) as S13.
  eapply runs_mono; [exact (fdputs_run (lit (with_newline "")) (bytes_of (with_newline "")) s3 U3 (Hk s s3 _ _ S13 Hu Hnl))|].
  intros [] s4 (S4 & U4 & C4). split; [exact (steps_trans _ _ _ _ S13 S4)|]. split; [exact U4|].
  change (bytes_of ":") with [58] in C2. change (bytes_of (with_newline "")) with [NL] in C4.
  rewrite C4, C3, C2, C1, !scr_puts_app. reflexivity.
Qed.

(** The search of a line that ends with a NUL. *)
Lemma search_run s ls row :
  grepping s → cstring s (data + ls) row → 0 <= ls → ls + Z.of_nat (length row) <= 1024 →
  runs (iter_M (grep_check lit search fname data (Z.of_nat (length p)) ls (ls + Z.of_nat (length row))) ls) s (λ _ s',
    steps [(VIDEO, PAGE_BYTES)] s s' ∧ user_ok pid s' ∧ abs_screen s' = scr_puts (grep_row p name row) (abs_screen s)).
Proof using HL Hdata Hpat.
  intros Hg Hc Hls Hend. pose proof (gr_user _ Hg) as Hu. destruct (gr_search _ Hg) as [Hs (_ & _ & Hs3)]. destruct Hdata as (D1 & _ & D3).
  assert (Hrow : user_string s (data + ls) row) by (split; [done|split_and!; lia]).
  assert (Hplen : Z.of_nat (length p) < 4294967296).
  { destruct (gr_search _ Hg) as [_ (P1 & _ & P3)]. unfold PROGRAM_PAGE, PROGRAM_PAGE_END in *. lia. }
  apply (runs_iter _ _ _ (λ check t, t = s ∧ ∃ k, check = ls + Z.of_nat k ∧ (k <= length row)%nat ∧ occurs p row = occurs p (drop k row))
    (λ check _, ls + Z.of_nat (length row) - check)).
  - split; [done|]. exists 0%nat. split_and!; [lia..|done].
  - lia.
  - intros check t (-> & k & -> & Hk & Ho) _. unfold grep_check.
    destruct (Z.ltb_spec (ls + Z.of_nat k) (ls + Z.of_nat (length row))) as [Hlt|Hge].
    + apply runs_bind. destruct (lookup_lt_is_Some_2 row k) as [c Hcl]; [lia|].
      assert (Hd : occurs p (drop k row) = bool_decide (p `prefix_of` drop k row) || occurs p (drop (S k) row)) by (by rewrite (drop_S _ _ _ Hcl)).
      apply (runs_eq _ (bool_decide (p `prefix_of` drop k row)) s s).
      { unfold on_memory. rewrite (match_at_run s data search ls row p k Hc Hs Hpat Hplen) by lia. done. }
      destruct (bool_decide _) eqn:Hm; cbn [orb] in Hd.
      * assert (Hg2 : runs (_ ← ece391_fdputs 1 fname; _ ← put lit ":"; _ ← ece391_fdputs 1 (data + ls); put lit (with_newline "")) s (λ _ s',
          steps [(VIDEO, PAGE_BYTES)] s s' ∧ user_ok pid s' ∧ abs_screen s' = scr_puts (grep_row p name row) (abs_screen s))).
        { unfold grep_row. rewrite Ho, Hd. by apply print_row. }
        destruct (runs_unbind _ _ _ _ Hg2) as (? & s1 & E1 & R1). destruct (runs_unbind _ _ _ _ R1) as (? & s2 & E2 & R2).
        destruct (runs_unbind _ _ _ _ R2) as (? & s3 & E3 & R3). destruct R3 as (? & s4 & E4 & Hfin).
        apply runs_bind, (runs_eq _ _ _ _ _ E1), runs_bind, (runs_eq _ _ _ _ _ E2), runs_bind, (runs_eq _ _ _ _ _ E3), runs_bind, (runs_eq _ _ _ _ _ E4), runs_ret.
        exact Hfin.
      * apply runs_ret. split; [|lia]. split; [done|]. exists (S k). split_and!; [lia..|]. by rewrite Ho, Hd.
    + apply runs_ret. split; [apply steps_refl|]. split; [done|]. unfold grep_row. rewrite Ho, drop_ge by lia. done.
Qed.

(** ** The lines of the buffer *)

(** What the search of a buffer changes. *)
Definition buffer_objects (s : kernel) : list (Z * Z) := [(VIDEO, PAGE_BYTES); (page_at s data, 1025)].

Definition chars (l : list Z) : Prop := Forall (λ c, 0 < c < 256) l.

Lemma buffer_store s i :
  grepping s → 0 <= i <= 1024 →
  ∃ s', set_byte (data + i) 0 s = Ret tt s' ∧ grepping s' ∧ steps (buffer_objects s) s s' ∧ only (data + i) 1 s s' ∧
    ld8 s' (data + i) = 0 ∧ abs_screen s' = abs_screen s.
Proof using HL Hdata Hsearch Hname Hcolon Hnewline.
  intros Hg Hi. pose proof (gr_user _ Hg) as Hu. pose proof Hdata as (D1 & _ & D3). set (m' := st8 s (data + i) 0).
  assert (O : only (data + i) 1 s m') by (apply only_st8; unfold in_bounds; lia).
  assert (O' : only data 1025 s m') by (apply (only_widen _ _ _ _ _ _ O); lia).
  destruct (only_steps pid s data 1025 m' Hu Hdata ltac:(lia) O') as [Hs Hu'].
  exists (upd_mem (λ _, m') s). split; [done|]. split; [|split; [by apply steps_tail|split; [exact O|split]]].
  - apply (grepping_page s _ Hg Hu'); [apply O'|]. destruct (decide (i = 1024)) as [->|Hne].
    + rewrite k_mem_upd. unfold m'. rewrite ld8_st8_same. done.
    + rewrite k_mem_upd, (on_page _ _ _ _ O) by (unfold in_bounds; lia). apply Hg.
  - rewrite k_mem_upd. unfold m'. by rewrite ld8_st8_same.
  - apply (page_screen pid s data 1025 m' Hu Hdata), Hs.
Qed.

Lemma buffer_objects_steps s s' os : steps os s s' → buffer_objects s' = buffer_objects s.
Proof using. intros Hs. unfold buffer_objects. by rewrite (steps_page _ _ _ data Hs). Qed.

(** A line of the buffer is ended with a NUL and searched. *)
Lemma line_searched s ls row :
  grepping s → holds s (data + ls) row → chars row → 0 <= ls → ls + Z.of_nat (length row) <= 1024 →
  runs (_ ← set_byte (data + (ls + Z.of_nat (length row))) 0;
        iter_M (grep_check lit search fname data (Z.of_nat (length p)) ls (ls + Z.of_nat (length row))) ls) s (λ _ s',
    grepping s' ∧ steps (buffer_objects s) s s' ∧ page_only (data + (ls + Z.of_nat (length row))) 1 s s' ∧
    abs_screen s' = scr_puts (grep_row p name row) (abs_screen s)).
Proof using HL Hdata Hsearch Hname Hcolon Hnewline Hpat.
  intros Hg Hh Hc Hls Hend. destruct (buffer_store s (ls + Z.of_nat (length row)) Hg ltac:(lia)) as (s1 & E1 & Hg1 & S1 & O1 & Z1 & C1).
  pose proof Hdata as (D1 & _ & D3). apply runs_bind, (runs_eq _ _ _ _ _ E1).
  assert (Hs : cstring s1 (data + ls) row).
  { apply holds_cstring; [done| |by rewrite <- Z.add_assoc]. revert Hh. apply holds_ext. intros i Hi. apply (on_page _ _ _ _ O1); unfold in_bounds; lia. }
  eapply runs_mono; [apply (search_run s1 ls row Hg1 Hs Hls Hend)|]. intros [] s2 (S2 & U2 & C2).
  split; [exact (grepping_low _ s1 s2 Hg1 S2 U2 video_below)|]. split; [|split].
  - apply (steps_trans _ _ s1); [exact S1|]. by apply steps_head.
  - intros b Hb Hd. rewrite (low_page _ s1 s2 b 0 (uo_page _ _ (gr_user _ Hg1)) S2 video_below b Hb) by lia. by apply (on_page _ _ _ _ O1).
  - by rewrite C2, C1.
Qed.

(** At [ls], with the bytes [w] up to [last] in the buffer at the start [s0]. *)
Record scanning (w : list Z) (last : Z) (s0 : kernel) (ls : Z) (t : kernel) (done : list (list Z)) (rest : list Z) : Prop := {
  sc_grepping : grepping t;
  sc_steps : steps (buffer_objects s0) s0 t;
  sc_rest : holds t (data + ls) rest ∧ chars rest ∧ Z.of_nat (length rest) = last - ls;
  sc_rows : rows_of w = done ++ rows_of rest;
  sc_first : 0 <= ls ∧ (ls = 0 → done = []) ∧ (ls ≠ 0 → done ≠ [] ∧ rest ≠ []);
  sc_screen : abs_screen t = scr_puts (grep_rows p name done) (abs_screen s0);
}.

(** The end of the search: everything was searched, and then the buffer was at
    the end of a line unless the file ended; or the last line is kept. *)
Definition all_searched (w : list Z) (last cnt : Z) (s0 t : kernel) : Prop :=
  abs_screen t = scr_puts (grep_rows p name (rows_of w)) (abs_screen s0) ∧
  (cnt = 0 ∨ last < 1024 ∨ (∃ row, rows_of w = [row]) ∨ ∃ done, rows_of w = done ++ [[]]).

Definition last_kept (w : list Z) (cnt r : Z) (s0 t : kernel) : Prop :=
  cnt ≠ 0 ∧ ∃ done row, rows_of w = done ++ [row] ∧ done ≠ [] ∧ r = Z.of_nat (length row) ∧ holds t data row ∧ chars row ∧
    abs_screen t = scr_puts (grep_rows p name done) (abs_screen s0).

Definition buffer_end (w : list Z) (last cnt : Z) (s0 : kernel) (r : Z) (t : kernel) : Prop :=
  grepping t ∧ steps (buffer_objects s0) s0 t ∧ (r = 0 ∧ all_searched w last cnt s0 t ∨ last_kept w cnt r s0 t).

Lemma nl_is_char : 0 < NL < 256.
Proof using. done. Qed.

(** The unfinished line is moved to the start. *)
Lemma line_moved s ls row last :
  grepping s → holds s (data + ls) row → chars row → 0 < ls → ls + Z.of_nat (length row) = last → last <= 1024 →
  runs (_ ← set_byte (data + last) 0; change_memory (λ m, ece391_strcpy m data (data + ls))) s (λ _ s',
    grepping s' ∧ steps (buffer_objects s) s s' ∧ holds s' data row ∧ abs_screen s' = abs_screen s).
Proof using HL Hdata Hsearch Hname Hcolon Hnewline.
  intros Hg Hh Hc Hls Hlen Hlast. destruct (buffer_store s last Hg ltac:(lia)) as (s1 & E1 & Hg1 & S1 & O1 & Z1 & C1).
  pose proof Hdata as (D1 & _ & D3). pose proof (gr_user _ Hg1) as Hu1. apply runs_bind, (runs_eq _ _ _ _ _ E1).
  assert (Hs : cstring s1 (data + ls) row).
  { apply holds_cstring; [done| |by rewrite <- Z.add_assoc, Hlen]. revert Hh. apply holds_ext. intros i Hi. apply (on_page _ _ _ _ O1); unfold in_bounds; lia. }
  destruct (strcpy_down_run s1 data (data + ls) row Hs) as (m' & E2 & O2 & Hc2); [lia|split_and!; lia|lia|].
  assert (O2' : only data 1025 s1 m') by (apply (only_widen _ _ _ _ _ _ O2); lia).
  destruct (only_steps pid s1 data 1025 m' Hu1 Hdata ltac:(lia) O2') as [S2 U2].
  apply (runs_eq _ tt _ (upd_mem (λ _, m') s1)); [unfold change_memory; by rewrite E2|].
  split; [|split; [|split]].
  - apply (grepping_page s1 _ Hg1 U2); [apply O2'|]. rewrite k_mem_upd, (on_page _ _ _ _ O2) by (unfold in_bounds; lia). apply Hg1.
  - apply (steps_trans _ _ s1); [exact S1|]. rewrite <- (buffer_objects_steps s s1 _ S1). by apply steps_tail.
  - exact (proj1 (proj2 Hc2)).
  - rewrite <- C1. apply (page_screen pid s1 data 1025 m' Hu1 Hdata), S2.
Qed.

(** The last line of the buffer. *)
Lemma last_line w last cnt s0 ls t done row :
  scanning w last s0 ls t done row → rows_of row = [row] → last <= 1024 →
  runs (grep_line lit search fname data (Z.of_nat (length p)) cnt last ls) t (λ x t',
    match x with inl _ => False | inr r => buffer_end w last cnt s0 r t' end).
Proof using HL Hdata Hsearch Hname Hcolon Hnewline Hpat.
  intros [Hg Hst (Hh & Hc & Hlen) Hrows (Hls & Hz & Hnz) Hsc] Hone Hlast. rewrite Hone in Hrows.
  assert (Hn : Forall (λ c, c ≠ NL) row) by (pose proof (rows_no_newline row) as H; rewrite Hone in H; by inversion_clear H).
  assert (Hle : ls + Z.of_nat (length row) = last) by lia. unfold grep_line.
  apply runs_bind, (runs_eq _ last t t).
  { unfold on_memory. rewrite (line_end_run t data last ls row Hh Hn ltac:(lia) ltac:(by left)). by rewrite Hle. }
  apply runs_bind, runs_gets. destruct (negb _ && negb _ && negb _) eqn:Hcond.
  - rewrite !andb_true_iff, !negb_true_iff, !Z.eqb_neq in Hcond. destruct Hcond as [[_ Hcnt] Hls0]. destruct (Hnz Hls0) as [Hdone _].
    destruct (runs_unbind _ _ _ _ (line_moved t ls row last Hg Hh Hc ltac:(lia) Hle Hlast)) as (? & t1 & E1 & ? & t2 & E2 & Hg2 & S2 & Hh2 & C2).
    apply runs_bind, (runs_eq _ _ _ _ _ E1), runs_bind, (runs_eq _ _ _ _ _ E2), runs_ret. split; [exact Hg2|]. split.
    + apply (steps_trans _ _ t); [exact Hst|]. by rewrite <- (buffer_objects_steps s0 t _ Hst).
    + right. split; [exact Hcnt|]. exists done, row. split_and!; [done..|lia|done|done|by rewrite C2].
  - destruct (runs_unbind _ _ _ _ (line_searched t ls row Hg Hh Hc Hls ltac:(lia))) as (? & t1 & E1 & ? & t2 & E2 & Hg2 & S2 & _ & C2).
    rewrite Hle in E1, E2. apply runs_bind, (runs_eq _ _ _ _ _ E1), runs_bind, (runs_eq _ _ _ _ _ E2).
    destruct (Z.leb_spec last (last + 1)); [|lia]. apply runs_ret. split; [exact Hg2|]. split.
    + apply (steps_trans _ _ t); [exact Hst|]. by rewrite <- (buffer_objects_steps s0 t _ Hst).
    + left. split; [done|]. split; [by rewrite C2, Hsc, Hrows, grep_rows_app, grep_rows_one, scr_puts_app|].
      destruct (Z.eqb_spec cnt 0) as [->|]; [by left|]. destruct (Z.eqb_spec ls 0) as [Hls0|]; [rewrite (Hz Hls0) in Hrows; right; right; left; by exists row|].
      destruct (Z.eqb_spec (ld8 t (data + last)) NL) as [Hnl|]; [|done]. right. left. pose proof (gr_beyond _ Hg) as Hb.
      destruct (decide (last = 1024)) as [->|]; [done|lia].
Qed.

(** A line of the buffer that ends there. *)
Lemma whole_line w last cnt s0 ls t done row rest :
  scanning w last s0 ls t done (row ++ NL :: rest) → Forall (λ c, c ≠ NL) row → last <= 1024 →
  runs (grep_line lit search fname data (Z.of_nat (length p)) cnt last ls) t (λ x t',
    match x with
    | inl ls' => ls < ls' <= last ∧ scanning w last s0 ls' t' (done ++ [row]) rest
    | inr r => buffer_end w last cnt s0 r t'
    end).
Proof using HL Hdata Hsearch Hname Hcolon Hnewline Hpat.
  intros [Hg Hst (Hh & Hc & Hlen) Hrows (Hls & Hz & Hnz) Hsc] Hn Hlast. rewrite length_app in Hlen. cbn [length] in Hlen.
  rewrite (rows_cons row rest Hn) in Hrows. pose proof Hdata as (D1 & _ & D3).
  apply holds_app in Hh as [Hh Hh']. apply Forall_app in Hc as [Hc Hc']. pose proof (List.Forall_inv_tail Hc') as Hc''. clear Hc'. rename Hc'' into Hc'.
  set (le := ls + Z.of_nat (length row)). assert (Hnl : ld8 t (data + le) = NL).
  { pose proof (Hh' 0%nat NL eq_refl) as H. rewrite Z.add_0_r, <- Z.add_assoc in H. exact H. }
  unfold grep_line. apply runs_bind, (runs_eq _ le t t).
  { unfold on_memory. rewrite (line_end_run t data last ls row Hh Hn); [done|lia|right; split; [lia|exact Hnl]]. }
  apply runs_bind, runs_gets. rewrite Hnl. cbn [Z.eqb Pos.eqb NL negb andb].
  destruct (runs_unbind _ _ _ _ (line_searched t ls row Hg Hh Hc Hls ltac:(lia))) as (? & t1 & E1 & ? & t2 & E2 & Hg2 & S2 & O2 & C2).
  fold le in E1, E2, O2. apply runs_bind, (runs_eq _ _ _ _ _ E1), runs_bind, (runs_eq _ _ _ _ _ E2).
  assert (Hst2 : steps (buffer_objects s0) s0 t2).
  { apply (steps_trans _ _ t); [exact Hst|]. by rewrite <- (buffer_objects_steps s0 t _ Hst). }
  assert (Hsc2 : abs_screen t2 = scr_puts (grep_rows p name (done ++ [row])) (abs_screen s0)) by (by rewrite C2, Hsc, grep_rows_app, grep_rows_one, scr_puts_app).
  destruct (Z.leb_spec last (le + 1)) as [Hl|Hl]; apply runs_ret.
  - assert (rest = []) as -> by (destruct rest; [done|cbn in Hlen; lia]). split; [exact Hg2|]. split; [exact Hst2|]. left. split; [done|].
    assert (Hall : rows_of w = (done ++ [row]) ++ [[]]) by (rewrite Hrows; cbn [rows_of]; by rewrite <- app_assoc).
    split; [rewrite Hall, grep_rows_app, grep_rows_one; change (grep_row p name []) with (@nil Z); by rewrite app_nil_r|]. right. right. right. by exists (done ++ [row]).
  - split; [lia|]. split; [exact Hg2|exact Hst2| | | |exact Hsc2].
    + split; [|split; [done|lia]]. apply (holds_ext t); [|].
      * intros i Hi. apply O2; unfold in_bounds; lia.
      * rewrite <- (app_nil_l rest) in Hh'. pose proof (proj2 (proj1 (holds_app t _ [NL] rest) Hh')) as H. cbn [length] in H.
        replace (data + (le + 1)) with (data + ls + Z.of_nat (length row) + Z.of_nat 1) by lia. exact H.
    + rewrite Hrows. by rewrite <- app_assoc.
    + split; [lia|]. split; [lia|]. intros _. split; [by destruct done|]. intros ->. cbn in Hlen. lia.
Qed.

(** The inner loop. *)
Lemma buffer_run w last cnt s0 :
  grepping s0 → holds s0 data w → chars w → Z.of_nat (length w) = last → last <= 1024 →
  runs (iter_M (grep_line lit search fname data (Z.of_nat (length p)) cnt last) 0) s0 (buffer_end w last cnt s0).
Proof using HL Hdata Hsearch Hname Hcolon Hnewline Hpat.
  intros Hg Hh Hc Hlen Hlast.
  apply (runs_iter _ _ _ (λ ls t, ls <= last ∧ ∃ done rest, scanning w last s0 ls t done rest) (λ ls _, last - ls)).
  - split; [lia|]. exists [], w. split; [exact Hg|apply steps_refl| |done| |done].
    + rewrite Z.add_0_r. split_and!; [done..|lia].
    + split_and!; [lia|done|done].
  - lia.
  - intros ls t (Hle & done & rest & Hsc) Hv. destruct (first_row rest) as (row & Hn & [[-> Hone]|(rest' & -> & _)]).
    + eapply runs_mono; [apply (last_line w last cnt s0 ls t done row Hsc Hone Hlast)|]. intros [ls'|r] t' H; [done|exact H].
    + eapply runs_mono; [apply (whole_line w last cnt s0 ls t done row rest' Hsc Hn Hlast)|]. intros [ls'|r] t' H; [|exact H].
      destruct H as [Hls H]. split; [|lia]. split; [lia|]. by exists (done ++ [row]), rest'.
Qed.

(** ** The file *)

Context (fd ino : Z) (Hfd : 2 <= fd < 8).

Definition file_objects (s : kernel) : list (Z * Z) := buffer_objects s ++ [(fd_slot (pcb_addr pid) fd, 16)].

Lemma buffer_outside s : user_ok pid s → Forall outside (buffer_objects s).
Proof using HL Hdata. intros Hu. constructor; [apply video_outside|]. constructor; [by apply (page_outside pid)|done]. Qed.

Lemma file_harmless s : user_ok pid s → Forall (harmless pid s) (file_objects s).
Proof using HL Hdata Hfd.
  intros Hu. apply Forall_app. split; [|constructor; [by apply slot_harmless|done]].
  eapply List.Forall_impl; [|by apply buffer_outside]. intros o. by apply outside_harmless.
Qed.

(** The text from [pos] on. *)
Definition text_left (s : kernel) (pos : Z) : list Z := file_range s ino pos (file_size s ino - pos).

Lemma text_left_next s pos n :
  0 <= n → pos + n <= file_size s ino → text_left s pos = file_range s ino pos n ++ text_left s (pos + n).
Proof using.
  clear Hsearch Hname. intros Hn Hp. unfold text_left. rewrite <- file_range_app by lia. f_equal. lia.
Qed.

Lemma text_left_chars s pos : 0 <= pos <= file_size s ino → chars (file_text s ino) → chars (text_left s pos).
Proof using.
  clear Hsearch Hname. intros Hp Hc. change (file_text s ino) with (file_range s ino 0 (file_size s ino)) in Hc.
  replace (file_size s ino) with (pos + (file_size s ino - pos)) in Hc by lia. rewrite file_range_app in Hc by lia.
  apply Forall_app in Hc as [_ Hc]. exact Hc.
Qed.

Definition short_rows (l : list Z) : Prop := Forall (λ row, Z.of_nat (length row) < 1024) (rows_of l).

(** Before a read: the unfinished line [w] in the buffer, [out] printed. *)
Record piecewise (s0 : kernel) (last : Z) (t : kernel) (pos : Z) (w out : list Z) : Prop := {
  pw_grepping : grepping t;
  pw_steps : steps (file_objects s0) s0 t;
  pw_reading : get_fd t (pcb_addr pid) fd = mkFd file_table ino pos 1;
  pw_buffer : holds t data w ∧ chars w ∧ Z.of_nat (length w) = last ∧ last < 1024;
  pw_pos : 0 <= pos <= file_size s0 ino;
  pw_rows : grep_rows p name (rows_of (file_text s0 ino)) = out ++ grep_rows p name (rows_of (w ++ text_left s0 pos));
  pw_short : short_rows (w ++ text_left s0 pos);
  pw_screen : abs_screen t = scr_puts out (abs_screen s0);
}.

(** The machine after the next piece [chunk] was read. *)
Record piece_read (s0 : kernel) (last : Z) (t : kernel) (pos : Z) (w out : list Z) (n : Z) (t1 : kernel) : Prop := {
  pc_grepping : grepping t1;
  pc_steps : steps (file_objects s0) s0 t1;
  pc_reading : get_fd t1 (pcb_addr pid) fd = mkFd file_table ino (pos + n) 1;
  pc_count : 0 <= n <= 1024 - last ∧ pos + n <= file_size s0 ino ∧ (n < 1024 - last → pos + n = file_size s0 ino);
  pc_holds : holds t1 data (w ++ file_range s0 ino pos n) ∧ chars (w ++ file_range s0 ino pos n) ∧
    Z.of_nat (length (w ++ file_range s0 ino pos n)) = last + n;
  pc_screen : abs_screen t1 = abs_screen t;
}.

Lemma read_objects_file s0 t a n : steps (file_objects s0) s0 t → in_page a n → data <= a → a + n <= data + 1025 → 0 < n →
  ∀ t1, steps (read_objects pid t fd a n) t t1 → steps (file_objects s0) s0 t1.
Proof using.
  clear Hsearch Hname. intros Hst Ha H1 H2 Hn t1 Hs. apply (steps_trans _ _ t); [exact Hst|].
  assert (Hp : page_at t a = page_at s0 data + (a - data)) by (rewrite (steps_page _ _ _ a Hst); unfold page_at; lia).
  destruct Hs as [[Hup Hpk] H3 H4 H5 H6 H7 H8 H9]. split; [|done..]. split; [done|]. intros q Hq. apply Hpk.
  unfold file_objects, buffer_objects in Hq. cbn [app] in Hq. inversion_clear Hq as [|? ? _ Hq1]. inversion_clear Hq1 as [|? ? Hq2 Hq3].
  inversion_clear Hq3 as [|? ? Hq4 _]. unfold read_objects. cbn [fst snd] in *.
  constructor; [cbn [fst snd]; lia|]. constructor; [exact Hq4|constructor].
Qed.

Lemma piece_run s0 last t pos w out :
  user_ok pid s0 → file_ok s0 ino → chars (file_text s0 ino) → piecewise s0 last t pos w out →
  let n := read_count (file_size s0 ino) pos (1024 - last) in
  ∃ t1, ece391_read fd (data + last) (1024 - last) t = Ret n t1 ∧ piece_read s0 last t pos w out n t1.
Proof using HL Hdata Hsearch Hname Hcolon Hnewline Hfd.
  intros Hu0 Hf Hch [Hg Hst Hrd (Hh & Hcw & Hlw & Hlast) Hpos Hrows Hshort Hsc] n. pose proof (gr_user _ Hg) as Hu.
  pose proof (file_harmless s0 Hu0) as Hharm. pose proof (file_size_bound s0 ino Hf) as Hsz. pose proof Hdata as (D1 & _ & D3).
  destruct (process_pcb pid t (uo_process _ _ Hu)) as (_ & _ & Hpid).
  assert (Hn : 0 <= n <= 1024 - last ∧ pos + n <= file_size s0 ino ∧ (n < 1024 - last → pos + n = file_size s0 ino)).
  { unfold n, read_count. bcase; lia. }
  destruct (kept_file _ pid s0 t ino pos n Hu0 Hharm Hst Hf ltac:(lia) ltac:(lia)) as (Hft & Hsize & Hrange).
  assert (Ha : in_page (data + last) (1024 - last)) by (split_and!; lia).
  destruct (ece391_read_file pid t fd ino pos (data + last) (1024 - last) Hu Hfd) as (t1 & E & Hs1 & Hu1 & Hf1 & Hb1 & Hsc1); [by split|exact Ha|lia|lia|].
  rewrite Hsize in E, Hf1, Hb1. fold n in E, Hf1, Hb1. rewrite Hrange in Hb1.
  assert (Ho1 : page_only (data + last) (1024 - last) t t1).
  { apply (part_page [(fd_slot (pcb_addr pid) fd, 16)] t t1 _ _ (uo_page _ _ Hu) Ha Hs1). constructor; [|done]. apply (slot_high pid fd Hpid). lia. }
  exists t1. split; [exact E|]. split; [| |exact Hf1|exact Hn| |exact Hsc1].
  - apply (grepping_page t t1 Hg Hu1).
    + intros b Hb Hd. apply Ho1; [done|lia].
    + rewrite Ho1 by (unfold in_bounds; lia). apply Hg.
  - apply (read_objects_file s0 t (data + last) (1024 - last) Hst Ha); [lia..|exact Hs1].
  - split; [|split].
    + apply holds_app. split.
      * revert Hh. apply holds_ext. intros i Hi. apply Ho1; unfold in_bounds; lia.
      * rewrite Hlw. intros i c Hi. rewrite <- Hb1 in Hi. pose proof (lookup_lt_Some _ _ _ Hi) as Hlt. rewrite ld_bytes_length in Hlt by lia.
        rewrite <- (Nat2Z.id i), ld_bytes_lookup in Hi by lia. by apply Some_inj in Hi.
    + apply Forall_app. split; [done|]. pose proof (text_left_chars s0 pos Hpos Hch) as H.
      rewrite (text_left_next s0 pos n) in H by lia. by apply Forall_app in H as [H _].
    + rewrite length_app. unfold file_range. rewrite length_fmap, length_seqZ. lia.
Qed.

(** What the search of the buffer leaves for the next read. *)
Lemma piece_steps s0 last t pos w out n t1 t2 :
  piece_read s0 last t pos w out n t1 → grepping t2 → steps (buffer_objects t1) t1 t2 →
  steps (file_objects s0) s0 t2 ∧ get_fd t2 (pcb_addr pid) fd = mkFd file_table ino (pos + n) 1.
Proof using HL Hdata Hfd.
  intros [Hg1 Hst1 Hrd1 _ _ _] Hg2 S2. pose proof (gr_user _ Hg1) as Hu1.
  destruct (process_pcb pid t1 (uo_process _ _ Hu1)) as (_ & _ & Hpid). split.
  - apply (steps_trans _ _ t1); [exact Hst1|]. rewrite (buffer_objects_steps s0 t1 _ Hst1) in S2.
    apply (steps_mono (buffer_objects s0)); [|exact S2]. intros o Ho. unfold file_objects. apply elem_of_app. by left.
  - rewrite <- Hrd1. apply (kept_fd _ pid t1 t2 fd Hpid ltac:(lia) S2). by apply buffer_outside.
Qed.

Lemma text_left_end s pos : pos = file_size s ino → text_left s pos = [].
Proof using. intros ->. unfold text_left. by rewrite Z.sub_diag. Qed.

(** Everything in the buffer was searched: the text ended, or a line did. *)
Lemma searched_end s0 last t pos w out n t1 t2 :
  piecewise s0 last t pos w out → piece_read s0 last t pos w out n t1 → n ≠ 0 →
  all_searched (w ++ file_range s0 ino pos n) (last + n) n t1 t2 →
  text_left s0 (pos + n) = [] ∨ ∃ done, rows_of (w ++ file_range s0 ino pos n) = done ++ [[]].
Proof using.
  intros Hpw Hpc Hn [_ Hend]. destruct (pc_count _ _ _ _ _ _ _ _ Hpc) as (Hc1 & Hc2 & Hc3).
  destruct (pc_holds _ _ _ _ _ _ _ _ Hpc) as (_ & _ & Hlen). pose proof (pw_short _ _ _ _ _ _ Hpw) as Hshort.
  destruct (decide (last + n < 1024)) as [Hlt|Hge]; [left; apply text_left_end, Hc3; clear Hsearch Hname; lia|].
  destruct Hend as [->|[Hlt|[[row Hrow]|Hd]]]; [done|done| |by right]. exfalso.
  rewrite (text_left_next s0 pos n), app_assoc in Hshort by (clear Hsearch Hname; lia).
  destruct (row_length _ (text_left s0 (pos + n)) row Hrow) as (r & rs & Hrs & Hl). unfold short_rows in Hshort. rewrite Hrs in Hshort.
  apply List.Forall_inv in Hshort. rewrite <- (rows_one_text _ _ Hrow) in Hl. clear Hsearch Hname. lia.
Qed.

Lemma next_searched s0 last t pos w out n t1 t2 :
  piecewise s0 last t pos w out → piece_read s0 last t pos w out n t1 → n ≠ 0 → grepping t2 → steps (buffer_objects t1) t1 t2 →
  all_searched (w ++ file_range s0 ino pos n) (last + n) n t1 t2 →
  piecewise s0 0 t2 (pos + n) [] (out ++ grep_rows p name (rows_of (w ++ file_range s0 ino pos n))).
Proof using HL Hdata Hfd.
  intros Hpw Hpc Hn Hg2 S2 Hall. pose proof (searched_end _ _ _ _ _ _ _ _ _ Hpw Hpc Hn Hall) as Hend.
  destruct (piece_steps _ _ _ _ _ _ _ _ _ Hpc Hg2 S2) as [Hst Hget]. destruct (pc_count _ _ _ _ _ _ _ _ Hpc) as (Hc1 & Hc2 & Hc3).
  pose proof (pw_pos _ _ _ _ _ _ Hpw) as Hpos. pose proof (pw_short _ _ _ _ _ _ Hpw) as Hshort.
  rewrite (text_left_next s0 pos n), app_assoc in Hshort by lia. cbn [app].
  split; [exact Hg2|exact Hst|exact Hget|split_and!; [done|by constructor|done|done]|lia| | |].
  - rewrite (pw_rows _ _ _ _ _ _ Hpw), (text_left_next s0 pos n), !app_assoc, (grep_rows_split p name _ _ Hend) by lia. by rewrite app_assoc.
  - unfold short_rows in *. destruct Hend as [->|[done Hd]]; [by repeat constructor|]. rewrite (rows_app _ _ _ _ Hd) in Hshort.
    by apply Forall_app in Hshort as [_ Hshort].
  - rewrite scr_puts_app, <- (pw_screen _ _ _ _ _ _ Hpw), <- (pc_screen _ _ _ _ _ _ _ _ Hpc). apply Hall.
Qed.

Lemma next_kept s0 last t pos w out n t1 r t2 :
  piecewise s0 last t pos w out → piece_read s0 last t pos w out n t1 → grepping t2 → steps (buffer_objects t1) t1 t2 →
  last_kept (w ++ file_range s0 ino pos n) n r t1 t2 → ∃ row out', piecewise s0 r t2 (pos + n) row out'.
Proof using HL Hdata Hfd.
  intros Hpw Hpc Hg2 S2 (Hn & done & row & Hrows & Hdone & -> & Hh & Hc & Hsc).
  destruct (piece_steps _ _ _ _ _ _ _ _ _ Hpc Hg2 S2) as [Hst Hget]. destruct (pc_count _ _ _ _ _ _ _ _ Hpc) as (Hc1 & Hc2 & Hc3).
  pose proof (pw_pos _ _ _ _ _ _ Hpw) as Hpos. pose proof (pw_short _ _ _ _ _ _ Hpw) as Hshort.
  rewrite (text_left_next s0 pos n), app_assoc in Hshort by lia. pose proof (rows_forall _ _ _ _ _ Hrows Hshort) as Hshort'.
  exists row, (out ++ grep_rows p name done). split; [exact Hg2|exact Hst|exact Hget| |lia| |exact Hshort'|].
  - split; [exact Hh|]. split; [exact Hc|]. split; [done|].
    assert (Hone : rows_of row = [row]).
    { apply rows_single. pose proof (rows_no_newline (w ++ file_range s0 ino pos n)) as H. rewrite Hrows in H. by apply Forall_app in H as [_ H%List.Forall_inv]. }
    destruct (row_length row (text_left s0 (pos + n)) row Hone) as (x & xs & Hx & Hl). rewrite Hx in Hshort'. apply List.Forall_inv in Hshort'. lia.
  - rewrite (pw_rows _ _ _ _ _ _ Hpw), (text_left_next s0 pos n), !app_assoc, (rows_app _ _ _ _ Hrows), grep_rows_app by lia. by rewrite app_assoc.
  - rewrite scr_puts_app, <- (pw_screen _ _ _ _ _ _ Hpw), <- (pc_screen _ _ _ _ _ _ _ _ Hpc). exact Hsc.
Qed.

(** The file is closed again and everything was printed. *)
Record file_searched (s0 t : kernel) : Prop := {
  fs_grepping : grepping t;
  fs_steps : steps (file_objects s0) s0 t;
  fs_closed : flags (get_fd t (pcb_addr pid) fd) = 0;
  fs_screen : abs_screen t = scr_puts (grep_rows p name (rows_of (file_text s0 ino))) (abs_screen s0);
}.

Lemma file_close s0 t pos :
  grepping t → steps (file_objects s0) s0 t → get_fd t (pcb_addr pid) fd = mkFd file_table ino pos 1 →
  abs_screen t = scr_puts (grep_rows p name (rows_of (file_text s0 ino))) (abs_screen s0) →
  runs (ece391_close fd) t (λ r t', r = 0 ∧ file_searched s0 t').
Proof using HL Hdata Hfd Hsearch Hname Hcolon Hnewline.
  intros Hg Hst Hrd Hsc. pose proof (gr_user _ Hg) as Hu. destruct (process_pcb pid t (uo_process _ _ Hu)) as (_ & _ & Hpid).
  destruct (ece391_close_run pid t fd Hu Hfd) as (t' & E & Hs & Hu' & Hfl & Hsc'); [by rewrite Hrd|rewrite Hrd; by do 3 right|].
  apply (runs_eq _ _ _ _ _ E). split; [done|]. split; [| |exact Hfl|by rewrite Hsc', Hsc].
  - apply (grepping_low _ t t' Hg Hs Hu'). constructor; [|done]. apply (slot_high pid fd Hpid). lia.
  - apply (steps_trans _ _ t); [exact Hst|]. apply (steps_mono [(fd_slot (pcb_addr pid) fd, 16)]); [|exact Hs].
    intros o Ho. unfold file_objects. apply elem_of_app. by right.
Qed.

(** One turn: a piece read and its lines searched. *)
Lemma step_run s0 last t pos w out :
  user_ok pid s0 → file_ok s0 ino → chars (file_text s0 ino) → piecewise s0 last t pos w out →
  runs (grep_step lit search fname data fd (Z.of_nat (length p)) last) t (λ x t',
    match x with
    | inl last' => ∃ pos' w' out', pos < pos' ∧ piecewise s0 last' t' pos' w' out'
    | inr r => r = 0 ∧ file_searched s0 t'
    end).
Proof using HL Hdata Hfd Hsearch Hname Hcolon Hnewline Hpat.
  intros Hu0 Hf Hch Hpw. destruct (piece_run s0 last t pos w out Hu0 Hf Hch Hpw) as (t1 & E & Hpc). set (n := read_count _ _ _) in *.
  destruct (pc_count _ _ _ _ _ _ _ _ Hpc) as (Hc1 & Hc2 & Hc3). destruct (pc_holds _ _ _ _ _ _ _ _ Hpc) as (Hh & Hcw & Hlen).
  unfold grep_step. apply runs_bind. change (BUFSIZE - last) with (1024 - last). apply (runs_eq _ _ _ _ _ E). destruct (Z.eqb_spec n (-1)); [lia|].
  eapply runs_step; [apply (buffer_run _ (last + n) n t1 (pc_grepping _ _ _ _ _ _ _ _ Hpc) Hh Hcw Hlen); lia|].
  intros r t2 (Hg2 & S2 & Hend). destruct (Z.eqb_spec n 0) as [Hn|Hn].
  - destruct Hend as [[-> [Hall _]]|[Hne _]]; [|done]. destruct (piece_steps _ _ _ _ _ _ _ _ _ Hpc Hg2 S2) as [Hst Hget].
    assert (Hleft : file_range s0 ino pos n = [] ∧ text_left s0 pos = []).
    { rewrite Hn. split; [done|]. apply text_left_end. destruct (pw_buffer _ _ _ _ _ _ Hpw) as (_ & _ & _ & Hl). lia. }
    destruct Hleft as [L1 L2]. eapply runs_step; [apply (file_close s0 t2 (pos + n) Hg2 Hst Hget)|].
    + rewrite Hall, (pc_screen _ _ _ _ _ _ _ _ Hpc), (pw_screen _ _ _ _ _ _ Hpw), (pw_rows _ _ _ _ _ _ Hpw), L1, L2, scr_puts_app. reflexivity.
    + intros r t3 (-> & Hdone). by apply runs_ret.
  - apply runs_ret. destruct Hend as [[-> Hall]|Hkept].
    + exists (pos + n), [], (out ++ grep_rows p name (rows_of (w ++ file_range s0 ino pos n))). split; [lia|]. by apply (next_searched s0 last t pos w out n t1 t2).
    + destruct (next_kept s0 last t pos w out n t1 r t2 Hpw Hpc Hg2 S2 Hkept) as (row & out' & H). exists (pos + n), row, out'. split; [lia|exact H].
Qed.

Lemma file_loop s0 :
  grepping s0 → get_fd s0 (pcb_addr pid) fd = mkFd file_table ino 0 1 → file_ok s0 ino → chars (file_text s0 ino) → short_rows (file_text s0 ino) →
  runs (iter_M (grep_step lit search fname data fd (Z.of_nat (length p))) 0) s0 (λ r t, r = 0 ∧ file_searched s0 t).
Proof using HL Hdata Hfd Hsearch Hname Hcolon Hnewline Hpat.
  intros Hg Hrd Hf Hch Hsh. pose proof (gr_user _ Hg) as Hu. pose proof (file_size_bound s0 ino Hf) as Hsz.
  assert (Hall : text_left s0 0 = file_text s0 ino) by (unfold text_left; by rewrite Z.sub_0_r).
  apply (runs_iter _ _ _ (λ last t, ∃ pos w out, piecewise s0 last t pos w out)
    (λ _ t, file_size s0 ino - file_pos (get_fd t (pcb_addr pid) fd))).
  - exists 0, [], []. split; [exact Hg|apply steps_refl|exact Hrd|split_and!; [done|by constructor|done|done]|lia|..|done].
    + cbn [app]. by rewrite Hall.
    + cbn [app]. by rewrite Hall.
  - rewrite Hrd. cbn [file_pos]. lia.
  - intros last t (pos & w & out & Hpw) _. eapply runs_mono; [apply (step_run s0 last t pos w out Hu Hf Hch Hpw)|].
    intros [last'|r] t' H; [|exact H]. destruct H as (pos' & w' & out' & Hlt & Hpw'). split; [by exists pos', w', out'|].
    rewrite (pw_reading _ _ _ _ _ _ Hpw'), (pw_reading _ _ _ _ _ _ Hpw). cbn [file_pos]. pose proof (pw_pos _ _ _ _ _ _ Hpw'). lia.
Qed.

(** ** [do_one_file] *)

(** A text grep can search: no NULs, no row longer than the buffer. *)
Definition searchable (s : kernel) : Prop := file_ok s ino ∧ chars (file_text s ino) ∧ short_rows (file_text s ino).

Lemma grep_open s k :
  grepping s → is_name s fname name → find_dentry s name = Some k → dentry_type s k = 2 → dentry_inode s k = ino → free_fd s = Some fd →
  searchable s →
  ∃ s', ece391_open fname s = Ret fd s' ∧ grepping s' ∧ steps (open_objects pid fd) s s' ∧
    get_fd s' (pcb_addr pid) fd = mkFd file_table ino 0 1 ∧ searchable s' ∧ file_text s' ino = file_text s ino ∧ abs_screen s' = abs_screen s.
Proof using HL Hdata Hfd Hsearch Hname Hcolon Hnewline.
  intros Hg Hn Hk Hty Hino Hfree (Hf & Hch & Hsh). pose proof (gr_user _ Hg) as Hu. destruct (process_pcb pid s (uo_process _ _ Hu)) as (_ & _ & Hpid).
  destruct (ece391_open_run pid fname s name k (mkFd file_table ino 0 1) fd Hu Hn Hk) as (s1 & E & Hs & Hu1 & Hget & Hsc); [by rewrite Hty, Hino|exact Hfree|lia|].
  destruct (kept_text _ pid s s1 ino Hu (open_harmless pid s fd Hu Hfd) Hs Hf) as [Hf1 Htx].
  exists s1. split; [exact E|]. split; [apply (grepping_low _ s s1 Hg Hs Hu1), (open_low pid fd Hpid Hfd)|].
  split; [exact Hs|]. split; [exact Hget|]. unfold searchable. by rewrite Htx.
Qed.

Lemma do_one_file_run s k :
  grepping s → is_name s fname name → find_dentry s name = Some k → dentry_type s k = 2 → dentry_inode s k = ino → free_fd s = Some fd →
  searchable s →
  runs (do_one_file lit search fname data) s (λ r s', r = 0 ∧ grepping s' ∧ steps (open_objects pid fd ++ file_objects s) s s' ∧
    flags (get_fd s' (pcb_addr pid) fd) = 0 ∧ abs_screen s' = scr_puts (grep_rows p name (rows_of (file_text s ino))) (abs_screen s)).
Proof using HL Hdata Hfd Hsearch Hname Hcolon Hnewline Hpat.
  intros Hg Hn Hk Hty Hino Hfree Hsr.
  destruct (grep_open s k Hg Hn Hk Hty Hino Hfree Hsr) as (s1 & E & Hg1 & Hs1 & Hget & (Hf1 & Hch1 & Hsh1) & Htx & Hsc).
  destruct (gr_search _ Hg) as [Hp (P1 & _ & P3)]. unfold PROGRAM_PAGE, PROGRAM_PAGE_END in P1, P3.
  unfold do_one_file. apply runs_bind, (runs_eq _ (Z.of_nat (length p)) s s).
  { unfold on_memory. by rewrite (ece391_strlen_run _ _ _ Hp) by lia. }
  apply runs_bind, (runs_eq _ _ _ _ _ E). destruct (Z.eqb_spec fd (-1)); [lia|]. rewrite s32_small by lia.
  eapply runs_mono; [apply (file_loop s1 Hg1 Hget Hf1 Hch1 Hsh1)|]. intros r s2 (-> & [Hg2 Hs2 Hfl Hsc2]).
  split; [done|]. split; [exact Hg2|]. split; [|split; [exact Hfl|by rewrite Hsc2, Htx, Hsc]].
  apply (steps_trans _ _ s1).
  - apply (steps_mono (open_objects pid fd)); [|exact Hs1]. intros o Ho. apply elem_of_app. by left.
  - assert (Heq : file_objects s1 = file_objects s) by (unfold file_objects; by rewrite (buffer_objects_steps s s1 _ Hs1)).
    rewrite Heq in Hs2. apply (steps_mono (file_objects s)); [|exact Hs2]. intros o Ho. apply elem_of_app. by right.
Qed.
End Grep.
