(* ===== verification/GrepMain.v ===== *)
(** * ece391grep.c over the directory

    [grep_correct]: grep searches the files of the directory, one after the
    other, and what it prints and returns is [grep_result]. *)

From S2P Require Import Prelude Text Memory LibMem LibStr Video State Runs Console Process FileSystem Terminal SysCalls Exec UserLib UserRun UserFiles Programs UserKeep UserPage UserClock UserExample GrepMem Grep.

Implicit Types s t : kernel.

(** ** What grep prints and returns *)

Definition DOT : Z := 46.

(** The entries from the first of [names] on: an entry that starts with a dot is
    passed over, one without a name ends the program. *)
Fixpoint grep_names (s : kernel) (p : list Z) (names : list (list Z)) : Z * list Z :=
  match names with
  | [] => (0, [])
  | name :: names' =>
    if hd 0 name =? DOT then grep_names s p names'
    else match name, find_dentry s name with
         | [], _ => (3, bytes_of "invalid filename input to system calls open" ++ bytes_of (with_newline "file open failed"))
         | _, None => (3, bytes_of "read dentry by name failed : system calls open" ++ bytes_of (with_newline "file open failed"))
         | _, Some k =>
           let '(r, out) := grep_names s p names' in
           (r, grep_rows p name (rows_of (file_text s (dentry_inode s k))) ++ out)
         end
  end.

(** The 17 entries [directory_read] gives out. *)
Definition entry_names (s : kernel) : list (list Z) := dentry_name s <$> seqZ 0 17.

Definition grep_result (s : kernel) (args : list Z) : Z * list Z :=
  match args with
  | [] => (3, bytes_of "No arguments " ++ bytes_of (with_newline "could not read argument"))
  | _ =>
    match find_dentry s (bytes_of ".") with
    | None => (2, bytes_of "read dentry by name failed : system calls open" ++ bytes_of (with_newline "directory open failed"))
    | Some _ => grep_names s args (entry_names s)
    end
  end.

Section GrepMain.
Context {L : Layout} {HL : LayoutOK L}.
Context (lit : string → Z).
Context (pid buf search data : Z) (p : list Z).

(** The literals the program needs while it searches. *)
Definition search_texts : list string := [":"; with_newline ""; with_newline "file open failed"].

(** The three arrays and the literals are in the page, apart. *)
Record grep_layout : Prop := {
  gl_data : in_page data 1025;
  gl_buf : in_page buf 33;
  gl_search : in_page search ARG_SIZE;
  gl_data_buf : data + 1025 <= buf ∨ buf + 33 <= data;
  gl_data_search : data + 1025 <= search ∨ search + ARG_SIZE <= data;
  gl_buf_search : buf + 33 <= search ∨ search + ARG_SIZE <= buf;
  gl_texts : ∀ text, text ∈ search_texts → apart_from lit text data 1025 ∧ apart_from lit text buf 33;
}.
Context (Hlay : grep_layout).
Context (Hpat : 0 < hd 0 p < 128) (Hplen : Z.of_nat (length p) < ARG_SIZE).

(** The program at the head of its loop or in it. *)
Record holding (s : kernel) : Prop := {
  ho_user : user_ok pid s;
  ho_search : user_string s search p;
  ho_texts : ∀ text, text ∈ search_texts → literal lit s text;
  ho_beyond : ld8 s (data + 1024) ≠ NL;
}.

Lemma holding_keep s s' :
  holding s → user_ok pid s' →
  (∀ b, in_bounds b → (b < data ∨ data + 1025 <= b) → (b < buf ∨ buf + 33 <= b) → ld8 s' b = ld8 s b) →
  ld8 s' (data + 1024) ≠ NL → holding s'.
Proof using Hlay Hplen.
  intros [Hu [Hs Hsp] Ht Hb] Hu' Hk Hb'. pose proof (gl_data_search Hlay). pose proof (gl_buf_search Hlay).
  assert (Hstr : ∀ a l, in_page a (Z.of_nat (length l) + 1) → (a + Z.of_nat (length l) + 1 <= data ∨ data + 1025 <= a) →
    (a + Z.of_nat (length l) + 1 <= buf ∨ buf + 33 <= a) → cstring s a l → cstring s' a l).
  { intros a l (A1 & _ & A3) H1 H2. apply cstring_ext. intros i Hi. apply Hk; unfold in_bounds; lia. }
  split; [exact Hu'| | |exact Hb'].
  - split; [|exact Hsp]. apply Hstr; [exact Hsp|lia|lia|exact Hs].
  - intros text Hin. destruct (Ht text Hin) as [Hc Hp]. destruct (gl_texts Hlay text Hin) as [A1 A2]. split; [|exact Hp].
    by apply Hstr.
Qed.

Lemma holding_low os s s' :
  holding s → steps os s s' → user_ok pid s' → Forall (λ o, o.1 + o.2 <= KERNEL_END) os → holding s'.
Proof using Hlay Hplen.
  intros Hh Hs Hu Ho. pose proof (uo_page _ _ (ho_user _ Hh)) as Hp. destruct (gl_data Hlay) as (D1 & _ & D3).
  assert (Hk : ∀ b, in_bounds b → ld8 s' b = ld8 s b) by (intros b Hb; apply (low_page os s s' 0 0 Hp Hs Ho b Hb); unfold in_bounds, PROGRAM_PAGE in *; lia).
  apply (holding_keep s s' Hh Hu); [by intros b Hb _ _; apply Hk|]. rewrite Hk by (unfold in_bounds; lia). apply Hh.
Qed.

(** With the name of a file at [buf], the search can start. *)
Lemma holding_grepping s name : holding s → user_string s buf name → grepping lit pid search buf data p name s.
Proof using Hlay.
  intros [Hu Hs Ht Hb] Hn. split; [done|done|done|apply Ht; by left|apply Ht; by right; left|done].
Qed.

(** ** The directory *)

(** The directory is open on [d0]; the files are opened on [d1]. *)
Context (d0 d1 : Z) (Hd : 2 <= d0 < d1 ∧ d1 < 8).

Definition slots_ready (s : kernel) : Prop := ∀ j, 0 <= j <= d1 → (flags (get_fd s (pcb_addr pid) j) = 0 ↔ j = d1).

Lemma slots_free s : user_ok pid s → slots_ready s → free_fd s = Some d1.
Proof using HL Hd.
  clear Hpat Hplen. intros Hu Hr. destruct (process_pcb pid s (uo_process _ _ Hu)) as (Hpcb & _ & _). unfold free_fd. rewrite Hpcb.
  destruct (find_first _ _ _) as [i|] eqn:E.
  - apply find_first_spec in E as (Hi & E & Hlt). apply Z.eqb_eq in E. f_equal. destruct (Z.lt_trichotomy i d1) as [Hlow|[->|Hhigh]]; [|done|].
    + by apply Hr in E; [|lia].
    + specialize (Hlt d1 ltac:(lia)). cbn beta in Hlt. apply Z.eqb_neq in Hlt. exfalso. apply Hlt, Hr; lia.
  - pose proof (find_first_none _ _ _ E d1 ltac:(lia)) as Hf. cbn beta in Hf. apply Z.eqb_neq in Hf. exfalso. apply Hf, Hr; lia.
Qed.

Lemma slots_same s s' : slots_ready s → (∀ j, 0 <= j <= d1 → j ≠ d0 → get_fd s' (pcb_addr pid) j = get_fd s (pcb_addr pid) j) →
  flags (get_fd s' (pcb_addr pid) d0) ≠ 0 → slots_ready s'.
Proof using Hd.
  clear Hpat Hplen. intros Hr Hk H0 j Hj. destruct (decide (j = d0)) as [->|Hne]; [lia|]. rewrite (Hk j Hj Hne). by apply Hr.
Qed.

(** What the program changes from its loop on. *)
Definition loop_objects (s : kernel) : list (Z * Z) :=
  [(VIDEO, PAGE_BYTES); (page_at s data, 1025); (page_at s buf, 33); (loc_directory_read_dentry, 64);
   (fd_slot (pcb_addr pid) d0, 16); (fd_slot (pcb_addr pid) d1, 16); (loc_open_dentry, 64); (loc_rtc_open_frequency, 4)].

Lemma loop_harmless s : user_ok pid s → Forall (harmless pid s) (loop_objects s).
Proof using HL Hlay Hd.
  clear Hpat Hplen. intros Hu. repeat apply list.Forall_cons_2; try apply Forall_nil_2.
  - by apply video_harmless.
  - apply page_harmless; [done|apply Hlay].
  - apply page_harmless; [done|apply Hlay].
  - by apply (object_harmless pid s 11).
  - apply slot_harmless; [done|lia].
  - apply slot_harmless; [done|lia].
  - by apply (object_harmless pid s 12).
  - by apply (object_harmless pid s 18).
Qed.

(** At entry [pos], with [out] printed. *)
Record at_entry (s0 : kernel) (pos : Z) (out : list Z) (t : kernel) : Prop := {
  ae_holding : holding t;
  ae_steps : steps (loop_objects s0) s0 t;
  ae_listing : listing pid t d0 pos;
  ae_slots : slots_ready t;
  ae_screen : abs_screen t = scr_puts out (abs_screen s0);
}.

Lemma loop_objects_same s0 t os : steps os s0 t → loop_objects t = loop_objects s0.
Proof using. intros Hs. unfold loop_objects. by rewrite !(steps_page _ _ _ _ Hs). Qed.

(** One entry read: its name is at [buf], padded with NULs. *)
Lemma entry_read s0 pos out t :
  user_ok pid s0 → at_entry s0 pos out t → 0 <= pos <= 16 →
  ∃ t1, ece391_read d0 buf NAME_SIZE t = Ret NAME_SIZE t1 ∧ at_entry s0 (pos + 1) out t1 ∧ ld_bytes t1 buf NAME_SIZE = padded_name s0 pos.
Proof using HL Hlay Hd Hplen.
  intros Hu0 [Hh Hst Hl Hsl Hsc] Hpos. pose proof (ho_user _ Hh) as Hu. destruct (process_pcb pid t (uo_process _ _ Hu)) as (_ & _ & Hpid).
  pose proof (gl_buf Hlay) as Hb. pose proof (gl_data Hlay) as (D1 & _ & D3). pose proof (gl_data_buf Hlay) as Hdb.
  assert (Hb32 : in_page buf NAME_SIZE) by (unfold NAME_SIZE; destruct Hb as (?&?&?); split_and!; lia).
  destruct (ece391_read_entry pid t d0 pos buf Hu ltac:(lia) Hl ltac:(lia) Hb32) as (t1 & E & Hs1 & Hu1 & Hl1 & Hb1 & Hsc1).
  assert (Hlow : (loc_directory_read_dentry, 64).1 + (loc_directory_read_dentry, 64).2 <= KERNEL_END).
  { pose proof dentry_buffer as H. cbn [fst snd]. lia. }
  pose proof (slot_high pid d0 Hpid ltac:(lia)) as Hslot.
  assert (Hk : ∀ b, in_bounds b → (b < buf ∨ buf + 33 <= b) → ld8 t1 b = ld8 t b).
  { intros b Hbb Ho. apply (kept_byte _ t t1 b (uo_page _ _ Hu) Hs1 Hbb). constructor; [by left|]. constructor; [|constructor; [left; cbn [fst snd]; lia|done]].
    right. exists buf, NAME_SIZE. split; [done|]. split; [done|]. unfold NAME_SIZE. lia. }
  exists t1. split; [exact E|]. split.
  - split; [|..|by rewrite Hsc1].
    + apply (holding_keep t t1 Hh Hu1); [by intros b Hbb _ Ho; apply Hk|]. rewrite Hk by (unfold in_bounds; lia). apply Hh.
    + apply (steps_trans _ _ t); [exact Hst|]. rewrite <- (loop_objects_same s0 t _ Hst).
      destruct Hs1 as [[Hup Hpk] H3 H4 H5 H6 H7 H8 H9]. split; [|done..]. split; [done|]. intros q Hq. apply Hpk.
      unfold loop_objects in Hq. do 2 (inversion_clear Hq as [|? ? _ Hq1]; rename Hq1 into Hq).
      inversion_clear Hq as [|? ? Q1 Hq1]. inversion_clear Hq1 as [|? ? Q2 Hq2]. inversion_clear Hq2 as [|? ? Q3 _]. cbn [fst snd] in *.
      unfold entry_objects, read_objects. constructor; [exact Q2|]. constructor; [cbn [fst snd]; unfold NAME_SIZE; lia|]. constructor; [exact Q3|done].
    + exact Hl1.
    + apply (slots_same t t1 Hsl); [|by rewrite Hl1]. intros j Hj Hne. apply (kept_slot _ pid t t1 j Hpid ltac:(lia) (sp_changes _ _ _ Hs1)).
      pose proof (slot_high pid j Hpid ltac:(lia)). pose proof (dentry_buffer_pcb pid Hpid). pose proof (page_high pid t buf NAME_SIZE Hu Hb32).
      unfold fd_slot, PCB_SIZE in *. constructor; [cbn [fst snd]; lia|]. constructor; [cbn [fst snd]; lia|]. constructor; [cbn [fst snd]; unfold fd_slot; lia|done].
  - rewrite Hb1. unfold padded_name. by rewrite (kept_name _ pid s0 t pos Hu0 (loop_harmless s0 Hu0) Hst) by lia.
Qed.

Lemma entry_chars s k : chars (dentry_name s k) ∧ Z.of_nat (length (dentry_name s k)) <= 32.
Proof using.
  clear Hpat Hplen. destruct (take_nul_props (ld_bytes s (dentry_addr s k) NAME_SIZE)) as [H1 H2]. rewrite ld_bytes_length in H2 by done. fold (dentry_name s k) in H1, H2.
  split; [|unfold NAME_SIZE in H2; lia].
  assert (H3 : ∀ l, Forall (λ c, 0 <= c < 256) l → Forall (λ c, 0 <= c < 256) (take_nul l)).
  { clear. induction 1 as [|c l Hc _ IH]; [constructor|]. cbn [take_nul]. destruct (c =? 0); by constructor. }
  assert (H4 : Forall (λ c, 0 <= c < 256) (dentry_name s k)).
  { apply H3. unfold ld_bytes. apply Forall_fmap, list.Forall_forall. intros i _. apply ld8_range. }
  unfold chars. rewrite list.Forall_forall in H1, H4 |- *. intros c Hc. specialize (H1 c Hc). specialize (H4 c Hc). cbn beta in *. lia.
Qed.

(** The name at [buf] as a string. *)
Lemma entry_named s0 pos k out t :
  at_entry s0 pos out t → ld_bytes t buf NAME_SIZE = padded_name s0 k →
  ld8 t buf = hd 0 (dentry_name s0 k) ∧
  ∃ t', set_byte (buf + NAME_SIZE) 0 t = Ret tt t' ∧ at_entry s0 pos out t' ∧ user_string t' buf (dentry_name s0 k).
Proof using HL Hlay Hd Hplen.
  intros [Hh Hst Hl Hsl Hsc] Hb. destruct (entry_chars s0 k) as [Hc Hlen]. set (name := dentry_name s0 k) in *.
  pose proof (ho_user _ Hh) as Hu. destruct (process_pcb pid t (uo_process _ _ Hu)) as (_ & _ & Hpid).
  pose proof (gl_buf Hlay) as Hbuf. pose proof Hbuf as (B1 & _ & B3). pose proof (gl_data Hlay) as (D1 & _ & D3). pose proof (gl_data_buf Hlay) as Hdb.
  unfold padded_name in Hb. fold name in Hb. rewrite padded_list in Hb by (unfold NAME_SIZE; lia).
  assert (Hbytes : ∀ i, 0 <= i < 32 → ld8 t (buf + i) = default 0 (name !! Z.to_nat i)).
  { intros i Hi. pose proof (ld_bytes_lookup t buf NAME_SIZE i ltac:(unfold NAME_SIZE; lia)) as H. rewrite Hb in H.
    destruct (name !! Z.to_nat i) as [c|] eqn:E.
    - rewrite (lookup_app_l_Some _ _ _ _ E) in H. by injection H as <-.
    - rewrite lookup_app_r in H by (by apply lookup_ge_None). apply lookup_replicate in H as [-> _]. done. }
  split; [rewrite <- (Z.add_0_r buf), Hbytes by lia; by destruct name|].
  assert (Hin : in_page (buf + NAME_SIZE) 1) by (unfold NAME_SIZE; split_and!; lia).
  assert (O : only (buf + NAME_SIZE) 1 t (st8 t (buf + NAME_SIZE) 0)) by (apply only_st8; unfold in_bounds, NAME_SIZE; lia).
  destruct (user_store pid t (buf + NAME_SIZE) 0 Hu Hin) as (E & Hs & Hu' & Hsc'). cbv zeta in E, Hs, Hu', Hsc'. set (t' := upd_mem _ t) in *.
  change (only (buf + NAME_SIZE) 1 t t') in O. assert (H32 : ld8 t' (buf + NAME_SIZE) = 0) by (unfold t'; rewrite k_mem_upd; by rewrite ld8_st8_same).
  clearbody t'. exists t'. split; [exact E|]. split.
  - split; [| | | |by rewrite Hsc'].
    + apply (holding_keep t t' Hh Hu').
      * intros b Hbb _ Ho. apply (on_page _ _ _ _ O); [done|unfold NAME_SIZE; lia].
      * rewrite (on_page _ _ _ _ O) by (unfold in_bounds, NAME_SIZE; lia). apply Hh.
    + apply (steps_trans _ _ t); [exact Hst|]. rewrite <- (loop_objects_same s0 t _ Hst).
      destruct Hs as [[Hup Hpk] H3 H4 H5 H6 H7 H8 H9]. split; [|done..]. split; [done|]. intros q Hq. apply Hpk.
      unfold loop_objects in Hq. do 2 (inversion_clear Hq as [|? ? _ Hq1]; rename Hq1 into Hq).
      inversion_clear Hq as [|? ? Q1 _]. constructor; [|done]. cbn [fst snd] in *. unfold page_at, NAME_SIZE in *. lia.
    + unfold listing. rewrite (kept_fd _ pid t t' d0 Hpid ltac:(lia) Hs); [exact Hl|]. constructor; [by apply (page_outside pid t)|done].
    + assert (Hk : ∀ j, 0 <= j <= d1 → get_fd t' (pcb_addr pid) j = get_fd t (pcb_addr pid) j).
      { intros j Hj. apply (kept_fd _ pid t t' j Hpid ltac:(lia) Hs). constructor; [by apply (page_outside pid t)|done]. }
      intros j Hj. rewrite (Hk j Hj). by apply Hsl.
  - split; [|split_and!; lia].
    assert (Hsame : ∀ i, 0 <= i < 32 → ld8 t' (buf + i) = default 0 (name !! Z.to_nat i)).
    { intros i Hi. rewrite (on_page _ _ _ _ O) by (unfold in_bounds, NAME_SIZE; lia). by apply Hbytes. }
    split; [exact Hc|]. split.
    + intros i c Hi. pose proof (lookup_lt_Some _ _ _ Hi). rewrite Hsame by lia. by rewrite Nat2Z.id, Hi.
    + destruct (decide (length name = 32%nat)) as [->|Hne]; [exact H32|]. rewrite Hsame by lia. by rewrite Nat2Z.id, lookup_ge_None_2.
Qed.

(** ** A file *)

Lemma file_apart_slot t j :
  user_ok pid t → 0 <= j < 8 → j ≠ d1 →
  Forall (λ o, o.1 + o.2 <= fd_slot (pcb_addr pid) j ∨ fd_slot (pcb_addr pid) j + 16 <= o.1) (file_objects pid data d1 t).
Proof using HL Hlay Hd.
  clear Hpat Hplen. intros Hu Hj Hne. destruct (process_pcb pid t (uo_process _ _ Hu)) as (_ & _ & Hpid).
  pose proof (slot_high pid j Hpid Hj). pose proof (page_high pid t data 1025 Hu (gl_data Hlay)).
  unfold file_objects, buffer_objects, VIDEO, PAGE_BYTES, KERNEL_START in *. cbn [app].
  constructor; [cbn [fst snd]; lia|]. constructor; [cbn [fst snd]; lia|]. constructor; [cbn [fst snd]; unfold fd_slot; lia|done].
Qed.

Lemma searchable_kept s0 t ino :
  user_ok pid s0 → steps (loop_objects s0) s0 t → searchable ino s0 → searchable ino t ∧ file_text t ino = file_text s0 ino.
Proof using HL Hlay Hd.
  intros Hu0 Hst (Hf & Hch & Hsh). destruct (kept_text _ pid s0 t ino Hu0 (loop_harmless s0 Hu0) Hst Hf) as [H1 H2].
  unfold searchable. by rewrite H2.
Qed.

Lemma file_in_loop s0 pos out t name k :
  user_ok pid s0 → at_entry s0 pos out t → user_string t buf name → name ≠ [] → Z.of_nat (length name) <= 32 →
  find_dentry s0 name = Some k → dentry_type s0 k = 2 → searchable (dentry_inode s0 k) s0 →
  runs (do_one_file lit search buf data) t (λ r t', r = 0 ∧
    at_entry s0 pos (out ++ grep_rows p name (rows_of (file_text s0 (dentry_inode s0 k)))) t').
Proof using HL Hlay Hd Hplen Hpat.
  intros Hu0 [Hh Hst Hl Hsl Hsc] Hn Hne Hlen Hk Hty Hsr. pose proof (ho_user _ Hh) as Hu. set (ino := dentry_inode s0 k) in *.
  destruct (process_pcb pid t (uo_process _ _ Hu)) as (_ & _ & Hpid). pose proof (loop_harmless s0 Hu0) as Hharm.
  destruct (kept_dentry _ pid s0 t name k Hu0 Hharm Hst Hk) as [Hty1 Hino1]. destruct (searchable_kept s0 t ino Hu0 Hst Hsr) as [Hsr1 Htx].
  pose proof (gl_data_search Hlay) as Hds. pose proof (gl_data_buf Hlay) as Hdb. pose proof (gl_texts Hlay) as Htexts. unfold ARG_SIZE in *.
  assert (Hname : is_name t buf name).
  { destruct Hn as [Hc (N1 & _ & N3)]. unfold PROGRAM_PAGE, PROGRAM_PAGE_END in N1, N3. split; [rewrite u32_small; lia|]. split; [exact Hc|]. split; [exact Hne|exact Hlen]. }
  eapply runs_mono.
  - apply (do_one_file_run lit pid search buf data p name (gl_data Hlay) Hpat ltac:(lia) ltac:(lia) (proj1 (Htexts _ ltac:(by left)))
      (proj1 (Htexts _ ltac:(by right; left))) d1 ino ltac:(lia) t k (holding_grepping t name Hh Hn) Hname);
      [by rewrite (kept_find _ pid s0 t name Hu0 Hharm Hst)|by rewrite Hty1|by rewrite Hino1|by apply slots_free|exact Hsr1].
  - intros r t' (-> & Hg & Hs & Hfl & Hsc'). split; [done|]. rewrite Htx in Hsc'. pose proof (gr_user _ _ _ _ _ _ _ _ Hg) as Hu'.
    assert (Hlow : Forall (λ o, o.1 + o.2 <= KERNEL_END ∨ ∃ a n, in_page a n ∧ o = (page_at t a, n) ∧ a = data ∧ n = 1025)
      (open_objects pid d1 ++ file_objects pid data d1 t)).
    { pose proof (slot_high pid d1 Hpid ltac:(lia)). apply Forall_app. split.
      - eapply List.Forall_impl; [|apply (open_low pid d1 Hpid); lia]. intros o Ho. by left.
      - constructor; [by left|]. constructor; [right; exists data, 1025; split; [apply Hlay|done]|]. constructor; [left; cbn [fst snd]; lia|done]. }
    split.
    + apply (holding_keep t t' Hh Hu'); [|apply Hg]. intros b Hbb Ho _. apply (kept_byte _ t t' b (uo_page _ _ Hu) Hs Hbb).
      eapply List.Forall_impl; [|exact Hlow]. intros o [H|(a & n & Ha & -> & -> & ->)]; [by left|right]. by exists data, 1025.
    + apply (steps_trans _ _ t); [exact Hst|]. rewrite <- (loop_objects_same s0 t _ Hst). apply (steps_mono (open_objects pid d1 ++ file_objects pid data d1 t)); [|exact Hs].
      intros o. unfold open_objects, file_objects, buffer_objects, loop_objects. rewrite !elem_of_app, !elem_of_cons, elem_of_nil. tauto.
    + unfold listing. rewrite <- Hl. apply (kept_slot _ pid t t' d0 Hpid ltac:(lia) (sp_changes _ _ _ Hs)).
      apply Forall_app. split; [apply open_apart; lia|]. apply file_apart_slot; (done || lia).
    + intros j Hj. destruct (decide (j = d1)) as [->|Hne']; [done|]. rewrite <- (Hsl j Hj).
      rewrite (kept_slot _ pid t t' j Hpid ltac:(lia) (sp_changes _ _ _ Hs)); [done|]. apply Forall_app. split; [apply open_apart; lia|]. apply file_apart_slot; (done || lia).
    + by rewrite Hsc', Hsc, scr_puts_app.
Qed.

Lemma message_run pid0 s text :
  user_ok pid0 s → literal lit s (with_newline text) →
  runs (put_line lit text) s (λ _ s', user_ok pid0 s' ∧ abs_screen s' = scr_puts (bytes_of (with_newline text)) (abs_screen s)).
Proof using HL. intros Hu Hl. exact (put_message lit pid0 s _ Hu Hl). Qed.

(** The entry without a name. *)
Lemma empty_in_loop s0 pos out t :
  at_entry s0 pos out t → user_string t buf [] →
  runs (do_one_file lit search buf data) t (λ r t', r = -1 ∧ user_ok pid t' ∧
    abs_screen t' = scr_puts (out ++ bytes_of "invalid filename input to system calls open" ++ bytes_of (with_newline "file open failed")) (abs_screen s0)).
Proof using HL Hlay Hplen.
  intros [Hh Hst Hl Hsl Hsc] [(_ & _ & H0) _]. pose proof (ho_user _ Hh) as Hu. cbn [length Z.of_nat] in H0. rewrite Z.add_0_r in H0.
  destruct (ece391_open_empty pid buf t Hu H0) as (t1 & E & Hs1 & Hu1 & Hsc1).
  pose proof (holding_low _ t t1 Hh Hs1 Hu1 ltac:(by constructor)) as Hh1. destruct (ho_search _ Hh) as [Hp (P1 & _ & P3)].
  unfold PROGRAM_PAGE, PROGRAM_PAGE_END in P1, P3.
  unfold do_one_file. apply runs_bind, (runs_eq _ (Z.of_nat (length p)) t t).
  { unfold on_memory. by rewrite (ece391_strlen_run _ _ _ Hp) by lia. }
  apply runs_bind, (runs_eq _ _ _ _ _ E). cbn [Z.eqb Pos.eqb].
  eapply runs_step; [apply (message_run pid t1 "file open failed" Hu1), (ho_texts _ Hh1); by do 2 right; left|].
  intros [] t2 [Hu2 Hsc2]. apply runs_ret. split; [done|]. split; [exact Hu2|]. by rewrite Hsc2, Hsc1, Hsc, !scr_puts_app.
Qed.

(** ** The loop over the entries *)

Definition names_from (s : kernel) (pos : Z) : list (list Z) := dentry_name s <$> seqZ pos (17 - pos).

Lemma names_from_next s pos : pos < 17 → names_from s pos = dentry_name s pos :: names_from s (pos + 1).
Proof using.
  clear Hpat Hplen. intros Hp. unfold names_from. rewrite seqZ_cons by lia. cbn [fmap list_fmap]. do 3 f_equal; lia.
Qed.

(** The files grep opens are texts it can search. *)
Definition files_ok (s : kernel) : Prop :=
  ∀ pos k, 0 <= pos <= 16 → dentry_name s pos ≠ [] → hd 0 (dentry_name s pos) ≠ DOT → find_dentry s (dentry_name s pos) = Some k →
    dentry_type s k = 2 ∧ searchable (dentry_inode s k) s.

(** What remains to be printed and returned. *)
Definition remaining (s : kernel) (pos : Z) (out : list Z) (q : Z * list Z) : Prop :=
  q = ((grep_names s p (names_from s pos)).1, out ++ (grep_names s p (names_from s pos)).2).

Definition grep_ends (s0 : kernel) (q : Z * list Z) (r : Z) (t : kernel) : Prop :=
  r = q.1 ∧ user_ok pid t ∧ abs_screen t = scr_puts q.2 (abs_screen s0).

Lemma own_entry s pos : 0 <= pos < 64 → ∃ k, find_dentry s (dentry_name s pos) = Some k.
Proof using.
  clear Hpat Hplen. intros Hp. unfold find_dentry. destruct (filter _ _) as [|k l] eqn:E; [|by exists k].
  assert (pos ∈ filter (λ i, dentry_name s i = dentry_name s pos) (seqZ 0 64)) as Hin; [|by rewrite E in Hin; apply elem_of_nil in Hin].
  apply list_elem_of_filter. split; [done|]. apply elem_of_seqZ. lia.
Qed.

Lemma file_turn s0 pos out t q :
  user_ok pid s0 → files_ok s0 → at_entry s0 pos out t → 0 <= pos <= 16 → remaining s0 pos out q →
  runs (grep_file lit buf search data d0 tt) t (λ x t',
    match x with
    | inl _ => ∃ out', at_entry s0 (pos + 1) out' t' ∧ remaining s0 (pos + 1) out' q
    | inr r => grep_ends s0 q r t'
    end).
Proof using HL Hlay Hd Hplen Hpat.
  intros Hu0 Hfiles Ha Hpos Hq. unfold remaining in *. rewrite names_from_next in Hq by lia. cbn [grep_names] in Hq.
  destruct (entry_read s0 pos out t Hu0 Ha Hpos) as (t1 & E1 & Ha1 & Hb1).
  destruct (entry_named s0 (pos + 1) pos out t1 Ha1 Hb1) as (Hfirst & t2 & E2 & Ha2 & Hname). destruct (entry_chars s0 pos) as [_ Hlen].
  unfold grep_file. apply runs_bind. change (SBUFSIZE - 1) with NAME_SIZE. apply (runs_eq _ _ _ _ _ E1). cbn [Z.eqb NAME_SIZE].
  apply runs_bind, runs_gets. rewrite Hfirst. unfold DOT in Hq. destruct (Z.eqb_spec (hd 0 (dentry_name s0 pos)) 46) as [Hdot|Hdot].
  - apply runs_ret. by exists out.
  - apply runs_bind, (runs_eq _ _ _ _ _ E2). destruct (own_entry s0 pos ltac:(lia)) as [k Hk].
    destruct (dentry_name s0 pos) as [|c name] eqn:Hnm.
    + eapply runs_step; [apply (empty_in_loop s0 (pos + 1) out t2 Ha2 Hname)|]. intros r t3 (-> & Hu3 & Hsc3). apply runs_ret. rewrite Hq. by split.
    + rewrite Hk in Hq. rewrite <- Hnm in Hk, Hname, Hlen, Hdot, Hq. destruct (Hfiles pos k Hpos) as [Hty Hsr]; [by rewrite Hnm|done|done|].
      eapply runs_step; [apply (file_in_loop s0 (pos + 1) out t2 _ k Hu0 Ha2 Hname); [by rewrite Hnm|done..]|].
      intros r t3 (-> & Ha3). apply runs_ret. eexists. split; [exact Ha3|]. destruct (grep_names s0 p (names_from s0 (pos + 1))) as [r o]. cbn [fst snd] in *.
      by rewrite Hq, app_assoc.
Qed.

Lemma files_loop s0 t :
  user_ok pid s0 → files_ok s0 → at_entry s0 0 [] t →
  runs (iter_M (grep_file lit buf search data d0) tt) t (grep_ends s0 (grep_names s0 p (entry_names s0))).
Proof using HL Hlay Hd Hplen Hpat.
  intros Hu0 Hfiles Ha. set (q := grep_names s0 p (entry_names s0)).
  apply (runs_iter _ _ _ (λ _ t, ∃ pos out, at_entry s0 pos out t ∧ 0 <= pos <= 17 ∧ remaining s0 pos out q)
    (λ _ t, 17 - file_pos (get_fd t (pcb_addr pid) d0))).
  - exists 0, []. split; [exact Ha|]. split; [lia|]. unfold remaining, q, names_from, entry_names. cbn [app]. by destruct (grep_names _ _ _).
  - by rewrite (ae_listing _ _ _ _ Ha).
  - intros [] t1 (pos & out & Ha1 & Hpos & Hq) _. rewrite (ae_listing _ _ _ _ Ha1). cbn [file_pos]. destruct (decide (pos <= 16)) as [Hle|Hgt].
    + eapply runs_mono; [apply (file_turn s0 pos out t1 q Hu0 Hfiles Ha1 ltac:(lia) Hq)|]. intros [[]|r] t2 H; [|exact H].
      destruct H as (out' & Ha2 & Hq'). rewrite (ae_listing _ _ _ _ Ha2). cbn [file_pos]. split; [|lia]. exists (pos + 1), out'. split; [exact Ha2|]. split; [lia|exact Hq'].
    + assert (Hb32 : in_page buf NAME_SIZE) by (destruct (gl_buf Hlay) as (?&?&?); unfold NAME_SIZE; split_and!; lia).
      pose proof (ho_user _ (ae_holding _ _ _ _ Ha1)) as Hu1.
      destruct (ece391_read_entries_end pid t1 d0 pos buf Hu1 ltac:(lia) (ae_listing _ _ _ _ Ha1) ltac:(lia) Hb32) as (t2 & E2 & _ & Hu2 & Hsc2).
      unfold grep_file. apply runs_bind. change (SBUFSIZE - 1) with NAME_SIZE. apply (runs_eq _ _ _ _ _ E2). cbn [Z.eqb]. apply runs_ret.
      replace pos with 17 in Hq by lia. unfold remaining in Hq. change (names_from s0 17) with (@nil (list Z)) in Hq. cbn [grep_names fst snd] in Hq.
      rewrite app_nil_r in Hq. rewrite Hq. split; [done|]. split; [exact Hu2|]. cbn [snd]. by rewrite Hsc2, (ae_screen _ _ _ _ Ha1).
Qed.
End GrepMain.

(** ** The program *)

Section GrepRun.
Context {L : Layout} {HL : LayoutOK L}.
Context (lit : string → Z).
Context (pid buf search data : Z).

(** What grep relies on: its arrays and messages; a pattern that starts with a
    character below 128; and, when the directory has an entry for itself, two
    free descriptors and files that are texts with rows below 1024 characters. *)
Record can_grep (s : kernel) (args : list Z) : Prop := {
  cg_user : user_ok pid s;
  cg_layout : grep_layout lit buf search data;
  cg_args : cstring s (pcb_addr pid + arguments_off) args ∧ Z.of_nat (length args) < ARG_SIZE;
  cg_first : args ≠ [] → hd 0 args < 128;
  cg_texts : ∀ text, text ∈ ["."; with_newline "could not read argument"; with_newline "directory open failed"] ++ search_texts →
    literal lit s text ∧ apart_from lit text search ARG_SIZE;
  cg_beyond : ld8 s (data + 1024) ≠ NL;
  cg_files : ∀ k, args ≠ [] → find_dentry s (bytes_of ".") = Some k → dentry_type s k = 1 ∧ files_ok s ∧
    ∃ d0 d1, (2 <= d0 < d1 ∧ d1 < 8) ∧ ∀ j, 0 <= j <= d1 → (flags (get_fd s (pcb_addr pid) j) = 0 ↔ j = d0 ∨ j = d1);
}.

Lemma grep_no_args s : can_grep s [] → runs (grep_main lit buf search data) s (grep_ends pid s (grep_result s [])).
Proof using HL.
  intros Hc. pose proof (cg_user _ _ Hc) as Hu. destruct (cg_texts _ _ Hc (with_newline "could not read argument") ltac:(by right; left)) as [Hl _].
  destruct (ece391_getargs_none pid search BUFSIZE s Hu) as (s1 & E & Hs & Hu1 & Hsc).
  { rewrite <- (Z.add_0_r (_ + arguments_off)). apply (cg_args _ _ Hc). }
  assert (Hl1 : literal lit s1 (with_newline "could not read argument")) by (apply (kept_literal lit _ pid s s1 _ Hu Hs Hl); constructor; [by left|done]).
  unfold grep_main. apply runs_bind, (runs_eq _ _ _ _ _ E). cbn [Z.eqb negb].
  eapply runs_step; [exact (put_message lit pid s1 _ Hu1 Hl1)|]. intros [] s2 [Hu2 Hsc2]. apply runs_ret. split; [done|]. split; [exact Hu2|].
  rewrite Hsc2, Hsc. cbn [grep_result snd]. by rewrite scr_puts_app.
Qed.

(** After [ece391_getargs]: the pattern is at [search]. *)
Record got_pattern (s : kernel) (args : list Z) (s1 : kernel) : Prop := {
  gp_user : user_ok pid s1;
  gp_steps : steps [(page_at s search, ARG_SIZE)] s s1;
  gp_pattern : user_string s1 search args;
  gp_texts : ∀ text, text ∈ ["."; with_newline "could not read argument"; with_newline "directory open failed"] ++ search_texts → literal lit s1 text;
  gp_beyond : ld8 s1 (data + 1024) ≠ NL;
  gp_screen : abs_screen s1 = abs_screen s;
}.

Lemma grep_gets_pattern s args : can_grep s args → args ≠ [] → ∃ s1, ece391_getargs search BUFSIZE s = Ret 0 s1 ∧ got_pattern s args s1.
Proof using HL.
  intros Hc Hne. pose proof (cg_user _ _ Hc) as Hu. destruct (cg_args _ _ Hc) as [Ha Hlen]. pose proof (cg_layout _ _ Hc) as Hlay.
  pose proof (gl_search _ _ _ _ Hlay) as Hs. pose proof (gl_data _ _ _ _ Hlay) as (D1 & _ & D3). pose proof (gl_data_search _ _ _ _ Hlay) as Hds.
  destruct (ece391_getargs_run pid search BUFSIZE s args Hu Hs) as (s1 & E & Hs1 & Hu1 & Hc1 & Hsc1); [by split_and!|].
  pose proof (part_page [] s s1 search ARG_SIZE (uo_page _ _ Hu) Hs Hs1 ltac:(constructor)) as Ho.
  exists s1. split; [exact E|]. split; [exact Hu1|exact Hs1| | | |exact Hsc1].
  - split; [exact Hc1|]. destruct Hs as (S1 & _ & S3). split_and!; lia.
  - intros text Hin. destruct (cg_texts _ _ Hc text Hin) as [Hl Hap]. by apply (string_page search ARG_SIZE s s1).
  - rewrite Ho by (unfold in_bounds; lia). apply Hc.
Qed.

Lemma grep_names_kept os s s' args names :
  user_ok pid s → Forall (harmless pid s) os → steps os s s' →
  (∀ name k, name ∈ names → name ≠ [] → hd 0 name ≠ DOT → find_dentry s name = Some k → file_ok s (dentry_inode s k)) →
  grep_names s' args names = grep_names s args names.
Proof using HL.
  intros Hu Hh Hs. induction names as [|name names IH]; intros Hf; [done|]. cbn [grep_names].
  rewrite IH by (intros nm k Hin; apply Hf; by right). destruct (Z.eqb_spec (hd 0 name) DOT) as [|Hd]; [done|].
  destruct name as [|c name]; [done|]. rewrite (kept_find _ pid s s' _ Hu Hh Hs). destruct (find_dentry s (c :: name)) as [k|] eqn:Hk; [|done].
  destruct (kept_dentry _ pid s s' _ k Hu Hh Hs Hk) as [_ ->].
  destruct (kept_text _ pid s s' (dentry_inode s k) Hu Hh Hs) as [_ ->]; [|done]. by apply (Hf (c :: name) k); [left|..].
Qed.

(** The files after changes outside the image. *)
Lemma files_kept os s s' args :
  user_ok pid s → Forall (harmless pid s) os → steps os s s' → files_ok s →
  files_ok s' ∧ grep_names s' args (entry_names s') = grep_names s args (entry_names s).
Proof using HL.
  intros Hu Hh Hs Hf.
  assert (Hn : ∀ pos, 0 <= pos < 64 → dentry_name s' pos = dentry_name s pos) by (intros pos Hpos; by apply (kept_name os pid s s')).
  split.
  - intros pos k Hpos. rewrite Hn, (kept_find _ pid s s' _ Hu Hh Hs) by lia. intros Hne Hd Hk.
    destruct (Hf pos k Hpos Hne Hd Hk) as (Hty & Hok & Hch & Hsh). destruct (kept_dentry _ pid s s' _ k Hu Hh Hs Hk) as [-> ->].
    destruct (kept_text _ pid s s' _ Hu Hh Hs Hok) as [Hok' Htx]. split; [exact Hty|]. unfold searchable. by rewrite Htx.
  - assert (entry_names s' = entry_names s) as ->.
    { unfold entry_names. apply list_fmap_ext. intros i pos Hi. apply lookup_seqZ in Hi as [-> Hi]. apply Hn. lia. }
    apply (grep_names_kept os s s' args (entry_names s) Hu Hh Hs). intros name k Hin Hne Hd Hk.
    apply list_elem_of_fmap in Hin as (pos & -> & Hin). apply elem_of_seqZ in Hin. by apply (Hf pos k); [lia|..].
Qed.

Lemma grep_directory s args s1 k :
  can_grep s args → args ≠ [] → got_pattern s args s1 → find_dentry s (bytes_of ".") = Some k →
  runs (fd ← ece391_open (lit "."); if fd =? -1 then _ ← put_line lit "directory open failed"; mret 2 else iter_M (grep_file lit buf search data fd) tt)
    s1 (grep_ends pid s (grep_names s args (entry_names s))).
Proof using HL.
  intros Hc Hne [Hu1 Hs1 Hp1 Ht1 Hb1 Hsc1] Hk. pose proof (cg_user _ _ Hc) as Hu. pose proof (cg_layout _ _ Hc) as Hlay.
  destruct (cg_files _ _ Hc k Hne Hk) as (Hty & Hf & d0 & d1 & Hd & Hslots). destruct (process_pcb pid s1 (uo_process _ _ Hu1)) as (Hpcb & _ & Hpid).
  assert (Hout1 : Forall outside [(page_at s search, ARG_SIZE)]) by (constructor; [apply (page_outside pid s search); [done|apply Hlay]|done]).
  assert (Hh1 : Forall (harmless pid s) [(page_at s search, ARG_SIZE)]) by (constructor; [apply page_harmless; [done|apply Hlay]|done]).
  destruct (kept_dentry _ pid s s1 _ k Hu Hh1 Hs1 Hk) as [Hty1 _]. destruct (files_kept _ s s1 args Hu Hh1 Hs1 Hf) as [Hf1 Hg1].
  assert (Hfree : free_fd s1 = Some d0).
  { unfold free_fd. rewrite Hpcb. destruct (find_first _ _ _) as [i|] eqn:E.
    - apply find_first_spec in E as (Hi & E & Hlt). apply Z.eqb_eq in E. rewrite (kept_fd _ pid s s1 i Hpid ltac:(lia) Hs1 Hout1) in E.
      f_equal. destruct (Z.lt_trichotomy i d0) as [Hlow|[->|Hhigh]]; [|done|].
      + apply Hslots in E; lia.
      + specialize (Hlt d0 ltac:(lia)). cbn beta in Hlt. rewrite (kept_fd _ pid s s1 d0 Hpid ltac:(lia) Hs1 Hout1) in Hlt. apply Z.eqb_neq in Hlt. exfalso. apply Hlt, Hslots; [lia|by left].
    - pose proof (find_first_none _ _ _ E d0 ltac:(lia)) as H. cbn beta in H. rewrite (kept_fd _ pid s s1 d0 Hpid ltac:(lia) Hs1 Hout1) in H. apply Z.eqb_neq in H.
      exfalso. apply H, Hslots; [lia|by left]. }
  assert (Hn : is_name s1 (lit ".") (bytes_of ".")).
  { destruct (Ht1 "." ltac:(by left)) as [Hcs (N1 & _ & N3)]. unfold PROGRAM_PAGE, PROGRAM_PAGE_END in *. cbn [bytes_of length] in N3.
    split; [rewrite u32_small; lia|]. by split. }
  destruct (ece391_open_run pid (lit ".") s1 (bytes_of ".") k (mkFd directory_table 0 0 1) d0 Hu1 Hn) as (s2 & E2 & Hs2 & Hu2 & Hget2 & Hsc2);
    [by rewrite (kept_find _ pid s s1 _ Hu Hh1 Hs1)|by rewrite Hty1, Hty|exact Hfree|lia|].
  pose proof (open_harmless pid s1 d0 Hu1 ltac:(lia)) as Hh2. destruct (files_kept _ s1 s2 args Hu1 Hh2 Hs2 Hf1) as [Hf2 Hg2].
  apply runs_bind, (runs_eq _ _ _ _ _ E2). destruct (Z.eqb_spec d0 (-1)); [lia|].
  destruct (cg_args _ _ Hc) as [(Fa & _) Hlen]. pose proof (cg_first _ _ Hc Hne) as Hfirst.
  assert (Hpat : 0 < hd 0 args < 128) by (destruct args as [|c args]; [done|]; apply List.Forall_inv in Fa; cbn [hd] in *; lia).
  eapply runs_mono; [apply (files_loop lit pid buf search data args Hlay Hpat Hlen d0 d1 Hd s2 s2 Hu2 Hf2)|].
  - assert (Hh : holding lit pid search data args s1) by (split; [done|done| |done]; intros text Hin; apply Ht1; by do 3 right).
    split; [|apply steps_refl|exact Hget2| |done].
    + apply (holding_low lit pid buf search data args Hlay Hlen _ s1 s2 Hh Hs2 Hu2), (open_low pid d0 Hpid). lia.
    + intros j Hj. destruct (decide (j = d0)) as [->|Hnj]; [rewrite Hget2; cbn [flags]; lia|].
      rewrite (kept_slot _ pid s1 s2 j Hpid ltac:(lia) (sp_changes _ _ _ Hs2)) by (apply open_apart; lia).
      rewrite (kept_fd _ pid s s1 j Hpid ltac:(lia) Hs1 Hout1). rewrite (Hslots j Hj). intuition lia.
  - intros r s3 (-> & Hu3 & Hsc3). rewrite Hg2, Hg1, Hsc2, Hsc1 in *. by split.
Qed.

Lemma grep_run s args : can_grep s args → runs (grep_main lit buf search data) s (grep_ends pid s (grep_result s args)).
Proof using HL.
  intros Hc. destruct (decide (args = [])) as [->|Hne]; [by apply grep_no_args|]. pose proof (cg_user _ _ Hc) as Hu.
  destruct (grep_gets_pattern s args Hc Hne) as (s1 & E1 & Hp1). unfold grep_main. apply runs_bind, (runs_eq _ _ _ _ _ E1). cbn [Z.eqb negb].
  unfold grep_result. destruct args as [|c args]; [done|]. destruct (find_dentry s (bytes_of ".")) as [k|] eqn:Hk; [by apply (grep_directory s (c :: args) s1 k)|].
  destruct Hp1 as [Hu1 Hs1 _ Ht1 _ Hsc1].
  assert (Hh1 : Forall (harmless pid s) [(page_at s search, ARG_SIZE)]) by (constructor; [apply page_harmless; [done|apply (cg_layout _ _ Hc)]|done]).
  assert (Hn : is_name s1 (lit ".") (bytes_of ".")).
  { destruct (Ht1 "." ltac:(by left)) as [Hcs (N1 & _ & N3)]. unfold PROGRAM_PAGE, PROGRAM_PAGE_END in *. cbn [bytes_of length] in N3.
    split; [rewrite u32_small; lia|]. by split. }
  destruct (ece391_open_missing pid (lit ".") s1 (bytes_of ".") Hu1 Hn) as (s2 & E2 & Hs2 & Hu2 & Hsc2); [by rewrite (kept_find _ pid s s1 _ Hu Hh1 Hs1)|].
  assert (Hl2 : literal lit s2 (with_newline "directory open failed")).
  { apply (kept_literal lit _ pid s1 s2 _ Hu1 Hs2 (Ht1 _ ltac:(by do 2 right; left))). constructor; [by left|done]. }
  apply runs_bind, (runs_eq _ _ _ _ _ E2). cbn [Z.eqb Pos.eqb].
  eapply runs_step; [exact (put_message lit pid s2 _ Hu2 Hl2)|]. intros [] s3 [Hu3 Hsc3]. apply runs_ret. split; [done|]. split; [exact Hu3|].
  cbn [snd]. by rewrite Hsc3, Hsc2, Hsc1, scr_puts_app.
Qed.
End GrepRun.


(** ** A machine for grep *)

(** The file of the directory's two names is "of", a newline and "a"; descriptors
    2 to 7 are free; the texts of the program are 64 bytes apart. *)
Definition grep_texts : list string :=
  ["."; with_newline "could not read argument"; with_newline "directory open failed"] ++ search_texts.
Definition grep_lit : string → Z := literal_at 0x8340000 grep_texts.
Definition grep_stores : list (Z * Z) :=
  [(0x500000 + 8192, 4); (0x505000, 0x610A666F); (fd_slot 0x7FE000 2 + flags_off, 0); (fd_slot 0x7FE000 3 + flags_off, 0)].
Definition grep_image : kernel :=
  upd_mem (λ m, foldl (λ m text, store_bytes (grep_lit text) (bytes_of text) m) (foldl (λ m '(a, v), st32 m a v) m grep_stores) grep_texts)
    program_image.

Lemma grep_image_texts text : text ∈ grep_texts → literal grep_lit grep_image text ∧
  apart_from grep_lit text 0x8310000 1025 ∧ apart_from grep_lit text 0x8320000 33 ∧ apart_from grep_lit text 0x8330000 ARG_SIZE.
Proof.
  intros Hin. pose (check text := cstring_check grep_image (grep_lit text) (bytes_of text) && (0x8340000 <=? grep_lit text) && (grep_lit text + Z.of_nat (length (bytes_of text)) <=? 0x8350000)).
  assert (Hall : forallb check grep_texts = true) by (vm_compute; reflexivity).
  rewrite forallb_forall in Hall. specialize (Hall text (proj1 (list_elem_of_In _ _) Hin)). unfold check in Hall.
  rewrite !andb_true_iff, !Z.leb_le in Hall. destruct Hall as [[Hc H1] H2].
  split; [split; [by apply cstring_checked|unfold in_page, PROGRAM_PAGE, PROGRAM_PAGE_END; lia]|].
  unfold apart_from, ARG_SIZE. lia.
Qed.

Lemma grep_image_searchable : searchable 1 grep_image.
Proof.
  split; [|split].
  - split; [split; vm_compute; congruence|split; vm_compute; congruence|]. intros k Hk Hlt.
    assert (k = 0) as -> by (assert (file_size grep_image 1 = 4) as E by (vm_compute; reflexivity); lia). split; vm_compute; congruence.
  - assert (file_text grep_image 1 = [111; 102; 10; 97]) as -> by (vm_compute; reflexivity). repeat constructor.
  - unfold short_rows. assert (rows_of (file_text grep_image 1) = [[111; 102]; [97]]) as -> by (vm_compute; reflexivity). repeat constructor.
Qed.

Lemma grep_image_files : files_ok grep_image.
Proof.
  intros pos k Hpos Hne Hd Hk.
  assert (Hall : forallb (λ pos, bool_decide (dentry_name grep_image pos = []) || (hd 0 (dentry_name grep_image pos) =? DOT) ||
    match find_dentry grep_image (dentry_name grep_image pos) with Some k => (dentry_type grep_image k =? 2) && (dentry_inode grep_image k =? 1) | None => true end)
    (seqZ 0 17) = true) by (vm_compute; reflexivity).
  rewrite forallb_forall in Hall. specialize (Hall pos (proj1 (list_elem_of_In _ _) (proj2 (elem_of_seqZ 0 17 pos) ltac:(lia)))).
  rewrite Hk in Hall. apply orb_true_iff in Hall as [Hall|Hall].
  { apply orb_true_iff in Hall as [H|H]; [destruct (Hne (bool_decide_eq_true_1 _ H))|destruct (Hd (proj1 (Z.eqb_eq _ _) H))]. }
  apply andb_true_iff in Hall as [Hty Hino]. apply Z.eqb_eq in Hty, Hino. rewrite Hty, Hino.
  split; [reflexivity|exact grep_image_searchable].
Qed.

Lemma grep_image_ok : can_grep (L := example_layout) grep_lit 0 0x8320000 0x8330000 0x8310000 grep_image (bytes_of "f").
Proof.
  split.
  - machine_runs.
  - split; try (unfold in_page, PROGRAM_PAGE, PROGRAM_PAGE_END, ARG_SIZE; lia).
    intros text Hin. destruct (grep_image_texts text) as (_ & H1 & H2 & _); [|by split]. unfold grep_texts. apply elem_of_app. by right.
  - split; [apply cstring_checked; vm_compute; reflexivity|done].
  - by vm_compute.
  - intros text Hin. destruct (grep_image_texts text Hin) as (H1 & _ & _ & H2). by split.
  - vm_compute. congruence.
  - intros k _ Hk. assert (k = 2) as -> by (assert (find_dentry grep_image (bytes_of ".") = Some 2) as E by (vm_compute; reflexivity); congruence).
    split; [vm_compute; reflexivity|]. split; [exact grep_image_files|]. exists 2, 3. split; [lia|]. intros j Hj.
    assert (j = 0 ∨ j = 1 ∨ j = 2 ∨ j = 3) as Hcases by lia.
    destruct Hcases as [->|[->|[->| ->]]]; vm_compute; (split; [intros H; first [discriminate H|tauto]|intros [H|H]; first [discriminate H|reflexivity]]).
Qed.

