(* ===== verification/Counter.v ===== *)
(** * What ece391hello.c and ece391counter.c do *)

From S2P Require Import Prelude Memory LibMem LibStr Video State Runs Console Process FileSystem Terminal SysCalls Command Exec UserLib UserRun UserFiles Programs UserKeep UserPage UserLine UserExample.

Implicit Types s t : kernel.

Section Counter.
Context {L : Layout} {HL : LayoutOK L}.
Context (lit : string → Z).

(** The line read, its newline kept, as a string. *)
Lemma line_as_string pid s prompt buf l n :
  user_ok pid s → literal lit s prompt → flags (get_fd s (pcb_addr pid) 0) ≠ 0 → line_ready s l → in_page buf 1024 →
  0 < n < 2147483648 →
  ∃ s1 s2 s3, put lit prompt s = Ret tt s1 ∧ ece391_read 0 buf n s1 = Ret (Z.of_nat (length l) + 1) s2 ∧
    set_byte (buf + (Z.of_nat (length l) + 1)) 0 s2 = Ret tt s3 ∧ user_ok pid s3 ∧ user_string s3 buf (l ++ [NL]) ∧
    (∀ text, literal lit s text → apart_from lit text buf 1024 → literal lit s3 text) ∧
    abs_screen s3 = scr_puts (bytes_of prompt) (abs_screen s).
Proof using HL.
  intros Hu Hp Hfl Hl Hb Hn. pose proof (lr_length _ _ Hl) as Hlen. unfold BUFF_SIZE in Hlen.
  destruct (prompt_line lit pid s prompt buf 1024 l n Hu Hp Hfl Hl Hb ltac:(lia) Hn) as (s1 & s2 & E1 & E2 & Hab & [Hby Hnl] & Hlit & Hsc & _).
  set (k := Z.of_nat (length l) + 1) in *.
  assert (Hb1 : in_page (buf + k) 1) by (destruct Hb as (?&?&?); split_and!; lia).
  pose proof (ab_user _ _ _ _ (Hab [])) as Hu2.
  destruct (user_store pid s2 (buf + k) 0 Hu2 Hb1) as (E3 & Hs3 & Hu3 & Hsc3). set (s3 := upd_mem _ s2) in *.
  exists s1, s2, s3. do 4 (split; [done|]). split; [split|split; [|by rewrite Hsc3, Hsc]].
  - assert (Hkeep : ∀ i, 0 <= i < k → ld8 s3 (buf + i) = ld8 s2 (buf + i)).
    { intros i Hi. unfold s3. rewrite k_mem_upd, ld8_st8. destruct Hb. rewrite !phys_user by lia. bcase. }
    split; [|split].
    + apply Forall_app. split; [apply Hl|]. by repeat constructor.
    + intros i c Hi. pose proof (lookup_lt_Some _ _ _ Hi) as Hlt. rewrite length_app in Hlt. cbn in Hlt.
      rewrite Hkeep by lia. destruct (decide (i < length l)%nat).
      * rewrite lookup_app_l in Hi by done. by apply Hby.
      * rewrite lookup_app_r in Hi by lia. replace (i - length l)%nat with 0%nat in Hi by lia. injection Hi as <-.
        replace i with (length l) by lia. exact Hnl.
    + rewrite length_app. cbn [length]. rewrite Nat2Z.inj_add. apply ld8_st8_same.
  - rewrite length_app. cbn [length]. destruct Hb as (?&?&?). split_and!; lia.
  - intros text Ht Hap. apply (literal_stored lit pid s2 s3 buf 1024 k text Hu2 Hs3 Hb); [lia|by apply Hlit|done].
Qed.

Lemma hello_run pid s buf l :
  user_ok pid s → in_page buf 1024 → flags (get_fd s (pcb_addr pid) 0) ≠ 0 → line_ready s l →
  literal lit s "Hi, what's your name? " → literal lit s "Hello, " → apart_from lit "Hello, " buf 1024 →
  runs (hello_main lit buf) s (λ r s', r = 0 ∧ user_ok pid s' ∧
    abs_screen s' = scr_puts (bytes_of "Hi, what's your name? " ++ bytes_of "Hello, " ++ l ++ [NL]) (abs_screen s)).
Proof using HL.
  intros Hu Hb Hfl Hl Hl1 Hl2 Hap.
  destruct (line_as_string pid s _ buf l (BUFSIZE - 1) Hu Hl1 Hfl Hl Hb ltac:(done)) as
    (s1 & s2 & s3 & E1 & E2 & E3 & Hu3 & Hs3 & Hlit & Hsc).
  destruct (ece391_fdputs_run pid (lit "Hello, ") _ s3 Hu3 (Hlit _ Hl2 Hap)) as (s4 & E4 & Hst4 & Hu4 & Hsc4).
  assert (Hs4 : user_string s4 buf (l ++ [NL])).
  { apply (user_string_steps _ s3 s4 buf _ Hst4 (uo_page _ _ Hu3)); [|done]. by constructor. }
  destruct (ece391_fdputs_run pid buf _ s4 Hu4 Hs4) as (s5 & E5 & _ & Hu5 & Hsc5).
  unfold hello_main. apply runs_bind, (runs_eq _ _ _ _ _ E1), runs_bind, (runs_eq _ _ _ _ _ E2).
  destruct (Z.eqb_spec (Z.of_nat (length l) + 1) (-1)); [lia|].
  apply runs_bind, (runs_eq _ _ _ _ _ E3), runs_bind, (runs_eq _ _ _ _ _ E4), runs_bind, (runs_eq _ _ _ _ _ E5), runs_ret.
  split; [done|]. split; [exact Hu5|]. by rewrite Hsc5, Hsc4, Hsc, !scr_puts_app.
Qed.

(** ** Counting *)

(** The numbers 1 to [n], a line each. *)
Definition counter_lines (n : Z) : list Z := mjoin ((λ i, number_text 10 (i + 1) ++ [NL]) <$> seqZ 0 n).

Lemma counter_step_run pid t buf i :
  user_ok pid t → in_page buf 1024 → literal lit t (with_newline "") → apart_from lit (with_newline "") buf 1024 →
  0 <= i < 1000000 →
  runs (counter_step lit buf i) t (λ _ t', (user_ok pid t' ∧ literal lit t' (with_newline "")) ∧
    abs_screen t' = scr_puts (number_text 10 (i + 1) ++ [NL]) (abs_screen t)).
Proof using HL.
  intros Hu Hb Hl Hap Hi. assert (Hb33 : in_page buf 33) by (destruct Hb as (?&?&?); split_and!; lia).
  destruct (itoa_spec t (i + 1) buf 10) as (m' & f & E & Hc & _ & Hw); [lia|lia|by apply page_seg|].
  pose proof (number_text_length 10 (i + 1)) as Hlen.
  set (t1 := upd_mem (λ _, m') t).
  assert (Hch : changes [(page_at t buf, 33)] t m') by (apply (page_writes t m' buf 33 f _ Hb33 ltac:(lia) Hw); by constructor).
  assert (Hs1 : steps [(page_at t buf, 33)] t t1) by by split.
  assert (Hu1 : user_ok pid t1).
  { apply (user_ok_steps [(page_at t buf, 33)] pid t t1 Hu); [|done]. constructor; [by apply page_harmless|done]. }
  assert (Hl1 : literal lit t1 (with_newline "")).
  { apply (kept_literal lit _ pid t t1 _ Hu Hs1 Hl). constructor; [|done]. right. exists buf, 33. split; [done|]. split; [done|].
    unfold apart_from in *. lia. }
  assert (Hsc1 : abs_screen t1 = abs_screen t).
  { apply (screen_kept _ t m' Hch). constructor; [|done]. pose proof (page_high pid t buf 33 Hu Hb33).
    unfold VIDEO, PAGE_BYTES, KERNEL_END in *. cbn [fst snd]. lia. }
  assert (Hs : user_string t1 buf (number_text 10 (i + 1))).
  { split; [exact Hc|]. destruct Hb33 as (?&?&?). split_and!; lia. }
  destruct (ece391_fdputs_run pid buf _ t1 Hu1 Hs) as (t2 & E2 & Hs2 & Hu2 & Hsc2).
  assert (Hl2 : literal lit t2 (with_newline "")).
  { apply (kept_literal lit _ pid t1 t2 _ Hu1 Hs2 Hl1). constructor; [by left|done]. }
  destruct (ece391_fdputs_run pid (lit (with_newline "")) _ t2 Hu2 Hl2) as (t3 & E3 & Hs3 & Hu3 & Hsc3).
  assert (Hl3 : literal lit t3 (with_newline "")).
  { apply (kept_literal lit _ pid t2 t3 _ Hu2 Hs3 Hl2). constructor; [by left|done]. }
  unfold counter_step. apply runs_bind, (runs_eq _ tt _ t1).
  { unfold change_memory. rewrite ece391_itoa_eq by (lia || by apply page_seg). by rewrite E. }
  apply runs_bind, (runs_eq _ _ _ _ _ E2), (runs_eq _ _ _ _ _ E3). split; [done|].
  rewrite Hsc3, Hsc2, Hsc1, scr_puts_app. reflexivity.
Qed.

(** What counter prints for the line [l]: more than one character, or one that
    is not a digit 0 to 2, is refused; an empty line counts to 0. *)
Definition counter_text (l : list Z) : list Z :=
  let c := hd NL l in
  if (1 <? Z.of_nat (length l)) || ((Z.of_nat (length l) =? 1) && ((c <? 48) || (50 <? c)))
  then bytes_of (with_newline "Wrong Choice!") else counter_lines (counter_max c).

(** What counter relies on. *)
Record can_count (pid : Z) (s : kernel) (l : list Z) (buf : Z) : Prop := {
  ct_user : user_ok pid s;
  ct_buf : in_page buf 1024;
  ct_stdin : flags (get_fd s (pcb_addr pid) 0) ≠ 0;
  ct_line : line_ready s l;
  ct_prompt : literal lit s (with_newline "Enter the Test Number: (0): 100, (1): 10000, (2): 100000");
  ct_wrong : literal lit s (with_newline "Wrong Choice!");
  ct_wrong_apart : apart_from lit (with_newline "Wrong Choice!") buf 1024;
  ct_newline : literal lit s (with_newline "");
  ct_newline_apart : apart_from lit (with_newline "") buf 1024;
}.

Lemma counter_loop pid s buf n :
  user_ok pid s → in_page buf 1024 → literal lit s (with_newline "") → apart_from lit (with_newline "") buf 1024 →
  0 <= n <= 100000 →
  runs (for_upM (Z.to_nat n) 0 (counter_step lit buf)) s (λ _ s', user_ok pid s' ∧
    abs_screen s' = scr_puts (counter_lines n) (abs_screen s)).
Proof using HL.
  intros Hu Hb Hl Hap Hn.
  eapply runs_mono; [apply (prints_for (λ t, user_ok pid t ∧ literal lit t (with_newline "")) _ (λ i, number_text 10 (i + 1) ++ [NL]))|].
  - done.
  - intros i t Hi [Hut Hlt]. apply (counter_step_run pid t buf i Hut Hb Hlt Hap). lia.
  - cbn beta. intros _ s' ([Hu' _] & Hsc'). split; [done|]. rewrite Hsc', Z2Nat.id by lia. reflexivity.
Qed.

Lemma counter_run pid s l buf :
  can_count pid s l buf →
  runs (counter_main lit buf) s (λ r s', r = 0 ∧ user_ok pid s' ∧ abs_screen s' = scr_puts
    (bytes_of (with_newline "Enter the Test Number: (0): 100, (1): 10000, (2): 100000") ++ counter_text l) (abs_screen s)).
Proof using HL.
  intros [Hu Hb Hfl Hl Hp Hw Hwa Hn Hna]. pose proof (lr_length _ _ Hl) as Hlen. unfold BUFF_SIZE in Hlen.
  destruct (line_as_string pid s _ buf l (BUFSIZE - 1) Hu Hp Hfl Hl Hb ltac:(done)) as
    (s1 & s2 & s3 & E1 & E2 & E3 & Hu3 & [Hc3 _] & Hlit & Hsc).
  unfold counter_main, put_line. apply runs_bind, (runs_eq _ _ _ _ _ E1), runs_bind, (runs_eq _ _ _ _ _ E2).
  rewrite !(u32_small (Z.of_nat (length l) + 1)) by lia. change (u32 (-1)) with 4294967295.
  destruct (Z.eqb_spec (Z.of_nat (length l) + 1) 4294967295); [lia|].
  apply runs_bind, (runs_eq _ _ _ _ _ E3).
  assert (Hl3 : Z.of_nat (length (l ++ [NL])) = Z.of_nat (length l) + 1) by (rewrite length_app; cbn; lia).
  apply runs_bind, (runs_eq _ (Z.of_nat (length l) + 1) _ s3).
  { unfold on_memory. rewrite (ece391_strlen_run _ _ _ Hc3) by lia. by rewrite Hl3. }
  assert (Hfirst : ld8 s3 buf = hd NL l).
  { destruct Hc3 as (_ & Hby & _). rewrite <- (Z.add_0_r buf). apply (Hby 0%nat). by destruct l. }
  apply runs_bind, (runs_eq _ (hd NL l) _ s3); [unfold get_byte, gets; by rewrite Hfirst|].
  unfold counter_text. cbv zeta.
  replace ((2 <? Z.of_nat (length l) + 1) || ((Z.of_nat (length l) + 1 =? 2) && ((hd NL l <? 48) || (50 <? hd NL l))))
    with ((1 <? Z.of_nat (length l)) || ((Z.of_nat (length l) =? 1) && ((hd NL l <? 48) || (50 <? hd NL l)))) by
    (f_equal; [|f_equal]; bcase).
  destruct (_ || _).
  - eapply runs_step; [exact (put_message lit pid s3 _ Hu3 (Hlit _ Hw Hwa))|]. cbn beta. intros _ s4 [Hu4 Hsc4]. apply runs_ret.
    split; [done|]. split; [exact Hu4|]. by rewrite Hsc4, Hsc, scr_puts_app.
  - eapply runs_step; [apply (counter_loop pid s3 buf (counter_max (hd NL l)) Hu3 Hb (Hlit _ Hn Hna) Hna)|].
    + unfold counter_max. repeat case_match; lia.
    + cbn beta. intros _ s4 [Hu4 Hsc4]. apply runs_ret. split; [done|]. split; [exact Hu4|]. by rewrite Hsc4, Hsc, scr_puts_app.
Qed.
End Counter.

(** C32: the program counter, with its system calls and the number conversion,
    asks for a digit and, by the line typed, prints the numbers from 1 to 100,
    10000 or 100000 in decimal, a line each, or refuses the line; it returns 0. *)
Theorem counter_correct {L : Layout} {HL : LayoutOK L} (lit : string → Z) (pid : Z) (s : kernel) (l : list Z) (buf : Z) :
  can_count lit pid s l buf →
  runs (counter_main lit buf) s (λ r s', r = 0 ∧ user_ok pid s' ∧ abs_screen s' = scr_puts
    (bytes_of (with_newline "Enter the Test Number: (0): 100, (1): 10000, (2): 100000") ++ counter_text l) (abs_screen s)).
Proof. apply counter_run. Qed.

Lemma counter_correct_witness :
  can_count (L := example_layout) example_lit 0 count_image (bytes_of "0") 0x8300000 ∧
  runs (counter_main (L := example_layout) example_lit 0x8300000) count_image (λ r s', r = 0 ∧ abs_screen s' = scr_puts
    (bytes_of (with_newline "Enter the Test Number: (0): 100, (1): 10000, (2): 100000") ++ counter_lines 100)
    (abs_screen count_image)).
Proof.
  assert (Hc : can_count (L := example_layout) example_lit 0 count_image (bytes_of "0") 0x8300000).
  { split; [exact count_user_ok|split_and!; closed_compare|by vm_compute| |apply count_literal; by do 8 right; left
      |apply count_literal; by do 9 right; left|left; closed_compare|apply count_literal; by do 10 right; left|left; closed_compare].
    split; [by vm_compute|by vm_compute|by vm_compute|closed_compare|by repeat constructor|].
    intros [|i] c Hi; [|by destruct i]. injection Hi as <-. by vm_compute. }
  split; [exact Hc|].
  eapply runs_mono; [exact (counter_correct (L := example_layout) example_lit 0 count_image (bytes_of "0") 0x8300000 Hc)|].
  cbn beta. intros r s' (-> & _ & ->). by split.
Defined.
