(* ===== verification/Pingpong.v ===== *)
(** * ece391pingpong.c: a letter that bounces between two walls

    The program prints a line a tick of the clock, for ever: [pingpong_main]
    runs its endless loop a given number of turns, and [pingpong_plays] says
    what it prints for every number. *)

From S2P Require Import Prelude Memory LibMem LibStr Video State Runs Console Process FileSystem Terminal SysCalls Command Exec UserLib UserRun UserFiles Programs UserKeep UserPage UserClock UserExample.

Implicit Types s t : kernel.

Definition BUFMAX : Z := 81.
Definition START : Z := 1.
Definition STARTLOOP : Z := 2.
Definition LOOPMAX : Z := 78.
Definition STARTCHAR : Z := 65.
Definition ENDCHAR : Z := 90.
Definition WALL : Z := 124.

Section Pingpong.
Context {L : Layout}.
Context (lit : string → Z).

(** [buf], [ret_val], [garbage]: the locals whose address is taken. *)
Context (buf ret_val garbage : Z).

(** [for (i = lo; i < hi; i++) buf[i] = ' ';] *)
Definition blank (lo hi : Z) (m : memory) : memory := for_up (Z.to_nat (hi - lo)) lo (λ i m, st8 m (buf + i) SPACE) m.

(** Up to the loop; the descriptor of the clock. *)
Definition pingpong_start : M Z :=
  _ ← modify_mem (blank 0 BUFMAX);
  _ ← set_byte (buf + (BUFMAX - 1)) 0;
  _ ← set_byte (buf + (BUFMAX - 2)) NL;
  _ ← set_byte (buf + (BUFMAX - 3)) WALL;
  _ ← set_byte (buf + START) WALL;
  rtc_fd ← ece391_open (lit "rtc");
  _ ← set_rate rtc_fd ret_val;
  mret rtc_fd.

(** The body of both inner loops. *)
Definition draw (rtc_fd curchar j : Z) : M unit :=
  _ ← modify_mem (blank STARTLOOP LOOPMAX);
  _ ← set_byte (buf + j) curchar;
  _ ← ece391_fdputs 1 buf;
  _ ← rtc_tick rtc_fd garbage;
  mret tt.

Definition next_char (curchar : Z) : Z := if curchar =? ENDCHAR then STARTCHAR else u8 (curchar + 1).

(** One turn of [while (1)]. *)
Definition pingpong_turn (rtc_fd curchar : Z) : M Z :=
  _ ← for_upM (Z.to_nat (LOOPMAX - STARTLOOP)) STARTLOOP (draw rtc_fd curchar);
  _ ← for_upM (Z.to_nat (LOOPMAX - STARTLOOP)) 0 (λ k, draw rtc_fd curchar (LOOPMAX - 1 - k));
  mret (next_char curchar).

Fixpoint pingpong_turns (n : nat) (rtc_fd curchar : Z) : M Z :=
  match n with
  | O => mret curchar
  | S k => c ← pingpong_turn rtc_fd curchar; pingpong_turns k rtc_fd c
  end.

(** The program for [n] turns; the letter of the next. *)
Definition pingpong_main (n : nat) : M Z :=
  rtc_fd ← pingpong_start;
  pingpong_turns n rtc_fd STARTCHAR.

(** ** What it prints *)

(** The line with the letter [c] at column [j]. *)
Definition line_byte (c j i : Z) : Z :=
  if i =? j then c else if (i =? 1) || (i =? 78) then WALL else if i =? 79 then NL else SPACE.
Definition court (c j : Z) : list Z := line_byte c j <$> seqZ 0 80.

(** A turn: out and back. *)
Definition turn_text (c : Z) : list Z :=
  mjoin (court c <$> seqZ 2 76) ++ mjoin ((λ k, court c (77 - k)) <$> seqZ 0 76).

(** The letter of turn [k]. *)
Definition letter (k : Z) : Z := 65 + k mod 26.

(** ** The buffer *)

Context {HL : LayoutOK L}.
Context (pid : Z).
Context (Hbuf : in_page buf 81) (Hgarbage : in_page garbage 4).

Lemma court_length c j : length (court c j) = 80%nat.
Proof using. unfold court. by rewrite length_fmap, length_seqZ. Qed.

Lemma court_string (m : memory) c j :
  0 < c < 256 → (∀ i, 0 <= i < 80 → ld8 m (buf + i) = line_byte c j i) → ld8 m (buf + 80) = 0 → cstring m buf (court c j).
Proof using Hbuf.
  intros Hc Hm H0. split; [|split].
  - unfold court. apply Forall_fmap, list.Forall_forall. intros i _. unfold line_byte, WALL, NL, SPACE. cbn. repeat case_match; lia.
  - intros i x Hi. unfold court in Hi. apply list_lookup_fmap_Some in Hi as (k & -> & Hk).
    apply lookup_seqZ in Hk as [-> Hk]. rewrite Z.add_0_l. apply Hm. lia.
  - by rewrite court_length.
Qed.

(** The walls around the line. *)
Definition walls (m : memory) : Prop :=
  ∀ i, 0 <= i < 2 ∨ 78 <= i <= 80 → ld8 m (buf + i) = if i =? 80 then 0 else line_byte SPACE 0 i.

Lemma drawn (m : memory) c j :
  2 <= j < 78 → 0 < c < 256 → walls m →
  let m' := st8 (blank STARTLOOP LOOPMAX m) (buf + j) c in
  only buf 81 m m' ∧ walls m' ∧ cstring m' buf (court c j).
Proof using Hbuf.
  intros Hj Hc Hw m'. pose proof Hbuf as (B1 & _ & B3). set (m1 := blank _ _ m) in *.
  assert (H76 : in_page (buf + 2) (Z.of_nat 76)) by (split_and!; lia).
  pose proof (fill_only buf SPACE 76 2 m H76) as O1. fold (blank STARTLOOP LOOPMAX m) in O1. fold m1 in O1.
  assert (O2 : only (buf + j) 1 m1 m') by (apply only_st8; unfold in_bounds; lia).
  assert (Hin : ∀ i, 2 <= i < 78 → ld8 m1 (buf + i) = SPACE) by (intros i Hi; by apply (fill_bytes buf SPACE 76 2 m i H76)).
  assert (Hother : ∀ i, 0 <= i < 81 → i ≠ j → ld8 m' (buf + i) = ld8 m1 (buf + i)).
  { intros i Hi Hne. apply (on_page _ _ _ _ O2); unfold in_bounds; lia. }
  assert (Hw' : walls m').
  { intros i Hi. rewrite Hother by lia. rewrite (on_page _ _ _ _ O1) by (unfold in_bounds; lia). by apply Hw. }
  split; [|split; [exact Hw'|]].
  - apply (only_trans _ _ _ m1); [apply (only_widen _ _ _ _ _ _ O1); lia|apply (only_widen _ _ _ _ _ _ O2); lia].
  - apply court_string; [done| |by rewrite Hw' by lia]. intros i Hi. destruct (decide (i = j)) as [->|Hne].
    + unfold m'. rewrite ld8_st8_same, u8_small by lia. unfold line_byte. by rewrite Z.eqb_refl.
    + destruct (decide (2 <= i < 78)) as [Hr|Hr].
      * rewrite Hother, Hin by lia. unfold line_byte. bcase.
      * rewrite Hw' by lia. unfold line_byte. bcase.
Qed.

(** ** The loops *)

(** Between two lines, the clock on descriptor [fd]. *)
Record playing (fd : Z) (s : kernel) : Prop := {
  pl_user : user_ok pid s;
  pl_clock : clocked pid fd s;
  pl_walls : walls s;
}.

Lemma draw_run fd c j s :
  2 <= fd < 8 → 2 <= j < 78 → 0 < c < 256 → playing fd s →
  runs (draw fd c j) s (λ _ s', playing fd s' ∧ abs_screen s' = scr_puts (court c j) (abs_screen s)).
Proof using HL Hbuf Hgarbage.
  intros Hfd Hj Hc [Hu Hk Hw]. destruct (process_pcb pid s (uo_process _ _ Hu)) as (_ & _ & Hpid).
  destruct (drawn s c j Hj Hc Hw) as (O & Hw1 & Hs1). cbv zeta in O, Hw1, Hs1. set (m1 := st8 _ _ c) in *.
  destruct (only_steps pid s buf 81 m1 Hu Hbuf ltac:(lia) O) as [St1 Hu1]. set (s1 := upd_mem (λ _, m1) s) in *.
  pose proof (page_outside pid s buf 81 Hu Hbuf) as Hout.
  assert (Hsc1 : abs_screen s1 = abs_screen s) by (apply (page_screen pid s buf 81 m1 Hu Hbuf), St1).
  assert (E1 : set_byte (buf + j) c (upd_mem (λ _, blank STARTLOOP LOOPMAX s) s) = Ret tt s1) by done.
  assert (Hw' : walls s1) by exact Hw1. change (cstring s1 buf (court c j)) in Hs1. clearbody s1. clear m1 O Hw1.
  assert (Hb81 : in_page buf (Z.of_nat (length (court c j)) + 1)) by (by rewrite court_length).
  destruct (ece391_fdputs_run pid buf (court c j) s1 Hu1 (conj Hs1 Hb81)) as (s2 & E2 & St2 & Hu2 & Hsc2).
  assert (Hk2 : clocked pid fd s2).
  { unfold clocked in *. rewrite <- Hk. rewrite (kept_fd _ pid s1 s2 fd Hpid ltac:(lia) St2), (kept_fd _ pid s s1 fd Hpid ltac:(lia) St1); [done|by constructor|].
    constructor; [apply video_outside|done]. }
  destruct (rtc_tick_run pid fd garbage s2 Hu2 Hfd Hk2 Hgarbage) as (s3 & E3 & St3 & Hu3 & Hm3 & Hsc3).
  unfold draw. apply runs_bind, (runs_eq _ _ _ _ _ (modify_mem_run _ s)), runs_bind, (runs_eq _ _ _ _ _ E1).
  apply runs_bind, (runs_eq _ _ _ _ _ E2), runs_bind, (runs_eq _ _ _ _ _ E3), runs_ret. split; [split|].
  - done.
  - unfold clocked in *. by rewrite Hm3.
  - intros i Hi. rewrite Hm3. rewrite <- (Hw' i Hi).
    apply (user_byte _ s1 s2 buf 81 i St2 (uo_page _ _ Hu1)); [|exact Hbuf|lia]. constructor; [closed_compare|done].
  - rewrite Hsc3, Hsc2, Hsc1. reflexivity.
Qed.

Lemma turn_run fd c s :
  2 <= fd < 8 → 0 < c < 256 → playing fd s →
  runs (pingpong_turn fd c) s (λ r s', r = next_char c ∧ playing fd s' ∧ abs_screen s' = scr_puts (turn_text c) (abs_screen s)).
Proof using HL Hbuf Hgarbage.
  intros Hfd Hc Hp. unfold pingpong_turn, turn_text. change (Z.to_nat (LOOPMAX - STARTLOOP)) with 76%nat.
  eapply runs_step; [apply (prints_for (playing fd) _ (court c) 76 STARTLOOP s Hp)|].
  { intros j t Hj Ht. unfold STARTLOOP in Hj. apply (draw_run fd c j t Hfd); [lia|exact Hc|exact Ht]. }
  intros [] s1 [Hp1 Hsc1]. cbn beta in Hp1, Hsc1.
  eapply runs_step; [apply (prints_for (playing fd) _ (λ k, court c (77 - k)) 76 0 s1 Hp1)|].
  { intros j t Hj Ht. change (LOOPMAX - 1 - j) with (77 - j). apply (draw_run fd c (77 - j) t Hfd); [lia|exact Hc|exact Ht]. }
  intros [] s2 [Hp2 Hsc2]. cbn beta in Hp2, Hsc2. apply runs_ret. split; [done|]. split; [done|].
  change (Z.of_nat 76) with 76 in Hsc1, Hsc2. change STARTLOOP with 2 in Hsc1. rewrite Hsc2, Hsc1, scr_puts_app. reflexivity.
Qed.

Lemma letter_range k : 65 <= letter k <= 90.
Proof using. unfold letter. pose proof (Z.mod_pos_bound k 26). lia. Qed.

Lemma next_letter k : next_char (letter k) = letter (k + 1).
Proof using.
  unfold next_char, letter, ENDCHAR, STARTCHAR. pose proof (Z.mod_pos_bound k 26 ltac:(lia)) as Hk.
  rewrite (Zplus_mod k 1 26). change (1 mod 26) with 1. destruct (Z.eqb_spec (65 + k mod 26) 90) as [E|E].
  - by replace (k mod 26) with 25 by lia.
  - rewrite u8_small by lia. rewrite (Z.mod_small (_ + 1)) by lia. lia.
Qed.

Lemma turns_run n fd k s :
  2 <= fd < 8 → playing fd s →
  runs (pingpong_turns n fd (letter k)) s (λ r s', r = letter (k + Z.of_nat n) ∧ playing fd s' ∧
    abs_screen s' = scr_puts (mjoin ((turn_text ∘ letter) <$> seqZ k (Z.of_nat n))) (abs_screen s)).
Proof using HL Hbuf Hgarbage.
  intros Hfd. revert k s. induction n as [|n IH]; intros k s Hp; cbn [pingpong_turns].
  - apply runs_ret. split; [by rewrite Z.add_0_r|done].
  - pose proof (letter_range k). eapply runs_step; [apply (turn_run fd (letter k) s Hfd); [lia|done]|].
    intros r s1 (-> & Hp1 & Hsc1). rewrite next_letter. eapply runs_mono; [by apply IH|].
    intros r s2 (-> & Hp2 & Hsc2). split; [f_equal; lia|]. split; [done|].
    rewrite Hsc2, Hsc1, (seqZ_cons k (Z.of_nat (S n))) by lia. rewrite fmap_cons. cbn [mjoin list_join compose].
    replace (Z.succ k) with (k + 1) by lia. replace (Z.pred (Z.of_nat (S n))) with (Z.of_nat n) by lia. rewrite scr_puts_app. reflexivity.
Qed.

(** ** The start *)

Lemma wall_store m i v k :
  0 <= i < 81 → 0 <= v < 256 →
  let m' := st8 m (buf + i) v in
  only buf 81 m m' ∧ ld8 m' (buf + i) = v ∧ (0 <= k < 81 → k ≠ i → ld8 m' (buf + k) = ld8 m (buf + k)).
Proof using Hbuf.
  intros Hi Hv m'. pose proof Hbuf as (B1 & _ & B3).
  assert (O : only (buf + i) 1 m m') by (apply only_st8; unfold in_bounds; lia).
  split; [apply (only_widen _ _ _ _ _ _ O); lia|]. split; [unfold m'; by rewrite ld8_st8_same, u8_small by lia|].
  intros Hk Hne. apply (on_page _ _ _ _ O); unfold in_bounds; lia.
Qed.

Definition wall_stores (m : memory) : memory :=
  st8 (st8 (st8 (st8 (blank 0 BUFMAX m) (buf + 80) 0) (buf + 79) NL) (buf + 78) WALL) (buf + 1) WALL.

Lemma built m : only buf 81 m (wall_stores m) ∧ walls (wall_stores m).
Proof using Hbuf.
  unfold wall_stores. set (m0 := blank 0 BUFMAX m). pose proof Hbuf as (B1 & _ & B3).
  assert (H81 : in_page (buf + 0) (Z.of_nat 81)) by (split_and!; lia).
  pose proof (fill_only buf SPACE 81 0 m H81) as O0. change (for_up 81 0 _ m) with m0 in O0. rewrite Z.add_0_r in O0. change (Z.of_nat 81) with 81 in O0.
  assert (S0 : ∀ i, 0 <= i < 81 → ld8 m0 (buf + i) = SPACE) by (intros i Hi; by apply (fill_bytes buf SPACE 81 0 m i H81)).
  pose proof (λ k, wall_store m0 80 0 k ltac:(lia) ltac:(lia)) as H1. cbv zeta in H1. set (m1 := st8 m0 _ _) in *.
  pose proof (λ k, wall_store m1 79 NL k ltac:(lia) ltac:(done)) as H2. cbv zeta in H2. set (m2 := st8 m1 _ _) in *.
  pose proof (λ k, wall_store m2 78 WALL k ltac:(lia) ltac:(done)) as H3. cbv zeta in H3. set (m3 := st8 m2 _ _) in *.
  pose proof (λ k, wall_store m3 1 WALL k ltac:(lia) ltac:(done)) as H4. cbv zeta in H4. set (m4 := st8 m3 _ _) in *.
  clearbody m0 m1 m2 m3 m4. split.
  - apply (only_trans _ _ _ m3); [|apply (H4 0)]. apply (only_trans _ _ _ m2); [|apply (H3 0)].
    apply (only_trans _ _ _ m1); [|apply (H2 0)]. apply (only_trans _ _ _ m0); [exact O0|apply (H1 0)].
  - intros i Hi. destruct (H1 i) as (_ & A1 & D1), (H2 i) as (_ & A2 & D2), (H3 i) as (_ & A3 & D3), (H4 i) as (_ & A4 & D4).
    assert (i = 0 ∨ i = 1 ∨ i = 78 ∨ i = 79 ∨ i = 80) as [->|[->|[->|[->| ->]]]] by lia; cbn [Z.eqb Pos.eqb line_byte orb].
    + rewrite D4, D3, D2, D1, S0 by lia. done.
    + exact A4.
    + rewrite D4 by lia. exact A3.
    + rewrite D4, D3 by lia. exact A2.
    + rewrite D4, D3, D2 by lia. exact A1.
Qed.

(** The machine in which pingpong starts: the clock is in the image, a
    descriptor is free, and it is the one [open] will give. *)
Record pingpong_ready (fd : Z) (s : kernel) : Prop := {
  pr_user : user_ok pid s;
  pr_free : free_fd s = Some fd ∧ 2 <= fd;
  pr_name : literal lit s "rtc" ∧ apart_from lit "rtc" buf 81;
  pr_clock : ∃ k, find_dentry s (bytes_of "rtc") = Some k ∧ dentry_type s k = 0;
  pr_ret : in_page ret_val 4 ∧ (ret_val + 4 <= buf ∨ buf + 81 <= ret_val);
}.

Lemma literal_is_name s text :
  literal lit s text → text ≠ "" → Z.of_nat (length (bytes_of text)) <= NAME_SIZE → is_name s (lit text) (bytes_of text).
Proof using.
  intros [Hc Ha] Hne Hl. pose proof Ha as (A1 & _ & A3). unfold PROGRAM_PAGE, PROGRAM_PAGE_END in A1, A3.
  split; [rewrite u32_small; lia|]. split; [done|]. split; [by destruct text|exact Hl].
Qed.

Lemma pingpong_start_run fd s :
  pingpong_ready fd s →
  runs pingpong_start s (λ r s', r = fd ∧ playing fd s' ∧ abs_screen s' = abs_screen s).
Proof using HL Hbuf.
  intros [Hu [Hfree Hfd2] [Hlit Hap] (k & Hk & Hty) [Hr Hra]]. destruct (process_pcb pid s (uo_process _ _ Hu)) as (_ & _ & Hpid).
  pose proof (find_first_spec _ _ _ _ Hfree) as (Hfd & _). destruct (built s) as [O Hw].
  destruct (only_steps pid s buf 81 _ Hu Hbuf ltac:(lia) O) as [St1 Hu1]. pose proof (page_outside pid s buf 81 Hu Hbuf) as Hout.
  assert (Hharm : Forall (harmless pid s) [(page_at s buf, 81)]) by (constructor; [by apply page_harmless|done]).
  assert (Hsc1 : abs_screen (upd_mem (λ _, wall_stores s) s) = abs_screen s) by (apply (page_screen pid s buf 81 _ Hu Hbuf), St1).
  set (s1 := upd_mem (λ _, wall_stores s) s) in *. assert (Hw1 : walls s1) by exact Hw.
  assert (E1 : ∀ (f : M Z) Q, runs f s1 Q → runs (_ ← modify_mem (blank 0 BUFMAX); _ ← set_byte (buf + (BUFMAX - 1)) 0;
    _ ← set_byte (buf + (BUFMAX - 2)) NL; _ ← set_byte (buf + (BUFMAX - 3)) WALL; _ ← set_byte (buf + START) WALL; f) s Q) by (intros f Q H; exact H).
  clearbody s1. clear O Hw.
  assert (Hlit1 : literal lit s1 "rtc").
  { apply (kept_literal lit _ pid s s1 "rtc" Hu St1 Hlit). constructor; [|done]. right. exists buf, 81. done. }
  assert (Hfree1 : free_fd s1 = Some fd) by (rewrite (kept_free_fd _ pid s s1 Hu Hu1 St1); [exact Hfree|by constructor]).
  destruct (kept_dentry _ pid s s1 _ k Hu Hharm St1 Hk) as [T1 _].
  destruct (ece391_open_run pid (lit "rtc") s1 (bytes_of "rtc") k clock_fd fd Hu1) as (s2 & E2 & St2 & Hu2 & Hg2 & Hsc2).
  { by apply literal_is_name. }
  { by rewrite (kept_find _ pid s s1 _ Hu Hharm St1). }
  { by rewrite T1, Hty. }
  { done. } { done. }
  assert (Hw2 : walls s2).
  { intros i Hi. rewrite <- (Hw1 i Hi). apply (user_byte _ s1 s2 buf 81 i St2 (uo_page _ _ Hu1)); [|exact Hbuf|lia].
    apply (open_low pid fd Hpid). lia. }
  unfold pingpong_start. apply E1, runs_bind, (runs_eq _ _ _ _ _ E2).
  eapply runs_step; [apply (set_rate_run pid fd ret_val s2 Hu2 ltac:(lia) Hg2 Hr)|]. intros [] s3 (St3 & Hu3 & Hk3 & O3 & Hsc3).
  apply runs_ret. split; [done|]. split; [|rewrite Hsc3, Hsc2, Hsc1; reflexivity]. split; [exact Hu3|exact Hk3|].
  intros i Hi. rewrite <- (Hw2 i Hi). pose proof Hbuf as (B1 & _ & B3). apply (on_page _ _ _ _ O3); unfold in_bounds; lia.
Qed.
End Pingpong.


