(* ===== verification/SysErr.v ===== *)
(** * ece391syserr.c: the tests of the kernel's error behaviour

    Eight tests call the kernel with bad descriptors, names, addresses and
    numbers and report PASS when every call is refused.  The definitions are
    the program; the theorem says that in this kernel every test passes, and
    what is on the screen. *)

From S2P Require Import Prelude Memory LibMem LibStr Video State Runs Console Process FileSystem Terminal SysCalls Command Exec UserLib UserRun UserFiles Programs UserKeep UserClock UserLine UserExample.

Implicit Types s t : kernel.

Section SysErr.
Context {L : Layout}.

(** The address of a string literal. *)
Context (lit : string → Z).

(** The registers the assembly of [call_sys] leaves to the system call. *)
Context (ebx ecx edx : Z).

Definition NEG_FD : Z := -1073741823.
Definition BIG_FD : Z := 1073741823.
Definition BIG_NUM : Z := 1073741823.
Definition NEG_NUM : Z := -1073741823.

Definition call_sys (num : Z) : M Z := system_call num ebx ecx edx.

(** [if (-1 != call) { fail = 2; ece391_fdputs(1, complaint); }] *)
Definition expect_refused (call : M Z) (complaint : string) (fail : Z) : M Z :=
  r ← call;
  if negb (r =? -1) then _ ← put_line lit complaint; mret 2 else mret fail.

(** The last lines of a test. *)
Definition report (test : string) (fail : Z) : M Z :=
  _ ← put_line lit (test +:+ if negb (fail =? 0) then ": FAIL" else ": PASS");
  mret fail.

Definition err_neg_fd (buf : Z) : M Z :=
  fail ← expect_refused (ece391_read NEG_FD buf 31) "read fail" 0;
  fail ← expect_refused (ece391_write NEG_FD buf 31) "write fail" fail;
  fail ← expect_refused (ece391_close NEG_FD) "close fail" fail;
  report "err_neg_fd" fail.

Definition err_big_fd (buf : Z) : M Z :=
  fail ← expect_refused (ece391_read BIG_FD buf 31) "read fail" 0;
  fail ← expect_refused (ece391_write BIG_FD buf 31) "write fail" fail;
  fail ← expect_refused (ece391_close BIG_FD) "close fail" fail;
  report "err_big_fd" fail.

(** [if (-1 == ece391_open(".")) cnt++;] *)
Definition open_dot (i cnt : Z) : M Z :=
  r ← ece391_open (lit ".");
  mret (if r =? -1 then cnt + 1 else cnt).

Definition close_one (i : Z) : M unit := _ ← ece391_close i; mret tt.

Definition err_open_lots : M Z :=
  cnt ← for_accM 7 0 open_dot 0;
  _ ← for_upM 6 2 close_one;
  if cnt =? 1 then _ ← put_line lit "err_open_lots: PASS"; mret 0
  else _ ← put_line lit "err_open_lots: FAIL"; mret 2.

Definition err_open : M Z :=
  fail ← expect_refused (ece391_open (lit "helloo")) "'helloo' fail" 0;
  fail ← expect_refused (ece391_open (lit "shel")) "'shel' fail" fail;
  fail ← expect_refused (ece391_open (lit "")) "empty string fail" fail;
  report "err_open" fail.

Definition err_unopened (buf : Z) : M Z :=
  fail ← for_accM 8 0 (λ i, expect_refused (ece391_close i) "close unopened or invalid fd fail") 0;
  fail ← for_accM 6 2 (λ i, expect_refused (ece391_read i buf 31) "read from unopened fd fail") fail;
  fail ← for_accM 6 2 (λ i, expect_refused (ece391_write i buf 31) "write to unopened fd fail") fail;
  report "err_unopened" fail.

Definition err_vidmap : M Z :=
  fail ← expect_refused (ece391_vidmap 0) "Null pointer fail" 0;
  fail ← expect_refused (ece391_vidmap 0x400000) "Kernel pointer fail fail" fail;
  report "err_vidmap" fail.

Definition err_stdin_out (buf : Z) : M Z :=
  fail ← expect_refused (ece391_write 0 buf 31) "write to stdin fail" 0;
  fail ← expect_refused (ece391_read 1 buf 31) "read from stdout fail" fail;
  report "err_stdin_out" fail.

Definition err_syscall_num : M Z :=
  fail ← expect_refused (call_sys BIG_NUM) "syscall 0 fail" 0;
  fail ← expect_refused (call_sys NEG_NUM) "big num syscall fail" fail;
  fail ← expect_refused (call_sys 0) "neg num syscall fail" fail;
  report "err_syscall_num" fail.

(** Test 0: all of them; [b] is the buffer of each test's frame. *)
Definition all_tests (b : Z) : M Z :=
  f1 ← err_neg_fd b;
  f2 ← err_big_fd b;
  f3 ← err_open_lots;
  f4 ← err_open;
  f5 ← err_unopened b;
  f6 ← err_vidmap;
  f7 ← err_stdin_out b;
  f8 ← err_syscall_num;
  let fail := f1 + f2 + f3 + f4 + f5 + f6 + f7 + f8 in
  _ ← put_line lit (on_new_line (if negb (fail =? 0) then "Overall Tests: FAIL" else "Overall Tests: PASS"));
  mret fail.

(** [switch (select)] *)
Definition select_test (b select : Z) : M Z :=
  if select =? 0 then all_tests b
  else if select =? 1 then err_neg_fd b
  else if select =? 2 then err_big_fd b
  else if select =? 3 then err_open_lots
  else if select =? 4 then err_open
  else if select =? 5 then err_unopened b
  else if select =? 6 then err_vidmap
  else if select =? 7 then err_stdin_out b
  else if select =? 8 then err_syscall_num
  else _ ← put lit "Invalid test number. Choose from tests 1-8 or 0"; mret 0.

Definition syserr_main (buf b : Z) : M Z :=
  _ ← put lit "Choose from tests 1-8. 0 to run all: ";
  cnt ← ece391_read 0 buf 127;
  if cnt =? -1 then _ ← put_line lit "Can't read test #"; mret 2
  else
    c ← get_byte buf;
    select_test b (c - 48).
End SysErr.

Section SysErrFacts.
Context {L : Layout} {HL : LayoutOK L}.
Context (lit : string → Z) (ebx ecx edx : Z) (pid : Z).

(** ** What the tests rely on *)

(** The literals of a run in which every test passes. *)
Definition test_literals : list string :=
  [with_newline "err_neg_fd: PASS"; with_newline "err_big_fd: PASS"; with_newline "err_open_lots: PASS";
   with_newline "err_open: PASS"; with_newline "err_unopened: PASS"; with_newline "err_vidmap: PASS";
   with_newline "err_stdin_out: PASS"; with_newline "err_syscall_num: PASS";
   on_new_line (with_newline "Overall Tests: PASS"); "Invalid test number. Choose from tests 1-8 or 0";
   "."; "helloo"; "shel"; ""].

(** Descriptor [j] of a test: the directory for [lo] to [hi], free otherwise. *)
Definition slot_state (lo hi j : Z) (m : memory) : Prop :=
  if decide (lo <= j < hi) then get_fd m (pcb_addr pid) j = mkFd directory_table 0 0 1
  else flags (get_fd m (pcb_addr pid) j) = 0.

(** A process whose descriptors 2 to 7 are such; the directory has an entry
    for itself and none for the two misspelt names. *)
Record ready (lo hi : Z) (s : kernel) : Prop := {
  ts_user : user_ok pid s;
  ts_stdin : flags (get_fd s (pcb_addr pid) 0) ≠ 0;
  ts_slots : ∀ j, 2 <= j < 8 → slot_state lo hi j s;
  ts_dir : ∃ k, find_dentry s (bytes_of ".") = Some k ∧ dentry_type s k = 1;
  ts_helloo : find_dentry s (bytes_of "helloo") = None;
  ts_shel : find_dentry s (bytes_of "shel") = None;
  ts_literals : ∀ text, text ∈ test_literals → literal lit s text;
}.
#[local] Arguments ts_user {lo hi s}.
#[local] Arguments ts_literals {lo hi s}.

(** Between the tests. *)
Definition tester : kernel → Prop := ready 2 2.

(** A call after which the tests can go on, with [text] on the screen. *)
Definition reports (text : list Z) (s s' : kernel) : Prop :=
  tester s' ∧ abs_screen s' = scr_puts text (abs_screen s).

Lemma reports_trans l1 l2 s1 s2 s3 : reports l1 s1 s2 → reports l2 s2 s3 → reports (l1 ++ l2) s1 s3.
Proof. intros [_ E1] [H E2]. split; [exact H|]. by rewrite E2, E1, scr_puts_app. Qed.

(** Steps of the kernel keep what the tests rely on but for the descriptors. *)
Lemma ready_steps os lo hi lo' hi' s s' :
  ready lo hi s → Forall (harmless pid s) os → Forall (λ o, o.1 + o.2 <= KERNEL_END) os → steps os s s' →
  flags (get_fd s' (pcb_addr pid) 0) ≠ 0 → (∀ j, 2 <= j < 8 → slot_state lo' hi' j s') → ready lo' hi' s'.
Proof using HL.
  intros [Hu _ _ (k & Hk & Hty) Hn1 Hn2 Hl] Hh Ho Hs Hf0 Hf'. split.
  - by apply (user_ok_steps os pid s).
  - exact Hf0.
  - exact Hf'.
  - exists k. rewrite (kept_find os pid s s' _ Hu Hh Hs), (proj1 (kept_dentry os pid s s' _ k Hu Hh Hs Hk)). by split.
  - by rewrite (kept_find os pid s s' _ Hu Hh Hs).
  - by rewrite (kept_find os pid s s' _ Hu Hh Hs).
  - intros text Ht. apply (kept_literal lit os pid s s' _ Hu Hs (Hl text Ht)). eapply List.Forall_impl; [|exact Ho]. by left.
Qed.

Lemma ready_pid {lo hi s} : ready lo hi s → 0 <= pid < 6.
Proof using HL. intros Ht. by destruct (process_pcb pid s (uo_process _ _ (ts_user Ht))) as (_ & _ & Hpid). Qed.

Lemma slot_kept lo hi j m m' :
  get_fd m' (pcb_addr pid) j = get_fd m (pcb_addr pid) j → slot_state lo hi j m → slot_state lo hi j m'.
Proof. unfold slot_state. by intros ->. Qed.

Lemma ready_video lo hi s s' : ready lo hi s → steps [(VIDEO, PAGE_BYTES)] s s' → ready lo hi s'.
Proof using HL.
  intros Ht Hs. assert (Hv : Forall outside [(VIDEO, PAGE_BYTES)]) by (constructor; [apply video_outside|done]).
  pose proof (ready_pid Ht) as Hpid.
  apply (ready_steps [(VIDEO, PAGE_BYTES)] lo hi lo hi s s' Ht); [constructor; [by apply video_harmless, Ht|done]|by constructor|exact Hs|..].
  - rewrite (kept_fd _ pid s s' 0 Hpid ltac:(lia) Hs Hv). apply Ht.
  - intros j Hj. apply (slot_kept _ _ j s); [|by apply Ht]. by apply (kept_fd _ pid s s' j Hpid ltac:(lia) Hs Hv).
Qed.

Lemma tester_video s s' : tester s → steps [(VIDEO, PAGE_BYTES)] s s' → tester s'.
Proof using HL. apply ready_video. Qed.

Lemma tester_free s j : tester s → 2 <= j < 8 → flags (get_fd s (pcb_addr pid) j) = 0.
Proof. intros Ht Hj. pose proof (ts_slots _ _ _ Ht j Hj) as H. unfold slot_state in H. by destruct (decide _); [lia|]. Qed.

Lemma tester_slots m : (∀ j, 2 <= j < 8 → flags (get_fd m (pcb_addr pid) j) = 0) → ∀ j, 2 <= j < 8 → slot_state 2 2 j m.
Proof. intros H j Hj. unfold slot_state. destruct (decide _); [lia|]. by apply H. Qed.

Lemma put_reports s text : tester s → text ∈ test_literals → runs (put lit text) s (λ _, reports (bytes_of text) s).
Proof using HL.
  intros Ht Hin. destruct (ece391_fdputs_run pid (lit text) (bytes_of text) s (ts_user Ht) (ts_literals Ht text Hin)) as (s' & E & Hs & _ & Hsc).
  apply (runs_eq _ _ _ _ _ E). split; [by apply (tester_video s)|done].
Qed.

(** ** The calls that are refused *)

(** A call that returns -1, with a message of the kernel. *)
Definition refused (call : M Z) (text : list Z) (s : kernel) : Prop := ∃ s', call s = Ret (-1) s' ∧ reports text s s'.

Lemma refused_call s (m : M Z) s1 text :
  tester s → m s = Ret (-1) s1 → says text s s1 → refused (r ← m; _ ← modify cli; _ ← modify sti; mret r) text s.
Proof using HL.
  intros Ht E Hsay. destruct (call_refused pid s text m (-1) s1 (ts_user Ht) E Hsay) as (s' & E' & Hs & _ & Hsc).
  exists s'. split; [exact E'|]. split; [by apply (tester_video s)|done].
Qed.

Lemma tester_flags s j : tester s → 2 <= j < 8 → flags (get_fd s (get_pcb s) j) = OUT_OF_USE.
Proof. intros Ht Hj. destruct (process_pcb pid s (uo_process _ _ (ts_user Ht))) as (-> & _ & _). by apply tester_free. Qed.

Lemma read_is_refused s fd buf :
  tester s → s32 fd = fd → 2 <= fd < 8 ∨ (fd < 0 ∨ 7 < fd) ∨ fd = 1 →
  refused (ece391_read fd buf 31) (bytes_of "system calls read failed") s.
Proof using HL.
  intros Ht Hfd H. destruct (read_refused s fd buf 31) as (s1 & E & Hsay).
  - apply (uo_process _ _ (ts_user Ht)).
  - destruct H as [H|H]; [left; by apply tester_flags|]. unfold FD_MIN, FD_MAX, STDOUT. tauto.
  - unfold ece391_read, system_call. change (s32 SYS_READ) with 3. cbn [Z.ltb Z.eqb Z.compare Pos.compare Pos.compare_cont orb Pos.eqb].
    apply (refused_call s (read (s32 fd) buf (s32 31)) s1); [done| |exact Hsay]. rewrite Hfd. exact E.
Qed.

Lemma write_is_refused s fd buf :
  tester s → s32 fd = fd → 2 <= fd < 8 ∨ (fd < 0 ∨ 7 < fd) ∨ fd = 0 →
  refused (ece391_write fd buf 31) (bytes_of "system calls write failed") s.
Proof using HL.
  intros Ht Hfd H. destruct (write_refused s fd buf 31) as (s1 & E & Hsay).
  - apply (uo_process _ _ (ts_user Ht)).
  - destruct H as [H|H]; [left; by apply tester_flags|]. unfold FD_MIN, FD_MAX, STDIN. tauto.
  - apply (refused_call s (write (s32 fd) buf (s32 31)) s1); [done| |exact Hsay]. rewrite Hfd. exact E.
Qed.

Lemma stdin_steps s : 0 <= pid < 6 → steps [(fd_slot (pcb_addr pid) 0, 16)] s (with_stdin pid s).
Proof using HL.
  intros Hp. split; [|done..]. pose proof (slot_high pid 0 Hp ltac:(lia)) as Hslot. unfold KERNEL_START, KERNEL_END in Hslot.
  apply (changes_writes _ _ _ _ _ _ (fd_slot (pcb_addr pid) 0) (with_stdin_writes pid s Hp)); [|by constructor].
  apply phys_kernel. unfold PROGRAM_PAGE. lia.
Qed.

Lemma before_close_steps s fd :
  0 <= pid < 6 →
  steps [(fd_slot (pcb_addr pid) 0, 16)] s (before_close pid fd s) ∧ same_flags pid s (before_close pid fd s) ∧
  abs_screen (before_close pid fd s) = abs_screen s.
Proof using HL.
  intros Hp. unfold before_close, STDIN. destruct (Z.eqb_spec fd 0) as [->|]; [|split; [apply steps_refl|done]].
  pose proof (stdin_steps s Hp) as H. split; [exact H|]. split; [exact (with_stdin_flags pid s Hp)|].
  apply (screen_kept _ s _ (sp_changes _ _ _ H)). pose proof (slot_high pid 0 Hp ltac:(lia)).
  constructor; [|done]. unfold VIDEO, PAGE_BYTES, KERNEL_START in *. cbn [fst snd]. lia.
Qed.

Lemma close_is_refused s fd :
  tester s → s32 fd = fd → refused (ece391_close fd) (bytes_of "system calls close failed") s.
Proof using HL.
  intros Ht Hfd. pose proof (ts_user Ht) as Hu. pose proof (ready_pid Ht) as Hpid.
  pose proof (slot_high pid 0 Hpid ltac:(lia)) as Hslot.
  set (os := [(fd_slot (pcb_addr pid) 0, 16); (VIDEO, PAGE_BYTES)]).
  destruct (close_refused pid s fd (uo_process _ _ Hu)) as (s1 & E & Hsay); [intros Hr; apply tester_free; [done|lia]|].
  destruct (before_close_steps s fd Hpid) as (H0 & Hfl0 & Hsc0). pose proof (says_steps _ _ _ Hsay) as H1.
  assert (Hfl : same_flags pid s s1).
  { intros j Hj. rewrite (kept_fd _ pid _ s1 j Hpid Hj H1); [by apply Hfl0|]. constructor; [apply video_outside|done]. }
  assert (Hh : Forall (harmless pid s) os).
  { constructor; [by apply stdin_harmless|]. constructor; [by apply video_harmless|done]. }
  destruct (call_returns pid os s (close (s32 fd)) (-1) s1) as (s' & E' & Hs & Hu' & Hm & Hsc); [by rewrite Hfd| |done|exact Hh|].
  { apply (steps_trans _ _ (before_close pid fd s)); [by apply steps_head|by apply steps_tail]. }
  exists s'. split; [exact E'|]. split.
  - apply (ready_steps os 2 2 2 2 s s' Ht Hh); [|exact Hs|..].
    + constructor; [cbn [fst snd]; lia|]. by constructor.
    + rewrite Hm, (Hfl 0) by lia. apply Ht.
    + apply tester_slots. intros j Hj. rewrite Hm, (Hfl j) by lia. by apply tester_free.
  - rewrite Hsc. destruct Hsay as (_ & _ & ->). by rewrite Hsc0.
Qed.

(** ** Names *)

Lemma literal_name s text : tester s → text ∈ test_literals → text ≠ "" → Z.of_nat (length (bytes_of text)) <= NAME_SIZE →
  is_name s (lit text) (bytes_of text).
Proof using HL.
  intros Ht Hin Hne Hlen. destruct (ts_literals Ht text Hin) as [Hc (Ha1 & _ & Ha3)]. unfold PROGRAM_PAGE, PROGRAM_PAGE_END in *.
  split; [rewrite u32_small; lia|]. split; [exact Hc|]. split; [by destruct text|exact Hlen].
Qed.

Lemma missing_is_refused s text :
  tester s → text ∈ test_literals → text ≠ "" → Z.of_nat (length (bytes_of text)) <= NAME_SIZE →
  find_dentry s (bytes_of text) = None →
  refused (ece391_open (lit text)) (bytes_of "read dentry by name failed : system calls open") s.
Proof using HL.
  intros Ht Hin Hne Hlen Hk.
  destruct (ece391_open_missing pid (lit text) s _ (ts_user Ht) (literal_name s text Ht Hin Hne Hlen) Hk) as (s' & E & Hs & _ & Hsc).
  exists s'. split; [exact E|]. split; [by apply (tester_video s)|done].
Qed.

Lemma empty_is_refused s :
  tester s → refused (ece391_open (lit "")) (bytes_of "invalid filename input to system calls open") s.
Proof using HL.
  intros Ht. destruct (message_only "invalid filename input to system calls open" (-1) s eq_refl (po_cursor _ _ (uo_process _ _ (ts_user Ht)))) as (s1 & E & Hsay).
  apply (refused_call s (open (lit "")) s1); [done| |exact Hsay].
  unfold open. rewrite (bind_ret _ _ s (ld8 s (lit "")) s) by done.
  assert (ld8 s (lit "") = 0) as ->; [|exact E].
  destruct (ts_literals Ht "") as [(_ & _ & H0) _]; [by do 13 right; left|]. rewrite <- (Z.add_0_r (lit "")). exact H0.
Qed.

Lemma quiet_is_refused s (m : M Z) : tester s → m s = Ret (-1) s → refused (r ← m; _ ← modify cli; _ ← modify sti; mret r) [] s.
Proof using HL.
  intros Ht E. pose proof (ts_user Ht) as Hu.
  destruct (call_returns pid [] s m (-1) s E (steps_refl _ _) Hu ltac:(done)) as (s' & E' & Hs & Hu' & Hm & Hsc).
  exists s'. split; [exact E'|]. split; [|by rewrite Hsc]. apply (ready_steps [] 2 2 2 2 s s' Ht); [done|done|done|..].
  - rewrite Hm. apply Ht.
  - intros j Hj. rewrite Hm. by apply Ht.
Qed.

Lemma vidmap_is_refused s a : tester s → a = 0 ∨ a = 0x400000 → refused (ece391_vidmap a) [] s.
Proof using HL.
  intros Ht Ha. apply (quiet_is_refused s (vidmap a)); [done|]. unfold vidmap. rewrite (bind_ret _ _ s (ONE_TWENTY_EIGHT_MB + FOURMB * (active_terminal s + 1)) s) by done.
  by destruct Ha as [-> | ->].
Qed.

Lemma number_is_refused s num : tester s → s32 num = num → num < 1 ∨ 8 < num → refused (call_sys ebx ecx edx num) [] s.
Proof using HL.
  intros Ht Hn Hr. exists s. split; [|by split]. unfold call_sys, system_call. cbv zeta. rewrite Hn.
  by destruct (Z.ltb_spec 8 num), (Z.ltb_spec num 1); try lia.
Qed.

(** ** The tests *)

(** From any state between the tests, the call returns 0 and says [text]. *)
Definition passes (m : M Z) (text : list Z) : Prop :=
  ∀ s, tester s → runs m s (λ r s', r = 0 ∧ reports text s s').

Lemma passes_bind (m : M Z) f l1 l2 : passes m l1 → passes (f 0) l2 → passes (m ≫= f) (l1 ++ l2).
Proof.
  intros Hm Hf s Ht. eapply runs_step; [by apply Hm|]. cbn beta. intros r s1 [-> H1].
  eapply runs_mono; [apply Hf, H1|]. cbn beta. intros r s2 [-> H2]. split; [done|]. by apply (reports_trans _ _ s s1).
Qed.

Lemma expect_passes call complaint text :
  (∀ s, tester s → refused call text s) → passes (expect_refused lit call complaint 0) text.
Proof.
  intros Hc s Ht. destruct (Hc s Ht) as (s' & E & Hr). apply runs_bind, (runs_eq _ _ _ _ _ E). apply runs_ret. by split.
Qed.

Lemma report_passes test :
  with_newline (test +:+ ": PASS") ∈ test_literals → passes (report lit test 0) (bytes_of (with_newline (test +:+ ": PASS"))).
Proof using HL.
  intros Hin s Ht. unfold report, put_line. eapply runs_step; [by apply put_reports|]. cbn beta. intros _ s' Hr. apply runs_ret. by split.
Qed.

Lemma loop_passes n i (f : Z → Z → M Z) text :
  (∀ j, i <= j < i + Z.of_nat n → passes (f j 0) text) → passes (for_accM n i f 0) (mjoin (replicate n text)).
Proof.
  revert i. induction n as [|n IH]; intros i Hf.
  - intros s Ht. apply runs_ret. split; [done|]. by split.
  - apply passes_bind; [apply Hf; lia|]. apply IH. intros j Hj. apply Hf. lia.
Qed.

Definition read_failed : list Z := bytes_of "system calls read failed".
Definition write_failed : list Z := bytes_of "system calls write failed".
Definition close_failed : list Z := bytes_of "system calls close failed".
Definition passed (test : string) : list Z := bytes_of (with_newline (test +:+ ": PASS")).

Ltac literal_in := unfold test_literals; rewrite ?elem_of_cons; tauto.

Lemma err_neg_fd_passes buf :
  passes (err_neg_fd lit buf) (read_failed ++ write_failed ++ close_failed ++ passed "err_neg_fd").
Proof using HL.
  apply passes_bind; [apply expect_passes; intros s Ht; apply read_is_refused; [done|done|unfold NEG_FD; lia]|].
  apply passes_bind; [apply expect_passes; intros s Ht; apply write_is_refused; [done|done|unfold NEG_FD; lia]|].
  apply passes_bind; [apply expect_passes; intros s Ht; by apply close_is_refused|].
  apply report_passes. literal_in.
Qed.

Lemma err_big_fd_passes buf :
  passes (err_big_fd lit buf) (read_failed ++ write_failed ++ close_failed ++ passed "err_big_fd").
Proof using HL.
  apply passes_bind; [apply expect_passes; intros s Ht; apply read_is_refused; [done|done|unfold BIG_FD; lia]|].
  apply passes_bind; [apply expect_passes; intros s Ht; apply write_is_refused; [done|done|unfold BIG_FD; lia]|].
  apply passes_bind; [apply expect_passes; intros s Ht; by apply close_is_refused|].
  apply report_passes. literal_in.
Qed.

Lemma err_open_passes :
  passes (err_open lit) (bytes_of "read dentry by name failed : system calls open" ++
    bytes_of "read dentry by name failed : system calls open" ++
    bytes_of "invalid filename input to system calls open" ++ passed "err_open").
Proof using HL.
  apply passes_bind; [apply expect_passes; intros s Ht; apply missing_is_refused; [done|literal_in|done|done|apply Ht]|].
  apply passes_bind; [apply expect_passes; intros s Ht; apply missing_is_refused; [done|literal_in|done|done|apply Ht]|].
  apply passes_bind; [apply expect_passes; intros s Ht; by apply empty_is_refused|].
  apply report_passes. literal_in.
Qed.

Lemma err_unopened_passes buf :
  passes (err_unopened lit buf) (mjoin (replicate 8 close_failed) ++ mjoin (replicate 6 read_failed) ++
    mjoin (replicate 6 write_failed) ++ passed "err_unopened").
Proof using HL.
  apply passes_bind.
  { apply loop_passes. intros j Hj. apply expect_passes. intros s Ht. apply close_is_refused; [done|apply s32_small; lia]. }
  apply passes_bind.
  { apply loop_passes. intros j Hj. apply expect_passes. intros s Ht. apply read_is_refused; [done|apply s32_small; lia|lia]. }
  apply passes_bind.
  { apply loop_passes. intros j Hj. apply expect_passes. intros s Ht. apply write_is_refused; [done|apply s32_small; lia|lia]. }
  apply report_passes. literal_in.
Qed.

Lemma err_vidmap_passes : passes (err_vidmap lit) (passed "err_vidmap").
Proof using HL.
  apply (passes_bind _ _ []); [apply expect_passes; intros s Ht; apply vidmap_is_refused; [done|by left]|].
  apply (passes_bind _ _ []); [apply expect_passes; intros s Ht; apply vidmap_is_refused; [done|by right]|].
  apply report_passes. literal_in.
Qed.

Lemma err_stdin_out_passes buf :
  passes (err_stdin_out lit buf) (write_failed ++ read_failed ++ passed "err_stdin_out").
Proof using HL.
  apply passes_bind; [apply expect_passes; intros s Ht; apply write_is_refused; [done|done|lia]|].
  apply passes_bind; [apply expect_passes; intros s Ht; apply read_is_refused; [done|done|lia]|].
  apply report_passes. literal_in.
Qed.

Lemma err_syscall_num_passes : passes (err_syscall_num lit ebx ecx edx) (passed "err_syscall_num").
Proof using HL.
  apply (passes_bind _ _ []); [apply expect_passes; intros s Ht; apply number_is_refused; [done|done|unfold BIG_NUM; lia]|].
  apply (passes_bind _ _ []); [apply expect_passes; intros s Ht; apply number_is_refused; [done|done|unfold NEG_NUM; lia]|].
  apply (passes_bind _ _ []); [apply expect_passes; intros s Ht; apply number_is_refused; [done|done|lia]|].
  apply report_passes. literal_in.
Qed.
(** ** Opening every descriptor *)

Lemma ready_free hi s : 2 <= hi <= 8 → ready 2 hi s → free_fd s = if hi =? 8 then None else Some hi.
Proof using HL.
  intros Hh Hr. destruct (process_pcb pid s (uo_process _ _ (ts_user Hr))) as (Hpcb & _ & _).
  assert (Hb : ∀ j, 0 <= j < 8 → (flags (get_fd s (get_pcb s) j) =? 0) = (hi <=? j)).
  { intros j Hj. rewrite Hpcb. destruct (decide (j = 0)) as [->|]; [pose proof (ts_stdin _ _ _ Hr); bcase|].
    destruct (decide (j = 1)) as [->|]; [rewrite (uo_stdout _ _ (ts_user Hr)); cbn; bcase|].
    pose proof (ts_slots _ _ _ Hr j ltac:(lia)) as Hs. unfold slot_state in Hs.
    destruct (decide (2 <= j < hi)); rewrite Hs; cbn [flags]; bcase. }
  unfold free_fd. rewrite (find_first_ext 8 0 _ (λ j, hi <=? j)) by (intros j Hj; apply Hb; lia).
  destruct (find_first 8 0 (λ j, hi <=? j)) as [r|] eqn:Hf.
  - apply find_first_spec in Hf as (H1 & H2 & H3). apply Z.leb_le in H2. destruct (Z.eqb_spec hi 8); [lia|].
    f_equal. destruct (decide (r = hi)); [done|]. specialize (H3 hi ltac:(lia)). apply Z.leb_gt in H3. lia.
  - destruct (Z.eqb_spec hi 8); [done|]. pose proof (find_first_none _ _ _ Hf hi ltac:(lia)) as H. apply Z.leb_gt in H. lia.
Qed.

Lemma dot_name lo hi s : ready lo hi s → is_name s (lit ".") (bytes_of ".").
Proof using HL.
  intros Ht. destruct (ts_literals Ht ".") as [Hc (Ha1 & _ & Ha3)]; [literal_in|]. unfold PROGRAM_PAGE, PROGRAM_PAGE_END in *.
  split; [rewrite u32_small; lia|]. split; [exact Hc|]. by split.
Qed.

Lemma open_dot_free s i :
  2 <= i < 8 → ready 2 i s →
  ∃ s', ece391_open (lit ".") s = Ret i s' ∧ ready 2 (i + 1) s' ∧ abs_screen s' = abs_screen s.
Proof using HL.
  intros Hi Hr. pose proof (ready_pid Hr) as Hpid. destruct (ts_dir _ _ _ Hr) as (k & Hk & Hty).
  destruct (ece391_open_run pid (lit ".") s _ k (mkFd directory_table 0 0 1) i (ts_user Hr) (dot_name _ _ s Hr) Hk) as
    (s' & E & Hs & Hu & Hfd & Hsc); [by rewrite Hty|rewrite (ready_free i) by (done || lia); by destruct (Z.eqb_spec i 8); [lia|]|lia|].
  assert (Hkeep : ∀ j, 0 <= j < 8 → i ≠ j → get_fd s' (pcb_addr pid) j = get_fd s (pcb_addr pid) j).
  { intros j Hj Hne. apply (kept_slot _ pid s s' j Hpid Hj (sp_changes _ _ _ Hs)). by apply open_apart. }
  exists s'. split; [exact E|]. split; [|exact Hsc].
  apply (ready_steps _ 2 i 2 (i + 1) s s' Hr (open_harmless pid s i (ts_user Hr) Hi) (open_low pid i Hpid Hi) Hs).
  - rewrite Hkeep by lia. apply Hr.
  - intros j Hj. pose proof (ts_slots _ _ _ Hr j Hj) as H. unfold slot_state in *.
    destruct (decide (j = i)) as [->|Hne]; [by destruct (decide (2 <= i < i + 1)); [exact Hfd|lia]|].
    rewrite Hkeep by lia. destruct (decide (2 <= j < i)), (decide (2 <= j < i + 1)); (done || lia).
Qed.

Lemma open_dot_full s :
  ready 2 8 s → ∃ s', ece391_open (lit ".") s = Ret (-1) s' ∧ ready 2 8 s' ∧ abs_screen s' = abs_screen s.
Proof using HL.
  intros Hr. pose proof (ready_pid Hr) as Hpid. destruct (ts_dir _ _ _ Hr) as (k & Hk & Hty).
  destruct (process_pcb pid s (uo_process _ _ (ts_user Hr))) as (Hpcb & _ & _).
  pose proof (open_run pid s (lit ".") _ (uo_process _ _ (ts_user Hr)) (dot_name _ _ s Hr)) as H.
  rewrite Hk, Hty, (ready_free 8) in H by (done || lia). cbn in H. destruct H as (m1 & E & Hcp & _).
  pose proof (obj_bounds 12 _ eq_refl) as B. cbn [fst snd] in B. unfold KERNEL_START, KERNEL_END in B.
  assert (Hc : changes [(loc_open_dentry, 64)] s m1).
  { apply (changes_writes _ _ _ _ _ _ loc_open_dentry Hcp); [|by constructor]. apply phys_kernel. unfold PROGRAM_PAGE. lia. }
  assert (Hh : Forall (harmless pid s) [(loc_open_dentry, 64)]) by (constructor; [by apply (object_harmless pid s 12), eq_refl; apply Hr|done]).
  destruct (call_returns pid [(loc_open_dentry, 64)] s (open (lit ".")) (-1) (upd_mem (λ _, m1) s) E) as (s' & E' & Hs & Hu' & Hm & Hsc).
  { by split. } { apply Hr. } { exact Hh. }
  exists s'. split; [exact E'|]. split.
  - pose proof (open_apart pid 2 0 Hpid ltac:(lia) ltac:(lia) ltac:(lia)) as H0.
    assert (Hkeep : ∀ j, 0 <= j < 8 → get_fd s' (pcb_addr pid) j = get_fd s (pcb_addr pid) j).
    { intros j Hj. apply (kept_slot _ pid s s' j Hpid Hj (sp_changes _ _ _ Hs)). constructor; [|done].
      destruct (decide (j = 2)) as [->|]; [pose proof (open_apart pid 3 2 Hpid ltac:(lia) ltac:(lia) ltac:(lia)) as Hj2
        |pose proof (open_apart pid 2 j Hpid ltac:(lia) ltac:(lia) ltac:(lia)) as Hj2]; by apply List.Forall_inv in Hj2. }
    apply (ready_steps _ 2 8 2 8 s s' Hr Hh); [constructor; [cbn; unfold KERNEL_END; lia|done]|exact Hs|rewrite Hkeep by lia; apply Hr|].
    intros j Hj. apply (slot_kept _ _ j s); [by apply Hkeep; lia|by apply Hr].
  - rewrite Hsc. apply (screen_kept _ s m1 Hc). constructor; [|done]. cbn [fst snd]. unfold VIDEO, PAGE_BYTES. lia.
Qed.
Lemma slot_harm lo hi s i : ready lo hi s → 2 <= i < 8 → Forall (harmless pid s) [(fd_slot (pcb_addr pid) i, 16)].
Proof using HL. intros Hr Hi. constructor; [apply slot_harmless; [apply Hr|done]|done]. Qed.

Lemma close_dot s i :
  2 <= i < 8 → ready i 8 s →
  ∃ s', ece391_close i s = Ret 0 s' ∧ ready (i + 1) 8 s' ∧ abs_screen s' = abs_screen s.
Proof using HL.
  intros Hi Hr. pose proof (ready_pid Hr) as Hpid. pose proof (slot_high pid i Hpid ltac:(lia)) as Hslot.
  pose proof (ts_slots _ _ _ Hr i Hi) as Hd. unfold slot_state in Hd. destruct (decide (i <= i < 8)); [|lia].
  destruct (ece391_close_run pid s i (ts_user Hr) Hi) as (s' & E' & Hs & Hu' & Hm & Hsc); [by rewrite Hd|rewrite Hd; by right; right; left|].
  assert (Hkeep : ∀ j, 0 <= j < 8 → i ≠ j → get_fd s' (pcb_addr pid) j = get_fd s (pcb_addr pid) j).
  { intros j Hj Hne. apply (kept_slot _ pid s s' j Hpid Hj (sp_changes _ _ _ Hs)). unfold fd_slot. each_segment. }
  exists s'. split; [exact E'|]. split; [|exact Hsc].
  apply (ready_steps _ i 8 (i + 1) 8 s s' Hr (slot_harm i 8 s i Hr Hi)); [constructor; [cbn; lia|done]|exact Hs|rewrite Hkeep by lia; apply Hr|].
  intros j Hj. pose proof (ts_slots _ _ _ Hr j Hj) as H. unfold slot_state in *. destruct (decide (j = i)) as [->|Hne].
  - by destruct (decide (i + 1 <= i < 8)); [lia|].
  - rewrite Hkeep by lia. destruct (decide (i <= j < 8)), (decide (i + 1 <= j < 8)); (done || lia).
Qed.
Lemma err_open_lots_passes : passes (err_open_lots lit) (passed "err_open_lots").
Proof using HL.
  intros s Ht. unfold err_open_lots.
  eapply runs_step; [apply (runs_acc 7 0 (open_dot lit) 0 s
    (λ i cnt t, cnt = (if i =? 7 then 1 else 0) ∧ ready 2 (2 + Z.min i 6) t ∧ abs_screen t = abs_screen s))|].
  - by split_and!.
  - intros i cnt t Hi (-> & Hr & Hsc). destruct (Z.eqb_spec i 7); [lia|]. destruct (decide (i = 6)) as [->|].
    + destruct (open_dot_full t Hr) as (t' & E & Hr' & Hsc'). apply runs_bind, (runs_eq _ _ _ _ _ E), runs_ret.
      split; [done|]. split; [exact Hr'|]. by rewrite Hsc'.
    + rewrite Z.min_l in Hr by lia. destruct (open_dot_free t (2 + i) ltac:(lia) Hr) as (t' & E & Hr' & Hsc').
      apply runs_bind, (runs_eq _ _ _ _ _ E), runs_ret. destruct (Z.eqb_spec (2 + i) (-1)), (Z.eqb_spec (i + 1) 7); try lia.
      split; [done|]. rewrite Z.min_l, Z.add_assoc by lia. split; [exact Hr'|]. by rewrite Hsc'.
  - cbn beta. intros cnt t (-> & Hr & Hsc). change (2 + Z.min (0 + Z.of_nat 7) 6) with 8 in Hr. change (if 0 + Z.of_nat 7 =? 7 then 1 else 0) with 1.
    eapply runs_step; [apply (runs_for_index 6 2 close_one t (λ i t', ready i 8 t' ∧ abs_screen t' = abs_screen s))|].
    + by split.
    + intros i t1 Hi [Hr1 Hsc1]. destruct (close_dot t1 i ltac:(lia) Hr1) as (t2 & E & Hr2 & Hsc2).
      apply runs_bind, (runs_eq _ _ _ _ _ E), runs_ret. split; [exact Hr2|]. by rewrite Hsc2.
    + cbn beta. intros _ t1 [Hr1 Hsc1]. change (1 =? 1) with true. cbv iota.
      assert (Ht1 : tester t1).
      { destruct Hr1 as [H1 H2 H3 H4 H5 H6 H7]. split; [done..| |done|done|done|done]. intros j Hj. specialize (H3 j Hj).
        unfold slot_state in *. destruct (decide (2 + Z.of_nat 6 <= j < 8)), (decide (2 <= j < 2)); (done || lia). }
      unfold put_line. eapply runs_step; [apply put_reports; [exact Ht1|literal_in]|]. cbn beta. intros _ t2 [Ht2 Hsc2].
      apply runs_ret. split; [done|]. split; [exact Ht2|]. by rewrite Hsc2, Hsc1.
Qed.
(** ** The program *)

(** What the tests chosen by the digit less [0] say: the messages of the
    kernel, which end no line, and the line of each test. *)
Definition neg_text : list Z := read_failed ++ write_failed ++ close_failed ++ passed "err_neg_fd".
Definition big_text : list Z := read_failed ++ write_failed ++ close_failed ++ passed "err_big_fd".
Definition name_text : list Z :=
  bytes_of "read dentry by name failed : system calls open" ++ bytes_of "read dentry by name failed : system calls open" ++
  bytes_of "invalid filename input to system calls open" ++ passed "err_open".
Definition unopened_text : list Z :=
  mjoin (replicate 8 close_failed) ++ mjoin (replicate 6 read_failed) ++ mjoin (replicate 6 write_failed) ++ passed "err_unopened".
Definition direction_text : list Z := write_failed ++ read_failed ++ passed "err_stdin_out".

Definition test_text (select : Z) : list Z :=
  if select =? 0 then
    neg_text ++ big_text ++ passed "err_open_lots" ++ name_text ++ unopened_text ++ passed "err_vidmap" ++
    direction_text ++ passed "err_syscall_num" ++ bytes_of (on_new_line (with_newline "Overall Tests: PASS"))
  else if select =? 1 then neg_text
  else if select =? 2 then big_text
  else if select =? 3 then passed "err_open_lots"
  else if select =? 4 then name_text
  else if select =? 5 then unopened_text
  else if select =? 6 then passed "err_vidmap"
  else if select =? 7 then direction_text
  else if select =? 8 then passed "err_syscall_num"
  else bytes_of "Invalid test number. Choose from tests 1-8 or 0".

Lemma put_passes text : text ∈ test_literals → passes (_ ← put lit text; mret 0) (bytes_of text).
Proof using HL.
  intros Hin s Ht. eapply runs_step; [by apply put_reports|]. cbn beta. intros _ s' Hr. apply runs_ret. by split.
Qed.

Lemma all_tests_pass b : passes (all_tests lit ebx ecx edx b) (test_text 0).
Proof using HL.
  change (test_text 0) with (neg_text ++ big_text ++ passed "err_open_lots" ++ name_text ++ unopened_text ++
    passed "err_vidmap" ++ direction_text ++ passed "err_syscall_num" ++ bytes_of (on_new_line (with_newline "Overall Tests: PASS"))).
  apply passes_bind; [apply err_neg_fd_passes|]. apply passes_bind; [apply err_big_fd_passes|].
  apply passes_bind; [apply err_open_lots_passes|]. apply passes_bind; [apply err_open_passes|].
  apply passes_bind; [apply err_unopened_passes|]. apply passes_bind; [apply err_vidmap_passes|].
  apply passes_bind; [apply err_stdin_out_passes|]. apply passes_bind; [apply err_syscall_num_passes|].
  apply (put_passes (on_new_line (with_newline "Overall Tests: PASS"))). literal_in.
Qed.

Lemma select_passes b select : passes (select_test lit ebx ecx edx b select) (test_text select).
Proof using HL.
  unfold select_test. destruct (Z.eqb_spec select 0) as [->|]; [apply all_tests_pass|].
  unfold test_text. destruct (Z.eqb_spec select 0); [done|].
  destruct (select =? 1); [apply err_neg_fd_passes|]. destruct (select =? 2); [apply err_big_fd_passes|].
  destruct (select =? 3); [apply err_open_lots_passes|]. destruct (select =? 4); [apply err_open_passes|].
  destruct (select =? 5); [apply err_unopened_passes|]. destruct (select =? 6); [apply err_vidmap_passes|].
  destruct (select =? 7); [apply err_stdin_out_passes|]. destruct (select =? 8); [apply err_syscall_num_passes|].
  apply put_passes. literal_in.
Qed.

(** What the program relies on: the line typed fits its buffer, and its
    literals are apart from it. *)
Record can_test (s : kernel) (l : list Z) (buf : Z) : Prop := {
  tt_tester : tester s;
  tt_buf : in_page buf 128;
  tt_line : line_ready s l;
  tt_fits : Z.of_nat (length l) + 2 <= 128;
  tt_prompt : literal lit s "Choose from tests 1-8. 0 to run all: ";
  tt_apart : ∀ text, text ∈ test_literals → apart_from lit text buf 128;
}.

Lemma syserr_run s l buf b :
  can_test s l buf →
  runs (syserr_main lit ebx ecx edx buf b) s (λ r s', r = 0 ∧ user_ok pid s' ∧ abs_screen s' =
    scr_puts (bytes_of "Choose from tests 1-8. 0 to run all: " ++ test_text (hd NL l - 48)) (abs_screen s)).
Proof using HL.
  intros [Ht Hb Hl Hfit Hp Hap].
  destruct (prompt_line lit pid s _ buf 128 l 127 (ts_user Ht) Hp (ts_stdin _ _ _ Ht) Hl Hb Hfit ltac:(done)) as
    (s1 & s2 & E1 & E2 & Hab & [Hby Hnl] & Hlit & Hsc & Hfl).
  assert (Ht2 : tester s2).
  { destruct (ts_dir _ _ _ Ht) as (k & Hk & Hty). split.
    - apply (Hab []).
    - rewrite (Hfl 0) by lia. apply Ht.
    - apply tester_slots. intros j Hj. rewrite (Hfl j) by lia. by apply tester_free.
    - exists k. destruct (Hab (bytes_of ".")) as [_ _ Hf He _ _ _ _ _ _ _]. change (cmd_word (bytes_of ".")) with (bytes_of ".") in *.
      rewrite Hf, (proj1 (He k Hk)). by split.
    - rewrite <- (ts_helloo _ _ _ Ht). apply (ab_find _ _ _ _ (Hab (bytes_of "helloo"))).
    - rewrite <- (ts_shel _ _ _ Ht). apply (ab_find _ _ _ _ (Hab (bytes_of "shel"))).
    - intros text Hin. apply Hlit; [by apply Ht|by apply Hap]. }
  unfold syserr_main. apply runs_bind, (runs_eq _ _ _ _ _ E1), runs_bind, (runs_eq _ _ _ _ _ E2).
  destruct (Z.eqb_spec (Z.of_nat (length l) + 1) (-1)); [lia|].
  assert (Hc : ld8 s2 buf = hd NL l).
  { rewrite <- (Z.add_0_r buf). destruct l as [|c l]; [exact Hnl|by apply (Hby 0%nat)]. }
  apply runs_bind, (runs_eq _ (hd NL l) _ s2); [unfold get_byte, gets; by rewrite Hc|].
  eapply runs_mono; [by apply select_passes|]. cbn beta. intros r s' [-> [Ht' Hsc']]. split; [done|]. split; [apply Ht'|].
  by rewrite Hsc', Hsc, scr_puts_app.
Qed.
End SysErrFacts.

(** C15: every one of the eight tests of the kernel's error behaviour passes: bad
    descriptors, a seventh file opened, misspelt and empty names, closed
    descriptors, addresses outside the program, the wrong direction and bad
    system call numbers are all refused, with the kernel's messages and the
    tests' on the screen and status 0. *)
Theorem syserr_correct {L : Layout} {HL : LayoutOK L} (lit : string → Z) (ebx ecx edx pid : Z) (s : kernel) (l : list Z) (buf b : Z) :
  can_test lit pid s l buf →
  runs (syserr_main lit ebx ecx edx buf b) s (λ r s', r = 0 ∧ user_ok pid s' ∧ abs_screen s' =
    scr_puts (bytes_of "Choose from tests 1-8. 0 to run all: " ++ test_text (hd NL l - 48)) (abs_screen s)).
Proof. apply syserr_run. Qed.

(** The example machine with descriptors 2 and 3 closed. *)
Definition test_image : kernel :=
  upd_mem (λ m, st32 (st32 m (fd_slot 0x7FE000 2 + flags_off) 0) (fd_slot 0x7FE000 3 + flags_off) 0) count_image.

Lemma test_user_ok : user_ok (L := example_layout) 0 test_image.
Proof. machine_runs. Qed.

Lemma test_literals_known : Forall (λ text, text ∈ example_literals) test_literals.
Proof. apply (bool_decide_unpack _). vm_compute. exact I. Qed.

Lemma syserr_correct_witness :
  can_test (L := example_layout) example_lit 0 test_image (bytes_of "0") 0x8300000 ∧
  runs (syserr_main (L := example_layout) example_lit 0 0 0 0x8300000 0x8300100) test_image (λ r s', r = 0 ∧ abs_screen s' =
    scr_puts (bytes_of "Choose from tests 1-8. 0 to run all: " ++ test_text 0) (abs_screen test_image)).
Proof.
  assert (Hlit : literals_check test_image = true) by (vm_compute; reflexivity).
  assert (Hc : can_test (L := example_layout) example_lit 0 test_image (bytes_of "0") 0x8300000).
  { split.
    - split; [exact test_user_ok|closed_compare| |exists 2; split; vm_compute; reflexivity|vm_compute; reflexivity|vm_compute; reflexivity|].
      + apply tester_slots. intros j Hj. assert (j = 2 ∨ j = 3 ∨ j = 4 ∨ j = 5 ∨ j = 6 ∨ j = 7) as H by lia.
        destruct H as [->|[->|[->|[->|[->| ->]]]]]; vm_compute; reflexivity.
      + intros text Hin. apply (literal_checked _ _ Hlit). pose proof test_literals_known as Hk. exact (proj1 (list.Forall_forall _ _) Hk text Hin).
    - split_and!; closed_compare.
    - split; [split; closed_compare|vm_compute; reflexivity|vm_compute; reflexivity|closed_compare|by repeat constructor|].
      intros [|i] c Hi; [|by destruct i]. injection Hi as <-. vm_compute. reflexivity.
    - closed_compare.
    - apply (literal_checked _ _ Hlit). by do 11 right; left.
    - intros text Hin. left. revert text Hin. apply list.Forall_forall.
      apply (bool_decide_unpack (Forall (λ text, example_lit text + Z.of_nat (length (bytes_of text)) + 1 <= 0x8300000) test_literals)).
      vm_compute. exact I. }
  split; [exact Hc|].
  eapply runs_mono; [exact (syserr_correct (L := example_layout) example_lit 0 0 0 0 test_image (bytes_of "0") 0x8300000 0x8300100 Hc)|].
  cbn beta. intros r s' (-> & _ & ->). split; reflexivity.
Defined.
