(* ===== verification/KeySafe.v ===== *)
(** * Safety of the interrupts of keyboard and clock

    Whatever keys are pressed, in whatever order, with clock interrupts between
    them: an invariant over all the states reached, by induction on the
    sequence of interrupts.  The arrow keys left and right are left out: they
    move the cursor off the screen ([arrow_escapes]). *)

From S2P Require Import Prelude Memory LibMem LibStr Video State Runs Console Pic Rtc Terminal Keyboard UserRun.

Implicit Types s : kernel.

(** ** The interrupts *)

Inductive interrupt := Key (code : Z) | Clock.

Definition allowed (i : interrupt) : Prop :=
  match i with Key code => 0 <= code < 256 ∧ code ≠ LEFT ∧ code ≠ RIGHT | Clock => True end.

Section KeySafe.
Context {L : Layout}.

Definition handle (i : interrupt) : M unit :=
  match i with Key code => press code | Clock => rtc_handle_interrupt end.

(** The states reached by a sequence of interrupts, as long as output goes to
    the terminal shown. *)
Inductive reached (s0 : kernel) : kernel → Prop :=
  | reached_start : reached s0 s0
  | reached_step i s s' : reached s0 s → shown s → allowed i → handle i s = Ret tt s' → reached s0 s'.

(** ** The invariant *)

(** The cursor and the saved cursors are on the screen, the terminal shown is one
    of the three, its pages are where [terminal_open] put them, the lines
    being typed fit their buffers. *)
Record keys_ok (s : kernel) : Prop := {
  ko_terms : terms_ok s;
  ko_cursor : cursor_ok s;
  ko_saved : ∀ j, 0 <= j < 3 → pos_ok s j;
  ko_index : ∀ j, 0 <= j < 3 → 0 <= buffer_index (term s j) <= BUFF_SIZE;
}.

(** What the handlers may write: the video page and the pages behind it where
    the screens are saved, and the line buffers. *)
Definition key_objects : list (Z * Z) :=
  [(VIDEO, 4 * FOUR_KB); (keyboard_buffer 0 0, 128); (keyboard_buffer 1 0, 128); (keyboard_buffer 2 0, 128)].

Record touched (s s' : kernel) : Prop := {
  to_changes : changes key_objects s s';
  to_fs : k_fs s' = k_fs s;
  to_proc : k_proc s' = k_proc s;
  to_paging : k_paging s' = k_paging s;
  to_sched : k_sched s' = k_sched s;
  to_desc : k_desc s' = k_desc s;
  to_pic : k_pic s' = k_pic s;
  to_stack : esp s' = esp s ∧ ebp s' = ebp s ∧ esp0 s' = esp0 s;
}.

#[local] Instance touched_preorder : PreOrder touched.
Proof.
  split; [intros s; split; [apply changes_refl|done..]|].
  intros s1 s2 s3 [H1 H2 H3 H4 H5 H6 H7 H8] [I1 I2 I3 I4 I5 I6 I7 I8].
  split; [by apply (changes_trans _ _ s2)|congruence..|]. destruct H8 as (?&?&?), I8 as (?&?&?). split_and!; congruence.
Qed.

(** A step that keeps the invariant. *)
Definition good (s s' : kernel) : Prop := keys_ok s' ∧ touched s s'.

Lemma good_trans s1 s2 s3 : good s1 s2 → good s2 s3 → good s1 s3.
Proof. intros [_ H1] [H H2]. split; [exact H|]. by transitivity s2. Qed.

Lemma good_refl s : keys_ok s → good s s.
Proof. by split. Qed.

Context {HL : LayoutOK L}.

(** ** The pieces of the handlers *)

Lemma good_console s s' : keys_ok s → console_only s s' → cursor_ok s' → good s s'.
Proof using HL.
  intros [[Ha Hb] _ Hs Hi] [] Hc. assert (Ht : term s' = term s) by (unfold term; by rewrite co_term).
  assert (Hact : active_terminal s' = active_terminal s) by (by rewrite co_term).
  split; [split; [split|exact Hc|..]|split]; rewrite ?Hact, ?Ht; try done.
  - unfold pos_ok. by rewrite Ht.
  - split; [done|]. intros p Hp. apply co_peek. inversion_clear Hp as [|? ? H _]. cbn [fst snd] in H.
    unfold PAGE_BYTES, FOUR_KB in *. lia.
  - by rewrite co_cpu.
Qed.

Lemma good_putc c s : keys_ok s → good s (putc c s).
Proof using HL. intros Hk. destruct (putc_spec c s (ko_cursor _ Hk)) as (Ho & _ & Hc). by apply good_console. Qed.

Lemma good_clear s : keys_ok s → good s (clear s).
Proof using HL. intros Hk. destruct (clear_spec s) as (Ho & _ & Hc). by apply good_console. Qed.

(** An update of the terminal shown that keeps pages and cursor. *)
Lemma good_terminal f s :
  keys_ok s →
  (∀ t, video_memory_storage_location (f t) = video_memory_storage_location t ∧
        x_position (f t) = x_position t ∧ y_position (f t) = y_position t) →
  0 <= buffer_index (f (active s)) <= BUFF_SIZE → good s (upd_active f s).
Proof using HL.
  intros [[Ha Hb] Hc Hs Hi] Hf Hidx. unfold upd_active.
  assert (Ht : ∀ j, term (upd_terminal (active_terminal s) f s) j = if active_terminal s =? j then f (term s j) else term s j).
  { intros j. rewrite term_upd. by destruct (Z.eqb_spec (active_terminal s) j) as [->|]. }
  split; [split; [split|exact Hc|..]|split; [apply changes_refl|done..]].
  - exact Ha.
  - intros j Hj. rewrite Ht. destruct (_ =? _); [rewrite (proj1 (Hf _))|]; by apply Hb.
  - intros j Hj. specialize (Hs j Hj). unfold pos_ok in *. rewrite !Ht. destruct (_ =? _); [|done].
    destruct (Hf (term s j)) as (_ & -> & ->). exact Hs.
  - intros j Hj. rewrite Ht. destruct (Z.eqb_spec (active_terminal s) j) as [<-|]; [exact Hidx|by apply Hi].
Qed.

(** Updates of what the invariant does not read. *)
Lemma good_other s s' :
  keys_ok s → k_mem s' = k_mem s → k_con s' = k_con s → k_term s' = k_term s → touched s s' → good s s'.
Proof.
  intros [[Ha Hb] Hc Hs Hi] Hm Hk Ht Hto. assert (Htm : term s' = term s) by (unfold term; by rewrite Ht).
  split; [|exact Hto]. split; [split|..]; rewrite ?Htm, ?Ht; try done.
  - unfold cursor_ok. by rewrite Hk.
  - unfold pos_ok. by rewrite Htm.
Qed.

Lemma good_kbd f s : keys_ok s → good s (upd_kbd f s).
Proof. intros Hk. apply good_other; [done..|]. split; [apply changes_refl|done..]. Qed.

Lemma good_dev f s : keys_ok s → good s (upd_dev f s).
Proof. intros Hk. apply good_other; [done..|]. split; [apply changes_refl|done..]. Qed.

Lemma good_cli s : keys_ok s → good s (cli s).
Proof. intros Hk. apply good_other; [done..|]. split; [apply changes_refl|done..]. Qed.

Lemma good_sti s : keys_ok s → good s (sti s).
Proof. intros Hk. apply good_other; [done..|]. split; [apply changes_refl|done..]. Qed.

Lemma good_index s : keys_ok s → 0 <= buffer_index (active s) <= BUFF_SIZE.
Proof. intros Hk. apply Hk. apply Hk. Qed.

(** The cases of the handler that call no function which may fail. *)
Lemma good_enter s : keys_ok s → good s (key_enter s).
Proof using HL.
  intros Hk. pose proof (good_putc NL s Hk) as H1. unfold key_enter. set (s1 := putc NL s) in *. clearbody s1.
  assert (H2 : good s1 (upd_active (set_read_index (buffer_index (active s1))) s1)).
  { apply good_terminal; [apply H1|by intros t|]. apply good_index, H1. }
  set (s2 := upd_active _ s1) in *. clearbody s2.
  assert (H3 : good s2 (upd_active (set_read_flag 1) s2)) by (apply good_terminal; [apply H2|by intros t|apply good_index, H2]).
  set (s3 := upd_active _ s2) in *. clearbody s3.
  assert (H4 : good s3 (upd_active (set_buffer_index 0) s3)) by (apply good_terminal; [apply H3|by intros t|cbn; unfold BUFF_SIZE; lia]).
  set (s4 := upd_active _ s3) in *. clearbody s4.
  apply (good_trans _ s1); [done|]. apply (good_trans _ s2); [done|]. apply (good_trans _ s3); [done|]. apply (good_trans _ s4); [done|].
  apply (good_trans _ (set_counter 0 s4)); [by apply good_kbd, H4|]. apply good_kbd, good_kbd, H4.
Qed.

Lemma active_console s s' : console_only s s' → active s' = active s.
Proof. intros []. unfold active, term. by rewrite co_term. Qed.

Lemma good_backspace s : keys_ok s → good s (key_backspace s).
Proof using HL.
  intros Hk. pose proof (good_index s Hk) as Hi. unfold key_backspace. destruct (Z.ltb_spec (buffer_index (active s)) 0); [lia|].
  destruct (Z.ltb_spec 0 (buffer_index (active s))); [|by apply good_refl].
  pose proof (good_putc BSP s Hk) as H1. destruct (putc_spec BSP s (ko_cursor _ Hk)) as (Ho & _).
  pose proof (active_console _ _ Ho) as Ha. set (s1 := putc BSP s) in *. clearbody s1.
  assert (H2 : good s1 (upd_active (set_buffer_index (buffer_index (active s1) - 1)) s1)).
  { apply good_terminal; [apply H1|by intros t|cbn; rewrite Ha; lia]. }
  set (s2 := upd_active _ s1) in *. clearbody s2.
  apply (good_trans _ s1); [done|]. apply (good_trans _ s2); [done|]. apply good_kbd, H2.
Qed.

Lemma switch_index b s j : buffer_index (term (save_and_switch_term b s) j) = buffer_index (term s j).
Proof.
  unfold save_and_switch_term. destruct (b =? active_terminal s); [done|].
  set (m1 := upd_mem _ (upd_mem _ s)). set (s2 := upd_terminal (active_terminal m1) (set_y_position (screen_y m1)) m1).
  set (s3 := upd_terminal (active_terminal s2) (set_x_position (screen_x s2)) s2).
  change (buffer_index (term s3 j) = buffer_index (term s j)). unfold s3, s2. rewrite !term_upd.
  change (term m1) with (term s). change (active_terminal (upd_terminal _ _ m1)) with (active_terminal s).
  change (active_terminal m1) with (active_terminal s). rewrite Z.eqb_refl.
  by destruct (Z.eqb_spec (active_terminal s) j) as [->|].
Qed.

Lemma good_switch b s : keys_ok s → 0 <= b < 3 → good s (set_active_terminal b (save_and_switch_term b (set_is_visible b s))).
Proof using HL.
  intros [[Ha Hb] Hc Hs Hi] Hr. set (s1 := set_is_visible b s). assert (Hok : terms_ok s1) by by split.
  destruct (switch_frame s1 b Hok Hr) as (Hch & Hfs & Hcpu & Hpr & Hsc & Hpic & Hpg).
  assert (Hkey : keys_ok (save_and_switch_term b s1) ∧ k_desc (save_and_switch_term b s1) = k_desc s1 ∧
    active_terminal (save_and_switch_term b s1) = b).
  { destruct (decide (b = active_terminal s)) as [->|Hne].
    - unfold save_and_switch_term. change (active_terminal s1) with (active_terminal s). rewrite Z.eqb_refl. by split_and!.
    - destruct (switch_view s1 b b Hok Hr Hr Hne) as (_ & _ & H3 & H4 & H5 & _).
      split; [split|split; [|exact H3]].
      + apply (terminal_screen_switch s1 b b Hok Hr Hr).
      + unfold cursor_ok. rewrite H4, H5. apply (Hs b Hr).
      + intros j Hj. destruct (switch_view s1 b j Hok Hr Hj Hne) as (_ & _ & _ & _ & _ & _ & H7 & H8).
        unfold pos_ok. rewrite H7, H8. destruct (j =? _); [apply Hc|apply (Hs j Hj)].
      + intros j Hj. rewrite switch_index. by apply Hi.
      + unfold save_and_switch_term. by destruct (_ =? _). }
  destruct Hkey as ([[Ha2 Hb2] Hc2 Hs2 Hi2] & Hd & Hact). set (s2 := save_and_switch_term b s1) in *.
  split; [split; [split; [exact Hr|exact Hb2]|exact Hc2|exact Hs2|exact Hi2]|].
  split; [|exact Hfs|exact Hpr|exact Hpg|exact Hsc|exact Hd|exact Hpic|].
  - refine (changes_mono _ _ _ _ _ Hch). intros o Ho. apply list_elem_of_singleton in Ho as ->. by left.
  - change (esp s2 = esp s1 ∧ ebp s2 = ebp s1 ∧ esp0 s2 = esp0 s1). by rewrite Hcpu.
Qed.

(** ** The default case *)

Lemma function_key_char code s : code = F1 ∨ code = F2 ∨ code = F3 → keypress_handler code s = 0.
Proof.
  unfold keypress_handler. destruct (negb (SHIFT_STATUS s =? 0)), (negb (CAPS_STATUS s =? 0));
    intros [->|[->| ->]]; vm_compute; reflexivity.
Qed.

(** The terminal changes, or the key types. *)
Lemma key_switch_cases code s :
  keys_ok s →
  good s (key_switch code s) ∧ (key_switch code s = s ∨ code = F1 ∨ code = F2 ∨ code = F3).
Proof using HL.
  intros Hk. unfold key_switch. destruct (_ =? ACTIVE); [|split; [by apply good_refl|by left]].
  destruct (Z.eqb_spec code F1); [split; [by apply good_switch|tauto]|].
  destruct (Z.eqb_spec code F2); [split; [by apply good_switch|tauto]|].
  destruct (Z.eqb_spec code F3); [split; [by apply good_switch|tauto]|].
  split; [by apply good_refl|by left].
Qed.

(** A byte of the line being typed. *)
Lemma good_store s c :
  keys_ok s → buffer_index (active s) < BUFF_SIZE →
  good s (store8 (keyboard_buffer (active_terminal s) (buffer_index (active s))) c s).
Proof using HL.
  intros Hk Hlt. pose proof (good_index s Hk) as Hi. destruct Hk as [[Ha Hb] Hc Hs Hix]. unfold BUFF_SIZE in *.
  destruct (keyboard_byte (active_terminal s) (buffer_index (active s)) Ha ltac:(lia)) as [Hp Hph].
  set (p := keyboard_buffer _ _) in *. split; [by split|]. split; [|done..].
  assert (Hin : ∃ j, (keyboard_buffer j 0, 128) ∈ key_objects ∧ keyboard_buffer j 0 <= p ∧ p + 1 <= keyboard_buffer j 0 + 128).
  { exists (active_terminal s). pose proof (keyboard_buffer_add (active_terminal s) (buffer_index (active s))) as Hadd. fold p in Hadd.
    split; [|lia]. unfold key_objects. rewrite !elem_of_cons. assert (active_terminal s = 0 ∨ active_terminal s = 1 ∨ active_terminal s = 2) as [-> | [-> | ->]] by lia; tauto. }
  destruct Hin as (j & Hin & H1 & H2).
  apply (changes_part _ _ _ p 1 _ (keyboard_buffer j 0) 128 (writes_st8 s p c)); [by rewrite Hph..|exact Hin].
Qed.

(** Its echo, shown on the screen. *)
Lemma good_echo s p :
  keys_ok s → shown s → 0 < p < 4294967296 → buffer_index (active s) < BUFF_SIZE →
  ∃ s', terminal_write 0 p 1 s = Ret 1 s' ∧ good s s' ∧ active s' = active s.
Proof using HL.
  intros Hk Hsh Hp Hlt.
  assert (Hw : ∀ t, keys_ok t → shown t → good t (write_char (ld8 t (p + 0)) t) ∧ active (write_char (ld8 t (p + 0)) t) = active t).
  { intros t Ht Hst. rewrite write_char_shown by done. destruct (_ =? 0); [by split; [apply good_refl|]|].
    split; [by apply good_putc|]. by destruct (putc_spec (ld8 t (p + 0)) t (ko_cursor _ Ht)) as (Ho & _); apply active_console. }
  pose proof (good_cli s Hk) as H1. destruct (Hw (cli s) (proj1 H1)) as [H2 Ha2]; [exact Hsh|].
  set (s2 := write_char _ (cli s)) in *. exists (sti s2). split; [|split; [|exact Ha2]].
  - unfold terminal_write. rewrite u32_small by lia. destruct (Z.eqb_spec p 0); [lia|]. cbn [orb Z.ltb Z.compare].
    rewrite (bind_ret _ _ s (buffer_index (active s) =? BUFF_SIZE) s) by done.
    destruct (Z.eqb_spec (buffer_index (active s)) BUFF_SIZE); [lia|]. reflexivity.
  - apply (good_trans _ (cli s)); [done|]. apply (good_trans _ s2); [done|]. apply good_sti, H2.
Qed.

Lemma good_default code s :
  keys_ok s → shown s → ∃ s', key_default code s = Ret tt s' ∧ good s s'.
Proof using HL.
  intros Hk Hsh. unfold key_default. destruct (key_switch_cases code s Hk) as [H1 Hcase]. set (s1 := key_switch code s) in *.
  rewrite (bind_ret _ _ s tt s1) by done. rewrite (bind_ret _ _ s1 (keypress_handler code s1) s1) by done.
  destruct Hcase as [Heq|Hf].
  2:{ rewrite (function_key_char code s1 Hf). cbn [Z.eqb]. by exists s1. }
  rewrite Heq in *. clear Heq s1 H1. set (c := keypress_handler code s).
  destruct (c =? 0); [by exists s; split; [|apply good_refl]|].
  rewrite (bind_ret _ _ s (CTRL_STATUS s) s) by done.
  destruct (_ && _); [by exists (clear s); split; [|apply good_clear]|].
  set (i := buffer_index (active s)). rewrite (bind_ret _ _ s i s) by done.
  destruct (Z.ltb_spec i keyboard_max_buffer_size) as [Hlt|]; [|by exists s; split; [|apply good_refl]].
  set (p := keyboard_buffer (active_terminal s) i). rewrite (bind_ret _ _ s p s) by done.
  pose proof (good_index s Hk) as Hi. fold i in Hi. unfold keyboard_max_buffer_size in Hlt.
  assert (Hp : 0 < p < 4294967296).
  { destruct (keyboard_byte (active_terminal s) i (terms_active _ (ko_terms _ Hk)) ltac:(lia)) as [Hp _]. fold p in Hp.
    unfold KERNEL_START, KERNEL_END in Hp. lia. }
  pose proof (good_store s c Hk Hlt) as H1. fold i p in H1. set (s1 := store8 p c s) in *.
  rewrite (bind_ret _ _ s tt s1) by done.
  destruct (good_echo s1 p (proj1 H1) Hsh Hp Hlt) as (s2 & E & H2 & Ha). rewrite (bind_ret _ _ _ _ _ E).
  eexists. split; [done|]. apply (good_trans _ s1); [done|]. apply (good_trans _ s2); [done|].
  apply good_terminal; [apply H2|by intros t|]. cbn [buffer_index set_buffer_index]. rewrite Ha. change (active s1) with (active s). fold i. unfold BUFF_SIZE. lia.
Qed.

Lemma good_dispatch code s :
  keys_ok s → shown s → code ≠ LEFT → code ≠ RIGHT → ∃ s', key_dispatch code s = Ret tt s' ∧ good s s'.
Proof using HL.
  intros Hk Hsh Hl Hr. unfold key_dispatch.
  repeat match goal with
  | |- context [if ?c =? ?k then modify ?f else _] =>
      destruct (Z.eqb_spec c k); [exists (f s); split; [done|]|]
  | |- context [if ?c =? ?k then mret tt else _] => destruct (Z.eqb_spec c k); [by exists s; split; [|apply good_refl]|]
  end; try (by apply good_kbd); try done; [| | | |by apply good_default].
  - destruct (_ =? INACTIVE); by apply good_kbd.
  - by apply good_enter.
  - by apply good_putc.
  - by apply good_backspace.
Qed.

Lemma good_entry code s : keys_ok s → good s (on_entry code s).
Proof using HL.
  intros Hk. unfold on_entry, outb. apply (good_trans _ (present code s)); [by apply good_dev|].
  apply (good_trans _ (cli (present code s))); [by apply good_cli, good_dev|]. by apply good_dev, good_cli, good_dev.
Qed.

Lemma good_handle i s : keys_ok s → shown s → allowed i → ∃ s', handle i s = Ret tt s' ∧ good s s'.
Proof using HL.
  intros Hk Hsh. destruct i as [code|]; cbn [allowed handle].
  - intros (Hc & Hl & Hr). rewrite press_run by done. pose proof (good_entry code s Hk) as H1.
    destruct (good_dispatch code (on_entry code s) (proj1 H1) Hsh Hl Hr) as (s2 & E & H2). rewrite (bind_ret _ _ _ _ _ E).
    exists (sti s2). split; [done|]. apply (good_trans _ _ _ H1), (good_trans _ _ _ H2), good_sti, H2.
  - intros _. eexists. split; [reflexivity|]. apply good_other; [done..|]. split; [apply changes_refl|done..].
Qed.

Lemma reached_good s0 s : keys_ok s0 → reached s0 s → good s0 s.
Proof using HL.
  intros Hk Hr. induction Hr as [|i s s' _ IH Hsh Hal E]; [by apply good_refl|].
  destruct (good_handle i s (proj1 IH) Hsh Hal) as (s2 & E2 & H2). rewrite E in E2. injection E2 as <-.
  by apply (good_trans _ s).
Qed.
End KeySafe.

(** C25: over every sequence of interrupts of the clock and the keyboard, the
    two arrow keys that move the cursor apart, as long as output goes to the
    terminal shown: the cursor and the three saved cursors stay on the screen,
    the terminal shown is one of the three, every line fits its buffer; only the
    video page, the pages of the screens and the line buffers have been written;
    and the next interrupt is handled to its end. *)
Theorem interrupts_safe {L : Layout} {HL : LayoutOK L} (s0 s : kernel) :
  keys_ok s0 → reached s0 s →
  keys_ok s ∧ touched s0 s ∧ (shown s → ∀ i, allowed i → ∃ s', handle i s = Ret tt s').
Proof.
  intros Hk Hr. destruct (reached_good s0 s Hk Hr) as [H1 H2]. split; [exact H1|]. split; [exact H2|].
  intros Hsh i Hi. destruct (good_handle i s H1 Hsh Hi) as (s' & E & _). by exists s'.
Qed.

Lemma prompt_keys_ok : keys_ok prompt_state.
Proof.
  split; [exact prompt_terms_ok|by vm_compute|..]; intros j Hj;
    assert (j = 0 ∨ j = 1 ∨ j = 2) as [-> | [-> | ->]] by lia; vm_compute; split_and!; congruence.
Qed.

(** The key l, then the clock. *)
Lemma interrupts_safe_witness :
  keys_ok prompt_state ∧ ∃ s, reached (L := example_layout) prompt_state s ∧ keys_ok s ∧
    touched (L := example_layout) prompt_state s ∧ buffer_index (term s 0) = 1.
Proof.
  split; [exact prompt_keys_ok|].
  set (s1 := match handle (L := example_layout) (Key 38) prompt_state with Ret _ s => s | _ => prompt_state end).
  assert (E1 : handle (L := example_layout) (Key 38) prompt_state = Ret tt s1).
  { destruct (good_handle (L := example_layout) (Key 38) prompt_state prompt_keys_ok) as (s' & E & _);
      [by left|by split_and!|]. unfold s1. by rewrite E. }
  assert (R : reached (L := example_layout) prompt_state s1).
  { apply (reached_step prompt_state (Key 38) prompt_state s1); [constructor|by left|by split_and!|exact E1]. }
  destruct (interrupts_safe (L := example_layout) prompt_state s1 prompt_keys_ok R) as (H1 & H2 & _).
  exists s1. split; [exact R|]. split; [exact H1|]. split; [exact H2|]. vm_compute. reflexivity.
Defined.

(** ** The arrow keys *)

#[local] Transparent putc clear.

Lemma typed_char_plain code s :
  is_char_key code = true → let c := typed_char s code in
  0 < c < 128 ∧ c ≠ NL ∧ c ≠ CR ∧ c ≠ TABC ∧ c ≠ BSP.
Proof.
  intros Hk c. split; [by apply modified_char_range|]. unfold typed_char in c.
  set (sh := negb (SHIFT_STATUS s =? 0)) in c. set (ca := negb (CAPS_STATUS s =? 0)) in c. clearbody sh ca.
  pose proof (is_char_key_range code Hk) as Hr.
  assert (H : forallb (λ code, implb (is_char_key code) (forallb (λ sh, forallb (λ ca,
     negb (existsb (Z.eqb (modified_char sh ca code)) [NL; CR; TABC; BSP])) [true; false]) [true; false])) (seqZ 0 128) = true) by (vm_compute; reflexivity).
  rewrite forallb_forall in H. specialize (H code). rewrite <- list_elem_of_In, elem_of_seqZ in H. specialize (H ltac:(lia)).
  rewrite Hk in H. cbn [implb] in H. rewrite forallb_forall in H. specialize (H sh ltac:(by destruct sh; [left|right; left])).
  rewrite forallb_forall in H. specialize (H ca ltac:(by destruct ca; [left|right; left])). fold c in H.
  cbn [existsb] in H. rewrite negb_true_iff, !orb_false_iff, !Z.eqb_neq in H. tauto.
Qed.

(** The key l, whatever shift and caps lock are. *)
Definition L_KEY : Z := 38.

Lemma press_clear {L : Layout} s :
  negb (CTRL_STATUS s =? 0) = true → ALT_STATUS s = 0 →
  press L_KEY s = Ret tt (sti (clear (on_entry L_KEY s))).
Proof.
  intros Hc Ha. rewrite press_run by (unfold L_KEY; lia). set (s1 := on_entry L_KEY s).
  assert (Hd : key_dispatch L_KEY s1 = Ret tt (clear s1)); [|by rewrite (bind_ret _ _ _ _ _ Hd)].
  change (key_dispatch L_KEY s1) with (key_default L_KEY s1). unfold key_default.
  rewrite (bind_ret _ _ s1 tt s1) by (unfold modify, key_switch; change (ALT_STATUS s1) with (ALT_STATUS s); by rewrite Ha).
  rewrite (bind_ret _ _ s1 (keypress_handler L_KEY s1) s1) by done.
  assert (Hk : keypress_handler L_KEY s1 = 108 ∨ keypress_handler L_KEY s1 = 76).
  { unfold keypress_handler. destruct (negb (SHIFT_STATUS s1 =? 0)), (negb (CAPS_STATUS s1 =? 0)); vm_compute; tauto. }
  destruct Hk as [-> | ->]; cbn [Z.eqb Pos.eqb]; rewrite (bind_ret _ _ s1 (CTRL_STATUS s) s1) by done; by rewrite Hc.
Qed.

Lemma press_left {L : Layout} s :
  0 < buffer_index (active s) → press LEFT s = Ret tt (sti (key_left (on_entry LEFT s))).
Proof. intros Hi. rewrite press_run by (unfold LEFT; lia). done. Qed.

Lemma left_effect s :
  0 < buffer_index (active s) →
  let s' := key_left s in
  screen_x s' = screen_x s - 1 ∧ screen_y s' = screen_y s ∧ k_mem s' = k_mem s ∧ k_sched s' = k_sched s ∧
  active_terminal s' = active_terminal s ∧ buffer_index (active s') = buffer_index (active s) - 1 ∧
  SHIFT_STATUS s' = SHIFT_STATUS s ∧ CAPS_STATUS s' = CAPS_STATUS s ∧ CTRL_STATUS s' = CTRL_STATUS s ∧ ALT_STATUS s' = ALT_STATUS s.
Proof.
  intros Hi s'. unfold s', key_left. clear s'. destruct (Z.leb_spec (buffer_index (active s)) 0); [lia|].
  destruct (_ <? _); (split_and!; [done..| |done|done|done|done]); unfold active, upd_active; cbn [active_terminal upd_terminal]; 
    change (buffer_index (term (upd_terminal (active_terminal s) (set_buffer_index (buffer_index (active s) - 1)) s) (active_terminal s)) = buffer_index (active s) - 1);
    by rewrite term_upd_same.
Qed.

(** A character printed with the cursor left of the first column of the first
    row lands below the video page. *)
Lemma putc_outside c s :
  0 < c < 128 → c ≠ NL → c ≠ CR → c ≠ TABC → c ≠ BSP → screen_x s = -1 → screen_y s = 0 →
  ld8 (putc c s) (VIDEO - 2) = c.
Proof.
  intros Hc H1 H2 H3 H4 Hx Hy. unfold putc. rewrite u8_small by lia.
  apply Z.eqb_neq in H1, H2, H3, H4. rewrite H1, H2, H3, H4. cbn [orb]. unfold handle_normal_char. rewrite Hx, Hy.
  set (s1 := upd_mem _ s). change (screen_x s1) with (screen_x s). rewrite Hx. cbn [Z.eqb].
  change (ld8 s1 (VIDEO - 2) = c). unfold s1. rewrite k_mem_upd. unfold put_cell.
  change (VIDEO + Z.shiftl (NUM_COLS * 0 + -1) 1) with (VIDEO - 2).
  rewrite !ld8_st8, !(phys_kernel _ (VIDEO - 2)), !(phys_kernel _ (VIDEO - 2 + 1)) by (unfold VIDEO, PROGRAM_PAGE; lia).
  destruct (Z.eqb_spec (VIDEO - 2) (VIDEO - 2 + 1)); [lia|]. rewrite Z.eqb_refl. apply u8_small. lia.
Qed.

Lemma press_outside {L : Layout} {HL : LayoutOK L} code s :
  is_char_key code = true → CTRL_STATUS s = 0 → ALT_STATUS s = 0 → 0 <= active_terminal s < 3 → shown s →
  0 <= buffer_index (active s) < 128 → screen_x s = -1 → screen_y s = 0 →
  ∃ s', press code s = Ret tt s' ∧ ld8 s' (VIDEO - 2) = typed_char s code.
Proof.
  intros Hk Hct Hal Ha Hsh Hi Hx Hy. pose proof (is_char_key_range code Hk) as Hr.
  destruct (typed_char_plain code s Hk) as (Hc & C1 & C2 & C3 & C4).
  rewrite press_run, key_dispatch_char by (done || lia). set (s1 := on_entry code s).
  change (typed_char s code) with (typed_char s1 code) in *. set (c := typed_char s1 code) in *.
  set (i := buffer_index (active s)) in *. set (p := keyboard_buffer (active_terminal s) i).
  destruct (keyboard_byte (active_terminal s) i Ha ltac:(lia)) as [Hp Hph]. fold p in Hp, Hph.
  unfold KERNEL_START, KERNEL_END in Hp.
  set (s2 := cli (store8 p c s1)). set (s3 := putc (ld8 s2 (p + 0)) s2).
  assert (Hld : ld8 s2 (p + 0) = c).
  { rewrite Z.add_0_r. change (ld8 (st8 s1 p c) p = c). rewrite ld8_st8_same. apply u8_small. lia. }
  assert (Hw : terminal_write 0 p 1 (store8 p c s1) = Ret 1 (sti s3)).
  { unfold terminal_write. rewrite u32_small by lia. destruct (Z.eqb_spec p 0); [lia|]. cbn [orb Z.ltb Z.compare].
    rewrite (bind_ret _ _ (store8 p c s1) (i =? BUFF_SIZE) (store8 p c s1)) by done.
    unfold BUFF_SIZE. destruct (Z.eqb_spec i 128); [lia|].
    change (Ret 1 (sti (write_char (ld8 s2 (p + 0)) s2)) = Ret 1 (sti s3)). rewrite write_char_shown by exact Hsh.
    rewrite Hld. destruct (Z.eqb_spec c 0); [lia|]. unfold s3. by rewrite Hld. }
  assert (Hd : ∃ s4, key_default code s1 = Ret tt s4 ∧ k_mem s4 = k_mem s3).
  { unfold key_default.
    rewrite (bind_ret _ _ s1 tt s1) by (unfold modify, key_switch; change (ALT_STATUS s1) with (ALT_STATUS s); by rewrite Hal).
    rewrite (bind_ret _ _ s1 c s1) by (unfold gets; by rewrite keypress_handler_run by lia).
    destruct (Z.eqb_spec c 0); [lia|]. rewrite (bind_ret _ _ s1 0 s1) by (unfold gets; f_equal; exact Hct). cbn [Z.eqb negb andb].
    rewrite (bind_ret _ _ s1 i s1) by done. unfold keyboard_max_buffer_size. destruct (Z.ltb_spec i 128); [|lia].
    rewrite (bind_ret _ _ s1 p s1) by done. rewrite (bind_ret _ _ s1 tt (store8 p c s1)) by done.
    rewrite (bind_ret _ _ _ _ _ Hw). eexists. split; [done|]. done. }
  destruct Hd as (s4 & E & Hm). rewrite (bind_ret _ _ _ _ _ E). exists (sti s4). split; [done|].
  change (ld8 s4 (VIDEO - 2) = c). rewrite Hm. unfold s3. rewrite Hld. by apply putc_outside.
Qed.

(** C35: control L, then the left arrow, then a character, on a line that is not
    empty: control L moves the cursor home but keeps the line, the arrow moves
    it left of the first column, and the character is stored two bytes below the
    video page. *)
Theorem arrow_escapes {L : Layout} {HL : LayoutOK L} (a code : Z) (s : kernel) :
  can_type a s → 0 < buffer_index (term s a) <= BUFF_SIZE → is_char_key code = true →
  ∃ s', press_all [CTRL_DOWN; L_KEY; CTRL_RELEASE; LEFT; code] s = Ret tt s' ∧
    ld8 s' (VIDEO - 2) = typed_char s code.
Proof.
  intros [Hact Ha Hct Hal Hcur Hvis] Hi Hk. unfold BUFF_SIZE in Hi. cbn [press_all].
  set (s1 := sti (set_ctrl ACTIVE (on_entry CTRL_DOWN s))).
  rewrite (bind_ret _ _ s tt s1) by (rewrite press_run by (unfold CTRL_DOWN; lia); done).
  rewrite (bind_ret _ _ _ _ _ (press_clear s1 eq_refl Hal)). set (s2 := sti (clear (on_entry L_KEY s1))).
  set (s3 := sti (set_ctrl INACTIVE (on_entry CTRL_RELEASE s2))).
  rewrite (bind_ret _ _ s2 tt s3) by (rewrite press_run by (unfold CTRL_RELEASE; lia); done).
  assert (Hi3 : buffer_index (active s3) = buffer_index (term s a)).
  { change (buffer_index (active s) = buffer_index (term s a)). unfold active. by rewrite Hact. }
  rewrite (bind_ret _ _ _ _ _ (press_left s3 ltac:(lia))). set (s4 := on_entry LEFT s3).
  destruct (left_effect s4 ltac:(change (active s4) with (active s3); lia)) as (Lx & Ly & _ & Lsc & La & Li & Ls & Lca & Lct & Lal).
  set (s5 := key_left s4) in *. clearbody s5.
  assert (Hty : typed_char s code = typed_char (sti s5) code).
  { unfold typed_char. change (SHIFT_STATUS (sti s5)) with (SHIFT_STATUS s5). change (CAPS_STATUS (sti s5)) with (CAPS_STATUS s5).
    by rewrite Ls, Lca. }
  change (active s4) with (active s3) in Li. rewrite Hi3 in Li.
  destruct (press_outside code (sti s5) Hk) as (s' & E & H).
  - exact Lct.
  - change (ALT_STATUS s5 = 0). rewrite Lal. exact Hal.
  - change (0 <= active_terminal s5 < 3). rewrite La. change (0 <= active_terminal s < 3). by rewrite Hact.
  - unfold shown. change (current_running_process_count s5 < 3 ∨ next_terminal_in_schedule s5 = active_terminal s5).
    rewrite Lsc, La. change (current_running_process_count s < 3 ∨ next_terminal_in_schedule s = active_terminal s). by rewrite Hact.
  - change (active (sti s5)) with (active s5). lia.
  - exact Lx.
  - exact Ly.
  - exists s'. rewrite Hty. split; [|exact H]. by rewrite (bind_ret _ _ _ _ _ E).
Qed.

Lemma arrow_escapes_witness :
  let s := upd_terminal 0 (set_buffer_index 1) prompt_state in
  can_type 0 s ∧ ∃ s', press_all (L := example_layout) [CTRL_DOWN; L_KEY; CTRL_RELEASE; LEFT; 30] s = Ret tt s' ∧ ld8 s' (VIDEO - 2) = 97.
Proof.
  intros s. assert (H : can_type 0 s) by (split; [done|lia|done|done|by vm_compute|by left]). split; [exact H|].
  apply (arrow_escapes (L := example_layout) 0 30 s H); [vm_compute; split; congruence|by vm_compute].
Defined.
