(* ===== verification/Entries.v ===== *)
(** * The entries of the interrupts: handlers.S

    The routines the interrupt table points to, on the machine of [Machine]:
    a device's handler and a system call run with the interrupted program's
    context on the stack, and that context, or the one on the stack the
    scheduler changed to, goes on. *)

From stdpp Require Import functions.
From S2P Require Import Prelude Memory LibMem LibStr Video State Console Format Idt Pic Rtc Process FileSystem Terminal Keyboard Paging SysCalls Schedule UserRun KeySafe Machine.

Implicit Types s : kernel.

(** ** The code *)

(** The C functions the assembly calls. *)
Inductive c_function :=
  | call_rtc_handle_interrupt | call_PIT_handler | call_keyboard_handler
  | call_halt | call_execute | call_read | call_write | call_open | call_close | call_getargs | call_vidmap.

(** The jump table of the system calls, and the word their result waits in. *)
Definition system_call_jmp : list c_function :=
  [call_halt; call_execute; call_read; call_write; call_open; call_close; call_getargs; call_vidmap].

Section Code.
Context (sys_call_retval : Z).

Definition rtc_code : list (instr c_function) := [Pushal; Pushfl; Call call_rtc_handle_interrupt; Popfl; Popal; Iret].
Definition PIT_code : list (instr c_function) := [Pushal; Pushfl; Call call_PIT_handler; Popfl; Popal; Iret].
Definition keyboard_code : list (instr c_function) := [Pushal; Pushfl; Call call_keyboard_handler; Popfl; Popal; Iret].

(** The number is in [EAX], the arguments in [EBX], [ECX] and [EDX]. *)
Definition sys_call_code : list (instr c_function) :=
  [CmpI 8 EAX; Jg "out_of_bounds"; CmpI 1 EAX; Jl "out_of_bounds";
   Pushal; Pushfl; PushR EDX; PushR ECX; PushR EBX;
   Dec EAX; CallTable system_call_jmp EAX;
   Cli; StoreAbs EAX sys_call_retval; AddI 12 ESP; Popfl; Popal; LoadAbs sys_call_retval EAX; Sti; Iret;
   Label "out_of_bounds"; MovI (-1) EAX; Iret].

Definition go_to_ring_three_code : list (instr c_function) :=
  [PushR EBP; MovR ESP EBP;
   Load 12 EBP ECX; Store ESP 0 ECX; Store EBP 4 ECX;
   MovW 0x2B EAX; MovSeg EAX DS; MovSeg EAX ES; MovSeg EAX FS; MovSeg EAX GS;
   MovR ESP EAX; PushI 0x2B; PushI 0x083FFFFC; Pushfl; PushI 0x23; Load 8 EBP ECX; PushR ECX; Iret].

Definition ret_from_execute_code : list (instr c_function) := [Leave; RetI].

(** What the table's routines are in assembly; the exception handlers are C
    functions. *)
Definition assembly (r : routine) : option (list (instr c_function)) :=
  match r with
  | PIT_interrupt => Some PIT_code
  | keyboard_interrupt => Some keyboard_code
  | rtc_interrupt => Some rtc_code
  | sys_call_interrupt => Some sys_call_code
  | c_handler _ => None
  end.
End Code.

Section Entries.
Context {L : Layout}.
Context (sys_call_retval depth : Z) (scratch : reg → Z) (text : list (instr c_function) → Z).

(** The functions over their arguments; one without a result leaves [EAX]
    as it happens to be. *)
Definition c_code (f : c_function) (arg : Z → Z) : M Z :=
  match f with
  | call_rtc_handle_interrupt => _ ← rtc_handle_interrupt; mret (scratch EAX)
  | call_PIT_handler => _ ← PIT_handler; mret (scratch EAX)
  | call_keyboard_handler => _ ← keyboard_handler; mret (scratch EAX)
  | call_halt => halt (arg 0)
  | call_execute => execute (arg 0)
  | call_read => read (s32 (arg 0)) (arg 1) (s32 (arg 2))
  | call_write => write (s32 (arg 0)) (arg 1) (s32 (arg 2))
  | call_open => open (arg 0)
  | call_close => close (s32 (arg 0))
  | call_getargs => getargs (arg 0) (s32 (arg 1))
  | call_vidmap => vidmap (arg 0)
  end.

Definition enter_routine (routine : list (instr c_function)) : machine → result :=
  execute_routine c_code depth scratch text routine.

(** An interrupt of vector [v]. *)
Definition raise (address : routine → Z) (v : Z) (m : machine) : result :=
  let m0 := deliver (gate_of (kern m) v) m in
  match List.find (λ r, address r =? eip m0) [PIT_interrupt; keyboard_interrupt; rtc_interrupt; sys_call_interrupt] with
  | Some r => match assembly sys_call_retval r with Some routine => enter_routine routine m0 | None => Fault end
  | None => Fault
  end.
End Entries.

(** ** A device's interrupt *)

Section Devices.
Context {L : Layout}.
Context (sys_call_retval depth : Z) (scratch : reg → Z) (text : list (instr c_function) → Z) (Htext : ∀ rest, word (text rest)).
Context (address : routine → Z) (Haddr : ∀ r, word (address r)) (Hdistinct : ∀ r r', address r = address r' → r = r').

(** The table is the one [initialize_idt] leaves. *)
Definition table_ready (s : kernel) : Prop :=
  ∃ idt0 : arr idt_desc_t, idt s = initialize_idt address idt0 ∧
    ∀ v, 0 <= offset_15_00 (idt0 !!! v) < 65536 ∧ 0 <= offset_31_16 (idt0 !!! v) < 65536.

Lemma vector_gate s v r : table_ready s → 0 <= v < 256 → routine_of v = Some r →
  gate_of s v = mkGate (address r) KERNEL_CS TRAP_GATE (if v =? 0x80 then 3 else 0) true.
Proof using Haddr.
  intros (idt0 & E & Ho) Hv Hr. destruct (Ho v) as [O1 O2].
  pose proof (installed address Haddr idt0 v Hv O1 O2) as Hg. rewrite Hr in Hg. unfold gate_of. rewrite E. exact Hg.
Qed.

Lemma interrupt_routine v m r routine :
  table_ready (kern m) → 0 <= v < 256 → routine_of v = Some r → assembly sys_call_retval r = Some routine →
  raise sys_call_retval depth scratch text address v m =
  enter_routine depth scratch text routine (deliver (gate_of (kern m) v) m).
Proof using Haddr Hdistinct.
  intros Ht Hv Hr Ha. unfold raise. pose proof (vector_gate _ _ _ Ht Hv Hr) as Hg.
  assert (He : eip (deliver (gate_of (kern m) v) m) = address r).
  { rewrite Hg. unfold deliver. cbn [gate_type entry_point]. by rewrite Z.eqb_refl. }
  assert (Hf : List.find (λ r', address r' =? eip (deliver (gate_of (kern m) v) m)) [PIT_interrupt; keyboard_interrupt; rtc_interrupt; sys_call_interrupt] = Some r).
  { rewrite He. assert (Hb : ∀ r', (address r' =? address r) = true ↔ r' = r) by (intros r'; rewrite Z.eqb_eq; split; [apply Hdistinct|by intros ->]).
    assert (Hn : ∀ r', r' ≠ r → (address r' =? address r) = false) by (intros r' Hn; apply not_true_is_false; by rewrite Hb).
    destruct r; cbn [assembly] in Ha; try done; cbn [List.find]; rewrite ?Z.eqb_refl, ?Hn by done; done. }
  by rewrite Hf, Ha.
Qed.

(** The routine of a device around its handler. *)
Lemma device_steps f m r s' :
  let s := call_state depth text [Popfl; Popal; Iret] (pushfl (pushal m)) in
  c_code scratch f (arguments s) s = Ret r s' →
  enter_routine depth scratch text [Pushal; Pushfl; Call f; Popfl; Popal; Iret] m =
  Resumed (iret (popal (popfl (called depth scratch r s' (pushfl (pushal m)))))).
Proof using.
  intros s Hret. unfold enter_routine, execute_routine. do 2 erewrite run_go by reflexivity.
  rewrite (run_go _ _ _ _ _ _ (Call f) _ _ _ (call_resumes (c_code scratch) depth scratch text f _ _ _ _ Hret)).
  do 2 erewrite run_go by reflexivity. by apply run_stop.
Qed.

(** When the handler returns on a stack where the context of [c] is saved, [c]
    goes on. *)
Lemma device_run f g m c s' :
  machine_ok m → stack_room m → gate_type g = TRAP_GATE → machine_ok c → resumable c (deliver g m) →
  let s := call_state depth text [Popfl; Popal; Iret] (pushfl (pushal (deliver g m))) in
  let a := esp s' + depth + 8 in
  (∃ r, c_code scratch f (arguments s) s = Ret r s') →
  saved s' a c → 4 <= a → a + saved_size c <= PROGRAM_PAGE →
  ∃ m', enter_routine depth scratch text [Pushal; Pushfl; Call f; Popfl; Popal; Iret] (deliver g m) = Resumed m' ∧
    continues c m' ∧ kern m' = set_iflag (iflag (kern c)) s'.
Proof using.
  intros Hm Hr Ht Hc [R1 R2 R3] s a [r Hret] Hsv Ha Hb. pose proof (enter_spec g m Hm Hr Ht) as [_ _ E3 E4 _ _ _].
  pose proof (saved_size_bounds c) as Hsz. eexists. split; [exact (device_steps f _ r s' Hret)|].
  set (m1 := called depth scratch r s' (pushfl (pushal (deliver g m)))).
  assert (S1 : segs m1 = segs (deliver g m)) by done. assert (K1 : kern m1 = s') by done.
  assert (P1 : regs m1 ESP = a - 4).
  { unfold m1, called. cbn [regs]. rewrite fn_lookup_insert_ne, fn_lookup_insert by done. unfold a, PROGRAM_PAGE in *. rewrite u32_small; lia. }
  clearbody m1. clear s Hret. assert (P2 : regs (popfl m1) ESP = a).
  { assert (E : regs (set_flags (top m1) m1) ESP = a - 4) by exact P1.
    unfold popfl. rewrite drop_words_esp; rewrite ?E; unfold PROGRAM_PAGE in *; lia. }
  assert (K2 : kern (popfl m1) = set_iflag (Z.testbit (top m1) IF_BIT) s') by (by rewrite <- K1).
  assert (S2 : segs (popfl m1) = segs (deliver g m)) by done. generalize dependent (popfl m1). intros m2 P2 K2 S2.
  destruct (resume_spec c m2 Hc) as [Hct Hk].
  - rewrite P2, K2. destruct Hsv as [V1 V2 V3]. by split; rewrite ?set_iflag_mem.
  - lia.
  - lia.
  - split; [intros r' Hr'|intros Hu|exact R3]; rewrite S2; [by apply R1|by apply R2].
  - split; [exact Hct|]. by rewrite Hk, K2, set_iflag_last.
Qed.
End Devices.

(** ** The timer *)

Section Timer.
Context {L : Layout}.
Context (sys_call_retval depth : Z) (scratch : reg → Z) (text : list (instr c_function) → Z) (Htext : ∀ rest, word (text rest)).
Context (address : routine → Z) (Haddr : ∀ r, word (address r)) (Hdistinct : ∀ r r', address r = address r' → r = r').

Lemma PIT_handler_run s : scheduling s → ∃ s', PIT_handler s = Ret tt s' ∧ switched s s'.
Proof using.
  intros Hs. unfold PIT_handler. rewrite (bind_ret _ _ _ _ _ (disable_irq_run 1 s ltac:(lia))).
  set (s1 := announce 1 (disable_pic 1 s) (upd_pic (disable_pic 1) s)).
  assert (E2 : send_eoi PIT_IRQ s1 = Ret tt (outb (Z.lor EOI 0) (MASTER_DATA_PORT - 1) s1)) by done.
  rewrite (bind_ret _ _ _ _ _ E2). destruct (round_robin_run (outb (Z.lor EOI 0) (MASTER_DATA_PORT - 1) s1)) as (s' & E & Hsw).
  { destruct Hs as [H1 H2 H3]. by split. }
  exists s'. split; [exact E|]. destruct Hsw as [A1 A2 A3 A4 A5 A6 A7 A8 A9 A10]. by split.
Qed.

(** The context of [c] waits in terminal [j]: its record holds the stack and
    frame pointers the scheduler was interrupted with, and the stack its registers. *)
Record waiting (s : kernel) (j : Z) (c : machine) : Prop := {
  wt_machine : machine_ok c;
  wt_saved : saved s (current_esp (term s j) + depth + 8) c;
  wt_low : 4 <= current_esp (term s j) + depth + 8;
  wt_high : current_esp (term s j) + depth + 8 + saved_size c <= PROGRAM_PAGE;
}.

(** The stack an interrupt of [m] uses, down to where the C code starts. *)
Definition used (m : machine) : Z * Z := (kernel_stack m - saved_size m - 8, saved_size m + 8).
(** It is not the stack the context of terminal [j] waits on. *)
Definition off_stack (m : machine) (s : kernel) (j : Z) (c : machine) : Prop :=
  let a := current_esp (term s j) + depth + 8 in
  a + saved_size c <= (used m).1 ∨ (used m).1 + (used m).2 <= a.

(** A context that waits is not touched by what leaves its stack and record alone. *)
Lemma waiting_stays os s s' j c :
  waiting s j c → stays os s s' → current_esp (term s' j) = current_esp (term s j) →
  Forall (λ o, current_esp (term s j) + depth + 8 + saved_size c <= o.1 ∨ o.1 + o.2 <= current_esp (term s j) + depth + 8) os →
  waiting s' j c.
Proof using.
  intros [H1 H2 H3 H4] Hc Ht Ho. split; rewrite ?Ht; [done| |done..].
  apply (saved_stays os s); [done|lia|lia|done|done].
Qed.

(** One tick. *)
Lemma timer_switches m c :
  table_ready address (kern m) → machine_ok m → stack_room m → scheduling (kern m) →
  let n := next_terminal_in_schedule (kern m) in
  waiting (kern m) (next_of n) c → off_stack m (kern m) (next_of n) c → resumable c (deliver (gate_of (kern m) 0x20) m) →
  ∃ m', raise sys_call_retval depth scratch text address 0x20 m = Resumed m' ∧ continues c m' ∧
    scheduling (kern m') ∧ next_terminal_in_schedule (kern m') = next_of n ∧
    waiting (kern m') n m ∧
    (∀ j d, j ≠ n → waiting (kern m) j d → off_stack m (kern m) j d → waiting (kern m') j d).
Proof using Htext Haddr Hdistinct.
  intros Ht Hm Hr Hs n [W1 W2 W3 W4] Hoff Hres.
  rewrite (interrupt_routine sys_call_retval depth scratch text address Haddr Hdistinct 0x20 m PIT_interrupt PIT_code Ht) by done.
  pose proof (vector_gate address Haddr (kern m) 0x20 PIT_interrupt Ht ltac:(done) eq_refl) as Hg.
  set (g := gate_of (kern m) 0x20) in *. assert (Htrap : gate_type g = TRAP_GATE) by by rewrite Hg. clearbody g.
  pose proof (handler_state depth text Htext g m [Popfl; Popal; Iret] Hm Hr Htrap) as [I1 I2 I3 I4].
  pose proof (device_run depth scratch text call_PIT_handler g m c) as Hrun.
  set (s := call_state depth text [Popfl; Popal; Iret] (pushfl (pushal (deliver g m)))) in *. clearbody s.
  assert (Ek : k_sched s = k_sched (kern m) ∧ k_term s = k_term (kern m) ∧ iflag s = iflag (kern m)) by (rewrite I4; done).
  destruct Ek as (Ek & Et & _). assert (Hs1 : scheduling s) by (destruct Hs as [H1 H2 H3]; by split; rewrite Ek).
  destruct (PIT_handler_run s Hs1) as (s' & E & Hsw). assert (En : next_terminal_in_schedule s = n) by (unfold n; by rewrite Ek).
  assert (Etj : ∀ j, term s j = term (kern m) j) by (intros j; unfold term; by rewrite Et).
  assert (Hst : stays [used m] (kern m) s').
  { intros p Hp. rewrite (sw_memory _ _ Hsw). by apply (changes_stays _ _ _ I3). }
  assert (Hlow : 1024 <= kernel_stack m <= PROGRAM_PAGE) by exact Hr. pose proof (saved_size_bounds m) as Hsz.
  assert (Ee : esp s' = current_esp (term (kern m) (next_of n))) by (rewrite (sw_esp _ _ Hsw), En; f_equal; apply Etj).
  destruct (Hrun s' Hm Hr Htrap W1 Hres) as (m' & E' & Hct & Hk).
  - exists (scratch EAX). unfold c_code. by rewrite (bind_ret _ _ _ _ _ E).
  - rewrite Ee. apply (saved_stays _ (k_mem (kern m)) _ _ _ Hst); [lia|lia| |done]. constructor; [exact Hoff|done].
  - lia.
  - lia.
  - exists m'. split; [exact E'|]. split; [exact Hct|]. rewrite Hk.
    assert (Ef : ∀ b, k_sched (set_iflag b s') = k_sched s' ∧ k_term (set_iflag b s') = k_term s') by by intros [].
    destruct (Ef (iflag (kern c))) as [Ef1 Ef2].
    assert (Etm : ∀ b j, term (set_iflag b s') j = term s' j) by by intros [].
    assert (Hm' : stays [used m] (kern m) (set_iflag (iflag (kern c)) s')) by (by rewrite set_iflag_mem).
    destruct Hs as [H1 H2 H3]. split; [split; rewrite Ef1, (sw_next _ _ Hsw), ?En, Ek; cbn; [exact H1|exact H2|apply next_of_range]|].
    split; [rewrite Ef1, (sw_next _ _ Hsw); cbn; by rewrite En|]. split.
    + pose proof (sw_saved _ _ Hsw) as Hsv. rewrite En in Hsv.
      assert (Ea : current_esp (term (set_iflag (iflag (kern c)) s') n) + depth + 8 = kernel_stack m - saved_size m).
      { rewrite Etm, Hsv. cbn. rewrite I2. lia. }
      split; rewrite ?Ea; [done| |lia|lia]. rewrite set_iflag_mem.
      apply (saved_stays [] s); [|unfold PROGRAM_PAGE in *; lia..|done|exact I1]. intros p _. apply (sw_memory _ _ Hsw).
    + intros j d Hj Hw Ho. apply (waiting_stays [used m] (kern m)); [done|done| |by constructor].
      rewrite Etm, (sw_others _ _ Hsw) by (by rewrite En). f_equal. apply Etj.
Qed.
End Timer.

(** ** Claims of the timer *)

Section Ticks.
Context {L : Layout}.
Context (depth : Z) (address : routine → Z).

(** A machine the timer may interrupt in terminal [n], the contexts [l] waiting
    in theirs. *)
Record tickable (m : machine) (n : Z) (l : list (Z * machine)) : Prop := {
  tk_table : table_ready address (kern m);
  tk_machine : machine_ok m;
  tk_room : stack_room m;
  tk_scheduling : scheduling (kern m) ∧ next_terminal_in_schedule (kern m) = n;
  tk_waiting : Forall (λ '(j, c), waiting depth (kern m) j c ∧ off_stack depth m (kern m) j c ∧
    resumable c (deliver (gate_of (kern m) 0x20) m)) l;
}.
End Ticks.

(** C1: a timer interrupt suspends the program of one terminal and resumes the
    one that waits in the next, in the middle of its instructions: all registers,
    flags, segments and stack are those it was interrupted with.  After three
    interrupts, whatever the programs did in between short of the waiting
    stacks, the first program goes on as if nothing had happened. *)
Theorem three_interrupts {L : Layout} (sys_call_retval depth : Z) (scratch : reg → Z) (text : list (instr c_function) → Z)
    (address : routine → Z) (m c1 c2 : machine) (n : Z) :
  (∀ rest, word (text rest)) → (∀ r, word (address r)) → (∀ r r', address r = address r' → r = r') → 0 <= n < 3 →
  let tick := raise sys_call_retval depth scratch text address 0x20 in
  let n1 := next_of n in let n2 := next_of n1 in
  tickable depth address m n [(n1, c1); (n2, c2)] →
  ∃ m1, tick m = Resumed m1 ∧ continues c1 m1 ∧ waiting depth (kern m1) n2 c2 ∧ waiting depth (kern m1) n m ∧
  ∀ t1, tickable depth address t1 n1 [(n2, c2); (n, m)] →
  ∃ m2, tick t1 = Resumed m2 ∧ continues c2 m2 ∧ waiting depth (kern m2) n m ∧ waiting depth (kern m2) n1 t1 ∧
  ∀ t2, tickable depth address t2 n2 [(n, m); (n1, t1)] →
  ∃ m3, tick t2 = Resumed m3 ∧ continues m m3 ∧ waiting depth (kern m3) n1 t1 ∧ waiting depth (kern m3) n2 t2.
Proof.
  intros Htext Haddr Hdist Hn tick n1 n2.
  assert (Hne : n2 ≠ n ∧ n ≠ n1 ∧ n1 ≠ n2 ∧ next_of n2 = n).
  { unfold n2, n1, next_of. assert (n = 0 ∨ n = 1 ∨ n = 2) as [->|[->| ->]] by lia; by vm_compute. }
  destruct Hne as (N1 & N2 & N3 & N4).
  assert (Hstep : ∀ t k c j d, tickable depth address t k [(next_of k, c); (j, d)] → j ≠ k →
    ∃ t', tick t = Resumed t' ∧ continues c t' ∧ waiting depth (kern t') j d ∧ waiting depth (kern t') k t).
  { intros t k c j d [T1 T2 T3 [T4 T5] T6] Hj. pose proof (List.Forall_inv T6) as (W1 & W2 & W3).
    pose proof (List.Forall_inv (List.Forall_inv_tail T6)) as (W4 & W5 & _).
    destruct (timer_switches sys_call_retval depth scratch text Htext address Haddr Hdist t c T1 T2 T3 T4) as (t' & E & Hc & _ & _ & Hk & Ho);
      rewrite ?T5; [done..|]. rewrite T5 in Hk, Ho. exists t'. split; [exact E|]. split; [exact Hc|]. split; [by apply Ho|exact Hk]. }
  intros Hm. destruct (Hstep m n c1 n2 c2 Hm N1) as (m1 & E1 & H1). exists m1. split; [exact E1|]. split_and!; [apply H1..|].
  intros t1 Ht1. destruct (Hstep t1 n1 c2 n m Ht1 N2) as (m2 & E2 & H2). exists m2. split; [exact E2|]. split_and!; [apply H2..|].
  intros t2 Ht2. destruct (Hstep t2 n2 m n1 t1) as (m3 & E3 & H3); [by rewrite N4|done|]. exists m3. split; [exact E3|]. split_and!; apply H3.
Qed.

(** ** Keyboard and clock *)

Section Transparent.
Context {L : Layout} {HL : LayoutOK L}.
Context (sys_call_retval depth : Z) (scratch : reg → Z) (text : list (instr c_function) → Z) (Htext : ∀ rest, word (text rest)).
Context (address : routine → Z) (Haddr : ∀ r, word (address r)) (Hdistinct : ∀ r r', address r = address r' → r = r').

Definition vector_of (i : interrupt) : Z := match i with Key _ => 0x21 | Clock => 0x28 end.
Definition presented (i : interrupt) (m : machine) : machine :=
  set_kern (match i with Key code => Keyboard.present code (kern m) | Clock => kern m end) m.

(** A program may use its data segments. *)
Definition rights (m : machine) : Prop :=
  user_mode m = true → ∀ r, r ∈ data_segments → d_level (selected (segs m r)) = 3.

Lemma resumable_self g m : machine_ok m → stack_room m → gate_type g = TRAP_GATE → rights m → resumable m (deliver g m).
Proof using.
  intros Hm Hr Ht Hri. destruct (deliver_spec g m Hm Hr Ht) as [_ _ D3 _ _ _ _ _]. split; [| |exact Hri].
  - intros r Hin. assert (r ≠ CS ∧ r ≠ SS) as [H1 H2].
    { unfold data_segments in Hin. rewrite !elem_of_cons, elem_of_nil in Hin. by destruct_or! Hin; subst. }
    rewrite D3 by done. by rewrite bool_decide_eq_false_2, andb_false_r.
  - intros Hu. by rewrite D3, Hu.
Qed.

(** A handler that returns on the stack it was called on and does not write it. *)
Lemma device_transparent f g m s' os :
  machine_ok m → stack_room m → gate_type g = TRAP_GATE → rights m →
  let s := call_state depth text [Popfl; Popal; Iret] (pushfl (pushal (deliver g m))) in
  (∃ r, c_code scratch f (arguments s) s = Ret r s') → esp s' = esp s → stays os s s' →
  Forall (λ o, (used m).1 + (used m).2 <= o.1 ∨ o.1 + o.2 <= (used m).1) os →
  ∃ m', enter_routine depth scratch text [Pushal; Pushfl; Call f; Popfl; Popal; Iret] (deliver g m) = Resumed m' ∧
    continues m m' ∧ kern m' = set_iflag (iflag (kern m)) s'.
Proof using Htext.
  intros Hm Hr Ht Hri s Hret He Hst Ho. pose proof (handler_state depth text Htext g m [Popfl; Popal; Iret] Hm Hr Ht) as [I1 I2 _ _].
  pose proof (device_run depth scratch text f g m m s' Hm Hr Ht Hm (resumable_self g m Hm Hr Ht Hri) Hret) as Hrun.
  fold s in I1, I2. clearbody s. rewrite He, I2 in Hrun. unfold stack_room in Hr. pose proof (saved_size_bounds m).
  replace (kernel_stack m - saved_size m - 8 - depth + depth + 8) with (kernel_stack m - saved_size m) in Hrun by lia.
  apply Hrun; [|lia..]. apply (saved_stays os s); [done|lia|lia| |exact I1].
  eapply List.Forall_impl; [|exact Ho]. unfold used. intros o. cbn [fst snd]. lia.
Qed.

Definition device (i : interrupt) : c_function :=
  match i with Key _ => call_keyboard_handler | Clock => call_rtc_handle_interrupt end.

(** The state of a handler, and the one without the key presented. *)
Definition handler_cpu (e b : Z) (mem : memory) (s : kernel) : kernel :=
  upd_cpu (λ c, mkCpu e b (esp0 c) (iflag c)) (upd_mem (λ _, mem) s).

Lemma device_handler i m e b mem s' arg :
  handle i (handler_cpu e b mem (kern m)) = Ret tt s' →
  c_code scratch (device i) arg (handler_cpu e b mem (kern (presented i m))) = Ret (scratch EAX) s'.
Proof using.
  intros E. destruct i as [code|]; unfold device, c_code.
  - assert (E' : keyboard_handler (handler_cpu e b mem (kern (presented (Key code) m))) = Ret tt s') by exact E.
    rewrite (bind_ret _ _ _ _ _ E'). reflexivity.
  - assert (E' : rtc_handle_interrupt (handler_cpu e b mem (kern (presented Clock m))) = Ret tt s') by exact E.
    rewrite (bind_ret _ _ _ _ _ E'). reflexivity.
Qed.

Lemma handler_cpu_fields e b mem s : k_mem (handler_cpu e b mem s) = mem ∧ esp (handler_cpu e b mem s) = e.
Proof using. done. Qed.

Lemma handler_keys e b mem s : keys_ok s → keys_ok (handler_cpu e b mem s).
Proof using. intros [[K1 K2] K3 K4 K5]. split; [by split|exact K3|exact K4|exact K5]. Qed.

Lemma iflag_keys f s : keys_ok s → keys_ok (set_iflag f s).
Proof using. intros [[K1 K2] K3 K4 K5]. destruct f; (split; [by split|exact K3|exact K4|exact K5]). Qed.

(** Pressing a key changes what the port presents. *)
Record same_but_port (m mi : machine) : Prop := {
  sp_ready : table_ready address (kern m) → table_ready address (kern mi);
  sp_ok : machine_ok m → machine_ok mi;
  sp_stack : kernel_stack mi = kernel_stack m ∧ saved_size mi = saved_size m;
  sp_rights : rights m → rights mi;
  sp_mem : k_mem (kern mi) = k_mem (kern m);
  sp_iflag : iflag (kern mi) = iflag (kern m);
  sp_continues : ∀ m', continues mi m' → continues m m';
}.

Lemma presented_same i m : same_but_port m (presented i m).
Proof using.
  assert (Hk : ∃ s, presented i m = set_kern s m ∧ k_desc s = k_desc (kern m) ∧ k_cpu s = k_cpu (kern m) ∧ k_mem s = k_mem (kern m))
    by (destruct i; by eexists).
  destruct Hk as (s & -> & Hd & Hcpu & Hm).
  assert (Hsz : saved_size (set_kern s m) = saved_size m).
  { unfold saved_size. rewrite !frame_length. reflexivity. }
  split; cbn [kern set_kern].
  - intros (idt0 & E & H). exists idt0. by rewrite Hd.
  - intros [H1 H2 H3 H4]. by split.
  - split; [|exact Hsz]. unfold kernel_stack. cbn [kern set_kern regs]. by rewrite Hcpu.
  - intros H. exact H.
  - exact Hm.
  - by rewrite Hcpu.
  - intros m' [C1 C2 C3 C4 C5]. cbn [kern set_kern regs segs eip status] in *. split; [exact C1|exact C2|exact C3|exact C4|by rewrite C5, Hcpu].
Qed.

Lemma raise_device i m :
  table_ready address (kern m) → let g := gate_of (kern m) (vector_of i) in
  gate_type g = TRAP_GATE ∧
  raise sys_call_retval depth scratch text address (vector_of i) m =
    enter_routine depth scratch text [Pushal; Pushfl; Call (device i); Popfl; Popal; Iret] (deliver g m).
Proof using Haddr Hdistinct.
  intros Ht. cbv zeta. destruct i as [code|]; cbn [vector_of device].
  - split; [exact (f_equal gate_type (vector_gate address Haddr (kern m) 0x21 keyboard_interrupt Ht ltac:(done) eq_refl))|].
    exact (interrupt_routine sys_call_retval depth scratch text address Haddr Hdistinct 0x21 m keyboard_interrupt keyboard_code Ht ltac:(done) eq_refl eq_refl).
  - split; [exact (f_equal gate_type (vector_gate address Haddr (kern m) 0x28 rtc_interrupt Ht ltac:(done) eq_refl))|].
    exact (interrupt_routine sys_call_retval depth scratch text address Haddr Hdistinct 0x28 m rtc_interrupt rtc_code Ht ltac:(done) eq_refl eq_refl).
Qed.

Lemma keys_transparent i m :
  keys_ok (kern m) → shown (kern m) → allowed i →
  table_ready address (kern m) → machine_ok m → stack_room m → rights m →
  Forall (λ o, (used m).1 + (used m).2 <= o.1 ∨ o.1 + o.2 <= (used m).1) key_objects →
  ∃ m', raise sys_call_retval depth scratch text address (vector_of i) (presented i m) = Resumed m' ∧
    continues m m' ∧ keys_ok (kern m') ∧ stays (used m :: key_objects) (kern m) (kern m').
Proof using HL Htext Haddr Hdistinct.
  intros Hk Hsh Hal Ht Hm Hr Hri Ho. destruct (presented_same i m) as [Q1 Q2 [Q3 Q4] Q5 Q6 Q7 Q8].
  pose proof (λ e b mem s' arg, device_handler i m e b mem s' arg) as Hdh.
  destruct (raise_device i (presented i m) (Q1 Ht)) as [Hg Hraise]. rewrite Hraise. clear Hraise.
  set (g := gate_of (kern (presented i m)) (vector_of i)) in *. clearbody g.
  generalize dependent (presented i m). intros mi Q1 Q2 Q3 Q4 Q5 Q6 Q7 Q8 Hdh.
  assert (Hri' : stack_room mi) by (unfold stack_room; by rewrite Q3).
  assert (Hu : used mi = used m) by (unfold used; by rewrite Q3, Q4).
  pose proof (handler_state depth text Htext g mi [Popfl; Popal; Iret] (Q2 Hm) Hri' Hg) as [I1 I2 I3 I4].
  pose proof (device_transparent (device i) g mi) as Hdev.
  set (s := call_state depth text [Popfl; Popal; Iret] (pushfl (pushal (deliver g mi)))) in *. clearbody s.
  set (e := kernel_stack mi - saved_size mi - 8 - depth) in *. set (b := kernel_stack mi - saved_size mi - 12) in *.
  fold (handler_cpu e b (k_mem s) (kern mi)) in I4.
  destruct (good_handle i (handler_cpu e b (k_mem s) (kern m)) (handler_keys _ _ _ _ Hk) Hsh Hal) as (s' & E & Hgood & Hto).
  assert (Hret : ∃ r, c_code scratch (device i) (arguments s) s = Ret r s').
  { exists (scratch EAX). pose proof (Hdh e b (k_mem s) s' (arguments s) E) as H. rewrite <- I4 in H. exact H. }
  destruct (handler_cpu_fields e b (k_mem s) (kern m)) as [Fm Fe].
  assert (E0 : esp s' = esp s) by (rewrite (proj1 (to_stack _ _ Hto)), Fe, I2; done).
  pose proof (changes_stays _ _ _ (to_changes _ _ Hto)) as Hst. rewrite Fm in Hst.
  destruct (Hdev s' key_objects (Q2 Hm) Hri' Hg (Q5 Hri) Hret E0 Hst ltac:(by rewrite Hu)) as (m' & E' & Hct & Hkn).
  exists m'. split; [exact E'|]. split; [by apply Q8|]. rewrite Hkn. split; [by apply iflag_keys|].
  rewrite set_iflag_mem. intros p Hp. rewrite Hst by (by apply List.Forall_inv_tail in Hp).
  rewrite (changes_stays _ _ _ I3); [by rewrite Q6|]. apply List.Forall_inv in Hp. constructor; [|done].
  unfold used in Hp. by rewrite Q3, Q4.
Qed.
End Transparent.


(** ** Interrupts without an assembly entry *)

Section Unhandled.
Context {L : Layout} {HL : LayoutOK L}.
Context (depth : Z) (scratch : reg → Z).

(** The gates of the other vectors lead to a C function: the frame the processor
    pushed starts where its return address would be, and its [ret] takes one word. *)
Definition enter_handler (h : handler) (m : machine) : result :=
  let s := upd_cpu (λ c, mkCpu (regs m ESP - depth) (regs m ESP - 4) (esp0 c) (iflag c)) (kern m) in
  match (_ ← exception h (regs m ECX); mret 0) s with
  | Ret _ s' => Returned (mkMachine (<[ESP := u32 (esp s' + depth + 4)]> scratch) (segs m) (ld32 s' (u32 (esp s' + depth))) (status m) s')
  | o => Left o
  end.
End Unhandled.

(** C33: the handler of the vectors without a device is a C function that
    returns: its [ret] goes back to the interrupted program, but in the segments
    of the kernel and on the kernel's stack, the rest of the frame still there. *)
Theorem undefined_interrupt_returns {L : Layout} {HL : LayoutOK L} (depth : Z) (scratch : reg → Z) (address : routine → Z) (v : Z) (m : machine) :
  (∀ r, word (address r)) → table_ready address (kern m) → 0 <= v < 256 → routine_of v = Some (c_handler undefined_interrupt) →
  machine_ok m → stack_room m → user_mode m = true → cursor_ok (kern m) →
  Forall (λ o, (used m).1 + (used m).2 <= o.1 ∨ o.1 + o.2 <= (used m).1) [(VIDEO, PAGE_BYTES); (loc_conv_buf, 64)] →
  ∃ m', enter_handler depth scratch undefined_interrupt (deliver (gate_of (kern m) v) m) = Returned m' ∧
    eip m' = eip m ∧ segs m' CS = KERNEL_CS ∧ segs m' SS = ss0 (kern m) ∧ regs m' ESP = esp0 (kern m) - 16.
Proof.
  intros Haddr Ht Hv Hrt Hm Hr Hu Hc Ho. pose proof (vector_gate address Haddr (kern m) v _ Ht Hv Hrt) as Hg.
  set (g := gate_of (kern m) v) in *. assert (Htrap : gate_type g = TRAP_GATE) by by rewrite Hg. assert (Hseg : segment g = KERNEL_CS) by by rewrite Hg.
  clearbody g. destruct (deliver_spec g m Hm Hr Htrap) as [D1 D2 D3 D4 D5 D6 D7 D8]. pose proof (saved_size_bounds m) as Hsz.
  pose proof (frame_length m) as Hlen. rewrite Hu in Hlen. unfold stack_room, kernel_stack in *. rewrite Hu in *. rewrite Hlen in *.
  generalize dependent (deliver g m). intros m0 D1 D2 D3 D4 D5 D6 D7 D8. unfold enter_handler.
  set (s := upd_cpu _ _). assert (Hcs : cursor_ok s) by (unfold s; rewrite D6; exact Hc).
  assert (Hs : k_mem s = k_mem (kern m0) ∧ esp s = regs m0 ESP - depth) by done. destruct Hs as [Hmem Hesp]. clearbody s.
  destruct (exception_correct undefined_interrupt (regs m0 ECX) s Hcs) as (s' & E & Hp & _). cbn iota in E. rewrite (bind_ret _ _ _ _ _ E).
  eexists. split; [reflexivity|]. cbn [eip segs regs]. rewrite (pr_cpu _ _ Hp : k_cpu s' = k_cpu s), Hesp.
  assert (Hw : words s' (regs m0 ESP) [eip m]).
  { apply (words_stay _ _ _ _ _ (changes_stays _ _ _ (pr_memory _ _ Hp))); [lia|cbn [length]; unfold PROGRAM_PAGE in *; lia| |].
    - eapply List.Forall_impl; [|exact Ho]. unfold used, kernel_stack. rewrite Hu. intros o. cbn [length fst snd]. unfold saved_size in *. rewrite Hlen in *. lia.
    - rewrite Hmem. destruct D8 as [D8 _]. split; [exact D8|done]. }
  destruct Hw as [Hw _]. replace (regs m0 ESP - depth + depth) with (regs m0 ESP) by lia. unfold PROGRAM_PAGE in *.
  rewrite u32_small by lia. split; [exact Hw|]. split; [by rewrite D4|]. split; [by rewrite D3|].
  rewrite fn_lookup_insert, u32_small; lia.
Qed.

(** ** A machine with three programs, for the witnesses *)

(** The routines 16 bytes apart. *)
Definition handler_index (h : handler) : Z :=
  match h with
  | divide_error => 0 | debug_exception => 1 | nmi_interrupt => 2 | breakpoint_interrupt => 3 | overflow_exception => 4
  | bound_range_exceeded => 5 | invalid_opcode => 6 | device_not_available => 7 | double_fault => 8
  | coprocessor_segment_overrun => 9 | invalid_tss => 10 | segment_not_present => 11 | stack_segment_fault => 12
  | general_protection => 13 | page_fault => 14 | reserved => 15 | floating_point_error => 16 | alignment_check => 17
  | machine_check => 18 | simd_floating_point_exception => 19 | undefined_interrupt => 20
  end.
Definition example_address (r : routine) : Z :=
  0x401000 + 16 * match r with
                  | c_handler h => handler_index h
                  | PIT_interrupt => 32 | keyboard_interrupt => 33 | rtc_interrupt => 34 | sys_call_interrupt => 35
                  end.
Definition example_text (_ : list (instr c_function)) : Z := 0x400200.
Definition example_depth : Z := 0x40.

Lemma example_address_word r : word (example_address r).
Proof. unfold word, example_address. destruct r as [| | | |[]]; cbn; lia. Qed.

Lemma example_address_distinct r r' : example_address r = example_address r' → r = r'.
Proof.
  assert (Hd : ∃ f, ∀ q, f (example_address q) = q); [|destruct Hd as [f Hf]; intros E; by rewrite <- (Hf r), <- (Hf r'), E].
  exists (λ a, match (a - 0x401000) / 16 return routine with
    | 32 => PIT_interrupt | 33 => keyboard_interrupt | 34 => rtc_interrupt | 35 => sys_call_interrupt
    | 0 => divide_error | 1 => debug_exception | 2 => nmi_interrupt | 3 => breakpoint_interrupt | 4 => overflow_exception
    | 5 => bound_range_exceeded | 6 => invalid_opcode | 7 => device_not_available | 8 => double_fault
    | 9 => coprocessor_segment_overrun | 10 => invalid_tss | 11 => segment_not_present | 12 => stack_segment_fault
    | 13 => general_protection | 14 => page_fault | 15 => reserved | 16 => floating_point_error | 17 => alignment_check
    | 18 => machine_check | 19 => simd_floating_point_exception | _ => undefined_interrupt
    end).
  by intros [| | | |[]].
Qed.

(** A program: its registers are [k], [k] + 1 and so on. *)
Definition example_regs (k : Z) (r : reg) : Z :=
  match r with EAX => k | ECX => k + 1 | EDX => k + 2 | EBX => k + 3 | ESP => 0x83FFF00 + k | EBP => k + 5 | ESI => k + 6 | EDI => k + 7 end.
Definition example_program (k : Z) (s : kernel) : machine :=
  mkMachine (example_regs k) (λ r, match r with CS => 0x23 | _ => 0x2B end) (0x8048000 + k) 2 s.

(** Its context on a stack. *)
Definition context_words (m : machine) : list Z :=
  [regs m EDI; regs m ESI; regs m EBP; 0; regs m EBX; regs m EDX; regs m ECX; regs m EAX] ++ interrupt_frame m.
Fixpoint store_words (mem : memory) (a : Z) (l : list Z) : memory :=
  match l with [] => mem | v :: l' => store_words (st32 mem a v) (a + 4) l' end.

(** Terminal [n] has the processor; programs 64 and 128 wait in terminals 0 and 1. *)
Definition example_scheduled (n : Z) : kernel :=
  upd_cpu (λ _, mkCpu 0 0 0x7FDFFC true)
    (upd_sched (λ _, mkSched 4 n 1)
      (upd_desc (λ d, mkDescriptors (initialize_idt example_address (idt d)) (ldt_desc_ptr d) (tss_desc_ptr d) (ldtr d) (task_register d) (ldt_segment_selector d) 0x18)
        (upd_terminal 0 (set_current_esp (0x7F9F00 - 0x48)) (upd_terminal 1 (set_current_esp (0x7FBF00 - 0x48))
          (upd_mem (λ mem, store_words (store_words mem 0x7F9F00 (context_words (example_program 64 prompt_state))) 0x7FBF00
                     (context_words (example_program 128 prompt_state))) prompt_state))))).

Lemma example_program_ok k s : 0 <= k < 256 → machine_ok (example_program k s).
Proof.
  intros Hk. split; [intros []; unfold word; cbn; lia|intros []; unfold word; cbn; lia|unfold word; cbn; lia|].
  split; [unfold word; cbn; lia|reflexivity].
Qed.

Lemma example_table n : table_ready example_address (kern (example_program 0 (example_scheduled n))).
Proof. exists ∅. split; [reflexivity|]. intros v. split; vm_compute; (split; congruence). Qed.

Lemma example_rights k s : rights (example_program k s).
Proof. intros _ r _. by destruct r; vm_compute. Qed.

(** Programs 64 and 128 wait; program 0 has terminal 2 and may be interrupted. *)
Definition example_running (n : Z) : machine := example_program 0 (example_scheduled n).
Definition example_waiting (k : Z) : machine := example_program k prompt_state.

Lemma example_saved n j k : (j, k) = (0, 64) ∨ (j, k) = (1, 128) →
  let c := example_waiting k in
  waiting example_depth (example_scheduled n) j c ∧ off_stack example_depth (example_running n) (example_scheduled n) j c ∧
  resumable c (deliver (gate_of (example_scheduled n) 0x20) (example_running n)).
Proof.
  intros Hjk c. split; [|split].
  - destruct Hjk as [[= -> ->]|[= -> ->]]; (split; [by apply example_program_ok| |vm_compute; congruence|vm_compute; congruence]);
      (split; [vm_compute; split_and!; reflexivity|vm_compute; split_and!; reflexivity|by intros H]).
  - destruct Hjk as [[= -> ->]|[= -> ->]]; left; vm_compute; congruence.
  - destruct Hjk as [[= -> ->]|[= -> ->]]; (split; [|by intros H|apply example_rights]);
      (intros r Hr; unfold data_segments in Hr; rewrite !elem_of_cons, elem_of_nil in Hr;
       destruct Hr as [->|[->|[->|[->|[]]]]]; reflexivity).
Qed.

Lemma three_interrupts_witness :
  tickable example_depth example_address (example_running 2) 2 [(0, example_waiting 64); (1, example_waiting 128)] ∧
  ∃ m1, raise (L := example_layout) 0x440000 example_depth (λ _, 0) example_text example_address 0x20 (example_running 2) = Resumed m1 ∧
    continues (example_waiting 64) m1 ∧ waiting example_depth (kern m1) 2 (example_running 2).
Proof.
  assert (Ht : tickable example_depth example_address (example_running 2) 2 [(0, example_waiting 64); (1, example_waiting 128)]).
  { split.
    - apply example_table.
    - by apply example_program_ok.
    - split; vm_compute; congruence.
    - split; [|reflexivity]. split; [vm_compute; congruence|reflexivity|split; vm_compute; congruence].
    - constructor; [apply example_saved; by left|]. constructor; [apply example_saved; by right|done]. }
  split; [exact Ht|].
  destruct (three_interrupts (L := example_layout) 0x440000 example_depth (λ _, 0) example_text example_address (example_running 2)
    (example_waiting 64) (example_waiting 128) 2) as (m1 & E & Hc & _ & Hw & _).
  - intros rest. unfold word, example_text. lia.
  - apply example_address_word.
  - apply example_address_distinct.
  - lia.
  - exact Ht.
  - exists m1. split; [exact E|]. split; [exact Hc|exact Hw].
Defined.


Lemma undefined_interrupt_returns_witness :
  routine_of 0x27 = Some (c_handler undefined_interrupt) ∧
  ∃ m', enter_handler (L := example_layout) example_depth (λ _, 0) undefined_interrupt (deliver (gate_of (example_scheduled 0) 0x27) (example_running 0)) = Returned m' ∧
    segs (example_running 0) CS = 0x23 ∧ segs m' CS = KERNEL_CS.
Proof.
  split; [reflexivity|].
  destruct (undefined_interrupt_returns (L := example_layout) example_depth (λ _, 0) example_address 0x27 (example_running 0)) as (m' & E & _ & Hcs & _).
  - apply example_address_word.
  - apply example_table.
  - lia.
  - reflexivity.
  - by apply example_program_ok.
  - split; vm_compute; congruence.
  - reflexivity.
  - by vm_compute.
  - assert (Hu : used (example_running 0) = (0x7FDFFC - 60, 60)) by (vm_compute; reflexivity). rewrite Hu.
    apply list.Forall_cons_2; [vm_compute; right; congruence|]. apply list.Forall_cons_2; [vm_compute; right; congruence|apply list.Forall_nil_2].
  - exists m'. split; [exact E|]. split; [reflexivity|exact Hcs].
Defined.
