(* ===== verification/SysEntry.v ===== *)
(** * The system call entry: sys_call_interrupt (handlers.S)

    [int $0x80] with a number in [EAX]: the entry refuses numbers out of range,
    calls the function of the table with [EBX], [ECX] and [EDX] as its arguments
    and gives the program its result in [EAX], every other register as it was.
    [halt] comes back through [ret_from_execute] to the program that called
    [execute]. *)

From stdpp Require Import functions.
From S2P Require Import Prelude Memory LibMem LibStr Video State Console Idt Pic Rtc Process FileSystem Terminal Keyboard Paging SysCalls Schedule UserRun KeySafe Machine Entries.

Implicit Types s : kernel.

(** The program of [m] goes on with [r] in [EAX]. *)
Record answered (m : machine) (r : Z) (m' : machine) : Prop := {
  an_result : regs m' EAX = r;
  an_regs : ∀ q, q ≠ EAX → regs m' q = regs m q;
  an_segs : ∀ q, segs m' q = segs m q;
  an_eip : eip m' = eip m;
  an_status : status m' = status m;
  an_iflag : iflag (kern m') = iflag (kern m);
}.

Section SysEntry.
Context {L : Layout}.
Context (sys_call_retval depth : Z) (scratch : reg → Z) (text : list (instr c_function) → Z) (Htext : ∀ rest, word (text rest)).
Context (address : routine → Z) (Haddr : ∀ r, word (address r)) (Hdistinct : ∀ r r', address r = address r' → r = r').
#[local] Abbreviation run := (run (c_code scratch) depth scratch text).

(** The entry after its call. *)
Definition sys_call_tail : list (instr c_function) :=
  [Cli; StoreAbs EAX sys_call_retval; AddI 12 ESP; Popfl; Popal; LoadAbs sys_call_retval EAX; Sti; Iret;
   Label "out_of_bounds"; MovI (-1) EAX; Iret].

(** The word the result waits in is not on the stack. *)
Definition retval_apart (a n : Z) : Prop :=
  4 <= sys_call_retval ∧ sys_call_retval + 4 <= PROGRAM_PAGE ∧ (sys_call_retval + 4 <= a ∨ a + n <= sys_call_retval).

(** The pushed flags are loaded before the result: what is in the word then is
    what the program gets. *)
Lemma load_result n routine m m1 v :
  machine_ok m → saved (kern m1) (regs m1 ESP) m → 0 <= regs m1 ESP → regs m1 ESP + saved_size m <= PROGRAM_PAGE → resumable m m1 →
  ld32 (kern m1) sys_call_retval = v →
  ∃ m', run (4 + n)%nat routine [Popal; LoadAbs sys_call_retval EAX; Sti; Iret; Label "out_of_bounds"; MovI (-1) EAX; Iret] m1 = Resumed m' ∧
    answered m v m' ∧ kern m' = set_iflag (iflag (kern m)) (kern m1).
Proof using.
  intros Hm Hv H0 H1 Hres Hld. destruct (popal_saved m m1 Hv H0 H1) as (P1 & P2 & P3 & P4 & P5). pose proof (sv_stack _ _ _ Hv) as V3.
  unfold saved_size in H1. cbn [Nat.add]. do 3 erewrite run_go by reflexivity. rewrite (run_stop _ _ _ _ _ _ Iret _ _ _ eq_refl).
  generalize dependent (popal m1). intros m2 P1 P2 P3 P4 P5.
  set (m3 := set_kern (sti (kern m2)) (set_reg EAX (ld32 (kern m2) sys_call_retval) m2)).
  change (set_kern (sti (kern (set_reg EAX (ld32 (kern m2) sys_call_retval) m2))) (set_reg EAX (ld32 (kern m2) sys_call_retval) m2)) with m3.
  assert (E3 : regs m3 ESP = regs m2 ESP) by (by apply fn_lookup_insert_ne).
  assert (A3 : regs m3 EAX = v) by (rewrite <- Hld, <- P4; by apply fn_lookup_insert).
  assert (R3 : ∀ r, r ≠ EAX → regs m3 r = regs m2 r) by (intros r Hn; by apply fn_lookup_insert_ne).
  assert (S3 : segs m3 = segs m2 ∧ k_mem (kern m3) = k_mem (kern m2) ∧ kern m3 = sti (kern m2)) by done. destruct S3 as (S3 & M3 & K3).
  clearbody m3. destruct (iret_spec m m3 Hm) as [T1 T2 T3 T4 T5 T6].
  - by rewrite M3, E3.
  - lia.
  - lia.
  - intros Hu. rewrite V3 by done. lia.
  - destruct Hres as [R1 R2 R4]. split; rewrite ?S3, ?P3; done.
  - exists (iret m3). split; [done|]. split; [|rewrite T6, K3, <- P4; by destruct (iflag (kern m))].
    split; [by rewrite T1| |exact T3|exact T4|exact T5|rewrite T6; by destruct (iflag (kern m))].
    intros q Hn. destruct (decide (q = ESP)) as [->|He]; [exact T2|]. by rewrite T1, R3, P1.
Qed.

Lemma sys_call_tail_run n routine m m1 :
  machine_ok m → let a := regs m1 ESP + 16 in
  saved (kern m1) a m → 0 <= regs m1 ESP → a + saved_size m <= PROGRAM_PAGE → retval_apart a (saved_size m) → resumable m m1 →
  ∃ m', run (8 + n)%nat routine sys_call_tail m1 = Resumed m' ∧ answered m (u32 (regs m1 EAX)) m' ∧
    kern m' = set_iflag (iflag (kern m)) (upd_mem (λ mem, st32 mem sys_call_retval (regs m1 EAX)) (kern m1)).
Proof using.
  intros Hm a Hv H0 H1 (A1 & A2 & A3) Hres. unfold sys_call_tail. cbn [Nat.add]. do 4 erewrite run_go by reflexivity.
  set (m2 := popfl _).
  assert (Hs : seg sys_call_retval 4) by (unfold seg; lia). pose proof (saved_size_bounds m) as Hsz.
  assert (E2 : regs m2 ESP = a).
  { unfold m2. set (m3 := set_status _ _). assert (E3 : regs m3 ESP = regs m1 ESP + 12).
    { unfold m3. cbn [regs set_status set_reg set_kern]. rewrite fn_lookup_insert. apply u32_small. unfold a, PROGRAM_PAGE in *. lia. }
    unfold popfl. rewrite drop_words_esp; change (regs (set_flags (Machine.top m3) m3)) with (regs m3); rewrite E3; unfold a, PROGRAM_PAGE in *; lia. }
  assert (S2 : segs m2 = segs m1) by done.
  assert (M2 : k_mem (kern m2) = st32 (kern m1) sys_call_retval (regs m1 EAX)) by (unfold m2, popfl; apply set_iflag_mem).
  assert (K2 : ∀ b, set_iflag b (kern m2) = set_iflag b (upd_mem (λ mem, st32 mem sys_call_retval (regs m1 EAX)) (kern m1))).
  { intros b. unfold m2, popfl. cbn [kern drop_words set_flags set_reg set_kern set_status]. rewrite set_iflag_last. by destruct b. }
  clearbody m2. destruct (load_result n routine m m2 (u32 (regs m1 EAX)) Hm) as (m' & E & Han & Hk).
  - rewrite M2, E2. apply (saved_stays [(sys_call_retval, 4)] (kern m1)); [|lia|lia|constructor; [cbn [fst snd]; lia|done]|exact Hv].
    apply changes_stays. eapply changes_writes; [by apply writes_st32| |by left]. apply phys_kernel. lia.
  - lia.
  - lia.
  - destruct Hres as [R1 R2 R3]. split; rewrite ?S2; done.
  - rewrite M2. by apply ld32_st32_same.
  - exists m'. split; [exact E|]. split; [exact Han|]. by rewrite Hk, K2.
Qed.

(** ** Up to the call *)

(** The machine when the function is called, and the state that starts in. *)
Definition before_call (m0 : machine) : machine :=
  let w := sub_flags (sub_flags (status m0) (regs m0 EAX) 8) (regs m0 EAX) 1 in
  let m1 := pushfl (pushal (set_status w m0)) in
  let m2 := push (regs m1 EDX) m1 in
  let m3 := push (regs m2 ECX) m2 in
  let m4 := push (regs m3 EBX) m3 in
  set_status (dec_flags (status (set_reg EAX (u32 (regs m4 EAX - 1)) m4)) (regs m4 EAX)) (set_reg EAX (u32 (regs m4 EAX - 1)) m4).
Definition sys_call_state (m0 : machine) : kernel := call_state depth text sys_call_tail (before_call m0).

(** It has the context of the program on the stack and below it the arguments. *)
Record in_call (m : machine) (s : kernel) : Prop := {
  ic_saved : saved s (kernel_stack m - saved_size m) m;
  ic_args : arguments s 0 = regs m EBX ∧ arguments s 1 = regs m ECX ∧ arguments s 2 = regs m EDX;
  ic_stack : esp s = kernel_stack m - saved_size m - 20 - depth ∧ ebp s = kernel_stack m - saved_size m - 24;
  ic_return : ld32 s (ebp s + 4) = text sys_call_tail;
  ic_changes : changes [(kernel_stack m - saved_size m - 20, saved_size m + 20)] (kern m) s;
  ic_kern : s = upd_cpu (λ c, mkCpu (kernel_stack m - saved_size m - 20 - depth) (kernel_stack m - saved_size m - 24) (esp0 c) (iflag c))
                  (upd_mem (λ _, k_mem s) (kern m));
}.

Lemma before_call_spec g m :
  machine_ok m → stack_room m → gate_type g = TRAP_GATE →
  let m1 := before_call (deliver g m) in
  in_call m (sys_call_state (deliver g m)) ∧ regs m1 EAX = u32 (regs m EAX - 1) ∧ segs m1 = segs (deliver g m).
Proof using Htext.
  intros Hm Hr Ht. unfold sys_call_state, before_call. cbv zeta. set (m0 := deliver g m).
  set (w := sub_flags _ _ _). rewrite pushal_status. pose proof (enter_spec g m Hm Hr Ht) as [E1 E2 E3 E4 E5 E6 E7]. fold m0 in E1, E2, E3, E4, E5, E6, E7.
  assert (Es : segs (pushal m0) = segs m0) by done. generalize dependent (pushal m0). intros m2 E1 E2 E3 E4 E5 E6 E7 Es.
  pose proof (saved_size_bounds m) as Hsz. unfold stack_room in Hr. unfold PROGRAM_PAGE in Hr.
  set (m3 := set_status w m2). assert (A3 : ∀ r, regs m3 r = regs m2 r) by done. assert (K3 : kern m3 = kern m2 ∧ segs m3 = segs m2) by done.
  destruct K3 as [K3 S3]. clearbody m3. set (fl := Z.land (flags m3) 0xFCFFFF).
  assert (Hfl : word fl).
  { apply bits_word; [apply Z.land_nonneg; by right|]. intros i Hi. unfold fl. rewrite Z.land_spec, (word_bits 0xFCFFFF); [by rewrite andb_false_r|done|done]. }
  assert (Q : ∀ r v mm, r ≠ ESP → regs (push v mm) r = regs mm r) by (intros r v mm Hn; by apply fn_lookup_insert_ne).
  change (pushfl m3) with (push fl m3). rewrite !(Q EDX), !(Q ECX), !(Q EBX), !A3, !E2 by done.
  destruct (push_all_pushed [fl; regs m EDX; regs m ECX; regs m EBX] m3) as [P1 P2 P3 _ _ P6 P7 P8];
    [rewrite A3; unfold PROGRAM_PAGE; cbn; lia|repeat (apply list.Forall_cons_2; [first [exact Hfl|apply Hm]|]); done|].
  change (push (regs m EBX) (push (regs m ECX) (push (regs m EDX) (push fl m3)))) with (push_all [fl; regs m EDX; regs m ECX; regs m EBX] m3).
  generalize dependent (push_all [fl; regs m EDX; regs m ECX; regs m EBX] m3). intros m4 P1 P2 P3 P6 P7 P8.
  cbn [length] in P2, P7. rewrite (P1 EAX), A3, E2 by done.
  set (m5 := set_status _ _). assert (R5 : regs m5 ESP = regs m4 ESP ∧ regs m5 EAX = u32 (regs m EAX - 1) ∧ segs m5 = segs m4 ∧ kern m5 = kern m4).
  { split_and!; [by apply fn_lookup_insert_ne|by apply fn_lookup_insert|done..]. }
  destruct R5 as (R5 & A5 & S5 & K5). clearbody m5. split; [|split; [exact A5|by rewrite S5, P3, S3, Es]].
  assert (E5' : regs m5 ESP = kernel_stack m - saved_size m - 16) by (rewrite R5, P2, A3, E1; lia).
  destruct (call_state_spec depth text Htext sys_call_tail m5) as (C1 & C2 & C3 & C4 & C5); [rewrite E5'; unfold PROGRAM_PAGE; lia|].
  set (s := call_state depth text sys_call_tail m5) in *. clearbody s. rewrite E5' in C1, C2, C3, C4, C5.
  assert (Hch : changes [(kernel_stack m - saved_size m - 20, 20)] (kern m2) s).
  { destruct P7 as [U7 P7], C3 as [U3 C3]. rewrite K5 in U3, C3. rewrite K3 in U7, P7. split; [congruence|]. intros p Hp.
    apply List.Forall_inv in Hp. cbn [fst snd] in Hp. rewrite C3, P7; [done|..]; (constructor; [cbn [fst snd]; lia|done]). }
  assert (Hargs : words s (kernel_stack m - saved_size m - 16) [regs m EBX; regs m ECX; regs m EDX]).
  { rewrite <- K5 in P8. replace (regs m4 ESP) with (kernel_stack m - saved_size m - 16) in P8 by lia. destruct P8 as (W1 & W2 & W3 & _).
    apply (words_stay _ _ _ _ _ (changes_stays _ _ _ C3)); [lia|cbn [length]; unfold PROGRAM_PAGE; lia|constructor; [cbn [fst snd length]; lia|done]|].
    each_word. }
  destruct Hargs as (G1 & G2 & G3 & _). split.
  - apply (saved_stays _ _ _ _ _ (changes_stays _ _ _ Hch)); [lia|unfold PROGRAM_PAGE; lia|constructor; [cbn [fst snd]; lia|done]|by rewrite <- E1].
  - unfold arguments. rewrite C2. split_and!; known_word.
  - rewrite C1, C2. split; lia.
  - rewrite C2. by replace (kernel_stack m - saved_size m - 16 - 8 + 4) with (kernel_stack m - saved_size m - 16 - 4) by lia.
  - destruct Hch as [U1 H1], E7 as [U2 H2]. split; [congruence|]. intros p Hp. apply List.Forall_inv in Hp. cbn [fst snd] in Hp.
    rewrite H1, H2; [done|..]; (constructor; [cbn [fst snd]; lia|done]).
  - rewrite C5 at 1. replace (kernel_stack m - saved_size m - 16 - 4 - depth) with (kernel_stack m - saved_size m - 20 - depth) by lia.
    replace (kernel_stack m - saved_size m - 16 - 8) with (kernel_stack m - saved_size m - 24) by lia. by rewrite K5, P6, K3, E6.
Qed.

(** ** The whole entry *)

Definition in_range (m : machine) : bool := negb ((8 <? s32 (regs m EAX)) || (s32 (regs m EAX) <? 1)).

Lemma set_status_last v w m : set_status v (set_status w m) = set_status v m.
Proof using. reflexivity. Qed.

Lemma entry_head m0 :
  in_range m0 = true →
  enter_routine depth scratch text (sys_call_code sys_call_retval) m0 =
  run 54 (sys_call_code sys_call_retval) (CallTable system_call_jmp EAX :: sys_call_tail) (before_call m0).
Proof using.
  unfold in_range. rewrite negb_true_iff, orb_false_iff. intros [H8 H1]. unfold enter_routine, execute_routine, sys_call_code at 2.
  erewrite run_go by reflexivity.
  erewrite run_go by (cbn [step status set_status regs]; rewrite (proj2 (compare_spec _ _ _)); change (s32 8) with 8; rewrite H8; reflexivity).
  erewrite run_go by reflexivity.
  erewrite run_go by (cbn [step status set_status regs]; rewrite (proj1 (compare_spec _ _ _)); change (s32 1) with 1; rewrite H1; reflexivity).
  rewrite set_status_last. do 6 erewrite run_go by reflexivity. unfold before_call. cbv zeta. reflexivity.
Qed.

(** A number out of range: -1, and nothing is called. *)
Lemma entry_refused g m :
  machine_ok m → stack_room m → gate_type g = TRAP_GATE → rights m → in_range m = false →
  ∃ m', enter_routine depth scratch text (sys_call_code sys_call_retval) (deliver g m) = Resumed m' ∧
    answered m (u32 (-1)) m' ∧ kern m' = set_iflag (iflag (kern m)) (kern (deliver g m)).
Proof using.
  intros Hm Hr Ht Hri Hin. pose proof (resumable_self g m Hm Hr Ht Hri) as Hres.
  destruct (deliver_spec g m Hm Hr Ht) as [D1 D2 D3 _ _ D6 _ D8].
  assert (Hlen : 3 <= Z.of_nat (length (interrupt_frame m)) <= 5) by (rewrite frame_length; destruct (user_mode m); lia).
  unfold stack_room in Hr. generalize dependent (deliver g m). intros m0 Hres D1 D2 D3 D6 D8.
  assert (Hrun : ∃ w, enter_routine depth scratch text (sys_call_code sys_call_retval) m0 = Resumed (iret (set_reg EAX (u32 (-1)) (set_status w m0)))).
  { unfold in_range in Hin. rewrite negb_false_iff, orb_true_iff, <- (D1 EAX) in Hin by done.
    unfold enter_routine, execute_routine, sys_call_code at 2. erewrite run_go by reflexivity.
    destruct (8 <? s32 (regs m0 EAX)) eqn:H8.
    - exists (sub_flags (status m0) (regs m0 EAX) 8). erewrite run_to; [|cbn [step status set_status regs]; rewrite (proj2 (compare_spec _ _ _)); change (s32 8) with 8; rewrite H8; reflexivity|reflexivity].
      erewrite run_go by reflexivity. by apply run_stop.
    - destruct Hin as [Hin|H1]; [done|]. exists (sub_flags (sub_flags (status m0) (regs m0 EAX) 8) (regs m0 EAX) 1).
      erewrite run_go by (cbn [step status set_status regs]; rewrite (proj2 (compare_spec _ _ _)); change (s32 8) with 8; rewrite H8; reflexivity).
      erewrite run_go by reflexivity.
      erewrite run_to; [|cbn [step status set_status regs]; rewrite (proj1 (compare_spec _ _ _)); change (s32 1) with 1; rewrite H1; reflexivity|reflexivity].
      rewrite set_status_last. erewrite run_go by reflexivity. by apply run_stop. }
  destruct Hrun as [w ->]. set (m1 := set_reg EAX (u32 (-1)) (set_status w m0)).
  assert (E1 : regs m1 ESP = regs m0 ESP) by (by apply fn_lookup_insert_ne).
  assert (A1 : regs m1 EAX = u32 (-1)) by apply fn_lookup_insert.
  assert (R1 : ∀ q, q ≠ EAX → regs m1 q = regs m0 q) by (intros q Hq; by apply fn_lookup_insert_ne).
  assert (S1 : segs m1 = segs m0 ∧ kern m1 = kern m0) by done. destruct S1 as [S1 K1]. clearbody m1.
  destruct (iret_spec m m1 Hm) as [T1 T2 T3 T4 T5 T6].
  - by rewrite K1, E1.
  - lia.
  - lia.
  - intros Hu. rewrite E1, D2, frame_length, Hu. unfold kernel_stack. rewrite Hu. lia.
  - destruct Hres as [Q1 Q2 Q3]. split; rewrite ?S1; done.
  - exists (iret m1). split; [done|]. split; [|by rewrite T6, K1].
    split; [by rewrite T1| |exact T3|exact T4|exact T5|rewrite T6; by destruct (iflag (kern m))].
    intros q Hn. destruct (decide (q = ESP)) as [->|He]; [exact T2|]. by rewrite T1, R1, D1.
Qed.

(** The functions of the table are those of the calls by number. *)
Lemma table_call n ebx ecx edx s f r s' :
  1 <= s32 n <= 8 → system_call_jmp !! Z.to_nat (s32 n - 1) = Some f →
  arguments s 0 = ebx → arguments s 1 = ecx → arguments s 2 = edx →
  system_call n ebx ecx edx s = Ret r s' →
  ∃ s1, c_code scratch f (arguments s) s = Ret r s1 ∧ s' = sti (cli s1).
Proof using.
  intros Hn Hf <- <- <- E. unfold system_call in E. destruct (Z.ltb_spec 8 (s32 n)), (Z.ltb_spec (s32 n) 1); [lia..|]. cbn [orb] in E.
  assert (Hc : ∀ (c : M Z), (r0 ← c; _ ← modify cli; _ ← modify sti; mret r0) s = Ret r s' → ∃ s1, c s = Ret r s1 ∧ s' = sti (cli s1)).
  { intros c Hc. unfold mbind at 1, M_bind at 1 in Hc. destruct (c s) as [r0 s1| | | | |]; try done. exists s1.
    unfold mbind, M_bind, modify, mret, M_ret in Hc. injection Hc as <- <-. by split. }
  assert (Hcases : s32 n = 1 ∨ s32 n = 2 ∨ s32 n = 3 ∨ s32 n = 4 ∨ s32 n = 5 ∨ s32 n = 6 ∨ s32 n = 7 ∨ s32 n = 8) by lia.
  destruct Hcases as [Ek|[Ek|[Ek|[Ek|[Ek|[Ek|[Ek|Ek]]]]]]]; rewrite Ek in E, Hf; injection Hf as <-; apply Hc in E; exact E.
Qed.

Lemma table_total n : 1 <= n <= 8 → ∃ f, system_call_jmp !! Z.to_nat (n - 1) = Some f.
Proof using. intros Hn. apply lookup_lt_is_Some. change (length system_call_jmp) with 8%nat. lia. Qed.

Lemma s32_word x : word x → 0 <= s32 x → s32 x = x.
Proof using. unfold word, s32. intros H. rewrite u32_small by lia. case_match; lia. Qed.

(** The call of the table answers the program. *)
Lemma entry_returns g m r s' os :
  machine_ok m → stack_room m → gate_type g = TRAP_GATE → rights m → in_range m = true →
  retval_apart (used m).1 (used m).2 →
  let s := sys_call_state (deliver g m) in
  system_call (regs m EAX) (regs m EBX) (regs m ECX) (regs m EDX) s = Ret r s' →
  esp s' = esp s → stays os s s' →
  Forall (λ o, (used m).1 + (used m).2 <= o.1 ∨ o.1 + o.2 <= (used m).1) os →
  ∃ m', enter_routine depth scratch text (sys_call_code sys_call_retval) (deliver g m) = Resumed m' ∧
    answered m (u32 r) m' ∧ kern m' = set_iflag (iflag (kern m)) (upd_mem (λ mem, st32 mem sys_call_retval r) s').
Proof using Htext.
  intros Hm Hr Ht Hri Hin Hap s E He Hst Ho. pose proof (resumable_self g m Hm Hr Ht Hri) as Hres.
  destruct (before_call_spec g m Hm Hr Ht) as (Hcall & Heax & Hsegs). destruct Hcall as [C1 (C2a & C2b & C2c) [C3 _] _ _ _].
  assert (Hin0 : in_range (deliver g m) = true).
  { unfold in_range in *. by rewrite (dl_regs _ _ _ (deliver_spec g m Hm Hr Ht) EAX). }
  rewrite (entry_head _ Hin0). assert (Hn : 1 <= s32 (regs m EAX) <= 8).
  { unfold in_range in Hin. rewrite negb_true_iff, orb_false_iff, !Z.ltb_ge in Hin. lia. }
  pose proof (s32_word _ (mo_regs _ Hm EAX) ltac:(lia)) as Hw. destruct (table_total _ Hn) as [f Hf].
  fold s in C1, C2a, C2b, C2c, C3. destruct (table_call _ _ _ _ s f r s' Hn Hf C2a C2b C2c E) as (s1 & E1 & ->).
  change s with (call_state depth text sys_call_tail (before_call (deliver g m))) in E1.
  assert (Hstep : step (c_code scratch) depth scratch text (CallTable system_call_jmp EAX) sys_call_tail (before_call (deliver g m)) =
    Go (called depth scratch r s1 (before_call (deliver g m)))).
  { cbn [step]. rewrite Heax, u32_small by lia. rewrite <- Hw, Hf. apply call_resumes, E1. }
  rewrite (run_go _ _ _ _ _ _ _ _ _ _ Hstep). clear Hstep E1 E Hin0 Heax.
  assert (Hst1 : stays os s s1) by exact Hst. assert (He1 : esp s1 = esp s) by exact He. clear Hst He.
  assert (S2 : segs (called depth scratch r s1 (before_call (deliver g m))) = segs (deliver g m)) by exact Hsegs.
  assert (K2 : kern (called depth scratch r s1 (before_call (deliver g m))) = s1) by reflexivity.
  assert (A2 : regs (called depth scratch r s1 (before_call (deliver g m))) EAX = u32 r) by apply fn_lookup_insert.
  pose proof (saved_size_bounds m) as Hsz. unfold stack_room in Hr.
  assert (P2 : regs (called depth scratch r s1 (before_call (deliver g m))) ESP = kernel_stack m - saved_size m - 16).
  { unfold called. cbn [regs]. rewrite fn_lookup_insert_ne, fn_lookup_insert by done. rewrite He1, C3. unfold PROGRAM_PAGE in *. rewrite u32_small; lia. }
  clearbody s. generalize dependent (called depth scratch r s1 (before_call (deliver g m))). intros m2 S2 K2 A2 P2. clear Hsegs.
  change 53%nat with (8 + 45)%nat.
  destruct (sys_call_tail_run 45 (sys_call_code sys_call_retval) m m2 Hm) as (m' & E' & Han & Hk).
  - rewrite P2, K2. replace (kernel_stack m - saved_size m - 16 + 16) with (kernel_stack m - saved_size m) by lia.
    apply (saved_stays os s); [exact Hst1|lia|lia| |exact C1]. eapply List.Forall_impl; [|exact Ho].
    intros o. unfold used. cbn [fst snd]. lia.
  - lia.
  - lia.
  - rewrite P2. destruct Hap as (B1 & B2 & B3). unfold used in B3. cbn [fst snd] in B3. unfold retval_apart. lia.
  - destruct Hres as [R1 R2 R3]. split; rewrite ?S2; done.
  - exists m'. split; [exact E'|]. rewrite A2, u32_idemp in Han. split; [exact Han|]. rewrite Hk, K2, A2.
    unfold upd_mem. rewrite st32_u32. by destruct (iflag (kern m)).
Qed.
End SysEntry.

(** C7: the entry of system calls implements [system_call]: a number out of
    range gives -1 and changes nothing else of the program; any other runs the
    call of the table, which finds the three registers as its arguments and the
    program's context saved on its stack, and its result arrives in [EAX] with
    every other register, the flags and the segments as they were. *)
Theorem system_call_answered {L : Layout} (sys_call_retval depth : Z) (scratch : reg → Z) (text : list (instr c_function) → Z)
    (address : routine → Z) (m : machine) :
  (∀ rest, word (text rest)) → (∀ r, word (address r)) → (∀ r r', address r = address r' → r = r') →
  table_ready address (kern m) → machine_ok m → stack_room m → rights m →
  retval_apart sys_call_retval (used m).1 (used m).2 →
  let trap := raise sys_call_retval depth scratch text address 0x80 m in
  let s := sys_call_state sys_call_retval depth text (deliver (gate_of (kern m) 0x80) m) in
  if in_range m then
    in_call sys_call_retval depth text m s ∧
    ∀ r s' os, system_call (regs m EAX) (regs m EBX) (regs m ECX) (regs m EDX) s = Ret r s' →
      esp s' = esp s → stays os s s' → Forall (λ o, (used m).1 + (used m).2 <= o.1 ∨ o.1 + o.2 <= (used m).1) os →
      ∃ m', trap = Resumed m' ∧ answered m (u32 r) m' ∧
        kern m' = set_iflag (iflag (kern m)) (upd_mem (λ mem, st32 mem sys_call_retval r) s')
  else ∃ m', trap = Resumed m' ∧ answered m 0xFFFFFFFF m' ∧ stays [used m] (kern m) (kern m').
Proof.
  intros Htext Haddr Hdist Ht Hm Hr Hri Hap trap s. pose proof (vector_gate address Haddr (kern m) 0x80 sys_call_interrupt Ht ltac:(done) eq_refl) as Hg.
  unfold trap. rewrite (interrupt_routine sys_call_retval depth scratch text address Haddr Hdist 0x80 m sys_call_interrupt (sys_call_code sys_call_retval) Ht) by done.
  unfold s. clear s trap. assert (Htrap : gate_type (gate_of (kern m) 0x80) = TRAP_GATE) by by rewrite Hg.
  generalize dependent (gate_of (kern m) 0x80). intros g _ Htrap. destruct (in_range m) eqn:Hin.
  - split; [by apply before_call_spec|]. intros r s' os E He Hst Ho.
    by apply (entry_returns sys_call_retval depth scratch text Htext g m r s' os).
  - destruct (entry_refused sys_call_retval depth scratch text g m Hm Hr Htrap Hri Hin) as (m' & E & Han & Hk).
    exists m'. split; [exact E|]. split; [exact Han|]. rewrite Hk, set_iflag_mem. intros p Hp. apply List.Forall_inv in Hp.
    pose proof (saved_size_bounds m). apply (changes_stays _ _ _ (dl_changes _ _ _ (deliver_spec g m Hm Hr Htrap))). constructor; [|done].
    rewrite (dl_esp _ _ _ (deliver_spec g m Hm Hr Htrap)). unfold used, saved_size in *. cbn [fst snd] in *. lia.
Qed.

(** [vidmap] with a null pointer, and a number that is none. *)
Definition example_call (eax ebx : Z) : machine :=
  let m := example_running 2 in set_reg EAX eax (set_reg EBX ebx m).

Lemma example_call_ok eax ebx : word eax → word ebx → machine_ok (example_call eax ebx).
Proof.
  intros H1 H2. destruct (example_program_ok 0 (example_scheduled 2) ltac:(lia)) as [P1 P2 P3 P4]. split; [|exact P2|exact P3|exact P4].
  intros r. unfold example_call. cbn [regs set_reg]. destruct (decide (r = EAX)) as [->|Ha]; [by rewrite fn_lookup_insert|].
  rewrite fn_lookup_insert_ne by done. destruct (decide (r = EBX)) as [->|Hb]; [by rewrite fn_lookup_insert|].
  rewrite fn_lookup_insert_ne by done. apply P1.
Qed.

Lemma vidmap_null ecx edx s :
  ∃ s', system_call (L := example_layout) 8 0 ecx edx s = Ret (-1) s' ∧ esp s' = esp s ∧ k_mem s' = k_mem s.
Proof. by exists (sti (cli s)). Qed.

Lemma system_call_answered_witness :
  (∃ m', raise (L := example_layout) 0x440000 example_depth (λ _, 0) example_text example_address 0x80 (example_call 8 0) = Resumed m' ∧
    answered (example_call 8 0) 0xFFFFFFFF m') ∧
  (∃ m', raise (L := example_layout) 0x440000 example_depth (λ _, 0) example_text example_address 0x80 (example_call 9 0) = Resumed m' ∧
    answered (example_call 9 0) 0xFFFFFFFF m').
Proof.
  assert (Htext : ∀ rest, word (example_text rest)) by (intros rest; unfold word, example_text; lia).
  assert (H8 : machine_ok (example_call 8 0)) by (apply example_call_ok; unfold word; lia).
  assert (H9 : machine_ok (example_call 9 0)) by (apply example_call_ok; unfold word; lia).
  split.
  - pose proof (system_call_answered (L := example_layout) 0x440000 example_depth (λ _, 0) example_text example_address (example_call 8 0)
      Htext example_address_word example_address_distinct (example_table 2) H8) as H.
    assert (Hin : in_range (example_call 8 0) = true) by (vm_compute; reflexivity). cbv zeta in H. rewrite Hin in H.
    destruct H as [_ H]; [split; vm_compute; congruence|exact (example_rights 0 (example_scheduled 2))|split_and!; [vm_compute; congruence..|left; vm_compute; congruence]|].
    set (s := sys_call_state _ _ _ _) in H. clearbody s.
    destruct (vidmap_null (regs (example_call 8 0) ECX) (regs (example_call 8 0) EDX) s) as (s' & E & He & Hmem).
    destruct (H (-1) s' [] E He) as (m' & E' & Han & _); [intros p _; by rewrite Hmem|done|]. exists m'. split; [exact E'|exact Han].
  - pose proof (system_call_answered (L := example_layout) 0x440000 example_depth (λ _, 0) example_text example_address (example_call 9 0)
      Htext example_address_word example_address_distinct (example_table 2) H9) as H.
    assert (Hin : in_range (example_call 9 0) = false) by (vm_compute; reflexivity). cbv zeta in H. rewrite Hin in H.
    destruct H as (m' & E & Han & _); [split; vm_compute; congruence|exact (example_rights 0 (example_scheduled 2))|split_and!; [vm_compute; congruence..|left; vm_compute; congruence]|].
    exists m'. split; [exact E|exact Han].
Defined.
