(* ===== verification/Ring.v ===== *)
(** * Into user mode and back from a program: go_to_ring_three, ret_from_execute

    [go_to_ring_three] leaves [execute] through an [iret] to the program's entry;
    [halt] of the program loads the stack and frame pointers of [execute] and
    jumps to [ret_from_execute], which returns to the system call entry of the
    program that called [execute]. *)

From stdpp Require Import functions.
From S2P Require Import Prelude Memory LibMem LibStr Video State Console Idt Pic Rtc Process FileSystem Terminal Keyboard Paging SysCalls Schedule Command Exec Halt UserRun KeySafe Machine Entries SysEntry.

Implicit Types s : kernel.

Section Ring.
Context {L : Layout}.
Context (sys_call_retval depth : Z) (scratch : reg → Z) (text : list (instr c_function) → Z) (Htext : ∀ rest, word (text rest)).

(** ** Back from a program *)

(** The machine at [ret_from_execute]: [halt] loaded the three registers. *)
Definition jumped (e b a : Z) (s : kernel) (m : machine) : machine :=
  mkMachine (<[EAX := a]> (<[EBP := b]> (<[ESP := e]> scratch))) (segs m) (eip m) (status m) s.

(** The stack of a program that is in a system call. *)
Definition call_used (m : machine) : Z * Z := (kernel_stack m - saved_size m - 20, saved_size m + 20).

Lemma ret_from_execute_run m :
  0 <= regs m EBP → regs m EBP + 8 <= PROGRAM_PAGE →
  ∃ m', enter_routine depth scratch text ret_from_execute_code m = Returned m' ∧
    eip m' = ld32 (kern m) (regs m EBP + 4) ∧ regs m' ESP = regs m EBP + 8 ∧ regs m' EAX = regs m EAX ∧
    segs m' = segs m ∧ kern m' = kern m.
Proof using.
  unfold PROGRAM_PAGE. intros H0 H1. unfold enter_routine, execute_routine, ret_from_execute_code. erewrite run_go by reflexivity.
  rewrite (run_stop _ _ _ _ _ _ RetI _ _ _ eq_refl). set (m1 := set_reg ESP (regs m EBP) m).
  assert (E1 : regs m1 ESP = regs m EBP ∧ regs m1 EAX = regs m EAX ∧ kern m1 = kern m ∧ segs m1 = segs m).
  { split_and!; [by apply fn_lookup_insert|by apply fn_lookup_insert_ne|done..]. }
  destruct E1 as (E1 & A1 & K1 & S1). clearbody m1.
  destruct (pop_reg_spec EBP m1 ltac:(done)) as [_ P2 P3 P4 P5]; [lia|unfold PROGRAM_PAGE; lia|].
  generalize dependent (pop_reg EBP m1). intros m2 P2 P3 P4 P5.
  eexists. split; [reflexivity|]. cbn [eip set_eip regs segs kern drop_words set_reg]. unfold Machine.top.
  split; [by rewrite P5, K1, P2, E1|]. split; [rewrite fn_lookup_insert, P2, E1, u32_small; lia|].
  split; [rewrite fn_lookup_insert_ne by done; by rewrite P3|]. split; congruence.
Qed.

(** The program that called [execute] gets what the program [halt]ed with. *)
Lemma halt_answers p sp s' e a m os :
  machine_ok p → stack_room p → in_call sys_call_retval depth text p sp →
  stays os sp s' → Forall (λ o, (call_used p).1 + (call_used p).2 <= o.1 ∨ o.1 + o.2 <= (call_used p).1) os →
  retval_apart sys_call_retval (call_used p).1 (call_used p).2 → resumable p m →
  ∃ m1 m', enter_routine depth scratch text ret_from_execute_code (jumped e (ebp sp) a s' m) = Returned m1 ∧
    eip m1 = text (sys_call_tail sys_call_retval) ∧
    run (c_code scratch) depth scratch text 64 (sys_call_code sys_call_retval) (sys_call_tail sys_call_retval) m1 = Resumed m' ∧
    answered p (u32 a) m' ∧ kern m' = set_iflag (iflag (kern p)) (upd_mem (λ mem, st32 mem sys_call_retval a) s').
Proof using.
  intros Hp Hr [C1 _ [_ C2] C3 _ _] Hst Ho Hap Hres. pose proof (saved_size_bounds p) as Hsz. unfold stack_room in Hr.
  unfold call_used in *. cbn [fst snd] in *. set (m0 := jumped e (ebp sp) a s' m).
  assert (J : regs m0 EBP = ebp sp ∧ regs m0 EAX = a ∧ segs m0 = segs m ∧ kern m0 = s').
  { split_and!; [unfold m0, jumped; cbn [regs]; by rewrite fn_lookup_insert_ne, fn_lookup_insert|by apply fn_lookup_insert|done..]. }
  destruct J as (J1 & J2 & J3 & J4). clearbody m0.
  destruct (ret_from_execute_run m0) as (m1 & E1 & H1 & H2 & H3 & H4 & H5); [lia|unfold PROGRAM_PAGE in *; lia|].
  rewrite J1, J4 in H1. rewrite J1, C2 in H2. rewrite J2 in H3. rewrite J3 in H4. rewrite J4 in H5.
  assert (Hret : words s' (ebp sp + 4) [text (sys_call_tail sys_call_retval)]).
  { apply (words_stay os sp); [exact Hst|lia|cbn [length]; unfold PROGRAM_PAGE in *; lia| |by split].
    eapply List.Forall_impl; [|exact Ho]. intros o. cbn [length]. lia. }
  destruct Hret as [Hret _]. exists m1.
  destruct (sys_call_tail_run sys_call_retval depth scratch text 56 (sys_call_code sys_call_retval) p m1 Hp) as (m' & E' & Han & Hk).
  - rewrite H2, H5. replace (kernel_stack p - saved_size p - 24 + 8 + 16) with (kernel_stack p - saved_size p) by lia.
    apply (saved_stays os sp); [exact Hst|lia|lia| |exact C1]. eapply List.Forall_impl; [|exact Ho]. intros o. cbn beta. lia.
  - lia.
  - lia.
  - rewrite H2. destruct Hap as (B1 & B2 & B3). unfold retval_apart. lia.
  - destruct Hres as [R1 R2 R3]. split; rewrite ?H4; done.
  - exists m'. split; [exact E1|]. split; [by rewrite H1|]. split; [exact E'|]. rewrite H3 in Han, Hk. split; [exact Han|]. by rewrite Hk, H5.
Qed.

(** ** Into user mode *)

Definition USER_CS : Z := 0x23.
Definition USER_DS : Z := 0x2B.
Definition USER_STACK : Z := 0x083FFFFC.

(** The program starts: at [n] on its stack, in the user segments, with the
    flags of the caller and whatever the other registers hold. *)
Record in_program (n : Z) (m m' : machine) : Prop := {
  ip_eip : eip m' = n;
  ip_esp : regs m' ESP = USER_STACK;
  ip_segs : ∀ r, segs m' r = if decide (r = CS) then USER_CS else USER_DS;
  ip_status : status m' = Z.land (status m) 0xFCFFFF;
  ip_iflag : iflag (kern m') = iflag (kern m);
}.

(** The part of the code that does not touch the stack below its frame. *)
Lemma ring_three_head m e pcb :
  regs m ESP = e → 64 <= e → e + 12 <= PROGRAM_PAGE → (∀ r, word (regs m r)) → 0 <= pcb → pcb + 8 <= e - 4 →
  ld32 (kern m) (e + 8) = pcb →
  ∃ m1, enter_routine depth scratch text go_to_ring_three_code m =
      run (c_code scratch) depth scratch text 53 go_to_ring_three_code
        [PushI 0x2B; PushI 0x083FFFFC; Pushfl; PushI 0x23; Load 8 EBP ECX; PushR ECX; Iret] m1 ∧
    regs m1 ESP = e - 4 ∧ regs m1 EBP = e - 4 ∧ status m1 = status m ∧ iflag (kern m1) = iflag (kern m) ∧
    (∀ r, r ∈ data_segments → segs m1 r = USER_DS) ∧
    changes [(e - 4, 4)] (st32 (st32 (kern m) pcb (e - 4)) (pcb + 4) (e - 4)) (kern m1).
Proof using.
  unfold PROGRAM_PAGE. intros He H0 H1 Hw Hp Hpe Hld. unfold enter_routine, execute_routine, go_to_ring_three_code at 2.
  erewrite run_go by reflexivity. destruct (push_pushed (regs m EBP) m ltac:(unfold PROGRAM_PAGE; lia) (Hw EBP)) as [P1 P2 P3 P4 P5 P6 P7 _].
  generalize dependent (push (regs m EBP) m). intros ma P1 P2 P3 P4 P5 P6 P7. rewrite He in P2. cbn [length] in P2, P7.
  assert (Ea : regs ma ESP = e - 4) by lia. assert (Ia : iflag (kern ma) = iflag (kern m)) by (by rewrite P6).
  rewrite Ea in P7. clear P1 P2 P3 P4 P6. erewrite run_go by reflexivity. rewrite Ea.
  set (mb := set_reg EBP (e - 4) ma). assert (B : regs mb ESP = e - 4 ∧ regs mb EBP = e - 4 ∧ status mb = status m ∧ kern mb = kern ma).
  { split_and!; [unfold mb; cbn [regs set_reg]; by rewrite fn_lookup_insert_ne|by apply fn_lookup_insert|by rewrite <- P5|done]. }
  destruct B as (B1 & B2 & B3 & B4). clearbody mb. erewrite run_go by reflexivity. rewrite B2.
  assert (Hl : ld32 (kern mb) (u32 (e - 4 + 12)) = pcb).
  { rewrite u32_small by lia. replace (e - 4 + 12) with (e + 8) by lia. rewrite B4, <- Hld.
    apply (changes_word _ _ _ _ P7); [lia|unfold PROGRAM_PAGE; lia|constructor; [cbn [fst snd]; lia|done]]. }
  rewrite Hl. set (mc := set_reg ECX pcb mb). assert (C : regs mc ESP = e - 4 ∧ regs mc EBP = e - 4 ∧ regs mc ECX = pcb ∧ status mc = status m ∧ kern mc = kern ma).
  { split_and!; [by rewrite <- B1; apply fn_lookup_insert_ne|by rewrite <- B2; apply fn_lookup_insert_ne|by apply fn_lookup_insert|done|done]. }
  destruct C as (C1 & C2 & C3 & C4 & C5). clearbody mc. do 2 erewrite run_go by reflexivity.
  change (regs (set_kern ?s mc)) with (regs mc). cbn [kern set_kern]. rewrite C1, C2, C3, Z.add_0_r, !u32_small by lia.
  set (md := set_kern _ _). assert (D : regs md = regs mc ∧ status md = status m ∧ k_mem (kern md) = st32 (st32 (kern ma) pcb (e - 4)) (pcb + 4) (e - 4) ∧ iflag (kern md) = iflag (kern m)).
  { split_and!; [done|exact C4|unfold md; cbn; by rewrite C5|unfold md; cbn; by rewrite C5]. }
  destruct D as (D1 & D2 & D3 & D4). clearbody md. erewrite run_go by reflexivity. set (me := set_reg EAX _ md).
  assert (Ee : regs me ESP = e - 4 ∧ regs me EBP = e - 4 ∧ u16 (regs me EAX) = USER_DS ∧ status me = status m ∧ kern me = kern md).
  { unfold me. cbn [regs set_reg status kern]. rewrite !(fn_lookup_insert_ne _ EAX), fn_lookup_insert, D1 by done. split_and!; [done..| |done|done].
    unfold u16. change (43 mod 65536) with 43. rewrite (Zplus_mod (_ - _)), Zminus_mod_idemp_r, Z.sub_diag. done. }
  destruct Ee as (E1 & E2 & E3 & E4 & E5). clearbody me. do 5 erewrite run_go by reflexivity.
  eexists. split; [reflexivity|]. cbn [regs segs status kern set_reg set_seg].
  rewrite !(fn_lookup_insert_ne _ EAX) by done. split; [exact E1|]. split; [exact E2|]. split; [exact E4|]. split; [by rewrite E5|]. split.
  - intros r Hr. unfold data_segments in Hr. rewrite !elem_of_cons, elem_of_nil in Hr.
    destruct Hr as [->|[->|[->|[->|[]]]]]; rewrite ?fn_lookup_insert_ne by done; rewrite fn_lookup_insert; exact E3.
  - rewrite E5, D3. destruct P7 as [U P7]. split; [exact U|]. intros p Hpp. apply List.Forall_inv in Hpp. cbn [fst snd] in Hpp.
    rewrite !peek_st32 by (unfold PROGRAM_PAGE; lia). rewrite P7 by (constructor; [cbn [fst snd]; lia|done]). done.
Qed.

(** The machine of the program that starts. *)
Definition program_machine (n : Z) (m : machine) : machine :=
  mkMachine (<[ESP := USER_STACK]> (regs m)) (λ r, if decide (r = CS) then USER_CS else USER_DS) n
    (Z.land (status m) 0xFCFFFF) (kern m).

Lemma land_word w k : word k → 0 <= w → word (Z.land w k).
Proof using.
  intros Hk Hw. apply bits_word; [apply Z.land_nonneg; by left|]. intros i Hi. by rewrite Z.land_spec, (word_bits k Hk i Hi), andb_false_r.
Qed.

Lemma program_machine_ok n m : machine_ok m → word n → machine_ok (program_machine n m).
Proof using.
  intros [H1 H2 H3 [H4 H5]] Hn. unfold program_machine. split; cbn [regs segs eip status].
  - intros r. destruct (decide (r = ESP)) as [->|Hr]; [by rewrite fn_lookup_insert|by rewrite fn_lookup_insert_ne by done].
  - intros r. by case_decide.
  - exact Hn.
  - split; [by apply land_word; [|apply H4]|]. by rewrite Z.land_spec, H5.
Qed.

Lemma program_frame n m :
  interrupt_frame (program_machine n m) = [n; USER_CS; Z.land (Machine.flags m) 0xFCFFFF; USER_STACK; USER_DS].
Proof using.
  unfold interrupt_frame, Machine.flags, user_mode, program_machine. cbn [regs segs eip status kern decide]. rewrite fn_lookup_insert.
  change (level (if decide (CS = CS) then USER_CS else USER_DS) =? 3) with true. cbv iota.
  change (if decide (CS = CS) then USER_CS else USER_DS) with USER_CS. change (if decide (SS = CS) then USER_CS else USER_DS) with USER_DS.
  do 3 f_equal. rewrite Z.land_lor_distr_l. f_equal. by destruct (iflag (kern m)).
Qed.

(** [go_to_ring_three n pcb] starts the program at [n]; the frame pointer it
    stores in the block is the one of the model of [execute]. *)
Lemma ring_three_run m e n pcb :
  machine_ok m → regs m ESP = e → 64 <= e → e + 12 <= PROGRAM_PAGE → 0 <= pcb → pcb + 8 <= e - 28 →
  ld32 (kern m) (e + 4) = n → ld32 (kern m) (e + 8) = pcb →
  ∃ m', enter_routine depth scratch text go_to_ring_three_code m = Resumed m' ∧ in_program n m m' ∧
    changes [(e - 24, 24)] (st32 (st32 (kern m) pcb (e - 4)) (pcb + 4) (e - 4)) (kern m').
Proof using.
  intros Hm He H0 H1 Hp Hpe Hn Hpcb. assert (Hnw : word n) by (rewrite <- Hn; apply ld32_range).
  destruct (ring_three_head m e pcb He H0 H1 (mo_regs _ Hm) Hp ltac:(lia) Hpcb) as (m1 & -> & A1 & A2 & A3 & A4 & A5 & A6).
  unfold PROGRAM_PAGE in H1. do 4 erewrite run_go by reflexivity.
  assert (Hfl : Machine.flags (push USER_STACK (push USER_DS m1)) = Machine.flags m) by (unfold Machine.flags, push; cbn [status kern set_kern set_reg upd_mem iflag]; by rewrite A3, <- A4).
  unfold pushfl. change 0x2B with USER_DS. change 0x083FFFFC with USER_STACK. change 0x23 with USER_CS. rewrite Hfl. clear Hfl.
  set (fl := Z.land (Machine.flags m) 0xFCFFFF).
  change (push USER_CS (push fl (push USER_STACK (push USER_DS m1)))) with (push_all [USER_DS; USER_STACK; fl; USER_CS] m1).
  assert (Hflw : word fl) by (apply land_word; [unfold word; lia|]; destruct (flags_spec m Hm) as ((? & ?) & _); lia).
  destruct (push_all_pushed [USER_DS; USER_STACK; fl; USER_CS] m1) as [P1 P2 P3 _ P5 P6 P7 P8];
    [rewrite A1; cbn [length]; unfold PROGRAM_PAGE; lia|repeat (apply list.Forall_cons_2; [first [exact Hflw|unfold word, USER_DS, USER_STACK, USER_CS; lia]|]); done|].
  generalize dependent (push_all [USER_DS; USER_STACK; fl; USER_CS] m1). intros m2 P1 P2 P3 P5 P6 P7 P8. cbn [length] in P2, P7.
  assert (E2 : regs m2 ESP = e - 20) by lia. rewrite E2 in P7.
  set (base := st32 (st32 (kern m) pcb (e - 4)) (pcb + 4) (e - 4)) in *.
  assert (Hbase : ∀ a, e + 4 <= a → a + 4 <= e + 12 → ld32 base a = ld32 (kern m) a).
  { intros a Ha0 Ha1. unfold base, ld32, ld8. rewrite !phys_kernel, !peek_st32 by (unfold PROGRAM_PAGE; lia). bcase. }
  assert (Hall : changes [(e - 20, 20)] base (kern m2)).
  { destruct A6 as [U1 G1], P7 as [U2 G2]. split; [congruence|]. intros p Hpp. apply List.Forall_inv in Hpp. cbn [fst snd] in Hpp.
    rewrite G2, G1; [done|..]; (constructor; [cbn [fst snd]; lia|done]). }
  assert (Hld : ld32 (kern m2) (u32 (regs m2 EBP + 8)) = n).
  { rewrite P1, A2, u32_small by (done || lia). replace (e - 4 + 8) with (e + 4) by lia. rewrite <- Hn, <- Hbase by lia.
    apply (changes_word _ _ _ _ Hall); [lia|unfold PROGRAM_PAGE; lia|constructor; [cbn [fst snd]; lia|done]]. }
  erewrite run_go by reflexivity. rewrite Hld. set (m3 := set_reg ECX n m2).
  assert (C3 : regs m3 ECX = n ∧ regs m3 ESP = e - 20 ∧ status m3 = status m2 ∧ segs m3 = segs m2 ∧ kern m3 = kern m2).
  { split_and!; [by apply fn_lookup_insert|rewrite <- E2; by apply fn_lookup_insert_ne|done..]. }
  destruct C3 as (C1 & C2 & C3 & C4 & C5). clearbody m3. erewrite run_go by reflexivity. rewrite C1.
  destruct (push_pushed n m3 ltac:(unfold PROGRAM_PAGE; lia) Hnw) as [Q1 Q2 Q3 _ Q5 Q6 Q7 Q8].
  generalize dependent (push n m3). intros m4 Q1 Q2 Q3 Q5 Q6 Q7 Q8. rewrite C2 in Q2. cbn [length] in Q2, Q7. assert (E4 : regs m4 ESP = e - 24) by lia.
  rewrite E4 in Q7. erewrite run_stop by reflexivity. exists (iret m4). split; [done|].
  destruct (iret_spec (program_machine n m) m4 (program_machine_ok n m Hm Hnw)) as [T1 T2 T3 T4 T5 T6].
  - rewrite program_frame. fold fl. destruct Q8 as [Q8 _]. rewrite E4 in *. split; [exact Q8|].
    replace (e - 24 + 4) with (regs m2 ESP) by lia. apply (words_stay _ _ _ _ _ (changes_stays _ _ _ Q7));
      [lia|cbn [length]; unfold PROGRAM_PAGE; lia|constructor; [cbn [fst snd length]; lia|done]|]. rewrite C5. exact P8.
  - lia.
  - rewrite program_frame. cbn [length]. unfold PROGRAM_PAGE. lia.
  - done.
  - split.
    + intros r Hr. rewrite Q3, C4, P3, (A5 r Hr). unfold data_segments in Hr. rewrite !elem_of_cons, elem_of_nil in Hr.
      by destruct Hr as [->|[->|[->|[->|[]]]]].
    + done.
    + intros _ r Hr. unfold data_segments in Hr. rewrite !elem_of_cons, elem_of_nil in Hr.
      by destruct Hr as [->|[->|[->|[->|[]]]]].
  - assert (I4 : k_mem (kern (iret m4)) = k_mem (kern m4)) by (rewrite T6; apply set_iflag_mem).
    split; [split; [exact T4|rewrite T2; apply fn_lookup_insert|exact T3|exact T5|rewrite T6; change (kern (program_machine n m)) with (kern m); by destruct (iflag (kern m))]|].
    rewrite I4. destruct Hall as [U1 G1], Q7 as [U2 G2]. rewrite C5 in U2, G2. split; [congruence|]. intros p Hpp. apply List.Forall_inv in Hpp. cbn [fst snd] in Hpp.
    rewrite G2, G1; [done|..]; (constructor; [cbn [fst snd]; lia|done]).
Qed.
End Ring.

(** C8: [go_to_ring_three] is what the model of [execute] takes it for: with
    the entry point and the block on the stack it stores its frame pointer twice
    in the block and starts the program, in user mode, at its entry, on its
    stack, in the user segments; of the rest of the memory only the stack below
    its frame changes. *)
Theorem ring_three_refines {L : Layout} (depth : Z) (scratch : reg → Z) (text : list (instr c_function) → Z) (m : machine) (pcb : Z) :
  machine_ok m → let e := regs m ESP in
  64 <= e → e + 12 <= PROGRAM_PAGE → 0 <= pcb → pcb + 8 <= e - 28 → ld32 (kern m) (e + 8) = pcb →
  esp (kern m) - ring_three_depth = e - 4 →
  let n := ld32 (kern m) (e + 4) in
  ∃ s' m', go_to_ring_three n pcb (kern m) = EnterUser n s' ∧
    enter_routine depth scratch text go_to_ring_three_code m = Resumed m' ∧ in_program n m m' ∧ changes [(e - 24, 24)] s' (kern m').
Proof.
  intros Hm e H0 H1 H2 H3 Hpcb He n.
  destruct (ring_three_run depth scratch text m e n pcb Hm eq_refl H0 H1 H2 H3 eq_refl Hpcb) as (m' & E & Hp & Hc).
  eexists _, m'. split; [reflexivity|]. split; [exact E|]. split; [exact Hp|]. cbn [k_mem upd_mem]. by rewrite He.
Qed.


(** ** A parent and its child, for the witnesses *)

(** The parent calls [execute]; its child is process 3. *)
Definition example_parent : machine := example_call 2 0x8100010.
Definition parent_state : kernel :=
  sys_call_state 0x440000 example_depth example_text (deliver (gate_of (kern example_parent) 0x80) example_parent).
Definition child_of (s : kernel) : kernel :=
  set_previous 3 0 (set_occupant 3 (-1)
    (upd_cpu (λ _, mkCpu 0x7F9F00 0x7F9F80 0x7F9FFC true)
      (upd_mem (λ m, st32 (st32 m (pcb_addr 3 + process_num_off) 3) (pcb_addr 3 + ebp_off) (ebp s))
        (upd_terminal 0 (set_process_num 3) s)))).
Definition child_state : kernel := child_of parent_state.

Lemma child_stays s : stays [(pcb_addr 3, PCB_SIZE)] s (child_of s).
Proof.
  intros p Hp'. apply List.Forall_inv in Hp'. cbn [fst snd] in Hp'.
  change (peek (st32 (st32 s (pcb_addr 3 + process_num_off) 3) (pcb_addr 3 + ebp_off) (ebp s)) p = peek s p).
  assert (Hb : pcb_addr 3 = 8355840 ∧ PCB_SIZE = 172) by (split_and!; vm_compute; reflexivity).
  assert (He : 0 <= process_num_off ∧ process_num_off + 4 <= 172 ∧ 0 <= ebp_off ∧ ebp_off + 4 <= 172) by (split_and!; vm_compute; congruence).
  rewrite !peek_st32 by (unfold PROGRAM_PAGE; lia). bcase.
Qed.


(** The frame of [go_to_ring_three] for an entry at 0x8048000. *)
Definition ring_machine : machine :=
  mkMachine (λ r, match r with ESP => 0x7F7F00 | EBP => 0x7F7F80 | _ => 5 end) (λ r, match r with CS => 0x10 | _ => 0x18 end) 0x400300 2
    (upd_cpu (λ _, mkCpu (0x7F7F00 - 4 + 16) 0x7F7F80 0x7F7FFC true)
      (upd_mem (λ m, st32 (st32 m 0x7F7F04 0x8048000) 0x7F7F08 0x7F6000) zero_kernel)).

Lemma ring_three_refines_witness :
  ∃ s' m', go_to_ring_three (L := example_layout) 0x8048000 0x7F6000 (kern ring_machine) = EnterUser 0x8048000 s' ∧
    enter_routine (L := example_layout) example_depth (λ _, 0) example_text go_to_ring_three_code ring_machine = Resumed m' ∧
    in_program 0x8048000 ring_machine m'.
Proof.
  destruct (ring_three_refines (L := example_layout) example_depth (λ _, 0) example_text ring_machine 0x7F6000) as (s' & m' & E1 & E2 & E3 & _).
  - split; [intros []; unfold word; cbn; lia|intros []; unfold word; cbn; lia|unfold word; cbn; lia|split; [unfold word; cbn; lia|reflexivity]].
  - vm_compute. congruence.
  - vm_compute. congruence.
  - lia.
  - vm_compute. congruence.
  - vm_compute. reflexivity.
  - vm_compute. reflexivity.
  - replace (ld32 (kern ring_machine) (regs ring_machine ESP + 4)) with 0x8048000 in E1, E3 by (vm_compute; reflexivity).
    exists s', m'. split; [exact E1|]. split; [exact E2|exact E3].
Defined.
