(* ===== verification/Blink.v ===== *)
(** * blink.S and the memory of fish.c: the blinking characters

    fish/blink.S keeps a linked list of structures, each a character of the
    screen that alternates between two values; [mp1_ioctl] adds, removes,
    finds and synchronises them, and [mp1_rtc_tasklet] is run at every tick of
    the clock.  The structures are the elements of the array [blink_array] of
    fish.c, handed out by its [mp1_malloc].  The theorems relate the list in
    memory to a list of records. *)

From S2P Require Import Prelude Memory State Runs SysCalls UserLib UserRun UserPage.

(** ** The structure of blink.h, packed *)

Definition LOCATION : Z := 0.
Definition ON_CHAR : Z := 2.
Definition OFF_CHAR : Z := 3.
Definition ON_LENGTH : Z := 4.
Definition OFF_LENGTH : Z := 6.
Definition COUNTDOWN : Z := 8.
Definition STATUS : Z := 10.
Definition NEXT : Z := 12.
Definition STRUCT_SIZE : Z := 16.

Definition RTC_ADD : Z := 0.
Definition RTC_REMOVE : Z := 1.
Definition RTC_FIND : Z := 2.
Definition RTC_SYNC : Z := 3.

Definition SCREEN_CELLS : Z := 2000.

(** Two bytes; a 16-bit number with its sign. *)
Definition ld16 (m : memory) (a : Z) : Z := ld8 m a + 256 * ld8 m (a + 1).
Definition s16 (x : Z) : Z := let y := u16 x in if y <? 32768 then y else y - 65536.

(** ** fish.c: memory *)

Definition ece391_memset (a c n : Z) (m : memory) : memory := for_up (Z.to_nat n) 0 (λ i m, st8 m (a + i) c) m.

Definition ece391_memcpy (dest src n : Z) (m : memory) : Z * memory :=
  (0, for_up (Z.to_nat n) 0 (λ i m, st8 m (dest + i) (ld8 m (src + i))) m).

Section Blink.

(** The variables of fish.c and blink.S in the program page, and the two
    locals on the stack of blink.S. *)
Context (vmem_base_addr blink_array mp1_list_head : Z).
Context (add_local find_local : Z).

Definition mp1_malloc (m : memory) : Z :=
  match find_first 2000 0 (λ i, ld16 m (blink_array + STRUCT_SIZE * i + LOCATION) =? 0) with
  | Some i => blink_array + STRUCT_SIZE * i
  | None => 0
  end.

Definition mp1_free (a : Z) (m : memory) : memory := ece391_memset a 0 STRUCT_SIZE m.

(** ** blink.S *)

(** The byte [cl] at offset [eax] of the video memory. *)
Definition mp1_poke (eax cl : Z) (m : memory) : memory := st8 m (ld32 m vmem_base_addr + eax) cl.

(** One turn of the loop: [inr] when the list is at its end. *)
Definition tasklet_step (p : Z * memory) : (Z * memory) + memory :=
  let '(ebx, m) := p in
  if ebx =? 0 then inr m
  else
    let m := st16 m (ebx + COUNTDOWN) (u16 (ld16 m (ebx + COUNTDOWN) - 1)) in
    if 0 <? s16 (ld16 m (ebx + COUNTDOWN)) then inl (ld32 m (ebx + NEXT), m)
    else
      let eax := 2 * ld16 m (ebx + LOCATION) in
      let '(dx, m) :=
        if Z.land (ld16 m (ebx + STATUS)) 1 =? 0
        then let m := mp1_poke eax (ld8 m (ebx + ON_CHAR)) m in (ld16 m (ebx + ON_LENGTH), m)
        else let m := mp1_poke eax (ld8 m (ebx + OFF_CHAR)) m in (ld16 m (ebx + OFF_LENGTH), m) in
      let m := st16 m (ebx + COUNTDOWN) dx in
      let m := st16 m (ebx + STATUS) (Z.lxor (ld16 m (ebx + STATUS)) 1) in
      inl (ld32 m (ebx + NEXT), m).

Definition mp1_rtc_tasklet (m : memory) : option memory := while_loop tasklet_step (ld32 m mp1_list_head, m).

(** The first element whose location is the low word of [arg], or 0. *)
Definition mp1_find_helper (arg : Z) (m : memory) : option Z :=
  while_loop (λ ebx,
    if ebx =? 0 then inr 0
    else if ld16 m (ebx + LOCATION) =? u16 arg then inr ebx
    else inl (ld32 m (ebx + NEXT))) (ld32 m mp1_list_head).

Definition mp1_ioctl_add (arg : Z) (m : memory) : Z * memory :=
  let ebx := add_local in
  let '(eax, m) := ece391_memcpy ebx arg STRUCT_SIZE m in
  if negb (eax =? 0) then (-1, m)
  else if SCREEN_CELLS <=? ld16 m (ebx + LOCATION) then (-1, m)
  else
    let m := st16 m (ebx + STATUS) 1 in
    let m := st16 m (ebx + COUNTDOWN) (ld16 m (ebx + ON_LENGTH)) in
    let edx := mp1_malloc m in
    if edx =? 0 then (-1, m)
    else
      let '(_, m) := ece391_memcpy edx ebx STRUCT_SIZE m in
      let m := st32 m (edx + NEXT) (ld32 m mp1_list_head) in
      let m := st32 m mp1_list_head edx in
      (0, mp1_poke (2 * ld16 m (edx + LOCATION)) (ld8 m (edx + ON_CHAR)) m).

Definition mp1_ioctl_remove (arg : Z) (m : memory) : option (Z * memory) :=
  eax ← mp1_find_helper arg m;
  if eax =? 0 then Some (-1, m)
  else
    edx ← while_loop (λ edx, if ld32 m edx =? eax then inr edx else inl (ld32 m edx + NEXT)) mp1_list_head;
    let m := st32 m edx (ld32 m (eax + NEXT)) in
    Some (0, mp1_free eax m).

(** [testb] clears the overflow flag and sets the sign flag to bit 7 of its
    result; [cmovl] moves when the two differ. *)
Definition less_after_testb (a b : Z) : bool := xorb (Z.testbit (Z.land a b) 7) false.

Definition mp1_ioctl_sync (arg : Z) (m : memory) : option (Z * memory) :=
  esi ← mp1_find_helper (Z.shiftr (u32 arg) 16) m;
  if esi =? 0 then Some (-1, m)
  else
    edi ← mp1_find_helper (Z.land (u32 arg) 0xFFFF) m;
    if edi =? 0 then Some (-1, m)
    else
      let m := st16 m (edi + ON_LENGTH) (ld16 m (esi + ON_LENGTH)) in
      let m := st16 m (edi + OFF_LENGTH) (ld16 m (esi + OFF_LENGTH)) in
      let m := st16 m (edi + COUNTDOWN) (ld16 m (esi + COUNTDOWN)) in
      let m := st16 m (edi + STATUS) (ld16 m (esi + STATUS)) in
      let ecx := if less_after_testb (ld8 m (edi + STATUS)) 1 then ld8 m (edi + ON_CHAR) else ld8 m (edi + OFF_CHAR) in
      Some (0, mp1_poke (2 * ld16 m (edi + LOCATION)) ecx m).

Definition mp1_ioctl_find (arg : Z) (m : memory) : option (Z * memory) :=
  let '(eax, m) := ece391_memcpy find_local arg 2 m in
  if negb (eax =? 0) then Some (-1, m)
  else
    eax ← mp1_find_helper (ld16 m find_local) m;
    if eax =? 0 then Some (-1, m)
    else let '(r, m) := ece391_memcpy arg eax STRUCT_SIZE m in Some (if r =? 0 then 0 else -1, m).

(** The jump through [call_table]; there is nothing behind its four entries. *)
Definition mp1_ioctl (arg cmd : Z) : M Z := λ s,
  let call (r : option (Z * memory)) :=
    match r with Some (r, m) => Ret r (upd_mem (λ _, m) s) | None => Diverge end in
  if cmd =? RTC_ADD then call (Some (mp1_ioctl_add arg (k_mem s)))
  else if cmd =? RTC_REMOVE then call (mp1_ioctl_remove arg (k_mem s))
  else if cmd =? RTC_FIND then call (mp1_ioctl_find arg (k_mem s))
  else if cmd =? RTC_SYNC then call (mp1_ioctl_sync arg (k_mem s))
  else Crash s.
End Blink.

Lemma page_ld16 a n m m' b : page_only a n m m' → in_page b 2 → b + 2 <= a ∨ a + n <= b → ld16 m' b = ld16 m b.
Proof. intros Ho (H1 & _ & H3) Hd. unfold ld16. rewrite !Ho; unfold in_bounds; lia || done. Qed.

Lemma ld16_range m a : 0 <= ld16 m a < 65536.
Proof. unfold ld16. pose proof (ld8_range m a). pose proof (ld8_range m (a + 1)). lia. Qed.

Lemma ld16_st16 m a x : in_page a 2 → ld16 (st16 m a x) a = u16 x.
Proof.
  intros (H1 & _ & H3). unfold ld16, st16. rewrite ld8_st8, !ld8_st8_same, !phys_user by lia.
  destruct (Z.eqb_spec (upage (st8 m a x) + (a - PROGRAM_PAGE)) (upage (st8 m a x) + (a + 1 - PROGRAM_PAGE))); [lia|].
  unfold u8, u16. change 65536 with (256 * 256). by rewrite Z.rem_mul_r by lia.
Qed.

(** A byte of the video memory. *)
Record shows (p c : Z) (m m' : memory) : Prop := {
  sh_upage : upage m' = upage m;
  sh_page : ∀ b, in_bounds b → ld8 m' b = ld8 m b;
  sh_else : ∀ q, elsewhere m q → peek m' q = if q =? p then c else peek m q;
}.

(** ** The structure as a record *)

Record blink := mkBlink {
  b_location : Z;
  b_on_char : Z;
  b_off_char : Z;
  b_on_length : Z;
  b_off_length : Z;
  b_countdown : Z;
  b_status : Z;
}.

Definition view (m : memory) (a : Z) : blink :=
  mkBlink (ld16 m (a + LOCATION)) (ld8 m (a + ON_CHAR)) (ld8 m (a + OFF_CHAR)) (ld16 m (a + ON_LENGTH))
    (ld16 m (a + OFF_LENGTH)) (ld16 m (a + COUNTDOWN)) (ld16 m (a + STATUS)).

(** What a tick of the clock does to a structure: count down, and at 0 or below
    show the other character and start its time. *)
Definition fires (b : blink) : bool := negb (0 <? s16 (u16 (b_countdown b - 1))).
Definition is_on (b : blink) : bool := negb (Z.land (b_status b) 1 =? 0).
Definition other_char (b : blink) : Z := if is_on b then b_off_char b else b_on_char b.

Definition set_times (b : blink) (countdown status : Z) : blink :=
  mkBlink (b_location b) (b_on_char b) (b_off_char b) (b_on_length b) (b_off_length b) countdown status.

Definition tick (b : blink) : blink :=
  if fires b then set_times b (if is_on b then b_off_length b else b_on_length b) (Z.lxor (b_status b) 1)
  else set_times b (u16 (b_countdown b - 1)) (b_status b).

(** The bytes of the video memory at [v] after the structures of a list. *)
Fixpoint tick_video (v : Z) (bs : list blink) (f : Z → Z) : Z → Z :=
  match bs with
  | [] => f
  | b :: bs' => tick_video v bs' (λ q, if fires b && (q =? v + 2 * b_location b) then other_char b else f q)
  end.

Lemma tick_video_snoc v bs b f q :
  tick_video v (bs ++ [b]) f q =
  if fires b && (q =? v + 2 * b_location b) then other_char b else tick_video v bs f q.
Proof. revert f. induction bs as [|c bs IH]; intros f; [done|]. cbn [tick_video app]. apply IH. Qed.

Definition node (blink_array a : Z) : Prop := ∃ i, 0 <= i < 2000 ∧ a = blink_array + STRUCT_SIZE * i.

Lemma in_struct a o n : in_page a 16 → 0 <= o → 0 <= n → o + n <= 16 → in_page (a + o) n.
Proof. intros (H1 & _ & H3) Ho Hn Hs. split_and!; lia. Qed.

Lemma page_view a n m m' b :
  page_only a n m m' → in_page b 16 → b + NEXT <= a ∨ a + n <= b → view m' b = view m b.
Proof.
  intros Ho Hb Hd. unfold view, LOCATION, ON_CHAR, OFF_CHAR, ON_LENGTH, OFF_LENGTH, COUNTDOWN, STATUS, NEXT in *.
  rewrite !(page_ld16 a n m m') by (done || (apply in_struct; (done || lia)) || lia).
  by rewrite !(page_ld8 a n m m') by (done || (apply in_struct; (done || lia)) || lia).
Qed.

Lemma shows_page p c m m' a n : shows p c m m' → page_only a n m m'.
Proof. intros Hs b Hb _. by apply Hs. Qed.

Lemma page_trans a n m1 m2 m3 : page_only a n m1 m2 → page_only a n m2 m3 → page_only a n m1 m3.
Proof. intros H1 H2 b Hb Ho. by rewrite H2, H1. Qed.

Lemma page_widen a n b k m m' : page_only a n m m' → b <= a → a + n <= b + k → page_only b k m m'.
Proof. intros H H1 H2 c Hc Ho. apply H; [done|lia]. Qed.

Lemma lxor_1_small x : 0 <= x < 65536 → u16 (Z.lxor x 1) = Z.lxor x 1.
Proof.
  intros Hx. unfold u16. apply Z.mod_small. split; [apply Z.lxor_nonneg; lia|].
  assert (Hn : 0 <= Z.lxor x 1) by (apply Z.lxor_nonneg; lia).
  destruct (decide (Z.lxor x 1 = 0)) as [->|]; [lia|]. change 65536 with (2 ^ 16). apply Z.log2_lt_pow2; [lia|].
  pose proof (Z.log2_lxor x 1 ltac:(lia) ltac:(lia)) as Hl. change (Z.log2 1) with 0 in Hl.
  destruct (decide (x = 0)) as [->|]; [cbn in *; lia|]. assert (Z.log2 x < 16) by (apply Z.log2_lt_pow2; lia). lia.
Qed.

Section BlinkFacts.
Context (vmem_base_addr blink_array mp1_list_head add_local find_local : Z).

(** The variables lie in the program page, apart from one another. *)
Record globals_ok : Prop := {
  gl_array : in_page blink_array 32000;
  gl_head : in_page mp1_list_head 4;
  gl_vmem : in_page vmem_base_addr 4;
  gl_local : in_page add_local 16;
  gl_array_head : mp1_list_head + 4 <= blink_array ∨ blink_array + 32000 <= mp1_list_head;
  gl_array_vmem : vmem_base_addr + 4 <= blink_array ∨ blink_array + 32000 <= vmem_base_addr;
  gl_array_local : add_local + 16 <= blink_array ∨ blink_array + 32000 <= add_local;
  gl_head_vmem : vmem_base_addr + 4 <= mp1_list_head ∨ mp1_list_head + 4 <= vmem_base_addr;
  gl_head_local : add_local + 16 <= mp1_list_head ∨ mp1_list_head + 4 <= add_local;
  gl_vmem_local : add_local + 16 <= vmem_base_addr ∨ vmem_base_addr + 4 <= add_local;
}.
Context (Hgl : globals_ok).

(** [vmem_base_addr] holds the address [v] of video memory, above the page. *)
Record video_at (v : Z) (m : memory) : Prop := {
  vd_pointer : ld32 m vmem_base_addr = v;
  vd_above : PROGRAM_PAGE_END <= v;
  vd_top : v + 131072 <= 4294967296;
  vd_else : upage m + (PROGRAM_PAGE_END - PROGRAM_PAGE) <= v;
}.

Lemma poke_shows v m eax cl :
  video_at v m → 0 <= eax < 131072 → shows (v + eax) (u8 cl) m (mp1_poke vmem_base_addr eax cl m).
Proof.
  intros [Hv H1 H2 H3] He. unfold mp1_poke. rewrite Hv.
  assert (Hph : phys m (v + eax) = v + eax).
  { unfold phys. rewrite u32_small by (unfold PROGRAM_PAGE_END in *; lia).
    destruct (Z.ltb_spec (v + eax) PROGRAM_PAGE_END); [lia|]. by rewrite andb_false_r. }
  split; [apply upage_st8|..].
  - intros b Hb. rewrite ld8_st8, Hph, phys_user by done. unfold in_bounds in Hb. bcase.
  - intros q _. by rewrite peek_st8, Hph.
Qed.

Lemma node_page a : node blink_array a → in_page a 16 ∧ blink_array <= a ∧ a + 16 <= blink_array + 32000.
Proof using Hgl.
  intros (i & Hi & ->). destruct (gl_array Hgl) as (H1 & _ & H3). unfold in_page, STRUCT_SIZE in *. lia.
Qed.

Lemma node_apart a b : node blink_array a → node blink_array b → a ≠ b → a + 16 <= b ∨ b + 16 <= a.
Proof. intros (i & Hi & ->) (j & Hj & ->) Hne. unfold STRUCT_SIZE in *. lia. Qed.

Lemma video_only v a n m m' :
  only a n m m' → vmem_base_addr + 4 <= a ∨ a + n <= vmem_base_addr → video_at v m → video_at v m'.
Proof using Hgl.
  intros Ho Hd [Hv H1 H2 H3]. split; [|done|done|by rewrite (on_upage _ _ _ _ Ho)].
  rewrite (page_ld32 a n m m'); [done|apply Ho|apply Hgl|lia].
Qed.

(** What one turn does to the structure at [a] and to the video memory. *)
Record ticked (v a : Z) (m m' : memory) : Prop := {
  tk_upage : upage m' = upage m;
  tk_page : page_only (a + COUNTDOWN) 4 m m';
  tk_view : view m' a = tick (view m a);
  tk_else : ∀ q, elsewhere m q → peek m' q =
    if fires (view m a) && (q =? v + 2 * b_location (view m a)) then other_char (view m a) else peek m q;
}.

(** A structure whose countdown and status alone changed. *)
Lemma view_times m m' a countdown status :
  in_page a 16 → page_only (a + COUNTDOWN) 4 m m' →
  ld16 m' (a + COUNTDOWN) = countdown → ld16 m' (a + STATUS) = status → view m' a = set_times (view m a) countdown status.
Proof.
  intros Ha Ho <- <-. unfold view, set_times. unfold LOCATION, ON_CHAR, OFF_CHAR, ON_LENGTH, OFF_LENGTH, COUNTDOWN, STATUS in *.
  cbn [b_location b_on_char b_off_char b_on_length b_off_length].
  f_equal; first [apply (page_ld16 (a + 8) 4)|apply (page_ld8 (a + 8) 4)]; first [done|(apply in_struct; (done || lia))|lia].
Qed.

Lemma tasklet_waits v a m :
  node blink_array a → fires (view m a) = false →
  ∃ m', tasklet_step vmem_base_addr (a, m) = inl (ld32 m (a + NEXT), m') ∧ ticked v a m m'.
Proof using Hgl.
  intros Hn Hf. destruct (node_page a Hn) as (Ha & _ & _). pose proof Ha as (Ha1 & _ & Ha3).
  set (c := u16 (ld16 m (a + COUNTDOWN) - 1)). set (m1 := st16 m (a + COUNTDOWN) c).
  assert (Hc : ld16 m1 (a + COUNTDOWN) = c).
  { unfold m1. rewrite ld16_st16 by (apply in_struct; unfold COUNTDOWN; (done || lia)). apply u16_small, u16_range. }
  assert (Ho : only (a + COUNTDOWN) 2 m m1) by (apply only_st16, in_struct; unfold COUNTDOWN; (done || lia)).
  assert (Ho4 : page_only (a + COUNTDOWN) 4 m m1) by (apply (page_widen (a + COUNTDOWN) 2); [apply Ho|lia|lia]).
  exists m1. split.
  - unfold tasklet_step. destruct (Z.eqb_spec a 0); [unfold PROGRAM_PAGE in Ha1; lia|]. fold c. fold m1. rewrite Hc.
    unfold fires in Hf. cbn [b_countdown view] in Hf. fold c in Hf. apply negb_false_iff in Hf. rewrite Hf.
    rewrite (page_ld32 _ _ m m1 (a + NEXT) Ho4); [done|apply in_struct; unfold NEXT; (done || lia)|unfold COUNTDOWN, NEXT; lia].
  - split; [apply Ho|exact Ho4| |].
    + rewrite (view_times m m1 a c (ld16 m (a + STATUS)) Ha Ho4 Hc); [unfold tick; by rewrite Hf|].
      apply (page_ld16 (a + COUNTDOWN) 2); [apply Ho|apply in_struct; unfold STATUS; (done || lia)|unfold COUNTDOWN, STATUS; lia].
    + intros q Hq. rewrite Hf. by apply Ho.
Qed.

(** The stores of a structure that fires: the byte shown, the new time, the
    status. *)
Lemma tasklet_stores v a m1 ch dx :
  node blink_array a → video_at v m1 → 0 <= ch < 256 → 0 <= dx < 65536 →
  let m2 := mp1_poke vmem_base_addr (2 * ld16 m1 (a + LOCATION)) ch m1 in
  let m3 := st16 m2 (a + COUNTDOWN) dx in
  let m4 := st16 m3 (a + STATUS) (Z.lxor (ld16 m3 (a + STATUS)) 1) in
  upage m4 = upage m1 ∧ page_only (a + COUNTDOWN) 4 m1 m4 ∧
  (∀ b, in_page b 2 → ld16 m2 b = ld16 m1 b) ∧
  ld16 m4 (a + COUNTDOWN) = dx ∧ ld16 m4 (a + STATUS) = Z.lxor (ld16 m1 (a + STATUS)) 1 ∧
  ∀ q, elsewhere m1 q → peek m4 q = if q =? v + 2 * ld16 m1 (a + LOCATION) then ch else peek m1 q.
Proof using Hgl.
  intros Hn Hv Hch Hdx m2 m3 m4. destruct (node_page a Hn) as (Ha & _ & _).
  assert (Hc2 : in_page (a + COUNTDOWN) 2) by (apply in_struct; unfold COUNTDOWN; (done || lia)).
  assert (Hs2 : in_page (a + STATUS) 2) by (apply in_struct; unfold STATUS; (done || lia)).
  pose proof (ld16_range m1 (a + LOCATION)) as Hl.
  assert (S2 : shows (v + 2 * ld16 m1 (a + LOCATION)) ch m1 m2).
  { rewrite <- (u8_small ch) by done. apply poke_shows; [done|lia]. }
  assert (O3 : only (a + COUNTDOWN) 2 m2 m3) by (by apply only_st16).
  assert (O4 : only (a + STATUS) 2 m3 m4) by (by apply only_st16).
  assert (Hst : ld16 m3 (a + STATUS) = ld16 m1 (a + STATUS)).
  { rewrite (page_ld16 _ _ m2 m3 _ (on_page _ _ _ _ O3) Hs2) by (unfold COUNTDOWN, STATUS; lia).
    apply (page_ld16 0 0); [by apply (shows_page _ _ _ _ _ _ S2)|done|unfold in_page, PROGRAM_PAGE in *; lia]. }
  split; [by rewrite (on_upage _ _ _ _ O4), (on_upage _ _ _ _ O3), (sh_upage _ _ _ _ S2)|]. split; [|split; [|split; [|split]]].
  - apply (page_trans _ _ _ m2); [by apply (shows_page _ _ _ _ _ _ S2)|]. apply (page_trans _ _ _ m3).
    + apply (page_widen (a + COUNTDOWN) 2); [apply O3|lia|lia].
    + apply (page_widen (a + STATUS) 2); [apply O4|unfold COUNTDOWN, STATUS; lia|unfold COUNTDOWN, STATUS; lia].
  - intros b Hb. apply (page_ld16 0 0); [by apply (shows_page _ _ _ _ _ _ S2)|done|unfold in_page, PROGRAM_PAGE in *; lia].
  - rewrite (page_ld16 _ _ m3 m4 _ (on_page _ _ _ _ O4) Hc2) by (unfold COUNTDOWN, STATUS; lia).
    unfold m3. rewrite ld16_st16 by done. by apply u16_small.
  - unfold m4. rewrite ld16_st16, Hst by done. apply lxor_1_small, ld16_range.
  - intros q Hq. rewrite (on_else _ _ _ _ O4), (on_else _ _ _ _ O3); unfold elsewhere in *;
      rewrite ?(on_upage _ _ _ _ O3), ?(sh_upage _ _ _ _ S2); try done. by apply (sh_else _ _ _ _ S2).
Qed.

Lemma tasklet_fires v a m :
  node blink_array a → video_at v m → fires (view m a) = true →
  ∃ m', tasklet_step vmem_base_addr (a, m) = inl (ld32 m (a + NEXT), m') ∧ ticked v a m m'.
Proof using Hgl.
  intros Hn Hv Hf. destruct (node_page a Hn) as (Ha & Hlo & Hhi). pose proof Ha as (Ha1 & _ & Ha3).
  set (c := u16 (ld16 m (a + COUNTDOWN) - 1)). set (m1 := st16 m (a + COUNTDOWN) c).
  assert (Hc2 : in_page (a + COUNTDOWN) 2) by (apply in_struct; unfold COUNTDOWN; (done || lia)).
  assert (Hc : ld16 m1 (a + COUNTDOWN) = c) by (unfold m1; rewrite ld16_st16 by done; apply u16_small, u16_range).
  assert (Ho : only (a + COUNTDOWN) 2 m m1) by (by apply only_st16).
  assert (Ho4 : page_only (a + COUNTDOWN) 4 m m1) by (apply (page_widen (a + COUNTDOWN) 2); [apply Ho|lia|lia]).
  assert (Hst1 : ld16 m1 (a + STATUS) = ld16 m (a + STATUS)).
  { apply (page_ld16 (a + COUNTDOWN) 2); [apply Ho|apply in_struct; unfold STATUS; (done || lia)|unfold COUNTDOWN, STATUS; lia]. }
  assert (Hv1 : video_at v m1).
  { apply (video_only v _ _ m m1 Ho); [|done]. pose proof (gl_array_vmem Hgl). unfold COUNTDOWN. lia. }
  pose proof (view_times m m1 a c (ld16 m (a + STATUS)) Ha Ho4 Hc Hst1) as Hview.
  assert (Hb : ∀ (f : blink → Z), (∀ b x y, f (set_times b x y) = f b) → f (view m1 a) = f (view m a)) by (intros f Hff; by rewrite Hview).
  pose proof (Hb b_location ltac:(done)) as Hloc. pose proof (Hb b_on_char ltac:(done)) as Hon. pose proof (Hb b_off_char ltac:(done)) as Hoff.
  pose proof (Hb b_on_length ltac:(done)) as Honl. pose proof (Hb b_off_length ltac:(done)) as Hoffl. clear Hb.
  cbn [view b_location b_on_char b_off_char b_on_length b_off_length] in Hloc, Hon, Hoff, Honl, Hoffl.
  set (ch := other_char (view m a)). set (dx := if is_on (view m a) then b_off_length (view m a) else b_on_length (view m a)).
  assert (Hch : 0 <= ch < 256) by (unfold ch, other_char; destruct (is_on _); apply ld8_range).
  assert (Hdx : 0 <= dx < 65536) by (unfold dx; destruct (is_on _); apply ld16_range).
  destruct (tasklet_stores v a m1 ch dx Hn Hv1 Hch Hdx) as (U4 & P4 & H2 & C4 & S4 & E4). cbv zeta in *.
  set (m2 := mp1_poke _ _ _ m1) in *. set (m3 := st16 m2 _ dx) in *. set (m4 := st16 m3 _ _) in *.
  assert (P : page_only (a + COUNTDOWN) 4 m m4) by (by apply (page_trans _ _ _ m1)).
  exists m4. split.
  - unfold tasklet_step. destruct (Z.eqb_spec a 0); [unfold PROGRAM_PAGE in Ha1; lia|]. fold c. fold m1. rewrite Hc.
    unfold fires in Hf. cbn [b_countdown view] in Hf. fold c in Hf. apply negb_true_iff in Hf. rewrite Hf, Hst1.
    assert (Hn4 : ld32 m4 (a + NEXT) = ld32 m (a + NEXT)).
    { apply (page_ld32 (a + COUNTDOWN) 4); [exact P|apply in_struct; unfold NEXT; (done || lia)|unfold COUNTDOWN, NEXT; lia]. }
    assert (Hpair : (if Z.land (ld16 m (a + STATUS)) 1 =? 0
        then let m := mp1_poke vmem_base_addr (2 * ld16 m1 (a + LOCATION)) (ld8 m1 (a + ON_CHAR)) m1 in (ld16 m (a + ON_LENGTH), m)
        else let m := mp1_poke vmem_base_addr (2 * ld16 m1 (a + LOCATION)) (ld8 m1 (a + OFF_CHAR)) m1 in (ld16 m (a + OFF_LENGTH), m)) = (dx, m2)).
    { unfold m2, dx, ch, other_char, is_on in *. cbn [view b_status b_on_char b_off_char b_on_length b_off_length] in *.
      destruct (Z.land (ld16 m (a + STATUS)) 1 =? 0); cbn [negb] in *; rewrite ?Hon, ?Hoff; cbv zeta; f_equal; fold m2.
      - rewrite <- Honl. apply H2, in_struct; unfold ON_LENGTH; (done || lia).
      - rewrite <- Hoffl. apply H2, in_struct; unfold OFF_LENGTH; (done || lia). }
    cbv zeta in Hpair. rewrite Hpair. fold m3. fold m4. by rewrite Hn4.
  - split; [by rewrite U4, (on_upage _ _ _ _ Ho)|exact P| |].
    + rewrite (view_times m m4 a dx (Z.lxor (ld16 m (a + STATUS)) 1) Ha P C4); [|by rewrite S4, Hst1].
      unfold tick. by rewrite Hf.
    + intros q Hq. rewrite Hf, E4 by (unfold elsewhere in *; by rewrite (on_upage _ _ _ _ Ho)). rewrite Hloc. cbn [andb].
      change (b_location (view m a)) with (ld16 m (a + LOCATION)). destruct (_ =? _); [done|]. by apply Ho.
Qed.

Lemma tasklet_turn v a m :
  node blink_array a → video_at v m →
  ∃ m', tasklet_step vmem_base_addr (a, m) = inl (ld32 m (a + NEXT), m') ∧ ticked v a m m'.
Proof using Hgl.
  intros Hn Hv. destruct (fires (view m a)) eqn:Hf; [by apply tasklet_fires|by apply tasklet_waits].
Qed.

(** ** The list *)

Fixpoint chain (m : memory) (p : Z) (l : list Z) : Prop :=
  match l with [] => p = 0 | a :: l' => p = a ∧ chain m (ld32 m (a + NEXT)) l' end.

(** The structures [bs], at the addresses [l] in order; the elements of the array
    in use are those whose location is not 0. *)
Record blinking (l : list Z) (bs : list blink) (m : memory) : Prop := {
  bk_chain : chain m (ld32 m mp1_list_head) l;
  bk_nodes : Forall (node blink_array) l;
  bk_nodup : NoDup l;
  bk_views : view m <$> l = bs;
  bk_used : Forall (λ b, 0 < b_location b < SCREEN_CELLS) bs;
  bk_free : ∀ a, node blink_array a → a ∉ l → b_location (view m a) = 0;
}.

Lemma chain_ext m m' p l :
  (∀ a, a ∈ l → ld32 m' (a + NEXT) = ld32 m (a + NEXT)) → chain m p l → chain m' p l.
Proof.
  revert p. induction l as [|a l IH]; intros p H; [done|]. cbn. intros [-> Hc]. split; [done|].
  rewrite H by (by left). apply IH; [|done]. intros b Hb. apply H. by right.
Qed.

Lemma nodes_length l : Forall (node blink_array) l → NoDup l → (length l <= 2000)%nat.
Proof.
  intros Hn Hd. set (all := (λ i, blink_array + STRUCT_SIZE * i) <$> seqZ 0 2000).
  assert (Hs : l ⊆+ all).
  { apply NoDup_submseteq; [done|]. intros a Ha. rewrite list.Forall_forall in Hn.
    destruct (Hn a Ha) as (i & Hi & ->). apply list_elem_of_fmap. exists i. split; [done|]. apply elem_of_seqZ. lia. }
  apply submseteq_length in Hs. unfold all in Hs. rewrite length_fmap, length_seqZ in Hs. lia.
Qed.

(** A turn keeps the other structures and every pointer. *)
Lemma ticked_others v a b m m' :
  node blink_array a → node blink_array b → a ≠ b → ticked v a m m' → view m' b = view m b.
Proof using Hgl.
  intros Ha Hb Hne Ht. destruct (node_page b Hb) as (Hpb & _ & _). destruct (node_apart a b Ha Hb Hne);
    apply (page_view (a + COUNTDOWN) 4 m m' b (tk_page _ _ _ _ Ht) Hpb); unfold COUNTDOWN, NEXT; lia.
Qed.

Lemma ticked_next v a b m m' :
  node blink_array a → node blink_array b → ticked v a m m' → ld32 m' (b + NEXT) = ld32 m (b + NEXT).
Proof using Hgl.
  intros Ha Hb Ht. destruct (node_page b Hb) as (Hpb & _ & _).
  assert (Hbn : in_page (b + NEXT) 4) by (apply in_struct; unfold NEXT; (done || lia)).
  apply (page_ld32 _ _ _ _ _ (tk_page _ _ _ _ Ht) Hbn). unfold COUNTDOWN, NEXT.
  destruct (decide (a = b)) as [->|Hne]; [lia|]. pose proof (node_apart a b Ha Hb Hne). lia.
Qed.

Lemma ticked_globals v a m m' :
  node blink_array a → ticked v a m m' → video_at v m → video_at v m' ∧ ld32 m' mp1_list_head = ld32 m mp1_list_head.
Proof using Hgl.
  intros Ha Ht [Hv H1 H2 H3]. destruct (node_page a Ha) as (_ & Hlo & Hhi). split.
  - split; [|done|done|by rewrite (tk_upage _ _ _ _ Ht)].
    rewrite (page_ld32 _ _ m m' _ (tk_page _ _ _ _ Ht) (gl_vmem Hgl)); [done|]. pose proof (gl_array_vmem Hgl). unfold COUNTDOWN. lia.
  - apply (page_ld32 _ _ m m' _ (tk_page _ _ _ _ Ht) (gl_head Hgl)). pose proof (gl_array_head Hgl). unfold COUNTDOWN. lia.
Qed.

(** Between two turns: [l1] has been visited, [l2] is to come. *)
Record between (v : Z) (m0 : memory) (l1 l2 : list Z) (p : Z) (m : memory) : Prop := {
  bw_video : video_at v m;
  bw_upage : upage m = upage m0;
  bw_head : ld32 m mp1_list_head = ld32 m0 mp1_list_head;
  bw_next : ∀ b, node blink_array b → ld32 m (b + NEXT) = ld32 m0 (b + NEXT);
  bw_chain : chain m p l2;
  bw_done : view m <$> l1 = tick <$> (view m0 <$> l1);
  bw_todo : view m <$> l2 = view m0 <$> l2;
  bw_free : ∀ b, node blink_array b → b ∉ l1 ++ l2 → view m b = view m0 b;
  bw_else : ∀ q, elsewhere m0 q → peek m q = tick_video v (view m0 <$> l1) (peek m0) q;
}.

Lemma between_turn v m0 l1 a l2 p m :
  Forall (node blink_array) (l1 ++ a :: l2) → NoDup (l1 ++ a :: l2) → between v m0 l1 (a :: l2) p m →
  ∃ p' m', tasklet_step vmem_base_addr (p, m) = inl (p', m') ∧ between v m0 (l1 ++ [a]) l2 p' m'.
Proof using Hgl.
  intros Hn Hd [Hv Hu Hh Hnx [-> Hc] Hdone Htodo Hfree Hel]. apply Forall_app in Hn as [Hn1 Hn2]. inversion_clear Hn2 as [|? ? Ha Hn2'].
  apply list.NoDup_app in Hd as (Hd1 & Hd12 & Hd2). apply list.NoDup_cons in Hd2 as [Hnot Hd2].
  rewrite list.Forall_forall in Hn1, Hn2'.
  destruct (tasklet_turn v a m Ha Hv) as (m' & E & Ht). destruct (ticked_globals v a m m' Ha Ht Hv) as [Hv' Hh'].
  pose proof (f_equal (hd (view m a)) Htodo) as Hva. apply (f_equal (@tl blink)) in Htodo. cbn [fmap list_fmap hd tl] in Hva, Htodo. exists (ld32 m (a + NEXT)), m'. split; [exact E|]. split.
  - exact Hv'.
  - by rewrite (tk_upage _ _ _ _ Ht).
  - by rewrite Hh'.
  - intros b Hb. by rewrite (ticked_next v a b m m' Ha Hb Ht), Hnx.
  - apply (chain_ext m m' _ l2); [|exact Hc]. intros b Hb. by apply (ticked_next v a b m m' Ha (Hn2' b Hb) Ht).
  - rewrite !fmap_app. f_equal.
    + rewrite <- Hdone. apply list_fmap_ext. intros i b Hb. apply list_elem_of_lookup_2 in Hb.
      apply (ticked_others v a b m m' Ha (Hn1 b Hb)); [|exact Ht]. intros ->. apply (Hd12 b Hb). by left.
    + cbn. by rewrite (tk_view _ _ _ _ Ht), Hva.
  - rewrite <- Htodo. apply list_fmap_ext. intros i b Hb. apply list_elem_of_lookup_2 in Hb.
    apply (ticked_others v a b m m' Ha (Hn2' b Hb)); [|exact Ht]. by intros ->.
  - intros b Hb Hnb. rewrite <- app_assoc in Hnb. rewrite <- (Hfree b Hb Hnb).
    apply (ticked_others v a b m m' Ha Hb); [|exact Ht]. intros <-. apply Hnb, elem_of_app. right. by left.
  - intros q Hq. rewrite (tk_else _ _ _ _ Ht), Hva, fmap_app by (unfold elsewhere in *; by rewrite Hu). cbn [fmap list_fmap].
    rewrite tick_video_snoc. by rewrite Hel.
Qed.

Lemma between_all v m0 l1 l2 p m :
  Forall (node blink_array) (l1 ++ l2) → NoDup (l1 ++ l2) → between v m0 l1 l2 p m →
  ∃ m', nat_iter (tasklet_step vmem_base_addr) (length l2) (p, m) = inl (0, m') ∧ between v m0 (l1 ++ l2) [] 0 m'.
Proof using Hgl.
  revert l1 p m. induction l2 as [|a l2 IH]; intros l1 p m Hn Hd Hb.
  - rewrite app_nil_r. pose proof (bw_chain _ _ _ _ _ _ Hb) as Hp. cbn in Hp. subst p. by exists m.
  - destruct (between_turn v m0 l1 a l2 p m Hn Hd Hb) as (p1 & m1 & E & Hb1).
    destruct (IH (l1 ++ [a]) p1 m1) as (m2 & E2 & Hb2); [by rewrite <- app_assoc..|exact Hb1|].
    rewrite <- app_assoc in Hb2. exists m2. split; [|exact Hb2]. cbn [length nat_iter]. by rewrite E.
Qed.

Lemma tasklet_run v l bs m :
  video_at v m → blinking l bs m →
  ∃ m', mp1_rtc_tasklet vmem_base_addr mp1_list_head m = Some m' ∧ blinking l (tick <$> bs) m' ∧ video_at v m' ∧
    upage m' = upage m ∧ ∀ q, elsewhere m q → peek m' q = tick_video v bs (peek m) q.
Proof using Hgl.
  intros Hv [Hc Hn Hd <- Hus Hfr]. pose proof (nodes_length l Hn Hd) as Hlen.
  destruct (between_all v m [] l (ld32 m mp1_list_head) m Hn Hd) as (m' & E & Hb); [by split|]. cbn [app] in Hb.
  exists m'. split; [|split; [split|split; [|split]]]; try apply Hb.
  - unfold mp1_rtc_tasklet. eapply (while_loop_steps _ (length l)); [exact E|done|unfold loop_bound; lia].
  - rewrite (bw_head _ _ _ _ _ _ Hb). apply (chain_ext m m' _ l); [|exact Hc]. intros a Ha. apply Hb.
    rewrite list.Forall_forall in Hn. by apply Hn.
  - exact Hn.
  - exact Hd.
  - apply Forall_fmap. eapply List.Forall_impl; [|exact Hus]. intros b Hub. cbn. unfold tick. by destruct (fires b).
  - intros a Ha Hal. rewrite (bw_free _ _ _ _ _ _ Hb a Ha) by (by rewrite app_nil_r). by apply Hfr.
Qed.

(** ** Finding *)

Fixpoint found (m : memory) (loc : Z) (l : list Z) : Z :=
  match l with [] => 0 | a :: l' => if ld16 m (a + LOCATION) =? loc then a else found m loc l' end.

Definition find_step (arg : Z) (m : memory) (ebx : Z) : Z + Z :=
  if ebx =? 0 then inr 0
  else if ld16 m (ebx + LOCATION) =? u16 arg then inr ebx
  else inl (ld32 m (ebx + NEXT)).

Lemma node_nonzero a : node blink_array a → a ≠ 0.
Proof using Hgl. intros Ha. destruct (node_page a Ha) as ((H1 & _) & _). unfold PROGRAM_PAGE in H1. lia. Qed.

Lemma find_stops arg m p l :
  chain m p l → Forall (node blink_array) l →
  ∃ n t, (n <= length l)%nat ∧ nat_iter (find_step arg m) n p = inl t ∧ find_step arg m t = inr (found m (u16 arg) l).
Proof using Hgl.
  revert p. induction l as [|a l IH]; intros p Hc Hn.
  - cbn in Hc. subst p. by exists 0%nat, 0.
  - cbn in Hc. destruct Hc as [-> Hc]. inversion_clear Hn as [|? ? Ha Hn']. pose proof (node_nonzero a Ha) as Hz. apply Z.eqb_neq in Hz.
    destruct (ld16 m (a + LOCATION) =? u16 arg) eqn:Hl.
    + exists 0%nat, a. split; [lia|]. split; [done|]. unfold find_step. cbn [found]. by rewrite Hz, Hl.
    + destruct (IH _ Hc Hn') as (n & t & Hlen & E & Hs). exists (S n), t. split; [cbn; lia|]. split.
      * cbn [nat_iter]. unfold find_step at 1. by rewrite Hz, Hl.
      * rewrite Hs. cbn [found]. by rewrite Hl.
Qed.

Lemma find_run arg l bs m :
  blinking l bs m → mp1_find_helper mp1_list_head arg m = Some (found m (u16 arg) l).
Proof using Hgl.
  intros [Hc Hn Hd _ _ _]. pose proof (nodes_length l Hn Hd). destruct (find_stops arg m _ l Hc Hn) as (n & t & Hlen & E & Hs).
  apply (while_loop_steps (find_step arg m) n _ t); [exact E|exact Hs|lia].
Qed.

Lemma found_spec m loc l :
  Forall (node blink_array) l →
  (found m loc l = 0 ∧ Forall (λ a, ld16 m (a + LOCATION) ≠ loc) l) ∨
  ∃ l1 a l2, l = l1 ++ a :: l2 ∧ found m loc l = a ∧ node blink_array a ∧ ld16 m (a + LOCATION) = loc ∧
    Forall (λ b, ld16 m (b + LOCATION) ≠ loc) l1.
Proof.
  induction l as [|a l IH]; intros Hn; [by left|]. inversion_clear Hn as [|? ? Ha Hn']. cbn [found].
  destruct (Z.eqb_spec (ld16 m (a + LOCATION)) loc) as [E|E].
  - right. exists [], a, l. by split_and!.
  - destruct (IH Hn') as [[H1 H2]|(l1 & b & l2 & -> & H1 & H2 & H3 & H4)].
    + left. split; [done|]. by constructor.
    + right. exists (a :: l1), b, l2. split_and!; [done..|]. by constructor.
Qed.

(** ** Removing *)

Fixpoint remove_location (loc : Z) (bs : list blink) : list blink :=
  match bs with [] => [] | b :: bs' => if b_location b =? loc then bs' else b :: remove_location loc bs' end.

Definition prev_step (m : memory) (eax edx : Z) : Z + Z := if ld32 m edx =? eax then inr edx else inl (ld32 m edx + NEXT).

(** The pointer to the element at [a], whose redirection takes it out. *)
Lemma unlink m a l1 l2 edx :
  chain m (ld32 m edx) (l1 ++ a :: l2) → NoDup (l1 ++ a :: l2) →
  (∀ b, b ∈ l1 ++ a :: l2 → edx ≠ b + NEXT) →
  ∃ e, nat_iter (prev_step m a) (length l1) edx = inl e ∧ ld32 m e = a ∧ (e = edx ∨ ∃ b, b ∈ l1 ∧ e = b + NEXT) ∧
    ∀ m', ld32 m' e = ld32 m (a + NEXT) → (edx ≠ e → ld32 m' edx = ld32 m edx) →
      (∀ b, b ∈ l1 ++ l2 → b + NEXT ≠ e → ld32 m' (b + NEXT) = ld32 m (b + NEXT)) →
      chain m' (ld32 m' edx) (l1 ++ l2).
Proof.
  revert edx. induction l1 as [|b l1 IH]; intros edx Hc Hd Hne; cbn [app] in *.
  - destruct Hc as [He Hc]. exists edx. split; [done|]. split; [done|]. split; [by left|]. intros m' H1 _ H2.
    rewrite H1. apply (chain_ext m m' _ l2); [|exact Hc]. intros b Hb. apply H2; [done|]. intros E. symmetry in E.
    by apply (Hne b); [right|].
  - destruct Hc as [He Hc]. apply list.NoDup_cons in Hd as [Hnot Hd].
    assert (Hba : b ≠ a) by (intros ->; apply Hnot, elem_of_app; right; left).
    destruct (IH (b + NEXT) Hc Hd) as (e & E & Hea & Hin & Hch).
    { intros c Hcin Heq. apply Hnot. by replace b with c by (unfold NEXT in Heq; lia). }
    exists e. split; [|split; [exact Hea|split]].
    + cbn [length nat_iter]. unfold prev_step at 1. rewrite He. by destruct (Z.eqb_spec b a).
    + right. destruct Hin as [->|(c & Hc1 & ->)]; [exists b; split; [by left|done]|exists c; split; [by right|done]].
    + intros m' H1 H2 H3. assert (Hed : edx ≠ e).
      { destruct Hin as [->|(c & Hc1 & ->)]; apply Hne; [by left|]. right. apply elem_of_app. by left. }
      rewrite (H2 Hed). split; [exact He|]. apply Hch; [exact H1| |].
      * intros Hne'. apply H3; [by left|exact Hne'].
      * intros c Hcin. apply H3. by right.
Qed.

Lemma memset_only a c (n : nat) m : in_page a (Z.of_nat n) → only a (Z.of_nat n) m (for_up n 0 (λ i m, st8 m (a + i) c) m).
Proof. intros Ha. pose proof (fill_only a c n 0 m) as H. rewrite !Z.add_0_r in H. by apply H. Qed.

Lemma memset_bytes a c (n : nat) m i :
  in_page a (Z.of_nat n) → 0 <= i < Z.of_nat n → ld8 (for_up n 0 (λ i m, st8 m (a + i) c) m) (a + i) = u8 c.
Proof. intros Ha Hi. apply fill_bytes; [by rewrite Z.add_0_r|lia]. Qed.

Lemma memset_run a c n m :
  in_page a n → let m' := ece391_memset a c n m in only a n m m' ∧ ∀ i, 0 <= i < n → ld8 m' (a + i) = u8 c.
Proof.
  intros Ha. pose proof Ha as (_ & Hn & _). rewrite <- (Z2Nat.id n Hn) in Ha. unfold ece391_memset. split.
  - rewrite <- (Z2Nat.id n Hn) at 1. by apply memset_only.
  - intros i Hi. apply memset_bytes; [done|]. by rewrite Z2Nat.id.
Qed.

Lemma view_location m a : b_location (view m a) = ld16 m (a + LOCATION).
Proof. done. Qed.

Lemma view_on_char m a : b_on_char (view m a) = ld8 m (a + ON_CHAR).
Proof. done. Qed.

Lemma remove_views m loc l1 a l2 :
  Forall (λ b, ld16 m (b + LOCATION) ≠ loc) l1 → ld16 m (a + LOCATION) = loc →
  remove_location loc (view m <$> (l1 ++ a :: l2)) = view m <$> (l1 ++ l2).
Proof.
  intros Hn Ha. induction Hn as [|b l1 Hb _ IH]; cbn [app fmap list_fmap remove_location]; rewrite view_location.
  - by rewrite Ha, Z.eqb_refl.
  - apply Z.eqb_neq in Hb. rewrite Hb. f_equal. exact IH.
Qed.

Lemma not_found_views m loc l :
  Forall (λ b, ld16 m (b + LOCATION) ≠ loc) l → remove_location loc (view m <$> l) = view m <$> l.
Proof.
  intros Hn. induction Hn as [|b l Hb _ IH]; [done|]. cbn [fmap list_fmap remove_location]. rewrite view_location.
  apply Z.eqb_neq in Hb. rewrite Hb. f_equal. exact IH.
Qed.

(** The cell of a pointer of the list. *)
Definition cell (e : Z) : Prop := e = mp1_list_head ∨ ∃ b, node blink_array b ∧ e = b + NEXT.

Lemma cell_page e : cell e → in_page e 4.
Proof using Hgl.
  intros [->|(b & Hb & ->)]; [apply Hgl|]. destruct (node_page b Hb) as (Hp & _). apply in_struct; unfold NEXT; (done || lia).
Qed.

Lemma cell_apart e e' : cell e → cell e' → e ≠ e' → e + 4 <= e' ∨ e' + 4 <= e.
Proof using Hgl.
  pose proof (gl_array_head Hgl). intros [->|(b & Hb & ->)] [->|(c & Hc & ->)] Hne; [done|..].
  - destruct (node_page c Hc) as (_ & H1 & H2). unfold NEXT. lia.
  - destruct (node_page b Hb) as (_ & H1 & H2). unfold NEXT. lia.
  - assert (b ≠ c) as Hbc by (intros ->; done). pose proof (node_apart b c Hb Hc Hbc). unfold NEXT. lia.
Qed.

(** A cell is no part of what a view reads, nor, unless it is its own, of a
    structure. *)
Lemma cell_view e b : cell e → node blink_array b → b + NEXT <= e ∨ e + 4 <= b.
Proof using Hgl.
  pose proof (gl_array_head Hgl). intros [->|(c & Hc & ->)] Hb; destruct (node_page b Hb) as (_ & H1 & H2); unfold NEXT; [lia|].
  destruct (decide (b = c)) as [->|Hne]; [lia|]. pose proof (node_apart b c Hb Hc Hne). lia.
Qed.

Lemma cell_struct e a : cell e → node blink_array a → e ≠ a + NEXT → e + 4 <= a ∨ a + 16 <= e.
Proof using Hgl.
  pose proof (gl_array_head Hgl). intros [->|(c & Hc & ->)] Ha Hne; destruct (node_page a Ha) as (_ & H1 & H2); [lia|].
  assert (c ≠ a) as Hca by (intros ->; done). pose proof (node_apart c a Hc Ha Hca). unfold NEXT. lia.
Qed.

Lemma remove_effect m e a :
  cell e → node blink_array a → e ≠ a + NEXT →
  let m' := mp1_free a (st32 m e (ld32 m (a + NEXT))) in
  upage m' = upage m ∧ ld32 m' e = ld32 m (a + NEXT) ∧
  (∀ c, cell c → c ≠ e → c ≠ a + NEXT → ld32 m' c = ld32 m c) ∧
  (∀ b, node blink_array b → b ≠ a → view m' b = view m b) ∧ b_location (view m' a) = 0 ∧
  (∀ b, in_page b 4 → (b + 4 <= e ∨ e + 4 <= b) → (b + 4 <= a ∨ a + 16 <= b) → ld32 m' b = ld32 m b) ∧
  ∀ q, elsewhere m q → peek m' q = peek m q.
Proof using Hgl.
  intros He Ha Hne. set (m1 := st32 m e (ld32 m (a + NEXT))). intros m'.
  destruct (node_page a Ha) as (Hpa & _). pose proof (cell_page e He) as Hpe.
  assert (O1 : only e 4 m m1) by (by apply only_st32).
  assert (O2 : only a 16 m1 m') by (by apply (memset_only a 0 16)).
  assert (Hw : ∀ b, in_page b 4 → (b + 4 <= e ∨ e + 4 <= b) → (b + 4 <= a ∨ a + 16 <= b) → ld32 m' b = ld32 m b).
  { intros b Hb H1 H2. rewrite (page_ld32 a 16 m1 m' b (on_page _ _ _ _ O2) Hb H2).
    apply (page_ld32 e 4 m m1 b (on_page _ _ _ _ O1) Hb). lia. }
  split; [by rewrite (on_upage _ _ _ _ O2), (on_upage _ _ _ _ O1)|]. split; [|split; [|split; [|split; [|split; [exact Hw|]]]]].
  - rewrite (page_ld32 a 16 m1 m' e (on_page _ _ _ _ O2) Hpe (cell_struct e a He Ha Hne)). unfold m1.
    rewrite ld32_st32_same by (by apply page_seg4). apply u32_small, ld32_range.
  - intros c Hc Hce Hca. apply Hw; [by apply cell_page|by apply cell_apart|by apply cell_struct].
  - intros b Hb Hba. destruct (node_page b Hb) as (Hpb & _).
    assert (Hd : b + NEXT <= a ∨ a + 16 <= b) by (destruct (node_apart b a Hb Ha Hba); unfold NEXT; lia).
    rewrite (page_view a 16 m1 m' b (on_page _ _ _ _ O2) Hpb Hd).
    exact (page_view e 4 m m1 b (on_page _ _ _ _ O1) Hpb (cell_view e b He Hb)).
  - assert (H0 : ∀ i, 0 <= i < 16 → ld8 m' (a + i) = 0) by (intros i Hi; by apply (memset_bytes a 0 16 m1)).
    rewrite view_location. unfold ld16, LOCATION. rewrite <- Z.add_assoc. by rewrite !H0 by lia.
  - intros q Hq. rewrite (on_else _ _ _ _ O2), (on_else _ _ _ _ O1); [done|done|]. unfold elsewhere in *. by rewrite (on_upage _ _ _ _ O1).
Qed.

(** What an operation on the list leaves alone: the rest of the memory. *)
Definition rest_kept (m m' : memory) : Prop := upage m' = upage m ∧ ld32 m' vmem_base_addr = ld32 m vmem_base_addr.

Lemma remove_run arg l bs m :
  blinking l bs m →
  ∃ l' m', mp1_ioctl_remove mp1_list_head arg m =
      Some (if existsb (λ b, b_location b =? u16 arg) bs then 0 else -1, m') ∧
    blinking l' (remove_location (u16 arg) bs) m' ∧ rest_kept m m' ∧ ∀ q, elsewhere m q → peek m' q = peek m q.
Proof using Hgl.
  intros Hbk. pose proof (find_run arg l bs m Hbk) as Hfind. destruct Hbk as [Hc Hn Hd <- Hus Hfr].
  pose proof (nodes_length l Hn Hd) as Hlen. unfold mp1_ioctl_remove. rewrite Hfind, bind_some.
  destruct (found_spec m (u16 arg) l Hn) as [[-> Hall]|(l1 & a & l2 & Hl & -> & Ha & Hloc & Hpre)].
  - exists l, m. cbn [Z.eqb]. rewrite (not_found_views m (u16 arg) l Hall). split; [|split; [by split|by split]].
    replace (existsb _ _) with false; [done|]. symmetry. apply not_true_iff_false. rewrite existsb_exists.
    intros (b & Hb & E). apply list_elem_of_In, list_elem_of_fmap in Hb as (c & -> & Hcl). apply Z.eqb_eq in E.
    rewrite list.Forall_forall in Hall. by apply (Hall c Hcl).
  - subst l. pose proof (node_nonzero a Ha) as Hz. apply Z.eqb_neq in Hz. rewrite Hz.
    assert (Hmem : ∀ b, b ∈ l1 ++ l2 → node blink_array b ∧ b ≠ a).
    { intros b Hb. rewrite list.Forall_forall in Hn. split; [apply Hn; rewrite elem_of_app, elem_of_cons; apply elem_of_app in Hb; tauto|].
      intros ->. apply list.NoDup_app in Hd as (_ & H1 & H2). apply list.NoDup_cons in H2 as [H2 _].
      apply elem_of_app in Hb as [Hb|Hb]; [apply (H1 a Hb); by left|done]. }
    destruct (unlink m a l1 l2 mp1_list_head Hc Hd) as (e & E & Hea & Hin & Hch).
    { intros b Hb. rewrite list.Forall_forall in Hn. destruct (node_page b (Hn b Hb)) as (_ & H1 & H2). pose proof (gl_array_head Hgl). unfold NEXT. lia. }
    assert (He : cell e).
    { destruct Hin as [->|(b & Hb & ->)]; [by left|]. right. exists b. split; [|done]. apply Hmem, elem_of_app. by left. }
    assert (Hnea : e ≠ a + NEXT).
    { destruct Hin as [->|(b & Hb & ->)]; [destruct (node_page a Ha) as (_ & H1 & H2); pose proof (gl_array_head Hgl); unfold NEXT; lia|].
      destruct (Hmem b) as [_ Hba]; [apply elem_of_app; by left|]. lia. }
    change (while_loop _ mp1_list_head) with (while_loop (prev_step m a) mp1_list_head).
    rewrite (while_loop_steps (prev_step m a) (length l1) mp1_list_head e e), bind_some; [|exact E| |rewrite length_app in Hlen; lia].
    2:{ unfold prev_step. by rewrite Hea, Z.eqb_refl. }
    destruct (remove_effect m e a He Ha Hnea) as (Hu & H1 & H2 & H3 & H0 & H4 & H5). cbv zeta in *. set (m' := mp1_free a _) in *.
    exists (l1 ++ l2), m'. rewrite (remove_views m (u16 arg) l1 a l2 Hpre Hloc). split; [|split; [split|split; [split; [exact Hu|]|exact H5]]].
    + f_equal. replace (existsb _ _) with true; [done|]. symmetry. apply existsb_exists. exists (view m a).
      split; [|by apply Z.eqb_eq]. apply list_elem_of_In, list_elem_of_fmap. exists a. split; [done|]. apply elem_of_app. right. by left.
    + apply Hch; [exact H1| |].
      * intros Hne. apply H2; [by left|done|]. destruct (node_page a Ha) as (_ & B1 & B2). pose proof (gl_array_head Hgl). unfold NEXT. lia.
      * intros b Hb Hne. destruct (Hmem b Hb) as [Hnb Hba]. apply H2; [right; by exists b|done|lia].
    + apply list.Forall_forall. intros b Hb. by apply Hmem.
    + apply list.NoDup_app in Hd as (D1 & D2 & D3). apply list.NoDup_cons in D3 as [_ D3]. apply list.NoDup_app. split_and!; [done| |done].
      intros b Hb Hb2. apply (D2 b Hb). by right.
    + apply list_fmap_ext. intros i b Hb. apply list_elem_of_lookup_2 in Hb. destruct (Hmem b Hb). by apply H3.
    + rewrite fmap_app in Hus |- *. apply Forall_app in Hus as [U1 U2]. apply Forall_app. split; [exact U1|]. by inversion_clear U2.
    + intros c Hnc Hcl. destruct (decide (c = a)) as [->|Hca]; [exact H0|]. rewrite (H3 c Hnc Hca). apply (Hfr c Hnc).
      rewrite elem_of_app, elem_of_cons. rewrite elem_of_app in Hcl. tauto.
    + apply H4; [apply Hgl| |]; destruct (node_page a Ha) as (_ & B1 & B2); pose proof (gl_array_vmem Hgl); pose proof (gl_head_vmem Hgl); [|lia].
      destruct He as [->|(b & Hb & ->)]; [lia|]. destruct (node_page b Hb) as (_ & B3 & B4). unfold NEXT. lia.
Qed.

(** ** Adding *)

(** The list depends on the bytes of the array and of the head. *)
Lemma blinking_ext l bs m m' :
  (∀ b, blink_array <= b < blink_array + 32000 → ld8 m' b = ld8 m b) →
  (∀ b, mp1_list_head <= b < mp1_list_head + 4 → ld8 m' b = ld8 m b) → blinking l bs m → blinking l bs m'.
Proof using Hgl.
  intros H1 H2 [Hc Hn Hd <- Hu Hfr].
  assert (Hb : ∀ a o, node blink_array a → 0 <= o < 16 → ld8 m' (a + o) = ld8 m (a + o)).
  { intros a o Ha Ho. destruct (node_page a Ha) as (_ & B1 & B2). apply H1. lia. }
  assert (Hw : ∀ a o, node blink_array a → 0 <= o → o + 2 <= 16 → ld16 m' (a + o) = ld16 m (a + o)).
  { intros a o Ha Ho Ho2. unfold ld16. rewrite <- Z.add_assoc, !Hb by (done || lia). done. }
  assert (Hview : ∀ a, node blink_array a → view m' a = view m a).
  { intros a Ha. unfold view. unfold LOCATION, ON_CHAR, OFF_CHAR, ON_LENGTH, OFF_LENGTH, COUNTDOWN, STATUS. by rewrite !Hw, !Hb by (done || lia). }
  assert (Hn' := proj1 (list.Forall_forall _ _) Hn). split; [|exact Hn|exact Hd| |exact Hu|].
  - replace (ld32 m' mp1_list_head) with (ld32 m mp1_list_head) by (symmetry; apply ld32_ext; intros i Hi; apply H2; lia).
    apply (chain_ext m m' _ l); [|exact Hc]. intros a Ha. apply ld32_ext. intros i Hi. rewrite <- !Z.add_assoc. apply Hb; [by apply Hn'|unfold NEXT; lia].
  - apply list_fmap_ext. intros i a Ha. apply list_elem_of_lookup_2 in Ha. apply Hview, (Hn' a Ha).
  - intros a Ha Hal. rewrite (Hview a Ha). by apply Hfr.
Qed.

Lemma blinking_page l bs x n m m' :
  page_only x n m m' → (x + n <= blink_array ∨ blink_array + 32000 <= x) → (x + n <= mp1_list_head ∨ mp1_list_head + 4 <= x) →
  blinking l bs m → blinking l bs m'.
Proof using Hgl.
  intros Hp H1 H2. destruct (gl_array Hgl) as (A1 & _ & A3). destruct (gl_head Hgl) as (B1 & _ & B3).
  apply blinking_ext; intros b Hb; apply Hp; unfold in_bounds; lia.
Qed.

Lemma memcpy_page dest src (n : nat) m :
  in_page dest (Z.of_nat n) → in_page src (Z.of_nat n) → src + Z.of_nat n <= dest ∨ dest + Z.of_nat n <= src →
  let m' := for_up n 0 (λ i m, st8 m (dest + i) (ld8 m (src + i))) m in
  only dest (Z.of_nat n) m m' ∧ ∀ i, 0 <= i < Z.of_nat n → ld8 m' (dest + i) = ld8 m (src + i).
Proof.
  intros (D1 & _ & D3) (S1 & _ & S3) Hd m'.
  cut (only dest (Z.of_nat n) m m' ∧ ∀ i, 0 <= i < 0 + Z.of_nat n → ld8 m' (dest + i) = ld8 m (src + i)); [done|].
  apply (for_up_ind (λ j t, only dest (Z.of_nat n) m t ∧ ∀ i, 0 <= i < j → ld8 t (dest + i) = ld8 m (src + i))).
  - split; [apply only_refl|]. lia.
  - intros j t Hj [Ho Hi].
    assert (Hs : ld8 t (src + j) = ld8 m (src + j)) by (apply (on_page _ _ _ _ Ho); unfold in_bounds; lia).
    split.
    + apply (only_trans _ _ _ t); [exact Ho|]. apply (only_widen (dest + j) 1); [apply only_st8; unfold in_bounds; lia|lia|lia].
    + intros i Hij. rewrite ld8_st8, !phys_user, Hs by lia.
      destruct (Z.eqb_spec (upage t + (dest + i - PROGRAM_PAGE)) (upage t + (dest + j - PROGRAM_PAGE))).
      * replace i with j by lia. apply u8_small, ld8_range.
      * apply Hi. lia.
Qed.

Lemma view_copy m m' a b : (∀ i, 0 <= i < 16 → ld8 m' (a + i) = ld8 m (b + i)) → view m' a = view m b.
Proof.
  intros H. unfold view, ld16, LOCATION, ON_CHAR, OFF_CHAR, ON_LENGTH, OFF_LENGTH, COUNTDOWN, STATUS.
  rewrite <- !Z.add_assoc. by rewrite !H by lia.
Qed.

(** The structure as [mp1_ioctl_add] completes it, in its local. *)
Definition fresh (b : blink) : blink := set_times b (b_on_length b) 1.

Lemma fresh_view m a b :
  ld16 m (a + LOCATION) = b_location b → ld8 m (a + ON_CHAR) = b_on_char b → ld8 m (a + OFF_CHAR) = b_off_char b →
  ld16 m (a + ON_LENGTH) = b_on_length b → ld16 m (a + OFF_LENGTH) = b_off_length b → fresh (view m a) = fresh b.
Proof.
  intros H1 H2 H3 H4 H5. unfold fresh, set_times, view. cbn [b_location b_on_char b_off_char b_on_length b_off_length]. by rewrite H1, H2, H3, H4, H5.
Qed.

Lemma add_local_run arg m :
  in_page arg 16 → arg + 16 <= add_local ∨ add_local + 16 <= arg →
  let m1 := (ece391_memcpy add_local arg STRUCT_SIZE m).2 in
  let m2 := st16 m1 (add_local + STATUS) 1 in
  let m3 := st16 m2 (add_local + COUNTDOWN) (ld16 m2 (add_local + ON_LENGTH)) in
  only add_local 16 m m1 ∧ view m1 add_local = view m arg ∧ only add_local 16 m m3 ∧ view m3 add_local = fresh (view m arg).
Proof using Hgl.
  intros Ha Hd. destruct (memcpy_page add_local arg 16 m (gl_local Hgl) Ha Hd) as [O1 B1]. cbv zeta in *.
  change (ece391_memcpy add_local arg STRUCT_SIZE m).2 with (for_up 16 0 (λ i m, st8 m (add_local + i) (ld8 m (arg + i))) m).
  set (m1 := for_up 16 0 _ m) in *. set (m2 := st16 m1 (add_local + STATUS) 1).
  set (m3 := st16 m2 (add_local + COUNTDOWN) (ld16 m2 (add_local + ON_LENGTH))). clearbody m1.
  assert (Hf : ∀ o, 0 <= o → o + 2 <= 16 → in_page (add_local + o) 2) by (intros o H1 H2; apply in_struct; [apply Hgl|lia..]).
  assert (Hv1 : view m1 add_local = view m arg) by (by apply view_copy).
  assert (O2 : only (add_local + STATUS) 2 m1 m2) by (apply only_st16, Hf; unfold STATUS; lia).
  assert (O3 : only (add_local + COUNTDOWN) 2 m2 m3) by (apply only_st16, Hf; unfold COUNTDOWN; lia).
  assert (O13 : only (add_local + COUNTDOWN) 4 m1 m3).
  { apply (only_trans _ _ _ m2); [apply (only_widen _ _ _ _ _ _ O2)|apply (only_widen _ _ _ _ _ _ O3)]; unfold COUNTDOWN, STATUS; lia. }
  assert (Hlen : ld16 m2 (add_local + ON_LENGTH) = b_on_length (view m arg)).
  { rewrite <- Hv1. apply (page_ld16 _ _ m1 m2 _ (on_page _ _ _ _ O2)); [apply Hf; unfold ON_LENGTH; lia|unfold ON_LENGTH, STATUS; lia]. }
  split; [exact O1|]. split; [exact Hv1|]. split.
  - apply (only_trans _ _ _ m1); [exact O1|]. apply (only_widen _ _ _ _ _ _ O13); unfold COUNTDOWN; lia.
  - unfold fresh. rewrite <- Hv1. apply view_times; [apply Hgl|apply O13| |].
    + unfold m3. rewrite ld16_st16 by (apply Hf; unfold COUNTDOWN; lia). rewrite Hlen, <- Hv1. apply u16_small, ld16_range.
    + rewrite (page_ld16 _ _ m2 m3 _ (on_page _ _ _ _ O3)); [|apply Hf; unfold STATUS; lia|unfold COUNTDOWN, STATUS; lia].
      unfold m2. by rewrite ld16_st16 by (apply Hf; unfold STATUS; lia).
Qed.

Lemma malloc_spec m :
  mp1_malloc blink_array m = 0 ∨
  node blink_array (mp1_malloc blink_array m) ∧ ld16 m (mp1_malloc blink_array m + LOCATION) = 0.
Proof.
  unfold mp1_malloc. destruct (find_first _ _ _) as [i|] eqn:Hf; [right|by left].
  apply find_first_spec in Hf as (Hi & H0 & _). split; [exists i; split; [lia|done]|by apply Z.eqb_eq].
Qed.

Lemma malloc_kept x n m m' :
  page_only x n m m' → (x + n <= blink_array ∨ blink_array + 32000 <= x) → mp1_malloc blink_array m' = mp1_malloc blink_array m.
Proof using Hgl.
  intros Hp Hd. unfold mp1_malloc. erewrite find_first_ext; [done|]. intros i Hi. cbn beta.
  destruct (node_page (blink_array + STRUCT_SIZE * i)) as (Ha & B1 & B2); [exists i; split; [lia|done]|].
  rewrite (page_ld16 x n m m' _ Hp); [done|apply in_struct; unfold LOCATION; (done || lia)|unfold LOCATION; lia].
Qed.

Lemma unused_fresh l bs m a : blinking l bs m → ld16 m (a + LOCATION) = 0 → a ∉ l.
Proof.
  intros [_ _ _ <- Hu _] H0 Ha. rewrite list.Forall_forall in Hu. specialize (Hu (view m a)).
  rewrite view_location, H0 in Hu. destruct Hu; [|lia]. apply list_elem_of_fmap. by exists a.
Qed.

(** The structure at [a] in front of the list, which goes on with what was its
    head. *)
Record inserted (a : Z) (b : blink) (m m' : memory) : Prop := {
  in_head : ld32 m' mp1_list_head = a;
  in_next : ld32 m' (a + NEXT) = ld32 m mp1_list_head;
  in_view : view m' a = b;
  in_others : ∀ c, node blink_array c → a ≠ c → view m' c = view m c ∧ ld32 m' (c + NEXT) = ld32 m (c + NEXT);
}.

(** The page outside the variables of the list and the local. *)
Definition page_kept (m m' : memory) : Prop :=
  ∀ b, in_bounds b → (b < blink_array ∨ blink_array + 32000 <= b) → (b < mp1_list_head ∨ mp1_list_head + 4 <= b) →
    (b < add_local ∨ add_local + 16 <= b) → ld8 m' b = ld8 m b.

(** The stores that put the local in front of the list. *)
Lemma insert_run m a :
  node blink_array a →
  let m1 := (ece391_memcpy a add_local STRUCT_SIZE m).2 in
  let m2 := st32 m1 (a + NEXT) (ld32 m1 mp1_list_head) in
  let m3 := st32 m2 mp1_list_head a in
  inserted a (view m add_local) m m3 ∧ rest_kept m m3 ∧ page_kept m m3 ∧ ∀ q, elsewhere m q → peek m3 q = peek m q.
Proof using Hgl.
  intros Ha. destruct (node_page a Ha) as (Hpa & A1 & A2). pose proof (gl_array_head Hgl) as G1. pose proof (gl_array_vmem Hgl) as G2.
  pose proof (gl_array_local Hgl) as G3. pose proof (gl_head_vmem Hgl) as G4. pose proof (gl_head_local Hgl) as G5.
  destruct (memcpy_page a add_local 16 m Hpa (gl_local Hgl) ltac:(lia)) as [O1 B1]. cbv zeta in *.
  change (ece391_memcpy a add_local STRUCT_SIZE m).2 with (for_up 16 0 (λ i m, st8 m (a + i) (ld8 m (add_local + i))) m).
  set (m1 := for_up 16 0 _ m) in *. set (m2 := st32 m1 (a + NEXT) (ld32 m1 mp1_list_head)). set (m3 := st32 m2 mp1_list_head a). clearbody m1.
  assert (Hpn : in_page (a + NEXT) 4) by (apply in_struct; unfold NEXT; (done || lia)).
  assert (O2 : only (a + NEXT) 4 m1 m2) by (by apply only_st32).
  assert (O3 : only mp1_list_head 4 m2 m3) by (apply only_st32, Hgl).
  assert (O12 : only a 16 m m2) by (apply (only_trans _ _ _ m1); [exact O1|]; apply (only_widen _ _ _ _ _ _ O2); unfold NEXT; lia).
  assert (Hhead : ld32 m1 mp1_list_head = ld32 m mp1_list_head) by (apply (page_ld32 _ _ m m1 _ (on_page _ _ _ _ O1) (gl_head Hgl)); lia).
  split; [split|split; [split|split]].
  - unfold m3. rewrite ld32_st32_same by (apply page_seg4, Hgl). apply u32_small. destruct Hpa as (P1 & _ & P3). unfold PROGRAM_PAGE, PROGRAM_PAGE_END in *. lia.
  - rewrite (page_ld32 _ _ m2 m3 _ (on_page _ _ _ _ O3) Hpn) by (unfold NEXT; lia).
    unfold m2. rewrite ld32_st32_same, u32_small, Hhead by ((by apply page_seg4) || apply ld32_range). done.
  - rewrite (page_view _ _ m2 m3 a (on_page _ _ _ _ O3) Hpa) by (unfold NEXT; lia).
    rewrite (page_view _ _ m1 m2 a (on_page _ _ _ _ O2) Hpa) by lia. by apply view_copy.
  - intros b Hnb Hab. destruct (node_page b Hnb) as (Hpb & B2 & B3). pose proof (node_apart a b Ha Hnb Hab) as Hap. split.
    + rewrite (page_view _ _ m2 m3 b (on_page _ _ _ _ O3) Hpb) by (unfold NEXT; lia).
      apply (page_view _ _ m m2 b (on_page _ _ _ _ O12) Hpb). unfold NEXT. lia.
    + assert (Hpbn : in_page (b + NEXT) 4) by (apply in_struct; unfold NEXT; (done || lia)).
      rewrite (page_ld32 _ _ m2 m3 _ (on_page _ _ _ _ O3) Hpbn) by (unfold NEXT; lia).
      apply (page_ld32 _ _ m m2 _ (on_page _ _ _ _ O12) Hpbn). unfold NEXT. lia.
  - by rewrite (on_upage _ _ _ _ O3), (on_upage _ _ _ _ O12).
  - rewrite (page_ld32 _ _ m2 m3 _ (on_page _ _ _ _ O3) (gl_vmem Hgl)) by lia.
    apply (page_ld32 _ _ m m2 _ (on_page _ _ _ _ O12) (gl_vmem Hgl)). lia.
  - intros b Hb D1 D2 D3. rewrite (on_page _ _ _ _ O3), (on_page _ _ _ _ O12); [done|done|lia|done|lia].
  - intros q Hq. rewrite (on_else _ _ _ _ O3), (on_else _ _ _ _ O12); [done|done|].
    unfold elsewhere in *. by rewrite (on_upage _ _ _ _ O12).
Qed.

Lemma inserted_blinking l bs m a b m' :
  blinking l bs m → node blink_array a → ld16 m (a + LOCATION) = 0 → 0 < b_location b < SCREEN_CELLS →
  inserted a b m m' → blinking (a :: l) (b :: bs) m'.
Proof.
  intros Hbk Ha H0 Hloc [Hh Hx Hv Ho]. pose proof (unused_fresh l bs m a Hbk H0) as Hnot. destruct Hbk as [Hc Hn Hd <- Hu Hfr].
  assert (Hkeep : ∀ b, b ∈ l → view m' b = view m b ∧ ld32 m' (b + NEXT) = ld32 m (b + NEXT)).
  { intros c Hc'. apply Ho; [by apply (proj1 (list.Forall_forall _ _) Hn)|by intros ->]. }
  split.
  - rewrite Hh. cbn [chain]. split; [done|]. rewrite Hx. apply (chain_ext m m' _ l); [|exact Hc]. intros c Hc'. by apply Hkeep.
  - by constructor.
  - by apply list.NoDup_cons.
  - cbn [fmap list_fmap]. rewrite Hv. f_equal. apply list_fmap_ext. intros i c Hc'. apply list_elem_of_lookup_2 in Hc'. by apply Hkeep.
  - by constructor.
  - intros c Hcn Hcl. apply not_elem_of_cons in Hcl as [Hca Hcl]. destruct (Ho c Hcn) as [-> _]; [by intros ->|]. by apply Hfr.
Qed.

(** What shows a byte changes nothing in the page. *)
Lemma inserted_shown a b m m1 m' p c :
  node blink_array a → inserted a b m m1 → shows p c m1 m' → inserted a b m m'.
Proof using Hgl.
  intros Ha [H1 H2 H3 H4] Hs. pose proof (shows_page _ _ _ _ 0 0 Hs) as Hp.
  assert (Hw : ∀ d, in_page d 4 → ld32 m' d = ld32 m1 d) by (intros d Hd; apply (page_ld32 0 0 _ _ _ Hp Hd); destruct Hd as (D1 & _); unfold PROGRAM_PAGE in D1; lia).
  assert (Hv : ∀ d, node blink_array d → view m' d = view m1 d ∧ ld32 m' (d + NEXT) = ld32 m1 (d + NEXT)).
  { intros d Hd. destruct (node_page d Hd) as (Hpd & _). split; [|apply Hw, in_struct; unfold NEXT; (done || lia)].
    apply (page_view 0 0 _ _ _ Hp Hpd). destruct Hpd as (D1 & _). unfold PROGRAM_PAGE, NEXT in *. lia. }
  split; [by rewrite (Hw _ (gl_head Hgl))|by rewrite (proj2 (Hv a Ha))|by rewrite (proj1 (Hv a Ha))|].
  intros d Hd Hne. destruct (Hv d Hd) as [-> ->]. by apply H4.
Qed.

Lemma memcpy_pair d c n m : ece391_memcpy d c n m = (0, (ece391_memcpy d c n m).2).
Proof. reflexivity. Qed.

Lemma rest_video v m m' : rest_kept m m' → video_at v m → video_at v m'.
Proof. intros [H1 H2] [V1 V2 V3 V4]. split; [by rewrite H2|done|done|by rewrite H1]. Qed.

Lemma shown_video v p c m m' : shows p c m m' → video_at v m → video_at v m'.
Proof using Hgl.
  intros Hs. apply rest_video. split; [apply Hs|].
  apply (page_ld32 0 0); [by apply (shows_page _ _ _ _ _ _ Hs)|apply Hgl|destruct (gl_vmem Hgl) as (P1 & _); unfold PROGRAM_PAGE in P1; lia].
Qed.

Lemma shown_blinking l bs p c m m' : shows p c m m' → blinking l bs m → blinking l bs m'.
Proof using Hgl.
  intros Hs. apply (blinking_page _ _ 0 0 m m'); [by apply (shows_page _ _ _ _ _ _ Hs)| |].
  - destruct (gl_array Hgl) as (P1 & _). unfold PROGRAM_PAGE in P1. lia.
  - destruct (gl_head Hgl) as (P1 & _). unfold PROGRAM_PAGE in P1. lia.
Qed.

(** The call refuses, having changed its local alone, or inserts. *)
Lemma add_effect v arg m :
  video_at v m → in_page arg 16 → arg + 16 <= add_local ∨ add_local + 16 <= arg →
  let b := view m arg in let a := mp1_malloc blink_array m in
  ∃ r m', mp1_ioctl_add vmem_base_addr blink_array mp1_list_head add_local arg m = (r, m') ∧ video_at v m' ∧ upage m' = upage m ∧ page_kept m m' ∧
    if (SCREEN_CELLS <=? b_location b) || (a =? 0)
    then r = -1 ∧ only add_local 16 m m'
    else r = 0 ∧ inserted a (fresh b) m m' ∧
      ∀ q, elsewhere m q → peek m' q = if q =? v + 2 * b_location b then b_on_char b else peek m q.
Proof using Hgl.
  intros Hv Harg Hd b a. destruct (add_local_run arg m Harg Hd) as (O1 & V1 & O3 & V3). cbv zeta in *. fold b in V1, V3.
  pose proof (gl_array_local Hgl) as G1. pose proof (gl_head_local Hgl) as G2. pose proof (gl_vmem_local Hgl) as G3.
  assert (Hsame : ∀ t, only add_local 16 m t → video_at v t) by (intros t Ot; apply (video_only v _ _ m t Ot); [lia|exact Hv]).
  assert (Hpk : ∀ t, only add_local 16 m t → page_kept m t) by (intros t Ot c Hc _ _ D3; by apply Ot).
  unfold mp1_ioctl_add. rewrite (memcpy_pair add_local). cbv beta iota zeta. change (negb (0 =? 0)) with false. cbv iota.
  set (m1 := (ece391_memcpy add_local arg STRUCT_SIZE m).2) in *.
  pose proof (f_equal b_location V1) as Hl1. rewrite view_location in Hl1. rewrite Hl1.
  destruct (SCREEN_CELLS <=? b_location b) eqn:Hbig.
  { exists (-1), m1. split; [done|]. split; [by apply Hsame|]. split; [apply O1|]. split; [by apply Hpk|by split]. }
  apply Z.leb_gt in Hbig. cbn [orb]. set (m3 := st16 (st16 m1 _ _) _ _) in *.
  assert (Ha : mp1_malloc blink_array m3 = a) by (apply (malloc_kept add_local 16 m m3 (on_page _ _ _ _ O3)); lia). rewrite Ha.
  destruct (a =? 0) eqn:Hz.
  { exists (-1), m3. split; [done|]. split; [by apply Hsame|]. split; [apply O3|]. split; [by apply Hpk|by split]. }
  assert (Hna : node blink_array a).
  { destruct (malloc_spec m) as [Hz'|[Hna _]]; [|exact Hna]. unfold a in Hz. by rewrite Hz' in Hz. }
  destruct (insert_run m3 a Hna) as (I1 & I2 & I3 & I4). cbv zeta in *. rewrite V3 in I1. rewrite (memcpy_pair a). cbv beta iota.
  set (m6 := st32 _ mp1_list_head a) in *.
  pose proof (f_equal b_location (in_view _ _ _ _ I1)) as E1. pose proof (f_equal b_on_char (in_view _ _ _ _ I1)) as E2.
  rewrite view_location in E1. rewrite view_on_char in E2.
  change (b_location (fresh b)) with (b_location b) in E1. change (b_on_char (fresh b)) with (b_on_char b) in E2. rewrite E1, E2.
  pose proof (rest_video v m3 m6 I2 (Hsame m3 O3)) as Hv6.
  assert (Hch : u8 (b_on_char b) = b_on_char b) by apply u8_small, ld8_range.
  assert (Hloc : 0 <= b_location b) by apply ld16_range.
  pose proof (poke_shows v m6 (2 * b_location b) (b_on_char b) Hv6 ltac:(unfold SCREEN_CELLS in *; lia)) as Hs. rewrite Hch in Hs.
  set (m7 := mp1_poke _ _ _ m6) in *. clearbody m7. exists 0, m7.
  assert (Hu6 : upage m6 = upage m) by (rewrite (proj1 I2); apply O3).
  split; [done|]. split; [exact (shown_video _ _ _ _ _ Hs Hv6)|]. split; [by rewrite (sh_upage _ _ _ _ Hs)|]. split.
  { intros c Hc D1 D2 D3. rewrite (sh_page _ _ _ _ Hs), I3 by done. by apply O3. }
  split; [done|]. split.
  - refine (inserted_shown a (fresh b) m m6 m7 _ _ Hna _ Hs). destruct I1 as [J1 J2 J3 J4]. split; [done| |done|].
    + rewrite J2. apply (page_ld32 _ _ m m3 _ (on_page _ _ _ _ O3) (gl_head Hgl)). lia.
    + intros c Hc Hne. destruct (J4 c Hc Hne) as [-> ->]. destruct (node_page c Hc) as (Hpc & C1 & C2). split.
      * apply (page_view _ _ m m3 c (on_page _ _ _ _ O3) Hpc). unfold NEXT. lia.
      * apply (page_ld32 _ _ m m3 _ (on_page _ _ _ _ O3)); [apply in_struct; unfold NEXT; (done || lia)|unfold NEXT; lia].
  - intros q Hq. rewrite (sh_else _ _ _ _ Hs) by (unfold elsewhere in *; by rewrite Hu6).
    destruct (q =? _); [done|]. rewrite I4; [by apply O3|]. unfold elsewhere in *. by rewrite (on_upage _ _ _ _ O3).
Qed.

Lemma add_run v arg l bs m :
  video_at v m → blinking l bs m → in_page arg 16 → arg + 16 <= add_local ∨ add_local + 16 <= arg →
  let b := view m arg in
  0 < b_location b →
  ∃ r m', mp1_ioctl_add vmem_base_addr blink_array mp1_list_head add_local arg m = (r, m') ∧ video_at v m' ∧ upage m' = upage m ∧ page_kept m m' ∧
    if (SCREEN_CELLS <=? b_location b) || (mp1_malloc blink_array m =? 0)
    then r = -1 ∧ blinking l bs m' ∧ ∀ q, elsewhere m q → peek m' q = peek m q
    else r = 0 ∧ blinking (mp1_malloc blink_array m :: l) (fresh b :: bs) m' ∧
      ∀ q, elsewhere m q → peek m' q = if q =? v + 2 * b_location b then b_on_char b else peek m q.
Proof using Hgl.
  intros Hv Hbk Harg Hd b Hb0. destruct (add_effect v arg m Hv Harg Hd) as (r & m' & E & Hv' & Hu & Hpk & Hm). cbv zeta in Hm. fold b in Hm.
  exists r, m'. do 4 (split; [done|]).
  destruct (SCREEN_CELLS <=? b_location b) eqn:Hbig; cbn [orb] in *; [|destruct (mp1_malloc blink_array m =? 0) eqn:Hz].
  1-2: destruct Hm as (-> & O); split; [done|]; split; [|apply O].
  1-2: pose proof (gl_array_local Hgl); pose proof (gl_head_local Hgl);
       apply (blinking_page l bs add_local 16 m m' (on_page _ _ _ _ O)); [lia|lia|exact Hbk].
  destruct Hm as (-> & Hi & Hp). split; [done|]. split; [|exact Hp].
  destruct (malloc_spec m) as [Hz'|[Hna H0]]; [by rewrite Hz' in Hz|]. apply Z.leb_gt in Hbig.
  by apply (inserted_blinking l bs m _ (fresh b) m' Hbk Hna H0).
Qed.

(** ** Synchronising *)

Definition find_location (loc : Z) (bs : list blink) : option blink := List.find (λ b, b_location b =? loc) bs.

(** The times and the status of [src]. *)
Definition synced (src b : blink) : blink :=
  mkBlink (b_location b) (b_on_char b) (b_off_char b) (b_on_length src) (b_off_length src) (b_countdown src) (b_status src).

Fixpoint sync_location (loc : Z) (src : blink) (bs : list blink) : list blink :=
  match bs with
  | [] => []
  | b :: bs' => if b_location b =? loc then synced src b :: bs' else b :: sync_location loc src bs'
  end.

Lemma never_less x : less_after_testb x 1 = false.
Proof. unfold less_after_testb. by rewrite Z.land_spec, andb_false_r. Qed.

Definition sync_stores (a c : Z) (m : memory) : memory :=
  let m := st16 m (c + ON_LENGTH) (ld16 m (a + ON_LENGTH)) in
  let m := st16 m (c + OFF_LENGTH) (ld16 m (a + OFF_LENGTH)) in
  let m := st16 m (c + COUNTDOWN) (ld16 m (a + COUNTDOWN)) in
  st16 m (c + STATUS) (ld16 m (a + STATUS)).

(** A copied field: the fields written before are others. *)
Lemma sync_field m m' a c o n f :
  node blink_array a → node blink_array c → only (c + o) n m m' → 0 <= o → 0 <= n → o + n <= f → f + 2 <= 16 →
  ld16 m' (a + f) = ld16 m (a + f).
Proof using Hgl.
  intros Ha Hc Ho H1 H2 H3 H4. destruct (node_page a Ha) as (Hpa & _).
  apply (page_ld16 _ _ m m' _ (on_page _ _ _ _ Ho)); [apply in_struct; (done || lia)|].
  destruct (decide (a = c)) as [->|Hne]; [lia|]. pose proof (node_apart a c Ha Hc Hne). lia.
Qed.

Lemma sync_stores_run m a c :
  node blink_array a → node blink_array c →
  only (c + ON_LENGTH) 8 m (sync_stores a c m) ∧ view (sync_stores a c m) c = synced (view m a) (view m c).
Proof using Hgl.
  intros Ha Hc. destruct (node_page c Hc) as (Hpc & _).
  assert (Hf : ∀ o, 0 <= o → o + 2 <= 16 → in_page (c + o) 2) by (intros o H1 H2; apply in_struct; (done || lia)).
  unfold sync_stores. unfold ON_LENGTH, OFF_LENGTH, COUNTDOWN, STATUS. cbv zeta.
  set (m1 := st16 m (c + 4) _). set (m2 := st16 m1 (c + 6) _). set (m3 := st16 m2 (c + 8) _). set (m4 := st16 m3 (c + 10) _).
  assert (O1 : only (c + 4) 2 m m1) by (apply only_st16, Hf; lia).
  assert (O2 : only (c + 6) 2 m1 m2) by (apply only_st16, Hf; lia).
  assert (O3 : only (c + 8) 2 m2 m3) by (apply only_st16, Hf; lia).
  assert (O4 : only (c + 10) 2 m3 m4) by (apply only_st16, Hf; lia).
  assert (O12 : only (c + 4) 4 m m2) by (apply (only_trans _ _ _ m1); [apply (only_widen _ _ _ _ _ _ O1)|apply (only_widen _ _ _ _ _ _ O2)]; lia).
  assert (O13 : only (c + 4) 6 m m3) by (apply (only_trans _ _ _ m2); [apply (only_widen _ _ _ _ _ _ O12)|apply (only_widen _ _ _ _ _ _ O3)]; lia).
  assert (O14 : only (c + 4) 8 m m4) by (apply (only_trans _ _ _ m3); [apply (only_widen _ _ _ _ _ _ O13)|apply (only_widen _ _ _ _ _ _ O4)]; lia).
  assert (O24 : only (c + 6) 6 m1 m4).
  { apply (only_trans _ _ _ m2); [apply (only_widen _ _ _ _ _ _ O2); lia|]. apply (only_trans _ _ _ m3); [apply (only_widen _ _ _ _ _ _ O3)|apply (only_widen _ _ _ _ _ _ O4)]; lia. }
  assert (O34 : only (c + 8) 4 m2 m4) by (apply (only_trans _ _ _ m3); [apply (only_widen _ _ _ _ _ _ O3)|apply (only_widen _ _ _ _ _ _ O4)]; lia).
  split; [exact O14|].
  assert (F1 : ld16 m4 (c + 4) = ld16 m (a + 4)).
  { rewrite (page_ld16 _ _ m1 m4 _ (on_page _ _ _ _ O24)) by (apply Hf || idtac; lia). unfold m1. rewrite ld16_st16 by (apply Hf; lia). apply u16_small, ld16_range. }
  assert (F2 : ld16 m4 (c + 6) = ld16 m (a + 6)).
  { rewrite (page_ld16 _ _ m2 m4 _ (on_page _ _ _ _ O34)) by (apply Hf || idtac; lia). unfold m2. rewrite ld16_st16 by (apply Hf; lia).
    rewrite (sync_field m m1 a c 4 2 6 Ha Hc O1) by lia. apply u16_small, ld16_range. }
  assert (F3 : ld16 m4 (c + 8) = ld16 m (a + 8)).
  { rewrite (page_ld16 _ _ m3 m4 _ (on_page _ _ _ _ O4)) by (apply Hf || idtac; lia). unfold m3. rewrite ld16_st16 by (apply Hf; lia).
    rewrite (sync_field m m2 a c 4 4 8 Ha Hc O12) by lia. apply u16_small, ld16_range. }
  assert (F4 : ld16 m4 (c + 10) = ld16 m (a + 10)).
  { unfold m4. rewrite ld16_st16 by (apply Hf; lia). rewrite (sync_field m m3 a c 4 6 10 Ha Hc O13) by lia. apply u16_small, ld16_range. }
  clearbody m4. unfold view, synced, LOCATION, ON_CHAR, OFF_CHAR, ON_LENGTH, OFF_LENGTH, COUNTDOWN, STATUS.
  cbn [b_location b_on_char b_off_char b_on_length b_off_length b_countdown b_status]. rewrite F1, F2, F3, F4.
  f_equal; first [apply (page_ld16 _ _ m m4 _ (on_page _ _ _ _ O14))|apply (page_ld8 _ _ m m4 _ (on_page _ _ _ _ O14))];
    first [apply in_struct; (done || lia)|lia].
Qed.

Lemma found_location m loc l :
  Forall (node blink_array) l →
  match find_location loc (view m <$> l) with
  | None => found m loc l = 0
  | Some b => ∃ l1 a l2, l = l1 ++ a :: l2 ∧ found m loc l = a ∧ node blink_array a ∧ view m a = b ∧ b_location b = loc ∧
      ∀ src, sync_location loc src (view m <$> l) = (view m <$> l1) ++ synced src b :: (view m <$> l2)
  end.
Proof.
  induction l as [|a l IH]; intros Hn; [done|]. inversion_clear Hn as [|? ? Ha Hn']. cbn [fmap list_fmap find_location List.find found sync_location].
  change (b_location (view m a)) with (ld16 m (a + LOCATION)). destruct (Z.eqb_spec (ld16 m (a + LOCATION)) loc) as [E|E].
  - exists [], a, l. by split_and!.
  - specialize (IH Hn'). unfold find_location in IH. destruct (List.find _ _) as [b|]; [|done].
    destruct IH as (l1 & c & l2 & -> & H1 & H2 & H3 & H4 & H5). exists (a :: l1), c, l2. split_and!; [done..|].
    intros src. cbn [app fmap list_fmap]. f_equal. apply H5.
Qed.
Lemma used_after_sync loc src bs :
  Forall (λ b, 0 < b_location b < SCREEN_CELLS) bs → Forall (λ b, 0 < b_location b < SCREEN_CELLS) (sync_location loc src bs).
Proof. induction 1 as [|b bs Hb Hbs IH]; [constructor|]. cbn [sync_location]. destruct (_ =? _); by constructor. Qed.

(** The list after the stores into its element at [c]. *)
Lemma sync_list l bs m a loc b :
  blinking l bs m → node blink_array a → find_location loc bs = Some b →
  let c := found m loc l in let m1 := sync_stores a c m in
  node blink_array c ∧ view m c = b ∧ only (c + ON_LENGTH) 8 m m1 ∧ blinking l (sync_location loc (view m a) bs) m1.
Proof using Hgl.
  intros [Hch Hn Hd <- Hu Hfr] Ha Hf c m1. pose proof (found_location m loc l Hn) as Hx. rewrite Hf in Hx.
  destruct Hx as (l1 & c' & l2 & Hl & Hc' & Hnc & Hv & Hloc & Hsync). fold c in Hc'. subst c'.
  destruct (sync_stores_run m a c Ha Hnc) as [O V]. fold m1 in O, V. split_and!; [done..|].
  pose proof (node_page c Hnc) as (Hpc & B1 & B2). pose proof (gl_array_head Hgl) as Hah.
  assert (Hn' := proj1 (list.Forall_forall _ _) Hn).
  assert (Hother : ∀ d, node blink_array d → d ≠ c → view m1 d = view m d).
  { intros d Hnd Hne. destruct (node_page d Hnd) as (Hpd & _). apply (page_view _ _ m m1 d (on_page _ _ _ _ O) Hpd).
    pose proof (node_apart d c Hnd Hnc Hne). unfold ON_LENGTH, NEXT. lia. }
  split; [|exact Hn|exact Hd| |by apply used_after_sync|].
  - rewrite (page_ld32 _ _ m m1 _ (on_page _ _ _ _ O) (gl_head Hgl)) by (unfold ON_LENGTH; lia).
    apply (chain_ext m m1 _ l); [|exact Hch]. intros d Hdl. destruct (node_page d (Hn' d Hdl)) as (Hpd & _).
    apply (page_ld32 _ _ m m1 _ (on_page _ _ _ _ O)); [apply in_struct; unfold NEXT; (done || lia)|].
    destruct (decide (d = c)) as [->|Hne]; [unfold ON_LENGTH, NEXT; lia|]. pose proof (node_apart d c (Hn' d Hdl) Hnc Hne). unfold ON_LENGTH, NEXT. lia.
  - rewrite Hsync, Hl, fmap_app. cbn [fmap list_fmap]. rewrite V, Hv. rewrite Hl in Hd, Hn'.
    apply list.NoDup_app in Hd as (_ & Hd1 & Hd2). apply list.NoDup_cons in Hd2 as [Hd2 _].
    assert (Hk : ∀ d, d ∈ l1 ++ l2 → view m1 d = view m d).
    { intros d Hdl. assert (Hnd : node blink_array d) by (apply Hn'; rewrite elem_of_app, elem_of_cons; apply elem_of_app in Hdl; tauto).
      apply (Hother d Hnd). intros ->. apply elem_of_app in Hdl as [Hdl|Hdl]; [apply (Hd1 c Hdl); by left|done]. }
    f_equal; [|f_equal]; apply list_fmap_ext; intros i d Hdl; apply list_elem_of_lookup_2 in Hdl; apply Hk, elem_of_app; tauto.
  - intros d Hnd Hdl. rewrite Hother; [by apply Hfr|done|]. intros ->. apply Hdl. rewrite Hl, elem_of_app, elem_of_cons. tauto.
Qed.

Lemma find_location_used loc bs b :
  Forall (λ b, 0 < b_location b < SCREEN_CELLS) bs → find_location loc bs = Some b → 0 < b_location b < SCREEN_CELLS.
Proof. intros Hu Hf. apply find_some in Hf as [Hb _]. apply list_elem_of_In in Hb. rewrite list.Forall_forall in Hu. by apply Hu. Qed.

Lemma sync_run v arg l bs m :
  video_at v m → blinking l bs m →
  let loc1 := u16 (Z.shiftr (u32 arg) 16) in let loc2 := u16 (Z.land (u32 arg) 0xFFFF) in
  ∃ r m', mp1_ioctl_sync vmem_base_addr mp1_list_head arg m = Some (r, m') ∧ video_at v m' ∧ upage m' = upage m ∧
    match find_location loc1 bs, find_location loc2 bs with
    | Some x, Some y => r = 0 ∧ blinking l (sync_location loc2 x bs) m' ∧
        ∀ q, elsewhere m q → peek m' q = if q =? v + 2 * loc2 then b_off_char y else peek m q
    | _, _ => r = -1 ∧ m' = m
    end.
Proof using Hgl.
  intros Hv Hbk loc1 loc2. unfold mp1_ioctl_sync. rewrite (find_run (Z.shiftr (u32 arg) 16) l bs m Hbk), bind_some. fold loc1.
  pose proof (found_location m loc1 l (bk_nodes _ _ _ Hbk)) as H1. rewrite (bk_views _ _ _ Hbk) in H1.
  destruct (find_location loc1 bs) as [x|]; [|rewrite H1; exists (-1), m; by split_and!].
  destruct H1 as (_ & a & _ & _ & -> & Ha & Hx & _). pose proof (node_nonzero a Ha) as Hz. apply Z.eqb_neq in Hz. rewrite Hz.
  rewrite (find_run (Z.land (u32 arg) 0xFFFF) l bs m Hbk), bind_some. fold loc2.
  pose proof (found_location m loc2 l (bk_nodes _ _ _ Hbk)) as H2. rewrite (bk_views _ _ _ Hbk) in H2.
  destruct (find_location loc2 bs) as [y|] eqn:Hy; [|rewrite H2; exists (-1), m; by split_and!].
  destruct (sync_list l bs m a loc2 y Hbk Ha Hy) as (Hnc & Hvc & O & Hbk1). cbv zeta in O, Hbk1.
  pose proof (find_location_used _ _ _ (bk_used _ _ _ Hbk) Hy) as Hyb. apply find_some in Hy as [_ Hloc]. apply Z.eqb_eq in Hloc.
  set (c := found m loc2 l) in *. clear H2. pose proof (node_nonzero c Hnc) as Hzc. apply Z.eqb_neq in Hzc. rewrite Hzc.
  fold (sync_stores a c m). cbv zeta. set (m1 := sync_stores a c m) in *. rewrite never_less. cbv iota.
  destruct (node_page c Hnc) as (Hpc & B1 & B2). rewrite Hx in Hbk1.
  assert (Hv1 : video_at v m1) by (apply (video_only v _ _ m m1 O); [pose proof (gl_array_vmem Hgl); unfold ON_LENGTH; lia|exact Hv]).
  assert (Hl1 : ld16 m1 (c + LOCATION) = loc2).
  { rewrite <- Hloc, <- Hvc. apply (page_ld16 _ _ m m1 _ (on_page _ _ _ _ O)); [apply in_struct; unfold LOCATION; (done || lia)|unfold LOCATION, ON_LENGTH; lia]. }
  assert (Hc1 : ld8 m1 (c + OFF_CHAR) = b_off_char y).
  { rewrite <- Hvc. apply (page_ld8 _ _ m m1 _ (on_page _ _ _ _ O)); [apply in_struct; unfold OFF_CHAR; (done || lia)|unfold OFF_CHAR, ON_LENGTH; lia]. }
  rewrite Hl1, Hc1. rewrite Hloc in Hyb.
  assert (Hch : u8 (b_off_char y) = b_off_char y) by (rewrite <- Hvc; apply u8_small, ld8_range).
  pose proof (poke_shows v m1 (2 * loc2) (b_off_char y) Hv1 ltac:(unfold SCREEN_CELLS in *; lia)) as Hs. rewrite Hch in Hs.
  set (m2 := mp1_poke _ _ _ m1) in *. clearbody m2 m1. exists 0, m2. split; [done|]. split; [|split; [by rewrite (sh_upage _ _ _ _ Hs), (on_upage _ _ _ _ O)|split; [done|split]]].
  - exact (shown_video _ _ _ _ _ Hs Hv1).
  - exact (shown_blinking _ _ _ _ _ _ Hs Hbk1).
  - intros q Hq. rewrite (sh_else _ _ _ _ Hs) by (unfold elsewhere in *; by rewrite (on_upage _ _ _ _ O)).
    destruct (q =? _); [done|]. by apply O.
Qed.

(** ** The array of structures *)

(** [mp1_malloc] fails when the 2000 elements are in the list. *)
Lemma malloc_full l bs m : blinking l bs m → (mp1_malloc blink_array m =? 0) = (length bs =? 2000)%nat.
Proof using Hgl.
  intros Hbk. pose proof Hbk as [_ Hn Hd Hbs _ Hfr]. pose proof (nodes_length l Hn Hd) as Hle. apply (f_equal length) in Hbs. rewrite length_fmap in Hbs.
  destruct (malloc_spec m) as [Hz|[Hna H0]].
  - rewrite Hz. symmetry. apply Nat.eqb_eq. rewrite <- Hbs. apply Nat.le_antisymm; [exact Hle|].
    assert (Hall : ∀ a, node blink_array a → a ∈ l).
    { intros a Ha. destruct (decide (a ∈ l)) as [|Hal]; [done|]. pose proof (Hfr a Ha Hal) as H0. destruct Ha as (i & Hi & ->).
      unfold mp1_malloc in Hz. destruct (find_first _ _ _) as [j|] eqn:Hf.
      - apply find_first_spec in Hf as (Hj & _). exfalso. revert Hz. apply node_nonzero. exists j. split; [lia|done].
      - apply (find_first_none _ _ _ Hf i) in Hi. by rewrite view_location in H0; rewrite H0 in Hi. }
    assert (Hs : ((λ i, blink_array + STRUCT_SIZE * i) <$> seqZ 0 2000) ⊆+ l).
    { apply NoDup_submseteq.
      - apply NoDup_fmap_2; [intros i j; unfold STRUCT_SIZE; lia|apply NoDup_seqZ].
      - intros a (i & -> & Hi)%list_elem_of_fmap. apply elem_of_seqZ in Hi. apply Hall. exists i. split; [lia|done]. }
    apply submseteq_length in Hs. by rewrite length_fmap, length_seqZ in Hs.
  - pose proof (node_nonzero _ Hna) as Hz. apply Z.eqb_neq in Hz. rewrite Hz. symmetry. apply Nat.eqb_neq.
    pose proof (unused_fresh l bs m _ Hbk H0) as Hnot. rewrite <- Hbs.
    pose proof (nodes_length (mp1_malloc blink_array m :: l) ltac:(by constructor) ltac:(by apply list.NoDup_cons)) as Hl. cbn in Hl. lia.
Qed.

(** ** Finding through [mp1_ioctl] *)

Lemma ld16_copy m m' a b : (∀ i, 0 <= i < 2 → ld8 m' (a + i) = ld8 m (b + i)) → ld16 m' a = ld16 m b.
Proof. intros H. unfold ld16. rewrite (H 1) by lia. pose proof (H 0 ltac:(lia)) as H0. rewrite !Z.add_0_r in H0. by rewrite H0. Qed.

(** A segment apart from the variables of the list. *)
Definition apart_from_list (a n : Z) : Prop :=
  in_page a n ∧ (a + n <= blink_array ∨ blink_array + 32000 <= a) ∧ (a + n <= mp1_list_head ∨ mp1_list_head + 4 <= a) ∧
  (a + n <= vmem_base_addr ∨ vmem_base_addr + 4 <= a).

Lemma apart_kept v l bs a n m m' :
  apart_from_list a n → only a n m m' → video_at v m → blinking l bs m → video_at v m' ∧ blinking l bs m'.
Proof using Hgl.
  intros (_ & H1 & H2 & H3) O Hv Hbk. split; [apply (video_only v a n m m' O); [lia|done]|].
  apply (blinking_page l bs a n m m' (on_page _ _ _ _ O)); [lia..|done].
Qed.

Lemma ioctl_find_run v arg l bs m :
  apart_from_list arg 16 → apart_from_list find_local 2 → arg + 16 <= find_local ∨ find_local + 2 <= arg →
  video_at v m → blinking l bs m →
  let found := find_location (ld16 m arg) bs in
  ∃ m', mp1_ioctl_find mp1_list_head find_local arg m = Some (if found is Some _ then 0 else -1, m') ∧
    video_at v m' ∧ blinking l bs m' ∧ upage m' = upage m ∧
    (∀ b, found = Some b → view m' arg = b) ∧ ∀ q, elsewhere m q → peek m' q = peek m q.
Proof using Hgl.
  intros Harg Hloc Hd Hv Hbk found. pose proof Harg as (Hpa & Ha1 & _). pose proof Hloc as (Hpl & _).
  assert (Hpa2 : in_page arg 2) by (destruct Hpa as (?&?&?); split_and!; lia).
  destruct (memcpy_page find_local arg 2 m Hpl Hpa2 ltac:(lia)) as [O1 B1]. cbv zeta in *.
  unfold mp1_ioctl_find. rewrite (memcpy_pair find_local). cbv beta iota. change (negb (0 =? 0)) with false. cbv iota.
  change (ece391_memcpy find_local arg 2 m).2 with (for_up 2 0 (λ i m, st8 m (find_local + i) (ld8 m (arg + i))) m).
  set (m1 := for_up 2 0 _ m) in *. clearbody m1. rewrite (ld16_copy m m1 find_local arg B1).
  destruct (apart_kept v l bs _ _ m m1 Hloc O1 Hv Hbk) as [Hv1 Hbk1]. rewrite (find_run _ l bs m1 Hbk1), bind_some.
  rewrite u16_small by apply ld16_range. pose proof (found_location m1 (ld16 m arg) l (bk_nodes _ _ _ Hbk1)) as Hf.
  rewrite (bk_views _ _ _ Hbk1) in Hf. fold found in Hf. destruct found as [b|].
  - destruct Hf as (_ & a & _ & _ & -> & Ha & Hb & _). pose proof (node_nonzero a Ha) as Hz. apply Z.eqb_neq in Hz. rewrite Hz.
    destruct (node_page a Ha) as (Hpna & C1 & C2). rewrite (memcpy_pair arg). cbv beta iota.
    destruct (memcpy_page arg a 16 m1 Hpa Hpna ltac:(lia)) as [O2 B2]. cbv zeta in *.
    change (ece391_memcpy arg a STRUCT_SIZE m1).2 with (for_up 16 0 (λ i m, st8 m (arg + i) (ld8 m (a + i))) m1).
    set (m2 := for_up 16 0 _ m1) in *. clearbody m2. exists m2. destruct (apart_kept v l bs _ _ m1 m2 Harg O2 Hv1 Hbk1) as [Hv2 Hbk2].
    split; [done|]. split; [done|]. split; [done|]. split; [by rewrite (on_upage _ _ _ _ O2), (on_upage _ _ _ _ O1)|].
    split; [intros b' [= <-]; rewrite <- Hb; by apply view_copy|].
    intros q Hq. rewrite (on_else _ _ _ _ O2), (on_else _ _ _ _ O1); [done|done|]. unfold elsewhere in *. by rewrite (on_upage _ _ _ _ O1).
  - rewrite Hf. exists m1. split; [done|]. split; [done|]. split; [done|]. split; [apply O1|]. split; [done|apply O1].
Qed.
End BlinkFacts.
