(* ===== verification/BlinkSpec.v ===== *)
(** * What the blinking characters promise

    The list of blink.S as an abstract display: the characters that blink, the
    latest first, and the bytes of the video memory.  [blink_refines] relates
    any sequence of ticks and requests to it; [corner_twice_hangs] is the case
    it leaves out, the first cell of the screen. *)

From S2P Require Import Prelude Memory State Runs SysCalls UserLib UserRun UserPage Blink.

Implicit Types s : kernel.

(** ** Requests *)

Inductive request :=
  | Tick
  | Add (b : blink)
  | Remove (loc : Z)
  | Find (loc : Z)
  | Sync (loc1 loc2 : Z).

Definition display : Type := list blink * (Z → Z).

(** The answer to a request, with the structure found, and the display after
    it: [v] is the address of the video memory.  The byte a synchronised
    character shows is its second one whatever its status. *)
Definition respond (v : Z) (r : request) (d : display) : (Z * option blink) * display :=
  let '(bs, f) := d in
  match r with
  | Tick => ((0, None), (tick <$> bs, tick_video v bs f))
  | Add b =>
    if (SCREEN_CELLS <=? b_location b) || (length bs =? 2000)%nat then ((-1, None), d)
    else ((0, None), (fresh b :: bs, λ q, if q =? v + 2 * b_location b then b_on_char b else f q))
  | Remove loc => ((if existsb (λ b, b_location b =? u16 loc) bs then 0 else -1, None), (remove_location (u16 loc) bs, f))
  | Find loc =>
    match find_location (u16 loc) bs with
    | Some b => ((0, Some b), d)
    | None => ((-1, None), d)
    end
  | Sync loc1 loc2 =>
    match find_location loc1 bs, find_location loc2 bs with
    | Some x, Some y => ((0, None), (sync_location loc2 x bs, λ q, if q =? v + 2 * loc2 then b_off_char y else f q))
    | _, _ => ((-1, None), d)
    end
  end.

Fixpoint respond_all (v : Z) (rs : list request) (d : display) : list (Z * option blink) * display :=
  match rs with
  | [] => ([], d)
  | r :: rs' =>
    let '(a, d) := respond v r d in
    let '(l, d) := respond_all v rs' d in
    (a :: l, d)
  end.

Definition request_ok (r : request) : Prop :=
  match r with
  | Add b => 0 < b_location b < 65536 ∧ 0 <= b_on_char b < 256 ∧ 0 <= b_off_char b < 256 ∧
      0 <= b_on_length b < 65536 ∧ 0 <= b_off_length b < 65536
  | Sync loc1 loc2 => 0 <= loc1 < 65536 ∧ 0 <= loc2 < 65536
  | _ => True
  end.

Lemma tick_video_ext v bs f g q : f q = g q → tick_video v bs f q = tick_video v bs g q.
Proof. revert f g. induction bs as [|b bs IH]; intros f g E; [done|]. cbn [tick_video]. apply IH. cbn beta. by rewrite E. Qed.

Section Client.
Context (vmem_base_addr blink_array mp1_list_head : Z).
Context (add_local find_local : Z).

(** The structure of the caller, at [arg]. *)
Context (arg : Z).

Definition fill (b : blink) (m : memory) : memory :=
  let m := st8 m (arg + ON_CHAR) (b_on_char b) in
  let m := st8 m (arg + OFF_CHAR) (b_off_char b) in
  let m := st16 m (arg + ON_LENGTH) (b_on_length b) in
  let m := st16 m (arg + OFF_LENGTH) (b_off_length b) in
  st16 m (arg + LOCATION) (b_location b).

Definition ioctl (a cmd : Z) : M Z := mp1_ioctl vmem_base_addr blink_array mp1_list_head add_local find_local a cmd.

(** A request as a program makes it. *)
Definition serve (r : request) : M (Z * option blink) :=
  match r with
  | Tick => λ s, match mp1_rtc_tasklet vmem_base_addr mp1_list_head (k_mem s) with
                 | Some m => Ret (0, None) (upd_mem (λ _, m) s)
                 | None => Diverge
                 end
  | Add b => _ ← modify (upd_mem (fill b)); r ← ioctl arg RTC_ADD; mret (r, None)
  | Remove loc => r ← ioctl loc RTC_REMOVE; mret (r, None)
  | Find loc =>
    _ ← modify (upd_mem (λ m, st16 m (arg + LOCATION) loc));
    r ← ioctl arg RTC_FIND;
    b ← gets (λ s, view s arg);
    mret (r, if r =? 0 then Some b else None)
  | Sync loc1 loc2 => r ← ioctl (Z.lor (Z.shiftl loc1 16) loc2) RTC_SYNC; mret (r, None)
  end.

Fixpoint serve_all (rs : list request) : M (list (Z * option blink)) :=
  match rs with
  | [] => mret []
  | r :: rs' => a ← serve r; l ← serve_all rs'; mret (a :: l)
  end.

(** The caller's structure and the two locals, apart from one another and from
    the list. *)
Record client_ok : Prop := {
  cl_globals : globals_ok vmem_base_addr blink_array mp1_list_head add_local;
  cl_arg : apart_from_list vmem_base_addr blink_array mp1_list_head arg 16;
  cl_find : apart_from_list vmem_base_addr blink_array mp1_list_head find_local 2;
  cl_arg_add : arg + 16 <= add_local ∨ add_local + 16 <= arg;
  cl_arg_find : arg + 16 <= find_local ∨ find_local + 2 <= arg;
}.

(** A memory that holds the display [d], the program's page at [pg] and the
    video memory at [v]. *)
Definition displays (v pg : Z) (d : display) (m : memory) : Prop :=
  ∃ l, blinking blink_array mp1_list_head l d.1 m ∧ video_at vmem_base_addr v m ∧ upage m = pg ∧
    ∀ q, q < pg ∨ pg + (PROGRAM_PAGE_END - PROGRAM_PAGE) <= q → peek m q = d.2 q.

Context (Hcl : client_ok).
Let Hgl : globals_ok vmem_base_addr blink_array mp1_list_head add_local := cl_globals Hcl.

Lemma fill_run b m :
  0 <= b_on_char b < 256 → 0 <= b_off_char b < 256 → 0 <= b_on_length b < 65536 → 0 <= b_off_length b < 65536 → 0 <= b_location b < 65536 →
  only arg 16 m (fill b m) ∧ fresh (view (fill b m) arg) = fresh b.
Proof using Hcl.
  intros H1 H2 H3 H4 H5. pose proof (proj1 (cl_arg Hcl)) as Hp. pose proof Hp as (P1 & _ & P3).
  assert (Hf : ∀ o n, 0 <= o → 0 <= n → o + n <= 16 → in_page (arg + o) n) by (intros; apply in_struct; done).
  assert (S8 : ∀ o x m, 0 <= o < 16 → only (arg + o) 1 m (st8 m (arg + o) x)) by (intros; apply only_st8; unfold in_bounds; lia).
  assert (S16 : ∀ o x m, 0 <= o → o + 2 <= 16 → only (arg + o) 2 m (st16 m (arg + o) x)) by (intros; apply only_st16, Hf; lia).
  unfold fill, ON_CHAR, OFF_CHAR, ON_LENGTH, OFF_LENGTH, LOCATION. cbv zeta.
  set (m1 := st8 m (arg + 2) _). set (m2 := st8 m1 (arg + 3) _). set (m3 := st16 m2 (arg + 4) _). set (m4 := st16 m3 (arg + 6) _).
  set (m5 := st16 m4 (arg + 0) _).
  assert (O1 : only (arg + 2) 1 m m1) by (apply S8; lia). assert (O2 : only (arg + 3) 1 m1 m2) by (apply S8; lia).
  assert (O3 : only (arg + 4) 2 m2 m3) by (apply S16; lia). assert (O4 : only (arg + 6) 2 m3 m4) by (apply S16; lia).
  assert (O5 : only (arg + 0) 2 m4 m5) by (apply S16; lia).
  assert (F1 : ld8 m5 (arg + 2) = b_on_char b).
  { rewrite (page_ld8 _ _ m4 m5 _ (on_page _ _ _ _ O5)), (page_ld8 _ _ m3 m4 _ (on_page _ _ _ _ O4)), (page_ld8 _ _ m2 m3 _ (on_page _ _ _ _ O3)),
      (page_ld8 _ _ m1 m2 _ (on_page _ _ _ _ O2)) by (apply Hf || idtac; lia). unfold m1. rewrite ld8_st8_same. by apply u8_small. }
  assert (F2 : ld8 m5 (arg + 3) = b_off_char b).
  { rewrite (page_ld8 _ _ m4 m5 _ (on_page _ _ _ _ O5)), (page_ld8 _ _ m3 m4 _ (on_page _ _ _ _ O4)), (page_ld8 _ _ m2 m3 _ (on_page _ _ _ _ O3))
      by (apply Hf || idtac; lia). unfold m2. rewrite ld8_st8_same. by apply u8_small. }
  assert (F3 : ld16 m5 (arg + 4) = b_on_length b).
  { rewrite (page_ld16 _ _ m4 m5 _ (on_page _ _ _ _ O5)), (page_ld16 _ _ m3 m4 _ (on_page _ _ _ _ O4)) by (apply Hf || idtac; lia).
    unfold m3. rewrite ld16_st16 by (apply Hf; lia). by apply u16_small. }
  assert (F4 : ld16 m5 (arg + 6) = b_off_length b).
  { rewrite (page_ld16 _ _ m4 m5 _ (on_page _ _ _ _ O5)) by (apply Hf || idtac; lia). unfold m4. rewrite ld16_st16 by (apply Hf; lia). by apply u16_small. }
  assert (F5 : ld16 m5 (arg + 0) = b_location b).
  { unfold m5. rewrite ld16_st16 by (apply Hf; lia). by apply u16_small. }
  split.
  - assert (W : ∀ o n m m', only (arg + o) n m m' → 0 <= o → o + n <= 16 → only arg 16 m m').
    { intros o n t t' O Ho Hn. apply (only_widen _ _ _ _ _ _ O); lia. }
    apply (only_trans _ _ _ m1); [apply (W _ _ _ _ O1); lia|]. apply (only_trans _ _ _ m2); [apply (W _ _ _ _ O2); lia|].
    apply (only_trans _ _ _ m3); [apply (W _ _ _ _ O3); lia|]. apply (only_trans _ _ _ m4); [apply (W _ _ _ _ O4); lia|apply (W _ _ _ _ O5); lia].
  - exact (fresh_view m5 arg b F5 F1 F2 F3 F4).
Qed.

Lemma displays_only v pg d a n m m' :
  apart_from_list vmem_base_addr blink_array mp1_list_head a n → only a n m m' → displays v pg d m → displays v pg d m'.
Proof using Hcl.
  intros Ha O (l & Hbk & Hv & Hpg & Hq). destruct (apart_kept _ _ _ _ Hgl v l d.1 a n m m' Ha O Hv Hbk) as [Hv' Hbk'].
  exists l. split; [done|]. split; [done|]. split; [by rewrite (on_upage _ _ _ _ O)|].
  intros q Hq'. rewrite (on_else _ _ _ _ O); [by apply Hq|]. unfold elsewhere. by rewrite Hpg.
Qed.

Lemma lor_words a b : 0 <= a < 65536 → 0 <= b < 65536 →
  u16 (Z.shiftr (u32 (Z.lor (Z.shiftl a 16) b)) 16) = a ∧ u16 (Z.land (u32 (Z.lor (Z.shiftl a 16) b)) 0xFFFF) = b.
Proof.
  intros Ha Hb. assert (E : Z.lor (Z.shiftl a 16) b = a * 65536 + b).
  { rewrite Z.shiftl_mul_pow2 by lia. pose proof (Z.add_lor_land (a * 2 ^ 16) b) as Hs.
    assert (Hz : Z.land (a * 2 ^ 16) b = 0); [|lia].
    apply Z.bits_inj'. intros n Hn. rewrite Z.land_spec, Z.bits_0. destruct (Z.ltb_spec n 16).
    - by rewrite Z.mul_pow2_bits_low by lia.
    - rewrite <- (Z.mod_small b (2 ^ 16)), Z.mod_pow2_bits_high, andb_false_r by lia. done. }
  rewrite E, u32_small by lia. rewrite Z.shiftr_div_pow2, (Z.land_ones _ 16) by lia. change (2 ^ 16) with 65536.
  rewrite Z.div_add_l, Z.div_small, Z.add_0_r by lia. rewrite Z.add_comm, Z.mod_add, Z.mod_small by lia. by rewrite !u16_small by lia.
Qed.

(** ** A request, and the display it leaves *)

(** The machine after a request: its memory holds the display. *)
Definition answered (v pg : Z) (r : request) (d : display) (a : Z * option blink) (s s' : kernel) : Prop :=
  a = (respond v r d).1 ∧ displays v pg (respond v r d).2 (k_mem s') ∧ s' = upd_mem (λ _, k_mem s') s.

Lemma serve_tick v pg d s : displays v pg d (k_mem s) → runs (serve Tick) s (λ a s', answered v pg Tick d a s s').
Proof using Hcl.
  destruct d as [bs f]. intros (l & Hbk & Hv & Hpg & Hq). destruct (tasklet_run _ _ _ _ Hgl v l bs (k_mem s) Hv Hbk) as (m' & E & Hbk' & Hv' & Hu & Hp).
  exists (0, None), (upd_mem (λ _, m') s). unfold serve. rewrite E. split; [done|]. split; [done|]. split; [|done].
  exists l. split; [exact Hbk'|]. split; [exact Hv'|]. split; [by rewrite <- Hpg|]. intros q Hqq. cbn [respond snd].
  assert (He : elsewhere (k_mem s) q) by (unfold elsewhere; by rewrite Hpg).
  rewrite k_mem_upd, (Hp q He). apply tick_video_ext. by apply Hq.
Qed.

Lemma serve_remove v pg loc d s : displays v pg d (k_mem s) → runs (serve (Remove loc)) s (λ a s', answered v pg (Remove loc) d a s s').
Proof using Hcl.
  destruct d as [bs f]. intros (l & Hbk & Hv & Hpg & Hq). destruct (remove_run _ _ _ _ Hgl loc l bs (k_mem s) Hbk) as (l' & m' & E & Hbk' & Hk & Hp).
  unfold serve. apply runs_bind. unfold ioctl, mp1_ioctl, runs at 1. cbn [Z.eqb RTC_REMOVE RTC_ADD Pos.eqb]. rewrite E. eexists _, _. split; [done|].
  apply runs_ret. split; [done|]. split; [|done]. exists l'. split; [exact Hbk'|]. split; [by apply (rest_video _ v _ _ Hk)|].
  split; [by rewrite <- Hpg, k_mem_upd; apply Hk|]. intros q Hqq. rewrite k_mem_upd, Hp by (unfold elsewhere; by rewrite Hpg). by apply Hq.
Qed.

Lemma serve_sync v pg loc1 loc2 d s :
  request_ok (Sync loc1 loc2) → displays v pg d (k_mem s) → runs (serve (Sync loc1 loc2)) s (λ a s', answered v pg (Sync loc1 loc2) d a s s').
Proof using Hcl.
  destruct d as [bs f]. intros [H1 H2] (l & Hbk & Hv & Hpg & Hq). destruct (lor_words loc1 loc2 H1 H2) as [W1 W2].
  destruct (sync_run _ _ _ _ Hgl v (Z.lor (Z.shiftl loc1 16) loc2) l bs (k_mem s) Hv Hbk) as (r & m' & E & Hv' & Hu & Hm). cbv zeta in Hm. rewrite W1, W2 in Hm.
  unfold serve. apply runs_bind. unfold ioctl, mp1_ioctl, runs at 1. cbn [Z.eqb RTC_REMOVE RTC_ADD RTC_FIND RTC_SYNC Pos.eqb]. rewrite E. eexists _, _. split; [done|].
  apply runs_ret. unfold answered. cbn [respond]. rewrite k_mem_upd. destruct (find_location loc1 bs) as [x|].
  1: destruct (find_location loc2 bs) as [y|].
  - destruct Hm as (-> & Hbk' & Hp). split; [done|]. split; [|done]. exists l. split; [exact Hbk'|]. split; [done|]. split; [by rewrite <- Hpg|].
    intros q Hqq. rewrite Hp by (unfold elsewhere; by rewrite Hpg). cbn [snd]. destruct (q =? _); [done|by apply Hq].
  - destruct Hm as [-> ->]. split; [done|]. split; [|done]. by exists l.
  - destruct Hm as [-> ->]. split; [done|]. split; [|done]. by exists l.
Qed.

Lemma serve_find v pg loc d s : displays v pg d (k_mem s) → runs (serve (Find loc)) s (λ a s', answered v pg (Find loc) d a s s').
Proof using Hcl.
  intros Hd. pose proof (cl_arg Hcl) as Harg. pose proof Harg as (Hp & _). 
  assert (Hp2 : in_page (arg + LOCATION) 2) by (apply in_struct; unfold LOCATION; (done || lia)).
  set (m1 := st16 (k_mem s) (arg + LOCATION) loc).
  assert (O : only arg 16 (k_mem s) m1) by (apply (only_widen _ _ _ _ _ _ (only_st16 (k_mem s) _ loc Hp2)); unfold LOCATION; lia).
  pose proof (displays_only v pg d _ _ _ _ Harg O Hd) as (l & Hbk & Hv & Hpg & Hq).
  destruct (ioctl_find_run _ _ _ _ _ Hgl v arg l d.1 m1 Harg (cl_find Hcl) (cl_arg_find Hcl) Hv Hbk) as (m2 & E & Hv2 & Hbk2 & Hu2 & Hf & Hp'). cbv zeta in *.
  assert (Hl : ld16 m1 arg = u16 loc) by (unfold m1; replace arg with (arg + LOCATION) at 2 by (unfold LOCATION; lia); by apply ld16_st16).
  rewrite Hl in E, Hf. unfold serve. apply runs_bind, runs_modify, runs_bind. unfold ioctl, mp1_ioctl, runs at 1.
  cbn [Z.eqb RTC_REMOVE RTC_ADD RTC_FIND RTC_SYNC Pos.eqb]. rewrite k_mem_upd. fold m1. rewrite E. eexists _, _. split; [done|].
  apply runs_bind, runs_gets, runs_ret. unfold answered. destruct d as [bs f]. cbn [respond fst snd] in *. rewrite k_mem_upd.
  assert (Hdd : displays v pg (bs, f) m2).
  { exists l. split; [done|]. split; [done|]. split; [by rewrite Hu2|]. intros q Hqq. rewrite Hp' by (unfold elsewhere; by rewrite Hpg). by apply Hq. }
  destruct (find_location (u16 loc) bs) as [b|]; [|by split]. rewrite (Hf b eq_refl). by split.
Qed.

(** The call that adds the structure the caller has filled in. *)
Lemma add_call v pg b d s :
  0 < b_location b → fresh (view (k_mem s) arg) = fresh b → displays v pg d (k_mem s) →
  runs (ioctl arg RTC_ADD) s (λ r s', answered v pg (Add b) d (r, None) s s' ∧ page_kept blink_array mp1_list_head add_local (k_mem s) (k_mem s')).
Proof using Hcl.
  intros B1 V (l & Hbk & Hv & Hpg & Hq).
  assert (Hloc : b_location (view (k_mem s) arg) = b_location b) by exact (f_equal b_location V).
  assert (Hon : b_on_char (view (k_mem s) arg) = b_on_char b) by exact (f_equal b_on_char V).
  destruct (add_run _ _ _ _ Hgl v arg l d.1 (k_mem s) Hv Hbk (proj1 (cl_arg Hcl)) (cl_arg_add Hcl)) as (r & m' & E & Hv' & Hu & Hk & Hm); [lia|].
  cbv zeta in Hm. rewrite Hloc, Hon, V, (malloc_full _ _ _ _ Hgl l d.1 (k_mem s) Hbk) in Hm.
  unfold ioctl, mp1_ioctl, runs. cbn [Z.eqb RTC_REMOVE RTC_ADD RTC_FIND RTC_SYNC Pos.eqb]. rewrite E. eexists _, _. split; [done|].
  split; [|exact Hk]. unfold answered. destruct d as [bs f]. cbn [respond fst snd] in *. rewrite k_mem_upd. destruct (_ || _).
  - destruct Hm as (-> & Hbk' & Hpk). split; [done|]. split; [|done]. exists l. split; [done|]. split; [done|]. split; [by rewrite Hu|].
    intros q Hqq. rewrite Hpk by (unfold elsewhere; by rewrite Hpg). by apply Hq.
  - destruct Hm as (-> & Hbk' & Hpk). split; [done|]. split; [|done]. eexists. split; [exact Hbk'|]. split; [done|]. split; [by rewrite Hu|].
    intros q Hqq. rewrite Hpk by (unfold elsewhere; by rewrite Hpg). cbn [snd]. destruct (q =? _); [done|by apply Hq].
Qed.

Lemma serve_add v pg b d s : request_ok (Add b) → displays v pg d (k_mem s) → runs (serve (Add b)) s (λ a s', answered v pg (Add b) d a s s').
Proof using Hcl.
  intros (B1 & B2 & B3 & B4 & B5) Hd. destruct (fill_run b (k_mem s) B2 B3 B4 B5 ltac:(lia)) as [O V].
  pose proof (displays_only v pg d _ _ _ _ (cl_arg Hcl) O Hd) as Hd1. unfold serve. apply runs_bind, runs_modify.
  eapply runs_step; [apply (add_call v pg b d (upd_mem (fill b) s)); [lia|exact V|exact Hd1]|]. intros r s' ((Ea & Hd' & Es) & _). apply runs_ret.
  split; [done|]. split; [done|]. by rewrite Es at 1.
Qed.

Lemma serve_run v pg r d s : request_ok r → displays v pg d (k_mem s) → runs (serve r) s (λ a s', answered v pg r d a s s').
Proof using Hcl. intros Hr Hd. destruct r; [by apply serve_tick|by apply serve_add|by apply serve_remove|by apply serve_find|by apply serve_sync]. Qed.

Lemma serve_all_run v pg rs d s :
  Forall request_ok rs → displays v pg d (k_mem s) →
  runs (serve_all rs) s (λ l s', l = (respond_all v rs d).1 ∧ displays v pg (respond_all v rs d).2 (k_mem s') ∧ s' = upd_mem (λ _, k_mem s') s).
Proof using Hcl.
  intros Hr. revert d s. induction Hr as [|r rs Hr Hrs IH]; intros d s Hd; cbn [serve_all respond_all].
  - apply runs_ret. split; [done|]. split; [done|]. by destruct s.
  - eapply runs_step; [by apply serve_run|]. intros a s1 (-> & Hd1 & E1). destruct (respond v r d) as [a d1]. cbn [fst snd] in *.
    eapply runs_step; [by apply IH|]. intros as' s2 (-> & Hd2 & E2). apply runs_ret. destruct (respond_all v rs d1) as [l d2]. cbn [fst snd] in *.
    split; [done|]. split; [done|]. by rewrite E2, E1.
Qed.

(** ** The first cell of the screen *)

(** An element that is its own successor. *)
Lemma self_loop v a n m :
  node blink_array a → video_at vmem_base_addr v m → ld32 m (a + NEXT) = a →
  ∃ m', nat_iter (tasklet_step vmem_base_addr) n (a, m) = inl (a, m').
Proof using Hcl.
  intros Ha. revert m. induction n as [|n IH]; intros m Hv Hx; [by exists m|]. cbn [nat_iter].
  destruct (tasklet_turn _ _ _ _ Hgl v a m Ha Hv) as (m1 & -> & Ht). rewrite Hx. apply IH.
  - by apply (ticked_globals _ _ _ _ Hgl v a m m1 Ha Ht).
  - by rewrite (ticked_next _ _ _ _ Hgl v a a m m1 Ha Ha Ht).
Qed.

(** An element with location 0 is handed out again. *)
Lemma malloc_again b m m' :
  let a := mp1_malloc blink_array m in
  node blink_array a → ld16 m (a + LOCATION) = 0 → b_location b = 0 →
  inserted blink_array mp1_list_head a b m m' → mp1_malloc blink_array m' = a.
Proof.
  intros a Ha H0 Hb [_ _ Hv Ho]. unfold a at 1, mp1_malloc. erewrite find_first_ext; [done|]. intros i Hi. cbn beta.
  destruct (decide (blink_array + STRUCT_SIZE * i = a)) as [E|Hne].
  - rewrite E, H0, <- (view_location m' a), Hv, Hb. done.
  - destruct (Ho (blink_array + STRUCT_SIZE * i)) as [E _]; [exists i; split; [lia|done]|done|].
    apply (f_equal b_location) in E. rewrite !view_location in E. by rewrite E.
Qed.

(** A caller's structure for the first cell. *)
Definition corner (b : blink) : Prop :=
  b_location b = 0 ∧ 0 <= b_on_char b < 256 ∧ 0 <= b_off_char b < 256 ∧ 0 <= b_on_length b < 65536 ∧ 0 <= b_off_length b < 65536.

Lemma corner_add v b s :
  corner b → video_at vmem_base_addr v (k_mem s) → mp1_malloc blink_array (k_mem s) ≠ 0 →
  runs (serve (Add b)) s (λ x s', x = (0, None) ∧ video_at vmem_base_addr v (k_mem s') ∧
    inserted blink_array mp1_list_head (mp1_malloc blink_array (k_mem s)) (fresh b) (fill b (k_mem s)) (k_mem s')
    ∧ mp1_malloc blink_array (fill b (k_mem s)) = mp1_malloc blink_array (k_mem s)).
Proof using Hcl.
  intros (B1 & B2 & B3 & B4 & B5) Hv Hm. pose proof (cl_arg Hcl) as (Hp & A1 & A2 & A3).
  set (m1 := fill b (k_mem s)). destruct (fill_run b (k_mem s) B2 B3 B4 B5 ltac:(lia)) as [O V]. fold m1 in O, V.
  assert (Hv1 : video_at vmem_base_addr v m1) by (apply (video_only _ _ _ _ Hgl v _ _ _ _ O); [lia|exact Hv]).
  assert (Hm1 : mp1_malloc blink_array m1 = mp1_malloc blink_array (k_mem s)) by (apply (malloc_kept _ _ _ _ Hgl _ _ _ _ (on_page _ _ _ _ O)); lia).
  assert (Hloc : b_location (view m1 arg) = 0) by (rewrite <- B1; exact (f_equal b_location V)).
  destruct (add_effect _ _ _ _ Hgl v arg m1 Hv1 Hp (cl_arg_add Hcl)) as (r & m' & E & Hv' & _ & _ & Hx). cbv zeta in Hx.
  rewrite Hloc, Hm1, V in Hx. apply Z.eqb_neq in Hm. rewrite Hm in Hx. cbn [orb Z.leb Z.compare SCREEN_CELLS] in Hx. destruct Hx as (-> & Hi & _).
  unfold serve. apply runs_bind, runs_modify, runs_bind. unfold ioctl, mp1_ioctl, runs at 1. cbn [Z.eqb RTC_ADD].
  rewrite k_mem_upd. fold m1. rewrite E. eexists _, _. split; [done|]. apply runs_ret. by rewrite k_mem_upd.
Qed.

Lemma corner_twice v b b' s :
  corner b → corner b' → video_at vmem_base_addr v (k_mem s) → mp1_malloc blink_array (k_mem s) ≠ 0 →
  runs (serve_all [Add b; Add b']) s (λ l s', l = [(0, None); (0, None)] ∧
    (∀ n, ∃ st, nat_iter (tasklet_step vmem_base_addr) n (ld32 s' mp1_list_head, k_mem s') = inl st) ∧
    serve Tick s' = Diverge).
Proof using Hcl.
  intros Hb Hb' Hv Hm. cbn [serve_all]. eapply runs_step; [by apply corner_add|]. intros x s1 (-> & Hv1 & Hi1 & Hk1).
  set (a := mp1_malloc blink_array (k_mem s)) in *. destruct (malloc_spec blink_array (fill b (k_mem s))) as [Hz|[Hna H0]]; rewrite Hk1 in *; [done|].
  assert (Ha1 : mp1_malloc blink_array (k_mem s1) = a).
  { rewrite <- Hk1 in *. apply (malloc_again (fresh b) (fill b (k_mem s)) (k_mem s1)); [done|done|apply Hb|done]. }
  eapply runs_step; [eapply runs_step; [apply corner_add; [exact Hb'|exact Hv1|by rewrite Ha1]|]|].
  { intros x s2 H. apply runs_ret. instantiate (1 := λ l s2, l = [(0, None)] ∧ video_at vmem_base_addr v (k_mem s2) ∧ ld32 s2 mp1_list_head = a ∧ ld32 s2 (a + NEXT) = a).
    destruct H as (-> & Hv2 & [J1 J2 _ _] & Hk2). rewrite Ha1 in *. split; [done|]. split; [done|]. split; [done|]. rewrite J2.
    pose proof (cl_arg Hcl) as (Hp & A1 & A2 & A3). destruct Hb' as (B1 & B2 & B3 & B4 & B5).
    destruct (fill_run b' (k_mem s1) B2 B3 B4 B5 ltac:(lia)) as [O _].
    rewrite (page_ld32 _ _ _ _ _ (on_page _ _ _ _ O) (gl_head _ _ _ _ Hgl)) by lia. exact (in_head _ _ _ _ _ _ Hi1). }
  intros l s2 (-> & Hv2 & J1 & J2). apply runs_ret. split; [done|]. rewrite J1.
  assert (Hloop : ∀ n, ∃ st, nat_iter (tasklet_step vmem_base_addr) n (a, k_mem s2) = inl st).
  { intros n. destruct (self_loop v a n (k_mem s2) Hna Hv2 J2) as [m' ->]. by eexists. }
  split; [exact Hloop|]. unfold serve, mp1_rtc_tasklet. rewrite J1. by rewrite (while_loop_endless _ _ Hloop).
Qed.
End Client.

(** ** Theorems *)

(** C16: C1. The list of blink.S refines the abstract display: from a machine that
    holds a display, any sequence of ticks and of requests to add, remove, find
    and synchronise characters returns, gives the answers of the specification
    and leaves a machine that holds its display; nothing but the memory
    changes. *)
Theorem blink_refines vmem_base_addr blink_array mp1_list_head add_local find_local arg v pg rs d s :
  client_ok vmem_base_addr blink_array mp1_list_head add_local find_local arg →
  Forall request_ok rs → displays vmem_base_addr blink_array mp1_list_head v pg d (k_mem s) →
  runs (serve_all vmem_base_addr blink_array mp1_list_head add_local find_local arg rs) s
    (λ l s', l = (respond_all v rs d).1 ∧ displays vmem_base_addr blink_array mp1_list_head v pg (respond_all v rs d).2 (k_mem s') ∧
             s' = upd_mem (λ _, k_mem s') s).
Proof. intros Hcl. by apply serve_all_run. Qed.

(** C36: C2. A character in the first cell: its element looks free, so the next one
    added there gets the same element, which becomes its own successor, and the
    next tick of the clock never returns. *)
Theorem corner_twice_hangs vmem_base_addr blink_array mp1_list_head add_local find_local arg v b b' s :
  client_ok vmem_base_addr blink_array mp1_list_head add_local find_local arg →
  corner b → corner b' → video_at vmem_base_addr v (k_mem s) → mp1_malloc blink_array (k_mem s) ≠ 0 →
  runs (serve_all vmem_base_addr blink_array mp1_list_head add_local find_local arg [Add b; Add b']) s (λ l s',
    l = [(0, None); (0, None)] ∧
    (∀ n, ∃ st, nat_iter (tasklet_step vmem_base_addr) n (ld32 s' mp1_list_head, k_mem s') = inl st) ∧
    serve vmem_base_addr blink_array mp1_list_head add_local find_local arg Tick s' = Diverge).
Proof. intros Hcl. by apply corner_twice. Qed.

(** *** Witnesses: the program's page at 12 MB, video memory at 136 MB *)

Definition example_globals : Z := 0x8200000.
Definition example_video : Z := 0x8800000.
Definition example_memory : memory := st32 (mkMem ∅ 0xC00000) example_globals example_video.
Definition example_machine : kernel := upd_mem (λ _, example_memory) zero_kernel.

Lemma example_client : client_ok example_globals 0x8210000 0x8200004 0x83FFF00 0x83FFF20 0x83FFF40.
Proof.
  split; unfold apart_from_list; [split|..]; unfold in_page, PROGRAM_PAGE, PROGRAM_PAGE_END, example_globals; lia.
Qed.

Lemma example_video_at : video_at example_globals example_video example_memory.
Proof. by split; vm_compute. Qed.

Lemma example_zero a n : in_page a n → a + n <= example_globals ∨ example_globals + 4 <= a → ∀ i, 0 <= i < n → ld8 example_memory (a + i) = 0.
Proof.
  intros (H1 & _ & H3) Hd i Hi. assert (Hp : in_page example_globals 4) by (unfold in_page, PROGRAM_PAGE, PROGRAM_PAGE_END, example_globals; lia).
  unfold example_memory. rewrite (on_page _ _ _ _ (only_st32 _ _ example_video Hp)); [by vm_compute|unfold in_bounds; lia|lia].
Qed.

Lemma example_displays : displays example_globals 0x8210000 0x8200004 example_video 0xC00000 ([], peek example_memory) example_memory.
Proof.
  exists []. split; [|split; [exact example_video_at|by split]].
  assert (Hz : ∀ a, node 0x8210000 a → b_location (view example_memory a) = 0).
  { intros a (i & Hi & ->). rewrite view_location. unfold ld16, LOCATION, STRUCT_SIZE.
    pose proof (example_zero 0x8210000 32000 ltac:(unfold in_page, PROGRAM_PAGE, PROGRAM_PAGE_END; lia) ltac:(unfold example_globals; lia)) as H.
    rewrite <- !Z.add_assoc, !H by lia. done. }
  split; [by vm_compute|constructor|constructor|done|constructor|]. intros a Ha _. by apply Hz.
Qed.

Definition example_blink (loc : Z) : blink := mkBlink loc 73 77 7 6 0 0.

Lemma blink_refines_witness :
  ∃ s', serve_all example_globals 0x8210000 0x8200004 0x83FFF00 0x83FFF20 0x83FFF40
      [Add (example_blink 540); Add (example_blink 40); Tick; Sync 40 540; Remove 540; Find 540] example_machine =
      Ret [(0, None); (0, None); (0, None); (0, None); (0, None); (-1, None)] s' ∧
    displays example_globals 0x8210000 0x8200004 example_video 0xC00000
      (respond_all example_video [Add (example_blink 540); Add (example_blink 40); Tick; Sync 40 540; Remove 540; Find 540] ([], peek example_memory)).2 (k_mem s').
Proof.
  destruct (blink_refines _ _ _ _ _ _ example_video 0xC00000
    [Add (example_blink 540); Add (example_blink 40); Tick; Sync 40 540; Remove 540; Find 540] ([], peek example_memory) example_machine
    example_client) as (l & s' & E & Hl & Hd & _).
  - repeat constructor; cbn; lia.
  - exact example_displays.
  - exists s'. split; [|exact Hd]. rewrite E. f_equal. rewrite Hl. reflexivity.
Defined.

Lemma corner_twice_hangs_witness :
  runs (serve_all example_globals 0x8210000 0x8200004 0x83FFF00 0x83FFF20 0x83FFF40 [Add (example_blink 0); Add (example_blink 0)]) example_machine
    (λ l s', l = [(0, None); (0, None)] ∧
      (∀ n, ∃ st, nat_iter (tasklet_step example_globals) n (ld32 s' 0x8200004, k_mem s') = inl st) ∧
      serve example_globals 0x8210000 0x8200004 0x83FFF00 0x83FFF20 0x83FFF40 Tick s' = Diverge).
Proof.
  apply (corner_twice_hangs example_globals 0x8210000 0x8200004 0x83FFF00 0x83FFF20 0x83FFF40 example_video (example_blink 0) (example_blink 0) example_machine example_client).
  - unfold corner, example_blink. cbn. lia.
  - unfold corner, example_blink. cbn. lia.
  - exact example_video_at.
  - vm_compute. discriminate.
Defined.
