(* ===== verification/Fish.v ===== *)
(** * fish.c: two pictures that alternate

    The program reads two pictures from files and adds a blinking character for
    every cell that is not blank in both, lets the clock run, and adds,
    synchronises and removes one more.  The definitions are the program; the
    pictures as lists of characters are [frames]. *)

From S2P Require Import Prelude Text Memory LibMem LibStr Video State Runs Console Process FileSystem Terminal SysCalls Exec UserLib UserRun UserFiles Programs UserKeep UserClock UserPage Blink BlinkSpec.

Implicit Types s t : kernel.

Section Fish.
Context {L : Layout}.
Context (lit : string → Z).

(** The variables of fish.c and blink.S, and the locals whose address is
    taken. *)
Context (vmem_base_addr blink_array mp1_list_head : Z).
Context (add_local find_local : Z).
Context (file0 file1 : Z).
Context (main_struct ret_val garbage : Z).
Context (frame_struct c0 c1 : Z).

Definition WAIT : Z := 100.

Definition fish_ioctl (arg cmd : Z) : M Z := mp1_ioctl vmem_base_addr blink_array mp1_list_head add_local find_local arg cmd.

Definition mp1_set_video_mode : M Z :=
  r ← ece391_vidmap vmem_base_addr;
  if r =? -1 then mret 0 else gets (λ s, ld32 s vmem_base_addr).

(** [if (c != '\n') { num_bytes = ece391_read(fd, &c, 1); ... }], with the flag
    of the end of the file. *)
Definition read_char (fd c eof : Z) : M Z :=
  ch ← get_byte c;
  if ch =? NL then mret eof
  else
    num_bytes ← ece391_read fd c 1;
    if num_bytes =? 0 then _ ← set_byte c NL; mret 1 else mret eof.

Definition frame_cell (row col : Z) : M unit :=
  a ← get_byte c0;
  b ← get_byte c1;
  if (negb (a =? SPACE) && negb (a =? NL)) || (negb (b =? SPACE) && negb (b =? NL)) then
    _ ← set_byte (frame_struct + ON_CHAR) (if a =? NL then SPACE else a);
    _ ← set_byte (frame_struct + OFF_CHAR) (if b =? NL then SPACE else b);
    _ ← modify_mem (λ m, st16 m (frame_struct + LOCATION) (row * 80 + col + 40));
    _ ← fish_ioctl frame_struct RTC_ADD;
    mret tt
  else mret tt.

(** One turn of the inner loop, over the columns. *)
Definition frame_column (fd0 fd1 row : Z) (p : Z * Z * Z) : M ((Z * Z * Z) + (Z * Z)) :=
  let '(col, eof0, eof1) := p in
  eof0 ← read_char fd0 c0 eof0;
  eof1 ← read_char fd1 c1 eof1;
  a ← get_byte c0;
  b ← get_byte c1;
  if (a =? NL) && (b =? NL) then mret (inr (eof0, eof1))
  else
    _ ← frame_cell row col;
    mret (inl (col + 1, eof0, eof1)).

Definition end_row (fd c eof : Z) : M unit :=
  if negb (eof =? 0) then
    _ ← set_byte c NL;
    _ ← ece391_close fd;
    mret tt
  else set_byte c 48.

(** One turn of the outer loop, over the rows. *)
Definition frame_row (fd0 fd1 : Z) (p : Z * Z * Z) : M ((Z * Z * Z) + unit) :=
  let '(row, eof0, eof1) := p in
  if (eof0 =? 0) || (eof1 =? 0) then
    eofs ← iter_M (frame_column fd0 fd1 row) (0, eof0, eof1);
    let '(eof0, eof1) := eofs in
    _ ← end_row fd0 c0 eof0;
    _ ← end_row fd1 c1 eof1;
    mret (inl (row + 1, eof0, eof1))
  else mret (inr tt).

Definition add_frames (f0 f1 rtc_fd : Z) : M unit :=
  _ ← set_byte c0 48;
  _ ← set_byte c1 48;
  _ ← modify_mem (λ m, st16 m (frame_struct + ON_LENGTH) 15);
  _ ← modify_mem (λ m, st16 m (frame_struct + OFF_LENGTH) 15);
  fd0 ← ece391_open f0;
  _ ← (if fd0 <? 0 then _ ← ece391_halt (-1); mret tt else mret tt);
  fd1 ← ece391_open f1;
  _ ← (if fd1 <? 0 then _ ← ece391_halt (-1); mret tt else mret tt);
  iter_M (frame_row fd0 fd1) (0, 0, 0).

(** [for (i = 0; i < WAIT; i++) { ece391_read(rtc_fd, &garbage, 4); mp1_rtc_tasklet(garbage); }] *)
Definition wait_ticks (rtc_fd : Z) : M unit :=
  for_upM (Z.to_nat WAIT) 0 (λ _,
    _ ← rtc_tick rtc_fd garbage;
    change_memory (mp1_rtc_tasklet vmem_base_addr mp1_list_head)).

(** The character [main] adds. *)
Definition main_blink : blink := mkBlink (6 * 80 + 60) 73 77 7 6 0 0.

Definition fish_main : M Z :=
  _ ← modify_mem (ece391_memset blink_array 0 (STRUCT_SIZE * 80 * 25));
  v ← mp1_set_video_mode;
  if v =? 0 then mret (-1)
  else
    rtc_fd ← ece391_open (lit "rtc");
    _ ← add_frames file0 file1 rtc_fd;
    _ ← set_rate rtc_fd ret_val;
    _ ← wait_ticks rtc_fd;
    _ ← modify_mem (fill main_struct main_blink);
    _ ← fish_ioctl main_struct RTC_ADD;
    _ ← wait_ticks rtc_fd;
    _ ← fish_ioctl (Z.lor (Z.shiftl 40 16) (6 * 80 + 60)) RTC_SYNC;
    _ ← wait_ticks rtc_fd;
    _ ← fish_ioctl (6 * 80 + 60) RTC_REMOVE;
    _ ← wait_ticks rtc_fd;
    _ ← ece391_close rtc_fd;
    mret 0.
End Fish.

(** ** The pictures *)

(** The character at a cell: [a] and [b] in the two pictures, [NL] beyond the
    end of a row. *)
Definition cell (row col a b : Z) : list blink :=
  if (negb (a =? SPACE) && negb (a =? NL)) || (negb (b =? SPACE) && negb (b =? NL))
  then [mkBlink (u16 (row * 80 + col + 40)) (if a =? NL then SPACE else a) (if b =? NL then SPACE else b) 15 15 0 0]
  else [].

Fixpoint row_cells (n : nat) (row col : Z) (x y : list Z) : list blink :=
  match n with
  | O => []
  | S k => cell row col (hd NL x) (hd NL y) ++ row_cells k row (col + 1) (tl x) (tl y)
  end.

Fixpoint all_cells (n : nat) (row : Z) (xs ys : list (list Z)) : list blink :=
  match n with
  | O => []
  | S k => row_cells (length (hd [] xs) `max` length (hd [] ys)) row 0 (hd [] xs) (hd [] ys) ++ all_cells k (row + 1) (tl xs) (tl ys)
  end.

(** The characters for the pictures [t0] and [t1], in the order they are added. *)
Definition frames (t0 t1 : list Z) : list blink :=
  all_cells (length (rows_of t0) `max` length (rows_of t1)) 0 (rows_of t0) (rows_of t1).
