(* ===== verification/FishRun.v ===== *)
(** * What fish.c does

    [fish_correct]: the program shows the two pictures of its files as blinking
    characters, and what the display holds when it ends. *)

From S2P Require Import Prelude Text Memory LibMem LibStr Video State Runs Console Process FileSystem Terminal Paging SysCalls Exec UserLib UserRun UserFiles Programs UserKeep UserClock UserPage Blink BlinkSpec Fish.

Implicit Types s t : kernel.

(** ** The display in a running machine *)

Lemma sync_view b x : b_location (synced x b) = b_location b.
Proof. done. Qed.

(** A request changes no byte that is not a cell's. *)
Lemma tick_video_far v bs f q :
  Forall (λ b, 0 < b_location b < SCREEN_CELLS) bs → q < v ∨ v + 4000 <= q → tick_video v bs f q = f q.
Proof.
  intros Hb Hq. revert f. induction Hb as [|b bs Hb _ IH]; intros f; [done|]. cbn [tick_video]. rewrite IH.
  destruct (Z.eqb_spec q (v + 2 * b_location b)); [unfold SCREEN_CELLS in *; lia|]. by rewrite andb_false_r.
Qed.

Lemma respond_far v r bs f q :
  request_ok r → Forall (λ b, 0 < b_location b < SCREEN_CELLS) bs → q < v ∨ v + 4000 <= q → (respond v r (bs, f)).2.2 q = f q.
Proof.
  intros Hr Hb Hq. destruct r as [|b|loc|loc|loc1 loc2]; cbn [respond snd].
  - by apply tick_video_far.
  - destruct (Z.leb_spec SCREEN_CELLS (b_location b)); cbn [orb]; [done|]. destruct (_ =? _)%nat; [done|]. cbn [snd].
    destruct Hr as (B1 & _). destruct (Z.eqb_spec q (v + 2 * b_location b)); [unfold SCREEN_CELLS in *; lia|done].
  - done.
  - by destruct (find_location _ _).
  - destruct (find_location loc1 bs); [|done]. destruct (find_location loc2 bs) as [y|] eqn:Hy; [|done]. cbn [snd].
    pose proof (find_location_used _ _ _ Hb Hy). apply find_some in Hy as [_ E]. apply Z.eqb_eq in E.
    destruct (Z.eqb_spec q (v + 2 * loc2)); [unfold SCREEN_CELLS in *; lia|done].
Qed.

(** The display does not depend on the bytes that are no cell's. *)
Lemma respond_ext v r bs f g :
  (∀ q, v <= q < v + 4000 → f q = g q) →
  (respond v r (bs, f)).1 = (respond v r (bs, g)).1 ∧ (respond v r (bs, f)).2.1 = (respond v r (bs, g)).2.1 ∧
  ∀ q, v <= q < v + 4000 → (respond v r (bs, f)).2.2 q = (respond v r (bs, g)).2.2 q.
Proof.
  intros H. destruct r as [|b|loc|loc|loc1 loc2]; cbn [respond].
  - split; [done|]. split; [done|]. intros q Hq. by apply tick_video_ext, H.
  - destruct (_ || _); cbn [fst snd]; [done|]. split; [done|]. split; [done|]. intros q Hq. by rewrite H.
  - done.
  - by destruct (find_location _ _).
  - destruct (find_location loc1 bs); [|done]. destruct (find_location loc2 bs); [|done]. cbn [fst snd].
    split; [done|]. split; [done|]. intros q Hq. by rewrite H.
Qed.

(** The calls of [fish.c] are those of the specification's client. *)
Lemma fish_ioctl_is vmem array head add find arg cmd : fish_ioctl vmem array head add find arg cmd = ioctl vmem array head add find arg cmd.
Proof. reflexivity. Qed.

Section FishRun.
Context {L : Layout} {HL : LayoutOK L}.
Context (vmem_base_addr blink_array mp1_list_head : Z).
Context (add_local find_local : Z).

(** The cells of the display [d] at [v], and its list of characters. *)
Definition pictured (v : Z) (d : display) (s : kernel) : Prop :=
  ∃ l, blinking blink_array mp1_list_head l d.1 (k_mem s) ∧ video_at vmem_base_addr v (k_mem s) ∧
    ∀ q, v <= q < v + 4000 → peek (k_mem s) q = d.2 q.

Definition shows_display (v : Z) (d : display) (s : kernel) : Prop :=
  displays vmem_base_addr blink_array mp1_list_head v (upage s) (d.1, peek (k_mem s)) (k_mem s).

Lemma pictured_displays v d s : pictured v d s → shows_display v d s.
Proof. intros (l & H1 & H2 & _). exists l. by split_and!. Qed.

(** The segments a call may change beside the display. *)
Definition beside (s : kernel) (o : Z * Z) : Prop :=
  o.1 + o.2 <= KERNEL_END ∨ ∃ a n, o = (page_at s a, n) ∧ apart_from_list vmem_base_addr blink_array mp1_list_head a n.

Context (Hgl : globals_ok vmem_base_addr blink_array mp1_list_head add_local).

Lemma beside_byte pid s s' os a :
  user_ok pid s → changes os s s' → Forall (beside s) os →
  blink_array <= a < blink_array + 32000 ∨ mp1_list_head <= a < mp1_list_head + 4 ∨ vmem_base_addr <= a < vmem_base_addr + 4 →
  ld8 s' a = ld8 s a.
Proof using HL Hgl.
  intros Hu Hc Ho Ha. destruct (gl_array _ _ _ _ Hgl) as (A1 & _ & A3). destruct (gl_head _ _ _ _ Hgl) as (B1 & _ & B3).
  destruct (gl_vmem _ _ _ _ Hgl) as (C1 & _ & C3).
  apply (changes_byte os _ _ _ Hc). rewrite phys_user by lia. pose proof (uo_page _ _ Hu) as Hp.
  eapply List.Forall_impl; [|exact Ho]. intros o [H|(b & n & -> & (Hb1 & _ & Hb3) & H1 & H2 & H3)]; cbn [fst snd]; [lia|]. unfold page_at. lia.
Qed.

Lemma pictured_steps pid os v d s s' :
  user_ok pid s → pictured v d s → steps os s s' → Forall (beside s) os → pictured v d s'.
Proof using HL Hgl.
  intros Hu (l & Hbk & Hv & Hq) Hs Ho. pose proof (sp_changes _ _ _ Hs) as Hc.
  pose proof (λ a, beside_byte pid s s' os a Hu Hc Ho) as Hb. exists l. split; [|split].
  - apply (blinking_ext _ _ _ _ Hgl l d.1 (k_mem s)); [intros b Hr; apply Hb; lia..|exact Hbk].
  - destruct Hv as [V1 V2 V3 V4]. destruct Hc as [Hup _]. split; [|done|done|by rewrite Hup].
    rewrite <- V1. apply ld32_ext. intros i Hi. apply Hb. lia.
  - intros q Hqr. rewrite <- (Hq q Hqr). destruct Hv as [V1 V2 V3 V4]. destruct Hc as [_ Hpk]. apply Hpk.
    eapply List.Forall_impl; [|exact Ho]. pose proof (uo_page _ _ Hu) as Hp.
    intros o [H|(b & n & -> & (Hb1 & _ & Hb3) & _)]; cbn [fst snd]; unfold page_at, PROGRAM_PAGE, PROGRAM_PAGE_END in *; lia.
Qed.

Context (pid v : Z).

(** ** The program between two calls *)

Context (rtc_fd : Z).

(** The program can go on, the display is [d], the clock is open. *)
Record fishing (d : display) (s : kernel) : Prop := {
  fg_user : user_ok pid s;
  fg_pic : pictured v d s;
  fg_clock : clocked pid rtc_fd s;
}.

Context (Hfd : 2 <= rtc_fd < 8).

Lemma fishing_steps os d s s' :
  fishing d s → steps os s s' → user_ok pid s' → Forall (beside s) os →
  Forall (λ o, o.1 + o.2 <= fd_slot (pcb_addr pid) rtc_fd ∨ fd_slot (pcb_addr pid) rtc_fd + 16 <= o.1) os → fishing d s'.
Proof using HL Hgl Hfd.
  intros [Hu Hp Hc] Hs Hu' Hb Ho. destruct (process_pcb pid s (uo_process _ _ Hu)) as (_ & _ & Hpid). split; [done|by apply (pictured_steps pid os v d s s')|].
  unfold clocked in *. rewrite <- Hc. apply (kept_slot os pid s s' rtc_fd Hpid); [lia|apply Hs|exact Ho].
Qed.

(** What a request changes: the page of the program and the cells. *)
Definition request_objects (s : kernel) : list (Z * Z) := [(upage s, PROGRAM_PAGE_END - PROGRAM_PAGE); (v, 4000)].

Lemma request_outside s d : user_ok pid s → pictured v d s → Forall outside (request_objects s).
Proof using.
  intros Hu (l & _ & Hv & _). pose proof (uo_page _ _ Hu) as Hp. pose proof (vd_else _ _ _ Hv) as H.
  unfold request_objects, outside, PROGRAM_PAGE, PROGRAM_PAGE_END in *. each_segment.
Qed.

Lemma answered_steps r d s s' a :
  request_ok r → user_ok pid s → pictured v d s → answered vmem_base_addr blink_array mp1_list_head v (upage s) r (d.1, peek (k_mem s)) a s s' →
  a = (respond v r d).1 ∧ pictured v (respond v r d).2 s' ∧ steps (request_objects s) s s' ∧ user_ok pid s'.
Proof using HL Hgl.
  intros Hr Hu Hp (Ea & (l' & Hbk' & Hv' & Hup & Hq') & Es). pose proof (request_outside s d Hu Hp) as Hout.
  destruct Hp as (l & Hbk & Hv & Hq). destruct d as [bs f]. cbn [fst snd] in *.
  destruct (respond_ext v r bs (peek (k_mem s)) f Hq) as (X1 & X2 & X3).
  assert (Hs : steps (request_objects s) s s').
  { split; [|by rewrite Es..|]; [|by rewrite Es]. split; [done|]. intros p Hp. unfold request_objects in Hp.
    inversion_clear Hp as [|? ? P1 Hp']. inversion_clear Hp' as [|? ? P2 _]. cbn [fst snd] in P1, P2.
    rewrite Hq' by lia. apply respond_far; [done|apply Hbk|lia]. }
  split; [by rewrite Ea|]. split; [|split; [exact Hs|]].
  - exists l'. rewrite <- X2. split; [done|]. split; [done|]. intros q Hqr. rewrite <- X3 by done. apply Hq'.
    pose proof (vd_else _ _ _ Hv). unfold PROGRAM_PAGE, PROGRAM_PAGE_END in *. lia.
  - apply (user_ok_steps (request_objects s) pid s s' Hu); [|exact Hs]. eapply List.Forall_impl; [|exact Hout]. intros o. by apply outside_harmless.
Qed.

Lemma answered_fishing r d s s' a :
  request_ok r → fishing d s → answered vmem_base_addr blink_array mp1_list_head v (upage s) r (d.1, peek (k_mem s)) a s s' →
  a = (respond v r d).1 ∧ fishing (respond v r d).2 s'.
Proof using HL Hgl Hfd.
  intros Hr [Hu Hp Hc] Ha. destruct (answered_steps r d s s' a Hr Hu Hp Ha) as (Ea & Hp' & Hs & Hu'). split; [done|]. split; [done|done|].
  destruct (process_pcb pid s (uo_process _ _ Hu)) as (_ & _ & Hpid).
  unfold clocked in *. rewrite <- Hc. apply (kept_fd _ pid s s' rtc_fd Hpid ltac:(lia) Hs). by apply (request_outside s d).
Qed.

(** ** Requests and ticks of the main program *)

Context (main_struct garbage : Z).
Context (Hcl : client_ok vmem_base_addr blink_array mp1_list_head add_local find_local main_struct) (Hgarbage : in_page garbage 4).

Let fish_serve := serve vmem_base_addr blink_array mp1_list_head add_local find_local main_struct.
Let fish_tick := change_memory (mp1_rtc_tasklet vmem_base_addr mp1_list_head).

Lemma serve_fishing r d s :
  request_ok r → fishing d s → runs (fish_serve r) s (λ a s', a = (respond v r d).1 ∧ fishing (respond v r d).2 s').
Proof using HL Hgl Hfd Hcl.
  intros Hr Hf. eapply runs_mono.
  - apply (serve_run _ _ _ _ _ _ Hcl v (upage s) r (d.1, peek (k_mem s)) s Hr). by apply pictured_displays, Hf.
  - intros a s' Ha. by apply (answered_fishing r d s s' a).
Qed.

Lemma add_fishing b d s :
  request_ok (Add b) → fishing d s →
  runs (_ ← modify_mem (fill main_struct b); fish_ioctl vmem_base_addr blink_array mp1_list_head add_local find_local main_struct RTC_ADD) s
    (λ _ s', fishing (respond v (Add b) d).2 s').
Proof using HL Hgl Hfd Hcl.
  intros Hr Hf. pose proof (serve_fishing (Add b) d s Hr Hf) as H. rewrite fish_ioctl_is.
  assert (E : fish_serve (Add b) = (_ ← modify (upd_mem (fill main_struct b));
    r ← ioctl vmem_base_addr blink_array mp1_list_head add_local find_local main_struct RTC_ADD; mret (r, None))) by reflexivity.
  rewrite E in H. apply runs_modify_inv in H. apply (runs_map _ (λ a : Z, (a, None))) in H.
  apply runs_bind, runs_modify. eapply runs_mono; [exact H|]. intros a s' [_ Hf']. exact Hf'.
Qed.

Lemma sync_fishing loc1 loc2 d s :
  request_ok (Sync loc1 loc2) → fishing d s →
  runs (fish_ioctl vmem_base_addr blink_array mp1_list_head add_local find_local (Z.lor (Z.shiftl loc1 16) loc2) RTC_SYNC) s
    (λ _ s', fishing (respond v (Sync loc1 loc2) d).2 s').
Proof using HL Hgl Hfd Hcl.
  intros Hr Hf. pose proof (serve_fishing _ d s Hr Hf) as H. rewrite fish_ioctl_is.
  assert (E : fish_serve (Sync loc1 loc2) =
    (r ← ioctl vmem_base_addr blink_array mp1_list_head add_local find_local (Z.lor (Z.shiftl loc1 16) loc2) RTC_SYNC; mret (r, None))) by reflexivity.
  rewrite E in H. apply (runs_map _ (λ a : Z, (a, None))) in H. eapply runs_mono; [exact H|]. intros a s' [_ Hf']. exact Hf'.
Qed.

Lemma remove_fishing loc d s :
  request_ok (Remove loc) → fishing d s →
  runs (fish_ioctl vmem_base_addr blink_array mp1_list_head add_local find_local loc RTC_REMOVE) s
    (λ _ s', fishing (respond v (Remove loc) d).2 s').
Proof using HL Hgl Hfd Hcl.
  intros Hr Hf. pose proof (serve_fishing _ d s Hr Hf) as H. rewrite fish_ioctl_is.
  assert (E : fish_serve (Remove loc) =
    (r ← ioctl vmem_base_addr blink_array mp1_list_head add_local find_local loc RTC_REMOVE; mret (r, None))) by reflexivity.
  rewrite E in H. apply (runs_map _ (λ a : Z, (a, None))) in H. eapply runs_mono; [exact H|]. intros a s' [_ Hf']. exact Hf'.
Qed.

Lemma tick_fishing d s : fishing d s → runs fish_tick s (λ _ s', fishing (respond v Tick d).2 s').
Proof using HL Hgl Hfd Hcl.
  intros Hf. destruct (serve_fishing Tick d s I Hf) as (a & s' & E & _ & Hf'). unfold fish_serve, serve in E.
  unfold fish_tick, change_memory, runs. destruct (mp1_rtc_tasklet _ _ _) as [m|]; [|done]. injection E as _ <-. by eexists tt, _.
Qed.

Lemma one_tick d s :
  fishing d s → runs (_ ← rtc_tick rtc_fd garbage; fish_tick) s (λ _ s', fishing (respond v Tick d).2 s').
Proof using HL Hgl Hfd Hcl Hgarbage.
  intros Hf. destruct (rtc_tick_run pid rtc_fd garbage s (fg_user _ _ Hf) Hfd (fg_clock _ _ Hf) Hgarbage) as (s1 & E & Hs & Hu1 & _).
  apply runs_bind, (runs_eq _ _ _ _ _ E), tick_fishing. apply (fishing_steps [] d s s1 Hf Hs Hu1); constructor.
Qed.

Lemma respond_all_app rs1 rs2 d : (respond_all v (rs1 ++ rs2) d).2 = (respond_all v rs2 (respond_all v rs1 d).2).2.
Proof.
  revert d. induction rs1 as [|r rs1 IH]; intros d; [done|]. cbn [app respond_all]. destruct (respond v r d) as [a d1].
  specialize (IH d1). destruct (respond_all v (rs1 ++ rs2) d1), (respond_all v rs1 d1). exact IH.
Qed.

Lemma respond_all_cons r rs d : (respond_all v (r :: rs) d).2 = (respond_all v rs (respond v r d).2).2.
Proof. cbn [respond_all]. destruct (respond v r d) as [a d1]. cbn [fst snd]. by destruct (respond_all v rs d1). Qed.

Lemma respond_all_one r d : (respond_all v [r] d).2 = (respond v r d).2.
Proof. cbn [respond_all]. by destruct (respond v r d) as [a d1]. Qed.

Definition ticks : list request := replicate (Z.to_nat WAIT) Tick.

Lemma wait_run d s : fishing d s → runs (wait_ticks vmem_base_addr mp1_list_head garbage rtc_fd) s (λ _ s', fishing (respond_all v ticks d).2 s').
Proof using HL Hgl Hfd Hcl Hgarbage.
  unfold wait_ticks, ticks. generalize (Z.to_nat WAIT). intros n. generalize 0. revert d s.
  induction n as [|n IH]; intros d s i Hf; cbn [for_upM replicate]; [by apply runs_ret|].
  eapply runs_step; [by apply one_tick|]. intros [] s' Hf'. rewrite respond_all_cons. by apply IH.
Qed.
End FishRun.
