(* ===== verification/FishFrames.v ===== *)
(** * The pictures of fish.c

    [add_frames] reads the two files a character at a time and adds the
    characters of [frames]: the loop over the columns of a row, the loop over
    the rows. *)

From S2P Require Import Prelude Text Memory LibMem LibStr Video State Runs Console Process FileSystem Terminal Paging SysCalls Exec UserLib UserRun UserFiles Programs UserKeep UserClock UserPage Blink BlinkSpec Fish FishRun.

Implicit Types s t : kernel.

(** Arithmetic on the offsets of a structure. *)
Ltac offsets := unfold LOCATION, ON_CHAR, OFF_CHAR, ON_LENGTH, OFF_LENGTH, COUNTDOWN, STATUS, NEXT in *; lia.

(** ** A file that is read *)

(** The text of a file from a position on. *)
Definition text_from (s : kernel) (ino pos : Z) : list Z := file_range s ino pos (file_size s ino - pos).

Lemma text_from_next s ino pos :
  pos < file_size s ino → text_from s ino pos = file_byte s ino pos :: text_from s ino (pos + 1).
Proof.
  intros Hp. unfold text_from, file_range. rewrite seqZ_cons by lia. cbn [fmap list_fmap]. rewrite Z.add_0_r. f_equal.
  replace (Z.pred (file_size s ino - pos)) with (file_size s ino - (pos + 1)) by lia. rewrite <- (fmap_add_seqZ 1 0), <- list_fmap_compose.
  apply list_fmap_ext. intros i x _. unfold compose. cbn. f_equal. lia.
Qed.

Lemma text_from_end s ino pos : file_size s ino <= pos → text_from s ino pos = [].
Proof. intros Hp. unfold text_from, file_range. by rewrite seqZ_nil by lia. Qed.

Section Source.
Context {L : Layout} {HL : LayoutOK L}.
Context (pid : Z).

(** [rows] is what is left to read of the file [ino], open on [fd]. *)
Definition source (fd ino : Z) (rows : list (list Z)) (s : kernel) : Prop :=
  ∃ pos, 0 <= pos <= file_size s ino ∧ reading pid s fd ino pos ∧ rows_of (text_from s ino pos) = rows.

(** A descriptor that can be closed, or was. *)
Definition closable (fd : Z) (s : kernel) : Prop :=
  flags (get_fd s (pcb_addr pid) fd) = 0 ∨ known_table (descriptor_op_ptr (get_fd s (pcb_addr pid) fd)).

(** The state of a file inside a row: [c] holds the character read last, or the
    newline that ends the row; [x] is left of the row, [rows] are the next. *)
Definition in_row (fd ino c eof : Z) (x : list Z) (rows : list (list Z)) (s : kernel) : Prop :=
  (ld8 s c ≠ NL ∧ eof = 0 ∧ source fd ino (x :: rows) s) ∨
  (ld8 s c = NL ∧ x = [] ∧ (eof = 0 ∧ source fd ino rows s ∨ eof = 1 ∧ rows = [] ∧ closable fd s)).

Lemma source_steps os fd ino rows s s' :
  user_ok pid s → 2 <= fd < 8 → Forall (harmless pid s) os →
  Forall (λ o, o.1 + o.2 <= fd_slot (pcb_addr pid) fd ∨ fd_slot (pcb_addr pid) fd + 16 <= o.1) os →
  steps os s s' → source fd ino rows s → source fd ino rows s'.
Proof using HL.
  intros Hu Hfd Hh Ho Hs (pos & Hpos & [Hget Hok] & Hrows). destruct (process_pcb pid s (uo_process _ _ Hu)) as (_ & _ & Hpid).
  destruct (kept_file os pid s s' ino pos (file_size s ino - pos) Hu Hh Hs Hok ltac:(lia) ltac:(lia)) as (H1 & H2 & H3).
  exists pos. rewrite H2. split; [done|]. split.
  - split; [|done]. rewrite <- Hget. apply (kept_slot os pid s s' fd Hpid); [lia|apply Hs|exact Ho].
  - rewrite <- Hrows. unfold text_from. by rewrite H2, H3.
Qed.

Lemma in_row_steps os fd ino c eof x rows s s' :
  user_ok pid s → 2 <= fd < 8 → Forall (harmless pid s) os →
  Forall (λ o, o.1 + o.2 <= fd_slot (pcb_addr pid) fd ∨ fd_slot (pcb_addr pid) fd + 16 <= o.1) os →
  steps os s s' → ld8 s' c = ld8 s c → in_row fd ino c eof x rows s → in_row fd ino c eof x rows s'.
Proof using HL.
  intros Hu Hfd Hh Ho Hs Hch. destruct (process_pcb pid s (uo_process _ _ Hu)) as (_ & _ & Hpid).
  assert (Hcl : closable fd s → closable fd s').
  { unfold closable. by rewrite (kept_slot os pid s s' fd Hpid ltac:(lia) (sp_changes _ _ _ Hs) Ho). }
  unfold in_row. rewrite Hch. pose proof (λ r, source_steps os fd ino r s s' Hu Hfd Hh Ho Hs) as Hsrc.
  intros [(H1 & H2 & H3)|(H1 & H2 & [(H3 & H4)|(H3 & H4 & H5)])]; [left|right..]; auto 10.
Qed.

(** ** One character *)

Lemma read_count_one size pos : 0 <= pos <= size → read_count size pos 1 = if pos <? size then 1 else 0.
Proof. intros H. unfold read_count. destruct (Z.leb_spec size pos), (Z.ltb_spec pos size); lia. Qed.

Lemma rows_head l x rows : rows_of l = x :: rows → Forall (λ c, c ≠ NL) x.
Proof. intros E. pose proof (rows_no_newline l) as H. rewrite E in H. by inversion_clear H. Qed.

(** What reading a character changes, and the end of a row: the screen too, by a
    message of the kernel. *)
Definition char_objects (s : kernel) (fd c : Z) : list (Z * Z) :=
  [(page_at s c, 1); (fd_slot (pcb_addr pid) fd, 16); (VIDEO, PAGE_BYTES)].

Lemma char_read_steps s s' fd c : steps (read_objects pid s fd c 1) s s' → steps (char_objects s fd c) s s'.
Proof. apply steps_mono. intros o Ho. unfold read_objects, char_objects in *. rewrite !elem_of_cons in *. tauto. Qed.

(** After the character that was read: the state of the row. *)
Lemma row_after_char fd ino c pos s s' x rows :
  rows_of (text_from s ino pos) = x :: rows → pos < file_size s ino → file_size s' ino = file_size s ino →
  text_from s' ino (pos + 1) = text_from s ino (pos + 1) → reading pid s' fd ino (pos + 1) → 0 <= pos →
  ld8 s' c = file_byte s ino pos →
  ld8 s' c = hd NL x ∧ in_row fd ino c 0 (tl x) rows s'.
Proof.
  intros Hrows Hlt Hsz Htxt Hrd Hpos Hc. rewrite (text_from_next s ino pos Hlt) in Hrows. cbn [rows_of] in Hrows. rewrite <- Hc in Hrows.
  assert (Hsrc : ∀ r, rows_of (text_from s ino (pos + 1)) = r → source fd ino r s').
  { intros r <-. exists (pos + 1). rewrite Hsz, Htxt. split; [lia|by split]. }
  destruct (Z.eqb_spec (ld8 s' c) NL) as [Hnl|Hnl].
  - injection Hrows as <- <-. split; [done|]. right. split; [done|]. split; [done|]. left. split; [done|by apply Hsrc].
  - destruct (rows_of (text_from s ino (pos + 1))) as [|r rs] eqn:Er; [by apply rows_nonempty in Er|].
    injection Hrows as <- <-. split; [done|]. left. split; [done|]. split; [done|by apply Hsrc].
Qed.

Lemma read_char_run fd ino c eof x rows s :
  user_ok pid s → 2 <= fd < 8 → in_page c 1 → in_row fd ino c eof x rows s →
  runs (read_char fd c eof) s (λ eof' s', ld8 s' c = hd NL x ∧ in_row fd ino c eof' (tl x) rows s' ∧
    steps (char_objects s fd c) s s' ∧ user_ok pid s').
Proof using HL.
  intros Hu Hfd Hc Hrow. unfold read_char. apply runs_bind, runs_gets.
  destruct Hrow as [(Hnl & -> & pos & Hpos & Hrd & Hrows)|(Hnl & -> & Hend)].
  2:{ rewrite Hnl, Z.eqb_refl. apply runs_ret. split; [done|]. split; [by right|]. split; [apply steps_refl|done]. }
  apply Z.eqb_neq in Hnl. rewrite Hnl. pose proof (rd_file _ _ _ _ _ Hrd) as Hok. pose proof (file_size_bound s ino Hok) as Hsz.
  destruct (ece391_read_file pid s fd ino pos c 1 Hu Hfd Hrd Hc ltac:(lia) ltac:(lia)) as (s1 & E & Hs1 & Hu1 & Hget & Hbytes & _).
  rewrite (read_count_one (file_size s ino) pos Hpos) in *. pose proof (read_harmless pid s fd c 1 Hu Hfd Hc) as Hh.
  destruct (kept_file _ pid s s1 ino 0 (file_size s ino) Hu Hh Hs1 Hok ltac:(lia) ltac:(lia)) as (Hok1 & Hsz1 & _).
  apply runs_bind, (runs_eq _ _ _ _ _ E). destruct (Z.ltb_spec pos (file_size s ino)) as [Hlt|Hge]; cbn [Z.eqb].
  - apply runs_ret. destruct (row_after_char fd ino c pos s s1 x rows Hrows Hlt Hsz1) as [H1 H2]; [|by split|lia| |split_and!; [exact H1|exact H2|by apply char_read_steps|exact Hu1]].
    + unfold text_from. rewrite Hsz1. apply (kept_file _ pid s s1 ino _ _ Hu Hh Hs1 Hok); lia.
    + unfold file_range, ld_bytes in Hbytes. change (seqZ 0 1) with [0] in Hbytes. cbn [fmap list_fmap] in Hbytes. rewrite !Z.add_0_r in Hbytes. by injection Hbytes.
  - rewrite (text_from_end s ino pos Hge) in Hrows. injection Hrows as <- <-.
    destruct (user_store pid s1 c NL Hu1 Hc) as (E2 & Hs2 & Hu2 & _). cbv zeta in *. set (s2 := upd_mem _ s1) in *.
    apply runs_bind, (runs_eq _ _ _ _ _ E2), runs_ret. rewrite (steps_page _ _ _ c Hs1) in Hs2.
    assert (Hnl2 : ld8 s2 c = NL) by (unfold s2; rewrite k_mem_upd; apply ld8_st8_same).
    split; [done|]. split; [|split; [|done]].
    + right. split; [done|]. split; [done|]. right. split; [done|]. split; [done|]. right. right. right. right.
      destruct (process_pcb pid s (uo_process _ _ Hu)) as (_ & _ & Hpid).
      rewrite (kept_fd _ pid s1 s2 fd Hpid ltac:(lia) Hs2); [by rewrite Hget|]. constructor; [by apply (page_outside pid s)|done].
    + apply (steps_trans _ _ s1); [by apply char_read_steps|by apply steps_head].
Qed.

(** ** The end of a row *)

(** At the start of a row: [xs] are the rows to come. *)
Definition at_row (fd ino c eof : Z) (xs : list (list Z)) (s : kernel) : Prop :=
  in_row fd ino c eof (hd [] xs) (tl xs) s ∧ (eof = 0 ↔ xs ≠ []).

Lemma closed_row fd ino c s : ld8 s c = NL → closable fd s → at_row fd ino c 1 [] s.
Proof. intros Hc Hcl. split; [|done]. right. split; [done|]. split; [done|]. by right. Qed.

Lemma end_row_run fd ino c eof rows s :
  user_ok pid s → 2 <= fd < 8 → in_page c 1 → in_row fd ino c eof [] rows s → ld8 s c = NL →
  runs (end_row fd c eof) s (λ _ s', at_row fd ino c eof rows s' ∧ steps (char_objects s fd c) s s' ∧ user_ok pid s').
Proof using HL.
  intros Hu Hfd Hc Hrow Hnl. destruct (process_pcb pid s (uo_process _ _ Hu)) as (_ & _ & Hpid). unfold end_row.
  destruct Hrow as [(Hne & _)|(_ & _ & [(-> & Hsrc)|(-> & -> & Hclose)])]; [done|..].
  - destruct (user_store pid s c 48 Hu Hc) as (E & Hs & Hu1 & _). cbv zeta in *. set (s1 := upd_mem _ s) in *.
    apply (runs_eq _ _ _ _ _ E). split; [|split; [by apply steps_head|done]].
    assert (Hc1 : ld8 s1 c = 48) by (unfold s1; rewrite k_mem_upd; apply ld8_st8_same).
    pose proof Hsrc as (pos & _ & _ & Hr). destruct rows as [|x rows]; [by apply rows_nonempty in Hr|]. split; [|done]. left. rewrite Hc1.
    split; [done|]. split; [done|]. apply (source_steps [(page_at s c, 1)] fd ino _ s s1 Hu Hfd); [|..|exact Hs|exact Hsrc].
    + constructor; [by apply page_harmless|done].
    + pose proof (page_high pid s c 1 Hu Hc). pose proof (slot_high pid fd Hpid ltac:(lia)). each_segment.
  - destruct (user_store pid s c NL Hu Hc) as (E & Hs & Hu1 & _). cbv zeta in *. set (s1 := upd_mem _ s) in *.
    apply runs_bind, (runs_eq _ _ _ _ _ E), runs_bind.
    assert (Hc1 : ld8 s1 c = NL) by (unfold s1; rewrite k_mem_upd; apply ld8_st8_same).
    assert (Hf1 : get_fd s1 (pcb_addr pid) fd = get_fd s (pcb_addr pid) fd).
    { apply (kept_fd _ pid s s1 fd Hpid ltac:(lia) Hs). constructor; [by apply (page_outside pid s)|done]. }
    assert (Hkeep : ∀ os s2, steps os s1 s2 → Forall (λ o, o.1 + o.2 <= KERNEL_END) os → ld8 s2 c = NL).
    { intros os s2 Hs2 Ho. rewrite <- Hc1, <- (Z.add_0_r c). apply (user_byte os s1 s2 c 1 0 Hs2 (uo_page _ _ Hu1) Ho Hc). lia. }
    destruct (decide (flags (get_fd s1 (pcb_addr pid) fd) = 0)) as [Hfl|Hfl].
    + destruct (ece391_close_closed pid s1 fd Hu1 Hfd Hfl) as (s2 & E2 & Hs2 & Hu2 & _).
      apply (runs_eq _ _ _ _ _ E2), runs_ret. split; [apply closed_row|split; [|done]].
      * apply (Hkeep _ _ Hs2). by repeat constructor.
      * left. rewrite (kept_fd _ pid s1 s2 fd Hpid ltac:(lia) Hs2); [done|]. constructor; [apply video_outside|done].
      * apply (steps_trans _ _ s1); [by apply steps_head|]. by apply steps_tail, steps_tail.
    + destruct (ece391_close_run pid s1 fd Hu1 Hfd Hfl) as (s2 & E2 & Hs2 & Hu2 & Hfl2 & _).
      { destruct Hclose as [H0|H0]; rewrite Hf1 in *; [by rewrite H0 in Hfl|done]. }
      apply (runs_eq _ _ _ _ _ E2), runs_ret. split; [apply closed_row|split; [|done]].
      * apply (Hkeep _ _ Hs2). pose proof (slot_high pid fd Hpid ltac:(lia)). constructor; [cbn [fst snd]; lia|done].
      * by left.
      * apply (steps_trans _ _ s1); [by apply steps_head|]. by apply steps_tail, steps_head.
Qed.

Lemma in_row_word fd ino c eof x rows s : in_row fd ino c eof x rows s → Forall (λ a, a ≠ NL) x.
Proof. intros [(_ & _ & pos & _ & _ & E)|(_ & -> & _)]; [by apply rows_head in E|constructor]. Qed.
End Source.

(** ** One cell *)

Section Frames.
Context {L : Layout} {HL : LayoutOK L}.
Context (vmem_base_addr blink_array mp1_list_head add_local find_local frame_struct c0 c1 : Z).
Context (pid v rtc_fd fd0 fd1 ino0 ino1 : Z).

(** The two characters in the page, apart from the list, the local and the
    structure. *)
Record chars_ok : Prop := {
  ch_list0 : apart_from_list vmem_base_addr blink_array mp1_list_head c0 1;
  ch_list1 : apart_from_list vmem_base_addr blink_array mp1_list_head c1 1;
  ch_local0 : c0 < add_local ∨ add_local + 16 <= c0;
  ch_local1 : c1 < add_local ∨ add_local + 16 <= c1;
  ch_struct0 : c0 < frame_struct ∨ frame_struct + 16 <= c0;
  ch_struct1 : c1 < frame_struct ∨ frame_struct + 16 <= c1;
  ch_two : c0 ≠ c1;
}.

(** Three descriptors. *)
Record fds_ok : Prop := {
  fd_rtc : 2 <= rtc_fd < 8;
  fd_0 : 2 <= fd0 < 8;
  fd_1 : 2 <= fd1 < 8;
  fd_apart : rtc_fd ≠ fd0 ∧ rtc_fd ≠ fd1 ∧ fd0 ≠ fd1;
}.

Context (Hcl : client_ok vmem_base_addr blink_array mp1_list_head add_local find_local frame_struct).
Context (Hch : chars_ok) (Hfds : fds_ok).
Let Hgl : globals_ok vmem_base_addr blink_array mp1_list_head add_local := cl_globals _ _ _ _ _ _ Hcl.

Let fishing := fishing vmem_base_addr blink_array mp1_list_head pid v rtc_fd.
Let row0 := in_row pid fd0 ino0 c0.
Let row1 := in_row pid fd1 ino1 c1.

Definition lengths_set (m : memory) : Prop :=
  ld16 m (frame_struct + ON_LENGTH) = 15 ∧ ld16 m (frame_struct + OFF_LENGTH) = 15.

(** In a row: the display, what is left of the row and of the files. *)
Record at_cells (d : display) (eof0 eof1 : Z) (x0 x1 : list Z) (rows0 rows1 : list (list Z)) (s : kernel) : Prop := {
  ac_fishing : fishing d s;
  ac_row0 : row0 eof0 x0 rows0 s;
  ac_row1 : row1 eof1 x1 rows1 s;
  ac_lengths : lengths_set s;
}.

Lemma lengths_kept (s s' : memory) : (∀ i, 0 <= i < 16 → ld8 s' (frame_struct + i) = ld8 s (frame_struct + i)) → lengths_set s → lengths_set s'.
Proof using.
  intros H [H1 H2]. split; [rewrite <- H1|rewrite <- H2]; unfold ld16, ON_LENGTH, OFF_LENGTH; rewrite <- !Z.add_assoc; by rewrite !H by lia.
Qed.

Lemma slot_beside s fd : 0 <= pid < 6 → 0 <= fd < 8 → beside vmem_base_addr blink_array mp1_list_head s (fd_slot (pcb_addr pid) fd, 16).
Proof using. intros Hp Hf. left. cbn [fst snd]. by apply slot_high. Qed.

Lemma page_slot s a n fd : user_ok pid s → in_page a n → 0 <= fd < 8 → fd_slot (pcb_addr pid) fd + 16 <= page_at s a.
Proof using HL.
  intros Hu Ha Hf. destruct (process_pcb pid s (uo_process _ _ Hu)) as (_ & _ & Hpid). pose proof (slot_high pid fd Hpid Hf).
  pose proof (page_high pid s a n Hu Ha). lia.
Qed.

(** A byte of the page outside the segment of a character. *)
Lemma char_keeps s s' fd c a :
  user_ok pid s → 0 <= fd < 8 → in_page c 1 → in_page a 1 → a ≠ c → steps (char_objects pid s fd c) s s' → ld8 s' a = ld8 s a.
Proof using HL.
  intros Hu Hf Hc Ha Hne Hs. pose proof (page_slot s c 1 fd Hu Hc Hf) as Hlow. pose proof (page_slot s a 1 fd Hu Ha Hf) as Hlow'. unfold page_at in Hlow, Hlow'.
  apply (changes_byte _ _ _ _ (sp_changes _ _ _ Hs)). destruct Hc as (C1 & _ & C3), Ha as (A1 & _ & A3). rewrite phys_user by lia.
  unfold char_objects, page_at, VIDEO, PAGE_BYTES. pose proof (uo_page _ _ Hu) as Hp. unfold KERNEL_END in Hp. each_segment.
Qed.

Lemma char_fishing d s s' fd c :
  fishing d s → steps (char_objects pid s fd c) s s' → user_ok pid s' → 2 <= fd < 8 → fd ≠ rtc_fd →
  apart_from_list vmem_base_addr blink_array mp1_list_head c 1 → fishing d s'.
Proof using HL Hcl Hfds.
  intros Hf Hs Hu' Hfd Hne Hc. pose proof (fg_user _ _ _ _ _ _ _ _ Hf) as Hu. destruct (process_pcb pid s (uo_process _ _ Hu)) as (_ & _ & Hpid).
  apply (fishing_steps _ _ _ _ Hgl pid v rtc_fd (fd_rtc Hfds) _ d s s' Hf Hs Hu').
  - constructor; [right; by eexists _, _|]. constructor; [by apply slot_beside; [|lia]|]. constructor; [by left|done].
  - pose proof (page_slot s c 1 rtc_fd Hu (proj1 Hc) ltac:(pose proof (fd_rtc Hfds); lia)). pose proof (slot_high pid rtc_fd Hpid ltac:(pose proof (fd_rtc Hfds); lia)).
    unfold char_objects, fd_slot, VIDEO, PAGE_BYTES, KERNEL_START in *. each_segment.
Qed.

Lemma char_lengths s s' fd c :
  user_ok pid s → 0 <= fd < 8 → in_page c 1 → (c < frame_struct ∨ frame_struct + 16 <= c) → steps (char_objects pid s fd c) s s' →
  lengths_set s → lengths_set s'.
Proof using HL Hcl.
  intros Hu Hf Hc Hd Hs. apply lengths_kept. intros i Hi. destruct (proj1 (cl_arg _ _ _ _ _ _ Hcl)) as (S1 & _ & S3).
  apply (char_keeps s s' fd c); [done|done|done|split_and!; lia|lia|done].
Qed.

Lemma char_row s s' fd c fd' ino' c' eof x rows :
  user_ok pid s → 2 <= fd < 8 → 2 <= fd' < 8 → fd ≠ fd' → in_page c 1 → in_page c' 1 → c ≠ c' → steps (char_objects pid s fd c) s s' →
  in_row pid fd' ino' c' eof x rows s → in_row pid fd' ino' c' eof x rows s'.
Proof using HL.
  intros Hu Hf Hf' Hne Hc Hc' Hcc Hs. apply (in_row_steps pid (char_objects pid s fd c)); [done|done| | |exact Hs|].
  - constructor; [by apply page_harmless|]. constructor; [by apply slot_harmless|]. constructor; [by apply video_harmless|done].
  - destruct (process_pcb pid s (uo_process _ _ Hu)) as (_ & _ & Hpid). pose proof (slot_high pid fd' Hpid ltac:(lia)).
    pose proof (page_slot s c 1 fd' Hu Hc ltac:(lia)). unfold char_objects, fd_slot, VIDEO, PAGE_BYTES, KERNEL_START in *. each_segment.
  - apply (char_keeps s s' fd c); (done || lia).
Qed.

(** The two reads of a turn. *)
Lemma read_both d e0 e1 x0 x1 r0 r1 s :
  at_cells d e0 e1 x0 x1 r0 r1 s →
  runs (e0' ← read_char fd0 c0 e0; e1' ← read_char fd1 c1 e1; mret (e0', e1')) s (λ es s',
    at_cells d es.1 es.2 (tl x0) (tl x1) r0 r1 s' ∧ ld8 s' c0 = hd NL x0 ∧ ld8 s' c1 = hd NL x1).
Proof using HL Hcl Hch Hfds.
  intros [Hf H0 H1 Hl]. pose proof (fd_0 Hfds) as F0. pose proof (fd_1 Hfds) as F1. destruct (fd_apart Hfds) as (F2 & F3 & F4).
  pose proof (proj1 (ch_list0 Hch)) as P0. pose proof (proj1 (ch_list1 Hch)) as P1. pose proof (ch_two Hch) as Hne.
  pose proof (fg_user _ _ _ _ _ _ _ _ Hf) as Hu.
  eapply runs_step; [apply (read_char_run pid fd0 ino0 c0 e0 x0 r0 s Hu F0 P0 H0)|]. intros e0' s1 (E0 & H0' & Hs1 & Hu1). cbn beta.
  assert (Hf1 : fishing d s1) by (apply (char_fishing d s s1 fd0 c0 Hf Hs1 Hu1 F0); [congruence|apply Hch]).
  assert (H11 : row1 e1 x1 r1 s1) by (apply (char_row s s1 fd0 c0 fd1 ino1 c1); done).
  assert (Hl1 : lengths_set s1) by (apply (char_lengths s s1 fd0 c0); [done|lia|done|apply Hch|done|done]).
  eapply runs_step; [apply (read_char_run pid fd1 ino1 c1 e1 x1 r1 s1 Hu1 F1 P1 H11)|]. intros e1' s2 (E1 & H1' & Hs2 & Hu2). cbn beta.
  apply runs_ret. cbn [fst snd]. split; [split|split; [|exact E1]].
  - apply (char_fishing d s1 s2 fd1 c1 Hf1 Hs2 Hu2 F1); [congruence|apply Hch].
  - apply (char_row s1 s2 fd1 c1 fd0 ino0 c0); (done || congruence).
  - exact H1'.
  - apply (char_lengths s1 s2 fd1 c1); [done|lia|done|apply Hch|done|done].
  - rewrite <- E0. apply (char_keeps s1 s2 fd1 c1); [done|lia|done|done|done|done].
Qed.

(** The stores into the structure before a character is added. *)
Definition cell_stores (a b loc : Z) (m : memory) : memory :=
  st16 (st8 (st8 m (frame_struct + ON_CHAR) a) (frame_struct + OFF_CHAR) b) (frame_struct + LOCATION) loc.

Lemma cell_stores_run a b loc m :
  lengths_set m → 0 <= a < 256 → 0 <= b < 256 →
  only frame_struct 16 m (cell_stores a b loc m) ∧ lengths_set (cell_stores a b loc m) ∧
  fresh (view (cell_stores a b loc m) frame_struct) = fresh (mkBlink (u16 loc) a b 15 15 0 0).
Proof using Hcl.
  intros [L1 L2] Ha Hb. pose proof (proj1 (cl_arg _ _ _ _ _ _ Hcl)) as Hp. pose proof Hp as (P1 & _ & P3).
  assert (Hf : ∀ o n, 0 <= o → 0 <= n → o + n <= 16 → in_page (frame_struct + o) n) by (intros; apply in_struct; done).
  unfold cell_stores. set (m1 := st8 m (frame_struct + ON_CHAR) a). set (m2 := st8 m1 (frame_struct + OFF_CHAR) b).
  set (m3 := st16 m2 (frame_struct + LOCATION) loc).
  assert (O1 : only (frame_struct + ON_CHAR) 1 m m1) by (apply only_st8; unfold in_bounds, ON_CHAR; lia).
  assert (O2 : only (frame_struct + OFF_CHAR) 1 m1 m2) by (apply only_st8; unfold in_bounds, OFF_CHAR; lia).
  assert (O3 : only (frame_struct + LOCATION) 2 m2 m3) by (apply only_st16, Hf; unfold LOCATION; lia).
  assert (F3 : ld8 m3 (frame_struct + ON_CHAR) = a).
  { rewrite (page_ld8 _ _ m2 m3 _ (on_page _ _ _ _ O3)), (page_ld8 _ _ m1 m2 _ (on_page _ _ _ _ O2)) by ((apply Hf || idtac); offsets).
    unfold m1. rewrite ld8_st8_same. by apply u8_small. }
  assert (F4 : ld8 m3 (frame_struct + OFF_CHAR) = b).
  { rewrite (page_ld8 _ _ m2 m3 _ (on_page _ _ _ _ O3)) by ((apply Hf || idtac); offsets). unfold m2. rewrite ld8_st8_same. by apply u8_small. }
  assert (F5 : ld16 m3 (frame_struct + LOCATION) = u16 loc) by (unfold m3; apply ld16_st16, Hf; offsets).
  assert (O13 : only frame_struct 4 m m3).
  { apply (only_trans _ _ _ m1); [apply (only_widen _ _ _ _ _ _ O1); offsets|]. apply (only_trans _ _ _ m2); [apply (only_widen _ _ _ _ _ _ O2); offsets|].
    apply (only_widen _ _ _ _ _ _ O3); offsets. }
  clearbody m3. clear O1 O2 O3 m1 m2.
  assert (F1 : ld16 m3 (frame_struct + ON_LENGTH) = 15) by (rewrite <- L1; apply (page_ld16 _ _ _ _ _ (on_page _ _ _ _ O13)); [apply Hf; offsets|offsets]).
  assert (F2 : ld16 m3 (frame_struct + OFF_LENGTH) = 15) by (rewrite <- L2; apply (page_ld16 _ _ _ _ _ (on_page _ _ _ _ O13)); [apply Hf; offsets|offsets]).
  split; [apply (only_widen _ _ _ _ _ _ O13); lia|]. split; [by split|].
  exact (fresh_view m3 frame_struct (mkBlink (u16 loc) a b 15 15 0 0) F5 F3 F4 F1 F2).
Qed.

(** A store or a request that keeps the two characters keeps the rows. *)
Lemma rows_kept os e0 e1 x0 x1 r0 r1 s s' :
  user_ok pid s → Forall outside os → steps os s s' → ld8 s' c0 = ld8 s c0 → ld8 s' c1 = ld8 s c1 →
  row0 e0 x0 r0 s → row1 e1 x1 r1 s → row0 e0 x0 r0 s' ∧ row1 e1 x1 r1 s'.
Proof using HL Hfds.
  intros Hu Ho Hs E0 E1 H0 H1. destruct (process_pcb pid s (uo_process _ _ Hu)) as (_ & _ & Hpid).
  assert (Hh : Forall (harmless pid s) os) by (eapply List.Forall_impl; [|exact Ho]; intros o; by apply outside_harmless).
  assert (Hsl : ∀ fd, 2 <= fd < 8 → Forall (λ o, o.1 + o.2 <= fd_slot (pcb_addr pid) fd ∨ fd_slot (pcb_addr pid) fd + 16 <= o.1) os).
  { intros fd Hf. pose proof (slot_high pid fd Hpid ltac:(lia)). eapply List.Forall_impl; [|exact Ho]. unfold outside. intros o. cbn beta. lia. }
  pose proof (fd_0 Hfds) as F0. pose proof (fd_1 Hfds) as F1.
  split; [apply (in_row_steps pid os fd0 ino0 c0 e0 x0 r0 s s' Hu F0 Hh (Hsl fd0 F0) Hs E0 H0)|apply (in_row_steps pid os fd1 ino1 c1 e1 x1 r1 s s' Hu F1 Hh (Hsl fd1 F1) Hs E1 H1)].
Qed.

(** Adding one character. *)
Lemma cell_added d e0 e1 x0 x1 r0 r1 b s :
  0 < b_location b < 65536 → 0 <= b_on_char b < 256 → 0 <= b_off_char b < 256 → 0 <= b_on_length b < 65536 → 0 <= b_off_length b < 65536 →
  fresh (view (k_mem s) frame_struct) = fresh b → at_cells d e0 e1 x0 x1 r0 r1 s →
  runs (fish_ioctl vmem_base_addr blink_array mp1_list_head add_local find_local frame_struct RTC_ADD) s
    (λ _ s', at_cells (respond v (Add b) d).2 e0 e1 x0 x1 r0 r1 s').
Proof using HL Hcl Hch Hfds.
  intros B1 B2 B3 B4 B5 Hfr [Hf H0 H1 Hl]. pose proof (fg_user _ _ _ _ _ _ _ _ Hf) as Hu. pose proof (fg_pic _ _ _ _ _ _ _ _ Hf) as Hpic.
  rewrite fish_ioctl_is. eapply runs_mono; [apply (add_call _ _ _ _ _ _ Hcl v (upage s) b (d.1, peek (k_mem s)) s); [lia|exact Hfr|by apply pictured_displays]|].
  intros r s' [Ha Hk]. cbn beta. assert (Hr : request_ok (Add b)) by (cbn; auto).
  destruct (answered_steps _ _ _ _ Hgl pid v (Add b) d s s' _ Hr Hu Hpic Ha) as (_ & _ & Hs & _).
  destruct (answered_fishing _ _ _ _ Hgl pid v rtc_fd (fd_rtc Hfds) (Add b) d s s' _ Hr Hf Ha) as [_ Hf'].
  assert (Hbyte : ∀ a, in_page a 1 → (a < blink_array ∨ blink_array + 32000 <= a) → (a < mp1_list_head ∨ mp1_list_head + 4 <= a) →
    (a < add_local ∨ add_local + 16 <= a) → ld8 s' a = ld8 s a) by (intros a (A1 & _ & A3); apply Hk; unfold in_bounds; lia).
  destruct (ch_list0 Hch) as (P0 & Q0 & R0 & _). destruct (ch_list1 Hch) as (P1 & Q1 & R1 & _).
  destruct (rows_kept _ e0 e1 x0 x1 r0 r1 s s' Hu (request_outside _ _ _ pid v s d Hu Hpic) Hs) as [H0' H1'];
    [apply Hbyte; [done|lia|lia|apply Hch]|apply Hbyte; [done|lia|lia|apply Hch]|done|done|].
  split; [exact Hf'|exact H0'|exact H1'|]. apply (lengths_kept s); [|exact Hl]. intros i Hi.
  destruct (cl_arg _ _ _ _ _ _ Hcl) as ((S1 & _ & S3) & S4 & S5 & _). pose proof (cl_arg_add _ _ _ _ _ _ Hcl).
  apply Hbyte; [split_and!; lia|lia..].
Qed.

Let ctx_cell := frame_cell vmem_base_addr blink_array mp1_list_head add_local find_local frame_struct c0 c1.
Let ctx_column := frame_column vmem_base_addr blink_array mp1_list_head add_local find_local frame_struct c0 c1 fd0 fd1.

Definition shown_char (a : Z) : Z := if a =? NL then SPACE else a.

Lemma shown_char_range m a : 0 <= shown_char (ld8 m a) < 256.
Proof. unfold shown_char. destruct (_ =? _); [done|apply ld8_range]. Qed.

Lemma frame_cell_run row col d e0 e1 x0 x1 r0 r1 s :
  at_cells d e0 e1 x0 x1 r0 r1 s → Forall (λ b, 0 < b_location b) (cell row col (ld8 s c0) (ld8 s c1)) →
  runs (ctx_cell row col) s (λ _ s',
    at_cells (respond_all v (Add <$> cell row col (ld8 s c0) (ld8 s c1)) d).2 e0 e1 x0 x1 r0 r1 s').
Proof using HL Hcl Hch Hfds.
  intros Hat Hloc. unfold ctx_cell, frame_cell. apply runs_bind, runs_gets, runs_bind, runs_gets. unfold cell in *.
  fold (shown_char (ld8 s c0)) in *. fold (shown_char (ld8 s c1)) in *. destruct (_ || _); [|by apply runs_ret].
  set (b := mkBlink _ _ _ _ _ _ _) in *. inversion_clear Hloc as [|? ? Hb _]. cbn [fmap list_fmap respond_all].
  pose proof Hat as [Hf H0 H1 Hl]. pose proof (fg_user _ _ _ _ _ _ _ _ Hf) as Hu. pose proof (cl_arg _ _ _ _ _ _ Hcl) as Harg. pose proof Harg as (Hp & _).
  destruct (cell_stores_run (shown_char (ld8 s c0)) (shown_char (ld8 s c1)) (row * 80 + col + 40) (k_mem s) Hl (shown_char_range _ _) (shown_char_range _ _)) as (O & Hl' & Hfr).
  destruct (only_steps pid s frame_struct 16 _ Hu Hp ltac:(lia) O) as [Hs Hu1].
  set (m' := cell_stores _ _ _ (k_mem s)) in *.
  do 3 apply runs_bind, runs_modify. apply runs_bind.
  change (upd_mem _ _) with (upd_mem (λ _, m') s). set (s1 := upd_mem (λ _, m') s) in *.
  assert (Hbyte : ∀ c, in_page c 1 → (c < frame_struct ∨ frame_struct + 16 <= c) → ld8 s1 c = ld8 s c).
  { intros c (C1 & _ & C3) Hd. apply (on_page _ _ _ _ O); unfold in_bounds; lia. }
  assert (Hout : Forall outside [(page_at s frame_struct, 16)]) by (constructor; [by apply (page_outside pid s)|done]).
  destruct (rows_kept _ e0 e1 x0 x1 r0 r1 s s1 Hu Hout Hs) as [H0' H1'];
    [apply Hbyte; [apply (ch_list0 Hch)|apply Hch]|apply Hbyte; [apply (ch_list1 Hch)|apply Hch]|done|done|].
  assert (Hf1 : fishing d s1).
  { apply (fishing_steps _ _ _ _ Hgl pid v rtc_fd (fd_rtc Hfds) _ d s s1 Hf Hs Hu1).
    - constructor; [right; by eexists _, _|done].
    - pose proof (page_slot s frame_struct 16 rtc_fd Hu Hp ltac:(pose proof (fd_rtc Hfds); lia)). each_segment. }
  eapply runs_mono; [apply (cell_added d e0 e1 x0 x1 r0 r1 b s1)|].
  - pose proof (u16_range (row * 80 + col + 40)). cbn [b b_location] in *. lia.
  - apply shown_char_range.
  - apply shown_char_range.
  - done.
  - done.
  - exact Hfr.
  - by split.
  - intros r s2 H. cbn beta. apply runs_ret. by destruct (respond v (Add b) d) as [? d2].
Qed.

Lemma hd_newline x : Forall (λ a, a ≠ NL) x → hd NL x = NL → x = [].
Proof using. intros H. destruct x as [|a x]; [done|]. cbn. intros ->. by inversion_clear H. Qed.

Lemma two_reads {A B C} (m : M A) (n : A → M B) (f : A → B → M C) s Q :
  runs (a ← m; b ← n a; mret (a, b)) s (λ p s', runs (f p.1 p.2) s' Q) → runs (a ← m; b ← n a; f a b) s Q.
Proof using.
  intros (p & s' & E & H). unfold runs, mbind, M_bind in *. destruct (m s) as [a t| | | | |]; try done.
  destruct (n a t) as [b u| | | | |]; try done. cbn in E. injection E as <- <-. exact H.
Qed.

(** The last turn of a row ends it, the others add a cell. *)
Definition column_done (row col : Z) (d : display) (x0 x1 : list Z) (r0 r1 : list (list Z)) (p : (Z * Z * Z) + (Z * Z)) (s : kernel) : Prop :=
  match p with
  | inl (col', e0, e1) => col' = col + 1 ∧ (x0 ≠ [] ∨ x1 ≠ []) ∧
      at_cells (respond_all v (Add <$> cell row col (hd NL x0) (hd NL x1)) d).2 e0 e1 (tl x0) (tl x1) r0 r1 s
  | inr (e0, e1) => x0 = [] ∧ x1 = [] ∧ ld8 s c0 = NL ∧ ld8 s c1 = NL ∧ at_cells d e0 e1 [] [] r0 r1 s
  end.

Lemma column_run row col d e0 e1 x0 x1 r0 r1 s :
  at_cells d e0 e1 x0 x1 r0 r1 s → Forall (λ b, 0 < b_location b) (cell row col (hd NL x0) (hd NL x1)) →
  runs (ctx_column row (col, e0, e1)) s (column_done row col d x0 x1 r0 r1).
Proof using HL Hcl Hch Hfds.
  intros Hat Hloc. pose proof (in_row_word pid _ _ _ _ _ _ _ (ac_row0 _ _ _ _ _ _ _ _ Hat)) as W0. pose proof (in_row_word pid _ _ _ _ _ _ _ (ac_row1 _ _ _ _ _ _ _ _ Hat)) as W1.
  unfold ctx_column, frame_column. apply (two_reads (read_char fd0 c0 e0) (λ _, read_char fd1 c1 e1)).
  eapply runs_mono; [by apply read_both|]. intros [e0' e1'] s1 (Hat1 & E0 & E1). cbn [fst snd] in *.
  apply runs_bind, runs_gets, runs_bind, runs_gets. rewrite E0, E1. rewrite <- E0, <- E1 in Hloc.
  destruct (Z.eqb_spec (hd NL x0) NL) as [N0|N0]; [destruct (Z.eqb_spec (hd NL x1) NL) as [N1|N1]|]; cbn [andb].
  - apply hd_newline in N0 as ->; [|done]. apply hd_newline in N1 as ->; [|done]. by apply runs_ret.
  - apply runs_bind. eapply runs_mono; [by apply (frame_cell_run row col d e0' e1')|]. intros [] s2 Hat2. rewrite E0, E1 in Hat2. apply runs_ret.
    split; [done|]. split; [|exact Hat2]. right. by intros ->.
  - apply runs_bind. eapply runs_mono; [by apply (frame_cell_run row col d e0' e1')|]. intros [] s2 Hat2. rewrite E0, E1 in Hat2. apply runs_ret.
    split; [done|]. split; [|exact Hat2]. left. by intros ->.
Qed.

(** ** A row *)

(** The state before a turn: what is still to be added leads to [dfin]. *)
Definition row_todo (row : Z) (dfin : display) (r0 r1 : list (list Z)) (n : nat) (p : Z * Z * Z) (s : kernel) : Prop :=
  let '(col, e0, e1) := p in
  ∃ d x0 x1, n = (length x0 `max` length x1)%nat ∧ at_cells d e0 e1 x0 x1 r0 r1 s ∧
    Forall (λ b, 0 < b_location b) (row_cells n row col x0 x1) ∧ (respond_all v (Add <$> row_cells n row col x0 x1) d).2 = dfin.

Lemma row_run row d e0 e1 x0 x1 r0 r1 s :
  let n := (length x0 `max` length x1)%nat in
  at_cells d e0 e1 x0 x1 r0 r1 s → Z.of_nat n <= 4294967296 → Forall (λ b, 0 < b_location b) (row_cells n row 0 x0 x1) →
  runs (iter_M (ctx_column row) (0, e0, e1)) s (λ es s', ld8 s' c0 = NL ∧ ld8 s' c1 = NL ∧
    at_cells (respond_all v (Add <$> row_cells n row 0 x0 x1) d).2 es.1 es.2 [] [] r0 r1 s').
Proof using HL Hcl Hch Hfds.
  intros n Hat Hn Hloc. set (dfin := (respond_all v _ d).2).
  apply (runs_ranked _ n _ _ (row_todo row dfin r0 r1)); [by exists d, x0, x1|exact Hn|]. clearbody n dfin. clear d e0 e1 x0 x1 s n Hat Hn Hloc.
  intros n [[col e0] e1] s (d & x0 & x1 & Hn & Hat & Hloc & Hd). cbn zeta in *.
  assert (Hcell : Forall (λ b, 0 < b_location b) (cell row col (hd NL x0) (hd NL x1))).
  { destruct n as [|k]; [|by apply Forall_app in Hloc as [H _]]. destruct x0, x1; try (cbn in Hn; lia). constructor. }
  eapply runs_mono; [by apply (column_run row col d e0 e1 x0 x1)|]. intros [[[col' e0'] e1']|[e0' e1']] s' H.
  - destruct H as (-> & Hne & Hat'). assert (Hk : n = S (length (tl x0) `max` length (tl x1))%nat).
    { destruct x0 as [|? x0], x1 as [|? x1]; cbn [length tl] in *; [by destruct Hne|lia..]. }
    exists (length (tl x0) `max` length (tl x1))%nat. split; [lia|]. rewrite Hk in Hloc, Hd. cbn [row_cells] in Hloc, Hd.
    rewrite fmap_app, respond_all_app in Hd. apply Forall_app in Hloc as [_ Hloc].
    eexists _, (tl x0), (tl x1). split; [done|]. split; [exact Hat'|]. by split.
  - destruct H as (-> & -> & N0 & N1 & Hat'). cbn in Hn. subst n. cbn in Hd. subst dfin. by split_and!.
Qed.

(** ** The rows *)

Let ctx_row := frame_row vmem_base_addr blink_array mp1_list_head add_local find_local frame_struct c0 c1 fd0 fd1.

Record at_rows (d : display) (e0 e1 : Z) (xs ys : list (list Z)) (s : kernel) : Prop := {
  ar_fishing : fishing d s;
  ar_row0 : at_row pid fd0 ino0 c0 e0 xs s;
  ar_row1 : at_row pid fd1 ino1 c1 e1 ys s;
  ar_lengths : lengths_set s;
}.

(** Both rows are ended. *)
Lemma end_rows_run d e0 e1 r0 r1 s :
  at_cells d e0 e1 [] [] r0 r1 s → ld8 s c0 = NL → ld8 s c1 = NL →
  runs (_ ← end_row fd0 c0 e0; end_row fd1 c1 e1) s (λ _ s', at_rows d e0 e1 r0 r1 s').
Proof using HL Hcl Hch Hfds.
  intros [Hf H0 H1 Hl] N0 N1. pose proof (fd_0 Hfds) as F0. pose proof (fd_1 Hfds) as F1. destruct (fd_apart Hfds) as (F2 & F3 & F4).
  pose proof (proj1 (ch_list0 Hch)) as P0. pose proof (proj1 (ch_list1 Hch)) as P1. pose proof (ch_two Hch) as Hne.
  pose proof (fg_user _ _ _ _ _ _ _ _ Hf) as Hu.
  eapply runs_step; [by apply (end_row_run pid fd0 ino0 c0 e0 r0 s Hu F0 P0)|]. intros [] s1 ([H0' H0e] & Hs1 & Hu1). cbn beta.
  assert (Hf1 : fishing d s1) by (apply (char_fishing d s s1 fd0 c0 Hf Hs1 Hu1 F0); [congruence|apply Hch]).
  assert (H11 : row1 e1 [] r1 s1) by (apply (char_row s s1 fd0 c0 fd1 ino1 c1); done).
  assert (Hl1 : lengths_set s1) by (apply (char_lengths s s1 fd0 c0); [done|lia|done|apply Hch|done|done]).
  assert (N11 : ld8 s1 c1 = NL) by (rewrite <- N1; apply (char_keeps s s1 fd0 c0); [done|lia|done|done|done|done]).
  eapply runs_mono; [by apply (end_row_run pid fd1 ino1 c1 e1 r1 s1 Hu1 F1 P1)|]. intros [] s2 (H1' & Hs2 & Hu2). cbn beta. split.
  - apply (char_fishing d s1 s2 fd1 c1 Hf1 Hs2 Hu2 F1); [congruence|apply Hch].
  - split; [|done]. apply (char_row s1 s2 fd1 c1 fd0 ino0 c0); (done || congruence).
  - exact H1'.
  - apply (char_lengths s1 s2 fd1 c1); [done|lia|done|apply Hch|done|done].
Qed.

Definition short (x : list Z) : Prop := Z.of_nat (length x) <= 4294967296.

Definition rows_todo (dfin : display) (n : nat) (p : Z * Z * Z) (s : kernel) : Prop :=
  let '(row, e0, e1) := p in
  ∃ d xs ys, n = (length xs `max` length ys)%nat ∧ at_rows d e0 e1 xs ys s ∧ Forall short xs ∧ Forall short ys ∧
    Forall (λ b, 0 < b_location b) (all_cells n row xs ys) ∧ (respond_all v (Add <$> all_cells n row xs ys) d).2 = dfin.

Lemma short_parts xs : Forall short xs → short (hd [] xs) ∧ Forall short (tl xs).
Proof using. intros H. destruct H as [|x xs Hx Hxs]; [by split|by split]. Qed.

Lemma one_row dfin n p s :
  rows_todo dfin n p s → runs (ctx_row p) s (λ r s', match r with
    | inl p' => ∃ k, (k < n)%nat ∧ rows_todo dfin k p' s'
    | inr _ => fishing dfin s' end).
Proof using HL Hcl Hch Hfds.
  destruct p as [[row e0] e1]. intros (d & xs & ys & Hn & [Hf [H0 E0] [H1 E1] Hl] & Sx & Sy & Hloc & Hd). unfold ctx_row, frame_row.
  destruct n as [|k].
  - destruct xs, ys; try (cbn in Hn; lia). destruct (Z.eqb_spec e0 0) as [Z0|_]; [by apply E0 in Z0|].
    destruct (Z.eqb_spec e1 0) as [Z1|_]; [by apply E1 in Z1|]. apply runs_ret. cbn in Hd. by subst.
  - assert (Ht : (e0 =? 0) || (e1 =? 0) = true).
    { apply orb_true_iff. rewrite !Z.eqb_eq. destruct xs; [destruct ys; [cbn in Hn; lia|right; by apply E1]|left; by apply E0]. }
    rewrite Ht. cbn [all_cells] in Hloc, Hd. rewrite fmap_app, respond_all_app in Hd. apply Forall_app in Hloc as [Hloc1 Hloc2].
    destruct (short_parts xs Sx) as [Sx1 Sx2]. destruct (short_parts ys Sy) as [Sy1 Sy2]. unfold short in Sx1, Sy1.
    eapply runs_step; [apply (row_run row d e0 e1 (hd [] xs) (hd [] ys) (tl xs) (tl ys) s); [by split|lia|exact Hloc1]|].
    intros [e0' e1'] s1 (N0 & N1 & Hat). cbn [fst snd] in Hat. cbn beta iota.
    pose proof (end_rows_run _ e0' e1' _ _ s1 Hat N0 N1) as He. unfold runs at 1 in He. destruct He as ([] & s2 & He & Har).
    unfold runs. exists (inl (row + 1, e0', e1')), s2. split.
    + unfold mbind, M_bind in He |- *. destruct (end_row fd0 c0 e0' s1) as [[] t| | | | |]; try done. by rewrite He.
    + exists k. split; [lia|]. eexists _, (tl xs), (tl ys). split; [|by split_and!].
      destruct xs, ys; cbn [length tl] in *; lia.
Qed.

Lemma rows_run d e0 e1 xs ys s :
  let n := (length xs `max` length ys)%nat in
  at_rows d e0 e1 xs ys s → Z.of_nat n <= 4294967296 → Forall short xs → Forall short ys →
  Forall (λ b, 0 < b_location b) (all_cells n 0 xs ys) →
  runs (iter_M ctx_row (0, e0, e1)) s (λ _ s', fishing (respond_all v (Add <$> all_cells n 0 xs ys) d).2 s').
Proof using HL Hcl Hch Hfds.
  intros n Hat Hn Sx Sy Hloc. apply (runs_ranked _ n _ _ (rows_todo (respond_all v (Add <$> all_cells n 0 xs ys) d).2)); [|exact Hn|].
  - by exists d, xs, ys.
  - intros k p t. apply one_row.
Qed.
End Frames.
