(* ===== verification/FishMain.v ===== *)
(** * fish.c from its start to its end

    [fish_correct]: with its two files in the image, the program shows their
    pictures and returns 0; the display it leaves is that of the requests the
    program makes. *)

From S2P Require Import Prelude Text Memory LibMem LibStr Video State Runs Console Process FileSystem Terminal Paging SysCalls Exec UserLib UserRun UserFiles Programs UserKeep UserClock UserExample UserPage Blink BlinkSpec Fish FishRun FishFrames.

Implicit Types s : kernel.

Section Start.
Context {L : Layout} {HL : LayoutOK L}.
Context (pid : Z).

(** ** vidmap *)

(** The page vidmap gives the program of terminal [t]. *)
Definition video_page (t : Z) : Z := ONE_TWENTY_EIGHT_MB + FOURMB * (t + 1).

Lemma ece391_vidmap_run s a t :
  user_ok pid s → in_page a 4 → term_of_process s (ld32 s (pcb_addr pid + process_num_off)) = t → 0 <= t <= 2 →
  0 <= active_terminal s <= 2 → big_base (pDirectory s !!! 32) = upage s →
  ∃ s', ece391_vidmap a s = Ret a s' ∧ steps [(page_at s a, 4)] s s' ∧ user_ok pid s' ∧ ld32 s' a = video_page t.
Proof using HL.
  intros Hu Ha Ht Ht2 Hact Hpg. destruct (process_pcb pid s (uo_process _ _ Hu)) as (Hpcb & _ & _).
  pose proof Ha as (A1 & _ & A3). unfold PROGRAM_PAGE, PROGRAM_PAGE_END in A1, A3.
  set (m1 := st32 s a (video_page t)).
  assert (E : ∃ s1, vidmap a s = Ret (s32 a) s1 ∧ k_mem s1 = m1 ∧ steps [(page_at s a, 4)] s s1).
  { unfold vidmap. rewrite (bind_ret _ _ s (ONE_TWENTY_EIGHT_MB + FOURMB * (active_terminal s + 1)) s) by done.
    unfold ONE_TWENTY_EIGHT_MB at 1 2. unfold FOURMB at 1. rewrite !u32_small by lia.
    destruct (Z.eqb_spec a 0); [lia|]. destruct (Z.ltb_spec a 0x8000000); [lia|]. destruct (Z.ltb_spec (0x8000000 + 0x400000 * (active_terminal s + 1)) a); [lia|]. cbn [orb].
    rewrite (bind_ret _ _ s (get_pcb s) s) by done. rewrite Hpcb.
    rewrite (bind_ret _ _ s t s) by (unfold gets; by rewrite Ht).
    set (s1 := set_pde (33 + t) (Z.lor videopTable_addr 7) s). rewrite (bind_ret _ _ s tt s1) by done.
    set (s2 := set_video_pte 0 (Z.lor (video_memory_buffer_loc + t) 7) s1). rewrite (bind_ret _ _ s1 tt s2) by done.
    set (s3 := flush_tlb s2). rewrite (bind_ret _ _ s2 tt s3) by done. rewrite (bind_ret _ _ _ _ _ (modify_mem_run _ s3)).
    eexists. split; [reflexivity|].
    assert (Hm : k_mem s3 = k_mem s).
    { unfold s3, flush_tlb. rewrite k_mem_upd.
      assert (Hp32 : pDirectory s2 !!! 32 = pDirectory s !!! 32) by (change (pDirectory s2) with (<[33 + t := u32 (Z.lor videopTable_addr 7)]> (pDirectory s)); by rewrite lookup_total_insert_ne by lia).
      rewrite Hp32, Hpg. by destruct s as [[] ? ? ? ? ? ? ? ? ? ? ? ?]. }
    split; [rewrite k_mem_upd, Hm; done|].
    split; [|done..]. rewrite k_mem_upd, Hm. apply (page_writes s _ a 4 _ _ Ha ltac:(lia) (writes_st32 s a _ (page_seg _ _ Ha))). by constructor. }
  destruct E as (s1 & E & Hm & Hs). destruct (call_returns pid [(page_at s a, 4)] s _ (s32 a) s1 E Hs Hu) as (s' & E' & Hs' & Hu' & Hm' & _).
  { constructor; [by apply page_harmless|done]. }
  exists s'. rewrite s32_small in E' by lia. split; [exact E'|]. split; [exact Hs'|]. split; [exact Hu'|].
  rewrite Hm', Hm. unfold m1. rewrite ld32_st32_same by (by apply page_seg). apply u32_small. unfold video_page, ONE_TWENTY_EIGHT_MB, FOURMB. lia.
Qed.

(** ** Descriptors taken in order *)

(** The first [n] descriptors are taken, the next to number 5 are free. *)
Definition taken (n : Z) (s : kernel) : Prop :=
  (∀ j, 0 <= j < n → flags (get_fd s (pcb_addr pid) j) ≠ 0) ∧ (∀ j, n <= j < 5 → flags (get_fd s (pcb_addr pid) j) = 0).

Lemma taken_free n s : user_ok pid s → 0 <= n < 5 → taken n s → free_fd s = Some n.
Proof using HL.
  intros Hu Hn [H1 H2]. destruct (process_pcb pid s (uo_process _ _ Hu)) as (Hpcb & _ & _). unfold free_fd. rewrite Hpcb.
  destruct (find_first _ _ _) as [i|] eqn:E.
  - apply find_first_spec in E as (Hi & E & Hlt). apply Z.eqb_eq in E. f_equal. destruct (Z.lt_trichotomy i n) as [Hlow|[->|Hhigh]]; [|done|].
    + by apply H1 in E; [|lia].
    + specialize (Hlt n ltac:(lia)). cbn beta in Hlt. by rewrite H2 in Hlt by lia.
  - pose proof (find_first_none _ _ _ E n ltac:(lia)) as Hf. cbn beta in Hf. by rewrite H2 in Hf by lia.
Qed.

Lemma taken_steps os n s s' : user_ok pid s → 0 <= n <= 5 → steps os s s' → Forall outside os → taken n s → taken n s'.
Proof using HL.
  intros Hu Hn Hs Ho [H1 H2]. destruct (process_pcb pid s (uo_process _ _ Hu)) as (_ & _ & Hpid).
  split; intros j Hj; rewrite (kept_fd os pid s s' j Hpid) by (done || lia); [apply H1|apply H2]; lia.
Qed.

Lemma taken_next n s s' :
  user_ok pid s → 2 <= n < 5 → steps (open_objects pid n) s s' → flags (get_fd s' (pcb_addr pid) n) ≠ 0 → taken n s → taken (n + 1) s'.
Proof using HL.
  intros Hu Hn Hs Hf [H1 H2]. destruct (process_pcb pid s (uo_process _ _ Hu)) as (_ & _ & Hpid).
  assert (Hk : ∀ j, 0 <= j < 5 → j ≠ n → get_fd s' (pcb_addr pid) j = get_fd s (pcb_addr pid) j).
  { intros j Hj Hne. apply (kept_slot _ pid s s' j Hpid ltac:(lia) (sp_changes _ _ _ Hs)). apply open_apart; (done || lia). }
  split; intros j Hj.
  - destruct (decide (j = n)) as [->|Hne]; [exact Hf|]. rewrite Hk by lia. apply H1. lia.
  - rewrite Hk by lia. apply H2. lia.
Qed.
End Start.

(** Four calls in a row. *)
Lemma runs_four (a b c d : M unit) s s' :
  (_ ← a; _ ← b; _ ← c; d) s = Ret tt s' → ∃ s1 s2 s3, a s = Ret tt s1 ∧ b s1 = Ret tt s2 ∧ c s2 = Ret tt s3 ∧ d s3 = Ret tt s'.
Proof.
  unfold mbind, M_bind. intros E. destruct (a s) as [[] s1| | | | |]; try done. destruct (b s1) as [[] s2| | | | |] eqn:E2; try done.
  destruct (c s2) as [[] s3| | | | |] eqn:E3; try done. by exists s1, s2, s3.
Qed.

Section Fish.
Context {L : Layout} {HL : LayoutOK L}.
Context (lit : string → Z).
Context (vmem_base_addr blink_array mp1_list_head add_local find_local file0 file1 : Z).
Context (main_struct ret_val garbage frame_struct c0 c1 : Z).
Context (pid t ino0 ino1 : Z).

(** The segments of the page the program writes before it opens its files. *)
Definition start_segments : list (Z * Z) := [(blink_array, 32000); (vmem_base_addr, 4); (c0, 1); (c1, 1); (frame_struct, 16)].

(** A name in the page, apart from those. *)
Definition fish_name (s : kernel) (a : Z) (text : string) : Prop :=
  user_string s a (bytes_of text) ∧
  Forall (λ o, a + Z.of_nat (length (bytes_of text)) + 1 <= o.1 ∨ o.1 + o.2 <= a) start_segments.

(** The variables and locals are in the page, apart from one another. *)
Record fish_layout : Prop := {
  fl_main : client_ok vmem_base_addr blink_array mp1_list_head add_local find_local main_struct;
  fl_frame : client_ok vmem_base_addr blink_array mp1_list_head add_local find_local frame_struct;
  fl_chars : chars_ok vmem_base_addr blink_array mp1_list_head add_local frame_struct c0 c1;
  fl_ret : apart_from_list vmem_base_addr blink_array mp1_list_head ret_val 4;
  fl_garbage : in_page garbage 4;
}.

(** A file of the image. *)
Definition fish_file (s : kernel) (text : string) (ino : Z) : Prop :=
  ∃ k, find_dentry s (bytes_of text) = Some k ∧ dentry_type s k = 2 ∧ dentry_inode s k = ino ∧ file_ok s ino.

(** The machine in which fish starts. *)
Record fish_ready (s : kernel) : Prop := {
  fr_user : user_ok pid s;
  fr_page : upage s = EIGHTMB + FOURMB * pid ∧ big_base (pDirectory s !!! 32) = upage s;
  fr_terminal : 0 <= t <= 2 ∧ term_of_process s (ld32 s (pcb_addr pid + process_num_off)) = t ∧ 0 <= active_terminal s <= 2;
  fr_head : ld32 s mp1_list_head = 0;
  fr_taken : taken pid 2 s;
  fr_rtc : fish_name s (lit "rtc") "rtc" ∧ ∃ k, find_dentry s (bytes_of "rtc") = Some k ∧ dentry_type s k = 0;
  fr_file0 : fish_name s file0 "frame0.txt" ∧ fish_file s "frame0.txt" ino0;
  fr_file1 : fish_name s file1 "frame1.txt" ∧ fish_file s "frame1.txt" ino1;
}.

Context (Hlay : fish_layout).
Let Hgl := cl_globals _ _ _ _ _ _ (fl_main Hlay).

(** What the start of the program changes. *)
Definition start_objects (s : kernel) : list (Z * Z) :=
  ((λ o, (page_at s o.1, o.2)) <$> start_segments) ++ open_objects pid 2 ++ open_objects pid 3 ++ open_objects pid 4.

Lemma segment_page o : o ∈ start_segments → in_page o.1 o.2 ∧ 0 < o.2.
Proof using Hlay.
  unfold start_segments. rewrite !elem_of_cons, elem_of_nil. intros [->|[->|[->|[->|[->|[]]]]]]; cbn [fst snd]; (split; [|lia]).
  - apply Hgl.
  - apply Hgl.
  - apply (ch_list0 _ _ _ _ _ _ _ (fl_chars Hlay)).
  - apply (ch_list1 _ _ _ _ _ _ _ (fl_chars Hlay)).
  - apply (cl_arg _ _ _ _ _ _ (fl_frame Hlay)).
Qed.

Lemma start_harmless s : user_ok pid s → Forall (harmless pid s) (start_objects s).
Proof using HL Hlay.
  intros Hu. unfold start_objects. rewrite !Forall_app. split_and!; [|by apply open_harmless..].
  apply Forall_fmap, list.Forall_forall. intros o Ho. destruct (segment_page o Ho). by apply page_harmless.
Qed.

(** Since the start [s0]: only that has changed. *)
Definition since (s0 s : kernel) : Prop := fish_ready s0 ∧ steps (start_objects s0) s0 s ∧ user_ok pid s.

Lemma since_steps os s0 s s' : since s0 s → steps os s s' → user_ok pid s' → os ⊆ start_objects s0 → since s0 s'.
Proof using.
  intros (Hr & Hs & Hu) Hs' Hu' Ho. split; [done|]. split; [|done]. apply (steps_trans _ _ s); [done|by apply (steps_mono os)].
Qed.

Lemma since_store os s0 s m' a n :
  since s0 s → os = [(page_at s0 a, n)] → (a, n) ∈ start_segments → only a n (k_mem s) m' →
  since s0 (upd_mem (λ _, m') s) ∧ steps os s (upd_mem (λ _, m') s) ∧ Forall outside os.
Proof using HL Hlay.
  intros Hsi -> Hin O. pose proof Hsi as (Hr & Hs & Hu). destruct (segment_page _ Hin) as [Ha Hn]. cbn [fst snd] in *.
  destruct (only_steps pid s a n m' Hu Ha Hn O) as [Hs1 Hu1]. rewrite (steps_page _ s0 s a Hs) in Hs1.
  split; [|split; [exact Hs1|]].
  - apply (since_steps [(page_at s0 a, n)] s0 s _ Hsi Hs1 Hu1). intros o Ho%list_elem_of_singleton. subst o.
    unfold start_objects. apply elem_of_app. left. apply list_elem_of_fmap. by exists (a, n).
  - constructor; [|done]. apply (page_outside pid s0); [apply Hr|done].
Qed.

Lemma since_name s0 s a text : since s0 s → fish_name s0 a text → text ≠ "" → Z.of_nat (length (bytes_of text)) <= NAME_SIZE → is_name s a (bytes_of text).
Proof using HL Hlay.
  intros (Hr & Hs & Hu) [[Hc Ha] Hap] Hne Hlen. pose proof Ha as (A1 & _ & A3). unfold PROGRAM_PAGE, PROGRAM_PAGE_END in A1, A3.
  split; [rewrite u32_small; lia|]. split; [|split; [by destruct text|exact Hlen]].
  revert Hc. apply cstring_ext. intros i Hi. apply (changes_byte _ _ _ _ (sp_changes _ _ _ Hs)).
  rewrite phys_user by (unfold PROGRAM_PAGE, PROGRAM_PAGE_END; lia). pose proof (uo_page _ _ (fr_user _ Hr)) as Hp.
  destruct (process_pcb pid s0 (uo_process _ _ (fr_user _ Hr))) as (_ & _ & Hpid).
  assert (Hopen : ∀ n, 2 <= n < 8 → Forall (λ o, ¬ (o.1 <= upage s0 + (a + i - PROGRAM_PAGE) < o.1 + o.2)) (open_objects pid n)).
  { intros n Hn. eapply List.Forall_impl; [|by apply (open_low pid n)]. intros o. cbn beta. unfold PROGRAM_PAGE. lia. }
  unfold start_objects. rewrite !Forall_app. split_and!; [|apply Hopen; lia..].
  apply Forall_fmap. eapply List.Forall_impl; [|exact Hap]. intros o H. cbn [fst snd compose]. unfold page_at. cbn in H. lia.
Qed.

Lemma since_file s0 s text ino :
  since s0 s → fish_file s0 text ino → fish_file s text ino ∧ file_text s ino = file_text s0 ino.
Proof using HL Hlay.
  intros (Hr & Hs & Hu) (k & Hk & H1 & H2 & H3). pose proof (start_harmless s0 (fr_user _ Hr)) as Hh. pose proof (fr_user _ Hr) as Hu0.
  destruct (kept_dentry _ pid s0 s _ k Hu0 Hh Hs Hk) as [E1 E2]. destruct (kept_text _ pid s0 s ino Hu0 Hh Hs H3) as [H3' E3].
  split; [|done]. exists k. by rewrite (kept_find _ pid s0 s _ Hu0 Hh Hs), E1, E2.
Qed.

Lemma video_page_bounds : 0 <= t <= 2 → PROGRAM_PAGE_END <= video_page t ∧ video_page t + 131072 <= 4294967296.
Proof using. intros Ht. unfold video_page, PROGRAM_PAGE_END, ONE_TWENTY_EIGHT_MB, FOURMB. lia. Qed.

Lemma page_below s0 : fish_ready s0 → upage s0 + (PROGRAM_PAGE_END - PROGRAM_PAGE) <= video_page t.
Proof using HL Hlay.
  intros Hr. destruct (process_pcb pid s0 (uo_process _ _ (fr_user _ Hr))) as (_ & _ & Hpid). destruct (fr_page _ Hr) as [-> _].
  destruct (video_page_bounds (proj1 (fr_terminal _ Hr))). unfold video_page, PROGRAM_PAGE_END, PROGRAM_PAGE, ONE_TWENTY_EIGHT_MB, EIGHTMB, FOURMB in *. lia.
Qed.

(** The empty list in a cleared array. *)
Lemma cleared_blinking (m : memory) :
  ld32 m mp1_list_head = 0 → (∀ i, 0 <= i < 32000 → ld8 m (blink_array + i) = 0) → blinking blink_array mp1_list_head [] [] m.
Proof using.
  intros Hh H0. split; [exact Hh|constructor|constructor|done|constructor|]. intros a (i & Hi & ->) _. rewrite view_location.
  unfold ld16, LOCATION, STRUCT_SIZE. rewrite <- !Z.add_assoc, !H0 by lia. done.
Qed.

Let shown := pictured vmem_base_addr blink_array mp1_list_head (video_page t).

Lemma start_run s0 :
  fish_ready s0 →
  runs (_ ← modify_mem (ece391_memset blink_array 0 (STRUCT_SIZE * 80 * 25)); mp1_set_video_mode vmem_base_addr) s0 (λ r s,
    r = video_page t ∧ since s0 s ∧ taken pid 2 s ∧ shown ([], peek (k_mem s0)) s).
Proof using HL Hlay.
  intros Hr. pose proof (fr_user _ Hr) as Hu0. destruct (fr_terminal _ Hr) as (Ht & Htp & Hact). destruct (fr_page _ Hr) as [Hup Hbig].
  destruct (process_pcb pid s0 (uo_process _ _ Hu0)) as (_ & Hpok & Hpid). pose proof (gl_array _ _ _ _ Hgl) as Harr. pose proof (gl_vmem _ _ _ _ Hgl) as Hvm.
  apply runs_bind, (runs_eq _ _ _ _ _ (modify_mem_run (ece391_memset blink_array 0 (STRUCT_SIZE * 80 * 25)) s0)).
  destruct (memset_run blink_array 0 (STRUCT_SIZE * 80 * 25) (k_mem s0) Harr) as [O1 Hz]. cbv zeta in O1, Hz.
  set (m1 := ece391_memset _ _ _ _) in *. clearbody m1. change (STRUCT_SIZE * 80 * 25) with 32000 in O1, Hz. change (u8 0) with 0 in Hz.
  assert (Hs0 : since s0 s0) by (split; [done|]; split; [apply steps_refl|done]).
  destruct (since_store [(page_at s0 blink_array, 32000)] s0 s0 m1 blink_array 32000 Hs0 eq_refl) as (Hsi1 & Hs1 & Hout1); [by left|exact O1|].
  set (s1 := upd_mem (λ _, m1) s0) in *. pose proof Hsi1 as (_ & _ & Hu1).
  unfold mp1_set_video_mode.
  destruct (ece391_vidmap_run pid s1 vmem_base_addr t Hu1 Hvm) as (s2 & E & Hs2 & Hu2 & Hv2); [| |exact Hact|..].
  { assert (Hw : ld32 s1 (pcb_addr pid + process_num_off) = ld32 s0 (pcb_addr pid + process_num_off)); [|by rewrite Hw].
    pose proof (uo_page _ _ Hu0). unfold pcb_ok, PCB_SIZE, process_num_off, KERNEL_START, KERNEL_END in *.
    apply (changes_word _ _ _ _ (sp_changes _ _ _ Hs1)); [lia|unfold PROGRAM_PAGE; lia|]. destruct Harr as (B1 & _). unfold page_at. each_segment. }
  { exact Ht. }
  { transitivity (upage s0); [exact Hbig|symmetry; exact (on_upage _ _ _ _ O1)]. }
  apply runs_bind, (runs_eq _ _ _ _ _ E). destruct (Z.eqb_spec vmem_base_addr (-1)); [destruct Hvm; unfold PROGRAM_PAGE in *; lia|].
  apply runs_gets. split; [exact Hv2|]. rewrite (steps_page _ s0 s1 _ Hs1) in Hs2.
  assert (Hout2 : Forall outside [(page_at s0 vmem_base_addr, 4)]) by (constructor; [by apply (page_outside pid s0)|done]).
  assert (Hsi2 : since s0 s2).
  { apply (since_steps _ s0 s1 s2 Hsi1 Hs2 Hu2). intros o Ho%list_elem_of_singleton. subst o.
    unfold start_objects. apply elem_of_app. left. apply list_elem_of_fmap. exists (vmem_base_addr, 4). split; [done|]. right. by left. }
  split; [exact Hsi2|]. split; [apply (taken_steps pid _ 2 s1 s2 Hu1 ltac:(lia) Hs2 Hout2), (taken_steps pid _ 2 s0 s1 Hu0 ltac:(lia) Hs1 Hout1), Hr|].
  pose proof (gl_array_vmem _ _ _ _ Hgl) as G1. pose proof (gl_head_vmem _ _ _ _ Hgl) as G2. pose proof (gl_array_head _ _ _ _ Hgl) as G3.
  pose proof (gl_head _ _ _ _ Hgl) as Hhd.
  assert (Hb : ∀ a, in_bounds a → a < vmem_base_addr ∨ vmem_base_addr + 4 <= a → ld8 s2 a = ld8 s1 a).
  { intros a [A1 A2] Hd. apply (changes_byte _ _ _ _ (sp_changes _ _ _ Hs2)). rewrite phys_user by lia.
    assert (Hu1p : upage s1 = upage s0) by exact (on_upage _ _ _ _ O1). rewrite Hu1p. unfold page_at. each_segment. }
  destruct Harr as (B1 & _ & B3), Hvm as (V1 & _ & V3), Hhd as (D1 & _ & D3). destruct (video_page_bounds Ht) as [X1 X2].
  exists []. split; [|split].
  - apply cleared_blinking.
    + rewrite <- (fr_head _ Hr). transitivity (ld32 s1 mp1_list_head).
      * apply ld32_ext. intros i Hi. apply Hb; unfold in_bounds; lia.
      * apply ld32_ext. intros i Hi. apply (on_page _ _ _ _ O1); unfold in_bounds; lia.
    + intros i Hi. rewrite Hb by (unfold in_bounds; lia). by apply Hz.
  - split; [exact Hv2|exact X1|exact X2|]. destruct Hsi2 as (_ & Hs & _). rewrite (proj1 (sp_changes _ _ _ Hs)). by apply page_below.
  - intros q Hq. pose proof (page_below s0 Hr) as Hlow. destruct (sp_changes _ _ _ Hs2) as [_ Hpk2]. rewrite Hpk2.
    + apply O1. unfold elsewhere. lia.
    + unfold page_at. each_segment.
Qed.

(** ** Opening *)

Lemma open_objects_start s0 n : n = 2 ∨ n = 3 ∨ n = 4 → open_objects pid n ⊆ start_objects s0.
Proof using. intros Hn o Ho. unfold start_objects. rewrite !elem_of_app. destruct Hn as [->|[->| ->]]; tauto. Qed.

Lemma fish_open n s0 s a text k f :
  since s0 s → taken pid n s → n = 2 ∨ n = 3 ∨ n = 4 → fish_name s0 a text → text ≠ "" → Z.of_nat (length (bytes_of text)) <= NAME_SIZE →
  find_dentry s (bytes_of text) = Some k → opened (dentry_type s k) (dentry_inode s k) = Some f → flags f ≠ 0 →
  ∃ s', ece391_open a s = Ret n s' ∧ since s0 s' ∧ taken pid (n + 1) s' ∧ steps (open_objects pid n) s s' ∧ get_fd s' (pcb_addr pid) n = f.
Proof using HL Hlay.
  intros Hsi Htk Hn Hnm Hne Hlen Hk Hf Hfl. pose proof Hsi as (_ & _ & Hu).
  pose proof (taken_free pid n s Hu ltac:(lia) Htk) as Hfree.
  destruct (ece391_open_run pid a s _ k f n Hu (since_name s0 s a text Hsi Hnm Hne Hlen) Hk Hf Hfree ltac:(lia)) as (s' & E & Hs & Hu' & Hget & _).
  exists s'. split; [exact E|]. split; [by apply (since_steps _ s0 s s' Hsi Hs Hu'), open_objects_start|]. split; [|by split].
  apply (taken_next pid n s s' Hu); [lia|done|by rewrite Hget|done].
Qed.

Lemma open_beside s n : user_ok pid s → 2 <= n < 8 → Forall (beside vmem_base_addr blink_array mp1_list_head s) (open_objects pid n).
Proof using HL.
  intros Hu Hn. destruct (process_pcb pid s (uo_process _ _ Hu)) as (_ & _ & Hpid).
  eapply List.Forall_impl; [|by apply (open_low pid n)]. intros o Ho. by left.
Qed.

Let fishing := fishing vmem_base_addr blink_array mp1_list_head pid (video_page t) 2.

Lemma open_fishing n d s s' : fishing d s → n = 3 ∨ n = 4 → steps (open_objects pid n) s s' → user_ok pid s' → fishing d s'.
Proof using HL Hlay.
  intros Hf Hn Hs Hu'. pose proof (fg_user _ _ _ _ _ _ _ _ Hf) as Hu. destruct (process_pcb pid s (uo_process _ _ Hu)) as (_ & _ & Hpid).
  apply (fishing_steps _ _ _ _ Hgl pid _ 2 ltac:(lia) (open_objects pid n) d s s' Hf Hs Hu'); [apply open_beside; [done|lia]|].
  apply open_apart; lia.
Qed.

(** A file just opened is at its start. *)
Lemma open_source n s s' ino text :
  user_ok pid s → 2 <= n < 5 → steps (open_objects pid n) s s' → get_fd s' (pcb_addr pid) n = mkFd file_table ino 0 1 →
  fish_file s text ino → source pid n ino (rows_of (file_text s ino)) s'.
Proof using HL.
  intros Hu Hn Hs Hget (k & _ & _ & _ & Hok). pose proof (file_size_bound s ino Hok) as Hsz.
  destruct (kept_text _ pid s s' ino Hu (open_harmless pid s n Hu ltac:(lia)) Hs Hok) as [Hok' Htx].
  pose proof (file_size_bound s' ino Hok') as Hsz'.
  exists 0. split; [lia|]. split; [by split|]. unfold text_from. rewrite Z.sub_0_r. unfold file_text in Htx. by rewrite Htx.
Qed.

(** ** [add_frames] *)

Lemma store_keeps s0 d s f a n :
  since s0 s → fishing d s → taken pid 3 s → (a, n) ∈ start_segments → apart_from_list vmem_base_addr blink_array mp1_list_head a n →
  only a n (k_mem s) (f (k_mem s)) →
  let s' := upd_mem (λ _, f (k_mem s)) s in modify_mem f s = Ret tt s' ∧ since s0 s' ∧ fishing d s' ∧ taken pid 3 s'.
Proof using HL Hlay.
  intros Hsi Hf Htk Hin Hap O s'. pose proof Hsi as (_ & Hs0 & Hu).
  destruct (since_store [(page_at s0 a, n)] s0 s (f (k_mem s)) a n Hsi eq_refl Hin O) as (Hsi' & Hs & Hout). fold s' in Hsi', Hs.
  split; [apply modify_mem_run|]. split; [exact Hsi'|]. split; [|by apply (taken_steps pid _ 3 s s' Hu ltac:(lia) Hs Hout)].
  destruct (process_pcb pid s (uo_process _ _ Hu)) as (_ & _ & Hpid). pose proof Hsi' as (_ & _ & Hu').
  apply (fishing_steps _ _ _ _ Hgl pid _ 2 ltac:(lia) _ d s s' Hf Hs Hu').
  - constructor; [|done]. right. exists a, n. split; [|done]. by rewrite (steps_page _ s0 s a Hs0).
  - pose proof (slot_high pid 2 Hpid ltac:(lia)). eapply List.Forall_impl; [|exact Hout]. unfold outside. intros o. cbn beta. lia.
Qed.

(** The stores before the files are opened. *)
Lemma frame_stores s0 d s :
  since s0 s → fishing d s → taken pid 3 s →
  runs (_ ← set_byte c0 48; _ ← set_byte c1 48; _ ← modify_mem (λ m, st16 m (frame_struct + ON_LENGTH) 15);
        modify_mem (λ m, st16 m (frame_struct + OFF_LENGTH) 15)) s (λ _ s',
    since s0 s' ∧ fishing d s' ∧ taken pid 3 s' ∧ ld8 s' c0 = 48 ∧ ld8 s' c1 = 48 ∧ lengths_set frame_struct (k_mem s')).
Proof using HL Hlay.
  intros Hsi Hf Htk. pose proof (fl_chars Hlay) as Hch. pose proof (cl_arg _ _ _ _ _ _ (fl_frame Hlay)) as Hst.
  pose proof (ch_list0 _ _ _ _ _ _ _ Hch) as P0. pose proof (ch_list1 _ _ _ _ _ _ _ Hch) as P1. destruct Hch as [_ _ _ _ D0 D1 Hne].
  pose proof P0 as ((C1 & _ & C3) & _). pose proof P1 as ((C1' & _ & C3') & _). pose proof Hst as (Hps & _).
  assert (Hlen : ∀ o, 0 <= o → o + 2 <= 16 → in_page (frame_struct + o) 2) by (intros; apply in_struct; (done || lia)).
  assert (O1 : only c0 1 (k_mem s) (st8 (k_mem s) c0 48)) by (apply only_st8; unfold in_bounds; lia).
  destruct (store_keeps s0 d s (λ m, st8 m c0 48) c0 1 Hsi Hf Htk ltac:(do 2 right; by left) P0 O1) as (E1 & Hsi1 & Hf1 & Htk1).
  cbv beta zeta in *. set (m1 := st8 (k_mem s) c0 48) in *. set (s1 := upd_mem (λ _, m1) s) in *.
  assert (O2 : only c1 1 m1 (st8 m1 c1 48)) by (apply only_st8; unfold in_bounds; lia).
  destruct (store_keeps s0 d s1 (λ m, st8 m c1 48) c1 1 Hsi1 Hf1 Htk1 ltac:(do 3 right; by left) P1 O2) as (E2 & Hsi2 & Hf2 & Htk2).
  cbv beta zeta in *. change (k_mem s1) with m1 in *. set (m2 := st8 m1 c1 48) in *. set (s2 := upd_mem (λ _, m2) s1) in *.
  assert (O3 : only (frame_struct + ON_LENGTH) 2 m2 (st16 m2 (frame_struct + ON_LENGTH) 15)) by (apply only_st16, Hlen; offsets).
  destruct (store_keeps s0 d s2 (λ m, st16 m (frame_struct + ON_LENGTH) 15) frame_struct 16 Hsi2 Hf2 Htk2 ltac:(do 4 right; by left) Hst
    ltac:(apply (only_widen _ _ _ _ _ _ O3); offsets)) as (E3 & Hsi3 & Hf3 & Htk3).
  cbv beta zeta in *. change (k_mem s2) with m2 in *. set (m3 := st16 m2 (frame_struct + ON_LENGTH) 15) in *. set (s3 := upd_mem (λ _, m3) s2) in *.
  assert (O4 : only (frame_struct + OFF_LENGTH) 2 m3 (st16 m3 (frame_struct + OFF_LENGTH) 15)) by (apply only_st16, Hlen; offsets).
  destruct (store_keeps s0 d s3 (λ m, st16 m (frame_struct + OFF_LENGTH) 15) frame_struct 16 Hsi3 Hf3 Htk3 ltac:(do 4 right; by left) Hst
    ltac:(apply (only_widen _ _ _ _ _ _ O4); offsets)) as (E4 & Hsi4 & Hf4 & Htk4).
  cbv beta zeta in *. change (k_mem s3) with m3 in *. set (m4 := st16 m3 (frame_struct + OFF_LENGTH) 15) in *. set (s4 := upd_mem (λ _, m4) s3) in *.
  apply runs_bind, (runs_eq _ _ _ _ _ E1), runs_bind, (runs_eq _ _ _ _ _ E2), runs_bind, (runs_eq _ _ _ _ _ E3), (runs_eq _ _ _ _ _ E4).
  change (k_mem s4) with m4. split; [done|]. split; [done|]. split; [done|].
  assert (Hb : ∀ c, in_page c 1 → (c < frame_struct ∨ frame_struct + 16 <= c) → ld8 m4 c = ld8 m2 c).
  { intros c Hc Hd. rewrite (page_ld8 _ _ m3 m4 c (on_page _ _ _ _ O4) Hc), (page_ld8 _ _ m2 m3 c (on_page _ _ _ _ O3) Hc) by offsets. done. }
  split; [|split; [|split]].
  - rewrite Hb, (page_ld8 _ _ m1 m2 c0 (on_page _ _ _ _ O2)) by (apply P0 || lia). apply ld8_st8_same.
  - rewrite Hb by (apply P1 || lia). apply ld8_st8_same.
  - rewrite (page_ld16 _ _ m3 m4 _ (on_page _ _ _ _ O4)) by ((apply Hlen || idtac); offsets). unfold m3. rewrite ld16_st16 by (apply Hlen; offsets). done.
  - unfold m4. rewrite ld16_st16 by (apply Hlen; offsets). done.
Qed.


(** The list of rows of a text is not too long for the loops. *)
Lemma rows_short l : Z.of_nat (length l) < 4294967296 → Z.of_nat (length (rows_of l)) <= 4294967296 ∧ Forall short (rows_of l).
Proof using.
  intros Hl. cut ((length (rows_of l) <= S (length l))%nat ∧ Forall (λ r, (length r <= length l)%nat) (rows_of l)).
  { intros [H1 H2]. split; [lia|]. eapply List.Forall_impl; [|exact H2]. intros r Hr. unfold short. cbn beta in Hr. lia. }
  clear Hl. induction l as [|c l [IH1 IH2]]; [cbn; split; [lia|by repeat constructor]|].
  assert (Hw : Forall (λ r, (length r <= S (length l))%nat) (rows_of l)) by (eapply List.Forall_impl; [|exact IH2]; intros r; cbn beta; lia).
  cbn [rows_of length]. destruct (c =? NL); cbn [length]; [split; [lia|by constructor; [cbn; lia|]]|].
  destruct (rows_of l) as [|r rs] eqn:E; [by apply rows_nonempty in E|]. cbn [length] in *.
  pose proof (List.Forall_inv IH2) as Hr. split; [lia|]. inversion_clear Hw. constructor; [cbn in *; lia|done].
Qed.

Lemma text_short s ino : file_ok s ino → Z.of_nat (length (file_text s ino)) < 4294967296.
Proof using.
  intros Hok. pose proof (file_size_bound s ino Hok). unfold file_text, file_range. rewrite length_fmap, length_seqZ. lia.
Qed.

Lemma fds_234 : fds_ok 2 3 4.
Proof using. split; lia. Qed.

Lemma add_frames_run s0 d s :
  since s0 s → fishing d s → taken pid 3 s →
  let cells := frames (file_text s0 ino0) (file_text s0 ino1) in
  Forall (λ b, 0 < b_location b) cells →
  runs (add_frames vmem_base_addr blink_array mp1_list_head add_local find_local frame_struct c0 c1 file0 file1 2) s
    (λ _ s', fishing (respond_all (video_page t) (Add <$> cells) d).2 s').
Proof using HL Hlay.
  intros Hsi Hf Htk cells Hcells. pose proof Hsi as (Hr & _). destruct (fr_file0 _ Hr) as [N0 F0]. destruct (fr_file1 _ Hr) as [N1 F1].
  destruct (frame_stores s0 d s Hsi Hf Htk) as ([] & s1 & E1 & Hsi1 & Hf1 & Htk1 & B0 & B1 & Hlen).
  destruct (since_file s0 s1 _ _ Hsi1 F0) as [(k0 & K0 & K1 & K2 & K3) T0].
  destruct (fish_open 3 s0 s1 file0 "frame0.txt" k0 (mkFd file_table ino0 0 1) Hsi1 Htk1) as (s2 & E2 & Hsi2 & Htk2 & Hs2 & Hg2);
    [tauto|done|done|done|exact K0|by rewrite K1, K2|done|].
  assert (Hu1 : user_ok pid s1) by apply Hsi1. assert (Hu2 : user_ok pid s2) by apply Hsi2.
  pose proof (open_fishing 3 d s1 s2 Hf1 ltac:(tauto) Hs2 Hu2) as Hf2.
  pose proof (open_source 3 s1 s2 ino0 "frame0.txt" Hu1 ltac:(lia) Hs2 Hg2 ltac:(by exists k0)) as Src0.
  destruct (since_file s0 s2 _ _ Hsi2 F1) as [(k1 & K4 & K5 & K6 & K7) T1].
  destruct (fish_open 4 s0 s2 file1 "frame1.txt" k1 (mkFd file_table ino1 0 1) Hsi2 Htk2) as (s3 & E3 & Hsi3 & Htk3 & Hs3 & Hg3);
    [tauto|done|done|done|exact K4|by rewrite K5, K6|done|].
  assert (Hu3 : user_ok pid s3) by apply Hsi3. destruct (process_pcb pid s1 (uo_process _ _ Hu1)) as (_ & _ & Hpid).
  pose proof (open_fishing 4 d s2 s3 Hf2 ltac:(tauto) Hs3 Hu3) as Hf3.
  pose proof (open_source 4 s2 s3 ino1 "frame1.txt" Hu2 ltac:(lia) Hs3 Hg3 ltac:(by exists k1)) as Src1.
  apply (source_steps pid (open_objects pid 4) 3 ino0 _ s2 s3 Hu2 ltac:(lia) (open_harmless pid s2 4 Hu2 ltac:(lia))) in Src0; [|apply open_apart; lia|exact Hs3].
  rewrite T0 in Src0. rewrite T1 in Src1.
  assert (Hby : ∀ a, in_page a 1 → ld8 s3 a = ld8 s1 a).
  { intros a Ha. rewrite <- (Z.add_0_r a). rewrite (user_byte _ s2 s3 a 1 0 Hs3 (uo_page _ _ Hu2)), (user_byte _ s1 s2 a 1 0 Hs2 (uo_page _ _ Hu1));
      (done || lia || apply open_low; lia). }
  pose proof (fl_chars Hlay) as Hch. pose proof (cl_arg _ _ _ _ _ _ (fl_frame Hlay)) as ((S1 & _ & S3) & _).
  destruct F0 as (? & _ & _ & _ & Ok0). destruct F1 as (? & _ & _ & _ & Ok1).
  destruct (rows_short _ (text_short s0 ino0 Ok0)) as [R0 R0']. destruct (rows_short _ (text_short s0 ino1 Ok1)) as [R1 R1'].
  unfold add_frames. destruct (runs_four _ _ _ _ _ _ E1) as (u1 & u2 & u3 & X1 & X2 & X3 & X4).
  apply runs_bind, (runs_eq _ _ _ _ _ X1), runs_bind, (runs_eq _ _ _ _ _ X2), runs_bind, (runs_eq _ _ _ _ _ X3), runs_bind, (runs_eq _ _ _ _ _ X4).
  apply runs_bind, (runs_eq _ _ _ _ _ E2). change (3 <? 0) with false. cbv iota. apply runs_bind, runs_ret.
  apply runs_bind, (runs_eq _ _ _ _ _ E3). change (4 <? 0) with false. cbv iota. apply runs_bind, runs_ret.
  apply (rows_run _ _ _ _ _ _ c0 c1 pid (video_page t) 2 3 4 ino0 ino1 (fl_frame Hlay) Hch fds_234 d 0 0); [|lia|done|done|exact Hcells].
  split; [exact Hf3|..|].
  - destruct (rows_of (file_text s0 ino0)) as [|row rows] eqn:Ex; [by apply rows_nonempty in Ex|]. split; [|done]. left. rewrite Hby, B0 by apply Hch. by split_and!.
  - destruct (rows_of (file_text s0 ino1)) as [|row rows] eqn:Ex; [by apply rows_nonempty in Ex|]. split; [|done]. left. rewrite Hby, B1 by apply Hch. by split_and!.
  - apply (lengths_kept frame_struct (k_mem s1)); [|exact Hlen]. intros i Hi. apply Hby. split_and!; lia.
Qed.

(** ** The program *)

(** The requests of the program, in order. *)
Definition fish_requests (t0 t1 : list Z) : list request :=
  (Add <$> frames t0 t1) ++ ticks ++ [Add main_blink] ++ ticks ++ [Sync 40 (6 * 80 + 60)] ++ ticks ++ [Remove (6 * 80 + 60)] ++ ticks.

(** The rate of the clock. *)
Lemma rate_run d s : fishing d s → runs (set_rate 2 ret_val) s (λ _ s', fishing d s').
Proof using HL Hlay.
  intros Hf. pose proof (fg_user _ _ _ _ _ _ _ _ Hf) as Hu. pose proof (fl_ret Hlay) as Hap. pose proof (proj1 Hap) as Ha.
  eapply runs_mono; [apply (set_rate_run pid 2 ret_val s Hu ltac:(lia) (fg_clock _ _ _ _ _ _ _ _ Hf) Ha)|].
  intros [] s' (Hs & Hu' & _). destruct (process_pcb pid s (uo_process _ _ Hu)) as (_ & _ & Hpid).
  apply (fishing_steps _ _ _ _ Hgl pid _ 2 ltac:(lia) _ d s _ Hf Hs Hu').
  - constructor; [|done]. right. by exists ret_val, 4.
  - pose proof (slot_high pid 2 Hpid ltac:(lia)). pose proof (page_high pid s ret_val 4 Hu Ha). each_segment.
Qed.

Let wait d s Hf := wait_run _ _ _ _ find_local Hgl pid (video_page t) 2 ltac:(lia) main_struct garbage (fl_main Hlay) (fl_garbage Hlay) d s Hf.

Lemma fd_clock : 2 <= 2 < 8.
Proof using. lia. Qed.

Lemma main_ok : request_ok (Add main_blink).
Proof using. by split_and!. Qed.

Lemma sync_ok : request_ok (Sync 40 (6 * 80 + 60)).
Proof using. done. Qed.

Lemma remove_ok : request_ok (Remove (6 * 80 + 60)).
Proof using. done. Qed.

(** The part of the program after the pictures. *)
Lemma ending_run d s :
  fishing d s →
  runs (_ ← wait_ticks vmem_base_addr mp1_list_head garbage 2;
    _ ← modify_mem (fill main_struct main_blink);
    _ ← fish_ioctl vmem_base_addr blink_array mp1_list_head add_local find_local main_struct RTC_ADD;
    _ ← wait_ticks vmem_base_addr mp1_list_head garbage 2;
    _ ← fish_ioctl vmem_base_addr blink_array mp1_list_head add_local find_local (Z.lor (Z.shiftl 40 16) (6 * 80 + 60)) RTC_SYNC;
    _ ← wait_ticks vmem_base_addr mp1_list_head garbage 2;
    _ ← fish_ioctl vmem_base_addr blink_array mp1_list_head add_local find_local (6 * 80 + 60) RTC_REMOVE;
    _ ← wait_ticks vmem_base_addr mp1_list_head garbage 2;
    _ ← ece391_close 2;
    mret 0) s (λ r s', r = 0 ∧ user_ok pid s' ∧
    shown (respond_all (video_page t) (ticks ++ [Add main_blink] ++ ticks ++ [Sync 40 (6 * 80 + 60)] ++ ticks ++ [Remove (6 * 80 + 60)] ++ ticks) d).2 s').
Proof using HL Hlay.
  intros Hf. eapply runs_step; [by apply wait|]. intros [] s1 H1. cbn beta in *.
  destruct (runs_unbind _ _ _ _ (add_fishing _ _ _ _ find_local Hgl pid (video_page t) 2 fd_clock main_struct (fl_main Hlay) main_blink _ s1 main_ok H1)) as (u & s1' & E1 & R2).
  destruct R2 as (r2 & s2 & E2 & H2). apply runs_bind, (runs_eq _ _ _ _ _ E1), runs_bind, (runs_eq _ _ _ _ _ E2).
  eapply runs_step; [by apply wait|]. intros [] s3 H3. cbn beta in *.
  eapply runs_step; [apply (sync_fishing _ _ _ _ find_local Hgl pid (video_page t) 2 fd_clock main_struct (fl_main Hlay) 40 (6 * 80 + 60) _ s3 sync_ok H3)|]. intros r4 s4 H4. cbn beta in *.
  eapply runs_step; [by apply wait|]. intros [] s5 H5. cbn beta in *.
  eapply runs_step; [apply (remove_fishing _ _ _ _ find_local Hgl pid (video_page t) 2 fd_clock main_struct (fl_main Hlay) (6 * 80 + 60) _ s5 remove_ok H5)|]. intros r6 s6 H6. cbn beta in *.
  eapply runs_step; [by apply wait|]. intros [] s7 H7. cbn beta in *.
  pose proof (fg_user _ _ _ _ _ _ _ _ H7) as Hu7. pose proof (fg_clock _ _ _ _ _ _ _ _ H7) as Hc7. unfold clocked in Hc7.
  destruct (process_pcb pid s7 (uo_process _ _ Hu7)) as (_ & _ & Hpid).
  destruct (ece391_close_run pid s7 2 Hu7 ltac:(lia)) as (s8 & E8 & Hs8 & Hu8 & _); [by rewrite Hc7|rewrite Hc7; right; by left|].
  apply runs_bind, (runs_eq _ _ _ _ _ E8), runs_ret. split; [done|]. split; [exact Hu8|].
  apply (pictured_steps _ _ _ _ Hgl pid [(fd_slot (pcb_addr pid) 2, 16)] _ _ s7 s8 Hu7); [|exact Hs8|].
  - pose proof (fg_pic _ _ _ _ _ _ _ _ H7) as Hp. rewrite !respond_all_app, !respond_all_one. exact Hp.
  - constructor; [|done]. left. cbn [fst snd]. by apply slot_high.
Qed.

Lemma fish_run s0 :
  fish_ready s0 → Forall (λ b, 0 < b_location b) (frames (file_text s0 ino0) (file_text s0 ino1)) →
  runs (fish_main lit vmem_base_addr blink_array mp1_list_head add_local find_local file0 file1 main_struct ret_val garbage frame_struct c0 c1) s0
    (λ r s, r = 0 ∧ user_ok pid s ∧
      shown (respond_all (video_page t) (fish_requests (file_text s0 ino0) (file_text s0 ino1)) ([], peek (k_mem s0))).2 s).
Proof using HL Hlay.
  intros Hr Hcells. destruct (runs_unbind _ _ _ _ (start_run s0 Hr)) as (u & s0' & E0 & R1). destruct R1 as (r & s1 & E & -> & Hsi1 & Htk1 & Hp1).
  unfold fish_main. apply runs_bind, (runs_eq _ _ _ _ _ E0), runs_bind, (runs_eq _ _ _ _ _ E).
  destruct (video_page_bounds (proj1 (fr_terminal _ Hr))) as [X1 X2].
  destruct (Z.eqb_spec (video_page t) 0) as [Hz|_]; [unfold PROGRAM_PAGE_END in X1; lia|].
  destruct (fr_rtc _ Hr) as (Hname & k & Hk & Hty). pose proof Hsi1 as (_ & Hs01 & Hu1). pose proof (fr_user _ Hr) as Hu0.
  destruct (kept_dentry _ pid s0 s1 _ k Hu0 (start_harmless s0 Hu0) Hs01 Hk) as [E1 _].
  destruct (fish_open 2 s0 s1 (lit "rtc") "rtc" k clock_fd Hsi1 Htk1) as (s2 & E2 & Hsi2 & Htk2 & Hs2 & Hg2);
    [tauto|done|done|done|by rewrite (kept_find _ pid s0 s1 _ Hu0 (start_harmless s0 Hu0) Hs01)|by rewrite E1, Hty|done|].
  pose proof Hsi2 as (_ & _ & Hu2). apply runs_bind, (runs_eq _ _ _ _ _ E2).
  assert (Hf2 : fishing ([], peek (k_mem s0)) s2).
  { split; [done| |exact Hg2]. apply (pictured_steps _ _ _ _ Hgl pid (open_objects pid 2) _ _ s1 s2 Hu1 Hp1 Hs2). by apply open_beside. }
  eapply runs_step; [by apply (add_frames_run s0 ([], peek (k_mem s0)) s2)|]. intros [] s3 H3. cbn beta in H3.
  eapply runs_step; [by apply rate_run|]. intros [] s4 H4. cbn beta in H4.
  eapply runs_mono; [by apply ending_run|]. intros r' s7 (-> & Hu7 & Hp7). split; [done|]. split; [exact Hu7|].
  unfold fish_requests. by rewrite respond_all_app.
Qed.
End Fish.

(** ** The program in a machine of the example *)

Lemma fish_layout_example :
  fish_layout 0x8310000 0x8320000 0x8310010 0x8310020 0x8310030 0x8310050 0x8310060 0x8310064 0x8310070 0x8310080 0x8310081.
Proof.
  assert (Hg : globals_ok 0x8310000 0x8320000 0x8310010 0x8310020).
  { split; first [split_and!; closed_compare|left; closed_compare|right; closed_compare]. }
  split.
  - split; [exact Hg|..]; first [split_and!; first [closed_compare|left; closed_compare|right; closed_compare|split_and!; closed_compare]|left; closed_compare|right; closed_compare].
  - split; [exact Hg|..]; first [split_and!; first [closed_compare|left; closed_compare|right; closed_compare|split_and!; closed_compare]|left; closed_compare|right; closed_compare].
  - split; first [split_and!; first [closed_compare|left; closed_compare|right; closed_compare|split_and!; closed_compare]|left; closed_compare|right; closed_compare|done].
  - split_and!; first [closed_compare|left; closed_compare|right; closed_compare|split_and!; closed_compare].
  - split_and!; closed_compare.
Qed.

Lemma fish_file_ok ino : ino = 0 ∨ ino = 1 → file_ok fish_image ino.
Proof.
  intros Hi. assert (Hs : file_size fish_image ino <= 4) by (destruct Hi as [->| ->]; vm_compute; congruence).
  split; [destruct Hi as [->| ->]; by vm_compute|destruct Hi as [->| ->]; split; vm_compute; congruence|].
  intros k Hk Hlt. assert (k = 0) as -> by lia. destruct Hi as [->| ->]; split; vm_compute; congruence.
Qed.

Lemma fish_ready_example :
  fish_ready (L := example_layout) fish_lit 0x8310000 0x8320000 0x8310010 0x8300010 0x8300020 0x8310070 0x8310080 0x8310081 0 0 0 1 fish_image.
Proof.
  assert (Hn : ∀ a text, cstring_check fish_image a (bytes_of text) = true → 0x8300000 <= a < 0x8300030 → (length (bytes_of text) <= 16)%nat →
    fish_name 0x8310000 0x8320000 0x8310070 0x8310080 0x8310081 fish_image a text).
  { intros a text Hc Ha Hl. 
    split; [split; [by apply cstring_checked|unfold in_page, PROGRAM_PAGE, PROGRAM_PAGE_END; lia]|].
    unfold start_segments. repeat apply list.Forall_cons_2; try apply Forall_nil_2; cbn [fst snd]; left; lia. }
  split.
  - exact fish_user_ok.
  - split; vm_compute; reflexivity.
  - split; [lia|]. split; [by vm_compute|split; vm_compute; congruence].
  - by vm_compute.
  - split; intros j Hj.
    + assert (j = 0 ∨ j = 1) as [->| ->] by lia; by vm_compute.
    + assert (j = 2 ∨ j = 3 ∨ j = 4) as [->|[->| ->]] by lia; by vm_compute.
  - split; [apply Hn; [by vm_compute|cbn; lia|cbn; lia]|]. exists 3. split; by vm_compute.
  - split; [apply Hn; [by vm_compute|cbn; lia|cbn; lia]|]. exists 4. split_and!; [by vm_compute..|apply fish_file_ok; lia].
  - split; [apply Hn; [by vm_compute|cbn; lia|cbn; lia]|]. exists 5. split_and!; [by vm_compute..|apply fish_file_ok; lia].
Qed.


