(* ===== verification/Emulate.v ===== *)
(** * The programs on Linux: ece391emulate.c

    Linked with this file a user program runs on Linux: the eight calls of the
    kernel become calls of Linux.  A command is split into the words of an
    argument vector and the arguments are put together again from it; a
    directory is read an entry at a time.  Linux is the class [Linux], the calls
    the file makes; the process has a flat memory. *)

From S2P Require Import Prelude Memory LibMem LibStr UserLib.

(** ** Linux *)

(** [W] is the state outside the process.  [int80] is a system call: number,
    three registers.  [readdir] gives the address of the name of the next
    entry.  [execv] runs a program to its end: the status [wait] gives; it is
    none when the program cannot be started. *)
Class Linux (W : Type) := {
  int80 : Z → Z → Z → Z → memory → W → Z * memory * W;
  opendir_dot : W → Z * W;
  open_null : W → Z * W;
  readdir : Z → memory → W → option Z * memory * W;
  closedir : Z → W → W;
  close_fd : Z → W → W;
  open_mem : W → Z * W;
  mmap_low : Z → W → option Z * W;
  perror : W → W;
  execv : Z → Z → memory → W → option (Z * W);
}.

(** The process: its memory, the variables of the file, and Linux. *)
Record emulated (W : Type) := mkEmulated {
  e_mem : memory;
  start_esp : Z;
  dir_fd : Z;
  dir : Z;
  mem_fd : Z;
  linux : W;
}.
Arguments mkEmulated {W}. Arguments e_mem {W}. Arguments start_esp {W}. Arguments dir_fd {W}.
Arguments dir {W}. Arguments mem_fd {W}. Arguments linux {W}.

(** ** Loops with a loop inside *)

(** Like [while_loop]; no result when a turn has none. *)
Definition while_opt {S R} (step : S → option (S + R)) (s : S) : option R :=
  mjoin (while_loop (λ t, match step t with Some (inl t') => inl t' | Some (inr r) => inr (Some r) | None => inr None end) s).

Lemma while_opt_rule {S R} (step : S → option (S + R)) (I : S → Prop) (v : S → Z) (Q : R → Prop) s :
  I s → 0 <= v s <= 4294967296 →
  (∀ t, I t → 0 <= v t →
     ∃ x, step t = Some x ∧ match x with inl t' => I t' ∧ 0 <= v t' < v t | inr r => Q r end) →
  ∃ r, while_opt step s = Some r ∧ Q r.
Proof.
  intros HI Hv Hstep. unfold while_opt.
  destruct (while_loop_rule (λ t, match step t with Some (inl t') => inl t' | Some (inr r) => inr (Some r) | None => inr None end)
    I v (λ r, ∃ q, r = Some q ∧ Q q) s HI Hv) as (r & -> & q & -> & Hq).
  - intros t Ht Hvt. destruct (Hstep t Ht Hvt) as ([t'|q] & -> & H); [exact H|by exists q].
  - by exists q.
Qed.

(** ** A flat memory *)

(** The memory of a Linux process: every address is its own place. *)
Definition flat_memory (m : memory) : Prop := upage m = PROGRAM_PAGE.
Definition in_flat (a n : Z) : Prop := 0 <= a ∧ 0 <= n ∧ a + n <= 4294967296.

Lemma phys_flat m a : flat_memory m → 0 <= a < 4294967296 → phys m a = a.
Proof.
  intros Hm Ha. unfold phys, flat_memory in *. rewrite u32_small, Hm by done.
  destruct (_ && _); [unfold PROGRAM_PAGE; lia|done].
Qed.

(** Only the [n] bytes at [a] change. *)
Record within (a n : Z) (m m' : memory) : Prop := {
  wi_flat : flat_memory m → flat_memory m';
  wi_byte : flat_memory m → ∀ b, 0 <= b < 4294967296 → b < a ∨ a + n <= b → ld8 m' b = ld8 m b;
}.

Lemma within_refl a n m : within a n m m.
Proof. by split. Qed.

Lemma within_trans a n m1 m2 m3 : within a n m1 m2 → within a n m2 m3 → within a n m1 m3.
Proof. intros [F1 B1] [F2 B2]. split; [auto|]. intros Hm b Hb Ho. rewrite B2, B1 by auto. done. Qed.

Lemma within_widen a n b k m m' : within a n m m' → b <= a → a + n <= b + k → within b k m m'.
Proof. intros [F B] H1 H2. split; [done|]. intros Hm c Hc Ho. apply B; [done|done|lia]. Qed.

Lemma within_st8 a m v : 0 <= a < 4294967296 → within a 1 m (st8 m a v).
Proof. intros Ha. split; [done|]. intros Hm b Hb Ho. rewrite ld8_st8, !phys_flat by done. bcase. Qed.

Lemma within_st32 a m v : in_flat a 4 → within a 4 m (st32 m a v).
Proof.
  intros (H1 & _ & H3). unfold st32. assert (H : ∀ m i x, 0 <= i < 4 → within a 4 m (st8 m (a + i) x)).
  { intros m1 i y Hi. apply (within_widen (a + i) 1); [apply within_st8; lia|lia|lia]. }
  eapply within_trans; [|apply H; lia]. eapply within_trans; [|apply H; lia]. eapply within_trans; [|apply H; lia].
  rewrite <- (Z.add_0_r a) at 2. apply H. lia.
Qed.

Lemma ld8_st8_flat m a v b :
  flat_memory m → 0 <= a < 4294967296 → 0 <= b < 4294967296 → ld8 (st8 m a v) b = if b =? a then u8 v else ld8 m b.
Proof. intros Hm Ha Hb. by rewrite ld8_st8, !phys_flat. Qed.

Lemma ld32_st32_flat m a v : flat_memory m → in_flat a 4 → ld32 (st32 m a v) a = u32 v.
Proof.
  intros Hm (H1 & _ & H3). unfold ld32, st32. rewrite !ld8_st8_flat by (done || lia). bcase. apply bytes_of_word.
Qed.

Lemma within_ld32 a n m m' b : within a n m m' → flat_memory m → in_flat b 4 → b + 4 <= a ∨ a + n <= b → ld32 m' b = ld32 m b.
Proof. intros Hw Hm (H1 & _ & H3) Hd. unfold ld32. by rewrite !(wi_byte _ _ _ _ Hw) by (done || lia). Qed.

Lemma within_cstring a n m m' b l :
  within a n m m' → flat_memory m → in_flat b (Z.of_nat (length l) + 1) → b + Z.of_nat (length l) + 1 <= a ∨ a + n <= b →
  cstring m b l → cstring m' b l.
Proof. intros Hw Hm (H1 & _ & H3) Hd. apply cstring_ext. intros i Hi. apply (wi_byte _ _ _ _ Hw); [done|lia|lia]. Qed.

(** ** The code *)

Section Code.
Context {W : Type} {HW : Linux W}.

Definition E A : Type := emulated W → option (A * emulated W).
Definition with_memory (m : memory) (e : emulated W) : emulated W :=
  mkEmulated m (start_esp e) (dir_fd e) (dir e) (mem_fd e) (linux e).
Definition with_linux (w : W) (e : emulated W) : emulated W :=
  mkEmulated (e_mem e) (start_esp e) (dir_fd e) (dir e) (mem_fd e) w.

(** [DO_CALL] and the test after the call in [ece391_open]: an error number of
    Linux is -1. *)
Definition do_call (number ebx ecx edx : Z) : E Z := λ e,
  let '(eax, m, w) := int80 number ebx ecx edx (e_mem e) (linux e) in
  Some (if u32 eax <=? 0xFFFFC000 then s32 eax else -1, with_linux w (with_memory m e)).

(** [scan] to the end of a word. *)
Definition word_stop (c : Z) : bool := (c =? 0) || (c =? SPACE) || (c =? NL).
Definition word_end (m : memory) (scan : Z) : option Z :=
  while_loop (λ scan, if word_stop (ld8 m scan) then inr scan else inl (scan + 1)) scan.
Definition skip_spaces (m : memory) (scan : Z) : option Z :=
  while_loop (λ scan, if SPACE =? ld8 m scan then inl (scan + 1) else inr scan) scan.

(** A turn of the loop over the arguments: the state is [scan], [n_arg] and the
    memory. *)
Definition parse_step (args : Z) (st : Z * Z * memory) : option ((Z * Z * memory) + (Z * memory)) :=
  let '(scan, n_arg, m) := st in
  scan ← skip_spaces m scan;
  if (ld8 m scan =? 0) || (ld8 m scan =? NL) then Some (inr (n_arg, st8 m scan 0))
  else
    let m := st32 m (args + 4 * n_arg) scan in
    let n_arg := n_arg + 1 in
    scan ← word_end m scan;
    if negb (ld8 m scan =? 0) then Some (inl (scan + 1, n_arg, st8 m scan 0)) else Some (inl (scan, n_arg, m)).

(** The local [buf] and the vector [args] for a command. *)
Definition parse_command (command buf args : Z) (m : memory) : option memory :=
  let m := st8 (st8 m buf 46) (buf + 1) 47 in
  m ← ece391_strcpy m (buf + 2) command;
  scan ← word_end m (buf + 2);
  let m := st32 m args buf in
  '(n_arg, m) ← (if negb (ld8 m scan =? 0) then while_opt (parse_step args) (scan + 1, 1, st8 m scan 0) else Some (1, m));
  Some (st32 m (args + 4 * n_arg) 0).

(** A status of [wait]. *)
Definition WTERMSIG (status : Z) : Z := Z.land status 0x7F.
Definition WIFEXITED (status : Z) : bool := WTERMSIG status =? 0.
Definition WEXITSTATUS (status : Z) : Z := Z.land (Z.shiftr status 8) 0xFF.

(** The child has a memory of its own; one that cannot be started kills itself
    with signal 9. *)
Definition ece391_execute (buf args command : Z) : E Z := λ e,
  len ← ece391_strlen (e_mem e) command;
  if 1023 <? len then Some (-1, e)
  else
    m ← parse_command command buf args (e_mem e);
    let '(status, w) := match execv buf args m (linux e) with Some (status, w) => (status, w) | None => (9, linux e) end in
    Some (if WIFEXITED status then WEXITSTATUS status else if 9 =? WTERMSIG status then -1 else 256,
          with_linux w (with_memory m e)).

(** [dot] is the literal. *)
Definition ece391_open (dot filename : Z) : E Z := λ e,
  c ← ece391_strcmp (e_mem e) filename dot;
  if 0 =? c then
    let '(d, w) := opendir_dot (linux e) in
    let '(fd, w) := open_null w in
    Some (fd, mkEmulated (e_mem e) (start_esp e) fd d (mem_fd e) w)
  else do_call 5 filename 0 0 e.

(** A turn of the loop over the vector: the state is [idx], [buf], [nbytes] and
    the memory; it ends with -1 or leaves the loop. *)
Definition getargs_step (argc argv : Z) (st : Z * Z * Z * memory) :
    option ((Z * Z * Z * memory) + (memory + (Z * Z * memory))) :=
  let '(idx, buf, nbytes, m) := st in
  if idx <? argc then
    len ← ece391_strlen m (ld32 m (argv + 4 * idx));
    if nbytes <? s32 len then Some (inr (inl m))
    else
      m ← ece391_strcpy m buf (ld32 m (argv + 4 * idx));
      let buf := buf + s32 len in
      let nbytes := nbytes - s32 len in
      let idx := idx + 1 in
      if argc <=? idx then Some (inr (inr (buf, nbytes, m)))
      else if nbytes <? 1 then Some (inr (inl m))
      else Some (inl (idx, buf + 1, nbytes - 1, st8 m buf SPACE))
  else Some (inr (inr (buf, nbytes, m))).

Definition ece391_getargs (buf nbytes : Z) : E Z := λ e,
  let argc := s32 (ld32 (e_mem e) (start_esp e)) in
  let argv := start_esp e + 4 in
  r ← while_opt (getargs_step argc argv) (1, buf, nbytes, e_mem e);
  Some match r with
       | inl m => (-1, with_memory m e)
       | inr (buf, nbytes, m) => if nbytes <? 1 then (-1, with_memory m e) else (0, with_memory (st8 m buf 0) e)
       end.

Definition ece391_vidmap (screen_start : Z) : E Z := λ e,
  let '(fd, w) := if mem_fd e =? -1 then open_mem (linux e) else (mem_fd e, linux e) in
  let e := mkEmulated (e_mem e) (start_esp e) (dir_fd e) (dir e) fd w in
  match mmap_low fd w with
  | (None, w) => Some (-1, with_linux (perror w) e)
  | (Some mem_image, w) => Some (0, with_linux w (with_memory (st32 (e_mem e) screen_start (mem_image + 0xb8000)) e))
  end.

(** The copy of a name: the state is [from], [to], [copied] and the memory; it
    ends with a result or at the end of the name. *)
Definition copy_name (nbytes : Z) (m : memory) (from to : Z) : option ((Z * memory) + (Z * Z * memory)) :=
  while_loop (λ '(from, to, copied, m),
    if negb (ld8 m from =? 0) then
      let m := st8 m to (ld8 m from) in
      let copied := copied + 1 in
      if copied =? nbytes then inr (inl (nbytes, m))
      else if 32 =? copied then inr (inl (32, m))
      else inl (from + 1, to + 1, copied, m)
    else inr (inr (to, copied, m))) (from, to, 0, m).
Definition pad_name (nbytes to copied : Z) (m : memory) : option (Z * memory) :=
  while_loop (λ '(to, copied, m),
    if (copied <? nbytes) && (copied <? 32) then inl (to + 1, copied + 1, st8 m to 0) else inr (copied, m)) (to, copied, m).

Definition not_directory (fd : Z) (e : emulated W) : bool := (dir e =? 0) || negb (dir_fd e =? fd).

Definition ece391_read (fd buf nbytes : Z) : E Z := λ e,
  if not_directory fd e then do_call 3 fd buf nbytes e
  else
    let '(de, m, w) := readdir (dir e) (e_mem e) (linux e) in
    match de with
    | None => Some (0, with_linux w (with_memory m e))
    | Some d_name =>
        r ← copy_name nbytes m d_name buf;
        '(copied, m) ← (match r with
                        | inl r => Some r
                        | inr (to, copied, m) => pad_name nbytes to copied m
                        end : option (Z * memory));
        Some (copied, with_linux w (with_memory m e))
    end.

Definition ece391_write (fd buf nbytes : Z) : E Z := λ e,
  if not_directory fd e then do_call 4 fd buf nbytes e else Some (-1, e).

Definition ece391_close (fd : Z) : E Z := λ e,
  if not_directory fd e then do_call 6 fd 0 0 e
  else Some (0, mkEmulated (e_mem e) (start_esp e) (-1) 0 (mem_fd e) (close_fd (dir_fd e) (closedir (dir e) (linux e)))).
End Code.
