(* ===== verification/EmulateSpec.v ===== *)
(** * What the calls of ece391emulate.c do

    A command is split into words ([command_words]); [ece391_getargs] joins the
    arguments of its process with single spaces ([joined]), which for a command
    written that way is the text the kernel passes ([emulation_arguments]). *)

From S2P Require Import Prelude Memory LibMem LibStr Command UserLib Emulate.

(** ** Words *)

Definition word_sep (c : Z) : bool := (c =? SPACE) || (c =? NL).

(** The first word, and what follows the character that ends it. *)
Fixpoint take_word (l : list Z) : list Z :=
  match l with [] => [] | c :: l' => if word_sep c then [] else c :: take_word l' end.
Fixpoint after_word (l : list Z) : list Z :=
  match l with [] => [] | c :: l' => if word_sep c then l' else after_word l' end.
Fixpoint drop_spaces (l : list Z) : list Z :=
  match l with [] => [] | c :: l' => if c =? SPACE then drop_spaces l' else l end.

(** The words of [l], reading from left to right, inside the word [cur] or
    between two words: there a newline ends the command. *)
Fixpoint words_from (cur : option (list Z)) (l : list Z) : list (list Z) :=
  match l with
  | [] => option_list cur
  | c :: l' =>
      match cur with
      | None => if c =? SPACE then words_from None l' else if c =? NL then [] else words_from (Some [c]) l'
      | Some w => if word_sep c then w :: words_from None l' else words_from (Some (w ++ [c])) l'
      end
  end.
Definition argument_words (l : list Z) : list (list Z) := words_from None (after_word l).
Definition command_words (l : list Z) : list (list Z) := ([46; 47] ++ take_word l) :: argument_words l.

(** The words with a space between any two. *)
Fixpoint joined (ws : list (list Z)) : list Z :=
  match ws with [] => [] | [w] => w | w :: ws' => w ++ SPACE :: joined ws' end.

Lemma words_from_word w l : words_from (Some w) l = (w ++ take_word l) :: words_from None (after_word l).
Proof.
  revert w. induction l as [|c l IH]; intros w; cbn [words_from take_word after_word]; [by rewrite app_nil_r|].
  destruct (word_sep c) eqn:E; [by rewrite app_nil_r|]. rewrite IH. by rewrite <- app_assoc.
Qed.

Lemma words_from_spaces l : words_from None (drop_spaces l) = words_from None l.
Proof. induction l as [|c l IH]; [done|]. cbn [drop_spaces words_from]. destruct (c =? SPACE) eqn:E; [exact IH|]. cbn [words_from]. by rewrite E. Qed.

Lemma words_from_next l :
  match drop_spaces l with
  | [] => words_from None l = []
  | c :: _ => (c = NL ∧ words_from None l = []) ∨
      (word_sep c = false ∧ words_from None l = take_word (drop_spaces l) :: words_from None (after_word (drop_spaces l)))
  end.
Proof.
  rewrite <- (words_from_spaces l). destruct (drop_spaces l) as [|c r] eqn:Hr; [done|].
  assert (Hc : (c =? SPACE) = false).
  { clear -Hr. induction l as [|d l IH]; [done|]. cbn in Hr. destruct (d =? SPACE) eqn:E; [by apply IH|]. by injection Hr as -> _. }
  cbn [words_from take_word after_word]. unfold word_sep. rewrite Hc. cbn [orb]. destruct (Z.eqb_spec c NL) as [->|]; [by left|right].
  split; [done|]. apply words_from_word.
Qed.

Lemma word_split l : (after_word l = [] ∧ l = take_word l) ∨ ∃ c, word_sep c = true ∧ l = take_word l ++ c :: after_word l.
Proof.
  induction l as [|c l IH]; [by left|]. cbn [take_word after_word]. destruct (word_sep c) eqn:E; [right; by exists c|].
  destruct IH as [[H1 H2]|(d & H1 & H2)]; [left; split; [done|by f_equal]|right; exists d]. split; [done|]. by rewrite H2 at 1.
Qed.

Lemma drop_spaces_split l : ∃ n, l = replicate n SPACE ++ drop_spaces l.
Proof.
  induction l as [|c l [n IH]]; [by exists 0%nat|]. cbn [drop_spaces]. destruct (Z.eqb_spec c SPACE) as [->|]; [|by exists 0%nat].
  exists (S n). cbn. by f_equal.
Qed.

Lemma take_word_no_sep l : Forall (λ c, word_sep c = false) (take_word l).
Proof. induction l as [|c l IH]; [constructor|]. cbn. destruct (word_sep c) eqn:E; by constructor. Qed.

Lemma take_word_full w l : Forall (λ c, word_sep c = false) w → take_word (w ++ l) = w ++ take_word l ∧ after_word (w ++ l) = after_word l.
Proof. induction 1 as [|c w Hc _ [IH1 IH2]]; [done|]. cbn. by rewrite Hc, IH1. Qed.

(** ** Commands written with single spaces *)

Definition plain_word (w : list Z) : Prop := w ≠ [] ∧ Forall (λ c, word_sep c = false) w.

Lemma joined_cons w ws : joined (w :: ws) = w ++ match ws with [] => [] | _ => SPACE :: joined ws end.
Proof. destruct ws; [by rewrite app_nil_r|done]. Qed.

Lemma words_joined ws : Forall plain_word ws → words_from None (joined ws) = ws.
Proof.
  induction ws as [|w ws IH]; [done|]. intros Hall. destruct (Forall_cons_1 _ _ _ Hall) as [[Hne Hw] Hws]. rewrite joined_cons.
  destruct w as [|c w]; [done|]. apply Forall_cons_1 in Hw as [Hc Hw]. cbn [app words_from].
  unfold word_sep in Hc. apply orb_false_iff in Hc as [-> ->]. rewrite words_from_word.
  destruct (take_word_full w (match ws with [] => [] | _ => SPACE :: joined ws end) Hw) as [-> ->].
  destruct ws as [|w2 ws]; [by rewrite app_nil_r|]. cbn [take_word after_word]. change (word_sep SPACE) with true. cbn [take_word].
  rewrite app_nil_r. cbn [app]. by rewrite (IH Hws).
Qed.

Lemma no_sep_no_space w : Forall (λ c, word_sep c = false) w → has_space w = false.
Proof. induction 1 as [|c w Hc _ IH]; [done|]. cbn. unfold word_sep in Hc. by apply orb_false_iff in Hc as [-> _]. Qed.

Lemma cmd_app_space w l : has_space w = false → cmd_word (w ++ SPACE :: l) = w ∧ cmd_args (w ++ SPACE :: l) = l.
Proof. induction w as [|c w IH]; [done|]. cbn. destruct (c =? SPACE); [done|]. intros H. by destruct (IH H) as [-> ->]. Qed.

(** Such a command splits as the kernel splits it. *)
Lemma plain_command w ws :
  Forall plain_word (w :: ws) →
  take_word (joined (w :: ws)) = w ∧ argument_words (joined (w :: ws)) = ws ∧
  cmd_word (joined (w :: ws)) = w ∧ cmd_args (joined (w :: ws)) = joined ws.
Proof.
  intros Hall. destruct (Forall_cons_1 _ _ _ Hall) as [[_ Hw] Hws]. unfold argument_words. rewrite joined_cons.
  destruct (take_word_full w (match ws with [] => [] | _ => SPACE :: joined ws end) Hw) as [-> ->]. pose proof (no_sep_no_space w Hw) as Hs.
  destruct ws as [|w2 ws]; [cbn [take_word after_word words_from]; rewrite app_nil_r; by destruct (cmd_word_no_space w Hs) as [-> ->]|].
  destruct (cmd_app_space w (joined (w2 :: ws)) Hs) as [-> ->]. split_and!; [by rewrite app_nil_r|by apply words_joined|done..].
Qed.

(** ** Scanning a string *)

Lemma cstring_char m a l i c : cstring m a l → l !! i = Some c → 0 < c < 256 ∧ ld8 m (a + Z.of_nat i) = c.
Proof. intros (Hf & Hl & _) Hi. split; [by apply (Forall_lookup_1 _ _ _ _ Hf Hi)|by apply Hl]. Qed.

Lemma cstring_suffix m a l1 l2 : cstring m a (l1 ++ l2) → cstring m (a + Z.of_nat (length l1)) l2.
Proof. intros H. apply (cstring_drop _ _ _ (length l1)) in H; [|rewrite length_app; lia]. by rewrite drop_app_length in H. Qed.

(** A loop over the characters that satisfy [p]. *)
Lemma scan_run (p : Z → bool) (step : Z → Z + Z) m a l1 l2 :
  (∀ b, step b = if p (ld8 m b) then inl (b + 1) else inr b) →
  cstring m a (l1 ++ l2) → Forall (λ c, p c = true) l1 → p (hd 0 l2) = false → Z.of_nat (length l1) <= 4294967296 →
  while_loop step a = Some (a + Z.of_nat (length l1)).
Proof.
  intros Hstep Hc Hp H2 Hlen. apply (while_loop_steps _ (length l1) _ (a + Z.of_nat (length l1))); [| |exact Hlen].
  - clear H2 Hlen. revert a Hc. induction Hp as [|c l1 Hpc Hp IH]; intros a Hc; [cbn; by rewrite Z.add_0_r|].
    destruct (cstring_char m a _ 0 c Hc eq_refl) as [_ E]. rewrite Z.add_0_r in E. cbn [length nat_iter]. rewrite Hstep, E, Hpc.
    replace (a + Z.of_nat (S (length l1))) with (a + 1 + Z.of_nat (length l1)) by lia. apply IH.
    exact (cstring_suffix m a [c] _ Hc).
  - apply cstring_suffix in Hc. rewrite Hstep. destruct l2 as [|c l2].
    + destruct Hc as (_ & _ & E). cbn [length hd] in E, H2. rewrite Z.add_0_r in E. by rewrite E, H2.
    + destruct (cstring_char _ _ _ 0 c Hc eq_refl) as [_ E]. rewrite Z.add_0_r in E. cbn [hd] in H2. by rewrite E, H2.
Qed.

Lemma hd_drop_spaces l : drop_spaces l = [] ∨ ∃ c r, drop_spaces l = c :: r ∧ c ≠ SPACE.
Proof.
  induction l as [|c l IH]; [by left|]. cbn. destruct (Z.eqb_spec c SPACE); [done|]. right. by exists c, l.
Qed.

Lemma word_end_run m scan r :
  cstring m scan r → Z.of_nat (length r) <= 4294967296 → word_end m scan = Some (scan + Z.of_nat (length (take_word r))).
Proof.
  intros Hc Hlen. assert (Hd : ∃ r2, r = take_word r ++ r2 ∧ word_stop (hd 0 r2) = true).
  { destruct (word_split r) as [[_ E]|(c & Hs & E)]; [exists []; by rewrite app_nil_r|exists (c :: after_word r)]. split; [exact E|].
    cbn [hd]. unfold word_stop, word_sep in *. apply orb_true_iff in Hs as [-> | ->]; by rewrite ?orb_true_r. }
  destruct Hd as (r2 & Hr & Hst). unfold word_end. apply (scan_run (λ c, negb (word_stop c)) _ m scan (take_word r) r2).
  - intros b. cbv beta. by destruct (word_stop (ld8 m b)).
  - by rewrite <- Hr.
  - pose proof (take_word_no_sep r) as Hn. destruct Hc as (Hf & _). rewrite Hr in Hf. apply Forall_app in Hf as [Hf _].
    clear -Hn Hf. induction Hn as [|c w Hc Hn IH]; [constructor|]. apply Forall_cons_1 in Hf as [Hcr Hf]. constructor; [|by apply IH].
    unfold word_stop, word_sep in *. destruct (Z.eqb_spec c 0); [lia|]. by rewrite orb_false_l, Hc.
  - by rewrite Hst.
  - apply (f_equal length) in Hr. rewrite length_app in Hr. lia.
Qed.

Lemma skip_spaces_run m scan r :
  cstring m scan r → Z.of_nat (length r) <= 4294967296 →
  skip_spaces m scan = Some (scan + (Z.of_nat (length r) - Z.of_nat (length (drop_spaces r)))) ∧ (length (drop_spaces r) <= length r)%nat.
Proof.
  intros Hc Hlen. destruct (drop_spaces_split r) as [n Hr]. assert (Hl : length r = (n + length (drop_spaces r))%nat).
  { rewrite Hr at 1. by rewrite length_app, length_replicate. }
  split; [|lia]. unfold skip_spaces. rewrite (scan_run (λ c, SPACE =? c) _ m scan (replicate n SPACE) (drop_spaces r)).
  - rewrite length_replicate. do 2 f_equal. lia.
  - done.
  - by rewrite <- Hr.
  - apply Forall_replicate. done.
  - destruct (hd_drop_spaces r) as [-> |(c & r2 & -> & Hne)]; [done|]. cbn [hd]. by apply Z.eqb_neq.
  - rewrite length_replicate. lia.
Qed.

(** ** Copies *)

Lemma strcpy_flat m dst src l :
  flat_memory m → cstring m src l → let n := Z.of_nat (length l) + 1 in in_flat dst n → in_flat src n →
  dst + n <= src ∨ src + n <= dst →
  ∃ m', ece391_strcpy m dst src = Some m' ∧ cstring m' dst l ∧ within dst n m m'.
Proof.
  intros Hm Hc n Hd Hs Hap. unfold in_flat in *. unfold ece391_strcpy. match goal with |- context [while_loop ?f _] => set (step := f) end.
  destruct (while_loop_rule step
    (λ '(d, s, t), ∃ i, 0 <= i < n ∧ d = dst + i ∧ s = src + i ∧ within dst n m t ∧ ∀ j, 0 <= j < i → ld8 t (dst + j) = ld8 m (src + j))
    (λ '(d, s, t), n - (d - dst)) (λ t, within dst n m t ∧ ∀ j, 0 <= j < n → ld8 t (dst + j) = ld8 m (src + j)) (dst, src, m))
    as (m' & E & Hw & Hb).
  - exists 0. split_and!; [lia..|apply within_refl|lia].
  - lia.
  - intros [[d s] t] (i & Hi & -> & -> & Hw & Hb) _. cbn [step]. pose proof (wi_flat _ _ _ _ Hw Hm) as Ht.
    assert (Es : ld8 t (src + i) = ld8 m (src + i)) by (apply (wi_byte _ _ _ _ Hw Hm); lia). rewrite Es.
    assert (Hw' : within dst n m (st8 t (dst + i) (ld8 m (src + i)))).
    { apply (within_trans _ _ _ t); [exact Hw|]. apply (within_widen (dst + i) 1); [apply within_st8; lia|lia|lia]. }
    assert (Hb' : ∀ j, 0 <= j < i + 1 → ld8 (st8 t (dst + i) (ld8 m (src + i))) (dst + j) = ld8 m (src + j)).
    { intros j Hj. rewrite (ld8_st8_flat t) by (exact Ht || lia). destruct (Z.eqb_spec (dst + j) (dst + i)).
      - replace j with i by lia. apply u8_small, ld8_range.
      - apply Hb. lia. }
    destruct (Z.eqb_spec (ld8 m (src + i)) 0) as [E0|E0]; cbn [negb].
    + assert (i = n - 1) by (destruct (decide (i = n - 1)); [done|]; exfalso; apply (cstring_nz m src l i Hc); [lia|exact E0]).
      split; [exact Hw'|]. intros j Hj. apply Hb'. lia.
    + assert (i ≠ n - 1) by (intros ->; apply E0; replace (n - 1) with (Z.of_nat (length l)) by lia; apply Hc).
      split; [exists (i + 1); split_and!; [lia..|exact Hw'|exact Hb']|lia].
  - exists m'. split; [exact E|]. split; [|exact Hw]. destruct Hc as (Hf & Hl & Hz). split; [exact Hf|]. split.
    + intros i c Hi. pose proof (lookup_lt_Some _ _ _ Hi). rewrite Hb by lia. by apply Hl.
    + rewrite Hb by lia. exact Hz.
Qed.

(** A NUL stored at the end of a string or behind it. *)
Lemma nul_store m a e l :
  flat_memory m → 0 <= a → a + Z.of_nat (length l) <= e → e < 4294967296 → cstring m a l → cstring (st8 m e 0) a l.
Proof.
  intros Hm Ha He He2 (Hf & Hl & Hz). split; [exact Hf|]. split.
  - intros i c Hi. pose proof (lookup_lt_Some _ _ _ Hi). rewrite ld8_st8_flat by (exact Hm || lia). destruct (Z.eqb_spec (a + Z.of_nat i) e); [lia|by apply Hl].
  - rewrite ld8_st8_flat by (exact Hm || lia). by destruct (_ =? _).
Qed.

(** A string cut by a NUL in place of one of its characters. *)
Lemma cut_string m a w c r :
  flat_memory m → 0 <= a → a + Z.of_nat (length (w ++ c :: r)) < 4294967296 → cstring m a (w ++ c :: r) →
  let e := a + Z.of_nat (length w) in cstring (st8 m e 0) a w ∧ cstring (st8 m e 0) (e + 1) r ∧ ld8 m e ≠ 0.
Proof.
  intros Hm Ha Hb Hc e. rewrite length_app in Hb. cbn [length] in Hb. pose proof (cstring_suffix _ _ _ _ Hc) as Hs. fold e in Hs.
  assert (Hr : cstring m (e + 1) r) by exact (cstring_suffix m e [c] r Hs). destruct (cstring_char _ _ _ 0 c Hs eq_refl) as [Hc0 Ec].
  rewrite Z.add_0_r in Ec. split; [|split; [|lia]].
  - destruct Hc as (Hf & Hl & _). apply Forall_app in Hf as [Hf _]. split; [exact Hf|]. split.
    + intros i d Hi. pose proof (lookup_lt_Some _ _ _ Hi). rewrite ld8_st8_flat by (exact Hm || lia). destruct (Z.eqb_spec (a + Z.of_nat i) e); [lia|].
      apply Hl. by apply lookup_app_l_Some.
    + rewrite ld8_st8_flat by (exact Hm || lia). by destruct (Z.eqb_spec (a + Z.of_nat (length w)) e).
  - revert Hr. apply cstring_ext. intros i Hi. rewrite ld8_st8_flat by (exact Hm || lia). by destruct (Z.eqb_spec (e + 1 + i) e); [lia|].
Qed.

(** ** The vector of arguments *)

(** The entries of the vector, and where their strings are. *)
Definition holds_words (m : memory) (args lo hi : Z) (ws : list (list Z)) : Prop :=
  ∀ i w, ws !! i = Some w → let p := ld32 m (args + 4 * Z.of_nat i) in
    cstring m p w ∧ lo <= p ∧ p + Z.of_nat (length w) <= hi.

Record argument_vector (m : memory) (args : Z) (ws : list (list Z)) : Prop := {
  av_words : ∀ i w, ws !! i = Some w → cstring m (ld32 m (args + 4 * Z.of_nat i)) w;
  av_end : ld32 m (args + 4 * Z.of_nat (length ws)) = 0;
}.

Lemma words_snoc m args lo hi ws w :
  holds_words m args lo hi ws →
  (let p := ld32 m (args + 4 * Z.of_nat (length ws)) in cstring m p w ∧ lo <= p ∧ p + Z.of_nat (length w) <= hi) →
  holds_words m args lo hi (ws ++ [w]).
Proof.
  intros H Hw i w' Hi. apply lookup_app_Some in Hi as [Hi|[Hle Hi]]; [by apply H|].
  apply list_lookup_singleton_Some in Hi as [Hi <-]. replace i with (length ws) by lia. exact Hw.
Qed.

Lemma words_change m m' args lo hi hi' ws :
  holds_words m args lo hi ws → hi <= hi' →
  (∀ i, (i < length ws)%nat → ld32 m' (args + 4 * Z.of_nat i) = ld32 m (args + 4 * Z.of_nat i)) →
  (∀ p w, cstring m p w → lo <= p → p + Z.of_nat (length w) <= hi → cstring m' p w) → holds_words m' args lo hi' ws.
Proof.
  intros H Hhi Hp Hc i w Hi. rewrite Hp by (by apply lookup_lt_Some in Hi). destruct (H i w Hi) as (H1 & H2 & H3).
  split; [by apply Hc|]. lia.
Qed.

Section Parse.
Context (buf args : Z) (m0 : memory).
Context (Hbuf : in_flat buf 1026) (Hargs : in_flat args 4096) (Hdis : buf + 1026 <= args ∨ args + 4096 <= buf).

(** Nothing but the two locals changes. *)
Definition locals_only (m : memory) : Prop :=
  flat_memory m ∧ ∀ b, 0 <= b < 4294967296 → b < buf ∨ buf + 1026 <= b → b < args ∨ args + 4096 <= b → ld8 m b = ld8 m0 b.

Lemma locals_buf a n m m' : locals_only m → within a n m m' → buf <= a → a + n <= buf + 1026 → locals_only m'.
Proof using Hdis. intros [F K] Hw H1 H2. split; [by apply (wi_flat _ _ _ _ Hw)|]. intros b Hb Ho Ho2. rewrite (wi_byte _ _ _ _ Hw F) by lia. by apply K. Qed.

Lemma locals_args a n m m' : locals_only m → within a n m m' → args <= a → a + n <= args + 4096 → locals_only m'.
Proof using Hdis. intros [F K] Hw H1 H2. split; [by apply (wi_flat _ _ _ _ Hw)|]. intros b Hb Ho Ho2. rewrite (wi_byte _ _ _ _ Hw F) by lia. by apply K. Qed.

(** An entry keeps the strings of the buffer, and a byte of it the entries. *)
Lemma entry_store m i p :
  locals_only m → 0 <= i < 1024 →
  let m' := st32 m (args + 4 * i) p in
  locals_only m' ∧ ld32 m' (args + 4 * i) = u32 p ∧ (∀ j, 0 <= j < i → ld32 m' (args + 4 * j) = ld32 m (args + 4 * j)) ∧
  ∀ a w, buf <= a → a + Z.of_nat (length w) < buf + 1026 → cstring m a w → cstring m' a w.
Proof using Hbuf Hargs Hdis.
  intros Hm Hi m'. pose proof (proj1 Hm) as F. unfold in_flat in *.
  assert (Hw : within (args + 4 * i) 4 m m') by (apply within_st32; unfold in_flat; lia).
  split; [by apply (locals_args (args + 4 * i) 4 m); [..|lia|lia]|]. split; [apply ld32_st32_flat; [exact F|unfold in_flat; lia]|]. split.
  - intros j Hj. apply (within_ld32 _ _ _ _ _ Hw F); [unfold in_flat; lia|lia].
  - intros a w H1 H2. apply (within_cstring _ _ _ _ _ _ Hw F); [unfold in_flat; lia|lia].
Qed.

Lemma byte_store m e v i : locals_only m → buf <= e < buf + 1026 → 0 <= i < 1024 →
  locals_only (st8 m e v) ∧ ld32 (st8 m e v) (args + 4 * i) = ld32 m (args + 4 * i).
Proof using Hbuf Hargs Hdis.
  intros Hm He Hi. unfold in_flat in *. assert (Hw : within e 1 m (st8 m e v)) by (apply within_st8; lia).
  split; [by apply (locals_buf e 1 m); [..|lia|lia]|]. apply (within_ld32 _ _ _ _ _ Hw (proj1 Hm)); [unfold in_flat; lia|lia].
Qed.

Lemma nul_words m e hi hi' ws :
  locals_only m → holds_words m args buf hi ws → hi <= e < buf + 1026 → buf <= e → hi <= hi' → (length ws <= 1024)%nat →
  holds_words (st8 m e 0) args buf hi' ws.
Proof using Hbuf Hargs Hdis.
  intros Hm Hw He He2 Hhi Hlen. apply (words_change m _ _ _ hi); [exact Hw|exact Hhi| |].
  - intros i Hi. apply byte_store; [exact Hm|lia|lia].
  - intros p w Hc H1 H2. unfold in_flat in *. apply nul_store; [apply Hm|lia|lia|lia|exact Hc].
Qed.

(** ** The loop over the arguments *)

Context (fin : Z) (all : list (list Z)).
Context (Hfin : buf + 2 <= fin <= buf + 1025).

Record parsing (scan n_arg : Z) (m : memory) (got : list (list Z)) (rest : list Z) : Prop := {
  pa_count : n_arg = Z.of_nat (length got);
  pa_bound : 1 <= n_arg <= scan - buf - 2;
  pa_kept : locals_only m;
  pa_rest : cstring m scan rest;
  pa_end : scan + Z.of_nat (length rest) = fin;
  pa_words : holds_words m args buf scan got;
  pa_all : got ++ words_from None rest = all;
  pa_first : ld32 m args = buf;
}.

Definition parsed (n_arg : Z) (m : memory) : Prop :=
  n_arg = Z.of_nat (length all) ∧ 1 <= n_arg <= 1023 ∧ locals_only m ∧ holds_words m args buf fin all ∧ ld32 m args = buf.

(** A word of the rest becomes the next entry. *)
Lemma parse_word scan n_arg m got rest c l :
  parsing scan n_arg m got rest → rest = c :: l → word_sep c = false → n_arg <= 1023 →
  let m1 := st32 m (args + 4 * n_arg) scan in
  ∃ e, word_end m1 scan = Some e ∧ scan < e <= fin ∧
    if negb (ld8 m1 e =? 0) then parsing (e + 1) (n_arg + 1) (st8 m1 e 0) (got ++ [take_word rest]) (after_word rest) ∧ e + 1 <= fin
    else parsing e (n_arg + 1) m1 (got ++ [take_word rest]) (after_word rest).
Proof using Hbuf Hargs Hdis Hfin.
  intros [P1 P2 P3 P4 P5 P6 P7 P8] Hrest Hc Hn m1. destruct (entry_store m n_arg scan P3) as (K1 & Kp & Kj & Kc); [lia|]. fold m1 in K1, Kp, Kj, Kc.
  pose proof (proj1 K1) as F. unfold in_flat in *. rewrite u32_small in Kp by lia.
  assert (P8' : ld32 m1 args = buf) by (rewrite <- P8, <- (Z.add_0_r args); apply (Kj 0); lia).
  assert (Hr1 : cstring m1 scan rest) by (apply Kc; [lia|lia|exact P4]).
  assert (Hne : (0 < length (take_word rest))%nat) by (rewrite Hrest; cbn [take_word]; rewrite Hc; cbn; lia).
  assert (Hlen : (length (take_word rest) <= length rest)%nat).
  { destruct (word_split rest) as [[_ E]|(d & _ & E)]; rewrite E at 2; [done|rewrite length_app; lia]. }
  assert (Hg : holds_words m1 args buf scan got).
  { apply (words_change m _ _ _ scan); [exact P6|lia|intros i Hi; apply Kj; lia|]. intros p w Hpw H1 H2. apply Kc; [lia|lia|exact Hpw]. }
  assert (Hall : (got ++ [take_word rest]) ++ words_from None (after_word rest) = all).
  { rewrite <- P7, <- app_assoc. f_equal. pose proof (words_from_next rest) as H. rewrite Hrest in H |- *. cbn [drop_spaces] in H.
    unfold word_sep in Hc. apply orb_false_iff in Hc as [Hc1 Hc2]. rewrite Hc1 in H. destruct H as [[-> _]|[_ H]]; [done|by rewrite H]. }
  exists (scan + Z.of_nat (length (take_word rest))). split; [apply (word_end_run m1 scan rest Hr1); lia|]. split; [lia|].
  set (e := scan + Z.of_nat (length (take_word rest))). destruct (word_split rest) as [[Ha Et]|(d & Hd & Et)].
  - assert (Ee : ld8 m1 e = 0) by (unfold e; rewrite <- Et; apply Hr1). rewrite Ee, Ha. cbn [negb Z.eqb].
    assert (Efin : e = fin) by (unfold e; rewrite <- Et; lia). rewrite Ha in Hall.
    split; [rewrite length_app; cbn; lia|lia|exact K1| |cbn; lia| |exact Hall|exact P8'].
    + split_and!; [constructor|done|]. cbn [length]. by rewrite Z.add_0_r.
    + apply words_snoc.
      * apply (words_change m1 _ _ _ scan); [exact Hg|lia|done|done].
      * rewrite <- P1, Kp. cbv zeta. rewrite <- Et. rewrite <- Et in Hne. split; [exact Hr1|]. unfold e. rewrite <- Et. lia.
  - pose proof Hr1 as Hr2. rewrite Et in Hr2. assert (Hl : length rest = (length (take_word rest) + S (length (after_word rest)))%nat) by (rewrite Et at 1; rewrite length_app; done).
    destruct (cut_string m1 scan (take_word rest) d (after_word rest) F) as (C1 & C2 & C3); [lia|rewrite <- Et; lia|exact Hr2|]. fold e in C1, C2, C3.
    apply Z.eqb_neq in C3. rewrite C3. cbn [negb]. split; [|lia]. assert (He : buf <= e < buf + 1026) by lia.
    split; [rewrite length_app; cbn; lia|lia|apply (byte_store m1 e 0 0); [exact K1|lia|lia]|exact C2|lia| |exact Hall|].
    2: { rewrite <- P8', <- (Z.add_0_r args). apply (byte_store m1 e 0 0 K1 He). lia. }
    apply words_snoc.
    + apply (nul_words m1 e scan); [exact K1|exact Hg|lia..].
    + rewrite <- P1. destruct (byte_store m1 e 0 n_arg K1 He) as [_ ->]; [lia|]. rewrite Kp. cbv zeta. split; [exact C1|]. lia.
Qed.

Lemma parse_turn st got rest :
  let '(scan, n_arg, m) := st in parsing scan n_arg m got rest →
  ∃ x, parse_step args st = Some x ∧
    match x with
    | inl (scan', n', m') => (∃ got' rest', parsing scan' n' m' got' rest') ∧ scan < scan' <= fin
    | inr (n', m') => parsed n' m'
    end.
Proof using Hbuf Hargs Hdis Hfin.
  destruct st as [[scan n_arg] m]. intros P. destruct P as [P1 P2 P3 P4 P5 P6 P7 P8]. unfold in_flat in *.
  destruct (skip_spaces_run m scan rest P4) as [E Hd]; [lia|]. unfold parse_step. rewrite E, bind_some.
  set (scan1 := scan + (Z.of_nat (length rest) - Z.of_nat (length (drop_spaces rest)))).
  assert (Hr : cstring m scan1 (drop_spaces rest)).
  { destruct (drop_spaces_split rest) as [k Hk]. pose proof P4 as Hc. rewrite Hk in Hc. apply cstring_suffix in Hc. rewrite length_replicate in Hc.
    replace scan1 with (scan + Z.of_nat k); [exact Hc|]. apply (f_equal length) in Hk. rewrite length_app, length_replicate in Hk. lia. }
  assert (Hstop : words_from None rest = [] → ∃ x, Some (inr (n_arg, st8 m scan1 0)) = Some x ∧
    match x : (Z * Z * memory) + (Z * memory) with
    | inl (scan', n', m') => (∃ got' rest', parsing scan' n' m' got' rest') ∧ scan < scan' <= fin
    | inr (n', m') => parsed n' m'
    end).
  { intros Hnil. rewrite Hnil, app_nil_r in P7. subst got. eexists. split; [done|]. split; [exact P1|]. split; [lia|].
    split; [apply (byte_store m scan1 0 0); [exact P3|lia|lia]|]. split; [apply (nul_words m scan1 scan); [exact P3|exact P6|lia..]|].
    rewrite <- P8, <- (Z.add_0_r args). apply (byte_store m scan1 0 0 P3); lia. }
  pose proof (words_from_next rest) as Hnext. destruct (drop_spaces rest) as [|c l] eqn:Hds.
  { destruct Hr as (_ & _ & Hz). cbn [length] in Hz. rewrite Z.add_0_r in Hz. rewrite Hz. by apply Hstop. }
  destruct (cstring_char _ _ _ 0 c Hr eq_refl) as [Hc0 Ec]. rewrite Z.add_0_r in Ec. rewrite Ec. destruct (Z.eqb_spec c 0); [lia|].
  destruct Hnext as [[-> Hnil]|[Hsep Hw]]; [by apply Hstop|].
  assert (Hcn : (c =? NL) = false) by (unfold word_sep in Hsep; by apply orb_false_iff in Hsep as [_ ->]). rewrite Hcn. cbn [orb].
  destruct (parse_word scan1 n_arg m got (c :: l) c l) as (e & Ew & He & Hcase); [|done|exact Hsep|lia|].
  - split; [exact P1|lia|exact P3|exact Hr|unfold scan1; lia| |by rewrite <- P7, <- (words_from_spaces rest), Hds|exact P8].
    apply (words_change m _ _ _ scan); [exact P6|lia|done|done].
  - cbv zeta. rewrite Ew, bind_some. destruct (negb _).
    + destruct Hcase as [Hp Hf]. eexists. split; [done|]. split; [by eexists _, _|lia].
    + eexists. split; [done|]. split; [by eexists _, _|lia].
Qed.

Lemma parse_words scan m got rest :
  parsing scan 1 m got rest → ∃ n' m', while_opt (parse_step args) (scan, 1, m) = Some (n', m') ∧ parsed n' m'.
Proof using Hbuf Hargs Hdis Hfin.
  intros P. unfold in_flat in *.
  destruct (while_opt_rule (parse_step args) (λ '(scan, n_arg, m), ∃ got rest, parsing scan n_arg m got rest) (λ '(scan, _, _), fin - scan)
    (λ '(n', m'), parsed n' m') (scan, 1, m)) as ([n' m'] & E & H).
  - by exists got, rest.
  - destruct P as [_ Hb _ _ He _ _ _]. lia.
  - intros [[sc n] t] (g & r & Pt) _. destruct (parse_turn (sc, n, t) g r Pt) as (x & Ex & Hx). exists x. split; [exact Ex|].
    destruct x as [[[sc' n'] t']|[n' t']]; [|exact Hx]. destruct Hx as [Hp Hs]. split; [exact Hp|lia].
  - by exists n', m'.
Qed.
End Parse.

(** ** A command *)

Record started_as (m : memory) (buf args : Z) (l : list Z) : Prop := {
  sa_path : cstring m buf ([46; 47] ++ take_word l);
  sa_words : argument_vector m args (command_words l);
}.

Section Command.
Context (buf args : Z) (m0 : memory).
Context (Hbuf : in_flat buf 1026) (Hargs : in_flat args 4096) (Hdis : buf + 1026 <= args ∨ args + 4096 <= buf).
Context (command : Z) (l : list Z).
Context (Hm : flat_memory m0) (Hc : cstring m0 command l) (Hl : Z.of_nat (length l) <= 1023).
Context (Hcom : in_flat command (Z.of_nat (length l) + 1)).
Context (Hapart : buf + 1026 <= command ∨ command + Z.of_nat (length l) + 1 <= buf).

(** The command behind its prefix. *)
Lemma copied_command :
  ∃ m, ece391_strcpy (st8 (st8 m0 buf 46) (buf + 1) 47) (buf + 2) command = Some m ∧
    locals_only buf args m0 m ∧ cstring m buf ([46; 47] ++ l).
Proof using All.
  unfold in_flat in *. set (m1 := st8 (st8 m0 buf 46) (buf + 1) 47).
  assert (K1 : locals_only buf args m0 m1).
  { apply (locals_buf buf args m0 Hdis (buf + 1) 1 (st8 m0 buf 46)); [|apply within_st8; lia|lia|lia].
    apply (locals_buf buf args m0 Hdis buf 1 m0); [by split|apply within_st8; lia|lia|lia]. }
  assert (Hc1 : cstring m1 command l).
  { revert Hc. apply cstring_ext. intros i Hi. unfold m1. rewrite !ld8_st8_flat by (exact Hm || lia). bcase. }
  destruct (strcpy_flat m1 (buf + 2) command l (proj1 K1) Hc1) as (m & E & Hs & Hw); [unfold in_flat; lia..|].
  exists m. split; [exact E|]. split; [by apply (locals_buf buf args m0 Hdis _ _ _ _ K1 Hw); lia|].
  assert (H2 : ∀ i, 0 <= i < 2 → ld8 m (buf + i) = if i =? 0 then 46 else 47).
  { intros i Hi. rewrite (wi_byte _ _ _ _ Hw (proj1 K1)) by lia. unfold m1. rewrite !ld8_st8_flat by (exact Hm || lia).
    destruct (Z.eqb_spec i 0), (Z.eqb_spec (buf + i) (buf + 1)), (Z.eqb_spec (buf + i) buf); try lia; done. }
  destruct Hs as (S1 & S2 & S3). split; [repeat (apply list.Forall_cons_2; [lia|]); exact S1|]. split.
  - intros [|[|i]] c Hi; [injection Hi as <-; by rewrite H2|injection Hi as <-; by rewrite H2|].
    replace (buf + Z.of_nat (S (S i))) with (buf + 2 + Z.of_nat i) by lia. by apply S2.
  - cbn [app length]. replace (buf + Z.of_nat (S (S (length l)))) with (buf + 2 + Z.of_nat (length l)) by lia. exact S3.
Qed.

(** [NULL] behind the last entry. *)
Lemma end_vector n m :
  parsed buf args m0 (buf + 2 + Z.of_nat (length l)) (command_words l) n m →
  let m' := st32 m (args + 4 * n) 0 in locals_only buf args m0 m' ∧ started_as m' buf args l.
Proof using Hbuf Hargs Hdis Hl.
  intros (-> & Hn & K & Hw & H0) m'. destruct (entry_store buf args m0 Hbuf Hargs Hdis m (Z.of_nat (length (command_words l))) 0 K) as (K1 & Kp & Kj & Kc); [lia|].
  fold m' in K1, Kp, Kj, Kc. assert (Hav : argument_vector m' args (command_words l)).
  { split; [|exact Kp]. intros i w Hi. rewrite Kj by (apply lookup_lt_Some in Hi; lia). destruct (Hw i w Hi) as (W1 & W2 & W3). apply Kc; [lia|lia|exact W1]. }
  split; [exact K1|]. split; [|exact Hav]. pose proof (av_words _ _ _ Hav 0%nat _ eq_refl) as H. rewrite Kj in H by lia.
  change (4 * Z.of_nat 0) with 0 in H. by rewrite Z.add_0_r, H0 in H.
Qed.

Lemma parse_command_run :
  ∃ m', parse_command command buf args m0 = Some m' ∧ locals_only buf args m0 m' ∧ started_as m' buf args l.
Proof using All.
  destruct copied_command as (m & E & K & Hs). unfold in_flat in *. unfold parse_command. rewrite E, bind_some.
  pose proof (cstring_suffix m buf [46; 47] l Hs) as Hs2. cbn [length] in Hs2. change (Z.of_nat 2) with 2 in Hs2.
  rewrite (word_end_run m _ l Hs2), bind_some by lia. set (e := buf + 2 + Z.of_nat (length (take_word l))).
  destruct (entry_store buf args m0 Hbuf Hargs Hdis m 0 buf K) as (K1 & Kp & _ & Kc); [lia|]. rewrite Z.mul_0_r, Z.add_0_r in K1, Kp, Kc. rewrite u32_small in Kp by lia.
  set (m1 := st32 m args buf) in *. pose proof (Kc buf ([46; 47] ++ l) ltac:(lia) ltac:(rewrite length_app; cbn [length]; lia) Hs) as Hs1.
  assert (Hlen : (length (take_word l) <= length l)%nat).
  { destruct (word_split l) as [[_ Et]|(d & _ & Et)]; rewrite Et at 2; [done|rewrite length_app; lia]. }
  destruct (word_split l) as [[Ha Et]|(d & Hd & Et)].
  - assert (Ee : ld8 m1 e = 0).
    { pose proof (cstring_suffix m1 buf [46; 47] l Hs1) as (_ & _ & Hz). unfold e. rewrite <- Et. exact Hz. }
    rewrite Ee. cbn [negb Z.eqb]. eexists. split; [done|]. apply end_vector. split; [unfold command_words, argument_words; by rewrite Ha|]. split; [lia|].
    split; [exact K1|]. split; [|exact Kp]. intros i w Hi. unfold command_words, argument_words in Hi. rewrite Ha in Hi. cbn [words_from option_list] in Hi.
    apply list_lookup_singleton_Some in Hi as [-> <-]. cbv zeta. change (4 * Z.of_nat 0) with 0. rewrite Z.add_0_r, Kp, <- Et. split; [exact Hs1|].
    rewrite length_app. cbn [length]. lia.
  - destruct (cut_string m1 buf ([46; 47] ++ take_word l) d (after_word l) (proj1 K1)) as (C1 & C2 & C3); [lia|rewrite <- app_assoc, <- Et, length_app; cbn [length]; lia|by rewrite <- app_assoc, <- Et|].
    assert (He : buf + Z.of_nat (length ([46; 47] ++ take_word l)) = e) by (rewrite length_app; cbn [length]; unfold e; lia). rewrite He in C1, C2, C3.
    assert (Hll : length l = (length (take_word l) + S (length (after_word l)))%nat) by (rewrite Et at 1; rewrite length_app; done).
    apply Z.eqb_neq in C3. rewrite C3. cbn [negb]. destruct (byte_store buf args m0 Hbuf Hargs Hdis m1 e 0 0 K1) as [K2 E2]; [lia|lia|].
    rewrite Z.mul_0_r, Z.add_0_r, Kp in E2.
    destruct (parse_words buf args m0 Hbuf Hargs Hdis (buf + 2 + Z.of_nat (length l)) (command_words l) ltac:(lia) (e + 1) (st8 m1 e 0) [[46; 47] ++ take_word l] (after_word l)) as (n & m' & En & Hp).
    + split; [done|lia|exact K2|exact C2|lia| |done|exact E2].
      intros i w Hi. apply list_lookup_singleton_Some in Hi as [-> <-]. cbv zeta. change (4 * Z.of_nat 0) with 0. rewrite Z.add_0_r, E2.
      split; [exact C1|]. rewrite length_app. cbn [length]. lia.
    + rewrite En, bind_some. eexists. split; [done|]. by apply end_vector.
Qed.
End Command.

(** ** The arguments of a process *)

(** What Linux puts on the stack of a program started with the vector [ws]. *)
Record initial_stack (m : memory) (esp : Z) (ws : list (list Z)) (buf n : Z) : Prop := {
  is_argc : ld32 m esp = Z.of_nat (length ws);
  is_many : Z.of_nat (length ws) < 2147483648;
  is_vector : in_flat esp (4 + 4 * Z.of_nat (length ws));
  is_vector_apart : esp + 4 + 4 * Z.of_nat (length ws) <= buf ∨ buf + n <= esp;
  is_words : ∀ i w, ws !! i = Some w → let p := ld32 m (esp + 4 + 4 * Z.of_nat i) in
    cstring m p w ∧ Z.of_nat (length w) < 2147483648 ∧ in_flat p (Z.of_nat (length w) + 1) ∧
    (p + Z.of_nat (length w) + 1 <= buf ∨ buf + n <= p);
}.

Section Getargs.
Context (m0 : memory) (esp buf n : Z) (ws : list (list Z)).
Context (Hm : flat_memory m0) (Hn : 0 <= n < 2147483648) (Hbuf : in_flat buf (n + 1)).
Context (Hst : initial_stack m0 esp ws buf (n + 1)).

#[local] Abbreviation text := (joined (drop 1 ws)).

(** The bytes of the buffer that may be written: one more than it has when the
    text does not fit. *)
Definition written : Z := Z.min (n + 1) (Z.of_nat (length text) + 1).

Record joining (idx b nb : Z) (m : memory) (pre : list Z) : Prop := {
  jo_idx : 1 <= idx <= Z.of_nat (length ws);
  jo_pre : text = pre ++ joined (drop (Z.to_nat idx) ws);
  jo_buf : b = buf + Z.of_nat (length pre);
  jo_left : nb = n - Z.of_nat (length pre) ∧ 0 <= nb;
  jo_kept : within buf written m0 m;
  jo_bytes : holds m buf pre;
}.

(** A word of the vector, while the buffer is being written. *)
Lemma vector_word m i w :
  within buf written m0 m → ws !! i = Some w → let p := ld32 m (esp + 4 + 4 * Z.of_nat i) in
  cstring m p w ∧ Z.of_nat (length w) < 2147483648 ∧ in_flat p (Z.of_nat (length w) + 1) ∧
  (p + Z.of_nat (length w) + 1 <= buf ∨ buf + (n + 1) <= p).
Proof using Hm Hn Hbuf Hst.
  intros Hw Hi. destruct Hst as [_ _ Hv Hva Hs]. specialize (Hs i w Hi). pose proof (lookup_lt_Some _ _ _ Hi).
  assert (Hle : written <= n + 1) by apply Z.le_min_l. unfold in_flat in *.
  rewrite (within_ld32 _ _ _ _ _ Hw Hm) by (unfold in_flat; lia). cbv zeta in *. destruct Hs as (S1 & S2 & S3 & S4).
  split; [|done]. revert S1. apply (within_cstring _ _ _ _ _ _ Hw Hm); [exact S3|lia].
Qed.

Lemma getargs_turn idx b nb m pre :
  joining idx b nb m pre →
  ∃ x, getargs_step (Z.of_nat (length ws)) (esp + 4) (idx, b, nb, m) = Some x ∧
    match x with
    | inl (idx', b', nb', m') => (∃ pre', joining idx' b' nb' m' pre') ∧ idx' = idx + 1 ∧ idx' <= Z.of_nat (length ws)
    | inr (inl m') => n < Z.of_nat (length text) + 1 ∧ within buf written m0 m'
    | inr (inr (b', nb', m')) => b' = buf + Z.of_nat (length text) ∧ nb' = n - Z.of_nat (length text) ∧ 0 <= nb' ∧
        within buf written m0 m' ∧ holds m' buf text
    end.
Proof using Hm Hn Hbuf Hst.
  intros [J1 J2 J3 [J4 J5] J6 J7]. unfold getargs_step. destruct (Z.ltb_spec idx (Z.of_nat (length ws))) as [Hi|Hi]; cycle 1.
  { rewrite (drop_ge ws (Z.to_nat idx)) in J2 by lia. cbn [joined] in J2. rewrite app_nil_r in J2. eexists. split; [done|]. rewrite J2. by split_and!. }
  destruct (lookup_lt_is_Some_2 ws (Z.to_nat idx)) as [w Hw]; [lia|]. destruct (vector_word m _ w J6 Hw) as (V1 & V2 & V3 & V4).
  rewrite Z2Nat.id in V1, V3, V4 by lia. rewrite (ece391_strlen_run m _ w V1), bind_some by lia. rewrite s32_small by lia.
  rewrite (drop_S _ _ _ Hw), joined_cons in J2. replace (S (Z.to_nat idx)) with (Z.to_nat (idx + 1)) in J2 by lia.
  assert (Hlen : (length pre + length w <= length text)%nat) by (rewrite J2, !length_app; lia).
  destruct (Z.ltb_spec nb (Z.of_nat (length w))) as [Hf|Hf]; [eexists; split; [done|]; cbn; split; [lia|exact J6]|].
  pose proof (wi_flat _ _ _ _ J6 Hm) as F. unfold in_flat, written in *.
  destruct (strcpy_flat m b _ w F V1) as (m' & E & Hc & Hw'); [unfold in_flat; lia|unfold in_flat; lia|lia|]. rewrite E, bind_some.
  assert (K' : within buf (Z.min (n + 1) (Z.of_nat (length text) + 1)) m0 m').
  { apply (within_trans _ _ _ m); [exact J6|]. apply (within_widen _ _ _ _ _ _ Hw'); lia. }
  assert (B' : holds m' buf (pre ++ w)).
  { apply holds_app. split; [|rewrite <- J3; exact (proj1 (proj2 Hc))]. revert J7. apply holds_ext. intros i Hi2. apply (wi_byte _ _ _ _ Hw' F); lia. }
  destruct (Z.leb_spec (Z.of_nat (length ws)) (idx + 1)) as [Hl|Hl].
  { rewrite (drop_ge ws (Z.to_nat (idx + 1))) in J2 by lia. rewrite app_nil_r in J2. eexists. split; [done|]. unfold written. rewrite J2 in K', Hlen |- *. rewrite length_app in *. split_and!; [lia..|exact K'|exact B']. }
  destruct (drop (Z.to_nat (idx + 1)) ws) as [|w2 r] eqn:Hd; [apply (f_equal length) in Hd; rewrite length_drop in Hd; cbn in Hd; lia|].
  assert (Hlen2 : (length pre + length w + 1 <= length text)%nat) by (rewrite J2, !length_app; cbn [length]; lia).
  destruct (Z.ltb_spec (nb - Z.of_nat (length w)) 1) as [Hf2|Hf2]; [eexists; split; [done|]; cbn; split; [lia|exact K']|].
  eexists. split; [done|]. split; [|lia]. exists ((pre ++ w) ++ [SPACE]).
  assert (Hs : within (b + Z.of_nat (length w)) 1 m' (st8 m' (b + Z.of_nat (length w)) SPACE)) by (apply within_st8; lia).
  pose proof (wi_flat _ _ _ _ K' Hm) as F'. split.
  - lia.
  - rewrite J2, Hd. by rewrite <- !app_assoc.
  - rewrite !length_app. cbn [length]. lia.
  - rewrite !length_app. cbn [length]. lia.
  - apply (within_trans _ _ _ m'); [exact K'|]. apply (within_widen _ _ _ _ _ _ Hs); unfold written; lia.
  - apply holds_app. split; [revert B'; apply holds_ext; intros i Hi2; rewrite length_app in Hi2; apply (wi_byte _ _ _ _ Hs F'); lia|].
    intros i c Hi2. apply list_lookup_singleton_Some in Hi2 as [-> <-]. rewrite length_app, Nat2Z.inj_add.
    replace (buf + (Z.of_nat (length pre) + Z.of_nat (length w)) + Z.of_nat 0) with (b + Z.of_nat (length w)) by lia.
    rewrite ld8_st8_flat by (exact F' || lia). by rewrite Z.eqb_refl.
Qed.

Lemma getargs_loop :
  (1 <= length ws)%nat →
  ∃ r, while_opt (getargs_step (Z.of_nat (length ws)) (esp + 4)) (1, buf, n, m0) = Some r ∧
    match r with
    | inl m' => n < Z.of_nat (length text) + 1 ∧ within buf written m0 m'
    | inr (b', nb', m') => b' = buf + Z.of_nat (length text) ∧ nb' = n - Z.of_nat (length text) ∧ 0 <= nb' ∧
        within buf written m0 m' ∧ holds m' buf text
    end.
Proof using Hm Hn Hbuf Hst.
  intros H1. destruct Hst as [_ Hmany _ _ _].
  apply (while_opt_rule _ (λ '(idx, b, nb, m), ∃ pre, joining idx b nb m pre) (λ '(idx, _, _, _), Z.of_nat (length ws) - idx)).
  - exists []. split; [lia|done|cbn; lia|cbn; lia|apply within_refl|by intros i c Hi].
  - lia.
  - intros [[[idx b] nb] m] (pre & J) _. destruct (getargs_turn idx b nb m pre J) as (x & E & Hx). exists x. split; [exact E|].
    destruct x as [[[[idx' b'] nb'] m']|r]; [|exact Hx]. destruct Hx as (Hp & -> & Hle). split; [exact Hp|lia].
Qed.
End Getargs.

Lemma joined_nonzero ws : Forall (Forall (λ c, 0 < c < 256)) ws → Forall (λ c, 0 < c < 256) (joined ws).
Proof.
  induction 1 as [|w ws Hw _ IH]; [constructor|]. rewrite joined_cons. apply Forall_app. split; [exact Hw|].
  destruct ws; [constructor|]. constructor; [done|exact IH].
Qed.

Section Calls.
Context {W : Type} {HW : Linux W}.

(** [getargs] joins the arguments when they fit, and fails otherwise, one byte
    behind the buffer then written at most. *)
Lemma getargs_run (e : emulated W) buf n ws :
  flat_memory (e_mem e) → 0 <= n < 2147483648 → in_flat buf (n + 1) → (1 <= length ws)%nat →
  initial_stack (e_mem e) (start_esp e) ws buf (n + 1) →
  let text := joined (drop 1 ws) in
  ∃ r m', ece391_getargs buf n e = Some (r, with_memory m' e) ∧
    within buf (Z.min (n + 1) (Z.of_nat (length text) + 1)) (e_mem e) m' ∧
    if Z.of_nat (length text) <? n then r = 0 ∧ cstring m' buf text else r = -1.
Proof using Type.
  intros Hm Hn Hbuf H1 Hst text. destruct (getargs_loop (e_mem e) (start_esp e) buf n ws Hm Hn Hbuf Hst H1) as (r & E & Hr). unfold written in Hr.
  pose proof (is_argc _ _ _ _ _ Hst) as Hargc. pose proof (is_many _ _ _ _ _ Hst) as Hmany. unfold ece391_getargs. rewrite Hargc, s32_small by lia.
  cbv zeta. rewrite E, bind_some. fold text in Hr. destruct r as [m'|[[b nb] m']].
  - destruct Hr as [Hl Hw]. exists (-1), m'. split; [done|]. split; [exact Hw|]. destruct (Z.ltb_spec (Z.of_nat (length text)) n); [lia|done].
  - destruct Hr as (-> & -> & H0 & Hw & Hh). destruct (Z.ltb_spec (n - Z.of_nat (length text)) 1) as [Hs|Hs].
    + exists (-1), m'. split; [done|]. split; [exact Hw|]. destruct (Z.ltb_spec (Z.of_nat (length text)) n); [lia|done].
    + set (e0 := buf + Z.of_nat (length text)). exists 0, (st8 m' e0 0). split; [done|]. unfold in_flat in Hbuf.
      assert (Hs1 : within e0 1 m' (st8 m' e0 0)) by (apply within_st8; unfold e0; lia). pose proof (wi_flat _ _ _ _ Hw Hm) as F.
      split; [apply (within_trans _ _ _ m'); [exact Hw|]; apply (within_widen _ _ _ _ _ _ Hs1); unfold e0; lia|].
      destruct (Z.ltb_spec (Z.of_nat (length text)) n); [|lia]. split; [done|]. apply holds_cstring.
      * apply joined_nonzero, Forall_drop, Forall_forall. intros w Hin. apply list_elem_of_In, list_elem_of_lookup in Hin as [i Hi].
        exact (proj1 (proj1 (is_words _ _ _ _ _ Hst i w Hi))).
      * revert Hh. apply holds_ext. intros i Hi. apply (wi_byte _ _ _ _ Hs1 F); unfold e0; lia.
      * rewrite (ld8_st8_flat m') by (exact F || (unfold e0; lia)). unfold e0. by rewrite Z.eqb_refl.
Qed.

(** [execute] hands Linux the path and the words of the command. *)
Lemma emulated_execute_run (e : emulated W) buf args command l :
  flat_memory (e_mem e) → in_flat buf 1026 → in_flat args 4096 → buf + 1026 <= args ∨ args + 4096 <= buf →
  cstring (e_mem e) command l → in_flat command (Z.of_nat (length l) + 1) →
  buf + 1026 <= command ∨ command + Z.of_nat (length l) + 1 <= buf → Z.of_nat (length l) <= 1023 →
  ∃ m, started_as m buf args l ∧ locals_only buf args (e_mem e) m ∧
    match execv buf args m (linux e) with
    | Some (status, w) => ∃ r, ece391_execute buf args command e = Some (r, with_linux w (with_memory m e)) ∧
        (∀ code, 0 <= code < 256 → status = Z.shiftl code 8 → r = code) ∧ (WTERMSIG status = 9 → r = -1)
    | None => ece391_execute buf args command e = Some (-1, with_memory m e)
    end.
Proof using Type.
  intros Hm Hbuf Hargs Hdis Hc Hcom Hap Hl.
  destruct (parse_command_run buf args (e_mem e) Hbuf Hargs Hdis command l Hm Hc Hl Hcom Hap) as (m & E & K & Hs).
  exists m. split; [exact Hs|]. split; [exact K|]. unfold ece391_execute.
  rewrite (ece391_strlen_run _ _ _ Hc), bind_some by lia. destruct (Z.ltb_spec 1023 (Z.of_nat (length l))); [lia|]. rewrite E, bind_some.
  destruct (execv buf args m (linux e)) as [[status w]|]; [|done]. eexists. split; [done|]. split.
  - intros code Hcode ->. assert (H0 : forallb (λ c, WIFEXITED (Z.shiftl c 8) && (WEXITSTATUS (Z.shiftl c 8) =? c)) (seqZ 0 256) = true) by (vm_compute; reflexivity).
    pose proof (forall_byte _ H0 code Hcode) as Hx. cbn beta in Hx. apply andb_true_iff in Hx as [-> Hx]. by apply Z.eqb_eq.
  - intros Ht. unfold WIFEXITED. by rewrite Ht.
Qed.

(** ** A directory *)

Lemma copy_name_run nbytes m p to l :
  flat_memory m → cstring m p l → in_flat p (Z.of_nat (length l) + 1) → in_flat to 32 →
  p + Z.of_nat (length l) + 1 <= to ∨ to + 32 <= p →
  let k := if 1 <=? nbytes then Z.min nbytes 32 else 32 in
  ∃ r, copy_name nbytes m p to = Some r ∧
    match r with
    | inl (c, m') => k <= Z.of_nat (length l) ∧ c = k ∧ within to k m m' ∧ holds m' to (take (Z.to_nat k) l)
    | inr (to', c, m') => Z.of_nat (length l) < k ∧ c = Z.of_nat (length l) ∧ to' = to + c ∧ within to c m m' ∧ holds m' to l
    end.
Proof using Type.
  intros Hm Hc Hp Hto Hap k. assert (Hk : 1 <= k <= 32 ∧ (1 <= nbytes → k <= nbytes) ∧ ∀ i, 0 <= i → i + 1 <= k → (i + 1 = nbytes ∨ i + 1 = 32) ↔ i + 1 = k) by (unfold k; destruct (Z.leb_spec 1 nbytes); split_and!; lia).
  clearbody k. destruct Hk as (Hk & Hkn & Hki). unfold in_flat in *. unfold copy_name. match goal with |- context [while_loop ?f _] => set (step := f) end.
  apply (while_loop_rule step (λ '(from, t, c, m'), 0 <= c < k ∧ (Z.to_nat c <= length l)%nat ∧ from = p + c ∧ t = to + c ∧ within to c m m' ∧ holds m' to (take (Z.to_nat c) l))
    (λ '(_, _, c, _), k - c)).
  - split_and!; [lia..|apply within_refl|by intros i c Hi].
  - lia.
  - intros [[[from t] c] m'] (H1 & H2 & -> & -> & Hw & Hh) _. cbn [step]. pose proof (wi_flat _ _ _ _ Hw Hm) as F.
    assert (E : ld8 m' (p + c) = ld8 m (p + c)) by (apply (wi_byte _ _ _ _ Hw Hm); lia). rewrite E.
    destruct (decide (c = Z.of_nat (length l))) as [->|Hne].
    { destruct Hc as (_ & _ & ->). cbn [negb Z.eqb]. rewrite Nat2Z.id, firstn_all in Hh. split_and!; [lia|done..|exact Hw|exact Hh]. }
    pose proof (cstring_nz m p l c Hc ltac:(lia)) as Hnz. destruct (lookup_lt_is_Some_2 l (Z.to_nat c)) as [d Hd]; [lia|].
    destruct (cstring_char m p l _ d Hc Hd) as [Hd0 Ed]. rewrite Z2Nat.id in Ed by lia. apply Z.eqb_neq in Hnz. rewrite Hnz, Ed. cbn [negb]. 
    set (m2 := st8 m' (to + c) d). assert (Hw2 : within to (c + 1) m m2).
    { apply (within_trans _ _ _ m'); [apply (within_widen _ _ _ _ _ _ Hw); lia|]. apply (within_widen (to + c) 1); [apply within_st8; lia|lia|lia]. }
    assert (Hh2 : holds m2 to (take (Z.to_nat (c + 1)) l)).
    { replace (Z.to_nat (c + 1)) with (S (Z.to_nat c)) by lia. rewrite (take_S_r _ _ _ Hd). apply holds_app. rewrite length_take. split.
      - revert Hh. apply holds_ext. rewrite length_take. intros i Hi. unfold m2. rewrite ld8_st8_flat by (exact F || lia). destruct (Z.eqb_spec (to + i) (to + c)); [lia|done].
      - intros i x Hi. apply list_lookup_singleton_Some in Hi as [-> <-]. replace (to + _ + Z.of_nat 0) with (to + c) by lia.
        unfold m2. rewrite ld8_st8_flat, Z.eqb_refl by (exact F || lia). by apply u8_small; lia. }
    pose proof (Hki c ltac:(lia) ltac:(lia)) as Hx.
    destruct (Z.eqb_spec (c + 1) nbytes) as [En|En]; [|destruct (Z.eqb_spec 32 (c + 1)) as [E3|E3]].
    + assert (Ek : c + 1 = k) by (apply Hx; by left). rewrite Ek in Hw2, Hh2. split_and!; [lia|lia|exact Hw2|exact Hh2].
    + assert (Ek : c + 1 = k) by (apply Hx; by right). rewrite Ek in Hw2, Hh2. split_and!; [lia|lia|exact Hw2|exact Hh2].
    + assert (c + 1 ≠ k) by (intros Ek; apply Hx in Ek; lia). split; [|lia]. split_and!; [lia..|exact Hw2|exact Hh2].
Qed.

Lemma pad_name_run nbytes to c m :
  flat_memory m → 0 <= c <= 32 → 0 <= to → to + (32 - c) <= 4294967296 →
  let k := Z.max c (Z.min nbytes 32) in
  ∃ m', pad_name nbytes to c m = Some (k, m') ∧ within to (k - c) m m' ∧ ∀ i, 0 <= i < k - c → ld8 m' (to + i) = 0.
Proof using Type.
  intros Hm Hc Hto Hend k. unfold pad_name. match goal with |- context [while_loop ?f _] => set (step := f) end.
  destruct (while_loop_rule step (λ '(t, d, m'), c <= d <= k ∧ t = to + (d - c) ∧ within to (d - c) m m' ∧ ∀ i, 0 <= i < d - c → ld8 m' (to + i) = 0)
    (λ '(_, d, _), k - d) (λ '(d, m'), d = k ∧ within to (k - c) m m' ∧ ∀ i, 0 <= i < k - c → ld8 m' (to + i) = 0) (to, c, m))
    as ([d m'] & E & -> & H); [split_and!; [lia..|rewrite Z.sub_diag; apply within_refl|lia]|lia| |by exists m'].
  intros [[t d] m'] (H1 & -> & Hw & Hz) _. cbn [step]. destruct (Z.ltb_spec d nbytes), (Z.ltb_spec d 32); cbn [andb];
    try (assert (d = k) as -> by lia; split_and!; [done|exact Hw|exact Hz]).
  pose proof (wi_flat _ _ _ _ Hw Hm) as F. split; [|lia]. split_and!; [lia..| |].
  - apply (within_trans _ _ _ m'); [apply (within_widen _ _ _ _ _ _ Hw); lia|]. apply (within_widen (to + (d - c)) 1); [apply within_st8; lia|lia|lia].
  - intros i Hi. rewrite ld8_st8_flat by (exact F || lia). destruct (Z.eqb_spec (to + i) (to + (d - c))); [done|]. apply Hz. lia.
Qed.

(** The count a read of an entry returns. *)
Definition entry_count (nbytes : Z) (l : list Z) : Z :=
  if 1 <=? nbytes then Z.min nbytes 32 else Z.min (Z.of_nat (length l)) 32.

Lemma read_entry_run (e : emulated W) fd buf nbytes p m w l :
  not_directory fd e = false → readdir (dir e) (e_mem e) (linux e) = (Some p, m, w) →
  flat_memory m → cstring m p l → in_flat p (Z.of_nat (length l) + 1) → in_flat buf 32 →
  p + Z.of_nat (length l) + 1 <= buf ∨ buf + 32 <= p →
  ∃ m', ece391_read fd buf nbytes e = Some (entry_count nbytes l, with_linux w (with_memory m' e)) ∧
    within buf (entry_count nbytes l) m m' ∧ ∀ i, 0 <= i < entry_count nbytes l → ld8 m' (buf + i) = nth (Z.to_nat i) l 0.
Proof using Type.
  intros Hd Hr Hm Hc Hp Hbuf Hap. unfold ece391_read. rewrite Hd, Hr.
  destruct (copy_name_run nbytes m p buf l Hm Hc Hp Hbuf Hap) as ([[c m1]|[[t c] m1]] & E & H); rewrite E, bind_some.
  - destruct H as (H1 & -> & Hw & Hh). set (k := if 1 <=? nbytes then Z.min nbytes 32 else 32) in *.
    assert (Ek : entry_count nbytes l = k) by (unfold entry_count, k in *; destruct (1 <=? nbytes); lia). rewrite Ek.
    assert (0 <= k) by (unfold k; destruct (Z.leb_spec 1 nbytes); lia). rewrite bind_some. exists m1. split; [done|]. split; [exact Hw|].
    intros i Hi. destruct (lookup_lt_is_Some_2 l (Z.to_nat i)) as [x Hx]; [lia|]. rewrite (nth_lookup_Some _ _ _ _ Hx).
    rewrite <- (Hh (Z.to_nat i) x); [f_equal; lia|]. rewrite lookup_take_lt by lia. exact Hx.
  - destruct H as (H1 & -> & -> & Hw & Hh). pose proof (wi_flat _ _ _ _ Hw Hm) as F. unfold in_flat in *.
    assert (Hl : Z.of_nat (length l) <= 32) by (destruct (Z.leb_spec 1 nbytes); lia).
    destruct (pad_name_run nbytes (buf + Z.of_nat (length l)) (Z.of_nat (length l)) m1 F) as (m2 & E2 & Hw2 & Hz); [lia..|].
    rewrite E2, bind_some. set (k := Z.max _ _) in *.
    assert (Ek : entry_count nbytes l = k) by (unfold entry_count, k in *; destruct (Z.leb_spec 1 nbytes); lia). rewrite Ek.
    exists m2. split; [done|]. split.
    + apply (within_trans _ _ _ m1); [apply (within_widen _ _ _ _ _ _ Hw); lia|apply (within_widen _ _ _ _ _ _ Hw2); lia].
    + intros i Hi. destruct (decide (i < Z.of_nat (length l))) as [Hlt|Hge].
      * destruct (lookup_lt_is_Some_2 l (Z.to_nat i)) as [x Hx]; [lia|]. rewrite (nth_lookup_Some _ _ _ _ Hx).
        rewrite (wi_byte _ _ _ _ Hw2 F) by lia. rewrite <- (Hh (Z.to_nat i) x Hx). f_equal. lia.
      * rewrite nth_overflow by lia. rewrite <- (Hz (i - Z.of_nat (length l))) by lia. f_equal. lia.
Qed.
End Calls.

(** C19: The emulated [execute] starts the program of its command's first word
    with the words of the command, NUL-terminated and in order, in a vector that
    never overflows; it returns the exit status, or -1 when the program cannot be
    started or is killed; a command of more than 1023 characters is refused. *)
Theorem execute_starts {W : Type} {HW : Linux W} (e : emulated W) (buf args command : Z) (l : list Z) :
  flat_memory (e_mem e) → in_flat buf 1026 → in_flat args 4096 → buf + 1026 <= args ∨ args + 4096 <= buf →
  cstring (e_mem e) command l → in_flat command (Z.of_nat (length l) + 1) →
  buf + 1026 <= command ∨ command + Z.of_nat (length l) + 1 <= buf →
  if Z.of_nat (length l) <=? 1023 then
    ∃ m, started_as m buf args l ∧ locals_only buf args (e_mem e) m ∧
    match execv buf args m (linux e) with
    | Some (status, w) => ∃ r, ece391_execute buf args command e = Some (r, with_linux w (with_memory m e)) ∧
        (∀ code, 0 <= code < 256 → status = Z.shiftl code 8 → r = code) ∧ (WTERMSIG status = 9 → r = -1)
    | None => ece391_execute buf args command e = Some (-1, with_memory m e)
    end
  else ece391_execute buf args command e = Some (-1, e).
Proof.
  intros Hm Hbuf Hargs Hdis Hc Hcom Hap. destruct (Z.leb_spec (Z.of_nat (length l)) 1023) as [Hl|Hl]; [by apply emulated_execute_run|].
  unfold ece391_execute. unfold in_flat in Hcom. rewrite (ece391_strlen_run _ _ _ Hc), bind_some by lia.
  by destruct (Z.ltb_spec 1023 (Z.of_nat (length l))); [|lia].
Qed.

(** C20: For a command whose words are separated by single spaces, a program
    started by the emulated [execute] gets from the emulated [getargs] the text
    the kernel's parser would give it, when it fits its buffer; when it does not
    the call fails, and the byte behind the buffer is the only one it may spoil. *)
Theorem emulation_arguments {W : Type} {HW : Linux W} (e child : emulated W) (buf args command b n : Z) (w : list Z) (ws : list (list Z)) :
  let l := joined (w :: ws) in Forall plain_word (w :: ws) →
  flat_memory (e_mem e) → in_flat buf 1026 → in_flat args 4096 → buf + 1026 <= args ∨ args + 4096 <= buf →
  cstring (e_mem e) command l → in_flat command (Z.of_nat (length l) + 1) →
  buf + 1026 <= command ∨ command + Z.of_nat (length l) + 1 <= buf → Z.of_nat (length l) <= 1023 →
  flat_memory (e_mem child) → 0 <= n < 2147483648 → in_flat b (n + 1) →
  initial_stack (e_mem child) (start_esp child) (command_words l) b (n + 1) →
  (∃ m, parse_command command buf args (e_mem e) = Some m ∧ cstring m buf ([46; 47] ++ cmd_word l) ∧ argument_vector m args (command_words l)) ∧
  ∃ r m', ece391_getargs b n child = Some (r, with_memory m' child) ∧ within b (n + 1) (e_mem child) m' ∧
    if Z.of_nat (length (cmd_args l)) <? n then r = 0 ∧ cstring m' b (cmd_args l) else r = -1.
Proof.
  intros l Hplain Hm Hbuf Hargs Hdis Hc Hcom Hap Hl Hmc Hn Hb Hst. destruct (plain_command w ws Hplain) as (T1 & T2 & T3 & T4). fold l in T1, T2, T3, T4. split.
  - destruct (parse_command_run buf args (e_mem e) Hbuf Hargs Hdis command l Hm Hc Hl Hcom Hap) as (m & E & _ & [S1 S2]).
    exists m. rewrite T3, <- T1. done.
  - destruct (getargs_run child b n (command_words l) Hmc Hn Hb) as (r & m' & E & Hw & Hr); [cbn; lia|exact Hst|].
    assert (Hd : drop 1 (command_words l) = ws) by (unfold command_words; rewrite T2; done). rewrite Hd, <- T4 in Hw, Hr. exists r, m'. split; [exact E|]. split; [|exact Hr].
    apply (within_widen _ _ _ _ _ _ Hw); lia.
Qed.

(** C34: A read from the emulated directory stores the name of the next entry,
    filled with NULs to 32 bytes as the kernel does, and no more than the bytes
    asked for. *)
Theorem read_entry_correct {W : Type} {HW : Linux W} (e : emulated W) (fd buf nbytes p : Z) (m : memory) (w : W) (l : list Z) :
  not_directory fd e = false → readdir (dir e) (e_mem e) (linux e) = (Some p, m, w) →
  flat_memory m → cstring m p l → in_flat p (Z.of_nat (length l) + 1) → in_flat buf 32 →
  p + Z.of_nat (length l) + 1 <= buf ∨ buf + 32 <= p →
  ∃ m', ece391_read fd buf nbytes e = Some (entry_count nbytes l, with_linux w (with_memory m' e)) ∧
    within buf (entry_count nbytes l) m m' ∧ ∀ i, 0 <= i < entry_count nbytes l → ld8 m' (buf + i) = nth (Z.to_nat i) l 0.
Proof. apply read_entry_run. Qed.

(** ** A process for the witnesses *)

(** A Linux that runs every program to the exit status 7 and whose directory
    has one entry, whose name is at 0x3000; it fails every system call. *)
#[export] Instance example_linux : Linux Z := {
  int80 _ _ _ _ m w := (-38, m, w);
  opendir_dot w := (0x9000, w);
  open_null w := (3, w);
  readdir _ m w := (if w =? 0 then Some 0x3000 else None, m, w + 1);
  closedir _ w := w;
  close_fd _ w := w;
  open_mem w := (4, w);
  mmap_low _ w := (None, w);
  perror w := w;
  execv _ _ _ w := Some (Z.shiftl 7 8, w);
}.

Definition store_strings (ss : list (Z * string)) (m : memory) : memory := foldl (λ m '(a, t), store_bytes a (bytes_of t) m) m ss.
Definition store_numbers (ws : list (Z * Z)) (m : memory) : memory := foldl (λ m '(a, v), st32 m a v) m ws.

(** The parent, its commands at 0x1000 and 0x1100, and a child started with
    three words. *)
Definition flat_zero : memory := mkMem ∅ PROGRAM_PAGE.
Definition linux_parent : emulated Z :=
  mkEmulated (store_strings [(0x1000, "cat a b"); (0x1100, "cat  a b "); (0x3000, "frame0.txt")] flat_zero) 0x5000 3 0x9000 (-1) 0.
Definition linux_child : emulated Z :=
  mkEmulated (store_strings [(0x6000, "./cat"); (0x6010, "a"); (0x6020, "b")]
    (store_numbers [(0x5000, 3); (0x5004, 0x6000); (0x5008, 0x6010); (0x500C, 0x6020)] flat_zero)) 0x5000 (-1) 0 (-1) 0.

Lemma execute_starts_witness :
  command_words (bytes_of "cat  a b ") = [bytes_of "./cat"; bytes_of "a"; bytes_of "b"] ∧
  ∃ m, started_as m 0x8000 0x7000 (bytes_of "cat  a b ") ∧
    ece391_execute 0x8000 0x7000 0x1100 linux_parent = Some (7, with_memory m linux_parent).
Proof.
  split; [by vm_compute|].
  assert (Hc : cstring (e_mem linux_parent) 0x1100 (bytes_of "cat  a b ")) by (apply cstring_checked; by vm_compute).
  destruct (execute_starts linux_parent 0x8000 0x7000 0x1100 (bytes_of "cat  a b ")) as (m & Hs & _ & r & E & Hr & _);
    [reflexivity|split_and!; closed_compare..|right; closed_compare|exact Hc|split_and!; closed_compare|right; closed_compare|].
  exists m. split; [exact Hs|]. rewrite (Hr 7) in E by (lia || reflexivity). exact E.
Defined.

Lemma linux_stack : initial_stack (e_mem linux_child) (start_esp linux_child) (command_words (bytes_of "cat a b")) 0x4000 17.
Proof.
  split; [by vm_compute|closed_compare|split_and!; closed_compare|right; closed_compare|].
  assert (H : ∀ p w, cstring_check (e_mem linux_child) p w = true → (length w < 16)%nat → 0x6000 <= p <= 0x7000 →
    cstring (e_mem linux_child) p w ∧ Z.of_nat (length w) < 2147483648 ∧ in_flat p (Z.of_nat (length w) + 1) ∧
    (p + Z.of_nat (length w) + 1 <= 0x4000 ∨ 0x4000 + 17 <= p)).
  { intros p w Hc Hl Hp. split; [by apply cstring_checked|]. unfold in_flat. lia. }
  intros [|[|[|i]]] w Hi; cbn [lookup] in Hi; [injection Hi as <-; apply H; [by vm_compute|cbn; lia|by vm_compute]..|by destruct i].
Qed.

Lemma emulation_arguments_witness :
  joined [bytes_of "cat"; bytes_of "a"; bytes_of "b"] = bytes_of "cat a b" ∧ cmd_args (bytes_of "cat a b") = bytes_of "a b" ∧
  ∃ m', ece391_getargs 0x4000 16 linux_child = Some (0, with_memory m' linux_child) ∧ cstring m' 0x4000 (bytes_of "a b").
Proof.
  split; [by vm_compute|]. split; [by vm_compute|].
  assert (Hc : cstring (e_mem linux_parent) 0x1000 (bytes_of "cat a b")) by (apply cstring_checked; by vm_compute).
  destruct (emulation_arguments linux_parent linux_child 0x8000 0x7000 0x1000 0x4000 16 (bytes_of "cat") [bytes_of "a"; bytes_of "b"])
    as (_ & r & m' & E & _ & -> & H).
  - repeat constructor; done.
  - reflexivity.
  - split_and!; closed_compare.
  - split_and!; closed_compare.
  - right; closed_compare.
  - exact Hc.
  - split_and!; closed_compare.
  - right; closed_compare.
  - closed_compare.
  - reflexivity.
  - lia.
  - split_and!; closed_compare.
  - exact linux_stack.
  - exists m'. split; [exact E|exact H].
Defined.

Lemma read_entry_correct_witness :
  entry_count 32 (bytes_of "frame0.txt") = 32 ∧
  ∃ m', ece391_read 3 0x8000 32 linux_parent = Some (32, with_linux 1 (with_memory m' linux_parent)) ∧ ld8 m' (0x8000 + 9) = 116 ∧ ld8 m' (0x8000 + 31) = 0.
Proof.
  split; [reflexivity|].
  destruct (read_entry_correct linux_parent 3 0x8000 32 0x3000 (e_mem linux_parent) 1 (bytes_of "frame0.txt")) as (m' & E & _ & H);
    [reflexivity|reflexivity|reflexivity|apply cstring_checked; by vm_compute|split_and!; closed_compare|split_and!; closed_compare|left; closed_compare|].
  change (entry_count 32 (bytes_of "frame0.txt")) with 32 in H. exists m'. split; [exact E|]. split; rewrite H by lia; reflexivity.
Defined.

(** An argument as long as the buffer: the call fails, but its NUL is stored
    behind the buffer. *)
Lemma getargs_overflows :
  (λ r, (r.1, ld8 (e_mem r.2) 0x4003)) <$> ece391_getargs 0x4000 3
    (mkEmulated (store_strings [(0x4000, "    "); (0x6010, "abc")] (store_numbers [(0x5000, 2); (0x5008, 0x6010)] flat_zero)) 0x5000 (-1) 0 (-1) 0)
  = Some (-1, 0).
Proof. by vm_compute. Qed.
